(* ===== verification/_CoqProject ===== *)
-Q . S2P
Prelude.v
MeterTiming.v
MeterAttribute.v
RecordFormat.v
MeterRecord.v
MeterData.v
DecodeCommon.v
DecodeBlocks.v
DecodePower.v
DecodeFrequency.v
DecodeEvents.v
HarmonicSpectrum.v
EnergyDemand.v
DecoderRegistry.v
EnergyLedger.v
LedgerTheorems.v
ModbusHandler.v
ModbusTcp.v
ModbusRtu.v
ModbusPort.v
ModbusServer.v
Ipc.v
IpcConnection.v
RequestClient.v
DatabasePolicy.v
MeterSpool.v
SpoolTheorems.v
SpoolDelivery.v
StreamIpc.v
StreamService.v
StreamCodec.v
StreamRpc.v
StreamTheorems.v
RecordIngestor.v
StreamPublisher.v
IngestorTheorems.v
IngestorContinuity.v
MeterSnapshot.v
AcquisitionIpc.v
SnapshotService.v
RegisterSchema.v
RegisterMap.v
RegisterMapTheorems.v
Datalog.v
DatalogTheorems.v
ContentWriter.v
HistorianSource.v
Outbox.v
OutboxTheorems.v
DataChannel.v
Scheduler.v
SchedulerTheorems.v
MncwfTypes.v
MncwfFormat.v
MncwfRecords.v
MncwfReader.v
MncwfEncode.v
MncwfSlice.v
MncwfWire.v
MncwfRoundTrip.v
MncwfSections.v
MncwfFile.v
MncwfChunks.v
MncwfTheorems.v
MncwfIntegrity.v
MncwfTotal.v
MncwfSliceFile.v
MncwfSliceTyped.v
MncwfSelection.v
MncwfSliceTheorems.v
CaptureTypes.v
CaptureWriter.v
CaptureStream.v
CaptureDiscovery.v
CaptureSessions.v
CaptureRun.v
CaptureSteps.v
CaptureTheorems.v
CaptureFile.v
CapturePages.v
