(* ===== verification/Prelude.v ===== *)
(** * MSAP1 application-processor software: verification development

    The MSAP1 meter runs a set of C++ services on its application processor
    (src/apps/MeterCore) over two libraries, src/common/mnc (transport, storage,
    protocols) and src/common/msap1 (the product's metering logic).  Measurement
    records of 64 words arrive from the programmable logic, are checked and
    decoded into typed values, stamped with UTC, kept as latest values and in
    durable ledgers, spooled for consumers, published over Modbus and IPC, and
    turned by the Data Sender into files that its channels deliver.  This library
    models that core and proves what makes it correct.

    ** Files

    Shared
    - Prelude: exceptions as an error monad, machine integers, little-endian
      bytes, the shared tactics and hint databases.

    Metering, src/common/msap1/meter
    - MeterTiming: measurement_timebase.cpp and meter_timing.hpp.  The sync point
      and the quality state machine; UTC labels by extrapolation with every signed
      intermediate checked.
    - MeterAttribute: src/common/mnc/MeterDataProvider/attributes, the catalog of
      attribute identities, descriptors, groups and capabilities.
    - RecordFormat, MeterRecord: meter_record.hpp.  Layout constants and accessors
      of the record, the header check.
    - MeterData: meter_data.hpp and the store and subscription half of
      meter_data.cpp, with the publish/take interleavings as a step relation.
    - DecodeCommon, DecodeBlocks, DecodePower, DecodeFrequency, DecodeEvents: the
      record decoders of meter_data.cpp.
    - HarmonicSpectrum: harmonic_spectrum.cpp, the chunk decoder, the family
      assembler and the distortion totals.
    - EnergyDemand: energy_demand.cpp, the energy family assembler and the demand
      profile.
    - DecoderRegistry: the format table of meter_data.cpp.
    - EnergyLedger, LedgerTheorems: energy_ledger.cpp, its six tables, restart and
      administrative resets.

    Protocols, src/common/mnc/modbus and src/common/mnc/ipc
    - ModbusHandler: request_handler.cpp, encoding.cpp and the register-bank
      interface (a type class).
    - ModbusTcp, ModbusRtu, ModbusPort, ModbusServer: tcp_server.cpp (session loop
      and connection admission), rtu_server.cpp (frame assembler, frame processing,
      the output queue as a step relation) and server.cpp (start with rollback).
    - Ipc, IpcConnection, RequestClient: ipc.cpp.  Field and envelope encoding, the
      framed receiver, the write queue, and the request client's correlation table
      as a step relation.

    Durable data, src/common/mnc/MeterDataProvider/stream
    - DatabasePolicy: validation, comparison and catalog of the database policies.
    - MeterSpool, SpoolTheorems, SpoolDelivery: the spool of meter records with its
      cursor lease, publication, eviction, pruning, consumers and medium switch.
    - StreamIpc, StreamService, StreamCodec, StreamRpc, StreamTheorems: the
      meter-stream protocol and client, the service's request handler over the spool
      and the ledger, and the composition of the two ends.

    Acquisition, src/apps/MeterCore/Services/acquisition and src/common/msap1
    - RecordIngestor, StreamPublisher, IngestorTheorems, IngestorContinuity: the
      record ingestor (validation, continuity, family buffers, publication through
      an interface that the meter-stream client instantiates).
    - MeterSnapshot, AcquisitionIpc, SnapshotService: snapshot requests, their
      projection from the latest values, the ledger overlay, the acquisition command
      channel and the provider that reads through it.
    - RegisterSchema, RegisterMap, RegisterMapTheorems: the Modbus register map of
      the product, its compile-time validation, its binary search and the register
      bank over the snapshots.

    Data Sender, src/common/mnc/datalogger and src/common/msap1/datalogger
    - Datalog, DatalogTheorems: types.hpp and datalogger.cpp.  Jobs, exact decimal
      text, aggregation, row windows and dataset generation.
    - ContentWriter: meter_data_content_writer.cpp, the JSON and CSV bodies.
    - HistorianSource: msap1_datalogger.cpp and the bounded query of
      src/common/msap1/meter/history/meter_history.cpp it pages through.
    - Outbox, OutboxTheorems: outbox.cpp.  Manifest, payload directories, delivery
      state machine, administration and crash recovery.
    - DataChannel: data_channel.cpp, the transfer plan of each channel.
    - Scheduler, SchedulerTheorems: scheduler.cpp over a type class of outbox
      repositories, which the outbox instantiates.

    Waveform container, src/common/msap1/waveform/mncwf_v4.cpp and mncwf_v4.hpp
    - MncwfTypes, MncwfFormat, MncwfRecords, MncwfReader: enumerations and records,
      bounded reads, checksum, UTF-8 and UUIDs, the record parsers, the reader with
      its directory, placement and chunk checks, the conversion-readiness report.
    - MncwfEncode, MncwfSlice: the version 4 and 5 encoders; the selection of an
      event's frames and the virtual file that presents them.
    - MncwfWire, MncwfRoundTrip, MncwfSections, MncwfFile, MncwfChunks,
      MncwfTheorems: what the encoders write, the reader reads back.
    - MncwfIntegrity, MncwfTotal: rejected corruptions; the reader on any input.
    - MncwfSliceFile, MncwfSliceTyped, MncwfSelection, MncwfSliceTheorems: virtual
      event files.

    Waveform capture, src/common/msap1/waveform/waveform_capture.cpp and .hpp
    - CaptureTypes: triggers, summaries, queries and their pages, the device's blocks.
    - CaptureWriter: the background writer: decimation, the document of a job, the
      archive limit, publication.
    - CaptureStream: the state of [WaveformCapture], its operations as a state and
      error monad; reading blocks into the ring, finishing sessions, queueing jobs
      and collecting their results.
    - CaptureDiscovery: the scan of the archive, containers and older files.
    - CaptureSessions: triggers, power-quality events, erasure, status and queries.
    - CaptureRun: the ring against the stream the device delivered, the operations
      and thread turns as steps, and their invariant.  CaptureSteps: every step keeps
      it.
    - CaptureTheorems, CaptureFile, CapturePages: captured windows and lookups;
      published files and the archive limit; pages.

    ** What the theorems show

    Timing: UTC labels are the exact extrapolation, never minted without a trusted
    sync point, and monotone.  Decoders: each accepts exactly the records of its
    contract and publishes qualities and values the contract implies; a fault of
    the interval outranks the channels; the 10-second frequency decoder accepts a record
    if and only if the whole contract holds, and names the fault otherwise.  Store: each value group is the last
    accepted writer's; a subscriber never sees an outdated view.  Energy: families
    are published atomically; over any history of families, retries, crashes and
    resets each lifetime counter is the sum over the sessions of the last value accepted
    from each, less the sum at the last reset and clamped to int64, provided the producer
    does not return to a session it has left; peaks are exact maxima above the reset watermark.  Harmonics: a spectrum is published only when all chunks of one
    family arrived.

    Modbus: the dispatcher refines a command language for every register bank; a
    TCP session answers pipelined requests in order; admission is bounded and
    run-safe under every interleaving; an RTU byte stream is reassembled whatever
    its segmentation, and output frames never interleave.  IPC: envelopes survive
    arbitrary segmentation, writes keep their order, and a response reaches exactly
    the request that asked for it.  Register map: the binary search finds exactly
    the definition that covers an address; a read is the encoding of one snapshot of
    the attributes its range needs.

    Ingestion and stream: a record reaches the latest values only after the durable
    service accepted it, the single-cycle and event diagnostic caches excepted, which are
    never published; the gap counters are the exact number of lost
    records and of breaks; energy and harmonic families stay consistent; a remote call
    answers what the operation answers, up to the one field the connection drops and
    the kind of an exception, with batches that fit the connection's limits; energy is
    counted once and its ledger moves before the record becomes readable.  Snapshots:
    each key is answered once with the kind and unit of its descriptor, and every
    energy and demand value served is the ledger's.

    Spool: cursors are never reused across restarts as long as the lease was written at
    every opening and switch of the medium and at most 2^31 records were stored between
    two of them; publication
    stores the new records of a batch in its order, and eviction and pruning account for
    every record; a consumer that reads and acknowledges sees each retained record.  Data Sender: the historian pages return every selected
    point of the window; a dataset has one row per row interval with the aggregates
    of that interval, whatever the order of the samples; CSV reads back; the outbox
    never loses an undelivered artifact and never hands one delivery out twice;
    transfers of every artifact the program can put into the outbox stay inside the
    configured base; generation covers every completed
    window in order; retries back off within their bounds.

    Waveform container: every encoded document reads back, compressed or not; single
    burst errors are rejected; on any bytes the reader returns a well-formed capture
    or the documented exception; an event slice selects exactly the frames that meet
    the event, its virtual file is byte for byte the file the encoder would write,
    and reading it shows the parent's samples.

    Waveform capture: in every reachable state a queued capture holds exactly the
    frames the device delivered for its window, without a hole, and lookups by number
    and by capture identity find exactly the sessions; the numbers are distinct unless
    an archive file of an earlier format was renamed; a published file holds the means of those
    frames; the archive limit removes only validated captures, oldest first, while it
    is exceeded; a client that follows the page cursor sees each session once.

    ** Conventions

    A throwing function returns [result]; an evaluation the C++ standard leaves
    undefined is [Throw (UndefinedBehaviour _)], so a theorem that a function
    returns [Ok] also shows that it is defined.  Unsigned integers are [Z] with the
    wrap-around written out.  Code outside the repository is a parameter: SHA-256,
    CRC-16 (boost), the circular average's trigonometry, curl transfers, zstd (a type
    class of its calls, lossless where a theorem says so), getrandom, BEVE (glaze),
    the system clock (an argument), SQLite (the table contents, with an atomic
    transaction that may fail), the file system (directory contents and outcomes) and
    the waveform device (what each read returns).  Mutexes are the atomicity of steps.

    Loops over finite data are structural.  Fuel, and why it is enough: the TCP
    session is indexed by the number of loop tests its run stays current for, and
    [tcp_session_serves] shows that more tests than input bytes always suffice; the
    frame receiver and the RTU assembler take the buffered byte count; the row
    windows of a dataset and the windows of a job take their quotient by the
    interval; the historian query takes a bound on its chunks and on the pages of a
    chunk, and [historian_query_complete] states how large they must be; the
    register search takes the length of the map; the UTF-8 scan takes the byte count;
    the chunk loops of the waveform encoder and the decimation take the frame count;
    the copy of a window out of the ring takes the length of the window; the page walk
    takes the number of sessions; the ingestor drains at most eight batches because the
    code does.  The admission theorem is stated for fewer than 2^64 atomic steps because
    the generation counter is 64 bits wide; the capture theorems take blocks whose
    sequences leave room for one ring below 2^64.

    ** Not modelled

    The acquisition pipeline other than the ingestor and the snapshot reply, the
    COMTRADE and PQDIF converters, the writing half of the meter historian, settings,
    MQTT, the web backend, the command-line tools and logging.  PROJECT.json lists them
    with the reason. *)

From Stdlib Require Export ZArith Lia.
From stdpp Require Export base list numbers strings option.

#[global] Open Scope Z_scope.

(** ** Exceptions and the error monad

    A C++ function that may throw is a function into [result]; the constructor
    records which standard exception class is thrown and its [what()] text.
    [UndefinedBehaviour] stands for an evaluation the C++ standard leaves
    undefined (signed overflow). *)
Inductive exn :=
  | InvalidArgument (what : string)
  | RuntimeError (what : string)
  | LengthError (what : string)
  | OutOfRange (what : string)
  | OverflowError (what : string)
  | LogicError (what : string)
  | Conflict (what : string)
  | Unavailable (what : string)
  | DatalogError (code : Z) (what : string)
  | UndefinedBehaviour (what : string).

Inductive result (A : Type) :=
  | Ok (a : A)
  | Throw (e : exn).
Arguments Ok {A} a.
Arguments Throw {A} e.

#[export] Instance result_ret : MRet result := fun A a => Ok a.
#[export] Instance result_bind : MBind result := fun A B f m =>
  match m with Ok a => f a | Throw e => Throw e end.
#[export] Instance result_fmap : FMap result := fun A B f m =>
  match m with Ok a => Ok (f a) | Throw e => Throw e end.

(** [if (!condition) throw e;] *)
Definition require (condition : bool) (e : exn) : result unit :=
  if condition then Ok tt else Throw e.

(** [if (condition) throw e;] *)
Definition reject_if (condition : bool) (e : exn) : result unit :=
  if condition then Throw e else Ok tt.

Definition is_ok {A} (m : result A) : bool :=
  match m with Ok _ => true | Throw _ => false end.

(** [what()] *)
Definition exn_what (e : exn) : string :=
  match e with
  | InvalidArgument what | RuntimeError what | LengthError what | OutOfRange what | OverflowError what
  | LogicError what | Conflict what | Unavailable what | DatalogError _ what | UndefinedBehaviour what => what
  end.

#[export] Instance exn_eq_dec : EqDecision exn.
Proof. solve_decision. Defined.

#[export] Instance result_eq_dec `{EqDecision A} : EqDecision (result A).
Proof. solve_decision. Defined.

Lemma bind_Ok {A B} (m : result A) (f : A -> result B) b :
  (m ≫= f) = Ok b <-> exists a, m = Ok a /\ f a = Ok b.
Proof. destruct m; simpl; naive_solver. Qed.

Lemma bind_Throw {A B} (m : result A) (f : A -> result B) e :
  (m ≫= f) = Throw e <-> m = Throw e \/ exists a, m = Ok a /\ f a = Throw e.
Proof. destruct m; simpl; naive_solver. Qed.

Lemma require_Ok b e u : require b e = Ok u <-> b = true.
Proof. destruct b, u; simpl; naive_solver. Qed.

Lemma reject_if_Ok b e u : reject_if b e = Ok u <-> b = false.
Proof. destruct b, u; simpl; naive_solver. Qed.

Lemma Ok_inj {A} (a b : A) : Ok a = Ok b -> a = b.
Proof. by intros [=]. Qed.

Lemma require_true e : require true e = Ok tt.
Proof. reflexivity. Qed.

Lemma reject_if_false e : reject_if false e = Ok tt.
Proof. reflexivity. Qed.

Lemma is_ok_reject {A} b e (k : result A) :
  is_ok (reject_if b e ;; k) = negb b && is_ok k.
Proof. by destruct b. Qed.

Lemma is_ok_require {A} b e (k : result A) : is_ok (require b e ;; k) = b && is_ok k.
Proof. by destruct b. Qed.

Lemma is_ok_iff {A} (m : result A) : is_ok m = true <-> exists a, m = Ok a.
Proof. destruct m; naive_solver. Qed.

(** [inv_ok H] turns [H : decoder ... = Ok v] into one hypothesis per guard
    the successful run passed. *)
Ltac inv_ok H :=
  lazymatch type of H with
  | (_ ≫= _) = Ok _ =>
      let a := fresh "a" in let H1 := fresh "H" in
      apply bind_Ok in H as (a & H1 & H); inv_ok H1; inv_ok H
  | require _ _ = Ok ?u => apply require_Ok in H; try clear u
  | reject_if _ _ = Ok ?u => apply reject_if_Ok in H; try clear u
  | mret _ = Ok _ => injection H as H; try (subst)
  | Ok _ = Ok _ => injection H as H; try (subst)
  | Throw _ = Ok _ => discriminate H
  | (if ?b then _ else _) = Ok _ =>
      let E := fresh "E" in destruct b eqn:E; inv_ok H
  | _ => idtac
  end.

(** Monadic traversal, the shape of a C++ loop whose body may throw. *)
Fixpoint mapM_result {A B} (f : A -> result B) (l : list A) : result (list B) :=
  match l with
  | [] => Ok []
  | x :: l => y ← f x; ys ← mapM_result f l; Ok (y :: ys)
  end.

(** Element by element. *)
Lemma mapM_result_lookup {A B} (f : A -> result B) l ys :
  mapM_result f l = Ok ys ->
  List.length ys = List.length l /\
  forall i x, l !! i = Some x -> exists y, ys !! i = Some y /\ f x = Ok y.
Proof.
  revert ys. induction l as [|x l IH]; intros ys H; simpl in H.
  - injection H as <-. split; [done|]. intros i x. by rewrite lookup_nil.
  - apply bind_Ok in H as (y & Hy & H). apply bind_Ok in H as (ys' & Hys & H). injection H as <-.
    destruct (IH _ Hys) as [Hlen Hl]. split; [simpl; by f_equal|].
    intros [|i] x'; simpl; [|apply Hl]. intros [= <-]. eauto.
Qed.

Fixpoint forM_result {A} (l : list A) (f : A -> result unit) : result unit :=
  match l with
  | [] => Ok tt
  | x :: l => f x ;; forM_result l f
  end.

Lemma forM_require_Ok {A} (l : list A) (p : A -> bool) e u :
  forM_result l (fun x => require (p x) e) = Ok u <-> forallb p l = true.
Proof.
  destruct u; induction l as [|x l IH]; simpl; [done|].
  rewrite andb_true_iff, <- IH. destruct (p x); simpl; naive_solver.
Qed.

(** ** Machine integers

    A [w]-bit unsigned integer is a [Z] in [[0, 2^w)]; conversions write the
    wrap-around out.  Signed values are read off the two's-complement bits. *)
Definition wrap (w z : Z) : Z := z mod 2 ^ w.
Abbreviation u8 := (wrap 8).
Abbreviation u16 := (wrap 16).
Abbreviation u32 := (wrap 32).
Abbreviation u64 := (wrap 64).

Definition sign (w z : Z) : Z :=
  let u := wrap w z in if u <? 2 ^ (w - 1) then u else u - 2 ^ w.
Abbreviation s32 := (sign 32).
Abbreviation s64 := (sign 64).

Definition fits (w z : Z) : bool := (0 <=? z) && (z <? 2 ^ w).
Definition fits_signed (w z : Z) : bool :=
  (- 2 ^ (w - 1) <=? z) && (z <? 2 ^ (w - 1)).

Definition UINT32_MAX : Z := 4294967295.
Definition UINT64_MAX : Z := 18446744073709551615.
Definition INT64_MAX : Z := 9223372036854775807.
Definition INT64_MIN : Z := -9223372036854775808.

(** A signed 64-bit computation: its exact value, or undefined behaviour. *)
Definition signed64 (z : Z) : result Z :=
  if fits_signed 64 z then Ok z else Throw (UndefinedBehaviour "int64 overflow").

(** [~mask] on a 32-bit unsigned operand. *)
Definition not32 (mask : Z) : Z := Z.lxor mask UINT32_MAX.

(** [(word & mask) != 0] *)
Definition any_bit (w mask : Z) : bool := negb (Z.land w mask =? 0).

(** [(word & (1u << i)) != 0] *)
Definition bit (w i : Z) : bool := any_bit w (Z.shiftl 1 i).

Definition b2z (b : bool) : Z := if b then 1 else 0.

Lemma wrap_range w z : 0 <= w -> 0 <= wrap w z < 2 ^ w.
Proof. intros. apply Z.mod_pos_bound. lia. Qed.

Lemma wrap_id w z : 0 <= z < 2 ^ w -> wrap w z = z.
Proof. apply Z.mod_small. Qed.

Lemma fits_iff w z : fits w z = true <-> 0 <= z < 2 ^ w.
Proof. unfold fits. lia. Qed.

Lemma fits_wrap w z : 0 <= w -> fits w (wrap w z) = true.
Proof. intros. apply fits_iff, wrap_range; lia. Qed.

Lemma sign_range w z : 0 < w -> - 2 ^ (w - 1) <= sign w z < 2 ^ (w - 1).
Proof.
  intros Hw. pose proof (wrap_range w z ltac:(lia)).
  assert (2 ^ w = 2 * 2 ^ (w - 1)) as E.
  { rewrite <- (Z.pow_succ_r 2 (w - 1)) by lia. f_equal; lia. }
  unfold sign. destruct (Z.ltb_spec (wrap w z) (2 ^ (w - 1))); lia.
Qed.

Lemma sign_nonneg w z : 0 <= z < 2 ^ (w - 1) -> 2 ^ (w - 1) <= 2 ^ w -> sign w z = z.
Proof.
  intros. unfold sign. rewrite wrap_id by lia.
  destruct (Z.ltb_spec z (2 ^ (w - 1))); lia.
Qed.

(** Two's complement loses nothing: the bits of the signed reading are the
    original bits. *)
Lemma wrap_sign w z : 0 < w -> wrap w (sign w z) = wrap w z.
Proof.
  intros Hw. unfold sign. destruct (_ <? _); unfold wrap.
  - by rewrite Z.mod_mod by lia.
  - rewrite Zminus_mod, Z.mod_mod, Z.mod_same, Z.sub_0_r, Z.mod_mod; lia.
Qed.

Lemma sign_wrap_id w z :
  0 < w -> - 2 ^ (w - 1) <= z < 2 ^ (w - 1) -> sign w (wrap w z) = z.
Proof.
  intros Hw Hz. assert (2 ^ w = 2 * 2 ^ (w - 1)) as E.
  { rewrite <- (Z.pow_succ_r 2 (w - 1)) by lia. f_equal; lia. }
  unfold sign, wrap. rewrite Z.mod_mod by lia.
  destruct (Z.ltb_spec (z mod 2 ^ w) (2 ^ (w - 1))) as [Hl|Hl].
  - destruct (Z.neg_nonneg_cases z).
    + rewrite <- (Z.mod_add z 1), Z.mod_small in Hl by lia. lia.
    + apply Z.mod_small; lia.
  - destruct (Z.neg_nonneg_cases z).
    + rewrite <- (Z.mod_add z 1), Z.mod_small by lia. lia.
    + rewrite Z.mod_small in Hl by lia. lia.
Qed.

Lemma bit_testbit w i : 0 <= i -> bit w i = Z.testbit w i.
Proof.
  intros Hi. unfold bit, any_bit. rewrite Z.shiftl_1_l.
  destruct (Z.testbit w i) eqn:E.
  - apply negb_true_iff, Z.eqb_neq. intros H0.
    apply (f_equal (fun z => Z.testbit z i)) in H0.
    rewrite Z.land_spec, Z.pow2_bits_true, E, Z.testbit_0_l in H0 by lia. done.
  - apply negb_false_iff, Z.eqb_eq. apply Z.bits_inj'. intros n Hn.
    rewrite Z.land_spec, Z.testbit_0_l.
    destruct (decide (n = i)) as [->|]; [by rewrite E|].
    rewrite Z.pow2_bits_false by lia. by rewrite andb_false_r.
Qed.

(** A masked field is bounded by its mask. *)
Lemma land_le_mask w mask : 0 <= mask -> 0 <= Z.land w mask <= mask.
Proof.
  intros Hm. split; [apply Z.land_nonneg; lia|].
  destruct (Z.eq_dec (Z.land w mask) 0) as [->|Hz]; [lia|].
  assert (Z.ldiff mask (Z.land w mask) = mask - Z.land w mask) as E.
  { rewrite Z.sub_nocarry_ldiff; [done|].
    apply Z.bits_inj'. intros n Hn.
    rewrite Z.ldiff_spec, Z.land_spec, Z.testbit_0_l.
    by destruct (Z.testbit w n), (Z.testbit mask n). }
  assert (0 <= Z.ldiff mask (Z.land w mask)) by (apply Z.ldiff_nonneg; lia).
  lia.
Qed.

Lemma land_fits w mask n : 0 <= mask < 2 ^ n -> 0 <= Z.land w mask < 2 ^ n.
Proof. intros. pose proof (land_le_mask w mask). lia. Qed.

Lemma signed64_Ok z r : signed64 z = Ok r <-> INT64_MIN <= z <= INT64_MAX /\ r = z.
Proof.
  unfold signed64, fits_signed, INT64_MIN, INT64_MAX.
  change (2 ^ (64 - 1)) with 9223372036854775808.
  destruct (_ && _) eqn:E; split; intros; try lia.
  - injection H; lia.
  - f_equal; lia.
  - discriminate.
Qed.

Lemma signed64_in_range z : INT64_MIN <= z <= INT64_MAX -> signed64 z = Ok z.
Proof. intros. by apply signed64_Ok. Qed.

Create HintDb msap1.
Create Rewrite HintDb msap1_rw.
#[export] Hint Resolve wrap_range fits_wrap sign_range land_fits : msap1.
#[export] Hint Rewrite require_true reject_if_false : msap1_rw.

(** [bools] turns the boolean guards in the context into propositions and
    splits conjunctions, so that [lia] and [congruence] see them. *)
Ltac bools :=
  repeat match goal with
  | H : _ && _ = true |- _ => apply andb_true_iff in H as [? ?]
  | H : _ || _ = false |- _ => apply orb_false_iff in H as [? ?]
  | H : negb _ = true |- _ => apply negb_true_iff in H
  | H : negb _ = false |- _ => apply negb_false_iff in H
  | H : (_ =? _) = true |- _ => apply Z.eqb_eq in H
  | H : (_ =? _) = false |- _ => apply Z.eqb_neq in H
  | H : (_ <? _) = true |- _ => apply Z.ltb_lt in H
  | H : (_ <? _) = false |- _ => apply Z.ltb_ge in H
  | H : (_ <=? _) = true |- _ => apply Z.leb_le in H
  | H : (_ <=? _) = false |- _ => apply Z.leb_gt in H
  end.

(** Indices [first, first+1, ..., last] of a C++ counting loop. *)
Definition range (first last : nat) : list nat := seq first (S last - first).

Lemma elem_of_range i first last :
  (first <= S last)%nat -> i ∈ range first last <-> (first <= i <= last)%nat.
Proof. intros. unfold range. rewrite elem_of_seq. lia. Qed.

(** ** Little-endian bytes *)

(** [(value >> (i * 8)) & 0xff] *)
Definition byte_at (value : Z) (i : nat) : Z := Z.land (Z.shiftr value (Z.of_nat i * 8)) 0xff.

Definition le_bytes (n : nat) (value : Z) : list Z := map (byte_at value) (seq 0 n).

Definition le_value (bytes : list Z) : Z := foldr (fun b acc => b + 256 * acc) 0 bytes.

Definition is_byte (b : Z) : Prop := 0 <= b < 256.

Lemma byte_at_div value i : byte_at value i = value / 256 ^ Z.of_nat i mod 256.
Proof.
  unfold byte_at. change 0xff with (Z.ones 8). rewrite Z.land_ones, Z.shiftr_div_pow2 by lia.
  replace (2 ^ (Z.of_nat i * 8)) with (256 ^ Z.of_nat i); [done|].
  change 256 with (2 ^ 8). rewrite <- Z.pow_mul_r by lia. f_equal. lia.
Qed.

Lemma byte_at_is_byte value i : is_byte (byte_at value i).
Proof. rewrite byte_at_div. apply Z.mod_pos_bound. lia. Qed.

Lemma byte_at_S value i : byte_at value (S i) = byte_at (value / 256) i.
Proof.
  rewrite !byte_at_div, Nat2Z.inj_succ, Z.pow_succ_r, Z.div_div by lia. done.
Qed.

Lemma le_bytes_S n value : le_bytes (S n) value = byte_at value 0 :: le_bytes n (value / 256).
Proof.
  unfold le_bytes. simpl. f_equal. rewrite <- seq_shift, map_map.
  apply map_ext. intros i. apply byte_at_S.
Qed.

Lemma le_bytes_length n value : length (le_bytes n value) = n.
Proof. unfold le_bytes. by rewrite length_map, length_seq. Qed.

Lemma le_bytes_are_bytes n value : Forall is_byte (le_bytes n value).
Proof.
  revert value. induction n as [|n IH]; intros value; [constructor|].
  rewrite le_bytes_S. constructor; [apply byte_at_is_byte|apply IH].
Qed.

Lemma le_value_bytes n value : le_value (le_bytes n value) = value mod 256 ^ Z.of_nat n.
Proof.
  revert value. induction n as [|n IH]; intros value.
  - simpl. by rewrite Z.mod_1_r.
  - rewrite le_bytes_S. simpl le_value. fold (le_value (le_bytes n (value / 256))).
    rewrite IH, byte_at_div, Nat2Z.inj_succ, Z.pow_succ_r, Z.div_1_r by lia.
    rewrite Z.rem_mul_r by lia. lia.
Qed.

Lemma le_value_range bytes :
  Forall is_byte bytes -> 0 <= le_value bytes < 256 ^ Z.of_nat (length bytes).
Proof.
  unfold is_byte. induction 1 as [|b l Hb _ IH]; simpl length; simpl le_value; [done|].
  fold (le_value l). rewrite Nat2Z.inj_succ, Z.pow_succ_r by lia. lia.
Qed.

Lemma le_bytes_value bytes :
  Forall is_byte bytes -> le_bytes (length bytes) (le_value bytes) = bytes.
Proof.
  unfold is_byte. induction 1 as [|b l Hb Hl IH]; [done|].
  simpl length. rewrite le_bytes_S. simpl le_value. fold (le_value l).
  rewrite byte_at_div, Z.div_1_r. replace (b + 256 * le_value l) with (b + le_value l * 256) by lia.
  rewrite Z.mod_add, Z.mod_small, Z.div_add, Z.div_small by lia. by rewrite Z.add_0_l, IH.
Qed.

Lemma le_bytes_inj n x y :
  0 <= x < 256 ^ Z.of_nat n -> 0 <= y < 256 ^ Z.of_nat n ->
  le_bytes n x = le_bytes n y -> x = y.
Proof.
  intros Hx Hy H. apply (f_equal le_value) in H. rewrite !le_value_bytes in H.
  by rewrite !Z.mod_small in H.
Qed.
#[export] Hint Resolve byte_at_is_byte le_bytes_are_bytes : msap1.

(** A byte below a shifted word. *)
Lemma lor_high_low h l : 0 <= h -> is_byte l -> Z.lor (Z.shiftl h 8) l = 256 * h + l.
Proof.
  unfold is_byte. intros Hh Hl.
  rewrite Z.shiftl_mul_pow2 by lia. change (2 ^ 8) with 256.
  enough (Z.land (h * 256) l = 0) by (pose proof (Z.add_lor_land (h * 256) l); lia).
  apply Z.bits_inj'. intros n Hn. rewrite Z.land_spec, Z.testbit_0_l.
  change 256 with (2 ^ 8). destruct (Z.ltb_spec n 8).
  - by rewrite Z.mul_pow2_bits_low.
  - rewrite (Z.bits_above_log2 l n), andb_false_r; [done|lia|].
    destruct (Z.eq_dec l 0) as [->|]; [simpl; lia|].
    apply Z.log2_lt_pow2; [lia|]. apply Z.lt_le_trans with 256; [lia|].
    change 256 with (2 ^ 8). apply Z.pow_le_mono_r; lia.
Qed.

(** ** Filtered lists *)
Lemma Forall_filter {A} (Q P : A -> Prop) `{forall x, Decision (P x)} l :
  Forall Q l -> Forall Q (filter P l).
Proof.
  induction 1 as [|x l Hx _ IH]; [constructor|].
  rewrite filter_cons. destruct (decide (P x)); [by constructor|done].
Qed.

Lemma NoDup_map_filter {A B} (f : A -> B) (P : A -> Prop) `{forall x, Decision (P x)} l :
  NoDup (map f l) -> NoDup (map f (filter P l)).
Proof.
  induction l as [|x l IH]; [done|]. simpl map. intros Hd. inversion Hd as [|? ? Hx Hl]; subst.
  rewrite filter_cons. destruct (decide (P x)); [|by apply IH].
  simpl. constructor; [|by apply IH]. intros Hin. apply Hx.
  apply list_elem_of_In, in_map_iff in Hin as (y & Ey & Hy).
  apply list_elem_of_In, in_map_iff. exists y. split; [done|].
  apply list_elem_of_In in Hy. apply list_elem_of_filter in Hy as [_ Hy].
  by apply list_elem_of_In.
Qed.

Lemma filter_all {A} (f : A -> bool) l : (forall x, x ∈ l -> f x = true) -> List.filter f l = l.
Proof.
  induction l as [|x l IH]; simpl; [done|]. intros H. rewrite (H x) by apply list_elem_of_here.
  f_equal. apply IH. intros y Hy. apply H. by right.
Qed.

Lemma filter_none {A} (f : A -> bool) l : (forall x, x ∈ l -> f x = false) -> List.filter f l = [].
Proof.
  induction l as [|x l IH]; simpl; [done|]. intros H. rewrite (H x) by apply list_elem_of_here.
  apply IH. intros y Hy. apply H. by right.
Qed.
