(* ===== verification/MeterTiming.v ===== *)
(** * Timing vocabulary and the measurement timebase

    Models [common/msap1/meter/meter_timing.hpp] (the cycle-defined block and
    its Class A eligibility rule) and
    [common/msap1/meter/measurement_timebase.{hpp,cpp}] (the mapping from the
    free-running PL sample counter to UTC with its quality state machine).
    Times are integers of nanoseconds; the monotonic clock reading that the
    code takes as the argument [now] is an argument here too.  The mutex
    serialises the operations, so each is one atomic function on the state. *)
From S2P Require Import Prelude.

(** ** meter_timing.hpp *)

Inductive NominalFrequency := Hz50 | Hz60.

Inductive MeasurementPeriod :=
  | Basic | Cycles150_180 | Min10 | Hour2 | Min10Live | Hour2Live | Demand
  | Seconds10.

Inductive TimeQuality := Unsynchronized | Synchronized | Holdover.

#[export] Instance NominalFrequency_eq_dec : EqDecision NominalFrequency.
Proof. solve_decision. Defined.
#[export] Instance MeasurementPeriod_eq_dec : EqDecision MeasurementPeriod.
Proof. solve_decision. Defined.
#[export] Instance TimeQuality_eq_dec : EqDecision TimeQuality.
Proof. solve_decision. Defined.

Definition cycles_per_basic_block (nominal : NominalFrequency) : Z :=
  match nominal with Hz50 => 10 | Hz60 => 12 end.

Definition basic_blocks_per_aggregate : Z := 15.

Definition cycles_per_aggregate (nominal : NominalFrequency) : Z :=
  basic_blocks_per_aggregate * cycles_per_basic_block nominal.

Record BlockTiming := mkBlockTiming {
  bt_sequence : Z;
  bt_configuration_generation : Z;
  bt_first_sample_index : Z;
  bt_sample_count : Z;
  bt_sample_rate_hz : Z;
  bt_cycle_count : Z;
  bt_nominal_frequency : NominalFrequency;
  bt_cycle_locked : bool;
  bt_free_run_fallback : bool;
  bt_first_block_after_apply : bool;
  bt_utc_resynchronized : bool;
  bt_time_quality : TimeQuality;
  bt_utc_start : option Z;
  bt_utc_uncertainty_ns : option Z
}.

Definition class_a_aggregation_eligible (timing : BlockTiming) : bool :=
  bt_cycle_locked timing && negb (bt_free_run_fallback timing) &&
  negb (bt_first_block_after_apply timing) &&
  (bt_cycle_count timing =? cycles_per_basic_block (bt_nominal_frequency timing)).

Record AggregateTiming := mkAggregateTiming {
  at_sequence : Z;
  at_configuration_generation : Z;
  at_first_sample_index : Z;
  at_last_sample_index : Z;
  at_sample_count : Z;
  at_sample_rate_hz : Z;
  at_first_basic_sequence : Z;
  at_last_basic_sequence : Z;
  at_basic_block_count : Z;
  at_cycle_count : Z;
  at_nominal_frequency : NominalFrequency;
  at_arithmetic_error : bool;
  at_frequency_valid : bool;
  at_utc_overlap : bool;
  at_utc_resynchronized : bool;
  at_time_aligned : bool;
  at_contaminated : bool;
  at_boundary_valid : bool;
  at_target_sample_index : option Z;
  at_overshoot_samples : option Z;
  at_time_quality : TimeQuality;
  at_utc_start : option Z;
  at_utc_uncertainty_ns : option Z
}.

(** ** measurement_timebase.hpp / .cpp *)

Record TimeSyncPoint := mkTimeSyncPoint {
  sp_sample_counter : Z;
  sp_utc_ns : Z;
  sp_uncertainty_ns : Z;
  sp_sample_rate_hz : Z;
  sp_configuration_generation : Z;
  sp_utc_synchronized : bool
}.

Record UtcEstimate := mkUtcEstimate { ue_utc : Z; ue_uncertainty_ns : Z }.

Record MeasurementTimebase := mkTimebase {
  tb_staleness_threshold : Z;
  tb_latest_sync : option TimeSyncPoint;
  tb_last_sync_at : Z
}.

Definition max_backward_extrapolation_seconds : Z := 60.
Definition default_staleness_threshold : Z := 30 * 1000000000.

Definition new_timebase (staleness_threshold : Z) : MeasurementTimebase :=
  mkTimebase staleness_threshold None 0.

Definition record_sync (sync : TimeSyncPoint) (now : Z) (tb : MeasurementTimebase)
  : MeasurementTimebase :=
  mkTimebase (tb_staleness_threshold tb) (Some sync) now.

Definition quality (tb : MeasurementTimebase) (now : Z) : TimeQuality :=
  match tb_latest_sync tb with
  | None => Unsynchronized
  | Some sync =>
      if negb (sp_utc_synchronized sync) then Unsynchronized
      else if tb_staleness_threshold tb <? now - tb_last_sync_at tb then Holdover
      else Synchronized
  end.

(** Signed arithmetic is checked: a sum or product outside [int64_t] is
    undefined behaviour in the source and a [Throw] here. *)
Definition utc_for_sample (tb : MeasurementTimebase)
    (sample_index configuration_generation : Z) : result (option UtcEstimate) :=
  match tb_latest_sync tb with
  | None => Ok None
  | Some sync =>
      let counter := sp_sample_counter sync in
      let rate := sp_sample_rate_hz sync in
      if negb (sp_utc_synchronized sync) || (rate =? 0) then Ok None
      else if negb (configuration_generation =? sp_configuration_generation sync)
      then Ok None
      else if (sample_index <? counter) &&
              (rate * max_backward_extrapolation_seconds <? counter - sample_index)
      then Ok None
      else
        let delta := s64 (sample_index - counter) in
        let whole_seconds := Z.quot delta rate in
        let remainder_samples := Z.rem delta rate in
        whole_ns ← signed64 (whole_seconds * 1000000000);
        base_ns ← signed64 (sp_utc_ns sync + whole_ns);
        rest ← signed64 (remainder_samples * 1000000000);
        utc_ns ← signed64 (base_ns + Z.quot rest rate);
        Ok (Some (mkUtcEstimate utc_ns (sp_uncertainty_ns sync)))
  end.

(** ** Lemmas *)

(** Splitting off whole seconds before scaling to nanoseconds computes the
    truncated exact quotient. *)
Lemma split_seconds_exact delta rate k :
  0 < rate -> 0 < k ->
  Z.quot delta rate * k + Z.quot (Z.rem delta rate * k) rate = Z.quot (delta * k) rate.
Proof.
  intros Hr Hk.
  assert (forall d, 0 <= d ->
    Z.quot d rate * k + Z.quot (Z.rem d rate * k) rate = Z.quot (d * k) rate) as Hpos.
  { intros d Hd.
    pose proof (Z.rem_bound_pos d rate ltac:(lia) ltac:(lia)).
    rewrite !Z.quot_div_nonneg, Z.rem_mod_nonneg by nia.
    rewrite (Z.div_mod d rate) at 3 by lia.
    replace ((rate * (d / rate) + d mod rate) * k)
      with (d mod rate * k + (d / rate * k) * rate) by ring.
    rewrite Z.div_add by lia. lia. }
  destruct (Z.neg_nonneg_cases delta) as [Hn|Hn]; [|auto].
  specialize (Hpos (- delta) ltac:(lia)).
  rewrite Z.quot_opp_l, Z.rem_opp_l in Hpos by lia.
  replace (- Z.rem delta rate * k) with (- (Z.rem delta rate * k)) in Hpos by ring.
  replace (- delta * k) with (- (delta * k)) in Hpos by ring.
  rewrite !Z.quot_opp_l in Hpos by lia. lia.
Qed.

Lemma quot_abs_bound a b m : 0 < b -> Z.abs a <= b * m -> Z.abs (Z.quot a b) <= m.
Proof.
  intros Hb Ha. rewrite <- Z.quot_abs, (Z.abs_eq b) by lia.
  rewrite Z.quot_div_nonneg by lia. apply Z.div_le_upper_bound; lia.
Qed.

Lemma quot_mono a b c : 0 < c -> a <= b -> Z.quot a c <= Z.quot b c.
Proof. intros. apply Z.quot_le_mono; lia. Qed.

(** Everything the label computation needs to be free of undefined behaviour
    and to return the exact truncated label. *)
Record label_ready (sync : TimeSyncPoint) (sample_index : Z) : Prop := {
  lr_sync : sp_utc_synchronized sync = true;
  lr_rate : 0 < sp_sample_rate_hz sync < 2 ^ 32;
  lr_utc : 0 <= sp_utc_ns sync <= 4000000000000000000;
  lr_counter : 0 <= sp_sample_counter sync < 2 ^ 63;
  lr_index : 0 <= sample_index < 2 ^ 63;
  lr_behind : sp_sample_counter sync - sample_index <=
              sp_sample_rate_hz sync * max_backward_extrapolation_seconds;
  lr_ahead : sample_index - sp_sample_counter sync <= sp_sample_rate_hz sync * 5000000000
}.

Definition exact_label (sync : TimeSyncPoint) (sample_index : Z) : Z :=
  sp_utc_ns sync +
  Z.quot ((sample_index - sp_sample_counter sync) * 1000000000) (sp_sample_rate_hz sync).

Lemma utc_for_sample_ready tb sync i gen :
  tb_latest_sync tb = Some sync -> gen = sp_configuration_generation sync ->
  label_ready sync i ->
  utc_for_sample tb i gen =
    Ok (Some (mkUtcEstimate (exact_label sync i) (sp_uncertainty_ns sync))).
Proof.
  intros Htb -> [Hs Hr Hu Hc Hi Hb Ha].
  unfold utc_for_sample, exact_label, max_backward_extrapolation_seconds in *.
  rewrite Htb, Hs. simpl negb. cbn [orb].
  destruct (Z.eqb_spec (sp_sample_rate_hz sync) 0); [lia|].
  rewrite Z.eqb_refl. simpl negb. cbn match.
  destruct (_ && _) eqn:E; [lia|]. clear E.
  set (d := i - sp_sample_counter sync) in *.
  set (rate := sp_sample_rate_hz sync) in *.
  assert (s64 d = d) as ->.
  { destruct (Z.neg_nonneg_cases d).
    - rewrite <- (sign_wrap_id 64 d) at 2 by lia.
      unfold sign. unfold wrap. rewrite Z.mod_mod by lia. done.
    - apply sign_nonneg; lia. }
  pose proof (quot_abs_bound d rate 5000000000 ltac:(lia) ltac:(lia)) as Hq.
  pose proof (Z.rem_bound_abs d rate ltac:(lia)) as Hm.
  rewrite (Z.abs_eq rate) in Hm by lia.
  pose proof (quot_abs_bound (Z.rem d rate * 1000000000) rate 1000000000
                ltac:(lia) ltac:(lia)) as Hrest.
  assert (- 60 <= Z.quot d rate) as Hlow.
  { transitivity (Z.quot (- (rate * 60)) rate).
    - rewrite Z.quot_opp_l, Z.mul_comm, Z.quot_mul by lia. lia.
    - apply quot_mono; lia. }
  unfold mbind, result_bind.
  rewrite (signed64_in_range (Z.quot d rate * 1000000000))
    by (unfold INT64_MIN, INT64_MAX; lia).
  rewrite (signed64_in_range (_ + Z.quot d rate * 1000000000))
    by (unfold INT64_MIN, INT64_MAX; lia).
  rewrite (signed64_in_range (Z.rem d rate * 1000000000))
    by (unfold INT64_MIN, INT64_MAX; lia).
  rewrite signed64_in_range by (unfold INT64_MIN, INT64_MAX; lia).
  do 3 f_equal. rewrite <- (split_seconds_exact d rate 1000000000) by lia. lia.
Qed.

Lemma exact_label_mono sync i j :
  0 < sp_sample_rate_hz sync -> i <= j -> exact_label sync i <= exact_label sync j.
Proof.
  intros. unfold exact_label.
  pose proof (quot_mono ((i - sp_sample_counter sync) * 1000000000)
    ((j - sp_sample_counter sync) * 1000000000) (sp_sample_rate_hz sync)). lia.
Qed.

Lemma label_some_facts tb i gen est :
  utc_for_sample tb i gen = Ok (Some est) ->
  exists sync, tb_latest_sync tb = Some sync /\ sp_utc_synchronized sync = true /\
    sp_sample_rate_hz sync <> 0 /\ gen = sp_configuration_generation sync /\
    (sp_sample_counter sync - i <=
       sp_sample_rate_hz sync * max_backward_extrapolation_seconds \/
     sp_sample_counter sync <= i) /\
    ue_uncertainty_ns est = sp_uncertainty_ns sync.
Proof.
  unfold utc_for_sample. destruct (tb_latest_sync tb) as [sync|]; [|done].
  intros H. destruct (negb _ || _) eqn:E1; [done|].
  destruct (negb (gen =? _)) eqn:E2; [done|].
  destruct (_ && _) eqn:E3; [done|]. cbn zeta in H. inv_ok H. bools.
  exists sync. repeat split; auto; lia.
Qed.

(** A run of sync refreshes and what it leaves in the timebase. *)
Definition run_syncs (tb : MeasurementTimebase) (events : list (TimeSyncPoint * Z))
  : MeasurementTimebase :=
  fold_left (fun tb '(sync, now) => record_sync sync now tb) events tb.

Lemma run_syncs_threshold tb events :
  tb_staleness_threshold (run_syncs tb events) = tb_staleness_threshold tb.
Proof. revert tb; induction events as [|[s n] ev IH]; intros tb; [done|]. simpl. unfold run_syncs in *. simpl. by rewrite IH. Qed.

Lemma run_syncs_snoc tb events sync now :
  run_syncs tb (events ++ [(sync, now)]) = record_sync sync now (run_syncs tb events).
Proof. unfold run_syncs. by rewrite fold_left_app. Qed.

(** ** Properties *)

(** (C28) UTC labels are exact and free of signed overflow.  With a trusted
    sync point latched under the requested generation, any sample at most sixty
    seconds behind it and at most 158 years ahead of it gets a label, the label
    is the sync instant plus the truncated exact duration [delta * 10^9 / rate]
    (the seconds/remainder split in the code loses nothing), no intermediate
    leaves [int64_t], and the quality reported at the same time is not
    [Unsynchronized]. *)
Theorem utc_label_exact tb sync i gen now :
  tb_latest_sync tb = Some sync -> gen = sp_configuration_generation sync ->
  label_ready sync i ->
  utc_for_sample tb i gen =
    Ok (Some (mkUtcEstimate
      (sp_utc_ns sync +
       Z.quot ((i - sp_sample_counter sync) * 1000000000) (sp_sample_rate_hz sync))
      (sp_uncertainty_ns sync))) /\
  quality tb now <> Unsynchronized.
Proof.
  intros Htb Hg Hr. split; [by rewrite (utc_for_sample_ready tb sync)|].
  unfold quality. rewrite Htb, (lr_sync _ _ Hr). simpl. by case_match.
Qed.

Definition demo_sync : TimeSyncPoint :=
  mkTimeSyncPoint 640000 1700000000000000000 1500 32000 7 true.

Lemma demo_ready i : 600000 <= i <= 700000 -> label_ready demo_sync i.
Proof. intros. split; simpl; unfold max_backward_extrapolation_seconds; lia. Qed.

Lemma utc_label_exact_witness :
  utc_for_sample (record_sync demo_sync 5 (new_timebase default_staleness_threshold))
    639999 7 = Ok (Some (mkUtcEstimate (1700000000000000000 - 31250) 1500)) /\
  quality (record_sync demo_sync 5 (new_timebase default_staleness_threshold)) 6
    <> Unsynchronized.
Proof.
  exact (utc_label_exact (record_sync demo_sync 5 (new_timebase default_staleness_threshold))
    demo_sync 639999 7 6 eq_refl eq_refl (demo_ready 639999 ltac:(lia))).
Defined.

(** Labels follow the sample counter: under one sync point a later sample
    never gets an earlier UTC label. *)
Theorem utc_labels_monotone tb sync i j gen :
  tb_latest_sync tb = Some sync -> gen = sp_configuration_generation sync ->
  label_ready sync i -> label_ready sync j -> i <= j ->
  exists a b, utc_for_sample tb i gen = Ok (Some a) /\
    utc_for_sample tb j gen = Ok (Some b) /\ ue_utc a <= ue_utc b.
Proof.
  intros Htb Hg Hi Hj Hij. do 2 eexists. repeat split.
  - by apply (utc_for_sample_ready tb sync).
  - by apply (utc_for_sample_ready tb sync).
  - simpl. apply exact_label_mono; [apply (lr_rate _ _ Hi)|done].
Qed.

Lemma utc_labels_monotone_witness :
  exists a b,
    utc_for_sample (record_sync demo_sync 5 (new_timebase 30)) 639990 7 = Ok (Some a) /\
    utc_for_sample (record_sync demo_sync 5 (new_timebase 30)) 640007 7 = Ok (Some b) /\
    ue_utc a <= ue_utc b.
Proof.
  exact (utc_labels_monotone (record_sync demo_sync 5 (new_timebase 30)) demo_sync
    639990 640007 7 eq_refl eq_refl (demo_ready 639990 ltac:(lia)) (demo_ready 640007 ltac:(lia))
    ltac:(lia)).
Defined.

(** No label is ever minted without grounds, whatever the inputs: a
    returned label implies a trusted sync point of the requested configuration
    generation, a nonzero rate, a sample at most sixty seconds behind the sync,
    the uncertainty of exactly that sync point, and a quality other than
    [Unsynchronized] at every instant. *)
Theorem utc_label_grounded tb i gen est now :
  utc_for_sample tb i gen = Ok (Some est) ->
  quality tb now <> Unsynchronized /\
  exists sync, tb_latest_sync tb = Some sync /\ sp_utc_synchronized sync = true /\
    gen = sp_configuration_generation sync /\
    sp_sample_counter sync <= i + Z.max 0 (sp_sample_rate_hz sync * 60) /\
    ue_uncertainty_ns est = sp_uncertainty_ns sync.
Proof.
  intros (sync & Htb & Hs & Hr & Hg & Hb & Hu)%label_some_facts. split.
  - unfold quality. rewrite Htb, Hs. simpl. by case_match.
  - exists sync. unfold max_backward_extrapolation_seconds in Hb.
    repeat split; auto; lia.
Qed.

Lemma utc_label_grounded_witness :
  quality (record_sync demo_sync 5 (new_timebase 30)) 100 <> Unsynchronized /\
  exists sync, Some demo_sync = Some sync /\ sp_utc_synchronized sync = true /\
    7 = sp_configuration_generation sync /\
    sp_sample_counter sync <= 672000 + Z.max 0 (sp_sample_rate_hz sync * 60) /\
    1500 = sp_uncertainty_ns sync.
Proof.
  exact (utc_label_grounded (record_sync demo_sync 5 (new_timebase 30)) 672000 7
    (mkUtcEstimate 1700000001000000000 1500) 100 eq_refl).
Defined.

(** The quality state machine depends only on the newest sync: after any
    history of refreshes ending with [sync] at [at_], the quality is
    [Unsynchronized] when that sync came from an undisciplined clock, otherwise
    [Holdover] exactly when more than the staleness threshold of monotonic time
    has passed since it, otherwise [Synchronized].  UTC steps (which only change
    [sp_utc_ns]) cannot influence it. *)
Theorem quality_state_machine tb history sync at_ now :
  quality (run_syncs tb (history ++ [(sync, at_)])) now =
  if sp_utc_synchronized sync
  then if decide (now - at_ <= tb_staleness_threshold tb) then Synchronized else Holdover
  else Unsynchronized.
Proof.
  rewrite run_syncs_snoc. unfold quality. simpl.
  rewrite run_syncs_threshold. destruct (sp_utc_synchronized sync); [|done].
  simpl. case_decide; destruct (Z.ltb_spec (tb_staleness_threshold tb) (now - at_)); lia || done.
Qed.
