(* ===== verification/MeterAttribute.v ===== *)
(** * The meter attribute catalog

    Models [src/common/mnc/MeterDataProvider/attributes]: the stable identities of the
    measurements, their descriptors, the capability matrix and the ordered attribute set.
    A [MeterAttributeId] may hold a value no enumerator names, as a C++ enumeration may. *)

From stdpp Require Import base list.
From S2P Require Import Prelude MeterTiming.
From Stdlib Require Import String.
Local Open Scope string_scope.
Local Open Scope Z_scope.

Module Id.
Inductive MeterAttributeId :=
  | Frequency | VanRms | VbnRms | VcnRms | VabRms | VbcRms | VcaRms | IaRms | IbRms | IcRms
  | InRms | ActivePowerA | ActivePowerB | ActivePowerC | ActivePowerTotal | ApparentPowerA
  | ApparentPowerB | ApparentPowerC | ApparentPowerTotal | PowerFactorA | PowerFactorB
  | PowerFactorC | PowerFactorTotal | ReactivePowerA | ReactivePowerB | ReactivePowerC
  | ReactivePowerTotal | DisplacementPowerFactorA | DisplacementPowerFactorB
  | DisplacementPowerFactorC | DisplacementPowerFactorTotal | VoltagePhaseAngleA
  | VoltagePhaseAngleB | VoltagePhaseAngleC | CurrentPhaseAngleA | CurrentPhaseAngleB
  | CurrentPhaseAngleC | VoltageUnbalance | CurrentUnbalance | VoltageZeroSequenceRatio
  | CurrentZeroSequenceRatio | ZeroSequenceVoltage | PositiveSequenceVoltage
  | NegativeSequenceVoltage | ZeroSequenceCurrent | PositiveSequenceCurrent
  | NegativeSequenceCurrent | ActiveImportEnergyA | ActiveImportEnergyB | ActiveImportEnergyC
  | ActiveImportEnergyTotal | ActiveExportEnergyA | ActiveExportEnergyB | ActiveExportEnergyC
  | ActiveExportEnergyTotal | ApparentEnergyA | ApparentEnergyB | ApparentEnergyC
  | ApparentEnergyTotal | ReactiveEnergyQuadrantIA | ReactiveEnergyQuadrantIB
  | ReactiveEnergyQuadrantIC | ReactiveEnergyQuadrantITotal | ReactiveEnergyQuadrantIIA
  | ReactiveEnergyQuadrantIIB | ReactiveEnergyQuadrantIIC | ReactiveEnergyQuadrantIITotal
  | ReactiveEnergyQuadrantIIIA | ReactiveEnergyQuadrantIIIB | ReactiveEnergyQuadrantIIIC
  | ReactiveEnergyQuadrantIIITotal | ReactiveEnergyQuadrantIVA | ReactiveEnergyQuadrantIVB
  | ReactiveEnergyQuadrantIVC | ReactiveEnergyQuadrantIVTotal | CurrentActiveDemandA
  | CurrentActiveDemandB | CurrentActiveDemandC | CurrentActiveDemandTotal | ImportDemandPeakA
  | ImportDemandPeakB | ImportDemandPeakC | ImportDemandPeakTotal | ExportDemandPeakA
  | ExportDemandPeakB | ExportDemandPeakC | ExportDemandPeakTotal | FundamentalVoltageA
  | FundamentalVoltageB | FundamentalVoltageC | FundamentalVoltageLlAB | FundamentalVoltageLlBC
  | FundamentalVoltageLlCA | FundamentalCurrentA | FundamentalCurrentB | FundamentalCurrentC
  | FundamentalCurrentN | VoltageCrestA | VoltageCrestB | VoltageCrestC | CurrentCrestA
  | CurrentCrestB | CurrentCrestC | CurrentCrestN | FundamentalActivePowerA
  | FundamentalActivePowerB | FundamentalActivePowerC | FundamentalActivePowerTotal
  | CurrentPhaseAngleN | VoltageLlPhaseAngleAB | VoltageLlPhaseAngleBC | VoltageLlPhaseAngleCA
  | DisplacementAngleA | DisplacementAngleB | DisplacementAngleC | VoltageZeroSequenceAngle
  | VoltagePositiveSequenceAngle | VoltageNegativeSequenceAngle | CurrentZeroSequenceAngle
  | CurrentPositiveSequenceAngle | CurrentNegativeSequenceAngle | LoadNatureA | LoadNatureB
  | LoadNatureC | LoadNatureTotal
  | Unnamed (value : Z).
End Id.

Module Group.
Inductive MeterAttributeGroup :=
  | Frequency | VoltageLnRms | VoltageLlRms | CurrentRms | Fundamental | ActivePower
  | ApparentPower | PowerFactor | ReactivePower | DisplacementPowerFactor | PhaseAngle
  | Unbalance | SequenceComponents | Energy | Demand | CrestFactor | LoadNature | AllDefined.
End Group.

Module Kind.
Inductive MeterAttributeValueKind :=
  | Linear | CircularAngle | CumulativeCounter | Peak | Categorical.
End Kind.

Module Calculation.
Inductive MeterAttributeCalculation :=
  | Minimum | Maximum | Average | Last | CircularAverage | First | Delta.
End Calculation.

Module Unit.
Inductive MeterUnit :=
  | MilliHertz | MicroVolts | MicroAmperes | Picowatts | PicoVoltAmperes | PowerFactorMillionths
  | Picovars | Millidegrees | RatioMillionths | MicroWattHours | MicroVarHours
  | MicroVoltAmpereHours | MicroWatts | CrestTenThousandths | CategoricalCode.
End Unit.

Inductive MeterAttributeUsage := Snapshot | Historian.

Inductive ReadingQuality :=
  | quality_Unavailable | quality_Valid | quality_Invalid | quality_OutOfRange | quality_TimedOut
  | quality_ArithmeticError.

#[export] Instance MeterAttributeGroup_eq_dec : EqDecision Group.MeterAttributeGroup.
Proof. solve_decision. Defined.
#[export] Instance MeterAttributeValueKind_eq_dec : EqDecision Kind.MeterAttributeValueKind.
Proof. solve_decision. Defined.
#[export] Instance MeterAttributeCalculation_eq_dec : EqDecision Calculation.MeterAttributeCalculation.
Proof. solve_decision. Defined.
#[export] Instance MeterUnit_eq_dec : EqDecision Unit.MeterUnit.
Proof. solve_decision. Defined.
#[export] Instance MeterAttributeUsage_eq_dec : EqDecision MeterAttributeUsage.
Proof. solve_decision. Defined.
#[export] Instance ReadingQuality_eq_dec : EqDecision ReadingQuality.
Proof. solve_decision. Defined.

(** The underlying [uint16_t]. *)
Definition id_value (id : Id.MeterAttributeId) : Z :=
  match id with
  | Id.Frequency => 0 | Id.VanRms => 1 | Id.VbnRms => 2 | Id.VcnRms => 3 | Id.VabRms => 4
  | Id.VbcRms => 5 | Id.VcaRms => 6 | Id.IaRms => 7 | Id.IbRms => 8 | Id.IcRms => 9
  | Id.InRms => 10 | Id.ActivePowerA => 11 | Id.ActivePowerB => 12 | Id.ActivePowerC => 13
  | Id.ActivePowerTotal => 14 | Id.ApparentPowerA => 15 | Id.ApparentPowerB => 16
  | Id.ApparentPowerC => 17 | Id.ApparentPowerTotal => 18 | Id.PowerFactorA => 19
  | Id.PowerFactorB => 20 | Id.PowerFactorC => 21 | Id.PowerFactorTotal => 22
  | Id.ReactivePowerA => 23 | Id.ReactivePowerB => 24 | Id.ReactivePowerC => 25
  | Id.ReactivePowerTotal => 26 | Id.DisplacementPowerFactorA => 27
  | Id.DisplacementPowerFactorB => 28 | Id.DisplacementPowerFactorC => 29
  | Id.DisplacementPowerFactorTotal => 30 | Id.VoltagePhaseAngleA => 31
  | Id.VoltagePhaseAngleB => 32 | Id.VoltagePhaseAngleC => 33 | Id.CurrentPhaseAngleA => 34
  | Id.CurrentPhaseAngleB => 35 | Id.CurrentPhaseAngleC => 36 | Id.VoltageUnbalance => 37
  | Id.CurrentUnbalance => 38 | Id.VoltageZeroSequenceRatio => 39
  | Id.CurrentZeroSequenceRatio => 40 | Id.ZeroSequenceVoltage => 41
  | Id.PositiveSequenceVoltage => 42 | Id.NegativeSequenceVoltage => 43
  | Id.ZeroSequenceCurrent => 44 | Id.PositiveSequenceCurrent => 45
  | Id.NegativeSequenceCurrent => 46 | Id.ActiveImportEnergyA => 47
  | Id.ActiveImportEnergyB => 48 | Id.ActiveImportEnergyC => 49
  | Id.ActiveImportEnergyTotal => 50 | Id.ActiveExportEnergyA => 51
  | Id.ActiveExportEnergyB => 52 | Id.ActiveExportEnergyC => 53
  | Id.ActiveExportEnergyTotal => 54 | Id.ApparentEnergyA => 55 | Id.ApparentEnergyB => 56
  | Id.ApparentEnergyC => 57 | Id.ApparentEnergyTotal => 58 | Id.ReactiveEnergyQuadrantIA => 59
  | Id.ReactiveEnergyQuadrantIB => 60 | Id.ReactiveEnergyQuadrantIC => 61
  | Id.ReactiveEnergyQuadrantITotal => 62 | Id.ReactiveEnergyQuadrantIIA => 63
  | Id.ReactiveEnergyQuadrantIIB => 64 | Id.ReactiveEnergyQuadrantIIC => 65
  | Id.ReactiveEnergyQuadrantIITotal => 66 | Id.ReactiveEnergyQuadrantIIIA => 67
  | Id.ReactiveEnergyQuadrantIIIB => 68 | Id.ReactiveEnergyQuadrantIIIC => 69
  | Id.ReactiveEnergyQuadrantIIITotal => 70 | Id.ReactiveEnergyQuadrantIVA => 71
  | Id.ReactiveEnergyQuadrantIVB => 72 | Id.ReactiveEnergyQuadrantIVC => 73
  | Id.ReactiveEnergyQuadrantIVTotal => 74 | Id.CurrentActiveDemandA => 75
  | Id.CurrentActiveDemandB => 76 | Id.CurrentActiveDemandC => 77
  | Id.CurrentActiveDemandTotal => 78 | Id.ImportDemandPeakA => 79 | Id.ImportDemandPeakB => 80
  | Id.ImportDemandPeakC => 81 | Id.ImportDemandPeakTotal => 82 | Id.ExportDemandPeakA => 83
  | Id.ExportDemandPeakB => 84 | Id.ExportDemandPeakC => 85 | Id.ExportDemandPeakTotal => 86
  | Id.FundamentalVoltageA => 87 | Id.FundamentalVoltageB => 88 | Id.FundamentalVoltageC => 89
  | Id.FundamentalVoltageLlAB => 90 | Id.FundamentalVoltageLlBC => 91
  | Id.FundamentalVoltageLlCA => 92 | Id.FundamentalCurrentA => 93
  | Id.FundamentalCurrentB => 94 | Id.FundamentalCurrentC => 95 | Id.FundamentalCurrentN => 96
  | Id.VoltageCrestA => 97 | Id.VoltageCrestB => 98 | Id.VoltageCrestC => 99
  | Id.CurrentCrestA => 100 | Id.CurrentCrestB => 101 | Id.CurrentCrestC => 102
  | Id.CurrentCrestN => 103 | Id.FundamentalActivePowerA => 104
  | Id.FundamentalActivePowerB => 105 | Id.FundamentalActivePowerC => 106
  | Id.FundamentalActivePowerTotal => 107 | Id.CurrentPhaseAngleN => 108
  | Id.VoltageLlPhaseAngleAB => 109 | Id.VoltageLlPhaseAngleBC => 110
  | Id.VoltageLlPhaseAngleCA => 111 | Id.DisplacementAngleA => 112
  | Id.DisplacementAngleB => 113 | Id.DisplacementAngleC => 114
  | Id.VoltageZeroSequenceAngle => 115 | Id.VoltagePositiveSequenceAngle => 116
  | Id.VoltageNegativeSequenceAngle => 117 | Id.CurrentZeroSequenceAngle => 118
  | Id.CurrentPositiveSequenceAngle => 119 | Id.CurrentNegativeSequenceAngle => 120
  | Id.LoadNatureA => 121 | Id.LoadNatureB => 122 | Id.LoadNatureC => 123
  | Id.LoadNatureTotal => 124
  | Id.Unnamed value => value
  end.

Definition same_id (a b : Id.MeterAttributeId) : bool := id_value a =? id_value b.
Definition id_le (a b : Id.MeterAttributeId) : bool := id_value a <=? id_value b.

(** [first <= id && id <= last] *)
Definition id_between (first id last : Id.MeterAttributeId) : bool := id_le first id && id_le id last.

Record MeterAttributeKey := mkKey { ak_id : Id.MeterAttributeId; ak_index : option Z }.

(** [operator==] *)
Definition key_eqb (a b : MeterAttributeKey) : bool :=
  same_id (ak_id a) (ak_id b) && bool_decide (ak_index a = ak_index b).

Definition key (id : Id.MeterAttributeId) : MeterAttributeKey := mkKey id None.

Definition catalog : list MeterAttributeKey := map key [
  Id.Frequency; Id.VanRms; Id.VbnRms; Id.VcnRms; Id.VabRms; Id.VbcRms; Id.VcaRms; Id.IaRms;
  Id.IbRms; Id.IcRms; Id.InRms; Id.ActivePowerA; Id.ActivePowerB; Id.ActivePowerC;
  Id.ActivePowerTotal; Id.ApparentPowerA; Id.ApparentPowerB; Id.ApparentPowerC;
  Id.ApparentPowerTotal; Id.PowerFactorA; Id.PowerFactorB; Id.PowerFactorC; Id.PowerFactorTotal;
  Id.ReactivePowerA; Id.ReactivePowerB; Id.ReactivePowerC; Id.ReactivePowerTotal;
  Id.DisplacementPowerFactorA; Id.DisplacementPowerFactorB; Id.DisplacementPowerFactorC;
  Id.DisplacementPowerFactorTotal; Id.VoltagePhaseAngleA; Id.VoltagePhaseAngleB;
  Id.VoltagePhaseAngleC; Id.CurrentPhaseAngleA; Id.CurrentPhaseAngleB; Id.CurrentPhaseAngleC;
  Id.VoltageUnbalance; Id.CurrentUnbalance; Id.VoltageZeroSequenceRatio;
  Id.CurrentZeroSequenceRatio; Id.ZeroSequenceVoltage; Id.PositiveSequenceVoltage;
  Id.NegativeSequenceVoltage; Id.ZeroSequenceCurrent; Id.PositiveSequenceCurrent;
  Id.NegativeSequenceCurrent; Id.ActiveImportEnergyA; Id.ActiveImportEnergyB;
  Id.ActiveImportEnergyC; Id.ActiveImportEnergyTotal; Id.ActiveExportEnergyA;
  Id.ActiveExportEnergyB; Id.ActiveExportEnergyC; Id.ActiveExportEnergyTotal;
  Id.ApparentEnergyA; Id.ApparentEnergyB; Id.ApparentEnergyC; Id.ApparentEnergyTotal;
  Id.ReactiveEnergyQuadrantIA; Id.ReactiveEnergyQuadrantIB; Id.ReactiveEnergyQuadrantIC;
  Id.ReactiveEnergyQuadrantITotal; Id.ReactiveEnergyQuadrantIIA; Id.ReactiveEnergyQuadrantIIB;
  Id.ReactiveEnergyQuadrantIIC; Id.ReactiveEnergyQuadrantIITotal; Id.ReactiveEnergyQuadrantIIIA;
  Id.ReactiveEnergyQuadrantIIIB; Id.ReactiveEnergyQuadrantIIIC;
  Id.ReactiveEnergyQuadrantIIITotal; Id.ReactiveEnergyQuadrantIVA; Id.ReactiveEnergyQuadrantIVB;
  Id.ReactiveEnergyQuadrantIVC; Id.ReactiveEnergyQuadrantIVTotal; Id.CurrentActiveDemandA;
  Id.CurrentActiveDemandB; Id.CurrentActiveDemandC; Id.CurrentActiveDemandTotal;
  Id.ImportDemandPeakA; Id.ImportDemandPeakB; Id.ImportDemandPeakC; Id.ImportDemandPeakTotal;
  Id.ExportDemandPeakA; Id.ExportDemandPeakB; Id.ExportDemandPeakC; Id.ExportDemandPeakTotal;
  Id.FundamentalVoltageA; Id.FundamentalVoltageB; Id.FundamentalVoltageC;
  Id.FundamentalVoltageLlAB; Id.FundamentalVoltageLlBC; Id.FundamentalVoltageLlCA;
  Id.FundamentalCurrentA; Id.FundamentalCurrentB; Id.FundamentalCurrentC;
  Id.FundamentalCurrentN; Id.VoltageCrestA; Id.VoltageCrestB; Id.VoltageCrestC;
  Id.CurrentCrestA; Id.CurrentCrestB; Id.CurrentCrestC; Id.CurrentCrestN;
  Id.FundamentalActivePowerA; Id.FundamentalActivePowerB; Id.FundamentalActivePowerC;
  Id.FundamentalActivePowerTotal; Id.CurrentPhaseAngleN; Id.VoltageLlPhaseAngleAB;
  Id.VoltageLlPhaseAngleBC; Id.VoltageLlPhaseAngleCA; Id.DisplacementAngleA;
  Id.DisplacementAngleB; Id.DisplacementAngleC; Id.VoltageZeroSequenceAngle;
  Id.VoltagePositiveSequenceAngle; Id.VoltageNegativeSequenceAngle; Id.CurrentZeroSequenceAngle;
  Id.CurrentPositiveSequenceAngle; Id.CurrentNegativeSequenceAngle; Id.LoadNatureA;
  Id.LoadNatureB; Id.LoadNatureC; Id.LoadNatureTotal].

Definition labels : list string := [
  "Frequency"; "Phase A line-to-neutral voltage"; "Phase B line-to-neutral voltage";
  "Phase C line-to-neutral voltage"; "Phase AB line-to-line voltage";
  "Phase BC line-to-line voltage"; "Phase CA line-to-line voltage"; "Phase A current";
  "Phase B current"; "Phase C current"; "Neutral current"; "Phase A active power";
  "Phase B active power"; "Phase C active power"; "Total active power";
  "Phase A apparent power"; "Phase B apparent power"; "Phase C apparent power";
  "Total apparent power"; "Phase A true power factor"; "Phase B true power factor";
  "Phase C true power factor"; "Total true power factor"; "Phase A fundamental reactive power";
  "Phase B fundamental reactive power"; "Phase C fundamental reactive power";
  "Total fundamental reactive power"; "Phase A displacement power factor";
  "Phase B displacement power factor"; "Phase C displacement power factor";
  "Total displacement power factor"; "Phase A voltage angle"; "Phase B voltage angle";
  "Phase C voltage angle"; "Phase A current angle"; "Phase B current angle";
  "Phase C current angle"; "Voltage negative-sequence unbalance";
  "Current negative-sequence unbalance"; "Voltage zero-sequence ratio";
  "Current zero-sequence ratio"; "Zero-sequence voltage"; "Positive-sequence voltage";
  "Negative-sequence voltage"; "Zero-sequence current"; "Positive-sequence current";
  "Negative-sequence current"; "Phase A active import energy"; "Phase B active import energy";
  "Phase C active import energy"; "Total active import energy"; "Phase A active export energy";
  "Phase B active export energy"; "Phase C active export energy"; "Total active export energy";
  "Phase A apparent energy"; "Phase B apparent energy"; "Phase C apparent energy";
  "Total apparent energy"; "Phase A quadrant I reactive energy";
  "Phase B quadrant I reactive energy"; "Phase C quadrant I reactive energy";
  "Total quadrant I reactive energy"; "Phase A quadrant II reactive energy";
  "Phase B quadrant II reactive energy"; "Phase C quadrant II reactive energy";
  "Total quadrant II reactive energy"; "Phase A quadrant III reactive energy";
  "Phase B quadrant III reactive energy"; "Phase C quadrant III reactive energy";
  "Total quadrant III reactive energy"; "Phase A quadrant IV reactive energy";
  "Phase B quadrant IV reactive energy"; "Phase C quadrant IV reactive energy";
  "Total quadrant IV reactive energy"; "Phase A current active demand";
  "Phase B current active demand"; "Phase C current active demand";
  "Total current active demand"; "Phase A import demand peak"; "Phase B import demand peak";
  "Phase C import demand peak"; "Total import demand peak"; "Phase A export demand peak";
  "Phase B export demand peak"; "Phase C export demand peak"; "Total export demand peak";
  "Phase A fundamental voltage"; "Phase B fundamental voltage"; "Phase C fundamental voltage";
  "Phase AB fundamental line-to-line voltage"; "Phase BC fundamental line-to-line voltage";
  "Phase CA fundamental line-to-line voltage"; "Phase A fundamental current";
  "Phase B fundamental current"; "Phase C fundamental current"; "Neutral fundamental current";
  "Phase A voltage crest factor"; "Phase B voltage crest factor";
  "Phase C voltage crest factor"; "Phase A current crest factor";
  "Phase B current crest factor"; "Phase C current crest factor";
  "Neutral current crest factor"; "Phase A fundamental active power";
  "Phase B fundamental active power"; "Phase C fundamental active power";
  "Total fundamental active power"; "Neutral current angle"; "Phase AB voltage angle";
  "Phase BC voltage angle"; "Phase CA voltage angle"; "Phase A displacement angle";
  "Phase B displacement angle"; "Phase C displacement angle"; "Zero-sequence voltage angle";
  "Positive-sequence voltage angle"; "Negative-sequence voltage angle";
  "Zero-sequence current angle"; "Positive-sequence current angle";
  "Negative-sequence current angle"; "Phase A load nature"; "Phase B load nature";
  "Phase C load nature"; "Total load nature"].

Definition linear_calculations : list Calculation.MeterAttributeCalculation :=
  [Calculation.Minimum; Calculation.Maximum; Calculation.Average; Calculation.Last].
Definition angle_calculations : list Calculation.MeterAttributeCalculation :=
  [Calculation.CircularAverage; Calculation.Last].
Definition counter_calculations : list Calculation.MeterAttributeCalculation :=
  [Calculation.First; Calculation.Last; Calculation.Delta].
Definition peak_calculations : list Calculation.MeterAttributeCalculation :=
  [Calculation.Last].
Definition categorical_calculations : list Calculation.MeterAttributeCalculation :=
  [Calculation.Last].

Definition frequency_aliases : list string := ["hz"; "grid frequency"].
Definition voltage_aliases : list string := ["voltage"; "volts"; "rms"].
Definition current_aliases : list string := ["current"; "amps"; "rms"].
Definition active_power_aliases : list string := ["watts"; "real power"; "import export"].
Definition apparent_power_aliases : list string := ["va"; "apparent power"].
Definition power_factor_aliases : list string := ["pf"; "power factor"].
Definition reactive_power_aliases : list string := ["var"; "reactive power"; "q1"].
Definition angle_aliases : list string := ["angle"; "phasor"; "degrees"].
Definition unbalance_aliases : list string := ["unbalance"; "sequence ratio"].
Definition sequence_aliases : list string := ["symmetrical components"; "sequence"].
Definition energy_aliases : list string := ["energy"; "counter"; "watt hours"].
Definition demand_aliases : list string := ["demand"; "peak"; "watts"].
Definition crest_aliases : list string := ["crest"; "peak rms ratio"].
Definition fundamental_aliases : list string := ["fundamental"; "h1"].
Definition load_nature_aliases : list string := ["load nature"; "leading lagging"].

Record MeasurementPeriodDescriptor := mkPeriodDescriptor {
  pd_period : MeasurementPeriod; pd_key : string; pd_label : string; pd_snapshot : bool; pd_historian : bool }.

Definition period_catalog : list MeasurementPeriodDescriptor := [
  mkPeriodDescriptor Basic "basic" "Basic (10/12 cycles)" true true;
  mkPeriodDescriptor Seconds10 "seconds_10" "10 seconds" true true;
  mkPeriodDescriptor Cycles150_180 "cycles_150_180" "150/180 cycles" true true;
  mkPeriodDescriptor Min10 "minutes_10" "10 minutes" true true;
  mkPeriodDescriptor Hour2 "hours_2" "2 hours" true true;
  mkPeriodDescriptor Demand "demand" "Demand" true true;
  mkPeriodDescriptor Min10Live "minutes_10_live" "Open 10-minute preview" true false;
  mkPeriodDescriptor Hour2Live "hours_2_live" "Open 2-hour preview" true false].

Definition group_for (id : Id.MeterAttributeId) : Group.MeterAttributeGroup :=
  if id_between Id.FundamentalVoltageA id Id.FundamentalCurrentN then Group.Fundamental else
  if id_between Id.VoltageCrestA id Id.CurrentCrestN then Group.CrestFactor else
  if id_between Id.FundamentalActivePowerA id Id.FundamentalActivePowerTotal then Group.Fundamental else
  if id_between Id.CurrentPhaseAngleN id Id.CurrentNegativeSequenceAngle then Group.PhaseAngle else
  if id_le Id.LoadNatureA id then Group.LoadNature else
  if same_id id Id.Frequency then Group.Frequency else
  if id_le id Id.VcnRms then Group.VoltageLnRms else
  if id_le id Id.VcaRms then Group.VoltageLlRms else
  if id_le id Id.InRms then Group.CurrentRms else
  if id_le id Id.ActivePowerTotal then Group.ActivePower else
  if id_le id Id.ApparentPowerTotal then Group.ApparentPower else
  if id_le id Id.PowerFactorTotal then Group.PowerFactor else
  if id_le id Id.ReactivePowerTotal then Group.ReactivePower else
  if id_le id Id.DisplacementPowerFactorTotal then Group.DisplacementPowerFactor else
  if id_le id Id.CurrentPhaseAngleC then Group.PhaseAngle else
  if id_le id Id.CurrentZeroSequenceRatio then Group.Unbalance else
  if id_le id Id.NegativeSequenceCurrent then Group.SequenceComponents else
  if id_le id Id.ReactiveEnergyQuadrantIVTotal then Group.Energy else
  Group.Demand.

Definition aliases_for (group : Group.MeterAttributeGroup) : list string :=
  match group with
  | Group.Frequency => frequency_aliases
  | Group.VoltageLnRms | Group.VoltageLlRms => voltage_aliases
  | Group.CurrentRms => current_aliases
  | Group.ActivePower => active_power_aliases
  | Group.ApparentPower => apparent_power_aliases
  | Group.PowerFactor | Group.DisplacementPowerFactor => power_factor_aliases
  | Group.ReactivePower => reactive_power_aliases
  | Group.PhaseAngle => angle_aliases
  | Group.Unbalance => unbalance_aliases
  | Group.SequenceComponents => sequence_aliases
  | Group.Energy => energy_aliases
  | Group.Demand => demand_aliases
  | Group.CrestFactor => crest_aliases
  | Group.Fundamental => fundamental_aliases
  | Group.LoadNature => load_nature_aliases
  | Group.AllDefined => []
  end.

Definition value_kind_for (id : Id.MeterAttributeId) : Kind.MeterAttributeValueKind :=
  if id_between Id.VoltagePhaseAngleA id Id.CurrentPhaseAngleC ||
     id_between Id.CurrentPhaseAngleN id Id.CurrentNegativeSequenceAngle then Kind.CircularAngle
  else if id_between Id.ActiveImportEnergyA id Id.ReactiveEnergyQuadrantIVTotal then Kind.CumulativeCounter
  else if id_between Id.ImportDemandPeakA id Id.ExportDemandPeakTotal then Kind.Peak
  else if id_le Id.LoadNatureA id then Kind.Categorical
  else Kind.Linear.

Definition calculations_for (kind : Kind.MeterAttributeValueKind) : list Calculation.MeterAttributeCalculation :=
  match kind with
  | Kind.Linear => linear_calculations
  | Kind.CircularAngle => angle_calculations
  | Kind.CumulativeCounter => counter_calculations
  | Kind.Peak => peak_calculations
  | Kind.Categorical => categorical_calculations
  end.

Record MeterAttributeDescriptor := mkDescriptor {
  de_attribute : MeterAttributeKey;
  de_key : string;
  de_unit : Unit.MeterUnit;
  de_label : string;
  de_group : Group.MeterAttributeGroup;
  de_value_kind : Kind.MeterAttributeValueKind;
  de_calculations : list Calculation.MeterAttributeCalculation;
  de_search_aliases : list string }.

(** The stable key and unit. *)
Definition describe_identity (attribute : MeterAttributeKey) : result (string * Unit.MeterUnit) :=
  match ak_id attribute with
  | Id.Frequency => Ok ("frequency", Unit.MilliHertz)
  | Id.VanRms => Ok ("voltage.ln.a.rms", Unit.MicroVolts)
  | Id.VbnRms => Ok ("voltage.ln.b.rms", Unit.MicroVolts)
  | Id.VcnRms => Ok ("voltage.ln.c.rms", Unit.MicroVolts)
  | Id.VabRms => Ok ("voltage.ll.ab.rms", Unit.MicroVolts)
  | Id.VbcRms => Ok ("voltage.ll.bc.rms", Unit.MicroVolts)
  | Id.VcaRms => Ok ("voltage.ll.ca.rms", Unit.MicroVolts)
  | Id.IaRms => Ok ("current.a.rms", Unit.MicroAmperes)
  | Id.IbRms => Ok ("current.b.rms", Unit.MicroAmperes)
  | Id.IcRms => Ok ("current.c.rms", Unit.MicroAmperes)
  | Id.InRms => Ok ("current.n.rms", Unit.MicroAmperes)
  | Id.ActivePowerA => Ok ("power.active.a", Unit.Picowatts)
  | Id.ActivePowerB => Ok ("power.active.b", Unit.Picowatts)
  | Id.ActivePowerC => Ok ("power.active.c", Unit.Picowatts)
  | Id.ActivePowerTotal => Ok ("power.active.total", Unit.Picowatts)
  | Id.ApparentPowerA => Ok ("power.apparent.a", Unit.PicoVoltAmperes)
  | Id.ApparentPowerB => Ok ("power.apparent.b", Unit.PicoVoltAmperes)
  | Id.ApparentPowerC => Ok ("power.apparent.c", Unit.PicoVoltAmperes)
  | Id.ApparentPowerTotal => Ok ("power.apparent.total", Unit.PicoVoltAmperes)
  | Id.PowerFactorA => Ok ("power.factor.a", Unit.PowerFactorMillionths)
  | Id.PowerFactorB => Ok ("power.factor.b", Unit.PowerFactorMillionths)
  | Id.PowerFactorC => Ok ("power.factor.c", Unit.PowerFactorMillionths)
  | Id.PowerFactorTotal => Ok ("power.factor.total", Unit.PowerFactorMillionths)
  | Id.ReactivePowerA => Ok ("power.reactive.a", Unit.Picovars)
  | Id.ReactivePowerB => Ok ("power.reactive.b", Unit.Picovars)
  | Id.ReactivePowerC => Ok ("power.reactive.c", Unit.Picovars)
  | Id.ReactivePowerTotal => Ok ("power.reactive.total", Unit.Picovars)
  | Id.DisplacementPowerFactorA => Ok ("power.factor.displacement.a", Unit.PowerFactorMillionths)
  | Id.DisplacementPowerFactorB => Ok ("power.factor.displacement.b", Unit.PowerFactorMillionths)
  | Id.DisplacementPowerFactorC => Ok ("power.factor.displacement.c", Unit.PowerFactorMillionths)
  | Id.DisplacementPowerFactorTotal => Ok ("power.factor.displacement.total", Unit.PowerFactorMillionths)
  | Id.VoltagePhaseAngleA => Ok ("phase.angle.voltage.a", Unit.Millidegrees)
  | Id.VoltagePhaseAngleB => Ok ("phase.angle.voltage.b", Unit.Millidegrees)
  | Id.VoltagePhaseAngleC => Ok ("phase.angle.voltage.c", Unit.Millidegrees)
  | Id.CurrentPhaseAngleA => Ok ("phase.angle.current.a", Unit.Millidegrees)
  | Id.CurrentPhaseAngleB => Ok ("phase.angle.current.b", Unit.Millidegrees)
  | Id.CurrentPhaseAngleC => Ok ("phase.angle.current.c", Unit.Millidegrees)
  | Id.VoltageUnbalance => Ok ("unbalance.voltage", Unit.RatioMillionths)
  | Id.CurrentUnbalance => Ok ("unbalance.current", Unit.RatioMillionths)
  | Id.VoltageZeroSequenceRatio => Ok ("unbalance.voltage.zero", Unit.RatioMillionths)
  | Id.CurrentZeroSequenceRatio => Ok ("unbalance.current.zero", Unit.RatioMillionths)
  | Id.ZeroSequenceVoltage => Ok ("sequence.voltage.zero.rms", Unit.MicroVolts)
  | Id.PositiveSequenceVoltage => Ok ("sequence.voltage.positive.rms", Unit.MicroVolts)
  | Id.NegativeSequenceVoltage => Ok ("sequence.voltage.negative.rms", Unit.MicroVolts)
  | Id.ZeroSequenceCurrent => Ok ("sequence.current.zero.rms", Unit.MicroAmperes)
  | Id.PositiveSequenceCurrent => Ok ("sequence.current.positive.rms", Unit.MicroAmperes)
  | Id.NegativeSequenceCurrent => Ok ("sequence.current.negative.rms", Unit.MicroAmperes)
  | Id.ActiveImportEnergyA => Ok ("energy.active.import.a", Unit.MicroWattHours)
  | Id.ActiveImportEnergyB => Ok ("energy.active.import.b", Unit.MicroWattHours)
  | Id.ActiveImportEnergyC => Ok ("energy.active.import.c", Unit.MicroWattHours)
  | Id.ActiveImportEnergyTotal => Ok ("energy.active.import.total", Unit.MicroWattHours)
  | Id.ActiveExportEnergyA => Ok ("energy.active.export.a", Unit.MicroWattHours)
  | Id.ActiveExportEnergyB => Ok ("energy.active.export.b", Unit.MicroWattHours)
  | Id.ActiveExportEnergyC => Ok ("energy.active.export.c", Unit.MicroWattHours)
  | Id.ActiveExportEnergyTotal => Ok ("energy.active.export.total", Unit.MicroWattHours)
  | Id.ApparentEnergyA => Ok ("energy.apparent.a", Unit.MicroVoltAmpereHours)
  | Id.ApparentEnergyB => Ok ("energy.apparent.b", Unit.MicroVoltAmpereHours)
  | Id.ApparentEnergyC => Ok ("energy.apparent.c", Unit.MicroVoltAmpereHours)
  | Id.ApparentEnergyTotal => Ok ("energy.apparent.total", Unit.MicroVoltAmpereHours)
  | Id.ReactiveEnergyQuadrantIA => Ok ("energy.reactive.quadrant_i.a", Unit.MicroVarHours)
  | Id.ReactiveEnergyQuadrantIB => Ok ("energy.reactive.quadrant_i.b", Unit.MicroVarHours)
  | Id.ReactiveEnergyQuadrantIC => Ok ("energy.reactive.quadrant_i.c", Unit.MicroVarHours)
  | Id.ReactiveEnergyQuadrantITotal => Ok ("energy.reactive.quadrant_i.total", Unit.MicroVarHours)
  | Id.ReactiveEnergyQuadrantIIA => Ok ("energy.reactive.quadrant_ii.a", Unit.MicroVarHours)
  | Id.ReactiveEnergyQuadrantIIB => Ok ("energy.reactive.quadrant_ii.b", Unit.MicroVarHours)
  | Id.ReactiveEnergyQuadrantIIC => Ok ("energy.reactive.quadrant_ii.c", Unit.MicroVarHours)
  | Id.ReactiveEnergyQuadrantIITotal => Ok ("energy.reactive.quadrant_ii.total", Unit.MicroVarHours)
  | Id.ReactiveEnergyQuadrantIIIA => Ok ("energy.reactive.quadrant_iii.a", Unit.MicroVarHours)
  | Id.ReactiveEnergyQuadrantIIIB => Ok ("energy.reactive.quadrant_iii.b", Unit.MicroVarHours)
  | Id.ReactiveEnergyQuadrantIIIC => Ok ("energy.reactive.quadrant_iii.c", Unit.MicroVarHours)
  | Id.ReactiveEnergyQuadrantIIITotal => Ok ("energy.reactive.quadrant_iii.total", Unit.MicroVarHours)
  | Id.ReactiveEnergyQuadrantIVA => Ok ("energy.reactive.quadrant_iv.a", Unit.MicroVarHours)
  | Id.ReactiveEnergyQuadrantIVB => Ok ("energy.reactive.quadrant_iv.b", Unit.MicroVarHours)
  | Id.ReactiveEnergyQuadrantIVC => Ok ("energy.reactive.quadrant_iv.c", Unit.MicroVarHours)
  | Id.ReactiveEnergyQuadrantIVTotal => Ok ("energy.reactive.quadrant_iv.total", Unit.MicroVarHours)
  | Id.CurrentActiveDemandA => Ok ("demand.active.current.a", Unit.MicroWatts)
  | Id.CurrentActiveDemandB => Ok ("demand.active.current.b", Unit.MicroWatts)
  | Id.CurrentActiveDemandC => Ok ("demand.active.current.c", Unit.MicroWatts)
  | Id.CurrentActiveDemandTotal => Ok ("demand.active.current.total", Unit.MicroWatts)
  | Id.ImportDemandPeakA => Ok ("demand.active.import_peak.a", Unit.MicroWatts)
  | Id.ImportDemandPeakB => Ok ("demand.active.import_peak.b", Unit.MicroWatts)
  | Id.ImportDemandPeakC => Ok ("demand.active.import_peak.c", Unit.MicroWatts)
  | Id.ImportDemandPeakTotal => Ok ("demand.active.import_peak.total", Unit.MicroWatts)
  | Id.ExportDemandPeakA => Ok ("demand.active.export_peak.a", Unit.MicroWatts)
  | Id.ExportDemandPeakB => Ok ("demand.active.export_peak.b", Unit.MicroWatts)
  | Id.ExportDemandPeakC => Ok ("demand.active.export_peak.c", Unit.MicroWatts)
  | Id.ExportDemandPeakTotal => Ok ("demand.active.export_peak.total", Unit.MicroWatts)
  | Id.FundamentalVoltageA => Ok ("voltage.fundamental.a.rms", Unit.MicroVolts)
  | Id.FundamentalVoltageB => Ok ("voltage.fundamental.b.rms", Unit.MicroVolts)
  | Id.FundamentalVoltageC => Ok ("voltage.fundamental.c.rms", Unit.MicroVolts)
  | Id.FundamentalVoltageLlAB => Ok ("voltage.fundamental.ll.ab.rms", Unit.MicroVolts)
  | Id.FundamentalVoltageLlBC => Ok ("voltage.fundamental.ll.bc.rms", Unit.MicroVolts)
  | Id.FundamentalVoltageLlCA => Ok ("voltage.fundamental.ll.ca.rms", Unit.MicroVolts)
  | Id.FundamentalCurrentA => Ok ("current.fundamental.a.rms", Unit.MicroAmperes)
  | Id.FundamentalCurrentB => Ok ("current.fundamental.b.rms", Unit.MicroAmperes)
  | Id.FundamentalCurrentC => Ok ("current.fundamental.c.rms", Unit.MicroAmperes)
  | Id.FundamentalCurrentN => Ok ("current.fundamental.n.rms", Unit.MicroAmperes)
  | Id.VoltageCrestA => Ok ("crest.voltage.a", Unit.CrestTenThousandths)
  | Id.VoltageCrestB => Ok ("crest.voltage.b", Unit.CrestTenThousandths)
  | Id.VoltageCrestC => Ok ("crest.voltage.c", Unit.CrestTenThousandths)
  | Id.CurrentCrestA => Ok ("crest.current.a", Unit.CrestTenThousandths)
  | Id.CurrentCrestB => Ok ("crest.current.b", Unit.CrestTenThousandths)
  | Id.CurrentCrestC => Ok ("crest.current.c", Unit.CrestTenThousandths)
  | Id.CurrentCrestN => Ok ("crest.current.n", Unit.CrestTenThousandths)
  | Id.FundamentalActivePowerA => Ok ("power.active.fundamental.a", Unit.Picowatts)
  | Id.FundamentalActivePowerB => Ok ("power.active.fundamental.b", Unit.Picowatts)
  | Id.FundamentalActivePowerC => Ok ("power.active.fundamental.c", Unit.Picowatts)
  | Id.FundamentalActivePowerTotal => Ok ("power.active.fundamental.total", Unit.Picowatts)
  | Id.CurrentPhaseAngleN => Ok ("phase.angle.current.n", Unit.Millidegrees)
  | Id.VoltageLlPhaseAngleAB => Ok ("phase.angle.voltage.ll.ab", Unit.Millidegrees)
  | Id.VoltageLlPhaseAngleBC => Ok ("phase.angle.voltage.ll.bc", Unit.Millidegrees)
  | Id.VoltageLlPhaseAngleCA => Ok ("phase.angle.voltage.ll.ca", Unit.Millidegrees)
  | Id.DisplacementAngleA => Ok ("phase.angle.displacement.a", Unit.Millidegrees)
  | Id.DisplacementAngleB => Ok ("phase.angle.displacement.b", Unit.Millidegrees)
  | Id.DisplacementAngleC => Ok ("phase.angle.displacement.c", Unit.Millidegrees)
  | Id.VoltageZeroSequenceAngle => Ok ("sequence.voltage.zero.angle", Unit.Millidegrees)
  | Id.VoltagePositiveSequenceAngle => Ok ("sequence.voltage.positive.angle", Unit.Millidegrees)
  | Id.VoltageNegativeSequenceAngle => Ok ("sequence.voltage.negative.angle", Unit.Millidegrees)
  | Id.CurrentZeroSequenceAngle => Ok ("sequence.current.zero.angle", Unit.Millidegrees)
  | Id.CurrentPositiveSequenceAngle => Ok ("sequence.current.positive.angle", Unit.Millidegrees)
  | Id.CurrentNegativeSequenceAngle => Ok ("sequence.current.negative.angle", Unit.Millidegrees)
  | Id.LoadNatureA => Ok ("load.nature.a", Unit.CategoricalCode)
  | Id.LoadNatureB => Ok ("load.nature.b", Unit.CategoricalCode)
  | Id.LoadNatureC => Ok ("load.nature.c", Unit.CategoricalCode)
  | Id.LoadNatureTotal => Ok ("load.nature.total", Unit.CategoricalCode)
  | Id.Unnamed _ => Throw (InvalidArgument "unknown meter attribute")
  end.

(** [index < catalog.size() && catalog[index].id == id] *)
Definition in_catalog (id : Id.MeterAttributeId) : bool :=
  match catalog !! Z.to_nat (id_value id) with
  | Some found => same_id (ak_id found) id
  | None => false
  end.

Definition describe (attribute : MeterAttributeKey) : result MeterAttributeDescriptor :=
  identity ← describe_identity attribute;
  require (in_catalog (ak_id attribute)) (InvalidArgument "unknown meter attribute") ;;
  let group := group_for (ak_id attribute) in
  let kind := value_kind_for (ak_id attribute) in
  Ok (mkDescriptor attribute (fst identity) (snd identity)
        (nth (Z.to_nat (id_value (ak_id attribute))) labels "") group kind
        (calculations_for kind) (aliases_for group)).

Definition find_attribute (name : string) : option MeterAttributeKey :=
  List.find (fun attribute =>
    match describe attribute with Ok d => String.eqb (de_key d) name | Throw _ => false end) catalog.

Definition supports_attribute (attribute : MeterAttributeKey) (period : MeasurementPeriod)
    (usage : MeterAttributeUsage) : bool :=
  let on p := bool_decide (period = p) in
  let id := ak_id attribute in
  if bool_decide (is_Some (ak_index attribute)) then false
  else if negb (in_catalog id) then false
  else if id_between Id.CurrentActiveDemandA id Id.ExportDemandPeakTotal then on Demand
  else if id_between Id.ActiveImportEnergyA id Id.ReactiveEnergyQuadrantIVTotal then
    match usage with Snapshot => on Basic | Historian => on Min10 end
  else if same_id id Id.Frequency then on Basic || on Seconds10
  else if bool_decide (usage = Historian) && (on Min10Live || on Hour2Live) then false
  else on Basic || on Cycles150_180 || on Min10 || on Hour2 || on Min10Live || on Hour2Live.

Definition attributes_for (period : MeasurementPeriod) (usage : MeterAttributeUsage) : list MeterAttributeKey :=
  List.filter (fun attribute => supports_attribute attribute period usage) catalog.

Definition unit_name (unit : Unit.MeterUnit) : string :=
  match unit with
  | Unit.MilliHertz => "mHz"
  | Unit.MicroVolts => "uV"
  | Unit.MicroAmperes => "uA"
  | Unit.Picowatts => "pW"
  | Unit.PicoVoltAmperes => "pVA"
  | Unit.PowerFactorMillionths => "pf_e6"
  | Unit.Picovars => "pvar"
  | Unit.Millidegrees => "mdeg"
  | Unit.RatioMillionths => "ratio_e6"
  | Unit.MicroWattHours => "uWh"
  | Unit.MicroVarHours => "uvarh"
  | Unit.MicroVoltAmpereHours => "uVAh"
  | Unit.MicroWatts => "uW"
  | Unit.CrestTenThousandths => "crest_e4"
  | Unit.CategoricalCode => "code"
  end.

Definition attributes_in (group : Group.MeterAttributeGroup) : list MeterAttributeKey :=
  match group with
  | Group.Frequency => map key [
      Id.Frequency]
  | Group.VoltageLnRms => map key [
      Id.VanRms; Id.VbnRms; Id.VcnRms]
  | Group.VoltageLlRms => map key [
      Id.VabRms; Id.VbcRms; Id.VcaRms]
  | Group.CurrentRms => map key [
      Id.IaRms; Id.IbRms; Id.IcRms; Id.InRms]
  | Group.ActivePower => map key [
      Id.ActivePowerA; Id.ActivePowerB; Id.ActivePowerC; Id.ActivePowerTotal]
  | Group.ApparentPower => map key [
      Id.ApparentPowerA; Id.ApparentPowerB; Id.ApparentPowerC; Id.ApparentPowerTotal]
  | Group.PowerFactor => map key [
      Id.PowerFactorA; Id.PowerFactorB; Id.PowerFactorC; Id.PowerFactorTotal]
  | Group.ReactivePower => map key [
      Id.ReactivePowerA; Id.ReactivePowerB; Id.ReactivePowerC; Id.ReactivePowerTotal]
  | Group.DisplacementPowerFactor => map key [
      Id.DisplacementPowerFactorA; Id.DisplacementPowerFactorB; Id.DisplacementPowerFactorC;
      Id.DisplacementPowerFactorTotal]
  | Group.PhaseAngle => map key [
      Id.VoltagePhaseAngleA; Id.VoltagePhaseAngleB; Id.VoltagePhaseAngleC;
      Id.CurrentPhaseAngleA; Id.CurrentPhaseAngleB; Id.CurrentPhaseAngleC;
      Id.CurrentPhaseAngleN; Id.VoltageLlPhaseAngleAB; Id.VoltageLlPhaseAngleBC;
      Id.VoltageLlPhaseAngleCA; Id.DisplacementAngleA; Id.DisplacementAngleB;
      Id.DisplacementAngleC; Id.VoltageZeroSequenceAngle; Id.VoltagePositiveSequenceAngle;
      Id.VoltageNegativeSequenceAngle; Id.CurrentZeroSequenceAngle;
      Id.CurrentPositiveSequenceAngle; Id.CurrentNegativeSequenceAngle]
  | Group.Unbalance => map key [
      Id.VoltageUnbalance; Id.CurrentUnbalance; Id.VoltageZeroSequenceRatio;
      Id.CurrentZeroSequenceRatio]
  | Group.SequenceComponents => map key [
      Id.ZeroSequenceVoltage; Id.PositiveSequenceVoltage; Id.NegativeSequenceVoltage;
      Id.ZeroSequenceCurrent; Id.PositiveSequenceCurrent; Id.NegativeSequenceCurrent]
  | Group.Energy => map key [
      Id.ActiveImportEnergyA; Id.ActiveImportEnergyB; Id.ActiveImportEnergyC;
      Id.ActiveImportEnergyTotal; Id.ActiveExportEnergyA; Id.ActiveExportEnergyB;
      Id.ActiveExportEnergyC; Id.ActiveExportEnergyTotal; Id.ApparentEnergyA;
      Id.ApparentEnergyB; Id.ApparentEnergyC; Id.ApparentEnergyTotal;
      Id.ReactiveEnergyQuadrantIA; Id.ReactiveEnergyQuadrantIB; Id.ReactiveEnergyQuadrantIC;
      Id.ReactiveEnergyQuadrantITotal; Id.ReactiveEnergyQuadrantIIA;
      Id.ReactiveEnergyQuadrantIIB; Id.ReactiveEnergyQuadrantIIC;
      Id.ReactiveEnergyQuadrantIITotal; Id.ReactiveEnergyQuadrantIIIA;
      Id.ReactiveEnergyQuadrantIIIB; Id.ReactiveEnergyQuadrantIIIC;
      Id.ReactiveEnergyQuadrantIIITotal; Id.ReactiveEnergyQuadrantIVA;
      Id.ReactiveEnergyQuadrantIVB; Id.ReactiveEnergyQuadrantIVC;
      Id.ReactiveEnergyQuadrantIVTotal]
  | Group.Demand => map key [
      Id.CurrentActiveDemandA; Id.CurrentActiveDemandB; Id.CurrentActiveDemandC;
      Id.CurrentActiveDemandTotal; Id.ImportDemandPeakA; Id.ImportDemandPeakB;
      Id.ImportDemandPeakC; Id.ImportDemandPeakTotal; Id.ExportDemandPeakA;
      Id.ExportDemandPeakB; Id.ExportDemandPeakC; Id.ExportDemandPeakTotal]
  | Group.Fundamental => map key [
      Id.Frequency; Id.VanRms; Id.VbnRms; Id.VcnRms; Id.VabRms; Id.VbcRms; Id.VcaRms; Id.IaRms;
      Id.IbRms; Id.IcRms; Id.InRms; Id.FundamentalVoltageA; Id.FundamentalVoltageB;
      Id.FundamentalVoltageC; Id.FundamentalVoltageLlAB; Id.FundamentalVoltageLlBC;
      Id.FundamentalVoltageLlCA; Id.FundamentalCurrentA; Id.FundamentalCurrentB;
      Id.FundamentalCurrentC; Id.FundamentalCurrentN; Id.FundamentalActivePowerA;
      Id.FundamentalActivePowerB; Id.FundamentalActivePowerC; Id.FundamentalActivePowerTotal]
  | Group.CrestFactor => map key [
      Id.VoltageCrestA; Id.VoltageCrestB; Id.VoltageCrestC; Id.CurrentCrestA; Id.CurrentCrestB;
      Id.CurrentCrestC; Id.CurrentCrestN]
  | Group.LoadNature => map key [
      Id.LoadNatureA; Id.LoadNatureB; Id.LoadNatureC; Id.LoadNatureTotal]
  | Group.AllDefined => catalog
  end.

(** [MeterAttributeSet]: insertion order, no duplicates. *)
Definition set_contains (attributes : list MeterAttributeKey) (attribute : MeterAttributeKey) : bool :=
  existsb (fun other => key_eqb other attribute) attributes.

Definition set_add (attributes : list MeterAttributeKey) (attribute : MeterAttributeKey)
  : list MeterAttributeKey :=
  if set_contains attributes attribute then attributes else attributes ++ [attribute].

Definition set_of (attributes : list MeterAttributeKey) : list MeterAttributeKey :=
  fold_left set_add attributes [].

Definition set_add_group (attributes : list MeterAttributeKey) (group : Group.MeterAttributeGroup)
  : list MeterAttributeKey := fold_left set_add (attributes_in group) attributes.

(** ** Identities *)
Lemma id_named id :
  catalog !! Z.to_nat (id_value id) = Some (key id) /\ 0 <= id_value id \/ exists value, id = Id.Unnamed value.
Proof. destruct id; try (left; split; [reflexivity|simpl; lia]). right. by eexists. Qed.

Definition is_unnamed (id : Id.MeterAttributeId) : bool :=
  match id with Id.Unnamed _ => true | _ => false end.

Lemma id_code_inj a b : id_value a = id_value b -> is_unnamed a = is_unnamed b -> a = b.
Proof.
  intros E U. destruct (id_named a) as [[Ca _]|[v ->]], (id_named b) as [[Cb _]|[w ->]].
  - rewrite E, Cb in Ca. by injection Ca.
  - by destruct a; try discriminate U; simpl in E; subst.
  - by destruct b; try discriminate U; simpl in E; subst.
  - simpl in E. by subst.
Qed.

#[export] Instance MeterAttributeId_eq_dec : EqDecision Id.MeterAttributeId.
Proof.
  intros a b. destruct (decide (id_value a = id_value b)); [|right; congruence].
  destruct (decide (is_unnamed a = is_unnamed b)); [left; by apply id_code_inj|right; congruence].
Defined.
#[export] Instance MeterAttributeKey_eq_dec : EqDecision MeterAttributeKey.
Proof. solve_decision. Defined.

(** An enumerator, or a value past the last of them. *)
Definition canonical (id : Id.MeterAttributeId) : Prop :=
  match id with Id.Unnamed value => Z.of_nat (List.length catalog) <= value | _ => True end.

Lemma catalog_bound i k : catalog !! Z.to_nat i = Some k -> i < Z.of_nat (List.length catalog).
Proof. intros H%lookup_lt_Some. lia. Qed.

Lemma in_catalog_spec id :
  canonical id -> in_catalog id = true -> catalog !! Z.to_nat (id_value id) = Some (key id).
Proof.
  intros Hc Hin. destruct (id_named id) as [[H _]|[v ->]]; [done|]. unfold in_catalog in Hin.
  destruct (catalog !! _) eqn:E; [|done]. apply catalog_bound in E. unfold canonical in Hc. simpl id_value in E. lia.
Qed.

Lemma same_id_spec a b : canonical a -> canonical b -> same_id a b = true <-> a = b.
Proof.
  intros Ha Hb. unfold same_id. rewrite Z.eqb_eq. split; [|by intros ->]. intros E.
  destruct (id_named a) as [[Ca _]|[v ->]], (id_named b) as [[Cb _]|[w ->]].
  - rewrite E, Cb in Ca. by injection Ca.
  - apply catalog_bound in Ca. unfold canonical in Hb. simpl id_value in E. lia.
  - apply catalog_bound in Cb. unfold canonical in Ha. simpl id_value in E. lia.
  - simpl in E. by subst.
Qed.

Lemma key_eqb_spec a b : canonical (ak_id a) -> canonical (ak_id b) -> key_eqb a b = true <-> a = b.
Proof.
  intros Ha Hb. unfold key_eqb. rewrite andb_true_iff, bool_decide_eq_true, same_id_spec by done.
  destruct a, b; naive_solver.
Qed.

(** ** The catalog *)

(** What the catalog promises of one entry. *)
Definition entry_sound (attribute : MeterAttributeKey) : bool :=
  match describe attribute with
  | Ok d =>
      bool_decide (find_attribute (de_key d) = Some attribute) &&
      bool_decide (attribute ∈ attributes_in (de_group d)) &&
      bool_decide (Calculation.Last ∈ de_calculations d) &&
      negb (String.eqb (de_label d) "")
  | Throw _ => false
  end.

Lemma catalog_sound : forallb entry_sound catalog = true.
Proof. vm_compute. reflexivity. Qed.

(** The stable keys identify the measurements.  Describing a catalog attribute
    succeeds, its key resolves to that very attribute, its group lists it, it has a label
    and the calculation Last; conversely a key resolves only to a catalog attribute whose
    descriptor carries it, so two attributes never share a key. *)
Theorem attribute_catalog name attribute :
  (attribute ∈ catalog ->
     exists d, describe attribute = Ok d /\ find_attribute (de_key d) = Some attribute /\
       attribute ∈ attributes_in (de_group d) /\ Calculation.Last ∈ de_calculations d /\
       de_label d <> ""%string) /\
  (find_attribute name = Some attribute ->
     attribute ∈ catalog /\ exists d, describe attribute = Ok d /\ de_key d = name).
Proof.
  split.
  - intros Ha. pose proof catalog_sound as Hs. rewrite forallb_forall in Hs.
    specialize (Hs attribute (proj1 (list_elem_of_In _ _) Ha)). unfold entry_sound in Hs.
    destruct (describe attribute) as [d|]; [|done]. exists d. split; [done|].
    apply andb_true_iff in Hs as [Hs Hl]. apply andb_true_iff in Hs as [Hs Hc].
    apply andb_true_iff in Hs as [Hf Hg]. apply bool_decide_eq_true in Hf, Hg, Hc.
    apply negb_true_iff, String.eqb_neq in Hl. done.
  - intros [Hin Hk]%find_some. split; [by apply list_elem_of_In|].
    destruct (describe attribute) as [d|]; [|done]. exists d. split; [done|]. by apply String.eqb_eq.
Qed.

Lemma attribute_catalog_witness :
  (exists d, describe (key Id.VoltageUnbalance) = Ok d /\
     find_attribute (de_key d) = Some (key Id.VoltageUnbalance) /\
     key Id.VoltageUnbalance ∈ attributes_in (de_group d) /\ Calculation.Last ∈ de_calculations d /\
     de_label d <> ""%string) /\
  key Id.InRms ∈ catalog /\ exists d, describe (key Id.InRms) = Ok d /\ de_key d = "current.n.rms".
Proof.
  split.
  - apply (proj1 (attribute_catalog "" (key Id.VoltageUnbalance))).
    apply (bool_decide_unpack _). vm_compute. exact I.
  - apply (proj2 (attribute_catalog "current.n.rms" (key Id.InRms))). vm_compute. reflexivity.
Defined.
