(* ===== verification/RecordFormat.v ===== *)
(** * Record formats and word positions

    The constants of [common/msap1/meter/meter_record.hpp]: the format word of
    every record family, the word index of every field and the status, reason
    and reserved-bit masks.  Word indices are [nat] (they index the record's
    word array), values and masks are [Z]. *)
From S2P Require Import Prelude.

Definition meter_channel_count : nat := 8%nat.
Definition meter_record_word_count : nat := 64%nat.
Definition meter_record_size : Z := 256.
Definition meter_record_magic : Z := 0x3152544d.
Definition meter_periodic_format : Z := 0x00010004.
Definition meter_power_format : Z := 0x00070001.
Definition meter_phasor_format : Z := 0x00080002.
Definition meter_unbalance_format : Z := 0x00090002.
Definition meter_energy_format : Z := 0x00030001.
Definition meter_energy_part_summary : Z := 0.
Definition meter_energy_part_quadrants : Z := 1.
Definition meter_energy_part_count : Z := 2.
Definition meter_energy_last_sample_word : nat := 14%nat.
Definition meter_energy_summary_import_word : nat := 16%nat.
Definition meter_energy_summary_export_word : nat := 24%nat.
Definition meter_energy_summary_apparent_word : nat := 32%nat.
Definition meter_energy_session_word : nat := 48%nat.
Definition meter_energy_accepted_samples_word : nat := 50%nat.
Definition meter_energy_skipped_samples_word : nat := 52%nat.
Definition meter_energy_accepted_blocks_word : nat := 54%nat.
Definition meter_energy_skipped_blocks_word : nat := 55%nat.
Definition meter_demand_format : Z := 0x00040001.
Definition meter_demand_fixed_interval_seconds : Z := 600.
Definition meter_demand_default_window_seconds : Z := 60.
Definition meter_demand_sliding_update_seconds : Z := 3.
Definition meter_demand_last_sample_word : nat := 14%nat.
Definition meter_demand_current_word : nat := 16%nat.
Definition meter_demand_import_peak_word : nat := 24%nat.
Definition meter_demand_export_peak_word : nat := 32%nat.
Definition meter_demand_import_peak_anchor_word : nat := 40%nat.
Definition meter_demand_export_peak_anchor_word : nat := 48%nat.
Definition meter_demand_session_word : nat := 56%nat.
Definition meter_demand_interval_anchor_sample_word : nat := 58%nat.
Definition meter_demand_source_interval_count_word : nat := 60%nat.
Definition meter_demand_source_status_word : nat := 61%nat.
Definition meter_demand_profile_generation_word : nat := 62%nat.
Definition meter_aggregate_format : Z := 0x00020003.
Definition meter_aggregate_power_format : Z := 0x00100001.
Definition meter_aggregate_phasor_format : Z := 0x00110002.
Definition meter_aggregate_unbalance_format : Z := 0x00120002.
Definition meter_ten_minute_format : Z := 0x000c0001.
Definition meter_ten_minute_power_format : Z := 0x00130001.
Definition meter_ten_minute_phasor_format : Z := 0x00140002.
Definition meter_ten_minute_unbalance_format : Z := 0x00150002.
Definition meter_two_hour_format : Z := 0x000d0001.
Definition meter_two_hour_power_format : Z := 0x00160001.
Definition meter_two_hour_phasor_format : Z := 0x00170002.
Definition meter_two_hour_unbalance_format : Z := 0x00180002.
Definition meter_ten_minute_open_format : Z := 0x00200001.
Definition meter_ten_minute_open_power_format : Z := 0x00210001.
Definition meter_ten_minute_open_phasor_format : Z := 0x00220002.
Definition meter_ten_minute_open_unbalance_format : Z := 0x00230002.
Definition meter_two_hour_open_format : Z := 0x00240001.
Definition meter_two_hour_open_power_format : Z := 0x00250001.
Definition meter_two_hour_open_phasor_format : Z := 0x00260002.
Definition meter_two_hour_open_unbalance_format : Z := 0x00270002.
Definition meter_harmonic_format : Z := 0x00050001.
Definition meter_harmonic_aggregate_format : Z := 0x001f0001.
Definition meter_pq_event_format : Z := 0x000b0001.
Definition meter_pq_event_lifecycle_format : Z := 0x00060001.
Definition meter_flicker_format : Z := 0x000e0001.
Definition meter_mains_signal_format : Z := 0x000f0001.
Definition meter_frequency_10s_format : Z := 0x00280001.
Definition meter_frequency_10s_last_sample_word : nat := 14%nat.
Definition meter_frequency_10s_value_word : nat := 16%nat.
Definition meter_frequency_10s_cycle_count_word : nat := 17%nat.
Definition meter_frequency_10s_duration_q16_word : nat := 18%nat.
Definition meter_frequency_10s_first_crossing_q16_word : nat := 20%nat.
Definition meter_frequency_10s_last_crossing_q16_word : nat := 22%nat.
Definition meter_frequency_10s_end_sample_word : nat := 24%nat.
Definition meter_frequency_10s_utc_start_word : nat := 26%nat.
Definition meter_frequency_10s_utc_end_word : nat := 28%nat.
Definition meter_frequency_10s_utc_uncertainty_word : nat := 30%nat.
Definition meter_frequency_10s_measured_rate_word : nat := 32%nat.
Definition meter_frequency_10s_source_sequence_word : nat := 33%nat.
Definition meter_frequency_10s_boundary_generation_word : nat := 34%nat.
Definition meter_frequency_10s_source_status_word : nat := 35%nat.
Definition meter_frequency_10s_reason_word : nat := 36%nat.
Definition meter_frequency_10s_observer_drop_word : nat := 37%nat.
Definition meter_frequency_10s_guard_flags_word : nat := 38%nat.
Definition meter_frequency_10s_observed_crossings_word : nat := 39%nat.
Definition meter_frequency_10s_included_crossings_word : nat := 40%nat.
Definition meter_frequency_10s_rejected_cycles_word : nat := 41%nat.
Definition meter_frequency_10s_status_arithmetic_error : Z := Z.shiftl 1 0.
Definition meter_frequency_10s_status_result_valid : Z := Z.shiftl 1 1.
Definition meter_frequency_10s_status_time_aligned : Z := Z.shiftl 1 2.
Definition meter_frequency_10s_status_profile_supported : Z := Z.shiftl 1 3.
Definition meter_frequency_10s_status_time_synchronized : Z := Z.shiftl 1 4.
Definition meter_frequency_10s_status_filter_ready : Z := Z.shiftl 1 5.
Definition meter_frequency_10s_status_reference_valid : Z := Z.shiftl 1 6.
Definition meter_frequency_10s_status_discontinuity : Z := Z.shiftl 1 7.
Definition meter_frequency_10s_status_crossing_overflow : Z := Z.shiftl 1 8.
Definition meter_frequency_10s_status_observer_drop : Z := Z.shiftl 1 9.
Definition meter_frequency_10s_status_insufficient_crossings : Z := Z.shiftl 1 10.
Definition meter_frequency_10s_status_out_of_range : Z := Z.shiftl 1 11.
Definition meter_frequency_10s_status_transport_gap : Z := Z.shiftl 1 12.
Definition meter_frequency_10s_status_calibration_valid : Z := Z.shiftl 1 13.
Definition meter_frequency_10s_status_sample_rate_valid : Z := Z.shiftl 1 14.
Definition meter_frequency_10s_status_resynchronized : Z := Z.shiftl 1 15.
Definition meter_frequency_10s_status_mask : Z := 0x0000ffff.
Definition meter_frequency_10s_reason_unsupported_profile : Z := Z.shiftl 1 0.
Definition meter_frequency_10s_reason_time_unsynchronized : Z := Z.shiftl 1 1.
Definition meter_frequency_10s_reason_time_uncertainty : Z := Z.shiftl 1 2.
Definition meter_frequency_10s_reason_filter_warmup : Z := Z.shiftl 1 3.
Definition meter_frequency_10s_reason_reference_invalid : Z := Z.shiftl 1 4.
Definition meter_frequency_10s_reason_discontinuity : Z := Z.shiftl 1 5.
Definition meter_frequency_10s_reason_crossing_overflow : Z := Z.shiftl 1 6.
Definition meter_frequency_10s_reason_observer_drop : Z := Z.shiftl 1 7.
Definition meter_frequency_10s_reason_sample_rate_invalid : Z := Z.shiftl 1 8.
Definition meter_frequency_10s_reason_boundary_invalid : Z := Z.shiftl 1 9.
Definition meter_frequency_10s_reason_calibration_invalid : Z := Z.shiftl 1 10.
Definition meter_frequency_10s_reason_insufficient_crossings : Z := Z.shiftl 1 16.
Definition meter_frequency_10s_reason_out_of_range : Z := Z.shiftl 1 17.
Definition meter_frequency_10s_reason_arithmetic : Z := Z.shiftl 1 18.
Definition meter_frequency_10s_reason_transport_gap : Z := Z.shiftl 1 19.
Definition meter_frequency_10s_reason_cycle_geometry : Z := Z.shiftl 1 20.
Definition meter_frequency_10s_reason_time_geometry : Z := Z.shiftl 1 21.
Definition meter_frequency_10s_reason_mask : Z := 0x003f07ff.
Definition meter_frequency_10s_source_status_mask : Z := 0x000007ff.
Definition meter_frequency_10s_guard_flags_mask : Z := 0x0000000f.
Definition meter_frequency_10s_max_observed_crossings : Z := 1024.
Definition meter_event_lifecycle_start : Z := 0.
Definition meter_event_lifecycle_update : Z := 1.
Definition meter_event_lifecycle_end : Z := 2.
Definition meter_event_lifecycle_abort : Z := 3.
Definition meter_event_last_sample_word : nat := 14%nat.
Definition meter_event_id_word : nat := 16%nat.
Definition meter_event_profile_generation_word : nat := 20%nat.
Definition meter_event_threshold_word : nat := 21%nat.
Definition meter_event_hysteresis_word : nat := 22%nat.
Definition meter_event_waveform_policy_word : nat := 23%nat.
Definition meter_event_waveform_pre_ms_word : nat := 24%nat.
Definition meter_event_waveform_post_ms_word : nat := 25%nat.
Definition meter_event_reference_word : nat := 26%nat.
Definition meter_event_minimum_word : nat := 28%nat.
Definition meter_event_maximum_word : nat := 31%nat.
Definition meter_event_current_word : nat := 34%nat.
Definition meter_event_duration_word : nat := 37%nat.
Definition meter_event_trigger_sample_word : nat := 39%nat.
Definition meter_event_start_utc_ns_word : nat := 41%nat.
Definition meter_event_last_utc_ns_word : nat := 43%nat.
Definition meter_event_time_quality_word : nat := 45%nat.
Definition meter_event_discontinuity_word : nat := 46%nat.
Definition meter_event_settings_digest_word : nat := 48%nat.
Definition meter_flicker_kind_live : Z := 0.
Definition meter_flicker_kind_pst : Z := 1.
Definition meter_flicker_kind_plt : Z := 2.
Definition meter_flicker_last_sample_word : nat := 14%nat.
Definition meter_flicker_pinst_word : nat := 16%nat.
Definition meter_flicker_pst_word : nat := 19%nat.
Definition meter_flicker_plt_word : nat := 22%nat.
Definition meter_flicker_valid_count_word : nat := 25%nat.
Definition meter_flicker_interval_seconds_word : nat := 28%nat.
Definition meter_flicker_profile_generation_word : nat := 29%nat.
Definition meter_flicker_model_word : nat := 30%nat.
Definition meter_flicker_source_status_word : nat := 31%nat.
Definition meter_flicker_interval_first_word : nat := 32%nat.
Definition meter_mains_last_sample_word : nat := 14%nat.
Definition meter_mains_configured_millihz_word : nat := 16%nat.
Definition meter_mains_measured_millihz_word : nat := 17%nat.
Definition meter_mains_magnitude_word : nat := 18%nat.
Definition meter_mains_background_word : nat := 21%nat.
Definition meter_mains_bandwidth_millihz_word : nat := 24%nat.
Definition meter_mains_observation_ms_word : nat := 25%nat.
Definition meter_mains_profile_generation_word : nat := 26%nat.
Definition meter_mains_source_status_word : nat := 27%nat.
Definition meter_mains_threshold_e4_word : nat := 28%nat.
Definition meter_mains_reference_microvolts_word : nat := 29%nat.
Definition meter_single_cycle_format : Z := 0x000a0005.

Definition meter_energy_quadrant_words : list nat := [16; 24; 32; 40]%nat.
