(* ===== verification/MeterRecord.v ===== *)
(** * The fixed 256-byte meter record and its accessors

    Models [struct MeterRecord] of [common/msap1/meter/meter_record.hpp] and the
    small decoded status structures of the same header.  A record is the array
    of its sixty-four 32-bit words as the little-endian target reads them.

    [MeterRecord::word] throws for an index past the array ([word_checked]);
    every other accessor and decoder uses literal positions below sixty-four, so
    they are stated over the total projection [word], which [word_checked]
    returns on every such position. *)
From S2P Require Import Prelude RecordFormat.

Record MeterRecord := mkRecord { words : list Z }.

#[export] Instance MeterRecord_eq_dec : EqDecision MeterRecord.
Proof. solve_decision. Defined.

(** The type invariant of [std::array<std::uint32_t, 64>]. *)
Record record_wf (r : MeterRecord) : Prop := {
  rw_length : length (words r) = meter_record_word_count;
  rw_words : Forall (fun w => 0 <= w < 2 ^ 32) (words r)
}.

Definition word (r : MeterRecord) (index : nat) : Z := nth index (words r) 0.

Definition word_checked (r : MeterRecord) (index : nat) : result Z :=
  if (length (words r) <=? index)%nat
  then Throw (OutOfRange "meter record word index")
  else Ok (word r index).

Definition unsigned64 (r : MeterRecord) (low_word : nat) : Z :=
  Z.lor (word r low_word) (Z.shiftl (word r (low_word + 1)) 32).

Definition record_signed64 (r : MeterRecord) (low_word : nat) : Z :=
  s64 (unsigned64 r low_word).

(** ** Common envelope *)

Definition record_format (r : MeterRecord) : Z := word r 1.

Definition known_formats : list Z :=
  [meter_periodic_format; meter_power_format; meter_phasor_format;
   meter_unbalance_format; meter_energy_format; meter_demand_format;
   meter_aggregate_format; meter_aggregate_power_format;
   meter_aggregate_phasor_format; meter_aggregate_unbalance_format;
   meter_ten_minute_format; meter_ten_minute_power_format;
   meter_ten_minute_phasor_format; meter_ten_minute_unbalance_format;
   meter_two_hour_format; meter_two_hour_power_format;
   meter_two_hour_phasor_format; meter_two_hour_unbalance_format;
   meter_ten_minute_open_format; meter_ten_minute_open_power_format;
   meter_ten_minute_open_phasor_format; meter_ten_minute_open_unbalance_format;
   meter_two_hour_open_format; meter_two_hour_open_power_format;
   meter_two_hour_open_phasor_format; meter_two_hour_open_unbalance_format;
   meter_harmonic_format; meter_harmonic_aggregate_format;
   meter_pq_event_format; meter_pq_event_lifecycle_format;
   meter_flicker_format; meter_mains_signal_format;
   meter_frequency_10s_format; meter_single_cycle_format].

Definition header_valid (r : MeterRecord) : bool :=
  (word r 0 =? meter_record_magic) &&
  existsb (Z.eqb (record_format r)) known_formats &&
  (word r 2 =? meter_record_size).

Definition sequence (r : MeterRecord) : Z := word r 3.
Definition configuration_generation (r : MeterRecord) : Z := word r 4.
Definition sample_rate_hz (r : MeterRecord) : Z := word r 5.
Definition block_sample_count (r : MeterRecord) : Z := word r 6.
Definition valid_mask (r : MeterRecord) : Z := u8 (word r 7).
Definition status (r : MeterRecord) : Z := word r 8.
Definition first_sample_index (r : MeterRecord) : Z := unsigned64 r 9.
Definition emit_drops (r : MeterRecord) : Z := word r 11.
Definition result_drops (r : MeterRecord) : Z := word r 12.

(** ** ENERGY-v1 and DEMAND-v1 *)

Definition energy_part (r : MeterRecord) : Z := u8 (Z.land (word r 13) 0x3).
Definition energy_part_count (r : MeterRecord) : Z :=
  u8 (Z.land (Z.shiftr (word r 13) 2) 0x3).
Definition energy_family_complete (r : MeterRecord) : bool := bit (word r 13) 4.
Definition energy_category_valid_mask (r : MeterRecord) : Z :=
  u8 (Z.land (Z.shiftr (word r 13) 8) 0x0f).
Definition energy_last_sample_index (r : MeterRecord) : Z :=
  unsigned64 r meter_energy_last_sample_word.
Definition energy_session_id (r : MeterRecord) : Z :=
  unsigned64 r meter_energy_session_word.
Definition energy_accepted_samples (r : MeterRecord) : Z :=
  unsigned64 r meter_energy_accepted_samples_word.
Definition energy_skipped_samples (r : MeterRecord) : Z :=
  unsigned64 r meter_energy_skipped_samples_word.
Definition energy_accepted_blocks (r : MeterRecord) : Z :=
  word r meter_energy_accepted_blocks_word.
Definition energy_skipped_blocks (r : MeterRecord) : Z :=
  word r meter_energy_skipped_blocks_word.
Definition energy_complete (r : MeterRecord) : bool := bit (status r) 1.
Definition energy_incomplete_input (r : MeterRecord) : bool := bit (status r) 2.
Definition energy_saturated (r : MeterRecord) : bool := bit (status r) 3.
Definition energy_discontinuity (r : MeterRecord) : bool := bit (status r) 4.

Definition demand_interval_seconds (r : MeterRecord) : Z :=
  u16 (Z.land (word r 13) 0xffff).
Definition demand_valid_mask (r : MeterRecord) : Z :=
  u8 (Z.land (Z.shiftr (word r 13) 16) 0x0f).
Definition demand_method (r : MeterRecord) : Z :=
  u8 (Z.land (Z.shiftr (word r 13) 20) 0x03).
Definition demand_update_seconds (r : MeterRecord) : Z :=
  u16 (Z.land (Z.shiftr (word r 13) 22) 0x03ff).
Definition demand_profile_generation (r : MeterRecord) : Z :=
  word r meter_demand_profile_generation_word.
Definition demand_last_sample_index (r : MeterRecord) : Z :=
  unsigned64 r meter_demand_last_sample_word.
Definition demand_session_id (r : MeterRecord) : Z :=
  unsigned64 r meter_demand_session_word.
Definition demand_complete (r : MeterRecord) : bool := bit (status r) 1.
Definition demand_time_aligned (r : MeterRecord) : bool := bit (status r) 2.
Definition demand_contaminated (r : MeterRecord) : bool := bit (status r) 3.
Definition demand_boundary_valid (r : MeterRecord) : bool := bit (status r) 4.
Definition demand_saturated (r : MeterRecord) : bool := bit (status r) 5.
Definition demand_incomplete_input (r : MeterRecord) : bool := bit (status r) 6.

(** ** BASIC-v4 *)

Record MeterTimingWord := mkTimingWord {
  tw_nominal_frequency_hz : Z;
  tw_cycle_count : Z;
  tw_cycle_locked : bool;
  tw_free_run_fallback : bool;
  tw_first_block_after_apply : bool;
  tw_utc_resynchronized : bool
}.

Definition timing (r : MeterRecord) : MeterTimingWord :=
  let timing_word := word r 13 in
  mkTimingWord (u8 (Z.land timing_word 0xff))
    (u8 (Z.land (Z.shiftr timing_word 8) 0xff))
    (bit timing_word 16) (bit timing_word 17) (bit timing_word 18)
    (bit timing_word 19).

Record MeterChannelReading := mkChannelReading {
  mc_valid : bool;
  mc_mean_micro_units : Z;
  mc_rms_count : Z;
  mc_rms_micro_units : Z
}.

Definition channel (r : MeterRecord) (index : nat) : result MeterChannelReading :=
  if (meter_channel_count <=? index)%nat
  then Throw (OutOfRange "meter channel index")
  else
    let base := (16 + index * 5)%nat in
    Ok (mkChannelReading (bit (valid_mask r) (Z.of_nat index))
          (record_signed64 r base) (word r (base + 2)) (record_signed64 r (base + 3))).

Record MeterFrequencyReading := mkFrequencyReading {
  mf_enabled : bool;
  mf_valid : bool;
  mf_reference_valid : bool;
  mf_out_of_range : bool;
  mf_timed_out : bool;
  mf_arithmetic_error : bool;
  mf_millihz : Z;
  mf_period_q16_samples : Z;
  mf_measurement_sequence : Z;
  mf_mode : Z;
  mf_reference_channel : Z;
  mf_cycles_used : Z
}.

Definition frequency (r : MeterRecord) : MeterFrequencyReading :=
  let frequency_status := word r 57 in
  mkFrequencyReading (bit frequency_status 0) (bit frequency_status 1)
    (bit frequency_status 2) (bit frequency_status 5) (bit frequency_status 6)
    (bit frequency_status 7) (word r 56) (word r 58) (word r 59)
    (u8 (Z.land (Z.shiftr frequency_status 8) 0x7))
    (u8 (Z.land (Z.shiftr frequency_status 12) 0xf))
    (u8 (Z.land (Z.shiftr frequency_status 16) 0xff)).

Definition capture_frames (r : MeterRecord) : Z := word r 60.
Definition header_errors (r : MeterRecord) : Z := word r 61.
Definition fifo_overflows (r : MeterRecord) : Z := word r 62.
Definition adc_alerts (r : MeterRecord) : Z := word r 63.

(** ** AGG-v3 *)

Definition aggregate_sequence (r : MeterRecord) : Z := sequence r.
Definition aggregate_sample_count (r : MeterRecord) : Z := block_sample_count r.
Definition aggregate_first_sample_index (r : MeterRecord) : Z := first_sample_index r.

Record MeterAggregateStatus := mkAggregateStatus {
  ms_arithmetic_error : bool;
  ms_complete : bool;
  ms_frequency_valid : bool;
  ms_utc_overlap : bool;
  ms_utc_resynchronized : bool
}.

Definition aggregate_status (r : MeterRecord) : MeterAggregateStatus :=
  let status_word := word r 8 in
  mkAggregateStatus (bit status_word 0) (bit status_word 1) (bit status_word 2)
    (bit status_word 3) (bit status_word 4).

Record MeterAggregateComposition := mkAggregateComposition {
  ac_basic_block_count : Z;
  ac_nominal_frequency_hz : Z;
  ac_cycle_count : Z
}.

Definition aggregate_composition (r : MeterRecord) : MeterAggregateComposition :=
  let composition_word := word r 13 in
  mkAggregateComposition (u8 (Z.land composition_word 0xff))
    (u8 (Z.land (Z.shiftr composition_word 8) 0xff))
    (u16 (Z.shiftr composition_word 16)).

Definition first_basic_sequence (r : MeterRecord) : Z := word r 14.
Definition last_basic_sequence (r : MeterRecord) : Z := word r 15.

Definition aggregate_rms_micro_units (r : MeterRecord) (index : nat) : result Z :=
  if (meter_channel_count <=? index)%nat
  then Throw (OutOfRange "meter channel index")
  else Ok (record_signed64 r (16 + index * 2)).

Definition aggregate_frequency_millihz (r : MeterRecord) : Z := word r 32.
Definition aggregate_reset_count (r : MeterRecord) : Z := word r 33.
Definition aggregate_ineligible_count (r : MeterRecord) : Z := word r 34.
Definition aggregate_continuity_count (r : MeterRecord) : Z := word r 35.
Definition aggregate_last_sample_index (r : MeterRecord) : Z := unsigned64 r 36.

(** ** TEN-MINUTE and TWO-HOUR *)

Record MeterTenMinuteStatus := mkTenMinuteStatus {
  ts_arithmetic_error : bool;
  ts_complete : bool;
  ts_time_aligned : bool;
  ts_contaminated : bool;
  ts_boundary_valid : bool;
  ts_open_interval : bool;
  ts_non_normative : bool
}.

Definition ten_minute_status (r : MeterRecord) : MeterTenMinuteStatus :=
  let status_word := word r 8 in
  mkTenMinuteStatus (bit status_word 0) (bit status_word 1) (bit status_word 2)
    (bit status_word 3) (bit status_word 4) (bit status_word 5) (bit status_word 6).

Record MeterTenMinuteComposition := mkTenMinuteComposition {
  tc_basic_block_count : Z;
  tc_nominal_frequency_hz : Z;
  tc_flags : Z;
  tc_cycle_count : Z
}.

Definition ten_minute_composition (r : MeterRecord) : MeterTenMinuteComposition :=
  let shape := word r 13 in
  mkTenMinuteComposition (u16 (Z.land shape 0xffff))
    (u8 (Z.land (Z.shiftr shape 16) 0xff)) (u8 (Z.land (Z.shiftr shape 24) 0xff))
    (word r 41).

Definition ten_minute_actual_last_sample_index (r : MeterRecord) : Z := unsigned64 r 36.
Definition ten_minute_target_sample_index (r : MeterRecord) : Z := unsigned64 r 42.
Definition ten_minute_overshoot_samples (r : MeterRecord) : Z := word r 44.
Definition two_hour_status (r : MeterRecord) : MeterTenMinuteStatus := ten_minute_status r.
Definition two_hour_composition (r : MeterRecord) : MeterTenMinuteComposition :=
  ten_minute_composition r.
Definition two_hour_actual_last_sample_index (r : MeterRecord) : Z :=
  ten_minute_actual_last_sample_index r.
Definition two_hour_target_sample_index (r : MeterRecord) : Z :=
  ten_minute_target_sample_index r.
Definition two_hour_overshoot_samples (r : MeterRecord) : Z :=
  ten_minute_overshoot_samples r.

(** ** FREQUENCY-10S *)

Definition frequency_10s_nominal_hz (r : MeterRecord) : Z := u8 (word r 13).
Definition frequency_10s_reference_channel (r : MeterRecord) : Z :=
  u8 (Z.shiftr (word r 13) 8).
Definition frequency_10s_filter_profile (r : MeterRecord) : Z :=
  u8 (Z.shiftr (word r 13) 16).
Definition frequency_10s_calibration_profile (r : MeterRecord) : Z :=
  u8 (Z.shiftr (word r 13) 24).
Definition frequency_10s_last_sample_index (r : MeterRecord) : Z :=
  unsigned64 r meter_frequency_10s_last_sample_word.
Definition frequency_10s_end_sample_index (r : MeterRecord) : Z :=
  unsigned64 r meter_frequency_10s_end_sample_word.
Definition frequency_10s_utc_start_nanoseconds (r : MeterRecord) : Z :=
  unsigned64 r meter_frequency_10s_utc_start_word.
Definition frequency_10s_utc_end_nanoseconds (r : MeterRecord) : Z :=
  unsigned64 r meter_frequency_10s_utc_end_word.
Definition frequency_10s_utc_uncertainty_nanoseconds (r : MeterRecord) : Z :=
  unsigned64 r meter_frequency_10s_utc_uncertainty_word.

(** ** Lemmas *)

(** Records for examples: word [i] is the value listed for [i], zero otherwise. *)
Definition build_record (fields : list (Z * Z)) : MeterRecord :=
  mkRecord (map (fun i => match find (fun p => fst p =? Z.of_nat i) fields with
                          | Some (_, v) => v | None => 0 end)
                (seq 0 meter_record_word_count)).

Lemma word_fits r i : record_wf r -> 0 <= word r i < 2 ^ 32.
Proof.
  intros [Hl Hw]. unfold word.
  destruct (Nat.lt_ge_cases i (length (words r))) as [H|H].
  - rewrite Forall_forall in Hw. apply Hw, nth_In, H.
  - rewrite nth_overflow by lia. lia.
Qed.

Lemma word_checked_ok r i :
  record_wf r -> (i < meter_record_word_count)%nat -> word_checked r i = Ok (word r i).
Proof.
  intros [Hl _] Hi. unfold word_checked. rewrite Hl.
  destruct (Nat.leb_spec meter_record_word_count i); [lia|done].
Qed.

Lemma lor_shift_add a b n :
  0 <= n -> 0 <= a < 2 ^ n -> 0 <= b -> Z.lor a (Z.shiftl b n) = a + b * 2 ^ n.
Proof.
  intros Hn Ha Hb. rewrite <- Z.shiftl_mul_pow2 by lia.
  assert (Z.land a (Z.shiftl b n) = 0) as H0.
  { apply Z.bits_inj'. intros k Hk.
    rewrite Z.land_spec, Z.testbit_0_l, Z.shiftl_spec by lia.
    destruct (Z.lt_ge_cases k n).
    - rewrite (Z.testbit_neg_r b) by lia. apply andb_false_r.
    - rewrite <- (Z.mod_small a (2 ^ n)), Z.mod_pow2_bits_high by lia. done. }
  rewrite Z.add_nocarry_lxor by done. by rewrite Z.lxor_lor.
Qed.

Lemma unsigned64_add r i :
  record_wf r -> unsigned64 r i = word r i + word r (i + 1) * 2 ^ 32.
Proof.
  intros Hr. unfold unsigned64.
  pose proof (word_fits r i Hr). pose proof (word_fits r (i + 1) Hr).
  apply lor_shift_add; lia.
Qed.

Lemma unsigned64_fits r i : record_wf r -> 0 <= unsigned64 r i < 2 ^ 64.
Proof.
  intros Hr. rewrite unsigned64_add by done.
  pose proof (word_fits r i Hr). pose proof (word_fits r (i + 1) Hr). lia.
Qed.

Lemma record_signed64_fits r i :
  INT64_MIN <= record_signed64 r i <= INT64_MAX.
Proof.
  pose proof (sign_range 64 (unsigned64 r i) ltac:(lia)).
  unfold record_signed64, INT64_MIN, INT64_MAX. lia.
Qed.

(** The executable well-formedness test, for concrete records. *)
Definition record_wfb (r : MeterRecord) : bool :=
  Nat.eqb (length (words r)) meter_record_word_count && forallb (fits 32) (words r).

Lemma record_wfb_iff r : record_wfb r = true <-> record_wf r.
Proof.
  unfold record_wfb. rewrite andb_true_iff, Nat.eqb_eq, forallb_forall. split.
  - intros [H1 H2]. split; [done|]. rewrite Forall_forall.
    intros x Hx. apply fits_iff, H2, Hx.
  - intros [H1 H2]. split; [done|]. rewrite Forall_forall in H2.
    intros x Hx. apply fits_iff, H2, Hx.
Qed.

#[export] Hint Resolve word_fits unsigned64_fits record_signed64_fits : msap1.

(** [word_bounds] adds the 32/64-bit range of every word and doubleword that
    occurs in the goal or the context of a well-formed record. *)
Ltac word_bounds :=
  repeat match goal with
  | Hr : record_wf ?r, H : context [unsigned64 ?r ?i] |- _ =>
      lazymatch goal with
      | _ : 0 <= unsigned64 r i < 2 ^ 64 |- _ => fail
      | _ => pose proof (unsigned64_fits r i Hr)
      end
  | Hr : record_wf ?r |- context [unsigned64 ?r ?i] =>
      lazymatch goal with
      | _ : 0 <= unsigned64 r i < 2 ^ 64 |- _ => fail
      | _ => pose proof (unsigned64_fits r i Hr)
      end
  | Hr : record_wf ?r, H : context [word ?r ?i] |- _ =>
      lazymatch goal with
      | _ : 0 <= word r i < 2 ^ 32 |- _ => fail
      | _ => pose proof (word_fits r i Hr)
      end
  | Hr : record_wf ?r |- context [word ?r ?i] =>
      lazymatch goal with
      | _ : 0 <= word r i < 2 ^ 32 |- _ => fail
      | _ => pose proof (word_fits r i Hr)
      end
  end.
