(* ===== verification/MeterData.v ===== *)
(** * Decoded meter values, the latest-value store and its subscribers

    Models the value types of [common/msap1/meter/meter_data.hpp] and the
    classes [MeterLatestStore] and [MeterData] of
    [common/msap1/meter/meter_data.cpp].  Times are nanoseconds; every
    [system_clock::now()] the code reads is an explicit argument.  Both classes
    serialise their operations with a mutex, so an operation is one function on
    the state; the delivery worker of a subscription is a separate step. *)
From stdpp Require Import gmap.
From S2P Require Import Prelude MeterTiming.

(** ** Value types *)

Inductive RecordKind :=
  | kind_fundamental | kind_power | kind_energy | kind_demand | kind_power_quality
  | kind_phasor | kind_unbalance | kind_harmonic | kind_power_quality_event
  | kind_flicker | kind_mains_signal | kind_frequency_10s.

Inductive MeasurementQuality :=
  | unavailable | valid | invalid | out_of_range | timed_out | arithmetic_error.

#[export] Instance RecordKind_eq_dec : EqDecision RecordKind.
Proof. solve_decision. Defined.
#[export] Instance MeasurementQuality_eq_dec : EqDecision MeasurementQuality.
Proof. solve_decision. Defined.

(** The unit tags are empty types, as in the source. *)
Inductive MilliHertz : Set := .
Inductive MicroVolts : Set := .
Inductive Picowatts : Set := .
Inductive PicoVoltAmperes : Set := .
Inductive PowerFactorMillionths : Set := .
Inductive CrestTenThousandths : Set := .
Inductive Picovars : Set := .
Inductive Millidegrees : Set := .
Inductive RatioMillionths : Set := .
Inductive MicroAmperes : Set := .
Inductive MicroWatts : Set := .
Inductive MicroWattHours : Set := .
Inductive MicroVarHours : Set := .
Inductive MicroVoltAmpereHours : Set := .

Record SampleWindow := mkWindow { sw_sample_count : Z; sw_duration : Z }.

#[export] Instance SampleWindow_eq_dec : EqDecision SampleWindow.
Proof. solve_decision. Defined.

Record Reading (Unit : Set) := mkReading {
  r_value : Z;
  r_quality : MeasurementQuality;
  r_source_sequence : Z;
  r_measured_at : Z;
  r_window : SampleWindow
}.
Arguments mkReading {Unit} _ _ _ _ _.
Arguments r_value {Unit} _.
Arguments r_quality {Unit} _.
Arguments r_source_sequence {Unit} _.
Arguments r_measured_at {Unit} _.
Arguments r_window {Unit} _.

Definition reading_available {U} (r : Reading U) : bool :=
  bool_decide (r_quality r <> unavailable).
Definition reading_valid {U} (r : Reading U) : bool := bool_decide (r_quality r = valid).

Definition no_window : SampleWindow := mkWindow 0 0.
Definition no_reading {U} : Reading U := mkReading 0 unavailable 0 0 no_window.

Record PhaseABC (T : Type) := mkABC { abc_a : T; abc_b : T; abc_c : T }.
Arguments mkABC {T} _ _ _.
Arguments abc_a {T} _.
Arguments abc_b {T} _.
Arguments abc_c {T} _.

Record PhaseABCN (T : Type) := mkABCN { abcn_a : T; abcn_b : T; abcn_c : T; abcn_n : T }.
Arguments mkABCN {T} _ _ _ _.
Arguments abcn_a {T} _.
Arguments abcn_b {T} _.
Arguments abcn_c {T} _.
Arguments abcn_n {T} _.

Record PhaseABCTotal (T : Type) := mkABCT {
  abct_a : T; abct_b : T; abct_c : T; abct_total : T }.
Arguments mkABCT {T} _ _ _ _.
Arguments abct_a {T} _.
Arguments abct_b {T} _.
Arguments abct_c {T} _.
Arguments abct_total {T} _.

Definition all_abc {T} (x : T) : PhaseABC T := mkABC x x x.
Definition all_abcn {T} (x : T) : PhaseABCN T := mkABCN x x x x.
Definition all_abct {T} (x : T) : PhaseABCTotal T := mkABCT x x x x.

Record FundamentalValues := mkFundamental {
  fv_frequency : Reading MilliHertz;
  fv_voltage_ln : PhaseABC (Reading MicroVolts);
  fv_current : PhaseABCN (Reading MicroAmperes);
  fv_voltage_ll : PhaseABC (Reading MicroVolts)
}.

Record PowerValues := mkPower {
  pv_active_power : PhaseABC (Reading Picowatts);
  pv_apparent_power : PhaseABC (Reading PicoVoltAmperes);
  pv_power_factor : PhaseABC (Reading PowerFactorMillionths);
  pv_total_active_power : Reading Picowatts;
  pv_total_apparent_power : Reading PicoVoltAmperes;
  pv_total_power_factor : Reading PowerFactorMillionths;
  pv_voltage_crest : PhaseABC (Reading CrestTenThousandths);
  pv_current_crest : PhaseABCN (Reading CrestTenThousandths)
}.

Inductive LoadNature := undefined | unity | lagging | leading.

#[export] Instance LoadNature_eq_dec : EqDecision LoadNature.
Proof. solve_decision. Defined.

Record PhasorValues := mkPhasor {
  ph_fundamental_voltage : PhaseABC (Reading MicroVolts);
  ph_fundamental_current : PhaseABCN (Reading MicroAmperes);
  ph_fundamental_voltage_ll : PhaseABC (Reading MicroVolts);
  ph_voltage_angle : PhaseABC (Reading Millidegrees);
  ph_current_angle : PhaseABCN (Reading Millidegrees);
  ph_voltage_ll_angle : PhaseABC (Reading Millidegrees);
  ph_displacement_angle : PhaseABC (Reading Millidegrees);
  ph_reactive_power : PhaseABC (Reading Picovars);
  ph_total_reactive_power : Reading Picovars;
  ph_fundamental_active_power : PhaseABC (Reading Picowatts);
  ph_total_fundamental_active_power : Reading Picowatts;
  ph_displacement_power_factor : PhaseABC (Reading PowerFactorMillionths);
  ph_total_displacement_power_factor : Reading PowerFactorMillionths;
  ph_load_nature : PhaseABC LoadNature;
  ph_total_load_nature : LoadNature;
  ph_angle_reference_valid : bool;
  ph_phasor_invalid : bool
}.

Record UnbalanceValues := mkUnbalance {
  ub_voltage_zero_sequence : Reading MicroVolts;
  ub_voltage_positive_sequence : Reading MicroVolts;
  ub_voltage_negative_sequence : Reading MicroVolts;
  ub_voltage_zero_angle : Reading Millidegrees;
  ub_voltage_positive_angle : Reading Millidegrees;
  ub_voltage_negative_angle : Reading Millidegrees;
  ub_current_zero_sequence : Reading MicroAmperes;
  ub_current_positive_sequence : Reading MicroAmperes;
  ub_current_negative_sequence : Reading MicroAmperes;
  ub_current_zero_angle : Reading Millidegrees;
  ub_current_positive_angle : Reading Millidegrees;
  ub_current_negative_angle : Reading Millidegrees;
  ub_voltage_zero_ratio : Reading RatioMillionths;
  ub_voltage_unbalance : Reading RatioMillionths;
  ub_current_zero_ratio : Reading RatioMillionths;
  ub_current_unbalance : Reading RatioMillionths;
  ub_angle_reference_valid : bool;
  ub_phasor_invalid : bool
}.

Inductive EnergyQuadrant := quadrant_i | quadrant_ii | quadrant_iii | quadrant_iv
  | quadrant_none.

Definition classify_energy_quadrant (active_power fundamental_reactive_power : Z)
  : EnergyQuadrant :=
  if fundamental_reactive_power =? 0 then quadrant_none
  else if 0 <? fundamental_reactive_power
  then (if active_power <? 0 then quadrant_ii else quadrant_i)
  else (if active_power <? 0 then quadrant_iii else quadrant_iv).

Record EnergyValues := mkEnergy {
  en_active_import : PhaseABCTotal (Reading MicroWattHours);
  en_active_export : PhaseABCTotal (Reading MicroWattHours);
  en_apparent : PhaseABCTotal (Reading MicroVoltAmpereHours);
  en_reactive_i : PhaseABCTotal (Reading MicroVarHours);
  en_reactive_ii : PhaseABCTotal (Reading MicroVarHours);
  en_reactive_iii : PhaseABCTotal (Reading MicroVarHours);
  en_reactive_iv : PhaseABCTotal (Reading MicroVarHours);
  en_session_id : Z;
  en_last_sample_index : Z;
  en_accepted_samples : Z;
  en_skipped_samples : Z;
  en_accepted_blocks : Z;
  en_skipped_blocks : Z;
  en_reset_epoch : Z;
  en_saturated : bool;
  en_incomplete_input : bool;
  en_discontinuity : bool
}.

Inductive DemandMethod := fixed_block | sliding.

#[export] Instance DemandMethod_eq_dec : EqDecision DemandMethod.
Proof. solve_decision. Defined.

Record DemandValues := mkDemand {
  de_current_active : PhaseABCTotal (Reading MicroWatts);
  de_import_peak : PhaseABCTotal (Reading MicroWatts);
  de_export_peak : PhaseABCTotal (Reading MicroWatts);
  de_import_peak_sample : PhaseABCTotal Z;
  de_export_peak_sample : PhaseABCTotal Z;
  de_session_id : Z;
  de_last_sample_index : Z;
  de_interval_anchor_sample : Z;
  de_source_interval_count : Z;
  de_source_status : Z;
  de_window_seconds : Z;
  de_update_seconds : Z;
  de_profile_generation : Z;
  de_peak_reset_epoch : Z;
  de_method : DemandMethod;
  de_time_aligned : bool;
  de_contaminated : bool;
  de_boundary_valid : bool;
  de_saturated : bool;
  de_incomplete_input : bool
}.

Inductive PowerQualityRecordKind := pq_periodic | pq_event_start | pq_event_end.
Inductive PowerQualityEventType := pq_none | pq_sag | pq_swell | pq_interruption.

Record PowerQualityValues := mkPowerQuality {
  pq_kind : PowerQualityRecordKind;
  pq_event_type : PowerQualityEventType;
  pq_affected_phases : Z;
  pq_armed : bool;
  pq_cycle_locked : bool;
  pq_synthetic_half_cycle : bool;
  pq_voltage : PhaseABC (Reading MicroVolts);
  pq_voltage_minimum : PhaseABC (Reading MicroVolts);
  pq_voltage_maximum : PhaseABC (Reading MicroVolts);
  pq_current : PhaseABC (Reading MicroAmperes);
  pq_event_sequence : Z;
  pq_duration_samples : Z;
  pq_half_cycle_updates : Z;
  pq_reference_micro_volts : Z;
  pq_sag_threshold_e4 : Z;
  pq_swell_threshold_e4 : Z;
  pq_interruption_threshold_e4 : Z;
  pq_hysteresis_e4 : Z
}.

Record Frequency10sMetadata := mkFrequency10s {
  f10_interval_end_sample_index : Z;
  f10_utc_start_nanoseconds : Z;
  f10_utc_end_nanoseconds : Z;
  f10_utc_uncertainty_nanoseconds : Z;
  f10_measured_sample_rate_millihz : Z;
  f10_source_sequence : Z;
  f10_boundary_generation : Z;
  f10_source_status : Z;
  f10_status : Z;
  f10_reasons : Z;
  f10_observer_drop_count : Z;
  f10_guard_flags : Z;
  f10_observed_crossings : Z;
  f10_included_crossings : Z;
  f10_rejected_cycles : Z;
  f10_duration_q16_samples : Z;
  f10_first_crossing_q16_samples : Z;
  f10_last_crossing_q16_samples : Z;
  f10_nominal_frequency_hz : Z;
  f10_reference_channel : Z;
  f10_filter_profile : Z;
  f10_calibration_profile : Z
}.

Record MeterUpdate := mkUpdate {
  mu_period : MeasurementPeriod;
  mu_kind : RecordKind;
  mu_sequence : Z;
  mu_configuration_generation : Z;
  mu_fundamental : option FundamentalValues;
  mu_power : option PowerValues;
  mu_phasor : option PhasorValues;
  mu_unbalance : option UnbalanceValues;
  mu_energy : option EnergyValues;
  mu_demand : option DemandValues;
  mu_power_quality : option PowerQualityValues;
  mu_frequency_10s : option Frequency10sMetadata;
  mu_timing : option BlockTiming;
  mu_aggregate_timing : option AggregateTiming
}.

(** The value-initialised groups a fresh period view starts from. *)
Definition no_fundamental : FundamentalValues :=
  mkFundamental no_reading (all_abc no_reading) (all_abcn no_reading) (all_abc no_reading).
Definition no_power : PowerValues :=
  mkPower (all_abc no_reading) (all_abc no_reading) (all_abc no_reading)
    no_reading no_reading no_reading (all_abc no_reading) (all_abcn no_reading).
Definition no_phasor : PhasorValues :=
  mkPhasor (all_abc no_reading) (all_abcn no_reading) (all_abc no_reading)
    (all_abc no_reading) (all_abcn no_reading) (all_abc no_reading) (all_abc no_reading)
    (all_abc no_reading) no_reading (all_abc no_reading) no_reading (all_abc no_reading)
    no_reading (all_abc undefined) undefined false false.
Definition no_unbalance : UnbalanceValues :=
  mkUnbalance no_reading no_reading no_reading no_reading no_reading no_reading
    no_reading no_reading no_reading no_reading no_reading no_reading
    no_reading no_reading no_reading no_reading false false.
Definition no_energy : EnergyValues :=
  mkEnergy (all_abct no_reading) (all_abct no_reading) (all_abct no_reading)
    (all_abct no_reading) (all_abct no_reading) (all_abct no_reading) (all_abct no_reading)
    0 0 0 0 0 0 0 false false false.
Definition no_demand : DemandValues :=
  mkDemand (all_abct no_reading) (all_abct no_reading) (all_abct no_reading)
    (all_abct 0) (all_abct 0) 0 0 0 0 0 0 0 0 0 sliding false false false false false.
Definition no_power_quality : PowerQualityValues :=
  mkPowerQuality pq_periodic pq_none 0 false false false (all_abc no_reading)
    (all_abc no_reading) (all_abc no_reading) (all_abc no_reading) 0 0 0 0 0 0 0 0.

Record MeterValues := mkValues {
  mv_fundamental : FundamentalValues;
  mv_power : PowerValues;
  mv_phasor : PhasorValues;
  mv_unbalance : UnbalanceValues;
  mv_energy : EnergyValues;
  mv_demand : DemandValues;
  mv_power_quality : PowerQualityValues
}.

Record MeterPeriodView := mkView {
  pview_period : MeasurementPeriod;
  pview_latest_sequence : Z;
  pview_configuration_generation : Z;
  pview_updated_at : Z;
  pview_values : MeterValues;
  pview_timing : option BlockTiming;
  pview_aggregate_timing : option AggregateTiming;
  pview_frequency_10s : option Frequency10sMetadata
}.

Definition new_view (period : MeasurementPeriod) : MeterPeriodView :=
  mkView period 0 0 0
    (mkValues no_fundamental no_power no_phasor no_unbalance no_energy no_demand
       no_power_quality) None None None.

(** ** MeterLatestStore *)

Definition period_count : nat := 8.

Definition period_index (period : MeasurementPeriod) : nat :=
  match period with
  | Basic => 0 | Cycles150_180 => 1 | Min10 => 2 | Hour2 => 3 | Min10Live => 4
  | Hour2Live => 5 | Demand => 6 | Seconds10 => 7
  end%nat.

(** [std::array<std::optional<MeterPeriodView>, 8>] *)
Abbreviation MeterLatestStore := (list (option MeterPeriodView)).

Definition empty_store : MeterLatestStore := replicate period_count None.

Definition store_latest (store : MeterLatestStore) (period : MeasurementPeriod)
  : option MeterPeriodView := mjoin (store !! period_index period).

(** [if (update.group) slot->group = *update.group;] for every group. *)
Definition merge_update (now : Z) (update : MeterUpdate) (slot : MeterPeriodView)
  : MeterPeriodView :=
  let v := pview_values slot in
  let keep {A} (o : option A) (old : A) : A := default old o in
  let keep_opt {A} (o old : option A) : option A :=
    match o with Some _ => o | None => old end in
  mkView (pview_period slot) (mu_sequence update) (mu_configuration_generation update) now
    (mkValues (keep (mu_fundamental update) (mv_fundamental v))
       (keep (mu_power update) (mv_power v))
       (keep (mu_phasor update) (mv_phasor v))
       (keep (mu_unbalance update) (mv_unbalance v))
       (keep (mu_energy update) (mv_energy v))
       (keep (mu_demand update) (mv_demand v))
       (keep (mu_power_quality update) (mv_power_quality v)))
    (keep_opt (mu_timing update) (pview_timing slot))
    (keep_opt (mu_aggregate_timing update) (pview_aggregate_timing slot))
    (keep_opt (mu_frequency_10s update) (pview_frequency_10s slot)).

Definition store_apply (now : Z) (update : MeterUpdate) (store : MeterLatestStore)
  : MeterLatestStore :=
  let period := mu_period update in
  let slot := default (new_view period) (store_latest store period) in
  let slot := if mu_sequence update <? pview_latest_sequence slot then slot
              else merge_update now update slot in
  <[period_index period := Some slot]> store.

(** ** MeterData: subscriptions *)

Record Subscriber := mkSubscriber {
  sub_period : MeasurementPeriod;
  sub_pending : option MeterPeriodView;
  sub_accepting : bool
}.

Record MeterDataState := mkMeterData {
  md_latest : MeterLatestStore;
  md_next_id : Z;
  md_subscribers : gmap Z Subscriber
}.

Definition new_meter_data : MeterDataState := mkMeterData empty_store 1 ∅.

(** [Subscriber::publish]: replace the unread view. *)
Definition publish (view : MeterPeriodView) (s : Subscriber) : Subscriber :=
  if sub_accepting s then mkSubscriber (sub_period s) (Some view) true else s.

Definition meter_data_apply (now : Z) (update : MeterUpdate) (st : MeterDataState)
  : MeterDataState :=
  let store := store_apply now update (md_latest st) in
  match store_latest store (mu_period update) with
  | None => mkMeterData store (md_next_id st) (md_subscribers st)
  | Some view =>
      mkMeterData store (md_next_id st)
        ((fun s => if bool_decide (sub_period s = mu_period update)
                   then publish view s else s) <$> md_subscribers st)
  end.

(** [MeterData::subscribe]; the callback itself is outside the model, its
    emptiness test is the argument [has_callback]. *)
Definition meter_data_subscribe (period : MeasurementPeriod) (has_callback : bool)
    (st : MeterDataState) : result (Z * MeterDataState) :=
  reject_if (negb has_callback)
    (InvalidArgument "meter subscription callback is empty") ;;
  let id := md_next_id st in
  (* unordered_map::emplace keeps an existing entry *)
  let subs := match md_subscribers st !! id with
              | Some _ => md_subscribers st
              | None => <[id := mkSubscriber period None true]> (md_subscribers st) end in
  Ok (id, mkMeterData (md_latest st) (u64 (id + 1)) subs).

(** [Subscription::~Subscription]: drop the entry, then stop it. *)
Definition meter_data_unsubscribe (id : Z) (st : MeterDataState) : MeterDataState :=
  if id =? 0 then st
  else mkMeterData (md_latest st) (md_next_id st) (delete id (md_subscribers st)).

(** One turn of [Subscriber::run]: take the pending view, if any. *)
Definition subscriber_take (id : Z) (st : MeterDataState)
  : option MeterPeriodView * MeterDataState :=
  match md_subscribers st !! id with
  | Some s =>
      if sub_accepting s
      then (sub_pending s,
            mkMeterData (md_latest st) (md_next_id st)
              (<[id := mkSubscriber (sub_period s) None true]> (md_subscribers st)))
      else (None, st)
  | None => (None, st)
  end.

(** ** Lemmas *)

Lemma period_index_inj p q : period_index p = period_index q -> p = q.
Proof. by destruct p, q. Qed.

Lemma period_index_lt p : (period_index p < period_count)%nat.
Proof. destruct p; unfold period_count; simpl; lia. Qed.

Lemma store_apply_length now u store :
  length (store_apply now u store) = length store.
Proof. apply length_insert. Qed.

(** The slot an update leaves in its own period. *)
Definition next_slot (now : Z) (u : MeterUpdate) (old : option MeterPeriodView)
  : MeterPeriodView :=
  let slot := default (new_view (mu_period u)) old in
  if mu_sequence u <? pview_latest_sequence slot then slot else merge_update now u slot.

Lemma store_latest_apply now u store p :
  length store = period_count ->
  store_latest (store_apply now u store) p =
  if decide (mu_period u = p) then Some (next_slot now u (store_latest store p))
  else store_latest store p.
Proof.
  intros Hl. unfold store_latest at 1, store_apply. case_decide as Hp.
  - subst p. rewrite list_lookup_insert_eq; [done|].
    rewrite Hl. apply period_index_lt.
  - rewrite list_lookup_insert_ne; [done|].
    intros H. by apply Hp, period_index_inj.
Qed.

(** The abstract view of a period: which updates count, in order, and the
    sequence the next one is compared with. *)
Definition accept_step (p : MeasurementPeriod) (s : Z * list MeterUpdate)
    (u : MeterUpdate) : Z * list MeterUpdate :=
  if decide (mu_period u = p)
  then if mu_sequence u <? s.1 then s else (mu_sequence u, s.2 ++ [u])
  else s.

Definition accepted (p : MeasurementPeriod) (us : list MeterUpdate)
  : Z * list MeterUpdate := fold_left (accept_step p) us (0, []).

(** The newest value a list of updates carries for one group. *)
Definition last_carried {A} (group : MeterUpdate -> option A) (us : list MeterUpdate)
  : option A :=
  fold_left (fun acc u => match group u with Some v => Some v | None => acc end) us None.

Lemma last_carried_snoc {A} (group : MeterUpdate -> option A) us u :
  last_carried group (us ++ [u]) =
  match group u with Some v => Some v | None => last_carried group us end.
Proof. unfold last_carried. by rewrite fold_left_app. Qed.

(** A view holds exactly what the accepted updates last said of each group. *)
Definition view_matches (p : MeasurementPeriod) (us : list MeterUpdate)
    (v : MeterPeriodView) : Prop :=
  let acc := (accepted p us).2 in
  pview_period v = p /\
  pview_latest_sequence v = (accepted p us).1 /\
  mv_fundamental (pview_values v) = default no_fundamental (last_carried mu_fundamental acc) /\
  mv_power (pview_values v) = default no_power (last_carried mu_power acc) /\
  mv_phasor (pview_values v) = default no_phasor (last_carried mu_phasor acc) /\
  mv_unbalance (pview_values v) = default no_unbalance (last_carried mu_unbalance acc) /\
  mv_energy (pview_values v) = default no_energy (last_carried mu_energy acc) /\
  mv_demand (pview_values v) = default no_demand (last_carried mu_demand acc) /\
  mv_power_quality (pview_values v) =
    default no_power_quality (last_carried mu_power_quality acc) /\
  pview_timing v = last_carried mu_timing acc /\
  pview_aggregate_timing v = last_carried mu_aggregate_timing acc /\
  pview_frequency_10s v = last_carried mu_frequency_10s acc.

Definition run_store (events : list (Z * MeterUpdate)) : MeterLatestStore :=
  fold_left (fun s '(now, u) => store_apply now u s) events empty_store.

Lemma run_store_length events : length (run_store events) = period_count.
Proof.
  unfold run_store. induction events as [|[n u] ev IH] using rev_ind; [done|].
  rewrite fold_left_app. simpl. by rewrite store_apply_length.
Qed.

Lemma accepted_snoc p us u : accepted p (us ++ [u]) = accept_step p (accepted p us) u.
Proof. unfold accepted. by rewrite fold_left_app. Qed.

Lemma default_keep {A} (o old : option A) (d : A) :
  default (default d old) o = default d (match o with Some v => Some v | None => old end).
Proof. by destruct o. Qed.

Lemma view_matches_nil p : view_matches p [] (new_view p).
Proof. repeat split. Qed.

Lemma next_slot_matches now u us old :
  (forall v, old = Some v -> view_matches (mu_period u) us v) ->
  (old = None -> accepted (mu_period u) us = (0, [])) ->
  view_matches (mu_period u) (us ++ [u]) (next_slot now u old).
Proof.
  intros Hold Hnone.
  assert (view_matches (mu_period u) us (default (new_view (mu_period u)) old)) as Hv.
  { destruct old as [v|]; [by apply Hold|]. simpl. unfold view_matches.
    rewrite (Hnone eq_refl). repeat split. }
  clear Hold Hnone. revert Hv. unfold next_slot. cbn zeta.
  generalize (default (new_view (mu_period u)) old). unfold view_matches. rewrite accepted_snoc. unfold accept_step.
  rewrite decide_True by done. simpl.
  intros v (H1 & H2 & H3 & H4 & H5 & H6 & H7 & H8 & H9 & H10 & H11 & H12).
  rewrite H2. destruct (mu_sequence u <? (accepted (mu_period u) us).1); [by repeat split|].
  simpl. rewrite !last_carried_snoc, H3, H4, H5, H6, H7, H8, H9, !default_keep.
  repeat split; auto.
  - rewrite H10. by destruct (mu_timing u).
  - rewrite H11. by destruct (mu_aggregate_timing u).
  - rewrite H12. by destruct (mu_frequency_10s u).
Qed.

Lemma accepted_other p us :
  Forall (fun u => mu_period u <> p) us -> accepted p us = (0, []).
Proof.
  induction us as [|u us IH] using rev_ind; [done|].
  rewrite Forall_app, Forall_singleton. intros [H1 H2].
  rewrite accepted_snoc, IH by done. unfold accept_step. by rewrite decide_False.
Qed.

(** ** Steps of the shared state *)

Inductive md_step : MeterDataState -> option (Z * MeterPeriodView) -> MeterDataState -> Prop :=
  | md_step_apply now u st : md_step st None (meter_data_apply now u st)
  | md_step_subscribe p st id st' :
      meter_data_subscribe p true st = Ok (id, st') -> md_step st None st'
  | md_step_unsubscribe id st : md_step st None (meter_data_unsubscribe id st)
  | md_step_take id st v st' :
      subscriber_take id st = (Some v, st') -> md_step st (Some (id, v)) st'.

Inductive md_reachable : MeterDataState -> Prop :=
  | md_reach_init : md_reachable new_meter_data
  | md_reach_step st out st' : md_reachable st -> md_step st out st' -> md_reachable st'.

(** The unread view of a subscriber is the view the store holds now. *)
Record md_inv (st : MeterDataState) : Prop := {
  mdi_length : length (md_latest st) = period_count;
  mdi_pending id s v : md_subscribers st !! id = Some s -> sub_pending s = Some v ->
    store_latest (md_latest st) (sub_period s) = Some v;
  mdi_accepting id s : md_subscribers st !! id = Some s -> sub_accepting s = true
}.

Lemma md_inv_apply now u st : md_inv st -> md_inv (meter_data_apply now u st).
Proof.
  intros [Hl Hp Ha]. unfold meter_data_apply.
  rewrite store_latest_apply, decide_True by done.
  split; simpl; [by rewrite store_apply_length| |].
  - intros id s v Hs Hv. rewrite store_latest_apply by done.
    rewrite lookup_fmap in Hs. destruct (md_subscribers st !! id) as [s0|] eqn:E; [|done].
    simpl in Hs. injection Hs as <-. unfold publish in *. rewrite (Ha _ _ E) in *.
    case_bool_decide as Hsub; simpl in *.
    + rewrite decide_True by done. by rewrite Hsub.
    + rewrite decide_False by congruence. by eapply Hp.
  - intros id s Hs. rewrite lookup_fmap in Hs.
    destruct (md_subscribers st !! id) as [s0|] eqn:E; [|done].
    simpl in Hs. injection Hs as <-. pose proof (Ha _ _ E) as Hs0.
    case_bool_decide; [|done]. unfold publish. by rewrite Hs0.
Qed.

Lemma md_inv_subscribe p st id st' :
  md_inv st -> meter_data_subscribe p true st = Ok (id, st') -> md_inv st'.
Proof.
  intros [Hl Hp Ha] H. unfold meter_data_subscribe in H. simpl in H.
  injection H as <- <-. split; simpl; [done| |];
    destruct (md_subscribers st !! md_next_id st); eauto; intros i s;
    rewrite lookup_insert; case_decide; eauto; intros; simplify_eq; done.
Qed.

Lemma md_inv_unsubscribe id st : md_inv st -> md_inv (meter_data_unsubscribe id st).
Proof.
  intros [Hl Hp Ha]. unfold meter_data_unsubscribe. destruct (id =? 0); [by split|].
  split; simpl; [done| |]; intros i s; rewrite lookup_delete; case_decide; naive_solver.
Qed.

Lemma md_inv_take id st v st' : md_inv st -> subscriber_take id st = (v, st') -> md_inv st'.
Proof.
  intros [Hl Hp Ha] H. unfold subscriber_take in H.
  destruct (md_subscribers st !! id) as [s|] eqn:E; [|by injection H as <- <-; split].
  rewrite (Ha _ _ E) in H. injection H as <- <-. split; simpl; [done| |];
    intros i s'; rewrite lookup_insert; case_decide; naive_solver.
Qed.

#[export] Hint Resolve md_inv_apply md_inv_subscribe md_inv_unsubscribe md_inv_take : msap1.

Lemma md_reachable_inv st : md_reachable st -> md_inv st.
Proof.
  induction 1 as [|st out st' _ IH Hstep].
  - split; simpl; [done| |]; intros ? ?; by rewrite lookup_empty.
  - inversion Hstep; subst; eauto with msap1.
Qed.

(** ** Properties *)

(** Independent latest-value slots with a monotone sequence guard.  After
    any run of decoded updates, the slot of a period is empty exactly when no
    update of that period arrived; otherwise each value group in it is the one
    carried by the last accepted update of that period that carried the group
    (its initial value if none did), where an update is accepted when its
    sequence is not below the last accepted one.  Updates of other periods never
    show, and a stale update changes nothing. *)
Theorem latest_store_last_writer events p :
  let us := map snd events in
  match store_latest (run_store events) p with
  | None => Forall (fun u => mu_period u <> p) us
  | Some v => view_matches p us v
  end.
Proof.
  induction events as [|[now u] ev IH] using rev_ind; [destruct p; constructor|].
  cbn zeta in IH |- *.
  unfold run_store. rewrite fold_left_app. fold (run_store ev). simpl.
  rewrite store_latest_apply, map_app by apply run_store_length.
  case_decide as Hp.
  - subst p. apply next_slot_matches.
    + intros v Hv. by rewrite Hv in IH.
    + intros Hv. rewrite Hv in IH. by apply accepted_other.
  - destruct (store_latest (run_store ev) p) as [v|].
    + unfold view_matches in *. simpl map. rewrite accepted_snoc.
      unfold accept_step. by rewrite decide_False.
    + apply Forall_app. split; [done|]. by constructor.
Qed.

(** Lossy subscriptions never show an outdated view: in every reachable
    state of the shared store, a view a subscription worker takes is the view
    the store holds for that period at that moment, however many updates the
    slow consumer skipped. *)
Theorem subscriber_sees_current st id v st' :
  md_reachable st -> subscriber_take id st = (Some v, st') ->
  exists s, md_subscribers st !! id = Some s /\
    store_latest (md_latest st) (sub_period s) = Some v /\
    md_latest st' = md_latest st.
Proof.
  intros Hr H. apply md_reachable_inv in Hr as [_ Hp Ha]. unfold subscriber_take in H.
  destruct (md_subscribers st !! id) as [s|] eqn:E; [|done].
  rewrite (Ha _ _ E) in H. injection H as Hv <-. exists s. eauto.
Qed.

Definition demo_update : MeterUpdate :=
  mkUpdate Basic kind_fundamental 5 1 (Some no_fundamental) None None None None None None
    None None None.

Definition demo_data : MeterDataState :=
  meter_data_apply 9 demo_update
    (mkMeterData empty_store 2 {[ 1 := mkSubscriber Basic None true ]}).

Lemma subscriber_sees_current_witness :
  exists s, md_subscribers demo_data !! 1 = Some s /\
    store_latest (md_latest demo_data) (sub_period s) =
      Some (merge_update 9 demo_update (new_view Basic)) /\
    md_latest (subscriber_take 1 demo_data).2 = md_latest demo_data.
Proof.
  refine (subscriber_sees_current demo_data 1
    (merge_update 9 demo_update (new_view Basic)) (subscriber_take 1 demo_data).2 _ _).
  - eapply md_reach_step; [|apply md_step_apply].
    eapply md_reach_step; [apply md_reach_init|].
    eapply (md_step_subscribe Basic _ 1). reflexivity.
  - reflexivity.
Defined.
