(* ===== verification/DecodeCommon.v ===== *)
(** * Shared parts of the record decoders

    Models the anonymous-namespace helpers of
    [common/msap1/meter/meter_data.cpp]: how a reading's quality is derived from
    the interval status, the calculation window, and the channel maps of the
    10/12-cycle basic record and of the aggregate records. *)
From S2P Require Import Prelude MeterTiming RecordFormat MeterRecord MeterData.

Definition reading {U : Set} (value : Z) (is_valid : bool) (sequence timestamp : Z)
    (window : SampleWindow) : Reading U :=
  mkReading value (if is_valid then valid else unavailable) sequence timestamp window.

Record AggregatePayloadState := mkPayloadState {
  aps_arithmetic_error : bool;
  aps_invalid : bool
}.

Definition aggregate_payload_state (record : MeterRecord) (period : MeasurementPeriod)
  : AggregatePayloadState :=
  if negb (bool_decide (period = Min10)) && negb (bool_decide (period = Hour2)) &&
     negb (bool_decide (period = Min10Live)) && negb (bool_decide (period = Hour2Live))
  then mkPayloadState false false
  else
    let status := if bool_decide (period = Hour2) || bool_decide (period = Hour2Live)
                  then two_hour_status record else ten_minute_status record in
    let preview := bool_decide (period = Min10Live) || bool_decide (period = Hour2Live) in
    let preview_contract_invalid :=
      preview && (ts_complete status || negb (ts_open_interval status) ||
                  negb (ts_non_normative status)) in
    let incomplete :=
      ((record_format record =? meter_ten_minute_format) ||
       (record_format record =? meter_two_hour_format)) && negb (ts_complete status) in
    mkPayloadState (ts_arithmetic_error status)
      (incomplete || preview_contract_invalid || negb (ts_time_aligned status) ||
       ts_contaminated status || negb (ts_boundary_valid status)).

Definition payload_reading {U : Set} (value : Z) (available : bool)
    (state : AggregatePayloadState) (sequence timestamp : Z) (window : SampleWindow)
  : Reading U :=
  let quality :=
    if aps_arithmetic_error state then arithmetic_error
    else if aps_invalid state then invalid
    else if available then valid else unavailable in
  mkReading value quality sequence timestamp window.

Definition aggregate_reading {U : Set} (value : Z) (channel_valid is_arithmetic_error
    force_invalid : bool) (sequence timestamp : Z) (window : SampleWindow) : Reading U :=
  let quality :=
    if is_arithmetic_error then arithmetic_error
    else if force_invalid then invalid
    else if channel_valid then valid else unavailable in
  mkReading value quality sequence timestamp window.

(** The duration is exact 64-bit arithmetic: see [sample_window_exact]. *)
Definition sample_window (sample_count sample_rate_hz : Z) : SampleWindow :=
  mkWindow sample_count
    (if sample_rate_hz =? 0 then 0 else Z.quot (sample_count * 1000000000) sample_rate_hz).

Definition decode_fundamental_values (record : MeterRecord) (sequence received_at : Z)
    (window : SampleWindow) : result FundamentalValues :=
  let freq := frequency record in
  let frequency_reading : Reading MilliHertz :=
    mkReading (mf_millihz freq)
      (if mf_valid freq then valid
       else if mf_arithmetic_error freq then arithmetic_error
       else if mf_out_of_range freq then out_of_range
       else if mf_timed_out freq then timed_out
       else unavailable) sequence received_at window in
  ia ← channel record 0;
  ib ← channel record 1;
  ic ← channel record 2;
  in_ ← channel record 3;
  vc ← channel record 4;
  vb ← channel record 5;
  va ← channel record 6;
  let rms {U : Set} (c : MeterChannelReading) : Reading U :=
    reading (mc_rms_micro_units c) (mc_valid c) sequence received_at window in
  Ok (mkFundamental frequency_reading
        (mkABC (rms va) (rms vb) (rms vc))
        (mkABCN (rms ia) (rms ib) (rms ic) (rms in_))
        (mkABC
          (reading (word record 51) (mc_valid va && mc_valid vb) sequence received_at window)
          (reading (word record 52) (mc_valid vb && mc_valid vc) sequence received_at window)
          (reading (word record 53) (mc_valid vc && mc_valid va) sequence received_at window))).

Definition decode_aggregate_fundamental_values (record : MeterRecord)
    (sequence received_at : Z) (window : SampleWindow)
    (is_arithmetic_error force_invalid : bool) : result FundamentalValues :=
  let frequency_reading : Reading MilliHertz :=
    mkReading (aggregate_frequency_millihz record) unavailable sequence received_at window in
  let mask := valid_mask record in
  let lane {U : Set} (channel : nat) : result (Reading U) :=
    value ← aggregate_rms_micro_units record channel;
    Ok (aggregate_reading value (bit mask (Z.of_nat channel)) is_arithmetic_error
          force_invalid sequence received_at window) in
  let voltage_pair (w : nat) (lane_a lane_b : Z) : Reading MicroVolts :=
    aggregate_reading (word record w) (bit mask lane_a && bit mask lane_b)
      is_arithmetic_error force_invalid sequence received_at window in
  ia ← lane 0%nat; ib ← lane 1%nat; ic ← lane 2%nat; in_ ← lane 3%nat;
  va ← lane 6%nat; vb ← lane 5%nat; vc ← lane 4%nat;
  Ok (mkFundamental frequency_reading (mkABC va vb vc) (mkABCN ia ib ic in_)
        (mkABC (voltage_pair 38%nat 6 5) (voltage_pair 39%nat 5 4)
           (voltage_pair 40%nat 4 6))).

(** ** Views over the readings of a group

    The qualities (and provenance) of every reading of a value group as a list,
    so that a theorem can speak about all of them at once. *)

Record ReadingMeta := mkMeta { rm_quality : MeasurementQuality; rm_sequence : Z;
  rm_measured_at : Z; rm_window : SampleWindow }.

Definition meta {U} (r : Reading U) : ReadingMeta :=
  mkMeta (r_quality r) (r_source_sequence r) (r_measured_at r) (r_window r).
Definition metas_abc {U : Set} (p : PhaseABC (Reading U)) : list ReadingMeta :=
  [meta (abc_a p); meta (abc_b p); meta (abc_c p)].
Definition metas_abcn {U : Set} (p : PhaseABCN (Reading U)) : list ReadingMeta :=
  [meta (abcn_a p); meta (abcn_b p); meta (abcn_c p); meta (abcn_n p)].
Definition metas_abct {U : Set} (p : PhaseABCTotal (Reading U)) : list ReadingMeta :=
  [meta (abct_a p); meta (abct_b p); meta (abct_c p); meta (abct_total p)].

(** The electrical channels of a fundamental group (frequency excluded). *)
Definition fundamental_metas (v : FundamentalValues) : list ReadingMeta :=
  metas_abc (fv_voltage_ln v) ++ metas_abcn (fv_current v) ++ metas_abc (fv_voltage_ll v).

Definition power_metas (v : PowerValues) : list ReadingMeta :=
  metas_abc (pv_active_power v) ++ metas_abc (pv_apparent_power v) ++
  metas_abc (pv_power_factor v) ++
  [meta (pv_total_active_power v); meta (pv_total_apparent_power v);
   meta (pv_total_power_factor v)] ++
  metas_abc (pv_voltage_crest v) ++ metas_abcn (pv_current_crest v).

Definition phasor_metas (v : PhasorValues) : list ReadingMeta :=
  metas_abc (ph_fundamental_voltage v) ++ metas_abcn (ph_fundamental_current v) ++
  metas_abc (ph_fundamental_voltage_ll v) ++ metas_abc (ph_voltage_angle v) ++
  metas_abcn (ph_current_angle v) ++ metas_abc (ph_voltage_ll_angle v) ++
  metas_abc (ph_displacement_angle v) ++ metas_abc (ph_reactive_power v) ++
  [meta (ph_total_reactive_power v)] ++ metas_abc (ph_fundamental_active_power v) ++
  [meta (ph_total_fundamental_active_power v)] ++
  metas_abc (ph_displacement_power_factor v) ++
  [meta (ph_total_displacement_power_factor v)].

Definition unbalance_metas (v : UnbalanceValues) : list ReadingMeta :=
  [meta (ub_voltage_zero_sequence v); meta (ub_voltage_positive_sequence v);
   meta (ub_voltage_negative_sequence v); meta (ub_voltage_zero_angle v);
   meta (ub_voltage_positive_angle v); meta (ub_voltage_negative_angle v);
   meta (ub_current_zero_sequence v); meta (ub_current_positive_sequence v);
   meta (ub_current_negative_sequence v); meta (ub_current_zero_angle v);
   meta (ub_current_positive_angle v); meta (ub_current_negative_angle v);
   meta (ub_voltage_zero_ratio v); meta (ub_voltage_unbalance v);
   meta (ub_current_zero_ratio v); meta (ub_current_unbalance v)].

(** ** Lemmas *)

(** [int64_t(sample_count) * 10^9] stays inside [int64_t] for every 32-bit
    sample count. *)
Lemma sample_window_exact count rate :
  0 <= count < 2 ^ 32 ->
  signed64 (count * 1000000000) = Ok (count * 1000000000) /\
  (0 <= rate -> 0 <= sw_duration (sample_window count rate) <= INT64_MAX).
Proof.
  intros Hc. split; [apply signed64_in_range; unfold INT64_MIN, INT64_MAX; lia|].
  intros Hr. unfold sample_window. simpl. destruct (Z.eqb_spec rate 0).
  - unfold INT64_MAX; lia.
  - rewrite Z.quot_div_nonneg by lia. split; [apply Z.div_pos; lia|].
    apply Z.div_le_upper_bound; [lia|]. unfold INT64_MAX. nia.
Qed.

Lemma decode_fundamental_values_ok record sequence received_at window :
  exists v, decode_fundamental_values record sequence received_at window = Ok v.
Proof. eexists. reflexivity. Qed.

Lemma decode_aggregate_fundamental_values_ok record sequence received_at window ae fi :
  exists v, decode_aggregate_fundamental_values record sequence received_at window ae fi = Ok v.
Proof. eexists. reflexivity. Qed.

(** An interval-level fault reaches every electrical channel of an aggregate. *)
Lemma aggregate_fundamental_quality record sequence received_at window ae fi v :
  decode_aggregate_fundamental_values record sequence received_at window ae fi = Ok v ->
  (ae = true -> Forall (fun m => rm_quality m = arithmetic_error) (fundamental_metas v)) /\
  (ae = false -> fi = true -> Forall (fun m => rm_quality m = invalid) (fundamental_metas v)) /\
  r_quality (fv_frequency v) = unavailable.
Proof.
  intros H. injection H as <-. split; [|split; [|done]].
  - intros ->. repeat constructor.
  - intros -> ->. repeat constructor.
Qed.

Lemma aggregate_fundamental_provenance record sequence received_at window ae fi v :
  decode_aggregate_fundamental_values record sequence received_at window ae fi = Ok v ->
  Forall (fun m => rm_sequence m = sequence /\ rm_measured_at m = received_at /\
                   rm_window m = window) (fundamental_metas v).
Proof. intros H. injection H as <-. repeat constructor. Qed.

(** A valid channel of the fundamental group is one whose lanes the record's
    mask marks valid. *)
Lemma fundamental_valid_lanes record sequence received_at window v :
  decode_fundamental_values record sequence received_at window = Ok v ->
  (r_quality (abc_a (fv_voltage_ll v)) = valid ->
     r_quality (abc_a (fv_voltage_ln v)) = valid /\
     r_quality (abc_b (fv_voltage_ln v)) = valid) /\
  (r_quality (abc_b (fv_voltage_ll v)) = valid ->
     r_quality (abc_b (fv_voltage_ln v)) = valid /\
     r_quality (abc_c (fv_voltage_ln v)) = valid) /\
  (r_quality (abc_c (fv_voltage_ll v)) = valid ->
     r_quality (abc_c (fv_voltage_ln v)) = valid /\
     r_quality (abc_a (fv_voltage_ln v)) = valid).
Proof.
  intros H. injection H as <-.
  cbn [fv_voltage_ll fv_voltage_ln abc_a abc_b abc_c reading r_quality mc_valid].
  destruct (bit (valid_mask record) (Z.of_nat 6)), (bit (valid_mask record) (Z.of_nat 5)),
    (bit (valid_mask record) (Z.of_nat 4)); simpl; naive_solver.
Qed.
