(* ===== verification/DecodeBlocks.v ===== *)
(** * Decoders of the interval records

    Models the fundamental-record decoders of
    [common/msap1/meter/meter_data.cpp]: the 10/12-cycle basic block, the
    150/180-cycle aggregate, the clock-aligned ten-minute and two-hour
    aggregates and the non-normative views of open intervals.  Each validates
    the timing identity of the interval before any value is built. *)
From S2P Require Import Prelude MeterTiming RecordFormat MeterRecord MeterData DecodeCommon.

(** [MeterUpdate update{}] with the envelope fields every decoder fills. *)
Definition base_update (period : MeasurementPeriod) (kind : RecordKind)
    (sequence generation : Z) : MeterUpdate :=
  mkUpdate period kind sequence generation None None None None None None None None None None.

Definition with_fundamental (u : MeterUpdate) (v : FundamentalValues)
    (t : option BlockTiming) (a : option AggregateTiming) : MeterUpdate :=
  mkUpdate (mu_period u) (mu_kind u) (mu_sequence u) (mu_configuration_generation u)
    (Some v) (mu_power u) (mu_phasor u) (mu_unbalance u) (mu_energy u) (mu_demand u)
    (mu_power_quality u) (mu_frequency_10s u) t a.

Definition nominal_of (hz : Z) : NominalFrequency := if hz =? 50 then Hz50 else Hz60.

Definition decode_periodic_meter_record (record : MeterRecord) (received_at : Z)
  : result MeterUpdate :=
  reject_if (negb (header_valid record) ||
             negb (record_format record =? meter_periodic_format))
    (InvalidArgument "invalid basic record") ;;
  let timing_word := timing record in
  reject_if (negb (tw_nominal_frequency_hz timing_word =? 50) &&
             negb (tw_nominal_frequency_hz timing_word =? 60))
    (InvalidArgument "invalid nominal frequency in 10/12-cycle basic timing word") ;;
  let nominal := nominal_of (tw_nominal_frequency_hz timing_word) in
  let sample_count := block_sample_count record in
  reject_if (sample_count =? 0)
    (InvalidArgument "10/12-cycle basic interval has a zero sample count") ;;
  let first := first_sample_index record in
  reject_if (first =? 0)
    (InvalidArgument "10/12-cycle basic interval has a zero first-sample index") ;;
  reject_if (UINT64_MAX - sample_count <? first)
    (InvalidArgument "10/12-cycle basic sample range overflows the 64-bit counter") ;;
  reject_if (tw_cycle_locked timing_word && negb (tw_free_run_fallback timing_word) &&
             negb (tw_cycle_count timing_word =? cycles_per_basic_block nominal))
    (InvalidArgument "10/12-cycle basic interval has an impossible cycle count") ;;
  let window := sample_window sample_count (sample_rate_hz record) in
  values ← decode_fundamental_values record (sequence record) received_at window;
  let block := mkBlockTiming (sequence record) (configuration_generation record) first
    sample_count (sample_rate_hz record) (tw_cycle_count timing_word) nominal
    (tw_cycle_locked timing_word) (tw_free_run_fallback timing_word)
    (tw_first_block_after_apply timing_word) (tw_utc_resynchronized timing_word)
    Unsynchronized None None in
  Ok (with_fundamental
        (base_update Basic kind_fundamental (sequence record) (configuration_generation record))
        values (Some block) None).

Definition decode_aggregate_meter_record (record : MeterRecord) (received_at : Z)
  : result MeterUpdate :=
  reject_if (negb (header_valid record) ||
             negb (record_format record =? meter_aggregate_format))
    (InvalidArgument "invalid 150/180-cycle aggregate record") ;;
  let st := aggregate_status record in
  reject_if (negb (ms_complete st))
    (InvalidArgument "150/180-cycle aggregate is not marked complete") ;;
  let composition := aggregate_composition record in
  reject_if (negb (ac_nominal_frequency_hz composition =? 50) &&
             negb (ac_nominal_frequency_hz composition =? 60))
    (InvalidArgument
       "invalid nominal frequency in 150/180-cycle aggregate composition word") ;;
  let nominal := nominal_of (ac_nominal_frequency_hz composition) in
  reject_if (negb (ac_basic_block_count composition =? basic_blocks_per_aggregate))
    (InvalidArgument "150/180-cycle aggregate is not built from exactly 15 basic intervals") ;;
  reject_if (negb (ac_cycle_count composition =? cycles_per_aggregate nominal))
    (InvalidArgument
       "150/180-cycle aggregate cycle count does not match its nominal frequency") ;;
  let basic_span := u32 (last_basic_sequence record - first_basic_sequence record) in
  reject_if (negb (basic_span =? basic_blocks_per_aggregate - 1))
    (InvalidArgument "150/180-cycle aggregate does not span 15 consecutive basic intervals") ;;
  let sample_count := aggregate_sample_count record in
  reject_if (sample_count =? 0)
    (InvalidArgument "150/180-cycle aggregate has a zero sample count") ;;
  let first := aggregate_first_sample_index record in
  reject_if (first =? 0)
    (InvalidArgument "150/180-cycle aggregate has a zero first-sample index") ;;
  reject_if (UINT64_MAX - sample_count <? first)
    (InvalidArgument "150/180-cycle aggregate sample range overflows the 64-bit counter") ;;
  reject_if (ms_utc_overlap st && ms_utc_resynchronized st)
    (InvalidArgument "150/180-cycle aggregate has conflicting UTC provenance") ;;
  let expected_last := u64 (first + sample_count - 1) in
  let actual_last := aggregate_last_sample_index record in
  (if ms_utc_overlap st
   then reject_if ((actual_last <? first) || (expected_last <? actual_last))
          (InvalidArgument "150/180-cycle UTC-overlap range exceeds its contribution span")
   else reject_if (negb (actual_last =? expected_last))
          (InvalidArgument "150/180-cycle aggregate sample range is discontinuous")) ;;
  let window := sample_window sample_count (sample_rate_hz record) in
  values ← decode_aggregate_fundamental_values record (aggregate_sequence record) received_at
    window (ms_arithmetic_error (aggregate_status record)) false;
  let agg := mkAggregateTiming (aggregate_sequence record) (configuration_generation record)
    first actual_last sample_count (sample_rate_hz record) (first_basic_sequence record)
    (last_basic_sequence record) (ac_basic_block_count composition)
    (ac_cycle_count composition) nominal (ms_arithmetic_error st) (ms_frequency_valid st)
    (ms_utc_overlap st) (ms_utc_resynchronized st) false false false None None
    Unsynchronized None None in
  Ok (with_fundamental
        (base_update Cycles150_180 kind_fundamental (aggregate_sequence record)
           (configuration_generation record))
        values None (Some agg)).

Definition decode_open_interval_meter_record (record : MeterRecord) (received_at : Z)
    (expected_format : Z) (period : MeasurementPeriod) : result MeterUpdate :=
  reject_if (negb (header_valid record) || negb (record_format record =? expected_format))
    (InvalidArgument "invalid open aggregate record") ;;
  let st := ten_minute_status record in
  reject_if (ts_complete st || negb (ts_open_interval st) || negb (ts_non_normative st))
    (InvalidArgument "open aggregate lacks its non-normative interval markers") ;;
  let composition := ten_minute_composition record in
  reject_if ((negb (tc_nominal_frequency_hz composition =? 50) &&
              negb (tc_nominal_frequency_hz composition =? 60)) ||
             (tc_basic_block_count composition =? 0) || (tc_cycle_count composition =? 0))
    (InvalidArgument "open aggregate has an invalid composition") ;;
  let nominal := nominal_of (tc_nominal_frequency_hz composition) in
  let first_sequence := first_basic_sequence record in
  let last_sequence := last_basic_sequence record in
  reject_if (negb (u32 (last_sequence - first_sequence) =?
                   u32 (tc_basic_block_count composition - 1)))
    (InvalidArgument "open aggregate source sequence span is not consecutive") ;;
  let sample_count := aggregate_sample_count record in
  let first_sample := aggregate_first_sample_index record in
  reject_if ((sample_count =? 0) || (first_sample =? 0) ||
             (UINT64_MAX - u32 (sample_count - 1) <? first_sample))
    (InvalidArgument "open aggregate has an invalid sample range") ;;
  let actual_last := ten_minute_actual_last_sample_index record in
  reject_if (negb (actual_last =? u64 (first_sample + sample_count - 1)))
    (InvalidArgument "open aggregate last sample does not match its range") ;;
  let expected_end := ten_minute_target_sample_index record in
  reject_if ((expected_end <? actual_last) ||
             negb (ten_minute_overshoot_samples record =? 0))
    (InvalidArgument "open aggregate expected end or overshoot is inconsistent") ;;
  let window := sample_window sample_count (sample_rate_hz record) in
  let invalid_interval :=
    ts_contaminated st || negb (ts_time_aligned st) || negb (ts_boundary_valid st) in
  values ← decode_aggregate_fundamental_values record (sequence record) received_at window
    (ts_arithmetic_error st) invalid_interval;
  let agg := mkAggregateTiming (sequence record) (configuration_generation record)
    first_sample actual_last sample_count (sample_rate_hz record) first_sequence
    last_sequence (tc_basic_block_count composition) (tc_cycle_count composition) nominal
    (ts_arithmetic_error st) false false false (ts_time_aligned st) (ts_contaminated st)
    (ts_boundary_valid st) (Some expected_end) (Some 0) Unsynchronized None None in
  Ok (with_fundamental
        (base_update period kind_fundamental (sequence record) (configuration_generation record))
        values None (Some agg)).

Definition decode_ten_minute_open_meter_record (record : MeterRecord) (received_at : Z)
  : result MeterUpdate :=
  decode_open_interval_meter_record record received_at meter_ten_minute_open_format Min10Live.

Definition decode_two_hour_open_meter_record (record : MeterRecord) (received_at : Z)
  : result MeterUpdate :=
  decode_open_interval_meter_record record received_at meter_two_hour_open_format Hour2Live.

Definition decode_ten_minute_meter_record (record : MeterRecord) (received_at : Z)
  : result MeterUpdate :=
  reject_if (negb (header_valid record) ||
             negb (record_format record =? meter_ten_minute_format))
    (InvalidArgument "invalid ten-minute aggregate record") ;;
  let st := ten_minute_status record in
  reject_if (negb (ts_complete st))
    (InvalidArgument "ten-minute aggregate is not marked complete") ;;
  let composition := ten_minute_composition record in
  reject_if (negb (tc_nominal_frequency_hz composition =? 50) &&
             negb (tc_nominal_frequency_hz composition =? 60))
    (InvalidArgument "invalid nominal frequency in ten-minute composition") ;;
  reject_if ((tc_basic_block_count composition =? 0) || (tc_cycle_count composition =? 0))
    (InvalidArgument "ten-minute aggregate has an empty composition") ;;
  let nominal := nominal_of (tc_nominal_frequency_hz composition) in
  let expected_cycles :=
    u64 (tc_basic_block_count composition * cycles_per_basic_block nominal) in
  reject_if (negb (tc_cycle_count composition =? expected_cycles))
    (InvalidArgument "ten-minute aggregate cycle count does not match its blocks") ;;
  let first_basic := first_basic_sequence record in
  let last_basic := last_basic_sequence record in
  let basic_span := u32 (last_basic - first_basic) in
  reject_if (negb (basic_span =? u32 (tc_basic_block_count composition - 1)))
    (InvalidArgument "ten-minute basic sequence span is not consecutive") ;;
  let sample_count := aggregate_sample_count record in
  let first_sample := aggregate_first_sample_index record in
  reject_if ((sample_count =? 0) || (first_sample =? 0))
    (InvalidArgument "ten-minute aggregate has an empty sample range") ;;
  reject_if (UINT64_MAX - u32 (sample_count - 1) <? first_sample)
    (InvalidArgument "ten-minute sample range overflows the 64-bit counter") ;;
  let expected_last := u64 (first_sample + sample_count - 1) in
  let actual_last := ten_minute_actual_last_sample_index record in
  reject_if (negb (actual_last =? expected_last))
    (InvalidArgument "ten-minute actual boundary does not match its sample range") ;;
  let target := ten_minute_target_sample_index record in
  reject_if (actual_last <? target)
    (InvalidArgument "ten-minute target boundary follows its actual boundary") ;;
  let overshoot := actual_last - target in
  reject_if ((UINT32_MAX <? overshoot) ||
             negb (ten_minute_overshoot_samples record =? overshoot))
    (InvalidArgument "ten-minute boundary overshoot is inconsistent") ;;
  let window := sample_window sample_count (sample_rate_hz record) in
  let invalid_interval :=
    ts_contaminated st || negb (ts_time_aligned st) || negb (ts_boundary_valid st) in
  values ← decode_aggregate_fundamental_values record (sequence record) received_at window
    (ts_arithmetic_error st) invalid_interval;
  let agg := mkAggregateTiming (sequence record) (configuration_generation record)
    first_sample actual_last sample_count (sample_rate_hz record) first_basic last_basic
    (tc_basic_block_count composition) (tc_cycle_count composition) nominal
    (ts_arithmetic_error st) false false false (ts_time_aligned st) (ts_contaminated st)
    (ts_boundary_valid st) (Some target) (Some (ten_minute_overshoot_samples record))
    Unsynchronized None None in
  Ok (with_fundamental
        (base_update Min10 kind_fundamental (sequence record) (configuration_generation record))
        values None (Some agg)).

Definition intervals_per_two_hours : Z := 12.

Definition decode_two_hour_meter_record (record : MeterRecord) (received_at : Z)
  : result MeterUpdate :=
  reject_if (negb (header_valid record) ||
             negb (record_format record =? meter_two_hour_format))
    (InvalidArgument "invalid two-hour aggregate record") ;;
  let st := two_hour_status record in
  reject_if (negb (ts_complete st))
    (InvalidArgument "two-hour aggregate is not marked complete") ;;
  let composition := two_hour_composition record in
  reject_if (negb (tc_nominal_frequency_hz composition =? 50) &&
             negb (tc_nominal_frequency_hz composition =? 60))
    (InvalidArgument "invalid nominal frequency in two-hour composition") ;;
  reject_if (negb (tc_basic_block_count composition =? intervals_per_two_hours) ||
             (tc_cycle_count composition =? 0))
    (InvalidArgument "two-hour aggregate is not built from twelve intervals") ;;
  let nominal := nominal_of (tc_nominal_frequency_hz composition) in
  let first_interval := first_basic_sequence record in
  let last_interval := last_basic_sequence record in
  let interval_span := u32 (last_interval - first_interval) in
  reject_if (negb (interval_span =? intervals_per_two_hours - 1))
    (InvalidArgument "two-hour ten-minute sequence span is not consecutive") ;;
  let sample_count := aggregate_sample_count record in
  let first_sample := aggregate_first_sample_index record in
  reject_if ((sample_count =? 0) || (first_sample =? 0))
    (InvalidArgument "two-hour aggregate has an empty sample range") ;;
  reject_if (UINT64_MAX - u32 (sample_count - 1) <? first_sample)
    (InvalidArgument "two-hour sample range overflows the 64-bit counter") ;;
  let expected_last := u64 (first_sample + sample_count - 1) in
  let actual_last := two_hour_actual_last_sample_index record in
  reject_if (negb (actual_last =? expected_last))
    (InvalidArgument "two-hour actual boundary does not match its sample range") ;;
  let target := two_hour_target_sample_index record in
  reject_if (actual_last <? target)
    (InvalidArgument "two-hour target boundary follows its actual boundary") ;;
  let overshoot := actual_last - target in
  reject_if ((UINT32_MAX <? overshoot) ||
             negb (two_hour_overshoot_samples record =? overshoot))
    (InvalidArgument "two-hour boundary overshoot is inconsistent") ;;
  let window := sample_window sample_count (sample_rate_hz record) in
  let invalid_interval :=
    ts_contaminated st || negb (ts_time_aligned st) || negb (ts_boundary_valid st) in
  values ← decode_aggregate_fundamental_values record (sequence record) received_at window
    (ts_arithmetic_error st) invalid_interval;
  let agg := mkAggregateTiming (sequence record) (configuration_generation record)
    first_sample actual_last sample_count (sample_rate_hz record) first_interval last_interval
    (tc_basic_block_count composition) (tc_cycle_count composition) nominal
    (ts_arithmetic_error st) false false false (ts_time_aligned st) (ts_contaminated st)
    (ts_boundary_valid st) (Some target) (Some (two_hour_overshoot_samples record))
    Unsynchronized None None in
  Ok (with_fundamental
        (base_update Hour2 kind_fundamental (sequence record) (configuration_generation record))
        values None (Some agg)).

(** ** Lemmas *)

Lemma cycles_per_basic_block_50_60 hz :
  cycles_per_basic_block (nominal_of hz) = if hz =? 50 then 10 else 12.
Proof. unfold nominal_of. by destruct (hz =? 50). Qed.

(** The contract of a 10/12-cycle basic record, stated over the integers. *)
Record basic_contract (r : MeterRecord) : Prop := {
  bc_header : header_valid r = true;
  bc_format : record_format r = meter_periodic_format;
  bc_nominal : tw_nominal_frequency_hz (timing r) = 50 \/
               tw_nominal_frequency_hz (timing r) = 60;
  bc_count : block_sample_count r <> 0;
  bc_first : first_sample_index r <> 0;
  bc_range : first_sample_index r + block_sample_count r <= UINT64_MAX;
  bc_cycles : tw_cycle_locked (timing r) = true ->
    tw_free_run_fallback (timing r) = false ->
    tw_cycle_count (timing r) =
      if tw_nominal_frequency_hz (timing r) =? 50 then 10 else 12
}.

Lemma basic_contract_ok r t :
  basic_contract r <-> is_ok (decode_periodic_meter_record r t) = true.
Proof.
  unfold decode_periodic_meter_record. cbn zeta.
  rewrite !is_ok_reject, cycles_per_basic_block_50_60.
  change (is_ok (decode_fundamental_values _ _ _ _ ≫= _)) with true.
  split.
  - intros [H1 H2 H3 H4 H5 H6 H7]. rewrite H1.
    destruct (tw_cycle_locked (timing r)), (tw_free_run_fallback (timing r)); simpl in *;
      try specialize (H7 eq_refl eq_refl); lia.
  - intros H. bools. split; auto; try lia.
    intros E1 E2. rewrite E1, E2 in *. simpl in *. lia.
Qed.

Lemma reject_throws_invalid {A} b m (k : result A) (P : exn -> Prop) :
  (forall m, P (InvalidArgument m)) ->
  (forall e, k = Throw e -> P e) ->
  forall e, (reject_if b (InvalidArgument m) ;; k) = Throw e -> P e.
Proof. intros HI Hk e. destruct b; simpl; [intros [= <-]; apply HI|apply Hk]. Qed.

(** A decoder that only rejects with [std::invalid_argument]. *)
Definition invalid_only (e : exn) : Prop := exists m, e = InvalidArgument m.

Ltac invalid_only_tac :=
  cbn zeta;
  repeat first
    [ apply (reject_throws_invalid _ _ _ invalid_only); [by eexists|]
    | match goal with
      | |- forall e, ((if ?b then _ else _) ;; _) = Throw e -> _ => destruct b
      | |- forall e, (decode_fundamental_values _ _ _ _ ≫= _) = Throw e -> _ => done
      | |- forall e, (decode_aggregate_fundamental_values _ _ _ _ _ _ ≫= _) = Throw e -> _ =>
          done
      end ].

Lemma periodic_throws r t e :
  decode_periodic_meter_record r t = Throw e -> invalid_only e.
Proof. revert e. unfold decode_periodic_meter_record. invalid_only_tac. Qed.

Lemma aggregate_throws r t e :
  decode_aggregate_meter_record r t = Throw e -> invalid_only e.
Proof. revert e. unfold decode_aggregate_meter_record. invalid_only_tac. Qed.

Lemma ten_minute_throws r t e :
  decode_ten_minute_meter_record r t = Throw e -> invalid_only e.
Proof. revert e. unfold decode_ten_minute_meter_record. invalid_only_tac. Qed.

Lemma two_hour_throws r t e :
  decode_two_hour_meter_record r t = Throw e -> invalid_only e.
Proof. revert e. unfold decode_two_hour_meter_record. invalid_only_tac. Qed.

Lemma open_throws r t f p e :
  decode_open_interval_meter_record r t f p = Throw e -> invalid_only e.
Proof. revert e. unfold decode_open_interval_meter_record. invalid_only_tac. Qed.

(** The contract of a 150/180-cycle aggregate. *)
Record aggregate_contract (r : MeterRecord) : Prop := {
  ag_header : header_valid r = true;
  ag_format : record_format r = meter_aggregate_format;
  ag_complete : ms_complete (aggregate_status r) = true;
  ag_nominal : ac_nominal_frequency_hz (aggregate_composition r) = 50 \/
               ac_nominal_frequency_hz (aggregate_composition r) = 60;
  ag_blocks : ac_basic_block_count (aggregate_composition r) = 15;
  ag_cycles : ac_cycle_count (aggregate_composition r) =
    if ac_nominal_frequency_hz (aggregate_composition r) =? 50 then 150 else 180;
  ag_span : (last_basic_sequence r - first_basic_sequence r) mod 2 ^ 32 = 14;
  ag_count : block_sample_count r <> 0;
  ag_first : first_sample_index r <> 0;
  ag_range : first_sample_index r + block_sample_count r <= UINT64_MAX;
  ag_utc : ~ (ms_utc_overlap (aggregate_status r) = true /\
              ms_utc_resynchronized (aggregate_status r) = true);
  ag_last :
    let last := first_sample_index r + block_sample_count r - 1 in
    if ms_utc_overlap (aggregate_status r)
    then first_sample_index r <= aggregate_last_sample_index r <= last
    else aggregate_last_sample_index r = last
}.

Lemma cycles_per_aggregate_50_60 hz :
  cycles_per_aggregate (nominal_of hz) = if hz =? 50 then 150 else 180.
Proof. unfold cycles_per_aggregate, nominal_of. by destruct (hz =? 50). Qed.

Lemma u64_id z : 0 <= z <= UINT64_MAX -> u64 z = z.
Proof. intros. apply wrap_id. unfold UINT64_MAX in *. lia. Qed.

Lemma aggregate_contract_ok r t :
  record_wf r ->
  aggregate_contract r <-> is_ok (decode_aggregate_meter_record r t) = true.
Proof.
  intros Hr. unfold decode_aggregate_meter_record. cbn zeta.
  rewrite !is_ok_reject, cycles_per_aggregate_50_60.
  unfold aggregate_sample_count, aggregate_first_sample_index, basic_blocks_per_aggregate.
  pose proof (unsigned64_fits r 9 Hr) as Hf. change (unsigned64 r 9) with (first_sample_index r) in Hf.
  pose proof (word_fits r 6 Hr) as Hc. change (word r 6) with (block_sample_count r) in Hc.
  split.
  - intros [H1 H2 H3 H4 H5 H6 H7 H8 H9 H10 H11 H12].
    unfold wrap at 1. rewrite H7, u64_id by lia.
    destruct (ms_utc_overlap (aggregate_status r)),
      (ms_utc_resynchronized (aggregate_status r));
      try (destruct H11; done); rewrite is_ok_reject;
      change (is_ok (decode_aggregate_fundamental_values _ _ _ _ _ _ ≫= _)) with true;
      rewrite H1, H3; cbn beta iota zeta in H12; lia.
  - intros H. bools.
    destruct (ms_utc_overlap (aggregate_status r)) eqn:E; rewrite is_ok_reject in *;
      bools; rewrite u64_id in * by (unfold UINT64_MAX in *; lia); split; auto;
      try (unfold wrap in *; lia); try (intros [? ?]; simpl in *; congruence);
      rewrite E; simpl; lia.
Qed.

(** The contract shared by the clock-aligned ten-minute and two-hour tiers;
    [composition] relates the number of contributing intervals, the total cycle
    count and the nominal frequency. *)
Record aligned_contract (r : MeterRecord) (format : Z)
    (composition : Z -> Z -> Z -> Prop) : Prop := {
  al_header : header_valid r = true;
  al_format : record_format r = format;
  al_complete : ts_complete (ten_minute_status r) = true;
  al_nominal : tc_nominal_frequency_hz (ten_minute_composition r) = 50 \/
               tc_nominal_frequency_hz (ten_minute_composition r) = 60;
  al_composition : composition (tc_basic_block_count (ten_minute_composition r))
    (tc_cycle_count (ten_minute_composition r))
    (tc_nominal_frequency_hz (ten_minute_composition r));
  al_span : (last_basic_sequence r - first_basic_sequence r) mod 2 ^ 32 =
            tc_basic_block_count (ten_minute_composition r) - 1;
  al_count : block_sample_count r <> 0;
  al_first : first_sample_index r <> 0;
  al_last : ten_minute_actual_last_sample_index r =
            first_sample_index r + block_sample_count r - 1;
  al_target : ten_minute_target_sample_index r <= ten_minute_actual_last_sample_index r;
  al_overshoot : ten_minute_overshoot_samples r =
    ten_minute_actual_last_sample_index r - ten_minute_target_sample_index r
}.

Definition ten_minute_composition_ok (blocks cycles hz : Z) : Prop :=
  blocks <> 0 /\ cycles = blocks * (if hz =? 50 then 10 else 12).
Definition two_hour_composition_ok (blocks cycles hz : Z) : Prop :=
  blocks = 12 /\ cycles <> 0.

Lemma block_count_range r : 0 <= tc_basic_block_count (ten_minute_composition r) < 2 ^ 16.
Proof. apply wrap_range. lia. Qed.

Lemma wrap_pred32 b : 0 < b < 2 ^ 32 -> u32 (b - 1) = b - 1.
Proof. intros. apply wrap_id. lia. Qed.

(** Range facts of the words the aligned decoders compare. *)
Ltac interval_bounds r Hr :=
  pose proof (unsigned64_fits r 9 Hr) as Hfirst64;
  pose proof (unsigned64_fits r 36 Hr) as Hlast64;
  pose proof (unsigned64_fits r 42 Hr) as Htarget64;
  pose proof (word_fits r 6 Hr) as Hcount32;
  pose proof (word_fits r 44 Hr) as Hover32;
  pose proof (block_count_range r) as Hblocks16;
  change (unsigned64 r 9) with (first_sample_index r) in Hfirst64;
  change (unsigned64 r 36) with (ten_minute_actual_last_sample_index r) in Hlast64;
  change (unsigned64 r 42) with (ten_minute_target_sample_index r) in Htarget64;
  change (word r 6) with (block_sample_count r) in Hcount32;
  change (word r 44) with (ten_minute_overshoot_samples r) in Hover32.

Lemma ten_minute_contract_ok r t :
  record_wf r ->
  aligned_contract r meter_ten_minute_format ten_minute_composition_ok <->
  is_ok (decode_ten_minute_meter_record r t) = true.
Proof.
  intros Hr. unfold decode_ten_minute_meter_record. cbn zeta.
  rewrite !is_ok_reject, cycles_per_basic_block_50_60.
  change (is_ok (decode_aggregate_fundamental_values _ _ _ _ _ _ ≫= _)) with true.
  unfold aggregate_sample_count, aggregate_first_sample_index.
  interval_bounds r Hr. unfold UINT64_MAX, UINT32_MAX.
  set (cpb := if tc_nominal_frequency_hz (ten_minute_composition r) =? 50 then 10 else 12).
  assert (cpb = 10 \/ cpb = 12) as Hcpb by (subst cpb; case_match; lia).
  split.
  - intros [H1 H2 H3 H4 [H5 H5'] H6 H7 H8 H9 H10 H11]. fold cpb in H5'.
    rewrite H1, H3, !wrap_pred32, !(wrap_id 64) by lia.
    unfold wrap. rewrite H6. lia.
  - intros H. bools. rewrite !wrap_pred32, !(wrap_id 64) in * by lia.
    unfold wrap in *. split; auto; unfold ten_minute_composition_ok; fold cpb; lia.
Qed.

Lemma two_hour_contract_ok r t :
  record_wf r ->
  aligned_contract r meter_two_hour_format two_hour_composition_ok <->
  is_ok (decode_two_hour_meter_record r t) = true.
Proof.
  intros Hr. unfold decode_two_hour_meter_record. cbn zeta.
  rewrite !is_ok_reject.
  change (is_ok (decode_aggregate_fundamental_values _ _ _ _ _ _ ≫= _)) with true.
  unfold aggregate_sample_count, aggregate_first_sample_index, two_hour_status,
    two_hour_composition, two_hour_actual_last_sample_index, two_hour_target_sample_index,
    two_hour_overshoot_samples, intervals_per_two_hours.
  interval_bounds r Hr. unfold UINT64_MAX, UINT32_MAX. split.
  - intros [H1 H2 H3 H4 [H5 H5'] H6 H7 H8 H9 H10 H11].
    rewrite H1, H3, !wrap_pred32, !(wrap_id 64) by lia.
    unfold wrap. rewrite H6. lia.
  - intros H. bools. rewrite !wrap_pred32, !(wrap_id 64) in * by lia.
    unfold wrap in *. split; auto; unfold two_hour_composition_ok; lia.
Qed.

(** What a successful aligned decode publishes. *)
Definition interval_fault (r : MeterRecord) : bool :=
  ts_contaminated (ten_minute_status r) || negb (ts_time_aligned (ten_minute_status r)) ||
  negb (ts_boundary_valid (ten_minute_status r)).

Definition aligned_update_ok (r : MeterRecord) (p : MeasurementPeriod) (u : MeterUpdate)
  : Prop :=
  mu_period u = p /\ mu_sequence u = sequence r /\
  exists v a, mu_fundamental u = Some v /\ mu_aggregate_timing u = Some a /\
    mu_timing u = None /\
    (at_first_sample_index a, at_last_sample_index a, at_sample_count a) =
      (first_sample_index r, first_sample_index r + block_sample_count r - 1,
       block_sample_count r) /\
    (ts_arithmetic_error (ten_minute_status r) = true ->
       Forall (fun m => rm_quality m = arithmetic_error) (fundamental_metas v)) /\
    (ts_arithmetic_error (ten_minute_status r) = false -> interval_fault r = true ->
       Forall (fun m => rm_quality m = invalid) (fundamental_metas v)) /\
    r_quality (fv_frequency v) = unavailable.

Lemma ten_minute_update r t u :
  record_wf r -> decode_ten_minute_meter_record r t = Ok u -> aligned_update_ok r Min10 u.
Proof.
  intros Hr H.
  assert (aligned_contract r meter_ten_minute_format ten_minute_composition_ok) as Hc.
  { apply (ten_minute_contract_ok r t Hr), is_ok_iff. eauto. }
  unfold decode_ten_minute_meter_record in H. cbn zeta in H. inv_ok H.
  repeat split. do 2 eexists. repeat split; simpl; try reflexivity.
  - by rewrite (al_last _ _ _ Hc).
  - intros E. by eapply aggregate_fundamental_quality.
  - intros E E'. by eapply aggregate_fundamental_quality.
  - by eapply aggregate_fundamental_quality.
Qed.

Lemma two_hour_update r t u :
  record_wf r -> decode_two_hour_meter_record r t = Ok u -> aligned_update_ok r Hour2 u.
Proof.
  intros Hr H.
  assert (aligned_contract r meter_two_hour_format two_hour_composition_ok) as Hc.
  { apply (two_hour_contract_ok r t Hr), is_ok_iff. eauto. }
  unfold decode_two_hour_meter_record in H. cbn zeta in H. inv_ok H.
  repeat split. do 2 eexists. repeat split; simpl; try reflexivity.
  - by rewrite <- (al_last _ _ _ Hc).
  - intros E. by eapply aggregate_fundamental_quality.
  - intros E E'. by eapply aggregate_fundamental_quality.
  - by eapply aggregate_fundamental_quality.
Qed.

(** ** Properties *)

(** The 10/12-cycle basic decoder accepts exactly the records that satisfy
    the block contract (known header and format, 50/60 Hz nominal, a nonempty
    sample range that starts above zero and stays inside the 64-bit counter, and
    the nominal's cycle count when locked), and rejects every other record with
    [std::invalid_argument].  An accepted block is labelled Basic, keeps the
    record's sample anchors, starts unsynchronised, and may enter Class A
    aggregation exactly when it is locked, not free-running and not the first
    block after an apply. *)
Theorem periodic_decode_correct r t :
  match decode_periodic_meter_record r t with
  | Throw e => invalid_only e /\ ~ basic_contract r
  | Ok u =>
      basic_contract r /\ mu_period u = Basic /\
      exists b, mu_timing u = Some b /\ mu_aggregate_timing u = None /\
        bt_first_sample_index b = first_sample_index r /\
        bt_sample_count b = block_sample_count r /\
        bt_utc_start b = None /\ bt_time_quality b = Unsynchronized /\
        class_a_aggregation_eligible b =
          tw_cycle_locked (timing r) && negb (tw_free_run_fallback (timing r)) &&
          negb (tw_first_block_after_apply (timing r))
  end.
Proof.
  destruct (decode_periodic_meter_record r t) as [u|e] eqn:E.
  - assert (basic_contract r) as Hc by (apply (basic_contract_ok r t); by rewrite E).
    split; [done|]. pose proof (bc_cycles _ Hc) as Hcy. clear Hc.
    unfold decode_periodic_meter_record in E. cbn zeta in E.
    set (tw := timing r) in *. clearbody tw. inv_ok E.
    split; [done|]. eexists. repeat split. unfold class_a_aggregation_eligible.
    cbn [bt_cycle_locked bt_free_run_fallback bt_first_block_after_apply bt_cycle_count
         bt_nominal_frequency].
    rewrite cycles_per_basic_block_50_60.
    destruct (tw_cycle_locked tw), (tw_free_run_fallback tw); try done.
    rewrite (Hcy eq_refl eq_refl), Z.eqb_refl. by rewrite andb_true_r.
  - split; [by eapply periodic_throws|].
    rewrite (basic_contract_ok r t), E. done.
Qed.

(** The 150/180-cycle decoder accepts exactly complete aggregates of fifteen
    consecutive basic blocks (the sequence span is taken modulo 2^32) whose cycle
    count matches the nominal and whose last sample closes the counted range; only
    an aggregate marked as the continuing UTC-overlap interval may end earlier, and
    it never is the resynchronised one as well.  Every other record is rejected with
    [std::invalid_argument].  A saturated aggregation taints every channel, and the
    informative mean frequency is never published as a measurement. *)
Theorem aggregate_decode_correct r t :
  record_wf r ->
  match decode_aggregate_meter_record r t with
  | Throw e => invalid_only e /\ ~ aggregate_contract r
  | Ok u =>
      aggregate_contract r /\ mu_period u = Cycles150_180 /\
      exists v a, mu_fundamental u = Some v /\ mu_aggregate_timing u = Some a /\
        mu_timing u = None /\ at_basic_block_count a = 15 /\
        at_last_sample_index a <= at_first_sample_index a + at_sample_count a - 1 /\
        (ms_arithmetic_error (aggregate_status r) = true ->
           Forall (fun m => rm_quality m = arithmetic_error) (fundamental_metas v)) /\
        r_quality (fv_frequency v) = unavailable
  end.
Proof.
  intros Hr. destruct (decode_aggregate_meter_record r t) as [u|e] eqn:E.
  - assert (aggregate_contract r) as Hc by (apply (aggregate_contract_ok r t Hr); by rewrite E).
    split; [done|]. unfold decode_aggregate_meter_record in E. cbn zeta in E. inv_ok E;
    (split; [done|]; do 2 eexists; repeat split;
     [apply (ag_blocks _ Hc)| | |by eapply aggregate_fundamental_quality]);
    try (by intros ?; eapply aggregate_fundamental_quality);
    pose proof (ag_last _ Hc) as Hl; cbn zeta in Hl; cbn [at_last_sample_index
      at_first_sample_index at_sample_count]; unfold aggregate_first_sample_index,
      aggregate_sample_count; destruct (ms_utc_overlap (aggregate_status r)); lia.
  - split; [by eapply aggregate_throws|].
    rewrite (aggregate_contract_ok r t Hr), E. done.
Qed.

(** A 60 Hz aggregate of 15 blocks whose sequence span wraps 2^32. *)
Definition demo_aggregate : MeterRecord :=
  build_record [(0, meter_record_magic); (1, meter_aggregate_format); (2, 256); (3, 8);
    (4, 1); (5, 32000); (6, 96000); (7, 0x7f); (8, 0x2); (9, 1000);
    (13, 15 + 60 * 2 ^ 8 + 180 * 2 ^ 16); (14, 0xfffffffe); (15, 12); (36, 96999)].

Lemma aggregate_decode_correct_witness :
  record_wf demo_aggregate /\
  match decode_aggregate_meter_record demo_aggregate 77 with
  | Throw e => invalid_only e /\ ~ aggregate_contract demo_aggregate
  | Ok u =>
      aggregate_contract demo_aggregate /\ mu_period u = Cycles150_180 /\
      exists v a, mu_fundamental u = Some v /\ mu_aggregate_timing u = Some a /\
        mu_timing u = None /\ at_basic_block_count a = 15 /\
        at_last_sample_index a <= at_first_sample_index a + at_sample_count a - 1 /\
        (ms_arithmetic_error (aggregate_status demo_aggregate) = true ->
           Forall (fun m => rm_quality m = arithmetic_error) (fundamental_metas v)) /\
        r_quality (fv_frequency v) = unavailable
  end /\
  is_ok (decode_aggregate_meter_record demo_aggregate 77) = true.
Proof.
  assert (record_wf demo_aggregate) as Hr by (apply record_wfb_iff; vm_compute; reflexivity).
  split; [exact Hr|]. split; [exact (aggregate_decode_correct demo_aggregate 77 Hr)|].
  vm_compute. reflexivity.
Defined.

(** The ten-minute decoder accepts exactly the records that satisfy the
    aligned contract (nonempty composition with matching cycle count, consecutive
    basic sequences modulo 2^32, a sample range closed by the actual boundary, the
    target boundary not after it and the overshoot equal to their distance), else
    throws [std::invalid_argument]; a contaminated, unaligned or boundary-invalid
    interval publishes no valid electrical reading. *)
Theorem ten_minute_decode_correct r t :
  record_wf r ->
  match decode_ten_minute_meter_record r t with
  | Throw e => invalid_only e /\
      ~ aligned_contract r meter_ten_minute_format ten_minute_composition_ok
  | Ok u => aligned_contract r meter_ten_minute_format ten_minute_composition_ok /\
      aligned_update_ok r Min10 u
  end.
Proof.
  intros Hr. destruct (decode_ten_minute_meter_record r t) as [u|e] eqn:E.
  - split; [apply (ten_minute_contract_ok r t Hr); by rewrite E|by eapply ten_minute_update].
  - split; [by eapply ten_minute_throws|]. by rewrite (ten_minute_contract_ok r t Hr), E.
Qed.

Definition demo_ten_minute : MeterRecord :=
  build_record [(0, meter_record_magic); (1, meter_ten_minute_format); (2, 256); (3, 4);
    (4, 1); (5, 2000); (6, 1200000); (7, 0x7f); (8, 0x16); (9, 5);
    (13, 3000 + 50 * 2 ^ 16); (14, 0xfffffff0); (15, 0xfffffff0 + 2999 - 2 ^ 32);
    (36, 1200004); (41, 30000); (42, 1200000); (44, 4)].

Lemma ten_minute_decode_correct_witness :
  record_wf demo_ten_minute /\
  match decode_ten_minute_meter_record demo_ten_minute 1 with
  | Throw e => invalid_only e /\
      ~ aligned_contract demo_ten_minute meter_ten_minute_format ten_minute_composition_ok
  | Ok u =>
      aligned_contract demo_ten_minute meter_ten_minute_format ten_minute_composition_ok /\
      aligned_update_ok demo_ten_minute Min10 u
  end /\
  is_ok (decode_ten_minute_meter_record demo_ten_minute 1) = true.
Proof.
  assert (record_wf demo_ten_minute) as Hr by (apply record_wfb_iff; vm_compute; reflexivity).
  split; [exact Hr|]. split; [exact (ten_minute_decode_correct demo_ten_minute 1 Hr)|].
  vm_compute. reflexivity.
Defined.

(** The two-hour decoder accepts exactly twelve consecutive ten-minute
    intervals under the same boundary rules, else throws
    [std::invalid_argument], with the same quality propagation. *)
Theorem two_hour_decode_correct r t :
  record_wf r ->
  match decode_two_hour_meter_record r t with
  | Throw e => invalid_only e /\
      ~ aligned_contract r meter_two_hour_format two_hour_composition_ok
  | Ok u => aligned_contract r meter_two_hour_format two_hour_composition_ok /\
      aligned_update_ok r Hour2 u
  end.
Proof.
  intros Hr. destruct (decode_two_hour_meter_record r t) as [u|e] eqn:E.
  - split; [apply (two_hour_contract_ok r t Hr); by rewrite E|by eapply two_hour_update].
  - split; [by eapply two_hour_throws|]. by rewrite (two_hour_contract_ok r t Hr), E.
Qed.

Definition demo_two_hour : MeterRecord :=
  build_record [(0, meter_record_magic); (1, meter_two_hour_format); (2, 256); (3, 4);
    (4, 1); (5, 2000); (6, 14400000); (7, 0x7f); (8, 0x1e); (9, 5);
    (13, 12 + 60 * 2 ^ 16); (14, 30); (15, 41);
    (36, 14400004); (41, 432000); (42, 14400004)].

Lemma two_hour_decode_correct_witness :
  record_wf demo_two_hour /\
  match decode_two_hour_meter_record demo_two_hour 1 with
  | Throw e => invalid_only e /\
      ~ aligned_contract demo_two_hour meter_two_hour_format two_hour_composition_ok
  | Ok u =>
      aligned_contract demo_two_hour meter_two_hour_format two_hour_composition_ok /\
      aligned_update_ok demo_two_hour Hour2 u
  end /\
  is_ok (decode_two_hour_meter_record demo_two_hour 1) = true.
Proof.
  assert (record_wf demo_two_hour) as Hr by (apply record_wfb_iff; vm_compute; reflexivity).
  split; [exact Hr|]. split; [exact (two_hour_decode_correct demo_two_hour 1 Hr)|].
  vm_compute. reflexivity.
Defined.
