(* ===== verification/DecodePower.v ===== *)
(** * Decoders of the POWER, PHASOR and UNBALANCE payloads

    Models [decode_power_payload], [decode_phasor_payload] and
    [decode_unbalance_payload] of [common/msap1/meter/meter_data.cpp] and their
    per-period wrappers.  One word map serves every period; the period decides
    which interval status gates the readings. *)
From S2P Require Import Prelude.
From S2P Require Import MeterTiming.
From S2P Require Import RecordFormat.
From S2P Require Import MeterRecord.
From S2P Require Import MeterData.
From S2P Require Import DecodeCommon.
From S2P Require Import DecodeBlocks.

(** The phase arrays [voltage_lane] and [current_lane], indexed by phase A/B/C. *)
Definition voltage_lane (phase : nat) : nat := nth phase [6; 5; 4]%nat 0%nat.
Definition current_lane (phase : nat) : nat := nth phase [0; 1; 2]%nat 0%nat.

Definition lane_valid (record : MeterRecord) (lane : nat) : bool :=
  bit (valid_mask record) (Z.of_nat lane).

Definition per_phase {T} (f : nat -> T) : PhaseABC T := mkABC (f 0%nat) (f 1%nat) (f 2%nat).

Definition with_power (u : MeterUpdate) (v : PowerValues) : MeterUpdate :=
  mkUpdate (mu_period u) (mu_kind u) (mu_sequence u) (mu_configuration_generation u)
    (mu_fundamental u) (Some v) (mu_phasor u) (mu_unbalance u) (mu_energy u) (mu_demand u)
    (mu_power_quality u) (mu_frequency_10s u) (mu_timing u) (mu_aggregate_timing u).

Definition with_phasor (u : MeterUpdate) (v : PhasorValues) : MeterUpdate :=
  mkUpdate (mu_period u) (mu_kind u) (mu_sequence u) (mu_configuration_generation u)
    (mu_fundamental u) (mu_power u) (Some v) (mu_unbalance u) (mu_energy u) (mu_demand u)
    (mu_power_quality u) (mu_frequency_10s u) (mu_timing u) (mu_aggregate_timing u).

Definition with_unbalance (u : MeterUpdate) (v : UnbalanceValues) : MeterUpdate :=
  mkUpdate (mu_period u) (mu_kind u) (mu_sequence u) (mu_configuration_generation u)
    (mu_fundamental u) (mu_power u) (mu_phasor u) (Some v) (mu_energy u) (mu_demand u)
    (mu_power_quality u) (mu_frequency_10s u) (mu_timing u) (mu_aggregate_timing u).

Definition decode_power_payload (record : MeterRecord) (received_at expected_format : Z)
    (period : MeasurementPeriod) : result MeterUpdate :=
  reject_if (negb (header_valid record) || negb (record_format record =? expected_format))
    (InvalidArgument "invalid power record") ;;
  let sample_count := block_sample_count record in
  reject_if (sample_count =? 0) (InvalidArgument "power record has a zero sample count") ;;
  reject_if (first_sample_index record =? 0)
    (InvalidArgument "power record has a zero first-sample index") ;;
  let seqn := sequence record in
  let window := sample_window sample_count (sample_rate_hz record) in
  let payload_state := aggregate_payload_state record period in
  let word_s64 (low : nat) : Z := record_signed64 record low in
  let read {U : Set} (value : Z) (available : bool) : Reading U :=
    payload_reading value available payload_state seqn received_at window in
  let phase_ok (phase : nat) : bool :=
    lane_valid record (voltage_lane phase) && lane_valid record (current_lane phase) in
  let phase_p (phase : nat) : Reading Picowatts :=
    read (word_s64 (16 + phase * 5)%nat) (phase_ok phase) in
  let phase_s (phase : nat) : Reading PicoVoltAmperes :=
    read (word_s64 (16 + phase * 5 + 2)%nat) (phase_ok phase) in
  let phase_pf (phase : nat) : Reading PowerFactorMillionths :=
    read (s32 (word record (16 + phase * 5 + 4)%nat))
      (phase_ok phase && negb (word_s64 (16 + phase * 5 + 2)%nat =? 0)) in
  let totals_valid := lane_valid record 6 && lane_valid record 0 in
  let total_s := word_s64 33%nat in
  let crest (lane : nat) : Reading CrestTenThousandths :=
    read (word record (36 + lane)%nat) (lane_valid record lane) in
  let values := mkPower (per_phase phase_p) (per_phase phase_s) (per_phase phase_pf)
    (read (word_s64 31%nat) totals_valid) (read total_s totals_valid)
    (read (s32 (word record 35)) (totals_valid && negb (total_s =? 0)))
    (mkABC (crest 6%nat) (crest 5%nat) (crest 4%nat))
    (mkABCN (crest 0%nat) (crest 1%nat) (crest 2%nat) (crest 3%nat)) in
  Ok (with_power (base_update period kind_power seqn (configuration_generation record)) values).

Definition decode_power_meter_record (record : MeterRecord) (received_at : Z) :=
  decode_power_payload record received_at meter_power_format Basic.
Definition decode_aggregate_power_meter_record (record : MeterRecord) (received_at : Z) :=
  decode_power_payload record received_at meter_aggregate_power_format Cycles150_180.
Definition decode_ten_minute_power_meter_record (record : MeterRecord) (received_at : Z) :=
  decode_power_payload record received_at meter_ten_minute_power_format Min10.
Definition decode_two_hour_power_meter_record (record : MeterRecord) (received_at : Z) :=
  decode_power_payload record received_at meter_two_hour_power_format Hour2.
Definition decode_ten_minute_open_power_meter_record (record : MeterRecord) (received_at : Z) :=
  decode_power_payload record received_at meter_ten_minute_open_power_format Min10Live.
Definition decode_two_hour_open_power_meter_record (record : MeterRecord) (received_at : Z) :=
  decode_power_payload record received_at meter_two_hour_open_power_format Hour2Live.

(** [static_cast<LoadNature>] of a two-bit field. *)
Definition load_nature_of (code : Z) : LoadNature :=
  if code =? 0 then undefined else if code =? 1 then unity
  else if code =? 2 then lagging else leading.

Definition decode_phasor_payload (record : MeterRecord) (received_at expected_format : Z)
    (period : MeasurementPeriod) : result MeterUpdate :=
  reject_if (negb (header_valid record) || negb (record_format record =? expected_format))
    (InvalidArgument "invalid phasor record") ;;
  let sample_count := block_sample_count record in
  reject_if (sample_count =? 0) (InvalidArgument "phasor record has a zero sample count") ;;
  reject_if (first_sample_index record =? 0)
    (InvalidArgument "phasor record has a zero first-sample index") ;;
  let seqn := sequence record in
  let window := sample_window sample_count (sample_rate_hz record) in
  let payload_state := aggregate_payload_state record period in
  let block_invalid := any_bit (word record 8) 0x2 || aps_invalid payload_state in
  let flags := word record 51 in
  let reference_valid := any_bit flags 0x100 in
  let quality (available : bool) : MeasurementQuality :=
    if aps_arithmetic_error payload_state then arithmetic_error
    else if block_invalid then invalid
    else if available then valid else unavailable in
  let read {U : Set} (value : Z) (available : bool) : Reading U :=
    mkReading value (quality available) seqn received_at window in
  let fund_of (lane : nat) : Z := word record (16 + lane * 2)%nat in
  let angle_of (lane : nat) : Z := word record (17 + lane * 2)%nat in
  let angle_available (lane : nat) : bool :=
    lane_valid record lane && reference_valid && negb (fund_of lane =? 0) in
  let fund {U : Set} (lane : nat) : Reading U :=
    read (fund_of lane) (lane_valid record lane) in
  let angle (lane : nat) : Reading Millidegrees :=
    read (angle_of lane) (angle_available lane) in
  let pair_ok (pair : nat) : bool :=
    lane_valid record (nth pair [6; 5; 4]%nat 0%nat) &&
    lane_valid record (nth pair [5; 4; 6]%nat 0%nat) in
  let vll_fund (pair : nat) : Reading MicroVolts :=
    read (word record (30 + pair * 2)%nat) (pair_ok pair) in
  let vll_angle (pair : nat) : Reading Millidegrees :=
    read (word record (31 + pair * 2)%nat)
      (pair_ok pair && reference_valid && negb (word record (30 + pair * 2)%nat =? 0)) in
  let phase_ok (phase : nat) : bool :=
    lane_valid record (voltage_lane phase) && lane_valid record (current_lane phase) in
  let nature (phase : nat) : LoadNature :=
    load_nature_of (Z.land (Z.shiftr flags (Z.of_nat phase * 2)) 0x3) in
  let disp (phase : nat) : Reading Millidegrees :=
    read (word record (36 + phase)%nat)
      (phase_ok phase && negb (fund_of (voltage_lane phase) =? 0) &&
       negb (fund_of (current_lane phase) =? 0)) in
  let q1 (phase : nat) : Reading Picovars :=
    read (record_signed64 record (39 + phase * 2)%nat) (phase_ok phase) in
  let p1 (phase : nat) : Reading Picowatts :=
    read (record_signed64 record (52 + phase * 2)%nat) (phase_ok phase) in
  let dpf (phase : nat) : Reading PowerFactorMillionths :=
    read (s32 (word record (47 + phase)%nat))
      (phase_ok phase && negb (bool_decide (nature phase = undefined))) in
  let total_nature := load_nature_of (Z.land (Z.shiftr flags 6) 0x3) in
  let totals_valid := lane_valid record 6 && lane_valid record 0 in
  let values := mkPhasor
    (mkABC (fund 6%nat) (fund 5%nat) (fund 4%nat))
    (mkABCN (fund 0%nat) (fund 1%nat) (fund 2%nat) (fund 3%nat))
    (per_phase vll_fund)
    (mkABC (angle 6%nat) (angle 5%nat) (angle 4%nat))
    (mkABCN (angle 0%nat) (angle 1%nat) (angle 2%nat) (angle 3%nat))
    (per_phase vll_angle) (per_phase disp) (per_phase q1)
    (read (record_signed64 record 45) totals_valid)
    (per_phase p1) (read (record_signed64 record 58) totals_valid) (per_phase dpf)
    (read (s32 (word record 50))
       (totals_valid && negb (bool_decide (total_nature = undefined))))
    (per_phase nature) total_nature reference_valid block_invalid in
  Ok (with_phasor (base_update period kind_phasor seqn (configuration_generation record)) values).

Definition decode_phasor_meter_record (record : MeterRecord) (received_at : Z) :=
  decode_phasor_payload record received_at meter_phasor_format Basic.
Definition decode_aggregate_phasor_meter_record (record : MeterRecord) (received_at : Z) :=
  decode_phasor_payload record received_at meter_aggregate_phasor_format Cycles150_180.
Definition decode_ten_minute_phasor_meter_record (record : MeterRecord) (received_at : Z) :=
  decode_phasor_payload record received_at meter_ten_minute_phasor_format Min10.
Definition decode_two_hour_phasor_meter_record (record : MeterRecord) (received_at : Z) :=
  decode_phasor_payload record received_at meter_two_hour_phasor_format Hour2.
Definition decode_ten_minute_open_phasor_meter_record (record : MeterRecord) (received_at : Z) :=
  decode_phasor_payload record received_at meter_ten_minute_open_phasor_format Min10Live.
Definition decode_two_hour_open_phasor_meter_record (record : MeterRecord) (received_at : Z) :=
  decode_phasor_payload record received_at meter_two_hour_open_phasor_format Hour2Live.

Definition decode_unbalance_payload (record : MeterRecord) (received_at expected_format : Z)
    (period : MeasurementPeriod) : result MeterUpdate :=
  reject_if (negb (header_valid record) || negb (record_format record =? expected_format))
    (InvalidArgument "invalid unbalance record") ;;
  let sample_count := block_sample_count record in
  reject_if (sample_count =? 0) (InvalidArgument "unbalance record has a zero sample count") ;;
  reject_if (first_sample_index record =? 0)
    (InvalidArgument "unbalance record has a zero first-sample index") ;;
  let seqn := sequence record in
  let window := sample_window sample_count (sample_rate_hz record) in
  let payload_state := aggregate_payload_state record period in
  let block_invalid := any_bit (word record 8) 0x2 || aps_invalid payload_state in
  let flags := word record 32 in
  let v_ratios_valid := any_bit flags 0x1 in
  let i_ratios_valid := any_bit flags 0x2 in
  let reference_valid := any_bit flags 0x100 in
  let mask := valid_mask record in
  let v_lanes := Z.land mask 0x70 =? 0x70 in
  let i_lanes := Z.land mask 0x07 =? 0x07 in
  let quality (available : bool) : MeasurementQuality :=
    if aps_arithmetic_error payload_state then arithmetic_error
    else if block_invalid then invalid
    else if available then valid else unavailable in
  let read {U : Set} (value : Z) (available : bool) : Reading U :=
    mkReading value (quality available) seqn received_at window in
  let magnitude {U : Set} (base : nat) (lanes_ok : bool) : Reading U :=
    read (word record base) lanes_ok in
  let angle (base : nat) (lanes_ok : bool) : Reading Millidegrees :=
    read (word record (base + 1)%nat)
      (lanes_ok && reference_valid && negb (word record base =? 0)) in
  let ratio (w : nat) (available : bool) : Reading RatioMillionths :=
    read (word record w) available in
  let values := mkUnbalance
    (magnitude 16%nat v_lanes) (magnitude 18%nat v_lanes) (magnitude 20%nat v_lanes)
    (angle 16%nat v_lanes) (angle 18%nat v_lanes) (angle 20%nat v_lanes)
    (magnitude 22%nat i_lanes) (magnitude 24%nat i_lanes) (magnitude 26%nat i_lanes)
    (angle 22%nat i_lanes) (angle 24%nat i_lanes) (angle 26%nat i_lanes)
    (ratio 28%nat (v_lanes && v_ratios_valid)) (ratio 29%nat (v_lanes && v_ratios_valid))
    (ratio 30%nat (i_lanes && i_ratios_valid)) (ratio 31%nat (i_lanes && i_ratios_valid))
    reference_valid block_invalid in
  Ok (with_unbalance
        (base_update period kind_unbalance seqn (configuration_generation record)) values).

Definition decode_unbalance_meter_record (record : MeterRecord) (received_at : Z) :=
  decode_unbalance_payload record received_at meter_unbalance_format Basic.
Definition decode_aggregate_unbalance_meter_record (record : MeterRecord) (received_at : Z) :=
  decode_unbalance_payload record received_at meter_aggregate_unbalance_format Cycles150_180.
Definition decode_ten_minute_unbalance_meter_record (record : MeterRecord) (received_at : Z) :=
  decode_unbalance_payload record received_at meter_ten_minute_unbalance_format Min10.
Definition decode_two_hour_unbalance_meter_record (record : MeterRecord) (received_at : Z) :=
  decode_unbalance_payload record received_at meter_two_hour_unbalance_format Hour2.
Definition decode_ten_minute_open_unbalance_meter_record (record : MeterRecord)
    (received_at : Z) :=
  decode_unbalance_payload record received_at meter_ten_minute_open_unbalance_format Min10Live.
Definition decode_two_hour_open_unbalance_meter_record (record : MeterRecord)
    (received_at : Z) :=
  decode_unbalance_payload record received_at meter_two_hour_open_unbalance_format Hour2Live.

(** ** Lemmas *)

(** The record-level fault of a payload, worst first; [None] when the readings
    are judged one by one. *)
Definition interval_fault (arithmetic is_invalid : bool) : option MeasurementQuality :=
  if arithmetic then Some arithmetic_error else if is_invalid then Some invalid else None.

Definition power_fault (r : MeterRecord) (p : MeasurementPeriod) : option MeasurementQuality :=
  interval_fault (aps_arithmetic_error (aggregate_payload_state r p))
    (aps_invalid (aggregate_payload_state r p)).

Definition phasor_fault (r : MeterRecord) (p : MeasurementPeriod) : option MeasurementQuality :=
  interval_fault (aps_arithmetic_error (aggregate_payload_state r p))
    (any_bit (word r 8) 0x2 || aps_invalid (aggregate_payload_state r p)).

(** Every reading shares the record's fault, or has none to share. *)
Definition gated (fault : option MeasurementQuality) (ms : list ReadingMeta) : Prop :=
  match fault with
  | Some q => Forall (fun m => rm_quality m = q) ms
  | None => Forall (fun m => rm_quality m = valid \/ rm_quality m = unavailable) ms
  end.

Definition ladder (a b c : bool) : MeasurementQuality :=
  if a then arithmetic_error else if b then invalid else if c then valid else unavailable.

Lemma ladder_valid a b c :
  ladder a b c = valid <-> interval_fault a b = None /\ c = true.
Proof. destruct a, b, c; naive_solver. Qed.

Lemma gated_ladder a b ms :
  Forall (fun m => exists c, rm_quality m = ladder a b c) ms -> gated (interval_fault a b) ms.
Proof.
  unfold gated. destruct a; [|destruct b]; apply Forall_impl; intros m [c ->]; simpl; auto.
  destruct c; auto.
Qed.

Lemma gated_fault_not_valid a b ms :
  a || b = true -> gated (interval_fault a b) ms ->
  Forall (fun m => rm_quality m <> valid) ms.
Proof.
  unfold gated. destruct a, b; intros Hab; try discriminate Hab; apply Forall_impl;
    by intros m ->.
Qed.

(** Rewrites every quality in the goal to its ladder. *)
Ltac ladders :=
  repeat match goal with
  | |- context [r_quality (payload_reading _ ?c ?st _ _ _)] =>
      change (r_quality (payload_reading _ c st _ _ _))
        with (ladder (aps_arithmetic_error st) (aps_invalid st) c)
  | |- context [if ?a then arithmetic_error else if ?b then invalid
                else if ?c then valid else unavailable] =>
      change (if a then arithmetic_error else if b then invalid
              else if c then valid else unavailable) with (ladder a b c)
  end; rewrite ?ladder_valid.

Ltac gated_tac := apply gated_ladder; repeat constructor; eexists; reflexivity.

(** The member of a phase group the code indexes with [phase] = 0, 1, 2. *)
Definition pick {T} (phase : nat) (g : PhaseABC T) : T :=
  match phase with O => abc_a g | S O => abc_b g | _ => abc_c g end.

Definition phase_lanes (r : MeterRecord) (phase : nat) : Prop :=
  lane_valid r (voltage_lane phase) = true /\ lane_valid r (current_lane phase) = true.

(** Case analysis on a phase index. *)
Ltac on_phase phase Hp :=
  destruct phase as [|[|[|phase]]]; [| | |exfalso; lia]; clear Hp;
  cbn [pick per_phase abc_a abc_b abc_c].

(** A closed record for the witnesses: envelope, nonzero geometry, all lanes. *)
Definition payload_example (format flags : Z) (extra : list (Z * Z)) : MeterRecord :=
  build_record ([(0, meter_record_magic); (1, format); (2, meter_record_size); (3, 7); (4, 1);
     (5, 20480); (6, 4096); (7, 127); (8, flags); (9, 4097)] ++ extra).

(** ** Properties *)

(** Interval status outranks the channels in every POWER record.  Whatever
    period it belongs to, an arithmetic error of the interval marks all nineteen
    readings [arithmetic_error] and any other interval fault marks them all
    [invalid], so no reading of a faulted interval can be [valid].  Without a fault
    the active and apparent power of a phase carry the record's signed 64-bit words
    and are valid exactly when the voltage and current lanes of the phase are, its
    power factor is valid exactly when in addition its apparent power is nonzero, and
    the totals follow the lanes Va and Ia. *)
Theorem power_payload_gated r t f p u :
  decode_power_payload r t f p = Ok u ->
  mu_period u = p /\
  exists v, mu_power u = Some v /\ gated (power_fault r p) (power_metas v) /\
    (forall phase, (phase < 3)%nat ->
       r_value (pick phase (pv_active_power v)) = record_signed64 r (16 + phase * 5) /\
       r_value (pick phase (pv_apparent_power v)) = record_signed64 r (18 + phase * 5) /\
       (r_quality (pick phase (pv_active_power v)) = valid <->
          power_fault r p = None /\ phase_lanes r phase) /\
       (r_quality (pick phase (pv_apparent_power v)) = valid <->
          power_fault r p = None /\ phase_lanes r phase) /\
       (r_quality (pick phase (pv_power_factor v)) = valid <->
          power_fault r p = None /\ phase_lanes r phase /\
          r_value (pick phase (pv_apparent_power v)) <> 0)) /\
    (r_quality (pv_total_active_power v) = valid <->
       power_fault r p = None /\ lane_valid r 6 = true /\ lane_valid r 0 = true) /\
    (r_quality (pv_total_power_factor v) = valid <->
       power_fault r p = None /\ lane_valid r 6 = true /\ lane_valid r 0 = true /\
       r_value (pv_total_apparent_power v) <> 0).
Proof.
  intros H. unfold decode_power_payload in H. cbn zeta in H. inv_ok H.
  split; [done|]. eexists. split; [reflexivity|].
  cbn [pv_power_factor pv_active_power pv_apparent_power pv_total_active_power
       pv_total_power_factor pv_total_apparent_power].
  split; [unfold power_fault; gated_tac|]. split.
  - intros phase Hp. on_phase phase Hp; ladders; unfold phase_lanes;
      rewrite !andb_true_iff, !negb_true_iff, !Z.eqb_neq; repeat split; tauto.
  - ladders. rewrite !andb_true_iff, negb_true_iff, Z.eqb_neq. repeat split; tauto.
Qed.

Definition power_example : MeterRecord :=
  payload_example meter_power_format 1 [(16, 1000); (18, 2000); (20, 500000)].

Lemma power_payload_gated_witness :
  exists u v, decode_power_payload power_example 42 meter_power_format Basic = Ok u /\
    mu_power u = Some v /\ r_quality (pick 0 (pv_power_factor v)) = valid /\
    r_quality (pick 1 (pv_power_factor v)) <> valid.
Proof.
  destruct (decode_power_payload power_example 42 meter_power_format Basic) as [u|e] eqn:E;
    [|vm_compute in E; discriminate].
  pose proof (power_payload_gated _ _ _ _ _ E) as (_ & v & Hv & _ & Hp & _).
  exists u, v. split; [done|]. split; [done|]. split.
  - apply (Hp 0%nat); [lia|]. destruct (Hp 0%nat ltac:(lia)) as (_ & -> & _).
    vm_compute. repeat split; discriminate.
  - intros (_ & _ & Hz)%(Hp 1%nat ltac:(lia)).
    destruct (Hp 1%nat ltac:(lia)) as (_ & Ea & _). apply Hz. rewrite Ea. reflexivity.
Defined.

Definition angles_of (v : PhasorValues) : list (Reading Millidegrees) :=
  [abcn_a (ph_current_angle v); abcn_b (ph_current_angle v); abcn_c (ph_current_angle v);
   abcn_n (ph_current_angle v); abc_c (ph_voltage_angle v); abc_b (ph_voltage_angle v);
   abc_a (ph_voltage_angle v)].

(** A PHASOR record publishes an angle only where the angle exists.  Interval
    faults mark every reading as in the POWER record, with the record's own flag word
    as an additional fault; otherwise the angle of lane [k] is valid exactly when the
    lane is valid, the record has a reference phasor and the fundamental magnitude of
    the lane is nonzero, the displacement power factor of a phase is valid exactly when
    both lanes of the phase are valid and its load nature is defined, and the two
    record-level flags agree with the readings: no reading is valid when
    [phasor_invalid] is set. *)
Theorem phasor_payload_gated r t f p u :
  decode_phasor_payload r t f p = Ok u ->
  mu_period u = p /\
  exists v, mu_phasor u = Some v /\ gated (phasor_fault r p) (phasor_metas v) /\
    (forall lane rd, angles_of v !! lane = Some rd ->
       r_value rd = word r (17 + lane * 2) /\
       (r_quality rd = valid <->
          phasor_fault r p = None /\ lane_valid r lane = true /\
          ph_angle_reference_valid v = true /\ word r (16 + lane * 2) <> 0)) /\
    (forall phase, (phase < 3)%nat ->
       r_quality (pick phase (ph_displacement_power_factor v)) = valid <->
         phasor_fault r p = None /\ phase_lanes r phase /\
         pick phase (ph_load_nature v) <> undefined) /\
    (ph_phasor_invalid v = true -> Forall (fun m => rm_quality m <> valid) (phasor_metas v)).
Proof.
  intros H. unfold decode_phasor_payload in H. cbn zeta in H. inv_ok H.
  split; [done|]. eexists. split; [reflexivity|].
  match goal with |- gated ?fa ?ms /\ _ => assert (gated fa ms) as Hg
    by (unfold phasor_fault; gated_tac) end.
  split; [exact Hg|]. split; [|split].
  - intros lane rd Hl.
    destruct lane as [|[|[|[|[|[|[|lane]]]]]]]; [injection Hl as <-..|discriminate];
      (split; [reflexivity|]); cbn [r_quality ph_angle_reference_valid]; ladders;
      rewrite !andb_true_iff, negb_true_iff, Z.eqb_neq; unfold phasor_fault; tauto.
  - intros phase Hp. on_phase phase Hp; cbn [ph_displacement_power_factor ph_load_nature
      pick per_phase abc_a abc_b abc_c r_quality]; ladders; unfold phase_lanes, phasor_fault;
      rewrite !andb_true_iff, negb_true_iff, bool_decide_eq_false; tauto.
  - cbn [ph_phasor_invalid]. intros Hb. revert Hg. unfold phasor_fault. rewrite Hb.
    apply gated_fault_not_valid. apply orb_true_r.
Qed.

Definition phasor_example : MeterRecord :=
  payload_example meter_phasor_format 1 [(16, 5000); (28, 230000); (29, 1000); (51, 0x102)].

Lemma phasor_payload_gated_witness :
  exists u v, decode_phasor_payload phasor_example 42 meter_phasor_format Basic = Ok u /\
    mu_phasor u = Some v /\ r_quality (pick 0 (ph_displacement_power_factor v)) = valid /\
    r_quality (pick 1 (ph_displacement_power_factor v)) <> valid.
Proof.
  destruct (decode_phasor_payload phasor_example 42 meter_phasor_format Basic) as [u|e] eqn:E;
    [|vm_compute in E; discriminate].
  pose proof (phasor_payload_gated _ _ _ _ _ E) as (_ & v & Hv & _ & _ & Hp & _).
  exists u, v. split; [done|]. split; [done|].
  vm_compute in E. injection E as <-. injection Hv as <-. split.
  - apply (Hp 0%nat); [lia|]. vm_compute. repeat split; discriminate.
  - intros (_ & _ & Hz)%(Hp 1%nat ltac:(lia)). by apply Hz.
Defined.

Definition sequence_angles (v : UnbalanceValues) : list (Reading Millidegrees) :=
  [ub_voltage_zero_angle v; ub_voltage_positive_angle v; ub_voltage_negative_angle v;
   ub_current_zero_angle v; ub_current_positive_angle v; ub_current_negative_angle v].

(** The lane set a sequence component needs: all voltages, or Ia, Ib and Ic. *)
Definition sequence_lanes (r : MeterRecord) (k : nat) : Prop :=
  if (k <? 3)%nat then Z.land (valid_mask r) 0x70 = 0x70
  else Z.land (valid_mask r) 0x07 = 0x07.

(** An UNBALANCE record publishes symmetrical components only for a complete
    three-phase set.  Faults mark all sixteen readings; otherwise the angle of sequence
    component [k] (zero, positive, negative for the voltages, then for the currents) is
    valid exactly when all three lanes of its side are valid, the record has a reference
    and the component's magnitude is nonzero, and an unbalance ratio is valid exactly when
    all three lanes are valid and the record vouches for the ratios of that side. *)
Theorem unbalance_payload_gated r t f p u :
  decode_unbalance_payload r t f p = Ok u ->
  mu_period u = p /\
  exists v, mu_unbalance u = Some v /\ gated (phasor_fault r p) (unbalance_metas v) /\
    (forall k rd, sequence_angles v !! k = Some rd ->
       r_value rd = word r (17 + k * 2) /\
       (r_quality rd = valid <->
          phasor_fault r p = None /\ sequence_lanes r k /\
          ub_angle_reference_valid v = true /\ word r (16 + k * 2) <> 0)) /\
    (r_quality (ub_voltage_unbalance v) = valid <->
       phasor_fault r p = None /\ sequence_lanes r 0 /\ any_bit (word r 32) 0x1 = true) /\
    (r_quality (ub_current_unbalance v) = valid <->
       phasor_fault r p = None /\ sequence_lanes r 3 /\ any_bit (word r 32) 0x2 = true) /\
    (ub_phasor_invalid v = true ->
       Forall (fun m => rm_quality m <> valid) (unbalance_metas v)).
Proof.
  intros H. unfold decode_unbalance_payload in H. cbn zeta in H. inv_ok H.
  split; [done|]. eexists. split; [reflexivity|].
  match goal with |- gated ?fa ?ms /\ _ => assert (gated fa ms) as Hg
    by (unfold phasor_fault; gated_tac) end.
  split; [exact Hg|]. split; [|split; [|split]].
  - intros k rd Hl.
    destruct k as [|[|[|[|[|[|k]]]]]]; [injection Hl as <-..|discriminate];
      (split; [reflexivity|]); cbn [r_quality ub_angle_reference_valid]; ladders;
      rewrite !andb_true_iff, negb_true_iff, Z.eqb_neq, Z.eqb_eq;
      unfold phasor_fault, sequence_lanes; simpl Nat.ltb; cbn iota; tauto.
  - cbn [ub_voltage_unbalance r_quality]. ladders. rewrite andb_true_iff, Z.eqb_eq.
    unfold phasor_fault, sequence_lanes. simpl Nat.ltb. cbn iota. tauto.
  - cbn [ub_current_unbalance r_quality]. ladders. rewrite andb_true_iff, Z.eqb_eq.
    unfold phasor_fault, sequence_lanes. simpl Nat.ltb. cbn iota. tauto.
  - cbn [ub_phasor_invalid]. intros Hb. revert Hg. unfold phasor_fault. rewrite Hb.
    apply gated_fault_not_valid. apply orb_true_r.
Qed.

Definition unbalance_example : MeterRecord :=
  payload_example meter_unbalance_format 1 [(18, 230000); (29, 1200); (32, 0x101)].

Lemma unbalance_payload_gated_witness :
  exists u v, decode_unbalance_payload unbalance_example 42 meter_unbalance_format Basic = Ok u /\
    mu_unbalance u = Some v /\ r_quality (ub_voltage_unbalance v) = valid /\
    r_quality (ub_current_unbalance v) <> valid.
Proof.
  destruct (decode_unbalance_payload unbalance_example 42 meter_unbalance_format Basic)
    as [u|e] eqn:E; [|vm_compute in E; discriminate].
  pose proof (unbalance_payload_gated _ _ _ _ _ E) as (_ & v & Hv & _ & _ & Hu & Hi & _).
  exists u, v. split; [done|]. split; [done|]. split.
  - apply Hu. vm_compute. repeat split.
  - intros (_ & _ & Hz)%Hi. vm_compute in Hz. discriminate.
Defined.
