(* ===== verification/DecodeFrequency.v ===== *)
(** * The ten-second frequency record

    Models [decode_frequency_10s_meter_record] of
    [common/msap1/meter/meter_data.cpp] with its helpers
    [rounded_divide_ties_to_even] and [expected_frequency_10s_status].  The decoder
    recomputes everything the record claims (status word, mandatory rejection
    reasons, crossing geometry, the frequency itself) and refuses a record whose
    claims disagree.  It is split at the blank lines of the source:
    [frequency_10s_envelope], [frequency_10s_mandatory_reasons],
    [frequency_10s_geometry] and [frequency_10s_calculated]. *)
From S2P Require Import Prelude.
From S2P Require Import MeterTiming.
From S2P Require Import RecordFormat.
From S2P Require Import MeterRecord.
From S2P Require Import MeterData.
From S2P Require Import DecodeCommon.
From S2P Require Import DecodeBlocks.

(** [if (condition) status |= mask;] contributes [flag condition mask]. *)
Definition flag (condition : bool) (mask : Z) : Z := if condition then mask else 0.

Definition lor_all (l : list Z) : Z := foldr Z.lor 0 l.

Definition rounded_divide_ties_to_even (numerator denominator : Z) : result Z :=
  reject_if (denominator =? 0)
    (InvalidArgument "frequency 10-second result has a zero duration") ;;
  let quotient := numerator / denominator in
  let remainder := numerator mod denominator in
  let complement := u64 (denominator - remainder) in
  Ok (u64 (quotient + b2z ((complement <? remainder) ||
        ((remainder =? complement) && negb (Z.land quotient 1 =? 0))))).

Definition expected_frequency_10s_status (record : MeterRecord) (reasons : Z) : Z :=
  let source := word record meter_frequency_10s_source_status_word in
  lor_all [
    flag (any_bit reasons meter_frequency_10s_reason_arithmetic)
      meter_frequency_10s_status_arithmetic_error;
    flag (reasons =? 0) meter_frequency_10s_status_result_valid;
    flag (bit source 0) meter_frequency_10s_status_time_aligned;
    flag (bit source 10) meter_frequency_10s_status_profile_supported;
    flag (bit source 1) meter_frequency_10s_status_time_synchronized;
    flag (bit source 3) meter_frequency_10s_status_filter_ready;
    flag (bit source 4) meter_frequency_10s_status_reference_valid;
    flag (any_bit source (Z.lor (Z.shiftl 1 5) (Z.shiftl 1 8)))
      meter_frequency_10s_status_discontinuity;
    flag (bit source 6) meter_frequency_10s_status_crossing_overflow;
    flag (bit source 7 || negb (word record meter_frequency_10s_observer_drop_word =? 0))
      meter_frequency_10s_status_observer_drop;
    flag (any_bit reasons meter_frequency_10s_reason_insufficient_crossings)
      meter_frequency_10s_status_insufficient_crossings;
    flag (any_bit reasons (Z.lor meter_frequency_10s_reason_out_of_range
            meter_frequency_10s_reason_cycle_geometry))
      meter_frequency_10s_status_out_of_range;
    flag (any_bit reasons meter_frequency_10s_reason_transport_gap)
      meter_frequency_10s_status_transport_gap;
    flag (bit source 9) meter_frequency_10s_status_calibration_valid;
    flag (bit source 2) meter_frequency_10s_status_sample_rate_valid;
    flag (bit source 8) meter_frequency_10s_status_resynchronized].

(** The checks up to and including the status word. *)
Definition frequency_10s_envelope (record : MeterRecord) : result unit :=
  reject_if (negb (header_valid record) ||
             negb (record_format record =? meter_frequency_10s_format))
    (InvalidArgument "invalid frequency 10-second record") ;;
  reject_if (negb (word record 12 =? 0))
    (InvalidArgument "frequency 10-second reserved envelope word is nonzero") ;;
  forM_result (range 42 (meter_record_word_count - 1)) (fun w =>
    require (word record w =? 0)
      (InvalidArgument "frequency 10-second reserved tail is nonzero")) ;;
  let nominal_hz := frequency_10s_nominal_hz record in
  reject_if (negb (nominal_hz =? 50) && negb (nominal_hz =? 60))
    (InvalidArgument "frequency 10-second nominal frequency is invalid") ;;
  reject_if (sample_rate_hz record =? 0)
    (InvalidArgument "frequency 10-second sample rate is zero") ;;
  let first_sample := first_sample_index record in
  let end_sample := frequency_10s_end_sample_index record in
  reject_if (end_sample <=? first_sample)
    (InvalidArgument "frequency 10-second sample interval is empty or reversed") ;;
  let sample_span := end_sample - first_sample in
  reject_if ((UINT32_MAX <? sample_span) || negb (block_sample_count record =? sample_span) ||
             negb (frequency_10s_last_sample_index record =? end_sample - 1))
    (InvalidArgument "frequency 10-second sample anchors disagree") ;;
  let utc_start := frequency_10s_utc_start_nanoseconds record in
  let utc_end := frequency_10s_utc_end_nanoseconds record in
  reject_if ((utc_end <=? utc_start) || negb (utc_end - utc_start =? 10000000000) ||
             (INT64_MAX <? utc_end))
    (InvalidArgument "frequency 10-second UTC interval is not exactly ten seconds") ;;
  reject_if (negb (word record meter_frequency_10s_source_sequence_word =? sequence record))
    (InvalidArgument "frequency 10-second source sequence disagrees") ;;
  reject_if (negb (emit_drops record =? word record meter_frequency_10s_observer_drop_word))
    (InvalidArgument "frequency 10-second observer drop counters disagree") ;;
  let source_status := word record meter_frequency_10s_source_status_word in
  let reasons := word record meter_frequency_10s_reason_word in
  reject_if (any_bit source_status (not32 meter_frequency_10s_source_status_mask) ||
             any_bit reasons (not32 meter_frequency_10s_reason_mask) ||
             any_bit (status record) (not32 meter_frequency_10s_status_mask) ||
             any_bit (word record meter_frequency_10s_guard_flags_word)
               (not32 meter_frequency_10s_guard_flags_mask))
    (InvalidArgument "frequency 10-second flags use reserved bits") ;;
  reject_if (negb (status record =? expected_frequency_10s_status record reasons))
    (InvalidArgument "frequency 10-second status and reasons disagree").

Definition frequency_10s_mandatory_reasons (record : MeterRecord) : Z :=
  let source_status := word record meter_frequency_10s_source_status_word in
  let sample_span := frequency_10s_end_sample_index record - first_sample_index record in
  let expected_millisamples := word record meter_frequency_10s_measured_rate_word * 10 in
  let actual_millisamples := u64 (sample_span * 1000) in
  let span_error := if actual_millisamples <? expected_millisamples
                    then expected_millisamples - actual_millisamples
                    else actual_millisamples - expected_millisamples in
  lor_all [
    flag (negb (sample_rate_hz record =? 128000) ||
          negb (frequency_10s_reference_channel record =? 6) ||
          negb (frequency_10s_filter_profile record =? 1) ||
          negb (frequency_10s_calibration_profile record =? 1) ||
          negb (bit source_status 10)) meter_frequency_10s_reason_unsupported_profile;
    flag (negb (bit source_status 0)) meter_frequency_10s_reason_boundary_invalid;
    flag (negb (bit source_status 1)) meter_frequency_10s_reason_time_unsynchronized;
    flag (negb (bit source_status 2)) meter_frequency_10s_reason_sample_rate_invalid;
    flag (negb (bit source_status 3)) meter_frequency_10s_reason_filter_warmup;
    flag (negb (bit source_status 4)) meter_frequency_10s_reason_reference_invalid;
    flag (negb (bit source_status 9)) meter_frequency_10s_reason_calibration_invalid;
    flag (any_bit source_status (Z.lor (Z.shiftl 1 5) (Z.shiftl 1 8)))
      meter_frequency_10s_reason_discontinuity;
    flag (bit source_status 6) meter_frequency_10s_reason_crossing_overflow;
    flag (bit source_status 7 || negb (emit_drops record =? 0))
      meter_frequency_10s_reason_observer_drop;
    flag (1000000 <? frequency_10s_utc_uncertainty_nanoseconds record)
      meter_frequency_10s_reason_time_uncertainty;
    flag (2000 <? span_error) meter_frequency_10s_reason_time_geometry].

(** Locals of the decoder the crossing checks share. *)
Definition f10_observed (record : MeterRecord) : Z :=
  word record meter_frequency_10s_observed_crossings_word.
Definition f10_included (record : MeterRecord) : Z :=
  word record meter_frequency_10s_included_crossings_word.
Definition f10_cycles (record : MeterRecord) : Z :=
  word record meter_frequency_10s_cycle_count_word.
Definition f10_rejected (record : MeterRecord) : Z :=
  word record meter_frequency_10s_rejected_cycles_word.
Definition f10_duration (record : MeterRecord) : Z :=
  unsigned64 record meter_frequency_10s_duration_q16_word.
Definition f10_measured_rate (record : MeterRecord) : Z :=
  word record meter_frequency_10s_measured_rate_word.
Definition f10_reason_bits (record : MeterRecord) : Z :=
  word record meter_frequency_10s_reason_word.

Definition f10_insufficient (record : MeterRecord) : bool :=
  (f10_cycles record =? 0) || (f10_duration record =? 0).

Definition frequency_10s_geometry (record : MeterRecord) : result unit :=
  let observed := f10_observed record in
  let included := f10_included record in
  let cycles := f10_cycles record in
  let rejected := f10_rejected record in
  let duration := f10_duration record in
  let first_crossing := record_signed64 record meter_frequency_10s_first_crossing_q16_word in
  let last_crossing := record_signed64 record meter_frequency_10s_last_crossing_q16_word in
  let sample_span := frequency_10s_end_sample_index record - first_sample_index record in
  let interval_q16 := u64 (Z.shiftl sample_span 16) in
  let reasons := f10_reason_bits record in
  reject_if ((meter_frequency_10s_max_observed_crossings <? observed) ||
             (observed <? included) ||
             negb (cycles =? (if included =? 0 then 0 else included - 1)) ||
             (cycles <? rejected))
    (InvalidArgument "frequency 10-second crossing counts disagree") ;;
  (if included =? 0
   then reject_if (negb (first_crossing =? 0) || negb (last_crossing =? 0) ||
                   negb (duration =? 0))
          (InvalidArgument "frequency 10-second empty crossing geometry is nonzero")
   else reject_if ((first_crossing <? 0) || (last_crossing <? first_crossing) ||
                   (interval_q16 <? u64 last_crossing) ||
                   negb (duration =? (if 2 <=? included
                                      then u64 (last_crossing - first_crossing) else 0)))
          (InvalidArgument "frequency 10-second crossing geometry is invalid")) ;;
  reject_if (negb (Bool.eqb
                (any_bit reasons meter_frequency_10s_reason_insufficient_crossings)
                (f10_insufficient record)) ||
             negb (Bool.eqb (any_bit reasons meter_frequency_10s_reason_cycle_geometry)
                     (negb (rejected =? 0))))
    (InvalidArgument "frequency 10-second geometry reasons disagree").

Definition frequency_10s_calculated (record : MeterRecord) : result Z :=
  if negb (f10_insufficient record)
  then
    let scaled_rate := u64 (Z.shiftl (f10_measured_rate record) 16) in
    reject_if (UINT64_MAX / f10_cycles record <? scaled_rate)
      (InvalidArgument "frequency 10-second arithmetic overflows") ;;
    rounded_divide_ties_to_even (u64 (scaled_rate * f10_cycles record)) (f10_duration record)
  else Ok 0.

Definition frequency_10s_minimum (nominal_hz : Z) : Z :=
  if nominal_hz =? 50 then 42500 else 51000.
Definition frequency_10s_maximum (nominal_hz : Z) : Z :=
  if nominal_hz =? 50 then 57500 else 69000.

Definition decode_frequency_10s_meter_record (record : MeterRecord) (received_at : Z)
  : result MeterUpdate :=
  frequency_10s_envelope record ;;
  let nominal_hz := frequency_10s_nominal_hz record in
  let utc_start := frequency_10s_utc_start_nanoseconds record in
  let utc_end := frequency_10s_utc_end_nanoseconds record in
  let uncertainty := frequency_10s_utc_uncertainty_nanoseconds record in
  let reasons := f10_reason_bits record in
  let mandatory_reasons := frequency_10s_mandatory_reasons record in
  reject_if (negb (Z.land reasons mandatory_reasons =? mandatory_reasons))
    (InvalidArgument "frequency 10-second record omits a mandatory rejection reason") ;;
  frequency_10s_geometry record ;;
  calculated_frequency ← frequency_10s_calculated record;
  let is_out_of_range := negb (calculated_frequency =? 0) &&
    ((calculated_frequency <? frequency_10s_minimum nominal_hz) ||
     (frequency_10s_maximum nominal_hz <? calculated_frequency)) in
  reject_if (negb (Bool.eqb (any_bit reasons meter_frequency_10s_reason_out_of_range)
                     is_out_of_range))
    (InvalidArgument "frequency 10-second range reason disagrees") ;;
  reject_if (any_bit reasons meter_frequency_10s_reason_arithmetic)
    (InvalidArgument "frequency 10-second impossible arithmetic reason") ;;
  let is_valid := reasons =? 0 in
  let published_frequency := word record meter_frequency_10s_value_word in
  reject_if (negb (valid_mask record =? (if is_valid then Z.shiftl 1 6 else 0)) ||
             (is_valid && negb (published_frequency =? calculated_frequency)) ||
             (negb is_valid && negb (published_frequency =? 0)))
    (InvalidArgument "frequency 10-second result validity disagrees") ;;
  let quality :=
    if is_valid then valid
    else if any_bit reasons meter_frequency_10s_reason_arithmetic then arithmetic_error
    else if any_bit reasons (Z.lor meter_frequency_10s_reason_out_of_range
                               meter_frequency_10s_reason_cycle_geometry) then out_of_range
    else invalid in
  let window := mkWindow (block_sample_count record) 10000000000 in
  let values := mkFundamental
    (mkReading published_frequency quality (sequence record) utc_end window)
    (all_abc no_reading) (all_abcn no_reading) (all_abc no_reading) in
  let block := mkBlockTiming (sequence record) (configuration_generation record)
    (first_sample_index record) (block_sample_count record) (sample_rate_hz record)
    (u16 (f10_cycles record)) (nominal_of nominal_hz) false false false false
    (if any_bit (status record) meter_frequency_10s_status_time_synchronized &&
        (uncertainty <=? 1000000) then Synchronized else Unsynchronized)
    (Some utc_start) (Some uncertainty) in
  let metadata := mkFrequency10s (frequency_10s_end_sample_index record) utc_start utc_end
    uncertainty (f10_measured_rate record)
    (word record meter_frequency_10s_source_sequence_word)
    (word record meter_frequency_10s_boundary_generation_word)
    (word record meter_frequency_10s_source_status_word) (status record) reasons
    (word record meter_frequency_10s_observer_drop_word)
    (u8 (word record meter_frequency_10s_guard_flags_word))
    (f10_observed record) (f10_included record) (f10_rejected record) (f10_duration record)
    (record_signed64 record meter_frequency_10s_first_crossing_q16_word)
    (record_signed64 record meter_frequency_10s_last_crossing_q16_word)
    nominal_hz (frequency_10s_reference_channel record) (frequency_10s_filter_profile record)
    (frequency_10s_calibration_profile record) in
  Ok (mkUpdate Seconds10 kind_frequency_10s (sequence record) (configuration_generation record)
        (Some values) None None None None None None (Some metadata) (Some block) None).

(** ** Lemmas *)

(** [q] is the quotient [n / d] rounded to the nearest integer, a tie going to
    the even neighbour. *)
Definition nearest_even (n d q : Z) : Prop :=
  2 * Z.abs (q * d - n) <= d /\ (2 * Z.abs (q * d - n) = d -> Z.Even q).

Lemma land_1_odd z : negb (Z.land z 1 =? 0) = Z.odd z.
Proof. change 1 with (Z.ones 1). rewrite Z.land_ones by lia. change (2 ^ 1) with 2.
  rewrite Zmod_odd. by destruct (Z.odd z). Qed.

Lemma rounded_quotient_bound n d :
  0 <= n < 2 ^ 64 -> 0 < d < 2 ^ 64 ->
  let q := n / d in let m := n mod d in
  0 <= q + b2z ((d - m <? m) || ((m =? d - m) && Z.odd q)) < 2 ^ 64.
Proof.
  intros Hn Hd q m. pose proof (Z.div_mod n d ltac:(lia)) as E.
  pose proof (Z.mod_pos_bound n d ltac:(lia)) as Hm. fold q m in E, Hm.
  assert (0 <= q) by (apply Z.div_pos; lia).
  destruct (Z.ltb_spec (d - m) m), (Z.eqb_spec m (d - m)), (Z.odd q); simpl b2z; nia.
Qed.

Lemma rounded_divide_nearest n d :
  0 <= n < 2 ^ 64 -> 0 < d < 2 ^ 64 ->
  exists q, rounded_divide_ties_to_even n d = Ok q /\ 0 <= q < 2 ^ 64 /\ nearest_even n d q.
Proof.
  intros Hn Hd. pose proof (rounded_quotient_bound n d Hn Hd) as Hb. cbn zeta in Hb.
  pose proof (Z.div_mod n d ltac:(lia)) as E.
  pose proof (Z.mod_pos_bound n d ltac:(lia)) as Hm.
  unfold rounded_divide_ties_to_even.
  rewrite (proj2 (Z.eqb_neq d 0)) by lia. cbn [reject_if mbind result_bind].
  rewrite land_1_odd, (wrap_id 64 (d - n mod d)) by lia. rewrite wrap_id by exact Hb.
  eexists. split; [reflexivity|]. split; [exact Hb|]. clear Hb. unfold nearest_even.
  set (q := n / d) in *. set (m := n mod d) in *.
  destruct (Z.ltb_spec (d - m) m), (Z.eqb_spec m (d - m)); simpl orb; cbn iota;
    unfold b2z; try (split; nia).
  destruct (Z.odd q) eqn:Ho; simpl; (split; [nia|]); intros _.
  - apply Z.odd_spec in Ho as [k ->]. exists (k + 1). lia.
  - rewrite Z.add_0_r. rewrite <- Z.even_spec, <- Z.negb_odd, Ho. done.
Qed.

(** The overflow guard of the calculation can never fire. *)
Lemma frequency_10s_product_bound r :
  record_wf r -> f10_cycles r <= 1024 ->
  u64 (Z.shiftl (f10_measured_rate r) 16) = f10_measured_rate r * 65536 /\
  0 <= f10_measured_rate r * 65536 * f10_cycles r < 2 ^ 64.
Proof.
  intros Hwf Hc. unfold f10_measured_rate, f10_cycles in *.
  pose proof (word_fits r meter_frequency_10s_measured_rate_word Hwf).
  pose proof (word_fits r meter_frequency_10s_cycle_count_word Hwf).
  rewrite Z.shiftl_mul_pow2 by lia. change (2 ^ 16) with 65536.
  rewrite wrap_id by lia. nia.
Qed.

Lemma calculated_total r :
  record_wf r -> f10_cycles r <= 1023 ->
  exists q, frequency_10s_calculated r = Ok q /\
    (f10_insufficient r = true -> q = 0) /\
    (f10_insufficient r = false ->
       nearest_even (f10_measured_rate r * 65536 * f10_cycles r) (f10_duration r) q).
Proof.
  intros Hwf Hc. unfold frequency_10s_calculated.
  destruct (f10_insufficient r) eqn:Ei; simpl negb; cbn iota; [eexists; split; [done|split; done]|].
  unfold f10_insufficient in Ei. bools.
  destruct (frequency_10s_product_bound r Hwf ltac:(lia)) as [-> Hp].
  pose proof (word_fits r meter_frequency_10s_cycle_count_word Hwf) as Hc0.
  fold (f10_cycles r) in Hc0.
  pose proof (unsigned64_fits r meter_frequency_10s_duration_q16_word Hwf) as Hd.
  fold (f10_duration r) in Hd.
  assert ((UINT64_MAX / f10_cycles r <? f10_measured_rate r * 65536) = false) as ->.
  { apply Z.ltb_ge, Z.div_le_lower_bound; unfold UINT64_MAX; lia. }
  cbn [reject_if mbind result_bind]. rewrite (wrap_id 64) by exact Hp.
  destruct (rounded_divide_nearest _ (f10_duration r) Hp ltac:(lia)) as (q & Hq & _ & Hn).
  exists q. split; [exact Hq|]. split; [done|]. by intros _.
Qed.

(** ** The contract of the record

    What the producer of a ten-second record promises, stated on the words of the record and
    without the decoder: bit numbers are those of the record format. *)
Definition source_bit (r : MeterRecord) (i : Z) : bool :=
  Z.testbit (word r meter_frequency_10s_source_status_word) i.
Definition reason_bit (r : MeterRecord) (i : Z) : bool := Z.testbit (f10_reason_bits r) i.

(** Each status bit with what it repeats of the source status and of the reasons. *)
Definition status_bits (r : MeterRecord) : list (Z * bool) :=
  [(0, reason_bit r 18); (1, f10_reason_bits r =? 0); (2, source_bit r 0); (3, source_bit r 10);
   (4, source_bit r 1); (5, source_bit r 3); (6, source_bit r 4);
   (7, source_bit r 5 || source_bit r 8); (8, source_bit r 6);
   (9, source_bit r 7 || negb (word r meter_frequency_10s_observer_drop_word =? 0));
   (10, reason_bit r 16); (11, reason_bit r 17 || reason_bit r 20); (12, reason_bit r 19);
   (13, source_bit r 9); (14, source_bit r 2); (15, source_bit r 8)].

Definition f10_span (r : MeterRecord) : Z :=
  frequency_10s_end_sample_index r - first_sample_index r.

(** The faults that must be given as a reason, with the number of the reason. *)
Definition required_reasons (r : MeterRecord) : list (bool * Z) :=
  [(negb ((sample_rate_hz r =? 128000) && (frequency_10s_reference_channel r =? 6) &&
          (frequency_10s_filter_profile r =? 1) && (frequency_10s_calibration_profile r =? 1) &&
          source_bit r 10), 0);
   (negb (source_bit r 0), 9); (negb (source_bit r 1), 1); (negb (source_bit r 2), 8);
   (negb (source_bit r 3), 3); (negb (source_bit r 4), 4); (negb (source_bit r 9), 10);
   (source_bit r 5 || source_bit r 8, 5); (source_bit r 6, 6);
   (source_bit r 7 || negb (emit_drops r =? 0), 7);
   (1000000 <? frequency_10s_utc_uncertainty_nanoseconds r, 2);
   (2000 <? Z.abs (f10_span r * 1000 - f10_measured_rate r * 10), 21)].

(** The frequency the crossings stand for, in millihertz. *)
Definition measured_frequency (r : MeterRecord) (q : Z) : Prop :=
  if f10_insufficient r then q = 0
  else nearest_even (f10_measured_rate r * 65536 * f10_cycles r) (f10_duration r) q.

Definition f10_first_crossing (r : MeterRecord) : Z :=
  record_signed64 r meter_frequency_10s_first_crossing_q16_word.
Definition f10_last_crossing (r : MeterRecord) : Z :=
  record_signed64 r meter_frequency_10s_last_crossing_q16_word.

(** The envelope: header, reserved words, anchors, sequence, flags, status. *)
Record envelope_contract (r : MeterRecord) : Prop := {
  fc_format : header_valid r = true /\ record_format r = meter_frequency_10s_format;
  fc_reserved : word r 12 = 0 /\ forall w, (42 <= w <= 63)%nat -> word r w = 0;
  fc_nominal : frequency_10s_nominal_hz r = 50 \/ frequency_10s_nominal_hz r = 60;
  fc_rate : sample_rate_hz r <> 0;
  fc_samples : 0 < block_sample_count r /\ f10_span r = block_sample_count r /\
    frequency_10s_last_sample_index r = frequency_10s_end_sample_index r - 1;
  fc_utc : frequency_10s_utc_end_nanoseconds r =
      frequency_10s_utc_start_nanoseconds r + 10000000000 /\
    frequency_10s_utc_end_nanoseconds r <= INT64_MAX;
  fc_sequence : word r meter_frequency_10s_source_sequence_word = sequence r;
  fc_drops : emit_drops r = word r meter_frequency_10s_observer_drop_word;
  fc_unused :
    Z.land (word r meter_frequency_10s_source_status_word) 0x7ff =
      word r meter_frequency_10s_source_status_word /\
    Z.land (f10_reason_bits r) 0x3f07ff = f10_reason_bits r /\
    Z.land (status r) 0xffff = status r /\
    Z.land (word r meter_frequency_10s_guard_flags_word) 0xf =
      word r meter_frequency_10s_guard_flags_word;
  fc_status : forall i c, (i, c) ∈ status_bits r -> Z.testbit (status r) i = c }.

(** The crossings: counts, geometry and the reasons they give. *)
Record crossing_contract (r : MeterRecord) : Prop := {
  fc_counts : f10_included r <= f10_observed r <= 1024 /\
    f10_cycles r = Z.max 0 (f10_included r - 1) /\ f10_rejected r <= f10_cycles r;
  fc_no_crossing : f10_included r = 0 ->
    f10_first_crossing r = 0 /\ f10_last_crossing r = 0 /\ f10_duration r = 0;
  fc_crossings : 0 < f10_included r ->
    0 <= f10_first_crossing r <= f10_last_crossing r /\ f10_last_crossing r <= f10_span r * 65536 /\
    f10_duration r = (if f10_included r =? 1 then 0 else f10_last_crossing r - f10_first_crossing r);
  fc_insufficient : reason_bit r 16 = true <-> f10_cycles r = 0 \/ f10_duration r = 0;
  fc_rejected : reason_bit r 20 = true <-> f10_rejected r <> 0 }.

(** The result: the reasons a fault requires, the range of the value, and the value. *)
Record result_contract (r : MeterRecord) : Prop := {
  fc_required : forall c i, (c, i) ∈ required_reasons r -> c = true -> reason_bit r i = true;
  fc_range : forall q, measured_frequency r q ->
    (reason_bit r 17 = true <->
     q <> 0 /\ ~ (frequency_10s_minimum (frequency_10s_nominal_hz r) <= q <=
                  frequency_10s_maximum (frequency_10s_nominal_hz r)));
  fc_arithmetic : reason_bit r 18 = false;
  fc_valid : f10_reason_bits r = 0 ->
    valid_mask r = 64 /\ measured_frequency r (word r meter_frequency_10s_value_word);
  fc_invalid : f10_reason_bits r <> 0 ->
    valid_mask r = 0 /\ word r meter_frequency_10s_value_word = 0 }.

Definition frequency_10s_contract (r : MeterRecord) : Prop :=
  envelope_contract r /\ crossing_contract r /\ result_contract r.

(** *** Bits *)
Lemma any_bit_pow w i : 0 <= i -> any_bit w (Z.shiftl 1 i) = Z.testbit w i.
Proof. exact (bit_testbit w i). Qed.

Lemma any_bit_lor w a b : any_bit w (Z.lor a b) = any_bit w a || any_bit w b.
Proof.
  unfold any_bit. rewrite Z.land_lor_distr_r. rewrite <- negb_andb. f_equal.
  apply eq_true_iff_eq. rewrite andb_true_iff, !Z.eqb_eq. apply Z.lor_eq_0_iff.
Qed.

Lemma unused_bits w mask :
  0 <= w < 2 ^ 32 -> 0 <= mask < 2 ^ 32 -> any_bit w (not32 mask) = false <-> Z.land w mask = w.
Proof.
  intros Hw Hm. unfold any_bit. rewrite negb_false_iff, Z.eqb_eq. unfold not32.
  assert (E : Z.land w (Z.lxor mask UINT32_MAX) = Z.ldiff w mask).
  { apply Z.bits_inj'. intros i Hi. rewrite Z.land_spec, Z.lxor_spec, Z.ldiff_spec.
    change UINT32_MAX with (Z.ones 32). rewrite Z.testbit_ones_nonneg by lia.
    destruct (Z.ltb_spec i 32); [by destruct (Z.testbit mask i)|].
    rewrite (Z.bits_above_log2 w i); [done|lia|]. destruct (Z.eq_dec w 0) as [->|]; [simpl; lia|].
    apply Z.log2_lt_pow2; [lia|]. eapply Z.lt_le_trans; [apply Hw|]. apply Z.pow_le_mono_r; lia. }
  rewrite E. split; intros H.
  - rewrite <- (Z.lor_ldiff_and w mask) at 2. by rewrite H.
  - apply Z.bits_inj'. intros i Hi. rewrite Z.ldiff_spec, Z.bits_0. rewrite <- H, Z.land_spec.
    destruct (Z.testbit w i), (Z.testbit mask i); done.
Qed.

Lemma flag_testbit c i j : 0 <= i -> Z.testbit (flag c (Z.shiftl 1 i)) j = c && (j =? i).
Proof.
  intros Hi. unfold flag. destruct c; [|by rewrite Z.bits_0]. rewrite Z.shiftl_1_l. cbn [andb].
  rewrite Z.pow2_bits_eqb by lia. apply Z.eqb_sym.
Qed.

Definition bits_of (l : list (bool * Z)) : Z := lor_all (map (fun '(c, i) => flag c (Z.shiftl 1 i)) l).

Lemma land_lor_sub w a b : Z.land w (Z.lor a b) = Z.lor a b <-> Z.land w a = a /\ Z.land w b = b.
Proof.
  split.
  - intros H. split; apply Z.bits_inj'; intros i Hi; apply (f_equal (fun z => Z.testbit z i)) in H;
      rewrite Z.land_spec, Z.lor_spec in H; rewrite Z.land_spec;
      destruct (Z.testbit w i), (Z.testbit a i), (Z.testbit b i); done.
  - intros [Ha Hb]. by rewrite Z.land_lor_distr_r, Ha, Hb.
Qed.

Lemma flags_sub w l :
  Forall (fun ci => 0 <= snd ci) l ->
  Z.land w (bits_of l) = bits_of l <-> forall c i, (c, i) ∈ l -> c = true -> Z.testbit w i = true.
Proof.
  unfold bits_of, lor_all. induction 1 as [|[c i] l Hi _ IH]; cbn [map foldr].
  - rewrite Z.land_0_r. split; [|done]. by intros _ c i ?%not_elem_of_nil.
  - rewrite land_lor_sub, IH. cbn [snd] in Hi. clear IH. split.
    + intros [H1 H2] c' i' [[= -> ->]|H]%elem_of_cons; [|by apply H2]. intros ->.
      unfold flag in H1. rewrite Z.shiftl_1_l in H1. apply (f_equal (fun z => Z.testbit z i)) in H1.
      rewrite Z.land_spec, Z.pow2_bits_true in H1 by lia. by rewrite andb_true_r in H1.
    + intros H. split; [|intros c' i' Hin; apply H; by right].
      destruct c; cbn [flag]; [|apply Z.land_0_r]. rewrite Z.shiftl_1_l. apply Z.bits_inj'. intros j Hj.
      rewrite Z.land_spec, Z.pow2_bits_eqb by lia. destruct (Z.eqb_spec i j) as [<-|]; [|by rewrite andb_false_r].
      rewrite (H true i); [done|left|done].
Qed.

Lemma flags_testbit l j :
  Forall (fun ci => 0 <= snd ci) l -> Z.testbit (bits_of l) j = existsb (fun '(c, i) => c && (j =? i)) l.
Proof.
  unfold bits_of, lor_all. induction 1 as [|[c i] l Hi _ IH]; cbn [map foldr existsb]; [apply Z.bits_0|].
  by rewrite Z.lor_spec, flag_testbit, IH.
Qed.

Definition swapped (l : list (Z * bool)) : list (bool * Z) := map (fun '(i, c) => (c, i)) l.

Lemma expected_flags r :
  expected_frequency_10s_status r (f10_reason_bits r) = bits_of (swapped (status_bits r)).
Proof.
  unfold expected_frequency_10s_status, bits_of, swapped, status_bits. cbn [map].
  unfold source_bit, reason_bit. rewrite !any_bit_lor, !bit_testbit by lia.
  unfold meter_frequency_10s_reason_arithmetic, meter_frequency_10s_reason_insufficient_crossings,
    meter_frequency_10s_reason_out_of_range, meter_frequency_10s_reason_cycle_geometry,
    meter_frequency_10s_reason_transport_gap.
  rewrite !any_bit_pow by lia. reflexivity.
Qed.

Lemma small_bits_above w n j : 0 <= w < 2 ^ n -> 0 <= n <= j -> Z.testbit w j = false.
Proof.
  intros Hw Hj. rewrite <- (Z.mod_small w (2 ^ n)) by lia. apply Z.mod_pow2_bits_high. lia.
Qed.

Lemma status_iff r :
  record_wf r -> Z.land (status r) 0xffff = status r ->
  status r = expected_frequency_10s_status r (f10_reason_bits r) <->
  forall i c, (i, c) ∈ status_bits r -> Z.testbit (status r) i = c.
Proof.
  intros Hr Hs. rewrite expected_flags.
  assert (Hp : Forall (fun ci => 0 <= snd ci) (swapped (status_bits r)))
    by (repeat constructor; cbn; lia).
  assert (Hhigh : forall j, 16 <= j -> Z.testbit (status r) j = false).
  { intros j Hj. rewrite <- Hs, Z.land_spec. change 0xffff with (Z.ones 16).
    rewrite Z.testbit_ones_nonneg, (proj2 (Z.ltb_ge j 16)) by lia. apply andb_false_r. }
  split.
  - intros E i c Hin. rewrite E, flags_testbit by done. clear E Hs Hhigh Hp.
    unfold status_bits in Hin |- *. cbn [swapped map existsb].
    repeat (apply elem_of_cons in Hin as [[= -> ->]|Hin];
      [cbn [Z.eqb Pos.eqb]; by rewrite ?andb_false_r, ?andb_true_r, ?orb_false_r|]).
    by apply not_elem_of_nil in Hin.
  - intros H. apply Z.bits_inj'. intros j Hj. rewrite flags_testbit by done.
    destruct (Z.le_gt_cases 16 j) as [Hh|Hh].
    + rewrite Hhigh by done. unfold status_bits. cbn [swapped map existsb].
      rewrite !(proj2 (Z.eqb_neq j _)) by lia. by rewrite !andb_false_r.
    + assert (Hall : j ∈ map fst (status_bits r))
        by (unfold status_bits; cbn [map fst]; rewrite !elem_of_cons; lia).
      apply list_elem_of_In, in_map_iff in Hall as ([i c] & <- & Hin%list_elem_of_In). cbn [fst].
      rewrite (H i c Hin). clear H Hs Hhigh Hp Hj Hh. unfold status_bits in Hin |- *. cbn [swapped map existsb].
      repeat (apply elem_of_cons in Hin as [[= -> ->]|Hin];
        [cbn [Z.eqb Pos.eqb]; by rewrite ?andb_false_r, ?andb_true_r, ?orb_false_r|]).
      by apply not_elem_of_nil in Hin.
Qed.

Lemma mandatory_flags r :
  record_wf r -> 0 <= f10_span r < 2 ^ 32 ->
  frequency_10s_mandatory_reasons r = bits_of (required_reasons r).
Proof.
  intros Hr Hspan. unfold frequency_10s_mandatory_reasons, bits_of, required_reasons. cbn [map]. cbv zeta.
  fold (f10_span r) (f10_measured_rate r). rewrite (wrap_id 64 (f10_span r * 1000)) by lia.
  unfold source_bit. rewrite !any_bit_lor, <- !bit_testbit, !negb_andb by lia.
  replace (if f10_span r * 1000 <? f10_measured_rate r * 10
           then f10_measured_rate r * 10 - f10_span r * 1000
           else f10_span r * 1000 - f10_measured_rate r * 10)
    with (Z.abs (f10_span r * 1000 - f10_measured_rate r * 10))
    by (destruct (Z.ltb_spec (f10_span r * 1000) (f10_measured_rate r * 10)); lia).
  reflexivity.
Qed.

(** *** The decoder checks the contract *)
Lemma reject_then {A} b e (m : result A) x : (reject_if b e ;; m) = Ok x <-> b = false /\ m = Ok x.
Proof. destruct b; simpl; naive_solver. Qed.

Lemma or_false a b : a || b = false <-> a = false /\ b = false.
Proof. apply orb_false_iff. Qed.

Lemma negb_eqb_false a b : negb (a =? b) = false <-> a = b.
Proof. rewrite negb_false_iff. apply Z.eqb_eq. Qed.

Lemma envelope_iff r :
  record_wf r -> frequency_10s_envelope r = Ok tt <-> envelope_contract r.
Proof.
  intros Hr. unfold frequency_10s_envelope. cbv zeta.
  pose proof (word_fits r meter_frequency_10s_source_status_word Hr) as W1.
  pose proof (word_fits r meter_frequency_10s_reason_word Hr) as W2.
  pose proof (word_fits r 8 Hr) as W3. change (word r 8) with (status r) in W3.
  pose proof (word_fits r meter_frequency_10s_guard_flags_word Hr) as W4.
  pose proof (word_fits r 6 Hr) as W5. change (word r 6) with (block_sample_count r) in W5.
  change UINT32_MAX with (2 ^ 32 - 1).
  assert (Htail : forall e m, ((forM_result (range 42 (meter_record_word_count - 1))
      (fun w => require (word r w =? 0) e)) ;; m) = Ok tt <->
      (forall w, (42 <= w <= 63)%nat -> word r w = 0) /\ m = Ok tt).
  { intros e m. rewrite bind_Ok. split.
    - intros ([] & H & Hm). apply forM_require_Ok in H. rewrite forallb_forall in H. split; [|exact Hm].
      intros w Hw. apply Z.eqb_eq, H, list_elem_of_In, elem_of_range; [vm_compute; lia|].
      change (meter_record_word_count - 1)%nat with 63%nat. lia.
    - intros [H Hm]. exists tt. split; [|exact Hm]. apply forM_require_Ok, forallb_forall.
      intros w Hw%list_elem_of_In%elem_of_range; [|vm_compute; lia]. apply Z.eqb_eq, H.
      change (meter_record_word_count - 1)%nat with 63%nat in Hw. lia. }
  rewrite !reject_then, Htail, !reject_then, reject_if_Ok, !or_false, !negb_eqb_false. clear Htail.
  fold (f10_reason_bits r) in *.
  rewrite !unused_bits by (assumption || (unfold meter_frequency_10s_source_status_mask,
    meter_frequency_10s_reason_mask, meter_frequency_10s_status_mask,
    meter_frequency_10s_guard_flags_mask; lia)).
  split.
  - intros ([H1 H2] & H3 & H4 & H5 & H6 & H7 & [[H8 H9] H10] & [[H11 H12] H13] & H14 & H15 &
      [[[H16 H17] H18] H19] & H20).
    apply negb_false_iff in H1. apply andb_false_iff in H5. rewrite !negb_eqb_false in H5. bools.
    constructor; unfold f10_span; try done; try lia.
    by apply status_iff.
  - intros [[E1 E2] [E3 E4] E5 E6 [E7 [E8 E9]] [E10 E11] E12 E13 (E14 & E15 & E16 & E17) E18].
    unfold f10_span in E8. rewrite E1.
    split_and!; try done; try (apply Z.ltb_ge; lia); try (apply Z.leb_gt; lia); try lia.
    by apply status_iff.
Qed.

Lemma reason_iff (a b : bool) (Q : Prop) :
  (b = true <-> Q) -> negb (Bool.eqb a b) = false <-> (a = true <-> Q).
Proof. intros <-. destruct a, b; simpl; naive_solver. Qed.

Lemma insufficient_iff r : f10_insufficient r = true <-> f10_cycles r = 0 \/ f10_duration r = 0.
Proof. unfold f10_insufficient. by rewrite orb_true_iff, !Z.eqb_eq. Qed.

Lemma crossing_iff r :
  record_wf r -> 0 <= f10_span r < 2 ^ 32 ->
  frequency_10s_geometry r = Ok tt <-> crossing_contract r.
Proof.
  intros Hr Hspan. unfold frequency_10s_geometry. cbv zeta.
  fold (f10_span r) (f10_first_crossing r) (f10_last_crossing r).
  pose proof (word_fits r meter_frequency_10s_included_crossings_word Hr) as W1.
  pose proof (word_fits r meter_frequency_10s_rejected_cycles_word Hr) as W2.
  fold (f10_included r) in W1. fold (f10_rejected r) in W2.
  pose proof (record_signed64_fits r meter_frequency_10s_last_crossing_q16_word) as Hlast.
  fold (f10_last_crossing r) in Hlast. change INT64_MAX with (2 ^ 63 - 1) in Hlast.
  rewrite Z.shiftl_mul_pow2, (wrap_id 64 (f10_span r * _)) by lia. change (2 ^ 16) with 65536.
  unfold meter_frequency_10s_max_observed_crossings, meter_frequency_10s_reason_insufficient_crossings,
    meter_frequency_10s_reason_cycle_geometry. rewrite !any_bit_pow by lia.
  fold (reason_bit r 16) (reason_bit r 20).
  assert (Hrej : negb (f10_rejected r =? 0) = true <-> f10_rejected r <> 0)
    by (rewrite negb_true_iff; apply Z.eqb_neq).
  assert (Hpos : (f10_included r =? 0) = false -> (2 <=? f10_included r) = negb (f10_included r =? 1)) by lia.
  destruct (f10_included r =? 0) eqn:Hz; rewrite !reject_then, reject_if_Ok, !or_false, !negb_eqb_false,
    (reason_iff _ _ _ (insufficient_iff r)), (reason_iff _ _ _ Hrej); clear Hrej.
  - bools. split.
    + intros (H1 & H2 & H3 & H4). bools. constructor; try done; try lia; by intros; split_and!.
    + intros [H1 H2 H3 H4 H5]. split_and!; try done; lia.
  - rewrite (Hpos eq_refl). clear Hpos. bools. split.
    + intros (H1 & [[[H2 H3] H4] H5] & H6 & H7). bools. rewrite wrap_id in H4 by lia.
      constructor; try done; try lia. intros _. split_and!; try lia. rewrite H5.
      destruct (f10_included r =? 1); [done|]. cbn [negb]. apply wrap_id. lia.
    + intros [H1 H2 H3 H4 H5]. specialize (H3 ltac:(lia)) as (H6 & H7 & H8).
      rewrite (wrap_id 64 (f10_last_crossing r)) by lia. split_and!; try done; try lia.
      rewrite H8. destruct (f10_included r =? 1); [done|]. cbn [negb]. symmetry. apply wrap_id. lia.
Qed.

Lemma nearest_even_unique n d q q' :
  0 < d -> nearest_even n d q -> nearest_even n d q' -> q = q'.
Proof.
  unfold nearest_even. intros Hd [H1 E1] [H2 E2].
  assert (Hq : q = q' \/ q = q' + 1 \/ q' = q + 1) by nia.
  destruct Hq as [->|[->| ->]]; [done| |].
  - destruct (E1 ltac:(nia)) as [k ?], (E2 ltac:(nia)) as [k' ?]. lia.
  - destruct (E1 ltac:(nia)) as [k ?], (E2 ltac:(nia)) as [k' ?]. lia.
Qed.

Lemma measured_unique r q q' :
  record_wf r -> measured_frequency r q -> measured_frequency r q' -> q = q'.
Proof.
  intros Hr. unfold measured_frequency. destruct (f10_insufficient r) eqn:E; [congruence|].
  apply nearest_even_unique. unfold f10_insufficient in E. bools.
  pose proof (unsigned64_fits r meter_frequency_10s_duration_q16_word Hr) as Hd.
  fold (f10_duration r) in Hd. lia.
Qed.

Lemma calculated_measured r :
  record_wf r -> f10_cycles r <= 1023 ->
  exists q, frequency_10s_calculated r = Ok q /\ measured_frequency r q.
Proof.
  intros Hr Hc. destruct (calculated_total r Hr Hc) as (q & Hq & H1 & H2). exists q. split; [done|].
  unfold measured_frequency. destruct (f10_insufficient r); auto.
Qed.

Lemma crossing_cycles r : crossing_contract r -> f10_cycles r <= 1023.
Proof. intros [H _ _ _ _]. lia. Qed.

Definition is_out_of_range (r : MeterRecord) (q : Z) : bool :=
  negb (q =? 0) && ((q <? frequency_10s_minimum (frequency_10s_nominal_hz r)) ||
                    (frequency_10s_maximum (frequency_10s_nominal_hz r) <? q)).

Lemma out_of_range_iff r q :
  is_out_of_range r q = true <->
  q <> 0 /\ ~ (frequency_10s_minimum (frequency_10s_nominal_hz r) <= q <=
               frequency_10s_maximum (frequency_10s_nominal_hz r)).
Proof. unfold is_out_of_range. lia. Qed.

(** The checks behind the geometry, on the frequency the decoder computes. *)
Lemma result_iff r q :
  record_wf r -> 0 <= f10_span r < 2 ^ 32 -> measured_frequency r q ->
  (negb (Z.land (f10_reason_bits r) (frequency_10s_mandatory_reasons r) =?
         frequency_10s_mandatory_reasons r) = false /\
   negb (Bool.eqb (any_bit (f10_reason_bits r) meter_frequency_10s_reason_out_of_range)
           (is_out_of_range r q)) = false /\
   any_bit (f10_reason_bits r) meter_frequency_10s_reason_arithmetic = false /\
   negb (valid_mask r =? (if f10_reason_bits r =? 0 then Z.shiftl 1 6 else 0)) ||
   (f10_reason_bits r =? 0) && negb (word r meter_frequency_10s_value_word =? q) ||
   negb (f10_reason_bits r =? 0) && negb (word r meter_frequency_10s_value_word =? 0) = false) <->
  result_contract r.
Proof.
  intros Hr Hspan Hq. rewrite negb_eqb_false, mandatory_flags by done.
  rewrite flags_sub by (repeat constructor; cbn; lia).
  rewrite (reason_iff _ _ _ (out_of_range_iff r q)).
  unfold meter_frequency_10s_reason_out_of_range, meter_frequency_10s_reason_arithmetic.
  rewrite !any_bit_pow by lia. fold (reason_bit r 17) (reason_bit r 18). change (Z.shiftl 1 6) with 64.
  rewrite !or_false, negb_eqb_false. split.
  - intros (H1 & H2 & H3 & [H4 H5] & H6). constructor; try done.
    + intros q' Hq'. by rewrite (measured_unique r q' q).
    + intros Hz. rewrite (proj2 (Z.eqb_eq _ _) Hz) in H4, H5. split; [done|]. cbn [andb] in H5.
      apply negb_eqb_false in H5. by rewrite H5.
    + intros Hz. rewrite (proj2 (Z.eqb_neq _ _) Hz) in H4, H6. split; [done|]. cbn [negb andb] in H6.
      by apply negb_eqb_false in H6.
  - intros [H1 H2 H3 H4 H5]. split; [exact H1|]. split; [by apply H2|]. split; [done|].
    destruct (Z.eqb_spec (f10_reason_bits r) 0) as [Hz|Hz].
    + destruct (H4 Hz) as [H6 H7]. split; [|done]. split; [done|]. cbn [andb].
      apply negb_eqb_false. by eapply measured_unique.
    + destruct (H5 Hz) as [H6 H7]. split; [done|]. cbn [negb andb]. by apply negb_eqb_false.
Qed.

Lemma envelope_span r : record_wf r -> envelope_contract r -> 0 <= f10_span r < 2 ^ 32.
Proof.
  intros Hr He. destruct (fc_samples _ He) as (H1 & -> & _). exact (word_fits r 6 Hr).
Qed.

(** The decoder accepts exactly the records that keep the contract. *)
Lemma decode_accepts r t :
  record_wf r -> (exists u, decode_frequency_10s_meter_record r t = Ok u) <-> frequency_10s_contract r.
Proof.
  intros Hr. unfold decode_frequency_10s_meter_record, frequency_10s_contract. split.
  - intros (u & H). apply bind_Ok in H as ([] & He%envelope_iff & H); [|done]. cbv zeta in H.
    pose proof (envelope_span r Hr He) as Hs. apply reject_then in H as [Hm H].
    apply bind_Ok in H as ([] & Hg%crossing_iff & H); [|done..].
    destruct (calculated_measured r Hr (crossing_cycles r Hg)) as (q & Hq & Hmf). rewrite Hq in H.
    cbn [mbind result_bind] in H. fold (is_out_of_range r q) in H. rewrite !reject_then in H.
    split; [done|]. split; [done|]. apply (result_iff r q); try done. tauto.
  - intros (He & Hg & Hc). pose proof (envelope_span r Hr He) as Hs.
    destruct (calculated_measured r Hr (crossing_cycles r Hg)) as (q & Hq & Hmf).
    apply (result_iff r q) in Hc as (H1 & H2 & H3 & H4); [|done..].
    rewrite (proj2 (envelope_iff r Hr) He). cbn [mbind result_bind]. cbv zeta. rewrite H1.
    cbn [reject_if mbind result_bind]. rewrite (proj2 (crossing_iff r Hr Hs) Hg).
    cbn [mbind result_bind]. rewrite Hq. cbn [mbind result_bind]. fold (is_out_of_range r q).
    rewrite H2, H3, H4. by eexists.
Qed.

(** Every refusal names the check that failed; the two arithmetic guards never do. *)
Definition named_refusal (e : exn) : Prop :=
  exists what, e = InvalidArgument what /\ what <> "frequency 10-second arithmetic overflows"%string /\
    what <> "frequency 10-second result has a zero duration"%string.

Lemma reject_refusal b what e :
  what <> "frequency 10-second arithmetic overflows"%string ->
  what <> "frequency 10-second result has a zero duration"%string ->
  reject_if b (InvalidArgument what) = Throw e -> named_refusal e.
Proof. intros H1 H2. destruct b; [|done]. intros [= <-]. by exists what. Qed.

Lemma tail_refusal {A} (l : list A) p what e :
  what <> "frequency 10-second arithmetic overflows"%string ->
  what <> "frequency 10-second result has a zero duration"%string ->
  forM_result l (fun x => require (p x) (InvalidArgument what)) = Throw e -> named_refusal e.
Proof.
  intros H1 H2. induction l as [|x l IH]; [done|]. cbn [forM_result].
  intros [H|(u & _ & H)]%bind_Throw; [|by apply IH]. destruct (p x); [done|]. injection H as <-. by exists what.
Qed.

Ltac refusal H :=
  first [eapply reject_refusal; [| |exact H]; discriminate
        |eapply tail_refusal; [| |exact H]; discriminate].

Lemma decode_refusals r t e :
  record_wf r -> decode_frequency_10s_meter_record r t = Throw e -> named_refusal e.
Proof.
  intros Hr. unfold decode_frequency_10s_meter_record.
  intros [H|([] & He%envelope_iff & H)]%bind_Throw; [|cbv zeta in H|done].
  { unfold frequency_10s_envelope in H. cbv zeta in H.
    repeat (apply bind_Throw in H as [H|(? & _ & H)]; [refusal H|]).
    refusal H. }
  apply bind_Throw in H as [H|(? & _ & H)]; [refusal H|].
  apply bind_Throw in H as [H|([] & Hg%crossing_iff & H)]; [| |done|by apply envelope_span].
  { unfold frequency_10s_geometry in H. cbv zeta in H.
    apply bind_Throw in H as [H|(? & _ & H)]; [refusal H|].
    apply bind_Throw in H as [H|(? & _ & H)]; [destruct (_ =? 0); refusal H|].
    refusal H. }
  destruct (calculated_measured r Hr (crossing_cycles r Hg)) as (q & Hq & _). rewrite Hq in H.
  cbn [mbind result_bind] in H.
  repeat (apply bind_Throw in H as [H|(? & _ & H)]; [refusal H|]). done.
Qed.

(** What a record without a rejection reason says of its acquisition. *)
Record acquisition_sound (r : MeterRecord) : Prop := {
  as_rate : sample_rate_hz r = 128000;
  as_channel : frequency_10s_reference_channel r = 6;
  as_filter : frequency_10s_filter_profile r = 1;
  as_calibration : frequency_10s_calibration_profile r = 1;
  as_source : forall i, i ∈ [0; 1; 2; 3; 4; 9; 10] -> source_bit r i = true;
  as_no_fault : forall i, i ∈ [5; 6; 7; 8] -> source_bit r i = false;
  as_no_drop : emit_drops r = 0;
  as_uncertainty : frequency_10s_utc_uncertainty_nanoseconds r <= 1000000;
  as_geometry : Z.abs (f10_span r * 1000 - f10_measured_rate r * 10) <= 2000
}.

Lemma required_absent r c i :
  result_contract r -> f10_reason_bits r = 0 -> (c, i) ∈ required_reasons r -> c = false.
Proof.
  intros Hc Hz Hin. destruct c; [|done]. pose proof (fc_required _ Hc true i Hin eq_refl) as H.
  unfold reason_bit in H. by rewrite Hz, Z.bits_0 in H.
Qed.

Lemma acquisition_of_contract r :
  result_contract r -> f10_reason_bits r = 0 -> acquisition_sound r.
Proof.
  intros Hc Hz.
  assert (H : Forall (fun ci => fst ci = false) (required_reasons r)).
  { apply List.Forall_forall. intros [c i] Hin%list_elem_of_In. by eapply required_absent. }
  unfold required_reasons in H.
  repeat match goal with H : Forall _ (_ :: _) |- _ =>
    let Hf := fresh "Hf" in let Ht := fresh "Ht" in
    apply Forall_cons_1 in H as [Hf Ht]; cbn [fst] in Hf end.
  bools. split; try done; intros i Hi;
    by repeat (apply elem_of_cons in Hi as [->|Hi]; [done|]); apply not_elem_of_nil in Hi.
Qed.

(** ** Properties *)

(** [rounded_divide_ties_to_even] is round-half-to-even on the whole unsigned
    64-bit range: no wrap-around occurs in its intermediate results, the result is the
    integer nearest to the quotient and a tie goes to the even neighbour, and a zero
    denominator is the only input it refuses. *)
Theorem rounded_divide_correct n d :
  0 <= n < 2 ^ 64 -> 0 <= d < 2 ^ 64 ->
  match rounded_divide_ties_to_even n d with
  | Ok q => d <> 0 /\ 0 <= q < 2 ^ 64 /\ nearest_even n d q
  | Throw e => d = 0 /\ e = InvalidArgument "frequency 10-second result has a zero duration"
  end.
Proof.
  intros Hn Hd. destruct (Z.eq_dec d 0) as [->|Hnz]; [done|].
  destruct (rounded_divide_nearest n d Hn ltac:(lia)) as (q & -> & Hq). auto.
Qed.

Lemma rounded_divide_correct_witness :
  rounded_divide_ties_to_even 7 2 = Ok 4 /\ nearest_even 7 2 4 /\
  rounded_divide_ties_to_even 5 2 = Ok 2 /\ nearest_even 5 2 2.
Proof.
  pose proof (rounded_divide_correct 7 2 ltac:(lia) ltac:(lia)) as H.
  pose proof (rounded_divide_correct 5 2 ltac:(lia) ltac:(lia)) as H'.
  split; [reflexivity|]. split; [apply H|]. split; [reflexivity|apply H'].
Defined.

Lemma decode_published r t u :
  record_wf r -> crossing_contract r -> result_contract r ->
  decode_frequency_10s_meter_record r t = Ok u ->
  exists fv m b, mu_fundamental u = Some fv /\ mu_frequency_10s u = Some m /\
    mu_timing u = Some b /\ mu_period u = Seconds10 /\
    f10_utc_start_nanoseconds m = frequency_10s_utc_start_nanoseconds r /\
    f10_utc_end_nanoseconds m = frequency_10s_utc_end_nanoseconds r /\
    bt_first_sample_index b = first_sample_index r /\ bt_sample_count b = block_sample_count r /\
    bt_cycle_count b = f10_cycles r /\ f10_reasons m = f10_reason_bits r /\
    r_value (fv_frequency fv) = word r meter_frequency_10s_value_word /\
    (r_quality (fv_frequency fv) = valid <-> f10_reason_bits r = 0) /\
    r_quality (fv_frequency fv) <> arithmetic_error.
Proof.
  intros Hwf Hg Hc H. unfold decode_frequency_10s_meter_record in H.
  apply bind_Ok in H as ([] & _ & H). cbv zeta in H. apply bind_Ok in H as (? & _ & H).
  apply bind_Ok in H as (? & _ & H). apply bind_Ok in H as (q & _ & H).
  apply bind_Ok in H as (? & _ & H). apply bind_Ok in H as (? & Ha%reject_if_Ok & H).
  apply bind_Ok in H as (? & _ & H). apply Ok_inj in H as <-. rewrite Ha.
  pose proof (crossing_cycles r Hg) as Hcy.
  pose proof (word_fits r meter_frequency_10s_cycle_count_word Hwf) as Hw. fold (f10_cycles r) in Hw.
  do 3 eexists. do 8 (split; [reflexivity|]).
  cbn [bt_cycle_count f10_reasons fv_frequency r_value r_quality].
  split; [apply wrap_id; lia|]. do 2 (split; [reflexivity|]).
  destruct (Z.eqb_spec (f10_reason_bits r) 0); [done|].
  destruct (any_bit _ (Z.lor _ _)); (split; [split; intros; congruence|congruence]).
Qed.

(** (C29) The decoder accepts a ten-second frequency record exactly when the record keeps its
    whole contract: header, reserved words and bits, sample anchors, an interval of exactly ten
    UTC seconds, each of the 16 status bits equal to what it repeats, every mandatory rejection
    reason present, crossing counts and geometry, range reason, valid mask and value.  It refuses
    every other record with the name of a check, never for arithmetic overflow or a zero
    duration.  What it publishes is the record's value, valid exactly when there is no rejection
    reason; then the acquisition was sound (profiles, source conditions, no drops, UTC
    uncertainty at most 1 ms, span and rate agreeing to 2 samples) and the value is the measured
    rate times the cycles over the Q16 crossing duration, rounded half to even, within the range
    of the nominal frequency or zero, which is let through as valid
    ([frequency_10s_valid_zero]); otherwise it is zero. *)
Theorem frequency_10s_decode_correct r t :
  record_wf r ->
  match decode_frequency_10s_meter_record r t with
  | Throw e => ~ frequency_10s_contract r /\ named_refusal e
  | Ok u =>
      frequency_10s_contract r /\
      exists fv m b, mu_fundamental u = Some fv /\ mu_frequency_10s u = Some m /\
        mu_timing u = Some b /\ mu_period u = Seconds10 /\
        f10_utc_start_nanoseconds m = frequency_10s_utc_start_nanoseconds r /\
        f10_utc_end_nanoseconds m = frequency_10s_utc_end_nanoseconds r /\
        bt_first_sample_index b = first_sample_index r /\ bt_sample_count b = block_sample_count r /\
        bt_cycle_count b = f10_cycles r /\ f10_reasons m = f10_reason_bits r /\
        r_quality (fv_frequency fv) <> arithmetic_error /\
        (r_quality (fv_frequency fv) = valid <-> f10_reason_bits r = 0) /\
        (r_quality (fv_frequency fv) <> valid -> r_value (fv_frequency fv) = 0) /\
        (r_quality (fv_frequency fv) = valid ->
           acquisition_sound r /\ f10_rejected r = 0 /\
           nearest_even (f10_measured_rate r * 65536 * f10_cycles r) (f10_duration r)
             (r_value (fv_frequency fv)) /\
           (r_value (fv_frequency fv) = 0 \/
            frequency_10s_minimum (frequency_10s_nominal_hz r) <= r_value (fv_frequency fv) <=
            frequency_10s_maximum (frequency_10s_nominal_hz r)))
  end.
Proof.
  intros Hwf. destruct (decode_frequency_10s_meter_record r t) as [u|e] eqn:E.
  2: { split; [|by eapply decode_refusals].
       intros (u & Hu)%(decode_accepts r t Hwf). congruence. }
  assert (Hc : frequency_10s_contract r) by (apply (decode_accepts r t Hwf); by exists u).
  split; [exact Hc|]. destruct Hc as (_ & Hg & Hc).
  destruct (decode_published r t u Hwf Hg Hc E)
    as (fv & m & b & H1 & H2 & H3 & H4 & H5 & H6 & H7 & H8 & H9 & H10 & Hv & Hq & Ha).
  exists fv, m, b. do 12 (split; [assumption|]). rewrite Hv, Hq. split.
  - apply (fc_invalid _ Hc).
  - intros Hz. destruct (fc_valid _ Hc Hz) as [_ Hmf]. split; [by apply acquisition_of_contract|].
    assert (Hbits : forall i, reason_bit r i = false) by (intros; unfold reason_bit; by rewrite Hz, Z.bits_0).
    split; [|split].
    + destruct (Z.eq_dec (f10_rejected r) 0) as [|Hn]; [done|]. apply (fc_rejected _ Hg) in Hn. by rewrite Hbits in Hn.
    + unfold measured_frequency in Hmf. destruct (f10_insufficient r) eqn:Ei; [|done].
      apply insufficient_iff, (fc_insufficient _ Hg) in Ei. by rewrite Hbits in Ei.
    + pose proof (fc_range _ Hc _ Hmf) as Hr. rewrite Hbits in Hr.
      destruct (Z.eq_dec (word r meter_frequency_10s_value_word) 0) as [|Hn]; [by left|right].
      destruct (Z_le_dec (frequency_10s_minimum (frequency_10s_nominal_hz r)) (word r meter_frequency_10s_value_word)),
        (Z_le_dec (word r meter_frequency_10s_value_word) (frequency_10s_maximum (frequency_10s_nominal_hz r)));
        [by split|exfalso; discriminate (proj2 Hr (conj Hn ltac:(lia)))..].
Qed.

(** A sound ten-second record: 50 Hz nominal, 128 kHz, 499 crossings included. *)
Definition frequency_10s_fields (first span rate crossings cycles duration value : Z)
  : list (Z * Z) :=
  [(0, meter_record_magic); (1, meter_frequency_10s_format); (2, meter_record_size); (3, 7);
   (4, 1); (5, 128000); (6, span); (7, 64); (8, 0x607e); (9, first);
   (13, 50 + 6 * 256 + 65536 + 16777216); (14, first + span - 1); (16, value); (17, cycles);
   (18, u32 duration); (19, duration / 2 ^ 32); (20, 0); (22, u32 duration);
   (23, duration / 2 ^ 32); (24, first + span); (26, 0); (28, 1410065408);
   (29, 2); (30, 100); (32, rate); (33, 7); (34, 1); (35, 0x61f); (39, crossings);
   (40, crossings)].

Definition frequency_10s_example : MeterRecord :=
  build_record (frequency_10s_fields 1000 1280000 128000000 499 498 83550535680 50000).

Lemma frequency_10s_decode_correct_witness :
  frequency_10s_contract frequency_10s_example /\
  exists u fv, decode_frequency_10s_meter_record frequency_10s_example 0 = Ok u /\
    mu_fundamental u = Some fv /\ r_quality (fv_frequency fv) = valid /\
    r_value (fv_frequency fv) = 50000 /\ acquisition_sound frequency_10s_example.
Proof.
  assert (Hwf : record_wf frequency_10s_example) by (apply record_wfb_iff; vm_compute; reflexivity).
  pose proof (frequency_10s_decode_correct frequency_10s_example 0 Hwf) as H.
  destruct (decode_frequency_10s_meter_record frequency_10s_example 0) as [u|e] eqn:E;
    [|vm_compute in E; discriminate].
  destruct H as (Hc & fv & m & b & Hf & _ & _ & _ & _ & _ & _ & _ & _ & _ & _ & Hq & _ & Hv).
  split; [exact Hc|]. exists u, fv. split; [done|]. split; [done|].
  assert (Hz : f10_reason_bits frequency_10s_example = 0) by (vm_compute; reflexivity).
  split; [by apply Hq|]. split; [|by apply Hv, Hq].
  vm_compute in E. injection E as <-. injection Hf as <-. reflexivity.
Defined.

(** The range check exempts a computed frequency of zero: a record whose sample
    interval is a single sample and whose measured rate is zero passes every check and
    is decoded as a valid reading of 0 mHz, below the accepted range of its nominal
    frequency. *)
Theorem frequency_10s_valid_zero :
  exists u fv, decode_frequency_10s_meter_record
      (build_record (frequency_10s_fields 1000 1 0 2 1 1 0)) 0 = Ok u /\
    mu_fundamental u = Some fv /\ r_quality (fv_frequency fv) = valid /\
    r_value (fv_frequency fv) = 0 /\ frequency_10s_minimum 50 = 42500.
Proof. do 2 eexists. vm_compute. repeat split. Qed.
