(* ===== verification/DecodeEvents.v ===== *)
(** * Event records outside the period store

    Models the decoders of [common/msap1/meter/meter_data.cpp] whose results do not
    enter the latest-value store: the single-cycle diagnostic record, the sliding
    power-quality record, the PQ-EVENT-v1 lifecycle record with its stable UUID, the
    FLICKER-v1 and the MAINS-SIGNAL-v1 records.  The lifecycle, flicker and mains
    decoders recompute what the record claims and refuse a record that disagrees with
    itself. *)
From S2P Require Import Prelude.
From S2P Require Import MeterTiming.
From S2P Require Import RecordFormat.
From S2P Require Import MeterRecord.
From S2P Require Import MeterData.
From S2P Require Import DecodeCommon.
From S2P Require Import DecodeBlocks.

(** ** Single-cycle diagnostic record *)

Record SingleCycleSnapshot := mkSingleCycle {
  sc_sequence : Z;
  sc_configuration_generation : Z;
  sc_sample_count : Z;
  sc_valid_mask : Z;
  sc_status : Z;
  sc_first_sample : Z;
  sc_last_sample : Z;
  sc_cycle_sequence : Z;
  sc_nominal_hz : Z;
  sc_flags : Z;
  sc_processing_tick : Z;
  sc_frequency_millihz : Z;
  sc_frequency_status : Z;
  sc_rms_micro_units : list Z;
  sc_vll_rms_micro_units : list Z;
  sc_active_power_picowatts : list Z;
  sc_fundamental_rms_micro_units : list Z
}.

Definition sc_phasor_valid (s : SingleCycleSnapshot) : bool := negb (any_bit (sc_status s) 0x2).
Definition sc_first_after_gap (s : SingleCycleSnapshot) : bool := any_bit (sc_status s) 0x4.

(** [record.word(base) | (std::uint64_t{record.word(base + 1)} << 32)] *)
Definition doubleword (record : MeterRecord) (base : nat) : Z :=
  Z.lor (word record base) (Z.shiftl (word record (base + 1)) 32).

Definition decode_single_cycle_record (record : MeterRecord) : SingleCycleSnapshot :=
  mkSingleCycle (word record 3) (word record 4) (word record 6) (word record 7) (word record 8)
    (doubleword record 9) (doubleword record 16) (word record 14)
    (Z.land (word record 13) 0xff) (Z.land (Z.shiftr (word record 13) 16) 0x7)
    (doubleword record 18) (word record 20) (word record 21)
    (map (fun lane => doubleword record (24 + lane * 2)%nat) (seq 0 7))
    (map (fun pair => doubleword record (38 + pair * 2)%nat) (seq 0 3))
    (map (fun phase => s64 (doubleword record (44 + phase * 2)%nat)) (seq 0 3))
    (map (fun lane => doubleword record (50 + lane * 2)%nat) (seq 0 7)).

(** ** Sliding power-quality record *)

Definition pq_voltage_lane_bit (phase : nat) : Z := nth phase [0x40; 0x20; 0x10] 0.
Definition pq_current_lane_bit (phase : nat) : Z := nth phase [0x01; 0x02; 0x04] 0.

Record PowerQualitySnapshot := mkPowerQualitySnapshot {
  pqs_sequence : Z;
  pqs_configuration_generation : Z;
  pqs_sample_rate_hz : Z;
  pqs_first_sample : Z;
  pqs_last_sample : Z;
  pqs_sample_count : Z;
  pqs_valid_mask : Z;
  pqs_status : Z;
  pqs_values : PowerQualityValues
}.

Definition pq_kind_of (kind : Z) : PowerQualityRecordKind :=
  if kind =? 0 then pq_periodic else if kind =? 1 then pq_event_start else pq_event_end.
Definition pq_event_type_of (t : Z) : PowerQualityEventType :=
  if t =? 0 then pq_none else if t =? 1 then pq_sag else if t =? 2 then pq_swell
  else pq_interruption.

(** [now] is the value of [std::chrono::system_clock::now()] during the call. *)
Definition decode_pq_event_record (now : Z) (record : MeterRecord)
  : result PowerQualitySnapshot :=
  reject_if (negb (record_format record =? meter_pq_event_format))
    (InvalidArgument "invalid power-quality record") ;;
  let kind_word := word record 13 in
  let kind := Z.land kind_word 0xff in
  let event_type := Z.land (Z.shiftr kind_word 8) 0xff in
  reject_if ((2 <? kind) || (3 <? event_type))
    (InvalidArgument "power-quality record has an unknown kind or event type") ;;
  let sample_count := block_sample_count record in
  reject_if (sample_count =? 0)
    (InvalidArgument "power-quality record has a zero sample count") ;;
  let first_sample := first_sample_index record in
  let last_sample := unsigned64 record 14 in
  reject_if (last_sample <? first_sample)
    (InvalidArgument "power-quality record spans a negative sample range") ;;
  let window := sample_window sample_count (sample_rate_hz record) in
  let quality (lane_bit : Z) : MeasurementQuality :=
    if Z.land (valid_mask record) lane_bit =? 0 then unavailable
    else if any_bit (status record) 0x1 then arithmetic_error else valid in
  let voltage (w phase : nat) : Reading MicroVolts :=
    mkReading (word record w) (quality (pq_voltage_lane_bit phase)) (sequence record) now
      window in
  let current (w phase : nat) : Reading MicroAmperes :=
    mkReading (word record w) (quality (pq_current_lane_bit phase)) (sequence record) now
      window in
  let values := mkPowerQuality (pq_kind_of kind) (pq_event_type_of event_type)
    (Z.land (Z.shiftr kind_word 16) 0x7) (bit kind_word 26) (bit kind_word 24)
    (bit kind_word 25)
    (mkABC (voltage 16%nat 0%nat) (voltage 17%nat 1%nat) (voltage 18%nat 2%nat))
    (mkABC (voltage 19%nat 0%nat) (voltage 20%nat 1%nat) (voltage 21%nat 2%nat))
    (mkABC (voltage 22%nat 0%nat) (voltage 23%nat 1%nat) (voltage 24%nat 2%nat))
    (mkABC (current 25%nat 0%nat) (current 26%nat 1%nat) (current 27%nat 2%nat))
    (word record 28) (unsigned64 record 29) (word record 31) (word record 32)
    (word record 33) (word record 34) (word record 35) (word record 36) in
  Ok (mkPowerQualitySnapshot (sequence record) (configuration_generation record)
        (sample_rate_hz record) first_sample last_sample sample_count (valid_mask record)
        (status record) values).

(** ** Event identity *)

Record PowerQualityEventId := mkEventId { eid_session : Z; eid_counter : Z }.

(** The sixteen bytes hashed for an event: session then counter, little endian. *)
Definition uuid_source (id : PowerQualityEventId) : list Z :=
  le_bytes 8 (eid_session id) ++ le_bytes 8 (eid_counter id).

(** [SHA256] of OpenSSL is a parameter: it yields the digest, or nothing when it
    returns a null pointer. *)
Definition stable_power_quality_event_uuid (SHA256 : list Z -> option (list Z))
    (id : PowerQualityEventId) : result (list Z) :=
  match SHA256 (uuid_source id) with
  | None => Throw (RuntimeError "power-quality event UUID hash failed")
  | Some digest =>
      let uuid := take 16 digest in
      let uuid := <[6%nat := Z.lor (Z.land (nth 6 uuid 0) 0x0f) 0x50]> uuid in
      Ok (<[8%nat := Z.lor (Z.land (nth 8 uuid 0) 0x3f) 0x80]> uuid)
  end.

(** ** PQ-EVENT-v1 lifecycle record *)

Inductive PowerQualityEventLifecycle := lc_start | lc_update | lc_end | lc_abort.
Inductive PowerQualityLifecycleType :=
  | voltage_sag | voltage_swell | voltage_interruption | rapid_voltage_change
  | voltage_unbalance | current_sag | current_swell | current_unbalance | transient_voltage.

#[export] Instance PowerQualityEventLifecycle_eq_dec : EqDecision PowerQualityEventLifecycle.
Proof. solve_decision. Defined.
#[export] Instance PowerQualityLifecycleType_eq_dec : EqDecision PowerQualityLifecycleType.
Proof. solve_decision. Defined.

Definition lifecycle_of (z : Z) : PowerQualityEventLifecycle :=
  if z =? meter_event_lifecycle_start then lc_start
  else if z =? meter_event_lifecycle_update then lc_update
  else if z =? meter_event_lifecycle_end then lc_end else lc_abort.

Definition lifecycle_type_of (z : Z) : PowerQualityLifecycleType :=
  nth (Z.to_nat z) [voltage_sag; voltage_swell; voltage_interruption; rapid_voltage_change;
    voltage_unbalance; current_sag; current_swell; current_unbalance; transient_voltage]
    transient_voltage.

Record PowerQualityEventLifecycleSnapshot := mkLifecycle {
  ls_id : PowerQualityEventId;
  ls_lifecycle : PowerQualityEventLifecycle;
  ls_type : PowerQualityLifecycleType;
  ls_phase_mask : Z;
  ls_trigger_source : Z;
  ls_sequence : Z;
  ls_configuration_generation : Z;
  ls_profile_generation : Z;
  ls_sample_rate_hz : Z;
  ls_first_sample : Z;
  ls_last_sample : Z;
  ls_trigger_sample : Z;
  ls_duration_samples : Z;
  ls_valid_mask : Z;
  ls_status : Z;
  ls_threshold_e4 : Z;
  ls_hysteresis_e4 : Z;
  ls_reference_micro_units : Z;
  ls_minimum_micro_units : list Z;
  ls_maximum_micro_units : list Z;
  ls_current_micro_units : list Z;
  ls_waveform_enabled : bool;
  ls_per_phase : bool;
  ls_iec_classification : bool;
  ls_waveform_pretrigger_ms : Z;
  ls_waveform_posttrigger_ms : Z;
  ls_waveform_decimation : Z;
  ls_start_utc_nanoseconds : Z;
  ls_last_utc_nanoseconds : Z;
  ls_time_quality : Z;
  ls_discontinuities : Z;
  ls_update_count : Z;
  ls_settings_digest : list Z
}.

Definition terminal (s : PowerQualityEventLifecycleSnapshot) : bool :=
  bool_decide (ls_lifecycle s = lc_end) || bool_decide (ls_lifecycle s = lc_abort).

Definition voltage_event (s : PowerQualityEventLifecycleSnapshot) : bool :=
  match ls_type s with
  | voltage_sag | voltage_swell | voltage_interruption | rapid_voltage_change
  | voltage_unbalance | transient_voltage => true
  | current_sag | current_swell | current_unbalance => false
  end.

Definition words_at (record : MeterRecord) (base count : nat) : list Z :=
  map (fun i => word record (base + i)%nat) (seq 0 count).

(** The member assignments of the decoder; [time_quality] keeps the raw enumerator
    value, which the decoder checks afterwards. *)
Definition lifecycle_snapshot (record : MeterRecord) : PowerQualityEventLifecycleSnapshot :=
  let identity := word record 13 in
  let waveform := word record meter_event_waveform_policy_word in
  mkLifecycle
    (mkEventId (unsigned64 record meter_event_id_word)
       (unsigned64 record (meter_event_id_word + 2)))
    (lifecycle_of (Z.land identity 0x3)) (lifecycle_type_of (Z.land (Z.shiftr identity 4) 0x0f))
    (Z.land (Z.shiftr identity 8) 0x7) (Z.land (Z.shiftr identity 16) 0x3)
    (sequence record) (configuration_generation record)
    (word record meter_event_profile_generation_word) (sample_rate_hz record)
    (first_sample_index record) (unsigned64 record meter_event_last_sample_word)
    (unsigned64 record meter_event_trigger_sample_word)
    (unsigned64 record meter_event_duration_word) (word record 7) (status record)
    (word record meter_event_threshold_word) (word record meter_event_hysteresis_word)
    (word record meter_event_reference_word)
    (words_at record meter_event_minimum_word 3) (words_at record meter_event_maximum_word 3)
    (words_at record meter_event_current_word 3)
    (any_bit waveform 0x1) (any_bit waveform 0x2) (any_bit waveform 0x4)
    (word record meter_event_waveform_pre_ms_word)
    (word record meter_event_waveform_post_ms_word) (Z.shiftr waveform 8)
    (unsigned64 record meter_event_start_utc_ns_word)
    (unsigned64 record meter_event_last_utc_ns_word)
    (word record meter_event_time_quality_word) (word record meter_event_discontinuity_word)
    (word record 47) (words_at record meter_event_settings_digest_word 4).

Definition valid_decimation (value : Z) : bool :=
  (value =? 1) || (value =? 2) || (value =? 4) || (value =? 8) || (value =? 16) ||
  (value =? 32).

(** The header checks, up to the identity word. *)
Definition lifecycle_header (record : MeterRecord) : result unit :=
  reject_if (negb (header_valid record) ||
             negb (record_format record =? meter_pq_event_lifecycle_format))
    (InvalidArgument "invalid PQ-EVENT-v1 record header") ;;
  reject_if ((sequence record =? 0) || (configuration_generation record =? 0) ||
             (sample_rate_hz record =? 0) || negb (emit_drops record =? 0))
    (InvalidArgument "invalid PQ-EVENT-v1 common provenance") ;;
  reject_if (any_bit (status record) (not32 0x0f) ||
             negb (Z.land (status record) 0x0a =? 0x0a))
    (InvalidArgument "invalid PQ-EVENT-v1 status") ;;
  let identity := word record 13 in
  reject_if (any_bit identity (not32 0x000307f3))
    (InvalidArgument "PQ-EVENT-v1 identity has reserved bits") ;;
  reject_if ((meter_event_lifecycle_abort <? Z.land identity 0x3) ||
             (8 <? Z.land (Z.shiftr identity 4) 0x0f) ||
             (Z.land (Z.shiftr identity 8) 0x7 =? 0) ||
             (2 <? Z.land (Z.shiftr identity 16) 0x3))
    (InvalidArgument "PQ-EVENT-v1 identity is out of range").

(** Scalar provenance of the snapshot. *)
Definition lifecycle_inconsistent (s : PowerQualityEventLifecycleSnapshot) : bool :=
  (eid_session (ls_id s) =? 0) || (eid_counter (ls_id s) =? 0) ||
  negb (ls_profile_generation s =? ls_configuration_generation s) ||
  (ls_last_sample s <? ls_first_sample s) || (ls_trigger_sample s <? ls_first_sample s) ||
  (ls_last_sample s <? ls_trigger_sample s) ||
  negb (ls_duration_samples s =? u64 (ls_last_sample s - ls_first_sample s)) ||
  (ls_update_count s =? 0) || (ls_reference_micro_units s =? 0) ||
  (ls_threshold_e4 s =? 0) || (0xffff <? ls_threshold_e4 s) ||
  (ls_threshold_e4 s <=? ls_hysteresis_e4 s) ||
  (120000 <? ls_waveform_pretrigger_ms s) || (120000 <? ls_waveform_posttrigger_ms s) ||
  negb (valid_decimation (ls_waveform_decimation s)).

Definition extrema_inconsistent (s : PowerQualityEventLifecycleSnapshot) (phase : nat) : bool :=
  let minimum := nth phase (ls_minimum_micro_units s) 0 in
  let maximum := nth phase (ls_maximum_micro_units s) 0 in
  let current := nth phase (ls_current_micro_units s) 0 in
  (maximum <? minimum) || (current <? minimum) || (maximum <? current).

Definition time_inconsistent (s : PowerQualityEventLifecycleSnapshot) : bool :=
  let quality := ls_time_quality s in
  (2 <? quality) ||
  ((quality =? 0) && (negb (ls_start_utc_nanoseconds s =? 0) ||
                      negb (ls_last_utc_nanoseconds s =? 0))) ||
  (negb (quality =? 0) && ((ls_start_utc_nanoseconds s =? 0) ||
                           (ls_last_utc_nanoseconds s <? ls_start_utc_nanoseconds s))).

Definition decode_pq_event_lifecycle_record (record : MeterRecord)
  : result PowerQualityEventLifecycleSnapshot :=
  lifecycle_header record ;;
  let s := lifecycle_snapshot record in
  let type := Z.land (Z.shiftr (word record 13) 4) 0x0f in
  let waveform := word record meter_event_waveform_policy_word in
  reject_if (lifecycle_inconsistent s)
    (InvalidArgument "PQ-EVENT-v1 provenance is inconsistent") ;;
  reject_if (any_bit waveform (not32 0x00003f07))
    (InvalidArgument "PQ-EVENT-v1 waveform policy has reserved bits") ;;
  let expected_iec := (type <=? 3) || (type =? 8) in
  reject_if (negb (Bool.eqb (ls_iec_classification s) expected_iec))
    (InvalidArgument "PQ-EVENT-v1 taxonomy is inconsistent") ;;
  let expected_valid := if voltage_event s then Z.shiftl (ls_phase_mask s) 4
                        else ls_phase_mask s in
  reject_if (negb (ls_valid_mask s =? expected_valid))
    (InvalidArgument "PQ-EVENT-v1 phase validity is inconsistent") ;;
  let covered := if ls_duration_samples s =? UINT64_MAX then UINT64_MAX
                 else ls_duration_samples s + 1 in
  let expected_count := u32 (Z.min covered UINT32_MAX) in
  reject_if (negb (block_sample_count record =? expected_count) ||
             negb (ls_discontinuities s =? result_drops record))
    (InvalidArgument "PQ-EVENT-v1 span is inconsistent") ;;
  forM_result (seq 0 3) (fun phase =>
    require (negb (extrema_inconsistent s phase))
      (InvalidArgument "PQ-EVENT-v1 extrema are inconsistent")) ;;
  reject_if (time_inconsistent s)
    (InvalidArgument "PQ-EVENT-v1 time provenance is inconsistent") ;;
  let digest_present := existsb (fun w => negb (w =? 0)) (ls_settings_digest s) in
  reject_if (negb digest_present || negb (word record 27 =? 0))
    (InvalidArgument "PQ-EVENT-v1 reserved/snapshot fields are invalid") ;;
  forM_result (range 52 (meter_record_word_count - 1)) (fun w =>
    require (word record w =? 0)
      (InvalidArgument "PQ-EVENT-v1 reserved word is nonzero")) ;;
  Ok s.

(** ** FLICKER-v1 *)

Inductive FlickerRecordKind := fk_live | fk_pst | fk_plt.

#[export] Instance FlickerRecordKind_eq_dec : EqDecision FlickerRecordKind.
Proof. solve_decision. Defined.

Definition flicker_kind_of (z : Z) : FlickerRecordKind :=
  if z =? meter_flicker_kind_live then fk_live
  else if z =? meter_flicker_kind_pst then fk_pst else fk_plt.

Record FlickerSnapshot := mkFlicker {
  fs_kind : FlickerRecordKind;
  fs_sequence : Z;
  fs_configuration_generation : Z;
  fs_profile_generation : Z;
  fs_sample_rate_hz : Z;
  fs_first_sample : Z;
  fs_last_sample : Z;
  fs_sample_count : Z;
  fs_interval_seconds : Z;
  fs_phase_valid_mask : Z;
  fs_lamp_voltage : Z;
  fs_nominal_frequency_hz : Z;
  fs_pinst_q16 : list Z;
  fs_pst_q16 : list Z;
  fs_plt_q16 : list Z;
  fs_valid_internal_samples : list Z;
  fs_status : Z;
  fs_source_status : Z
}.

Definition flicker_snapshot (record : MeterRecord) : FlickerSnapshot :=
  let identity := word record 13 in
  let model := word record meter_flicker_model_word in
  mkFlicker (flicker_kind_of (Z.land identity 0xff)) (sequence record)
    (configuration_generation record) (word record meter_flicker_profile_generation_word)
    (sample_rate_hz record) (first_sample_index record)
    (unsigned64 record meter_flicker_last_sample_word) (block_sample_count record)
    (word record meter_flicker_interval_seconds_word) (Z.land (Z.shiftr identity 8) 0x7)
    (Z.land model 0xffff) (u8 (Z.shiftr model 16))
    (words_at record meter_flicker_pinst_word 3) (words_at record meter_flicker_pst_word 3)
    (words_at record meter_flicker_plt_word 3)
    (words_at record meter_flicker_valid_count_word 3) (status record)
    (word record meter_flicker_source_status_word).

Definition flicker_header (record : MeterRecord) : result unit :=
  reject_if (negb (header_valid record) ||
             negb (record_format record =? meter_flicker_format))
    (InvalidArgument "invalid FLICKER-v1 record header") ;;
  reject_if ((sequence record =? 0) || (configuration_generation record =? 0) ||
             (sample_rate_hz record <? 2000) || (128000 <? sample_rate_hz record) ||
             negb (sample_rate_hz record mod 2000 =? 0) ||
             negb (emit_drops record =? 0) || negb (result_drops record =? 0))
    (InvalidArgument "invalid FLICKER-v1 common provenance") ;;
  reject_if (any_bit (status record) (not32 0x5))
    (InvalidArgument "invalid FLICKER-v1 status") ;;
  let identity := word record 13 in
  let kind := Z.land identity 0xff in
  let phase_mask := Z.land (Z.shiftr identity 8) 0x7 in
  reject_if (any_bit identity (not32 0x000007ff) || (meter_flicker_kind_plt <? kind) ||
             negb (valid_mask record =? u8 (Z.shiftl phase_mask 4)))
    (InvalidArgument "invalid FLICKER-v1 kind or phase mask").

Definition expected_seconds (kind : FlickerRecordKind) : Z :=
  match kind with fk_live => 1 | fk_pst => 600 | fk_plt => 7200 end.

Definition flicker_inconsistent (record : MeterRecord) (s : FlickerSnapshot)
    (maximum_valid : Z) : bool :=
  let model := word record meter_flicker_model_word in
  let seconds := expected_seconds (fs_kind s) in
  let expected_span := seconds * fs_sample_rate_hz s in
  let expected_count := maximum_valid * (fs_sample_rate_hz s / 2000) in
  negb (fs_profile_generation s =? fs_configuration_generation s) ||
  negb (fs_interval_seconds s =? seconds) || (fs_last_sample s <? fs_first_sample s) ||
  negb (u64 (fs_last_sample s - fs_first_sample s + 1) =? expected_span) ||
  negb (fs_sample_count s =? expected_count) ||
  negb (unsigned64 record meter_flicker_interval_first_word =? fs_first_sample s) ||
  any_bit model 0xff000000 ||
  (negb (fs_lamp_voltage s =? 120) && negb (fs_lamp_voltage s =? 230)) ||
  (negb (fs_nominal_frequency_hz s =? 50) && negb (fs_nominal_frequency_hz s =? 60)) ||
  any_bit (fs_source_status s) (not32 0xff).

Definition decode_flicker_record (record : MeterRecord) : result FlickerSnapshot :=
  flicker_header record ;;
  let s := flicker_snapshot record in
  let phase_mask := fs_phase_valid_mask s in
  let expected_internal := expected_seconds (fs_kind s) * 2000 in
  forM_result (seq 0 3) (fun phase =>
    let count := nth phase (fs_valid_internal_samples s) 0 in
    require (negb ((expected_internal <? count) ||
                   (bit phase_mask (Z.of_nat phase) && negb (count =? expected_internal))))
      (InvalidArgument "FLICKER-v1 phase validity is inconsistent")) ;;
  let maximum_valid := foldl Z.max 0 (fs_valid_internal_samples s) in
  reject_if (flicker_inconsistent record s maximum_valid)
    (InvalidArgument "FLICKER-v1 provenance is inconsistent") ;;
  reject_if (negb (bool_decide (fs_kind s = fk_live)) && bit (fs_source_status s) 7)
    (InvalidArgument "completed FLICKER-v1 interval is settling") ;;
  match fs_kind s with
  | fk_live =>
      forM_result (seq 0 3) (fun phase =>
        require ((nth phase (fs_pst_q16 s) 0 =? 0) && (nth phase (fs_plt_q16 s) 0 =? 0))
          (InvalidArgument "live FLICKER-v1 carries completed metrics"))
  | fk_pst =>
      forM_result (fs_plt_q16 s) (fun value =>
        require (value =? 0) (InvalidArgument "Pst FLICKER-v1 carries a Plt result"))
  | fk_plt =>
      reject_if (phase_mask =? 0) (InvalidArgument "Plt FLICKER-v1 has no valid phase")
  end ;;
  forM_result (range 34 (meter_record_word_count - 1)) (fun w =>
    require (word record w =? 0)
      (InvalidArgument "FLICKER-v1 reserved word is nonzero")) ;;
  Ok s.

(** ** MAINS-SIGNAL-v1 *)

Record MainsSignalSnapshot := mkMains {
  mns_sequence : Z;
  mns_configuration_generation : Z;
  mns_profile_generation : Z;
  mns_sample_rate_hz : Z;
  mns_first_sample : Z;
  mns_last_sample : Z;
  mns_sample_count : Z;
  mns_phase_valid_mask : Z;
  mns_detected_phase_mask : Z;
  mns_configured_millihz : Z;
  mns_measured_millihz : Z;
  mns_magnitude_microvolts : list Z;
  mns_background_microvolts : list Z;
  mns_bandwidth_millihz : Z;
  mns_observation_ms : Z;
  mns_threshold_e4 : Z;
  mns_reference_microvolts : Z;
  mns_status : Z;
  mns_source_status : Z
}.

Definition mains_snapshot (record : MeterRecord) : MainsSignalSnapshot :=
  let identity := word record 13 in
  mkMains (sequence record) (configuration_generation record)
    (word record meter_mains_profile_generation_word) (sample_rate_hz record)
    (first_sample_index record) (unsigned64 record meter_mains_last_sample_word)
    (block_sample_count record) (Z.land identity 0x7) (Z.land (Z.shiftr identity 8) 0x7)
    (word record meter_mains_configured_millihz_word)
    (word record meter_mains_measured_millihz_word)
    (words_at record meter_mains_magnitude_word 3)
    (words_at record meter_mains_background_word 3)
    (word record meter_mains_bandwidth_millihz_word)
    (word record meter_mains_observation_ms_word)
    (word record meter_mains_threshold_e4_word)
    (word record meter_mains_reference_microvolts_word) (status record)
    (word record meter_mains_source_status_word).

Definition supported_rate (rate : Z) : bool :=
  existsb (Z.eqb rate) [2000; 4000; 8000; 16000; 32000; 64000; 128000].

Definition mains_header (record : MeterRecord) : result unit :=
  reject_if (negb (header_valid record) ||
             negb (record_format record =? meter_mains_signal_format))
    (InvalidArgument "invalid MAINS-SIGNAL-v1 record header") ;;
  reject_if ((sequence record =? 0) || (configuration_generation record =? 0) ||
             negb (supported_rate (sample_rate_hz record)) || negb (emit_drops record =? 0) ||
             negb (result_drops record =? 0))
    (InvalidArgument "invalid MAINS-SIGNAL-v1 common provenance") ;;
  reject_if (any_bit (status record) (not32 0x5))
    (InvalidArgument "invalid MAINS-SIGNAL-v1 status") ;;
  let identity := word record 13 in
  let valid_bits := Z.land identity 0x7 in
  let detected_mask := Z.land (Z.shiftr identity 8) 0x7 in
  reject_if (any_bit identity (not32 0x00000707) ||
             any_bit detected_mask (not32 valid_bits) ||
             negb (word record 7 =? Z.shiftl valid_bits 4))
    (InvalidArgument "invalid MAINS-SIGNAL-v1 phase identity").

Definition mains_inconsistent (s : MainsSignalSnapshot) : bool :=
  let upper_frequency := mns_configured_millihz s + mns_bandwidth_millihz s in
  let nyquist_millihz := mns_sample_rate_hz s * 500 in
  let expected_samples := mns_sample_rate_hz s / 5 in
  negb (mns_profile_generation s =? mns_configuration_generation s) ||
  (mns_configured_millihz s =? 0) || (mns_bandwidth_millihz s <? 4) ||
  (mns_configured_millihz s <=? mns_bandwidth_millihz s) ||
  (nyquist_millihz <=? upper_frequency) || (12500000 <=? upper_frequency) ||
  negb (mns_observation_ms s =? 200) || (0xffff <? mns_threshold_e4 s) ||
  (mns_reference_microvolts s =? 0) || negb (mns_sample_count s =? expected_samples) ||
  (mns_last_sample s <? mns_first_sample s) ||
  negb (u64 (mns_last_sample s - mns_first_sample s + 1) =? expected_samples) ||
  any_bit (mns_source_status s) (not32 0x3f) || negb (any_bit (mns_source_status s) 1).

Definition threshold_microvolts (s : MainsSignalSnapshot) : Z :=
  u64 (mns_reference_microvolts s * mns_threshold_e4 s + 9999) / 10000.

(** The two results of the loop over the phases. *)
Definition expected_detected (s : MainsSignalSnapshot) : Z :=
  foldl (fun mask phase =>
    if bit (mns_phase_valid_mask s) (Z.of_nat phase) &&
       (threshold_microvolts s <=? nth phase (mns_magnitude_microvolts s) 0)
    then Z.lor mask (Z.shiftl 1 (Z.of_nat phase)) else mask) 0 (seq 0 3).

Definition background_dominant (s : MainsSignalSnapshot) : bool :=
  existsb (fun phase =>
    bit (mns_phase_valid_mask s) (Z.of_nat phase) &&
    (nth phase (mns_magnitude_microvolts s) 0 <? nth phase (mns_background_microvolts s) 0))
    (seq 0 3).

Definition decode_mains_signal_record (record : MeterRecord) : result MainsSignalSnapshot :=
  mains_header record ;;
  let s := mains_snapshot record in
  reject_if (mains_inconsistent s)
    (InvalidArgument "MAINS-SIGNAL-v1 provenance is inconsistent") ;;
  reject_if (negb (Bool.eqb (bit (mns_source_status s) 4) (any_bit (mns_status s) 1)) ||
             (bit (mns_source_status s) 3 && negb (bit (mns_status s) 2)))
    (InvalidArgument "MAINS-SIGNAL-v1 status provenance is inconsistent") ;;
  reject_if (negb (mns_detected_phase_mask s =? expected_detected s) ||
             negb (Bool.eqb (background_dominant s) (bit (mns_source_status s) 5)))
    (InvalidArgument "MAINS-SIGNAL-v1 detection result is inconsistent") ;;
  (if mns_detected_phase_mask s =? 0
   then reject_if (negb (mns_measured_millihz s =? mns_configured_millihz s))
          (InvalidArgument "MAINS-SIGNAL-v1 idle frequency is inconsistent")
   else
     let half_bandwidth := mns_bandwidth_millihz s / 2 in
     let lower := u32 (mns_configured_millihz s - half_bandwidth) in
     let upper := mns_configured_millihz s + half_bandwidth in
     reject_if ((mns_measured_millihz s <? lower) || (upper <? mns_measured_millihz s))
       (InvalidArgument "MAINS-SIGNAL-v1 measured frequency is out of band")) ;;
  forM_result (range 30 (meter_record_word_count - 1)) (fun w =>
    require (word record w =? 0)
      (InvalidArgument "MAINS-SIGNAL-v1 reserved word is nonzero")) ;;
  Ok s.

(** ** Lemmas *)

Lemma uuid_source_injective id1 id2 :
  fits 64 (eid_session id1) && fits 64 (eid_counter id1) = true ->
  fits 64 (eid_session id2) && fits 64 (eid_counter id2) = true ->
  uuid_source id1 = uuid_source id2 -> id1 = id2.
Proof.
  destruct id1 as [s1 c1], id2 as [s2 c2]. unfold uuid_source.
  cbn [eid_session eid_counter]. rewrite !andb_true_iff, !fits_iff.
  intros [Hs1 Hc1] [Hs2 Hc2] H. apply app_inj_1 in H as [Hs Hc]; [|by rewrite !le_bytes_length].
  f_equal; eapply (le_bytes_inj 8); eauto.
Qed.

(** The masks that stamp version and variant into the digest bytes. *)
Lemma version_nibble b : is_byte b ->
  is_byte (Z.lor (Z.land b 0x0f) 0x50) /\ Z.shiftr (Z.lor (Z.land b 0x0f) 0x50) 4 = 5.
Proof.
  intros Hb. split.
  - split; [apply Z.lor_nonneg; pose proof (land_le_mask b 15); lia|].
    pose proof (land_le_mask b 15 ltac:(lia)).
    assert (Z.land (Z.land b 15) 80 = 0) as Hz.
    { rewrite <- Z.land_assoc. apply Z.land_0_r. }
    rewrite <- Z.lxor_lor, <- Z.add_nocarry_lxor by exact Hz. lia.
  - rewrite Z.shiftr_lor, Z.shiftr_land. change (Z.shiftr 15 4) with 0.
    by rewrite Z.land_0_r.
Qed.

Lemma variant_bits b : is_byte b ->
  is_byte (Z.lor (Z.land b 0x3f) 0x80) /\ Z.shiftr (Z.lor (Z.land b 0x3f) 0x80) 6 = 2.
Proof.
  intros Hb. split.
  - split; [apply Z.lor_nonneg; pose proof (land_le_mask b 63); lia|].
    pose proof (land_le_mask b 63 ltac:(lia)).
    assert (Z.land (Z.land b 63) 128 = 0) as Hz.
    { rewrite <- Z.land_assoc. apply Z.land_0_r. }
    rewrite <- Z.lxor_lor, <- Z.add_nocarry_lxor by exact Hz. lia.
  - rewrite Z.shiftr_lor, Z.shiftr_land. change (Z.shiftr 63 6) with 0.
    by rewrite Z.land_0_r.
Qed.

(** ** Properties *)

(** The stable event identity is well formed and separates events.  With a hash
    that returns 32 bytes, the identity of an event is 16 bytes with version nibble 5
    and the RFC 4122 variant bits, every other byte is the digest's; and two 64-bit
    identities that hash the same sixteen source bytes are the same event, so distinct
    events can only share an identity through a hash collision. *)
Theorem event_uuid_rfc4122 (SHA256 : list Z -> option (list Z)) id uuid :
  (forall m d, SHA256 m = Some d -> length d = 32%nat /\ Forall is_byte d) ->
  fits 64 (eid_session id) && fits 64 (eid_counter id) = true ->
  stable_power_quality_event_uuid SHA256 id = Ok uuid ->
  length uuid = 16%nat /\ Forall is_byte uuid /\
  Z.shiftr (nth 6 uuid 0) 4 = 5 /\ Z.shiftr (nth 8 uuid 0) 6 = 2 /\
  (exists d, SHA256 (uuid_source id) = Some d /\
     forall i, (i < 16)%nat -> i <> 6%nat -> i <> 8%nat -> nth i uuid 0 = nth i d 0) /\
  (forall id', fits 64 (eid_session id') && fits 64 (eid_counter id') = true ->
     uuid_source id' = uuid_source id -> id' = id).
Proof.
  intros Hsha Hid H. unfold stable_power_quality_event_uuid in H.
  destruct (SHA256 (uuid_source id)) as [d|] eqn:E; [|discriminate].
  destruct (Hsha _ _ E) as [Hl Hd]. injection H as <-.
  do 17 (destruct d as [|? d]; [discriminate Hl|]).
  repeat match goal with H : Forall _ (_ :: _) |- _ =>
    let Hx := fresh "Hx" in apply Forall_cons_1 in H as [Hx H] end.
  cbn [take nth list_insert insert list_alter alter].
  match goal with |- context [Z.lor (Z.land ?b 0x0f) 0x50] =>
    destruct (version_nibble b ltac:(assumption)) as [Hb6 Hv] end.
  match goal with |- context [Z.lor (Z.land ?b 0x3f) 0x80] =>
    destruct (variant_bits b ltac:(assumption)) as [Hb8 Hw] end.
  split; [reflexivity|]. split; [by repeat (apply Forall_cons_2; [assumption|])|].
  split; [exact Hv|]. split; [exact Hw|]. split.
  - eexists. split; [reflexivity|]. intros i Hi H6 H8.
    do 16 (destruct i as [|i]; [try reflexivity; lia|]). lia.
  - intros id' Hid' Hs. by apply uuid_source_injective.
Qed.

Lemma event_uuid_rfc4122_witness :
  exists uuid,
    stable_power_quality_event_uuid (fun m => Some (le_bytes 32 (le_value m))) (mkEventId 9 4)
      = Ok uuid /\ length uuid = 16%nat /\ Z.shiftr (nth 6 uuid 0) 4 = 5.
Proof.
  eexists. split; [vm_compute; reflexivity|].
  destruct (event_uuid_rfc4122 (fun m => Some (le_bytes 32 (le_value m))) (mkEventId 9 4)
    [9; 0; 0; 0; 0; 0; 80; 0; 132; 0; 0; 0; 0; 0; 0; 0]) as (Hl & _ & Hv & _).
  - intros m d Hd. injection Hd as <-. split; [apply le_bytes_length|apply le_bytes_are_bytes].
  - reflexivity.
  - vm_compute. reflexivity.
  - split; [exact Hl|exact Hv].
Defined.

(** What a decoded PQ-EVENT-v1 snapshot promises to the history and the file links. *)
Record lifecycle_contract (r : MeterRecord) (s : PowerQualityEventLifecycleSnapshot) : Prop := {
  lco_id : eid_session (ls_id s) <> 0 /\ eid_counter (ls_id s) <> 0;
  lco_span : ls_first_sample s <= ls_trigger_sample s <= ls_last_sample s;
  lco_duration : ls_duration_samples s = ls_last_sample s - ls_first_sample s;
  lco_count : block_sample_count r = Z.min (ls_duration_samples s + 1) UINT32_MAX;
  lco_threshold : 0 <= ls_hysteresis_e4 s < ls_threshold_e4 s /\ ls_threshold_e4 s <= 0xffff;
  lco_phases : 1 <= ls_phase_mask s <= 7;
  lco_lanes : ls_valid_mask s =
    if voltage_event s then 16 * ls_phase_mask s else ls_phase_mask s;
  lco_taxonomy : ls_iec_classification s = true <->
    ls_type s ∈ [voltage_sag; voltage_swell; voltage_interruption; rapid_voltage_change;
                 transient_voltage];
  lco_extrema : forall phase, (phase < 3)%nat ->
    nth phase (ls_minimum_micro_units s) 0 <= nth phase (ls_current_micro_units s) 0 <=
    nth phase (ls_maximum_micro_units s) 0;
  lco_time : 0 <= ls_time_quality s <= 2 /\
    (ls_time_quality s = 0 <-> ls_start_utc_nanoseconds s = 0) /\
    ls_start_utc_nanoseconds s <= ls_last_utc_nanoseconds s;
  lco_digest : exists w, w ∈ ls_settings_digest s /\ w <> 0
}.

Lemma lifecycle_type_iec z :
  0 <= z <= 8 -> ((z <=? 3) || (z =? 8) = true <->
    lifecycle_type_of z ∈ [voltage_sag; voltage_swell; voltage_interruption;
                           rapid_voltage_change; transient_voltage]).
Proof.
  intros Hz. assert (z ∈ [0; 1; 2; 3; 4; 5; 6; 7; 8]) as Hin.
  { rewrite !elem_of_cons, elem_of_nil. lia. }
  repeat (apply elem_of_cons in Hin as [->|Hin];
    [rewrite !elem_of_cons, elem_of_nil; vm_compute; intuition congruence|]).
  by apply not_elem_of_nil in Hin.
Qed.

Lemma existsb_nonzero l : existsb (fun w => negb (w =? 0)) l = true -> exists w, w ∈ l /\ w <> 0.
Proof.
  intros (w & Hw & Hz)%existsb_exists. exists w. split; [by apply list_elem_of_In|lia].
Qed.

Lemma lifecycle_snapshot_ranges r :
  record_wf r ->
  0 <= ls_first_sample (lifecycle_snapshot r) < 2 ^ 64 /\
  0 <= ls_last_sample (lifecycle_snapshot r) < 2 ^ 64 /\
  0 <= ls_hysteresis_e4 (lifecycle_snapshot r) < 2 ^ 32 /\
  0 <= ls_time_quality (lifecycle_snapshot r) < 2 ^ 32 /\
  0 <= ls_start_utc_nanoseconds (lifecycle_snapshot r) < 2 ^ 64 /\
  0 <= ls_phase_mask (lifecycle_snapshot r) <= 7.
Proof.
  intros Hwf.
  do 2 (split; [by apply unsigned64_fits|]). do 2 (split; [by apply word_fits|]).
  split; [by apply unsigned64_fits|by apply land_le_mask].
Qed.

(** A decoded event-lifecycle record is a consistent event.  Its identity is
    nonzero, the trigger lies inside its sample span, the duration is the span (without
    wrap-around) and the record's sample count is that duration plus one, saturated at
    32 bits; the hysteresis is below the threshold; the validity lanes are the affected
    phases on the side (voltage or current) of the event type; the IEC flag says exactly
    whether the type belongs to IEC 61000-4-30; each phase's present value lies within its
    extrema; and UTC labels are present exactly when the time quality is not
    unsynchronised, in order. *)
Theorem lifecycle_decode_sound r s :
  record_wf r -> decode_pq_event_lifecycle_record r = Ok s -> lifecycle_contract r s.
Proof.
  intros Hwf H. unfold decode_pq_event_lifecycle_record, lifecycle_header in H. cbn zeta in H.
  inv_ok H. unfold lifecycle_inconsistent, time_inconsistent in *. bools.
  destruct (lifecycle_snapshot_ranges r Hwf) as (B1 & B2 & B3 & B4 & B5 & B6).
  pose proof (land_le_mask (Z.shiftr (word r 13) 4) 15 ltac:(lia)) as B7.
  match goal with H : ls_duration_samples _ = wrap 64 _ |- _ =>
    rewrite wrap_id in H by lia; rename H into Hd end.
  split; try done; try lia.
  - match goal with H : block_sample_count r = _ |- _ => rewrite H end.
    rewrite wrap_id by (unfold UINT32_MAX; case_match; unfold UINT64_MAX; lia).
    unfold UINT32_MAX, UINT64_MAX. destruct (Z.eqb_spec
      (ls_duration_samples (lifecycle_snapshot r)) 18446744073709551615); lia.
  - change (Z.land (Z.shiftr (word r 13) 8) 7) with (ls_phase_mask (lifecycle_snapshot r)) in *.
    lia.
  - match goal with H : ls_valid_mask _ = _ |- _ => rewrite H end.
    destruct (voltage_event _); [|reflexivity]. rewrite Z.shiftl_mul_pow2 by lia. lia.
  - match goal with H : eqb _ _ = true |- _ => apply eqb_prop in H as -> end.
    apply lifecycle_type_iec. lia.
  - match goal with H : forM_result (seq 0 3) _ = Ok _ |- _ =>
      apply forM_require_Ok in H; rename H into Hex end.
    intros phase Hp. rewrite forallb_forall in Hex. specialize (Hex phase).
    rewrite in_seq in Hex. specialize (Hex ltac:(lia)). unfold extrema_inconsistent in Hex.
    bools. lia.
  - by apply existsb_nonzero.
Qed.

Definition lifecycle_example : MeterRecord :=
  build_record
    [(0, meter_record_magic); (1, meter_pq_event_lifecycle_format); (2, meter_record_size);
     (3, 5); (4, 2); (5, 128000); (6, 6401); (7, 0x10); (8, 0x0a); (9, 1000);
     (13, 0x100); (14, 7400); (16, 11); (18, 3); (20, 2); (21, 9000); (22, 200);
     (23, 0x105); (26, 230000000); (28, 1000); (31, 230000); (34, 2000); (37, 6400);
     (39, 1000); (41, 77); (43, 99); (45, 1); (47, 1); (48, 1)].

Lemma lifecycle_decode_sound_witness :
  exists s, decode_pq_event_lifecycle_record lifecycle_example = Ok s /\
    lifecycle_contract lifecycle_example s.
Proof.
  eexists. split; [vm_compute; reflexivity|].
  apply lifecycle_decode_sound; [apply record_wfb_iff; vm_compute; reflexivity|].
  vm_compute. reflexivity.
Defined.

Lemma mask3_bit m : 1 <= m <= 7 -> exists i, (i < 3)%nat /\ bit m (Z.of_nat i) = true.
Proof.
  intros Hm. assert (m ∈ [1; 2; 3; 4; 5; 6; 7]) as Hin.
  { rewrite !elem_of_cons, elem_of_nil. lia. }
  repeat (apply elem_of_cons in Hin as [->|Hin];
    [first [exists 0%nat; split; [lia|reflexivity] | exists 1%nat; split; [lia|reflexivity]
           | exists 2%nat; split; [lia|reflexivity]]|]).
  by apply not_elem_of_nil in Hin.
Qed.

(** The maximum over the phases is attained by a phase with the full count. *)
Lemma max_of_phases (l : list Z) (full : Z) :
  0 <= full -> Forall (fun c => c <= full) l ->
  foldl Z.max 0 l <= full /\ (full ∈ l -> foldl Z.max 0 l = full).
Proof.
  intros Hf Hl. assert (forall a, a <= full -> foldl Z.max a l <= full /\
    a <= foldl Z.max a l /\ (full ∈ l -> foldl Z.max a l = full)) as Hgen.
  { induction Hl as [|c l Hc Hl IH]; intros a Ha; simpl.
    - split; [done|]. split; [lia|]. by intros ?%not_elem_of_nil.
    - destruct (IH (Z.max a c) ltac:(lia)) as (H1 & H2 & H3). split; [done|]. split; [lia|].
      intros [->|Hin]%elem_of_cons; [lia|by apply H3]. }
  destruct (Hgen 0 Hf) as (H1 & _ & H3). by split.
Qed.

Lemma words_at_nth r base count i :
  (i < count)%nat -> words_at r base count !! i = Some (word r (base + i)).
Proof.
  intros Hi. unfold words_at. rewrite list_lookup_fmap, lookup_seq_lt by done. done.
Qed.

Lemma forall3 (P : Z -> Prop) (l : list Z) :
  length l = 3%nat -> (forall i, (i < 3)%nat -> P (nth i l 0)) -> Forall P l.
Proof.
  intros Hl H. apply Forall_nth. intros i d Hi. rewrite (nth_indep _ _ 0) by done.
  apply H. lia.
Qed.

(** A nonempty span recomputed in 64 bits is exact. *)
Lemma span_exact first last span :
  0 <= first < 2 ^ 64 -> last < 2 ^ 64 -> first <= last -> 0 < span ->
  u64 (last - first + 1) = span -> last = first + span - 1.
Proof.
  intros Hf Hl Hle Hs H. destruct (Z.eq_dec (last - first + 1) (2 ^ 64)) as [E|].
  - rewrite E in H. vm_compute in H. lia.
  - rewrite wrap_id in H; lia.
Qed.

Lemma expected_seconds_pos k : 1 <= expected_seconds k <= 7200.
Proof. destruct k; simpl; lia. Qed.

(** The loop over the phases bounds the counts of the record. *)
Lemma flicker_counts (s : FlickerSnapshot) full :
  length (fs_valid_internal_samples s) = 3%nat -> 0 <= full ->
  (forall phase, In phase (seq 0 3) ->
     negb ((full <? nth phase (fs_valid_internal_samples s) 0) ||
           (bit (fs_phase_valid_mask s) (Z.of_nat phase) &&
            negb (nth phase (fs_valid_internal_samples s) 0 =? full))) = true) ->
  (forall phase, (phase < 3)%nat -> bit (fs_phase_valid_mask s) (Z.of_nat phase) = true ->
     nth phase (fs_valid_internal_samples s) 0 = full) /\
  foldl Z.max 0 (fs_valid_internal_samples s) <= full /\
  (1 <= fs_phase_valid_mask s <= 7 -> foldl Z.max 0 (fs_valid_internal_samples s) = full).
Proof.
  intros Hl Hf Hp.
  assert (forall phase, (phase < 3)%nat -> nth phase (fs_valid_internal_samples s) 0 <= full /\
    (bit (fs_phase_valid_mask s) (Z.of_nat phase) = true ->
     nth phase (fs_valid_internal_samples s) 0 = full)) as Hph.
  { intros phase Hlt. specialize (Hp phase). rewrite in_seq in Hp.
    specialize (Hp ltac:(lia)). bools. split; [lia|]. intros Hb. rewrite Hb in *. lia. }
  destruct (max_of_phases (fs_valid_internal_samples s) full Hf) as [Hmax Hatt].
  { apply forall3; [done|]. intros i Hi. by apply Hph. }
  split; [intros; by apply Hph|]. split; [done|].
  intros (i & Hi & Hb)%mask3_bit. apply Hatt, list_elem_of_In. rewrite <- (proj2 (Hph i Hi) Hb).
  apply nth_In. lia.
Qed.

(** A decoded flicker record describes exactly one observation interval.  Its
    sample range is [seconds * rate] consecutive samples for the kind's interval (1 s
    live, 600 s Pst, 7200 s Plt) at a rate that is a multiple of 2 kHz; a phase marked
    valid contributed every internal sample of the interval, and then the record's
    sample count is the whole range, otherwise never more than it; a live record carries
    no Pst or Plt value, a Pst record no Plt value, and a Plt record has a valid phase. *)
Theorem flicker_decode_sound r s :
  record_wf r -> decode_flicker_record r = Ok s ->
  let span := expected_seconds (fs_kind s) * fs_sample_rate_hz s in
  fs_last_sample s = fs_first_sample s + span - 1 /\
  fs_sample_rate_hz s mod 2000 = 0 /\ 2000 <= fs_sample_rate_hz s <= 128000 /\
  (forall phase, (phase < 3)%nat -> bit (fs_phase_valid_mask s) (Z.of_nat phase) = true ->
     nth phase (fs_valid_internal_samples s) 0 = expected_seconds (fs_kind s) * 2000) /\
  fs_sample_count s <= span /\
  (fs_phase_valid_mask s <> 0 -> fs_sample_count s = span) /\
  (fs_kind s = fk_live -> Forall (fun q => q = 0) (fs_pst_q16 s ++ fs_plt_q16 s)) /\
  (fs_kind s = fk_pst -> Forall (fun q => q = 0) (fs_plt_q16 s)) /\
  (fs_kind s = fk_plt -> fs_phase_valid_mask s <> 0).
Proof.
  intros Hwf H. unfold decode_flicker_record in H. cbn zeta in H.
  apply bind_Ok in H as (? & Hh & H). apply bind_Ok in H as (? & Hp & H).
  apply forM_require_Ok in Hp. rewrite forallb_forall in Hp.
  apply bind_Ok in H as (? & Hc & H). apply reject_if_Ok in Hc.
  apply bind_Ok in H as (? & _ & H). apply bind_Ok in H as (? & Hk & H).
  apply bind_Ok in H as (? & _ & H). injection H as <-.
  unfold flicker_inconsistent in Hc. unfold flicker_header in Hh. cbn zeta in Hc, Hh.
  inv_ok Hh. bools.
  set (s := flicker_snapshot r) in *. pose proof (expected_seconds_pos (fs_kind s)) as Hsec.
  change (sample_rate_hz r) with (fs_sample_rate_hz s) in *.
  destruct (flicker_counts s (expected_seconds (fs_kind s) * 2000)) as (Hv & Hmax & Hfull);
    [done|lia|exact Hp|].
  pose proof (Z.div_exact (fs_sample_rate_hz s) 2000 ltac:(lia)) as [_ Hdiv].
  specialize (Hdiv ltac:(assumption)).
  assert (0 <= fs_phase_valid_mask s <= 7) as Hmask by by apply land_le_mask.
  intros span. split; [|split; [done|split; [lia|split; [exact Hv|split; [|split]]]]].
  - apply span_exact; try done; [by apply unsigned64_fits| |lia].
    apply (unsigned64_fits r meter_flicker_last_sample_word Hwf).
  - unfold span. nia.
  - intros Hm. rewrite (Hfull ltac:(lia)) in *. unfold span. nia.
  - split; [|split]; intros Ek; rewrite Ek in Hk.
    + apply forM_require_Ok in Hk. rewrite forallb_forall in Hk.
      apply Forall_app. split; (apply forall3; [done|]); intros i Hi; specialize (Hk i);
        rewrite in_seq in Hk; specialize (Hk ltac:(lia)); bools; done.
    + apply forM_require_Ok in Hk. rewrite forallb_forall in Hk. apply Forall_forall.
      intros q Hq. specialize (Hk q Hq). by bools.
    + apply reject_if_Ok in Hk. by bools.
Qed.

Definition flicker_example : MeterRecord :=
  build_record
    [(0, meter_record_magic); (1, meter_flicker_format); (2, meter_record_size); (3, 5); (4, 2);
     (5, 128000); (6, 128000); (7, 0x10); (9, 1000); (13, 0x100); (14, 128999); (16, 77);
     (25, 2000); (26, 10); (28, 1); (29, 2); (30, 230 + 50 * 65536); (32, 1000)].

Lemma flicker_decode_sound_witness :
  exists s, decode_flicker_record flicker_example = Ok s /\ fs_sample_count s = 128000 /\
    fs_last_sample s = fs_first_sample s + 128000 - 1.
Proof.
  destruct (decode_flicker_record flicker_example) as [s|e] eqn:E;
    [|vm_compute in E; discriminate].
  destruct (flicker_decode_sound flicker_example s) as (Hspan & _ & _ & _ & _ & Hc & _);
    [apply record_wfb_iff; vm_compute; reflexivity|exact E|].
  exists s. split; [done|]. vm_compute in E. injection E as <-.
  split; [apply Hc; vm_compute; discriminate|exact Hspan].
Defined.

Definition phase_detects (s : MainsSignalSnapshot) (phase : nat) : bool :=
  bit (mns_phase_valid_mask s) (Z.of_nat phase) &&
  (threshold_microvolts s <=? nth phase (mns_magnitude_microvolts s) 0).

Lemma expected_detected_bit s phase :
  (phase < 3)%nat -> bit (expected_detected s) (Z.of_nat phase) = phase_detects s phase.
Proof.
  intros Hp. unfold expected_detected. cbn [seq foldl].
  fold (phase_detects s 0) (phase_detects s 1) (phase_detects s 2).
  destruct phase as [|[|[|phase]]]; [| | |lia];
    destruct (phase_detects s 0), (phase_detects s 1), (phase_detects s 2); reflexivity.
Qed.

(** The rounded-up threshold decides the exact comparison. *)
Lemma threshold_exact s m :
  0 <= mns_reference_microvolts s < 2 ^ 32 -> 0 <= mns_threshold_e4 s <= 0xffff ->
  threshold_microvolts s <= m <->
  mns_reference_microvolts s * mns_threshold_e4 s <= 10000 * m.
Proof.
  intros Hr Ht. unfold threshold_microvolts. rewrite wrap_id by nia.
  set (x := mns_reference_microvolts s * mns_threshold_e4 s).
  Z.to_euclidean_division_equations. lia.
Qed.

Lemma supported_rate_cases rate :
  supported_rate rate = true -> 2000 <= rate <= 128000 /\ rate mod 5 = 0.
Proof.
  unfold supported_rate. intros (x & Hx & E)%existsb_exists. apply Z.eqb_eq in E as ->.
  repeat destruct Hx as [<-|Hx]; [vm_compute; intuition congruence..|done].
Qed.

(** A decoded mains-signalling record reports detections exactly.  Its range is
    the 200 ms of samples at the record's rate, a phase is detected if and only if it is
    valid and its magnitude reaches the configured fraction of the reference voltage
    (in exact arithmetic: [reference * threshold <= 10000 * magnitude]), the observed
    band stays below the Nyquist frequency, and the measured frequency is the
    configured one when nothing is detected and within half the bandwidth of it
    otherwise. *)
Theorem mains_decode_sound r s :
  record_wf r -> decode_mains_signal_record r = Ok s ->
  mns_last_sample s = mns_first_sample s + mns_sample_rate_hz s / 5 - 1 /\
  mns_sample_count s = mns_sample_rate_hz s / 5 /\
  (forall phase, (phase < 3)%nat ->
     bit (mns_detected_phase_mask s) (Z.of_nat phase) = true <->
     bit (mns_phase_valid_mask s) (Z.of_nat phase) = true /\
     mns_reference_microvolts s * mns_threshold_e4 s <=
       10000 * nth phase (mns_magnitude_microvolts s) 0) /\
  mns_configured_millihz s + mns_bandwidth_millihz s < mns_sample_rate_hz s * 500 /\
  (mns_detected_phase_mask s = 0 -> mns_measured_millihz s = mns_configured_millihz s) /\
  2 * Z.abs (mns_measured_millihz s - mns_configured_millihz s) <= mns_bandwidth_millihz s.
Proof.
  intros Hwf H. unfold decode_mains_signal_record in H. cbn zeta in H.
  apply bind_Ok in H as (? & Hh & H). apply bind_Ok in H as (? & Hc & H).
  apply bind_Ok in H as (? & _ & H). apply bind_Ok in H as (? & Hd & H).
  apply bind_Ok in H as (? & Hband & H). apply bind_Ok in H as (? & _ & H). injection H as <-.
  apply reject_if_Ok in Hc, Hd. unfold mains_inconsistent in Hc. unfold mains_header in Hh.
  cbn zeta in Hc, Hh. inv_ok Hh. bools. set (s := mains_snapshot r) in *.
  change (sample_rate_hz r) with (mns_sample_rate_hz s) in *.
  destruct (supported_rate_cases (mns_sample_rate_hz s)) as [Hrate Hmod]; [assumption|].
  assert (0 <= mns_reference_microvolts s < 2 ^ 32) as B1 by (by apply word_fits).
  assert (0 <= mns_threshold_e4 s < 2 ^ 32) as B2 by (by apply word_fits).
  assert (0 <= mns_bandwidth_millihz s < 2 ^ 32) as B3 by (by apply word_fits).
  assert (0 <= mns_configured_millihz s < 2 ^ 32) as B4 by (by apply word_fits).
  split; [|split; [done|split; [|split; [lia|]]]].
  - apply span_exact; try done; [by apply unsigned64_fits| |].
    + apply (unsigned64_fits r meter_mains_last_sample_word Hwf).
    + Z.to_euclidean_division_equations; lia.
  - intros phase Hp. match goal with H : mns_detected_phase_mask s = _ |- _ => rewrite H end.
    rewrite expected_detected_bit by done. unfold phase_detects.
    rewrite andb_true_iff, Z.leb_le, threshold_exact by lia. done.
  - destruct (Z.eqb_spec (mns_detected_phase_mask s) 0); apply reject_if_Ok in Hband; bools.
    + split; [done|lia].
    + split; [done|]. match goal with H : wrap 32 ?x <= _ |- _ =>
        rewrite (wrap_id 32 x) in H by (Z.to_euclidean_division_equations; lia) end.
      Z.to_euclidean_division_equations; lia.
Qed.

Definition mains_example : MeterRecord :=
  build_record
    [(0, meter_record_magic); (1, meter_mains_signal_format); (2, meter_record_size); (3, 5);
     (4, 2); (5, 128000); (6, 25600); (7, 0x30); (9, 1000); (13, 0x103); (14, 26599);
     (16, 183300); (17, 183310); (18, 6900000); (19, 6899999); (24, 40); (25, 200); (26, 2);
     (27, 1); (28, 300); (29, 230000000)].

Lemma mains_decode_sound_witness :
  exists s, decode_mains_signal_record mains_example = Ok s /\
    bit (mns_detected_phase_mask s) 0 = true /\ bit (mns_detected_phase_mask s) 1 <> true.
Proof.
  destruct (decode_mains_signal_record mains_example) as [s|e] eqn:E;
    [|vm_compute in E; discriminate].
  destruct (mains_decode_sound mains_example s) as (_ & _ & Hd & _);
    [apply record_wfb_iff; vm_compute; reflexivity|exact E|].
  exists s. split; [done|]. vm_compute in E. injection E as <-. split.
  - apply (Hd 0%nat); [lia|]. vm_compute. split; [done|discriminate].
  - intros [_ Hm]%(Hd 1%nat ltac:(lia)). vm_compute in Hm. by apply Hm.
Defined.
