(* ===== verification/HarmonicSpectrum.v ===== *)
(** * Harmonic spectra

    Models [common/msap1/meter/harmonic_spectrum.{hpp,cpp}]: the decoder of one HARMONIC
    record (a chunk of the orders of one channel) and the assembler that publishes a
    spectrum only when the 42 chunks of its family have arrived.  The fields that a chunk
    and a spectrum share, and that [same_family] compares, are grouped in
    [HarmonicProvenance].  The root of the sum of squares in the distortion is a parameter. *)
From stdpp Require Import base list.
From S2P Require Import Prelude MeterTiming RecordFormat MeterRecord.

Definition harmonic_channel_count : Z := 7.
Definition harmonic_max_order : Z := 127.
Definition harmonic_orders_per_record : Z := 24.
Definition harmonic_aggregate_orders_per_record : Z := 23.
Definition harmonic_chunks_per_channel : Z := 6.
Definition harmonic_records_per_family : Z := harmonic_channel_count * harmonic_chunks_per_channel.

Record HarmonicPoint := mkHarmonicPoint {
  hpt_order : Z;
  hpt_magnitude : Z;
  hpt_angle : Z;
  hpt_magnitude_valid : bool;
  hpt_angle_valid : bool }.

Definition no_point : HarmonicPoint := mkHarmonicPoint 0 0 0 false false.

(** The members [HarmonicRecordChunk] and [HarmonicSpectrumSnapshot] have in common. *)
Record HarmonicProvenance := mkHarmonicProvenance {
  hv_period : MeasurementPeriod;
  hv_sequence : Z;
  hv_configuration_generation : Z;
  hv_sample_rate_hz : Z;
  hv_sample_count : Z;
  hv_valid_mask : Z;
  hv_status : Z;
  hv_first_sample : Z;
  hv_emit_drops : Z;
  hv_result_drops : Z;
  hv_target_sample : Z;
  hv_contributors : Z;
  hv_overshoot_samples : Z;
  hv_time_aligned : bool;
  hv_contaminated : bool;
  hv_first_source_sequence : Z;
  hv_last_source_sequence : Z;
  hv_measured_frequency_millihz : Z;
  hv_qualified_max_order : Z;
  hv_nominal_frequency_hz : Z;
  hv_cycle_count : Z;
  hv_filter_profile_id : Z }.

#[export] Instance HarmonicProvenance_eq_dec : EqDecision HarmonicProvenance.
Proof. solve_decision. Defined.

Record HarmonicRecordChunk := mkChunk {
  hc_provenance : HarmonicProvenance;
  hc_channel : Z;
  hc_chunk : Z;
  hc_first_order : Z;
  hc_order_count : Z;
  hc_chunk_count : Z;
  hc_max_order : Z;
  hc_entries : list HarmonicPoint }.

Record HarmonicSpectrumSnapshot := mkSpectrum {
  hs_provenance : HarmonicProvenance;
  hs_channels : list (list HarmonicPoint) }.

Definition hc_sequence (c : HarmonicRecordChunk) : Z := hv_sequence (hc_provenance c).
Definition hs_sequence (s : HarmonicSpectrumSnapshot) : Z := hv_sequence (hs_provenance s).

(** ** Decoder *)
Definition magnitude_mask : Z := 2 ^ 40 - 1.
Definition angle_mask : Z := 2 ^ 20 - 1.
Definition harmonic_known_status : Z := 0xff.

Definition orders_per_record (period : MeasurementPeriod) : Z :=
  if bool_decide (period = Basic) then harmonic_orders_per_record
  else harmonic_aggregate_orders_per_record.

Definition expected_order_count (chunk : Z) (period : MeasurementPeriod) : Z :=
  let per_record := orders_per_record period in
  let first := chunk * per_record + 1 in
  u8 (Z.min per_record (harmonic_max_order - first + 1)).

(** The period selector of HARMONIC-AGG. *)
Definition harmonic_period_of (code : Z) : MeasurementPeriod :=
  if code =? 1 then Cycles150_180 else if code =? 2 then Min10 else Hour2.

(** The fields read from the shape word of HARMONIC-AGG, in the order of their assignment:
    period, target, contributors, overshoot, alignment, contamination, source sequences. *)
Definition harmonic_shape (record : MeterRecord)
  : result (MeasurementPeriod * Z * Z * Z * bool * bool * Z * Z) :=
  if record_format record =? meter_harmonic_aggregate_format then
    let shape := word record 14 in
    let period := Z.land shape 0x3 in
    reject_if ((period <? 1) || (3 <? period)) (InvalidArgument "harmonic aggregate period is malformed") ;;
    let contributors := u16 (Z.land (Z.shiftr shape 2) 0xfff) in
    let overshoot := u16 (Z.land (Z.shiftr shape 14) 0xffff) in
    let time_aligned := bit shape 30 in
    let contaminated := bit shape 31 in
    reject_if ((contributors =? 0) || negb time_aligned ||
               negb (Bool.eqb (any_bit (status record) 0x4) time_aligned) ||
               Bool.eqb (any_bit (status record) 0x8) contaminated)
      (InvalidArgument "harmonic aggregate provenance is malformed") ;;
    Ok (harmonic_period_of period, unsigned64 record 11, contributors, overshoot, time_aligned,
        contaminated, word record 62, word record 63)
  else Ok (Basic, 0, 0, 0, false, false, 0, 0).

(** One turn of the loop over the entries. *)
Definition harmonic_entry (record : MeterRecord) (first_order order_count qualified_max_order valid_mask channel : Z)
    (index : nat) : result HarmonicPoint :=
  let packed := unsigned64 record (16 + index * 2)%nat in
  if order_count <=? Z.of_nat index then
    reject_if (negb (packed =? 0)) (InvalidArgument "harmonic record has nonzero padding entries") ;;
    Ok no_point
  else
    reject_if (negb (Z.shiftr packed 62 =? 0)) (InvalidArgument "harmonic entry uses reserved bits") ;;
    let order := u8 (first_order + Z.of_nat index) in
    let magnitude := Z.land packed magnitude_mask in
    let angle := u32 (Z.land (Z.shiftr packed 40) angle_mask) in
    let magnitude_valid := bit packed 60 in
    let angle_valid := bit packed 61 in
    reject_if ((negb magnitude_valid && negb (magnitude =? 0)) ||
               (negb angle_valid && negb (angle =? 0)) ||
               (angle_valid && (negb magnitude_valid || (360000 <=? angle))) ||
               ((qualified_max_order <? order) && (magnitude_valid || angle_valid)) ||
               (negb (bit valid_mask channel) && (magnitude_valid || angle_valid)))
      (InvalidArgument "harmonic entry validity is malformed") ;;
    Ok (mkHarmonicPoint order magnitude angle magnitude_valid angle_valid).

Definition decode_harmonic_record (record : MeterRecord) : result HarmonicRecordChunk :=
  require (header_valid record &&
           ((record_format record =? meter_harmonic_format) ||
            (record_format record =? meter_harmonic_aggregate_format)))
    (InvalidArgument "invalid harmonic record header") ;;
  reject_if ((sample_rate_hz record =? 0) || (block_sample_count record =? 0))
    (InvalidArgument "harmonic record has an empty sample span") ;;
  reject_if (any_bit (word record 7) (not32 0x7f)) (InvalidArgument "harmonic record has an invalid lane mask") ;;
  reject_if (any_bit (status record) (not32 harmonic_known_status) || negb (any_bit (status record) 0x2))
    (InvalidArgument "harmonic record status is malformed") ;;
  shape ← harmonic_shape record;
  let '(period, target_sample, contributors, overshoot, time_aligned, contaminated, first_source, last_source) := shape in
  let basic := bool_decide (period = Basic) in
  let header := word record 13 in
  let channel := u8 (Z.land header 0x7) in
  let chunk := u8 (Z.land (Z.shiftr header 3) 0xf) in
  let first_order := u8 (Z.land (Z.shiftr header 7) 0xff) in
  let order_count := u8 (Z.land (Z.shiftr header 15) 0x1f) in
  let chunk_count := u8 (Z.land (Z.shiftr header 20) 0xf) in
  let max_order := u8 (Z.shiftr header 24) in
  reject_if ((harmonic_channel_count <=? channel) || (harmonic_chunks_per_channel <=? chunk) ||
             negb (chunk_count =? harmonic_chunks_per_channel) || negb (max_order =? harmonic_max_order) ||
             negb (first_order =? chunk * orders_per_record period + 1) ||
             negb (order_count =? expected_order_count chunk period))
    (InvalidArgument "harmonic record chunk geometry is malformed") ;;
  let measured_frequency := if basic then word record 14 else 0 in
  let metadata := word record 15 in
  let qualified_max_order := u8 metadata in
  let nominal_frequency_hz := u8 (Z.shiftr metadata 8) in
  let cycle_count := u8 (Z.shiftr metadata 16) in
  let filter_profile_id := u8 (Z.shiftr metadata 24) in
  reject_if ((harmonic_max_order <? qualified_max_order) ||
             negb (((nominal_frequency_hz =? 50) && (cycle_count =? 10)) ||
                   ((nominal_frequency_hz =? 60) && (cycle_count =? 12))))
    (InvalidArgument "harmonic record metadata is malformed") ;;
  reject_if (negb (Bool.eqb (any_bit (status record) 0x20) (qualified_max_order =? harmonic_max_order)))
    (InvalidArgument "harmonic full-range status disagrees with metadata") ;;
  reject_if ((qualified_max_order <? harmonic_max_order) && negb (any_bit (status record) 0x80))
    (InvalidArgument "limited harmonic range lacks rate-limit status") ;;
  reject_if (basic && any_bit (status record) 0x4 && (measured_frequency =? 0))
    (InvalidArgument "grid-locked harmonic record has zero frequency") ;;
  entries ← mapM_result
    (harmonic_entry record first_order order_count qualified_max_order (valid_mask record) channel)
    (seq 0 (Z.to_nat (orders_per_record period)));
  Ok (mkChunk
        (mkHarmonicProvenance period (sequence record) (configuration_generation record)
           (sample_rate_hz record) (block_sample_count record) (valid_mask record) (status record)
           (first_sample_index record) (if basic then emit_drops record else 0)
           (if basic then result_drops record else 0) target_sample contributors overshoot time_aligned
           contaminated first_source last_source measured_frequency qualified_max_order
           nominal_frequency_hz cycle_count filter_profile_id)
        channel chunk first_order order_count chunk_count max_order entries).

(** ** Assembler *)

Definition empty_channel : list HarmonicPoint :=
  map (fun index => mkHarmonicPoint (u8 (Z.of_nat index + 1)) 0 0 false false)
    (seq 0 (Z.to_nat harmonic_max_order)).

Definition snapshot_from (chunk : HarmonicRecordChunk) : HarmonicSpectrumSnapshot :=
  mkSpectrum (hc_provenance chunk) (replicate (Z.to_nat harmonic_channel_count) empty_channel).

Definition same_family (family : HarmonicSpectrumSnapshot) (chunk : HarmonicRecordChunk) : bool :=
  bool_decide (hs_provenance family = hc_provenance chunk).

Definition forward_of (candidate baseline : Z) : bool :=
  let distance := u32 (candidate - baseline) in
  negb (distance =? 0) && (distance <? 2 ^ 31).

Record HarmonicAssemblyUpdate := mkHarmonicUpdate {
  hu_incomplete_families : Z;
  hu_completed : option HarmonicSpectrumSnapshot }.

Record PartialFamily := mkPartial {
  pf_snapshot : HarmonicSpectrumSnapshot;
  pf_received : list bool;
  pf_received_count : Z }.

Record HarmonicFamilyAssembler := mkHarmonicAssembler {
  ha_partial : option PartialFamily;
  ha_last_completed_sequence : option Z }.

Definition harmonic_assembler_reset : HarmonicFamilyAssembler := mkHarmonicAssembler None None.

Definition record_index (chunk : HarmonicRecordChunk) : Z :=
  hc_channel chunk * harmonic_chunks_per_channel + hc_chunk chunk.

(** The loop that copies the entries of a chunk; an index outside the arrays is undefined. *)
Definition store_chunk (channels : list (list HarmonicPoint)) (chunk : HarmonicRecordChunk)
  : result (list (list HarmonicPoint)) :=
  match channels !! Z.to_nat (hc_channel chunk) with
  | None => Throw (UndefinedBehaviour "harmonic channel index")
  | Some points =>
      require ((1 <=? hc_first_order chunk) &&
               (hc_first_order chunk - 1 + hc_order_count chunk <=? Z.of_nat (length points)) &&
               (hc_order_count chunk <=? Z.of_nat (length (hc_entries chunk))))
        (UndefinedBehaviour "harmonic order index") ;;
      Ok (<[Z.to_nat (hc_channel chunk) :=
             list_inserts (Z.to_nat (hc_first_order chunk - 1))
               (take (Z.to_nat (hc_order_count chunk)) (hc_entries chunk)) points]> channels)
  end.

(** The family the chunk belongs to: the partial one, or a new one after the families the
    sequence skipped, whose number is returned. *)
Definition harmonic_family (a : HarmonicFamilyAssembler) (chunk : HarmonicRecordChunk)
  : result (Z * PartialFamily) :=
  let stale := InvalidArgument "stale harmonic family sequence" in
  let fresh := mkPartial (snapshot_from chunk) (replicate (Z.to_nat harmonic_records_per_family) false) 0 in
  match ha_partial a with
  | Some partial =>
      let held := hs_sequence (pf_snapshot partial) in
      if hc_sequence chunk =? held then Ok (0, partial)
      else
        require (forward_of (hc_sequence chunk) held) stale ;;
        Ok (u32 (hc_sequence chunk - held), fresh)
  | None =>
      match ha_last_completed_sequence a with
      | None => Ok (0, fresh)
      | Some last =>
          require (forward_of (hc_sequence chunk) last) stale ;;
          Ok (u32 (hc_sequence chunk - u32 (last + 1)), fresh)
      end
  end.

(** [HarmonicFamilyAssembler::accept]; the state is returned beside the result because the
    members keep what was assigned before an exception. *)
Definition harmonic_accept (a : HarmonicFamilyAssembler) (chunk : HarmonicRecordChunk)
  : HarmonicFamilyAssembler * result HarmonicAssemblyUpdate :=
  match harmonic_family a chunk with
  | Throw e => (a, Throw e)
  | Ok (incomplete, partial) =>
      let held := mkHarmonicAssembler (Some partial) (ha_last_completed_sequence a) in
      if negb (same_family (pf_snapshot partial) chunk)
      then (held, Throw (InvalidArgument "harmonic family provenance mismatch"))
      else
        match pf_received partial !! Z.to_nat (record_index chunk) with
        | None => (held, Throw (UndefinedBehaviour "harmonic record index"))
        | Some true => (held, Throw (InvalidArgument "duplicate harmonic family chunk"))
        | Some false =>
            match store_chunk (hs_channels (pf_snapshot partial)) chunk with
            | Throw e => (held, Throw e)
            | Ok channels =>
                let snapshot := mkSpectrum (hs_provenance (pf_snapshot partial)) channels in
                let count := pf_received_count partial + 1 in
                if count =? harmonic_records_per_family
                then (mkHarmonicAssembler None (Some (hc_sequence chunk)),
                      Ok (mkHarmonicUpdate incomplete (Some snapshot)))
                else (mkHarmonicAssembler
                        (Some (mkPartial snapshot
                                 (<[Z.to_nat (record_index chunk) := true]> (pf_received partial)) count))
                        (ha_last_completed_sequence a),
                      Ok (mkHarmonicUpdate incomplete None))
            end
        end
  end.

(** ** Distortion *)
Inductive HarmonicDistortionStatus :=
  | thd_valid | thd_interval_invalid | thd_channel_unavailable | thd_fundamental_unavailable
  | thd_insufficient_order_range | thd_harmonic_unavailable.

Definition aggregate_family (s : HarmonicSpectrumSnapshot) : bool :=
  negb (bool_decide (hv_period (hs_provenance s) = Basic)).

Definition interval_valid (s : HarmonicSpectrumSnapshot) : bool :=
  if aggregate_family s then any_bit (hv_status (hs_provenance s)) 0x8
  else any_bit (hv_status (hs_provenance s)) 0x8 && any_bit (hv_status (hs_provenance s)) 0x10.

(** The percentage is computed by [percent] from the magnitudes of the orders 2 to 50 and of
    the fundamental. *)
Definition harmonic_distortion {D : Type} (percent : list Z -> Z -> D) (s : HarmonicSpectrumSnapshot) (channel : nat)
  : HarmonicDistortionStatus * option D :=
  let v := hs_provenance s in
  if negb (interval_valid s) || (aggregate_family s && (negb (hv_time_aligned v) || hv_contaminated v))
  then (thd_interval_invalid, None)
  else match hs_channels s !! channel with
  | None => (thd_channel_unavailable, None)
  | Some points =>
      if negb (bit (hv_valid_mask v) (Z.of_nat channel)) then (thd_channel_unavailable, None)
      else
        let fundamental := nth 0 points no_point in
        if negb (hpt_magnitude_valid fundamental) || (hpt_magnitude fundamental =? 0)
        then (thd_fundamental_unavailable, None)
        else if hv_qualified_max_order v <? 50 then (thd_insufficient_order_range, None)
        else
          let harmonics := take 49 (drop 1 points) in
          if negb (forallb hpt_magnitude_valid harmonics) then (thd_harmonic_unavailable, None)
          else (thd_valid, Some (percent (map hpt_magnitude harmonics) (hpt_magnitude fundamental)))
  end.

(** ** Geometry of the chunks *)
Record chunk_ok (c : HarmonicRecordChunk) : Prop := {
  ck_channel : 0 <= hc_channel c < harmonic_channel_count;
  ck_chunk : 0 <= hc_chunk c < harmonic_chunks_per_channel;
  ck_first : hc_first_order c = hc_chunk c * orders_per_record (hv_period (hc_provenance c)) + 1;
  ck_count : hc_order_count c = expected_order_count (hc_chunk c) (hv_period (hc_provenance c));
  ck_entries : Z.of_nat (length (hc_entries c)) = orders_per_record (hv_period (hc_provenance c));
  ck_sequence : 0 <= hc_sequence c < 2 ^ 32 }.

Lemma mapM_result_length {A B} (f : A -> result B) l ys : mapM_result f l = Ok ys -> length ys = length l.
Proof.
  revert ys. induction l as [|x l IH]; simpl; intros ys H; [by apply Ok_inj in H as <-|].
  apply bind_Ok in H as (y & _ & H). apply bind_Ok in H as (zs & Hz & H). apply Ok_inj in H as <-.
  simpl. f_equal. by apply IH.
Qed.

Lemma u8_nonneg z : 0 <= u8 z.
Proof. apply (wrap_range 8 z). lia. Qed.

Lemma decode_harmonic_ok r c : record_wf r -> decode_harmonic_record r = Ok c -> chunk_ok c.
Proof.
  intros Hwf H. unfold decode_harmonic_record in H. do 4 apply bind_Ok in H as (_ & _ & H).
  apply bind_Ok in H as (shape & _ & H).
  destruct shape as [[[[[[[period target] contributors] overshoot] aligned] contaminated] first_source] last_source].
  cbv zeta in H. apply bind_Ok in H as (_ & Hgeo%reject_if_Ok & H). do 4 apply bind_Ok in H as (_ & _ & H).
  apply bind_Ok in H as (entries & Hentries%mapM_result_length & H). rewrite length_seq in Hentries.
  repeat (apply orb_false_iff in Hgeo as [Hgeo ?]). apply Ok_inj in H as <-.
  rewrite ?negb_false_iff, ?Z.eqb_eq, ?Z.leb_gt in *.
  split; simpl; try done; try (split; [apply u8_nonneg|done]).
  - rewrite Hentries. apply Z2Nat.id. by destruct period.
  - exact (word_fits r 3 Hwf).
Qed.

(** Where a chunk lies in its channel. *)
Lemma chunk_span c :
  chunk_ok c ->
  1 <= hc_first_order c /\ 0 < hc_order_count c <= Z.of_nat (length (hc_entries c)) /\
  hc_first_order c - 1 + hc_order_count c <= harmonic_max_order.
Proof.
  intros H. rewrite (ck_entries c H), (ck_count c H), (ck_first c H). pose proof (ck_chunk c H) as Hc.
  unfold expected_order_count, harmonic_chunks_per_channel, harmonic_max_order in *.
  assert (Hp : orders_per_record (hv_period (hc_provenance c)) = 24 \/ orders_per_record (hv_period (hc_provenance c)) = 23)
    by (unfold orders_per_record; case_bool_decide; [by left|by right]).
  destruct Hp as [-> | ->]; (rewrite (wrap_id 8 : forall z, _ -> u8 z = z) by lia); lia.
Qed.

(** The chunks of a channel partition its orders. *)
Lemma chunk_of_order period order :
  1 <= order <= harmonic_max_order ->
  exists k, 0 <= k < harmonic_chunks_per_channel /\
    k * orders_per_record period + 1 <= order < k * orders_per_record period + 1 + expected_order_count k period.
Proof.
  intros Ho. set (n := orders_per_record period).
  assert (Hn : n = 24 \/ n = 23) by (unfold n, orders_per_record; case_bool_decide; [by left|by right]).
  exists ((order - 1) / n). unfold expected_order_count, harmonic_chunks_per_channel, harmonic_max_order in *. fold n.
  pose proof (Z.div_mod (order - 1) n ltac:(lia)). pose proof (Z.mod_pos_bound (order - 1) n ltac:(lia)).
  assert (0 <= (order - 1) / n < 6) by (split; [apply Z.div_pos; lia|apply Z.div_lt_upper_bound; lia]).
  split; [lia|]. destruct Hn as [Hn|Hn]; rewrite Hn in *; (rewrite (wrap_id 8 : forall z, _ -> u8 z = z) by lia); lia.
Qed.

Lemma record_index_range c : chunk_ok c -> 0 <= record_index c < harmonic_records_per_family.
Proof.
  intros [H1 H2]. unfold record_index, harmonic_records_per_family, harmonic_channel_count, harmonic_chunks_per_channel in *. lia.
Qed.

Lemma record_index_inj c d :
  chunk_ok c -> chunk_ok d -> record_index c = record_index d -> hc_channel c = hc_channel d /\ hc_chunk c = hc_chunk d.
Proof.
  intros [H1 H2] [H3 H4]. unfold record_index, harmonic_channel_count, harmonic_chunks_per_channel in *. lia.
Qed.

(** ** Storing a chunk *)
Definition spectrum_point (channels : list (list HarmonicPoint)) (channel order : Z) : option HarmonicPoint :=
  channels !! Z.to_nat channel ≫= fun points => points !! Z.to_nat (order - 1).

Definition carries (channels : list (list HarmonicPoint)) (c : HarmonicRecordChunk) : Prop :=
  forall i, (i < Z.to_nat (hc_order_count c))%nat ->
    spectrum_point channels (hc_channel c) (hc_first_order c + Z.of_nat i) = hc_entries c !! i.

Definition spectrum_shape (channels : list (list HarmonicPoint)) : Prop :=
  length channels = Z.to_nat harmonic_channel_count /\
  Forall (fun points => length points = Z.to_nat harmonic_max_order) channels.

(** Two chunks of one period that are not the same cover different orders of a channel. *)
Lemma chunks_disjoint c d i j :
  chunk_ok c -> chunk_ok d -> hv_period (hc_provenance c) = hv_period (hc_provenance d) ->
  hc_chunk c <> hc_chunk d ->
  0 <= i < hc_order_count c -> 0 <= j < hc_order_count d ->
  hc_first_order c + i <> hc_first_order d + j.
Proof.
  intros Hc Hd Hp Hne Hi Hj. pose proof (chunk_span c Hc) as (_ & Hic & _). pose proof (chunk_span d Hd) as (_ & Hjd & _).
  rewrite (ck_entries c Hc) in Hic. rewrite (ck_entries d Hd) in Hjd.
  rewrite (ck_first c Hc), (ck_first d Hd), <- Hp in *. set (n := orders_per_record (hv_period (hc_provenance c))) in *. nia.
Qed.

Lemma store_chunk_spec channels c :
  spectrum_shape channels -> chunk_ok c ->
  exists channels', store_chunk channels c = Ok channels' /\ spectrum_shape channels' /\ carries channels' c /\
    (forall d, chunk_ok d -> hv_period (hc_provenance c) = hv_period (hc_provenance d) ->
       record_index d <> record_index c -> carries channels d -> carries channels' d).
Proof.
  intros [Hlen Hall] Hc. pose proof (chunk_span c Hc) as (Hf & Hn & Hspan). pose proof (ck_channel c Hc) as Hch.
  unfold harmonic_channel_count, harmonic_max_order in *.
  destruct (lookup_lt_is_Some_2 channels (Z.to_nat (hc_channel c))) as [points Hpoints]; [lia|].
  pose proof (proj1 (Forall_lookup _ _) Hall _ _ Hpoints) as Hlp. simpl in Hlp.
  unfold store_chunk. rewrite Hpoints, Hlp.
  rewrite (proj2 (Z.leb_le 1 _)), (proj2 (Z.leb_le _ (Z.of_nat (Z.to_nat 127)))), (proj2 (Z.leb_le (hc_order_count c) _)) by lia.
  cbn [andb require mbind result_bind]. eexists; split; [reflexivity|].
  set (stored := take (Z.to_nat (hc_order_count c)) (hc_entries c)).
  assert (Hstored : length stored = Z.to_nat (hc_order_count c)) by (unfold stored; rewrite length_take; lia).
  split_and!.
  - split; [by rewrite length_insert|]. apply Forall_insert; [done|]. by rewrite length_inserts.
  - intros i Hi. unfold spectrum_point. rewrite list_lookup_insert_eq by lia. cbn [mbind option_bind].
    rewrite list_lookup_inserts by lia. unfold stored. rewrite lookup_take_lt by lia. f_equal. lia.
  - intros d Hd Hp Hne Hdc i Hi. specialize (Hdc i Hi). unfold spectrum_point in *.
    pose proof (chunk_span d Hd) as (Hfd & Hnd & _). pose proof (ck_channel d Hd).
    destruct (decide (hc_channel d = hc_channel c)) as [Heq|Hch'].
    + rewrite Heq in *. rewrite list_lookup_insert_eq by lia. rewrite Hpoints in Hdc. cbn [mbind option_bind] in *.
      assert (Hk : hc_chunk c <> hc_chunk d) by (intros E; apply Hne; unfold record_index; lia).
      assert (Hd1 : forall j, 0 <= j < hc_order_count c -> hc_first_order c + j <> hc_first_order d + Z.of_nat i)
        by (intros j Hj; apply chunks_disjoint; auto; lia).
      destruct (decide (hc_first_order d + Z.of_nat i < hc_first_order c)).
      * by rewrite list_lookup_inserts_lt by lia.
      * rewrite list_lookup_inserts_ge; [done|]. rewrite Hstored.
        specialize (Hd1 (hc_first_order d + Z.of_nat i - hc_first_order c)). lia.
    + by rewrite list_lookup_insert_ne by lia.
Qed.

(** ** Families *)

(** A partial family holds exactly these chunks. *)
Record family_of (family : list HarmonicRecordChunk) (p : PartialFamily) : Prop := {
  fo_shape : spectrum_shape (hs_channels (pf_snapshot p));
  fo_length : length (pf_received p) = Z.to_nat harmonic_records_per_family;
  fo_received : forall i, (i < Z.to_nat harmonic_records_per_family)%nat ->
    pf_received p !! i = Some (bool_decide (Z.of_nat i ∈ map record_index family));
  fo_nodup : NoDup (map record_index family);
  fo_count : pf_received_count p = Z.of_nat (length family);
  fo_chunks : forall c, c ∈ family ->
    chunk_ok c /\ hc_provenance c = hs_provenance (pf_snapshot p) /\ carries (hs_channels (pf_snapshot p)) c }.

Definition held_ok (history : list HarmonicRecordChunk) (a : HarmonicFamilyAssembler) : Prop :=
  forall p, ha_partial a = Some p ->
    exists family, family_of family p /\ (forall c, c ∈ family -> c ∈ history) /\
      Z.of_nat (length family) < harmonic_records_per_family.

Definition fresh_family (c : HarmonicRecordChunk) : PartialFamily :=
  mkPartial (snapshot_from c) (replicate (Z.to_nat harmonic_records_per_family) false) 0.

Lemma fresh_family_of c : family_of [] (fresh_family c).
Proof.
  split; [|done| |constructor|done|by intros c' ?%not_elem_of_nil].
  - split; [done|]. apply Forall_replicate. done.
  - intros i Hi. unfold fresh_family, pf_received. by rewrite lookup_replicate_2.
Qed.

Lemma family_add family p c :
  family_of family p -> chunk_ok c -> hc_provenance c = hs_provenance (pf_snapshot p) ->
  record_index c ∉ map record_index family ->
  exists channels, store_chunk (hs_channels (pf_snapshot p)) c = Ok channels /\
    family_of (c :: family)
      (mkPartial (mkSpectrum (hs_provenance (pf_snapshot p)) channels)
         (<[Z.to_nat (record_index c) := true]> (pf_received p)) (pf_received_count p + 1)).
Proof.
  intros H Hc Hp Hnew. pose proof (record_index_range c Hc) as Hr.
  destruct (store_chunk_spec _ c (fo_shape _ _ H) Hc) as (channels & Hs & Hshape & Hcarries & Hother).
  exists channels. split; [done|]. split; simpl; [done| | | | |].
  - rewrite length_insert. apply (fo_length _ _ H).
  - intros i Hi. rewrite list_lookup_insert. rewrite (fo_length _ _ H).
    destruct (decide _) as [[E _]|Hne].
    + f_equal. symmetry. apply bool_decide_eq_true. subst i. rewrite Z2Nat.id by lia. by left.
    + rewrite (fo_received _ _ H i Hi). f_equal. apply bool_decide_ext. rewrite elem_of_cons.
      split; [by right|]. intros [E|E]; [|done]. destruct Hne. lia.
  - constructor; [done|]. apply (fo_nodup _ _ H).
  - rewrite (fo_count _ _ H). lia.
  - intros d [->|Hd]%elem_of_cons; [done|].
    destruct (fo_chunks _ _ H d Hd) as (Hdo & Hdp & Hdc). split_and!; [done|done|].
    apply Hother; [done|congruence| |done]. intros E. apply Hnew. rewrite <- E. apply list_elem_of_In, in_map, list_elem_of_In, Hd.
Qed.

(** An accepted chunk joins the family it belongs to; a rejected one changes nothing. *)
Lemma harmonic_accept_cases history a c :
  held_ok history a -> chunk_ok c ->
  (exists what, harmonic_accept a c = (a, Throw (InvalidArgument what))) \/
  (exists incomplete p family channels,
     harmonic_family a c = Ok (incomplete, p) /\ family_of family p /\
     (forall x, x ∈ family -> x ∈ history) /\
     Z.of_nat (length family) < harmonic_records_per_family /\
     hc_provenance c = hs_provenance (pf_snapshot p) /\ (record_index c ∉ map record_index family) /\
     let p' := mkPartial (mkSpectrum (hc_provenance c) channels)
                 (<[Z.to_nat (record_index c) := true]> (pf_received p)) (pf_received_count p + 1) in
     family_of (c :: family) p' /\
     harmonic_accept a c =
       (if pf_received_count p' =? harmonic_records_per_family
       then (mkHarmonicAssembler None (Some (hc_sequence c)),
             Ok (mkHarmonicUpdate incomplete (Some (pf_snapshot p'))))
       else (mkHarmonicAssembler (Some p') (ha_last_completed_sequence a), Ok (mkHarmonicUpdate incomplete None)))).
Proof.
  intros Hheld Hc. unfold harmonic_accept. destruct (harmonic_family a c) as [[incomplete p]|e] eqn:Ef.
  2:{ left. unfold harmonic_family in Ef. destruct (ha_partial a); [destruct (_ =? _)|destruct (ha_last_completed_sequence a)]; try done;
      unfold require in Ef; case_match; try done; cbn [mbind result_bind] in Ef; injection Ef as <-; by eexists. }
  assert (Hp : (ha_partial a = Some p /\ hc_sequence c = hs_sequence (pf_snapshot p)) \/ p = fresh_family c).
  { unfold harmonic_family in Ef. fold (fresh_family c) in Ef. destruct (ha_partial a) as [q|].
    - destruct (Z.eqb_spec (hc_sequence c) (hs_sequence (pf_snapshot q))); [apply Ok_inj in Ef; left; by simplify_eq|].
      apply bind_Ok in Ef as (_ & _ & Ef). apply Ok_inj in Ef. right. by simplify_eq.
    - right. destruct (ha_last_completed_sequence a); [apply bind_Ok in Ef as (_ & _ & Ef)|]; apply Ok_inj in Ef; by simplify_eq. }
  assert (Hfam : exists family, family_of family p /\ (forall x, x ∈ family -> x ∈ history) /\
            Z.of_nat (length family) < harmonic_records_per_family).
  { destruct Hp as [[Hp _]| ->]; [by apply Hheld|]. exists []. split_and!; [apply fresh_family_of|by intros x ?%not_elem_of_nil|done]. }
  destruct Hfam as (family & Hfam & Hsub & Hlen). pose proof (record_index_range c Hc) as Hri.
  assert (Hheldeq : p <> fresh_family c -> mkHarmonicAssembler (Some p) (ha_last_completed_sequence a) = a).
  { intros Hne. destruct Hp as [[Hp _]|]; [|done]. destruct a; simpl in *. by subst. }
  unfold same_family. case_bool_decide as Hprov; simpl.
  2:{ left. eexists. rewrite Hheldeq; [reflexivity|]. by intros ->. }
  rewrite (fo_received _ _ Hfam) by lia. rewrite Z2Nat.id by lia. case_bool_decide as Hdup.
  { left. eexists. rewrite Hheldeq; [reflexivity|]. intros ->. pose proof (fo_count _ _ Hfam) as Hz. simpl in Hz.
    destruct family; [|simpl in Hz; lia]. by apply not_elem_of_nil in Hdup. }
  right. destruct (family_add family p c Hfam Hc (eq_sym Hprov) Hdup) as (channels & Hs & Hfam').
  exists incomplete, p, family, channels. rewrite Hs, <- Hprov. split_and!; done.
Qed.

(** The chunks an assembler has accepted since it was constructed or reset, latest first. *)
Inductive harmonic_history : list HarmonicRecordChunk -> HarmonicFamilyAssembler -> Prop :=
  | hh_reset : harmonic_history [] harmonic_assembler_reset
  | hh_accept history a r c a' u :
      harmonic_history history a -> record_wf r -> decode_harmonic_record r = Ok c ->
      harmonic_accept a c = (a', Ok u) -> harmonic_history (c :: history) a'
  | hh_reject history a r c a' e :
      harmonic_history history a -> record_wf r -> decode_harmonic_record r = Ok c ->
      harmonic_accept a c = (a', Throw e) -> harmonic_history history a'.

Lemma history_held history a : harmonic_history history a -> held_ok history a.
Proof.
  induction 1 as [|history a r c a' u Hh IH Hwf Hdec Hacc|history a r c a' e Hh IH Hwf Hdec Hacc].
  - by intros p ?.
  - destruct (harmonic_accept_cases history a c IH (decode_harmonic_ok r c Hwf Hdec))
      as [[what E]|(incomplete & p & family & channels & _ & Hfam & Hsub & Hlen & _ & _ & Hfam' & E)];
      rewrite E in Hacc; [done|].
    pose proof (fo_count _ _ Hfam') as Hcount. cbn [length] in Hcount.
    destruct (Z.eqb_spec (pf_received_count p + 1) harmonic_records_per_family) as [He|He]; cbn [pf_received_count] in *;
      [rewrite (proj2 (Z.eqb_eq _ _) He) in Hacc|rewrite (proj2 (Z.eqb_neq _ _) He) in Hacc];
      injection Hacc as <- <-; intros q Hq; simpl in Hq; [done|]. injection Hq as <-.
    exists (c :: family). split_and!; [exact Hfam'| |cbn [length]; lia].
    intros x [->|Hx]%elem_of_cons; [by left|right; by apply Hsub].
  - destruct (harmonic_accept_cases history a c IH (decode_harmonic_ok r c Hwf Hdec))
      as [[what E]|(incomplete & p & family & channels & _ & _ & _ & _ & _ & _ & _ & E)];
      rewrite E in Hacc; [by injection Hacc as <- <-|]. by destruct (_ =? _).
Qed.

(** A family of 42 different chunks has every chunk of every channel. *)
Lemma full_family family p channel k :
  family_of family p -> Z.of_nat (length family) = harmonic_records_per_family ->
  0 <= channel < harmonic_channel_count -> 0 <= k < harmonic_chunks_per_channel ->
  exists c, c ∈ family /\ hc_channel c = channel /\ hc_chunk c = k.
Proof.
  intros H Hlen Hc Hk.
  assert (Hin : In (channel * harmonic_chunks_per_channel + k) (map record_index family)).
  { apply (List.NoDup_length_incl (l' := map Z.of_nat (seq 0 (Z.to_nat harmonic_records_per_family)))).
    - apply NoDup_ListNoDup, (fo_nodup _ _ H).
    - rewrite !length_map, length_seq. lia.
    - intros i Hi. apply in_map_iff in Hi as (c & <- & Hi%list_elem_of_In).
      pose proof (record_index_range c (proj1 (fo_chunks _ _ H c Hi))). apply in_map_iff.
      exists (Z.to_nat (record_index c)). split; [lia|]. apply in_seq. lia.
    - unfold harmonic_records_per_family, harmonic_channel_count, harmonic_chunks_per_channel in *.
      apply in_map_iff. exists (Z.to_nat (channel * 6 + k)). split; [lia|]. apply in_seq. lia. }
  apply in_map_iff in Hin as (c & E & Hin%list_elem_of_In). exists c. split; [done|].
  destruct (fo_chunks _ _ H c Hin) as (Hok & _). pose proof (ck_channel c Hok). pose proof (ck_chunk c Hok).
  unfold record_index, harmonic_channel_count, harmonic_chunks_per_channel in *. lia.
Qed.

(** A spectrum is published whole or not at all.  Whatever chunks arrive, in whatever
    order and with whatever repetitions and gaps, a completed spectrum consists of 42
    accepted chunks that agree on the provenance published with it, and each of its 7 x 127
    points is the entry some chunk of that family carries for that channel and order.  The
    assembler then starts over and remembers the sequence it completed. *)
Theorem harmonic_family_complete history a r c a' u s :
  harmonic_history history a -> record_wf r -> decode_harmonic_record r = Ok c ->
  harmonic_accept a c = (a', Ok u) -> hu_completed u = Some s ->
  a' = mkHarmonicAssembler None (Some (hs_sequence s)) /\
  exists family,
    length family = 42%nat /\ NoDup (map record_index family) /\
    (forall x, x ∈ family -> x ∈ c :: history /\ hc_provenance x = hs_provenance s) /\
    forall channel order, 0 <= channel < 7 -> 1 <= order <= 127 ->
      exists x i, x ∈ family /\ hc_channel x = channel /\ hc_first_order x + Z.of_nat i = order /\
        (i < Z.to_nat (hc_order_count x))%nat /\ is_Some (hc_entries x !! i) /\
        spectrum_point (hs_channels s) channel order = hc_entries x !! i.
Proof.
  intros Hh Hwf Hdec Hacc Hs.
  destruct (harmonic_accept_cases history a c (history_held _ _ Hh) (decode_harmonic_ok r c Hwf Hdec))
    as [[what E]|(incomplete & p & family & channels & _ & _ & Hsub & Hlen & Hp & _ & Hfam & E)];
    rewrite E in Hacc; [done|]. clear E. pose proof (fo_count _ _ Hfam) as Hcount.
  destruct (Z.eqb_spec (pf_received_count (mkPartial (mkSpectrum (hc_provenance c) channels)
                 (<[Z.to_nat (record_index c) := true]> (pf_received p)) (pf_received_count p + 1))) harmonic_records_per_family) as [He|He];
    injection Hacc as <- <-; simpl in Hs; [|done]. injection Hs as <-. split; [done|].
  exists (c :: family). rewrite Hcount in He. split_and!.
  - unfold harmonic_records_per_family, harmonic_channel_count, harmonic_chunks_per_channel in He. lia.
  - apply (fo_nodup _ _ Hfam).
  - intros x Hx. split; [|apply (fo_chunks _ _ Hfam x Hx)]. apply elem_of_cons in Hx as [->|Hx]; [by left|right; by apply Hsub].
  - intros channel order Hch Hord.
    destruct (chunk_of_order (hv_period (hc_provenance c)) order Hord) as (k & Hk & Hin).
    destruct (full_family _ _ channel k Hfam He Hch Hk) as (x & Hx & Ex & Ek).
    destruct (fo_chunks _ _ Hfam x Hx) as (Hok & Hprov & Hcar). simpl in Hprov, Hcar.
    pose proof (chunk_span x Hok) as (_ & Hspan & _).
    rewrite <- Hprov, <- Ek, <- (ck_first x Hok), <- (ck_count x Hok) in Hin.
    exists x, (Z.to_nat (order - hc_first_order x)). rewrite Z2Nat.id by lia.
    split_and!; [done|done|lia|lia|apply lookup_lt_is_Some_2; lia|].
    rewrite <- Ex, <- (Hcar (Z.to_nat (order - hc_first_order x))) by lia. f_equal. lia.
Qed.

Fixpoint harmonic_run (records : list MeterRecord) : option (list HarmonicRecordChunk * HarmonicFamilyAssembler) :=
  match records with
  | [] => Some ([], harmonic_assembler_reset)
  | r :: records =>
      match harmonic_run records with
      | Some (history, a) =>
          match decode_harmonic_record r with
          | Ok c => match harmonic_accept a c with (a', Ok _) => Some (c :: history, a') | _ => None end
          | Throw _ => None
          end
      | None => None
      end
  end.

Lemma harmonic_run_history records history a :
  Forall record_wf records -> harmonic_run records = Some (history, a) -> harmonic_history history a.
Proof.
  revert history a. induction records as [|r records IH]; simpl; intros history a Hwf Hrun.
  - injection Hrun as <- <-. constructor.
  - apply list.Forall_cons in Hwf as [Hr Hwf]. destruct (harmonic_run records) as [[h b]|]; [|done].
    destruct (decode_harmonic_record r) as [c|] eqn:Hdec; [|done].
    destruct (harmonic_accept b c) as [b' [u|]] eqn:Hacc; [|done]. injection Hrun as <- <-.
    by apply (hh_accept h b r c b' u); auto.
Qed.

(** Chunk [index] of a family without any component, of a meter at 50 Hz. *)
Definition harmonic_example (index : nat) : MeterRecord :=
  let channel := Z.of_nat index / 6 in
  let chunk := Z.of_nat index mod 6 in
  mkRecord ([meter_record_magic; meter_harmonic_format; meter_record_size; 7; 1; 32000; 6400; 0x7f; 0x3a; 0; 0; 0; 0;
    channel + 8 * chunk + 128 * (24 * chunk + 1) + 2 ^ 15 * expected_order_count chunk Basic + 6 * 2 ^ 20 + 127 * 2 ^ 24;
    50000; 127 + 50 * 256 + 10 * 65536] ++ replicate 48 0).

Definition harmonic_example_step : option (list HarmonicRecordChunk * HarmonicFamilyAssembler * HarmonicRecordChunk *
    HarmonicFamilyAssembler * HarmonicAssemblyUpdate * HarmonicSpectrumSnapshot) :=
  match harmonic_run (map harmonic_example (seq 0 41)), decode_harmonic_record (harmonic_example 41) with
  | Some (history, a), Ok c =>
      match harmonic_accept a c with
      | (a', Ok u) => s ← hu_completed u; Some (history, a, c, a', u, s)
      | _ => None
      end
  | _, _ => None
  end.

Lemma harmonic_example_completes : is_Some harmonic_example_step.
Proof. apply (bool_decide_eq_true_1 (is_Some harmonic_example_step)). vm_compute. reflexivity. Qed.

Lemma harmonic_examples_wf : Forall record_wf (map harmonic_example (seq 0 41)).
Proof.
  apply List.Forall_forall. intros r Hr. apply record_wfb_iff. revert r Hr. apply forallb_forall. vm_compute. reflexivity.
Qed.

Lemma harmonic_last_wf : record_wf (harmonic_example 41).
Proof. apply record_wfb_iff. vm_compute. reflexivity. Qed.

Lemma harmonic_family_complete_witness : exists history a c u s family,
  harmonic_accept a c = (mkHarmonicAssembler None (Some (hs_sequence s)), Ok u) /\ hu_completed u = Some s /\
  length family = 42%nat /\ (forall x, x ∈ family -> x ∈ c :: history /\ hc_provenance x = hs_provenance s).
Proof.
  destruct harmonic_example_completes as [[[[[[history a] c] a'] u] s] Hstep]. unfold harmonic_example_step in Hstep.
  destruct (harmonic_run (map harmonic_example (seq 0 41))) as [[history' b]|] eqn:Hrun; [|done].
  destruct (decode_harmonic_record (harmonic_example 41)) as [d|] eqn:Hdec; [|done].
  destruct (harmonic_accept b d) as [b' [v|]] eqn:Hacc; [|done].
  destruct (hu_completed v) as [w|] eqn:Hw; [|done]. injection Hstep as -> -> -> -> -> ->.
  destruct (harmonic_family_complete history a (harmonic_example 41) c a' u s) as (-> & family & Hlen & _ & Hin & _);
    [exact (harmonic_run_history _ _ _ harmonic_examples_wf Hrun)|exact harmonic_last_wf|exact Hdec|exact Hacc|exact Hw|].
  exists history, a, c, u, s, family. split_and!; done.
Defined.
