(* ===== verification/EnergyDemand.v ===== *)
(** * ENERGY-v1 and DEMAND-v1 records

    Models [common/msap1/meter/energy_demand.cpp] and [.hpp]: validation of the two
    ENERGY-v1 parts, the family decoder, the bounded assembler that pairs the parts,
    the demand decoder and the flat counter arrays the energy ledger persists. *)
From S2P Require Import Prelude.
From S2P Require Import MeterTiming.
From S2P Require Import RecordFormat.
From S2P Require Import MeterRecord.
From S2P Require Import MeterData.
From S2P Require Import DecodeCommon.
From S2P Require Import DecodeBlocks.

Definition energy_header_allowed_mask : Z := 0x00000f1f.
Definition energy_status_allowed_mask : Z := 0x0000001f.
Definition demand_header_allowed_mask : Z := 0xffffffff.
Definition demand_status_allowed_mask : Z := 0x0000007f.

Definition energy_counter_count : nat := 28.

(** The local helper [require] of the file: throws [std::invalid_argument]. *)
Definition require_arg (condition : bool) (message : string) : result unit :=
  require condition (InvalidArgument message).

Definition require_zero_words (record : MeterRecord) (first last : nat) (message : string)
  : result unit :=
  forM_result (range first last) (fun w => require (word record w =? 0) (InvalidArgument message)).

Definition checked_counter (record : MeterRecord) (w : nat) : result Z :=
  let value := unsigned64 record w in
  require_arg (value <=? INT64_MAX) "energy/demand counter exceeds INT64_MAX" ;;
  Ok value.

Definition source_window (record : MeterRecord) : result SampleWindow :=
  require_arg (negb (sample_rate_hz record =? 0)) "energy/demand sample rate is zero" ;;
  let nanoseconds := u64 (block_sample_count record * 1000000000) / sample_rate_hz record in
  require_arg (nanoseconds <=? INT64_MAX) "energy/demand source window exceeds duration range" ;;
  Ok (mkWindow (block_sample_count record) nanoseconds).

Definition counter_quality (is_valid saturated : bool) : MeasurementQuality :=
  if negb is_valid then invalid else if saturated then out_of_range else valid.

Definition counter_reading {U : Set} (record : MeterRecord) (w : nat) (is_valid saturated : bool)
    (received_at : Z) (window : SampleWindow) : result (Reading U) :=
  value ← checked_counter record w;
  Ok (mkReading value (counter_quality is_valid saturated) (sequence record) received_at window).

Definition signed_demand_reading (record : MeterRecord) (w : nat) (is_valid saturated : bool)
    (received_at : Z) (window : SampleWindow) : Reading MicroWatts :=
  mkReading (record_signed64 record w) (counter_quality is_valid saturated) (sequence record)
    received_at window.

(** A loop that fills the four members selected by [phase_total]. *)
Definition phase_total {T} (f : nat -> result T) : result (PhaseABCTotal T) :=
  a ← f 0%nat; b ← f 1%nat; c ← f 2%nat; t ← f 3%nat; Ok (mkABCT a b c t).

(** The counters of one part, in the order [validate_energy_part] visits them. *)
Definition energy_part_bases (record : MeterRecord) : list nat :=
  if energy_part record =? meter_energy_part_summary
  then [meter_energy_summary_import_word; meter_energy_summary_export_word;
        meter_energy_summary_apparent_word]
  else meter_energy_quadrant_words.

Definition validate_energy_part (record : MeterRecord) : result unit :=
  require_arg (header_valid record && (record_format record =? meter_energy_format))
    "invalid ENERGY-v1 envelope" ;;
  require_arg (negb (any_bit (word record 13) (not32 energy_header_allowed_mask)))
    "ENERGY-v1 format header reserved bits are nonzero" ;;
  require_arg (energy_part record <=? meter_energy_part_quadrants)
    "ENERGY-v1 part kind is invalid" ;;
  require_arg (energy_part_count record =? meter_energy_part_count)
    "ENERGY-v1 part count is not two" ;;
  require_arg (energy_family_complete record && energy_complete record)
    "ENERGY-v1 family is not marked complete" ;;
  require_arg (negb (any_bit (status record) (not32 energy_status_allowed_mask)))
    "ENERGY-v1 status reserved bits are nonzero" ;;
  require_arg ((emit_drops record =? 0) && (result_drops record =? 0))
    "ENERGY-v1 carries transport drops" ;;
  require_arg (negb (block_sample_count record =? 0)) "ENERGY-v1 source sample count is zero" ;;
  require_arg (negb (energy_session_id record =? 0)) "ENERGY-v1 session ID is zero" ;;
  require_arg (first_sample_index record <=? energy_last_sample_index record)
    "ENERGY-v1 sample anchors are reversed" ;;
  (if energy_part record =? meter_energy_part_summary
   then require_zero_words record 40 47 "ENERGY-v1 summary reserved words are nonzero"
   else Ok tt) ;;
  require_zero_words record 56 63 "ENERGY-v1 tail reserved words are nonzero" ;;
  forM_result (energy_part_bases record) (fun base =>
    forM_result (seq 0 4) (fun index =>
      checked_counter record (base + index * 2)%nat ;; Ok tt)).

Definition validate_demand (record : MeterRecord) : result unit :=
  require_arg (header_valid record && (record_format record =? meter_demand_format))
    "invalid DEMAND-v1 envelope" ;;
  require_arg (negb (any_bit (word record 13) (not32 demand_header_allowed_mask)))
    "DEMAND-v1 format header reserved bits are nonzero" ;;
  let method := demand_method record in
  let window := demand_interval_seconds record in
  let update := demand_update_seconds record in
  require_arg (method <=? 1) "DEMAND-v1 method is invalid" ;;
  (if method =? 0
   then require_arg ((window =? meter_demand_fixed_interval_seconds) &&
                     (update =? meter_demand_fixed_interval_seconds))
          "DEMAND-v1 fixed profile is not 600/600 seconds"
   else require_arg (((window =? 60) || (window =? 300) || (window =? 600) ||
                      (window =? 900) || (window =? 1800)) &&
                     (update =? meter_demand_sliding_update_seconds))
          "DEMAND-v1 sliding profile is invalid") ;;
  require_arg (demand_complete record) "DEMAND-v1 is not complete" ;;
  require_arg (negb (any_bit (status record) (not32 demand_status_allowed_mask)))
    "DEMAND-v1 status reserved bits are nonzero" ;;
  require_arg ((emit_drops record =? 0) && (result_drops record =? 0))
    "DEMAND-v1 carries transport drops" ;;
  require_arg (negb (block_sample_count record =? 0)) "DEMAND-v1 source sample count is zero" ;;
  require_arg (negb (demand_session_id record =? 0)) "DEMAND-v1 session ID is zero" ;;
  require_arg (first_sample_index record <=? demand_last_sample_index record)
    "DEMAND-v1 sample anchors are reversed" ;;
  require_arg (negb (demand_profile_generation record =? 0))
    "DEMAND-v1 profile generation is zero" ;;
  require_zero_words record 63 63 "DEMAND-v1 reserved tail word is nonzero" ;;
  forM_result (seq 0 4) (fun index =>
    checked_counter record (meter_demand_import_peak_word + index * 2)%nat ;;
    checked_counter record (meter_demand_export_peak_word + index * 2)%nat ;; Ok tt).

(** ** Flat arrays *)

Definition group_values {U : Set} (g : PhaseABCTotal (Reading U)) : list Z :=
  [r_value (abct_a g); r_value (abct_b g); r_value (abct_c g); r_value (abct_total g)].

Definition flatten_energy_counters (values : EnergyValues) : list Z :=
  group_values (en_active_import values) ++ group_values (en_active_export values) ++
  group_values (en_apparent values) ++ group_values (en_reactive_i values) ++
  group_values (en_reactive_ii values) ++ group_values (en_reactive_iii values) ++
  group_values (en_reactive_iv values).

Definition set_value {U : Set} (r : Reading U) (v : Z) : Reading U :=
  mkReading v (r_quality r) (r_source_sequence r) (r_measured_at r) (r_window r).

Definition copy_group {U : Set} (counters : list Z) (g : PhaseABCTotal (Reading U)) (base : nat)
  : PhaseABCTotal (Reading U) :=
  mkABCT (set_value (abct_a g) (nth base counters 0))
    (set_value (abct_b g) (nth (base + 1) counters 0))
    (set_value (abct_c g) (nth (base + 2) counters 0))
    (set_value (abct_total g) (nth (base + 3) counters 0)).

Definition assign_energy_counters (values : EnergyValues) (counters : list Z) : EnergyValues :=
  mkEnergy (copy_group counters (en_active_import values) 0)
    (copy_group counters (en_active_export values) 4)
    (copy_group counters (en_apparent values) 8)
    (copy_group counters (en_reactive_i values) 12)
    (copy_group counters (en_reactive_ii values) 16)
    (copy_group counters (en_reactive_iii values) 20)
    (copy_group counters (en_reactive_iv values) 24)
    (en_session_id values) (en_last_sample_index values) (en_accepted_samples values)
    (en_skipped_samples values) (en_accepted_blocks values) (en_skipped_blocks values)
    (en_reset_epoch values) (en_saturated values) (en_incomplete_input values)
    (en_discontinuity values).

Definition flatten_demand_values (values : PhaseABCTotal (Reading MicroWatts)) : list Z :=
  group_values values.

Definition assign_demand_values (values : PhaseABCTotal (Reading MicroWatts)) (source : list Z)
  : PhaseABCTotal (Reading MicroWatts) := copy_group source values 0.

(** ** The energy family *)

Record EnergyFamilyIdentity := mkIdentity {
  ei_sequence : Z;
  ei_configuration_generation : Z;
  ei_sample_rate_hz : Z;
  ei_sample_count : Z;
  ei_source_valid_mask : Z;
  ei_status : Z;
  ei_first_sample_index : Z;
  ei_last_sample_index : Z;
  ei_session_id : Z;
  ei_accepted_samples : Z;
  ei_skipped_samples : Z;
  ei_accepted_blocks : Z;
  ei_skipped_blocks : Z
}.

#[export] Instance EnergyFamilyIdentity_eq_dec : EqDecision EnergyFamilyIdentity.
Proof. solve_decision. Defined.

Definition identity_of (record : MeterRecord) : EnergyFamilyIdentity :=
  mkIdentity (sequence record) (configuration_generation record) (sample_rate_hz record)
    (block_sample_count record) (valid_mask record) (status record)
    (first_sample_index record) (energy_last_sample_index record) (energy_session_id record)
    (energy_accepted_samples record) (energy_skipped_samples record)
    (energy_accepted_blocks record) (energy_skipped_blocks record).

Definition decode_energy_identity (record : MeterRecord) : result EnergyFamilyIdentity :=
  validate_energy_part record ;; Ok (identity_of record).

Definition decode_energy_family (summary quadrants : MeterRecord) (received_at : Z)
  : result EnergyValues :=
  summary_identity ← decode_energy_identity summary;
  quadrant_identity ← decode_energy_identity quadrants;
  require_arg (energy_part summary =? meter_energy_part_summary)
    "ENERGY-v1 summary part is missing" ;;
  require_arg (energy_part quadrants =? meter_energy_part_quadrants)
    "ENERGY-v1 quadrant part is missing" ;;
  require_arg (bool_decide (summary_identity = quadrant_identity))
    "ENERGY-v1 parts have mismatched family identity" ;;
  window ← source_window summary;
  let saturated := energy_saturated summary in
  let summary_valid (index : nat) : bool :=
    bit (energy_category_valid_mask summary) (Z.of_nat index) in
  let quadrant_valid (index : nat) : bool :=
    bit (energy_category_valid_mask quadrants) (Z.of_nat index) in
  let summary_group {U : Set} (base : nat) : result (PhaseABCTotal (Reading U)) :=
    phase_total (fun index => counter_reading summary (base + index * 2)%nat
      (summary_valid index) saturated received_at window) in
  let quadrant_group (quadrant : nat) : result (PhaseABCTotal (Reading MicroVarHours)) :=
    phase_total (fun index => counter_reading quadrants
      (nth quadrant meter_energy_quadrant_words 0 + index * 2)%nat
      (quadrant_valid index) saturated received_at window) in
  active_import ← summary_group meter_energy_summary_import_word;
  active_export ← summary_group meter_energy_summary_export_word;
  apparent ← summary_group meter_energy_summary_apparent_word;
  q1 ← quadrant_group 0%nat; q2 ← quadrant_group 1%nat;
  q3 ← quadrant_group 2%nat; q4 ← quadrant_group 3%nat;
  Ok (mkEnergy active_import active_export apparent q1 q2 q3 q4
        (ei_session_id summary_identity) (ei_last_sample_index summary_identity)
        (ei_accepted_samples summary_identity) (ei_skipped_samples summary_identity)
        (ei_accepted_blocks summary_identity) (ei_skipped_blocks summary_identity) 0
        saturated (energy_incomplete_input summary) (energy_discontinuity summary)).

Record EnergyAssemblyUpdate := mkAssemblyUpdate {
  au_completed : option EnergyValues;
  au_incomplete_families : Z;
  au_duplicate_part : bool
}.

Record EnergyFamilyAssembler := mkAssembler {
  ea_identity : option EnergyFamilyIdentity;
  ea_summary : option MeterRecord;
  ea_quadrants : option MeterRecord
}.

Definition assembler_reset : EnergyFamilyAssembler := mkAssembler None None None.

Definition pending_parts (a : EnergyFamilyAssembler) : Z :=
  b2z (bool_decide (is_Some (ea_summary a))) + b2z (bool_decide (is_Some (ea_quadrants a))).

Definition is_summary (record : MeterRecord) : bool :=
  energy_part record =? meter_energy_part_summary.

Definition slot_of (a : EnergyFamilyAssembler) (record : MeterRecord) : option MeterRecord :=
  if is_summary record then ea_summary a else ea_quadrants a.

Definition store_part (a : EnergyFamilyAssembler) (record : MeterRecord)
  : EnergyFamilyAssembler :=
  if is_summary record then mkAssembler (ea_identity a) (Some record) (ea_quadrants a)
  else mkAssembler (ea_identity a) (ea_summary a) (Some record).

(** The members keep what was assigned to them before an exception leaves the
    call, so the state is returned beside the result. *)
Definition assembler_accept (a : EnergyFamilyAssembler) (record : MeterRecord)
    (received_at : Z) : EnergyFamilyAssembler * result EnergyAssemblyUpdate :=
  match decode_energy_identity record with
  | Throw e => (a, Throw e)
  | Ok incoming =>
      let changed := match ea_identity a with
                     | Some i => negb (bool_decide (i = incoming)) | None => false end in
      let incomplete := if changed then b2z (0 <? pending_parts a) else 0 in
      let a := if changed then assembler_reset else a in
      let a := match ea_identity a with
               | None => mkAssembler (Some incoming) (ea_summary a) (ea_quadrants a)
               | Some _ => a end in
      let '(a, stored) :=
        match slot_of a record with
        | Some held =>
            if bool_decide (words held = words record)
            then (a, Ok true)
            else (a, Throw (InvalidArgument "ENERGY-v1 duplicate part has different payload"))
        | None => (store_part a record, Ok false)
        end in
      match stored with
      | Throw e => (a, Throw e)
      | Ok duplicate =>
          match ea_summary a, ea_quadrants a with
          | Some summary, Some quadrants =>
              match decode_energy_family summary quadrants received_at with
              | Ok values =>
                  (assembler_reset, Ok (mkAssemblyUpdate (Some values) incomplete duplicate))
              | Throw e => (a, Throw e)
              end
          | _, _ => (a, Ok (mkAssemblyUpdate None incomplete duplicate))
          end
      end
  end.

(** ** Demand *)

Definition demand_method_of (method : Z) : DemandMethod :=
  if method =? 0 then fixed_block else sliding.

Definition decode_demand_meter_record (record : MeterRecord) (received_at : Z)
  : result MeterUpdate :=
  validate_demand record ;;
  window ← source_window record;
  let method := demand_method_of (demand_method record) in
  let alignment_valid := bool_decide (method = sliding) || demand_time_aligned record in
  let interval_valid :=
    alignment_valid && demand_boundary_valid record && negb (demand_contaminated record) in
  let saturated := demand_saturated record in
  current_active ← phase_total (fun index =>
    Ok (signed_demand_reading record (meter_demand_current_word + index * 2)%nat
      (interval_valid && bit (demand_valid_mask record) (Z.of_nat index)) saturated
      received_at window));
  import_peak ← phase_total (fun index =>
    counter_reading record (meter_demand_import_peak_word + index * 2)%nat true saturated
      received_at window);
  export_peak ← phase_total (fun index =>
    counter_reading record (meter_demand_export_peak_word + index * 2)%nat true saturated
      received_at window);
  import_peak_sample ← phase_total (fun index =>
    Ok (unsigned64 record (meter_demand_import_peak_anchor_word + index * 2)%nat));
  export_peak_sample ← phase_total (fun index =>
    Ok (unsigned64 record (meter_demand_export_peak_anchor_word + index * 2)%nat));
  let values := mkDemand current_active import_peak export_peak import_peak_sample
    export_peak_sample (demand_session_id record) (demand_last_sample_index record)
    (unsigned64 record meter_demand_interval_anchor_sample_word)
    (word record meter_demand_source_interval_count_word)
    (word record meter_demand_source_status_word) (demand_interval_seconds record)
    (demand_update_seconds record) (demand_profile_generation record) 0 method
    (demand_time_aligned record) (demand_contaminated record) (demand_boundary_valid record)
    saturated (demand_incomplete_input record) in
  let timing := mkAggregateTiming (sequence record) (configuration_generation record)
    (first_sample_index record) (demand_last_sample_index record) (block_sample_count record)
    (sample_rate_hz record) 0 0 0 0 Hz60 false false false false (demand_time_aligned record)
    (demand_contaminated record) (demand_boundary_valid record)
    (Some (unsigned64 record meter_demand_interval_anchor_sample_word)) None Unsynchronized
    None None in
  Ok (mkUpdate Demand kind_demand (sequence record) (configuration_generation record)
        None None None None None (Some values) None None None (Some timing)).

(** ** Lemmas *)

Lemma forM_Ok {A} (l : list A) (f : A -> result unit) u :
  forM_result l f = Ok u <-> forall x, In x l -> f x = Ok tt.
Proof.
  destruct u. induction l as [|x l IH]; simpl; [naive_solver|].
  rewrite bind_Ok. split.
  - intros ([] & Hx & Hl) y [<-|Hy]; [done|]. by apply IH.
  - intros H. exists tt. split; [auto|]. apply IH. auto.
Qed.

Lemma checked_counter_Ok r w v :
  checked_counter r w = Ok v <-> v = unsigned64 r w /\ unsigned64 r w <= INT64_MAX.
Proof.
  unfold checked_counter, require_arg. destruct (Z.leb_spec (unsigned64 r w) INT64_MAX); simpl.
  - split; [intros [= <-]; auto|intros [-> _]; done].
  - split; [discriminate|lia].
Qed.

(** Four checked counters in a row. *)
Lemma counter_group_ok {U : Set} r base (q : nat -> bool) sat t w :
  (forall index, (index < 4)%nat -> unsigned64 r (base + index * 2) <= INT64_MAX) ->
  exists g : PhaseABCTotal (Reading U),
    phase_total (fun index => counter_reading r (base + index * 2)%nat (q index) sat t w) = Ok g /\
    group_values g = map (fun index => unsigned64 r (base + index * 2)) (seq 0 4).
Proof.
  intros H. unfold phase_total, counter_reading.
  assert (forall index, (index < 4)%nat ->
    checked_counter r (base + index * 2) = Ok (unsigned64 r (base + index * 2))) as Hc
    by (intros; apply checked_counter_Ok; auto).
  rewrite (Hc 0%nat), (Hc 1%nat), (Hc 2%nat), (Hc 3%nat) by lia.
  eexists. split; reflexivity.
Qed.

Lemma counter_group_values {U : Set} r base (q : nat -> bool) sat t w
    (g : PhaseABCTotal (Reading U)) :
  phase_total (fun index => counter_reading r (base + index * 2)%nat (q index) sat t w) = Ok g ->
  group_values g = map (fun index => unsigned64 r (base + index * 2)) (seq 0 4) /\
  Forall (fun v => v <= INT64_MAX) (group_values g) /\
  map (fun m => rm_quality m) (metas_abct g) =
    map (fun index => counter_quality (q index) sat) (seq 0 4).
Proof.
  unfold phase_total, counter_reading. intros H. cbn zeta in H. inv_ok H.
  repeat match goal with H : checked_counter _ _ = Ok _ |- _ =>
    apply checked_counter_Ok in H as [-> ?] end.
  split; [reflexivity|]. split; [|reflexivity]. by repeat (apply Forall_cons_2; [assumption|]).
Qed.

Lemma group_range {U : Set} r (g : PhaseABCTotal (Reading U)) base :
  record_wf r -> group_values g = map (fun index => unsigned64 r (base + index * 2)) (seq 0 4) ->
  Forall (fun v => v <= INT64_MAX) (group_values g) ->
  Forall (fun v => 0 <= v <= INT64_MAX) (group_values g).
Proof.
  intros Hwf E H. rewrite Forall_forall in *. intros v Hv. split; [|by apply H].
  rewrite E in Hv. apply in_map_iff in Hv as (i & <- & _). by apply unsigned64_fits.
Qed.

Lemma counter_quality_valid is_valid saturated :
  Some (counter_quality is_valid saturated) = Some valid <->
  is_valid = true /\ saturated = false.
Proof. destruct is_valid, saturated; naive_solver. Qed.

Lemma quality_at (f : nat -> MeasurementQuality) i :
  (i < 4)%nat -> map f (seq 0 4) !! i = Some (f i).
Proof. intros Hi. destruct i as [|[|[|[|i]]]]; try done. lia. Qed.

(** What a validated part guarantees to the family decoder. *)
Record part_valid (r : MeterRecord) : Prop := {
  pval_kind : energy_part r = meter_energy_part_summary \/
    energy_part r = meter_energy_part_quadrants;
  pval_counters : forall base, In base (energy_part_bases r) -> forall index, (index < 4)%nat ->
    unsigned64 r (base + index * 2) <= INT64_MAX;
  pval_session : energy_session_id r <> 0;
  pval_anchor : first_sample_index r <= energy_last_sample_index r
}.

Lemma validate_energy_part_valid r : validate_energy_part r = Ok tt -> part_valid r.
Proof.
  intros H. unfold validate_energy_part, require_arg in H. cbn zeta in H.
  repeat (apply bind_Ok in H as ([] & ?H & H)).
  repeat match goal with H : require _ _ = Ok _ |- _ => apply require_Ok in H end.
  rewrite forM_Ok in H. bools. split; try done.
  - pose proof (land_le_mask (word r 13) 3 ltac:(lia)).
    unfold energy_part, meter_energy_part_quadrants, meter_energy_part_summary in *.
    rewrite wrap_id in * by lia. lia.
  - intros base Hb index Hi. specialize (H base Hb). rewrite forM_Ok in H.
    specialize (H index). rewrite in_seq in H. specialize (H ltac:(lia)).
    apply bind_Ok in H as (v & Hv & _). by apply checked_counter_Ok in Hv as [_ ?].
Qed.

Lemma identity_Ok r i :
  decode_energy_identity r = Ok i <-> validate_energy_part r = Ok tt /\ i = identity_of r.
Proof.
  unfold decode_energy_identity. rewrite bind_Ok. split.
  - intros ([] & Hv & [= <-]). auto.
  - intros [Hv ->]. eauto.
Qed.

Lemma source_window_ok r :
  record_wf r -> sample_rate_hz r <> 0 -> exists w, source_window r = Ok w.
Proof.
  intros Hwf Hr. unfold source_window, require_arg, block_sample_count, sample_rate_hz in *.
  pose proof (word_fits r 5 Hwf). pose proof (word_fits r 6 Hwf).
  rewrite (proj2 (Z.eqb_neq _ 0)) by done. cbn [negb require mbind result_bind].
  rewrite wrap_id by lia.
  assert ((word r 6 * 1000000000 / word r 5 <=? INT64_MAX) = true) as ->.
  { apply Z.leb_le, Z.div_le_upper_bound; unfold INT64_MAX; nia. }
  eexists. reflexivity.
Qed.

(** A matching pair of validated parts always decodes. *)
Lemma family_decodes s q t :
  record_wf s -> validate_energy_part s = Ok tt -> validate_energy_part q = Ok tt ->
  is_summary s = true -> is_summary q = false -> identity_of s = identity_of q ->
  sample_rate_hz s <> 0 -> exists v, decode_energy_family s q t = Ok v.
Proof.
  intros Hwf Hs Hq Ks Kq Hid Hr. destruct (source_window_ok s Hwf Hr) as [w Hw].
  pose proof (validate_energy_part_valid s Hs) as Vs.
  pose proof (validate_energy_part_valid q Hq) as Vq.
  unfold decode_energy_family, decode_energy_identity. rewrite Hs, Hq.
  cbn [mbind result_bind]. unfold is_summary in Ks, Kq. rewrite Ks. bools.
  assert (energy_part q = meter_energy_part_quadrants) as Eq by (destruct Vq as [[]]; done).
  rewrite Eq. unfold require_arg. cbn [require mbind result_bind].
  rewrite (bool_decide_eq_true_2 _ Hid). change (_ =? _) with true. cbn [require mbind result_bind].
  rewrite Hw. cbn [mbind result_bind].
  assert (energy_part_bases s = [16; 24; 32]%nat) as Bs
    by (unfold energy_part_bases; by rewrite (proj2 (Z.eqb_eq _ _) Ks)).
  assert (energy_part_bases q = [16; 24; 32; 40]%nat) as Bq
    by (unfold energy_part_bases; by rewrite (proj2 (Z.eqb_neq _ _) Kq)).
  pose proof (pval_counters s Vs) as Cs. pose proof (pval_counters q Vq) as Cq.
  rewrite Bs in Cs. rewrite Bq in Cq.
  repeat match goal with
  | |- context [phase_total (fun index => @counter_reading ?U ?r (?b + index * 2)%nat
                               (@?v index) ?sat ?t ?w)] =>
      let g := fresh "g" in let Hg := fresh "Hg" in
      destruct (counter_group_ok (U := U) r b v sat t w) as (g & Hg & _);
      [intros; first [apply Cs; [simpl; tauto|done] | apply Cq; [simpl; tauto|done]]
      |cbn beta in Hg; rewrite Hg; cbn [mbind result_bind]; clear Hg]
  end.
  eexists. reflexivity.
Qed.

(** ** The assembler *)

Record assembler_inv (a : EnergyFamilyAssembler) : Prop := {
  ai_empty : ea_identity a = None -> ea_summary a = None /\ ea_quadrants a = None;
  ai_summary s : ea_summary a = Some s ->
    record_wf s /\ validate_energy_part s = Ok tt /\ is_summary s = true /\
    ea_identity a = Some (identity_of s);
  ai_quadrants q : ea_quadrants a = Some q ->
    record_wf q /\ validate_energy_part q = Ok tt /\ is_summary q = false /\
    ea_identity a = Some (identity_of q);
  ai_both s q : ea_summary a = Some s -> ea_quadrants a = Some q -> sample_rate_hz s = 0
}.

Lemma assembler_reset_inv : assembler_inv assembler_reset.
Proof. split; simpl; naive_solver. Qed.

(** The family the state belongs to once the identity check of [accept] is done. *)
Definition hold_family (a : EnergyFamilyAssembler) (record : MeterRecord)
  : EnergyFamilyAssembler :=
  let changed := match ea_identity a with
                 | Some i => negb (bool_decide (i = identity_of record)) | None => false end in
  let a := if changed then assembler_reset else a in
  match ea_identity a with
  | None => mkAssembler (Some (identity_of record)) (ea_summary a) (ea_quadrants a)
  | Some _ => a end.

Lemma hold_family_inv a r :
  assembler_inv a ->
  assembler_inv (hold_family a r) /\ ea_identity (hold_family a r) = Some (identity_of r).
Proof.
  intros I. unfold hold_family. destruct (ea_identity a) as [i|] eqn:E.
  - destruct (bool_decide (i = identity_of r)) eqn:D; simpl.
    + apply bool_decide_eq_true in D as ->. rewrite E. auto.
    + split; [split; simpl; naive_solver|done].
  - rewrite E. destruct (ai_empty a I E) as [Hs Hq]. rewrite Hs, Hq.
    split; [split; simpl; naive_solver|done].
Qed.

Lemma slot_part a r held :
  assembler_inv a -> slot_of a r = Some held ->
  record_wf held /\ validate_energy_part held = Ok tt /\ is_summary held = is_summary r /\
  ea_identity a = Some (identity_of held).
Proof.
  intros I. unfold slot_of. destruct (is_summary r) eqn:E; intros H;
    [apply (ai_summary a I) in H|apply (ai_quadrants a I) in H]; naive_solver.
Qed.

Lemma store_part_inv b r :
  assembler_inv b -> ea_identity b = Some (identity_of r) -> record_wf r ->
  validate_energy_part r = Ok tt -> slot_of b r = None ->
  (forall s q, ea_summary (store_part b r) = Some s ->
     ea_quadrants (store_part b r) = Some q -> sample_rate_hz s = 0) ->
  assembler_inv (store_part b r).
Proof.
  intros I Hid Hwf Hv Hslot Hboth. split; [| | |exact Hboth];
    unfold store_part; destruct (is_summary r) eqn:E; simpl; try congruence.
  - intros s [= <-]. auto.
  - apply (ai_summary b I).
  - apply (ai_quadrants b I).
  - intros q [= <-]. auto.
Qed.

(** [accept] on a valid part, in terms of the held family. *)
Lemma accept_valid a r t :
  validate_energy_part r = Ok tt ->
  assembler_accept a r t =
    let incomplete := match ea_identity a with
      | Some i => if bool_decide (i = identity_of r) then 0 else b2z (0 <? pending_parts a)
      | None => 0 end in
    let b := hold_family a r in
    match slot_of b r with
    | Some held =>
        if bool_decide (words held = words r)
        then match ea_summary b, ea_quadrants b with
             | Some s, Some q =>
                 match decode_energy_family s q t with
                 | Ok v => (assembler_reset, Ok (mkAssemblyUpdate (Some v) incomplete true))
                 | Throw e => (b, Throw e) end
             | _, _ => (b, Ok (mkAssemblyUpdate None incomplete true)) end
        else (b, Throw (InvalidArgument "ENERGY-v1 duplicate part has different payload"))
    | None =>
        match ea_summary (store_part b r), ea_quadrants (store_part b r) with
        | Some s, Some q =>
            match decode_energy_family s q t with
            | Ok v => (assembler_reset, Ok (mkAssemblyUpdate (Some v) incomplete false))
            | Throw e => (store_part b r, Throw e) end
        | _, _ => (store_part b r, Ok (mkAssemblyUpdate None incomplete false)) end
    end.
Proof.
  intros Hv. unfold assembler_accept. rewrite (proj2 (identity_Ok r _) (conj Hv eq_refl)).
  assert (forall X Y : Z, (if match ea_identity a with
      | Some i => negb (bool_decide (i = identity_of r)) | None => false end then X else Y) =
    match ea_identity a with Some i => if bool_decide (i = identity_of r) then Y else X
      | None => Y end) as E
    by (intros; destruct (ea_identity a); [by destruct (bool_decide _)|done]).
  rewrite E. fold (hold_family a r). cbn zeta.
  destruct (slot_of (hold_family a r) r) as [held|]; [|done].
  by destruct (bool_decide _).
Qed.

Lemma accept_invalid a r t e :
  validate_energy_part r = Throw e -> assembler_accept a r t = (a, Throw e).
Proof.
  intros H. unfold assembler_accept, decode_energy_identity. by rewrite H.
Qed.

Definition has_part (a : EnergyFamilyAssembler) : Prop :=
  ea_identity a <> None -> is_Some (ea_summary a) \/ is_Some (ea_quadrants a).

Lemma reset_has_part : has_part assembler_reset.
Proof. intros H. by destruct H. Qed.

(** The states an assembler can be in: construction, [reset] and any sequence of
    [accept] calls, whether or not they threw. *)
Inductive assembler_reachable : EnergyFamilyAssembler -> Prop :=
  | reach_new : assembler_reachable assembler_reset
  | reach_accept a r t : assembler_reachable a -> record_wf r ->
      assembler_reachable (fst (assembler_accept a r t)).

Lemma pair_inv b s q :
  assembler_inv b -> ea_summary b = Some s -> ea_quadrants b = Some q ->
  identity_of s = identity_of q.
Proof.
  intros I Hs Hq. apply (ai_summary b I) in Hs as (_ & _ & _ & Hs).
  apply (ai_quadrants b I) in Hq as (_ & _ & _ & Hq). congruence.
Qed.

(** Both slots taken after a store: either the family decodes or its rate is zero. *)
Lemma stored_pair_throws b r s q t e :
  assembler_inv b -> ea_identity b = Some (identity_of r) -> record_wf r ->
  validate_energy_part r = Ok tt ->
  ea_summary (store_part b r) = Some s -> ea_quadrants (store_part b r) = Some q ->
  decode_energy_family s q t = Throw e -> sample_rate_hz s = 0.
Proof.
  intros I Hid Hwf Hv Hs Hq Hd. destruct (Z.eq_dec (sample_rate_hz s) 0) as [|Hr]; [done|].
  exfalso. unfold store_part in Hs, Hq. destruct (is_summary r) eqn:E; simpl in Hs, Hq.
  - injection Hs as ->. destruct (ai_quadrants b I q Hq) as (_ & Vq & Kq & Iq).
    destruct (family_decodes s q t) as [v Hv']; congruence.
  - injection Hq as ->. destruct (ai_summary b I s Hs) as (Ws & Vs & Ks & Is).
    destruct (family_decodes s q t) as [v Hv']; congruence.
Qed.

Lemma store_part_slots b r :
  is_Some (ea_summary (store_part b r)) \/ is_Some (ea_quadrants (store_part b r)).
Proof. unfold store_part. destruct (is_summary r); simpl; eauto. Qed.

Lemma slot_has_part b r held :
  slot_of b r = Some held -> is_Some (ea_summary b) \/ is_Some (ea_quadrants b).
Proof. unfold slot_of. destruct (is_summary r); intros ->; eauto. Qed.

Lemma accept_inv a r t :
  assembler_inv a -> has_part a -> record_wf r ->
  assembler_inv (fst (assembler_accept a r t)) /\ has_part (fst (assembler_accept a r t)).
Proof.
  intros I Hp Hwf. destruct (validate_energy_part r) as [[]|e] eqn:Hv;
    [|by rewrite (accept_invalid a r t e Hv)].
  rewrite accept_valid by done. cbn zeta.
  destruct (hold_family_inv a r I) as [Ib Hid]. set (b := hold_family a r) in *.
  assert (assembler_inv assembler_reset /\ has_part assembler_reset) as Hreset
    by (split; [apply assembler_reset_inv|apply reset_has_part]).
  destruct (slot_of b r) as [held|] eqn:Hs.
  - assert (assembler_inv b /\ has_part b) as Hb
      by (split; [done|intros _; by eapply slot_has_part]).
    destruct (bool_decide _), (ea_summary b), (ea_quadrants b); try done.
    by destruct (decode_energy_family _ _ _).
  - assert (has_part (store_part b r)) by (intros _; apply store_part_slots).
    destruct (ea_summary (store_part b r)) as [s|] eqn:Es,
      (ea_quadrants (store_part b r)) as [q|] eqn:Eq;
      try (split; [apply store_part_inv; try done; congruence|done]).
    destruct (decode_energy_family s q t) as [v|e] eqn:Ed; [done|].
    split; [|done]. apply store_part_inv; try done. intros s' q' H1 H2.
    assert (s' = s) as -> by congruence. exact (stored_pair_throws b r s q t e Ib Hid Hwf Hv Es Eq Ed).
Qed.

Lemma reachable_inv a : assembler_reachable a -> assembler_inv a /\ has_part a.
Proof.
  induction 1 as [|a r t _ [I Hp] Hwf];
    [split; [apply assembler_reset_inv|apply reset_has_part]|].
  by apply accept_inv.
Qed.

Lemma family_ok_facts s q t v :
  decode_energy_family s q t = Ok v -> identity_of s = identity_of q /\ sample_rate_hz s <> 0.
Proof.
  intros H. unfold decode_energy_family in H. cbn zeta in H.
  apply bind_Ok in H as (? & [_ ->]%identity_Ok & H).
  apply bind_Ok in H as (? & [_ ->]%identity_Ok & H).
  apply bind_Ok in H as ([] & _ & H). apply bind_Ok in H as ([] & _ & H).
  apply bind_Ok in H as ([] & Hid & H). apply require_Ok, bool_decide_eq_true in Hid.
  apply bind_Ok in H as (w & Hw & _). unfold source_window in Hw.
  apply bind_Ok in Hw as ([] & Hw & _). apply require_Ok in Hw. by bools.
Qed.

Lemma incomplete_spec a r :
  has_part a ->
  match ea_identity a with
  | Some i => if bool_decide (i = identity_of r) then 0 else b2z (0 <? pending_parts a)
  | None => 0 end = 1 <-> exists i, ea_identity a = Some i /\ i <> identity_of r.
Proof.
  intros Hp. unfold has_part, pending_parts in *. destruct (ea_identity a) as [i|]; [|naive_solver].
  case_bool_decide as E; [naive_solver|]. split; [naive_solver|]. intros _.
  destruct Hp as [[s ->]|[q ->]]; [done|..]; simpl; by case_bool_decide.
Qed.

(** Checking the identity never adds a part. *)
Lemma hold_family_slots a r :
  (forall s, ea_summary (hold_family a r) = Some s -> ea_summary a = Some s) /\
  (forall q, ea_quadrants (hold_family a r) = Some q -> ea_quadrants a = Some q).
Proof.
  unfold hold_family. destruct (ea_identity a) as [i|] eqn:E; [|by rewrite E].
  destruct (bool_decide _); simpl; [by rewrite E|done].
Qed.

Lemma one_part_pending a r held :
  slot_of a r = Some held -> (ea_summary a = None \/ ea_quadrants a = None) ->
  pending_parts a = 1.
Proof.
  unfold slot_of, pending_parts. intros H Hn.
  destruct (ea_summary a), (ea_quadrants a), (is_summary r); naive_solver.
Qed.

Lemma store_part_slot b r : slot_of (store_part b r) r = Some r.
Proof. unfold slot_of, store_part. by destruct (is_summary r). Qed.

Lemma store_part_identity b r : ea_identity (store_part b r) = ea_identity b.
Proof. unfold store_part. by destruct (is_summary r). Qed.

Lemma store_part_pair b r s q :
  ea_summary (store_part b r) = Some s -> ea_quadrants (store_part b r) = Some q ->
  (s = r /\ ea_quadrants b = Some q) \/ (q = r /\ ea_summary b = Some s).
Proof. unfold store_part. destruct (is_summary r); simpl; naive_solver. Qed.

(** ** Properties *)

(** A decoded energy family carries exactly the counters of its two parts.  The 28
    flat counters are the summary's import, export and apparent doublewords followed by
    the quadrant record's four reactive groups, each in phase A, B, C, total order, all
    within the signed 64-bit range; both parts have the same family identity; and a
    counter is [valid] exactly when the record's category mask marks it and no counter
    saturated. *)
Theorem energy_family_counters s q t v :
  record_wf s -> record_wf q -> decode_energy_family s q t = Ok v ->
  flatten_energy_counters v =
    map (fun i => unsigned64 s (16 + 2 * i)) (seq 0 12) ++
    map (fun i => unsigned64 q (16 + 2 * i)) (seq 0 16) /\
  Forall (fun c => 0 <= c <= INT64_MAX) (flatten_energy_counters v) /\
  identity_of s = identity_of q /\ en_session_id v = energy_session_id s /\
  en_last_sample_index v = energy_last_sample_index s /\
  (forall i, (i < 4)%nat ->
     (rm_quality <$> metas_abct (en_active_import v)) !! i = Some valid <->
     bit (energy_category_valid_mask s) (Z.of_nat i) = true /\ energy_saturated s = false).
Proof.
  intros Ws Wq H. unfold decode_energy_family in H. cbn zeta in H.
  apply bind_Ok in H as (? & [Vs ->]%identity_Ok & H).
  apply bind_Ok in H as (? & [Vq ->]%identity_Ok & H).
  apply bind_Ok in H as ([] & _ & H). apply bind_Ok in H as ([] & _ & H).
  apply bind_Ok in H as ([] & Hid & H). apply require_Ok, bool_decide_eq_true in Hid.
  apply bind_Ok in H as (w & _ & H).
  repeat (apply bind_Ok in H as (? & (?V & ?B & ?Q)%counter_group_values & H)).
  injection H as <-. unfold flatten_energy_counters.
  cbn [en_active_import en_active_export en_apparent en_reactive_i en_reactive_ii
    en_reactive_iii en_reactive_iv en_session_id en_last_sample_index].
  split; [by rewrite V, V0, V1, V2, V3, V4, V5|]. split.
  { rewrite !Forall_app. split_and!; (eapply group_range; [|eassumption|eassumption]; assumption). }
  split; [done|]. split; [done|]. split; [done|]. intros i Hi.
  rewrite <- counter_quality_valid, <- (quality_at (fun index => counter_quality
    (bit (energy_category_valid_mask s) (Z.of_nat index)) (energy_saturated s)) i Hi).
  by rewrite <- Q.
Qed.

(** A valid ENERGY-v1 part for the witnesses. *)
Definition energy_example (part : Z) (sequence_ : Z) (extra : list (Z * Z)) : MeterRecord :=
  build_record ([(0, meter_record_magic); (1, meter_energy_format); (2, meter_record_size);
     (3, sequence_); (4, 1); (5, 128000); (6, 25600); (7, 127); (8, 2); (9, 1000);
     (13, part + 2 * 4 + 16 + 15 * 256); (14, 26599); (48, 77); (50, 25600); (54, 1)] ++ extra).

Definition summary_example : MeterRecord := energy_example 0 5 [(16, 100); (22, 100)].
Definition quadrants_example : MeterRecord := energy_example 1 5 [(24, 7)].

Lemma energy_family_counters_witness :
  exists v, decode_energy_family summary_example quadrants_example 9 = Ok v /\
    nth 16 (flatten_energy_counters v) 0 = 7 /\
    identity_of summary_example = identity_of quadrants_example.
Proof.
  destruct (decode_energy_family summary_example quadrants_example 9) as [v|e] eqn:E;
    [|vm_compute in E; discriminate].
  destruct (energy_family_counters summary_example quadrants_example 9 v)
    as (Hc & _ & Hid & _); [apply record_wfb_iff; vm_compute; reflexivity..|exact E|].
  exists v. split; [done|]. split; [rewrite Hc; reflexivity|done].
Defined.

(** (C27) Energy families are published atomically.  In every reachable state of the
    assembler, a successful [accept] either completes a family, and then the published
    values decode the accepted part together with the other part the assembler already
    held, of the opposite kind and with the identical family identity, and the assembler
    is empty again; or it holds exactly one part, of the accepted part's family.  An
    incomplete family is reported exactly when a held part of a different family is
    discarded. *)
Theorem assembler_atomic a r t a' u :
  assembler_reachable a -> record_wf r -> assembler_accept a r t = (a', Ok u) ->
  match au_completed u with
  | Some v =>
      a' = assembler_reset /\
      exists s q, decode_energy_family s q t = Ok v /\ identity_of s = identity_of q /\
        ((s = r /\ ea_quadrants a = Some q) \/ (q = r /\ ea_summary a = Some s))
  | None => pending_parts a' = 1 /\ ea_identity a' = Some (identity_of r)
  end /\
  (au_incomplete_families u = 1 <->
     exists i, ea_identity a = Some i /\ i <> identity_of r).
Proof.
  intros Hr Hwf H. destruct (reachable_inv a Hr) as [I Hp].
  destruct (validate_energy_part r) as [[]|e] eqn:Hv; [|by rewrite (accept_invalid a r t e Hv) in H].
  rewrite accept_valid in H by done. cbn zeta in H.
  rewrite <- (incomplete_spec a r Hp). destruct (hold_family_inv a r I) as [Ib Hid].
  destruct (hold_family_slots a r) as [Fs Fq]. set (b := hold_family a r) in *.
  destruct (slot_of b r) as [held|] eqn:Hs.
  - destruct (bool_decide _); [|done].
    destruct (ea_summary b) as [s|] eqn:Es, (ea_quadrants b) as [q|] eqn:Eq.
    { destruct (decode_energy_family s q t) as [v|] eqn:Ed; [|done].
      apply family_ok_facts in Ed as [_ []]. by eapply ai_both. }
    all: injection H as <- <-; split; [|done]; split; [|done];
      eapply one_part_pending; [eassumption|]; auto.
  - destruct (ea_summary (store_part b r)) as [s|] eqn:Es,
      (ea_quadrants (store_part b r)) as [q|] eqn:Eq.
    { destruct (decode_energy_family s q t) as [v|] eqn:Ed; [|done].
      injection H as <- <-. split; [|done]. split; [done|]. exists s, q.
      split; [done|]. split; [by destruct (family_ok_facts _ _ _ _ Ed)|].
      destruct (store_part_pair b r s q Es Eq) as [[-> H]|[-> H]]; auto. }
    all: injection H as <- <-; (split; [|done]);
      (split; [eapply one_part_pending; [apply store_part_slot|auto]
              |by rewrite store_part_identity]).
Qed.

(** The state after the quadrant part of the example family. *)
Definition held_example : EnergyFamilyAssembler :=
  mkAssembler (Some (identity_of quadrants_example)) None (Some quadrants_example).

Lemma held_example_reachable : assembler_reachable held_example.
Proof.
  assert (fst (assembler_accept assembler_reset quadrants_example 3) = held_example) as <-
    by (vm_compute; reflexivity).
  apply reach_accept; [apply reach_new|apply record_wfb_iff; vm_compute; reflexivity].
Qed.

Lemma assembler_atomic_witness :
  exists u v s q, assembler_accept held_example summary_example 4 = (assembler_reset, Ok u) /\
    au_completed u = Some v /\ decode_energy_family s q 4 = Ok v /\
    identity_of s = identity_of q.
Proof.
  assert (exists u v, assembler_accept held_example summary_example 4 =
    (assembler_reset, Ok u) /\ au_completed u = Some v) as (u & v & E & Ev)
    by (do 2 eexists; split; [vm_compute; reflexivity|reflexivity]).
  pose proof (assembler_atomic held_example summary_example 4 assembler_reset u
    held_example_reachable) as H.
  destruct H as [H _]; [apply record_wfb_iff; vm_compute; reflexivity|exact E|].
  rewrite Ev in H. destruct H as (_ & s & q & Hd & Hid & _).
  exists u, v, s, q. auto.
Defined.

(** The assembler completes a family in either order and with repeated parts.
    From any reachable state that is not already collecting this family, the two valid
    parts of a family with a nonzero sample rate complete it with the values of the
    family decoder, summary first or quadrants first, and repeating the first part
    changes nothing but the duplicate flag. *)
Theorem assembler_completes a s q t0 t1 t2 :
  assembler_reachable a -> ea_identity a <> Some (identity_of s) ->
  record_wf s -> record_wf q ->
  validate_energy_part s = Ok tt -> validate_energy_part q = Ok tt ->
  is_summary s = true -> is_summary q = false -> identity_of s = identity_of q ->
  sample_rate_hz s <> 0 ->
  exists v, decode_energy_family s q t2 = Ok v /\
    forall first second, (first, second) = (s, q) \/ (first, second) = (q, s) ->
    exists held u0 u1,
      assembler_accept a first t0 = (held, Ok u0) /\ au_completed u0 = None /\
      assembler_accept held first t1 = (held, Ok u1) /\ au_completed u1 = None /\
      au_duplicate_part u1 = true /\
      assembler_accept held second t2 =
        (assembler_reset, Ok (mkAssemblyUpdate (Some v) 0 false)).
Proof.
  intros Hr Hne Ws Wq Vs Vq Ks Kq Hid Hrate.
  destruct (reachable_inv a Hr) as [I _].
  destruct (family_decodes s q t2 Ws Vs Vq Ks Kq Hid Hrate) as [v Hv].
  exists v. split; [done|].
  intros first second Hfs.
  assert (validate_energy_part first = Ok tt /\ validate_energy_part second = Ok tt /\
    identity_of first = identity_of s /\ identity_of second = identity_of s /\
    is_summary second = negb (is_summary first)) as (V1 & V2 & E1 & E2 & K)
    by (destruct Hfs as [[= -> ->]|[= -> ->]]; rewrite ?Ks, ?Kq; auto).
  set (held := if is_summary first then mkAssembler (Some (identity_of s)) (Some first) None
               else mkAssembler (Some (identity_of s)) None (Some first)).
  assert (hold_family a first = mkAssembler (Some (identity_of s)) None None) as Hh.
  { unfold hold_family. rewrite E1. destruct (ea_identity a) as [i|] eqn:Ei.
    - rewrite bool_decide_eq_false_2 by congruence. done.
    - rewrite Ei. by destruct (ai_empty a I Ei) as [-> ->]. }
  assert (hold_family held first = held /\ hold_family held second = held) as [Hh1 Hh2].
  { unfold hold_family, held. rewrite E1, E2.
    destruct (is_summary first); simpl; by rewrite bool_decide_eq_true_2. }
  exists held. do 2 eexists. rewrite !accept_valid by done. cbn zeta. rewrite Hh, Hh1, Hh2.
  unfold slot_of, store_part. rewrite K. unfold held. rewrite E2.
  destruct (is_summary first) eqn:K1; simpl;
    rewrite ?(bool_decide_eq_true_2 (_ = _)) by done; repeat (split; [reflexivity|]).
  - destruct Hfs as [[= -> ->]|[= -> ->]]; [by rewrite Hv|congruence].
  - destruct Hfs as [[= -> ->]|[= -> ->]]; [congruence|by rewrite Hv].
Qed.

Lemma assembler_completes_witness :
  exists v, decode_energy_family summary_example quadrants_example 5 = Ok v /\
    exists held u0, assembler_accept assembler_reset quadrants_example 3 = (held, Ok u0) /\
      assembler_accept held summary_example 5 =
        (assembler_reset, Ok (mkAssemblyUpdate (Some v) 0 false)).
Proof.
  destruct (assembler_completes assembler_reset summary_example quadrants_example 3 4 5)
    as (v & Hv & H);
    [apply reach_new|discriminate|apply record_wfb_iff; vm_compute; reflexivity
    |apply record_wfb_iff; vm_compute; reflexivity|vm_compute; reflexivity
    |vm_compute; reflexivity|vm_compute; reflexivity|vm_compute; reflexivity
    |vm_compute; reflexivity|vm_compute; discriminate|].
  exists v. split; [done|].
  destruct (H quadrants_example summary_example (or_intror eq_refl))
    as (held & u0 & _ & H0 & _ & _ & _ & _ & H2).
  exists held, u0. auto.
Defined.

(** The flat counter array and the structured values are two views of the same
    counters: assigning 28 counters and flattening returns them, flattening and
    assigning back leaves the values unchanged, and assignment touches no quality,
    provenance or session field. *)
Theorem energy_counters_roundtrip v counters :
  length counters = energy_counter_count ->
  flatten_energy_counters (assign_energy_counters v counters) = counters /\
  assign_energy_counters v (flatten_energy_counters v) = v /\
  metas_abct (en_active_import (assign_energy_counters v counters)) =
    metas_abct (en_active_import v) /\
  en_session_id (assign_energy_counters v counters) = en_session_id v.
Proof.
  intros Hl. split; [|split; [|done]].
  - do 28 (destruct counters as [|? counters]; [discriminate Hl|]).
    destruct counters; [reflexivity|discriminate Hl].
  - destruct v as [g1 g2 g3 g4 g5 g6 g7 ?]. unfold assign_energy_counters, flatten_energy_counters.
    cbn [en_active_import en_active_export en_apparent en_reactive_i en_reactive_ii
      en_reactive_iii en_reactive_iv].
    f_equal; unfold copy_group;
      match goal with |- _ = ?g => destruct g as [[] [] [] []] end; reflexivity.
Qed.

Lemma energy_counters_roundtrip_witness :
  exists v, decode_energy_family summary_example quadrants_example 9 = Ok v /\
  flatten_energy_counters (assign_energy_counters v (map Z.of_nat (seq 0 28))) =
    map Z.of_nat (seq 0 28).
Proof.
  destruct (decode_energy_family summary_example quadrants_example 9) as [v|e] eqn:E;
    [|vm_compute in E; discriminate].
  exists v. split; [done|]. apply (energy_counters_roundtrip v (map Z.of_nat (seq 0 28))).
  reflexivity.
Defined.

Definition interval_valid (r : MeterRecord) : bool :=
  (bool_decide (demand_method_of (demand_method r) = sliding) || demand_time_aligned r) &&
  demand_boundary_valid r && negb (demand_contaminated r).

Lemma validate_demand_profile r :
  validate_demand r = Ok tt ->
  (demand_method_of (demand_method r) = fixed_block /\ demand_interval_seconds r = 600 /\
   demand_update_seconds r = 600) \/
  (demand_method_of (demand_method r) = sliding /\
   demand_interval_seconds r ∈ [60; 300; 600; 900; 1800] /\ demand_update_seconds r = 3).
Proof.
  intros H. unfold validate_demand, require_arg in H. cbn zeta in H.
  do 4 (apply bind_Ok in H as ([] & ?H & H)). clear H. unfold demand_method_of.
  destruct (Z.eqb_spec (demand_method r) 0); apply require_Ok in H3; bools;
    [left|right]; (split; [done|]); [auto|].
  split; [|done]. rewrite !elem_of_cons, elem_of_nil. lia.
Qed.

(** A decoded demand record obeys its profile.  The method is fixed-block with a
    600 s window updated every 600 s, or sliding with one of the five windows updated
    every 3 s; the demand of a phase is valid exactly when the interval is (aligned
    unless sliding, with a valid boundary and not contaminated), the record's mask marks
    the phase and nothing saturated; and the published peaks are the record's
    doublewords, within the signed 64-bit range. *)
Theorem demand_decode_correct r t u :
  record_wf r -> decode_demand_meter_record r t = Ok u ->
  mu_period u = Demand /\ exists d, mu_demand u = Some d /\
    ((de_method d = fixed_block /\ de_window_seconds d = 600 /\ de_update_seconds d = 600) \/
     (de_method d = sliding /\ de_window_seconds d ∈ [60; 300; 600; 900; 1800] /\
      de_update_seconds d = 3)) /\
    (forall i, (i < 4)%nat ->
       (rm_quality <$> metas_abct (de_current_active d)) !! i = Some valid <->
       (de_method d = sliding \/ de_time_aligned d = true) /\ de_boundary_valid d = true /\
       de_contaminated d = false /\ bit (demand_valid_mask r) (Z.of_nat i) = true /\
       de_saturated d = false) /\
    flatten_demand_values (de_import_peak d) = map (fun i => unsigned64 r (24 + 2 * i)) (seq 0 4) /\
    flatten_demand_values (de_export_peak d) = map (fun i => unsigned64 r (32 + 2 * i)) (seq 0 4) /\
    Forall (fun v => 0 <= v <= INT64_MAX)
      (flatten_demand_values (de_import_peak d) ++ flatten_demand_values (de_export_peak d)).
Proof.
  intros Hwf H. unfold decode_demand_meter_record in H. cbn zeta in H.
  apply bind_Ok in H as ([] & Hval & H). apply bind_Ok in H as (w & _ & H).
  apply bind_Ok in H as (cur & Hcur & H).
  apply bind_Ok in H as (imp & (Vi & Bi & _)%counter_group_values & H).
  apply bind_Ok in H as (exp & (Ve & Be & _)%counter_group_values & H).
  apply bind_Ok in H as (ai & _ & H). apply bind_Ok in H as (ae & _ & H). injection H as <-.
  unfold phase_total in Hcur. cbn [mbind result_bind] in Hcur. apply Ok_inj in Hcur as <-.
  split; [done|]. eexists. split; [reflexivity|].
  cbn [de_method de_window_seconds de_update_seconds de_current_active de_time_aligned
    de_boundary_valid de_contaminated de_saturated de_import_peak de_export_peak].
  unfold flatten_demand_values. split; [by apply validate_demand_profile|]. split.
  - intros i Hi. transitivity (Some (counter_quality (interval_valid r &&
      bit (demand_valid_mask r) (Z.of_nat i)) (demand_saturated r)) = Some valid).
    { destruct i as [|[|[|[|i]]]]; [reflexivity..|lia]. }
    rewrite counter_quality_valid. unfold interval_valid.
    rewrite !andb_true_iff, orb_true_iff, negb_true_iff, bool_decide_eq_true. tauto.
  - split; [exact Vi|]. split; [exact Ve|]. apply Forall_app.
    split; [by apply (group_range r imp 24)|by apply (group_range r exp 32)].
Qed.

Definition demand_example : MeterRecord :=
  build_record [(0, meter_record_magic); (1, meter_demand_format); (2, meter_record_size); (3, 5);
    (4, 1); (5, 128000); (6, 384000); (7, 127); (8, 0x12); (9, 1000);
    (13, 60 + 15 * 65536 + 1048576 + 3 * 4194304); (14, 385000); (16, 500); (24, 900);
    (56, 77); (62, 1)].

Lemma demand_decode_correct_witness :
  exists u d, decode_demand_meter_record demand_example 9 = Ok u /\ mu_demand u = Some d /\
    de_window_seconds d = 60 /\ nth 0 (flatten_demand_values (de_import_peak d)) 0 = 900.
Proof.
  assert (exists u, decode_demand_meter_record demand_example 9 = Ok u) as [u E]
    by (eexists; vm_compute; reflexivity).
  destruct (demand_decode_correct demand_example 9 u) as (_ & d & Hd & _ & _ & Hi & _);
    [apply record_wfb_iff; vm_compute; reflexivity|exact E|].
  exists u, d. split; [done|]. split; [done|]. split; [|rewrite Hi; reflexivity].
  vm_compute in E. injection E as <-. injection Hd as <-. reflexivity.
Defined.
