(* ===== verification/DecoderRegistry.v ===== *)
(** * Decoder registry

    Models [MeterDecoderRegistry] of [common/msap1/meter/meter_data.cpp]: a map from
    record format to decoder, its registration rules and the built-in table, and the
    dispatch every ingested record goes through. *)
From stdpp Require Import gmap.
From S2P Require Import Prelude.
From S2P Require Import MeterTiming.
From S2P Require Import RecordFormat.
From S2P Require Import MeterRecord.
From S2P Require Import MeterData.
From S2P Require Import DecodeCommon.
From S2P Require Import DecodeBlocks.
From S2P Require Import DecodePower.
From S2P Require Import DecodeFrequency.
From S2P Require Import EnergyDemand.

Definition Decoder : Type := MeterRecord -> Z -> result MeterUpdate.

Record MeterDecoderRegistry := mkRegistry { decoders_ : gmap Z Decoder }.

Definition empty_registry : MeterDecoderRegistry := mkRegistry ∅.

(** [None] is an empty [std::function]. *)
Definition register_decoder (registry : MeterDecoderRegistry) (record_format : Z)
    (decoder : option Decoder) : result MeterDecoderRegistry :=
  match decoder with
  | None => Throw (InvalidArgument "meter record decoder is empty")
  | Some decoder =>
      match decoders_ registry !! record_format with
      | Some _ => Throw (InvalidArgument "duplicate meter record decoder")
      | None => Ok (mkRegistry (<[record_format := decoder]> (decoders_ registry)))
      end
  end.

Definition registry_decode (registry : MeterDecoderRegistry) (record : MeterRecord)
    (received_at : Z) : result MeterUpdate :=
  match decoders_ registry !! word record 1 with
  | None => Throw (InvalidArgument "unsupported meter record format")
  | Some decoder => decoder record received_at
  end.

(** The registrations of [with_builtin_decoders], in order. *)
Definition builtin_decoders : list (Z * Decoder) := [
  (meter_frequency_10s_format, decode_frequency_10s_meter_record);
  (meter_demand_format, decode_demand_meter_record);
  (meter_power_format, decode_power_meter_record);
  (meter_phasor_format, decode_phasor_meter_record);
  (meter_unbalance_format, decode_unbalance_meter_record);
  (meter_aggregate_power_format, decode_aggregate_power_meter_record);
  (meter_aggregate_phasor_format, decode_aggregate_phasor_meter_record);
  (meter_aggregate_unbalance_format, decode_aggregate_unbalance_meter_record);
  (meter_ten_minute_power_format, decode_ten_minute_power_meter_record);
  (meter_ten_minute_phasor_format, decode_ten_minute_phasor_meter_record);
  (meter_ten_minute_unbalance_format, decode_ten_minute_unbalance_meter_record);
  (meter_two_hour_power_format, decode_two_hour_power_meter_record);
  (meter_two_hour_phasor_format, decode_two_hour_phasor_meter_record);
  (meter_two_hour_unbalance_format, decode_two_hour_unbalance_meter_record);
  (meter_ten_minute_open_power_format, decode_ten_minute_open_power_meter_record);
  (meter_ten_minute_open_phasor_format, decode_ten_minute_open_phasor_meter_record);
  (meter_ten_minute_open_unbalance_format, decode_ten_minute_open_unbalance_meter_record);
  (meter_two_hour_open_power_format, decode_two_hour_open_power_meter_record);
  (meter_two_hour_open_phasor_format, decode_two_hour_open_phasor_meter_record);
  (meter_two_hour_open_unbalance_format, decode_two_hour_open_unbalance_meter_record);
  (meter_periodic_format, decode_periodic_meter_record);
  (meter_aggregate_format, decode_aggregate_meter_record);
  (meter_ten_minute_format, decode_ten_minute_meter_record);
  (meter_two_hour_format, decode_two_hour_meter_record);
  (meter_ten_minute_open_format, decode_ten_minute_open_meter_record);
  (meter_two_hour_open_format, decode_two_hour_open_meter_record)].

Fixpoint register_all (registry : MeterDecoderRegistry) (l : list (Z * Decoder))
  : result MeterDecoderRegistry :=
  match l with
  | [] => Ok registry
  | (format, decoder) :: l =>
      registry ← register_decoder registry format (Some decoder);
      register_all registry l
  end.

Definition with_builtin_decoders : result MeterDecoderRegistry :=
  register_all empty_registry builtin_decoders.

(** ** Lemmas *)

Lemma register_all_ok l registry :
  NoDup l.*1 -> (forall f, f ∈ l.*1 -> decoders_ registry !! f = None) ->
  exists registry', register_all registry l = Ok registry' /\
    forall f, decoders_ registry' !! f =
      match find (fun p => fst p =? f) l with
      | Some (_, d) => Some d
      | None => decoders_ registry !! f end.
Proof.
  revert registry. induction l as [|[f0 d0] l IH]; intros registry Hnd Hfresh; simpl.
  - eexists. split; done.
  - cbn [fmap list_fmap fst] in Hnd, Hfresh.
    inversion Hnd as [|? ? Hnot Hnd']; subst. clear Hnd. rename Hnd' into Hnd.
    rewrite (Hfresh f0) by (simpl; set_solver). cbn [mbind result_bind].
    destruct (IH (mkRegistry (<[f0 := d0]> (decoders_ registry))) Hnd) as (reg & -> & Hreg).
    { intros f Hf. simpl. rewrite lookup_insert_ne by set_solver. apply Hfresh. simpl. set_solver. }
    exists reg. split; [done|]. intros f. rewrite Hreg. simpl.
    destruct (Z.eqb_spec f0 f) as [->|Hne].
    + destruct (find _ l) as [[f' d']|] eqn:Ef; [|by rewrite lookup_insert_eq].
      apply find_some in Ef as [Hin E]. simpl in E. apply Z.eqb_eq in E as ->.
      exfalso. apply Hnot, list_elem_of_In, (in_map fst _ _ Hin).
    + by rewrite lookup_insert_ne.
Qed.

(** The period and kind a successfully decoded record of each format reports. *)
Definition format_tag (format : Z) : option (MeasurementPeriod * RecordKind) :=
  snd <$> find (fun p => fst p =? format) [
    (meter_frequency_10s_format, (Seconds10, kind_frequency_10s));
    (meter_demand_format, (Demand, kind_demand));
    (meter_power_format, (Basic, kind_power));
    (meter_phasor_format, (Basic, kind_phasor));
    (meter_unbalance_format, (Basic, kind_unbalance));
    (meter_aggregate_power_format, (Cycles150_180, kind_power));
    (meter_aggregate_phasor_format, (Cycles150_180, kind_phasor));
    (meter_aggregate_unbalance_format, (Cycles150_180, kind_unbalance));
    (meter_ten_minute_power_format, (Min10, kind_power));
    (meter_ten_minute_phasor_format, (Min10, kind_phasor));
    (meter_ten_minute_unbalance_format, (Min10, kind_unbalance));
    (meter_two_hour_power_format, (Hour2, kind_power));
    (meter_two_hour_phasor_format, (Hour2, kind_phasor));
    (meter_two_hour_unbalance_format, (Hour2, kind_unbalance));
    (meter_ten_minute_open_power_format, (Min10Live, kind_power));
    (meter_ten_minute_open_phasor_format, (Min10Live, kind_phasor));
    (meter_ten_minute_open_unbalance_format, (Min10Live, kind_unbalance));
    (meter_two_hour_open_power_format, (Hour2Live, kind_power));
    (meter_two_hour_open_phasor_format, (Hour2Live, kind_phasor));
    (meter_two_hour_open_unbalance_format, (Hour2Live, kind_unbalance));
    (meter_periodic_format, (Basic, kind_fundamental));
    (meter_aggregate_format, (Cycles150_180, kind_fundamental));
    (meter_ten_minute_format, (Min10, kind_fundamental));
    (meter_two_hour_format, (Hour2, kind_fundamental));
    (meter_ten_minute_open_format, (Min10Live, kind_fundamental));
    (meter_two_hour_open_format, (Hour2Live, kind_fundamental))].

Lemma format_tag_none f :
  find (fun p => fst p =? f) builtin_decoders = None -> format_tag f = None.
Proof.
  intros H. unfold format_tag, builtin_decoders in *. cbn [find fst] in *.
  repeat match goal with H : (if ?b then _ else _) = None |- _ => destruct b; [discriminate|] end.
  reflexivity.
Qed.

(** What every decoder of the table promises about the update it returns. *)
Definition decoder_contract (d : Decoder) (format : Z) (tag : MeasurementPeriod * RecordKind)
  : Prop :=
  forall r t u, d r t = Ok u ->
    header_valid r = true /\ record_format r = format /\ (mu_period u, mu_kind u) = tag /\
    mu_configuration_generation u = configuration_generation r.

(** Reads the contract off a successful run: peel the guards, then compare. *)
Ltac contract_tac :=
  intros r t u H; cbn zeta in H;
  apply bind_Ok in H as ([] & Hh & H); apply reject_if_Ok in Hh; bools;
  repeat (apply bind_Ok in H as (? & _ & H)); apply Ok_inj in H as <-; auto.

Lemma power_contract f p : decoder_contract (fun r t => decode_power_payload r t f p) f (p, kind_power).
Proof. unfold decode_power_payload. contract_tac. Qed.

Lemma phasor_contract f p :
  decoder_contract (fun r t => decode_phasor_payload r t f p) f (p, kind_phasor).
Proof. unfold decode_phasor_payload. contract_tac. Qed.

Lemma unbalance_contract f p :
  decoder_contract (fun r t => decode_unbalance_payload r t f p) f (p, kind_unbalance).
Proof. unfold decode_unbalance_payload. contract_tac. Qed.

Lemma open_contract f p :
  decoder_contract (fun r t => decode_open_interval_meter_record r t f p) f
    (p, kind_fundamental).
Proof. unfold decode_open_interval_meter_record. contract_tac. Qed.

Lemma periodic_contract :
  decoder_contract decode_periodic_meter_record meter_periodic_format (Basic, kind_fundamental).
Proof. unfold decode_periodic_meter_record. contract_tac. Qed.

Lemma aggregate_record_contract :
  decoder_contract decode_aggregate_meter_record meter_aggregate_format
    (Cycles150_180, kind_fundamental).
Proof. unfold decode_aggregate_meter_record. contract_tac. Qed.

Lemma ten_minute_contract :
  decoder_contract decode_ten_minute_meter_record meter_ten_minute_format
    (Min10, kind_fundamental).
Proof. unfold decode_ten_minute_meter_record. contract_tac. Qed.

Lemma two_hour_contract :
  decoder_contract decode_two_hour_meter_record meter_two_hour_format (Hour2, kind_fundamental).
Proof. unfold decode_two_hour_meter_record. contract_tac. Qed.

Lemma frequency_10s_contract :
  decoder_contract decode_frequency_10s_meter_record meter_frequency_10s_format
    (Seconds10, kind_frequency_10s).
Proof.
  unfold decode_frequency_10s_meter_record, frequency_10s_envelope.
  intros r t u H. cbn zeta in H. apply bind_Ok in H as ([] & Hh & H).
  apply bind_Ok in Hh as ([] & Hh & _). apply reject_if_Ok in Hh. bools.
  repeat (apply bind_Ok in H as (? & _ & H)). apply Ok_inj in H as <-. auto.
Qed.

Lemma demand_contract :
  decoder_contract decode_demand_meter_record meter_demand_format (Demand, kind_demand).
Proof.
  unfold decode_demand_meter_record, validate_demand, require_arg.
  intros r t u H. cbn zeta in H. apply bind_Ok in H as ([] & Hh & H).
  apply bind_Ok in Hh as ([] & Hh & _). apply require_Ok in Hh. bools.
  repeat (apply bind_Ok in H as (? & _ & H)). apply Ok_inj in H as <-. auto.
Qed.
(** Every row of the table satisfies its contract. *)
Lemma builtin_contracts :
  Forall (fun p => exists tag, format_tag (fst p) = Some tag /\
                   decoder_contract (snd p) (fst p) tag) builtin_decoders.
Proof.
  repeat (apply Forall_cons_2; [eexists; split; [vm_compute; reflexivity|]|]); [..|constructor];
    cbn [fst snd];
    first [ exact periodic_contract | exact aggregate_record_contract
          | exact ten_minute_contract | exact two_hour_contract | exact frequency_10s_contract
          | exact demand_contract | exact (power_contract _ _) | exact (phasor_contract _ _)
          | exact (unbalance_contract _ _) | exact (open_contract _ _) ].
Qed.

(** ** Properties *)

(** The built-in registry routes every record by its format word and nothing else.
    Building it never throws (no format is registered twice and no decoder is empty); a
    record whose format is not in the table is refused as unsupported; otherwise the
    result is that of the table's decoder, and a successful decode reports the period
    and kind that belong to the format and the record's configuration generation. *)
Theorem builtin_registry_routes r t :
  exists registry, with_builtin_decoders = Ok registry /\
    match format_tag (word r 1) with
    | None => registry_decode registry r t =
        Throw (InvalidArgument "unsupported meter record format")
    | Some tag =>
        exists d, (word r 1, d) ∈ builtin_decoders /\ registry_decode registry r t = d r t /\
          (forall u, registry_decode registry r t = Ok u ->
             (mu_period u, mu_kind u) = tag /\ header_valid r = true /\
             mu_configuration_generation u = configuration_generation r)
    end.
Proof.
  destruct (register_all_ok builtin_decoders empty_registry) as (reg & Hreg & Hl).
  { apply (bool_decide_unpack _). vm_compute. exact I. }
  { intros f _. apply lookup_empty. }
  exists reg. split; [exact Hreg|]. unfold registry_decode. rewrite Hl.
  destruct (find (fun p => fst p =? word r 1) builtin_decoders) as [[f d]|] eqn:Ef.
  - apply find_some in Ef as [Hin E]. cbn [fst] in E. apply Z.eqb_eq in E as <-.
    pose proof builtin_contracts as Hc. rewrite List.Forall_forall in Hc.
    destruct (Hc _ Hin) as (tag & Ht & Hd). cbn [fst snd] in Ht, Hd. rewrite Ht.
    exists d. split; [by apply list_elem_of_In|]. split; [done|]. intros u Hu.
    destruct (Hd r t u Hu) as (? & _ & ? & ?). auto.
  - rewrite (format_tag_none _ Ef). unfold empty_registry. cbn [decoders_].
    by rewrite lookup_empty.
Qed.

(** Registration is guarded: an empty decoder and a format that is already present
    are refused with the registry unchanged for every other format, and a successful
    registration adds exactly one route. *)
Theorem register_decoder_spec registry format decoder :
  match register_decoder registry format decoder with
  | Ok registry' =>
      exists d, decoder = Some d /\ decoders_ registry !! format = None /\
        forall r t, registry_decode registry' r t =
          if word r 1 =? format then d r t else registry_decode registry r t
  | Throw e =>
      (decoder = None /\ e = InvalidArgument "meter record decoder is empty") \/
      (is_Some (decoders_ registry !! format) /\
       e = InvalidArgument "duplicate meter record decoder")
  end.
Proof.
  unfold register_decoder. destruct decoder as [d|]; [|auto].
  destruct (decoders_ registry !! format) as [d'|] eqn:E; [eauto|].
  exists d. split; [done|]. split; [done|]. intros r t. unfold registry_decode.
  cbn [decoders_]. destruct (Z.eqb_spec (word r 1) format) as [->|Hne].
  - by rewrite lookup_insert_eq.
  - by rewrite lookup_insert_ne.
Qed.
