(* ===== verification/EnergyLedger.v ===== *)
(** * The energy and demand ledger

    Models [common/msap1/meter/energy_ledger.cpp]: conversion of the volatile session
    counters of the measurement processor into durable lifetime counters and demand
    peaks, administrative resets, and the SQLite rows that carry the state over a
    restart.

    The database is the content of the six tables the file creates.  A transaction of
    [mnc/storage/sqlite/sqlite_database.cpp] rolls back unless it commits, so a write is
    one atomic replacement of that content; whether SQLite completes it is the
    parameter [io] of an operation, and an operation that throws leaves the ledger
    unchanged. *)
From stdpp Require Import gmap.
From S2P Require Import Prelude.
From S2P Require Import MeterTiming.
From S2P Require Import RecordFormat.
From S2P Require Import MeterRecord.
From S2P Require Import MeterData.
From S2P Require Import DecodeCommon.
From S2P Require Import DecodeBlocks.
From S2P Require Import EnergyDemand.

(** ** Encodings of the rows *)

Definition encode_array (values : list Z) : list Z :=
  concat (map (fun value => le_bytes 8 (u64 value)) values).

(** [bytes] read back in groups of eight. *)
Fixpoint decode_words (count : nat) (bytes : list Z) : list Z :=
  match count with
  | O => []
  | S count => le_value (take 8 bytes) :: decode_words count (drop 8 bytes)
  end.

Definition decode_array (count : nat) (bytes : list Z) (name : string) : result (list Z) :=
  reject_if (negb (Nat.eqb (length bytes) (count * 8)))
    (RuntimeError (name +:+ " ledger blob size mismatch")) ;;
  Ok (map s64 (decode_words count bytes)).

Definition decode_u64 (count : nat) (bytes : list Z) (name : string) : result (list Z) :=
  reject_if (negb (Nat.eqb (length bytes) (count * 8)))
    (RuntimeError (name +:+ " ledger blob size mismatch")) ;;
  Ok (decode_words count bytes).

(** Text columns are lists of character codes. *)
Definition hex_digit (d : Z) : Z := if d <? 10 then 48 + d else 87 + d.

Definition hex64 (value : Z) : list Z :=
  map (fun i => hex_digit (Z.land (Z.shiftr value (4 * (15 - Z.of_nat i))) 15)) (seq 0 16).

Definition hex_value (c : Z) : option Z :=
  if (48 <=? c) && (c <=? 57) then Some (c - 48)
  else if (97 <=? c) && (c <=? 102) then Some (c - 87)
  else if (65 <=? c) && (c <=? 70) then Some (c - 55) else None.

(** [std::from_chars] with base 16 over the whole text: digits only, no overflow. *)
Fixpoint from_chars16 (acc : Z) (text : list Z) : option Z :=
  match text with
  | [] => Some acc
  | c :: text =>
      match hex_value c with
      | None => None
      | Some d => let acc := acc * 16 + d in
                  if UINT64_MAX <? acc then None else from_chars16 acc text
      end
  end.

Definition parse_hex64 (text : list Z) (name : string) : result Z :=
  match text, from_chars16 0 text with
  | _ :: _, Some value => Ok value
  | _, _ => Throw (RuntimeError (name +:+ " is not a uint64 hex value"))
  end.

(** [static_cast<std::byte>(quality)] and back; codes above 5 name no enumerator. *)
Definition quality_code (q : MeasurementQuality) : Z :=
  match q with
  | unavailable => 0 | valid => 1 | invalid => 2 | out_of_range => 3 | timed_out => 4
  | arithmetic_error => 5
  end.

Definition quality_of_code (c : Z) : MeasurementQuality :=
  nth (Z.to_nat c) [unavailable; valid; invalid; out_of_range; timed_out; arithmetic_error]
    arithmetic_error.

Definition group_qualities {U : Set} (g : PhaseABCTotal (Reading U)) : list Z :=
  [quality_code (r_quality (abct_a g)); quality_code (r_quality (abct_b g));
   quality_code (r_quality (abct_c g)); quality_code (r_quality (abct_total g))].

Definition energy_qualities (v : EnergyValues) : list Z :=
  group_qualities (en_active_import v) ++ group_qualities (en_active_export v) ++
  group_qualities (en_apparent v) ++ group_qualities (en_reactive_i v) ++
  group_qualities (en_reactive_ii v) ++ group_qualities (en_reactive_iii v) ++
  group_qualities (en_reactive_iv v).

Definition demand_qualities (v : DemandValues) : list Z :=
  group_qualities (de_current_active v) ++ group_qualities (de_import_peak v) ++
  group_qualities (de_export_peak v).

Definition set_quality {U : Set} (r : Reading U) (q : MeasurementQuality) : Reading U :=
  mkReading (r_value r) q (r_source_sequence r) (r_measured_at r) (r_window r).

Definition quality_group {U : Set} (codes : list Z) (g : PhaseABCTotal (Reading U)) (base : nat)
  : PhaseABCTotal (Reading U) :=
  let q (i : nat) := quality_of_code (nth (base + i) codes 0) in
  mkABCT (set_quality (abct_a g) (q 0%nat)) (set_quality (abct_b g) (q 1%nat))
    (set_quality (abct_c g) (q 2%nat)) (set_quality (abct_total g) (q 3%nat)).

(** Replaces the seven counter groups of a value, member by member. *)
Definition map_energy (f : forall U : Set, nat -> PhaseABCTotal (Reading U) ->
    PhaseABCTotal (Reading U)) (v : EnergyValues) : EnergyValues :=
  mkEnergy (f _ 0%nat (en_active_import v)) (f _ 4%nat (en_active_export v))
    (f _ 8%nat (en_apparent v)) (f _ 12%nat (en_reactive_i v)) (f _ 16%nat (en_reactive_ii v))
    (f _ 20%nat (en_reactive_iii v)) (f _ 24%nat (en_reactive_iv v))
    (en_session_id v) (en_last_sample_index v) (en_accepted_samples v) (en_skipped_samples v)
    (en_accepted_blocks v) (en_skipped_blocks v) (en_reset_epoch v) (en_saturated v)
    (en_incomplete_input v) (en_discontinuity v).

Definition assign_energy_qualities (v : EnergyValues) (codes : list Z) : result EnergyValues :=
  reject_if (negb (Nat.eqb (length codes) energy_counter_count))
    (RuntimeError "energy quality ledger blob size mismatch") ;;
  Ok (map_energy (fun U base g => quality_group codes g base) v).

(** The provenance loop of [load_energy]. *)
Definition stamp_group {U : Set} (source_sequence measured_at : Z) (window : SampleWindow)
    (g : PhaseABCTotal (Reading U)) : PhaseABCTotal (Reading U) :=
  let stamp (r : Reading U) :=
    mkReading (r_value r) (r_quality r) source_sequence measured_at window in
  mkABCT (stamp (abct_a g)) (stamp (abct_b g)) (stamp (abct_c g)) (stamp (abct_total g)).

Definition flatten_samples (v : PhaseABCTotal Z) : list Z :=
  [abct_a v; abct_b v; abct_c v; abct_total v].

Definition assign_samples (source : list Z) : PhaseABCTotal Z :=
  mkABCT (nth 0 source 0) (nth 1 source 0) (nth 2 source 0) (nth 3 source 0).

(** ** Arithmetic *)

Definition saturating_add (value delta : Z) (saturated : bool) : result (Z * bool) :=
  reject_if (delta <? 0) (LogicError "negative energy ledger delta") ;;
  if INT64_MAX - delta <? value then Ok (INT64_MAX, true) else Ok (value + delta, saturated).

Definition demand_magnitude (value : Z) (saturated : bool) : Z * bool :=
  if negb (value =? INT64_MIN) then (if value <? 0 then - value else value, saturated)
  else (INT64_MAX, true).

Definition sample_rate (window : SampleWindow) : Z :=
  if (sw_sample_count window =? 0) || (sw_duration window <=? 0) then 0
  else
    let rate := u64 (sw_sample_count window * 1000000000) / sw_duration window in
    if UINT32_MAX <? rate then 0 else rate.

Definition same_window (left right : SampleWindow) : bool :=
  (sw_sample_count left =? sw_sample_count right) && (sw_duration left =? sw_duration right).

(** ** State *)

Record ResetRequest := mkResetRequest {
  rq_expected_epoch : Z;
  rq_idempotency_key : string;
  rq_actor : string;
  rq_request_id : string;
  rq_requested_at_nanoseconds : Z
}.

Record ResetResult := mkResetResult { rr_epoch : Z; rr_replayed : bool }.

Definition validate_reset (request : ResetRequest) : result unit :=
  reject_if (String.eqb (rq_idempotency_key request) "" ||
             String.eqb (rq_actor request) "" || String.eqb (rq_request_id request) "")
    (InvalidArgument "reset requires idempotency key, actor, and request ID").

Record EnergyState := mkEnergyState {
  es_epoch : Z;
  es_session_id : Z;
  es_source_sequence : Z;
  es_generation : Z;
  es_session_counters : list Z;
  es_lifetime_counters : list Z
}.

Record DemandState := mkDemandState {
  ds_epoch : Z;
  ds_session_id : Z;
  ds_source_sequence : Z;
  ds_generation : Z;
  ds_method : DemandMethod;
  ds_window_seconds : Z;
  ds_update_seconds : Z;
  ds_profile_generation : Z;
  ds_current : list Z;
  ds_raw_import : list Z;
  ds_raw_export : list Z;
  ds_baseline_import : list Z;
  ds_baseline_export : list Z;
  ds_authoritative_import : list Z;
  ds_authoritative_export : list Z;
  ds_import_anchors : list Z;
  ds_export_anchors : list Z
}.

Definition zeros (n : nat) : list Z := replicate n 0.

Definition new_energy_state : EnergyState :=
  mkEnergyState 0 0 0 0 (zeros energy_counter_count) (zeros energy_counter_count).
Definition new_demand_state : DemandState :=
  mkDemandState 0 0 0 0 sliding 0 0 0 (zeros 4) (zeros 4) (zeros 4) (zeros 4) (zeros 4)
    (zeros 4) (zeros 4) (zeros 4) (zeros 4).

(** The row of [energy_state]. *)
Record EnergyRow := mkEnergyRow {
  erow_epoch : Z;
  erow_session_id : list Z;
  erow_source_sequence : Z;
  erow_generation : Z;
  erow_session_counters : list Z;
  erow_lifetime_counters : list Z;
  erow_qualities : list Z;
  erow_last_sample : list Z;
  erow_accepted_samples : list Z;
  erow_skipped_samples : list Z;
  erow_accepted_blocks : Z;
  erow_skipped_blocks : Z;
  erow_flags : Z;
  erow_sample_count : Z;
  erow_sample_rate : Z;
  erow_updated_ns : Z
}.

(** The row of [demand_state_profiled]. *)
Record DemandRow := mkDemandRow {
  drow_epoch : Z;
  drow_session_id : list Z;
  drow_source_sequence : Z;
  drow_generation : Z;
  drow_current_values : list Z;
  drow_raw_import : list Z;
  drow_raw_export : list Z;
  drow_baseline_import : list Z;
  drow_baseline_export : list Z;
  drow_authoritative_import : list Z;
  drow_authoritative_export : list Z;
  drow_import_anchors : list Z;
  drow_export_anchors : list Z;
  drow_qualities : list Z;
  drow_last_sample : list Z;
  drow_target_sample : list Z;
  drow_source_count : Z;
  drow_source_status : Z;
  drow_flags : Z;
  drow_sample_count : Z;
  drow_sample_rate : Z;
  drow_updated_ns : Z;
  drow_method : Z;
  drow_window_seconds : Z;
  drow_update_seconds : Z;
  drow_profile_generation : Z
}.

Record AuditRow := mkAuditRow {
  audit_request_id : string;
  audit_actor : string;
  audit_requested_ns : Z;
  audit_previous_epoch : Z;
  audit_resulting_epoch : Z
}.

Record EnergyHistoryRow := mkEnergyHistoryRow {
  eh_captured_ns : Z; eh_epoch : Z; eh_counters : list Z; eh_qualities : list Z; eh_flags : Z }.

Record DemandHistoryRow := mkDemandHistoryRow {
  dh_captured_ns : Z; dh_epoch : Z; dh_current : list Z; dh_import : list Z; dh_export : list Z;
  dh_qualities : list Z; dh_flags : Z; dh_method : Z; dh_window : Z; dh_update : Z }.

Record LedgerDatabase := mkDatabase {
  db_energy : option EnergyRow;
  db_demand : option DemandRow;
  db_energy_audit : gmap string AuditRow;
  db_demand_audit : gmap string AuditRow;
  db_energy_history : gmap (list Z * list Z) EnergyHistoryRow;
  db_demand_history : gmap (list Z * Z * list Z) DemandHistoryRow
}.

Record EnergyLedger := mkLedger {
  el_database : LedgerDatabase;
  el_latest_energy : option EnergyValues;
  el_latest_demand : option DemandValues;
  el_energy_state : EnergyState;
  el_demand_state : DemandState
}.

(** [Statement::bind(int, std::uint64_t)] *)
Definition bind_u64 (value : Z) : result Z :=
  reject_if (INT64_MAX <? value)
    (OverflowError "SQLite integer exceeds signed 64-bit range") ;; Ok value.

(** The rest of a transaction: SQLite completes it or the operation throws. *)
Definition transact (io : bool) : result unit :=
  require io (RuntimeError "SQLite transaction failed").

Definition energy_flags (v : EnergyValues) : Z :=
  Z.lor (b2z (en_saturated v)) (Z.lor (Z.shiftl (b2z (en_incomplete_input v)) 1)
    (Z.shiftl (b2z (en_discontinuity v)) 2)).

Definition demand_flags (v : DemandValues) : Z :=
  Z.lor (b2z (de_time_aligned v)) (Z.lor (Z.shiftl (b2z (de_contaminated v)) 1)
    (Z.lor (Z.shiftl (b2z (de_boundary_valid v)) 2)
      (Z.lor (Z.shiftl (b2z (de_saturated v)) 3)
        (Z.shiftl (b2z (de_incomplete_input v)) 4)))).

Definition persist_energy (db : LedgerDatabase) (v : EnergyValues) (state : EnergyState)
    (sample_count rate updated_ns : Z) : result LedgerDatabase :=
  epoch ← bind_u64 (es_epoch state);
  let row := mkEnergyRow epoch (hex64 (es_session_id state)) (es_source_sequence state)
    (es_generation state) (encode_array (es_session_counters state))
    (encode_array (es_lifetime_counters state)) (energy_qualities v)
    (hex64 (en_last_sample_index v)) (hex64 (en_accepted_samples v))
    (hex64 (en_skipped_samples v)) (en_accepted_blocks v) (en_skipped_blocks v)
    (energy_flags v) sample_count rate updated_ns in
  Ok (mkDatabase (Some row) (db_demand db) (db_energy_audit db) (db_demand_audit db)
        (db_energy_history db) (db_demand_history db)).

Definition demand_method_code (m : DemandMethod) : Z :=
  match m with fixed_block => 0 | sliding => 1 end.

Definition persist_demand (db : LedgerDatabase) (v : DemandValues) (state : DemandState)
    (sample_count rate updated_ns : Z) : result LedgerDatabase :=
  epoch ← bind_u64 (ds_epoch state);
  let row := mkDemandRow epoch (hex64 (ds_session_id state)) (ds_source_sequence state)
    (ds_generation state) (encode_array (ds_current state))
    (encode_array (ds_raw_import state)) (encode_array (ds_raw_export state))
    (encode_array (ds_baseline_import state)) (encode_array (ds_baseline_export state))
    (encode_array (ds_authoritative_import state))
    (encode_array (ds_authoritative_export state)) (encode_array (ds_import_anchors state))
    (encode_array (ds_export_anchors state)) (demand_qualities v)
    (hex64 (de_last_sample_index v)) (hex64 (de_interval_anchor_sample v))
    (de_source_interval_count v) (de_source_status v) (demand_flags v) sample_count rate
    updated_ns (demand_method_code (de_method v)) (de_window_seconds v) (de_update_seconds v)
    (de_profile_generation v) in
  Ok (mkDatabase (db_energy db) (Some row) (db_energy_audit db) (db_demand_audit db)
        (db_energy_history db) (db_demand_history db)).

(** The window restored from the persisted sample count and rate; the division is
    exact signed 64-bit arithmetic. *)
Definition restored_window (sample_count rate : Z) : SampleWindow :=
  mkWindow (u32 sample_count) (Z.quot (sample_count * 1000000000) (Z.max rate 1)).

Definition load_energy (db : LedgerDatabase)
  : result (EnergyState * option EnergyValues) :=
  match db_energy db with
  | None => Ok (new_energy_state, None)
  | Some row =>
      session_id ← parse_hex64 (erow_session_id row) "energy session ID";
      session_counters ← decode_array energy_counter_count (erow_session_counters row)
        "energy session counters";
      lifetime_counters ← decode_array energy_counter_count (erow_lifetime_counters row)
        "energy lifetime counters";
      let state := mkEnergyState (u64 (erow_epoch row)) session_id
        (u32 (erow_source_sequence row)) (u32 (erow_generation row)) session_counters
        lifetime_counters in
      values ← assign_energy_qualities (assign_energy_counters no_energy lifetime_counters)
        (erow_qualities row);
      last_sample ← parse_hex64 (erow_last_sample row) "energy last sample";
      accepted_samples ← parse_hex64 (erow_accepted_samples row) "accepted samples";
      skipped_samples ← parse_hex64 (erow_skipped_samples row) "skipped samples";
      let flags := u32 (erow_flags row) in
      let window := restored_window (erow_sample_count row) (erow_sample_rate row) in
      let v := map_energy (fun U _ g =>
        stamp_group (es_source_sequence state) (erow_updated_ns row) window g) values in
      Ok (state, Some (mkEnergy (en_active_import v) (en_active_export v) (en_apparent v)
        (en_reactive_i v) (en_reactive_ii v) (en_reactive_iii v) (en_reactive_iv v)
        session_id last_sample accepted_samples skipped_samples
        (u32 (erow_accepted_blocks row)) (u32 (erow_skipped_blocks row)) (es_epoch state)
        (any_bit flags 1) (any_bit flags 2) (any_bit flags 4)))
  end.

Definition load_demand (db : LedgerDatabase)
  : result (DemandState * option DemandValues) :=
  match db_demand db with
  | None => Ok (new_demand_state, None)
  | Some row =>
      session_id ← parse_hex64 (drow_session_id row) "demand session ID";
      current ← decode_array 4 (drow_current_values row) "demand current";
      raw_import ← decode_array 4 (drow_raw_import row) "raw import peaks";
      raw_export ← decode_array 4 (drow_raw_export row) "raw export peaks";
      baseline_import ← decode_array 4 (drow_baseline_import row) "baseline import";
      baseline_export ← decode_array 4 (drow_baseline_export row) "baseline export";
      authoritative_import ← decode_array 4 (drow_authoritative_import row) "import peaks";
      authoritative_export ← decode_array 4 (drow_authoritative_export row) "export peaks";
      import_anchors ← decode_u64 4 (drow_import_anchors row) "import anchors";
      export_anchors ← decode_u64 4 (drow_export_anchors row) "export anchors";
      let codes := drow_qualities row in
      reject_if (negb (Nat.eqb (length codes) 12))
        (RuntimeError "demand quality ledger blob size mismatch") ;;
      last_sample ← parse_hex64 (drow_last_sample row) "demand last sample";
      target_sample ← parse_hex64 (drow_target_sample row) "demand interval anchor";
      let flags := u32 (drow_flags row) in
      let window := restored_window (drow_sample_count row) (drow_sample_rate row) in
      let method := u32 (drow_method row) in
      reject_if (1 <? method) (RuntimeError "invalid demand method in ledger") ;;
      let source_sequence := u32 (drow_source_sequence row) in
      let group (base : nat) (source : list Z) : PhaseABCTotal (Reading MicroWatts) :=
        stamp_group source_sequence (drow_updated_ns row) window
          (quality_group codes (assign_demand_values (all_abct no_reading) source) base) in
      let state := mkDemandState (u64 (drow_epoch row)) session_id source_sequence
        (u32 (drow_generation row)) (demand_method_of method) (u32 (drow_window_seconds row))
        (u32 (drow_update_seconds row)) (u32 (drow_profile_generation row)) current raw_import
        raw_export baseline_import baseline_export authoritative_import authoritative_export
        import_anchors export_anchors in
      Ok (state, Some (mkDemand (group 0%nat current) (group 4%nat authoritative_import)
        (group 8%nat authoritative_export) (assign_samples import_anchors)
        (assign_samples export_anchors) session_id last_sample target_sample
        (u32 (drow_source_count row)) (u32 (drow_source_status row))
        (ds_window_seconds state) (ds_update_seconds state) (ds_profile_generation state)
        (ds_epoch state) (ds_method state) (any_bit flags 1) (any_bit flags 2)
        (any_bit flags 4) (any_bit flags 8) (any_bit flags 16)))
  end.

(** The constructor: opening the database creates missing tables, which the model's
    database always has, and loads both states. *)
Definition open_ledger (db : LedgerDatabase) : result EnergyLedger :=
  energy ← load_energy db;
  demand ← load_demand db;
  Ok (mkLedger db (snd energy) (snd demand) (fst energy) (fst demand)).

Definition empty_database : LedgerDatabase := mkDatabase None None ∅ ∅ ∅ ∅.

(** ** Energy *)

(** The loop of a new session: every counter is added to its lifetime counter. *)
Fixpoint add_counters (lifetime counters : list Z) (saturated : bool)
  : result (list Z * bool) :=
  match lifetime, counters with
  | life :: lifetime, counter :: counters =>
      added ← saturating_add life counter saturated;
      rest ← add_counters lifetime counters (snd added);
      Ok (fst added :: fst rest, snd rest)
  | _, _ => Ok ([], saturated)
  end.

(** The loop of a continued session: the difference to the last checkpoint is added. *)
Fixpoint advance_counters (lifetime session counters : list Z) (saturated : bool)
  : result (list Z * bool) :=
  match lifetime, session, counters with
  | life :: lifetime, last :: session, counter :: counters =>
      reject_if (counter <? last) (Conflict "same-session ENERGY counter rollback") ;;
      added ← saturating_add life (counter - last) saturated;
      rest ← advance_counters lifetime session counters (snd added);
      Ok (fst added :: fst rest, snd rest)
  | _, _, _ => Ok ([], saturated)
  end.

Definition energy_window (v : EnergyValues) : SampleWindow := r_window (abct_a (en_active_import v)).

(** The comparison that makes an equal sequence number a retry. *)
Definition same_energy_content (session latest : EnergyValues) (state : EnergyState)
    (configuration_generation : Z) : bool :=
  bool_decide (flatten_energy_counters session = es_session_counters state) &&
  (configuration_generation =? es_generation state) &&
  (en_last_sample_index session =? en_last_sample_index latest) &&
  (en_accepted_samples session =? en_accepted_samples latest) &&
  (en_skipped_samples session =? en_skipped_samples latest) &&
  (en_accepted_blocks session =? en_accepted_blocks latest) &&
  (en_skipped_blocks session =? en_skipped_blocks latest) &&
  Bool.eqb (en_incomplete_input session) (en_incomplete_input latest) &&
  Bool.eqb (en_discontinuity session) (en_discontinuity latest) &&
  negb (en_saturated session && negb (en_saturated latest)) &&
  bool_decide (energy_qualities session = energy_qualities latest) &&
  same_window (energy_window session) (energy_window latest).

Definition with_energy_status (v : EnergyValues) (epoch : Z) (saturated : bool) : EnergyValues :=
  mkEnergy (en_active_import v) (en_active_export v) (en_apparent v) (en_reactive_i v)
    (en_reactive_ii v) (en_reactive_iii v) (en_reactive_iv v) (en_session_id v)
    (en_last_sample_index v) (en_accepted_samples v) (en_skipped_samples v)
    (en_accepted_blocks v) (en_skipped_blocks v) epoch saturated (en_incomplete_input v)
    (en_discontinuity v).

(** The write that ends [ingest_energy]: new checkpoint, transaction, new members. *)
Definition commit_energy (io : bool) (ledger : EnergyLedger) (session : EnergyValues)
    (source_sequence configuration_generation ingested_at : Z) (lifetime : list Z)
    (saturated : bool) : EnergyLedger * result EnergyValues :=
  let state := el_energy_state ledger in
  let v := with_energy_status (assign_energy_counters session lifetime) (es_epoch state)
    saturated in
  let next := mkEnergyState (es_epoch state) (en_session_id session) source_sequence
    configuration_generation (flatten_energy_counters session) lifetime in
  match (db ← persist_energy (el_database ledger) v next
           (sw_sample_count (energy_window session)) (sample_rate (energy_window session))
           ingested_at;
         transact io ;; Ok db) with
  | Throw e => (ledger, Throw e)
  | Ok db => (mkLedger db (Some v) (el_latest_demand ledger) next (el_demand_state ledger), Ok v)
  end.

Definition ingest_energy (io : bool) (ledger : EnergyLedger) (session : EnergyValues)
    (source_sequence configuration_generation ingested_at : Z)
  : EnergyLedger * result EnergyValues :=
  let counters := flatten_energy_counters session in
  let next := el_energy_state ledger in
  if existsb (fun value => value <? 0) counters
  then (ledger, Throw (InvalidArgument "negative ENERGY session counter"))
  else
    let fold (m : result (list Z * bool)) :=
      match m with
      | Throw e => (ledger, Throw e)
      | Ok (lifetime, saturated) =>
          commit_energy io ledger session source_sequence configuration_generation ingested_at
            lifetime saturated
      end in
    match el_latest_energy ledger with
    | Some latest =>
        if en_session_id session =? es_session_id next
        then
          if source_sequence <? es_source_sequence next
          then (ledger, Throw (Conflict "stale ENERGY family sequence"))
          else if source_sequence =? es_source_sequence next
          then
            if same_energy_content session latest next configuration_generation
            then (ledger, Ok latest)
            else (ledger, Throw (Conflict "duplicate ENERGY sequence has different content"))
          else fold (advance_counters (es_lifetime_counters next) (es_session_counters next)
                       counters (en_saturated session))
        else fold (add_counters (es_lifetime_counters next) counters (en_saturated session))
    | None => fold (add_counters (es_lifetime_counters next) counters (en_saturated session))
    end.

(** ** Demand *)

(** The peaks of one phase while the loop body runs. *)
Record PhasePeaks := mkPeaks {
  pk_import : Z; pk_export : Z; pk_import_anchor : Z; pk_export_anchor : Z }.

(** One iteration of the peak loop. *)
Definition demand_phase (quality : MeasurementQuality) (current last_sample : Z)
    (incoming_import incoming_import_anchor baseline_import : Z)
    (incoming_export incoming_export_anchor baseline_export : Z)
    (p : PhasePeaks) (saturated : bool) : PhasePeaks * bool :=
  let '(p, saturated) :=
    if bool_decide (quality = valid) && (0 <? current) && (pk_import p <? current)
    then (mkPeaks current (pk_export p) last_sample (pk_export_anchor p), saturated)
    else if bool_decide (quality = valid) && (current <? 0)
    then
      let '(candidate, saturated) := demand_magnitude current saturated in
      if pk_export p <? candidate
      then (mkPeaks (pk_import p) candidate (pk_import_anchor p) last_sample, saturated)
      else (p, saturated)
    else (p, saturated) in
  let p := if (baseline_import <? incoming_import) && (pk_import p <? incoming_import)
           then mkPeaks incoming_import (pk_export p) incoming_import_anchor
                  (pk_export_anchor p) else p in
  let p := if (baseline_export <? incoming_export) && (pk_export p <? incoming_export)
           then mkPeaks (pk_import p) incoming_export (pk_import_anchor p)
                  incoming_export_anchor else p in
  (p, saturated).

Definition quality_of_phase (g : PhaseABCTotal (Reading MicroWatts)) (i : nat)
  : MeasurementQuality :=
  nth i [r_quality (abct_a g); r_quality (abct_b g); r_quality (abct_c g);
         r_quality (abct_total g)] unavailable.

(** The loop over the four phases. *)
Fixpoint demand_peaks (session : DemandValues) (state : DemandState) (phases : list nat)
    (saturated : bool) : list PhasePeaks * bool :=
  match phases with
  | [] => ([], saturated)
  | i :: phases =>
      let '(p, saturated) := demand_phase (quality_of_phase (de_current_active session) i)
        (nth i (flatten_demand_values (de_current_active session)) 0)
        (de_last_sample_index session)
        (nth i (flatten_demand_values (de_import_peak session)) 0)
        (nth i (flatten_samples (de_import_peak_sample session)) 0)
        (nth i (ds_baseline_import state) 0)
        (nth i (flatten_demand_values (de_export_peak session)) 0)
        (nth i (flatten_samples (de_export_peak_sample session)) 0)
        (nth i (ds_baseline_export state) 0)
        (mkPeaks (nth i (ds_authoritative_import state) 0)
           (nth i (ds_authoritative_export state) 0) (nth i (ds_import_anchors state) 0)
           (nth i (ds_export_anchors state) 0)) saturated in
      let '(rest, saturated) := demand_peaks session state phases saturated in
      (p :: rest, saturated)
  end.

Definition same_semantics (session : DemandValues) (state : DemandState) : bool :=
  bool_decide (de_method session = ds_method state) &&
  (de_window_seconds session =? ds_window_seconds state) &&
  (de_update_seconds session =? ds_update_seconds state).

Definition demand_window (v : DemandValues) : SampleWindow :=
  r_window (abct_a (de_current_active v)).

Definition same_demand_content (session latest : DemandValues) (state : DemandState)
    (configuration_generation : Z) : bool :=
  bool_decide (flatten_demand_values (de_current_active session) = ds_current state) &&
  bool_decide (flatten_demand_values (de_import_peak session) = ds_raw_import state) &&
  bool_decide (flatten_demand_values (de_export_peak session) = ds_raw_export state) &&
  (configuration_generation =? ds_generation state) &&
  (de_last_sample_index session =? de_last_sample_index latest) &&
  (de_interval_anchor_sample session =? de_interval_anchor_sample latest) &&
  (de_source_interval_count session =? de_source_interval_count latest) &&
  (de_source_status session =? de_source_status latest) &&
  Bool.eqb (de_time_aligned session) (de_time_aligned latest) &&
  Bool.eqb (de_contaminated session) (de_contaminated latest) &&
  Bool.eqb (de_boundary_valid session) (de_boundary_valid latest) &&
  Bool.eqb (de_incomplete_input session) (de_incomplete_input latest) &&
  negb (de_saturated session && negb (de_saturated latest)) &&
  bool_decide (demand_qualities session = demand_qualities latest) &&
  same_window (demand_window session) (demand_window latest).

(** The state the peak loop starts from: a changed profile opens a new epoch, a new
    session of the same profile drops the baselines, a continued one must not roll
    its peaks back. *)
Definition demand_start (session : DemandValues) (state : DemandState)
    (changed same_instance : bool) : result DemandState :=
  if changed
  then Ok (mkDemandState (u64 (ds_epoch state + 1)) (ds_session_id state)
         (ds_source_sequence state) (ds_generation state) (ds_method state)
         (ds_window_seconds state) (ds_update_seconds state) (ds_profile_generation state)
         (ds_current state) (zeros 4) (zeros 4) (zeros 4) (zeros 4) (zeros 4) (zeros 4)
         (zeros 4) (zeros 4))
  else if negb same_instance
  then Ok (mkDemandState (ds_epoch state) (ds_session_id state) (ds_source_sequence state)
         (ds_generation state) (ds_method state) (ds_window_seconds state)
         (ds_update_seconds state) (ds_profile_generation state) (ds_current state)
         (ds_raw_import state) (ds_raw_export state) (zeros 4) (zeros 4)
         (ds_authoritative_import state) (ds_authoritative_export state)
         (ds_import_anchors state) (ds_export_anchors state))
  else
    forM_result (seq 0 4) (fun i =>
      reject_if ((nth i (flatten_demand_values (de_import_peak session)) 0 <?
                  nth i (ds_raw_import state) 0) ||
                 (nth i (flatten_demand_values (de_export_peak session)) 0 <?
                  nth i (ds_raw_export state) 0))
        (Conflict "same-session DEMAND peak rollback")) ;;
    Ok state.

Definition with_demand_peaks (v : DemandValues) (state : DemandState) (saturated : bool)
  : DemandValues :=
  mkDemand (de_current_active v)
    (assign_demand_values (de_import_peak v) (ds_authoritative_import state))
    (assign_demand_values (de_export_peak v) (ds_authoritative_export state))
    (assign_samples (ds_import_anchors state)) (assign_samples (ds_export_anchors state))
    (de_session_id v) (de_last_sample_index v) (de_interval_anchor_sample v)
    (de_source_interval_count v) (de_source_status v) (de_window_seconds v)
    (de_update_seconds v) (de_profile_generation v) (ds_epoch state) (de_method v)
    (de_time_aligned v) (de_contaminated v) (de_boundary_valid v) saturated
    (de_incomplete_input v).

(** The snapshots of a fixed-block boundary. *)
Definition record_history (ledger : EnergyLedger) (db : LedgerDatabase) (v : DemandValues)
    (state : DemandState) (ingested_at : Z) : result LedgerDatabase :=
  if negb (de_interval_anchor_sample v =? 0) && bool_decide (de_method v = fixed_block)
  then
    energy_history ←
      match el_latest_energy ledger with
      | Some latest =>
          epoch ← bind_u64 (es_epoch (el_energy_state ledger));
          Ok (<[(hex64 (es_session_id (el_energy_state ledger)),
                 hex64 (de_interval_anchor_sample v)) :=
                mkEnergyHistoryRow ingested_at epoch
                  (encode_array (es_lifetime_counters (el_energy_state ledger)))
                  (energy_qualities latest) (energy_flags latest)]> (db_energy_history db))
      | None => Ok (db_energy_history db)
      end;
    epoch ← bind_u64 (ds_epoch state);
    let flags := Z.lor (b2z (de_contaminated v)) (Z.lor
      (Z.shiftl (b2z (de_incomplete_input v)) 1) (Z.shiftl (b2z (de_saturated v)) 2)) in
    let demand_history :=
      <[(hex64 (ds_session_id state), de_profile_generation v,
         hex64 (de_interval_anchor_sample v)) :=
        mkDemandHistoryRow ingested_at epoch (encode_array (ds_current state))
          (encode_array (ds_authoritative_import state))
          (encode_array (ds_authoritative_export state)) (demand_qualities v) flags
          (demand_method_code (de_method v)) (de_window_seconds v) (de_update_seconds v)]>
        (db_demand_history db) in
    Ok (mkDatabase (db_energy db) (db_demand db) (db_energy_audit db) (db_demand_audit db)
          energy_history demand_history)
  else Ok db.

(** The end of [ingest_demand]: peak loop, transaction, new members. *)
Definition commit_demand (io : bool) (ledger : EnergyLedger) (session : DemandValues)
    (source_sequence configuration_generation ingested_at : Z) (start : DemandState)
  : EnergyLedger * result DemandValues :=
  let '(peaks, saturated) := demand_peaks session start (seq 0 4) (de_saturated session) in
  let next := mkDemandState (ds_epoch start) (de_session_id session) source_sequence
    configuration_generation (de_method session) (de_window_seconds session)
    (de_update_seconds session) (de_profile_generation session)
    (flatten_demand_values (de_current_active session))
    (flatten_demand_values (de_import_peak session))
    (flatten_demand_values (de_export_peak session))
    (ds_baseline_import start) (ds_baseline_export start)
    (map pk_import peaks) (map pk_export peaks) (map pk_import_anchor peaks)
    (map pk_export_anchor peaks) in
  let v := with_demand_peaks session next saturated in
  match (db ← persist_demand (el_database ledger) v next
           (sw_sample_count (demand_window session)) (sample_rate (demand_window session))
           ingested_at;
         db ← record_history ledger db v next ingested_at;
         transact io ;; Ok db) with
  | Throw e => (ledger, Throw e)
  | Ok db => (mkLedger db (el_latest_energy ledger) (Some v) (el_energy_state ledger) next, Ok v)
  end.

Definition same_session (ledger : EnergyLedger) (session : DemandValues) : bool :=
  bool_decide (is_Some (el_latest_demand ledger)) &&
  (de_session_id session =? ds_session_id (el_demand_state ledger)).

Definition same_profile_instance (ledger : EnergyLedger) (session : DemandValues) : bool :=
  same_session ledger session &&
  (bool_decide (is_Some (el_latest_demand ledger)) &&
   same_semantics session (el_demand_state ledger)) &&
  (de_profile_generation session =? ds_profile_generation (el_demand_state ledger)).

Definition profile_changed (ledger : EnergyLedger) (session : DemandValues) : bool :=
  bool_decide (is_Some (el_latest_demand ledger)) &&
  (negb (bool_decide (is_Some (el_latest_demand ledger)) &&
         same_semantics session (el_demand_state ledger)) ||
   (same_session ledger session &&
    negb (de_profile_generation session =? ds_profile_generation (el_demand_state ledger)))).

Definition ingest_demand (io : bool) (ledger : EnergyLedger) (session : DemandValues)
    (source_sequence configuration_generation ingested_at : Z)
  : EnergyLedger * result DemandValues :=
  let next := el_demand_state ledger in
  if (de_profile_generation session =? 0) || (de_window_seconds session =? 0) ||
     (de_update_seconds session =? 0)
  then (ledger, Throw (InvalidArgument "invalid DEMAND profile metadata"))
  else if existsb (fun value => value <? 0)
            (flatten_demand_values (de_import_peak session) ++
             flatten_demand_values (de_export_peak session))
  then (ledger, Throw (InvalidArgument "negative DEMAND peak"))
  else
    if same_profile_instance ledger session && (source_sequence <? ds_source_sequence next)
    then (ledger, Throw (Conflict "stale DEMAND family sequence"))
    else
      match (if same_profile_instance ledger session &&
                (source_sequence =? ds_source_sequence next)
             then el_latest_demand ledger else None) with
      | Some latest =>
          if same_demand_content session latest next configuration_generation
          then (ledger, Ok latest)
          else (ledger, Throw (Conflict "duplicate DEMAND sequence has different content"))
      | None =>
          match demand_start session next (profile_changed ledger session)
                  (same_profile_instance ledger session) with
          | Throw e => (ledger, Throw e)
          | Ok start =>
              commit_demand io ledger session source_sequence configuration_generation
                ingested_at start
          end
      end.

(** ** Resets *)

Definition reset_energy (io : bool) (ledger : EnergyLedger) (request : ResetRequest)
  : EnergyLedger * result ResetResult :=
  match validate_reset request with
  | Throw e => (ledger, Throw e)
  | Ok _ =>
      match db_energy_audit (el_database ledger) !! rq_idempotency_key request with
      | Some row => (ledger, Ok (mkResetResult (u64 (audit_resulting_epoch row)) true))
      | None =>
          match el_latest_energy ledger with
          | None => (ledger, Throw (Unavailable "no durable ENERGY checkpoint exists"))
          | Some latest =>
              let state := el_energy_state ledger in
              if negb (rq_expected_epoch request =? es_epoch state)
              then (ledger, Throw (Conflict "ENERGY reset epoch conflict"))
              else
                let next := mkEnergyState (u64 (es_epoch state + 1)) (es_session_id state)
                  (es_source_sequence state) (es_generation state) (es_session_counters state)
                  (zeros energy_counter_count) in
                let v := with_energy_status
                  (assign_energy_counters latest (es_lifetime_counters next)) (es_epoch next)
                  (en_saturated latest) in
                match (db ← persist_energy (el_database ledger) v next
                         (sw_sample_count (energy_window v)) (sample_rate (energy_window v))
                         (rq_requested_at_nanoseconds request);
                       previous ← bind_u64 (es_epoch state);
                       resulting ← bind_u64 (es_epoch next);
                       transact io ;;
                       Ok (mkDatabase (db_energy db) (db_demand db)
                         (<[rq_idempotency_key request := mkAuditRow (rq_request_id request)
                              (rq_actor request) (rq_requested_at_nanoseconds request) previous
                              resulting]> (db_energy_audit db))
                         (db_demand_audit db) (db_energy_history db)
                         (db_demand_history db))) with
                | Throw e => (ledger, Throw e)
                | Ok db =>
                    (mkLedger db (Some v) (el_latest_demand ledger) next
                       (el_demand_state ledger),
                     Ok (mkResetResult (es_epoch next) false))
                end
          end
      end
  end.

Definition reset_demand_peaks (io : bool) (ledger : EnergyLedger) (request : ResetRequest)
  : EnergyLedger * result ResetResult :=
  match validate_reset request with
  | Throw e => (ledger, Throw e)
  | Ok _ =>
      match db_demand_audit (el_database ledger) !! rq_idempotency_key request with
      | Some row => (ledger, Ok (mkResetResult (u64 (audit_resulting_epoch row)) true))
      | None =>
          match el_latest_demand ledger with
          | None => (ledger, Throw (Unavailable "no durable DEMAND checkpoint exists"))
          | Some latest =>
              let state := el_demand_state ledger in
              if negb (rq_expected_epoch request =? ds_epoch state)
              then (ledger, Throw (Conflict "DEMAND reset epoch conflict"))
              else
                let next := mkDemandState (u64 (ds_epoch state + 1)) (ds_session_id state)
                  (ds_source_sequence state) (ds_generation state) (ds_method state)
                  (ds_window_seconds state) (ds_update_seconds state)
                  (ds_profile_generation state) (ds_current state) (ds_raw_import state)
                  (ds_raw_export state) (ds_raw_import state) (ds_raw_export state) (zeros 4)
                  (zeros 4) (zeros 4) (zeros 4) in
                let v := with_demand_peaks latest next (de_saturated latest) in
                match (db ← persist_demand (el_database ledger) v next
                         (sw_sample_count (demand_window v)) (sample_rate (demand_window v))
                         (rq_requested_at_nanoseconds request);
                       previous ← bind_u64 (ds_epoch state);
                       resulting ← bind_u64 (ds_epoch next);
                       transact io ;;
                       Ok (mkDatabase (db_energy db) (db_demand db) (db_energy_audit db)
                         (<[rq_idempotency_key request := mkAuditRow (rq_request_id request)
                              (rq_actor request) (rq_requested_at_nanoseconds request) previous
                              resulting]> (db_demand_audit db))
                         (db_energy_history db) (db_demand_history db))) with
                | Throw e => (ledger, Throw e)
                | Ok db =>
                    (mkLedger db (el_latest_energy ledger) (Some v) (el_energy_state ledger)
                       next, Ok (mkResetResult (ds_epoch next) false))
                end
          end
      end
  end.
