(* ===== verification/LedgerTheorems.v ===== *)
(** * Correctness of the energy and demand ledger

    Round trips of the row encodings, the refinement of an unbounded energy meter by the
    durable counters (across restarts and resets), retries, reset epochs and demand
    peaks.  The definitions are those of [EnergyLedger]. *)
From stdpp Require Import gmap.
From S2P Require Import Prelude.
From S2P Require Import MeterTiming.
From S2P Require Import RecordFormat.
From S2P Require Import MeterRecord.
From S2P Require Import MeterData.
From S2P Require Import DecodeCommon.
From S2P Require Import DecodeBlocks.
From S2P Require Import EnergyDemand.
From S2P Require Import EnergyLedger.

(** ** Round trips of the encodings *)

Lemma decode_words_encode values :
  decode_words (length values) (encode_array values) = map u64 values.
Proof.
  unfold encode_array. induction values as [|v l IH]; [done|].
  cbn [length map concat decode_words].
  rewrite take_app_length', drop_app_length' by (by rewrite le_bytes_length).
  rewrite IH, le_value_bytes. f_equal. apply Z.mod_small.
  change (256 ^ Z.of_nat 8) with (2 ^ 64). apply wrap_range. lia.
Qed.

Lemma encode_array_length values : length (encode_array values) = (length values * 8)%nat.
Proof.
  unfold encode_array. induction values as [|v l IH]; [done|].
  cbn [length map concat]. rewrite length_app, IH, le_bytes_length. lia.
Qed.

Lemma decode_encode_signed name values n :
  length values = n -> Forall (fun v => INT64_MIN <= v <= INT64_MAX) values ->
  decode_array n (encode_array values) name = Ok values.
Proof.
  intros <- Hv. unfold decode_array. rewrite encode_array_length, Nat.eqb_refl.
  cbn [negb reject_if mbind result_bind]. rewrite decode_words_encode. f_equal.
  induction Hv as [|v l Hv _ IH]; simpl; [done|]. rewrite IH. f_equal.
  apply sign_wrap_id; [lia|]. unfold INT64_MIN, INT64_MAX in Hv. lia.
Qed.

Lemma decode_encode_unsigned name values n :
  length values = n -> Forall (fun v => 0 <= v < 2 ^ 64) values ->
  decode_u64 n (encode_array values) name = Ok values.
Proof.
  intros <- Hv. unfold decode_u64. rewrite encode_array_length, Nat.eqb_refl.
  cbn [negb reject_if mbind result_bind]. rewrite decode_words_encode. f_equal.
  induction Hv as [|v l Hv _ IH]; simpl; [done|]. rewrite IH. f_equal. by apply wrap_id.
Qed.

Lemma hex_value_digit d : 0 <= d < 16 -> hex_value (hex_digit d) = Some d.
Proof.
  intros Hd. assert (d ∈ map Z.of_nat (seq 0 16)) as Hin.
  { apply list_elem_of_In, in_map_iff. exists (Z.to_nat d). rewrite in_seq. lia. }
  cbn in Hin. repeat (apply elem_of_cons in Hin as [->|Hin]; [reflexivity|]).
  by apply not_elem_of_nil in Hin.
Qed.

(** The digits of [hex64], most significant first. *)
Definition nibbles (n : nat) (value : Z) : list Z :=
  map (fun i => value / 16 ^ (Z.of_nat n - 1 - Z.of_nat i) mod 16) (seq 0 n).

Lemma hex64_nibbles value : hex64 value = map hex_digit (nibbles 16 value).
Proof.
  unfold hex64, nibbles. rewrite map_map. apply map_ext_in. intros i Hi%in_seq. f_equal.
  set (k := 15 - Z.of_nat i). replace (Z.of_nat 16 - 1 - Z.of_nat i) with k by lia.
  assert (16 ^ k = 2 ^ (4 * k)) as ->
    by (change 16 with (2 ^ 4); rewrite <- Z.pow_mul_r by lia; done).
  change 15 with (Z.ones 4). rewrite Z.land_ones, Z.shiftr_div_pow2 by lia. done.
Qed.

Lemma nibbles_S n value : nibbles (S n) value = nibbles n (value / 16) ++ [value mod 16].
Proof.
  unfold nibbles. rewrite seq_S, map_app. f_equal.
  - apply map_ext_in. intros i Hi%in_seq. f_equal.
    rewrite Z.div_div by lia. f_equal. rewrite <- Z.pow_succ_r by lia. f_equal. lia.
  - simpl map. do 2 f_equal. replace (Z.of_nat (S n) - 1 - Z.of_nat n) with 0 by lia.
    by rewrite Z.div_1_r.
Qed.

Lemma nibbles_range n value : Forall (fun d => 0 <= d < 16) (nibbles n value).
Proof.
  apply List.Forall_forall. intros d (i & <- & _)%in_map_iff. apply Z.mod_pos_bound. lia.
Qed.

Lemma nibbles_value n value acc :
  fold_left (fun a d => a * 16 + d) (nibbles n value) acc =
  acc * 16 ^ Z.of_nat n + value mod 16 ^ Z.of_nat n.
Proof.
  revert value acc. induction n as [|n IH]; intros value acc.
  - simpl. rewrite Z.mod_1_r. lia.
  - rewrite nibbles_S, fold_left_app, IH, Nat2Z.inj_succ, Z.pow_succ_r by lia. simpl.
    rewrite (Z.rem_mul_r value 16) by lia. lia.
Qed.

(** Reading a digit string whose value stays in range. *)
Lemma from_chars16_digits ds acc :
  Forall (fun d => 0 <= d < 16) ds -> 0 <= acc ->
  fold_left (fun a d => a * 16 + d) ds acc <= UINT64_MAX ->
  from_chars16 acc (map hex_digit ds) = Some (fold_left (fun a d => a * 16 + d) ds acc).
Proof.
  assert (forall l a, 0 <= a -> Forall (fun d => 0 <= d < 16) l ->
    a <= fold_left (fun a d => a * 16 + d) l a) as Hmono.
  { intros l a Ha Hl. revert a Ha. induction Hl as [|d l Hd _ IH]; intros a Ha; simpl; [lia|].
    specialize (IH (a * 16 + d)). lia. }
  intros Hds. revert acc. induction Hds as [|d l Hd Hl IH]; intros acc Hacc Hmax; simpl; [done|].
  rewrite hex_value_digit by done. simpl in Hmax.
  pose proof (Hmono l (acc * 16 + d) ltac:(lia) Hl).
  rewrite (proj2 (Z.ltb_ge _ _)) by lia. apply IH; [lia|done].
Qed.

Lemma parse_hex64_hex64 name value :
  0 <= value < 2 ^ 64 -> parse_hex64 (hex64 value) name = Ok value.
Proof.
  intros Hv.
  assert (fold_left (fun a d => a * 16 + d) (nibbles 16 value) 0 = value) as E.
  { rewrite nibbles_value. change (16 ^ Z.of_nat 16) with (2 ^ 64). rewrite Z.mod_small; lia. }
  assert (from_chars16 0 (hex64 value) = Some value) as H.
  { rewrite hex64_nibbles, from_chars16_digits, E; try done; [apply nibbles_range|].
    rewrite E. unfold UINT64_MAX. lia. }
  unfold parse_hex64. destruct (hex64 value) eqn:Ex; [discriminate Ex|]. by rewrite H.
Qed.

Lemma quality_code_roundtrip q : quality_of_code (quality_code q) = q.
Proof. by destruct q. Qed.

(** The restored duration is the original one: [d] is a quotient of [n], so dividing
    [n] by the recovered rate [n / d] returns [d] itself. *)
Lemma quotient_closed n r :
  0 < r -> r <= n -> let d := n / r in n / (n / d) = d.
Proof.
  intros Hr Hn d. assert (1 <= d) by (apply Z.div_le_lower_bound; lia).
  assert (r <= n / d) by (apply Z.div_le_lower_bound; [lia|];
    pose proof (Z.mul_div_le n r); unfold d; nia).
  apply Z.le_antisymm.
  - unfold d at 2. apply Z.div_le_compat_l; lia.
  - apply Z.div_le_lower_bound; [lia|]. pose proof (Z.mul_div_le n d). nia.
Qed.

(** ** Durable form of the energy state *)

Definition energy_row (v : EnergyValues) (state : EnergyState) (updated_ns : Z) : EnergyRow :=
  mkEnergyRow (es_epoch state) (hex64 (es_session_id state)) (es_source_sequence state)
    (es_generation state) (encode_array (es_session_counters state))
    (encode_array (es_lifetime_counters state)) (energy_qualities v)
    (hex64 (en_last_sample_index v)) (hex64 (en_accepted_samples v))
    (hex64 (en_skipped_samples v)) (en_accepted_blocks v) (en_skipped_blocks v)
    (energy_flags v) (sw_sample_count (energy_window v)) (sample_rate (energy_window v))
    updated_ns.

(** Machine ranges of the values a client hands in. *)
Record energy_ranges (v : EnergyValues) : Prop := {
  er_session : 0 <= en_session_id v < 2 ^ 64;
  er_last : 0 <= en_last_sample_index v < 2 ^ 64;
  er_accepted : 0 <= en_accepted_samples v < 2 ^ 64;
  er_skipped : 0 <= en_skipped_samples v < 2 ^ 64;
  er_accepted_blocks : 0 <= en_accepted_blocks v < 2 ^ 32;
  er_skipped_blocks : 0 <= en_skipped_blocks v < 2 ^ 32;
  er_window : 0 <= sw_sample_count (energy_window v) < 2 ^ 32;
  er_counters : Forall (fun c => c <= INT64_MAX) (flatten_energy_counters v)
}.

Definition counters_ok (l : list Z) : Prop :=
  length l = energy_counter_count /\ Forall (fun c => 0 <= c <= INT64_MAX) l.

Record energy_consistent (v : EnergyValues) (state : EnergyState) : Prop := {
  ec_epoch : 0 <= es_epoch state <= INT64_MAX;
  ec_sequence : 0 <= es_source_sequence state < 2 ^ 32;
  ec_generation : 0 <= es_generation state < 2 ^ 32;
  ec_session_counters : counters_ok (es_session_counters state);
  ec_lifetime_counters : counters_ok (es_lifetime_counters state);
  ec_values : flatten_energy_counters v = es_lifetime_counters state;
  ec_session : en_session_id v = es_session_id state;
  ec_reset_epoch : en_reset_epoch v = es_epoch state;
  ec_ranges : energy_ranges v
}.

(** Equality of published energy values up to the provenance stamps of the readings. *)
Record same_energy (v w : EnergyValues) : Prop := {
  se_counters : flatten_energy_counters v = flatten_energy_counters w;
  se_qualities : energy_qualities v = energy_qualities w;
  se_session : en_session_id v = en_session_id w;
  se_last : en_last_sample_index v = en_last_sample_index w;
  se_accepted : en_accepted_samples v = en_accepted_samples w;
  se_skipped : en_skipped_samples v = en_skipped_samples w;
  se_accepted_blocks : en_accepted_blocks v = en_accepted_blocks w;
  se_skipped_blocks : en_skipped_blocks v = en_skipped_blocks w;
  se_epoch : en_reset_epoch v = en_reset_epoch w;
  se_saturated : en_saturated v = en_saturated w;
  se_incomplete : en_incomplete_input v = en_incomplete_input w;
  se_discontinuity : en_discontinuity v = en_discontinuity w
}.

Lemma energy_flags_bits v :
  any_bit (u32 (energy_flags v)) 1 = en_saturated v /\
  any_bit (u32 (energy_flags v)) 2 = en_incomplete_input v /\
  any_bit (u32 (energy_flags v)) 4 = en_discontinuity v.
Proof.
  unfold energy_flags.
  by destruct (en_saturated v), (en_incomplete_input v), (en_discontinuity v).
Qed.

Lemma energy_qualities_length v : length (energy_qualities v) = energy_counter_count.
Proof. reflexivity. Qed.

Lemma signed_of_counters l :
  Forall (fun c => 0 <= c <= INT64_MAX) l -> Forall (fun v => INT64_MIN <= v <= INT64_MAX) l.
Proof. apply Forall_impl. unfold INT64_MIN. intros. lia. Qed.

Lemma flatten_assign l v :
  length l = energy_counter_count -> flatten_energy_counters (assign_energy_counters v l) = l.
Proof.
  intros Hl. do 28 (destruct l as [|? l]; [discriminate Hl|]).
  destruct l; [reflexivity|discriminate Hl].
Qed.

(** What the loader rebuilds from a row the ledger wrote. *)
Lemma load_energy_row db v state ns :
  energy_consistent v state -> db_energy db = Some (energy_row v state ns) ->
  exists w, load_energy db = Ok (state, Some w) /\ same_energy w v /\
    energy_window w = restored_window (sw_sample_count (energy_window v))
                        (sample_rate (energy_window v)).
Proof.
  intros C Hrow. destruct C as [He Hseq Hgen [Ls Hs] [Ll Hl] Hv Hsess Hre R].
  destruct R as [R1 R2 R3 R4 R5 R6 R7 R8].
  unfold load_energy. rewrite Hrow. unfold energy_row.
  cbn [erow_epoch erow_session_id erow_source_sequence erow_generation erow_session_counters
    erow_lifetime_counters erow_qualities erow_last_sample erow_accepted_samples
    erow_skipped_samples erow_accepted_blocks erow_skipped_blocks erow_flags erow_sample_count
    erow_sample_rate erow_updated_ns].
  rewrite !parse_hex64_hex64, !decode_encode_signed
    by (try done; try congruence; by apply signed_of_counters).
  cbn [mbind result_bind]. unfold assign_energy_qualities. rewrite energy_qualities_length.
  rewrite Nat.eqb_refl. cbn [negb reject_if mbind result_bind].
  rewrite (wrap_id 64 (es_epoch state)) by (unfold INT64_MAX in *; lia).
  rewrite !(wrap_id 32) by done.
  destruct (energy_flags_bits v) as (F1 & F2 & F4). rewrite F1, F2, F4.
  eexists. split; [by destruct state|]. split; [|reflexivity].
  split; try reflexivity; try (cbn [en_session_id en_reset_epoch]; congruence).
  - rewrite Hv. exact (flatten_assign _ no_energy Ll).
  - unfold energy_qualities, group_qualities. cbn [app nth map_energy stamp_group quality_group
      set_quality assign_energy_counters copy_group set_value r_quality abct_a abct_b abct_c
      abct_total en_active_import en_active_export en_apparent en_reactive_i en_reactive_ii
      en_reactive_iii en_reactive_iv Nat.add].
    by rewrite !quality_code_roundtrip.
Qed.

Lemma same_energy_refl v : same_energy v v.
Proof. by split. Qed.

(** Values that were just written back the row. *)
Lemma durable_self v st (row : option EnergyRow) :
  energy_consistent v st -> (exists ns, row = Some (energy_row v st ns)) ->
  energy_consistent v st /\ exists u ns, energy_consistent u st /\ same_energy v u /\
    row = Some (energy_row u st ns).
Proof. intros C [ns E]. split; [done|]. exists v, ns. by auto using same_energy_refl. Qed.

(** ** The abstract meter

    What the ledger promises: an energy meter with unbounded counters, one checkpoint of
    the current session and a reset epoch. *)

Record Meter := mkMeter {
  me_total : list Z;
  me_checkpoint : option (Z * Z * list Z);
  me_epoch : Z
}.

Definition new_meter : Meter := mkMeter (zeros energy_counter_count) None 0.

Definition meter_add (total delta : list Z) : list Z := zip_with Z.add total delta.
Definition meter_delta (counters last : list Z) : list Z := zip_with Z.sub counters last.

(** A family of session counters: the same session adds the difference to its last
    checkpoint, a repeated sequence number adds nothing, a new session starts from zero. *)
Definition meter_ingest (m : Meter) (session sequence_ : Z) (counters : list Z) : Meter :=
  match me_checkpoint m with
  | Some (s, q, last) =>
      if s =? session
      then if q =? sequence_ then m
           else mkMeter (meter_add (me_total m) (meter_delta counters last))
                  (Some (session, sequence_, counters)) (me_epoch m)
      else mkMeter (meter_add (me_total m) counters) (Some (session, sequence_, counters))
             (me_epoch m)
  | None => mkMeter (meter_add (me_total m) counters) (Some (session, sequence_, counters))
              (me_epoch m)
  end.

Definition meter_reset (m : Meter) : Meter :=
  mkMeter (zeros energy_counter_count) (me_checkpoint m) (me_epoch m + 1).

Definition clamp (z : Z) : Z := Z.min INT64_MAX z.

(** The durable state carries the abstract totals, clamped to the signed 64-bit range. *)
Record meter_sim (l : EnergyLedger) (m : Meter) : Prop := {
  sim_total : es_lifetime_counters (el_energy_state l) = map clamp (me_total m);
  sim_nonneg : length (me_total m) = energy_counter_count /\ Forall (fun z => 0 <= z) (me_total m);
  sim_epoch : es_epoch (el_energy_state l) = me_epoch m;
  sim_checkpoint : me_checkpoint m =
    match el_latest_energy l with
    | None => None
    | Some _ => Some (es_session_id (el_energy_state l), es_source_sequence (el_energy_state l),
                      es_session_counters (el_energy_state l))
    end;
  sim_durable :
    match el_latest_energy l with
    | None => db_energy (el_database l) = None /\ el_energy_state l = new_energy_state
    | Some v => energy_consistent v (el_energy_state l) /\
        exists u ns, energy_consistent u (el_energy_state l) /\ same_energy v u /\
          db_energy (el_database l) = Some (energy_row u (el_energy_state l) ns)
    end
}.

(** The counter loops compute clamped sums. *)
Lemma saturating_add_clamp total delta sat :
  0 <= total -> 0 <= delta <= INT64_MAX ->
  exists sat', saturating_add (clamp total) delta sat = Ok (clamp (total + delta), sat') /\
    (sat = true -> sat' = true).
Proof.
  intros Ht Hd. unfold saturating_add, clamp. rewrite (proj2 (Z.ltb_ge delta 0)) by lia.
  cbn [reject_if mbind result_bind].
  destruct (Z.ltb_spec (INT64_MAX - delta) (Z.min INT64_MAX total)).
  - exists true. split; [|done]. do 2 f_equal. lia.
  - exists sat. split; [|done]. do 2 f_equal. lia.
Qed.

Lemma add_counters_clamp total counters sat :
  length total = length counters -> Forall (fun z => 0 <= z) total ->
  Forall (fun c => 0 <= c <= INT64_MAX) counters ->
  exists sat', add_counters (map clamp total) counters sat =
    Ok (map clamp (meter_add total counters), sat') /\ (sat = true -> sat' = true).
Proof.
  intros Hl Ht. revert counters sat Hl. induction Ht as [|t total Ht _ IH];
    intros [|c counters] sat Hl Hc; try discriminate Hl; [eexists; done|].
  apply Forall_cons_1 in Hc as [Hc Hcs].
  destruct (saturating_add_clamp t c sat Ht Hc) as (s1 & E1 & M1).
  destruct (IH counters s1 (eq_add_S _ _ Hl) Hcs) as (s2 & E2 & M2).
  exists s2. cbn [map add_counters]. rewrite E1. cbn [mbind result_bind fst snd].
  rewrite E2. split; [done|auto].
Qed.

Lemma advance_counters_clamp total last counters sat :
  length total = length counters -> length last = length counters ->
  Forall (fun z => 0 <= z) total -> Forall (fun c => 0 <= c <= INT64_MAX) last ->
  Forall (fun c => 0 <= c <= INT64_MAX) counters ->
  match advance_counters (map clamp total) last counters sat with
  | Ok (lifetime, sat') =>
      Forall2 Z.le last counters /\
      lifetime = map clamp (meter_add total (meter_delta counters last)) /\
      (sat = true -> sat' = true)
  | Throw e => e = Conflict "same-session ENERGY counter rollback" /\
      ~ Forall2 Z.le last counters
  end.
Proof.
  intros Hl1 Hl2 Ht. revert last counters sat Hl1 Hl2.
  induction Ht as [|t total Ht _ IH]; intros [|p last] [|c counters] sat Hl1 Hl2 Hp Hc;
    try discriminate Hl1; try discriminate Hl2; [repeat split; [constructor|auto]|].
  apply Forall_cons_1 in Hp as [Hp Hps]. apply Forall_cons_1 in Hc as [Hc Hcs].
  cbn beta in Hp, Hc.
  cbn [map advance_counters]. destruct (Z.ltb_spec c p) as [Hlt|Hge].
  { split; [done|]. intros H. apply Forall2_cons_1 in H as [? _]. lia. }
  cbn [reject_if mbind result_bind].
  assert (0 <= c - p <= INT64_MAX) as Hd by lia.
  destruct (saturating_add_clamp t (c - p) sat Ht Hd) as (s1 & E1 & M1).
  rewrite E1. cbn [mbind result_bind fst snd].
  specialize (IH last counters s1 (eq_add_S _ _ Hl1) (eq_add_S _ _ Hl2) Hps Hcs).
  destruct (advance_counters (map clamp total) last counters s1) as [[lt s2]|e];
    cbn [mbind result_bind fst snd].
  - destruct IH as (Hle & -> & M2). split; [by constructor|]. split; [done|auto].
  - destruct IH as (-> & Hn). split; [done|]. intros H. apply Forall2_cons_1 in H as [_ ?]. done.
Qed.

Lemma clamp_counters total :
  length total = energy_counter_count -> Forall (fun z => 0 <= z) total ->
  counters_ok (map clamp total).
Proof.
  intros Hl Ht. split; [by rewrite length_map|].
  apply List.Forall_forall. intros c (z & <- & Hz)%in_map_iff.
  rewrite List.Forall_forall in Ht. specialize (Ht z Hz). unfold clamp, INT64_MAX in *. lia.
Qed.

Lemma sim_epoch_range l m : meter_sim l m -> 0 <= es_epoch (el_energy_state l) <= INT64_MAX.
Proof.
  intros S. pose proof (sim_durable l m S) as D. destruct (el_latest_energy l).
  - apply (ec_epoch _ _ (proj1 D)).
  - destruct D as [_ ->]. unfold INT64_MAX. simpl. lia.
Qed.

Lemma sim_lifetime_ok l m : meter_sim l m -> counters_ok (es_lifetime_counters (el_energy_state l)).
Proof.
  intros S. rewrite (sim_total l m S). apply clamp_counters; apply (sim_nonneg l m S).
Qed.

Lemma assign_ranges session lifetime epoch sat :
  energy_ranges session -> counters_ok lifetime ->
  energy_ranges (with_energy_status (assign_energy_counters session lifetime) epoch sat).
Proof.
  intros [R1 R2 R3 R4 R5 R6 R7 R8] [Hl Hc]. split; try assumption.
  change (flatten_energy_counters _) with
    (flatten_energy_counters (assign_energy_counters session lifetime)).
  rewrite flatten_assign by done. revert Hc. apply Forall_impl. intros. lia.
Qed.

Definition session_ok (session : EnergyValues) (sequence_ generation : Z) : Prop :=
  energy_ranges session /\ 0 <= sequence_ < 2 ^ 32 /\ 0 <= generation < 2 ^ 32.

Lemma commit_energy_sim io l m session seqn gen at_ total sat :
  meter_sim l m -> session_ok session seqn gen ->
  Forall (fun c => 0 <= c) (flatten_energy_counters session) ->
  length total = energy_counter_count -> Forall (fun z => 0 <= z) total ->
  match commit_energy io l session seqn gen at_ (map clamp total) sat with
  | (l', Ok v) => io = true /\
      meter_sim l' (mkMeter total (Some (en_session_id session, seqn,
        flatten_energy_counters session)) (me_epoch m)) /\
      el_latest_energy l' = Some v /\ flatten_energy_counters v = map clamp total /\
      el_database l' = mkDatabase (Some (energy_row v (el_energy_state l') at_))
        (db_demand (el_database l)) (db_energy_audit (el_database l))
        (db_demand_audit (el_database l)) (db_energy_history (el_database l))
        (db_demand_history (el_database l)) /\
      el_latest_demand l' = el_latest_demand l /\ el_demand_state l' = el_demand_state l
  | (l', Throw e) => io = false /\ l' = l
  end.
Proof.
  intros S (R & Hseq & Hgen) Hnn Hlen Htot. pose proof (sim_epoch_range l m S) as He.
  pose proof (clamp_counters total Hlen Htot) as Hc.
  unfold commit_energy, persist_energy, bind_u64, transact. cbn zeta.
  cbn [es_epoch]. rewrite (proj2 (Z.ltb_ge INT64_MAX _)) by lia.
  cbn [reject_if mbind result_bind]. destruct io; cbn [require mbind result_bind]; [|done].
  assert (flatten_energy_counters (assign_energy_counters session (map clamp total)) =
    map clamp total) as Hf by (apply flatten_assign, Hc).
  split; [done|]. split; [|repeat split; exact Hf].
  split; cbn [el_energy_state el_latest_energy el_database es_lifetime_counters me_total
    me_epoch me_checkpoint es_epoch es_session_id es_source_sequence es_session_counters
    db_energy]; try done; [apply (sim_epoch l m S)|].
  apply durable_self; [|by exists at_].
  split; try done; [|by apply assign_ranges].
  split; [done|]. pose proof (er_counters session R) as Hm. rewrite List.Forall_forall in *.
  intros c Hc'. split; [by apply Hnn|by apply Hm].
Qed.

(** Everything an ingest of the other kind leaves alone. *)
Definition same_demand_side (l l' : EnergyLedger) : Prop :=
  el_latest_demand l' = el_latest_demand l /\ el_demand_state l' = el_demand_state l /\
  db_demand (el_database l') = db_demand (el_database l) /\
  db_demand_audit (el_database l') = db_demand_audit (el_database l).

Definition same_energy_side (l l' : EnergyLedger) : Prop :=
  el_latest_energy l' = el_latest_energy l /\ el_energy_state l' = el_energy_state l /\
  db_energy (el_database l') = db_energy (el_database l) /\
  db_energy_audit (el_database l') = db_energy_audit (el_database l).

Lemma existsb_negative l :
  existsb (fun value => value <? 0) l = false <-> Forall (fun c => 0 <= c) l.
Proof.
  rewrite List.Forall_forall. split.
  - intros H x Hx. destruct (Z.ltb_spec x 0) as [Hlt|]; [|done]. exfalso.
    assert (existsb (fun value => value <? 0) l = true) by (apply existsb_exists; exists x; split; [done|lia]).
    congruence.
  - intros H. destruct (existsb _ l) eqn:E; [|done].
    apply existsb_exists in E as (x & Hx & Hlt). specialize (H x Hx). lia.
Qed.

Lemma meter_add_ok total delta :
  length total = energy_counter_count -> length delta = energy_counter_count ->
  Forall (fun z => 0 <= z) total -> Forall (fun z => 0 <= z) delta ->
  length (meter_add total delta) = energy_counter_count /\
  Forall (fun z => 0 <= z) (meter_add total delta).
Proof.
  intros L1 L2 H1 H2. unfold meter_add. split; [rewrite length_zip_with; lia|].
  clear L1 L2. revert delta H2. induction H1 as [|t total Ht _ IH]; intros delta H2; [constructor|].
  destruct H2 as [|d delta Hd Hds]; simpl; constructor; [lia|by apply IH].
Qed.

Lemma meter_delta_ok counters last :
  length counters = length last -> Forall2 Z.le last counters ->
  length (meter_delta counters last) = length last /\
  Forall (fun z => 0 <= z) (meter_delta counters last).
Proof.
  intros L H. unfold meter_delta. split; [rewrite length_zip_with; lia|].
  clear L. induction H; simpl; constructor; [lia|done].
Qed.

(** What an energy ingest owes to the abstract meter [m']. *)
Definition ingest_post (l : EnergyLedger) (m' : Meter) (p : EnergyLedger * result EnergyValues)
  : Prop :=
  match p with
  | (l', Ok v) =>
      meter_sim l' m' /\ el_latest_energy l' = Some v /\
      flatten_energy_counters v = map clamp (me_total m') /\ same_demand_side l l' /\
      db_energy_audit (el_database l') = db_energy_audit (el_database l)
  | (l', Throw e) => l' = l
  end.

Lemma commit_energy_post io l m session seqn gen at_ total sat :
  meter_sim l m -> session_ok session seqn gen ->
  Forall (fun c => 0 <= c) (flatten_energy_counters session) ->
  length total = energy_counter_count /\ Forall (fun z => 0 <= z) total ->
  ingest_post l
    (mkMeter total (Some (en_session_id session, seqn, flatten_energy_counters session))
       (me_epoch m))
    (commit_energy io l session seqn gen at_ (map clamp total) sat).
Proof.
  intros S Hs Hnn [L F].
  pose proof (commit_energy_sim io l m session seqn gen at_ total sat S Hs Hnn L F) as Hcm.
  destruct (commit_energy _ _ _ _ _ _ _ _) as [l' [v|e]]; simpl; [|naive_solver].
  destruct Hcm as (_ & Hsim & Hlv & Hfv & Hdb & Hld & Hds).
  unfold same_demand_side. rewrite Hdb. repeat split; done || apply Hsim.
Qed.

(** One [ingest_energy] against the abstract meter. *)
Lemma ingest_energy_sim io l m session seqn gen at_ :
  meter_sim l m -> session_ok session seqn gen ->
  ingest_post l (meter_ingest m (en_session_id session) seqn (flatten_energy_counters session))
    (ingest_energy io l session seqn gen at_).
Proof.
  intros S Hs. unfold ingest_energy, meter_ingest. cbn zeta.
  destruct (existsb _ (flatten_energy_counters session)) eqn:En; [done|].
  apply existsb_negative in En as Hnn. destruct (sim_nonneg l m S) as [Hlen Htot].
  pose proof (er_counters session (proj1 Hs)) as Hmax.
  assert (Forall (fun c => 0 <= c <= INT64_MAX) (flatten_energy_counters session)) as Hrange
    by (rewrite List.Forall_forall in *; intros c Hc; split; [by apply Hnn|by apply Hmax]).
  rewrite (sim_checkpoint l m S), (sim_total l m S).
  destruct (add_counters_clamp (me_total m) (flatten_energy_counters session)
    (en_saturated session)) as (sat & Hadd & _); [done|done|done|]. rewrite Hadd.
  assert (length (meter_add (me_total m) (flatten_energy_counters session)) =
    energy_counter_count /\
    Forall (fun z => 0 <= z) (meter_add (me_total m) (flatten_energy_counters session))) as Hm
    by (by apply meter_add_ok).
  pose proof (sim_durable l m S) as D. destruct (el_latest_energy l) as [latest|] eqn:El;
    [|by apply commit_energy_post].
  rewrite (Z.eqb_sym (es_session_id _)).
  destruct (en_session_id session =? _) eqn:Es; [|by apply commit_energy_post].
  destruct (seqn <? _) eqn:Elt; [by destruct (_ =? seqn)|].
  rewrite (Z.eqb_sym (es_source_sequence _)). destruct (seqn =? _) eqn:Eq.
  - destruct (same_energy_content _ _ _ _); simpl; [|done].
    split; [done|]. split; [done|]. destruct D as [C _].
    rewrite (ec_values _ _ C), (sim_total l m S). done.
  - pose proof (advance_counters_clamp (me_total m)
      (es_session_counters (el_energy_state l)) (flatten_energy_counters session)
      (en_saturated session)) as Hadv.
    destruct D as [C _]. destruct (ec_session_counters _ _ C) as [Lc Fc].
    specialize (Hadv Hlen Lc Htot Fc Hrange).
    destruct (advance_counters _ _ _ _) as [[lifetime sat']|e]; [|done].
    destruct Hadv as (Hle & -> & _). apply commit_energy_post; try done.
    destruct (meter_delta_ok (flatten_energy_counters session)
      (es_session_counters (el_energy_state l))) as [Ld Fd]; [done|done|].
    apply meter_add_ok; congruence || done.
Qed.

(** ** Demand peaks *)

(** What a valid completed interval offers to the import and export peaks. *)
Definition import_candidate (quality : MeasurementQuality) (current : Z) : Z :=
  if bool_decide (quality = valid) && (0 <? current) then current else 0.
Definition export_candidate (quality : MeasurementQuality) (current : Z) : Z :=
  if bool_decide (quality = valid) && (current <? 0) then Z.min INT64_MAX (- current) else 0.

(** What the session's own peak offers once it is above the reset watermark. *)
Definition fresh_peak (incoming baseline : Z) : Z := if baseline <? incoming then incoming else 0.

Definition in_counter (z : Z) : Prop := 0 <= z <= INT64_MAX.
Definition in_u64 (z : Z) : Prop := 0 <= z < 2 ^ 64.
Definition in_s64 (z : Z) : Prop := INT64_MIN <= z <= INT64_MAX.

Lemma demand_phase_spec quality current last ii ia bi ei ea be p sat :
  in_s64 current -> 0 <= pk_import p -> 0 <= pk_export p -> 0 <= ii -> 0 <= ei ->
  let p' := fst (demand_phase quality current last ii ia bi ei ea be p sat) in
  pk_import p' = Z.max (pk_import p) (Z.max (import_candidate quality current) (fresh_peak ii bi)) /\
  pk_export p' = Z.max (pk_export p) (Z.max (export_candidate quality current) (fresh_peak ei be)) /\
  pk_import_anchor p' ∈ [pk_import_anchor p; last; ia] /\
  pk_export_anchor p' ∈ [pk_export_anchor p; last; ea].
Proof.
  intros Hc Hi He Hii Hei. unfold demand_phase, import_candidate, export_candidate, fresh_peak,
    demand_magnitude, in_s64, INT64_MIN, INT64_MAX in *.
  destruct (bool_decide (quality = valid)); cbn [andb];
    destruct (Z.ltb_spec 0 current), (Z.ltb_spec current 0); cbn [andb]; try lia;
    repeat (match goal with
      | |- context [?a <? ?b] => destruct (Z.ltb_spec a b)
      | |- context [?a =? ?b] => destruct (Z.eqb_spec a b)
      end; cbn [andb negb fst pk_import pk_export pk_import_anchor pk_export_anchor] in *);
    (split; [lia|]); (split; [lia|]); rewrite !elem_of_cons; auto.
Qed.

(** The peaks of phase [i] before the loop. *)
Definition start_peaks (st : DemandState) (i : nat) : PhasePeaks :=
  mkPeaks (nth i (ds_authoritative_import st) 0) (nth i (ds_authoritative_export st) 0)
    (nth i (ds_import_anchors st) 0) (nth i (ds_export_anchors st) 0).

(** One phase of the session against the starting state. *)
Definition phase_result (session : DemandValues) (st : DemandState) (i : nat) (sat : bool)
  : PhasePeaks :=
  fst (demand_phase (quality_of_phase (de_current_active session) i)
    (nth i (flatten_demand_values (de_current_active session)) 0) (de_last_sample_index session)
    (nth i (flatten_demand_values (de_import_peak session)) 0)
    (nth i (flatten_samples (de_import_peak_sample session)) 0) (nth i (ds_baseline_import st) 0)
    (nth i (flatten_demand_values (de_export_peak session)) 0)
    (nth i (flatten_samples (de_export_peak_sample session)) 0) (nth i (ds_baseline_export st) 0)
    (start_peaks st i) sat).

Lemma demand_peaks_spec session st phases sat :
  Forall2 (fun i p => exists sat', p = phase_result session st i sat') phases
    (fst (demand_peaks session st phases sat)).
Proof.
  revert sat. induction phases as [|i phases IH]; intros sat; cbn [demand_peaks]; [constructor|].
  destruct (demand_phase _ _ _ _ _ _ _ _ _ _ sat) as [p sat1] eqn:Ep.
  specialize (IH sat1). destruct (demand_peaks session st phases sat1) as [rest sat2].
  constructor; [|done]. exists sat. unfold phase_result, start_peaks. by rewrite Ep.
Qed.

Record demand_ranges (v : DemandValues) : Prop := {
  dr_session : in_u64 (de_session_id v);
  dr_last : in_u64 (de_last_sample_index v);
  dr_anchor : in_u64 (de_interval_anchor_sample v);
  dr_count : 0 <= de_source_interval_count v < 2 ^ 32;
  dr_status : 0 <= de_source_status v < 2 ^ 32;
  dr_window_seconds : 0 <= de_window_seconds v < 2 ^ 32;
  dr_update_seconds : 0 <= de_update_seconds v < 2 ^ 32;
  dr_profile : 0 <= de_profile_generation v < 2 ^ 32;
  dr_window : 0 <= sw_sample_count (demand_window v) < 2 ^ 32;
  dr_current : Forall in_s64 (flatten_demand_values (de_current_active v));
  dr_import : Forall (fun z => z <= INT64_MAX) (flatten_demand_values (de_import_peak v));
  dr_export : Forall (fun z => z <= INT64_MAX) (flatten_demand_values (de_export_peak v));
  dr_import_anchors : Forall in_u64 (flatten_samples (de_import_peak_sample v));
  dr_export_anchors : Forall in_u64 (flatten_samples (de_export_peak_sample v))
}.

Definition four (P : Z -> Prop) (l : list Z) : Prop := length l = 4%nat /\ Forall P l.

Record demand_state_ok (st : DemandState) : Prop := {
  dso_epoch : 0 <= ds_epoch st <= INT64_MAX;
  dso_session : in_u64 (ds_session_id st);
  dso_sequence : 0 <= ds_source_sequence st < 2 ^ 32;
  dso_generation : 0 <= ds_generation st < 2 ^ 32;
  dso_current : four in_s64 (ds_current st);
  dso_raw_import : four in_counter (ds_raw_import st);
  dso_raw_export : four in_counter (ds_raw_export st);
  dso_baseline_import : four in_counter (ds_baseline_import st);
  dso_baseline_export : four in_counter (ds_baseline_export st);
  dso_import : four in_counter (ds_authoritative_import st);
  dso_export : four in_counter (ds_authoritative_export st);
  dso_import_anchors : four in_u64 (ds_import_anchors st);
  dso_export_anchors : four in_u64 (ds_export_anchors st)
}.

Lemma four_zeros (P : Z -> Prop) : P 0 -> four P (zeros 4).
Proof. intros H. split; [done|]. by repeat constructor. Qed.

Lemma four_nth P l i : four P l -> (i < 4)%nat -> P (nth i l 0).
Proof. intros [Hl H] Hi. apply Forall_nth; [done|lia]. Qed.

Lemma group_nth (P : Z -> Prop) (g : list Z) i :
  Forall P g -> length g = 4%nat -> (i < 4)%nat -> P (nth i g 0).
Proof. intros H Hl. by apply four_nth. Qed.

Lemma zero_ranges : in_counter 0 /\ in_u64 0 /\ in_s64 0.
Proof. unfold in_counter, in_u64, in_s64, INT64_MAX, INT64_MIN. lia. Qed.

Lemma new_demand_state_ok : demand_state_ok new_demand_state.
Proof.
  destruct zero_ranges as (Z1 & Z2 & Z3).
  split; simpl; try (by apply four_zeros); try done; unfold INT64_MAX; lia.
Qed.

Lemma four_map (f : PhasePeaks -> Z) (P : Z -> Prop) ps :
  length ps = 4%nat -> Forall (fun p => P (f p)) ps -> four P (map f ps).
Proof. intros Hl H. split; [by rewrite length_map|]. by apply Forall_map. Qed.

(** Fields of the state the peak loop writes, in range. *)
Lemma demand_peaks_ranges session st sat :
  demand_ranges session -> demand_state_ok st ->
  Forall (fun c => 0 <= c) (flatten_demand_values (de_import_peak session)) ->
  Forall (fun c => 0 <= c) (flatten_demand_values (de_export_peak session)) ->
  let ps := fst (demand_peaks session st (seq 0 4) sat) in
  four in_counter (map pk_import ps) /\ four in_counter (map pk_export ps) /\
  four in_u64 (map pk_import_anchor ps) /\ four in_u64 (map pk_export_anchor ps).
Proof.
  intros R O Hi He ps. pose proof (demand_peaks_spec session st (seq 0 4) sat) as H.
  fold ps in H. pose proof (Forall2_length H) as Hl. symmetry in Hl.
  assert (Forall (fun p => in_counter (pk_import p) /\ in_counter (pk_export p) /\
    in_u64 (pk_import_anchor p) /\ in_u64 (pk_export_anchor p)) ps) as Hall.
  { eapply Forall2_Forall_r; [exact H|]. apply List.Forall_forall.
    intros i Hseq%in_seq p [sat' ->]. unfold phase_result.
    assert (i < 4)%nat as Hi4 by lia.
    pose proof (four_nth _ _ i (dso_import st O) Hi4). pose proof (four_nth _ _ i (dso_export st O) Hi4).
    pose proof (four_nth _ _ i (dso_import_anchors st O) Hi4).
    pose proof (four_nth _ _ i (dso_export_anchors st O) Hi4).
    pose proof (group_nth _ _ i (dr_current _ R) eq_refl Hi4) as Hc.
    pose proof (group_nth _ _ i (dr_import _ R) eq_refl Hi4).
    pose proof (group_nth _ _ i (dr_export _ R) eq_refl Hi4).
    pose proof (group_nth _ _ i Hi eq_refl Hi4).
    pose proof (group_nth _ _ i He eq_refl Hi4).
    pose proof (group_nth _ _ i (dr_import_anchors _ R) eq_refl Hi4).
    pose proof (group_nth _ _ i (dr_export_anchors _ R) eq_refl Hi4).
    pose proof (dr_last _ R). cbn beta in *. unfold in_counter in *.
    match goal with |- context [demand_phase ?a ?b ?c ?d ?e ?f ?g ?h ?j ?k ?s] =>
      destruct (demand_phase_spec a b c d e f g h j k s) as (-> & -> & A1 & A2); [done|..] end.
    all: unfold start_peaks in *; cbn [pk_import pk_export pk_import_anchor pk_export_anchor] in *;
      try lia.
    unfold import_candidate, export_candidate, fresh_peak, in_s64, INT64_MIN, INT64_MAX in *.
    split; [repeat case_match; lia|]. split; [repeat case_match; lia|].
    split.
    - repeat (apply elem_of_cons in A1 as [->|A1]; [done|]). by apply not_elem_of_nil in A1.
    - repeat (apply elem_of_cons in A2 as [->|A2]; [done|]). by apply not_elem_of_nil in A2. }
  split; [|split; [|split]]; (apply four_map; [done|]); revert Hall; apply Forall_impl; naive_solver.
Qed.

(** ** Durable form of the demand state *)

Definition demand_row (v : DemandValues) (state : DemandState) (updated_ns : Z) : DemandRow :=
  mkDemandRow (ds_epoch state) (hex64 (ds_session_id state)) (ds_source_sequence state)
    (ds_generation state) (encode_array (ds_current state))
    (encode_array (ds_raw_import state)) (encode_array (ds_raw_export state))
    (encode_array (ds_baseline_import state)) (encode_array (ds_baseline_export state))
    (encode_array (ds_authoritative_import state))
    (encode_array (ds_authoritative_export state)) (encode_array (ds_import_anchors state))
    (encode_array (ds_export_anchors state)) (demand_qualities v)
    (hex64 (de_last_sample_index v)) (hex64 (de_interval_anchor_sample v))
    (de_source_interval_count v) (de_source_status v) (demand_flags v)
    (sw_sample_count (demand_window v)) (sample_rate (demand_window v))
    updated_ns (demand_method_code (de_method v)) (de_window_seconds v) (de_update_seconds v)
    (de_profile_generation v).

(** The published demand agrees with the state, and both fit their columns. *)
Record demand_consistent (v : DemandValues) (st : DemandState) : Prop := {
  dc_state : demand_state_ok st;
  dc_method : de_method v = ds_method st;
  dc_window : de_window_seconds v = ds_window_seconds st;
  dc_update : de_update_seconds v = ds_update_seconds st;
  dc_profile : de_profile_generation v = ds_profile_generation st;
  dc_session : de_session_id v = ds_session_id st;
  dc_epoch : de_peak_reset_epoch v = ds_epoch st;
  dc_current : flatten_demand_values (de_current_active v) = ds_current st;
  dc_import : flatten_demand_values (de_import_peak v) = ds_authoritative_import st;
  dc_export : flatten_demand_values (de_export_peak v) = ds_authoritative_export st;
  dc_ranges : in_u64 (de_last_sample_index v) /\ in_u64 (de_interval_anchor_sample v) /\
    0 <= de_source_interval_count v < 2 ^ 32 /\ 0 <= de_source_status v < 2 ^ 32 /\
    0 <= de_window_seconds v < 2 ^ 32 /\ 0 <= de_update_seconds v < 2 ^ 32 /\
    0 <= de_profile_generation v < 2 ^ 32 /\ 0 <= sw_sample_count (demand_window v) < 2 ^ 32
}.

Definition demand_durable (l : EnergyLedger) : Prop :=
  match el_latest_demand l with
  | None => db_demand (el_database l) = None /\ el_demand_state l = new_demand_state
  | Some v => demand_consistent v (el_demand_state l) /\
      exists u ns, demand_consistent u (el_demand_state l) /\
        db_demand (el_database l) = Some (demand_row u (el_demand_state l) ns)
  end.

Lemma demand_durable_self v st (row : option DemandRow) :
  demand_consistent v st -> (exists ns, row = Some (demand_row v st ns)) ->
  demand_consistent v st /\ exists u ns, demand_consistent u st /\
    row = Some (demand_row u st ns).
Proof. intros C [ns E]. eauto. Qed.

Lemma demand_method_roundtrip m :
  u32 (demand_method_code m) = demand_method_code m /\
  (1 <? demand_method_code m) = false /\ demand_method_of (demand_method_code m) = m.
Proof. by destruct m. Qed.

Lemma counters_signed l : four in_counter l -> Forall in_s64 l.
Proof.
  intros [_ H]. revert H. apply Forall_impl. unfold in_counter, in_s64, INT64_MIN. intros. lia.
Qed.

Lemma decode_counters name l : four in_counter l -> decode_array 4 (encode_array l) name = Ok l.
Proof. intros H. apply decode_encode_signed; [apply H|by apply counters_signed]. Qed.

Lemma decode_anchors name l : four in_u64 l -> decode_u64 4 (encode_array l) name = Ok l.
Proof. intros [Hl H]. by apply decode_encode_unsigned. Qed.

Lemma demand_flags_bits v :
  any_bit (u32 (demand_flags v)) 1 = de_time_aligned v /\
  any_bit (u32 (demand_flags v)) 2 = de_contaminated v /\
  any_bit (u32 (demand_flags v)) 4 = de_boundary_valid v /\
  any_bit (u32 (demand_flags v)) 8 = de_saturated v /\
  any_bit (u32 (demand_flags v)) 16 = de_incomplete_input v.
Proof.
  unfold demand_flags. by destruct (de_time_aligned v), (de_contaminated v),
    (de_boundary_valid v), (de_saturated v), (de_incomplete_input v).
Qed.

Lemma flatten_assign4 v l :
  length l = 4%nat -> flatten_demand_values (assign_demand_values v l) = l.
Proof.
  intros Hl. do 4 (destruct l as [|? l]; [discriminate Hl|]).
  destruct l; [reflexivity|discriminate Hl].
Qed.

Lemma load_demand_row db v st ns :
  demand_consistent v st -> db_demand db = Some (demand_row v st ns) ->
  exists w, load_demand db = Ok (st, Some w) /\ demand_consistent w st /\
    demand_qualities w = demand_qualities v.
Proof.
  intros C Hrow. pose proof C as C'.
  destruct C as [O Hm Hw Hu Hp Hs He Hc Hi Hx (R1 & R2 & R3 & R4 & R5 & R6 & R7 & R8)].
  unfold load_demand. rewrite Hrow. unfold demand_row.
  cbn [drow_epoch drow_session_id drow_source_sequence drow_generation drow_current_values
    drow_raw_import drow_raw_export drow_baseline_import drow_baseline_export
    drow_authoritative_import drow_authoritative_export drow_import_anchors drow_export_anchors
    drow_qualities drow_last_sample drow_target_sample drow_source_count drow_source_status
    drow_flags drow_sample_count drow_sample_rate drow_updated_ns drow_method
    drow_window_seconds drow_update_seconds drow_profile_generation].
  rewrite !parse_hex64_hex64 by (done || apply (dso_session st O)).
  rewrite (decode_encode_signed _ (ds_current st)) by apply (dso_current st O).
  rewrite (decode_counters _ (ds_raw_import st)) by apply (dso_raw_import st O).
  rewrite (decode_counters _ (ds_raw_export st)) by apply (dso_raw_export st O).
  rewrite (decode_counters _ (ds_baseline_import st)) by apply (dso_baseline_import st O).
  rewrite (decode_counters _ (ds_baseline_export st)) by apply (dso_baseline_export st O).
  rewrite (decode_counters _ (ds_authoritative_import st)) by apply (dso_import st O).
  rewrite (decode_counters _ (ds_authoritative_export st)) by apply (dso_export st O).
  rewrite (decode_anchors _ (ds_import_anchors st)) by apply (dso_import_anchors st O).
  rewrite (decode_anchors _ (ds_export_anchors st)) by apply (dso_export_anchors st O).
  cbn [mbind result_bind].
  change (length (demand_qualities v) =? 12)%nat with true.
  destruct (demand_method_roundtrip (de_method v)) as (M1 & M2 & M3). rewrite M1, M2, M3.
  destruct (demand_flags_bits v) as (F1 & F2 & F4 & F8 & F16). rewrite F1, F2, F4, F8, F16.
  cbn [negb reject_if mbind result_bind].
  pose proof (dso_epoch st O). pose proof (dso_sequence st O). pose proof (dso_generation st O).
  rewrite (wrap_id 64 (ds_epoch st)) by (unfold INT64_MAX in *; lia).
  rewrite !(wrap_id 32) by done. rewrite Hm, Hw, Hu, Hp.
  eexists. split; [by destruct st|]. split.
  - split; try reflexivity; try assumption.
    + apply flatten_assign4, (dso_current st O).
    + apply flatten_assign4, (dso_import st O).
    + apply flatten_assign4, (dso_export st O).
    + cbn [de_last_sample_index de_interval_anchor_sample de_source_interval_count
        de_source_status de_window_seconds de_update_seconds de_profile_generation].
      rewrite <- Hw, <- Hu, <- Hp. do 7 (split; [assumption|]).
      change (0 <= u32 (sw_sample_count (demand_window v)) < 2 ^ 32). apply wrap_range. lia.
  - unfold demand_qualities, group_qualities. cbn [app nth stamp_group quality_group set_quality
      assign_demand_values copy_group set_value r_quality abct_a abct_b abct_c abct_total
      de_current_active de_import_peak de_export_peak Nat.add].
    by rewrite !quality_code_roundtrip.
Qed.

Definition demand_session_ok (session : DemandValues) (sequence_ generation : Z) : Prop :=
  demand_ranges session /\ 0 <= sequence_ < 2 ^ 32 /\ 0 <= generation < 2 ^ 32.

Lemma durable_state_ok l : demand_durable l -> demand_state_ok (el_demand_state l).
Proof.
  unfold demand_durable. destruct (el_latest_demand l).
  - intros [C _]. apply C.
  - intros [_ ->]. apply new_demand_state_ok.
Qed.

Lemma demand_start_ok session st changed same start :
  demand_state_ok st -> demand_start session st changed same = Ok start ->
  0 <= ds_epoch start /\ (ds_epoch start <= INT64_MAX -> demand_state_ok start).
Proof.
  intros O H. destruct zero_ranges as (Z1 & Z2 & Z3).
  pose proof (dso_epoch st O). unfold demand_start in H.
  destruct changed; [|destruct same; cbn [negb] in H].
  - apply Ok_inj in H as <-. cbn [ds_epoch].
    pose proof (wrap_range 64 (ds_epoch st + 1) ltac:(lia)). split; [lia|]. intros He.
    split; cbn; try (by apply four_zeros); try (apply O); lia.
  - apply bind_Ok in H as (? & _ & H). apply Ok_inj in H as <-. auto with lia.
  - apply Ok_inj in H as <-. cbn [ds_epoch]. split; [lia|]. intros _.
    split; cbn; try (by apply four_zeros); apply O.
Qed.

(** [record_history] writes the two history tables only. *)
Lemma record_history_frame l db v st at_ db' :
  record_history l db v st at_ = Ok db' ->
  db_energy db' = db_energy db /\ db_demand db' = db_demand db /\
  db_energy_audit db' = db_energy_audit db /\ db_demand_audit db' = db_demand_audit db.
Proof.
  unfold record_history. destruct (_ && _); [|by intros [= <-]].
  intros H. cbn zeta in H. repeat (apply bind_Ok in H as (? & _ & H)).
  by apply Ok_inj in H as <-.
Qed.

Definition demand_post (l : EnergyLedger) (p : EnergyLedger * result DemandValues) : Prop :=
  match p with
  | (l', Ok v) => demand_durable l' /\ el_latest_demand l' = Some v /\ same_energy_side l l' /\
      db_demand_audit (el_database l') = db_demand_audit (el_database l)
  | (l', Throw e) => l' = l
  end.

Lemma commit_demand_post io l session seqn gen at_ start :
  demand_session_ok session seqn gen ->
  Forall (fun c => 0 <= c) (flatten_demand_values (de_import_peak session)) ->
  Forall (fun c => 0 <= c) (flatten_demand_values (de_export_peak session)) ->
  0 <= ds_epoch start -> (ds_epoch start <= INT64_MAX -> demand_state_ok start) ->
  demand_post l (commit_demand io l session seqn gen at_ start).
Proof.
  intros (R & Hseq & Hgen) Hi He Hep Hok. unfold commit_demand.
  destruct (demand_peaks session start (seq 0 4) (de_saturated session)) as [ps sat] eqn:Ep.
  unfold persist_demand, bind_u64. cbn [ds_epoch].
  destruct (Z.ltb_spec INT64_MAX (ds_epoch start)) as [|Hle]; [done|].
  specialize (Hok Hle). cbn [reject_if mbind result_bind].
  pose proof (demand_peaks_ranges session start (de_saturated session) R Hok Hi He) as Hps.
  rewrite Ep in Hps. cbn [fst] in Hps. destruct Hps as (P1 & P2 & P3 & P4).
  match goal with |- context [record_history ?a ?b ?c ?d ?e] =>
    destruct (record_history a b c d e) as [db'|] eqn:Eh; [|done] end.
  cbn [mbind result_bind]. destruct io; cbn [transact require mbind result_bind]; [|done].
  apply record_history_frame in Eh as (F1 & F2 & F3 & F4).
  cbn [demand_post]. unfold demand_durable, same_energy_side.
  cbn [el_latest_demand el_demand_state el_database el_latest_energy el_energy_state].
  rewrite F1, F2, F3, F4. split; [|done]. apply demand_durable_self; [|by exists at_].
  assert (Forall in_counter (flatten_demand_values (de_import_peak session))) as Hic
    by (pose proof (dr_import _ R) as Hm; rewrite List.Forall_forall in *; intros x Hx; split;
        [by apply Hi|by apply Hm]).
  assert (Forall in_counter (flatten_demand_values (de_export_peak session))) as Hec
    by (pose proof (dr_export _ R) as Hm; rewrite List.Forall_forall in *; intros x Hx; split;
        [by apply He|by apply Hm]).
  split; try reflexivity; [| | |].
  - split; cbn [ds_epoch ds_session_id ds_source_sequence ds_generation ds_current
      ds_raw_import ds_raw_export ds_baseline_import ds_baseline_export ds_authoritative_import
      ds_authoritative_export ds_import_anchors ds_export_anchors];
      first [assumption | apply Hok | apply R | split; [reflexivity|assumption || apply R]].
  - apply flatten_assign4, P1.
  - apply flatten_assign4, P2.
  - repeat apply conj; apply R.
Qed.

Lemma ingest_demand_post io l session seqn gen at_ :
  demand_durable l -> demand_session_ok session seqn gen ->
  demand_post l (ingest_demand io l session seqn gen at_).
Proof.
  intros D Hs. unfold ingest_demand. cbn zeta.
  destruct (_ || _ || _); [done|]. destruct (existsb _ _) eqn:En; [done|].
  apply existsb_negative, Forall_app in En as [Hi He].
  destruct (_ && (_ <? _)); [done|].
  destruct (if _ && (_ =? _) then el_latest_demand l else None) as [latest|] eqn:El.
  - destruct (same_demand_content _ _ _ _); [|done]. simpl.
    split; [done|]. split; [|done]. by destruct (_ && _).
  - match goal with |- context [demand_start ?a ?b ?c ?d] =>
      destruct (demand_start a b c d) as [start|] eqn:Es; [|done] end.
    destruct (demand_start_ok _ _ _ _ _ (durable_state_ok l D) Es).
    by apply commit_demand_post.
Qed.

(** ** Resets *)

Definition reset_energy_post (l : EnergyLedger) (m : Meter) (key : string)
    (p : EnergyLedger * result ResetResult) : Prop :=
  match p with
  | (l', Ok r) =>
      if rr_replayed r then l' = l
      else meter_sim l' (meter_reset m) /\ rr_epoch r = me_epoch m + 1 /\
        (exists row, db_energy_audit (el_database l') =
           <[key := row]> (db_energy_audit (el_database l)) /\
           audit_resulting_epoch row = rr_epoch r) /\
        same_demand_side l l'
  | (l', Throw e) => l' = l
  end.

Lemma reset_energy_sim io l m request :
  meter_sim l m -> reset_energy_post l m (rq_idempotency_key request) (reset_energy io l request).
Proof.
  intros S. unfold reset_energy. destruct (validate_reset request); [|done].
  destruct (db_energy_audit _ !! _) as [row|]; [done|].
  pose proof (sim_durable l m S) as D. pose proof (sim_epoch l m S) as Hep.
  pose proof (sim_checkpoint l m S) as Hcp. pose proof (sim_epoch_range l m S) as Hr.
  destruct (el_latest_energy l) as [latest|] eqn:El; [|done]. destruct D as [C _].
  destruct (negb _); [done|]. cbn zeta.
  unfold persist_energy, bind_u64, transact. cbn [es_epoch].
  rewrite !(wrap_id 64) by (unfold INT64_MAX in *; lia).
  destruct (Z.ltb_spec INT64_MAX (es_epoch (el_energy_state l) + 1)) as [|Hle]; [done|].
  cbn [reject_if mbind result_bind]. rewrite (proj2 (Z.ltb_ge INT64_MAX _)) by lia.
  cbn [reject_if mbind result_bind]. destruct io; cbn [require mbind result_bind]; [|done].
  cbn [reset_energy_post rr_replayed rr_epoch el_database db_energy_audit].
  assert (counters_ok (zeros energy_counter_count)) as Hz.
  { split; [done|]. apply Forall_replicate. unfold INT64_MAX. lia. }
  split; [|split; [lia|split; [by eexists|done]]].
  split; cbn [el_energy_state el_latest_energy el_database es_lifetime_counters me_total
    me_epoch me_checkpoint es_epoch es_session_id es_source_sequence es_session_counters
    db_energy meter_reset]; try done.
  - split; [done|]. destruct Hz as [_ Hz]. revert Hz. apply Forall_impl. intros. lia.
  - lia.
  - apply durable_self; [|by exists (rq_requested_at_nanoseconds request)].
    destruct C as [C1 C2 C3 C4 C5 C6 C7 C8 C9]. split; cbn [es_epoch es_source_sequence
      es_generation es_session_counters es_lifetime_counters es_session_id]; try done.
    + lia.
    + by apply assign_ranges.
Qed.

Definition reset_demand_post (l : EnergyLedger) (key : string)
    (p : EnergyLedger * result ResetResult) : Prop :=
  match p with
  | (l', Ok r) =>
      if rr_replayed r then l' = l
      else demand_durable l' /\ rr_epoch r = ds_epoch (el_demand_state l) + 1 /\
        ds_epoch (el_demand_state l') = rr_epoch r /\
        ds_authoritative_import (el_demand_state l') = zeros 4 /\
        ds_authoritative_export (el_demand_state l') = zeros 4 /\
        ds_baseline_import (el_demand_state l') = ds_raw_import (el_demand_state l) /\
        ds_baseline_export (el_demand_state l') = ds_raw_export (el_demand_state l) /\
        (exists row, db_demand_audit (el_database l') =
           <[key := row]> (db_demand_audit (el_database l)) /\
           audit_resulting_epoch row = rr_epoch r) /\
        same_energy_side l l'
  | (l', Throw e) => l' = l
  end.

Lemma reset_demand_sim io l request :
  demand_durable l ->
  reset_demand_post l (rq_idempotency_key request) (reset_demand_peaks io l request).
Proof.
  intros D. unfold reset_demand_peaks. destruct (validate_reset request); [|done].
  destruct (db_demand_audit _ !! _) as [row|]; [done|].
  pose proof (durable_state_ok l D) as O. pose proof (dso_epoch _ O) as Hr.
  unfold demand_durable in D. destruct (el_latest_demand l) as [latest|] eqn:El; [|done].
  destruct D as [C _]. destruct (negb _); [done|]. cbn zeta.
  unfold persist_demand, bind_u64, transact. cbn [ds_epoch].
  rewrite !(wrap_id 64) by (unfold INT64_MAX in *; lia).
  destruct (Z.ltb_spec INT64_MAX (ds_epoch (el_demand_state l) + 1)) as [|Hle]; [done|].
  cbn [reject_if mbind result_bind]. rewrite (proj2 (Z.ltb_ge INT64_MAX _)) by lia.
  cbn [reject_if mbind result_bind]. destruct io; cbn [require mbind result_bind]; [|done].
  cbn [reset_demand_post rr_replayed rr_epoch el_database db_demand_audit el_demand_state
    ds_epoch ds_authoritative_import ds_authoritative_export ds_baseline_import
    ds_baseline_export].
  split; [|repeat (split; [reflexivity|]); split; [by eexists|done]].
  unfold demand_durable. cbn [el_latest_demand el_demand_state el_database db_demand].
  apply demand_durable_self; [|by exists (rq_requested_at_nanoseconds request)].
  destruct C as [C1 C2 C3 C4 C5 C6 C7 C8 C9 C10 C11].
  destruct zero_ranges as (Z1 & Z2 & Z3).
  split; cbn [ds_method ds_window_seconds ds_update_seconds ds_profile_generation ds_session_id
    ds_epoch ds_current ds_authoritative_import ds_authoritative_export de_method
    de_window_seconds de_update_seconds de_profile_generation de_session_id
    de_peak_reset_epoch de_current_active with_demand_peaks]; try done.
  split; cbn [ds_epoch ds_session_id ds_source_sequence ds_generation ds_current
    ds_raw_import ds_raw_export ds_baseline_import ds_baseline_export ds_authoritative_import
    ds_authoritative_export ds_import_anchors ds_export_anchors];
    first [apply C1 | by apply four_zeros | lia].
Qed.

(** ** Restart *)

Lemma same_energy_consistent v u st :
  same_energy v u -> energy_consistent u st -> 0 <= sw_sample_count (energy_window v) < 2 ^ 32 ->
  energy_consistent v st.
Proof.
  intros [] [? ? ? ? ? Hval Hses Hep [? ? ? ? ? ? ? Hc]] Hw.
  split; try done; try congruence. split; try congruence; done.
Qed.

Lemma same_energy_trans u v w : same_energy u v -> same_energy v w -> same_energy u w.
Proof. intros [] []. split; congruence. Qed.

Lemma same_energy_sym u v : same_energy u v -> same_energy v u.
Proof. intros []. by split. Qed.

Definition ledger_inv (l : EnergyLedger) (m : Meter) : Prop := meter_sim l m /\ demand_durable l.

Lemma restart_inv l m :
  ledger_inv l m ->
  exists l', open_ledger (el_database l) = Ok l' /\ ledger_inv l' m /\
    el_database l' = el_database l /\ el_energy_state l' = el_energy_state l /\
    el_demand_state l' = el_demand_state l /\
    match el_latest_energy l, el_latest_energy l' with
    | Some v, Some w => same_energy w v
    | None, None => True
    | _, _ => False
    end.
Proof.
  intros [S D]. unfold open_ledger.
  pose proof (sim_durable l m S) as DE. pose proof D as DD. unfold demand_durable in DD.
  assert (exists le, load_energy (el_database l) = Ok (el_energy_state l, le) /\
    match el_latest_energy l, le with
    | Some v, Some w => same_energy w v /\ energy_consistent w (el_energy_state l)
    | None, None => True | _, _ => False end) as (le & Hle & Heq).
  { destruct (el_latest_energy l) as [v|].
    - destruct DE as (_ & u & ns & Cu & Hvu & Hrow).
      destruct (load_energy_row _ _ _ _ Cu Hrow) as (w & Hw & Hwu & Hwin).
      exists (Some w). split; [done|]. split.
      + by eapply same_energy_trans; [|apply same_energy_sym].
      + eapply same_energy_consistent; [exact Hwu|done|]. rewrite Hwin.
        apply wrap_range. lia.
    - destruct DE as [Hn Hst]. exists None. unfold load_energy. by rewrite Hn, Hst. }
  assert (exists ld, load_demand (el_database l) = Ok (el_demand_state l, ld) /\
    match el_latest_demand l, ld with
    | Some _, Some w => demand_consistent w (el_demand_state l)
    | None, None => True | _, _ => False end) as (ld & Hld & Hdq).
  { destruct (el_latest_demand l) as [v|].
    - destruct DD as (_ & u & ns & Cu & Hrow).
      destruct (load_demand_row _ _ _ _ Cu Hrow) as (w & Hw & Cw & _). by exists (Some w).
    - destruct DD as [Hn Hst]. exists None. unfold load_demand. by rewrite Hn, Hst. }
  rewrite Hle. cbn [mbind result_bind]. rewrite Hld. cbn [mbind result_bind fst snd].
  eexists. split; [reflexivity|].
  cbn [el_database el_energy_state el_demand_state el_latest_energy].
  split; [|repeat split; destruct (el_latest_energy l), le; naive_solver].
  split.
  - destruct S as [S1 S2 S3 S4 S5].
    split; cbn [el_energy_state el_latest_energy el_database]; try done.
    + rewrite S4. by destruct (el_latest_energy l), le.
    + destruct (el_latest_energy l) as [v|], le as [w|]; try done.
      destruct Heq as [Hwv Cw]. split; [done|]. destruct DE as (_ & u & ns & Cu & Hvu & Hrow).
      exists u, ns. split; [done|]. split; [|done]. by eapply same_energy_trans.
  - unfold demand_durable. cbn [el_latest_demand el_demand_state el_database].
    destruct (el_latest_demand l), ld; try done. split; [done|apply DD].
Qed.

(** ** Executions

    A ledger is opened on an empty database and then receives ingests, resets and
    process restarts in any order; [io] is chosen freely at every write.  Beside it the
    abstract meter performs the operations the ledger accepted. *)
Inductive ledger_trace : EnergyLedger -> Meter -> Prop :=
  | trace_open l : open_ledger empty_database = Ok l -> ledger_trace l new_meter
  | trace_energy io l m session seqn gen at_ l' v :
      ledger_trace l m -> session_ok session seqn gen ->
      ingest_energy io l session seqn gen at_ = (l', Ok v) ->
      ledger_trace l' (meter_ingest m (en_session_id session) seqn
        (flatten_energy_counters session))
  | trace_energy_fail io l m session seqn gen at_ l' e :
      ledger_trace l m -> session_ok session seqn gen ->
      ingest_energy io l session seqn gen at_ = (l', Throw e) -> ledger_trace l' m
  | trace_demand io l m session seqn gen at_ l' r :
      ledger_trace l m -> demand_session_ok session seqn gen ->
      ingest_demand io l session seqn gen at_ = (l', r) -> ledger_trace l' m
  | trace_reset_energy io l m request l' epoch :
      ledger_trace l m -> reset_energy io l request = (l', Ok (mkResetResult epoch false)) ->
      ledger_trace l' (meter_reset m)
  | trace_reset_energy_noop io l m request l' r :
      ledger_trace l m -> reset_energy io l request = (l', r) ->
      (forall epoch, r <> Ok (mkResetResult epoch false)) -> ledger_trace l' m
  | trace_reset_demand io l m request l' r :
      ledger_trace l m -> reset_demand_peaks io l request = (l', r) -> ledger_trace l' m
  | trace_restart l m l' :
      ledger_trace l m -> open_ledger (el_database l) = Ok l' -> ledger_trace l' m.

Lemma meter_sim_frame l l' m : same_energy_side l l' -> meter_sim l m -> meter_sim l' m.
Proof.
  intros (E1 & E2 & E3 & _) [S1 S2 S3 S4 S5].
  split; rewrite ?E1, ?E2, ?E3; done.
Qed.

Lemma demand_durable_frame l l' : same_demand_side l l' -> demand_durable l -> demand_durable l'.
Proof. intros (E1 & E2 & E3 & _). unfold demand_durable. by rewrite E1, E2, E3. Qed.

Lemma open_empty_inv l : open_ledger empty_database = Ok l -> ledger_inv l new_meter.
Proof.
  intros H. apply Ok_inj in H as <-. split; [|by split].
  split; try done. split; [done|]. apply Forall_replicate. lia.
Qed.

Lemma trace_inv l m : ledger_trace l m -> ledger_inv l m.
Proof.
  induction 1 as [l H|io l m session seqn gen at_ l' v _ [S D] Hs H
    |io l m session seqn gen at_ l' e _ [S D] Hs H|io l m session seqn gen at_ l' r _ [S D] Hs H
    |io l m request l' epoch _ [S D] H|io l m request l' r _ [S D] H Hn
    |io l m request l' r _ [S D] H|l m l' _ IH H].
  - by apply open_empty_inv.
  - pose proof (ingest_energy_sim io l m session seqn gen at_ S Hs) as P. rewrite H in P.
    destruct P as (S' & _ & _ & F & _). split; [done|]. by eapply demand_durable_frame.
  - pose proof (ingest_energy_sim io l m session seqn gen at_ S Hs) as P. rewrite H in P.
    by simpl in P; subst.
  - pose proof (ingest_demand_post io l session seqn gen at_ D Hs) as P. rewrite H in P.
    destruct r; [|by simpl in P; subst]. destruct P as (D' & _ & F & _).
    split; [by eapply meter_sim_frame|done].
  - pose proof (reset_energy_sim io l m request S) as P. rewrite H in P.
    destruct P as (S' & _ & _ & F). split; [done|]. by eapply demand_durable_frame.
  - pose proof (reset_energy_sim io l m request S) as P. rewrite H in P.
    destruct r as [[epoch []]|]; simpl in P; subst; try done. by destruct (Hn epoch).
  - pose proof (reset_demand_sim io l request D) as P. rewrite H in P.
    destruct r as [[epoch []]|]; simpl in P; subst; try done.
    destruct P as (D' & _ & _ & _ & _ & _ & _ & _ & F). split; [by eapply meter_sim_frame|done].
  - destruct (restart_inv l m IH) as (l1 & H1 & I1 & _). congruence.
Qed.

(** ** Retries *)

(** An acquisition window: [rate] samples per second, at least one nanosecond long. *)
Definition acquisition_window (w : SampleWindow) (rate : Z) : Prop :=
  0 < rate /\ 2 * rate <= UINT32_MAX /\ 0 < sw_sample_count w < 2 ^ 32 /\
  rate <= sw_sample_count w * 1000000000 /\
  sw_duration w = sw_sample_count w * 1000000000 / rate.

Lemma restored_window_exact w rate :
  acquisition_window w rate -> restored_window (sw_sample_count w) (sample_rate w) = w.
Proof.
  intros (Hr & Hr2 & Hc & Hn & Hd). set (n := sw_sample_count w * 1000000000) in *.
  assert (1 <= sw_duration w) by (rewrite Hd; apply Z.div_le_lower_bound; lia).
  assert (n / sw_duration w <= 2 * rate) as Hle.
  { rewrite Hd in *. apply Z.div_le_upper_bound; [lia|].
    pose proof (Z.mul_succ_div_gt n rate Hr). nia. }
  assert (1 <= n / sw_duration w) as Hge.
  { apply Z.div_le_lower_bound; [lia|]. pose proof (Z.mul_div_le n rate Hr). rewrite Hd. nia. }
  unfold sample_rate. fold n. rewrite (wrap_id 64 n) by (unfold n; lia).
  rewrite (proj2 (Z.eqb_neq _ _)), (proj2 (Z.leb_gt _ 0)) by lia. cbn [orb].
  rewrite (proj2 (Z.ltb_ge UINT32_MAX _)) by lia.
  unfold restored_window. fold n. rewrite wrap_id by lia. rewrite Z.max_l by lia.
  rewrite Z.quot_div_nonneg by lia. destruct w as [c d]. cbn [sw_sample_count sw_duration] in *.
  f_equal. rewrite Hd. apply quotient_closed; lia.
Qed.

(** A session family that is not the checkpoint the ledger already holds. *)
Definition fresh_family (l : EnergyLedger) (session : EnergyValues) (seqn : Z) : Prop :=
  el_latest_energy l = None \/ en_session_id session <> es_session_id (el_energy_state l) \/
  seqn <> es_source_sequence (el_energy_state l).

Lemma commit_energy_shape io l session seqn gen at_ lifetime sat l' v :
  commit_energy io l session seqn gen at_ lifetime sat = (l', Ok v) ->
  v = with_energy_status (assign_energy_counters session lifetime)
        (es_epoch (el_energy_state l)) sat /\
  el_latest_energy l' = Some v /\
  el_energy_state l' = mkEnergyState (es_epoch (el_energy_state l)) (en_session_id session) seqn
    gen (flatten_energy_counters session) lifetime /\
  db_energy (el_database l') = Some (energy_row v (el_energy_state l') at_).
Proof.
  unfold commit_energy, persist_energy, bind_u64, transact. cbn zeta. cbn [es_epoch].
  destruct (INT64_MAX <? _); [done|]. cbn [reject_if mbind result_bind].
  destruct io; cbn [require mbind result_bind]; [|done]. intros H. by injection H as <- <-.
Qed.

Lemma ingest_fresh_shape io l m session seqn gen at_ l' v :
  meter_sim l m -> session_ok session seqn gen -> fresh_family l session seqn ->
  ingest_energy io l session seqn gen at_ = (l', Ok v) ->
  exists lifetime sat, (en_saturated session = true -> sat = true) /\
    commit_energy io l session seqn gen at_ lifetime sat = (l', Ok v).
Proof.
  intros S Hs Hf. unfold ingest_energy. cbn zeta.
  destruct (existsb _ _) eqn:En; [done|]. apply existsb_negative in En.
  destruct (sim_nonneg l m S) as [Hlen Htot].
  assert (Forall (fun c => 0 <= c <= INT64_MAX) (flatten_energy_counters session)) as Hr.
  { pose proof (er_counters session (proj1 Hs)) as Hm. rewrite List.Forall_forall in *.
    intros c Hc. split; [by apply En|by apply Hm]. }
  rewrite (sim_total l m S).
  destruct (add_counters_clamp (me_total m) (flatten_energy_counters session)
    (en_saturated session)) as (sat & -> & Hsat); [done..|].
  pose proof (sim_durable l m S) as D. destruct (el_latest_energy l) as [latest|] eqn:El;
    [|by eauto].
  destruct (Z.eqb_spec (en_session_id session) (es_session_id (el_energy_state l))); [|by eauto].
  destruct (seqn <? _); [done|].
  destruct (Z.eqb_spec seqn (es_source_sequence (el_energy_state l))).
  { unfold fresh_family in Hf. rewrite El in Hf. naive_solver. }
  destruct D as [C _]. destruct (ec_session_counters _ _ C) as [Lc Fc].
  pose proof (advance_counters_clamp (me_total m) (es_session_counters (el_energy_state l))
    (flatten_energy_counters session) (en_saturated session) Hlen Lc Htot Fc Hr) as Hadv.
  destruct (advance_counters _ _ _ _) as [[lt sat']|err]; [|done]. by naive_solver.
Qed.

(** The retry test holds for the family that made the checkpoint. *)
Lemma same_content_of_checkpoint session lifetime epoch sat w st gen rate :
  same_energy w (with_energy_status (assign_energy_counters session lifetime) epoch sat) ->
  (en_saturated session = true -> sat = true) ->
  es_session_counters st = flatten_energy_counters session -> es_generation st = gen ->
  acquisition_window (energy_window session) rate ->
  energy_window w = restored_window (sw_sample_count (energy_window session))
                      (sample_rate (energy_window session)) ->
  same_energy_content session w st gen = true.
Proof.
  intros [Sc Sq Ss Sl Sa Sk Sab Skb Se St Si Sd] Hsat Hc Hg Ha Hw.
  rewrite (restored_window_exact _ _ Ha) in Hw. unfold same_energy_content, same_window.
  rewrite Hc, Hg, Sq, Sl, Sa, Sk, Sab, Skb, Si, Sd, St, Hw.
  cbn [with_energy_status assign_energy_counters en_last_sample_index en_accepted_samples
    en_skipped_samples en_accepted_blocks en_skipped_blocks en_incomplete_input
    en_discontinuity en_saturated].
  rewrite !Z.eqb_refl, !eqb_reflx, !bool_decide_eq_true_2 by done.
  destruct (en_saturated session); [by rewrite Hsat|done].
Qed.

(** ** Histories

    What a ledger was given, the most recent event first: the session families it
    accepted and the resets it applied.  Everything else (a refused or failed request, a
    replayed reset, a demand record, a restart) leaves no event. *)
Inductive EnergyEvent :=
  | accepted_family (session_id sequence_ : Z) (counters : list Z)
  | applied_reset.

Inductive ledger_history : EnergyLedger -> list EnergyEvent -> Prop :=
  | history_open l : open_ledger empty_database = Ok l -> ledger_history l []
  | history_energy io l h session seqn gen at_ l' v :
      ledger_history l h -> session_ok session seqn gen ->
      ingest_energy io l session seqn gen at_ = (l', Ok v) ->
      ledger_history l' (accepted_family (en_session_id session) seqn
        (flatten_energy_counters session) :: h)
  | history_energy_fail io l h session seqn gen at_ l' e :
      ledger_history l h -> session_ok session seqn gen ->
      ingest_energy io l session seqn gen at_ = (l', Throw e) -> ledger_history l' h
  | history_demand io l h session seqn gen at_ l' r :
      ledger_history l h -> demand_session_ok session seqn gen ->
      ingest_demand io l session seqn gen at_ = (l', r) -> ledger_history l' h
  | history_reset_energy io l h request l' epoch :
      ledger_history l h -> reset_energy io l request = (l', Ok (mkResetResult epoch false)) ->
      ledger_history l' (applied_reset :: h)
  | history_reset_energy_noop io l h request l' r :
      ledger_history l h -> reset_energy io l request = (l', r) ->
      (forall epoch, r <> Ok (mkResetResult epoch false)) -> ledger_history l' h
  | history_reset_demand io l h request l' r :
      ledger_history l h -> reset_demand_peaks io l request = (l', r) -> ledger_history l' h
  | history_restart l h l' :
      ledger_history l h -> open_ledger (el_database l) = Ok l' -> ledger_history l' h.

(** The sessions a history reports, one entry per accepted family. *)
Fixpoint sessions (h : list EnergyEvent) : list Z :=
  match h with
  | [] => []
  | accepted_family s _ _ :: h' => s :: sessions h'
  | applied_reset :: h' => sessions h'
  end.

(** Counter [i] of the last family accepted from session [s]; zero before the first. *)
Fixpoint last_reported (i : nat) (s : Z) (h : list EnergyEvent) : Z :=
  match h with
  | [] => 0
  | accepted_family s' _ counters :: h' =>
      if s' =? s then nth i counters 0 else last_reported i s h'
  | applied_reset :: h' => last_reported i s h'
  end.

(** Counter [i] as all sessions together have registered it, each session once. *)
Definition registered (i : nat) (h : list EnergyEvent) : Z :=
  foldr Z.add 0 (map (fun s => last_reported i s h) (remove_dups (sessions h))).

(** The history up to the last reset; nothing when there was none. *)
Fixpoint before_reset (h : list EnergyEvent) : list EnergyEvent :=
  match h with
  | [] => []
  | accepted_family _ _ _ :: h' => before_reset h'
  | applied_reset :: h' => h'
  end.

Fixpoint reset_count (h : list EnergyEvent) : Z :=
  match h with
  | [] => 0
  | accepted_family _ _ _ :: h' => reset_count h'
  | applied_reset :: h' => reset_count h' + 1
  end.

(** The producer never returns to a session it has left: a family is of the session
    reported last or of one that was not reported before. *)
Fixpoint sessions_contiguous (h : list EnergyEvent) : Prop :=
  match h with
  | [] => True
  | accepted_family s _ _ :: h' =>
      (head (sessions h') = Some s \/ s ∉ sessions h') /\ sessions_contiguous h'
  | applied_reset :: h' => sessions_contiguous h'
  end.

(** The meter that performs the events. *)
Fixpoint meter_of (h : list EnergyEvent) : Meter :=
  match h with
  | [] => new_meter
  | accepted_family s q counters :: h' => meter_ingest (meter_of h') s q counters
  | applied_reset :: h' => meter_reset (meter_of h')
  end.

Lemma history_trace l h : ledger_history l h -> ledger_trace l (meter_of h).
Proof.
  induction 1; cbn [meter_of];
    [eapply trace_open|eapply trace_energy|eapply trace_energy_fail|eapply trace_demand
    |eapply trace_reset_energy|eapply trace_reset_energy_noop|eapply trace_reset_demand
    |eapply trace_restart]; eassumption.
Qed.

(** What a history says of the meter's checkpoint. *)
Fixpoint last_family (h : list EnergyEvent) : option (Z * Z * list Z) :=
  match h with
  | [] => None
  | accepted_family s q counters :: _ => Some (s, q, counters)
  | applied_reset :: h' => last_family h'
  end.

(** A repeated family repeats its counters, and every family has all 28. *)
Fixpoint families_ok (h : list EnergyEvent) : Prop :=
  match h with
  | [] => True
  | accepted_family s q counters :: h' =>
      length counters = energy_counter_count /\
      (forall last, last_family h' = Some (s, q, last) -> last = counters) /\ families_ok h'
  | applied_reset :: h' => families_ok h'
  end.

Lemma meter_of_checkpoint h : families_ok h -> me_checkpoint (meter_of h) = last_family h.
Proof.
  induction h as [|[s q c|] h IH]; [done| |exact IH].
  cbn [families_ok meter_of last_family]. intros (_ & Hr & Hf). unfold meter_ingest.
  rewrite (IH Hf). destruct (last_family h) as [[[s' q'] last]|] eqn:E; [|done].
  destruct (Z.eqb_spec s' s) as [->|]; [|done].
  destruct (Z.eqb_spec q' q) as [->|]; [|done]. pose proof (IH Hf) as ->.
  by rewrite <- (Hr last).
Qed.

Lemma accepted_repeat io l m session seqn gen at_ l' v last :
  meter_sim l m -> ingest_energy io l session seqn gen at_ = (l', Ok v) ->
  me_checkpoint m = Some (en_session_id session, seqn, last) ->
  last = flatten_energy_counters session.
Proof.
  intros S H Hc. rewrite (sim_checkpoint l m S) in Hc. unfold ingest_energy in H. cbn zeta in H.
  destruct (existsb _ _); [done|]. destruct (el_latest_energy l) as [latest|]; [|done].
  injection Hc as Hs Hq <-. rewrite Hs, Hq, Z.eqb_refl, Z.ltb_irrefl, Z.eqb_refl in H.
  destruct (same_energy_content _ _ _ _) eqn:E; [|done]. unfold same_energy_content in E.
  rewrite !andb_true_iff in E. destruct_and? E. symmetry. by eapply bool_decide_eq_true_1.
Qed.

Lemma history_families_ok l h : ledger_history l h -> families_ok h.
Proof.
  induction 1 as [|io l h session seqn gen at_ l' v Hh IH Hs H| | | | | |]; try done.
  cbn [families_ok]. split; [reflexivity|]. split; [|done].
  intros last Hl. rewrite <- (meter_of_checkpoint h IH) in Hl.
  eapply accepted_repeat; [|exact H|exact Hl].
  apply (trace_inv _ _ (history_trace _ _ Hh)).
Qed.

Lemma last_family_length h s q c :
  families_ok h -> last_family h = Some (s, q, c) -> length c = energy_counter_count.
Proof.
  induction h as [|[s' q' c'|] h IH]; [done| |exact IH].
  cbn [families_ok last_family]. intros (L & _) [= -> -> ->]. exact L.
Qed.

Lemma last_family_session h : head (sessions h) = option_map (fun '(s, _, _) => s) (last_family h).
Proof. by induction h as [|[] h IH]. Qed.

Lemma last_family_reported i h s q c :
  last_family h = Some (s, q, c) -> last_reported i s h = nth i c 0.
Proof.
  induction h as [|[s' q' c'|] h IH]; [done| |exact IH].
  cbn [last_family last_reported]. intros [= -> -> ->]. by rewrite Z.eqb_refl.
Qed.

Lemma not_reported i h s : s ∉ sessions h -> last_reported i s h = 0.
Proof.
  induction h as [|[s' q' c'|] h IH]; [done| |exact IH].
  cbn [sessions last_reported]. intros [Hs Hn]%not_elem_of_cons.
  destruct (Z.eqb_spec s' s); [by subst|]. by apply IH.
Qed.

Lemma sum_replace (f g : Z -> Z) s ls :
  NoDup ls -> s ∈ ls -> (forall x, x <> s -> g x = f x) ->
  foldr Z.add 0 (map g ls) = foldr Z.add 0 (map f ls) + (g s - f s).
Proof.
  intros Hn Hs Hg. induction Hn as [|x ls Hx Hn IH]; [by apply not_elem_of_nil in Hs|].
  cbn [map foldr]. destruct (decide (x = s)) as [->|Hne].
  - enough (foldr Z.add 0 (map g ls) = foldr Z.add 0 (map f ls)) by lia. clear IH Hn Hs.
    induction ls as [|y ls IH]; [done|]. apply not_elem_of_cons in Hx as [Hy Hx].
    cbn [map foldr]. rewrite IH by done. by rewrite Hg.
  - apply elem_of_cons in Hs as [->|Hs]; [done|]. rewrite IH by done. rewrite (Hg x Hne). lia.
Qed.

Lemma registered_family i s q c h :
  registered i (accepted_family s q c :: h) = registered i h + (nth i c 0 - last_reported i s h).
Proof.
  unfold registered. cbn [sessions remove_dups].
  set (g := fun x => last_reported i x (accepted_family s q c :: h)).
  assert (g s = nth i c 0) as Hgs by (unfold g; cbn [last_reported]; by rewrite Z.eqb_refl).
  assert (forall x, x <> s -> g x = last_reported i x h) as Hg.
  { intros x Hx. unfold g. cbn [last_reported]. by rewrite (proj2 (Z.eqb_neq s x)). }
  rewrite <- Hgs. destruct (decide_rel _ s (sessions h)) as [Hs|Hs].
  - apply (sum_replace (fun s0 => last_reported i s0 h) g);
      [apply NoDup_remove_dups|by apply elem_of_remove_dups|done].
  - cbn [map foldr]. rewrite (not_reported i h s Hs).
    enough (map g (remove_dups (sessions h)) =
      map (fun s0 => last_reported i s0 h) (remove_dups (sessions h))) as -> by lia.
    apply map_ext_in. intros x Hx%list_elem_of_In. apply Hg. intros ->.
    by apply Hs, elem_of_remove_dups.
Qed.

Lemma nth_zip_with (f : Z -> Z -> Z) i l k :
  (i < length l)%nat -> length k = length l ->
  nth i (zip_with f l k) 0 = f (nth i l 0) (nth i k 0).
Proof.
  revert l k. induction i as [|i IH]; intros [|x l] [|y k] Hi Hl; try done; cbn in *; try lia.
  apply IH; lia.
Qed.

Lemma nth_zeros i n : nth i (zeros n) 0 = 0.
Proof. revert i. induction n as [|n IH]; intros [|i]; [done..|]. apply IH. Qed.

(** The meter's total is what all sessions registered since the last reset. *)
Lemma meter_of_total i l h :
  ledger_history l h -> sessions_contiguous h -> (i < energy_counter_count)%nat ->
  nth i (me_total (meter_of h)) 0 = registered i h - registered i (before_reset h).
Proof.
  intros Hh Hc Hi. pose proof (history_families_ok l h Hh) as Hf.
  assert (length (me_total (meter_of h)) = energy_counter_count /\
    nth i (me_total (meter_of h)) 0 = registered i h - registered i (before_reset h))
    as [_ E]; [|exact E]. clear Hh l.
  induction h as [|[s q c|] h IH].
  - split; [done|]. cbn [meter_of new_meter me_total]. by rewrite nth_zeros.
  - cbn [families_ok sessions_contiguous] in Hf, Hc. destruct Hf as (Lc & Hr & Hf).
    destruct Hc as [Hs Hc]. destruct (IH Hc Hf) as [L E]. cbn [before_reset meter_of].
    rewrite registered_family. unfold meter_ingest. rewrite (meter_of_checkpoint h Hf).
    rewrite last_family_session in Hs.
    destruct (last_family h) as [[[s' q'] last]|] eqn:El; cbn [option_map] in Hs.
    + destruct (Z.eqb_spec s' s) as [->|Hne].
      * rewrite (last_family_reported i _ _ _ _ El).
        assert (length last = energy_counter_count) as Ll
          by exact (last_family_length _ _ _ _ Hf El).
        destruct (Z.eqb_spec q' q) as [->|].
        { split; [done|]. rewrite (Hr last eq_refl). lia. }
        cbn [me_total]. unfold meter_add, meter_delta.
        split; [rewrite !length_zip_with; lia|].
        rewrite !nth_zip_with by (rewrite ?length_zip_with; lia). lia.
      * destruct Hs as [[= ?]|Hs]; [done|]. rewrite (not_reported i h s Hs).
        cbn [me_total]. unfold meter_add. split; [rewrite length_zip_with; lia|].
        rewrite nth_zip_with by lia. lia.
    + destruct Hs as [?|Hs]; [done|]. rewrite (not_reported i h s Hs).
      cbn [me_total]. unfold meter_add. split; [rewrite length_zip_with; lia|].
      rewrite nth_zip_with by lia. lia.
  - destruct (IH Hc Hf) as [L E]. cbn [meter_of meter_reset me_total before_reset].
    split; [done|]. rewrite nth_zeros. unfold registered. cbn. lia.
Qed.

Lemma meter_of_epoch h : me_epoch (meter_of h) = reset_count h.
Proof.
  induction h as [|[s q c|] h IH]; [done| |cbn [meter_of meter_reset me_epoch reset_count]; lia].
  cbn [meter_of reset_count]. rewrite <- IH. unfold meter_ingest.
  destruct (me_checkpoint _) as [[[s' q'] last]|]; [|done].
  destruct (s' =? s); [|done]. by destruct (q' =? q).
Qed.

Lemma nth_map_in (f : Z -> Z) l i d d' :
  (i < length l)%nat -> nth i (map f l) d = f (nth i l d').
Proof.
  revert i. induction l as [|x l IH]; intros i Hi; [cbn in Hi; lia|].
  destruct i as [|i]; [done|]. cbn in *. apply IH. lia.
Qed.

(** ** Properties *)

(** (C1) Provided the producer never returns to a session it has left, each lifetime
    counter is the sum, over all sessions, of the value last accepted from the session
    less its value at the last reset, clamped to 2^63-1: failed writes, refused or
    repeated families, demand records and restarts add nothing.  In any history the epoch
    is the number of resets, the published values carry the lifetime counters, and
    reopening the database succeeds with the same state.  The sum is read off the
    accepted families alone; the ledger's own checkpoint is not part of it.  (A session
    that is left and resumed is counted again: [returning_session_counted_again].) *)
Theorem ledger_refines_meter l h :
  ledger_history l h ->
  (sessions_contiguous h ->
   length (es_lifetime_counters (el_energy_state l)) = energy_counter_count /\
   forall i, (i < energy_counter_count)%nat ->
     nth i (es_lifetime_counters (el_energy_state l)) 0 =
     Z.min INT64_MAX (registered i h - registered i (before_reset h))) /\
  es_epoch (el_energy_state l) = reset_count h /\
  (forall v, el_latest_energy l = Some v ->
     flatten_energy_counters v = es_lifetime_counters (el_energy_state l)) /\
  exists l', open_ledger (el_database l) = Ok l' /\
    el_energy_state l' = el_energy_state l /\ el_demand_state l' = el_demand_state l /\
    ledger_history l' h.
Proof.
  intros H. destruct (trace_inv _ _ (history_trace l h H)) as [S D].
  destruct (sim_nonneg _ _ S) as [Hlen _]. split.
  - intros Hc. rewrite (sim_total _ _ S), length_map. split; [done|]. intros i Hi.
    rewrite <- (meter_of_total i l h H Hc Hi).
    exact (nth_map_in clamp (me_total (meter_of h)) i 0 0 ltac:(lia)).
  - split; [|split].
    + rewrite (sim_epoch _ _ S). apply meter_of_epoch.
    + intros v Hv. pose proof (sim_durable _ _ S) as DE. rewrite Hv in DE.
      apply (ec_values _ _ (proj1 DE)).
    + destruct (restart_inv _ _ (conj S D)) as (l' & Hl' & _ & _ & He & Hd & _).
      exists l'. split; [done|]. split; [done|]. split; [done|]. by eapply history_restart.
Qed.

(** Example sessions: 28 counters, a 200 ms window at 128 kHz. *)
Definition energy_session (session_id : Z) (counters : list Z) : EnergyValues :=
  let r {U : Set} : Reading U := mkReading 0 valid 7 9 (mkWindow 25600 200000000) in
  assign_energy_counters (mkEnergy (all_abct r) (all_abct r) (all_abct r) (all_abct r)
    (all_abct r) (all_abct r) (all_abct r) session_id 26599 25600 0 1 0 0 false false false)
    counters.

Definition session_a : EnergyValues := energy_session 5 (map Z.of_nat (seq 1 28)).
Definition session_b : EnergyValues := energy_session 6 (repeat INT64_MAX 28).

Lemma energy_session_ok id counters seqn gen :
  0 <= id < 2 ^ 64 -> length counters = energy_counter_count ->
  forallb (fun c => c <=? INT64_MAX) counters = true ->
  0 <= seqn < 2 ^ 32 -> 0 <= gen < 2 ^ 32 -> session_ok (energy_session id counters) seqn gen.
Proof.
  intros Hid Hl Hc Hs Hg. split; [|done].
  split; cbn [energy_session assign_energy_counters energy_window copy_group set_value
    all_abct abct_a en_active_import r_window sw_sample_count en_session_id en_last_sample_index
    en_accepted_samples en_skipped_samples en_accepted_blocks en_skipped_blocks]; try lia.
  unfold energy_session. rewrite flatten_assign by done.
  apply List.Forall_forall. intros c Hin. rewrite forallb_forall in Hc. specialize (Hc c Hin). lia.
Qed.

Lemma session_a_ok : session_ok session_a 7 1.
Proof. apply energy_session_ok; reflexivity || lia. Qed.

Lemma session_b_ok : session_ok session_b 7 1.
Proof. apply energy_session_ok; reflexivity || lia. Qed.

(** The ledgers after the first and after the second session. *)
Definition ledger_0 : EnergyLedger := mkLedger empty_database None None new_energy_state
  new_demand_state.
Definition ledger_a : EnergyLedger := fst (ingest_energy true ledger_0 session_a 7 1 100).
Definition ledger_b : EnergyLedger := fst (ingest_energy true ledger_a session_b 7 1 200).

(** A second family of session 5, then a family of session 6 that saturates. *)
Definition session_a2 : EnergyValues := energy_session 5 (map Z.of_nat (seq 11 28)).
Definition ledger_a2 : EnergyLedger := fst (ingest_energy true ledger_a session_a2 8 1 150).

Definition history_a : list EnergyEvent := [accepted_family 5 7 (map Z.of_nat (seq 1 28))].
Definition history_a2 : list EnergyEvent :=
  accepted_family 5 8 (map Z.of_nat (seq 11 28)) :: history_a.
Definition history_b : list EnergyEvent := accepted_family 6 7 (repeat INT64_MAX 28) :: history_a2.

Definition ledger_ab : EnergyLedger := fst (ingest_energy true ledger_a2 session_b 7 1 200).

Lemma session_a2_ok : session_ok session_a2 8 1.
Proof. apply energy_session_ok; reflexivity || lia. Qed.

Lemma history_ledger_a : ledger_history ledger_a history_a.
Proof.
  assert (exists v, ingest_energy true ledger_0 session_a 7 1 100 = (ledger_a, Ok v)) as [v Hv]
    by (eexists; vm_compute; reflexivity).
  exact (history_energy true ledger_0 [] session_a 7 1 100 ledger_a v
    (history_open ledger_0 eq_refl) session_a_ok Hv).
Qed.

Lemma history_ledger_a2 : ledger_history ledger_a2 history_a2.
Proof.
  assert (exists v, ingest_energy true ledger_a session_a2 8 1 150 = (ledger_a2, Ok v)) as [v Hv]
    by (eexists; vm_compute; reflexivity).
  exact (history_energy true ledger_a history_a session_a2 8 1 150 ledger_a2 v
    history_ledger_a session_a2_ok Hv).
Qed.

Lemma history_ledger_ab : ledger_history ledger_ab history_b.
Proof.
  assert (exists v, ingest_energy true ledger_a2 session_b 7 1 200 = (ledger_ab, Ok v)) as [v Hv]
    by (eexists; vm_compute; reflexivity).
  exact (history_energy true ledger_a2 history_a2 session_b 7 1 200 ledger_ab v
    history_ledger_a2 session_b_ok Hv).
Qed.

Lemma ledger_refines_meter_witness :
  nth 0 (es_lifetime_counters (el_energy_state ledger_a2)) 0 = 11 /\
  registered 0 history_b = INT64_MAX + 11 /\
  nth 0 (es_lifetime_counters (el_energy_state ledger_ab)) 0 = INT64_MAX /\
  exists l', open_ledger (el_database ledger_ab) = Ok l' /\
    el_energy_state l' = el_energy_state ledger_ab.
Proof.
  destruct (ledger_refines_meter ledger_a2 history_a2 history_ledger_a2) as (Ha & _).
  destruct (ledger_refines_meter ledger_ab history_b history_ledger_ab)
    as (Hb & _ & _ & l' & Hl' & He & _).
  assert (sessions_contiguous history_a2) as Ca.
  { split; [left; reflexivity|]. split; [right; apply not_elem_of_nil|exact I]. }
  assert (sessions_contiguous history_b) as Cb.
  { split; [right; apply (bool_decide_unpack _); vm_compute; exact I|exact Ca]. }
  destruct (Ha Ca) as [_ Ea]. destruct (Hb Cb) as [_ Eb].
  assert (0 < energy_counter_count)%nat as Hn by (unfold energy_counter_count; lia).
  split; [rewrite (Ea 0%nat Hn); vm_compute; reflexivity|].
  split; [vm_compute; reflexivity|].
  split; [rewrite (Eb 0%nat Hn); vm_compute; reflexivity|].
  exists l'. split; assumption.
Defined.

(** The condition is needed: when the producer reports session 5, then session 6 and then
    the very same family of session 5 again, the ledger adds session 5 twice. *)
Example returning_session_counted_again :
  let one := repeat 1 28 in
  let l1 := fst (ingest_energy true ledger_0 (energy_session 5 one) 7 1 100) in
  let l2 := fst (ingest_energy true l1 (energy_session 6 one) 1 1 200) in
  let l3 := fst (ingest_energy true l2 (energy_session 5 one) 7 1 300) in
  let h := [accepted_family 5 7 one; accepted_family 6 1 one; accepted_family 5 7 one] in
  registered 0 h = 2 /\ es_lifetime_counters (el_energy_state l3) = repeat 3 28.
Proof. vm_compute. split; reflexivity. Qed.

(** A retry after a crash is harmless.  When an energy family has been committed and
    the process restarts, ingesting the same family again neither changes the ledger nor
    its database and returns the values published before the restart: the identifiers
    survive their hexadecimal encoding, the counters and qualities their blobs, and the
    calculation window its reduction to sample count and rate. *)
Theorem energy_retry_after_restart io io' l m session seqn gen at_ at' rate l1 v :
  ledger_trace l m -> session_ok session seqn gen -> fresh_family l session seqn ->
  acquisition_window (energy_window session) rate ->
  ingest_energy io l session seqn gen at_ = (l1, Ok v) ->
  exists l2 w, open_ledger (el_database l1) = Ok l2 /\
    ingest_energy io' l2 session seqn gen at' = (l2, Ok w) /\ same_energy w v /\
    el_energy_state l2 = el_energy_state l1.
Proof.
  intros T Hs Hf Ha H. destruct (trace_inv l m T) as [S D].
  pose proof (trace_inv _ _ (trace_energy _ _ _ _ _ _ _ _ _ T Hs H)) as I1.
  destruct (ingest_fresh_shape _ _ _ _ _ _ _ _ _ S Hs Hf H) as (lt & sat & Hsat & Hc).
  destruct (commit_energy_shape _ _ _ _ _ _ _ _ _ _ Hc) as (Hv & Hlv & Hst & Hrow).
  destruct (restart_inv _ _ I1) as (l2 & Hopen & I2 & Hdb2 & He2 & _ & Hsame).
  pose proof (sim_durable _ _ (proj1 I1)) as DE. rewrite Hlv in DE, Hsame.
  destruct (load_energy_row _ _ _ _ (proj1 DE) Hrow) as (w & Hw & Hwv & Hwin).
  assert (el_latest_energy l2 = Some w) as Hl2.
  { unfold open_ledger in Hopen. rewrite Hw in Hopen. cbn [mbind result_bind] in Hopen.
    apply bind_Ok in Hopen as (d & _ & Hopen). by apply Ok_inj in Hopen as <-. }
  exists l2, w. split; [done|]. split; [|done].
  unfold ingest_energy. cbn zeta. rewrite Hl2, He2, Hst.
  cbn [es_session_id es_source_sequence es_lifetime_counters es_session_counters].
  destruct (existsb _ _) eqn:En.
  { exfalso. unfold ingest_energy in H. rewrite En in H. discriminate. }
  rewrite Z.eqb_refl, Z.ltb_irrefl, Z.eqb_refl.
  rewrite (same_content_of_checkpoint session lt (es_epoch (el_energy_state l)) sat w _ gen rate);
    try done; [by rewrite <- Hv|].
  rewrite Hwin, Hv. reflexivity.
Qed.

Lemma energy_retry_after_restart_witness :
  exists l2 w, open_ledger (el_database ledger_a) = Ok l2 /\
    ingest_energy false l2 session_a 7 1 999 = (l2, Ok w) /\
    el_energy_state l2 = el_energy_state ledger_a.
Proof.
  assert (exists v, ingest_energy true ledger_0 session_a 7 1 100 = (ledger_a, Ok v)) as [v Hv]
    by (eexists; vm_compute; reflexivity).
  assert (acquisition_window (energy_window session_a) 128000) as Ha
    by (vm_compute; repeat split; discriminate).
  destruct (energy_retry_after_restart true false ledger_0 new_meter session_a 7 1 100 999 128000
    ledger_a v (trace_open ledger_0 eq_refl) session_a_ok (or_introl eq_refl) Ha Hv)
    as (l2 & w & H1 & H2 & _ & H3).
  exists l2, w. split; [exact H1|]. split; [exact H2|exact H3].
Defined.

(** An administrative energy reset is applied exactly once.  A successful reset zeroes
    every lifetime counter, advances the epoch by one and keeps the session checkpoint (so
    energy measured before the reset is not counted again); repeating the request with
    the same idempotency key, immediately or after a restart, whatever epoch it expects,
    returns the same epoch marked as a replay and changes nothing. *)
Theorem reset_energy_idempotent io l m request l1 epoch :
  ledger_trace l m -> reset_energy io l request = (l1, Ok (mkResetResult epoch false)) ->
  epoch = es_epoch (el_energy_state l) + 1 /\ es_epoch (el_energy_state l1) = epoch /\
  es_lifetime_counters (el_energy_state l1) = zeros energy_counter_count /\
  es_session_counters (el_energy_state l1) = es_session_counters (el_energy_state l) /\
  exists l2, open_ledger (el_database l1) = Ok l2 /\
  forall io' retry, rq_idempotency_key retry = rq_idempotency_key request ->
    validate_reset retry = Ok tt ->
    reset_energy io' l1 retry = (l1, Ok (mkResetResult epoch true)) /\
    reset_energy io' l2 retry = (l2, Ok (mkResetResult epoch true)).
Proof.
  intros T H. pose proof (trace_inv l m T) as [S D].
  pose proof (trace_inv _ _ (trace_reset_energy _ _ _ _ _ _ T H)) as I1.
  pose proof (reset_energy_sim io l m request S) as P. rewrite H in P.
  destruct P as (S1 & Hep & (row & Haud & Hres) & _). cbn [rr_epoch] in Hep, Hres.
  pose proof (sim_epoch_range _ _ S1) as Hr. pose proof (sim_epoch _ _ S1) as He1.
  pose proof (sim_epoch _ _ S) as He. cbn [meter_reset me_epoch] in He1.
  split; [lia|]. split; [lia|]. split; [apply (sim_total _ _ S1)|]. split.
  { pose proof (sim_checkpoint _ _ S1) as C1. pose proof (sim_checkpoint _ _ S) as C0.
    cbn [meter_reset me_checkpoint] in C1. rewrite C0 in C1.
    assert (is_Some (el_latest_energy l)) as [v Hv].
    { unfold reset_energy in H. destruct (validate_reset request); [|done].
      destruct (db_energy_audit _ !! _); [done|]. destruct (el_latest_energy l); [by eexists|done]. }
    rewrite Hv in C1. destruct (el_latest_energy l1); [|done]. by injection C1. }
  destruct (restart_inv _ _ I1) as (l2 & Hopen & _ & Hdb2 & _).
  exists l2. split; [done|]. intros io' retry Hk Hval.
  assert (forall l', el_database l' = el_database l1 ->
    reset_energy io' l' retry = (l', Ok (mkResetResult epoch true))) as Hrep.
  { intros l' Hl'. unfold reset_energy. rewrite Hval, Hl', Haud, Hk, lookup_insert_eq, Hres.
    rewrite wrap_id by (unfold INT64_MAX in *; lia). done. }
  split; apply Hrep; done.
Qed.

Definition reset_request : ResetRequest := mkResetRequest 0 "key-1" "admin" "req-1" 500.

Lemma reset_energy_idempotent_witness :
  exists l1, reset_energy true ledger_a reset_request = (l1, Ok (mkResetResult 1 false)) /\
    reset_energy true l1 (mkResetRequest 77 "key-1" "other" "req-2" 600) =
      (l1, Ok (mkResetResult 1 true)).
Proof.
  assert (exists l1, reset_energy true ledger_a reset_request = (l1, Ok (mkResetResult 1 false)))
    as [l1 H1] by (eexists; vm_compute; reflexivity).
  destruct (reset_energy_idempotent true ledger_a (meter_of history_a) reset_request l1 1
    (history_trace _ _ history_ledger_a) H1)
    as (_ & _ & _ & _ & l2 & _ & Hr).
  exists l1. split; [exact H1|].
  apply (Hr true (mkResetRequest 77 "key-1" "other" "req-2" 600)); reflexivity.
Defined.

(** The peak of phase [i] a session leads to from the state [start]. *)
Definition expected_import (session : DemandValues) (start : DemandState) (i : nat) : Z :=
  Z.max (nth i (ds_authoritative_import start) 0)
    (Z.max (import_candidate (quality_of_phase (de_current_active session) i)
              (nth i (flatten_demand_values (de_current_active session)) 0))
       (fresh_peak (nth i (flatten_demand_values (de_import_peak session)) 0)
          (nth i (ds_baseline_import start) 0))).
Definition expected_export (session : DemandValues) (start : DemandState) (i : nat) : Z :=
  Z.max (nth i (ds_authoritative_export start) 0)
    (Z.max (export_candidate (quality_of_phase (de_current_active session) i)
              (nth i (flatten_demand_values (de_current_active session)) 0))
       (fresh_peak (nth i (flatten_demand_values (de_export_peak session)) 0)
          (nth i (ds_baseline_export start) 0))).

Lemma peaks_expected session start phases ps :
  demand_ranges session -> demand_state_ok start ->
  Forall (fun c => 0 <= c) (flatten_demand_values (de_import_peak session)) ->
  Forall (fun c => 0 <= c) (flatten_demand_values (de_export_peak session)) ->
  Forall (fun i => (i < 4)%nat) phases ->
  Forall2 (fun i p => exists sat, p = phase_result session start i sat) phases ps ->
  map pk_import ps = map (expected_import session start) phases /\
  map pk_export ps = map (expected_export session start) phases.
Proof.
  intros R O Hi He Hseq Hp.
  induction Hp as [|i p phases ps [sat' ->] _ IH]; [done|].
  apply Forall_cons_1 in Hseq as [Hi4 Hrest]. destruct (IH Hrest) as [IHi IHe].
  cbn [map]. rewrite IHi, IHe. unfold phase_result.
  match goal with |- context [demand_phase ?a ?b ?c ?d ?e ?f ?g ?h ?j ?k ?s] =>
    destruct (demand_phase_spec a b c d e f g h j k s) as (-> & -> & _) end; try done.
  - apply (group_nth _ _ i (dr_current _ R) eq_refl Hi4).
  - apply (four_nth _ _ i (dso_import start O) Hi4).
  - apply (four_nth _ _ i (dso_export start O) Hi4).
  - apply (group_nth _ _ i Hi eq_refl Hi4).
  - apply (group_nth _ _ i He eq_refl Hi4).
Qed.

Lemma commit_demand_peaks io l session seqn gen at_ start l' v :
  demand_session_ok session seqn gen -> demand_state_ok start ->
  Forall (fun c => 0 <= c) (flatten_demand_values (de_import_peak session)) ->
  Forall (fun c => 0 <= c) (flatten_demand_values (de_export_peak session)) ->
  commit_demand io l session seqn gen at_ start = (l', Ok v) ->
  ds_epoch (el_demand_state l') = ds_epoch start /\
  flatten_demand_values (de_import_peak v) = map (expected_import session start) (seq 0 4) /\
  flatten_demand_values (de_export_peak v) = map (expected_export session start) (seq 0 4).
Proof.
  intros (R & _) O Hi He H. unfold commit_demand in H.
  pose proof (demand_peaks_spec session start (seq 0 4) (de_saturated session)) as Hp.
  destruct (demand_peaks session start (seq 0 4) (de_saturated session)) as [ps sat].
  cbn [fst] in Hp.
  assert (map pk_import ps = map (expected_import session start) (seq 0 4) /\
          map pk_export ps = map (expected_export session start) (seq 0 4)) as [Ei Ee].
  { apply (peaks_expected session start (seq 0 4) ps); try done.
    apply List.Forall_forall. intros i Hx%in_seq. lia. }
  match type of H with (match ?X with Ok _ => _ | Throw _ => _ end) = _ =>
    destruct X as [db|] end; [|done].
  injection H as <- <-. cbn [el_demand_state ds_epoch]. split; [done|].
  cbn [with_demand_peaks de_import_peak de_export_peak ds_authoritative_import
    ds_authoritative_export].
  by rewrite !flatten_assign4, Ei, Ee by (by rewrite ?Ei, ?Ee, length_map, length_seq).
Qed.

(** (C4) Demand peaks are exact maxima.  Unless the family is a retry of the last one, a
    successful demand ingest publishes for every phase the maximum of the peak so far,
    the demand of this interval if it is valid (its magnitude for export, saturating at
    the most negative value) and the session's own peak if it lies above the watermark of
    the last reset; a profile change starts from zero peaks in a new epoch, and within an
    epoch no peak ever decreases. *)
Theorem demand_peaks_are_maxima io l m session seqn gen at_ l' v :
  ledger_trace l m -> demand_session_ok session seqn gen ->
  ingest_demand io l session seqn gen at_ = (l', Ok v) ->
  (l' = l /\ el_latest_demand l = Some v /\ seqn = ds_source_sequence (el_demand_state l)) \/
  exists start,
    demand_start session (el_demand_state l) (profile_changed l session)
      (same_profile_instance l session) = Ok start /\
    (profile_changed l session = true ->
       ds_epoch start = ds_epoch (el_demand_state l) + 1 /\
       ds_authoritative_import start = zeros 4 /\ ds_authoritative_export start = zeros 4) /\
    ds_epoch (el_demand_state l') = ds_epoch start /\
    flatten_demand_values (de_import_peak v) = map (expected_import session start) (seq 0 4) /\
    flatten_demand_values (de_export_peak v) = map (expected_export session start) (seq 0 4) /\
    (profile_changed l session = false ->
       forall i, (i < 4)%nat ->
         nth i (ds_authoritative_import (el_demand_state l)) 0 <=
           nth i (flatten_demand_values (de_import_peak v)) 0 /\
         nth i (ds_authoritative_export (el_demand_state l)) 0 <=
           nth i (flatten_demand_values (de_export_peak v)) 0).
Proof.
  intros T Hs H. destruct (trace_inv l m T) as [_ D].
  pose proof (durable_state_ok l D) as O. pose proof (dso_epoch _ O) as Hep.
  unfold ingest_demand in H. cbn zeta in H.
  destruct (_ || _ || _); [done|]. destruct (existsb _ _) eqn:En; [done|].
  apply existsb_negative, Forall_app in En as [Hi He].
  destruct (_ && (_ <? _)); [done|].
  destruct (same_profile_instance l session && (seqn =? ds_source_sequence (el_demand_state l)))
    eqn:Eq; cbn iota in H.
  - destruct (el_latest_demand l) as [latest|] eqn:El.
    + destruct (same_demand_content _ _ _ _); [|done]. injection H as <- <-. left. bools. auto.
    + exfalso. unfold same_profile_instance, same_session in Eq. by rewrite El in Eq.
  - right. destruct (demand_start _ _ _ _) as [start|] eqn:Es; [|done].
    exists start. split; [done|]. destruct (demand_start_ok _ _ _ _ _ O Es) as [Hge Hok].
    assert (ds_epoch start <= INT64_MAX) as Hle.
    { destruct (Z.le_gt_cases (ds_epoch start) INT64_MAX) as [|Hgt]; [done|]. exfalso.
      unfold commit_demand, persist_demand, bind_u64 in H.
      destruct (demand_peaks _ _ _ _) as [ps sat]. cbn [ds_epoch] in H.
      rewrite (proj2 (Z.ltb_lt _ _)) in H by lia. discriminate. }
    destruct (commit_demand_peaks _ _ _ _ _ _ _ _ _ Hs (Hok Hle) Hi He H) as (E1 & E2 & E3).
    split; [|split; [done|split; [done|split; [done|]]]].
    + intros Hch. unfold demand_start in Es. rewrite Hch in Es. apply Ok_inj in Es as <-.
      cbn [ds_epoch ds_authoritative_import ds_authoritative_export].
      rewrite wrap_id by (unfold INT64_MAX in *; lia). done.
    + intros Hch i Hi4. rewrite E2, E3.
      assert (ds_authoritative_import start = ds_authoritative_import (el_demand_state l) /\
        ds_authoritative_export start = ds_authoritative_export (el_demand_state l)) as [Ei Ee].
      { unfold demand_start in Es. rewrite Hch in Es. destruct (negb _).
        - by apply Ok_inj in Es as <-.
        - apply bind_Ok in Es as (? & _ & Es). by apply Ok_inj in Es as <-. }
      rewrite <- Ei, <- Ee. unfold expected_import, expected_export.
      destruct i as [|[|[|[|i]]]]; [cbn [map seq nth]; split; apply Z.le_max_l..|lia].
Qed.

Definition demand_session (current import : Z) : DemandValues :=
  let r (z : Z) : Reading MicroWatts := mkReading z valid 7 9 (mkWindow 384000 3000000000) in
  mkDemand (all_abct (r current)) (all_abct (r import)) (all_abct (r 0)) (all_abct 400)
    (all_abct 0) 77 385000 0 1 0 60 3 1 0 sliding true false true false false.

Lemma demand_session_example_ok current import seqn gen :
  in_s64 current -> in_counter import -> 0 <= seqn < 2 ^ 32 -> 0 <= gen < 2 ^ 32 ->
  demand_session_ok (demand_session current import) seqn gen.
Proof.
  intros Hc Hi Hs Hg. unfold in_counter in Hi. split; [|done].
  split; cbn [demand_session de_session_id de_last_sample_index de_interval_anchor_sample
    de_source_interval_count de_source_status de_window_seconds de_update_seconds
    de_profile_generation demand_window de_current_active all_abct abct_a r_window
    sw_sample_count]; unfold in_u64, INT64_MAX in *; try lia;
    repeat (apply Forall_cons_2; [cbn; unfold INT64_MAX; first [assumption|lia]|]); constructor.
Qed.

Definition ledger_d : EnergyLedger := fst (ingest_demand true ledger_0 (demand_session 500 900) 4 1 10).

Lemma trace_ledger_d : ledger_trace ledger_d new_meter.
Proof.
  destruct (ingest_demand true ledger_0 (demand_session 500 900) 4 1 10) as [l r] eqn:E.
  apply (trace_demand true ledger_0 new_meter (demand_session 500 900) 4 1 10 ledger_d r
    (trace_open ledger_0 eq_refl)).
  - apply demand_session_example_ok; unfold in_s64, in_counter, INT64_MIN, INT64_MAX; lia.
  - unfold ledger_d. by rewrite E.
Qed.

Lemma demand_peaks_are_maxima_witness :
  exists l' v, ingest_demand true ledger_d (demand_session 1200 900) 5 1 20 = (l', Ok v) /\
    nth 0 (flatten_demand_values (de_import_peak v)) 0 = 1200.
Proof.
  assert (exists l' v, ingest_demand true ledger_d (demand_session 1200 900) 5 1 20 = (l', Ok v))
    as (l' & v & H) by (do 2 eexists; vm_compute; reflexivity).
  destruct (demand_peaks_are_maxima true ledger_d new_meter (demand_session 1200 900) 5 1 20 l' v
    trace_ledger_d) as [(_ & _ & Hseq)|(start & Hst & _ & _ & Hi & _)].
  - apply demand_session_example_ok; unfold in_s64, in_counter, INT64_MIN, INT64_MAX; lia.
  - exact H.
  - vm_compute in Hseq. discriminate.
  - exists l', v. split; [exact H|]. rewrite Hi. vm_compute in Hst. apply Ok_inj in Hst as <-.
    vm_compute. reflexivity.
Defined.

Lemma import_candidate_nonneg q c : 0 <= import_candidate q c.
Proof. unfold import_candidate. destruct (_ && _) eqn:E; [bools|]; lia. Qed.

Lemma export_candidate_nonneg q c : 0 <= export_candidate q c.
Proof.
  unfold export_candidate. destruct (_ && _) eqn:E; [bools|lia]. unfold INT64_MAX. lia.
Qed.

Lemma fresh_peak_refl z : fresh_peak z z = 0.
Proof. unfold fresh_peak. by rewrite Z.ltb_irrefl. Qed.

(** A demand-peak reset really starts over.  The reset zeroes the published peaks and
    advances the epoch by one; the next family of the same session, which still reports
    the session's old peaks, is judged by its own interval only: its published peaks are
    exactly the demand of that interval (import or export side, when valid), so a peak
    from before the reset cannot return. *)
Theorem demand_reset_watermark io io' l m request l1 epoch session seqn gen at_ l2 v :
  ledger_trace l m -> reset_demand_peaks io l request = (l1, Ok (mkResetResult epoch false)) ->
  demand_session_ok session seqn gen -> same_profile_instance l1 session = true ->
  seqn <> ds_source_sequence (el_demand_state l1) ->
  flatten_demand_values (de_import_peak session) = ds_raw_import (el_demand_state l) ->
  flatten_demand_values (de_export_peak session) = ds_raw_export (el_demand_state l) ->
  ingest_demand io' l1 session seqn gen at_ = (l2, Ok v) ->
  epoch = ds_epoch (el_demand_state l) + 1 /\ de_peak_reset_epoch v = epoch /\
  (forall i, (i < 4)%nat ->
     nth i (flatten_demand_values (de_import_peak v)) 0 =
       import_candidate (quality_of_phase (de_current_active session) i)
         (nth i (flatten_demand_values (de_current_active session)) 0) /\
     nth i (flatten_demand_values (de_export_peak v)) 0 =
       export_candidate (quality_of_phase (de_current_active session) i)
         (nth i (flatten_demand_values (de_current_active session)) 0)).
Proof.
  intros T Hreset Hs Hsame Hseq Hraw Hrawx H. destruct (trace_inv l m T) as [_ D].
  pose proof (reset_demand_sim io l request D) as P. rewrite Hreset in P.
  destruct P as (D1 & Hep & Hep1 & Hai & Hae & Hbi & Hbe & _). cbn [rr_epoch] in Hep, Hep1.
  pose proof (durable_state_ok l1 D1) as O1.
  assert (profile_changed l1 session = false) as Hch.
  { unfold profile_changed. unfold same_profile_instance in Hsame. bools.
    match goal with A : same_session l1 session = true, B : bool_decide _ = true,
      C : same_semantics _ _ = true |- _ => rewrite A, B, C end.
    cbn [andb negb orb]. by apply negb_false_iff, Z.eqb_eq. }
  pose proof (ingest_demand_post io' l1 session seqn gen at_ D1 Hs) as Hpost. rewrite H in Hpost.
  destruct Hpost as (D2 & Hlv & _). unfold demand_durable in D2. rewrite Hlv in D2.
  unfold ingest_demand in H. cbn zeta in H.
  destruct (_ || _ || _); [done|]. destruct (existsb _ _) eqn:En; [done|].
  apply existsb_negative, Forall_app in En as [Hi He].
  destruct (_ && (_ <? _)); [done|].
  rewrite Hsame, (proj2 (Z.eqb_neq _ _) Hseq), Hch in H. cbn [andb] in H.
  destruct (demand_start _ _ _ _) as [start|] eqn:Es; [|done].
  assert (start = el_demand_state l1) as ->.
  { unfold demand_start in Es. cbn [negb] in Es. apply bind_Ok in Es as (? & _ & Es).
    by apply Ok_inj in Es. }
  destruct (commit_demand_peaks _ _ _ _ _ _ _ _ _ Hs O1 Hi He H) as (E1 & E2 & E3).
  split; [done|]. split; [rewrite (dc_epoch _ _ (proj1 D2)); congruence|].
  intros i Hi4. rewrite E2, E3.
  assert (forall f, nth i (map f (seq 0 4)) 0 = f i) as Hnth
    by (intros f; destruct i as [|[|[|[|i]]]]; [reflexivity..|lia]).
  rewrite !Hnth. unfold expected_import, expected_export.
  rewrite Hai, Hae, Hbi, Hbe, Hraw, Hrawx, !fresh_peak_refl.
  assert (nth i (zeros 4) 0 = 0) as -> by (destruct i as [|[|[|[|i]]]]; [reflexivity..|lia]).
  pose proof (import_candidate_nonneg (quality_of_phase (de_current_active session) i)
    (nth i (flatten_demand_values (de_current_active session)) 0)).
  pose proof (export_candidate_nonneg (quality_of_phase (de_current_active session) i)
    (nth i (flatten_demand_values (de_current_active session)) 0)). lia.
Qed.

Lemma demand_reset_watermark_witness :
  exists l1 l2 v, reset_demand_peaks true ledger_d reset_request =
      (l1, Ok (mkResetResult 1 false)) /\
    ingest_demand true l1 (demand_session 300 900) 5 1 20 = (l2, Ok v) /\
    nth 0 (flatten_demand_values (de_import_peak v)) 0 = 300.
Proof.
  assert (exists l1, reset_demand_peaks true ledger_d reset_request =
    (l1, Ok (mkResetResult 1 false)) /\
    exists l2 v, ingest_demand true l1 (demand_session 300 900) 5 1 20 = (l2, Ok v) /\
    same_profile_instance l1 (demand_session 300 900) = true /\
    5 <> ds_source_sequence (el_demand_state l1)) as (l1 & H1 & l2 & v & H2 & H3 & H4).
  { eexists. split; [vm_compute; reflexivity|]. do 2 eexists.
    split; [vm_compute; reflexivity|]. split; [vm_compute; reflexivity|vm_compute; discriminate]. }
  exists l1, l2, v. split; [exact H1|]. split; [exact H2|].
  destruct (demand_reset_watermark true true ledger_d new_meter reset_request l1 1
    (demand_session 300 900) 5 1 20 l2 v trace_ledger_d H1) as (_ & _ & Hp); try assumption.
  - apply demand_session_example_ok; unfold in_s64, in_counter, INT64_MIN, INT64_MAX; lia.
  - vm_compute. reflexivity.
  - vm_compute. reflexivity.
  - destruct (Hp 0%nat ltac:(lia)) as [-> _]. vm_compute. reflexivity.
Defined.

(** The saturation flag describes the last addition only: the second session clamps the
    lifetime counters and is published as saturated, the next family of that session
    adds nothing and is published as not saturated although every counter still stands
    at the clamp. *)
Lemma saturation_flag_not_sticky :
  exists v w, el_latest_energy ledger_b = Some v /\ en_saturated v = true /\
    snd (ingest_energy true ledger_b session_b 8 1 300) = Ok w /\ en_saturated w = false /\
    flatten_energy_counters w = repeat INT64_MAX 28.
Proof. do 2 eexists. split; [vm_compute; reflexivity|]. vm_compute. repeat split. Qed.
