(* ===== verification/ModbusHandler.v ===== *)
(** * Modbus data model and request handler

    Models [src/common/mnc/modbus/types.hpp], [encoding.cpp],
    [register_bank.hpp] and [request_handler.cpp]: the big-endian register
    encoding, the [RegisterBank] interface (a type class, as the C++ class is
    abstract and its implementations own their synchronisation) and the
    function-code dispatcher [RequestHandler::handle] that the TCP and RTU
    transports share.  The abstract specification is a small command language
    with its wire encoding; [handle_refines] shows that the dispatcher executes
    exactly the encodings of valid commands and rejects everything else without
    touching the bank. *)

From S2P Require Import Prelude.

(** ** types.hpp *)
Inductive FunctionCode :=
  | read_holding_registers
  | read_input_registers
  | write_single_register
  | write_multiple_registers.

Inductive ExceptionCode :=
  | none
  | illegal_function
  | illegal_data_address
  | illegal_data_value
  | server_device_failure
  | acknowledge
  | server_device_busy
  | memory_parity_error
  | gateway_path_unavailable
  | gateway_target_device_failed_to_respond.

#[export] Instance FunctionCode_eq_dec : EqDecision FunctionCode.
Proof. solve_decision. Defined.
#[export] Instance ExceptionCode_eq_dec : EqDecision ExceptionCode.
Proof. solve_decision. Defined.

Definition function_value (f : FunctionCode) : Z :=
  match f with
  | read_holding_registers => 0x03
  | read_input_registers => 0x04
  | write_single_register => 0x06
  | write_multiple_registers => 0x10
  end.

(** The switch over [static_cast<FunctionCode>(function)]: [None] is its
    default label. *)
Definition function_of (value : Z) : option FunctionCode :=
  if value =? 0x03 then Some read_holding_registers
  else if value =? 0x04 then Some read_input_registers
  else if value =? 0x06 then Some write_single_register
  else if value =? 0x10 then Some write_multiple_registers
  else None.

Definition exception_value (code : ExceptionCode) : Z :=
  match code with
  | none => 0x00
  | illegal_function => 0x01
  | illegal_data_address => 0x02
  | illegal_data_value => 0x03
  | server_device_failure => 0x04
  | acknowledge => 0x05
  | server_device_busy => 0x06
  | memory_parity_error => 0x08
  | gateway_path_unavailable => 0x0a
  | gateway_target_device_failed_to_respond => 0x0b
  end.

Definition is_register_read (f : FunctionCode) : bool :=
  bool_decide (f = read_holding_registers) || bool_decide (f = read_input_registers).

Record Request := mkRequest {
  req_unit_id : Z;
  req_pdu : list Z;
  req_broadcast_allowed : bool }.

Record Response := mkResponse {
  resp_unit_id : Z;
  resp_pdu : list Z }.

(** ** encoding.cpp *)

(** [bytes.subspan(offset, count)], undefined outside the span. *)
Definition subspan (bytes : list Z) (offset count : nat) : result (list Z) :=
  if decide (offset + count <= length bytes)%nat then Ok (take count (drop offset bytes))
  else Throw (UndefinedBehaviour "subspan out of range").

Definition read_u16_be (bytes : list Z) : result Z :=
  match bytes with
  | high :: low :: _ => Ok (u16 (Z.lor (Z.shiftl high 8) low))
  | _ => Throw (InvalidArgument "truncated 16-bit Modbus value")
  end.

Definition append_u16_be (bytes : list Z) (value : Z) : list Z :=
  bytes ++ [Z.land (Z.shiftr value 8) 0xff; Z.land value 0xff].

Definition encode_u16 (value : Z) : list Z := [value].
Definition encode_u32 (value : Z) : list Z := [u16 (Z.shiftr value 16); u16 (Z.land value 0xffff)].
Definition encode_u64 (value : Z) : list Z :=
  [u16 (Z.shiftr value 48); u16 (Z.land (Z.shiftr value 32) 0xffff);
   u16 (Z.land (Z.shiftr value 16) 0xffff); u16 (Z.land value 0xffff)].

(** [std::bit_cast] of a signed value is its two's-complement pattern. *)
Definition encode_i32 (value : Z) : list Z := encode_u32 (u32 value).
Definition encode_i64 (value : Z) : list Z := encode_u64 (u64 value).

(** ** register_bank.hpp *)
Record RegisterReadResult := mkRead {
  read_exception : ExceptionCode;
  read_values : list Z }.

(** The abstract class: [read] is const, the writes may change the bank's state
    whether or not they throw. *)
Class RegisterBank (S : Type) := {
  bank_read : S -> FunctionCode -> Z -> Z -> result RegisterReadResult;
  bank_write_single : S -> Z -> Z -> S * result ExceptionCode;
  bank_write_multiple : S -> Z -> list Z -> S * result ExceptionCode }.

(** The element type of [RegisterReadResult::values] is [std::uint16_t]. *)
Class RegisterBankTyped (S : Type) `{RegisterBank S} : Prop :=
  bank_read_typed : forall s f address count r,
    bank_read s f address count = Ok r -> Forall (fun v => 0 <= v < 65536) (read_values r).

(** Computations of the handler: the bank's state and an outcome. *)
Definition eff (S A : Type) : Type := S -> S * result A.

#[export] Instance eff_ret S : MRet (eff S) := fun A a s => (s, Ok a).
#[export] Instance eff_bind S : MBind (eff S) := fun A B f m s =>
  match m s with
  | (s', Ok a) => f a s'
  | (s', Throw e) => (s', Throw e)
  end.

Definition lift {S A} (r : result A) : eff S A := fun s => (s, r).

(** ** request_handler.cpp *)
Definition exception (function : Z) (code : ExceptionCode) : list Z :=
  [Z.lor function 0x80; exception_value code].

Definition pdu_address (pdu : list Z) : result Z := subspan pdu 1 2 ≫= read_u16_be.
Definition pdu_quantity (pdu : list Z) : result Z := subspan pdu 3 2 ≫= read_u16_be.

(** [pdu[5]] *)
Definition octet_at (pdu : list Z) (i : nat) : result Z :=
  match pdu !! i with
  | Some b => Ok b
  | None => Throw (UndefinedBehaviour "index out of range")
  end.

Section Handler.
Context {S : Type} `{RegisterBank S}.

(** [response(value)] *)
Definition respond (request : Request) (value : list Z) : eff S (option Response) :=
  mret (Some (mkResponse (req_unit_id request) value)).

(** [if (broadcast) return std::nullopt; return response(exception(...));] *)
Definition refuse (broadcast : bool) (request : Request) (function : Z) (code : ExceptionCode)
    : eff S (option Response) :=
  if broadcast then mret None else respond request (exception function code).

Definition handle_read (request : Request) (f : FunctionCode) (function : Z) (broadcast : bool)
    : eff S (option Response) := fun s =>
  let pdu := req_pdu request in
  (if broadcast then mret None
   else if negb (length pdu =? 5)%nat then respond request (exception function illegal_data_value)
   else
     count ← lift (pdu_quantity pdu);
     if (count =? 0) || (125 <? count) then respond request (exception function illegal_data_value)
     else
       address ← lift (pdu_address pdu);
       r ← lift (bank_read s f address count);
       if negb (bool_decide (read_exception r = none)) then
         respond request (exception function (read_exception r))
       else if negb (Z.of_nat (length (read_values r)) =? count) then
         respond request (exception function server_device_failure)
       else
         respond request (fold_left append_u16_be (read_values r)
           [function; u8 (Z.of_nat (length (read_values r)) * 2)])) s.

Definition handle_write_single (request : Request) (function : Z) (broadcast : bool)
    : eff S (option Response) :=
  let pdu := req_pdu request in
  if negb (length pdu =? 5)%nat then refuse broadcast request function illegal_data_value
  else
    address ← lift (pdu_address pdu);
    value ← lift (pdu_quantity pdu);
    code ← (fun s => bank_write_single s address value);
    if broadcast then mret None
    else if negb (bool_decide (code = none)) then respond request (exception function code)
    else respond request pdu.

Definition handle_write_multiple (request : Request) (function : Z) (broadcast : bool)
    : eff S (option Response) :=
  let pdu := req_pdu request in
  if (length pdu <? 6)%nat then refuse broadcast request function illegal_data_value
  else
    count ← lift (pdu_quantity pdu);
    byte_count ← lift (octet_at pdu 5);
    if (count =? 0) || (123 <? count) || negb (byte_count =? count * 2)
       || negb (Z.of_nat (length pdu) =? 6 + byte_count)
    then refuse broadcast request function illegal_data_value
    else
      values ← lift (mapM_result (fun index => subspan pdu (6 + index * 2) 2 ≫= read_u16_be)
                       (seq 0 (Z.to_nat count)));
      address ← lift (pdu_address pdu);
      code ← (fun s => bank_write_multiple s address values);
      if broadcast then mret None
      else if negb (bool_decide (code = none)) then respond request (exception function code)
      else
        respond request (append_u16_be (append_u16_be [function] address) count).

Definition handle (request : Request) (configured_unit_id : Z) : eff S (option Response) :=
  if (configured_unit_id =? 0) || (247 <? configured_unit_id)
  then lift (Throw (InvalidArgument "Modbus unit id must be 1..247"))
  else
    match req_pdu request with
    | [] => respond request (exception 0 illegal_function)
    | function :: _ =>
        let broadcast := req_broadcast_allowed request && (req_unit_id request =? 0) in
        if negb broadcast && negb (req_unit_id request =? configured_unit_id) then mret None
        else
          match function_of function with
          | Some read_holding_registers => handle_read request read_holding_registers function broadcast
          | Some read_input_registers => handle_read request read_input_registers function broadcast
          | Some write_single_register => handle_write_single request function broadcast
          | Some write_multiple_registers => handle_write_multiple request function broadcast
          | None => refuse broadcast request function illegal_function
          end
    end.

End Handler.

(** ** Abstract specification: commands and their wire encoding *)
Inductive Command :=
  | ReadRegisters (f : FunctionCode) (address count : Z)
  | WriteSingle (address value : Z)
  | WriteMultiple (address : Z) (values : list Z).

Definition is_u16 (v : Z) : Prop := 0 <= v < 65536.

Definition be16 (v : Z) : list Z := [v / 256; v mod 256].

Definition valid_command (c : Command) : Prop :=
  match c with
  | ReadRegisters f address count =>
      is_register_read f = true /\ is_u16 address /\ 1 <= count <= 125
  | WriteSingle address value => is_u16 address /\ is_u16 value
  | WriteMultiple address values =>
      is_u16 address /\ Forall is_u16 values /\ (1 <= length values <= 123)%nat
  end.

Definition encode_command (c : Command) : list Z :=
  match c with
  | ReadRegisters f address count => function_value f :: be16 address ++ be16 count
  | WriteSingle address value => 0x06 :: be16 address ++ be16 value
  | WriteMultiple address values =>
      0x10 :: be16 address ++ be16 (Z.of_nat (length values)) ++
        (2 * Z.of_nat (length values)) :: flat_map be16 values
  end.

Section Spec.
Context {S : Type} `{RegisterBank S}.

(** What a command does to the bank, and the reply PDU a unicast client gets. *)
Definition execute (s : S) (c : Command) : S * result (list Z) :=
  match c with
  | ReadRegisters f address count =>
      (s, r ← bank_read s f address count;
          Ok (if bool_decide (read_exception r = none)
              then if Z.of_nat (length (read_values r)) =? count
                   then [function_value f; 2 * count] ++ flat_map be16 (read_values r)
                   else exception (function_value f) server_device_failure
              else exception (function_value f) (read_exception r)))
  | WriteSingle address value =>
      let '(s', outcome) := bank_write_single s address value in
      (s', code ← outcome;
           Ok (if bool_decide (code = none) then encode_command c else exception 0x06 code))
  | WriteMultiple address values =>
      let '(s', outcome) := bank_write_multiple s address values in
      (s', code ← outcome;
           Ok (if bool_decide (code = none)
               then 0x10 :: be16 address ++ be16 (Z.of_nat (length values))
               else exception 0x10 code))
  end.

Definition is_broadcast (request : Request) : bool :=
  req_broadcast_allowed request && (req_unit_id request =? 0).

(** A broadcast executes writes silently and ignores reads. *)
Definition deliver (s : S) (request : Request) (c : Command) : S * result (option Response) :=
  match c, is_broadcast request with
  | ReadRegisters _ _ _, true => (s, Ok None)
  | _, broadcast =>
      let '(s', outcome) := execute s c in
      (s', reply ← outcome;
           Ok (if broadcast then None else Some (mkResponse (req_unit_id request) reply)))
  end.
End Spec.

(** ** Big-endian words *)
Lemma read_u16_be_bytes h l rest :
  is_byte h -> is_byte l -> read_u16_be (h :: l :: rest) = Ok (256 * h + l).
Proof.
  unfold is_byte. intros Hh Hl. simpl. rewrite lor_high_low by (unfold is_byte; lia).
  f_equal. apply wrap_id. lia.
Qed.

Lemma append_be16 bytes v : is_u16 v -> append_u16_be bytes v = bytes ++ be16 v.
Proof.
  unfold is_u16, append_u16_be, be16. intros Hv.
  change 0xff with (Z.ones 8). rewrite !Z.land_ones, Z.shiftr_div_pow2 by lia.
  change (2 ^ 8) with 256. do 2 f_equal. apply Z.mod_small.
  split; [apply Z.div_pos; lia|apply Z.div_lt_upper_bound; lia].
Qed.

Lemma be16_word h l : is_byte h -> is_byte l -> be16 (256 * h + l) = [h; l].
Proof.
  unfold is_byte, be16. intros Hh Hl. rewrite (Z.mul_comm 256).
  rewrite Z.div_add_l, Z.div_small, Z.add_0_r by lia.
  by rewrite Z.add_comm, Z.mod_add, Z.mod_small by lia.
Qed.

Lemma be16_bytes v : is_u16 v -> Forall is_byte (be16 v).
Proof.
  unfold is_u16, be16, is_byte. intros Hv. repeat constructor.
  - apply Z.div_pos; lia.
  - apply Z.div_lt_upper_bound; lia.
  - apply Z.mod_pos_bound; lia.
  - apply Z.mod_pos_bound; lia.
Qed.

Lemma read_be16 v rest : is_u16 v -> read_u16_be (be16 v ++ rest) = Ok v.
Proof.
  intros Hv. pose proof (be16_bytes v Hv) as Hb. apply Forall_cons_1 in Hb as [Hh Hb].
  apply Forall_cons_1 in Hb as [Hl _]. simpl app.
  rewrite read_u16_be_bytes by done. f_equal. unfold be16 in *.
  pose proof (Z.div_mod v 256). lia.
Qed.

Lemma flat_map_be16_length vs : length (flat_map be16 vs) = (2 * length vs)%nat.
Proof. induction vs as [|v vs IH]; simpl; [done|]. lia. Qed.

Lemma fold_append_be16 vs acc :
  Forall is_u16 vs -> fold_left append_u16_be vs acc = acc ++ flat_map be16 vs.
Proof.
  revert acc. induction vs as [|v vs IH]; intros acc Hv; simpl; [by rewrite app_nil_r|].
  apply Forall_cons_1 in Hv as [Hv Hvs]. by rewrite append_be16, IH, <- app_assoc.
Qed.

(** The handler's 16-bit reads at a fixed offset. *)
Lemma subspan_two pre h l rest :
  subspan (pre ++ h :: l :: rest) (length pre) 2 = Ok [h; l].
Proof.
  unfold subspan. rewrite decide_True by (rewrite length_app; simpl; lia).
  by rewrite drop_app_length.
Qed.

Lemma pdu_address_bytes f a1 a0 rest :
  is_byte a1 -> is_byte a0 -> pdu_address (f :: a1 :: a0 :: rest) = Ok (256 * a1 + a0).
Proof.
  intros. unfold pdu_address. pose proof (subspan_two [f] a1 a0 rest) as E.
  cbn [app length] in E. rewrite E. by apply read_u16_be_bytes.
Qed.

Lemma pdu_quantity_bytes f a1 a0 q1 q0 rest :
  is_byte q1 -> is_byte q0 ->
  pdu_quantity (f :: a1 :: a0 :: q1 :: q0 :: rest) = Ok (256 * q1 + q0).
Proof.
  intros. unfold pdu_quantity. pose proof (subspan_two [f; a1; a0] q1 q0 rest) as E.
  cbn [app length] in E. rewrite E. by apply read_u16_be_bytes.
Qed.

Lemma be16_split v : is_u16 v ->
  exists h l, be16 v = [h; l] /\ is_byte h /\ is_byte l /\ v = 256 * h + l.
Proof.
  intros Hv. pose proof (be16_bytes v Hv) as Hb. exists (v / 256), (v mod 256).
  apply Forall_cons_1 in Hb as [Hh Hb]. apply Forall_cons_1 in Hb as [Hl _].
  repeat split; try done; try apply Hh; try apply Hl. pose proof (Z.div_mod v 256). lia.
Qed.

(** The loop of the write-multiple branch reads the registers back. *)
Lemma read_values_loop (pre : list Z) vs k :
  Forall is_u16 vs -> length pre = (6 + k * 2)%nat ->
  mapM_result (fun index => subspan (pre ++ flat_map be16 vs) (6 + index * 2) 2 ≫= read_u16_be)
    (seq k (length vs)) = Ok vs.
Proof.
  revert pre k. induction vs as [|v vs IH]; intros pre k Hvs Hpre; [done|].
  apply Forall_cons_1 in Hvs as [Hv Hvs]. cbn [length seq mapM_result flat_map].
  destruct (be16_split v Hv) as (h & l & Hb & Hh & Hl & Ev). rewrite Hb.
  assert (subspan (pre ++ [h; l] ++ flat_map be16 vs) (6 + k * 2) 2 ≫= read_u16_be = Ok v)
    as E0.
  { replace (6 + k * 2)%nat with (length pre) by lia. cbn [app].
    rewrite subspan_two. rewrite Ev. by apply read_u16_be_bytes. }
  rewrite E0. pose proof (IH (pre ++ [h; l]) (S k) Hvs) as E.
  rewrite length_app, <- app_assoc in E. specialize (E ltac:(simpl; lia)).
  cbn [mbind result_bind]. by rewrite E.
Qed.

(** Every even byte string is a sequence of registers. *)
Lemma words_of_bytes bytes n :
  Forall is_byte bytes -> length bytes = (2 * n)%nat ->
  exists vs, Forall is_u16 vs /\ length vs = n /\ bytes = flat_map be16 vs.
Proof.
  revert bytes. induction n as [|n IH]; intros bytes Hb Hn.
  - destruct bytes; [|discriminate]. by exists [].
  - destruct bytes as [|h [|l bytes]]; try (simpl in Hn; lia).
    apply Forall_cons_1 in Hb as [Hh Hb]. apply Forall_cons_1 in Hb as [Hl Hb].
    destruct (IH bytes Hb) as (vs & Hvs & Hlen & ->); [simpl in Hn; lia|].
    exists (256 * h + l :: vs). split_and!; [|simpl; lia|].
    + constructor; [|done]. unfold is_u16, is_byte in *. lia.
    + cbn [flat_map]. by rewrite be16_word.
Qed.

(** The byte strings of length five. *)
Lemma five_bytes (l : list Z) : length l = 5%nat -> exists a b c d e, l = [a; b; c; d; e].
Proof. destruct l as [|a [|b [|c [|d [|e [|]]]]]]; try discriminate. eauto 10. Qed.

Lemma function_of_value f : function_of (function_value f) = Some f.
Proof. by destruct f. Qed.

Lemma function_value_of x f : function_of x = Some f -> x = function_value f.
Proof.
  unfold function_of. repeat (case_match; bools; [intros [= <-]; simpl; lia|]). done.
Qed.

Lemma eff_lift {S A B} (r : result A) (f : A -> eff S B) s :
  (lift r ≫= f) s = match r with Ok a => f a s | Throw e => (s, Throw e) end.
Proof. by destruct r. Qed.

Lemma eff_bind_at {S A B} (m : eff S A) (f : A -> eff S B) s :
  (m ≫= f) s =
    match m s with (s', Ok a) => f a s' | (s', Throw e) => (s', Throw e) end.
Proof. done. Qed.

(** [run_eff] runs the next state-monad bind of the goal. *)
Ltac run_eff :=
  repeat first [rewrite eff_lift | rewrite eff_bind_at]; cbv beta iota.

Section Refinement.
Context {S : Type} `{RegisterBankTyped S}.
Implicit Types (s : S) (request : Request).

Lemma handle_addressed request unit x rest :
  1 <= unit <= 247 -> req_pdu request = x :: rest ->
  is_broadcast request || (req_unit_id request =? unit) = true ->
  handle request unit =
    match function_of x with
    | Some read_holding_registers =>
        handle_read request read_holding_registers x (is_broadcast request)
    | Some read_input_registers =>
        handle_read request read_input_registers x (is_broadcast request)
    | Some write_single_register => handle_write_single request x (is_broadcast request)
    | Some write_multiple_registers => handle_write_multiple request x (is_broadcast request)
    | None => refuse (is_broadcast request) request x illegal_function
    end.
Proof.
  intros Hu Hp Ha. unfold handle. rewrite Hp.
  replace ((unit =? 0) || (247 <? unit)) with false by lia.
  fold (is_broadcast request).
  by destruct (is_broadcast request), (req_unit_id request =? unit).
Qed.

(** A read of a valid range. *)
Lemma handle_read_valid s request f address count :
  is_u16 address -> 1 <= count <= 125 ->
  req_pdu request = function_value f :: be16 address ++ be16 count ->
  handle_read request f (function_value f) (is_broadcast request) s =
    deliver s request (ReadRegisters f address count).
Proof.
  intros Ha Hc Hp. unfold handle_read, deliver. destruct (is_broadcast request); [done|].
  destruct (be16_split address Ha) as (a1 & a0 & Ea & Ha1 & Ha0 & ->).
  destruct (be16_split count) as (q1 & q0 & Eq & Hq1 & Hq0 & ->); [unfold is_u16; lia|].
  rewrite Hp, Ea, Eq. cbn [app length Nat.eqb negb].
  rewrite pdu_quantity_bytes, pdu_address_bytes by done.
  run_eff.
  replace ((256 * q1 + q0 =? 0) || (125 <? 256 * q1 + q0)) with false by lia.
  run_eff.
  cbn [execute]. destruct (bank_read s f _ _) as [r|e] eqn:Er; [|done].
  pose proof (bank_read_typed _ _ _ _ _ Er) as Ht.
  cbn [mbind result_bind]. destruct (bool_decide (read_exception r = none)); [|done].
  cbn [negb]. destruct (Z.eqb_spec (Z.of_nat (length (read_values r))) (256 * q1 + q0)) as [El|];
    [|done].
  cbn [negb]. rewrite fold_append_be16 by done. rewrite El, wrap_id by lia.
  by rewrite (Z.mul_comm _ 2).
Qed.

Lemma handle_write_single_valid s request address value :
  is_u16 address -> is_u16 value ->
  req_pdu request = 0x06 :: be16 address ++ be16 value ->
  handle_write_single request 0x06 (is_broadcast request) s =
    deliver s request (WriteSingle address value).
Proof.
  intros Ha Hv Hp. unfold handle_write_single, deliver. cbn [execute encode_command].
  rewrite <- Hp.
  destruct (be16_split address Ha) as (a1 & a0 & Ea & Ha1 & Ha0 & Ew).
  destruct (be16_split value Hv) as (q1 & q0 & Eq & Hq1 & Hq0 & Ew').
  rewrite Ea, Eq in Hp.
  replace (length (req_pdu request)) with 5%nat by (by rewrite Hp). cbn [Nat.eqb negb].
  assert (pdu_address (req_pdu request) = Ok address) as ->.
  { rewrite Hp, Ew. cbn [app]. by apply pdu_address_bytes. }
  assert (pdu_quantity (req_pdu request) = Ok value) as ->.
  { rewrite Hp, Ew'. cbn [app]. by apply pdu_quantity_bytes. }
  run_eff.
  destruct (bank_write_single s address value) as [s' [code|e]]; [|done].
  cbn [mbind result_bind].
  by destruct (is_broadcast request), (bool_decide (code = none)).
Qed.

Lemma handle_write_multiple_valid s request address values :
  is_u16 address -> Forall is_u16 values -> (1 <= length values <= 123)%nat ->
  req_pdu request = encode_command (WriteMultiple address values) ->
  handle_write_multiple request 0x10 (is_broadcast request) s =
    deliver s request (WriteMultiple address values).
Proof.
  intros Ha Hv Hn Hp. unfold handle_write_multiple, deliver.
  remember (Z.of_nat (length values)) as count eqn:Hcount.
  assert (Hc : is_u16 count) by (unfold is_u16; lia).
  assert (Hlen : length (req_pdu request) = (6 + 2 * length values)%nat).
  { rewrite Hp. cbn [encode_command length be16 app]. rewrite flat_map_be16_length. lia. }
  destruct (be16_split address Ha) as (a1 & a0 & Ea & Ha1 & Ha0 & Ew).
  destruct (be16_split count Hc) as (q1 & q0 & Eq & Hq1 & Hq0 & Ew').
  cbn [encode_command] in Hp. rewrite <- Hcount in Hp. rewrite Ea, Eq in Hp. cbn [app] in Hp.
  assert (pdu_quantity (req_pdu request) = Ok count) as ->.
  { rewrite Hp, Ew'. by apply pdu_quantity_bytes. }
  assert (octet_at (req_pdu request) 5 = Ok (2 * count)) as -> by (by rewrite Hp).
  assert (pdu_address (req_pdu request) = Ok address) as ->.
  { rewrite Hp, Ew. by apply pdu_address_bytes. }
  assert (mapM_result (fun index => subspan (req_pdu request) (6 + index * 2) 2 ≫= read_u16_be)
            (seq 0 (Z.to_nat count)) = Ok values) as Eloop.
  { rewrite Hp. replace (Z.to_nat count) with (length values) by lia.
    by apply (read_values_loop [16; a1; a0; q1; q0; 2 * count] values 0). }
  rewrite Hlen. replace (6 + 2 * length values <? 6)%nat with false
    by (symmetry; apply Nat.ltb_ge; lia).
  run_eff.
  replace ((count =? 0) || (123 <? count) || negb (2 * count =? count * 2)
    || negb (Z.of_nat (6 + 2 * length values) =? 6 + 2 * count)) with false
    by (clear -Hcount Hn; symmetry; repeat apply orb_false_intro; try lia;
        rewrite Hcount, Nat2Z.inj_add, Nat2Z.inj_mul;
        apply negb_false_iff, Z.eqb_eq; lia).
  rewrite eff_lift, Eloop. run_eff.
  cbn [execute]. rewrite <- Hcount.
  destruct (bank_write_multiple s address values) as [s' [code|e]]; [|done].
  cbn [mbind result_bind].
  rewrite !append_be16 by done.
  by destruct (is_broadcast request), (bool_decide (code = none)).
Qed.

(** No valid command has this encoding. *)
Definition malformed (pdu : list Z) : Prop :=
  forall c, valid_command c -> pdu <> encode_command c.

(** The reply to a malformed PDU. *)
Definition refusal request (function : Z) (code : ExceptionCode) : option Response :=
  if is_broadcast request then None
  else Some (mkResponse (req_unit_id request) (exception function code)).

Lemma handle_read_malformed s request f :
  is_register_read f = true -> Forall is_byte (req_pdu request) ->
  head (req_pdu request) = Some (function_value f) -> malformed (req_pdu request) ->
  handle_read request f (function_value f) (is_broadcast request) s =
    (s, Ok (refusal request (function_value f) illegal_data_value)).
Proof.
  intros Hf Hb Hx Hm. unfold handle_read, refusal. destruct (is_broadcast request); [done|].
  destruct (Nat.eqb_spec (length (req_pdu request)) 5) as [Hl|]; [|done].
  destruct (five_bytes _ Hl) as (x & a1 & a0 & q1 & q0 & Hp). rewrite Hp in *. cbn [negb].
  injection Hx as ->. apply Forall_cons_1 in Hb as [_ Hb].
  rewrite !List.Forall_cons_iff in Hb. destruct Hb as (Ha1 & Ha0 & Hq1 & Hq0 & _).
  rewrite pdu_quantity_bytes by done. run_eff.
  destruct (_ || _) eqn:E; [done|]. exfalso.
  apply (Hm (ReadRegisters f (256 * a1 + a0) (256 * q1 + q0))).
  - unfold is_byte in *. cbn [valid_command]. unfold is_u16. repeat split; auto; lia.
  - cbn [encode_command]. by rewrite !be16_word.
Qed.

Lemma handle_write_single_malformed s request :
  Forall is_byte (req_pdu request) ->
  head (req_pdu request) = Some 0x06 -> malformed (req_pdu request) ->
  handle_write_single request 0x06 (is_broadcast request) s =
    (s, Ok (refusal request 0x06 illegal_data_value)).
Proof.
  intros Hb Hx Hm. unfold handle_write_single, refusal.
  destruct (Nat.eqb_spec (length (req_pdu request)) 5) as [Hl|].
  2:{ unfold refuse. by destruct (is_broadcast request). }
  exfalso. destruct (five_bytes _ Hl) as (x & a1 & a0 & q1 & q0 & Hp). rewrite Hp in *.
  injection Hx as ->. apply Forall_cons_1 in Hb as [_ Hb].
  rewrite !List.Forall_cons_iff in Hb. destruct Hb as (Ha1 & Ha0 & Hq1 & Hq0 & _).
  apply (Hm (WriteSingle (256 * a1 + a0) (256 * q1 + q0))).
  - unfold is_byte in *. cbn [valid_command]. unfold is_u16. lia.
  - cbn [encode_command]. by rewrite !be16_word.
Qed.

Lemma handle_write_multiple_malformed s request :
  Forall is_byte (req_pdu request) ->
  head (req_pdu request) = Some 0x10 -> malformed (req_pdu request) ->
  handle_write_multiple request 0x10 (is_broadcast request) s =
    (s, Ok (refusal request 0x10 illegal_data_value)).
Proof.
  intros Hb Hx Hm. unfold handle_write_multiple, refusal.
  assert (forall t : S, refuse (is_broadcast request) request 0x10 illegal_data_value t =
    (t, Ok (if is_broadcast request then None
            else Some (mkResponse (req_unit_id request) (exception 0x10 illegal_data_value)))))
    as Er by (intros; unfold refuse; by destruct (is_broadcast request)).
  destruct (Nat.ltb_spec (length (req_pdu request)) 6) as [|Hl]; [apply Er|].
  destruct (req_pdu request) as [|x [|a1 [|a0 [|q1 [|q0 [|n rest]]]]]] eqn:Hp;
    try (simpl in Hl; lia).
  injection Hx as ->. rewrite !List.Forall_cons_iff in Hb.
  destruct Hb as (_ & Ha1 & Ha0 & Hq1 & Hq0 & Hn & Hb).
  rewrite pdu_quantity_bytes by done. run_eff. cbn [octet_at lookup list_lookup].
  destruct (_ || _) eqn:E; [apply Er|]. exfalso. bools.
  assert (n = 2 * (256 * q1 + q0)) as -> by lia.
  destruct (words_of_bytes rest (Z.to_nat (256 * q1 + q0))) as (vs & Hvs & Hlen & ->);
    [done|simpl in *; lia|].
  apply (Hm (WriteMultiple (256 * a1 + a0) vs)).
  - unfold is_byte in *. cbn [valid_command]. unfold is_u16. repeat split; try done; lia.
  - cbn [encode_command]. replace (Z.of_nat (length vs)) with (256 * q1 + q0) by lia.
    by rewrite !be16_word.
Qed.

Lemma handle_deliver s request unit c :
  1 <= unit <= 247 -> is_broadcast request || (req_unit_id request =? unit) = true ->
  valid_command c -> req_pdu request = encode_command c ->
  handle request unit s = deliver s request c.
Proof.
  intros Hu Ha Hc Hp. destruct c as [f a n|a v|a vs].
  - destruct Hc as (Hf & Hca & Hn).
    rewrite (handle_addressed request unit _ _ Hu Hp Ha), function_of_value.
    destruct f; try discriminate; by apply (handle_read_valid s request).
  - destruct Hc as [Hca Hv]. rewrite (handle_addressed request unit _ _ Hu Hp Ha).
    by apply handle_write_single_valid.
  - destruct Hc as (Hca & Hv & Hn). rewrite (handle_addressed request unit _ _ Hu Hp Ha).
    by apply handle_write_multiple_valid.
Qed.

Lemma handle_malformed s request unit x rest :
  1 <= unit <= 247 -> is_broadcast request || (req_unit_id request =? unit) = true ->
  Forall is_byte (req_pdu request) -> req_pdu request = x :: rest ->
  malformed (req_pdu request) ->
  handle request unit s =
    (s, Ok (refusal request x (if function_of x is Some _ then illegal_data_value else illegal_function))).
Proof.
  intros Hu Ha Hb Hp Hm. rewrite (handle_addressed request unit x rest Hu Hp Ha).
  assert (Hx : head (req_pdu request) = Some x) by (by rewrite Hp).
  destruct (function_of x) as [f|] eqn:Ef.
  2:{ unfold refuse, refusal. by destruct (is_broadcast request). }
  apply function_value_of in Ef as ->. destruct f.
  - by apply (handle_read_malformed s request read_holding_registers).
  - by apply (handle_read_malformed s request read_input_registers).
  - by apply handle_write_single_malformed.
  - by apply handle_write_multiple_malformed.
Qed.

(** (C2) The shared request dispatcher refines the command language.  For a
    configured unit 1..247 and a non-empty PDU of bytes: a request for another
    unit is ignored; a PDU that encodes a valid command has exactly that
    command's effect on the register bank and answers with its reply (a
    broadcast executes writes, ignores reads and never answers); any other PDU
    leaves the bank untouched and is refused with illegal-function or
    illegal-data-value (silently when broadcast).  In particular no out-of-range
    access of the PDU is ever reached. *)
Theorem handle_refines s request unit x rest :
  1 <= unit <= 247 -> Forall is_byte (req_pdu request) -> req_pdu request = x :: rest ->
  (is_broadcast request || (req_unit_id request =? unit) = false ->
     handle request unit s = (s, Ok None)) /\
  (is_broadcast request || (req_unit_id request =? unit) = true ->
     (forall c, valid_command c -> req_pdu request = encode_command c ->
        handle request unit s = deliver s request c) /\
     (malformed (req_pdu request) ->
        handle request unit s =
          (s, Ok (refusal request x
                    (if function_of x is Some _ then illegal_data_value else illegal_function))))).
Proof.
  intros Hu Hb Hp. split; [|split].
  - intros Ha. unfold handle. rewrite Hp.
    replace ((unit =? 0) || (247 <? unit)) with false by lia. fold (is_broadcast request).
    by destruct (is_broadcast request), (req_unit_id request =? unit).
  - intros c. by apply handle_deliver.
  - by apply (handle_malformed s request unit x rest).
Qed.

(** Every reply fits a Modbus PDU of 253 bytes and answers the unit asked. *)
Definition fits_pdu request (outcome : S * result (option Response)) : Prop :=
  match outcome.2 with
  | Ok (Some r) =>
      (2 <= length (resp_pdu r) <= 253)%nat /\ resp_unit_id r = req_unit_id request
  | _ => True
  end.

Lemma fits_respond request pdu s :
  (2 <= length pdu <= 253)%nat -> fits_pdu request (respond request pdu s).
Proof. done. Qed.

Lemma fits_exception request f code s : fits_pdu request (respond request (exception f code) s).
Proof. apply fits_respond. simpl. lia. Qed.

Lemma fits_refuse b request f code s : fits_pdu request (refuse b request f code s).
Proof. destruct b; [done|apply fits_exception]. Qed.

Lemma fits_lift {A} request (r : result A) (k : A -> eff S (option Response)) s :
  (forall a, r = Ok a -> fits_pdu request (k a s)) -> fits_pdu request ((lift r ≫= k) s).
Proof. intros Hk. rewrite eff_lift. destruct r; [by apply Hk|done]. Qed.

Lemma append_length vs acc :
  length (fold_left append_u16_be vs acc) = (length acc + 2 * length vs)%nat.
Proof.
  revert acc. induction vs as [|v vs IH]; intros acc; simpl; [lia|].
  rewrite IH. unfold append_u16_be. rewrite length_app. simpl. lia.
Qed.

Lemma fits_read request f x b s : fits_pdu request (handle_read request f x b s).
Proof.
  unfold handle_read. destruct b; [done|]. destruct (negb _); [apply fits_exception|].
  apply fits_lift. intros n _. destruct (_ || _) eqn:En; [apply fits_exception|].
  apply fits_lift. intros a _. apply fits_lift. intros v _.
  destruct (negb _); [apply fits_exception|].
  destruct (negb (_ =? _)) eqn:El; [apply fits_exception|].
  apply fits_respond. rewrite append_length. bools. simpl. lia.
Qed.

Lemma fits_write_single request x b s : fits_pdu request (handle_write_single request x b s).
Proof.
  unfold handle_write_single.
  destruct (Nat.eqb_spec (length (req_pdu request)) 5); [|apply fits_refuse].
  apply fits_lift. intros a _. apply fits_lift. intros v _. rewrite eff_bind_at.
  destruct (bank_write_single _ _ _) as [t [code|]]; [|done].
  destruct b; [done|]. destruct (negb _); [apply fits_exception|]. apply fits_respond. lia.
Qed.

Lemma fits_write_multiple request x b s :
  fits_pdu request (handle_write_multiple request x b s).
Proof.
  unfold handle_write_multiple. destruct (_ <? _)%nat; [apply fits_refuse|].
  apply fits_lift. intros n _. apply fits_lift. intros c _.
  destruct (_ || _); [apply fits_refuse|].
  apply fits_lift. intros vs _. apply fits_lift. intros a _. rewrite eff_bind_at.
  destruct (bank_write_multiple _ _ _) as [t [code|]]; [|done].
  destruct b; [done|]. destruct (negb _); [apply fits_exception|].
  apply fits_respond. unfold append_u16_be. rewrite !length_app. simpl. lia.
Qed.

Lemma handle_fits request unit s : fits_pdu request (handle request unit s).
Proof.
  unfold handle. destruct (_ || _); [done|].
  destruct (req_pdu request) as [|x rest]; [apply fits_exception|].
  destruct (negb _ && negb _); [done|].
  destruct (function_of x) as [[]|].
  - apply fits_read.
  - apply fits_read.
  - apply fits_write_single.
  - apply fits_write_multiple.
  - apply fits_refuse.
Qed.
End Refinement.

(** ** A concrete bank: one table of holding registers *)
#[export] Instance table_bank : RegisterBank (list Z) := {
  bank_read s f address count :=
    Ok (let a := Z.to_nat address in
        if (a + Z.to_nat count <=? length s)%nat
        then mkRead none (map u16 (take (Z.to_nat count) (drop a s)))
        else mkRead illegal_data_address []);
  bank_write_single s address value :=
    if (Z.to_nat address <? length s)%nat then (<[Z.to_nat address := value]> s, Ok none)
    else (s, Ok illegal_data_address);
  bank_write_multiple s address values :=
    if (Z.to_nat address + length values <=? length s)%nat
    then (list_inserts (Z.to_nat address) values s, Ok none)
    else (s, Ok illegal_data_address) }.

#[export] Instance table_bank_typed : RegisterBankTyped (list Z).
Proof.
  intros s f a n r Hr. apply Ok_inj in Hr as <-. cbv zeta.
  destruct (_ <=? _)%nat; [|constructor]. simpl.
  apply List.Forall_forall. intros v Hv. apply in_map_iff in Hv as (w & <- & _).
  apply (wrap_range 16). lia.
Qed.

(** A two-register write to unit 17 executes and is acknowledged; a write whose
    byte count disagrees is refused. *)
Lemma handle_refines_witness :
  handle (mkRequest 17 [0x10; 0; 1; 0; 2; 4; 0; 10; 1; 2] false) 17 [0; 0; 0; 0] =
    ([0; 10; 258; 0], Ok (Some (mkResponse 17 [0x10; 0; 1; 0; 2]))) /\
  handle (mkRequest 9 [0x10; 0; 1] false) 17 [0; 0] = ([0; 0], Ok None).
Proof.
  split.
  - destruct (handle_refines [0; 0; 0; 0]
      (mkRequest 17 [0x10; 0; 1; 0; 2; 4; 0; 10; 1; 2] false) 17 0x10
      [0; 1; 0; 2; 4; 0; 10; 1; 2] ltac:(lia)
      ltac:(unfold is_byte; repeat constructor; lia) eq_refl) as [_ Ha].
    destruct (Ha eq_refl) as [Hd _]. rewrite (Hd (WriteMultiple 1 [10; 258])); [done| |done].
    cbn [valid_command]. unfold is_u16. repeat constructor; simpl; lia.
  - destruct (handle_refines [0; 0] (mkRequest 9 [0x10; 0; 1] false) 17 0x10 [0; 1]
      ltac:(lia) ltac:(unfold is_byte; repeat constructor; lia) eq_refl) as [Hn _].
    by apply Hn.
Defined.
