(* ===== verification/ModbusTcp.v ===== *)
(** * Modbus/TCP server

    Models [src/common/mnc/modbus/tcp_server.cpp]: the MBAP session loop as a
    function of the bytes the client sends, and the connection admission
    ([start], [stop], [reserve], [release], the accept loop) as a transition
    system at the granularity of the atomics and the [sockets_mutex] critical
    sections, so that the interleavings of the I/O workers with the lifecycle
    thread are explicit. *)

From S2P Require Import Prelude ModbusHandler.

Definition tcp_header_size : nat := 7.
Definition maximum_pdu_size : Z := 253.

(** ** The session loop *)

Section Session.
Context {S : Type} `{RegisterBankTyped S}.

(** How a session coroutine leaves its loop: the run is over, the peer closed
    the stream inside a read, or an exception is reported. *)
Inductive SessionEnd :=
  | RunEnded
  | Disconnected
  | Failed (e : exn).

(** [append_u16_be] calls and insertions that build the response ADU. *)
Definition response_adu (transaction : Z) (r : Response) : list Z :=
  append_u16_be (append_u16_be (append_u16_be [] transaction) 0)
    (u16 (Z.of_nat (length (resp_pdu r)) + 1)) ++ [resp_unit_id r] ++ resp_pdu r.

(** What one loop iteration yields: the session goes on with the rest of the
    input, after writing [output]; or it ends. *)
Inductive Iteration :=
  | Next (s : S) (rest output : list Z)
  | Stop (s : S) (why : SessionEnd).

(** One iteration: read the MBAP header, check it, read the PDU, handle it and
    build the response ADU.  [async_read] completes only when its buffer is
    full, and fails with end-of-file otherwise. *)
Definition session_iteration (unit_id : Z) (s : S) (input : list Z) : Iteration :=
  if (length input <? tcp_header_size)%nat then Stop s Disconnected
  else
    let header := take tcp_header_size input in
    let rest := drop tcp_header_size input in
    let fields :=
      transaction ← read_u16_be header;
      protocol ← subspan header 2 2 ≫= read_u16_be;
      len ← subspan header 4 2 ≫= read_u16_be;
      reject_if (negb (protocol =? 0) || (len <? 2) || (maximum_pdu_size + 1 <? len))
        (RuntimeError "invalid MBAP header") ;;
      unit ← octet_at header 6;
      Ok (transaction, len, unit) in
    match fields with
    | Throw e => Stop s (Failed e)
    | Ok (transaction, len, unit) =>
        let size := Z.to_nat (len - 1) in
        if (length rest <? size)%nat then Stop s Disconnected
        else
          match handle (mkRequest unit (take size rest) false) unit_id s with
          | (s', Throw e) => Stop s' (Failed e)
          | (s', Ok None) => Next s' (drop size rest) []
          | (s', Ok (Some r)) => Next s' (drop size rest) (response_adu transaction r)
          end
    end.

(** The loop, for a run that stays current for [turns] loop tests. *)
Fixpoint session (turns : nat) (unit_id : Z) (s : S) (input : list Z)
    : S * list Z * SessionEnd :=
  match turns with
  | O => (s, [], RunEnded)
  | Datatypes.S turns =>
      match session_iteration unit_id s input with
      | Stop s' why => (s', [], why)
      | Next s' rest output =>
          let '(s'', outputs, why) := session turns unit_id s' rest in
          (s'', output ++ outputs, why)
      end
  end.

(** ** What a client sends and expects *)
Record Adu := mkAdu { adu_transaction : Z; adu_unit : Z; adu_pdu : list Z }.

Definition valid_adu (a : Adu) : Prop :=
  is_u16 (adu_transaction a) /\ is_byte (adu_unit a) /\ Forall is_byte (adu_pdu a) /\
  (1 <= length (adu_pdu a) <= 253)%nat.

Definition encode_adu (a : Adu) : list Z :=
  be16 (adu_transaction a) ++ [0; 0] ++ be16 (Z.of_nat (length (adu_pdu a)) + 1) ++
    adu_unit a :: adu_pdu a.

(** The reference server: every request in turn through the shared handler; the
    replies, tagged with their request's transaction, in request order. *)
Fixpoint serve (unit_id : Z) (s : S) (requests : list Adu) : S * list Adu * option exn :=
  match requests with
  | [] => (s, [], None)
  | a :: requests =>
      match handle (mkRequest (adu_unit a) (adu_pdu a) false) unit_id s with
      | (s', Throw e) => (s', [], Some e)
      | (s', Ok reply) =>
          let '(s'', replies, failure) := serve unit_id s' requests in
          (s'', match reply with
                | Some r => [mkAdu (adu_transaction a) (resp_unit_id r) (resp_pdu r)]
                | None => []
                end ++ replies, failure)
      end
  end.

Lemma header_fields a tail :
  valid_adu a ->
  take tcp_header_size (encode_adu a ++ tail) =
    be16 (adu_transaction a) ++ [0; 0] ++ be16 (Z.of_nat (length (adu_pdu a)) + 1) ++ [adu_unit a]
  /\ drop tcp_header_size (encode_adu a ++ tail) = adu_pdu a ++ tail.
Proof. done. Qed.

Lemma response_adu_encode transaction r :
  is_u16 transaction -> (2 <= length (resp_pdu r) <= 253)%nat ->
  response_adu transaction r = encode_adu (mkAdu transaction (resp_unit_id r) (resp_pdu r)).
Proof.
  intros Ht Hl. unfold response_adu, encode_adu. rewrite wrap_id by lia.
  rewrite !append_be16 by (unfold is_u16; lia || done). by rewrite <- !app_assoc.
Qed.

(** An iteration consumes exactly one request and writes its reply, if any. *)
Lemma iteration_step unit_id s a tail :
  valid_adu a ->
  session_iteration unit_id s (encode_adu a ++ tail) =
    match handle (mkRequest (adu_unit a) (adu_pdu a) false) unit_id s with
    | (s', Throw e) => Stop s' (Failed e)
    | (s', Ok None) => Next s' tail []
    | (s', Ok (Some r)) =>
        Next s' tail (encode_adu (mkAdu (adu_transaction a) (resp_unit_id r) (resp_pdu r)))
    end.
Proof.
  intros Ha. destruct (header_fields a tail Ha) as [Eh Ed].
  destruct Ha as (Ht & Hu & Hb & Hl). unfold session_iteration.
  replace (length (encode_adu a ++ tail) <? tcp_header_size)%nat with false
    by (symmetry; apply Nat.ltb_ge; rewrite length_app; unfold tcp_header_size; simpl; lia).
  rewrite Eh, Ed. cbv zeta.
  assert (Hlen : is_u16 (Z.of_nat (length (adu_pdu a)) + 1)) by (unfold is_u16; lia).
  destruct (be16_split _ Ht) as (t1 & t0 & Et & Ht1 & Ht0 & Ew).
  destruct (be16_split _ Hlen) as (l1 & l0 & El & Hl1 & Hl0 & Ew').
  rewrite read_be16 by done. rewrite Et, El. cbn [app mbind result_bind].
  pose proof (subspan_two [t1; t0] 0 0 [l1; l0; adu_unit a]) as E2.
  pose proof (subspan_two [t1; t0; 0; 0] l1 l0 [adu_unit a]) as E4.
  cbn [app length] in E2, E4.
  assert (F2 : subspan [t1; t0; 0; 0; l1; l0; adu_unit a] 2 2 ≫= read_u16_be = Ok 0)
    by (rewrite E2; by apply read_u16_be_bytes).
  assert (F4 : subspan [t1; t0; 0; 0; l1; l0; adu_unit a] 4 2 ≫= read_u16_be
               = Ok (Z.of_nat (length (adu_pdu a)) + 1))
    by (rewrite E4, Ew'; by apply read_u16_be_bytes).
  rewrite F2, F4.
  cbn [mbind result_bind octet_at lookup list_lookup].
  replace (negb (0 =? 0) || (Z.of_nat (length (adu_pdu a)) + 1 <? 2)
    || (maximum_pdu_size + 1 <? Z.of_nat (length (adu_pdu a)) + 1)) with false
    by (unfold maximum_pdu_size; symmetry; repeat apply orb_false_intro; lia).
  cbn [reject_if mbind result_bind]. replace (Z.to_nat (Z.of_nat (length (adu_pdu a)) + 1 - 1))
    with (length (adu_pdu a)) by lia.
  replace (length (adu_pdu a ++ tail) <? length (adu_pdu a))%nat with false
    by (symmetry; apply Nat.ltb_ge; rewrite length_app; lia).
  rewrite take_app_length, drop_app_length.
  pose proof (handle_fits (mkRequest (adu_unit a) (adu_pdu a) false) unit_id s) as Hf.
  destruct (handle _ _ s) as [s' [[r|]|e]]; [|done..].
  destruct Hf as [Hf _]. by rewrite response_adu_encode.
Qed.

Lemma session_serve unit_id s requests turns tail :
  Forall valid_adu requests ->
  session (length requests + turns) unit_id s (flat_map encode_adu requests ++ tail) =
    match serve unit_id s requests with
    | (s', replies, Some e) => (s', flat_map encode_adu replies, Failed e)
    | (s', replies, None) =>
        let '(s'', output, why) := session turns unit_id s' tail in
        (s'', flat_map encode_adu replies ++ output, why)
    end.
Proof.
  intros Hr. revert s. induction Hr as [|a requests Ha _ IH]; intros s.
  { simpl. by destruct (session turns unit_id s tail) as [[? ?] ?]. }
  cbn [length Nat.add session flat_map serve]. rewrite <- app_assoc, iteration_step by done.
  destruct (handle _ _ s) as [s' [reply|e]]; [|done].
  specialize (IH s').
  destruct reply as [r|]; rewrite IH;
    destruct (serve unit_id s' requests) as [[s2 replies] [e|]]; try done;
    destruct (session turns unit_id s2 tail) as [[? ?] ?]; cbn [app flat_map];
    by rewrite <- ?app_assoc.
Qed.

(** An iteration that goes on has consumed a header and a PDU. *)
Lemma iteration_consumes unit_id s input s' rest output :
  session_iteration unit_id s input = Next s' rest output ->
  (length rest + 8 <= length input)%nat.
Proof.
  unfold session_iteration. destruct (Nat.ltb_spec (length input) tcp_header_size); [done|].
  cbv zeta. destruct (_ ≫= _) as [[[t len] unit]|e] eqn:Ef; [|done].
  destruct (Nat.ltb_spec (length (drop tcp_header_size input)) (Z.to_nat (len - 1)))
    as [|Hl]; [done|].
  inv_ok Ef. simplify_eq. bools.
  destruct (handle _ _ s) as [? [[r|]|?]]; intros [= _ <- _];
    rewrite length_drop in *; rewrite length_drop in *; unfold tcp_header_size in *; lia.
Qed.

Lemma session_terminates turns unit_id s input :
  (length input < turns)%nat -> (session turns unit_id s input).2 <> RunEnded.
Proof.
  revert s input. induction turns as [|turns IH]; intros s input Hl; [lia|]. cbn [session].
  destruct (session_iteration unit_id s input) as [s' rest output|s' why] eqn:E.
  - apply iteration_consumes in E. specialize (IH s' rest ltac:(lia)).
    by destruct (session turns unit_id s' rest) as [[? ?] ?].
  - revert E. unfold session_iteration. cbv zeta.
    repeat case_match; intros; simplify_eq; done.
Qed.

(** A Modbus/TCP session answers a pipelined stream of requests in order.
    For any valid request ADUs followed by any bytes, while the run is current,
    the session writes exactly the encodings of the replies the shared handler
    gives to those requests in turn, each tagged with its request's transaction
    identifier, and then continues with the remaining bytes; a handler exception
    ends the session after the replies already written.  Every session ends: a
    run that stays current for more turns than the input has bytes is over
    because of the input. *)
Theorem tcp_session_serves unit_id s requests turns tail :
  Forall valid_adu requests ->
  session (length requests + turns) unit_id s (flat_map encode_adu requests ++ tail) =
    match serve unit_id s requests with
    | (s', replies, Some e) => (s', flat_map encode_adu replies, Failed e)
    | (s', replies, None) =>
        let '(s'', output, why) := session turns unit_id s' tail in
        (s'', flat_map encode_adu replies ++ output, why)
    end /\
  ((length tail < turns)%nat -> (session turns unit_id s tail).2 <> RunEnded).
Proof. split; [by apply session_serve|apply session_terminates]. Qed.
End Session.

(** Two pipelined requests: a write for this unit and a read; then a header
    with a protocol identifier that is not Modbus. *)
Lemma tcp_session_serves_witness :
  session 5 17 [1; 2; 3]
    ([0; 7; 0; 0; 0; 6; 17; 6; 0; 1; 1; 0] ++ [0; 8; 0; 0; 0; 6; 17; 3; 0; 0; 0; 2]
      ++ [0; 9; 0; 1; 0; 6; 17]) =
  ([1; 256; 3],
   [0; 7; 0; 0; 0; 6; 17; 6; 0; 1; 1; 0] ++ [0; 8; 0; 0; 0; 7; 17; 3; 4; 0; 1; 1; 0],
   Failed (RuntimeError "invalid MBAP header")).
Proof.
  destruct (tcp_session_serves 17 [1; 2; 3]
    [mkAdu 7 17 [6; 0; 1; 1; 0]; mkAdu 8 17 [3; 0; 0; 0; 2]] 3 [0; 9; 0; 1; 0; 6; 17])
    as [E _].
  - repeat constructor; cbn; unfold is_u16, is_byte; try lia; repeat constructor; lia.
  - exact E.
Defined.

(** ** Connection admission

    One lifecycle thread calls [start] and [stop]; accept loops and session
    guards run on the I/O workers.  A step is one access to a shared atomic or
    one critical section of [sockets_mutex]; [reserve] is split at its atomic
    loads, and holds the mutex meanwhile. *)

(** Where the lifecycle thread is. *)
Inductive Lifecycle :=
  | Idle
  | Starting      (** [running] exchanged, the generation not yet advanced *)
  | Configuring   (** the new run has its number, the acceptor is set up *)
  | Stopping      (** [running] cleared, the generation not yet advanced *)
  | Clearing.     (** waits for [sockets_mutex] to close the sockets *)

(** Where the worker inside [reserve] is; it owns [sockets_mutex]. *)
Inductive ReservePhase := Locked | SawRunning | Granted.

Record Reservation := mkReservation {
  rv_phase : ReservePhase;
  rv_socket : nat;
  rv_run : Z }.

Record TcpState := mkTcp {
  tcp_running : bool;
  tcp_generation : Z;
  tcp_sockets : list (nat * Z);      (** the set of slots, with the run that filled each *)
  tcp_lifecycle : Lifecycle;
  tcp_loops : list Z;                (** the runs whose accept loop is alive *)
  tcp_reserving : option Reservation;
  tcp_next_socket : nat }.

Definition tcp_initial : TcpState := mkTcp false 0 [] Idle [] None 0.

Definition current (st : TcpState) (run : Z) : bool :=
  tcp_running st && (tcp_generation st =? run).

Record TcpServerConfig := mkTcpConfig {
  maximum_clients : nat;
  tcp_unit_id : Z }.

Section Admission.
Variable config : TcpServerConfig.

Definition config_accepted : bool :=
  negb ((tcp_unit_id config =? 0) || (247 <? tcp_unit_id config)) &&
  negb (maximum_clients config =? 0)%nat.

(** The second half of [reserve]'s test, after [running] was seen true. *)
Definition slot_free (st : TcpState) (run : Z) : bool :=
  (tcp_generation st =? run) && (length (tcp_sockets st) <? maximum_clients config)%nat.

Definition set_reserving (r : option Reservation) (st : TcpState) : TcpState :=
  mkTcp (tcp_running st) (tcp_generation st) (tcp_sockets st) (tcp_lifecycle st)
    (tcp_loops st) r (tcp_next_socket st).

Definition set_lifecycle (running : bool) (generation : Z) (l : Lifecycle) (st : TcpState)
    : TcpState :=
  mkTcp running generation (tcp_sockets st) l (tcp_loops st) (tcp_reserving st)
    (tcp_next_socket st).

Inductive tcp_step : TcpState -> TcpState -> Prop :=
  (** [start]: a server that runs already returns at once *)
  | start_exchange st :
      tcp_lifecycle st = Idle -> tcp_running st = false ->
      tcp_step st (set_lifecycle true (tcp_generation st) Starting st)
  | start_generation st :
      tcp_lifecycle st = Starting ->
      tcp_step st (set_lifecycle (tcp_running st) (u64 (tcp_generation st + 1)) Configuring st)
  | start_spawn st :
      tcp_lifecycle st = Configuring -> config_accepted = true ->
      tcp_step st
        (mkTcp (tcp_running st) (tcp_generation st) (tcp_sockets st) Idle
           (tcp_generation st :: tcp_loops st) (tcp_reserving st) (tcp_next_socket st))
  | start_rejected st :
      tcp_lifecycle st = Configuring ->
      tcp_step st (set_lifecycle false (tcp_generation st) Idle st)
  (** [stop] *)
  | stop_exchange st :
      tcp_lifecycle st = Idle -> tcp_running st = true ->
      tcp_step st (set_lifecycle false (tcp_generation st) Stopping st)
  | stop_generation st :
      tcp_lifecycle st = Stopping ->
      tcp_step st (set_lifecycle (tcp_running st) (u64 (tcp_generation st + 1)) Clearing st)
  | stop_clear st :
      tcp_lifecycle st = Clearing -> tcp_reserving st = None ->
      tcp_step st
        (mkTcp (tcp_running st) (tcp_generation st) [] Idle (tcp_loops st) None
           (tcp_next_socket st))
  (** [accept_loop] completes an accept and calls [reserve] *)
  | accept_lock st run :
      run ∈ tcp_loops st -> tcp_reserving st = None ->
      tcp_step st
        (mkTcp (tcp_running st) (tcp_generation st) (tcp_sockets st) (tcp_lifecycle st)
           (tcp_loops st) (Some (mkReservation Locked (tcp_next_socket st) run))
           (S (tcp_next_socket st)))
  | reserve_running st socket run :
      tcp_reserving st = Some (mkReservation Locked socket run) ->
      tcp_step st
        (set_reserving (if tcp_running st then Some (mkReservation SawRunning socket run)
                        else None) st)
  | reserve_check st socket run :
      tcp_reserving st = Some (mkReservation SawRunning socket run) ->
      tcp_step st
        (set_reserving (if slot_free st run then Some (mkReservation Granted socket run)
                        else None) st)
  | reserve_insert st socket run :
      tcp_reserving st = Some (mkReservation Granted socket run) ->
      tcp_step st
        (mkTcp (tcp_running st) (tcp_generation st) ((socket, run) :: tcp_sockets st)
           (tcp_lifecycle st) (tcp_loops st) None (tcp_next_socket st))
  (** [accept_loop] finds its run over and returns *)
  | loop_exit st before run after :
      tcp_loops st = before ++ run :: after -> current st run = false ->
      tcp_step st
        (mkTcp (tcp_running st) (tcp_generation st) (tcp_sockets st) (tcp_lifecycle st)
           (before ++ after) (tcp_reserving st) (tcp_next_socket st))
  (** the session guard's [release] *)
  | release st socket :
      tcp_reserving st = None ->
      tcp_step st
        (mkTcp (tcp_running st) (tcp_generation st)
           (filter (fun slot => slot.1 <> socket) (tcp_sockets st)) (tcp_lifecycle st)
           (tcp_loops st) None (tcp_next_socket st)).

(** States after [n] steps. *)
Inductive tcp_reachable : nat -> TcpState -> Prop :=
  | tcp_reach_start : tcp_reachable 0 tcp_initial
  | tcp_reach_step n st st' :
      tcp_reachable n st -> tcp_step st st' -> tcp_reachable (S n) st'.

(** The phases in which the current run may fill slots. *)
Definition open_phase (l : Lifecycle) (running : bool) : bool :=
  match l with
  | Idle => running
  | Stopping => true
  | _ => false
  end.

Definition open_run (st : TcpState) : Prop :=
  open_phase (tcp_lifecycle st) (tcp_running st) = true.

Definition reservation_ok (l : Lifecycle) (running : bool) (generation : Z)
    (sockets : list (nat * Z)) (next : nat) (r : Reservation) : Prop :=
  (rv_socket r < next)%nat /\ (rv_socket r ∉ map fst sockets) /\ rv_run r <= generation /\
  (open_phase l running = true \/ rv_run r < generation) /\
  (rv_phase r = Granted ->
     (length sockets < maximum_clients config)%nat /\
     ((open_phase l running = true /\ rv_run r = generation) \/ l = Clearing)).

Record tcp_inv (n : nat) (st : TcpState) : Prop := {
  ti_generation : 0 <= tcp_generation st <= Z.of_nat n;
  ti_lifecycle : match tcp_lifecycle st with
                 | Starting | Configuring => tcp_running st = true
                 | Stopping | Clearing => tcp_running st = false
                 | Idle => True
                 end;
  ti_loops : Forall (fun run => run <= tcp_generation st /\
                       (open_run st \/ run < tcp_generation st)) (tcp_loops st);
  ti_reserving : forall r, tcp_reserving st = Some r ->
      reservation_ok (tcp_lifecycle st) (tcp_running st) (tcp_generation st)
        (tcp_sockets st) (tcp_next_socket st) r;
  ti_sockets : (length (tcp_sockets st) <= maximum_clients config)%nat;
  ti_owned : open_run st \/ tcp_lifecycle st = Clearing \/ tcp_sockets st = [];
  ti_runs : open_run st -> Forall (fun slot => slot.2 = tcp_generation st) (tcp_sockets st);
  ti_ids : Forall (fun slot => (slot.1 < tcp_next_socket st)%nat) (tcp_sockets st);
  ti_nodup : NoDup (map fst (tcp_sockets st)) }.

(** Closes the parts of the invariant a step changes by weakening. *)
Ltac tcp_weaken :=
  match goal with
  | |- Forall _ [] => constructor
  | |- NoDup [] => constructor
  | H : Forall _ ?l |- Forall _ ?l =>
      eapply Forall_impl; [|exact H]; simpl; intros; naive_solver lia
  | H : forall r, _ -> reservation_ok _ _ _ _ _ r |- forall r, _ -> reservation_ok _ _ _ _ _ r =>
      let r := fresh "r" in let E := fresh "E" in
      intros r E; try discriminate E; specialize (H _ E); revert H; unfold reservation_ok;
      simpl; naive_solver lia
  | _ => naive_solver lia
  end.

Lemma tcp_inv_lifecycle n st l running generation :
  tcp_inv n st ->
  match tcp_lifecycle st, l with
  | Idle, Starting => tcp_running st = false /\ running = true /\ generation = tcp_generation st
  | Idle, Stopping => tcp_running st = true /\ running = false /\ generation = tcp_generation st
  | Starting, Configuring | Stopping, Clearing =>
      running = tcp_running st /\ generation = tcp_generation st + 1
  | Configuring, Idle => running = false /\ generation = tcp_generation st
  | _, _ => False
  end ->
  tcp_inv (S n) (set_lifecycle running generation l st).
Proof.
  intros [Hg Hl Hlo Hr Hs Ho Hru Hi Hd] Hc. unfold open_run in *.
  destruct st as [running0 gen socks lc loops res next]; simpl in *.
  destruct lc, l; try done; destruct_and!; subst;
    constructor; unfold open_run; simpl; try tcp_weaken.
  all: eapply Forall_impl; [|exact Hlo]; intros run [? _]; split; [|right]; lia.
Qed.

Lemma tcp_inv_step n st st' :
  Z.of_nat (S n) < 2 ^ 64 -> tcp_inv n st -> tcp_step st st' -> tcp_inv (S n) st'.
Proof.
  intros Hn Hinv Hstep.
  assert (Hw : u64 (tcp_generation st + 1) = tcp_generation st + 1)
    by (apply wrap_id; pose proof (ti_generation _ _ Hinv); lia).
  destruct Hstep; try (apply tcp_inv_lifecycle; [done|]; rewrite ?Hw;
    repeat match goal with E : tcp_lifecycle _ = _ |- _ => rewrite E; clear E end; done).
  all: destruct Hinv as [Hg Hl Hlo Hr Hs Ho Hru Hi Hd]; unfold open_run in *;
    destruct st as [running gen socks lc loops res next]; simpl in *; subst;
    constructor; unfold open_run; simpl; try tcp_weaken.
  - constructor; [split; [lia|by left]|].
    eapply Forall_impl; [|exact Hlo]. naive_solver.
  - intros _. destruct Ho as [|[|Ho]]; [done..|]. rewrite Ho. constructor.
  - intros r [= <-]. rewrite List.Forall_forall in Hlo, Hi.
    destruct (Hlo run) as [? Hopen]; [by apply list_elem_of_In|].
    split_and!; simpl; try done; [lia|]. intros Hin. apply list_elem_of_In, in_map_iff in Hin.
    destruct Hin as ([i v] & <- & Hin). apply Hi in Hin. simpl in Hin. lia.
  - intros r E. specialize (Hr _ eq_refl). destruct running; [|done].
    injection E as <-. revert Hr. unfold reservation_ok. simpl. naive_solver.
  - intros r E. specialize (Hr _ eq_refl). unfold slot_free in E. simpl in E.
    destruct (_ && _) eqn:Ec; [|done]. injection E as <-. bools. apply Nat.ltb_lt in H0.
    revert Hr. unfold reservation_ok. simpl. naive_solver lia.
  - destruct (Hr _ eq_refl) as (_ & _ & _ & _ & Ha). simpl in Ha. naive_solver.
  - destruct (Hr _ eq_refl) as (_ & _ & _ & _ & Ha). simpl in Ha. intros Hopen.
    constructor; [|by apply Hru]. destruct (Ha eq_refl) as [_ [[_ ?]| ->]]; [done|].
    discriminate.
  - constructor; [|done]. by destruct (Hr _ eq_refl) as (? & _).
  - constructor; [|done]. by destruct (Hr _ eq_refl) as (_ & ? & _).
  - apply Forall_app in Hlo as [Hb Ha]. inversion Ha; subst. by apply Forall_app.
  - etrans; [apply length_filter|done].
  - intros Hopen. apply Forall_filter, Hru, Hopen.
  - by apply Forall_filter.
  - apply NoDup_map_filter, Hd.
Qed.

Lemma tcp_reachable_inv n st :
  Z.of_nat n < 2 ^ 64 -> tcp_reachable n st -> tcp_inv n st.
Proof.
  intros Hn Hr. induction Hr as [|n st st' Hr IH Hstep].
  - constructor; unfold open_run; simpl; try done; try constructor; tcp_weaken.
  - eapply tcp_inv_step; [done|apply IH; lia|done].
Qed.

(** (C3) Connection admission under every interleaving of the lifecycle thread
    with accept loops, reservations and session guards (fewer than 2^64 atomic
    steps, so that the generation counter does not repeat): at most
    [maximum_clients] sockets hold a slot and no socket holds two; once [stop]
    has returned no slot is held; while the server runs every slot was filled by
    the current run, so that an accept that completes after a restart never
    occupies a slot of the new run. *)
Theorem tcp_admission n st :
  Z.of_nat n < 2 ^ 64 -> tcp_reachable n st ->
  (length (tcp_sockets st) <= maximum_clients config)%nat /\
  NoDup (map fst (tcp_sockets st)) /\
  (tcp_lifecycle st = Idle ->
     if tcp_running st
     then Forall (fun slot => slot.2 = tcp_generation st) (tcp_sockets st)
     else tcp_sockets st = []).
Proof.
  intros Hn Hr. destruct (tcp_reachable_inv n st Hn Hr) as [_ _ _ _ Hs Ho Hru _ Hd].
  split_and!; [done..|]. intros Hl. unfold open_run in *. rewrite Hl in *. simpl in *.
  destruct (tcp_running st); [by apply Hru|]. by destruct Ho as [|[|]].
Qed.
End Admission.

(** One client is admitted by the first run of a server with a single slot. *)
Definition admitted_state : TcpState := mkTcp true 1 [(0%nat, 1)] Idle [1] None 1.

Lemma admitted_reachable : tcp_reachable (mkTcpConfig 1 1) 7 admitted_state.
Proof.
  set (config := mkTcpConfig 1 1).
  pose (reserving phase := mkTcp true 1 [] Idle [1] (Some (mkReservation phase 0 1)) 1).
  assert (R3 : tcp_reachable config 3 (mkTcp true 1 [] Idle [1] None 0)).
  { refine (tcp_reach_step config 2 _ _ (tcp_reach_step config 1 _ _
      (tcp_reach_step config 0 _ _ (tcp_reach_start config)
        (start_exchange config tcp_initial eq_refl eq_refl))
      (start_generation config (mkTcp true 0 [] Starting [] None 0) eq_refl)) _).
    exact (start_spawn config (mkTcp true 1 [] Configuring [] None 0) eq_refl eq_refl). }
  assert (R4 : tcp_reachable config 4 (reserving Locked)).
  { refine (tcp_reach_step config 3 _ _ R3 
      (accept_lock config (mkTcp true 1 [] Idle [1] None 0) 1 _ eq_refl)). constructor. }
  assert (R5 : tcp_reachable config 5 (reserving SawRunning)).
  { exact (tcp_reach_step config 4 _ _ R4 (reserve_running config (reserving Locked) 0 1 eq_refl)). }
  assert (R6 : tcp_reachable config 6 (reserving Granted)).
  { exact (tcp_reach_step config 5 _ _ R5 (reserve_check config (reserving SawRunning) 0 1 eq_refl)). }
  exact (tcp_reach_step config 6 _ _ R6 (reserve_insert config (reserving Granted) 0 1 eq_refl)).
Qed.

Lemma tcp_admission_witness :
  (length (tcp_sockets admitted_state) <= 1)%nat /\
  NoDup (map fst (tcp_sockets admitted_state)).
Proof.
  destruct (tcp_admission (mkTcpConfig 1 1) 7 admitted_state ltac:(lia) admitted_reachable)
    as (Hl & Hd & _).
  split; [exact Hl|exact Hd].
Defined.
