(* ===== verification/ModbusRtu.v ===== *)
(** * Modbus RTU server

    Models [src/common/mnc/modbus/rtu_server.cpp] and [rtu_server.hpp]: the
    incremental frame assembler, the processing of one frame through the shared
    request handler, and the serial port's output queue with its single writer
    coroutine as a transition system at the granularity of the mutexes and
    atomics.  Boost's CRC is a parameter. *)

From S2P Require Import Prelude ModbusHandler.

Definition maximum_rtu_frame_size : nat := 256.
Definition maximum_queued_rtu_responses : nat := 64.
Definition maximum_queued_rtu_bytes : Z :=
  Z.of_nat maximum_queued_rtu_responses * Z.of_nat maximum_rtu_frame_size.

Inductive SerialParity := parity_none | parity_even | parity_odd.

Record RtuPortConfig := mkPortConfig {
  rtu_device : string;
  rtu_baud_rate : Z;
  rtu_data_bits : Z;
  rtu_parity : SerialParity;
  rtu_stop_bits : Z;
  rtu_unit_id : Z }.

(** The silent interval of 3.5 characters, in microseconds. *)
Definition character_gap (config : RtuPortConfig) : Z :=
  if 19200 <? rtu_baud_rate config then 1750
  else
    let parity_bits := match rtu_parity config with parity_none => 0 | _ => 1 end in
    let bits_per_character := 1 + rtu_data_bits config + parity_bits + rtu_stop_bits config in
    let numerator := 3500000 * bits_per_character in
    (numerator + rtu_baud_rate config - 1) / rtu_baud_rate config.

(** ** RtuFrameAssembler *)

Definition frame_size (bytes : list Z) : option nat :=
  match bytes with
  | _ :: function :: _ =>
      match function_of function with
      | Some read_holding_registers | Some read_input_registers
      | Some write_single_register => Some 8%nat
      | Some write_multiple_registers =>
          match bytes !! 6%nat with
          | Some count => Some (9 + Z.to_nat count)%nat
          | None => None
          end
      | None => None
      end
  | _ => None
  end.

Definition rtu_overflow : exn := LengthError "RTU frame exceeded its bound".

(** The extraction loop; every turn but the last removes a frame of at least
    eight bytes, so [length buffer] turns are enough ([push_fuel]). *)
Fixpoint push_loop (fuel : nat) (buffer : list Z) (frames : list (list Z))
    : list Z * result (list (list Z)) :=
  match frame_size buffer with
  | None =>
      if (maximum_rtu_frame_size <? length buffer)%nat then ([], Throw rtu_overflow)
      else (buffer, Ok frames)
  | Some size =>
      if (maximum_rtu_frame_size <? size)%nat then ([], Throw rtu_overflow)
      else if (length buffer <? size)%nat then (buffer, Ok frames)
      else
        match fuel with
        | O => (buffer, Throw (LogicError "out of fuel"))
        | S fuel => push_loop fuel (drop size buffer) (frames ++ [take size buffer])
        end
  end.

(** The buffer after the call, and the frames or the exception. *)
Definition push (buffer bytes : list Z) : list Z * result (list (list Z)) :=
  push_loop (length (buffer ++ bytes)) (buffer ++ bytes) [].

Definition finish_on_silence (buffer : list Z) : list Z * option (list Z) :=
  match buffer with
  | [] => ([], None)
  | _ => ([], Some buffer)
  end.

(** ** Frames on the wire *)
Section Frames.
Variable crc16 : list Z -> Z.

Definition valid_crc (frame : list Z) : bool :=
  let n := length frame in
  if (n <? 4)%nat then false
  else
    let expected := crc16 (take (n - 2) frame) in
    match frame !! (n - 2)%nat, frame !! (n - 1)%nat with
    | Some low, Some high =>
        (low =? Z.land expected 0xff) && (high =? Z.shiftr expected 8)
    | _, _ => false
    end.

(** [output] of [process_frame]: unit, PDU and checksum, low byte first. *)
Definition response_frame (r : Response) : list Z :=
  let output := resp_unit_id r :: resp_pdu r in
  let checksum := crc16 output in
  output ++ [Z.land checksum 0xff; u8 (Z.shiftr checksum 8)].

Section Process.
Context {S : Type} `{RegisterBankTyped S}.

(** [process_frame] up to [enqueue_write]: [None] is a frame without an answer. *)
Definition process_frame (unit_id : Z) (frame : list Z) (s : S) : S * result (option (list Z)) :=
  if negb (valid_crc frame) then (s, Ok None)
  else
    match frame with
    | [] => (s, Ok None)
    | unit :: rest =>
        match handle (mkRequest unit (take (length frame - 3) rest) true) unit_id s with
        | (s', Throw e) => (s', Throw e)
        | (s', Ok None) => (s', Ok None)
        | (s', Ok (Some r)) => (s', Ok (Some (response_frame r)))
        end
    end.
End Process.
End Frames.

(** ** Reassembly *)

Lemma frame_size_bounds buffer size : frame_size buffer = Some size -> (8 <= size)%nat.
Proof.
  unfold frame_size. destruct buffer as [|u [|f rest]]; try done.
  destruct (function_of f) as [[]|]; try (intros [= <-]; lia).
  destruct (_ !! _); [|done]. intros [= <-]. lia.
Qed.

(** The decision depends on a prefix of the buffer only. *)
Lemma frame_size_app buffer more size :
  frame_size buffer = Some size -> frame_size (buffer ++ more) = Some size.
Proof.
  unfold frame_size. destruct buffer as [|u [|f rest]]; try done. cbn [app].
  destruct (function_of f) as [[]|]; try done.
  destruct ((u :: f :: rest) !! 6%nat) eqn:E; [|discriminate]. intros [= <-].
  change (u :: f :: rest ++ more) with ((u :: f :: rest) ++ more).
  by rewrite (lookup_app_l_Some _ _ _ _ E).
Qed.

(** A buffer without a frame that is already too long stays so. *)
Lemma frame_size_none_app buffer more :
  frame_size buffer = None -> (maximum_rtu_frame_size < length buffer)%nat ->
  frame_size (buffer ++ more) = None.
Proof.
  unfold frame_size, maximum_rtu_frame_size. destruct buffer as [|u [|f rest]]; try (simpl; lia).
  cbn [app]. destruct (function_of f) as [[]|]; try done.
  intros H Hl. destruct (lookup_lt_is_Some_2 (u :: f :: rest) 6%nat ltac:(lia)) as [x E].
  by rewrite E in H.
Qed.

Lemma push_loop_fuel fuel fuel' buffer frames :
  (length buffer <= fuel)%nat -> (length buffer <= fuel')%nat ->
  push_loop fuel buffer frames = push_loop fuel' buffer frames.
Proof.
  revert fuel' buffer frames. induction fuel as [|fuel IH]; intros fuel' buffer frames Hf Hf'.
  - destruct buffer; [|simpl in Hf; lia]. by destruct fuel'.
  - destruct fuel' as [|fuel'].
    { destruct buffer; [done|simpl in Hf'; lia]. }
    cbn [push_loop]. destruct (frame_size buffer) as [size|] eqn:E; [|done].
    destruct (_ <? _)%nat; [done|]. destruct (Nat.ltb_spec (length buffer) size); [done|].
    apply frame_size_bounds in E. apply IH; rewrite length_drop; lia.
Qed.

(** Frames already found are only accumulated. *)
Lemma push_loop_acc fuel buffer frames :
  push_loop fuel buffer frames =
    let '(rest, outcome) := push_loop fuel buffer [] in
    (rest, match outcome with Ok more => Ok (frames ++ more) | Throw e => Throw e end).
Proof.
  revert buffer frames. induction fuel as [|fuel IH]; intros buffer frames; cbn [push_loop];
    (destruct (frame_size buffer) as [size|];
     [|destruct (_ <? _)%nat; [done|by rewrite app_nil_r]]);
    (destruct (_ <? size)%nat; [done|]);
    (destruct (_ <? size)%nat; [by rewrite app_nil_r|]); [done|].
  rewrite IH, (IH _ ([] ++ _)).
  destruct (push_loop fuel (drop size buffer) []) as [rest [more|e]]; [|done].
  by rewrite <- app_assoc.
Qed.

Lemma push_loop_shrinks n x acc rest frames :
  push_loop n x acc = (rest, Ok frames) -> (length rest <= length x)%nat.
Proof.
  revert x acc. induction n as [|n IH]; intros x acc; cbn [push_loop]; repeat case_match;
    intros E; simplify_eq; try (simpl; lia).
  specialize (IH _ _ E). rewrite length_drop in IH. lia.
Qed.

(** Reading [x] and then [b] finds the same frames as reading both at once. *)
Lemma push_loop_app n N x b :
  (length x <= n)%nat -> (length (x ++ b) <= N)%nat ->
  push_loop N (x ++ b) [] =
    match push_loop n x [] with
    | (rest, Ok frames) => push_loop N (rest ++ b) frames
    | (_, Throw e) => ([], Throw e)
    end.
Proof.
  revert N x. induction n as [n IH] using lt_wf_ind. intros N x Hn HN.
  destruct n as [|n].
  { destruct x; [|simpl in Hn; lia]. by cbn. }
  cbn [push_loop]. destruct (frame_size x) as [size|] eqn:E.
  2:{ destruct (Nat.ltb_spec maximum_rtu_frame_size (length x)) as [Hl|]; [|done].
      pose proof (frame_size_none_app x b E Hl) as E'.
      assert (((maximum_rtu_frame_size <? length (x ++ b)) = true)%nat) as Hlt
        by (apply Nat.ltb_lt; rewrite length_app; lia).
      destruct N; cbn [push_loop]; rewrite E', Hlt; done. }
  pose proof (frame_size_app x b size E) as E'. pose proof (frame_size_bounds x size E) as H8.
  destruct (maximum_rtu_frame_size <? size)%nat eqn:Hm.
  { destruct N; cbn [push_loop]; by rewrite E', Hm. }
  destruct (Nat.ltb_spec (length x) size) as [|Hl]; [done|].
  destruct N as [|N]; [rewrite length_app in HN; lia|].
  assert (((length (x ++ b) <? size) = false)%nat) as Hlt
    by (apply Nat.ltb_ge; rewrite length_app; lia).
  assert (push_loop (S N) (x ++ b) [] = push_loop N (drop size x ++ b) [take size x]) as ->.
  { cbn [push_loop]. rewrite E', Hm, Hlt.
    rewrite drop_app_le, take_app_le by lia. done. }
  rewrite (push_loop_acc N), (push_loop_acc n (drop size x)).
  rewrite length_app in HN.
  rewrite (IH n ltac:(lia)) by (rewrite ?length_app, length_drop; lia).
  destruct (push_loop n (drop size x) []) as [rest [frames|e]] eqn:Ep; [|done].
  assert (length (rest ++ b) <= N)%nat as Hr.
  { apply push_loop_shrinks in Ep. rewrite length_app. rewrite length_drop in Ep. lia. }
  rewrite (push_loop_acc N (rest ++ b) frames).
  rewrite (push_loop_fuel N (S N)) by (simpl; lia).
  rewrite (push_loop_acc (S N) (rest ++ b) (_ ++ frames)).
  by destruct (push_loop (S N) (rest ++ b) []) as [? [?|?]].
Qed.

(** What is left in the buffer never exceeds a frame. *)
Lemma push_bounded buffer bytes :
  (length (push buffer bytes).1 <= maximum_rtu_frame_size)%nat.
Proof.
  unfold push. generalize (buffer ++ bytes) as x, (@nil (list Z)) as acc. intros x.
  assert (length x <= length x)%nat as Hf by lia. revert Hf.
  generalize (length x) at 2 3 as fuel. intros fuel. revert x.
  induction fuel as [|fuel IH]; intros x Hf acc; cbn [push_loop].
  - destruct x; [simpl; lia|simpl in Hf; lia].
  - destruct (frame_size x) as [size|] eqn:E.
    2:{ destruct (Nat.ltb_spec maximum_rtu_frame_size (length x)); simpl; lia. }
    destruct (Nat.ltb_spec maximum_rtu_frame_size size); [simpl; lia|].
    destruct (Nat.ltb_spec (length x) size); [simpl; lia|].
    apply IH. apply frame_size_bounds in E. rewrite length_drop. lia.
Qed.

Lemma push_app buffer a b :
  push buffer (a ++ b) =
    match push buffer a with
    | (rest, Ok frames) =>
        match push rest b with
        | (rest', Ok more) => (rest', Ok (frames ++ more))
        | (rest', Throw e) => (rest', Throw e)
        end
    | (_, Throw e) => ([], Throw e)
    end.
Proof.
  unfold push. rewrite app_assoc.
  rewrite (push_loop_app (length (buffer ++ a))) by lia.
  destruct (push_loop _ (buffer ++ a) []) as [rest [frames|e]] eqn:E; [|done].
  apply push_loop_shrinks in E.
  rewrite push_loop_acc.
  rewrite (push_loop_fuel _ (length (rest ++ b))) by (rewrite !length_app in *; lia).
  by destruct (push_loop _ (rest ++ b) []) as [? [?|?]].
Qed.

(** Consecutive reads, until one of them throws. *)
Fixpoint push_all (buffer : list Z) (chunks : list (list Z)) : list Z * result (list (list Z)) :=
  match chunks with
  | [] => (buffer, Ok [])
  | chunk :: chunks =>
      match push buffer chunk with
      | (rest, Ok frames) =>
          match push_all rest chunks with
          | (rest', Ok more) => (rest', Ok (frames ++ more))
          | (rest', Throw e) => (rest', Throw e)
          end
      | (rest, Throw e) => (rest, Throw e)
      end
  end.

(** The buffer holds no complete frame. *)
Definition settled (buffer : list Z) : Prop := push buffer [] = (buffer, Ok []).

Lemma push_settled buffer bytes rest frames :
  push buffer bytes = (rest, Ok frames) -> settled rest.
Proof.
  intros E. pose proof (push_app buffer bytes []) as Ha. rewrite app_nil_r, E in Ha.
  unfold settled. destruct (push rest []) as [rest' [more|e]]; [|done].
  injection Ha as <- Hm. apply (f_equal length) in Hm. rewrite length_app in Hm.
  destruct more; [done|simpl in Hm; lia].
Qed.

(** However the serial line fragments its input, the frames are those of the
    whole input. *)
Lemma push_all_concat buffer chunks :
  settled buffer -> (push_all buffer chunks).2 = (push buffer (concat chunks)).2 /\
  (is_ok (push buffer (concat chunks)).2 = true ->
   push_all buffer chunks = push buffer (concat chunks)).
Proof.
  revert buffer. induction chunks as [|c chunks IH]; intros buffer Hs; cbn [push_all concat].
  { by rewrite Hs. }
  rewrite push_app. destruct (push buffer c) as [rest [frames|e]] eqn:E; [|done].
  destruct (IH rest) as [IH1 IH2]; [by eapply push_settled|].
  destruct (push rest (concat chunks)) as [rest' [more|e]];
    destruct (push_all rest chunks) as [rest'' [more'|e']]; simpl in *; simplify_eq; try done.
  split; [done|]. intros _. by specialize (IH2 eq_refl); simplify_eq.
Qed.

Definition complete_frame (f : list Z) : Prop :=
  frame_size f = Some (length f) /\ (length f <= maximum_rtu_frame_size)%nat.

Lemma push_frames frames :
  Forall complete_frame frames -> push [] (concat frames) = ([], Ok frames).
Proof.
  induction 1 as [|f frames [Hsz Hmax] _ IH]; [done|]. cbn [concat]. rewrite push_app.
  assert (push [] f = ([], Ok [f])) as ->; [|by rewrite IH].
  unfold push. rewrite app_nil_l. destruct f as [|x f]; [done|].
  cbn [length push_loop]. rewrite Hsz.
  destruct (Nat.ltb_spec maximum_rtu_frame_size (length (x :: f))); [lia|].
  rewrite Nat.ltb_irrefl, drop_all, firstn_all. by destruct (length f).
Qed.

(** A request on the wire: unit, PDU and two checksum bytes. *)
Record RtuRequest := mkRtuRequest { rr_unit : Z; rr_command : Command; rr_crc : Z * Z }.

Definition request_frame (r : RtuRequest) : list Z :=
  rr_unit r :: encode_command (rr_command r) ++ [(rr_crc r).1; (rr_crc r).2].

Lemma request_complete r : valid_command (rr_command r) -> complete_frame (request_frame r).
Proof.
  destruct r as [unit [f a n|a v|a vs] [c0 c1]]; unfold complete_frame, request_frame,
    maximum_rtu_frame_size; cbn [rr_unit rr_command rr_crc valid_command encode_command].
  - intros (Hf & _). destruct f; try discriminate; cbn; split; (done || lia).
  - intros _. cbn. split; [done|lia].
  - intros (_ & _ & Hn). cbn [length app be16 frame_size].
    rewrite !length_app, flat_map_be16_length. cbn [length]. split; [|lia].
    change (function_of 16) with (Some write_multiple_registers). cbn [lookup list_lookup].
    f_equal. lia.
Qed.

(** (C30) The RTU frame assembler is independent of fragmentation.  However a
    stream of valid requests is split into serial reads, pushing the reads one
    by one returns exactly the request frames in order and leaves the buffer
    empty; and whatever bytes arrive, the buffer never keeps more than one
    maximal frame of 256 bytes. *)
Theorem rtu_stream_reassembled requests chunks buffer bytes :
  Forall (fun r => valid_command (rr_command r)) requests ->
  concat chunks = flat_map request_frame requests ->
  push_all [] chunks = ([], Ok (map request_frame requests)) /\
  (length (push buffer bytes).1 <= maximum_rtu_frame_size)%nat.
Proof.
  intros Hr Hc. split; [|apply push_bounded].
  assert (push [] (concat chunks) = ([], Ok (map request_frame requests))) as E.
  { rewrite Hc, flat_map_concat_map. apply push_frames, Forall_map.
    eapply Forall_impl; [|exact Hr]. intros r. apply request_complete. }
  destruct (push_all_concat [] chunks) as [_ H]; [done|]. rewrite H; by rewrite E.
Qed.

(** Two requests in three reads that cut both frames. *)
Lemma rtu_stream_reassembled_witness :
  push_all [] [[17; 3; 0]; [0; 0; 2; 1; 2; 17; 6]; [0; 1; 1; 0; 3; 4]] =
    ([], Ok [[17; 3; 0; 0; 0; 2; 1; 2]; [17; 6; 0; 1; 1; 0; 3; 4]]).
Proof.
  destruct (rtu_stream_reassembled
    [mkRtuRequest 17 (ReadRegisters read_holding_registers 0 2) (1, 2);
     mkRtuRequest 17 (WriteSingle 1 256) (3, 4)]
    [[17; 3; 0]; [0; 0; 2; 1; 2; 17; 6]; [0; 1; 1; 0; 3; 4]] [] []) as [H _].
  - repeat constructor; cbn; lia.
  - reflexivity.
  - exact H.
Defined.

(** A frame that overflows takes down the complete frames read with it: the same
    two frames read apart yield the first. *)
Lemma push_overflow_drops_frames :
  push [] ([17; 6; 0; 1; 1; 0; 3; 4] ++ [17; 16; 0; 1; 0; 2; 255]) = ([], Throw rtu_overflow) /\
  push [] [17; 6; 0; 1; 1; 0; 3; 4] = ([], Ok [[17; 6; 0; 1; 1; 0; 3; 4]]).
Proof. done. Qed.

(** ** Request and response frames *)
Section Exchange.
Variable crc16 : list Z -> Z.
Hypothesis crc16_u16 : forall bytes, 0 <= crc16 bytes < 65536.
Context {S : Type} `{RegisterBankTyped S}.

Lemma crc_high bytes : u8 (Z.shiftr (crc16 bytes) 8) = Z.shiftr (crc16 bytes) 8.
Proof.
  apply wrap_id. rewrite Z.shiftr_div_pow2 by lia. pose proof (crc16_u16 bytes).
  split; [apply Z.div_pos; lia|apply Z.div_lt_upper_bound; lia].
Qed.

(** [body ++ checksum] passes the check whose own checksum it carries. *)
Lemma valid_crc_framed body low high :
  (2 <= length body)%nat ->
  valid_crc crc16 (body ++ [low; high]) =
    (low =? Z.land (crc16 body) 0xff) && (high =? Z.shiftr (crc16 body) 8).
Proof.
  intros Hl. unfold valid_crc. rewrite length_app. cbn [length].
  replace (length body + 2 <? 4)%nat with false by (symmetry; apply Nat.ltb_ge; lia).
  replace (length body + 2 - 2)%nat with (length body + 0)%nat by lia.
  replace (length body + 2 - 1)%nat with (length body + 1)%nat by lia.
  rewrite take_app_add. rewrite !lookup_app_r by lia.
  replace (length body + 0 - length body)%nat with 0%nat by lia.
  replace (length body + 1 - length body)%nat with 1%nat by lia. cbn [take].
  by rewrite app_nil_r.
Qed.

Lemma response_frame_ok r :
  (2 <= length (resp_pdu r) <= 253)%nat ->
  valid_crc crc16 (response_frame crc16 r) = true /\
  (length (response_frame crc16 r) <= maximum_rtu_frame_size)%nat.
Proof.
  intros Hl. unfold response_frame. cbv zeta. split.
  - rewrite valid_crc_framed by (simpl; lia). rewrite crc_high. by rewrite !Z.eqb_refl.
  - rewrite length_app. unfold maximum_rtu_frame_size. simpl. lia.
Qed.

(** The PDU of a frame that passes the check. *)
Lemma process_framed unit_id unit pdu low high (s : S) :
  (1 <= length pdu)%nat ->
  process_frame crc16 unit_id (unit :: pdu ++ [low; high]) s =
    if valid_crc crc16 (unit :: pdu ++ [low; high]) then
      match handle (mkRequest unit pdu true) unit_id s with
      | (s', Throw e) => (s', Throw e)
      | (s', Ok None) => (s', Ok None)
      | (s', Ok (Some r)) => (s', Ok (Some (response_frame crc16 r)))
      end
    else (s, Ok None).
Proof.
  intros Hl. unfold process_frame. destruct (valid_crc _ _); [|done]. cbn [negb].
  replace (length (unit :: pdu ++ [low; high]) - 3)%nat with (length pdu)
    by (cbn [length]; rewrite length_app; cbn [length]; lia).
  by rewrite take_app_length.
Qed.

(** One RTU exchange.  A request frame with the right checksum for this
    unit, or broadcast, has exactly the effect of its command on the register
    bank; its answer, if the unit is addressed, is the command's reply framed
    with the unit and a valid checksum, in at most 256 bytes, and a broadcast is
    never answered; for another unit nothing happens.  A frame whose checksum
    does not match changes nothing and is not answered. *)
Theorem rtu_exchange unit_id unit c low high (s : S) :
  1 <= unit_id <= 247 -> is_byte unit -> valid_command c ->
  let body := unit :: encode_command c in
  let outcome := process_frame crc16 unit_id (body ++ [low; high]) s in
  let request := mkRequest unit (encode_command c) true in
  (low = Z.land (crc16 body) 0xff -> high = Z.shiftr (crc16 body) 8 ->
     outcome =
       if (unit =? 0) || (unit =? unit_id) then
         let '(s', reply) := deliver s request c in
         (s', match reply with
              | Ok r => Ok (option_map (response_frame crc16) r)
              | Throw e => Throw e
              end)
       else (s, Ok None)) /\
  (low <> Z.land (crc16 body) 0xff \/ high <> Z.shiftr (crc16 body) 8 ->
     outcome = (s, Ok None)) /\
  (forall s' out, outcome = (s', Ok (Some out)) ->
     unit <> 0 /\ valid_crc crc16 out = true /\ (length out <= maximum_rtu_frame_size)%nat).
Proof.
  intros Hu Hb Hc body outcome request.
  assert (Hl : (1 <= length (encode_command c))%nat) by (destruct c; simpl; lia).
  assert (Ho : outcome = if (low =? Z.land (crc16 body) 0xff) && (high =? Z.shiftr (crc16 body) 8)
    then match handle request unit_id s with
      | (s', Throw e) => (s', Throw e)
      | (s', Ok None) => (s', Ok None)
      | (s', Ok (Some r)) => (s', Ok (Some (response_frame crc16 r)))
      end else (s, Ok None)).
  { unfold outcome, body. cbn [app]. rewrite process_framed by done.
    change (unit :: encode_command c ++ [low; high])
      with ((unit :: encode_command c) ++ [low; high]).
    rewrite valid_crc_framed by (simpl; lia). done. }
  assert (Hh : handle request unit_id s =
    if (unit =? 0) || (unit =? unit_id) then deliver s request c else (s, Ok None)).
  { destruct (_ || _) eqn:Ea.
    - by apply handle_deliver.
    - unfold handle. cbn [request req_pdu req_unit_id req_broadcast_allowed andb].
      replace ((unit_id =? 0) || (247 <? unit_id)) with false by lia.
      apply orb_false_iff in Ea as [E0 E1].
      destruct c; cbn [encode_command]; by rewrite E0, E1. }
  split_and!.
  - intros -> ->. rewrite Ho, !Z.eqb_refl. cbn [andb]. rewrite Hh.
    destruct (_ || _); [|done]. by destruct (deliver s request c) as [s' [[r|]|e]].
  - intros Hne. rewrite Ho. destruct (_ && _) eqn:E; [|done]. bools. naive_solver.
  - intros s' out E. rewrite Ho in E. destruct (_ && _); [|done].
    pose proof (handle_fits request unit_id s) as Hf. rewrite Hh in *.
    destruct (Z.eqb_spec unit 0) as [->|]; cbn [orb] in *.
    + unfold deliver in E. cbn [is_broadcast request req_unit_id req_broadcast_allowed andb Z.eqb] in E.
      destruct c; [done|..]; destruct (execute s _) as [t [x|e]]; done.
    + destruct (unit =? unit_id); [|done].
      destruct (deliver s request c) as [t [[r|]|e]]; try done.
      injection E as <- <-. destruct Hf as [Hf _]. cbn [request req_unit_id] in *.
      destruct (response_frame_ok r Hf). done.
Qed.
End Exchange.

(** The CRC-16 that [boost::crc_optimal<16, 0x8005, 0xffff, 0, true, true>]
    denotes, bit by bit. *)
Definition crc_bit (crc : Z) : Z :=
  if Z.odd crc then Z.lxor (Z.shiftr crc 1) 0xa001 else Z.shiftr crc 1.

Definition modbus_crc (bytes : list Z) : Z :=
  u16 (foldl (fun crc b => Nat.iter 8 crc_bit (Z.lxor crc b)) 0xffff bytes).

Lemma rtu_exchange_witness :
  process_frame modbus_crc 17 ([17; 6; 0; 1; 1; 0; 219; 10] : list Z) [0; 0] =
    ([0; 256], Ok (Some [17; 6; 0; 1; 1; 0; 219; 10])).
Proof.
  destruct (rtu_exchange modbus_crc (fun bytes => wrap_range 16 _ ltac:(lia)) 17 17
    (WriteSingle 1 256) 219 10 [0; 0] ltac:(lia) ltac:(unfold is_byte; lia)
    ltac:(cbn; unfold is_u16; lia)) as [H _].
  exact (H eq_refl eq_refl).
Defined.
