(* ===== verification/ModbusPort.v ===== *)
(** * RTU port output

    Models the output side of [ModbusRtuServer::Impl::Port]
    ([src/common/mnc/modbus/rtu_server.cpp]): [enqueue_write], the writer
    coroutine [drain_writes], [close] and the [running] flag of the server, as a
    transition system whose steps are the critical sections of [output_mutex],
    the accesses to the atomics and the completions of [async_write].  A port is
    opened once and never reopened. *)

From S2P Require Import Prelude ModbusRtu.

(** Where a coroutine that runs [drain_writes] is. *)
Inductive Writer :=
  | Looping                      (** at the loop test *)
  | Tested                       (** the test was true, the lock not yet taken *)
  | Writing (output : list Z)    (** [async_write] outstanding *)
  | Failing.                     (** in the handler, [close] not yet called *)

Record Port := mkPort {
  po_running : bool;
  po_active : bool;
  po_serial_open : bool;
  po_queue : list (list Z);
  po_queued_bytes : Z;
  po_writing : bool;
  po_writers : list Writer;
  po_closing : nat;              (** callers of [close] before its second lock *)
  po_accepted : list (list Z);   (** responses accepted so far *)
  po_sent : list (list Z) }.     (** completed writes, in order *)

Definition opened_port : Port := mkPort true true true [] 0 false [] 0 [] [].

Definition output_size (output : list Z) : Z := Z.of_nat (length output).
Definition queue_size (queue : list (list Z)) : Z := foldr (fun o acc => output_size o + acc) 0 queue.

Definition set_writers (writers : list Writer) (p : Port) : Port :=
  mkPort (po_running p) (po_active p) (po_serial_open p) (po_queue p) (po_queued_bytes p)
    (po_writing p) writers (po_closing p) (po_accepted p) (po_sent p).

Definition queue_full (p : Port) (output : list Z) : bool :=
  (maximum_queued_rtu_responses <=? length (po_queue p))%nat ||
  (maximum_queued_rtu_bytes <? po_queued_bytes p + output_size output).

(** The critical section of [enqueue_write], and the writer it spawns. *)
Definition enqueue_write (output : list Z) (p : Port) : Port :=
  if negb (po_active p) then p
  else if queue_full p output then p
  else
    mkPort (po_running p) (po_active p) (po_serial_open p) (po_queue p ++ [output])
      (po_queued_bytes p + output_size output) true
      (if po_writing p then po_writers p else Looping :: po_writers p)
      (po_closing p) (po_accepted p ++ [output]) (po_sent p).

(** First critical section of a loop turn: an empty queue ends the writer. *)
Definition take_front (before after : list Writer) (p : Port) : Port :=
  match po_queue p with
  | [] =>
      mkPort (po_running p) (po_active p) (po_serial_open p) [] (po_queued_bytes p) false
        (before ++ after) (po_closing p) (po_accepted p) (po_sent p)
  | output :: _ => set_writers (before ++ Writing output :: after) p
  end.

(** Second critical section, after the write of [output] has completed. *)
Definition pop_front (before after : list Writer) (output : list Z) (p : Port) : Port :=
  mkPort (po_running p) (po_active p) (po_serial_open p) (tail (po_queue p))
    (match po_queue p with
     | [] => po_queued_bytes p
     | front :: _ => u64 (po_queued_bytes p - output_size front)
     end)
    (po_writing p) (before ++ Looping :: after) (po_closing p) (po_accepted p)
    (po_sent p ++ [output]).

(** The critical section of the exception handler. *)
Definition fail_writer (before after : list Writer) (p : Port) : Port :=
  mkPort (po_running p) (po_active p) (po_serial_open p) [] (po_queued_bytes p) false
    (before ++ Failing :: after) (po_closing p) (po_accepted p) (po_sent p).

(** [close] up to the clearing of the output queue. *)
Definition close_begin (writers : list Writer) (p : Port) : Port :=
  if negb (po_active p) && negb (po_serial_open p) then set_writers writers p
  else
    mkPort (po_running p) false false (po_queue p) (po_queued_bytes p) (po_writing p) writers
      (S (po_closing p)) (po_accepted p) (po_sent p).

Definition close_finish (p : Port) : Port :=
  mkPort (po_running p) (po_active p) (po_serial_open p) [] 0 false (po_writers p)
    (pred (po_closing p)) (po_accepted p) (po_sent p).

Inductive port_step : Port -> Port -> Prop :=
  | port_enqueue p output : port_step p (enqueue_write output p)
  | port_test p before after :
      po_writers p = before ++ Looping :: after ->
      po_running p && po_active p = true ->
      port_step p (set_writers (before ++ Tested :: after) p)
  | port_leave p before after :
      po_writers p = before ++ Looping :: after ->
      po_running p && po_active p = false ->
      port_step p (set_writers (before ++ after) p)
  | port_take p before after :
      po_writers p = before ++ Tested :: after ->
      port_step p (take_front before after p)
  | port_written p before output after :
      po_writers p = before ++ Writing output :: after ->
      port_step p (pop_front before after output p)
  | port_failed p before output after :
      po_writers p = before ++ Writing output :: after ->
      port_step p (fail_writer before after p)
  | port_fail_close p before after :
      po_writers p = before ++ Failing :: after ->
      port_step p (close_begin (before ++ after) p)
  | port_close p : port_step p (close_begin (po_writers p) p)
  | port_close_finish p :
      (0 < po_closing p)%nat -> port_step p (close_finish p)
  | port_stop p :
      port_step p (mkPort false (po_active p) (po_serial_open p) (po_queue p)
        (po_queued_bytes p) (po_writing p) (po_writers p) (po_closing p) (po_accepted p)
        (po_sent p)).

Inductive port_reachable : Port -> Prop :=
  | port_opened : port_reachable opened_port
  | port_next p p' : port_reachable p -> port_step p p' -> port_reachable p'.

(** Coroutines that may still touch the serial line. *)
Definition live (w : Writer) : bool := match w with Failing => false | _ => true end.
Definition lives (ws : list Writer) : list Writer := filter (fun w => live w = true) ws.

Definition write_of (w : Writer) : option (list Z) :=
  match w with Writing o => Some o | _ => None end.

(** The writes [async_write] has not completed. *)
Definition outstanding (ws : list Writer) : list (list Z) := omap write_of ws.

(** The queue's head is the outstanding write, unless [close] cleared the queue. *)
Definition head_ok (p : Port) (o : list Z) : Prop :=
  head (po_queue p) = Some o \/ (po_active p = false /\ po_queue p = []).

Record port_inv (p : Port) : Prop := {
  pi_live : (length (lives (po_writers p)) <= 1)%nat;
  pi_writing : po_active p = true -> lives (po_writers p) <> [] -> po_writing p = true;
  pi_closing : (0 < po_closing p)%nat -> po_active p = false;
  pi_open : po_serial_open p = po_active p;
  pi_length : (length (po_queue p) <= maximum_queued_rtu_responses)%nat;
  pi_bytes : queue_size (po_queue p) <= po_queued_bytes p <= maximum_queued_rtu_bytes;
  pi_exact : po_active p = true -> Failing ∉ po_writers p ->
             po_queued_bytes p = queue_size (po_queue p);
  pi_head : forall o, o ∈ outstanding (po_writers p) -> head_ok p o;
  pi_fifo : exists gone, po_accepted p = gone ++ po_queue p /\ po_sent p `sublist_of` gone;
  pi_wire : po_sent p ++ outstanding (po_writers p) `sublist_of` po_accepted p }.

Lemma queue_size_nonneg q : 0 <= queue_size q.
Proof. induction q as [|o q IH]; simpl; unfold output_size in *; lia. Qed.

Lemma queue_size_app q r : queue_size (q ++ r) = queue_size q + queue_size r.
Proof. induction q as [|o q IH]; simpl; lia. Qed.

Lemma outstanding_dead ws : lives ws = [] -> outstanding ws = [].
Proof.
  induction ws as [|w ws IH]; [done|]. unfold lives. rewrite filter_cons. simpl.
  destruct w; simpl; done.
Qed.

Lemma lives_app a b : lives (a ++ b) = lives a ++ lives b.
Proof. apply list.filter_app. Qed.

Lemma outstanding_app a b : outstanding (a ++ b) = outstanding a ++ outstanding b.
Proof. apply omap_app. Qed.

(** Only one live coroutine: those around it are dead. *)
Lemma single_live before w after :
  live w = true -> (length (lives (before ++ w :: after)) <= 1)%nat ->
  lives before = [] /\ lives after = [] /\ outstanding before = [] /\ outstanding after = [].
Proof.
  intros Hw. rewrite lives_app. unfold lives at 2. rewrite filter_cons_True by done.
  fold (lives after). rewrite length_app. simpl. intros Hl.
  assert (lives before = []) by (destruct (lives before); [done|simpl in Hl; lia]).
  assert (lives after = []) by (destruct (lives after); [done|simpl in Hl; lia]).
  by split_and!; try apply outstanding_dead.
Qed.

Lemma lives_around before w after :
  lives before = [] -> lives after = [] ->
  lives (before ++ w :: after) = if live w then [w] else [].
Proof.
  intros Hb Ha. rewrite lives_app, Hb. unfold lives. rewrite filter_cons.
  fold (lives after). rewrite Ha. by destruct w.
Qed.

Lemma outstanding_around before w after :
  outstanding before = [] -> outstanding after = [] ->
  outstanding (before ++ w :: after) = match w with Writing o => [o] | _ => [] end.
Proof. intros Hb Ha. rewrite outstanding_app, Hb. simpl. destruct w; simpl; by rewrite Ha. Qed.

Lemma failing_around before w after v :
  Failing ∉ before ++ v :: after -> v <> Failing -> w <> Failing ->
  Failing ∉ before ++ w :: after.
Proof. rewrite !elem_of_app, !elem_of_cons. naive_solver. Qed.

Lemma failing_drop before v after :
  Failing ∉ before ++ after -> v <> Failing -> Failing ∉ before ++ v :: after.
Proof. rewrite !elem_of_app, !elem_of_cons. naive_solver. Qed.

Lemma port_enqueue_inv output p : port_inv p -> port_inv (enqueue_write output p).
Proof.
  intros Hp. unfold enqueue_write. destruct (po_active p) eqn:Ha; [|done]. cbn [negb].
  unfold queue_full. destruct (_ || _) eqn:Ef; [done|].
  apply orb_false_iff in Ef as [Elen Ebytes]. apply Nat.leb_gt in Elen. bools.
  destruct Hp as [Hl Hw Hc Ho Hn Hb He Hh [gone [Hacc Hs]] Hwire].
  assert (0 <= output_size output) by (unfold output_size; lia).
  assert (Hqs : queue_size (po_queue p ++ [output]) = queue_size (po_queue p) + output_size output)
    by (rewrite queue_size_app; simpl; lia).
  assert (Hdead : po_writing p = false -> lives (po_writers p) = []).
  { intros E. destruct (lives (po_writers p)); [done|]. rewrite Hw in E; done. }
  constructor; simpl.
  - destruct (po_writing p); [done|]. unfold lives. rewrite filter_cons_True by done.
    fold (lives (po_writers p)). rewrite Hdead by done. simpl. lia.
  - done.
  - intros Hcl. rewrite Hc in Ha by done. done.
  - rewrite Ho. done.
  - rewrite length_app. simpl. lia.
  - rewrite Hqs. lia.
  - intros _ Hf. rewrite Hqs, He; [done|done|]. destruct (po_writing p); [done|].
    rewrite elem_of_cons in Hf. naive_solver.
  - intros o Hin. assert (o ∈ outstanding (po_writers p)) as Hin'
      by (destruct (po_writing p); [done|by simpl in Hin]).
    destruct (Hh o Hin') as [Hhd|[? _]]; [|congruence]. left. simpl.
    destruct (po_queue p); [done|]. done.
  - exists gone. rewrite Hacc, app_assoc. done.
  - apply sublist_inserts_r. destruct (po_writing p); [done|]. exact Hwire.
Qed.

(** Moving the only live coroutine along, without touching the queue. *)
Lemma move_inv p before v w after :
  port_inv p -> po_writers p = before ++ v :: after ->
  live v = true -> live w = true -> write_of v = None ->
  match write_of w with Some o => head (po_queue p) = Some o | None => True end ->
  port_inv (set_writers (before ++ w :: after) p).
Proof.
  intros [Hl Hwr Hc Ho Hn Hb He Hh [gone [Hacc Hs]] Hwire] Ew Hv Hw Hvo Hwo.
  rewrite Ew in *. destruct (single_live before v after Hv Hl) as (Lb & La & Ob & Oa).
  constructor; simpl; try done.
  - rewrite lives_around by done. rewrite Hw. done.
  - intros Ha _. apply Hwr; [done|]. rewrite lives_around by done. by rewrite Hv.
  - intros Ha Hf. apply He; [done|].
    apply (failing_around before v after w Hf); intros ->; discriminate.
  - intros o. rewrite outstanding_around by done.
    destruct w; simpl; intros Hin; try (by apply not_elem_of_nil in Hin).
    apply list_elem_of_singleton in Hin as ->. by left.
  - exists gone. done.
  - rewrite outstanding_around in Hwire |- * by done.
    destruct v; try done; destruct w; try done. simpl in Hwo.
    all: rewrite app_nil_r in Hwire; destruct (po_queue p) as [|q rest]; [done|];
      injection Hwo as ->; rewrite Hacc; apply sublist_app; [done|];
      constructor; apply sublist_nil_l.
Qed.

(** Dropping a coroutine that holds no write. *)
Lemma leave_inv p before v after :
  port_inv p -> po_writers p = before ++ v :: after -> v = Looping ->
  port_inv (set_writers (before ++ after) p).
Proof.
  intros [Hl Hwr Hc Ho Hn Hb He Hh Hfifo Hwire] Ew ->.
  rewrite Ew in *. destruct (single_live before Looping after eq_refl Hl) as (Lb & La & Ob & Oa).
  assert (lives (before ++ after) = []) as L0 by (by rewrite lives_app, Lb, La).
  assert (outstanding (before ++ after) = []) as O0 by (by rewrite outstanding_app, Ob, Oa).
  constructor; simpl; rewrite ?L0, ?O0; try done.
  - simpl; lia.
  - intros Ha Hf. apply He; [done|]. by apply failing_drop.
  - intros o Hin. by apply not_elem_of_nil in Hin.
  - rewrite outstanding_around in Hwire by done. done.
Qed.

(** The writer finds the queue empty and ends. *)
Lemma port_finish_inv p before after :
  port_inv p -> po_writers p = before ++ Tested :: after -> po_queue p = [] ->
  port_inv (take_front before after p).
Proof.
  intros [Hl Hwr Hc Ho Hn Hb He Hh Hfifo Hwire] Ew Eq. unfold take_front. rewrite Eq in *.
  rewrite Ew in *. destruct (single_live before Tested after eq_refl Hl) as (Lb & La & Ob & Oa).
  assert (lives (before ++ after) = []) as L0 by (by rewrite lives_app, Lb, La).
  assert (outstanding (before ++ after) = []) as O0 by (by rewrite outstanding_app, Ob, Oa).
  constructor; simpl; rewrite ?L0, ?O0; try done.
  - simpl; lia.
  - intros Ha Hf. apply He; [done|]. by apply failing_drop.
  - intros o Hin. by apply not_elem_of_nil in Hin.
  - rewrite outstanding_around in Hwire by done. done.
Qed.

Lemma written_inv p before o after :
  port_inv p -> po_writers p = before ++ Writing o :: after ->
  port_inv (pop_front before after o p).
Proof.
  intros [Hl Hwr Hc Ho Hn Hb He Hh [gone [Hacc Hs]] Hwire] Ew.
  rewrite Ew in *.
  destruct (single_live before (Writing o) after eq_refl Hl) as (Lb & La & Ob & Oa).
  rewrite outstanding_around in Hwire, Hh by done. cbn iota in Hwire, Hh.
  assert (Ho' : outstanding (before ++ Looping :: after) = [])
    by (by rewrite outstanding_around).
  specialize (Hh o (list_elem_of_here o [])).
  assert (Hsize : match po_queue p with
     | [] => po_queued_bytes p
     | front :: _ => u64 (po_queued_bytes p - output_size front)
     end = po_queued_bytes p - queue_size (po_queue p) + queue_size (tail (po_queue p))).
  { destruct (po_queue p) as [|front rest]; simpl in *; [lia|].
    pose proof (queue_size_nonneg rest). unfold output_size in *. rewrite wrap_id; [lia|].
    unfold maximum_queued_rtu_bytes, maximum_queued_rtu_responses, maximum_rtu_frame_size in Hb.
    lia. }
  constructor; simpl; rewrite ?Hsize, ?Ho'; try done.
  - by rewrite lives_around.
  - intros Ha _. apply Hwr; [done|]. by rewrite lives_around.
  - destruct (po_queue p); simpl in *; lia.
  - destruct (po_queue p) as [|front rest]; simpl in *; [lia|].
    pose proof (queue_size_nonneg rest). unfold output_size in *. lia.
  - intros Ha Hf. rewrite He; [lia|done|]. by apply (failing_around before _ after Looping Hf).
  - intros o' Hin. by apply not_elem_of_nil in Hin.
  - destruct Hh as [Hhd|[Ha Hq]].
    + destruct (po_queue p) as [|q rest]; [done|]. injection Hhd as ->.
      exists (gone ++ [o]). split; [by rewrite <- app_assoc|]. by apply sublist_app.
    + exists (po_accepted p). rewrite Hq. split; [by rewrite app_nil_r|done].
  - by rewrite app_nil_r.
Qed.

Lemma failed_inv p before o after :
  port_inv p -> po_writers p = before ++ Writing o :: after ->
  port_inv (fail_writer before after p).
Proof.
  intros [Hl Hwr Hc Ho Hn Hb He Hh [gone [Hacc Hs]] Hwire] Ew. rewrite Ew in *.
  destruct (single_live before (Writing o) after eq_refl Hl) as (Lb & La & Ob & Oa).
  rewrite outstanding_around in Hwire by done. pose proof (queue_size_nonneg (po_queue p)).
  constructor; simpl.
  - rewrite lives_around by done. simpl. lia.
  - by rewrite lives_around.
  - done.
  - done.
  - lia.
  - lia.
  - intros _ Hf. destruct Hf. apply elem_of_app. right. apply list_elem_of_here.
  - intros o'. rewrite outstanding_around by done. intros Hin. by apply not_elem_of_nil in Hin.
  - exists (po_accepted p). rewrite app_nil_r. split; [done|].
    etrans; [|exact Hwire]. by apply sublist_inserts_r.
  - rewrite outstanding_around by done. rewrite app_nil_r.
    etrans; [|exact Hwire]. by apply sublist_inserts_r.
Qed.

(** [close] may drop the coroutine that calls it; the writers it leaves behind
    are no more alive than before. *)
Lemma close_inv p writers :
  port_inv p -> lives writers = lives (po_writers p) ->
  outstanding writers = outstanding (po_writers p) ->
  (writers = po_writers p \/ Failing ∈ po_writers p) ->
  port_inv (close_begin writers p).
Proof.
  intros [Hl Hwr Hc Ho Hn Hb He Hh Hfifo Hwire] El Eo Ew. unfold close_begin.
  destruct (negb (po_active p) && negb (po_serial_open p)) eqn:E.
  - apply andb_true_iff in E as [Ea _]. apply negb_true_iff in Ea.
    constructor; simpl; rewrite ?El, ?Eo; try done. by rewrite Ea.
  - constructor; simpl; rewrite ?El, ?Eo; try done.
    intros o Hin. destruct (Hh o Hin) as [?|[? ?]]; [by left|by right].
Qed.

Lemma close_finish_inv p : port_inv p -> (0 < po_closing p)%nat -> port_inv (close_finish p).
Proof.
  intros [Hl Hwr Hc Ho Hn Hb He Hh [gone [Hacc Hs]] Hwire] Hcl.
  pose proof (Hc Hcl) as Ha. constructor; simpl; try done.
  - by rewrite Ha.
  - lia.
  - intros o _. by right.
  - exists (po_accepted p). rewrite app_nil_r. split; [done|].
    etrans; [|exact Hwire]. by apply sublist_inserts_r.
Qed.

Lemma port_step_inv p p' : port_inv p -> port_step p p' -> port_inv p'.
Proof.
  intros Hp Hstep. destruct Hstep as
    [p o|p b a Ew _|p b a Ew _|p b a Ew|p b o a Ew|p b o a Ew|p b a Ew|p|p Hcl|p].
  - by apply port_enqueue_inv.
  - by apply (move_inv p b Looping Tested a).
  - by apply (leave_inv p b Looping a).
  - unfold take_front. destruct (po_queue p) as [|o q] eqn:Eq.
    + rewrite <- Eq. pose proof (port_finish_inv p b a Hp Ew Eq) as Hf.
      unfold take_front in Hf. rewrite Eq in *. exact Hf.
    + apply (move_inv p b Tested (Writing o) a); try done. simpl. by rewrite Eq.
  - by apply written_inv.
  - by apply (failed_inv p b o a).
  - apply close_inv; [done|..]; rewrite Ew.
    + by rewrite !lives_app.
    + by rewrite !outstanding_app.
    + right. apply elem_of_app. right. apply list_elem_of_here.
  - apply close_inv; [done..|]. by left.
  - by apply close_finish_inv.
  - destruct Hp. by constructor.
Qed.

Lemma port_reachable_inv p : port_reachable p -> port_inv p.
Proof.
  induction 1 as [|p p' _ IH Hs]; [|by eapply port_step_inv].
  constructor; simpl; try done; try lia.
  - intros o Hin. by apply not_elem_of_nil in Hin.
  - exists []. done.
Qed.

(** The serial line is written by one coroutine at a time, in order, from a
    bounded queue.  In every reachable state of a port, under every interleaving
    of requests, write completions, write errors, [close] and server stop: at
    most one [async_write] is outstanding; at most 64 responses of at most 16384
    bytes are queued and the byte counter covers them exactly while the port is
    healthy, so its subtraction never wraps; and the completed writes followed by
    the outstanding one form a subsequence of the accepted responses, so no
    response is sent twice or out of order. *)
Theorem rtu_output_serialized p :
  port_reachable p ->
  (length (outstanding (po_writers p)) <= 1)%nat /\
  (length (po_queue p) <= maximum_queued_rtu_responses)%nat /\
  queue_size (po_queue p) <= po_queued_bytes p <= maximum_queued_rtu_bytes /\
  (po_active p = true -> Failing ∉ po_writers p ->
     po_queued_bytes p = queue_size (po_queue p)) /\
  po_sent p ++ outstanding (po_writers p) `sublist_of` po_accepted p.
Proof.
  intros Hp. destruct (port_reachable_inv p Hp) as [Hl _ _ _ Hn Hb He _ _ Hw].
  split_and!; try done; [|lia|lia].
  etrans; [|exact Hl]. clear. induction (po_writers p) as [|w ws IH]; [done|].
  unfold lives. rewrite filter_cons. fold (lives ws). destruct w; simpl; lia.
Qed.

(** A response is accepted, taken by the writer and being written. *)
Definition writing_port : Port :=
  mkPort true true true [[1; 2; 3]] 3 true [Writing [1; 2; 3]] 0 [[1; 2; 3]] [].

Lemma rtu_output_serialized_witness :
  port_reachable writing_port /\ (length (outstanding (po_writers writing_port)) <= 1)%nat.
Proof.
  assert (H : port_reachable writing_port).
  { pose (p1 := enqueue_write [1; 2; 3] opened_port).
    assert (R1 : port_reachable p1) by exact (port_next _ _ port_opened (port_enqueue _ _)).
    assert (R2 : port_reachable (set_writers [Tested] p1))
      by exact (port_next _ _ R1 (port_test p1 [] [] eq_refl eq_refl)).
    exact (port_next _ _ R2 (port_take (set_writers [Tested] p1) [] [] eq_refl)). }
  split; [exact H|]. exact (proj1 (rtu_output_serialized writing_port H)).
Defined.
