(* ===== verification/ModbusServer.v ===== *)
(** * Modbus server lifecycle

    Models [src/common/mnc/modbus/server.cpp]: the server owns a list of
    transports and starts and stops them together.  The transport is an
    interface (a type class with its promises); the TCP server's [start] and
    [stop], run by the lifecycle thread, discharge it. *)

From stdpp Require Import relations.
From S2P Require Import Prelude ModbusTcp.

(** [ModbusTransport]: [start] throws without leaving the transport running,
    starting a running transport and stopping a stopped one change nothing. *)
Class ModbusTransport (T : Type) := {
  transport_start : T -> T * result unit;
  transport_stop : T -> T;
  transport_running : T -> bool }.

Class ModbusTransportLaws (T : Type) `{ModbusTransport T} : Prop := {
  start_outcome : forall t,
    transport_running (transport_start t).1 = is_ok (transport_start t).2;
  stop_outcome : forall t, transport_running (transport_stop t) = false }.

Section Server.
Context {T : Type} `{ModbusTransportLaws T}.

Record ModbusServer := mkServer {
  sv_transports : list T;
  sv_started : nat }.

(** [add]; [None] is the null pointer. *)
Definition server_add (transport : option T) (server : ModbusServer) : result ModbusServer :=
  match transport with
  | None => Throw (InvalidArgument "Modbus transport is null")
  | Some t =>
      reject_if (negb (sv_started server =? 0)%nat)
        (LogicError "cannot add a running Modbus transport") ;;
      Ok (mkServer (sv_transports server ++ [t]) (sv_started server))
  end.

(** [while (started_ != 0) { --started_; transports_[started_]->stop(); }] *)
Fixpoint stop_loop (started : nat) (transports : list T) : list T :=
  match started with
  | O => transports
  | S started =>
      stop_loop started
        (match transports !! started with
         | Some t => <[started := transport_stop t]> transports
         | None => transports
         end)
  end.

Definition server_stop (server : ModbusServer) : ModbusServer :=
  mkServer (stop_loop (sv_started server) (sv_transports server)) 0.

(** The loop of [start] over the transports from index [started] on. *)
Fixpoint start_loop (done todo : list T) : list T * nat * result unit :=
  match todo with
  | [] => (done, length done, Ok tt)
  | t :: todo =>
      match transport_start t with
      | (t', Ok _) => start_loop (done ++ [t']) todo
      | (t', Throw e) => (done ++ t' :: todo, length done, Throw e)
      end
  end.

Definition server_start (server : ModbusServer) : ModbusServer * result unit :=
  if negb (sv_started server =? 0)%nat then (server, Ok tt)
  else
    match start_loop [] (sv_transports server) with
    | (transports, started, Ok _) => (mkServer transports started, Ok tt)
    | (transports, started, Throw e) => (server_stop (mkServer transports started), Throw e)
    end.

(** [started_] transports run, the others do not. *)
Definition server_inv (server : ModbusServer) : Prop :=
  (sv_started server = 0%nat \/ sv_started server = length (sv_transports server)) /\
  Forall (fun t => transport_running t = negb (sv_started server =? 0)%nat)
    (sv_transports server).

Lemma stop_loop_app started done todo :
  started = length done ->
  exists stopped, stop_loop started (done ++ todo) = stopped ++ todo /\
    length stopped = length done /\ Forall (fun t => transport_running t = false) stopped.
Proof.
  revert done todo. induction started as [|started IH]; intros done todo Hl.
  { destruct done; [|discriminate]. exists []. done. }
  destruct done as [|d done _] using rev_ind; [discriminate|].
  rewrite length_app in Hl. cbn [stop_loop].
  rewrite <- app_assoc, lookup_app_r by (simpl in Hl; lia).
  replace (started - length done)%nat with 0%nat by (simpl in Hl; lia). cbn [app lookup list_lookup].
  replace started with (length done + 0)%nat by (simpl in Hl; lia).
  rewrite insert_app_r. cbn [insert list_insert].
  destruct (IH done (transport_stop d :: todo)) as (stopped & E & Hs & Hf); [simpl in Hl; lia|].
  exists (stopped ++ [transport_stop d]).
  replace (length done + 0)%nat with started by (simpl in Hl; lia). rewrite E, <- app_assoc.
  split_and!; [done|rewrite !length_app; simpl; lia|].
  apply Forall_app. split; [done|]. repeat constructor. apply stop_outcome.
Qed.

Lemma start_loop_spec done todo transports started outcome :
  Forall (fun t => transport_running t = true) done ->
  Forall (fun t => transport_running t = false) todo ->
  start_loop done todo = (transports, started, outcome) ->
  length transports = (length done + length todo)%nat /\
  match outcome with
  | Ok _ => started = length transports /\ Forall (fun t => transport_running t = true) transports
  | Throw _ => exists front back, transports = front ++ back /\ started = length front /\
      Forall (fun t => transport_running t = false) back
  end.
Proof.
  revert done. induction todo as [|t todo IH]; intros done Hd Ht; cbn [start_loop].
  - intros [= <- <- <-]. simpl. rewrite Nat.add_0_r. done.
  - apply Forall_cons_1 in Ht as [Ht Htodo].
    pose proof (start_outcome t) as Hs. destruct (transport_start t) as [t' [u|e]].
    + intros E. destruct (IH (done ++ [t'])) as [Hlen Ho]; [|done|done|].
      { apply Forall_app. split; [done|]. by repeat constructor. }
      rewrite length_app in Hlen. simpl in *. split; [lia|done].
    + intros [= <- <- <-]. rewrite length_app. simpl. split; [lia|].
      exists done, (t' :: todo). split_and!; [done..|]. by constructor.
Qed.

(** The server's lifecycle is all or nothing.  From any state it can be in,
    [start] either leaves every transport running, or throws with every transport
    stopped, those that had already started included; [stop] leaves every
    transport stopped; and [add] is refused exactly for a null transport or while
    transports run.  So between calls the started count is zero or all, and it
    tells exactly which transports run. *)
Theorem server_lifecycle server transport :
  server_inv server ->
  server_inv (server_start server).1 /\ server_inv (server_stop server) /\
  sv_started (server_stop server) = 0%nat /\
  (is_ok (server_start server).2 = false -> sv_started (server_start server).1 = 0%nat) /\
  (is_ok (server_start server).2 = true ->
     Forall (fun t => transport_running t = true) (sv_transports (server_start server).1)) /\
  is_ok (server_add transport server) =
    (if transport is Some _ then (sv_started server =? 0)%nat else false).
Proof.
  intros [Hst Hrun]. destruct server as [ts n]. simpl in *.
  assert (Hstop : forall front back, Forall (fun t => transport_running t = false) back ->
    server_inv (server_stop (mkServer (front ++ back) (length front)))).
  { intros front back Hb. unfold server_stop. simpl.
    destruct (stop_loop_app (length front) front back eq_refl) as (st & E & _ & Hf).
    split; [by left|]. simpl. rewrite E. by apply Forall_app. }
  assert (Hall : server_inv (server_stop (mkServer ts n))).
  { destruct Hst as [->| ->].
    - split; [by left|done].
    - specialize (Hstop ts [] ltac:(constructor)). by rewrite app_nil_r in Hstop. }
  assert (Hadd : is_ok (server_add transport (mkServer ts n)) =
    (if transport is Some _ then (n =? 0)%nat else false)).
  { destruct transport as [t|]; [|done]. simpl. by destruct (n =? 0)%nat. }
  unfold server_start. simpl. destruct (Nat.eqb_spec n 0) as [->|Hn]; simpl.
  - destruct (start_loop [] ts) as [[ts' n'] [u|e]] eqn:E.
    + destruct (start_loop_spec [] ts ts' n' _ ltac:(constructor) Hrun E) as [Hlen [-> Hf]].
      simpl. split_and!; try done. split; [by right|]. simpl.
      destruct ts'; [constructor|done].
    + destruct (start_loop_spec [] ts ts' n' _ ltac:(constructor) Hrun E)
        as [Hlen (front & back & -> & -> & Hb)].
      split_and!; try done. by apply Hstop.
  - destruct Hst as [?|Hst]; [done|]. split_and!; try done. split; [by right|]. simpl.
    by destruct (Nat.eqb_spec n 0).
Qed.
End Server.

(** ** The TCP server as a transport *)
Record TcpTransport := mkTcpTransport {
  tt_config : TcpServerConfig;
  tt_binds : bool;               (** whether address, bind and listen succeed *)
  tt_state : TcpState }.

Definition tcp_start (t : TcpTransport) : TcpTransport * result unit :=
  let st := tt_state t in
  if tcp_running st then (t, Ok tt)
  else
    let generation := u64 (tcp_generation st + 1) in
    if config_accepted (tt_config t) && tt_binds t then
      (mkTcpTransport (tt_config t) (tt_binds t)
         (mkTcp true generation (tcp_sockets st) Idle (generation :: tcp_loops st)
            (tcp_reserving st) (tcp_next_socket st)), Ok tt)
    else
      (mkTcpTransport (tt_config t) (tt_binds t) (set_lifecycle false generation Idle st),
       Throw (InvalidArgument "Modbus TCP start failed")).

Definition tcp_stop (t : TcpTransport) : TcpTransport :=
  let st := tt_state t in
  if negb (tcp_running st) then t
  else
    mkTcpTransport (tt_config t) (tt_binds t)
      (mkTcp false (u64 (tcp_generation st + 1)) [] Idle (tcp_loops st) None
         (tcp_next_socket st)).

#[export] Instance tcp_transport : ModbusTransport TcpTransport := {
  transport_start := tcp_start;
  transport_stop := tcp_stop;
  transport_running t := tcp_running (tt_state t) }.

#[export] Instance tcp_transport_laws : ModbusTransportLaws TcpTransport.
Proof.
  split; intros t; simpl.
  - unfold tcp_start. destruct (tcp_running (tt_state t)) eqn:E; [done|].
    by destruct (_ && _).
  - unfold tcp_stop. by destruct (tcp_running (tt_state t)) eqn:E; simpl.
Qed.

(** Both operations are runs of the admission system's lifecycle thread, so its
    invariants hold around them. *)
Lemma tcp_start_steps t :
  tcp_lifecycle (tt_state t) = Idle ->
  rtc (tcp_step (tt_config t)) (tt_state t) (tt_state (tcp_start t).1).
Proof.
  intros Hl. unfold tcp_start. destruct t as [config binds [run gen socks lc loops res next]].
  simpl in *. subst lc. destruct run; [done|].
  eapply rtc_l; [by apply start_exchange|].
  eapply rtc_l; [by apply start_generation|]. simpl.
  destruct (config_accepted config) eqn:Hc, binds; simpl; apply rtc_once.
  - exact (start_spawn config (mkTcp true _ socks Configuring loops res next) eq_refl Hc).
  - exact (start_rejected config (mkTcp true _ socks Configuring loops res next) eq_refl).
  - exact (start_rejected config (mkTcp true _ socks Configuring loops res next) eq_refl).
  - exact (start_rejected config (mkTcp true _ socks Configuring loops res next) eq_refl).
Qed.

Lemma tcp_stop_steps t :
  tcp_lifecycle (tt_state t) = Idle -> tcp_reserving (tt_state t) = None ->
  rtc (tcp_step (tt_config t)) (tt_state t) (tt_state (tcp_stop t)).
Proof.
  intros Hl Hr. unfold tcp_stop. destruct t as [config binds [run gen socks lc loops res next]].
  simpl in *. subst. destruct run; [|done].
  eapply rtc_l; [by apply stop_exchange|].
  eapply rtc_l; [by apply stop_generation|]. simpl. apply rtc_once.
  exact (stop_clear config (mkTcp false _ socks Clearing loops None next) eq_refl eq_refl).
Qed.

(** Two TCP transports of which the second cannot bind. *)
Lemma server_lifecycle_witness :
  let t binds := mkTcpTransport (mkTcpConfig 16 1) binds tcp_initial in
  sv_started (server_start (mkServer [t true; t false] 0)).1 = 0%nat /\
  Forall (fun t => transport_running t = false)
    (sv_transports (server_start (mkServer [t true; t false] 0)).1).
Proof.
  intros t.
  destruct (server_lifecycle (mkServer [t true; t false] 0) None) as ([_ Hf] & _ & _ & Hz & _).
  { split; [by left|]. repeat constructor. }
  split; [exact (Hz eq_refl)|]. rewrite (Hz eq_refl) in Hf. exact Hf.
Defined.
