(* ===== verification/Ipc.v ===== *)
(** * IPC wire format and framed stream

    Models the serialisation half of [src/common/mnc/ipc/ipc.cpp] and [ipc.hpp]:
    [ByteWriter] and [ByteReader], the envelope, and the frames a connection
    receives from its byte stream.  Byte strings and [std::string]s are lists of
    byte values. *)

From S2P Require Import Prelude.

Definition envelope_magic : Z := 0x49434e4d.
Definition envelope_version : Z := 1.
Definition envelope_size : nat := 24.
Definition default_max_payload : Z := 1024 * 1024.

Inductive FrameKind := frame_request | frame_response | frame_event | frame_error.

#[export] Instance FrameKind_eq_dec : EqDecision FrameKind.
Proof. solve_decision. Defined.

Definition kind_value (kind : FrameKind) : Z :=
  match kind with
  | frame_request => 1
  | frame_response => 2
  | frame_event => 3
  | frame_error => 4
  end.

(** [static_cast<FrameKind>] with [valid_kind]. *)
Definition valid_kind (value : Z) : option FrameKind :=
  if value =? 1 then Some frame_request
  else if value =? 2 then Some frame_response
  else if value =? 3 then Some frame_event
  else if value =? 4 then Some frame_error
  else None.

Record Frame := mkFrame {
  fr_kind : FrameKind;
  fr_message_type : Z;
  fr_correlation_id : Z;
  fr_payload : list Z }.

(** ** ByteWriter: the data written so far *)
Definition append_little (size : nat) (output : list Z) (value : Z) : list Z :=
  output ++ le_bytes size value.

Definition write_u8 (w : list Z) (value : Z) : list Z := w ++ [value].
Definition write_u16 (w : list Z) (value : Z) : list Z := append_little 2 w value.
Definition write_u32 (w : list Z) (value : Z) : list Z := append_little 4 w value.
Definition write_u64 (w : list Z) (value : Z) : list Z := append_little 8 w value.
Definition write_i32 (w : list Z) (value : Z) : list Z := write_u32 w (u32 value).
Definition write_i64 (w : list Z) (value : Z) : list Z := write_u64 w (u64 value).
Definition write_bytes (w value : list Z) : list Z := w ++ value.

Definition write_fixed_string (w value : list Z) (width : nat) : result (list Z) :=
  reject_if (width <? length value)%nat (InvalidArgument "fixed string exceeds field width") ;;
  Ok (w ++ value ++ replicate (width - length value) 0).

(** ** ByteReader: what is left of the data *)
Definition Reader (A : Type) : Type := list Z -> result (A * list Z).

#[export] Instance reader_ret : MRet Reader := fun A a rest => Ok (a, rest).
#[export] Instance reader_bind : MBind Reader := fun A B f m rest =>
  match m rest with
  | Ok (a, rest') => f a rest'
  | Throw e => Throw e
  end.

Definition reader_throw {A} (e : exn) : Reader A := fun _ => Throw e.
Definition reader_reject (condition : bool) (e : exn) : Reader unit := fun rest =>
  if condition then Throw e else Ok (tt, rest).

Definition read_take (size : nat) : Reader (list Z) := fun rest =>
  if (length rest <? size)%nat then Throw (InvalidArgument "truncated IPC payload")
  else Ok (take size rest, drop size rest).

(** [value |= byte << (index * 8)], over the bytes of the field. *)
Definition combine_little (input : list Z) : Z :=
  foldr (fun b high => Z.lor (Z.shiftl high 8) b) 0 input.

Definition read_little (size : nat) (input : list Z) : result Z :=
  reject_if (negb (length input =? size)%nat) (InvalidArgument "invalid little-endian field size") ;;
  Ok (combine_little input).

Definition read_unsigned (size : nat) : Reader Z := fun rest =>
  match read_take size rest with
  | Ok (field, rest') =>
      match read_little size field with
      | Ok value => Ok (value, rest')
      | Throw e => Throw e
      end
  | Throw e => Throw e
  end.

Definition read_u8 : Reader Z := fun rest =>
  match read_take 1 rest with
  | Ok (b :: _, rest') => Ok (b, rest')
  | Ok ([], _) => Throw (UndefinedBehaviour "front of an empty span")
  | Throw e => Throw e
  end.
Definition read_u16 : Reader Z := read_unsigned 2.
Definition read_u32 : Reader Z := read_unsigned 4.
Definition read_u64 : Reader Z := read_unsigned 8.
Definition read_i32 : Reader Z := v ← read_u32; mret (s32 v).
Definition read_i64 : Reader Z := v ← read_u64; mret (s64 v).
Definition read_bytes (size : nat) : Reader (list Z) := read_take size.

(** The characters before the first zero byte. *)
Fixpoint until_zero (bytes : list Z) : list Z :=
  match bytes with
  | [] => []
  | b :: bytes => if b =? 0 then [] else b :: until_zero bytes
  end.

Definition read_fixed_string (width : nat) : Reader (list Z) :=
  field ← read_take width; mret (until_zero field).

Definition require_finished : Reader unit := fun rest =>
  if negb (length rest =? 0)%nat
  then Throw (InvalidArgument "unexpected trailing IPC payload bytes")
  else Ok (tt, rest).

(** ** Envelope *)
Definition encode_envelope (frame : Frame) : result (list Z) :=
  reject_if (UINT32_MAX <? Z.of_nat (length (fr_payload frame)))
    (LengthError "IPC payload is too large") ;;
  Ok (write_u64
        (write_u32
           (write_u32
              (write_u16 (write_u16 (write_u32 [] envelope_magic) envelope_version)
                 (kind_value (fr_kind frame)))
              (fr_message_type frame))
           (u32 (Z.of_nat (length (fr_payload frame)))))
        (fr_correlation_id frame)).

(** The fields [decode_envelope] and [receive] read from a header. *)
Definition read_envelope : Reader (FrameKind * Z * Z * Z) :=
  magic ← read_u32;
  reader_reject (negb (magic =? envelope_magic)) (InvalidArgument "invalid IPC envelope magic") ;;
  version ← read_u16;
  reader_reject (negb (version =? envelope_version))
    (InvalidArgument "unsupported IPC envelope version") ;;
  value ← read_u16;
  match valid_kind value with
  | None => reader_throw (InvalidArgument "invalid IPC frame kind")
  | Some kind =>
      message_type ← read_u32;
      payload_size ← read_u32;
      correlation ← read_u64;
      mret (kind, message_type, payload_size, correlation)
  end.

Definition decode_envelope (header payload : list Z) (max_payload : Z) : result Frame :=
  reject_if (negb (length header =? envelope_size)%nat)
    (InvalidArgument "invalid IPC envelope size") ;;
  fields ← (fields ← read_envelope; require_finished ;; mret fields) header;
  let '(kind, message_type, payload_size, correlation, _) := fields in
  reject_if ((max_payload <? payload_size) ||
             negb (payload_size =? Z.of_nat (length payload)))
    (InvalidArgument "invalid IPC payload size") ;;
  Ok (mkFrame kind message_type correlation payload).

(** ** A connection's input *)

(** [FramedConnection::receive] on the bytes that have arrived: [async_read]
    fails with end-of-file when the stream ends inside a read. *)
Definition end_of_file : exn := RuntimeError "End of file".

Definition receive (max_payload : Z) (input : list Z) : result (Frame * list Z) :=
  reject_if (length input <? envelope_size)%nat end_of_file ;;
  fields ← read_envelope (take envelope_size input);
  let '(kind, message_type, payload_size, correlation, _) := fields in
  reject_if (max_payload <? payload_size) (LengthError "IPC payload exceeds connection limit") ;;
  let rest := drop envelope_size input in
  let size := Z.to_nat payload_size in
  reject_if (length rest <? size)%nat end_of_file ;;
  Ok (mkFrame kind message_type correlation (take size rest), drop size rest).

(** The frames [connection_loop] and [read_loop] hand on before the stream ends,
    and how it ends; [turns] bounds the loop. *)
Fixpoint receive_loop (turns : nat) (max_payload : Z) (input : list Z) : list Frame * option exn :=
  match turns with
  | O => ([], None)
  | S turns =>
      match receive max_payload input with
      | Throw e => ([], Some e)
      | Ok (frame, rest) =>
          let '(frames, failure) := receive_loop turns max_payload rest in
          (frame :: frames, failure)
      end
  end.

(** What [enqueue] puts on the stream. *)
Definition encode_frame (frame : Frame) : result (list Z) :=
  header ← encode_envelope frame; Ok (header ++ fr_payload frame).

(** ** Round trips of single fields *)
Lemma combine_little_value input : Forall is_byte input -> combine_little input = le_value input.
Proof.
  induction 1 as [|b l Hb Hl IH]; [done|]. unfold combine_little in *. simpl.
  rewrite IH, lor_high_low; [lia| |done]. apply le_value_range, Hl.
Qed.

Lemma read_take_app field rest : read_take (length field) (field ++ rest) = Ok (field, rest).
Proof.
  unfold read_take. rewrite length_app.
  replace (length field + length rest <? length field)%nat with false
    by (symmetry; apply Nat.ltb_ge; lia).
  by rewrite take_app_length, drop_app_length.
Qed.

Lemma read_take_short size input :
  (length input < size)%nat -> read_take size input = Throw (InvalidArgument "truncated IPC payload").
Proof. intros H. unfold read_take. by apply Nat.ltb_lt in H as ->. Qed.

Lemma read_unsigned_bytes size value rest :
  0 <= value < 256 ^ Z.of_nat size ->
  read_unsigned size (le_bytes size value ++ rest) = Ok (value, rest).
Proof.
  intros Hv. unfold read_unsigned.
  pose proof (read_take_app (le_bytes size value) rest) as E. rewrite le_bytes_length in E.
  rewrite E. unfold read_little. rewrite le_bytes_length, Nat.eqb_refl. cbn [negb].
  rewrite combine_little_value by apply le_bytes_are_bytes.
  rewrite le_value_bytes, Z.mod_small by done. done.
Qed.

Lemma read_unsigned_short size input :
  (length input < size)%nat ->
  read_unsigned size input = Throw (InvalidArgument "truncated IPC payload").
Proof. intros H. unfold read_unsigned. by rewrite read_take_short. Qed.

Lemma until_zero_padded s n : Forall (fun b => b <> 0) s -> until_zero (s ++ replicate n 0) = s.
Proof.
  induction 1 as [|b s Hb _ IH]; simpl; [by destruct n|].
  apply Z.eqb_neq in Hb as ->. by rewrite IH.
Qed.

(** ** Messages as sequences of fields *)
Inductive Field :=
  | F_u8 (v : Z) | F_u16 (v : Z) | F_u32 (v : Z) | F_u64 (v : Z) | F_i32 (v : Z) | F_i64 (v : Z)
  | F_bytes (l : list Z)
  | F_string (s : list Z) (width : nat).

Inductive Shape :=
  | S_u8 | S_u16 | S_u32 | S_u64 | S_i32 | S_i64
  | S_bytes (size : nat)
  | S_string (width : nat).

Definition shape_of (f : Field) : Shape :=
  match f with
  | F_u8 _ => S_u8 | F_u16 _ => S_u16 | F_u32 _ => S_u32 | F_u64 _ => S_u64
  | F_i32 _ => S_i32 | F_i64 _ => S_i64
  | F_bytes l => S_bytes (length l)
  | F_string _ width => S_string width
  end.

Definition shape_size (s : Shape) : nat :=
  match s with
  | S_u8 => 1 | S_u16 => 2 | S_u32 | S_i32 => 4 | S_u64 | S_i64 => 8
  | S_bytes n | S_string n => n
  end.

(** A value of the field's C++ type; a string that fits and holds no zero. *)
Definition field_ok (f : Field) : Prop :=
  match f with
  | F_u8 v => 0 <= v < 2 ^ 8
  | F_u16 v => 0 <= v < 2 ^ 16
  | F_u32 v => 0 <= v < 2 ^ 32
  | F_u64 v => 0 <= v < 2 ^ 64
  | F_i32 v => - 2 ^ 31 <= v < 2 ^ 31
  | F_i64 v => - 2 ^ 63 <= v < 2 ^ 63
  | F_bytes l => True
  | F_string s width => (length s <= width)%nat /\ Forall (fun b => b <> 0) s
  end.

Definition write_field (w : list Z) (f : Field) : result (list Z) :=
  match f with
  | F_u8 v => Ok (write_u8 w v)
  | F_u16 v => Ok (write_u16 w v)
  | F_u32 v => Ok (write_u32 w v)
  | F_u64 v => Ok (write_u64 w v)
  | F_i32 v => Ok (write_i32 w v)
  | F_i64 v => Ok (write_i64 w v)
  | F_bytes l => Ok (write_bytes w l)
  | F_string s width => write_fixed_string w s width
  end.

Definition read_shape (s : Shape) : Reader Field :=
  match s with
  | S_u8 => v ← read_u8; mret (F_u8 v)
  | S_u16 => v ← read_u16; mret (F_u16 v)
  | S_u32 => v ← read_u32; mret (F_u32 v)
  | S_u64 => v ← read_u64; mret (F_u64 v)
  | S_i32 => v ← read_i32; mret (F_i32 v)
  | S_i64 => v ← read_i64; mret (F_i64 v)
  | S_bytes n => l ← read_bytes n; mret (F_bytes l)
  | S_string n => s ← read_fixed_string n; mret (F_string s n)
  end.

Fixpoint write_fields (w : list Z) (fields : list Field) : result (list Z) :=
  match fields with
  | [] => Ok w
  | f :: fields => w' ← write_field w f; write_fields w' fields
  end.

Fixpoint read_shapes (shapes : list Shape) : Reader (list Field) :=
  match shapes with
  | [] => mret []
  | s :: shapes => f ← read_shape s; fs ← read_shapes shapes; mret (f :: fs)
  end.

Lemma reader_bind_Ok {A B} (m : Reader A) (f : A -> Reader B) input a rest :
  m input = Ok (a, rest) -> (m ≫= f) input = f a rest.
Proof. intros E. unfold mbind, reader_bind. by rewrite E. Qed.

Lemma reader_bind_Throw {A B} (m : Reader A) (f : A -> Reader B) input e :
  m input = Throw e -> (m ≫= f) input = Throw e.
Proof. intros E. unfold mbind, reader_bind. by rewrite E. Qed.

(** Runs the first read of a field, leaving its outcome to show. *)
Ltac read_first :=
  cbn [shape_of read_shape]; erewrite reader_bind_Ok; [reflexivity|].

(** One field: what is appended, how long it is, and that it reads back. *)
Lemma field_roundtrip f w :
  field_ok f ->
  exists bytes, write_field w f = Ok (w ++ bytes) /\ length bytes = shape_size (shape_of f) /\
    forall rest, read_shape (shape_of f) (bytes ++ rest) = Ok (f, rest).
Proof.
  assert (Hn : forall n v, length (le_bytes n v) = n) by apply le_bytes_length.
  destruct f as [v|v|v|v|v|v|l|s width]; cbn [field_ok]; intros Hok.
  - exists [v]. split_and!; try done.
  - exists (le_bytes 2 v). split_and!; [done|apply Hn|]. intros rest.
    read_first. by apply read_unsigned_bytes.
  - exists (le_bytes 4 v). split_and!; [done|apply Hn|]. intros rest.
    read_first. by apply read_unsigned_bytes.
  - exists (le_bytes 8 v). split_and!; [done|apply Hn|]. intros rest.
    read_first. by apply read_unsigned_bytes.
  - exists (le_bytes 4 (u32 v)). split_and!; [done|apply Hn|]. intros rest.
    read_first. unfold read_i32.
    erewrite reader_bind_Ok; [|apply read_unsigned_bytes, (wrap_range 32); lia].
    unfold mret, reader_ret. by rewrite sign_wrap_id by lia.
  - exists (le_bytes 8 (u64 v)). split_and!; [done|apply Hn|]. intros rest.
    read_first. unfold read_i64.
    erewrite reader_bind_Ok; [|apply read_unsigned_bytes, (wrap_range 64); lia].
    unfold mret, reader_ret. by rewrite sign_wrap_id by lia.
  - exists l. split_and!; try done. intros rest.
    read_first. apply read_take_app.
  - destruct Hok as [Hw Hz]. exists (s ++ replicate (width - length s) 0).
    assert (length (s ++ replicate (width - length s) 0) = width) as Hl
      by (rewrite length_app, length_replicate; lia).
    split_and!; [|done|].
    + cbn [write_field]. unfold write_fixed_string.
      by replace (width <? length s)%nat with false by (symmetry; apply Nat.ltb_ge; lia).
    + intros rest. read_first.
      unfold read_fixed_string. erewrite reader_bind_Ok.
      2:{ pose proof (read_take_app (s ++ replicate (width - length s) 0) rest) as E.
          rewrite Hl in E. exact E. }
      by rewrite until_zero_padded.
Qed.

Lemma field_truncated s input :
  (length input < shape_size s)%nat ->
  read_shape s input = Throw (InvalidArgument "truncated IPC payload").
Proof.
  intros H. destruct s; apply reader_bind_Throw; simpl in H;
    try by apply read_unsigned_short.
  - unfold read_u8. by rewrite read_take_short.
  - apply reader_bind_Throw. by apply read_unsigned_short.
  - apply reader_bind_Throw. by apply read_unsigned_short.
  - by apply read_take_short.
  - apply reader_bind_Throw. by apply read_take_short.
Qed.

Lemma fields_roundtrip fields w :
  Forall field_ok fields ->
  exists bytes, write_fields w fields = Ok (w ++ bytes) /\
    (forall rest, read_shapes (map shape_of fields) (bytes ++ rest) = Ok (fields, rest)) /\
    (forall n, (n < length bytes)%nat ->
       read_shapes (map shape_of fields) (take n bytes)
         = Throw (InvalidArgument "truncated IPC payload")).
Proof.
  intros Hf. revert w. induction Hf as [|f fields Hok _ IH]; intros w.
  { exists []. rewrite app_nil_r. split_and!; [done..|]. intros n Hn. simpl in Hn. lia. }
  destruct (field_roundtrip f w Hok) as (b1 & Hw & Hl & Hr).
  destruct (IH (w ++ b1)) as (b2 & Hw2 & Hr2 & Ht2).
  exists (b1 ++ b2). cbn [write_fields map read_shapes]. rewrite Hw. split_and!.
  - cbn [mbind result_bind]. by rewrite Hw2, app_assoc.
  - intros rest. rewrite <- app_assoc. erewrite reader_bind_Ok by apply Hr.
    erewrite reader_bind_Ok by apply Hr2. done.
  - intros n Hn. rewrite length_app in Hn. destruct (Nat.lt_ge_cases n (length b1)).
    + apply reader_bind_Throw, field_truncated. rewrite length_take, length_app. lia.
    + rewrite take_app_ge by lia. erewrite reader_bind_Ok by apply Hr.
      apply reader_bind_Throw, Ht2. lia.
Qed.

(** IPC messages round-trip.  Any sequence of in-range fields (integers of
    every width, byte strings, zero-padded fixed strings) can be written; reading
    with the same shapes returns exactly the fields and leaves what follows them;
    [require_finished] then accepts exactly the empty rest; and every proper
    prefix of the encoding is refused as truncated rather than misread. *)
Theorem ipc_fields_roundtrip fields :
  Forall field_ok fields ->
  exists bytes, write_fields [] fields = Ok bytes /\
    (forall rest, read_shapes (map shape_of fields) (bytes ++ rest) = Ok (fields, rest)) /\
    (forall rest, is_ok ((fs ← read_shapes (map shape_of fields); require_finished ;; mret fs)
       (bytes ++ rest)) = bool_decide (rest = [])) /\
    (forall n, (n < length bytes)%nat ->
       read_shapes (map shape_of fields) (take n bytes)
         = Throw (InvalidArgument "truncated IPC payload")).
Proof.
  intros Hf. destruct (fields_roundtrip fields [] Hf) as (bytes & Hw & Hr & Ht).
  exists bytes. split_and!; try done. intros rest. erewrite reader_bind_Ok by apply Hr.
  by destruct rest.
Qed.

Lemma ipc_fields_roundtrip_witness :
  exists bytes, write_fields [] [F_u16 513; F_i32 (-2); F_string [65; 66] 4] = Ok bytes /\
    read_shapes [S_u16; S_i32; S_string 4] bytes
      = Ok ([F_u16 513; F_i32 (-2); F_string [65; 66] 4], []).
Proof.
  destruct (ipc_fields_roundtrip [F_u16 513; F_i32 (-2); F_string [65; 66] 4])
    as (bytes & Hw & Hr & _).
  - repeat constructor; cbn; lia.
  - exists bytes. split; [exact Hw|]. specialize (Hr []). rewrite app_nil_r in Hr. exact Hr.
Defined.

(** ** Frames *)
Definition frame_ok (max_payload : Z) (f : Frame) : Prop :=
  0 <= fr_message_type f < 2 ^ 32 /\ 0 <= fr_correlation_id f < 2 ^ 64 /\
  Z.of_nat (length (fr_payload f)) <= max_payload.

Lemma valid_kind_value k : valid_kind (kind_value k) = Some k.
Proof. by destruct k. Qed.

Lemma envelope_roundtrip max_payload f :
  frame_ok max_payload f -> max_payload <= UINT32_MAX ->
  exists header, encode_envelope f = Ok header /\ length header = envelope_size /\
    read_envelope header =
      Ok (fr_kind f, fr_message_type f, Z.of_nat (length (fr_payload f)), fr_correlation_id f, []).
Proof.
  intros (Hm & Hc & Hp) Hmax. unfold encode_envelope, UINT32_MAX in *.
  replace (4294967295 <? Z.of_nat (length (fr_payload f))) with false by lia.
  rewrite wrap_id by lia. eexists. split; [reflexivity|].
  unfold write_u64, write_u32, write_u16, append_little. rewrite app_nil_l. split.
  { rewrite !length_app, !le_bytes_length. done. }
  rewrite <- !app_assoc. unfold read_envelope.
  erewrite reader_bind_Ok by (apply read_unsigned_bytes; unfold envelope_magic; lia).
  erewrite reader_bind_Ok by reflexivity.
  erewrite reader_bind_Ok by (apply read_unsigned_bytes; unfold envelope_version; lia).
  erewrite reader_bind_Ok by reflexivity.
  erewrite reader_bind_Ok by (apply read_unsigned_bytes; destruct (fr_kind f); simpl; lia).
  rewrite valid_kind_value.
  erewrite reader_bind_Ok by (apply read_unsigned_bytes; lia).
  erewrite reader_bind_Ok by (apply read_unsigned_bytes; lia).
  erewrite reader_bind_Ok; [reflexivity|].
  rewrite <- (app_nil_r (le_bytes 8 _)). by apply read_unsigned_bytes.
Qed.

Lemma receive_frame max_payload f bytes tail :
  frame_ok max_payload f -> max_payload <= UINT32_MAX -> encode_frame f = Ok bytes ->
  receive max_payload (bytes ++ tail) = Ok (f, tail).
Proof.
  intros Hf Hmax He. destruct (envelope_roundtrip max_payload f Hf Hmax) as (h & Eh & Hl & Hr).
  unfold encode_frame in He. rewrite Eh in He. injection He as <-. unfold receive.
  rewrite <- app_assoc. rewrite length_app, Hl.
  replace (envelope_size + length (fr_payload f ++ tail) <? envelope_size)%nat with false
    by (symmetry; apply Nat.ltb_ge; lia).
  rewrite <- Hl, take_app_length, drop_app_length, Hr. cbn [reject_if mbind result_bind].
  destruct Hf as (_ & _ & Hp). replace (max_payload <? Z.of_nat (length (fr_payload f)))
    with false by lia. cbn [reject_if mbind result_bind]. rewrite Nat2Z.id, length_app.
  replace (length (fr_payload f) + length tail <? length (fr_payload f))%nat with false
    by (symmetry; apply Nat.ltb_ge; lia).
  rewrite take_app_length, drop_app_length. by destruct f.
Qed.

Lemma encode_frame_Ok max_payload f :
  frame_ok max_payload f -> max_payload <= UINT32_MAX -> exists bytes, encode_frame f = Ok bytes.
Proof.
  intros Hf Hm. destruct (envelope_roundtrip max_payload f Hf Hm) as (h & Eh & _).
  unfold encode_frame. rewrite Eh. by eexists.
Qed.

(** (C31) A framed stream delivers its frames.  Frames within the payload limit
    that are written one after the other are received exactly, in order, and the
    reader then continues with whatever follows; the envelope decoder agrees with
    the stream reader; and whatever bytes a peer sends, no frame above the
    connection's payload limit is ever delivered. *)
Theorem ipc_stream_delivers max_payload frames turns tail :
  0 <= max_payload <= UINT32_MAX -> Forall (frame_ok max_payload) frames ->
  (exists encoded, mapM_result encode_frame frames = Ok encoded /\
     receive_loop (length frames + turns) max_payload (concat encoded ++ tail) =
       let '(more, failure) := receive_loop turns max_payload tail in (frames ++ more, failure)) /\
  Forall (fun f => exists header, encode_envelope f = Ok header /\
    decode_envelope header (fr_payload f) max_payload = Ok f) frames /\
  Forall (fun f => Z.of_nat (length (fr_payload f)) <= max_payload)
    (receive_loop turns max_payload tail).1.
Proof.
  intros Hmax Hf. split_and!.
  - induction Hf as [|f frames Hok _ (encoded & IH & IHr)].
    { exists []. split; [done|]. simpl. by destruct (receive_loop turns max_payload tail). }
    destruct (encode_frame_Ok max_payload f Hok ltac:(lia)) as [bytes Eb].
    exists (bytes :: encoded). cbn [mapM_result]. rewrite Eb. cbn [mbind result_bind].
    rewrite IH. split; [done|]. cbn [concat length Nat.add receive_loop].
    rewrite <- app_assoc, (receive_frame max_payload f bytes) by (done || lia).
    rewrite IHr. by destruct (receive_loop turns max_payload tail).
  - eapply Forall_impl; [|exact Hf]. intros f Hok.
    destruct (envelope_roundtrip max_payload f Hok ltac:(lia)) as (h & Eh & Hl & Hr).
    exists h. split; [done|]. unfold decode_envelope. rewrite Hl. cbn [Nat.eqb negb envelope_size].
    cbn [reject_if mbind result_bind].
    erewrite reader_bind_Ok by apply Hr. destruct Hok as (_ & _ & Hp).
    change ((require_finished ;; mret (fr_kind f, fr_message_type f,
      Z.of_nat (length (fr_payload f)), fr_correlation_id f)) []) with
      (Ok (fr_kind f, fr_message_type f, Z.of_nat (length (fr_payload f)),
        fr_correlation_id f, @nil Z)).
    cbn [mbind result_bind]. rewrite Z.eqb_refl.
    replace (max_payload <? Z.of_nat (length (fr_payload f))) with false by lia.
    by destruct f.
  - clear frames Hf. revert tail. induction turns as [|turns IH]; intros tail; [constructor|].
    cbn [receive_loop]. destruct (receive max_payload tail) as [[f rest]|e] eqn:E; [|constructor].
    specialize (IH rest). destruct (receive_loop turns max_payload rest). constructor; [|done].
    unfold receive in E. apply bind_Ok in E as (u1 & _ & E).
    apply bind_Ok in E as ([[[[k m] n] c] r] & _ & E). inv_ok E. simplify_eq.
    bools. cbn [fr_payload]. rewrite length_take. lia.
Qed.

Lemma ipc_stream_delivers_witness :
  exists encoded, mapM_result encode_frame [mkFrame frame_request 7 1 [1; 2]; mkFrame frame_event 9 0 []]
    = Ok encoded /\
  receive_loop 4 16 (concat encoded ++ [1; 2; 3]) =
    ([mkFrame frame_request 7 1 [1; 2]; mkFrame frame_event 9 0 []], Some end_of_file).
Proof.
  destruct (ipc_stream_delivers 16 [mkFrame frame_request 7 1 [1; 2]; mkFrame frame_event 9 0 []]
    2 [1; 2; 3]) as [(encoded & E & H) _].
  - unfold UINT32_MAX. lia.
  - unfold frame_ok. repeat constructor; simpl; lia.
  - exists encoded. split; [exact E|exact H].
Defined.
