(* ===== verification/IpcConnection.v ===== *)
(** * IPC connections and request clients

    Models the stateful half of [src/common/mnc/ipc/ipc.cpp]: the bounded write
    queue of [FramedConnection] (every handler runs on the connection's strand,
    so a step is one handler) and the correlation table of [RequestClient]. *)

From Stdlib Require Import Permutation.
From stdpp Require Import gmap.
From S2P Require Import Prelude Ipc.

(** ** FramedConnection: the write queue *)
Record ConnectionLimits := mkLimits {
  max_payload : Z;
  max_queued_frames : Z;
  max_queued_bytes : Z }.

(** A [PendingWrite]; the identity stands for its completion handler. *)
Record PendingWrite := mkPending { pw_id : nat; pw_bytes : list Z }.

(** How a completion handler was called. *)
Inductive Completion := Written | NotConnected | NoBufferSpace | WriteError.

#[export] Instance Completion_eq_dec : EqDecision Completion.
Proof. solve_decision. Defined.

Record Connection := mkConnection {
  cn_open : bool;
  cn_writes : list PendingWrite;
  cn_queued_bytes : Z;
  cn_writing : bool;
  cn_done : list (nat * Completion);   (** calls of [done], oldest first *)
  cn_posted : list nat }.              (** writes posted so far *)

Definition new_connection : Connection := mkConnection true [] 0 false [] [].

Definition write_size (w : PendingWrite) : Z := Z.of_nat (length (pw_bytes w)).
Definition writes_size (ws : list PendingWrite) : Z :=
  foldr (fun w acc => write_size w + acc) 0 ws.

(** [start_next_write]: with a write in front, one is outstanding. *)
Definition start_next_write (c : Connection) : Connection :=
  if cn_writing c || (match cn_writes c with [] => true | _ => false end) then c
  else mkConnection (cn_open c) (cn_writes c) (cn_queued_bytes c) true (cn_done c) (cn_posted c).

Section Connection.
Variable limits : ConnectionLimits.
Hypothesis limits_ok :
  0 <= max_queued_frames limits /\ 0 <= max_queued_bytes limits < 2 ^ 64.

(** The handler [enqueue] posts. *)
Definition enqueue (w : PendingWrite) (c : Connection) : Connection :=
  let posted := cn_posted c ++ [pw_id w] in
  if negb (cn_open c) then
    mkConnection (cn_open c) (cn_writes c) (cn_queued_bytes c) (cn_writing c)
      (cn_done c ++ [(pw_id w, NotConnected)]) posted
  else if (max_queued_frames limits <=? Z.of_nat (length (cn_writes c)))
       || (max_queued_bytes limits <? cn_queued_bytes c)
       || (u64 (max_queued_bytes limits - cn_queued_bytes c) <? write_size w) then
    mkConnection false (cn_writes c) (cn_queued_bytes c) (cn_writing c)
      (cn_done c ++ [(pw_id w, NoBufferSpace)]) posted
  else
    start_next_write
      (mkConnection (cn_open c) (cn_writes c ++ [w]) (cn_queued_bytes c + write_size w)
         (cn_writing c) (cn_done c) posted).

(** The completion handler of the outstanding [async_write]; [pending] is the
    write captured when it was started. *)
Definition write_completed (error : bool) (pending : PendingWrite) (c : Connection) : Connection :=
  let bytes := u64 (cn_queued_bytes c - write_size pending) in
  let rest := tail (cn_writes c) in
  if error then
    mkConnection false [] 0 false
      (cn_done c ++ [(pw_id pending, WriteError)] ++ map (fun w => (pw_id w, WriteError)) rest)
      (cn_posted c)
  else
    start_next_write
      (mkConnection (cn_open c) rest bytes false (cn_done c ++ [(pw_id pending, Written)])
         (cn_posted c)).

Definition connection_close (c : Connection) : Connection :=
  mkConnection false (cn_writes c) (cn_queued_bytes c) (cn_writing c) (cn_done c) (cn_posted c).

Inductive connection_step : Connection -> Connection -> Prop :=
  | step_enqueue c w : pw_id w ∉ cn_posted c -> connection_step c (enqueue w c)
  | step_completed c error pending rest :
      cn_writing c = true -> cn_writes c = pending :: rest ->
      connection_step c (write_completed error pending c)
  | step_close c : connection_step c (connection_close c).

Inductive connection_reachable : Connection -> Prop :=
  | connection_new : connection_reachable new_connection
  | connection_next c c' :
      connection_reachable c -> connection_step c c' -> connection_reachable c'.

Record connection_inv (c : Connection) : Prop := {
  ci_writing : cn_writing c = negb (match cn_writes c with [] => true | _ => false end);
  ci_bytes : cn_queued_bytes c = writes_size (cn_writes c);
  ci_limit : cn_queued_bytes c <= max_queued_bytes limits;
  ci_frames : Z.of_nat (length (cn_writes c)) <= max_queued_frames limits;
  ci_once : Permutation (cn_posted c) (map fst (cn_done c) ++ map pw_id (cn_writes c));
  ci_fresh : NoDup (cn_posted c);
  ci_order : (map fst (filter (fun d => d.2 = Written) (cn_done c)) ++ map pw_id (cn_writes c))
               `sublist_of` cn_posted c }.

Lemma writes_size_nonneg ws : 0 <= writes_size ws.
Proof. induction ws as [|w ws IH]; simpl; unfold write_size in *; lia. Qed.

Lemma writes_size_app ws w : writes_size (ws ++ [w]) = writes_size ws + write_size w.
Proof. induction ws as [|x ws IH]; simpl; lia. Qed.

(** The identities of completed writes, in completion order. *)
Definition written (c : Connection) : list nat :=
  map fst (filter (fun d => d.2 = Written) (cn_done c)).

Lemma start_next_write_inv c :
  cn_writing c = false \/ cn_writes c <> [] ->
  (cn_writing c = true -> cn_writes c <> []) ->
  connection_inv (mkConnection (cn_open c) (cn_writes c) (cn_queued_bytes c)
    (negb (match cn_writes c with [] => true | _ => false end)) (cn_done c) (cn_posted c)) ->
  connection_inv (start_next_write c).
Proof.
  intros _ Hw Hc. unfold start_next_write. destruct c as [o ws b wr d p]; simpl in *.
  destruct wr, ws; simpl in *; try done. by destruct Hw.
Qed.

Lemma enqueue_inv w c :
  pw_id w ∉ cn_posted c -> connection_inv c -> connection_inv (enqueue w c).
Proof.
  intros Hf [Hw Hb Hl Hn Ho Hd Hs]. unfold enqueue. cbv zeta.
  assert (Hnd : NoDup (cn_posted c ++ [pw_id w])).
  { apply list.NoDup_app. split_and!; [done| |apply NoDup_singleton].
    intros x Hx ->%list_elem_of_singleton. done. }
  assert (Hrefused : forall open k, k <> Written -> connection_inv
    (mkConnection open (cn_writes c) (cn_queued_bytes c) (cn_writing c)
       (cn_done c ++ [(pw_id w, k)]) (cn_posted c ++ [pw_id w]))).
  { intros open k Hk. constructor; simpl; try done.
    - rewrite Ho, map_app, <- !app_assoc. simpl. apply Permutation_app_head.
      apply Permutation_sym, Permutation_cons_append.
    - rewrite list.filter_app. rewrite (filter_cons_False _ (pw_id w, k)) by done.
      rewrite app_nil_r. by apply sublist_inserts_r. }
  destruct (cn_open c) eqn:Eo; cbn [negb]; [|by apply Hrefused].
  destruct (_ || _) eqn:E; [by apply Hrefused|].
  apply orb_false_iff in E as [E E3]. apply orb_false_iff in E as [E1 E2]. bools.
  rewrite wrap_id in E3 by (pose proof (writes_size_nonneg (cn_writes c)); lia).
  apply start_next_write_inv; simpl.
  - right. by destruct (cn_writes c).
  - intros _. by destruct (cn_writes c).
  - constructor; simpl; try done.
    + rewrite writes_size_app. lia.
    + lia.
    + rewrite length_app. simpl. lia.
    + rewrite map_app, app_assoc. by apply Permutation_app_tail.
    + rewrite map_app, app_assoc. by apply sublist_app.
Qed.

Lemma completed_inv error pending rest c :
  cn_writes c = pending :: rest -> connection_inv c ->
  connection_inv (write_completed error pending c).
Proof.
  intros Ew [Hw Hb Hl Hn Ho Hd Hs]. unfold write_completed. rewrite Ew in *. simpl tail.
  pose proof (writes_size_nonneg rest). simpl in Hb, Hn.
  assert (0 <= write_size pending) by (unfold write_size; lia).
  destruct error.
  - constructor; simpl; try done; try lia.
    + rewrite app_nil_r, Ho, map_app. simpl. by rewrite map_map.
    + rewrite app_nil_r, list.filter_app.
      assert (filter (fun d => d.2 = Written)
        ((pw_id pending, WriteError) :: map (fun w => (pw_id w, WriteError)) rest) = []) as ->.
      { rewrite filter_cons_False by done. clear. by induction rest. }
      rewrite app_nil_r. etrans; [|exact Hs]. by apply sublist_inserts_r.
  - rewrite wrap_id by lia. apply start_next_write_inv; simpl; [by left|done|].
    constructor; simpl; try done; try lia.
    + rewrite Ho, map_app, <- app_assoc. done.
    + rewrite list.filter_app, filter_cons_True by done. simpl.
      rewrite map_app, <- app_assoc. exact Hs.
Qed.

Lemma connection_reachable_inv c : connection_reachable c -> connection_inv c.
Proof.
  induction 1 as [|c c' _ IH Hs].
  - constructor; simpl; try done; try lia. constructor.
  - destruct Hs as [c w Hf|c error pending rest _ Ew|c].
    + by apply enqueue_inv.
    + by eapply completed_inv.
    + destruct IH. by constructor.
Qed.

(** The write queue of an IPC connection.  In every reachable state: at most
    [max_queued_frames] frames and [max_queued_bytes] bytes are queued, and the
    byte counter is exactly their size, so none of its updates wraps; a write is
    outstanding exactly when the queue is not empty; every posted write is either
    still queued or had its completion handler called exactly once; and completed
    writes appear on the stream in the order they were posted, none twice. *)
Theorem ipc_write_queue c :
  connection_reachable c ->
  Z.of_nat (length (cn_writes c)) <= max_queued_frames limits /\
  cn_queued_bytes c = writes_size (cn_writes c) /\
  cn_queued_bytes c <= max_queued_bytes limits /\
  (cn_writing c = true <-> cn_writes c <> []) /\
  NoDup (map fst (cn_done c) ++ map pw_id (cn_writes c)) /\
  Permutation (cn_posted c) (map fst (cn_done c) ++ map pw_id (cn_writes c)) /\
  (written c ++ map pw_id (cn_writes c)) `sublist_of` cn_posted c.
Proof.
  intros Hc. destruct (connection_reachable_inv c Hc) as [Hw Hb Hl Hn Ho Hd Hs].
  split_and!; try done.
  - rewrite Hw. by destruct (cn_writes c).
  - by rewrite <- Ho.
Qed.
End Connection.

(** A write is queued and outstanding, then a second one overflows the limit. *)
Lemma ipc_write_queue_witness :
  let limits := mkLimits 16 1 64 in
  let c := enqueue limits (mkPending 1 [1]) (enqueue limits (mkPending 0 [1; 2]) new_connection) in
  cn_done c = [(1%nat, NoBufferSpace)] /\
  cn_queued_bytes c = writes_size (cn_writes c).
Proof.
  intros limits c. split; [reflexivity|].
  assert (R1 : connection_reachable limits (enqueue limits (mkPending 0 [1; 2]) new_connection)).
  { eapply connection_next; [apply connection_new|]. apply step_enqueue.
    apply not_elem_of_nil. }
  assert (R2 : connection_reachable limits c).
  { eapply connection_next; [exact R1|]. apply step_enqueue. cbn.
    intros H%list_elem_of_singleton. discriminate. }
  destruct (ipc_write_queue limits ltac:(simpl; lia) c R2) as (_ & Hb & _). exact Hb.
Defined.
