(* ===== verification/RequestClient.v ===== *)
(** * The correlation-aware IPC request client

    Models [RequestClient] of [src/common/mnc/ipc/ipc.cpp].  Every coroutine and handler
    of a client runs on its strand, so a state change is one uninterrupted run between
    two suspension points; each such run is one definition below.  A request coroutine
    suspends twice, in [send] and in the wait on its timer. *)

From Stdlib Require Import Permutation.
From stdpp Require Import gmap.
From S2P Require Import Prelude Ipc.































(** ** The id loop *)









(** ** The invariant *)














