(* ===== verification/DatabasePolicy.v ===== *)
(** * Storage and retention policies

    Models [src/common/mnc/MeterDataProvider/stream/database_policy.hpp]: the policy a
    database is opened with, its validation, the comparison of policy sets, and the
    catalog the services share. *)

From Stdlib Require Import Permutation Sorted.
From S2P Require Import Prelude.

(** A scoped enumeration over a byte also has the values that name no enumerator. *)
Inductive StorageBackend := memory | persistent | other_backend (code : Z).

Inductive DatabaseDataset :=
  | raw_record_spool | basic | cycles_150_180 | minutes_10 | hours_2
  | harmonic_cycles_150_180 | harmonic_minutes_10 | harmonic_hours_2
  | demand | seconds_10 | other_dataset (code : Z).

#[export] Instance StorageBackend_eq_dec : EqDecision StorageBackend.
Proof. solve_decision. Defined.
#[export] Instance DatabaseDataset_eq_dec : EqDecision DatabaseDataset.
Proof. solve_decision. Defined.

(** The underlying value, which orders the keys of a [std::map]. *)
Definition dataset_code (d : DatabaseDataset) : Z :=
  match d with
  | raw_record_spool => 0 | basic => 1 | cycles_150_180 => 2 | minutes_10 => 3 | hours_2 => 4
  | harmonic_cycles_150_180 => 5 | harmonic_minutes_10 => 6 | harmonic_hours_2 => 7
  | demand => 8 | seconds_10 => 9 | other_dataset code => code
  end.

Record RetentionPolicy := mkRetention {
  maximum_age : option Z;      (** seconds *)
  maximum_bytes : option Z }.

Record DatabaseStoragePolicy := mkPolicy {
  dataset : DatabaseDataset;
  backend : StorageBackend;
  retention : RetentionPolicy }.

#[export] Instance RetentionPolicy_eq_dec : EqDecision RetentionPolicy.
Proof. solve_decision. Defined.
#[export] Instance DatabaseStoragePolicy_eq_dec : EqDecision DatabaseStoragePolicy.
Proof. solve_decision. Defined.

Definition validate_database_policy (policy : DatabaseStoragePolicy) : result unit :=
  match dataset policy with
  | other_dataset _ => Throw (InvalidArgument "unknown database dataset")
  | _ => Ok tt
  end ;;
  match backend policy with
  | other_backend _ => Throw (InvalidArgument "unknown database storage backend")
  | _ => Ok tt
  end ;;
  reject_if (match maximum_age (retention policy) with Some age => age <=? 0 | None => false end)
    (InvalidArgument "database retention age must be positive") ;;
  reject_if (match maximum_bytes (retention policy) with Some bytes => bytes =? 0 | None => false end)
    (InvalidArgument "database retention byte limit must be positive").

Definition dataset_name (d : DatabaseDataset) : string :=
  match d with
  | raw_record_spool => "spool" | basic => "basic" | cycles_150_180 => "cycles_150_180"
  | minutes_10 => "minutes_10" | hours_2 => "hours_2"
  | harmonic_cycles_150_180 => "harmonic_cycles_150_180"
  | harmonic_minutes_10 => "harmonic_minutes_10" | harmonic_hours_2 => "harmonic_hours_2"
  | demand => "demand" | seconds_10 => "seconds_10" | other_dataset _ => "unknown"
  end.

(** ** Comparison of policy sets *)
Definition same_dataset (a b : DatabaseStoragePolicy) : bool := bool_decide (dataset a = dataset b).

(** The counting loop over [left]. *)
Fixpoint dataset_count (candidate : DatabaseStoragePolicy) (l : list DatabaseStoragePolicy) : nat :=
  match l with
  | [] => 0
  | peer :: l => (if same_dataset candidate peer then 1 else 0) + dataset_count candidate l
  end.

(** The loop over [right]: its count and the last comparison. *)
Fixpoint right_loop (candidate : DatabaseStoragePolicy) (count : nat) (equal : bool)
    (l : list DatabaseStoragePolicy) : nat * bool :=
  match l with
  | [] => (count, equal)
  | current :: l =>
      if same_dataset candidate current
      then right_loop candidate (S count) (bool_decide (candidate = current)) l
      else right_loop candidate count equal l
  end.

Definition same_database_policies (left right : list DatabaseStoragePolicy) : bool :=
  if negb (Nat.eqb (length left) (length right)) then false
  else forallb (fun candidate =>
    let left_count := dataset_count candidate left in
    let '(right_count, equal) := right_loop candidate 0 false right in
    negb (negb (Nat.eqb left_count 1) || negb (Nat.eqb right_count 1) || negb equal)) left.

(** ** The policy catalog: a map in key order *)
Definition PolicyMap := list DatabaseStoragePolicy.

(** [staged.emplace(policy.dataset, policy)]; [None] when the key is taken. *)
Fixpoint emplace (policy : DatabaseStoragePolicy) (staged : PolicyMap) : option PolicyMap :=
  match staged with
  | [] => Some [policy]
  | p :: rest =>
      if dataset_code (dataset policy) <? dataset_code (dataset p) then Some (policy :: staged)
      else if dataset_code (dataset policy) =? dataset_code (dataset p) then None
      else cons p <$> emplace policy rest
  end.

Fixpoint stage_policies (staged : PolicyMap) (policies : list DatabaseStoragePolicy)
  : result PolicyMap :=
  match policies with
  | [] => Ok staged
  | policy :: policies =>
      validate_database_policy policy ;;
      match emplace policy staged with
      | None => Throw (InvalidArgument "duplicate database policy")
      | Some staged => stage_policies staged policies
      end
  end.

(** [DatabasePolicyManager::apply]: the new catalog, or an exception with the old one kept. *)
Definition manager_apply (policies_ : PolicyMap) (policies : list DatabaseStoragePolicy)
  : result unit * PolicyMap :=
  match stage_policies [] policies with
  | Ok staged => (Ok tt, staged)
  | Throw e => (Throw e, policies_)
  end.

Definition manager_policy (policies_ : PolicyMap) (d : DatabaseDataset)
  : result DatabaseStoragePolicy :=
  match list_find (fun p => dataset_code (dataset p) = dataset_code d) policies_ with
  | Some (_, p) => Ok p
  | None => Throw (InvalidArgument "database policy is not configured")
  end.

Definition manager_policies (policies_ : PolicyMap) : list DatabaseStoragePolicy := policies_.

(** ** The comparison is equality of sets with one policy per dataset *)
Lemma same_dataset_true a b : same_dataset a b = true <-> dataset a = dataset b.
Proof. apply bool_decide_eq_true. Qed.

Lemma same_dataset_refl a : same_dataset a a = true.
Proof. by apply same_dataset_true. Qed.

Lemma dataset_count_zero c l : dataset_count c l = 0%nat <-> ~ In (dataset c) (map dataset l).
Proof.
  induction l as [|p l IH]; simpl; [naive_solver|].
  destruct (same_dataset c p) eqn:E.
  - apply same_dataset_true in E. split; [lia|]. intros []. by left.
  - assert (dataset p <> dataset c) by (intros Hp; symmetry in Hp; apply same_dataset_true in Hp; congruence).
    simpl. rewrite IH. naive_solver.
Qed.

Lemma dataset_count_perm c l l' : Permutation l l' -> dataset_count c l = dataset_count c l'.
Proof. induction 1; simpl; lia. Qed.

Lemma right_loop_count c n e l : fst (right_loop c n e l) = (n + dataset_count c l)%nat.
Proof.
  revert n e. induction l as [|p l IH]; intros n e; simpl; [lia|].
  destruct (same_dataset c p); rewrite IH; lia.
Qed.

Lemma right_loop_none c n e l : dataset_count c l = 0%nat -> right_loop c n e l = (n, e).
Proof.
  induction l as [|p l IH]; simpl; [done|]. destruct (same_dataset c p); [lia|done].
Qed.

Lemma right_loop_found c n e l :
  snd (right_loop c n e l) = true -> dataset_count c l <> 0%nat -> In c l.
Proof.
  revert n e. induction l as [|p l IH]; intros n e; simpl; [done|].
  destruct (same_dataset c p) eqn:E; intros H Hc; [|right; by eapply IH].
  destruct (decide (dataset_count c l = 0%nat)) as [Hz|Hz]; [|right; by eapply IH].
  rewrite right_loop_none in H by done. apply bool_decide_eq_true in H. by left.
Qed.

Lemma right_loop_keep c n e l :
  (forall p, In p l -> same_dataset c p = true -> p = c) -> e = true \/ In c l ->
  snd (right_loop c n e l) = true.
Proof.
  revert n e. induction l as [|p l IH]; intros n e Hu Hin; [by destruct Hin|].
  assert (Hu' : forall q, In q l -> same_dataset c q = true -> q = c)
    by (intros q Hq; apply Hu; by right).
  simpl. destruct (same_dataset c p) eqn:E; apply IH; try done.
  - left. apply bool_decide_eq_true. symmetry. apply Hu; [by left|done].
  - destruct Hin as [|[->|]]; [by left| |by right]. by rewrite same_dataset_refl in E.
Qed.

Lemma dataset_count_NoDup l :
  (forall c, In c l -> dataset_count c l = 1%nat) <-> List.NoDup (map dataset l).
Proof.
  induction l as [|p l IH]; simpl; [split; [constructor|done]|].
  rewrite NoDup_cons_iff, <- IH, <- dataset_count_zero. split.
  - intros H. pose proof (H p (or_introl eq_refl)) as Hp. rewrite same_dataset_refl in Hp.
    split; [lia|]. intros c Hc. specialize (H c (or_intror Hc)).
    destruct (same_dataset c p) eqn:E; [|lia]. exfalso. apply same_dataset_true in E.
    assert (Hz : dataset_count p l = 0%nat) by lia. apply dataset_count_zero in Hz.
    apply Hz. rewrite <- E. by apply in_map.
  - intros [Hp Hl] c [<-|Hc]; [rewrite same_dataset_refl; lia|].
    destruct (same_dataset c p) eqn:E; [|by apply Hl]. exfalso. apply same_dataset_true in E.
    apply dataset_count_zero in Hp. apply Hp. rewrite <- E. by apply in_map.
Qed.

Lemma dataset_inj l a b :
  List.NoDup (map dataset l) -> In a l -> In b l -> dataset a = dataset b -> a = b.
Proof.
  induction l as [|p l IH]; simpl; [done|]. intros [Hp Hd]%NoDup_cons_iff [->|Ha] [->|Hb] E;
    [done| | |by apply IH].
  - destruct Hp. rewrite E. by apply in_map.
  - destruct Hp. rewrite <- E. by apply in_map.
Qed.

(** Two policy sets compare equal exactly when they hold the same policies in any
    order and name no dataset twice: the nested counting loops decide set equality. *)
Theorem same_policies_iff left right :
  same_database_policies left right = true <->
  Permutation left right /\ List.NoDup (map dataset left).
Proof.
  unfold same_database_policies. destruct (Nat.eqb_spec (length left) (length right)) as [Hl|Hl]; simpl.
  2: { split; [done|]. by intros [Hp%Permutation_length _]. }
  rewrite forallb_forall. split.
  - intros H.
    assert (Hone : forall c, In c left -> dataset_count c left = 1%nat /\ In c right).
    { intros c Hc. specialize (H c Hc). pose proof (right_loop_count c 0 false right) as Hn.
      pose proof (right_loop_found c 0 false right) as Hf.
      destruct (right_loop c 0 false right) as [n e]. simpl in *.
      apply negb_true_iff in H. bools. repeat match goal with H : (_ =? _)%nat = true |- _ =>
        apply Nat.eqb_eq in H end. subst e. split; [done|]. apply Hf; [done|lia]. }
    assert (Hd : List.NoDup (map dataset left)) by (apply dataset_count_NoDup; naive_solver).
    split; [|done]. apply NoDup_Permutation_bis; [by eapply NoDup_map_inv|lia|].
    intros c Hc. by apply Hone.
  - intros [Hp Hd] c Hc. pose proof (right_loop_count c 0 false right) as Hn.
    pose proof (right_loop_keep c 0 false right) as Hk.
    destruct (right_loop c 0 false right) as [n e]. simpl in *.
    rewrite <- (dataset_count_perm _ _ _ Hp) in Hn.
    rewrite (proj2 (dataset_count_NoDup left) Hd c Hc) in *. subst n.
    rewrite Hk; [done| |right; by eapply Permutation_in].
    intros p Hpr E. apply same_dataset_true in E.
    eapply dataset_inj; [exact Hd| |done|done]. eapply Permutation_in; [by symmetry|done].
Qed.

(** ** The catalog *)
Definition key (p : DatabaseStoragePolicy) : Z := dataset_code (dataset p).

Lemma emplace_spec policy staged :
  StronglySorted Z.lt (map key staged) ->
  match emplace policy staged with
  | Some staged' => StronglySorted Z.lt (map key staged') /\ Permutation staged' (policy :: staged)
  | None => In (key policy) (map key staged)
  end.
Proof.
  induction staged as [|p rest IH]; simpl; intros Hs; [by repeat constructor|].
  apply StronglySorted_inv in Hs as [Hs Hp].
  destruct (Z.ltb_spec (dataset_code (dataset policy)) (dataset_code (dataset p))) as [H1|H1].
  { split; [|done]. simpl. repeat constructor; [done|done|done|].
    eapply Forall_impl; [|exact Hp]. unfold key in *. simpl. intros. lia. }
  destruct (Z.eqb_spec (dataset_code (dataset policy)) (dataset_code (dataset p))) as [H2|H2].
  { left. done. }
  specialize (IH Hs). destruct (emplace policy rest) as [staged'|]; simpl; [|by right].
  destruct IH as [IHs IHp]. split.
  - constructor; [done|]. rewrite List.Forall_forall. intros k Hk.
    apply (Permutation_in _ (Permutation_map key IHp)) in Hk as [<-|Hk]; [unfold key; lia|].
    rewrite List.Forall_forall in Hp. by apply Hp.
  - rewrite IHp. apply perm_swap.
Qed.

Lemma stage_spec staged policies :
  StronglySorted Z.lt (map key staged) ->
  match stage_policies staged policies with
  | Ok staged' => StronglySorted Z.lt (map key staged') /\ Permutation staged' (policies ++ staged)
                  /\ Forall (fun p => validate_database_policy p = Ok tt) policies
  | Throw _ => Exists (fun p => validate_database_policy p <> Ok tt) policies \/
               ~ List.NoDup (map key (policies ++ staged))
  end.
Proof.
  revert staged. induction policies as [|p policies IH]; intros staged Hs; simpl; [by split_and!|].
  destruct (validate_database_policy p) as [[]|e] eqn:Ev; cbn [mbind result_bind];
    [|left; left; by rewrite Ev].
  pose proof (emplace_spec p staged Hs) as He. destruct (emplace p staged) as [staged1|].
  - destruct He as [Hs1 Hp1]. specialize (IH staged1 Hs1).
    destruct (stage_policies staged1 policies) as [staged'|].
    + destruct IH as (Hs' & Hp' & Hv). split_and!; [done| |by constructor].
      by rewrite Hp', Hp1, <- Permutation_middle.
    + destruct IH as [IH|IH]; [left; by right|right]. contradict IH.
      eapply Permutation_NoDup; [|exact IH].
      change (map key (p :: policies ++ staged) ≡ₚ map key (policies ++ staged1)).
      apply Permutation_map. by rewrite Hp1, <- Permutation_middle.
  - right. simpl. rewrite NoDup_cons_iff. intros [Hn _]. apply Hn.
    rewrite map_app. apply in_or_app. by right.
Qed.

Lemma sorted_NoDup l : StronglySorted Z.lt l -> List.NoDup l.
Proof.
  induction 1 as [|x l _ IH Hx]; constructor; [|done].
  intros Hin. rewrite List.Forall_forall in Hx. specialize (Hx x Hin). lia.
Qed.

(** The policy catalog.  [apply] succeeds exactly when every policy is valid and no
    dataset occurs twice; the catalog then holds exactly the given policies in key order
    and [policy] finds each of them.  Otherwise it throws and the catalog is untouched. *)
Theorem policy_catalog old policies :
  let '(outcome, catalog) := manager_apply old policies in
  (outcome = Ok tt <->
     Forall (fun p => validate_database_policy p = Ok tt) policies /\
     List.NoDup (map key policies)) /\
  (outcome = Ok tt ->
     Permutation (manager_policies catalog) policies /\
     StronglySorted Z.lt (map key catalog) /\
     forall p, In p policies -> manager_policy catalog (dataset p) = Ok p) /\
  (outcome <> Ok tt -> catalog = old).
Proof.
  unfold manager_apply. pose proof (stage_spec [] policies (SSorted_nil _)) as H.
  rewrite app_nil_r in H. destruct (stage_policies [] policies) as [catalog|e].
  - destruct H as (Hs & Hp & Hv). pose proof (sorted_NoDup _ Hs) as Hd.
    split_and!; [|intros _; split_and!|done]; try done.
    + split; [|done]. intros _. split; [done|].
      eapply Permutation_NoDup; [by apply Permutation_map|done].
    + intros p Hin. unfold manager_policy.
      destruct (list_find _ catalog) as [[i q]|] eqn:E.
      * apply list_find_Some in E as (Hi & Hk & _). f_equal.
        apply list_elem_of_lookup_2, list_elem_of_In in Hi.
        apply Permutation_sym in Hp. apply (Permutation_in _ Hp) in Hin.
        clear -Hd Hi Hk Hin. induction catalog as [|x l IH]; [done|].
        simpl in Hd. apply NoDup_cons_iff in Hd as [Hx Hd].
        destruct Hi as [->|Hi], Hin as [->|Hin]; [done| | |by apply IH].
        { destruct Hx. apply in_map_iff. by exists p. }
        { destruct Hx. apply in_map_iff. by exists q. }
      * apply list_find_None in E. exfalso.
        apply Permutation_sym in Hp. apply (Permutation_in _ Hp) in Hin.
        rewrite List.Forall_forall in E. by apply (E p).
  - split_and!; try done. split; [done|]. intros [Hv Hd]. exfalso.
    destruct H as [H|H]; [|done]. apply Exists_exists in H as (p & Hin & Hp).
    rewrite List.Forall_forall in Hv. apply Hp, Hv. done.
Qed.
