(* ===== verification/MeterSpool.v ===== *)
(** * The durable meter spool

    Models [src/common/mnc/MeterDataProvider/stream/durable_meter_spool.cpp]: the ordered
    record stream with independent consumer cursors, its hard byte cap, retention, the
    cursor lease that keeps cursors unique over restarts, and the switch between the
    on-disk and the in-memory database.

    A database is the content of the tables the file creates: [records] in rowid order,
    the [sqlite_sequence] entry of its AUTOINCREMENT key, and [consumers].  A transaction
    of [mnc/storage/sqlite/sqlite_database.cpp] rolls back unless it commits, so an
    operation that throws inside one leaves the content unchanged; whether SQLite
    completes a write is the parameter [io] of an operation, and whether the lease file
    is replaced is [lease_io].  The two mutexes make each call atomic. *)

From Stdlib Require Import Sorted.
From stdpp Require Import gmap.
From S2P Require Import Prelude DatabasePolicy.

(** ** Records and rows *)
Record RecordTimingProvenance := mkProvenance {
  first_sample_index : Z;
  sample_count : Z;
  cycle_count : Z;
  time_quality : Z;
  utc_start_nanoseconds : option Z;
  utc_uncertainty_nanoseconds : option Z }.

Record MeterStreamRecord := mkStreamRecord {
  sr_cursor : Z;
  sr_record_format : Z;
  sr_record_kind : Z;
  sr_measurement_period : Z;
  sr_source_sequence : Z;
  sr_source_fragment : Z;
  sr_configuration_generation : Z;
  sr_ingested_at : Z;
  sr_timing : RecordTimingProvenance;
  sr_payload : list Z }.

(** A row of [records]; the columns are signed 64-bit integers. *)
Record Row := mkRow {
  row_cursor : Z;
  row_format : Z;
  row_kind : Z;
  row_period : Z;
  row_sequence : Z;
  row_fragment : Z;
  row_generation : Z;
  row_ingested : Z;
  row_first_sample : Z;
  row_samples : Z;
  row_cycles : Z;
  row_quality : Z;
  row_utc_start : Z;
  row_utc_uncertainty : Z;
  row_payload : list Z }.

#[export] Instance Row_eq_dec : EqDecision Row.
Proof. solve_decision. Defined.

Definition optional_signed (value : option Z) : Z := default INT64_MIN value.

Definition optional_unsigned (value : option Z) : result Z :=
  match value with
  | None => Ok INT64_MIN
  | Some v =>
      reject_if (INT64_MAX <? v) (OverflowError "timestamp uncertainty exceeds SQLite range") ;; Ok v
  end.

(** [from_optional_integer<T>]; [cast] is the conversion to [T]. *)
Definition from_optional_integer (cast : Z -> Z) (value : Z) : option Z :=
  if value =? INT64_MIN then None else Some (cast value).

(** [Statement::bind(int, std::uint64_t)] *)
Definition bind_unsigned (value : Z) : result Z :=
  reject_if (INT64_MAX <? value) (OverflowError "SQLite integer exceeds signed 64-bit range") ;;
  Ok value.

(** The columns of the UNIQUE constraint. *)
Definition row_key (r : Row) : Z * Z * Z * Z * Z :=
  (row_format r, row_generation r, row_sequence r, row_fragment r, row_first_sample r).

Definition record_key (r : MeterStreamRecord) : Z * Z * Z * Z * Z :=
  (sr_record_format r, sr_configuration_generation r, sr_source_sequence r, sr_source_fragment r,
   first_sample_index (sr_timing r)).

(** The row the bindings of [insert] describe, under a given cursor. *)
Definition row_of_record (r : MeterStreamRecord) (cursor : Z) : result Row :=
  sequence ← bind_unsigned (sr_source_sequence r);
  first ← bind_unsigned (first_sample_index (sr_timing r));
  uncertainty ← optional_unsigned (utc_uncertainty_nanoseconds (sr_timing r));
  Ok (mkRow cursor (sr_record_format r) (sr_record_kind r) (sr_measurement_period r)
        sequence (sr_source_fragment r) (sr_configuration_generation r) (sr_ingested_at r)
        first (sample_count (sr_timing r)) (cycle_count (sr_timing r))
        (time_quality (sr_timing r)) (optional_signed (utc_start_nanoseconds (sr_timing r)))
        uncertainty (sr_payload r)).

(** The body of the read loop: a row converted back. *)
Definition record_of_row (r : Row) : MeterStreamRecord :=
  mkStreamRecord (u64 (row_cursor r)) (u32 (row_format r)) (u16 (row_kind r)) (u8 (row_period r))
    (u64 (row_sequence r)) (u16 (row_fragment r)) (u32 (row_generation r)) (row_ingested r)
    (mkProvenance (u64 (row_first_sample r)) (u32 (row_samples r)) (u32 (row_cycles r))
       (u8 (row_quality r)) (from_optional_integer (fun v => v) (row_utc_start r))
       (from_optional_integer u64 (row_utc_uncertainty r)))
    (row_payload r).

(** ** Databases *)
Record Consumer := mkConsumer { acknowledged_cursor : Z; updated_at : Z }.

Record Database := mkDatabase {
  db_records : list Row;              (** in rowid order *)
  db_sequence : option Z;             (** the [sqlite_sequence] row of [records] *)
  db_consumers : gmap string Consumer }.

Definition empty_database : Database := mkDatabase [] None ∅.

(** [LENGTH(payload)+128] *)
Definition row_bytes (r : Row) : Z := Z.of_nat (length (row_payload r)) + 128.

(** [SELECT COALESCE(SUM(LENGTH(payload)+128),0) FROM records] *)
Definition rows_bytes (rows : list Row) : Z := foldr (fun r acc => row_bytes r + acc) 0 rows.

(** [SELECT COALESCE(MAX(cursor),0) FROM records], also the largest rowid. *)
Definition max_cursor (rows : list Row) : Z := foldr (fun r acc => Z.max (row_cursor r) acc) 0 rows.

(** [SELECT COALESCE(MIN(cursor),0) FROM records] *)
Definition min_cursor (rows : list Row) : Z :=
  match rows with
  | [] => 0
  | r :: rows => foldr (fun r acc => Z.min (row_cursor r) acc) (row_cursor r) rows
  end.

(** [SELECT COALESCE(MIN(acknowledged_cursor),0) FROM consumers]; a NULL read with
    [integer] is 0 as well. *)
Definition min_acknowledged (consumers : gmap string Consumer) : Z :=
  match map (fun c => acknowledged_cursor c.2) (map_to_list consumers) with
  | [] => 0
  | a :: rest => foldr Z.min a rest
  end.

(** AUTOINCREMENT: one more than the sequence and than every rowid, or SQLITE_FULL. *)
Definition next_rowid (db : Database) : result Z :=
  let last := Z.max (default 0 (db_sequence db)) (max_cursor (db_records db)) in
  reject_if (INT64_MAX <=? last) (RuntimeError "step SQLite statement: database or disk is full") ;;
  Ok (last + 1).

(** ** The spool *)
Record Impl := mkImpl {
  im_policy : DatabaseStoragePolicy;
  im_memory : Database;               (** the [:memory:] database, when that is the backend *)
  im_session_start_cursor : Z;
  im_cursor_lease : Z;
  im_tracked_payload_bytes : Z;
  im_dropped_unacknowledged : Z }.

(** What survives a restart: the database file and the lease file, whose value is 0
    when it is absent or unreadable. *)
Record Disk := mkDisk { dk_file : Database; dk_lease : Z }.

Record Spool := mkSpool { sp_impl : Impl; sp_disk : Disk }.

Definition database_of (policy : DatabaseStoragePolicy) (memory_ : Database) (disk : Disk) : Database :=
  if bool_decide (backend policy = memory) then memory_ else dk_file disk.

Definition database (s : Spool) : Database :=
  database_of (im_policy (sp_impl s)) (im_memory (sp_impl s)) (sp_disk s).

Definition with_database (db : Database) (s : Spool) : Spool :=
  let i := sp_impl s in
  if bool_decide (backend (im_policy i) = memory) then
    mkSpool (mkImpl (im_policy i) db (im_session_start_cursor i) (im_cursor_lease i)
               (im_tracked_payload_bytes i) (im_dropped_unacknowledged i)) (sp_disk s)
  else mkSpool i (mkDisk db (dk_lease (sp_disk s))).

Definition with_records (rows : list Row) (db : Database) : Database :=
  mkDatabase rows (db_sequence db) (db_consumers db).

Definition with_accounting (tracked dropped : Z) (s : Spool) : Spool :=
  let i := sp_impl s in
  mkSpool (mkImpl (im_policy i) (im_memory i) (im_session_start_cursor i) (im_cursor_lease i)
             tracked dropped) (sp_disk s).

Definition cursor_lease_reservation : Z := 2 ^ 31.
Definition cursor_lease_renewal_margin : Z := 2 ^ 30.

(** Temp file, fsync, rename: the new value or the old one. *)
Definition write_cursor_lease (lease_io : bool) (value : Z) (disk : Disk) : bool * Disk :=
  if lease_io then (true, mkDisk (dk_file disk) value) else (false, disk).

(** ** Opening *)

(** [seed_cursor_space] without the lease write: the database and the seed. *)
Definition seed_cursor_space (db : Database) (lease clock_ms : Z) : result (Database * Z) :=
  let newest := u64 (max_cursor (db_records db)) in
  let seed := Z.max lease newest in
  let seed := if lease =? 0 then Z.max seed (u64 clock_ms) else seed in
  seed ← bind_unsigned seed;
  let sequence := match db_sequence db with
                  | None => seed
                  | Some q => if q <? seed then seed else q
                  end in
  Ok (mkDatabase (db_records db) (Some sequence) (db_consumers db), seed).

Definition check_spool_policy (policy : DatabaseStoragePolicy) : result unit :=
  validate_database_policy policy ;;
  require (bool_decide (dataset policy = raw_record_spool))
    (InvalidArgument "spool policy has the wrong dataset").

(** The constructor of [Impl] on what the disk holds. *)
Definition open_spool (policy : DatabaseStoragePolicy) (disk : Disk) (clock_ms : Z)
    (lease_io : bool) : result Spool :=
  check_spool_policy policy ;;
  '(db, seed) ← seed_cursor_space (database_of policy empty_database disk) (dk_lease disk) clock_ms;
  let lease := u64 (seed + cursor_lease_reservation) in
  let '(_, disk) := write_cursor_lease lease_io lease disk in
  let tracked := u64 (rows_bytes (db_records db)) in
  Ok (with_database db (mkSpool (mkImpl policy empty_database seed lease tracked 0) disk)).

Definition renew_cursor_lease (lease_io : bool) (s : Spool) : Spool :=
  let i := sp_impl s in
  let newest := u64 (max_cursor (db_records (database s))) in
  if u64 (newest + cursor_lease_renewal_margin) <? im_cursor_lease i then s
  else
    let renewed := u64 (newest + cursor_lease_reservation) in
    let '(written, disk) := write_cursor_lease lease_io renewed (sp_disk s) in
    mkSpool (if written
             then mkImpl (im_policy i) (im_memory i) (im_session_start_cursor i) renewed
                    (im_tracked_payload_bytes i) (im_dropped_unacknowledged i)
             else i) disk.

(** ** Publishing *)

(** The variables of the insert loop. *)
Record Publication := mkPublication {
  pb_database : Database;
  pb_cursors : list Z;
  pb_inserted_bytes : Z;
  pb_first_inserted_cursor : Z }.

(** The [existing] query. *)
Definition find_existing (rows : list Row) (r : MeterStreamRecord) : option Row :=
  snd <$> list_find (fun row => row_key row = record_key r) rows.

Definition publish_record (r : MeterStreamRecord) (p : Publication) : result Publication :=
  let db := pb_database p in
  bind_unsigned (sr_source_sequence r) ;;
  bind_unsigned (first_sample_index (sr_timing r)) ;;
  match find_existing (db_records db) r with
  | Some row =>
      Ok (mkPublication db (pb_cursors p ++ [u64 (row_cursor row)]) (pb_inserted_bytes p)
            (pb_first_inserted_cursor p))
  | None =>
      cursor ← next_rowid db;
      row ← row_of_record r cursor;
      Ok (mkPublication (mkDatabase (db_records db ++ [row]) (Some cursor) (db_consumers db))
            (pb_cursors p ++ [u64 cursor])
            (u64 (pb_inserted_bytes p + row_bytes row))
            (if pb_first_inserted_cursor p =? 0 then u64 cursor else pb_first_inserted_cursor p))
  end.

Fixpoint publish_loop (records : list MeterStreamRecord) (p : Publication) : result Publication :=
  match records with
  | [] => Ok p
  | r :: records => p ← publish_record r p; publish_loop records p
  end.

(** The eviction loop of the hard cap over the [victims] rows:
    bytes removed, last cursor removed, unacknowledged rows removed. *)
Fixpoint evict (victims : list Row) (projected limit acknowledged removed through lost : Z)
  : Z * Z * Z :=
  if u64 (projected - removed) <=? limit then (removed, through, lost)
  else match victims with
       | [] => (removed, through, lost)
       | r :: victims =>
           let cursor := u64 (row_cursor r) in
           evict victims projected limit acknowledged (u64 (removed + row_bytes r)) cursor
             (if acknowledged <? cursor then u64 (lost + 1) else lost)
       end.

(** [DELETE FROM records WHERE cursor<=?] *)
Definition delete_through (through : Z) (rows : list Row) : list Row :=
  List.filter (fun r => negb (row_cursor r <=? through)) rows.

(** [WHERE cursor<?] and [WHERE cursor<=?] *)
Definition rows_below (cursor : Z) (rows : list Row) : list Row :=
  List.filter (fun r => row_cursor r <? cursor) rows.
Definition rows_through (cursor : Z) (rows : list Row) : list Row :=
  List.filter (fun r => row_cursor r <=? cursor) rows.

(** The hard cap: what is evicted from the database the loop left. *)
Definition enforce_cap (limit : option Z) (projected : Z) (p : Publication) : Z * Z * Z :=
  match limit with
  | Some limit =>
      if negb (pb_inserted_bytes p =? 0) && (limit <? projected) then
        evict (rows_below (pb_first_inserted_cursor p) (db_records (pb_database p))) projected limit
          (u64 (min_acknowledged (db_consumers (pb_database p)))) 0 0 0
      else (0, 0, 0)
  | None => (0, 0, 0)
  end.

Definition publish_records (records : list MeterStreamRecord) (io : bool) (s : Spool)
  : result (list Z * Spool) :=
  let i := sp_impl s in
  reject_if (Nat.eqb (length records) 0 || (256 <? length records)%nat)
    (InvalidArgument "meter stream publish batch must contain 1..256 records") ;;
  reject_if (existsb (fun r => Nat.eqb (length (sr_payload r)) 0) records)
    (InvalidArgument "meter stream record payload is empty") ;;
  p ← publish_loop records (mkPublication (database s) [] 0 0);
  let projected := u64 (im_tracked_payload_bytes i + pb_inserted_bytes p) in
  let '(removed, through, lost) :=
    enforce_cap (maximum_bytes (retention (im_policy i))) projected p in
  let db := pb_database p in
  let db := if negb (through =? 0) then with_records (delete_through through (db_records db)) db
            else db in
  require io (RuntimeError "execute SQLite statement") ;;
  Ok (pb_cursors p,
      with_accounting (u64 (projected - Z.min projected removed))
        (u64 (im_dropped_unacknowledged i + lost)) (with_database db s)).

(** [publish]: one record, one cursor. *)
Definition publish (record : MeterStreamRecord) (io : bool) (s : Spool) : result (Z * Spool) :=
  '(cursors, s) ← publish_records [record] io s;
  match cursors with
  | [] => Throw (UndefinedBehaviour "front of an empty vector")
  | cursor :: _ => Ok (cursor, s)
  end.

(** ** Consumers *)
Definition with_consumers (consumers : gmap string Consumer) (s : Spool) : Spool :=
  with_database (mkDatabase (db_records (database s)) (db_sequence (database s)) consumers) s.

Definition register_consumer (name : string) (now : Z) (io : bool) (s : Spool) : result Spool :=
  reject_if (String.eqb name "") (InvalidArgument "meter stream consumer name is empty") ;;
  require io (RuntimeError "step SQLite statement") ;;
  let consumers := db_consumers (database s) in
  Ok (with_consumers (<[name := mkConsumer
        (match consumers !! name with Some c => acknowledged_cursor c | None => 0 end) now]>
        consumers) s).

Definition unregister_consumer (name : string) (io : bool) (s : Spool) : result Spool :=
  reject_if (String.eqb name "") (InvalidArgument "meter stream consumer name is empty") ;;
  require io (RuntimeError "step SQLite statement") ;;
  Ok (with_consumers (delete name (db_consumers (database s))) s).

(** [WHERE cursor>? ORDER BY cursor] *)
Definition rows_after (cursor : Z) (rows : list Row) : list Row :=
  List.filter (fun r => cursor <? row_cursor r) rows.

Definition read_after (name : string) (limit : Z) (s : Spool) : result (list MeterStreamRecord) :=
  reject_if ((limit =? 0) || (4096 <? limit))
    (InvalidArgument "meter stream read limit must be 1..4096") ;;
  match db_consumers (database s) !! name with
  | None => Throw (InvalidArgument "meter stream consumer is not registered")
  | Some c =>
      Ok (map record_of_row
            (take (Z.to_nat limit) (rows_after (acknowledged_cursor c) (db_records (database s)))))
  end.

Definition acknowledge (name : string) (cursor : Z) (now : Z) (io : bool) (s : Spool) : result Spool :=
  reject_if (u64 (max_cursor (db_records (database s))) <? cursor)
    (InvalidArgument "consumer acknowledgement exceeds stream head") ;;
  cursor ← bind_unsigned cursor;
  require io (RuntimeError "step SQLite statement") ;;
  match db_consumers (database s) !! name with
  | None => Throw (InvalidArgument "meter stream consumer is not registered")
  | Some c =>
      Ok (with_consumers (<[name := mkConsumer (Z.max (acknowledged_cursor c) cursor) now]>
            (db_consumers (database s))) s)
  end.

(** ** Retention *)

(** The age half: rows every consumer acknowledged and that are older than the cutoff. *)
Definition expired (acknowledged cutoff : Z) (r : Row) : bool :=
  (row_cursor r <=? acknowledged) && (row_ingested r <? cutoff).

Definition prune_age (age acknowledged now : Z) (io : bool) (s : Spool) : result Spool :=
  nanoseconds ← signed64 (age * 1000000000);
  cutoff ← signed64 (now - nanoseconds);
  let rows := db_records (database s) in
  let removed := u64 (rows_bytes (List.filter (expired acknowledged cutoff) rows)) in
  require io (RuntimeError "step SQLite statement") ;;
  let i := sp_impl s in
  let tracked := im_tracked_payload_bytes i in
  Ok (with_accounting (u64 (tracked - Z.min tracked removed)) (im_dropped_unacknowledged i)
        (with_database (with_records (List.filter (fun r => negb (expired acknowledged cutoff r)) rows)
           (database s)) s)).

(** The loop over [eligible]: bytes left and the last cursor to remove. *)
Fixpoint prune_loop (eligible : list Row) (limit bytes through : Z) : Z * Z :=
  if bytes <=? limit then (bytes, through)
  else match eligible with
       | [] => (bytes, through)
       | r :: eligible =>
           prune_loop eligible limit (u64 (bytes - Z.min bytes (u64 (row_bytes r))))
             (u64 (row_cursor r))
       end.

Definition prune_bytes (limit acknowledged : Z) (io : bool) (s : Spool) : result Spool :=
  let i := sp_impl s in
  if limit <? im_tracked_payload_bytes i then
    let rows := db_records (database s) in
    let '(bytes, through) :=
      prune_loop (rows_through acknowledged rows) limit (im_tracked_payload_bytes i) 0 in
    if negb (through =? 0) then
      require io (RuntimeError "step SQLite statement") ;;
      Ok (with_accounting bytes (im_dropped_unacknowledged i)
            (with_database (with_records (delete_through through rows) (database s)) s))
    else Ok s
  else Ok s.

(** Each pass commits on its own, so a failure keeps what was done before it. *)
Definition prune_passes (age limit : option Z) (now : Z) (io_age io_bytes : bool) (s : Spool)
  : result unit * Spool :=
  let acknowledged := min_acknowledged (db_consumers (database s)) in
  match (match age with Some age => prune_age age acknowledged now io_age s | None => Ok s end) with
  | Throw e => (Throw e, s)
  | Ok s =>
      match (match limit with Some limit => prune_bytes limit acknowledged io_bytes s
                         | None => Ok s end) with
      | Throw e => (Throw e, s)
      | Ok s => (Ok tt, s)
      end
  end.

Definition prune (now : Z) (lease_io io_age io_bytes : bool) (s : Spool) : result unit * Spool :=
  let s := renew_cursor_lease lease_io s in
  let keep := retention (im_policy (sp_impl s)) in
  match maximum_age keep, maximum_bytes keep with
  | None, None => (Ok tt, s)
  | age, limit => prune_passes age limit now io_age io_bytes s
  end.

(** ** Status and policy *)
Record StreamStatus := mkStatus {
  st_durability : bool;
  st_oldest_cursor : Z;
  st_newest_cursor : Z;
  st_record_count : Z;
  st_storage_bytes : Z;
  st_session_start_cursor : Z;
  st_dropped_unacknowledged_records : Z;
  st_consumers : gmap string Z }.

(** [family_size] is the size of the database files on disk. *)
Definition status (family_size : Z) (s : Spool) : StreamStatus :=
  let db := database s in
  let durable := bool_decide (backend (im_policy (sp_impl s)) = persistent) in
  mkStatus durable (u64 (min_cursor (db_records db))) (u64 (max_cursor (db_records db)))
    (Z.of_nat (length (db_records db))) (if durable then family_size else 0)
    (im_session_start_cursor (sp_impl s)) (im_dropped_unacknowledged (sp_impl s))
    ((fun c => u64 (acknowledged_cursor c)) <$> db_consumers db).

(** [INSERT OR IGNORE] of a row with its cursor, in rowid order. *)
Fixpoint insert_row (row : Row) (rows : list Row) : list Row :=
  match rows with
  | [] => [row]
  | r :: rest => if row_cursor row <? row_cursor r then row :: rows else r :: insert_row row rest
  end.

Definition insert_or_ignore (db : Database) (row : Row) : Database :=
  if existsb (fun r => (row_cursor r =? row_cursor row) || bool_decide (row_key r = row_key row))
       (db_records db)
  then db
  else mkDatabase (insert_row row (db_records db))
         (Some (Z.max (default 0 (db_sequence db)) (row_cursor row))) (db_consumers db).

(** The consumer upsert of the copy. *)
Definition copy_consumer (consumers : gmap string Consumer) (entry : string * Consumer)
  : gmap string Consumer :=
  let '(name, c) := entry in
  <[name := mkConsumer (match consumers !! name with
                        | Some old => Z.max (acknowledged_cursor old) (acknowledged_cursor c)
                        | None => acknowledged_cursor c
                        end) (updated_at c)]> consumers.

(** The transaction of [apply_policy] on the replacement database. *)
Definition copy_database (source target : Database) : Database :=
  let target := mkDatabase [] (db_sequence target) ∅ in
  let target := fold_left insert_or_ignore (db_records source) target in
  mkDatabase (db_records target) (db_sequence target)
    (fold_left copy_consumer (map_to_list (db_consumers source)) (db_consumers target)).

Definition with_policy (policy : DatabaseStoragePolicy) (s : Spool) : Spool :=
  let i := sp_impl s in
  mkSpool (mkImpl policy (im_memory i) (im_session_start_cursor i) (im_cursor_lease i)
             (im_tracked_payload_bytes i) (im_dropped_unacknowledged i)) (sp_disk s).

(** The replacement is opened (which seeds its cursors and writes the lease) before the
    copy; a copy that fails keeps the running spool over the disk as the opening left it. *)
Definition apply_policy (policy : DatabaseStoragePolicy) (clock_ms : Z) (lease_io io : bool)
    (s : Spool) : result unit * Spool :=
  match check_spool_policy policy with
  | Throw e => (Throw e, s)
  | Ok _ =>
      if bool_decide (backend policy = backend (im_policy (sp_impl s))) then (Ok tt, with_policy policy s)
      else
        match open_spool policy (sp_disk s) clock_ms lease_io with
        | Throw e => (Throw e, s)
        | Ok replacement =>
            if io then
              let db := copy_database (database s) (database replacement) in
              (Ok tt, with_accounting (u64 (rows_bytes (db_records db)))
                        (im_dropped_unacknowledged (sp_impl s)) (with_database db replacement))
            else (Throw (RuntimeError "execute SQLite statement"),
                  mkSpool (sp_impl s) (sp_disk replacement))
        end
  end.
