(* ===== verification/SpoolTheorems.v ===== *)
(** * Correctness of the durable meter spool

    The invariant of a spool and its preservation, what publishing, reading,
    acknowledging, pruning and switching the backend do to the stream, and the
    uniqueness of cursors over restarts. *)

From Stdlib Require Import Sorted Permutation.
From stdpp Require Import gmap.
From S2P Require Import Prelude DatabasePolicy MeterSpool.

(** ** Well-formed databases *)
Definition sequence (db : Database) : Z := default 0 (db_sequence db).

Record db_ok (db : Database) : Prop := {
  ok_sorted : StronglySorted Z.lt (map row_cursor (db_records db));
  ok_rows : Forall (fun r => 0 < row_cursor r <= sequence db) (db_records db);
  ok_sequence : 0 <= sequence db <= INT64_MAX;
  ok_keys : NoDup (map row_key (db_records db));
  ok_consumers : map_Forall (fun _ c => 0 <= acknowledged_cursor c <= sequence db) (db_consumers db) }.

(** What holds of a running spool: both databases are well formed and the byte
    counter is the size of the stream. *)
Record spool_inv (s : Spool) : Prop := {
  inv_active : db_ok (database s);
  inv_file : db_ok (dk_file (sp_disk s));
  inv_tracked : im_tracked_payload_bytes (sp_impl s) = rows_bytes (db_records (database s));
  inv_size : rows_bytes (db_records (database s)) < 2 ^ 64;
  inv_file_size : rows_bytes (db_records (dk_file (sp_disk s))) < 2 ^ 64;
  inv_policy : check_spool_policy (im_policy (sp_impl s)) = Ok tt }.

Lemma INT64_MAX_pow : INT64_MAX = 2 ^ 63 - 1.
Proof. reflexivity. Qed.

Lemma cursor_u64 db r : db_ok db -> r ∈ db_records db -> u64 (row_cursor r) = row_cursor r.
Proof.
  intros [_ Hr Hs _ _] Hin%list_elem_of_In. rewrite List.Forall_forall in Hr.
  specialize (Hr r Hin). rewrite INT64_MAX_pow in Hs. apply wrap_id. lia.
Qed.

Lemma empty_database_ok : db_ok empty_database.
Proof.
  by constructor; simpl; try constructor.
Qed.

(** *** Accessors of an updated spool *)
Lemma database_with_database db s : database (with_database db s) = db.
Proof.
  unfold with_database. destruct (bool_decide (backend (im_policy (sp_impl s)) = memory)) eqn:E;
    unfold database, database_of; simpl; by rewrite E.
Qed.

Lemma database_with_accounting t d s : database (with_accounting t d s) = database s.
Proof. done. Qed.

Lemma impl_with_database db s :
  im_policy (sp_impl (with_database db s)) = im_policy (sp_impl s) /\
  im_tracked_payload_bytes (sp_impl (with_database db s)) = im_tracked_payload_bytes (sp_impl s) /\
  im_dropped_unacknowledged (sp_impl (with_database db s)) = im_dropped_unacknowledged (sp_impl s) /\
  im_cursor_lease (sp_impl (with_database db s)) = im_cursor_lease (sp_impl s) /\
  dk_lease (sp_disk (with_database db s)) = dk_lease (sp_disk s).
Proof. unfold with_database. by destruct (bool_decide _). Qed.

(** The file behind an updated spool is the new database or the old file. *)
Lemma file_with_database (P : Database -> Prop) db s :
  P db -> P (dk_file (sp_disk s)) -> P (dk_file (sp_disk (with_database db s))).
Proof. intros. unfold with_database. by destruct (bool_decide _). Qed.

(** *** Sums and maxima *)
Lemma rows_bytes_app a b : rows_bytes (a ++ b) = rows_bytes a + rows_bytes b.
Proof. induction a as [|r a IH]; simpl; lia. Qed.

Lemma row_bytes_pos r : 128 <= row_bytes r.
Proof. unfold row_bytes. lia. Qed.

Lemma rows_bytes_nonneg rows : 0 <= rows_bytes rows.
Proof. induction rows as [|r rows IH]; simpl; [lia|]. pose proof (row_bytes_pos r). lia. Qed.

Lemma rows_bytes_filter f rows :
  rows_bytes (List.filter f rows) + rows_bytes (List.filter (fun r => negb (f r)) rows) =
  rows_bytes rows.
Proof. induction rows as [|r rows IH]; simpl; [done|]. destruct (f r); simpl; lia. Qed.

Lemma max_cursor_nonneg rows : 0 <= max_cursor rows.
Proof. induction rows; simpl; lia. Qed.

Lemma max_cursor_le b rows :
  0 <= b -> Forall (fun r => row_cursor r <= b) rows -> max_cursor rows <= b.
Proof. induction 2; simpl; lia. Qed.

Lemma max_cursor_in r rows : r ∈ rows -> row_cursor r <= max_cursor rows.
Proof. induction 1; simpl; lia. Qed.

Lemma max_cursor_sequence db : db_ok db -> 0 <= max_cursor (db_records db) <= sequence db.
Proof.
  intros [_ Hr Hs _ _]. split; [apply max_cursor_nonneg|]. apply max_cursor_le; [lia|].
  eapply Forall_impl; [|exact Hr]. simpl. lia.
Qed.

Lemma max_cursor_u64 db : db_ok db -> u64 (max_cursor (db_records db)) = max_cursor (db_records db).
Proof.
  intros Hd. pose proof (max_cursor_sequence db Hd). destruct Hd. rewrite INT64_MAX_pow in *.
  apply wrap_id. lia.
Qed.

(** *** Sorted rows *)
Lemma sorted_app_lt a b x y :
  StronglySorted Z.lt (map row_cursor (a ++ b)) -> x ∈ a -> y ∈ b -> row_cursor x < row_cursor y.
Proof.
  induction a as [|r a IH]; simpl; intros Hs Hx Hy; [by apply not_elem_of_nil in Hx|].
  apply StronglySorted_inv in Hs as [Hs Hr]. apply elem_of_cons in Hx as [->|Hx]; [|by apply IH].
  rewrite List.Forall_forall in Hr. apply Hr, in_map, list_elem_of_In, elem_of_app. by right.
Qed.

Lemma sorted_app_r a b :
  StronglySorted Z.lt (map row_cursor (a ++ b)) -> StronglySorted Z.lt (map row_cursor b).
Proof. induction a; [done|]. simpl. intros [? _]%StronglySorted_inv. auto. Qed.

Lemma sorted_filter f rows :
  StronglySorted Z.lt (map row_cursor rows) ->
  StronglySorted Z.lt (map row_cursor (List.filter f rows)).
Proof.
  induction rows as [|r rows IH]; simpl; [done|]. intros [Hs Hr]%StronglySorted_inv.
  destruct (f r); [|auto]. simpl. constructor; [auto|].
  rewrite List.Forall_forall in *. intros c (x & <- & Hx)%in_map_iff.
  apply filter_In in Hx as [Hx _]. by apply Hr, in_map.
Qed.

Lemma sorted_snoc rows row :
  StronglySorted Z.lt (map row_cursor rows) ->
  Forall (fun r => row_cursor r < row_cursor row) rows ->
  StronglySorted Z.lt (map row_cursor (rows ++ [row])).
Proof.
  induction rows as [|r rows IH]; simpl; [by repeat constructor|].
  intros [Hs Hr]%StronglySorted_inv [Hlt Hall]%List.Forall_cons_iff. constructor; [auto|].
  rewrite map_app. apply Forall_app. split; [done|]. by repeat constructor.
Qed.

Lemma NoDup_keys_filter f rows :
  NoDup (map row_key rows) -> NoDup (map row_key (List.filter f rows)).
Proof.
  induction rows as [|r rows IH]; simpl; [done|]. intros [Hr Hd]%list.NoDup_cons.
  destruct (f r); [|auto]. simpl. apply list.NoDup_cons. split; [|auto].
  intros Hin. apply Hr. apply list_elem_of_In, in_map_iff in Hin as (x & <- & Hx).
  apply filter_In in Hx as [Hx _]. by apply list_elem_of_In, in_map.
Qed.

(** A database keeps its form when rows go. *)
Lemma db_ok_filter f db :
  db_ok db -> db_ok (with_records (List.filter f (db_records db)) db).
Proof.
  intros [H1 H2 H3 H4 H5]. constructor; simpl; try done.
  - by apply sorted_filter.
  - rewrite List.Forall_forall in *. intros r [Hr _]%filter_In. by apply H2.
  - by apply NoDup_keys_filter.
Qed.

(** Deleting through the last cursor of a prefix deletes that prefix. *)
Lemma delete_through_prefix a x b :
  StronglySorted Z.lt (map row_cursor ((a ++ [x]) ++ b)) ->
  delete_through (row_cursor x) ((a ++ [x]) ++ b) = b.
Proof.
  intros Hs. unfold delete_through. rewrite List.filter_app.
  replace (List.filter _ (a ++ [x])) with (@nil Row); simpl.
  - assert (Hb : forall y, y ∈ b -> row_cursor x < row_cursor y).
    { intros y Hy. eapply sorted_app_lt; [exact Hs| |exact Hy]. apply elem_of_app. right.
      by apply list_elem_of_singleton. }
    clear Hs. induction b as [|y b IH]; [done|]. simpl.
    pose proof (Hb y ltac:(apply list_elem_of_here)). rewrite (proj2 (Z.leb_gt _ _)) by lia. simpl.
    f_equal. apply IH. intros z Hz. apply Hb. by right.
  - symmetry. assert (Ha : forall y, y ∈ a ++ [x] -> row_cursor y <= row_cursor x).
    { intros y [Hy| ->%list_elem_of_singleton]%elem_of_app; [|done].
      rewrite <- app_assoc in Hs. pose proof (sorted_app_lt _ _ y x Hs Hy ltac:(left)). lia. }
    revert Ha. generalize (a ++ [x]). intros l Ha. induction l as [|y l IH]; [done|]. simpl.
    pose proof (Ha y ltac:(apply list_elem_of_here)). rewrite (proj2 (Z.leb_le _ _)) by lia. simpl.
    apply IH. intros z Hz. apply Ha. by right.
Qed.

(** ** The insert loop *)
Lemma bind_unsigned_Ok v w : bind_unsigned v = Ok w <-> v <= INT64_MAX /\ w = v.
Proof.
  unfold bind_unsigned, reject_if. destruct (Z.ltb_spec INT64_MAX v); simpl; split;
    try (intros [= <-]; lia); try lia; try discriminate. intros [_ ->]. done.
Qed.

Lemma row_of_record_spec r c row :
  row_of_record r c = Ok row ->
  row_cursor row = c /\ row_key row = record_key r /\ row_payload row = sr_payload r.
Proof.
  unfold row_of_record. intros H. inv_ok H.
  repeat match goal with H : bind_unsigned _ = Ok _ |- _ => apply bind_unsigned_Ok in H as [_ ->] end.
  done.
Qed.

Lemma next_rowid_spec db c :
  db_ok db -> next_rowid db = Ok c -> c = sequence db + 1 /\ c <= INT64_MAX.
Proof.
  intros Hd H. pose proof (max_cursor_sequence db Hd). unfold next_rowid in H. inv_ok H.
  fold (sequence db) in *. rewrite Z.max_l in * by lia. bools. lia.
Qed.

Lemma db_ok_snoc db row c :
  db_ok db -> c = sequence db + 1 -> c <= INT64_MAX -> row_cursor row = c ->
  row_key row ∉ map row_key (db_records db) ->
  db_ok (mkDatabase (db_records db ++ [row]) (Some c) (db_consumers db)).
Proof.
  intros [H1 H2 H3 H4 H5] -> Hc Er Hk.
  constructor; simpl; rewrite ?Er; unfold sequence in *; simpl.
  - apply sorted_snoc; [done|]. eapply Forall_impl; [|exact H2]. simpl. lia.
  - apply Forall_app. split; [|repeat constructor; simpl; lia].
    eapply Forall_impl; [|exact H2]. simpl. lia.
  - lia.
  - rewrite map_app. simpl. apply list.NoDup_app. split_and!; [done| |apply NoDup_singleton].
    intros k Hin ->%list_elem_of_singleton. done.
  - eapply map_Forall_impl; [exact H5|]. simpl. lia.
Qed.

Lemma find_existing_Some rows r row :
  find_existing rows r = Some row -> row ∈ rows /\ row_key row = record_key r.
Proof.
  unfold find_existing. destruct (list_find _ rows) as [[i x]|] eqn:E; [|done].
  intros [= <-]. apply list_find_Some in E as (Hi & Hk & _).
  split; [by eapply list_elem_of_lookup_2|done].
Qed.

Lemma find_existing_None rows r :
  find_existing rows r = None -> record_key r ∉ map row_key rows.
Proof.
  unfold find_existing. destruct (list_find _ rows) as [[i x]|] eqn:E; [done|]. intros _.
  apply list_find_None in E. intros Hin.
  apply list_elem_of_In, in_map_iff in Hin as (x & Ex & Hx).
  rewrite List.Forall_forall in E. by apply (E x).
Qed.

(** A row that carries the record [r] under the cursor [c]. *)
Definition carries (r : MeterStreamRecord) (c : Z) (row : Row) : Prop :=
  row_cursor row = c /\ row_key row = record_key r.

(** The bytes a batch takes if none of its records is known yet. *)
Definition batch_bytes (records : list MeterStreamRecord) : Z :=
  foldr (fun r acc => Z.of_nat (length (sr_payload r)) + 128 + acc) 0 records.

Lemma batch_bytes_app a b : batch_bytes (a ++ b) = batch_bytes a + batch_bytes b.
Proof. induction a as [|r a IH]; simpl; lia. Qed.

(** The records of a batch that are new: those whose identity is not among [known] and
    not that of an earlier record of the batch, in the order of the batch. *)
Fixpoint new_records (known : list (Z * Z * Z * Z * Z)) (records : list MeterStreamRecord)
  : list MeterStreamRecord :=
  match records with
  | [] => []
  | r :: records =>
      if decide (record_key r ∈ known) then new_records known records
      else r :: new_records (known ++ [record_key r]) records
  end.

Lemma new_records_app known a b :
  new_records known (a ++ b) =
  new_records known a ++ new_records (known ++ map record_key (new_records known a)) b.
Proof.
  revert known. induction a as [|r a IH]; intros known; [by rewrite app_nil_r|].
  cbn [app new_records]. destruct (decide _); [apply IH|]. rewrite IH. cbn [app map].
  by rewrite <- app_assoc.
Qed.

(** What a run of the insert loop did: the rows it appended and the cursors it returned. *)
Record loop_post (records : list MeterStreamRecord) (p p' : Publication) (added : list Row)
    (returned : list Z) : Prop := {
  lp_ok : db_ok (pb_database p');
  lp_rows : db_records (pb_database p') = db_records (pb_database p) ++ added;
  lp_consumers : db_consumers (pb_database p') = db_consumers (pb_database p);
  lp_sequence : sequence (pb_database p') = sequence (pb_database p) + Z.of_nat (length added);
  lp_fresh : map row_cursor added = seqZ (sequence (pb_database p) + 1) (Z.of_nat (length added));
  lp_returned : pb_cursors p' = pb_cursors p ++ returned;
  lp_carried : Forall2 (fun r c => Exists (carries r c) (db_records (pb_database p'))) records returned;
  lp_content : Forall2 (fun r row => row_of_record r (row_cursor row) = Ok row)
    (new_records (map row_key (db_records (pb_database p))) records) added;
  lp_size : rows_bytes added <= batch_bytes records;
  lp_bytes : pb_inserted_bytes p' = u64 (pb_inserted_bytes p + rows_bytes added);
  lp_first : pb_first_inserted_cursor p' =
    if pb_first_inserted_cursor p =? 0
    then match added with [] => 0 | row :: _ => row_cursor row end
    else pb_first_inserted_cursor p }.

Lemma publish_record_spec r p p' :
  db_ok (pb_database p) -> 0 <= pb_inserted_bytes p < 2 ^ 64 ->
  publish_record r p = Ok p' ->
  exists added c, loop_post [r] p p' added [c].
Proof.
  intros Hd Hb H. unfold publish_record in H.
  destruct (bind_unsigned (sr_source_sequence r)) as [?|]; [|done].
  destruct (bind_unsigned (first_sample_index (sr_timing r))) as [?|]; [|done]. simpl in H.
  destruct (find_existing _ r) as [row|] eqn:Ef.
  - apply find_existing_Some in Ef as [Hin Hk]. injection H as <-.
    exists [], (u64 (row_cursor row)).
    constructor; simpl; rewrite ?app_nil_r, ?Z.add_0_r; try done; try lia.
    + constructor; [|constructor]. apply Exists_exists. exists row.
      rewrite (cursor_u64 _ _ Hd Hin). split; [by apply list_elem_of_In|done].
    + rewrite decide_True; [constructor|]. rewrite <- Hk. by apply list_elem_of_In, in_map, list_elem_of_In.
    + symmetry. by apply wrap_id.
    + destruct (Z.eqb_spec (pb_first_inserted_cursor p) 0); lia.
  - apply find_existing_None in Ef.
    apply bind_Ok in H as (c & Hc & H). apply bind_Ok in H as (row & Hr & H). injection H as <-.
    destruct (next_rowid_spec _ _ Hd Hc) as [-> Hmax].
    pose proof (row_of_record_spec _ _ _ Hr) as (Ec & Ek & Ep).
    assert (Hu : u64 (sequence (pb_database p) + 1) = sequence (pb_database p) + 1).
    { destruct Hd. rewrite INT64_MAX_pow in *. apply wrap_id. lia. }
    rewrite Hu. exists [row], (sequence (pb_database p) + 1).
    constructor; simpl; rewrite ?Ec; try done.
    + apply db_ok_snoc; try done. by rewrite Ek.
    + constructor; [|constructor]. apply Exists_exists. exists row. split; [|done].
      apply in_or_app. right. by left.
    + rewrite decide_False by done. constructor; [by rewrite Ec|constructor].
    + unfold row_bytes. rewrite Ep. lia.
    + by rewrite Z.add_0_r.
Qed.

Lemma loop_post_nil p : db_ok (pb_database p) -> 0 <= pb_inserted_bytes p < 2 ^ 64 ->
  loop_post [] p p [] [].
Proof.
  intros Hd Hb. constructor; simpl; rewrite ?app_nil_r, ?Z.add_0_r; try done.
  - symmetry. by apply wrap_id.
  - destruct (Z.eqb_spec (pb_first_inserted_cursor p) 0); lia.
Qed.

Lemma added_keys news added :
  Forall2 (fun r row => row_of_record r (row_cursor row) = Ok row) news added ->
  map record_key news = map row_key added.
Proof.
  induction 1 as [|r row news added H _ IH]; [done|]. cbn [map]. rewrite IH.
  by destruct (row_of_record_spec _ _ _ H) as (_ & -> & _).
Qed.

Lemma loop_post_trans rs1 rs2 p p1 p2 a1 a2 c1 c2 :
  db_ok (pb_database p) ->
  loop_post rs1 p p1 a1 c1 -> loop_post rs2 p1 p2 a2 c2 ->
  loop_post (rs1 ++ rs2) p p2 (a1 ++ a2) (c1 ++ c2).
Proof.
  intros Hd [A1 A2 A3 A4 A5 A6 A7 A8 A0 A9 A10] [B1 B2 B3 B4 B5 B6 B7 B8 B0 B9 B10].
  constructor; [done|..].
  - by rewrite B2, A2, app_assoc.
  - congruence.
  - rewrite B4, A4, length_app. lia.
  - rewrite map_app, A5, B5, A4, length_app, Nat2Z.inj_add, seqZ_app by lia.
    f_equal. f_equal; lia.
  - by rewrite B6, A6, app_assoc.
  - apply Forall2_app; [|done]. eapply Forall2_impl; [|exact A7]. intros r c Hex.
    rewrite B2. apply Exists_app. by left.
  - rewrite new_records_app. apply Forall2_app; [done|].
    rewrite (added_keys _ _ A8), <- map_app, <- A2. done.
  - rewrite rows_bytes_app, batch_bytes_app. lia.
  - rewrite B9, A9, rows_bytes_app. unfold wrap. rewrite Zplus_mod_idemp_l. f_equal. lia.
  - rewrite B10, A10. destruct (Z.eqb_spec (pb_first_inserted_cursor p) 0) as [E|E].
    + destruct a1 as [|row a1]; simpl; [done|].
      assert (Hrow : 0 < row_cursor row).
      { destruct A1 as [_ Hr _ _ _]. rewrite A2, List.Forall_forall in Hr.
        specialize (Hr row ltac:(apply in_or_app; right; by left)). lia. }
      destruct (Z.eqb_spec (row_cursor row) 0); [lia|done].
    + destruct (Z.eqb_spec (pb_first_inserted_cursor p) 0); [done|done].
Qed.

Lemma publish_loop_spec records p p' :
  db_ok (pb_database p) -> 0 <= pb_inserted_bytes p < 2 ^ 64 ->
  publish_loop records p = Ok p' ->
  exists added returned, loop_post records p p' added returned.
Proof.
  revert p. induction records as [|r records IH]; intros p Hd Hb H; simpl in H.
  - injection H as <-. exists [], []. by apply loop_post_nil.
  - apply bind_Ok in H as (p1 & H1 & H).
    destruct (publish_record_spec _ _ _ Hd Hb H1) as (a1 & c1 & P1).
    assert (0 <= pb_inserted_bytes p1 < 2 ^ 64) as Hb1
      by (rewrite (lp_bytes _ _ _ _ _ P1); by apply wrap_range).
    destruct (IH p1 (lp_ok _ _ _ _ _ P1) Hb1 H) as (a2 & c2 & P2).
    exists (a1 ++ a2), ([c1] ++ c2). by apply (loop_post_trans [r] _ p p1 p').
Qed.

(** ** The hard cap *)
Definition unacknowledged (acknowledged : Z) (rows : list Row) : nat :=
  length (List.filter (fun r => acknowledged <? row_cursor r) rows).

(** The eviction loop removes the shortest prefix of the victims that satisfies the
    cap, or all of them. *)
Lemma evict_spec victims projected limit ack removed through lost :
  Forall (fun r => 0 < row_cursor r <= INT64_MAX) victims ->
  0 <= removed -> removed + rows_bytes victims <= projected -> projected < 2 ^ 64 ->
  0 <= lost < 2 ^ 64 ->
  exists a b, victims = a ++ b /\
    evict victims projected limit ack removed through lost =
      (removed + rows_bytes a,
       match list.last a with Some r => row_cursor r | None => through end,
       u64 (lost + Z.of_nat (unacknowledged ack a))) /\
    (projected - removed - rows_bytes a <= limit \/ b = []) /\
    (forall a' r, a = a' ++ [r] -> limit < projected - removed - rows_bytes a').
Proof.
  revert removed through lost.
  induction victims as [|r victims IH]; intros removed through lost Hv Hr Hp Hlt Hl.
  - exists [], []. simpl. rewrite !Z.add_0_r, (wrap_id 64 lost) by lia.
    split_and!; [done|by destruct (_ <=? _)|by right|]. by intros [|??] ? [=].
  - apply List.Forall_cons_iff in Hv as [Hr1 Hv]. rewrite INT64_MAX_pow in Hr1. simpl in Hp.
    pose proof (rows_bytes_nonneg victims). pose proof (row_bytes_pos r).
    cbn [evict]. rewrite (wrap_id 64 (projected - removed)) by lia.
    destruct (Z.leb_spec (projected - removed) limit) as [Hle|Hle].
    { exists [], (r :: victims). simpl. rewrite !Z.add_0_r, (wrap_id 64 lost) by lia.
      split_and!; [done|done|left; lia|]. by intros [|??] ? [=]. }
    cbv zeta. rewrite (wrap_id 64 (row_cursor r)), (wrap_id 64 (removed + row_bytes r)) by lia.
    set (lost' := if _ <? _ then _ else _).
    assert (Hl' : 0 <= lost' < 2 ^ 64 /\ forall n,
        u64 (lost' + Z.of_nat n) = u64 (lost + Z.of_nat (if ack <? row_cursor r then S n else n))).
    { unfold lost'. destruct (ack <? row_cursor r); [|done]. split; [by apply wrap_range|].
      intros n. unfold wrap. rewrite Zplus_mod_idemp_l. f_equal. lia. }
    destruct Hl' as [Hl1 Hl2].
    destruct (IH (removed + row_bytes r) (row_cursor r) lost') as (a & b & -> & -> & Hstop & Hmin);
      [done|lia|lia|lia|done|].
    exists (r :: a), b. split_and!; [done| | |].
    + f_equal; [f_equal|].
      * simpl. lia.
      * rewrite list.last_cons. by destruct (list.last a).
      * rewrite Hl2. unfold unacknowledged. simpl. by destruct (ack <? row_cursor r).
    + destruct Hstop; [left|by right]. simpl. lia.
    + intros [|x a'] y E; simpl; [lia|]. injection E as <- E. specialize (Hmin a' y E). lia.
Qed.

Lemma foldr_min_spec a l : foldr Z.min a l <= a /\ Forall (fun x => foldr Z.min a l <= x) l /\
  (foldr Z.min a l = a \/ In (foldr Z.min a l) l).
Proof.
  induction l as [|x l (IH1 & IH2 & IH3)]; simpl; [split_and!; [lia|constructor|by left]|].
  split_and!; [lia| |].
  - constructor; [lia|]. eapply Forall_impl; [|exact IH2]. simpl. lia.
  - destruct (Z.min_spec x (foldr Z.min a l)) as [[_ ->]|[_ ->]]; naive_solver.
Qed.

Lemma min_acknowledged_le consumers name c :
  consumers !! name = Some c -> min_acknowledged consumers <= acknowledged_cursor c.
Proof.
  intros Hc. apply elem_of_map_to_list in Hc. unfold min_acknowledged.
  apply list_elem_of_In, (in_map (fun c => acknowledged_cursor c.2)) in Hc. simpl in Hc.
  destruct (map _ _) as [|a l]; [done|].
  destruct (foldr_min_spec a l) as (H1 & H2 & _). destruct Hc as [<-|Hc]; [done|].
  rewrite List.Forall_forall in H2. by apply H2.
Qed.

Lemma min_acknowledged_range b consumers :
  0 <= b -> map_Forall (fun _ c => 0 <= acknowledged_cursor c <= b) consumers ->
  0 <= min_acknowledged consumers <= b.
Proof.
  intros Hb Hc. unfold min_acknowledged.
  assert (Hall : Forall (fun a => 0 <= a <= b)
    (map (fun c => acknowledged_cursor c.2) (map_to_list consumers))).
  { apply List.Forall_forall. intros a ([k c] & <- & Hin)%in_map_iff. simpl.
    apply list_elem_of_In, elem_of_map_to_list in Hin. by eapply Hc. }
  destruct (map _ _) as [|a l]; [lia|]. rewrite List.Forall_forall in Hall.
  destruct (foldr_min_spec a l) as (_ & _ & [->|Hin]); apply Hall; [by left|by right].
Qed.

Lemma rows_below_first rows first added :
  StronglySorted Z.lt (map row_cursor (rows ++ first :: added)) ->
  rows_below (row_cursor first) (rows ++ first :: added) = rows.
Proof.
  intros Hs. unfold rows_below. rewrite List.filter_app, filter_all, filter_none, app_nil_r; [done| |].
  - intros x Hx. apply Z.ltb_ge. apply elem_of_cons in Hx as [->|Hx]; [done|].
    apply sorted_app_r in Hs. pose proof (sorted_app_lt [first] added first x Hs ltac:(left) Hx). lia.
  - intros x Hx. apply Z.ltb_lt. eapply sorted_app_lt; [exact Hs|done|left].
Qed.

(** The cap on the database the insert loop left: the oldest rows go, never those of the
    batch, and the accounting is exact. *)
Record cap_post (limit : option Z) (ack : Z) (rows added evicted kept : list Row)
    (outcome : Z * Z * Z) : Prop := {
  cp_split : rows = evicted ++ kept;
  cp_removed : outcome.1.1 = rows_bytes evicted;
  cp_through : (if negb (outcome.1.2 =? 0) then delete_through outcome.1.2 (rows ++ added)
                else rows ++ added) = kept ++ added;
  cp_lost : outcome.2 = u64 (Z.of_nat (unacknowledged ack evicted));
  cp_cap : forall l, limit = Some l -> added <> [] -> rows_bytes (kept ++ added) <= l \/ kept = [];
  cp_needed : forall e r, evicted = e ++ [r] ->
    exists l, limit = Some l /\ l < rows_bytes (r :: kept ++ added) }.

Lemma enforce_cap_spec limit rows added p tracked :
  db_ok (pb_database p) -> db_records (pb_database p) = rows ++ added ->
  pb_first_inserted_cursor p = match added with [] => 0 | row :: _ => row_cursor row end ->
  pb_inserted_bytes p = rows_bytes added ->
  tracked = rows_bytes rows -> tracked + rows_bytes added < 2 ^ 64 ->
  exists evicted kept,
    cap_post limit (min_acknowledged (db_consumers (pb_database p))) rows added evicted kept
      (enforce_cap limit (u64 (tracked + pb_inserted_bytes p)) p).
Proof.
  intros Hd Hr Hf Hb Ht Hsize. pose proof (rows_bytes_nonneg rows). pose proof (rows_bytes_nonneg added).
  set (ack := min_acknowledged _).
  assert (Hnone : forall o, o = (0, 0, 0) ->
    (forall l, limit = Some l -> added <> [] -> rows_bytes (rows ++ added) <= l) ->
    exists evicted kept, cap_post limit ack rows added evicted kept o).
  { intros o -> Hl. exists [], rows. constructor; simpl; try done; [intros; left; by apply Hl|].
    by intros [|??] ? [=]. }
  unfold enforce_cap. rewrite Hb, (wrap_id 64 (tracked + _)) by lia.
  destruct limit as [l|]; [|by apply Hnone].
  destruct (negb (rows_bytes added =? 0) && (l <? tracked + rows_bytes added)) eqn:E.
  2: { apply Hnone; [done|]. intros l' [= <-] Ha. rewrite rows_bytes_app.
       destruct added as [|x added]; [done|]. simpl in E.
       pose proof (row_bytes_pos x). pose proof (rows_bytes_nonneg added).
       destruct (Z.eqb_spec (row_bytes x + rows_bytes added) 0); [lia|]. simpl in E.
       apply Z.ltb_ge in E. simpl. lia. }
  apply andb_true_iff in E as [Ha Hover]. apply Z.ltb_lt in Hover.
  destruct added as [|first added]; [done|].
  assert (Hs : StronglySorted Z.lt (map row_cursor (rows ++ first :: added)))
    by (rewrite <- Hr; apply Hd).
  assert (Hrows : Forall (fun r => 0 < row_cursor r <= INT64_MAX) rows).
  { pose proof (ok_rows _ Hd) as Ho. rewrite Hr in Ho. apply Forall_app in Ho as [Ho _].
    pose proof (ok_sequence _ Hd). eapply Forall_impl; [|exact Ho]. simpl. lia. }
  assert (Hack : u64 ack = ack).
  { pose proof (min_acknowledged_range _ _ (proj1 (ok_sequence _ Hd)) (ok_consumers _ Hd)).
    pose proof (ok_sequence _ Hd). rewrite INT64_MAX_pow in *. apply wrap_id. unfold ack. lia. }
  fold ack. rewrite Hr, Hf, rows_below_first, Hack by done.
  destruct (evict_spec rows (tracked + rows_bytes (first :: added)) l ack 0 0 0)
    as (a & b & -> & -> & Hstop & Hmin); [done|lia|lia|lia|lia|].
  exists a, b. rewrite rows_bytes_app in *.
  constructor; [done|done| |done| |].
  - cbn [fst snd]. destruct (decide (a = [])) as [->|Hne]; [done|].
    destruct (exists_last Hne) as (a' & x & ->). rewrite last_snoc.
    apply Forall_app in Hrows as [Hrows _]. apply Forall_app in Hrows as [_ Hx].
    apply List.Forall_cons_iff in Hx as [Hx _].
    destruct (Z.eqb_spec (row_cursor x) 0); [lia|]. cbn [negb].
    rewrite <- app_assoc in *. by apply delete_through_prefix.
  - intros l' [= <-] _. rewrite rows_bytes_app. destruct Hstop; [left; lia|by right].
  - intros e r ->. exists l. split; [done|]. specialize (Hmin e r eq_refl).
    rewrite !rows_bytes_app in *. cbn [rows_bytes foldr] in *. rewrite rows_bytes_app.
    cbn [rows_bytes foldr]. lia.
Qed.

(** ** Publishing *)

(** The stream after a successful publication. *)
Record publish_post (s : Spool) (records : list MeterStreamRecord) (cursors : list Z) (s' : Spool)
    (added evicted kept : list Row) : Prop := {
  pp_before : db_records (database s) = evicted ++ kept;
  pp_after : db_records (database s') = kept ++ added;
  pp_fresh : map row_cursor added = seqZ (sequence (database s) + 1) (Z.of_nat (length added));
  pp_content : Forall2 (fun r row => row_of_record r (row_cursor row) = Ok row)
    (new_records (map row_key (db_records (database s))) records) added;
  pp_cursors : Forall2 (fun r c => Exists (carries r c) (evicted ++ kept ++ added)) records cursors;
  pp_sequence : sequence (database s') = sequence (database s) + Z.of_nat (length added);
  pp_consumers : db_consumers (database s') = db_consumers (database s);
  pp_dropped : im_dropped_unacknowledged (sp_impl s') =
    u64 (im_dropped_unacknowledged (sp_impl s) +
         Z.of_nat (unacknowledged (min_acknowledged (db_consumers (database s))) evicted));
  pp_cap : forall limit, maximum_bytes (retention (im_policy (sp_impl s))) = Some limit ->
    added <> [] -> rows_bytes (db_records (database s')) <= limit \/ kept = [];
  pp_needed : forall e r, evicted = e ++ [r] ->
    exists limit, maximum_bytes (retention (im_policy (sp_impl s))) = Some limit /\
      limit < rows_bytes (r :: kept ++ added) }.

Lemma spool_inv_update s db tracked dropped :
  spool_inv s -> db_ok db -> tracked = rows_bytes (db_records db) -> tracked < 2 ^ 64 ->
  spool_inv (with_accounting tracked dropped (with_database db s)).
Proof.
  intros [H1 H2 H3 H4 H5 H6] Hd Ht Hs.
  constructor; rewrite ?database_with_accounting, ?database_with_database; simpl; try done; [| | |].
  - by apply file_with_database.
  - by rewrite <- Ht.
  - apply (file_with_database (fun db => rows_bytes (db_records db) < 2 ^ 64)); [|done].
    by rewrite <- Ht.
  - by destruct (impl_with_database db s) as (-> & _).
Qed.

Lemma publish_records_post records io s cursors s' :
  spool_inv s -> im_tracked_payload_bytes (sp_impl s) + batch_bytes records < 2 ^ 64 ->
  publish_records records io s = Ok (cursors, s') ->
  spool_inv s' /\ exists added evicted kept, publish_post s records cursors s' added evicted kept.
Proof.
  intros Hi Hsize H. pose proof Hi as [Hd _ Ht Hb _ _]. unfold publish_records in H.
  apply bind_Ok in H as (_ & _ & H). apply bind_Ok in H as (_ & _ & H).
  apply bind_Ok in H as (p & Hp & H).
  destruct (publish_loop_spec records (mkPublication (database s) [] 0 0) p Hd ltac:(simpl; lia) Hp) as (added & returned & L).
  destruct L as [L1 L2 L3 L4 L5 L6 L7 L8 L0 L9 L10]. simpl in *.
  pose proof (rows_bytes_nonneg added). pose proof (rows_bytes_nonneg (db_records (database s))).
  rewrite Z.add_0_l, wrap_id in L9 by lia.
  destruct (enforce_cap_spec (maximum_bytes (retention (im_policy (sp_impl s))))
    _ _ _ _ L1 L2 L10 L9 Ht ltac:(lia)) as (evicted & kept & [C1 C2 C3 C4 C5 C6]).
  rewrite L3 in C4. rewrite L9 in H, C2, C3, C4.
  destruct (enforce_cap _ _ _) as [[removed through] lost]. cbn [fst snd] in *.
  apply bind_Ok in H as (_ & _ & H). injection H as <- <-.
  rewrite C1 in Ht. rewrite rows_bytes_app in Ht. pose proof (rows_bytes_nonneg kept).
  pose proof (rows_bytes_nonneg evicted).
  rewrite (wrap_id 64 (im_tracked_payload_bytes _ + _)), Z.min_r by lia.
  set (db := if negb (through =? 0) then _ else _).
  assert (Hdb : db_records db = kept ++ added /\ db_consumers db = db_consumers (database s) /\
    sequence db = sequence (pb_database p)).
  { rewrite <- C3, <- L2, <- L3. unfold db. by destruct (negb _). }
  destruct Hdb as (Hdr & Hdc & Hds).
  assert (Hok : db_ok db).
  { unfold db. destruct (negb _); [|done]. by apply db_ok_filter. }
  split.
  - apply spool_inv_update; try done; rewrite ?Hdr, ?rows_bytes_app, wrap_id; lia.
  - exists added, evicted, kept.
    constructor; rewrite ?database_with_accounting, ?database_with_database; simpl;
      rewrite ?Hdr, ?Hds; try done.
    + by rewrite L6, app_assoc, <- C1, <- L2.
    + rewrite C4. unfold wrap. by rewrite Zplus_mod_idemp_r.
Qed.

(** A record as the producer builds it: every member within its C++ type, and no UTC
    start at the sentinel value. *)
Definition record_ok (r : MeterStreamRecord) : Prop :=
  0 <= sr_record_format r < 2 ^ 32 /\ 0 <= sr_record_kind r < 2 ^ 16 /\
  0 <= sr_measurement_period r < 2 ^ 8 /\ 0 <= sr_source_sequence r < 2 ^ 64 /\
  0 <= sr_source_fragment r < 2 ^ 16 /\ 0 <= sr_configuration_generation r < 2 ^ 32 /\
  0 <= first_sample_index (sr_timing r) < 2 ^ 64 /\ 0 <= sample_count (sr_timing r) < 2 ^ 32 /\
  0 <= cycle_count (sr_timing r) < 2 ^ 32 /\ 0 <= time_quality (sr_timing r) < 2 ^ 8 /\
  utc_start_nanoseconds (sr_timing r) <> Some INT64_MIN /\
  (forall u, utc_uncertainty_nanoseconds (sr_timing r) = Some u -> 0 <= u < 2 ^ 64).

Definition at_cursor (c : Z) (r : MeterStreamRecord) : MeterStreamRecord :=
  mkStreamRecord c (sr_record_format r) (sr_record_kind r) (sr_measurement_period r)
    (sr_source_sequence r) (sr_source_fragment r) (sr_configuration_generation r)
    (sr_ingested_at r) (sr_timing r) (sr_payload r).

Lemma optional_signed_roundtrip v :
  v <> Some INT64_MIN -> from_optional_integer (fun x => x) (optional_signed v) = v.
Proof.
  intros Hv. unfold from_optional_integer, optional_signed. destruct v as [z|]; simpl; [|done].
  destruct (Z.eqb_spec z INT64_MIN); [congruence|done].
Qed.

Lemma optional_unsigned_roundtrip v z :
  (forall u, v = Some u -> 0 <= u < 2 ^ 64) -> optional_unsigned v = Ok z ->
  from_optional_integer u64 z = v.
Proof.
  intros Hv H. unfold optional_unsigned in H. destruct v as [u|]; [|by injection H as <-].
  inv_ok H. specialize (Hv z eq_refl). unfold from_optional_integer.
  destruct (Z.eqb_spec z INT64_MIN); [unfold INT64_MIN in *; lia|]. by rewrite wrap_id.
Qed.

Lemma row_roundtrip r c row :
  record_ok r -> 0 <= c < 2 ^ 64 -> row_of_record r c = Ok row ->
  record_of_row row = at_cursor c r.
Proof.
  intros (? & ? & ? & ? & ? & ? & ? & ? & ? & ? & Hs & Hu) Hc Hrow. unfold row_of_record in Hrow.
  apply bind_Ok in Hrow as (q & [_ ->]%bind_unsigned_Ok & Hrow).
  apply bind_Ok in Hrow as (f & [_ ->]%bind_unsigned_Ok & Hrow).
  apply bind_Ok in Hrow as (u & Hun & Hrow). injection Hrow as <-.
  unfold record_of_row, at_cursor. simpl. rewrite !wrap_id by done.
  rewrite optional_signed_roundtrip, (optional_unsigned_roundtrip _ _ Hu Hun) by done.
  by destruct r as [? ? ? ? ? ? ? ? [] ?].
Qed.

Definition stream (s : Spool) : list MeterStreamRecord := map record_of_row (db_records (database s)).

Lemma new_records_in known records r : In r (new_records known records) -> In r records.
Proof.
  revert known. induction records as [|x records IH]; intros known; [done|]. cbn [new_records].
  destruct (decide _); [right; by eapply IH|]. intros [->|H]; [by left|right; by eapply IH].
Qed.

Lemma added_records s records cursors s' added evicted kept :
  spool_inv s' -> Forall record_ok records ->
  publish_post s records cursors s' added evicted kept ->
  map record_of_row added = zip_with at_cursor (map row_cursor added)
    (new_records (map row_key (db_records (database s))) records).
Proof.
  intros Hi Hr P. pose proof (pp_content _ _ _ _ _ _ _ P) as Hc.
  assert (Hok : Forall record_ok (new_records (map row_key (db_records (database s))) records)).
  { rewrite List.Forall_forall in *. intros r Hin. by eapply Hr, new_records_in. }
  pose proof (ok_rows _ (inv_active _ Hi)) as Ho. pose proof (ok_sequence _ (inv_active _ Hi)) as Hq.
  rewrite (pp_after _ _ _ _ _ _ _ P) in Ho. apply Forall_app in Ho as [_ Ho].
  rewrite INT64_MAX_pow in Hq. clear P Hr Hi.
  induction Hc as [|r row news added E _ IH]; [done|].
  apply List.Forall_cons_iff in Ho as [Hrow Ho]. apply List.Forall_cons_iff in Hok as [Hr Hok].
  cbn [map zip_with]. rewrite (row_roundtrip r (row_cursor row) row Hr ltac:(lia) E). f_equal. auto.
Qed.

(** (C32) A successful publication appends exactly the records whose identity is neither
    stored nor earlier in the batch, in batch order, under the next consecutive cursors,
    readable back as given.  When a byte cap is exceeded the shortest prefix of the oldest
    rows is evicted, unacknowledged ones included, and those are counted as dropped.
    Every record of the batch (new or already stored) is answered with the cursor of the
    row that carries its identity; never a row of the batch is evicted, eviction stops
    when the cap holds or only the batch is left, consumer positions stay, and the byte
    counter is the exact size of the stream. *)
Theorem spool_publish records io s cursors s' :
  spool_inv s -> im_tracked_payload_bytes (sp_impl s) + batch_bytes records < 2 ^ 64 ->
  Forall record_ok records ->
  publish_records records io s = Ok (cursors, s') ->
  let news := new_records (map row_key (db_records (database s))) records in
  spool_inv s' /\ exists added evicted kept,
    stream s = map record_of_row evicted ++ map record_of_row kept /\
    stream s' = map record_of_row kept ++ map record_of_row added /\
    map row_cursor added = seqZ (sequence (database s) + 1) (Z.of_nat (length news)) /\
    map record_of_row added =
      zip_with at_cursor (seqZ (sequence (database s) + 1) (Z.of_nat (length news))) news /\
    Forall2 (fun r c => Exists (carries r c) (evicted ++ kept ++ added)) records cursors /\
    db_consumers (database s') = db_consumers (database s) /\
    im_dropped_unacknowledged (sp_impl s') =
      u64 (im_dropped_unacknowledged (sp_impl s) +
           Z.of_nat (unacknowledged (min_acknowledged (db_consumers (database s))) evicted)) /\
    (forall limit, maximum_bytes (retention (im_policy (sp_impl s))) = Some limit -> added <> [] ->
       im_tracked_payload_bytes (sp_impl s') <= limit \/ kept = []) /\
    (forall e r, evicted = e ++ [r] ->
       exists limit, maximum_bytes (retention (im_policy (sp_impl s))) = Some limit /\
         limit < rows_bytes (r :: kept ++ added)).
Proof.
  intros Hi Hsize Hr H news.
  destruct (publish_records_post _ _ _ _ _ Hi Hsize H) as (Hi' & added & evicted & kept & P).
  split; [done|]. exists added, evicted, kept. pose proof P as [P1 P2 P3 P4 P5 P6 P7 P8 P9 P10].
  pose proof (Forall2_length P4) as Hlen. fold news in Hlen.
  unfold stream. rewrite Hlen, <- P3, P1, P2, !map_app. split_and!; try done.
  - by eapply added_records.
  - intros limit Hl Ha. rewrite (inv_tracked _ Hi'). by apply P9.
Qed.

Definition sample_policy (limit : Z) : DatabaseStoragePolicy :=
  mkPolicy raw_record_spool memory (mkRetention None (Some limit)).

Definition sample_record (sequence_ : Z) : MeterStreamRecord :=
  mkStreamRecord 0 1 2 3 sequence_ 0 5 1000 (mkProvenance sequence_ 10 10 0 (Some 7) None) [1; 2; 3].

(** ** Opening a spool *)
Lemma seed_cursor_space_spec db lease clock db' seed :
  db_ok db -> 0 <= lease -> seed_cursor_space db lease clock = Ok (db', seed) ->
  db_ok db' /\ db_records db' = db_records db /\ db_consumers db' = db_consumers db /\
  lease <= seed <= INT64_MAX /\ sequence db' = Z.max (sequence db) seed.
Proof.
  intros Hd Hl H. unfold seed_cursor_space in H. cbv zeta in H.
  apply bind_Ok in H as (q & [Hq ->]%bind_unsigned_Ok & H). injection H as <- <-.
  pose proof (max_cursor_u64 db Hd) as Hm. pose proof (max_cursor_nonneg (db_records db)) as Hn.
  pose proof (wrap_range 64 clock ltac:(lia)).
  set (seed := if lease =? 0 then _ else _) in *.
  assert (Hseed : lease <= seed) by (unfold seed; destruct (lease =? 0); lia).
  assert (Hseq : sequence (mkDatabase (db_records db) (Some (match db_sequence db with
      | Some q => if q <? seed then seed else q | None => seed end)) (db_consumers db))
    = Z.max (sequence db) seed).
  { unfold sequence. simpl. destruct (db_sequence db) as [q|]; simpl; [|lia].
    destruct (Z.ltb_spec q seed); lia. }
  split_and!; try done. destruct Hd as [H1 H2 H3 H4 H5]. constructor; rewrite ?Hseq; simpl; try done.
  - eapply Forall_impl; [|exact H2]. simpl. lia.
  - lia.
  - eapply map_Forall_impl; [exact H5|]. simpl. lia.
Qed.

Lemma write_cursor_lease_spec lease_io value disk written disk' :
  write_cursor_lease lease_io value disk = (written, disk') ->
  dk_file disk' = dk_file disk /\
  ((written = true /\ dk_lease disk' = value) \/ (written = false /\ disk' = disk)).
Proof. unfold write_cursor_lease. destruct lease_io; intros [= <- <-]; naive_solver. Qed.

Definition disk_ok (disk : Disk) : Prop :=
  db_ok (dk_file disk) /\ rows_bytes (db_records (dk_file disk)) < 2 ^ 64.

Lemma disk_ok_of s : spool_inv s -> disk_ok (sp_disk s).
Proof. intros []. by split. Qed.

(** A cursor no later one may repeat: everything at or below it may have been issued. *)
Record above (top : Z) (s : Spool) : Prop := {
  ab_sequence : top <= sequence (database s);
  ab_lease : top <= dk_lease (sp_disk s);
  ab_reserved : top <= im_cursor_lease (sp_impl s) }.

(** The dual: no stored row and no consumer position is above [top]. *)
Definition db_below (top : Z) (db : Database) : Prop :=
  Forall (fun r => row_cursor r <= top) (db_records db) /\
  map_Forall (fun _ c => acknowledged_cursor c <= top) (db_consumers db).

Definition below (top : Z) (s : Spool) : Prop :=
  db_below top (database s) /\ db_below top (dk_file (sp_disk s)).

Lemma db_below_content top db db' :
  db_records db' = db_records db -> db_consumers db' = db_consumers db ->
  db_below top db -> db_below top db'.
Proof. unfold db_below. by intros -> ->. Qed.

Lemma below_update top db t d s :
  below top s -> db_below top db -> below top (with_accounting t d (with_database db s)).
Proof.
  intros [_ Hf] Hd. split; [by rewrite database_with_accounting, database_with_database|].
  by apply (file_with_database (db_below top)).
Qed.

Lemma open_spool_spec policy disk clock lease_io s :
  disk_ok disk -> 0 <= dk_lease disk -> open_spool policy disk clock lease_io = Ok s ->
  spool_inv s /\ above (dk_lease disk) s /\
  im_policy (sp_impl s) = policy /\
  db_records (database s) = db_records (database_of policy empty_database disk) /\
  db_consumers (database s) = db_consumers (database_of policy empty_database disk) /\
  im_dropped_unacknowledged (sp_impl s) = 0 /\
  (forall top, 0 <= top -> db_below top (dk_file disk) -> below top s).
Proof.
  intros [Hf Hfs] Hl H. unfold open_spool in H.
  apply bind_Ok in H as ([] & Hp & H). apply bind_Ok in H as ([db seed] & Hs & H).
  assert (Hd0 : db_ok (database_of policy empty_database disk) /\
    rows_bytes (db_records (database_of policy empty_database disk)) < 2 ^ 64).
  { unfold database_of. destruct (bool_decide _); [|done]. split; [apply empty_database_ok|done]. }
  destruct Hd0 as [Hd0 Hsz].
  destruct (seed_cursor_space_spec _ _ _ _ _ Hd0 Hl Hs) as (Hd & Hr & Hc & Hseed & Hq).
  destruct (write_cursor_lease _ _ disk) as [written disk'] eqn:Ew.
  apply write_cursor_lease_spec in Ew as [Ef Ew]. injection H as <-.
  rewrite INT64_MAX_pow in Hseed. unfold cursor_lease_reservation in *.
  rewrite wrap_id in * by lia.
  set (i := mkImpl _ _ _ _ _ _). pose proof (rows_bytes_nonneg (db_records db)) as Hnn.
  destruct (impl_with_database db (mkSpool i disk')) as (E1 & E2 & E3 & E4 & E5). simpl in *.
  assert (Hlease : dk_lease disk <= dk_lease disk') by (destruct Ew as [[_ ->]|[_ ->]]; lia).
  split_and!; rewrite ?E1, ?E3, ?database_with_database; try done.
  - constructor; rewrite ?database_with_database, ?E1, ?E2; simpl; rewrite ?Hr; try done.
    + apply file_with_database; [done|]. simpl. by rewrite Ef.
    + apply wrap_id. rewrite Hr in Hnn. lia.
    + apply (file_with_database (fun db => rows_bytes (db_records db) < 2 ^ 64)).
      * by rewrite Hr.
      * simpl. by rewrite Ef.
  - constructor; rewrite ?database_with_database, ?E4, ?E5, ?Hq; simpl; lia.
  - intros top Htop Hb. assert (Hdb : db_below top db).
    { eapply db_below_content; [exact Hr|exact Hc|]. unfold database_of.
      destruct (bool_decide _); [split; [constructor|apply map_Forall_empty]|done]. }
    split; [by rewrite database_with_database|].
    apply (file_with_database (db_below top)); [done|]. simpl. by rewrite Ef.
Qed.

(** ** Lease renewal *)
Lemma renew_spec lease_io s :
  spool_inv s ->
  let s' := renew_cursor_lease lease_io s in
  spool_inv s' /\ database s' = database s /\
  im_policy (sp_impl s') = im_policy (sp_impl s) /\
  im_dropped_unacknowledged (sp_impl s') = im_dropped_unacknowledged (sp_impl s) /\
  (forall top, above top s -> above top s') /\ dk_file (sp_disk s') = dk_file (sp_disk s).
Proof.
  intros Hi. unfold renew_cursor_lease. cbv zeta.
  pose proof (max_cursor_sequence _ (inv_active _ Hi)) as Hm.
  pose proof (ok_sequence _ (inv_active _ Hi)) as Hq. rewrite INT64_MAX_pow in Hq.
  rewrite (max_cursor_u64 _ (inv_active _ Hi)).
  unfold cursor_lease_renewal_margin, cursor_lease_reservation. rewrite !wrap_id by lia.
  destruct (Z.ltb_spec (max_cursor (db_records (database s)) + 2 ^ 30)
              (im_cursor_lease (sp_impl s))); [done|].
  destruct (write_cursor_lease _ _ (sp_disk s)) as [written disk'] eqn:Ew.
  apply write_cursor_lease_spec in Ew as [Ef Ew].
  set (s' := mkSpool _ disk').
  assert (E : database s' = database s /\ im_policy (sp_impl s') = im_policy (sp_impl s) /\
    im_tracked_payload_bytes (sp_impl s') = im_tracked_payload_bytes (sp_impl s) /\
    im_dropped_unacknowledged (sp_impl s') = im_dropped_unacknowledged (sp_impl s)).
  { unfold s', database, database_of. simpl. rewrite Ef. by destruct written. }
  destruct E as (E1 & E2 & E3 & E4).
  split_and!; try done.
  - destruct Hi. constructor; rewrite ?E1, ?E2, ?E3; simpl; rewrite ?Ef; done.
  - intros top [T1 T2 T3]. constructor; [by rewrite E1|..]; simpl;
      destruct Ew as [[-> Hl]|[-> ->]]; simpl; lia.
Qed.

(** ** Consumers *)
Lemma with_consumers_spec consumers s :
  spool_inv s ->
  map_Forall (fun _ c => 0 <= acknowledged_cursor c <= sequence (database s)) consumers ->
  let s' := with_consumers consumers s in
  spool_inv s' /\ db_records (database s') = db_records (database s) /\
  db_consumers (database s') = consumers /\ sequence (database s') = sequence (database s) /\
  (forall top, above top s -> above top s').
Proof.
  intros Hi Hc s'. unfold s', with_consumers.
  set (db := mkDatabase _ _ consumers).
  destruct (impl_with_database db s) as (E1 & E2 & E3 & E4 & E5).
  split_and!; rewrite ?database_with_database; try done.
  - destruct Hi as [[A1 A2 A3 A4 A5] H2 H3 H4 H5 H6].
    constructor; rewrite ?database_with_database, ?E1, ?E2; simpl; try done.
    + by apply file_with_database.
    + by apply (file_with_database (fun db => rows_bytes (db_records db) < 2 ^ 64)).
  - intros top [T1 T2 T3]. constructor; rewrite ?database_with_database, ?E4, ?E5; done.
Qed.

Lemma register_spec name now io s s' :
  spool_inv s -> register_consumer name now io s = Ok s' ->
  spool_inv s' /\ db_records (database s') = db_records (database s) /\
  sequence (database s') = sequence (database s) /\ (forall top, above top s -> above top s').
Proof.
  intros Hi H. unfold register_consumer in H. inv_ok H.
  destruct (with_consumers_spec (<[name := mkConsumer (match db_consumers (database s) !! name with
    | Some c => acknowledged_cursor c | None => 0 end) now]> (db_consumers (database s))) s Hi)
    as (H1 & H2 & _ & H4 & H5); [|done].
  pose proof (ok_consumers _ (inv_active _ Hi)) as Hc. pose proof (ok_sequence _ (inv_active _ Hi)).
  apply map_Forall_insert_2; [|done]. simpl.
  destruct (db_consumers (database s) !! name) as [c|] eqn:E; [by apply (Hc name)|lia].
Qed.

Lemma unregister_spec name io s s' :
  spool_inv s -> unregister_consumer name io s = Ok s' ->
  spool_inv s' /\ db_records (database s') = db_records (database s) /\
  sequence (database s') = sequence (database s) /\ (forall top, above top s -> above top s').
Proof.
  intros Hi H. unfold unregister_consumer in H. inv_ok H.
  destruct (with_consumers_spec (delete name (db_consumers (database s))) s Hi)
    as (H1 & H2 & _ & H4 & H5); [|done].
  apply map_Forall_delete, (ok_consumers _ (inv_active _ Hi)).
Qed.

Lemma acknowledge_spec name cursor now io s s' :
  spool_inv s -> acknowledge name cursor now io s = Ok s' ->
  exists c, db_consumers (database s) !! name = Some c /\
    cursor <= max_cursor (db_records (database s)) /\
    db_consumers (database s') =
      <[name := mkConsumer (Z.max (acknowledged_cursor c) cursor) now]> (db_consumers (database s)) /\
    spool_inv s' /\ db_records (database s') = db_records (database s) /\
    sequence (database s') = sequence (database s) /\ (forall top, above top s -> above top s').
Proof.
  intros Hi H. unfold acknowledge in H. rewrite (max_cursor_u64 _ (inv_active _ Hi)) in H.
  apply bind_Ok in H as (_ & Hh%reject_if_Ok & H). apply Z.ltb_ge in Hh.
  apply bind_Ok in H as (z & [_ ->]%bind_unsigned_Ok & H). apply bind_Ok in H as (_ & _ & H).
  destruct (db_consumers (database s) !! name) as [c|] eqn:E; [|done]. injection H as <-.
  pose proof (ok_consumers _ (inv_active _ Hi)) as Hc.
  pose proof (max_cursor_sequence _ (inv_active _ Hi)).
  destruct (with_consumers_spec (<[name := mkConsumer (Z.max (acknowledged_cursor c) cursor) now]>
    (db_consumers (database s))) s Hi) as (H1 & H2 & H3 & H4 & H5).
  - apply map_Forall_insert_2; [|done]. simpl. specialize (Hc name c E). simpl in Hc. lia.
  - exists c. by split_and!.
Qed.

(** ** Pruning *)

(** Rows that a retention pass may take: acknowledged by every consumer. *)
Record pruned (s s' : Spool) : Prop := {
  pr_inv : spool_inv s';
  pr_policy : im_policy (sp_impl s') = im_policy (sp_impl s);
  pr_rows : exists keep, db_records (database s') = List.filter keep (db_records (database s)) /\
    forall r, keep r = false -> row_cursor r <= min_acknowledged (db_consumers (database s));
  pr_consumers : db_consumers (database s') = db_consumers (database s);
  pr_sequence : sequence (database s') = sequence (database s);
  pr_dropped : im_dropped_unacknowledged (sp_impl s') = im_dropped_unacknowledged (sp_impl s);
  pr_above : forall top, above top s -> above top s';
  pr_below : forall top, below top s -> below top s' }.

Lemma filter_sublist f (rows : list Row) : List.filter f rows `sublist_of` rows.
Proof. induction rows as [|r rows IH]; simpl; [done|]. destruct (f r); by constructor. Qed.

Lemma filter_filter f g (rows : list Row) :
  List.filter g (List.filter f rows) = List.filter (fun r => f r && g r) rows.
Proof.
  induction rows as [|r rows IH]; simpl; [done|].
  destruct (f r); simpl; [|done]. by destruct (g r); rewrite IH.
Qed.

Lemma pruned_same s s' :
  spool_inv s' -> im_policy (sp_impl s') = im_policy (sp_impl s) -> database s' = database s ->
  im_dropped_unacknowledged (sp_impl s') = im_dropped_unacknowledged (sp_impl s) ->
  (forall top, above top s -> above top s') -> dk_file (sp_disk s') = dk_file (sp_disk s) ->
  pruned s s'.
Proof.
  intros Hi Hp Hd Hdr Ha Hf. constructor; rewrite ?Hd; try done;
    [|intros top; unfold below; by rewrite Hd, Hf].
  exists (fun _ => true). split; [|done]. symmetry. by apply filter_all.
Qed.

Lemma pruned_refl s : spool_inv s -> pruned s s.
Proof. intros Hi. by apply pruned_same. Qed.

Lemma pruned_trans s1 s2 s3 : pruned s1 s2 -> pruned s2 s3 -> pruned s1 s3.
Proof.
  intros [A1 A2 (f & A3 & A4) A5 A6 A7 A8 A9] [B1 B2 (g & B3 & B4) B5 B6 B7 B8 B9].
  constructor; try congruence; auto.
  exists (fun r => f r && g r). rewrite B3, A3. split; [apply filter_filter|].
  rewrite A5 in B4. intros r [Hr|Hr]%andb_false_iff; auto.
Qed.

Lemma pruned_filter f s tracked :
  spool_inv s -> tracked = rows_bytes (List.filter f (db_records (database s))) ->
  (forall r, f r = false -> row_cursor r <= min_acknowledged (db_consumers (database s))) ->
  pruned s (with_accounting tracked (im_dropped_unacknowledged (sp_impl s))
    (with_database (with_records (List.filter f (db_records (database s))) (database s)) s)).
Proof.
  intros Hi Ht Hf. set (db := with_records _ _).
  destruct (impl_with_database db s) as (E1 & E2 & E3 & E4 & E5).
  pose proof (rows_bytes_filter f (db_records (database s))).
  pose proof (rows_bytes_nonneg (List.filter (fun r => negb (f r)) (db_records (database s)))).
  constructor; rewrite ?database_with_accounting, ?database_with_database; try done.
  - apply spool_inv_update; [done|by apply db_ok_filter, Hi|done|]. destruct Hi. lia.
  - by exists f.
  - intros top [T1 T2 T3]. constructor;
      rewrite ?database_with_accounting, ?database_with_database; simpl; rewrite ?E4, ?E5; done.
  - intros top Hb. apply below_update; [done|]. destruct Hb as [[Hr Hc] _]. split; [|done].
    rewrite List.Forall_forall in *. simpl. intros r [Hr' _]%filter_In. by apply Hr.
Qed.

Lemma prune_age_spec age now io s s' :
  spool_inv s -> prune_age age (min_acknowledged (db_consumers (database s))) now io s = Ok s' ->
  pruned s s' /\
  forall r, r ∈ db_records (database s') ->
    row_cursor r <= min_acknowledged (db_consumers (database s)) ->
    now - age * 1000000000 <= row_ingested r.
Proof.
  intros Hi H. unfold prune_age in H.
  apply bind_Ok in H as (n & [_ ->]%signed64_Ok & H).
  apply bind_Ok in H as (cutoff & [_ ->]%signed64_Ok & H). cbv zeta in H.
  apply bind_Ok in H as (_ & _ & H). injection H as <-.
  set (ack := min_acknowledged _). set (cutoff := now - _).
  pose proof (rows_bytes_filter (expired ack cutoff) (db_records (database s))) as Hsum.
  pose proof (rows_bytes_nonneg (List.filter (expired ack cutoff) (db_records (database s)))).
  pose proof (rows_bytes_nonneg (List.filter (fun r => negb (expired ack cutoff r))
    (db_records (database s)))). pose proof (inv_size _ Hi). pose proof (inv_tracked _ Hi).
  split.
  - apply pruned_filter; [done| |].
    + rewrite (wrap_id 64 (rows_bytes _)), Z.min_r, wrap_id by lia. lia.
    + intros r Hr. unfold expired in Hr. apply negb_false_iff in Hr. bools. done.
  - intros r. rewrite database_with_accounting, database_with_database. simpl.
    rewrite list_elem_of_In, filter_In. intros [_ Hr] Hack. unfold expired in Hr.
    apply negb_true_iff, andb_false_iff in Hr as [Hr|Hr]; bools; lia.
Qed.

(** The byte pass walks the acknowledged rows until the limit holds. *)
Lemma prune_loop_spec eligible limit bytes through :
  Forall (fun r => 0 < row_cursor r <= INT64_MAX) eligible ->
  rows_bytes eligible <= bytes < 2 ^ 64 ->
  exists a b, eligible = a ++ b /\
    prune_loop eligible limit bytes through =
      (bytes - rows_bytes a, match list.last a with Some r => row_cursor r | None => through end) /\
    (bytes - rows_bytes a <= limit \/ b = []).
Proof.
  revert bytes through. induction eligible as [|r eligible IH]; intros bytes through Hv Hb.
  - exists [], []. simpl. rewrite Z.sub_0_r. split_and!; [done|by destruct (_ <=? _)|by right].
  - apply List.Forall_cons_iff in Hv as [Hr Hv]. rewrite INT64_MAX_pow in Hr. simpl in Hb.
    pose proof (rows_bytes_nonneg eligible). pose proof (row_bytes_pos r).
    cbn [prune_loop]. destruct (Z.leb_spec bytes limit).
    { exists [], (r :: eligible). simpl. rewrite Z.sub_0_r. split_and!; [done|done|by left]. }
    rewrite (wrap_id 64 (row_bytes r)), Z.min_r, !wrap_id by lia.
    destruct (IH (bytes - row_bytes r) (row_cursor r)) as (a & b & -> & -> & Hstop); [done|lia|].
    exists (r :: a), b. split_and!; [done| |].
    + simpl. f_equal; [lia|]. rewrite list.last_cons. by destruct (list.last a).
    + destruct Hstop; [left; simpl; lia|by right].
Qed.

Lemma rows_through_prefix c rows :
  StronglySorted Z.lt (map row_cursor rows) ->
  exists b, rows = rows_through c rows ++ b /\ Forall (fun r => c < row_cursor r) b.
Proof.
  unfold rows_through. induction rows as [|r rows IH]; intros Hs; [by exists []|]. simpl.
  simpl in Hs. apply StronglySorted_inv in Hs as [Hs Hr].
  destruct (Z.leb_spec (row_cursor r) c) as [Hle|Hle].
  - destruct (IH Hs) as (b & Eb & Hb). exists b. split; [by rewrite Eb at 1|done].
  - assert (Hall : forall x, x ∈ rows -> c < row_cursor x).
    { intros x Hx. rewrite List.Forall_forall in Hr.
      specialize (Hr (row_cursor x) ltac:(apply in_map; by apply list_elem_of_In)). lia. }
    exists (r :: rows). rewrite filter_none; [split; [done|]|].
    + constructor; [done|]. apply List.Forall_forall. intros x Hx%list_elem_of_In. by apply Hall.
    + intros x Hx. apply Z.leb_gt. by apply Hall.
Qed.

Lemma prune_bytes_spec limit io s s' :
  spool_inv s -> prune_bytes limit (min_acknowledged (db_consumers (database s))) io s = Ok s' ->
  pruned s s' /\
  (im_tracked_payload_bytes (sp_impl s') <= limit \/
   Forall (fun r => min_acknowledged (db_consumers (database s)) < row_cursor r)
     (db_records (database s'))).
Proof.
  intros Hi H. unfold prune_bytes in H. set (ack := min_acknowledged _) in *.
  destruct (Z.ltb_spec limit (im_tracked_payload_bytes (sp_impl s))) as [Hover|Hover].
  2: { injection H as <-. split; [by apply pruned_refl|by left]. }
  pose proof (ok_sorted _ (inv_active _ Hi)) as Hs.
  destruct (rows_through_prefix ack _ Hs) as (rest & Erows & Hrest).
  assert (Hv : Forall (fun r => 0 < row_cursor r <= INT64_MAX)
    (rows_through ack (db_records (database s)))).
  { apply List.Forall_forall. intros r [Hr _]%filter_In.
    pose proof (ok_rows _ (inv_active _ Hi)) as Ho. pose proof (ok_sequence _ (inv_active _ Hi)).
    rewrite List.Forall_forall in Ho. specialize (Ho r Hr). lia. }
  assert (Hack : forall r, r ∈ rows_through ack (db_records (database s)) -> row_cursor r <= ack).
  { intros r [_ Hr%Z.leb_le]%list_elem_of_In%filter_In. done. }
  pose proof (inv_size _ Hi). pose proof (inv_tracked _ Hi) as Ht.
  pose proof (rows_bytes_nonneg rest).
  set (el := rows_through ack _) in *.
  assert (Hb : rows_bytes (db_records (database s)) = rows_bytes el + rows_bytes rest)
    by (rewrite Erows at 1; apply rows_bytes_app).
  destruct (prune_loop_spec el limit (im_tracked_payload_bytes (sp_impl s)) 0 Hv ltac:(lia))
    as (a & b & Eab & Eloop & Hstop). rewrite Eloop in H.
  destruct (decide (a = [])) as [->|Hne].
  { simpl in *. injection H as <-. split; [by apply pruned_refl|].
    destruct Hstop as [| ->]; [left; lia|right]. rewrite Erows, Eab. done. }
  destruct (exists_last Hne) as (a' & x & ->). rewrite last_snoc in H.
  assert (Hx : x ∈ el) by (rewrite Eab; apply elem_of_app; left; apply elem_of_app; right; left).
  pose proof (Hack x Hx). rewrite List.Forall_forall in Hv.
  pose proof (Hv x ltac:(by apply list_elem_of_In)).
  destruct (Z.eqb_spec (row_cursor x) 0); [lia|]. cbn [negb] in H.
  apply bind_Ok in H as (_ & _ & H). injection H as <-.
  assert (Edel : delete_through (row_cursor x) (db_records (database s)) = b ++ rest).
  { rewrite Erows, Eab, <- app_assoc in *. by apply delete_through_prefix. }
  rewrite Eab, rows_bytes_app in Hb.
  split.
  - apply (pruned_filter (fun r => negb (row_cursor r <=? row_cursor x))); [done| |].
    + fold (delete_through (row_cursor x) (db_records (database s))). rewrite Edel, (rows_bytes_app b rest). lia.
    + intros r Hr. apply negb_false_iff, Z.leb_le in Hr. lia.
  - rewrite database_with_accounting, database_with_database. simpl. rewrite Edel.
    destruct Hstop as [| ->]; [left; lia|by right].
Qed.

Definition prune_done (now : Z) (s s' : Spool) : Prop :=
  (forall age r, maximum_age (retention (im_policy (sp_impl s))) = Some age ->
     r ∈ db_records (database s') ->
     row_cursor r <= min_acknowledged (db_consumers (database s)) ->
     now - age * 1000000000 <= row_ingested r) /\
  (forall limit, maximum_bytes (retention (im_policy (sp_impl s))) = Some limit ->
     im_tracked_payload_bytes (sp_impl s') <= limit \/
     Forall (fun r => min_acknowledged (db_consumers (database s)) < row_cursor r)
       (db_records (database s'))).

Lemma renew_pruned lease_io s : spool_inv s -> pruned s (renew_cursor_lease lease_io s).
Proof.
  intros Hi. destruct (renew_spec lease_io s Hi) as (H1 & H2 & H3 & H4 & H5 & H6). by apply pruned_same.
Qed.

Lemma prune_passes_spec now io_age io_bytes s :
  spool_inv s ->
  let keep := retention (im_policy (sp_impl s)) in
  let '(outcome, s') := prune_passes (maximum_age keep) (maximum_bytes keep) now io_age io_bytes s in
  pruned s s' /\ (outcome = Ok tt -> prune_done now s s').
Proof.
  intros Hi. unfold prune_passes, prune_done. cbv zeta.
  set (age := maximum_age _). set (limit := maximum_bytes _).
  set (step1 := match age with Some a => _ | None => _ end).
  assert (H1 : match step1 with
    | Ok s1 => pruned s s1 /\ forall a r, age = Some a -> r ∈ db_records (database s1) ->
        row_cursor r <= min_acknowledged (db_consumers (database s)) ->
        now - a * 1000000000 <= row_ingested r
    | Throw _ => True end).
  { unfold step1. destruct age as [a|]; [|split; [by apply pruned_refl|done]].
    destruct (prune_age a _ now io_age s) as [s1|] eqn:E; [|done].
    destruct (prune_age_spec _ _ _ _ _ Hi E) as [P H]. split; [done|].
    intros a' r [= <-]. apply H. }
  destruct step1 as [s1|]; [|split; [by apply pruned_refl|done]]. destruct H1 as [P1 Hage].
  rewrite <- (pr_consumers _ _ P1) in *. destruct limit as [l|]; [|split; [done|by split]].
  destruct (prune_bytes l _ io_bytes s1) as [s2|] eqn:E; [|by split].
  destruct (prune_bytes_spec _ _ _ _ (pr_inv _ _ P1) E) as [P2 Hl].
  split; [by eapply pruned_trans|]. intros _. split; [|by intros l' [= <-]].
  intros a r Ea Hr. apply Hage; [done|]. destruct (pr_rows _ _ P2) as (f & Hf & _).
  rewrite Hf in Hr. apply list_elem_of_In, filter_In in Hr as [Hr _]. by apply list_elem_of_In.
Qed.

Lemma prune_pruned now lease_io io_age io_bytes s :
  spool_inv s ->
  let '(outcome, s') := prune now lease_io io_age io_bytes s in
  pruned s s' /\ (outcome = Ok tt -> prune_done now s s').
Proof.
  intros Hi. pose proof (renew_pruned lease_io s Hi) as P0. unfold prune. cbv zeta.
  set (s0 := renew_cursor_lease lease_io s) in *.
  pose proof (prune_passes_spec now io_age io_bytes s0 (pr_inv _ _ P0)) as H. cbv zeta in H.
  destruct (prune_passes _ _ _ _ _ s0) as [outcome s'] eqn:E. destruct H as [P1 Hd].
  assert (Hd' : outcome = Ok tt -> prune_done now s s').
  { intros Ho. destruct (Hd Ho) as [D1 D2]. unfold prune_done.
    rewrite <- (pr_policy _ _ P0), <- (pr_consumers _ _ P0). done. }
  pose proof (pruned_trans _ _ _ P0 P1).
  destruct (maximum_age _) eqn:Ea, (maximum_bytes _) eqn:Eb; rewrite ?E; try done.
  split; [done|]. intros _. unfold prune_done. rewrite <- (pr_policy _ _ P0), Ea, Eb. done.
Qed.

(** Retention never loses data a consumer still needs.  Whatever a prune does, and
    even if it fails half way, the rows that remain keep their order and content, every
    row it removed had been acknowledged by every consumer (without consumers nothing is
    removed), consumer positions and the drop counter are untouched and the byte counter
    stays exact.  When it succeeds, no acknowledged row older than the age limit remains,
    and the size is within the byte limit or only unacknowledged rows are left. *)
Theorem spool_prune now lease_io io_age io_bytes s :
  spool_inv s ->
  let '(outcome, s') := prune now lease_io io_age io_bytes s in
  spool_inv s' /\
  db_records (database s') `sublist_of` db_records (database s) /\
  (forall r, r ∈ db_records (database s) -> r ∉ db_records (database s') ->
     forall name c, db_consumers (database s) !! name = Some c ->
       row_cursor r <= acknowledged_cursor c) /\
  (db_consumers (database s) = ∅ -> db_records (database s') = db_records (database s)) /\
  db_consumers (database s') = db_consumers (database s) /\
  im_dropped_unacknowledged (sp_impl s') = im_dropped_unacknowledged (sp_impl s) /\
  (outcome = Ok tt ->
     (forall age r, maximum_age (retention (im_policy (sp_impl s))) = Some age ->
        r ∈ db_records (database s') ->
        row_cursor r <= min_acknowledged (db_consumers (database s)) ->
        now - age * 1000000000 <= row_ingested r) /\
     (forall limit, maximum_bytes (retention (im_policy (sp_impl s))) = Some limit ->
        im_tracked_payload_bytes (sp_impl s') <= limit \/
        Forall (fun r => min_acknowledged (db_consumers (database s)) < row_cursor r)
          (db_records (database s')))).
Proof.
  intros Hi. pose proof (prune_pruned now lease_io io_age io_bytes s Hi) as H.
  destruct (prune now lease_io io_age io_bytes s) as [outcome s'].
  destruct H as [[P1 P2 (keep & P3 & P4) P5 P6 P7 P8 P9] Hdone]. rewrite P3 in *. split_and!; try done.
  - apply filter_sublist.
  - intros r Hin Hout name c Hc. pose proof (min_acknowledged_le _ _ _ Hc).
    destruct (keep r) eqn:Ek; [|specialize (P4 r Ek); lia]. destruct Hout.
    apply list_elem_of_In, filter_In. by rewrite <- list_elem_of_In.
  - intros He. apply filter_all. intros r Hr. destruct (keep r) eqn:Ek; [done|].
    specialize (P4 r Ek). rewrite He in P4. unfold min_acknowledged in P4.
    rewrite map_to_list_empty in P4. simpl in P4.
    pose proof (ok_rows _ (inv_active _ Hi)) as Ho. rewrite List.Forall_forall in Ho.
    apply list_elem_of_In in Hr. specialize (Ho r Hr). lia.
  - intros Ho. destruct (Hdone Ho) as [D1 D2]. rewrite P3 in *. by split.
Qed.

(** ** Switching the backend *)
Lemma insert_row_end row rows :
  Forall (fun r => row_cursor r < row_cursor row) rows -> insert_row row rows = rows ++ [row].
Proof.
  induction 1 as [|r rows Hr _ IH]; simpl; [done|].
  rewrite (proj2 (Z.ltb_ge _ _)) by lia. by rewrite IH.
Qed.

Lemma insert_or_ignore_fresh db row :
  StronglySorted Z.lt (map row_cursor (db_records db ++ [row])) ->
  NoDup (map row_key (db_records db ++ [row])) ->
  insert_or_ignore db row =
    mkDatabase (db_records db ++ [row]) (Some (Z.max (sequence db) (row_cursor row))) (db_consumers db).
Proof.
  intros Hs Hk. unfold insert_or_ignore.
  assert (Hlt : forall r, r ∈ db_records db -> row_cursor r < row_cursor row)
    by (intros r Hr; eapply sorted_app_lt; [exact Hs|done|left]).
  destruct (existsb _ _) eqn:E.
  - exfalso. apply existsb_exists in E as (r & Hin%list_elem_of_In & Hr).
    apply orb_true_iff in Hr as [Hr|Hr].
    + specialize (Hlt r Hin). lia.
    + apply bool_decide_eq_true in Hr. rewrite map_app in Hk.
      apply list.NoDup_app in Hk as (_ & Hk & _). apply (Hk (row_key r)).
      * by apply list_elem_of_In, in_map, list_elem_of_In.
      * rewrite Hr. left.
  - rewrite insert_row_end; [done|]. apply List.Forall_forall. intros r Hr%list_elem_of_In. auto.
Qed.

Lemma copy_rows rows db :
  StronglySorted Z.lt (map row_cursor (db_records db ++ rows)) ->
  NoDup (map row_key (db_records db ++ rows)) -> 0 <= sequence db ->
  let db' := fold_left insert_or_ignore rows db in
  db_records db' = db_records db ++ rows /\ db_consumers db' = db_consumers db /\
  sequence db' = Z.max (sequence db) (max_cursor rows).
Proof.
  revert db. induction rows as [|r rows IH]; intros db Hs Hk Hq; cbv zeta.
  - simpl. rewrite app_nil_r. split_and!; [done|done|lia].
  - simpl fold_left. rewrite (cons_middle r), app_assoc in Hs, Hk.
    assert (Hs' : StronglySorted Z.lt (map row_cursor (db_records db ++ [r]))).
    { clear -Hs. induction (db_records db ++ [r]) as [|x l IHl]; [constructor|].
      simpl in *. apply StronglySorted_inv in Hs as [Hs Hx]. constructor; [auto|].
      rewrite map_app in Hx. by apply Forall_app in Hx as [Hx _]. }
    assert (Hk' : NoDup (map row_key (db_records db ++ [r])))
      by (rewrite map_app in Hk; by apply list.NoDup_app in Hk as [Hk _]).
    rewrite insert_or_ignore_fresh by done.
    destruct (IH (mkDatabase (db_records db ++ [r]) (Some (Z.max (sequence db) (row_cursor r)))
      (db_consumers db))) as (H1 & H2 & H3); [done|done|unfold sequence; simpl; unfold sequence in Hq; lia|].
    rewrite H1, H2, H3. simpl. rewrite <- app_assoc. split_and!; [done|done|].
    unfold sequence. simpl. lia.
Qed.

Lemma copy_consumers_lookup l acc k :
  NoDup l.*1 -> (forall k, k ∈ l.*1 -> acc !! k = None) ->
  fold_left copy_consumer l acc !! k =
    match (list_to_map l : gmap string Consumer) !! k with Some c => Some c | None => acc !! k end.
Proof.
  revert acc. induction l as [|[name c] l IH]; intros acc Hd Ha; simpl; [by rewrite lookup_empty|].
  apply list.NoDup_cons in Hd as [Hn Hd]. simpl in *.
  rewrite (Ha name) by left. destruct c as [a u]. simpl.
  rewrite IH; [|done|].
  - destruct (decide (name = k)) as [->|Hne].
    + rewrite lookup_insert_eq. rewrite (proj1 (not_elem_of_list_to_map l k)) by done.
      by rewrite lookup_insert_eq.
    + by rewrite !lookup_insert_ne.
  - intros k' Hk'. rewrite lookup_insert_ne; [apply Ha; by right|]. by intros ->.
Qed.

Lemma copy_consumers_same (consumers : gmap string Consumer) :
  fold_left copy_consumer (map_to_list consumers) ∅ = consumers.
Proof.
  apply map_eq. intros k. rewrite copy_consumers_lookup.
  - rewrite list_to_map_to_list, lookup_empty. by destruct (consumers !! k).
  - apply NoDup_fst_map_to_list.
  - intros. apply lookup_empty.
Qed.

Lemma copy_database_spec source target :
  db_ok source -> db_ok target ->
  map_Forall (fun _ c => acknowledged_cursor c <= sequence target) (db_consumers source) ->
  let db := copy_database source target in
  db_ok db /\ db_records db = db_records source /\ db_consumers db = db_consumers source /\
  sequence target <= sequence db.
Proof.
  intros [A1 A2 A3 A4 A5] [_ _ B3 _ _] Hack. unfold copy_database. cbv zeta.
  set (t0 := mkDatabase [] (db_sequence target) ∅).
  destruct (copy_rows (db_records source) t0) as (H1 & H2 & H3); [done|done|apply B3|]. cbv zeta in *.
  set (db := fold_left insert_or_ignore (db_records source) t0) in *.
  rewrite H1, H2. simpl. rewrite copy_consumers_same.
  assert (Hm : max_cursor (db_records source) <= sequence source).
  { apply max_cursor_le; [lia|]. eapply Forall_impl; [|exact A2]. simpl. lia. }
  unfold sequence in *. simpl in *.
  assert (Hle : default 0 (db_sequence target) <= default 0 (db_sequence db)) by lia.
  split_and!; try done. constructor; unfold sequence in *; simpl; try done; [| |].
  - apply List.Forall_forall. intros r Hr. rewrite List.Forall_forall in A2. specialize (A2 r Hr).
    pose proof (max_cursor_in r (db_records source) ltac:(by apply list_elem_of_In)). simpl in A2. lia.
  - lia.
  - intros name c Hc. specialize (A5 name c Hc). specialize (Hack name c Hc). simpl in *. lia.
Qed.

Lemma check_backend policy :
  check_spool_policy policy = Ok tt -> backend policy = memory \/ backend policy = persistent.
Proof.
  unfold check_spool_policy, validate_database_policy.
  destruct (dataset policy), (backend policy); simpl; auto; discriminate.
Qed.

Lemma open_memory_file policy disk clock lease_io s :
  backend policy = memory -> open_spool policy disk clock lease_io = Ok s ->
  dk_file (sp_disk s) = dk_file disk.
Proof.
  intros Hm H. unfold open_spool in H. apply bind_Ok in H as (_ & _ & H).
  apply bind_Ok in H as ([db seed] & _ & H).
  destruct (write_cursor_lease _ _ disk) as [w disk'] eqn:Ew.
  apply write_cursor_lease_spec in Ew as [Ef _]. injection H as <-.
  unfold with_database. simpl. rewrite bool_decide_eq_true_2 by done. done.
Qed.

(** What a switch of policy keeps. *)
Record switched (s s' : Spool) : Prop := {
  sw_inv : spool_inv s';
  sw_rows : db_records (database s') = db_records (database s);
  sw_consumers : db_consumers (database s') = db_consumers (database s);
  sw_dropped : im_dropped_unacknowledged (sp_impl s') = im_dropped_unacknowledged (sp_impl s);
  sw_above : forall top, above top s -> above top s';
  sw_below : forall top, 0 <= top -> below top s -> below top s' }.

Lemma apply_policy_spec policy clock lease_io io s :
  spool_inv s -> 0 <= dk_lease (sp_disk s) ->
  map_Forall (fun _ c => acknowledged_cursor c <= dk_lease (sp_disk s)) (db_consumers (database s)) ->
  let '(outcome, s') := apply_policy policy clock lease_io io s in
  switched s s' /\
  (outcome = Ok tt -> im_policy (sp_impl s') = policy) /\
  (outcome <> Ok tt -> sp_impl s' = sp_impl s).
Proof.
  intros Hi Hl Hack. unfold apply_policy.
  assert (Hself : switched s s) by (by constructor).
  destruct (check_spool_policy policy) as [[]|e] eqn:Ec; [|by split_and!].
  destruct (bool_decide _) eqn:Eb.
  { apply bool_decide_eq_true in Eb. split_and!; [|done|done].
    assert (Ed : database (with_policy policy s) = database s)
      by (unfold database, database_of; simpl; by rewrite Eb).
    destruct Hi. constructor; rewrite ?Ed; try done; [by constructor; rewrite ?Ed| |].
    - intros top []. constructor; by rewrite ?Ed.
    - intros top _. unfold below. by rewrite Ed. }
  apply bool_decide_eq_false in Eb.
  destruct (open_spool policy (sp_disk s) clock lease_io) as [r|e] eqn:Eo; [|by split_and!].
  pose proof (open_spool_spec _ _ _ _ _ (disk_ok_of s Hi) Hl Eo) as (Ri & [R1 R2 R3] & Rp & _ & _ & _ & Rb).
  destruct io.
  - destruct (copy_database_spec (database s) (database r)) as (C1 & C2 & C3 & C4);
      [apply Hi|apply Ri|eapply map_Forall_impl; [exact Hack|simpl; lia]|].
    set (db := copy_database _ _) in *. cbv zeta in *.
    destruct (impl_with_database db r) as (E1 & E2 & E3 & E4 & E5).
    pose proof (inv_size _ Hi) as Hs. pose proof (rows_bytes_nonneg (db_records (database s))).
    assert (Hu : u64 (rows_bytes (db_records db)) = rows_bytes (db_records db))
      by (rewrite C2; apply wrap_id; lia).
    rewrite Hu. split_and!; [|intros _; simpl; congruence|done].
    constructor; rewrite ?database_with_accounting, ?database_with_database; try done.
    + apply spool_inv_update; [done|done|done|]. rewrite C2. lia.
    + intros top [T1 T2 T3]. constructor;
        rewrite ?database_with_accounting, ?database_with_database; simpl; rewrite ?E4, ?E5; lia.
    + intros top Htop [Hb1 Hb2]. apply below_update; [by apply Rb|]. by eapply db_below_content.
  - set (s' := mkSpool (sp_impl s) (sp_disk r)).
    assert (Ed : database s' = database s).
    { unfold s', database, database_of. simpl. destruct (bool_decide _) eqn:Em; [done|].
      apply bool_decide_eq_false in Em. eapply open_memory_file; [|exact Eo].
      destruct (check_backend _ Ec); [done|]. destruct (check_backend _ (inv_policy _ Hi)); congruence. }
    split_and!; [|done|done]. destruct Hi, Ri. constructor; rewrite ?Ed; try done.
    + constructor; by rewrite ?Ed.
    + intros top [T1 T2 T3]. constructor; rewrite ?Ed; simpl; lia.
    + intros top Htop [Hb1 Hb2]. unfold below. rewrite Ed. split; [done|]. by apply Rb.
Qed.

(** ** Histories of a device *)

(** A spool over the life of a device whose publications stay within the lease on disk
    and the one in memory (the program does not enforce this; [history_reachable] below
    says when it holds), and within the size a byte counter can hold: the cursors issued
    so far, in order, and the spool.  A restart opens what the disk holds, whatever was
    running. *)
Inductive spool_reachable : list Z -> Spool -> Prop :=
  | reach_first policy clock lease_io s :
      open_spool policy (mkDisk empty_database 0) clock lease_io = Ok s -> spool_reachable [] s
  | reach_restart issued s policy clock lease_io s' :
      spool_reachable issued s -> open_spool policy (sp_disk s) clock lease_io = Ok s' ->
      spool_reachable issued s'
  | reach_publish issued s records io cursors s' :
      spool_reachable issued s ->
      im_tracked_payload_bytes (sp_impl s) + batch_bytes records < 2 ^ 64 ->
      sequence (database s') <= dk_lease (sp_disk s) ->
      sequence (database s') <= im_cursor_lease (sp_impl s) ->
      publish_records records io s = Ok (cursors, s') ->
      spool_reachable
        (issued ++ map row_cursor (rows_after (sequence (database s)) (db_records (database s')))) s'
  | reach_register issued s name now io s' :
      spool_reachable issued s -> register_consumer name now io s = Ok s' -> spool_reachable issued s'
  | reach_unregister issued s name io s' :
      spool_reachable issued s -> unregister_consumer name io s = Ok s' -> spool_reachable issued s'
  | reach_acknowledge issued s name cursor now io s' :
      spool_reachable issued s -> acknowledge name cursor now io s = Ok s' -> spool_reachable issued s'
  | reach_prune issued s now lease_io io_age io_bytes :
      spool_reachable issued s ->
      spool_reachable issued (snd (prune now lease_io io_age io_bytes s))
  | reach_policy issued s policy clock lease_io io :
      spool_reachable issued s ->
      spool_reachable issued (snd (apply_policy policy clock lease_io io s)).

Record history_inv (issued : list Z) (top : Z) (s : Spool) : Prop := {
  hi_inv : spool_inv s;
  hi_top : 0 <= top;
  hi_above : above top s;
  hi_below : below top s;
  hi_issued : Forall (fun c => 0 < c <= top) issued;
  hi_sorted : StronglySorted Z.lt issued }.

Lemma publish_frame records io s cursors s' :
  publish_records records io s = Ok (cursors, s') ->
  exists db t d, s' = with_accounting t d (with_database db s).
Proof.
  unfold publish_records. intros H. do 3 apply bind_Ok in H as (? & _ & H).
  destruct (enforce_cap _ _ _) as [[removed through] lost].
  apply bind_Ok in H as (? & _ & H). injection H as _ <-. by eexists _, _, _.
Qed.

Lemma sorted_Z_app l k :
  StronglySorted Z.lt l -> StronglySorted Z.lt k -> (forall x y, In x l -> In y k -> x < y) ->
  StronglySorted Z.lt (l ++ k).
Proof.
  induction 1 as [|x l Hl IH Hx]; simpl; [done|]. intros Hk Hlt. constructor.
  - apply IH; [done|]. intros a b Ha. apply Hlt. by right.
  - apply Forall_app. split; [done|]. apply List.Forall_forall. intros y Hy. apply Hlt; [by left|done].
Qed.

Lemma rows_after_added s records cursors s' added evicted kept :
  spool_inv s -> publish_post s records cursors s' added evicted kept ->
  rows_after (sequence (database s)) (db_records (database s')) = added.
Proof.
  intros Hi P. rewrite (pp_after _ _ _ _ _ _ _ P). unfold rows_after. rewrite List.filter_app.
  rewrite filter_none, filter_all; [done| |].
  - intros r Hr. apply Z.ltb_lt. apply list_elem_of_In, (in_map row_cursor) in Hr.
    rewrite (pp_fresh _ _ _ _ _ _ _ P) in Hr. apply list_elem_of_In, elem_of_seqZ in Hr. lia.
  - intros r Hr. apply Z.ltb_ge. pose proof (ok_rows _ (inv_active _ Hi)) as Ho.
    rewrite (pp_before _ _ _ _ _ _ _ P), List.Forall_forall in Ho. apply Ho.
    apply in_or_app. right. by apply list_elem_of_In.
Qed.

Lemma publish_history issued top s records io cursors s' :
  history_inv issued top s ->
  im_tracked_payload_bytes (sp_impl s) + batch_bytes records < 2 ^ 64 ->
  sequence (database s') <= dk_lease (sp_disk s) ->
  sequence (database s') <= im_cursor_lease (sp_impl s) ->
  publish_records records io s = Ok (cursors, s') ->
  exists top', history_inv
    (issued ++ map row_cursor (rows_after (sequence (database s)) (db_records (database s')))) top' s'.
Proof.
  intros [Hi Htop [T1 T2 T3] Hb Hiss Hso] Hsize Hl1 Hl2 H.
  destruct (publish_records_post _ _ _ _ _ Hi Hsize H) as (Hi' & added & evicted & kept & P).
  rewrite (rows_after_added _ _ _ _ _ _ _ Hi P).
  destruct (publish_frame _ _ _ _ _ H) as (db & t & d & Es').
  assert (Edb : database s' = db) by (rewrite Es'; apply database_with_database).
  destruct (impl_with_database db s) as (_ & _ & _ & E4 & E5).
  pose proof P as [P1 P2 P3 P4 P5 P6 P7 P8 P9 P10].
  assert (Hnew : forall c, In c (map row_cursor added) ->
    sequence (database s) < c <= sequence (database s')).
  { intros c Hc. rewrite P3 in Hc. apply list_elem_of_In, elem_of_seqZ in Hc. lia. }
  exists (if decide (added = []) then top else sequence (database s')).
  set (top' := if decide _ then _ else _).
  assert (Htop' : top <= top' /\ top' <= sequence (database s') /\
    top' <= dk_lease (sp_disk s) /\ top' <= im_cursor_lease (sp_impl s) /\
    (forall c, In c (map row_cursor added) -> c <= top')).
  { unfold top'. destruct (decide (added = [])) as [->|]; simpl; split_and!; try lia; try done.
    intros c Hc. by apply Hnew. }
  destruct Htop' as (U1 & U2 & U3 & U4 & U5).
  constructor; [done|lia| | | |].
  - constructor; [done|rewrite Es'; simpl; by rewrite E5|rewrite Es'; simpl; by rewrite E4].
  - assert (Hmono : forall x, db_below top x -> db_below top' x).
    { intros x [X1 X2]. split; [eapply Forall_impl; [|exact X1]|eapply map_Forall_impl; [exact X2|]];
        simpl; lia. }
    rewrite Es'. apply below_update; [destruct Hb; by split; apply Hmono|].
    destruct (Hmono _ (proj1 Hb)) as [X1 X2]. rewrite P1 in X1. apply Forall_app in X1 as [_ X1].
    rewrite <- Edb. split; [|by rewrite P7]. rewrite P2. apply Forall_app. split; [done|].
    apply List.Forall_forall. intros r Hr. by apply U5, in_map.
  - apply Forall_app. split; [eapply Forall_impl; [|exact Hiss]; simpl; lia|].
    apply List.Forall_forall. intros c Hc. specialize (Hnew c Hc). specialize (U5 c Hc). lia.
  - apply sorted_Z_app; [done| |].
    + eapply sorted_app_r. rewrite <- P2. apply (ok_sorted _ (inv_active _ Hi')).
    + intros x y Hx Hy. rewrite List.Forall_forall in Hiss. specialize (Hiss x Hx).
      specialize (Hnew y Hy). lia.
Qed.

(** A change of consumers keeps the history. *)
Lemma consumers_history issued top s consumers :
  history_inv issued top s ->
  map_Forall (fun _ c => 0 <= acknowledged_cursor c <= top) consumers ->
  history_inv issued top (with_consumers consumers s).
Proof.
  intros [Hi Htop Ha Hb Hiss Hso] Hc. pose proof (ab_sequence _ _ Ha) as Hseq.
  destruct (with_consumers_spec consumers s Hi) as (H1 & H2 & H3 & H4 & H5).
  { eapply map_Forall_impl; [exact Hc|]. simpl. lia. }
  constructor; auto. unfold with_consumers.
  assert (Hd : db_below top (mkDatabase (db_records (database s)) (db_sequence (database s)) consumers)).
  { split; [apply Hb|]. eapply map_Forall_impl; [exact Hc|]. simpl. lia. }
  destruct Hb as [_ Hf]. split; [by rewrite database_with_database|].
  by apply (file_with_database (db_below top)).
Qed.

Lemma history_acks issued top s :
  history_inv issued top s ->
  map_Forall (fun _ c => 0 <= acknowledged_cursor c <= top) (db_consumers (database s)).
Proof.
  intros [Hi _ _ [[_ Hb] _] _ _] name c Hc.
  pose proof (ok_consumers _ (inv_active _ Hi) name c Hc). specialize (Hb name c Hc). simpl in *. lia.
Qed.

Lemma max_cursor_top top s : 0 <= top -> below top s -> max_cursor (db_records (database s)) <= top.
Proof. intros Htop [[Hr _] _]. by apply max_cursor_le. Qed.

Lemma reachable_history issued s : spool_reachable issued s -> exists top, history_inv issued top s.
Proof.
  induction 1 as [policy clock lease_io s Ho|issued s policy clock lease_io s' _ (top & IH) Ho
    |issued s records io cursors s' _ (top & IH) Hsz Hl1 Hl2 Hp
    |issued s name now io s' _ (top & IH) H|issued s name io s' _ (top & IH) H
    |issued s name cursor now io s' _ (top & IH) H|issued s now l a b _ (top & IH)
    |issued s policy clock l io _ (top & IH)].
  - assert (Hd : disk_ok (mkDisk empty_database 0)) by (split; [apply empty_database_ok|simpl; lia]).
    destruct (open_spool_spec _ _ _ _ _ Hd ltac:(simpl; lia) Ho) as (Hi & Ha & _ & _ & _ & _ & Hb).
    exists 0. constructor; [done|lia|exact Ha| |constructor|constructor].
    apply Hb; [lia|]. split; [constructor|apply map_Forall_empty].
  - destruct IH as [Hi Htop [T1 T2 T3] [_ Hb] Hiss Hso].
    destruct (open_spool_spec _ _ _ _ _ (disk_ok_of s Hi) ltac:(lia) Ho)
      as (Hi' & [A1 A2 A3] & _ & _ & _ & _ & Hb').
    exists top. constructor; auto. constructor; lia.
  - by eapply publish_history.
  - exists top. unfold register_consumer in H. inv_ok H. apply consumers_history; [done|].
    pose proof (history_acks _ _ _ IH) as Hk. apply map_Forall_insert_2; [|done]. simpl.
    pose proof (hi_top _ _ _ IH).
    destruct (db_consumers (database s) !! name) as [c|] eqn:E; [by apply (Hk name)|lia].
  - exists top. unfold unregister_consumer in H. inv_ok H. apply consumers_history; [done|].
    apply map_Forall_delete, (history_acks _ _ _ IH).
  - exists top. unfold acknowledge in H.
    rewrite (max_cursor_u64 _ (inv_active _ (hi_inv _ _ _ IH))) in H.
    apply bind_Ok in H as (_ & Hh%reject_if_Ok & H). apply Z.ltb_ge in Hh.
    apply bind_Ok in H as (z & [_ ->]%bind_unsigned_Ok & H). apply bind_Ok in H as (_ & _ & H).
    destruct (db_consumers (database s) !! name) as [c|] eqn:E; [|done]. injection H as <-.
    apply consumers_history; [done|]. pose proof (history_acks _ _ _ IH) as Hk.
    pose proof (max_cursor_top top s (hi_top _ _ _ IH) (hi_below _ _ _ IH)).
    apply map_Forall_insert_2; [|done]. specialize (Hk name c E). simpl in *. lia.
  - exists top. destruct IH as [Hi Htop Ha Hb Hiss Hso].
    pose proof (prune_pruned now l a b s Hi) as P. destruct (prune now l a b s) as [o s'].
    destruct P as [[P1 P2 P3 P5 P6 P7 P8 P9] _]. by constructor; auto.
  - exists top. pose proof (history_acks _ _ _ IH) as Hk.
    destruct IH as [Hi Htop Ha Hb Hiss Hso]. pose proof (ab_lease _ _ Ha).
    pose proof (apply_policy_spec policy clock l io s Hi ltac:(lia)) as P.
    destruct (apply_policy policy clock l io s) as [o s'].
    destruct P as [[P1 P2 P3 P4 P5 P6] _].
    { eapply map_Forall_impl; [exact Hk|]. simpl. lia. }
    by constructor; auto.
Qed.

(** *** Histories without conditions

    Any sequence of operations from an empty disk, whatever happens to the lease file,
    the most recent step first: openings and completed or failed switches of the medium
    with the outcome of their lease write, and the number of records a publication
    stored. *)
Inductive SpoolStep :=
  | step_opening (lease_written : bool)
  | step_publication (stored : nat)
  | step_prune (lease_io : bool)
  | step_switch (lease_written copied : bool)
  | step_other.

(** Whether a policy changes the medium, so that a replacement is opened. *)
Definition changes_medium (policy : DatabaseStoragePolicy) (clock : Z) (lease_io : bool)
    (s : Spool) : bool :=
  match check_spool_policy policy, open_spool policy (sp_disk s) clock lease_io with
  | Ok _, Ok _ => negb (bool_decide (backend policy = backend (im_policy (sp_impl s))))
  | _, _ => false
  end.

Inductive spool_history : list SpoolStep -> list Z -> Spool -> Prop :=
  | hist_first policy clock lease_io s :
      open_spool policy (mkDisk empty_database 0) clock lease_io = Ok s ->
      spool_history [step_opening lease_io] [] s
  | hist_restart steps issued s policy clock lease_io s' :
      spool_history steps issued s -> open_spool policy (sp_disk s) clock lease_io = Ok s' ->
      spool_history (step_opening lease_io :: steps) issued s'
  | hist_publish steps issued s records io cursors s' :
      spool_history steps issued s ->
      im_tracked_payload_bytes (sp_impl s) + batch_bytes records < 2 ^ 64 ->
      publish_records records io s = Ok (cursors, s') ->
      let stored := map row_cursor (rows_after (sequence (database s)) (db_records (database s'))) in
      spool_history (step_publication (length stored) :: steps) (issued ++ stored) s'
  | hist_register steps issued s name now io s' :
      spool_history steps issued s -> register_consumer name now io s = Ok s' ->
      spool_history (step_other :: steps) issued s'
  | hist_unregister steps issued s name io s' :
      spool_history steps issued s -> unregister_consumer name io s = Ok s' ->
      spool_history (step_other :: steps) issued s'
  | hist_acknowledge steps issued s name cursor now io s' :
      spool_history steps issued s -> acknowledge name cursor now io s = Ok s' ->
      spool_history (step_other :: steps) issued s'
  | hist_prune steps issued s now lease_io io_age io_bytes :
      spool_history steps issued s ->
      spool_history (step_prune lease_io :: steps) issued
        (snd (prune now lease_io io_age io_bytes s))
  | hist_policy steps issued s policy clock lease_io io :
      spool_history steps issued s ->
      spool_history
        ((if changes_medium policy clock lease_io s then step_switch lease_io io else step_other)
         :: steps) issued (snd (apply_policy policy clock lease_io io s)).

(** The records stored since the spool was opened or moved to another medium. *)
Fixpoint stored_since_opening (steps : list SpoolStep) : Z :=
  match steps with
  | [] | step_opening _ :: _ | step_switch _ _ :: _ => 0
  | step_publication n :: steps => Z.of_nat n + stored_since_opening steps
  | (step_prune _ | step_other) :: steps => stored_since_opening steps
  end.

(** What the program relies on and does not check: the lease was written at every opening
    and at every switch of the medium, the switch was completed, and at most 2^31 records
    were stored between two of them.  A renewal may fail. *)
Fixpoint leases_kept (steps : list SpoolStep) : bool :=
  match steps with
  | [] => true
  | step :: earlier =>
      match step with
      | step_opening written => written
      | step_switch written copied => written && copied
      | step_publication _ => stored_since_opening steps <=? 2 ^ 31
      | step_prune _ | step_other => true
      end && leases_kept earlier
  end.

(** The cursors from [base] on are reserved; [n] of them are in use. *)
Record lease_inv (base n : Z) (s : Spool) : Prop := {
  le_base : 0 <= base;
  le_active : sequence (database s) <= base + n;
  le_file : sequence (dk_file (sp_disk s)) <= base + n;
  le_reserved : base + cursor_lease_reservation <= im_cursor_lease (sp_impl s);
  le_lease : base + cursor_lease_reservation <= dk_lease (sp_disk s) }.

Lemma lease_update base n n' db t d s :
  lease_inv base n s -> n <= n' -> sequence db <= base + n' ->
  lease_inv base n' (with_accounting t d (with_database db s)).
Proof.
  intros [L1 L2 L3 L4 L5] Hn Hd. destruct (impl_with_database db s) as (_ & _ & _ & E4 & E5).
  constructor; rewrite ?database_with_accounting, ?database_with_database; simpl;
    rewrite ?E4, ?E5; try lia.
  apply (file_with_database (fun f => sequence f <= base + n')); lia.
Qed.

Lemma lease_consumers base n consumers s :
  lease_inv base n s -> lease_inv base n (with_consumers consumers s).
Proof.
  intros [L1 L2 L3 L4 L5]. unfold with_consumers. set (db := mkDatabase _ _ consumers).
  destruct (impl_with_database db s) as (_ & _ & _ & E4 & E5).
  constructor; rewrite ?database_with_database, ?E4, ?E5; try done.
  by apply (file_with_database (fun f => sequence f <= base + n)).
Qed.

Lemma lease_renew base n lease_io s :
  spool_inv s -> lease_inv base n s -> lease_inv base n (renew_cursor_lease lease_io s).
Proof.
  intros Hi [L1 L2 L3 L4 L5].
  pose proof (renew_spec lease_io s Hi) as (_ & Ed & _ & _ & _ & Ef). cbv zeta in Ed, Ef.
  pose proof (max_cursor_sequence _ (inv_active _ Hi)) as Hm.
  pose proof (ok_sequence _ (inv_active _ Hi)) as Hq. rewrite INT64_MAX_pow in Hq.
  pose proof (max_cursor_nonneg (db_records (database s))).
  constructor; rewrite ?Ed, ?Ef; try done; unfold renew_cursor_lease; cbv zeta;
    rewrite (max_cursor_u64 _ (inv_active _ Hi));
    unfold cursor_lease_renewal_margin, cursor_lease_reservation in *; rewrite !wrap_id by lia;
    (destruct (Z.ltb_spec (max_cursor (db_records (database s)) + 2 ^ 30)
              (im_cursor_lease (sp_impl s))); [done|]); destruct lease_io; simpl; lia.
Qed.

Lemma lease_prune base n now lease_io io_age io_bytes s :
  spool_inv s -> lease_inv base n s ->
  lease_inv base n (snd (prune now lease_io io_age io_bytes s)).
Proof.
  intros Hi L. apply (lease_renew base n lease_io s Hi) in L. unfold prune. cbv zeta.
  set (s0 := renew_cursor_lease lease_io s) in *. clearbody s0.
  enough (forall age limit, lease_inv base n (snd (prune_passes age limit now io_age io_bytes s0)))
    by (destruct (maximum_age _), (maximum_bytes _); auto).
  intros age limit. unfold prune_passes. cbv zeta.
  set (ack := min_acknowledged _). clearbody ack.
  assert (H1 : forall s1, match age with Some a => prune_age a ack now io_age s0 | None => Ok s0 end
    = Ok s1 -> lease_inv base n s1).
  { intros s1. destruct age as [a|]; [|by intros [= <-]]. unfold prune_age. intros H. inv_ok H.
    eapply lease_update; [exact L|lia|]. apply L. }
  destruct (match age with Some _ => _ | None => _ end) as [s1|e]; [|exact L].
  specialize (H1 s1 eq_refl).
  destruct limit as [l|]; [|exact H1]. unfold prune_bytes.
  destruct (l <? _); [|exact H1]. destruct (prune_loop _ _ _ _) as [bytes through].
  destruct (negb _); [|exact H1]. destruct io_bytes; [|exact H1]. simpl.
  eapply lease_update; [exact H1|lia|]. apply H1.
Qed.

(** An opening whose lease is written starts a new reservation above the old one. *)
Lemma lease_opened policy disk clock s :
  disk_ok disk -> 0 <= dk_lease disk -> sequence (dk_file disk) <= dk_lease disk ->
  open_spool policy disk clock true = Ok s ->
  exists base, dk_lease disk <= base /\ lease_inv base 0 s.
Proof.
  intros [Hf Hfs] Hl Hq H. unfold open_spool in H.
  apply bind_Ok in H as ([] & Hp & H). apply bind_Ok in H as ([db seed] & Hs & H).
  assert (Hd0 : db_ok (database_of policy empty_database disk) /\
    sequence (database_of policy empty_database disk) <= dk_lease disk).
  { unfold database_of. destruct (bool_decide _); [|done]. split; [apply empty_database_ok|done]. }
  destruct Hd0 as [Hd0 Hsq].
  destruct (seed_cursor_space_spec _ _ _ _ _ Hd0 Hl Hs) as (Hd & _ & _ & Hseed & Hsd).
  simpl in H. injection H as <-. rewrite INT64_MAX_pow in Hseed.
  unfold cursor_lease_reservation. rewrite !wrap_id by lia. exists seed. split; [lia|].
  set (s0 := mkSpool _ _). destruct (impl_with_database db s0) as (_ & _ & _ & E4 & E5).
  constructor; rewrite ?database_with_database, ?E4, ?E5; unfold cursor_lease_reservation;
    simpl; try lia.
  apply (file_with_database (fun f => sequence f <= seed + 0)); simpl; lia.
Qed.

Lemma copy_sequence source target :
  db_ok source -> db_ok target ->
  sequence (copy_database source target) <=
  Z.max (sequence target) (max_cursor (db_records source)).
Proof.
  intros [A1 A2 A3 A4 A5] [_ _ B3 _ _]. unfold copy_database. cbv zeta.
  destruct (copy_rows (db_records source) (mkDatabase [] (db_sequence target) ∅))
    as (_ & _ & H3); [done|done|apply B3|]. cbv zeta in H3.
  unfold sequence in *. simpl in *. lia.
Qed.

Lemma lease_switched policy clock lease_io io base n s s' outcome :
  spool_inv s -> 0 <= n <= cursor_lease_reservation -> lease_inv base n s ->
  apply_policy policy clock lease_io io s = (outcome, s') ->
  (changes_medium policy clock lease_io s = true -> lease_io && io = true) ->
  exists base', lease_inv base'
    (if changes_medium policy clock lease_io s then 0 else n) s'.
Proof.
  intros Hi Hn L. pose proof L as [L1 L2 L3 L4 L5]. unfold apply_policy, changes_medium.
  destruct (check_spool_policy policy) as [[]|e]; [|intros [= <- <-] _; eauto].
  destruct (bool_decide _) eqn:Eb.
  { intros [= <- <-] _. exists base. apply bool_decide_eq_true in Eb.
    assert (Ed : database (with_policy policy s) = database s)
      by (unfold database, database_of; simpl; by rewrite Eb).
    destruct (open_spool _ _ _ _); constructor; rewrite ?Ed; done. }
  destruct (open_spool policy (sp_disk s) clock lease_io) as [r|e] eqn:Eo;
    [|intros [= <- <-] _; eauto]. intros H Hio.
  destruct (proj1 (andb_true_iff _ _) (Hio eq_refl)) as [-> ->]. injection H as <- <-.
  destruct (lease_opened policy (sp_disk s) clock r (disk_ok_of s Hi) ltac:(lia) ltac:(lia) Eo)
    as (base' & Hb & L'). exists base'. cbn [negb].
  pose proof (open_spool_spec _ _ _ _ _ (disk_ok_of s Hi) ltac:(lia) Eo) as (Ri & _).
  eapply lease_update; [exact L'|lia|].
  pose proof (copy_sequence _ _ (inv_active _ Hi) (inv_active _ Ri)).
  pose proof (max_cursor_sequence _ (inv_active _ Hi)). pose proof (le_active _ _ _ L'). lia.
Qed.

Lemma stored_range steps :
  leases_kept steps = true -> 0 <= stored_since_opening steps <= cursor_lease_reservation.
Proof.
  unfold cursor_lease_reservation.
  induction steps as [|step steps IH]; [simpl; lia|].
  cbn [leases_kept]. intros [Hs Hk]%andb_true_iff. specialize (IH Hk).
  destruct step; cbn [stored_since_opening] in *; lia.
Qed.

Lemma spool_reachable_inv issued s : spool_reachable issued s -> spool_inv s.
Proof. intros (top & H)%reachable_history. apply H. Qed.

Lemma publish_lease base n issued s records io cursors s' :
  spool_reachable issued s -> lease_inv base n s ->
  im_tracked_payload_bytes (sp_impl s) + batch_bytes records < 2 ^ 64 ->
  publish_records records io s = Ok (cursors, s') ->
  let stored := map row_cursor (rows_after (sequence (database s)) (db_records (database s'))) in
  Z.of_nat (length stored) + n <= cursor_lease_reservation -> 0 <= n ->
  spool_reachable (issued ++ stored) s' /\ lease_inv base (Z.of_nat (length stored) + n) s'.
Proof.
  intros Hr L Hsz H stored Hn Hn0. pose proof (spool_reachable_inv _ _ Hr) as Hi.
  destruct (publish_records_post _ _ _ _ _ Hi Hsz H) as (_ & added & evicted & kept & P).
  pose proof (rows_after_added _ _ _ _ _ _ _ Hi P) as Ha.
  pose proof (pp_sequence _ _ _ _ _ _ _ P) as Hq. pose proof L as [L1 L2 L3 L4 L5].
  assert (Hlen : length stored = length added) by (unfold stored; by rewrite Ha, length_map).
  split.
  - eapply reach_publish; try done; lia.
  - destruct (publish_frame _ _ _ _ _ H) as (db & t & d & Es').
    assert (Edb : database s' = db) by (rewrite Es'; apply database_with_database).
    rewrite Es'. eapply lease_update; [exact L|lia|]. rewrite <- Edb. lia.
Qed.

(** A history that keeps its leases stays within them. *)
Lemma history_reachable steps issued s :
  spool_history steps issued s -> leases_kept steps = true ->
  spool_reachable issued s /\ exists base, lease_inv base (stored_since_opening steps) s.
Proof.
  induction 1 as [policy clock l s Ho|steps issued s policy clock l s' _ IH Ho
    |steps issued s records io cursors s' _ IH Hsz Hp stored
    |steps issued s name now io s' _ IH H|steps issued s name io s' _ IH H
    |steps issued s name cursor now io s' _ IH H|steps issued s now l a b _ IH
    |steps issued s policy clock l io _ IH]; cbn [leases_kept]; intros [Hs Hk]%andb_true_iff;
    try (destruct (IH Hk) as (Hr & base & L); pose proof (stored_range _ Hk)).
  - subst l. split; [by eapply reach_first|].
    destruct (lease_opened policy (mkDisk empty_database 0) clock s) as (base & _ & L);
      [split; [apply empty_database_ok|simpl; lia]|done|done|done|by exists base].
  - subst l. split; [by eapply reach_restart|]. pose proof (spool_reachable_inv _ _ Hr) as Hi.
    destruct L as [L1 L2 L3 L4 L5].
    destruct (lease_opened policy (sp_disk s) clock s' (disk_ok_of s Hi)) as (base' & _ & L');
      [lia|lia|done|by exists base'].
  - apply Z.leb_le in Hs. cbn [stored_since_opening] in Hs |- *.
    destruct (publish_lease base _ issued s records io cursors s' Hr L Hsz Hp Hs) as [Hr' L'];
      [lia|]. split; [done|by exists base].
  - split; [by eapply reach_register|]. exists base. unfold register_consumer in H. inv_ok H.
    by apply lease_consumers.
  - split; [by eapply reach_unregister|]. exists base. unfold unregister_consumer in H. inv_ok H.
    by apply lease_consumers.
  - split; [by eapply reach_acknowledge|]. exists base. unfold acknowledge in H.
    do 3 apply bind_Ok in H as (? & _ & H).
    destruct (db_consumers (database s) !! name); [|done]. injection H as <-.
    by apply lease_consumers.
  - split; [by apply reach_prune|]. exists base.
    by apply lease_prune; [eapply spool_reachable_inv|].
  - split; [by apply reach_policy|].
    destruct (apply_policy policy clock l io s) as [outcome s'] eqn:E.
    destruct (lease_switched _ _ _ _ _ _ _ _ _ (spool_reachable_inv _ _ Hr) ltac:(done) L E)
      as (base' & L').
    + intros Hc. rewrite Hc in Hs. exact Hs.
    + exists base'. by destruct (changes_medium policy clock l s).
Qed.

(** (C6) If the lease file was written at every opening and at every completed change of
    medium, no change of medium failed half way and at most 2^31 records were stored
    between two of them (the code checks none of this: [leases_kept]), the cursors ever
    issued are strictly increasing, over any sequence of restarts, publications,
    evictions, prunes, consumer operations and policy changes in either medium.  Lease
    renewals may fail.  Every such spool is well formed: rows in strictly increasing
    cursor order with distinct identities, consumer positions within what was issued, and
    the byte counter (assumed to fit 64 bits) equal to the size of the stream.  Without
    the condition cursors do repeat: [failed_lease_repeats_cursors]. *)
Theorem spool_cursors_unique steps issued s :
  spool_history steps issued s -> leases_kept steps = true ->
  StronglySorted Z.lt issued /\ spool_inv s /\
  Forall (fun c => c <= sequence (database s)) issued.
Proof.
  intros H Hk. destruct (history_reachable _ _ _ H Hk) as [Hr _].
  destruct (reachable_history _ _ Hr) as (top & [Hi Htop [T1 T2 T3] Hb Hiss Hso]).
  split_and!; [done|done|]. eapply Forall_impl; [|exact Hiss]. simpl. lia.
Qed.

(** Two sessions of a memory spool: the second one starts above the lease of the first. *)
Definition opened (policy : DatabaseStoragePolicy) (disk : Disk) (clock : Z) (lease_io : bool) : Spool :=
  match open_spool policy disk clock lease_io with
  | Ok s => s
  | Throw _ => mkSpool (mkImpl policy empty_database 0 0 0 0) disk
  end.

Definition published (records : list MeterStreamRecord) (s : Spool) : Spool :=
  match publish_records records true s with Ok (_, s) => s | Throw _ => s end.

Definition session1 : Spool := opened (sample_policy 300) (mkDisk empty_database 0) 1000 true.
Definition session1_end : Spool := published [sample_record 1; sample_record 2] session1.
Definition session2 : Spool := opened (sample_policy 300) (sp_disk session1_end) 0 true.

Lemma reach_published issued s records cursors issued' :
  spool_reachable issued s ->
  issued' = issued ++ map row_cursor (rows_after (sequence (database s))
    (db_records (database (published records s)))) ->
  (im_tracked_payload_bytes (sp_impl s) + batch_bytes records <? 2 ^ 64) = true ->
  (sequence (database (published records s)) <=? dk_lease (sp_disk s)) = true ->
  (sequence (database (published records s)) <=? im_cursor_lease (sp_impl s)) = true ->
  publish_records records true s = Ok (cursors, published records s) ->
  spool_reachable issued' (published records s).
Proof.
  intros Hs -> H1 H2 H3 H4. bools. by eapply reach_publish.
Qed.

Lemma session1_reachable : spool_reachable [] session1.
Proof. apply (reach_first (sample_policy 300) 1000 true). vm_compute. reflexivity. Qed.

Lemma session1_end_reachable : spool_reachable [1001; 1002] session1_end.
Proof.
  apply (reach_published [] session1 _ [1001; 1002]); [apply session1_reachable|vm_compute; reflexivity..].
Qed.

Lemma session2_reachable : spool_reachable [1001; 1002] session2.
Proof.
  eapply (reach_restart _ session1_end (sample_policy 300) 0 true);
    [apply session1_end_reachable|vm_compute; reflexivity].
Qed.

Lemma hist_published steps issued s records cursors steps' issued' :
  spool_history steps issued s ->
  let stored := map row_cursor (rows_after (sequence (database s))
    (db_records (database (published records s)))) in
  steps' = step_publication (length stored) :: steps -> issued' = issued ++ stored ->
  (im_tracked_payload_bytes (sp_impl s) + batch_bytes records <? 2 ^ 64) = true ->
  publish_records records true s = Ok (cursors, published records s) ->
  spool_history steps' issued' (published records s).
Proof.
  intros Hs stored -> -> H1 H2. bools. by eapply hist_publish.
Qed.

(** The two sessions as a history: four steps, the lease written at both openings. *)
Lemma sessions_history :
  spool_history [step_publication 1; step_opening true; step_publication 2; step_opening true]
    [1001; 1002; 1001 + 2 ^ 31] (published [sample_record 1] session2).
Proof.
  assert (H1 : spool_history [step_opening true] [] session1)
    by (apply (hist_first (sample_policy 300) 1000 true); vm_compute; reflexivity).
  assert (H2 : spool_history [step_publication 2; step_opening true] [1001; 1002] session1_end)
    by (apply (hist_published _ _ _ _ [1001; 1002] _ _ H1); vm_compute; reflexivity).
  assert (H3 : spool_history [step_opening true; step_publication 2; step_opening true]
    [1001; 1002] session2).
  { apply (hist_restart _ _ session1_end (sample_policy 300) 0 true); [exact H2|].
    vm_compute. reflexivity. }
  apply (hist_published _ _ _ _ [1001 + 2 ^ 31] _ _ H3); vm_compute; reflexivity.
Qed.

Lemma spool_cursors_unique_witness :
  fst <$> (match publish_records [sample_record 1] true session2 with Ok p => Some p | _ => None end)
    = Some [1001 + 2 ^ 31] /\
  StronglySorted Z.lt [1001; 1002; 1001 + 2 ^ 31] /\
  spool_inv (published [sample_record 1] session2).
Proof.
  split; [vm_compute; reflexivity|].
  destruct (spool_cursors_unique _ _ _ sessions_history eq_refl) as (H1 & H2 & _). by split.
Defined.

(** The third record takes the two stored ones over the cap of 300 bytes. *)
Lemma spool_publish_witness :
  im_dropped_unacknowledged (sp_impl (published [sample_record 3] session1_end)) = 1 /\
  spool_inv (published [sample_record 3] session1_end).
Proof.
  split; [vm_compute; reflexivity|].
  destruct (reachable_history _ _ session1_end_reachable) as (top & Ht).
  refine (proj1 (spool_publish [sample_record 3] true session1_end [1003] _ (hi_inv _ _ _ Ht) _ _ _)).
  - vm_compute. reflexivity.
  - constructor; [|constructor]. unfold record_ok. simpl. split_and!; try lia; done.
  - vm_compute. reflexivity.
Defined.

Lemma spool_prune_witness :
  db_records (database (snd (prune 0 true true true session1_end))) = db_records (database session1_end) /\
  spool_inv (snd (prune 0 true true true session1_end)).
Proof.
  split; [vm_compute; reflexivity|].
  destruct (reachable_history _ _ session1_end_reachable) as (top & Ht).
  pose proof (spool_prune 0 true true true session1_end (hi_inv _ _ _ Ht)) as H.
  destruct (prune 0 true true true session1_end) as [o s']. apply H.
Defined.

(** A lease that cannot be written: with an older lease on disk, the next session of a
    memory spool starts where this one did and issues the same cursors again.  The
    wall-clock bootstrap only applies when there is no lease at all. *)
Lemma failed_lease_repeats_cursors :
  let disk := mkDisk empty_database 5000 in
  let first := opened (sample_policy 300) disk 1000000 false in
  let second := opened (sample_policy 300) (sp_disk (published [sample_record 1] first)) 2000000 false in
  forall c1 c2 s1 s2,
    publish_records [sample_record 1] true first = Ok (c1, s1) ->
    publish_records [sample_record 2] true second = Ok (c2, s2) ->
    c1 = [5001] /\ c2 = [5001].
Proof. vm_compute. intros c1 c2 s1 s2 [= <- <-] [= <- <-]. done. Qed.
