(* ===== verification/SpoolDelivery.v ===== *)
(** * What producers and consumers of the meter spool can rely on

    Retrying a publication, consuming the stream in batches, and switching the backend
    under a running consumer, on top of the invariant of [SpoolTheorems.v]. *)

From Stdlib Require Import Sorted.
From stdpp Require Import gmap.
From S2P Require Import Prelude DatabasePolicy MeterSpool SpoolTheorems.

(** ** Retrying a publication *)
Lemma key_unique rows a b :
  NoDup (map row_key rows) -> a ∈ rows -> b ∈ rows -> row_key a = row_key b -> a = b.
Proof.
  induction rows as [|r rows IH]; intros Hd Ha Hb E; [by apply not_elem_of_nil in Ha|].
  simpl in Hd. apply list.NoDup_cons in Hd as [Hr Hd].
  assert (Hmap : forall x, x ∈ rows -> row_key x ∈ map row_key rows)
    by (intros x Hx; by apply list_elem_of_In, in_map, list_elem_of_In).
  apply elem_of_cons in Ha as [->|Ha], Hb as [->|Hb]; [done| | |by apply IH].
  - destruct Hr. rewrite E. auto.
  - destruct Hr. rewrite <- E. auto.
Qed.

Lemma find_existing_carried db r c :
  db_ok db -> Exists (carries r c) (db_records db) ->
  exists row, find_existing (db_records db) r = Some row /\ row ∈ db_records db /\ row_cursor row = c.
Proof.
  intros Hd (row & Hin & Ec & Ek)%List.Exists_exists. apply list_elem_of_In in Hin.
  destruct (find_existing (db_records db) r) as [row'|] eqn:E.
  - apply find_existing_Some in E as [Hin' Ek']. exists row'. split_and!; [done..|].
    by rewrite (key_unique _ row' row (ok_keys _ Hd) Hin' Hin ltac:(congruence)).
  - apply find_existing_None in E. destruct E. rewrite <- Ek.
    by apply list_elem_of_In, in_map, list_elem_of_In.
Qed.

(** Records that passed the bindings once pass them again. *)
Definition bindable (r : MeterStreamRecord) : Prop :=
  is_ok (bind_unsigned (sr_source_sequence r)) = true /\
  is_ok (bind_unsigned (first_sample_index (sr_timing r))) = true.

Lemma publish_loop_bindable records p p' :
  publish_loop records p = Ok p' -> Forall bindable records.
Proof.
  revert p. induction records as [|r records IH]; intros p H; [constructor|].
  simpl in H. apply bind_Ok in H as (p1 & H1 & H). constructor; [|by eapply IH].
  unfold publish_record in H1. apply bind_Ok in H1 as (a & Ha & H1).
  apply bind_Ok in H1 as (b & Hb & _). unfold bindable. by rewrite Ha, Hb.
Qed.

Lemma publish_loop_known records cursors p :
  db_ok (pb_database p) -> Forall bindable records ->
  Forall2 (fun r c => Exists (carries r c) (db_records (pb_database p))) records cursors ->
  publish_loop records p =
    Ok (mkPublication (pb_database p) (pb_cursors p ++ cursors) (pb_inserted_bytes p)
          (pb_first_inserted_cursor p)).
Proof.
  intros Hd Hb H. revert p Hd H. revert cursors.
  induction Hb as [|r records [B1 B2] _ IH]; intros cursors p Hd H.
  - inversion H; subst. simpl. rewrite app_nil_r. by destruct p.
  - inversion H as [|? c ? cs Hc Hcs]; subst. cbn [publish_loop].
    unfold publish_record at 1. apply is_ok_iff in B1 as [q ->], B2 as [f ->]. cbn [mbind result_bind].
    destruct (find_existing_carried _ _ _ Hd Hc) as (row & -> & Hin & <-).
    cbn [mbind result_bind].
    rewrite (cursor_u64 _ _ Hd Hin), IH with (cursors := cs) by done. simpl. by rewrite <- app_assoc.
Qed.

Lemma with_database_same s : with_database (database s) s = s.
Proof.
  unfold with_database, database, database_of. destruct s as [[p m ss l t d] [f dl]]. simpl.
  by destruct (bool_decide _).
Qed.

Lemma publish_records_bindable records io s cursors s' :
  publish_records records io s = Ok (cursors, s') -> Forall bindable records.
Proof.
  unfold publish_records. intros H. do 2 apply bind_Ok in H as (? & _ & H).
  apply bind_Ok in H as (p & Hp & _). by eapply publish_loop_bindable.
Qed.

Lemma publish_guards {A} records io s cursors s' (k : result A) :
  publish_records records io s = Ok (cursors, s') ->
  (reject_if (Nat.eqb (length records) 0 || (256 <? length records)%nat)
     (InvalidArgument "meter stream publish batch must contain 1..256 records") ;;
   reject_if (existsb (fun r => Nat.eqb (length (sr_payload r)) 0) records)
     (InvalidArgument "meter stream record payload is empty") ;; k) = k.
Proof.
  unfold publish_records. intros H.
  apply bind_Ok in H as ([] & H1 & H). apply bind_Ok in H as ([] & H2 & _). by rewrite H1, H2.
Qed.

(** A publication can be retried.  When the reply to a publication is lost, sending
    the same batch again answers the same cursors and changes nothing, as long as the
    rows that answer it are still stored, which without a byte cap is always so. *)
Theorem spool_publish_retry records io s cursors s' :
  spool_inv s -> im_tracked_payload_bytes (sp_impl s) + batch_bytes records < 2 ^ 64 ->
  publish_records records io s = Ok (cursors, s') ->
  (Forall2 (fun r c => Exists (carries r c) (db_records (database s'))) records cursors ->
   publish_records records true s' = Ok (cursors, s')) /\
  (maximum_bytes (retention (im_policy (sp_impl s))) = None ->
   publish_records records true s' = Ok (cursors, s')).
Proof.
  intros Hi Hsize H.
  destruct (publish_records_post _ _ _ _ _ Hi Hsize H) as (Hi' & added & evicted & kept & P).
  assert (Hretry : Forall2 (fun r c => Exists (carries r c) (db_records (database s'))) records cursors ->
    publish_records records true s' = Ok (cursors, s')).
  { intros Hc. unfold publish_records. rewrite (publish_guards _ _ _ _ _ _ H).
    rewrite (publish_loop_known records cursors);
      [|apply Hi'|by eapply publish_records_bindable|done].
    cbn [mbind result_bind pb_database pb_cursors pb_inserted_bytes]. rewrite Z.add_0_r.
    pose proof (inv_size _ Hi'). pose proof (inv_tracked _ Hi').
    pose proof (rows_bytes_nonneg (db_records (database s'))).
    assert (Ecap : forall limit projected, enforce_cap limit projected
      (mkPublication (database s') ([] ++ cursors) 0 0) = (0, 0, 0)) by (by intros [l|] projected).
    rewrite Ecap. simpl. rewrite with_database_same, (wrap_id 64 (im_tracked_payload_bytes _)) by lia.
    rewrite Z.min_r, Z.sub_0_r, Z.add_0_r, wrap_id by lia.
    rewrite (pp_dropped _ _ _ _ _ _ _ P). unfold wrap. rewrite Z.mod_mod by lia. fold (wrap 64).
    rewrite <- (pp_dropped _ _ _ _ _ _ _ P) at 1. by destruct s' as [[] []]. }
  split; [done|]. intros Hnone. apply Hretry. rewrite (pp_after _ _ _ _ _ _ _ P).
  destruct (decide (evicted = [])) as [->|Hne]; [apply (pp_cursors _ _ _ _ _ _ _ P)|].
  destruct (exists_last Hne) as (e & r & Ee).
  destruct (pp_needed _ _ _ _ _ _ _ P e r Ee) as (l & Hl & _). congruence.
Qed.

(** A row published under a cap is still there when it was the last one. *)
Lemma spool_publish_retry_witness :
  publish_records [sample_record 2] true (published [sample_record 2] session2) =
    Ok ([1001 + 2 ^ 31], published [sample_record 2] session2).
Proof.
  destruct (reachable_history _ _ session2_reachable) as (top & Ht).
  refine (proj1 (spool_publish_retry [sample_record 2] true session2 [1001 + 2 ^ 31]
    (published [sample_record 2] session2) (hi_inv _ _ _ Ht) _ _) _).
  - vm_compute. reflexivity.
  - vm_compute. reflexivity.
  - constructor; [|constructor]. left. split; vm_compute; reflexivity.
Defined.

(** ** Consuming the stream *)

(** The loop of a consumer: read a batch, process it, acknowledge its last record. *)
Fixpoint consume (turns : nat) (name : string) (limit now : Z) (s : Spool)
  : list MeterStreamRecord * Spool :=
  match turns with
  | O => ([], s)
  | S turns =>
      match read_after name limit s with
      | Throw _ => ([], s)
      | Ok batch =>
          match list.last batch with
          | None => ([], s)
          | Some r =>
              match acknowledge name (sr_cursor r) now true s with
              | Throw _ => ([], s)
              | Ok s => let '(rest, s) := consume turns name limit now s in (batch ++ rest, s)
              end
          end
      end
  end.

Lemma rows_after_delete c rows : rows_after c rows = delete_through c rows.
Proof.
  unfold rows_after, delete_through. apply filter_ext. intros r.
  destruct (Z.leb_spec (row_cursor r) c), (Z.ltb_spec c (row_cursor r)); simpl; lia || done.
Qed.

Lemma rows_after_split c rows a x b :
  StronglySorted Z.lt (map row_cursor rows) -> rows_after c rows = (a ++ [x]) ++ b ->
  rows_after (row_cursor x) rows = b.
Proof.
  intros Hs E. destruct (rows_through_prefix c rows Hs) as (rest & Er & Hrest).
  assert (Erest : rest = (a ++ [x]) ++ b).
  { rewrite <- E. rewrite Er at 1. unfold rows_after. rewrite List.filter_app, filter_none, filter_all.
    - done.
    - intros r Hr%list_elem_of_In. rewrite List.Forall_forall in Hrest. by apply Z.ltb_lt, Hrest.
    - intros r Hr. unfold rows_through in Hr. apply list_elem_of_In, filter_In in Hr as [_ Hr].
      apply Z.ltb_ge. by apply Z.leb_le. }
  rewrite rows_after_delete. rewrite Er, Erest, app_assoc, app_assoc in Hs |- *.
  by apply delete_through_prefix.
Qed.

Lemma rows_after_elem c rows r : r ∈ rows_after c rows -> r ∈ rows /\ c < row_cursor r.
Proof. intros [Hr Hc%Z.ltb_lt]%list_elem_of_In%filter_In. by rewrite list_elem_of_In. Qed.

(** One turn: read, then acknowledge the last record read. *)
Lemma consume_turn name limit now s c :
  spool_inv s -> db_consumers (database s) !! name = Some c -> 1 <= limit <= 4096 ->
  let pending := rows_after (acknowledged_cursor c) (db_records (database s)) in
  pending <> [] ->
  exists x s', list.last (take (Z.to_nat limit) pending) = Some x /\
    acknowledge name (row_cursor x) now true s = Ok s' /\ spool_inv s' /\
    db_records (database s') = db_records (database s) /\
    db_consumers (database s') !! name = Some (mkConsumer (row_cursor x) now) /\
    rows_after (row_cursor x) (db_records (database s')) = drop (Z.to_nat limit) pending.
Proof.
  intros Hi Hc Hl pending Hne.
  assert (Ht : take (Z.to_nat limit) pending <> []).
  { destruct pending as [|r rest]; [done|]. destruct (Z.to_nat limit) eqn:E; [lia|done]. }
  destruct (exists_last Ht) as (a & x & Ea). exists x. rewrite Ea, last_snoc.
  assert (Ep : pending = (a ++ [x]) ++ drop (Z.to_nat limit) pending)
    by (rewrite <- Ea; symmetry; apply take_drop).
  assert (Hx : x ∈ db_records (database s) /\ acknowledged_cursor c < row_cursor x).
  { apply rows_after_elem. fold pending. rewrite Ep. apply elem_of_app. left. apply elem_of_app.
    right. by apply list_elem_of_singleton. }
  destruct Hx as [Hx Hlt]. pose proof (max_cursor_in _ _ Hx) as Hmax.
  pose proof (ok_sequence _ (inv_active _ Hi)) as Hq.
  pose proof (max_cursor_sequence _ (inv_active _ Hi)).
  assert (Hack : exists s', acknowledge name (row_cursor x) now true s = Ok s').
  { unfold acknowledge. rewrite (max_cursor_u64 _ (inv_active _ Hi)).
    rewrite (proj2 (Z.ltb_ge _ _)) by lia. cbn [reject_if mbind result_bind].
    unfold bind_unsigned. rewrite (proj2 (Z.ltb_ge _ _)) by lia. cbn [reject_if mbind result_bind].
    simpl. rewrite Hc. by eexists. }
  destruct Hack as [s' Hack]. exists s'.
  destruct (acknowledge_spec _ _ _ _ _ _ Hi Hack) as (c' & Hc' & _ & Hcons & Hi' & Hr & _ & _).
  assert (c' = c) as -> by congruence.
  split_and!; try done.
  - rewrite Hcons, lookup_insert_eq, Z.max_r by lia. done.
  - rewrite Hr. by eapply rows_after_split; [apply (ok_sorted _ (inv_active _ Hi))|].
Qed.

Lemma read_after_eq name limit s c :
  1 <= limit <= 4096 -> db_consumers (database s) !! name = Some c ->
  read_after name limit s =
    Ok (map record_of_row
          (take (Z.to_nat limit) (rows_after (acknowledged_cursor c) (db_records (database s))))).
Proof.
  intros Hl Hc. unfold read_after.
  assert (((limit =? 0) || (4096 <? limit)) = false) as -> by lia.
  cbn [reject_if mbind result_bind]. by rewrite Hc.
Qed.

(** (C8) A consumer receives every record, in order, exactly once.  Reading batches of any
    legal size and acknowledging the last record of each, it gets exactly the stored
    records above its position in cursor order, converted back from their rows; when it
    is done its position is the last of them, another read is empty, and the stream
    itself is unchanged. *)
Theorem spool_delivers turns name limit now s c :
  spool_inv s -> db_consumers (database s) !! name = Some c -> 1 <= limit <= 4096 ->
  (length (rows_after (acknowledged_cursor c) (db_records (database s))) < turns)%nat ->
  let '(delivered, s') := consume turns name limit now s in
  delivered = map record_of_row (rows_after (acknowledged_cursor c) (db_records (database s))) /\
  read_after name limit s' = Ok [] /\ spool_inv s' /\
  db_records (database s') = db_records (database s) /\
  exists c', db_consumers (database s') !! name = Some c' /\
    acknowledged_cursor c' = match list.last delivered with
                             | Some r => sr_cursor r | None => acknowledged_cursor c end.
Proof.
  revert s c. induction turns as [|turns IH]; intros s c Hi Hc Hl Hn; [lia|]. cbn [consume].
  rewrite (read_after_eq _ _ _ _ Hl Hc).
  set (pending := rows_after (acknowledged_cursor c) (db_records (database s))) in *.
  destruct (decide (pending = [])) as [E|Hne].
  { rewrite E, take_nil. simpl. split_and!; try done; [|by exists c].
    rewrite (read_after_eq _ _ _ _ Hl Hc). fold pending. by rewrite E, take_nil. }
  destruct (consume_turn name limit now s c Hi Hc Hl Hne) as (x & s1 & Hx & Hack & Hi1 & Hr1 & Hc1 & Hrest).
  fold pending in Hx, Hrest. rewrite fmap_last, Hx. cbn [fmap option_fmap option_map].
  assert (Hcur : sr_cursor (record_of_row x) = row_cursor x).
  { apply (cursor_u64 _ _ (inv_active _ Hi)).
    pose proof (last_Some_elem_of _ _ Hx) as Hin. apply elem_of_take in Hin as (k & Hk & _).
    apply list_elem_of_lookup_2 in Hk. by apply rows_after_elem in Hk as [? _]. }
  rewrite Hcur, Hack. specialize (IH s1 _ Hi1 Hc1 Hl). cbn [acknowledged_cursor] in IH.
  rewrite Hrest in IH. destruct (consume turns name limit now s1) as [rest s2].
  destruct IH as (-> & Hread & Hi2 & Hr2 & c' & Hc' & Hpos).
  { rewrite length_drop. destruct pending; [done|]. simpl in *. lia. }
  split_and!; [|done|done|congruence|].
  - by rewrite <- map_app, take_drop.
  - exists c'. split; [done|]. rewrite Hpos, last_app.
    destruct (list.last (map record_of_row (drop _ pending))) eqn:El; [done|].
    by rewrite fmap_last, Hx, <- Hcur.
Qed.

(** A consumer registered on the second session, before two records arrive. *)
Definition consumer_session : Spool :=
  published [sample_record 1; sample_record 2]
    (match register_consumer "historian" 0 true session2 with Ok s => s | Throw _ => session2 end).

Lemma consumer_session_reachable :
  spool_reachable [1001; 1002; 1001 + 2 ^ 31; 1002 + 2 ^ 31] consumer_session.
Proof.
  apply (reach_published [1001; 1002] _ _ [1001 + 2 ^ 31; 1002 + 2 ^ 31]);
    [|vm_compute; reflexivity..].
  eapply (reach_register _ session2 "historian" 0 true);
    [apply session2_reachable|vm_compute; reflexivity].
Qed.

Lemma spool_delivers_witness :
  map sr_source_sequence (fst (consume 3 "historian" 1 9 consumer_session)) = [1; 2] /\
  fst (consume 3 "historian" 1 9 consumer_session) = stream consumer_session.
Proof.
  split; [vm_compute; reflexivity|].
  destruct (reachable_history _ _ consumer_session_reachable) as (top & Ht).
  pose proof (spool_delivers 3 "historian" 1 9 consumer_session (mkConsumer 0 0) (hi_inv _ _ _ Ht)
    ltac:(vm_compute; reflexivity) ltac:(lia) ltac:(vm_compute; lia)) as H.
  destruct (consume 3 "historian" 1 9 consumer_session) as [delivered s'].
  destruct H as [H _]. rewrite H. vm_compute. reflexivity.
Defined.

(** ** Switching the backend *)

(** Switching between the disk and the memory backend is invisible to the stream.
    Whether the switch succeeds or fails, the records, their cursors, the consumer
    positions and the drop counter are the same before and after, and the spool is
    reachable again, so its next cursors are above every cursor issued so far.  A
    successful switch runs under the new policy, a failed one leaves the running
    spool as it was. *)
Theorem spool_switch issued s policy clock lease_io io :
  spool_reachable issued s ->
  let '(outcome, s') := apply_policy policy clock lease_io io s in
  stream s' = stream s /\
  db_consumers (database s') = db_consumers (database s) /\
  im_dropped_unacknowledged (sp_impl s') = im_dropped_unacknowledged (sp_impl s) /\
  spool_inv s' /\ Forall (fun c => c <= sequence (database s')) issued /\
  (outcome = Ok tt -> im_policy (sp_impl s') = policy) /\
  (outcome <> Ok tt -> sp_impl s' = sp_impl s).
Proof.
  intros (top & Ht)%reachable_history. pose proof (history_acks _ _ _ Ht) as Hk.
  destruct Ht as [Hi Htop Ha Hb Hiss Hso]. pose proof (ab_lease _ _ Ha).
  pose proof (apply_policy_spec policy clock lease_io io s Hi ltac:(lia)) as P.
  destruct (apply_policy policy clock lease_io io s) as [o s'].
  destruct P as ([P1 P2 P3 P4 P5 P6] & Po & Pf).
  { eapply map_Forall_impl; [exact Hk|]. simpl. lia. }
  split_and!; try done; [unfold stream; by rewrite P2|].
  destruct (P5 top Ha) as [T1 _ _]. eapply Forall_impl; [|exact Hiss]. simpl. lia.
Qed.

Definition disk_policy : DatabaseStoragePolicy :=
  mkPolicy raw_record_spool persistent (mkRetention (Some 86400) None).

Lemma spool_switch_witness :
  fst (apply_policy disk_policy 0 true true consumer_session) = Ok tt /\
  stream (snd (apply_policy disk_policy 0 true true consumer_session)) = stream consumer_session.
Proof.
  split; [vm_compute; reflexivity|].
  pose proof (spool_switch _ _ disk_policy 0 true true consumer_session_reachable) as H.
  destruct (apply_policy disk_policy 0 true true consumer_session) as [o s']. apply H.
Defined.
