(* ===== verification/StreamIpc.v ===== *)
(** * Meter-stream protocol

    Models [common/msap1/meter/MeterDataProvider/stream/meter_stream_ipc.{hpp,cpp}]: the
    payloads of the meter-stream socket (records, energy and demand snapshots, policies,
    resets) and the synchronous client the acquisition service and the historian use.  What
    carries a request to the service and its answer back is the interface [StreamTransport];
    its deadline is part of it.  A [std::string] is a Rocq string, on the wire a list of
    bytes. *)
From Stdlib Require Import Ascii.
From stdpp Require Import base list gmap strings.
From S2P Require Import Prelude Ipc IpcConnection MeterTiming MeterData DatabasePolicy MeterSpool EnergyLedger.

Definition maximum_publish_records : Z := 256.

Definition connection_limits : ConnectionLimits := mkLimits (4 * 1024 * 1024) 128 (8 * 1024 * 1024).

Inductive Command :=
  | cmd_publish_record | cmd_register_consumer | cmd_unregister_consumer | cmd_read_records
  | cmd_acknowledge_records | cmd_get_stream_status | cmd_get_storage_policy | cmd_apply_storage_policy
  | cmd_subscribe_stream_events | cmd_publish_records | cmd_get_energy_snapshot | cmd_get_demand_snapshot
  | cmd_reset_energy | cmd_reset_demand_peaks.

Definition command_value (c : Command) : Z :=
  match c with
  | cmd_publish_record => 1 | cmd_register_consumer => 2 | cmd_unregister_consumer => 3 | cmd_read_records => 4
  | cmd_acknowledge_records => 5 | cmd_get_stream_status => 6 | cmd_get_storage_policy => 7
  | cmd_apply_storage_policy => 8 | cmd_subscribe_stream_events => 9 | cmd_publish_records => 10
  | cmd_get_energy_snapshot => 11 | cmd_get_demand_snapshot => 12 | cmd_reset_energy => 13
  | cmd_reset_demand_peaks => 14
  end.

Inductive Status :=
  | status_ok | status_invalid_request | status_storage_error | status_permission_denied | status_internal_error
  | status_unavailable | status_conflict.

Definition status_value (s : Status) : Z :=
  match s with
  | status_ok => 0 | status_invalid_request => 1 | status_storage_error => 2 | status_permission_denied => 3
  | status_internal_error => 4 | status_unavailable => 5 | status_conflict => 6
  end.

Inductive Event := record_committed | consumer_advanced | storage_policy_applied.

Definition event_value (e : Event) : Z :=
  match e with record_committed => 1 | consumer_advanced => 2 | storage_policy_applied => 3 end.

(** ** Strings *)
Definition string_bytes (s : string) : list Z :=
  map (fun c => Z.of_N (N_of_ascii c)) (String.list_ascii_of_string s).
Definition bytes_string (bytes : list Z) : string :=
  String.string_of_list_ascii (map (fun b => ascii_of_N (Z.to_N b)) bytes).

Definition size_u32 (size : nat) : Z := u32 (Z.of_nat size).

Definition write_string (w : list Z) (value : string) : list Z :=
  write_bytes (write_u32 w (size_u32 (length (string_bytes value)))) (string_bytes value).

Definition read_string : Reader string :=
  size ← read_u32; bytes ← read_bytes (Z.to_nat size); mret (bytes_string bytes).

(** ** Policies *)
Definition backend_code (b : StorageBackend) : Z :=
  match b with memory => 0 | persistent => 1 | other_backend code => code end.

(** [static_cast] to the two enumerations. *)
Definition backend_of_code (code : Z) : StorageBackend :=
  if code =? 0 then memory else if code =? 1 then persistent else other_backend code.

Definition dataset_of_code (code : Z) : DatabaseDataset :=
  nth (Z.to_nat code)
    [raw_record_spool; basic; cycles_150_180; minutes_10; hours_2; harmonic_cycles_150_180; harmonic_minutes_10;
     harmonic_hours_2; demand; seconds_10] (other_dataset code).

Definition encode_policy (w : list Z) (policy : DatabaseStoragePolicy) : list Z :=
  let w := write_u8 w (dataset_code (dataset policy)) in
  let w := write_u8 w (backend_code (backend policy)) in
  let w := write_u16 w 0 in
  let w := write_u64 w (match maximum_age (retention policy) with Some age => u64 age | None => 0 end) in
  write_u64 w (default 0 (maximum_bytes (retention policy))).

Definition decode_policy : Reader DatabaseStoragePolicy :=
  dataset ← read_u8;
  backend ← read_u8;
  read_u16 ;;
  age ← read_u64;
  bytes ← read_u64;
  mret (mkPolicy (dataset_of_code dataset) (backend_of_code backend)
          (mkRetention (if negb (age =? 0) then Some (s64 age) else None)
             (if negb (bytes =? 0) then Some bytes else None))).

(** ** Status of a reply *)
Definition require_ok : Reader unit :=
  status ← read_u32;
  if status =? status_value status_ok then mret tt
  else
    message ← read_string;
    reader_throw
      (if status =? status_value status_unavailable then Unavailable message
       else if status =? status_value status_conflict then Conflict message
       else if status =? status_value status_invalid_request then InvalidArgument message
       else RuntimeError message).

(** ** Readings *)
Definition write_reading {U : Set} (w : list Z) (r : Reading U) : list Z :=
  let w := write_i64 w (r_value r) in
  let w := write_u8 w (quality_code (r_quality r)) in
  let w := write_u8 w 0 in
  let w := write_u16 w 0 in
  let w := write_u64 w (r_source_sequence r) in
  let w := write_i64 w (r_measured_at r) in
  let w := write_u32 w (sw_sample_count (r_window r)) in
  let w := write_u32 w 0 in
  write_i64 w (sw_duration (r_window r)).

(** [reader.u8() != 0 || reader.u16() != 0]: the second read only when the first is zero. *)
Definition read_reserved (e : exn) : Reader unit :=
  byte ← read_u8;
  reader_reject (negb (byte =? 0)) e ;;
  half ← read_u16;
  reader_reject (negb (half =? 0)) e.

Definition read_reading {U : Set} : Reader (Reading U) :=
  value ← read_i64;
  quality ← read_u8;
  reader_reject (quality_code arithmetic_error <? quality)
    (InvalidArgument "invalid measurement quality in meter-stream snapshot") ;;
  read_reserved (InvalidArgument "nonzero meter-stream snapshot reserved field") ;;
  source_sequence ← read_u64;
  measured_at ← read_i64;
  sample_count ← read_u32;
  reserved ← read_u32;
  reader_reject (negb (reserved =? 0)) (InvalidArgument "nonzero meter-stream snapshot reserved word") ;;
  duration ← read_i64;
  reader_reject (duration <? 0) (InvalidArgument "negative meter-stream snapshot duration") ;;
  mret (mkReading value (quality_of_code quality) source_sequence measured_at (mkWindow sample_count duration)).

Definition write_group {U : Set} (w : list Z) (g : PhaseABCTotal (Reading U)) : list Z :=
  write_reading (write_reading (write_reading (write_reading w (abct_a g)) (abct_b g)) (abct_c g)) (abct_total g).

Definition read_group {U : Set} : Reader (PhaseABCTotal (Reading U)) :=
  a ← read_reading; b ← read_reading; c ← read_reading; total ← read_reading; mret (mkABCT a b c total).

Definition write_samples (w : list Z) (s : PhaseABCTotal Z) : list Z :=
  write_u64 (write_u64 (write_u64 (write_u64 w (abct_a s)) (abct_b s)) (abct_c s)) (abct_total s).

Definition read_samples : Reader (PhaseABCTotal Z) :=
  a ← read_u64; b ← read_u64; c ← read_u64; total ← read_u64; mret (mkABCT a b c total).

(** ** Records *)
Definition flag (b : bool) : Z := b2z b.
Definition present {A} (o : option A) : bool := match o with Some _ => true | None => false end.

Definition encode_record (r : MeterStreamRecord) : list Z :=
  let t := sr_timing r in
  let w := write_u64 [] (sr_cursor r) in
  let w := write_u32 w (sr_record_format r) in
  let w := write_u16 w (sr_record_kind r) in
  let w := write_u8 w (sr_measurement_period r) in
  let w := write_u8 w (time_quality t) in
  let w := write_u64 w (sr_source_sequence r) in
  let w := write_u32 w (sr_configuration_generation r) in
  let w := write_i64 w (sr_ingested_at r) in
  let w := write_u64 w (first_sample_index t) in
  let w := write_u32 w (sample_count t) in
  let w := write_u32 w (cycle_count t) in
  let w := write_u8 w (flag (present (utc_start_nanoseconds t))) in
  let w := write_u8 w (flag (present (utc_uncertainty_nanoseconds t))) in
  let w := write_u16 w (sr_source_fragment r) in
  let w := write_i64 w (default 0 (utc_start_nanoseconds t)) in
  let w := write_u64 w (default 0 (utc_uncertainty_nanoseconds t)) in
  let w := write_u32 w (size_u32 (length (sr_payload r))) in
  write_bytes w (sr_payload r).

Definition decode_record : Reader MeterStreamRecord :=
  cursor ← read_u64;
  format ← read_u32;
  kind ← read_u16;
  period ← read_u8;
  quality ← read_u8;
  sequence ← read_u64;
  generation ← read_u32;
  ingested_at ← read_i64;
  first ← read_u64;
  samples ← read_u32;
  cycles ← read_u32;
  has_utc ← read_u8;
  has_uncertainty ← read_u8;
  fragment ← read_u16;
  utc ← read_i64;
  uncertainty ← read_u64;
  size ← read_u32;
  payload ← read_bytes (Z.to_nat size);
  mret (mkStreamRecord cursor format kind period sequence fragment generation ingested_at
          (mkProvenance first samples cycles quality (if negb (has_utc =? 0) then Some utc else None)
             (if negb (has_uncertainty =? 0) then Some uncertainty else None)) payload).

Definition batch_size_error : exn := InvalidArgument "meter-stream publish batch must contain 1..256 records".

Definition encode_records (records : list MeterStreamRecord) : result (list Z) :=
  reject_if (Nat.eqb (length records) 0 || (maximum_publish_records <? Z.of_nat (length records))) batch_size_error ;;
  Ok (fold_left (fun w r => write_bytes w (encode_record r)) records (write_u32 [] (size_u32 (length records)))).

(** A loop of [count] reads. *)
Fixpoint read_many {A} (m : Reader A) (count : nat) : Reader (list A) :=
  match count with
  | O => mret []
  | S count => a ← m; rest ← read_many m count; mret (a :: rest)
  end.

Definition decode_records : Reader (list MeterStreamRecord) :=
  count ← read_u32;
  reader_reject ((count =? 0) || (maximum_publish_records <? count)) batch_size_error ;;
  read_many decode_record (Z.to_nat count).

(** ** Snapshots *)
Definition encode_energy_values (v : EnergyValues) : list Z :=
  let w := write_group [] (en_active_import v) in
  let w := write_group w (en_active_export v) in
  let w := write_group w (en_apparent v) in
  let w := write_group w (en_reactive_i v) in
  let w := write_group w (en_reactive_ii v) in
  let w := write_group w (en_reactive_iii v) in
  let w := write_group w (en_reactive_iv v) in
  let w := write_u64 w (en_session_id v) in
  let w := write_u64 w (en_last_sample_index v) in
  let w := write_u64 w (en_accepted_samples v) in
  let w := write_u64 w (en_skipped_samples v) in
  let w := write_u32 w (en_accepted_blocks v) in
  let w := write_u32 w (en_skipped_blocks v) in
  let w := write_u64 w (en_reset_epoch v) in
  let w := write_u32 w (Z.lor (flag (en_saturated v)) (Z.shiftl (flag (en_incomplete_input v)) 1)) in
  write_u32 w 0.

(** [(flags & ~mask) != 0 || reader.u32() != 0] *)
Definition read_flags (mask : Z) (e : exn) : Reader Z :=
  flags ← read_u32;
  reader_reject (any_bit flags (not32 mask)) e ;;
  reserved ← read_u32;
  reader_reject (negb (reserved =? 0)) e ;;
  mret flags.

Definition decode_energy_values : Reader EnergyValues :=
  active_import ← read_group;
  active_export ← read_group;
  apparent ← read_group;
  q1 ← read_group; q2 ← read_group; q3 ← read_group; q4 ← read_group;
  session ← read_u64;
  last ← read_u64;
  accepted ← read_u64;
  skipped ← read_u64;
  accepted_blocks ← read_u32;
  skipped_blocks ← read_u32;
  epoch ← read_u64;
  flags ← read_flags 0x3 (InvalidArgument "invalid ENERGY snapshot flags");
  mret (mkEnergy active_import active_export apparent q1 q2 q3 q4 session last accepted skipped accepted_blocks
          skipped_blocks epoch (any_bit flags 1) (any_bit flags 2) false).

Definition demand_snapshot_flags (v : DemandValues) : Z :=
  Z.lor (Z.lor (Z.lor (Z.lor (flag (de_time_aligned v)) (Z.shiftl (flag (de_contaminated v)) 1))
    (Z.shiftl (flag (de_boundary_valid v)) 2)) (Z.shiftl (flag (de_saturated v)) 3))
    (Z.shiftl (flag (de_incomplete_input v)) 4).

Definition encode_demand_values (v : DemandValues) : list Z :=
  let w := write_group [] (de_current_active v) in
  let w := write_group w (de_import_peak v) in
  let w := write_group w (de_export_peak v) in
  let w := write_samples w (de_import_peak_sample v) in
  let w := write_samples w (de_export_peak_sample v) in
  let w := write_u64 w (de_session_id v) in
  let w := write_u64 w (de_last_sample_index v) in
  let w := write_u64 w (de_interval_anchor_sample v) in
  let w := write_u32 w (de_source_interval_count v) in
  let w := write_u32 w (de_source_status v) in
  let w := write_u64 w (de_peak_reset_epoch v) in
  let w := write_u32 w (demand_method_code (de_method v)) in
  let w := write_u32 w (de_window_seconds v) in
  let w := write_u32 w (de_update_seconds v) in
  let w := write_u32 w (de_profile_generation v) in
  let w := write_u32 w (demand_snapshot_flags v) in
  write_u32 w 0.

Definition decode_demand_values : Reader DemandValues :=
  current ← read_group;
  import_peak ← read_group;
  export_peak ← read_group;
  import_sample ← read_samples;
  export_sample ← read_samples;
  session ← read_u64;
  last ← read_u64;
  anchor ← read_u64;
  count ← read_u32;
  source_status ← read_u32;
  epoch ← read_u64;
  method ← read_u32;
  reader_reject (demand_method_code sliding <? method) (InvalidArgument "invalid DEMAND snapshot method") ;;
  window ← read_u32;
  update ← read_u32;
  profile ← read_u32;
  flags ← read_flags 0x1f (InvalidArgument "invalid DEMAND snapshot flags");
  mret (mkDemand current import_peak export_peak import_sample export_sample session last anchor count source_status
          window update profile epoch (if method =? demand_method_code fixed_block then fixed_block else sliding)
          (any_bit flags 1) (any_bit flags 2) (any_bit flags 4) (any_bit flags 8) (any_bit flags 16)).

(** ** Resets *)
Definition encode_reset_request (reset : ResetRequest) : list Z :=
  let w := write_u64 [] (rq_expected_epoch reset) in
  let w := write_i64 w (rq_requested_at_nanoseconds reset) in
  let w := write_string w (rq_idempotency_key reset) in
  let w := write_string w (rq_actor reset) in
  write_string w (rq_request_id reset).

Definition decode_reset_result : Reader ResetResult :=
  epoch ← read_u64;
  replayed ← read_u8;
  read_reserved (RuntimeError "invalid reset response reserved field") ;;
  mret (mkResetResult epoch (negb (replayed =? 0))).

(** ** The client *)
Class StreamTransport (T : Type) := {
  transport_request : Frame -> T -> result Frame * T }.

Section Client.
Context {T : Type} `{StreamTransport T}.

(** [request] with the checks every method makes on the reply around its own reads. *)
Definition stream_call {A} (command : Command) (payload : list Z) (read : Reader A) (t : T) : result A * T :=
  match transport_request (mkFrame frame_request (command_value command) 0 payload) t with
  | (Throw e, t) => (Throw e, t)
  | (Ok response, t) =>
      (match (require_ok ;; a ← read; require_finished ;; mret a) (fr_payload response) with
       | Ok (a, _) => Ok a
       | Throw e => Throw e
       end, t)
  end.

Definition client_publish (record : MeterStreamRecord) : T -> result Z * T :=
  stream_call cmd_publish_record (encode_record record) read_u64.

Definition client_publish_records (records : list MeterStreamRecord) (t : T) : result (list Z) * T :=
  match encode_records records with
  | Throw e => (Throw e, t)
  | Ok payload =>
      stream_call cmd_publish_records payload
        (count ← read_u32;
         reader_reject (negb (count =? Z.of_nat (length records)))
           (RuntimeError "meter-stream publish batch cursor count mismatch") ;;
         read_many read_u64 (Z.to_nat count)) t
  end.

Definition client_register_consumer (name : string) : T -> result unit * T :=
  stream_call cmd_register_consumer (write_string [] name) (mret tt).

Definition client_unregister_consumer (name : string) : T -> result unit * T :=
  stream_call cmd_unregister_consumer (write_string [] name) (mret tt).

Definition client_read_after (name : string) (limit : Z) : T -> result (list MeterStreamRecord) * T :=
  stream_call cmd_read_records (write_u32 (write_string [] name) (u32 limit))
    (count ← read_u32; read_many decode_record (Z.to_nat count)).

Definition client_acknowledge (name : string) (cursor : Z) : T -> result unit * T :=
  stream_call cmd_acknowledge_records (write_u64 (write_string [] name) cursor) (mret tt).

Definition read_consumer : Reader (string * Z) :=
  name ← read_string; cursor ← read_u64; mret (name, cursor).

Definition read_status : Reader StreamStatus :=
  durability ← read_u8;
  read_u8 ;; read_u16 ;;
  oldest ← read_u64;
  newest ← read_u64;
  records ← read_u64;
  bytes ← read_u64;
  session ← read_u64;
  dropped ← read_u64;
  count ← read_u32;
  consumers ← read_many read_consumer (Z.to_nat count);
  mret (mkStatus (negb (durability =? 0)) oldest newest records bytes session dropped (list_to_map consumers)).

Definition client_status : T -> result StreamStatus * T := stream_call cmd_get_stream_status [] read_status.

Definition client_policy : T -> result DatabaseStoragePolicy * T :=
  stream_call cmd_get_storage_policy [] decode_policy.

Definition client_apply_policy (policy : DatabaseStoragePolicy) : T -> result unit * T :=
  stream_call cmd_apply_storage_policy (encode_policy [] policy) (mret tt).

(** The presence header of a snapshot reply. *)
Definition read_present {A} (what : string) (m : Reader A) : Reader (option A) :=
  present ← read_u8;
  read_reserved (RuntimeError what) ;;
  if present =? 0 then mret None else (v ← m; mret (Some v)).

Definition client_energy : T -> result (option EnergyValues) * T :=
  stream_call cmd_get_energy_snapshot []
    (read_present "invalid ENERGY snapshot presence header" decode_energy_values).

Definition client_demand : T -> result (option DemandValues) * T :=
  stream_call cmd_get_demand_snapshot []
    (read_present "invalid DEMAND snapshot presence header" decode_demand_values).

Definition client_reset_energy (reset : ResetRequest) : T -> result ResetResult * T :=
  stream_call cmd_reset_energy (encode_reset_request reset) decode_reset_result.

Definition client_reset_demand_peaks (reset : ResetRequest) : T -> result ResetResult * T :=
  stream_call cmd_reset_demand_peaks (encode_reset_request reset) decode_reset_result.
End Client.
