(* ===== verification/StreamService.v ===== *)
(** * The meter-stream service

    Models [MeterStreamService] of
    [apps/MeterCore/Services/meter-stream/meter_stream_service.{hpp,cpp}]: the daemon that owns
    the durable spool and the energy ledger and answers the commands of [StreamIpc].  [handle]
    runs on the single thread of the service's executor, one frame at a time.

    What the databases, clocks and sockets do during one call is the argument [Environment].
    The two messages it logs are left out; when the drop report is written is kept. *)
From stdpp Require Import base list gmap strings sorting.
From S2P Require Import Prelude Ipc IpcConnection MeterTiming RecordFormat MeterRecord MeterData EnergyDemand.
From S2P Require Import DatabasePolicy MeterSpool EnergyLedger StreamIpc.

Record Service := mkService {
  sv_spool : Spool;
  sv_ledger : EnergyLedger;
  (** Weak pointers to connections, by the identity of the connection. *)
  sv_subscribers : list nat;
  sv_reported_dropped_records : Z;
  sv_last_drop_report : Z }.

Record Environment := mkEnvironment {
  ev_ledger_io : bool;                 (** the ledger's transaction completes *)
  ev_spool_io : bool;                  (** the spool's transaction completes *)
  ev_prune_age_io : bool;
  ev_prune_bytes_io : bool;
  ev_lease_io : bool;                  (** the cursor lease file is replaced *)
  ev_system_ns : Z;
  ev_system_ms : Z;
  ev_steady_ns : Z;
  ev_family_size : Z;                  (** bytes of the database files *)
  ev_alive : nat -> bool;              (** the connection object still exists *)
  ev_open : nat -> bool;               (** and its socket is open *)
  (** The order in which the two arguments of one call are evaluated. *)
  ev_left_to_right : bool }.

(** A frame handed to [post_send] of a connection. *)
Definition Post : Type := nat * Frame.

(** The body of [handle]: an exception keeps the state and the frames posted before it. *)
Definition Action (A : Type) : Type := Service -> result A * Service * list Post.

#[export] Instance action_ret : MRet Action := fun A a s => (Ok a, s, []).
#[export] Instance action_bind : MBind Action := fun A B f m s =>
  match m s with
  | (Throw e, s, posts) => (Throw e, s, posts)
  | (Ok a, s, posts) => let '(r, s, more) := f a s in (r, s, posts ++ more)
  end.

Definition lift {A} (r : result A) : Action A := fun s => (r, s, []).
Definition get_service {A} (f : Service -> A) : Action A := fun s => (Ok (f s), s, []).

Definition set_spool (spool : Spool) (s : Service) : Service :=
  mkService spool (sv_ledger s) (sv_subscribers s) (sv_reported_dropped_records s) (sv_last_drop_report s).
Definition set_ledger (ledger : EnergyLedger) (s : Service) : Service :=
  mkService (sv_spool s) ledger (sv_subscribers s) (sv_reported_dropped_records s) (sv_last_drop_report s).
Definition set_subscribers (subscribers : list nat) (s : Service) : Service :=
  mkService (sv_spool s) (sv_ledger s) subscribers (sv_reported_dropped_records s) (sv_last_drop_report s).

(** Calls of the spool that return the new spool with their value. *)
Definition on_spool {A} (f : Spool -> result (A * Spool)) : Action A := fun s =>
  match f (sv_spool s) with
  | Throw e => (Throw e, s, [])
  | Ok (a, spool) => (Ok a, set_spool spool s, [])
  end.

(** Calls that change the spool and then may fail. *)
Definition on_spool_always {A} (f : Spool -> result A * Spool) : Action A := fun s =>
  let '(r, spool) := f (sv_spool s) in (r, set_spool spool s, []).

Definition on_ledger {A} (f : EnergyLedger -> EnergyLedger * result A) : Action A := fun s =>
  let '(ledger, r) := f (sv_ledger s) in (r, set_ledger ledger s, []).

(** A reading step over the rest of the input. *)
Definition input {A} (m : Reader A) (rest : list Z) : Action (A * list Z) := lift (m rest).

(** ** Records of the wire *)
Fixpoint words_of (count : nat) (bytes : list Z) : list Z :=
  match count with
  | O => []
  | S count => le_value (take 4 bytes) :: words_of count (drop 4 bytes)
  end.

Definition meter_record_bytes : nat := 256.

Definition wire_record (r : MeterStreamRecord) : result MeterRecord :=
  require (Nat.eqb (length (sr_payload r)) meter_record_bytes)
    (InvalidArgument "meter-stream payload is not one complete meter record") ;;
  let record := mkRecord (words_of meter_record_word_count (sr_payload r)) in
  require (record_format record =? sr_record_format r)
    (InvalidArgument "meter-stream envelope and payload record formats differ") ;;
  Ok record.

Definition is_energy (r : MeterStreamRecord) : bool := sr_record_format r =? meter_energy_format.
Definition is_demand (r : MeterStreamRecord) : bool := sr_record_format r =? meter_demand_format.

Definition decode_energy_batch (records : list MeterStreamRecord) : result (option EnergyValues) :=
  let energy_count := length (List.filter is_energy records) in
  if Nat.eqb energy_count 0 then Ok None
  else
    match records with
    | [first; second] =>
        require (Nat.eqb energy_count 2)
          (InvalidArgument "ENERGY-v1 must be published as one exact two-record family") ;;
        summary ← wire_record first;
        quadrants ← wire_record second;
        require ((energy_part summary =? meter_energy_part_summary) &&
                 (energy_part quadrants =? meter_energy_part_quadrants))
          (InvalidArgument "ENERGY-v1 parts must be ordered summary then quadrants") ;;
        values ← decode_energy_family summary quadrants (sr_ingested_at first);
        Ok (Some values)
    | _ => Throw (InvalidArgument "ENERGY-v1 must be published as one exact two-record family")
    end.

Definition decode_demand_record (r : MeterStreamRecord) : result (option DemandValues) :=
  reject_if (is_energy r) (InvalidArgument "ENERGY-v1 cannot be published one part at a time") ;;
  if negb (is_demand r) then Ok None
  else
    record ← wire_record r;
    update ← decode_demand_meter_record record (sr_ingested_at r);
    match mu_demand update with
    | None => Throw (LogicError "DEMAND-v1 decoder omitted its typed values")
    | Some values => Ok (Some values)
    end.

Definition source_sequence (r : MeterStreamRecord) : result Z :=
  reject_if (UINT32_MAX <? sr_source_sequence r) (InvalidArgument "M17 source sequence exceeds uint32") ;;
  Ok (sr_source_sequence r).

Definition read_reset : Reader ResetRequest :=
  expected ← read_u64;
  requested_at ← read_i64;
  key ← read_string;
  actor ← read_string;
  request ← read_string;
  require_finished ;;
  mret (mkResetRequest expected key actor request requested_at).

Definition write_reset (w : list Z) (reset : ResetResult) : list Z :=
  write_u16 (write_u8 (write_u8 (write_u64 w (rr_epoch reset)) (flag (rr_replayed reset))) 0) 0.

(** ** Replies *)
Definition response (request : Frame) (payload : list Z) (kind : FrameKind) : Frame :=
  mkFrame kind (fr_message_type request) (fr_correlation_id request) payload.

Definition failure_payload (status : Status) (message : string) : list Z :=
  write_string (write_u32 [] (status_value status)) message.

Definition ok_output : list Z := write_u32 [] (status_value status_ok).

Section Handle.
Context (env : Environment).

Definition drop_report_period : Z := 10000000000.

Definition report_dropped_records : Action unit := fun s =>
  let dropped := im_dropped_unacknowledged (sp_impl (sv_spool s)) in
  if dropped =? sv_reported_dropped_records s then (Ok tt, s, [])
  else if ev_steady_ns env - sv_last_drop_report s <? drop_report_period then (Ok tt, s, [])
  else (Ok tt, mkService (sv_spool s) (sv_ledger s) (sv_subscribers s) dropped (ev_steady_ns env), []).

Definition subscribe (connection : nat) : Action unit := fun s =>
  (Ok tt, set_subscribers (List.filter (ev_alive env) (sv_subscribers s) ++ [connection]) s, []).

Definition event_frame (event : Event) (cursor : Z) : Frame :=
  mkFrame frame_event (command_value cmd_subscribe_stream_events) 0
    (write_u64 (write_u32 [] (event_value event)) cursor).

(** Every subscriber that is still connected gets the frame; the others are dropped. *)
Definition publish_event (event : Event) (cursor : Z) : Action unit := fun s =>
  let connected := List.filter (fun c => ev_alive env c && ev_open env c) (sv_subscribers s) in
  (Ok tt, set_subscribers connected s, map (fun c => (c, event_frame event cursor)) connected).

(** ** Commands *)
(** The ledger's half of a publication. *)
Definition ledger_demand (record : MeterStreamRecord) (demand : option DemandValues) : Action unit :=
  match demand with
  | None => mret tt
  | Some values =>
      sequence ← lift (source_sequence record);
      on_ledger (fun ledger => ingest_demand (ev_ledger_io env) ledger values sequence
                                 (sr_configuration_generation record) (sr_ingested_at record)) ;;
      mret tt
  end.

Definition ledger_energy (records : list MeterStreamRecord) (energy : option EnergyValues) : Action unit :=
  match energy, records with
  | Some values, front :: _ =>
      sequence ← lift (source_sequence front);
      on_ledger (fun ledger => ingest_energy (ev_ledger_io env) ledger values sequence
                                 (sr_configuration_generation front) (sr_ingested_at front)) ;;
      mret tt
  | _, _ => mret tt
  end.

(** One record: a demand record reaches the ledger before the spool. *)
Definition commit_record (record : MeterStreamRecord) : Action Z :=
  demand ← lift (decode_demand_record record);
  ledger_demand record demand ;;
  cursor ← on_spool (publish record (ev_spool_io env));
  report_dropped_records ;;
  publish_event record_committed cursor ;;
  mret cursor.

Definition handle_publish_record (payload : list Z) : Action (list Z) :=
  '(record, _) ← input (r ← decode_record; require_finished ;; mret r) payload;
  cursor ← commit_record record;
  mret (write_u64 ok_output cursor).

(** Several records: an energy family reaches the ledger before the spool. *)
Definition commit_records (records : list MeterStreamRecord) : Action (list Z) :=
  lift (reject_if (existsb is_demand records)
          (InvalidArgument "DEMAND-v1 must use the single-record publication command")) ;;
  energy ← lift (decode_energy_batch records);
  ledger_energy records energy ;;
  cursors ← on_spool (publish_records records (ev_spool_io env));
  report_dropped_records ;;
  match list.last cursors with
  | Some cursor => publish_event record_committed cursor
  | None => lift (Throw (UndefinedBehaviour "back of an empty vector"))
  end ;;
  mret cursors.

Definition handle_publish_records (payload : list Z) : Action (list Z) :=
  '(records, _) ← input (r ← decode_records; require_finished ;; mret r) payload;
  cursors ← commit_records records;
  mret (fold_left write_u64 cursors (write_u32 ok_output (size_u32 (length cursors)))).

Definition register (name : string) : Action unit :=
  on_spool (fun spool => spool ← register_consumer name (ev_system_ns env) (ev_spool_io env) spool; Ok (tt, spool)).

Definition handle_register (payload : list Z) : Action (list Z) :=
  '(name, rest) ← input read_string payload;
  register name ;;
  input require_finished rest ;;
  mret ok_output.

Definition unregister (name : string) : Action unit :=
  on_spool (fun spool => spool ← unregister_consumer name (ev_spool_io env) spool; Ok (tt, spool)).

Definition handle_unregister (payload : list Z) : Action (list Z) :=
  '(name, rest) ← input read_string payload;
  unregister name ;;
  input require_finished rest ;;
  mret ok_output.

Definition read_stream (name : string) (limit : Z) : Action (list MeterStreamRecord) :=
  spool ← get_service sv_spool;
  lift (read_after name limit spool).

Definition handle_read (payload : list Z) : Action (list Z) :=
  '(name, rest) ← input read_string payload;
  '(limit, rest) ← input read_u32 rest;
  input require_finished rest ;;
  records ← read_stream name limit;
  mret (fold_left (fun w r => write_bytes w (encode_record r)) records
          (write_u32 ok_output (size_u32 (length records)))).

(** The arguments [read_string(input), input.u64()] of one call. *)
Definition read_acknowledgement : Reader (string * Z) :=
  if ev_left_to_right env then name ← read_string; cursor ← read_u64; mret (name, cursor)
  else cursor ← read_u64; name ← read_string; mret (name, cursor).

Definition acknowledge_stream (name : string) (cursor : Z) : Action unit :=
  on_spool (fun spool =>
    spool ← acknowledge name cursor (ev_system_ns env) (ev_spool_io env) spool; Ok (tt, spool)).

Definition advance_stream : Action unit :=
  on_spool_always (prune (ev_system_ns env) (ev_lease_io env) (ev_prune_age_io env) (ev_prune_bytes_io env)) ;;
  publish_event consumer_advanced 0.

Definition handle_acknowledge (payload : list Z) : Action (list Z) :=
  '(name, cursor, rest) ← input read_acknowledgement payload;
  acknowledge_stream name cursor ;;
  input require_finished rest ;;
  advance_stream ;;
  mret ok_output.

(** [ORDER BY name] *)
Definition name_le (a b : string * Z) : Prop := String.leb a.1 b.1.
#[export] Instance name_le_dec : RelDecision name_le.
Proof. unfold name_le. solve_decision. Defined.

Definition consumer_rows (consumers : gmap string Z) : list (string * Z) :=
  merge_sort name_le (map_to_list consumers).

Definition write_consumer (w : list Z) (consumer : string * Z) : list Z :=
  write_u64 (write_string w consumer.1) consumer.2.

Definition write_status (w : list Z) (status : StreamStatus) : list Z :=
  let w := write_u8 w (flag (st_durability status)) in
  let w := write_u16 (write_u8 w 0) 0 in
  let w := write_u64 w (st_oldest_cursor status) in
  let w := write_u64 w (st_newest_cursor status) in
  let w := write_u64 w (st_record_count status) in
  let w := write_u64 w (st_storage_bytes status) in
  let w := write_u64 w (st_session_start_cursor status) in
  let w := write_u64 w (st_dropped_unacknowledged_records status) in
  let rows := consumer_rows (st_consumers status) in
  fold_left write_consumer rows (write_u32 w (size_u32 (length rows))).

Definition handle_status (payload : list Z) : Action (list Z) :=
  input require_finished payload ;;
  spool ← get_service sv_spool;
  mret (write_status ok_output (status (ev_family_size env) spool)).

Definition handle_policy (payload : list Z) : Action (list Z) :=
  input require_finished payload ;;
  spool ← get_service sv_spool;
  mret (encode_policy ok_output (im_policy (sp_impl spool))).

Definition change_policy (policy : DatabaseStoragePolicy) : Action unit :=
  on_spool_always (apply_policy policy (ev_system_ms env) (ev_lease_io env) (ev_spool_io env)).

Definition handle_apply_policy (payload : list Z) : Action (list Z) :=
  '(policy, rest) ← input decode_policy payload;
  change_policy policy ;;
  input require_finished rest ;;
  publish_event storage_policy_applied 0 ;;
  mret ok_output.

Definition handle_subscribe (connection : nat) (payload : list Z) : Action (list Z) :=
  input require_finished payload ;;
  subscribe connection ;;
  mret ok_output.

Definition write_present {A} (w : list Z) (value : option A) (encode : A -> list Z) : list Z :=
  let w := write_u16 (write_u8 (write_u8 w (flag (present value))) 0) 0 in
  match value with Some v => write_bytes w (encode v) | None => w end.

Definition handle_energy (payload : list Z) : Action (list Z) :=
  input require_finished payload ;;
  ledger ← get_service sv_ledger;
  mret (write_present ok_output (el_latest_energy ledger) encode_energy_values).

Definition handle_demand (payload : list Z) : Action (list Z) :=
  input require_finished payload ;;
  ledger ← get_service sv_ledger;
  mret (write_present ok_output (el_latest_demand ledger) encode_demand_values).

Definition handle_reset_energy (payload : list Z) : Action (list Z) :=
  '(request, _) ← input read_reset payload;
  reset ← on_ledger (fun ledger => reset_energy (ev_ledger_io env) ledger request);
  mret (write_reset ok_output reset).

Definition handle_reset_demand_peaks (payload : list Z) : Action (list Z) :=
  '(request, _) ← input read_reset payload;
  reset ← on_ledger (fun ledger => reset_demand_peaks (ev_ledger_io env) ledger request);
  mret (write_reset ok_output reset).

Definition commands (connection : nat) : list (Command * (list Z -> Action (list Z))) :=
  [(cmd_publish_record, handle_publish_record); (cmd_publish_records, handle_publish_records);
   (cmd_register_consumer, handle_register); (cmd_unregister_consumer, handle_unregister);
   (cmd_read_records, handle_read); (cmd_acknowledge_records, handle_acknowledge);
   (cmd_get_stream_status, handle_status); (cmd_get_storage_policy, handle_policy);
   (cmd_apply_storage_policy, handle_apply_policy); (cmd_subscribe_stream_events, handle_subscribe connection);
   (cmd_get_energy_snapshot, handle_energy); (cmd_get_demand_snapshot, handle_demand);
   (cmd_reset_energy, handle_reset_energy); (cmd_reset_demand_peaks, handle_reset_demand_peaks)].

(** The [switch] over the message type. *)
Definition dispatch (connection : nat) (frame : Frame) : Action (list Z) :=
  match List.find (fun c => command_value (fst c) =? fr_message_type frame) (commands connection) with
  | Some (_, body) => body (fr_payload frame)
  | None => lift (Throw (InvalidArgument "unsupported meter-stream command"))
  end.

(** The [catch] clauses. *)
Definition failure_status (e : exn) : Status * string :=
  match e with
  | Unavailable what => (status_unavailable, what)
  | Conflict what => (status_conflict, what)
  | InvalidArgument what => (status_invalid_request, what)
  | RuntimeError what | LengthError what | OutOfRange what | OverflowError what | LogicError what
  | DatalogError _ what | UndefinedBehaviour what => (status_storage_error, what)
  end.

(** [handle]: how it ends, the service and the frames posted.  Every exception is answered, so
    only an undefined evaluation leaves it. *)
Definition handle (connection : nat) (frame : Frame) : Action unit := fun s =>
  match (lift (require (bool_decide (fr_kind frame = frame_request))
                 (InvalidArgument "meter-stream frame is not a request")) ;;
         dispatch connection frame) s with
  | (Throw (UndefinedBehaviour what), s, posts) => (Throw (UndefinedBehaviour what), s, posts)
  | (Throw e, s, posts) =>
      let '(status, message) := failure_status e in
      (Ok tt, s, posts ++ [(connection, response frame (failure_payload status message) frame_error)])
  | (Ok output, s, posts) => (Ok tt, s, posts ++ [(connection, response frame output frame_response)])
  end.
End Handle.
