(* ===== verification/StreamCodec.v ===== *)
(** * Round trips of the meter-stream protocol

    What the encoders of [StreamIpc] and [StreamService] write, the decoders read back.  [reads m a
    bytes] says that [m] consumes exactly [bytes] and returns [a] whatever follows them; the hint
    database [reads] has one rule per decoder. *)
From Stdlib Require Import Ascii.
From stdpp Require Import base list gmap strings sorting.
From S2P Require Import Prelude Ipc IpcConnection MeterTiming MeterData DatabasePolicy MeterSpool EnergyLedger.
From S2P Require Import EnergyDemand LedgerTheorems StreamIpc StreamService.

Definition in_u16 (z : Z) : Prop := 0 <= z < 2 ^ 16.
Definition in_u32 (z : Z) : Prop := 0 <= z < 2 ^ 32.

Definition reads {A} (m : Reader A) (a : A) (bytes : list Z) : Prop :=
  forall rest, m (bytes ++ rest) = Ok (a, rest).

Create HintDb reads discriminated.
#[export] Hint Constants Opaque : reads.

Lemma reads_bind {A B} (m : Reader A) (f : A -> Reader B) a b x y :
  reads m a x -> reads (f a) b y -> reads (m ≫= f) b (x ++ y).
Proof. intros Hm Hf rest. rewrite <- app_assoc. erewrite reader_bind_Ok by apply Hm. apply Hf. Qed.

Lemma reads_ret {A} (a : A) : reads (mret a) a [].
Proof. done. Qed.

Lemma reads_ret_eq {A} (a b : A) : a = b -> reads (mret a) b [].
Proof. by intros ->. Qed.

Lemma reads_end {A} (m : Reader A) a x : reads m a (x ++ []) -> reads m a x.
Proof. by rewrite app_nil_r. Qed.

Lemma reads_reject {B} (condition : bool) e (m : Reader B) b y :
  condition = false -> reads m b y -> reads (reader_reject condition e ;; m) b y.
Proof. intros -> Hm rest. apply Hm. Qed.

Lemma reads_u8 v : reads read_u8 v [v].
Proof. done. Qed.
Lemma reads_u16 v : 0 <= v < 2 ^ 16 -> reads read_u16 v (le_bytes 2 v).
Proof. intros Hv rest. by apply read_unsigned_bytes. Qed.
Lemma reads_u32 v : 0 <= v < 2 ^ 32 -> reads read_u32 v (le_bytes 4 v).
Proof. intros Hv rest. by apply read_unsigned_bytes. Qed.
Lemma reads_u64 v : 0 <= v < 2 ^ 64 -> reads read_u64 v (le_bytes 8 v).
Proof. intros Hv rest. by apply read_unsigned_bytes. Qed.
Lemma reads_i64 v : in_s64 v -> reads read_i64 v (le_bytes 8 (u64 v)).
Proof.
  intros Hv. apply reads_end. eapply reads_bind; [apply reads_u64, wrap_range; lia|].
  intros rest. unfold mret, reader_ret. simpl. unfold in_s64, INT64_MIN, INT64_MAX in Hv.
  by rewrite sign_wrap_id by lia.
Qed.
Lemma reads_bytes l : reads (read_bytes (length l)) l l.
Proof. intros rest. apply read_take_app. Qed.

(** The length field of a byte string. *)
Lemma size_u32_small n : Z.of_nat n < 2 ^ 32 -> size_u32 n = Z.of_nat n /\ Z.to_nat (size_u32 n) = n.
Proof. intros Hn. unfold size_u32. rewrite wrap_id by lia. lia. Qed.

Lemma reads_sized {B} (l : list Z) (f : list Z -> Reader B) b y :
  Z.of_nat (length l) < 2 ^ 32 -> reads (f l) b y ->
  reads (size ← read_u32; bytes ← read_bytes (Z.to_nat size); f bytes) b (le_bytes 4 (size_u32 (length l)) ++ l ++ y).
Proof.
  intros Hl Hf. destruct (size_u32_small _ Hl) as [E E'].
  eapply reads_bind; [apply reads_u32; lia|]. rewrite E'. eapply reads_bind; [apply reads_bytes|done].
Qed.

(** ** Strings *)
Lemma bytes_string_bytes s : bytes_string (string_bytes s) = s.
Proof.
  unfold bytes_string, string_bytes. rewrite map_map. erewrite map_ext.
  2:{ intros c. rewrite N2Z.id. apply ascii_N_embedding. }
  rewrite map_id. apply String.string_of_list_ascii_of_string.
Qed.

Lemma string_bytes_length s : length (string_bytes s) = String.length s.
Proof. unfold string_bytes. rewrite length_map. induction s; simpl; congruence. Qed.

Definition string_ok (s : string) : Prop := Z.of_nat (String.length s) < 2 ^ 32.

Definition sized_string (s : string) : list Z := le_bytes 4 (size_u32 (length (string_bytes s))) ++ string_bytes s.

Lemma write_string_app w s : write_string w s = w ++ sized_string s.
Proof. unfold write_string, write_bytes, write_u32, append_little, sized_string. by rewrite <- app_assoc. Qed.

Lemma reads_string s : string_ok s -> reads read_string s (sized_string s).
Proof.
  intros Hs. unfold sized_string. rewrite <- (app_nil_r (string_bytes s)) at 2.
  apply (reads_sized _ (fun bytes => mret (bytes_string bytes))); [by rewrite string_bytes_length|].
  rewrite bytes_string_bytes. apply reads_ret.
Qed.

#[export] Hint Resolve reads_u8 reads_u16 reads_u32 reads_u64 reads_i64 reads_string reads_ret : reads.

(** The writers as appends, and one reading step at a time. *)
Ltac appends :=
  unfold write_i64, write_u8, write_u16, write_u32, write_u64, write_bytes, append_little in *;
  rewrite ?write_string_app, ?app_nil_l, <- ?app_assoc.

(** Ranges, from the hypotheses and the widths of the fields. *)
Ltac typed := unfold in_s64, in_u64, in_u32, in_u16, INT64_MIN, INT64_MAX in *; solve [lia|done|auto].

Ltac reads_step :=
  match goal with
  | |- reads (mbind _ (reader_reject _ _)) _ _ => apply reads_reject; [try done|]
  | |- reads (mbind ?f ?m) ?b (?x ++ ?y) =>
      eapply (reads_bind m f _ b x y);
      [match m with
       | read_u16 => apply reads_u16; typed
       | read_u32 => apply reads_u32; typed
       | read_u64 => apply reads_u64; typed
       | read_i64 => apply reads_i64; typed
       | _ => solve [eauto with reads]
       end|cbv beta]
  end.
Ltac reads_all := repeat reads_step; try apply reads_ret.

(** ** Records *)

(** The values of the record's C++ type. *)
Record record_typed (r : MeterStreamRecord) : Prop := {
  rt_cursor : in_u64 (sr_cursor r);
  rt_format : in_u32 (sr_record_format r);
  rt_kind : in_u16 (sr_record_kind r);
  rt_sequence : in_u64 (sr_source_sequence r);
  rt_fragment : in_u16 (sr_source_fragment r);
  rt_generation : in_u32 (sr_configuration_generation r);
  rt_ingested : in_s64 (sr_ingested_at r);
  rt_first : in_u64 (first_sample_index (sr_timing r));
  rt_samples : in_u32 (sample_count (sr_timing r));
  rt_cycles : in_u32 (cycle_count (sr_timing r));
  rt_utc : in_s64 (default 0 (utc_start_nanoseconds (sr_timing r)));
  rt_uncertainty : in_u64 (default 0 (utc_uncertainty_nanoseconds (sr_timing r)));
  rt_payload : Z.of_nat (length (sr_payload r)) < 2 ^ 32 }.

Lemma present_flag {A} (o : option A) (d : A) :
  (if negb (flag (present o) =? 0) then Some (default d o) else None) = o.
Proof. by destruct o. Qed.

Lemma reads_record r : record_typed r -> reads decode_record r (encode_record r).
Proof.
  intros [T1 T2 T3 T4 T5 T6 T7 T8 T9 T10 T11 T12 T13]. unfold encode_record, decode_record. cbv zeta. appends.
  do 16 reads_step. apply reads_end. rewrite <- !app_assoc.
  apply (reads_sized (sr_payload r) (fun payload => mret _)); [done|].
  rewrite !present_flag. by destruct r as [? ? ? ? ? ? ? ? []].
Qed.
#[export] Hint Resolve reads_record : reads.

Lemma reads_many {A} (m : Reader A) (enc : A -> list Z) l :
  Forall (fun a => reads m a (enc a)) l -> reads (read_many m (length l)) l (concat (map enc l)).
Proof.
  induction 1 as [|a l Ha _ IH]; [apply reads_ret|]. cbn [length read_many map concat].
  eapply reads_bind; [done|]. apply reads_end. by eapply reads_bind; [done|].
Qed.

Lemma fold_write {A} (enc : A -> list Z) l w :
  fold_left (fun w a => write_bytes w (enc a)) l w = w ++ concat (map enc l).
Proof.
  revert w. induction l as [|a l IH]; intros w; cbn [fold_left map concat]; [by rewrite app_nil_r|].
  rewrite IH. unfold write_bytes. by rewrite <- app_assoc.
Qed.

(** A counted sequence. *)
Lemma reads_counted {A} (m : Reader A) (enc : A -> list Z) l :
  Z.of_nat (length l) < 2 ^ 32 -> Forall (fun a => reads m a (enc a)) l ->
  reads (count ← read_u32; read_many m (Z.to_nat count)) l (le_bytes 4 (size_u32 (length l)) ++ concat (map enc l)).
Proof.
  intros Hl Hf. destruct (size_u32_small _ Hl) as [E E'].
  eapply reads_bind; [apply reads_u32; lia|]. rewrite E'. by apply reads_many.
Qed.

Lemma reads_records l bytes :
  Forall record_typed l -> encode_records l = Ok bytes -> reads decode_records l bytes.
Proof.
  intros Hl. unfold encode_records. intros ([] & Hb%reject_if_Ok & He)%bind_Ok. apply Ok_inj in He as <-.
  apply orb_false_iff in Hb as [H0 H1]. apply Nat.eqb_neq in H0. unfold maximum_publish_records in H1. apply Z.ltb_ge in H1.
  rewrite fold_write. unfold write_u32, append_little. rewrite app_nil_l. unfold decode_records.
  destruct (size_u32_small (length l)) as [E E']; [lia|].
  eapply reads_bind; [apply reads_u32; lia|]. apply reads_reject.
  { rewrite E. apply orb_false_iff. split; [apply Z.eqb_neq|apply Z.ltb_ge]; unfold maximum_publish_records; lia. }
  rewrite E'. apply reads_many. eapply Forall_impl; [|exact Hl]. intros r Hr. by apply reads_record.
Qed.

(** ** Snapshots *)
Record reading_typed {U : Set} (r : Reading U) : Prop := {
  gt_value : in_s64 (r_value r);
  gt_sequence : in_u64 (r_source_sequence r);
  gt_measured : in_s64 (r_measured_at r);
  gt_samples : in_u32 (sw_sample_count (r_window r));
  gt_duration : 0 <= sw_duration (r_window r) <= INT64_MAX }.

Definition group_typed {U : Set} (g : PhaseABCTotal (Reading U)) : Prop :=
  reading_typed (abct_a g) /\ reading_typed (abct_b g) /\ reading_typed (abct_c g) /\ reading_typed (abct_total g).

Lemma reads_reserved {B} e (m : Reader B) b y :
  reads m b y -> reads (read_reserved e ;; m) b ([0] ++ le_bytes 2 0 ++ y).
Proof. intros Hm. rewrite app_assoc. eapply reads_bind; [|exact Hm]. by intros rest. Qed.

Lemma reads_reading {U : Set} (r : Reading U) : reading_typed r -> reads read_reading r (write_reading [] r).
Proof.
  intros [T1 T2 T3 T4 T5]. unfold write_reading, read_reading. cbv zeta. appends.
  do 2 reads_step. apply reads_reject; [by destruct (r_quality r)|]. apply reads_reserved. do 5 reads_step.
  apply reads_end. reads_step. apply reads_reject; [apply Z.ltb_ge; lia|].
  rewrite quality_code_roundtrip. by destruct r as [? ? ? ? []].
Qed.

Lemma write_reading_app {U : Set} w (r : Reading U) : write_reading w r = w ++ write_reading [] r.
Proof. unfold write_reading. cbv zeta. by appends. Qed.

Lemma write_group_bytes {U : Set} w (g : PhaseABCTotal (Reading U)) :
  write_group w g = w ++ write_reading [] (abct_a g) ++ write_reading [] (abct_b g) ++ write_reading [] (abct_c g) ++
    write_reading [] (abct_total g).
Proof.
  unfold write_group. rewrite (write_reading_app w).
  rewrite (write_reading_app (_ ++ _) (abct_b g)), (write_reading_app (_ ++ _) (abct_c g)),
    (write_reading_app (_ ++ _) (abct_total g)). by rewrite <- !app_assoc.
Qed.

Lemma write_group_app {U : Set} w (g : PhaseABCTotal (Reading U)) : write_group w g = w ++ write_group [] g.
Proof. by rewrite !write_group_bytes. Qed.

Lemma reads_group {U : Set} (g : PhaseABCTotal (Reading U)) : group_typed g -> reads read_group g (write_group [] g).
Proof.
  intros (Ha & Hb & Hc & Ht). rewrite write_group_bytes, app_nil_l. unfold read_group. apply reads_end. rewrite <- !app_assoc.
  do 4 (eapply reads_bind; [by apply reads_reading|cbv beta]). by destruct g.
Qed.
#[export] Hint Resolve reads_group : reads.

Lemma reads_samples s : Forall in_u64 (flatten_samples s) -> reads read_samples s (write_samples [] s).
Proof.
  intros Hs. unfold flatten_samples in Hs. decompose_Forall_hyps. unfold write_samples, read_samples. appends.
  apply reads_end. rewrite <- !app_assoc. do 4 reads_step. by destruct s.
Qed.
#[export] Hint Resolve reads_samples : reads.

Lemma write_samples_app w s : write_samples w s = w ++ write_samples [] s.
Proof. unfold write_samples. by appends. Qed.

Lemma reads_flags mask e flags : 0 <= flags < 2 ^ 32 -> any_bit flags (not32 mask) = false ->
  reads (read_flags mask e) flags (le_bytes 4 flags ++ le_bytes 4 0).
Proof.
  intros Hf Hm. unfold read_flags. reads_step. apply reads_reject; [done|]. apply reads_end. reads_step.
  by apply reads_reject.
Qed.

Record energy_typed (v : EnergyValues) : Prop := {
  et_import : group_typed (en_active_import v);
  et_export : group_typed (en_active_export v);
  et_apparent : group_typed (en_apparent v);
  et_reactive : group_typed (en_reactive_i v) /\ group_typed (en_reactive_ii v) /\
    group_typed (en_reactive_iii v) /\ group_typed (en_reactive_iv v);
  et_samples : in_u64 (en_session_id v) /\ in_u64 (en_last_sample_index v) /\ in_u64 (en_accepted_samples v) /\
    in_u64 (en_skipped_samples v);
  et_blocks : in_u32 (en_accepted_blocks v) /\ in_u32 (en_skipped_blocks v);
  et_epoch : in_u64 (en_reset_epoch v) }.

(** What a snapshot keeps of the energy: the discontinuity flag is not on the wire. *)
Definition sent_energy (v : EnergyValues) : EnergyValues :=
  mkEnergy (en_active_import v) (en_active_export v) (en_apparent v) (en_reactive_i v) (en_reactive_ii v)
    (en_reactive_iii v) (en_reactive_iv v) (en_session_id v) (en_last_sample_index v) (en_accepted_samples v)
    (en_skipped_samples v) (en_accepted_blocks v) (en_skipped_blocks v) (en_reset_epoch v) (en_saturated v)
    (en_incomplete_input v) false.

Lemma reads_energy v : energy_typed v -> reads decode_energy_values (sent_energy v) (encode_energy_values v).
Proof.
  intros [T1 T2 T3 (T4 & T5 & T6 & T7) (S1 & S2 & S3 & S4) (B1 & B2) E].
  unfold encode_energy_values, decode_energy_values. cbv zeta. appends.
  rewrite !(write_group_app (write_group _ _)). appends. do 14 reads_step. apply reads_end.
  eapply reads_bind; [apply reads_flags; by destruct (en_saturated v), (en_incomplete_input v)|cbv beta].
  unfold sent_energy. by destruct (en_saturated v), (en_incomplete_input v).
Qed.
#[export] Hint Resolve reads_energy : reads.

Record demand_typed (v : DemandValues) : Prop := {
  dt_current : group_typed (de_current_active v);
  dt_import : group_typed (de_import_peak v);
  dt_export : group_typed (de_export_peak v);
  dt_import_sample : Forall in_u64 (flatten_samples (de_import_peak_sample v));
  dt_export_sample : Forall in_u64 (flatten_samples (de_export_peak_sample v));
  dt_samples : in_u64 (de_session_id v) /\ in_u64 (de_last_sample_index v) /\ in_u64 (de_interval_anchor_sample v);
  dt_source : in_u32 (de_source_interval_count v) /\ in_u32 (de_source_status v);
  dt_profile : in_u32 (de_window_seconds v) /\ in_u32 (de_update_seconds v) /\ in_u32 (de_profile_generation v);
  dt_epoch : in_u64 (de_peak_reset_epoch v) }.

Lemma demand_flags_fit v :
  0 <= demand_snapshot_flags v < 2 ^ 32 /\ any_bit (demand_snapshot_flags v) (not32 0x1f) = false /\
  any_bit (demand_snapshot_flags v) 1 = de_time_aligned v /\ any_bit (demand_snapshot_flags v) 2 = de_contaminated v /\
  any_bit (demand_snapshot_flags v) 4 = de_boundary_valid v /\ any_bit (demand_snapshot_flags v) 8 = de_saturated v /\
  any_bit (demand_snapshot_flags v) 16 = de_incomplete_input v.
Proof.
  unfold demand_snapshot_flags.
  by destruct (de_time_aligned v), (de_contaminated v), (de_boundary_valid v), (de_saturated v), (de_incomplete_input v).
Qed.

Lemma reads_demand v : demand_typed v -> reads decode_demand_values v (encode_demand_values v).
Proof.
  intros [T1 T2 T3 A1 A2 (S1 & S2 & S3) (C1 & C2) (P1 & P2 & P3) E].
  destruct (demand_flags_fit v) as (F0 & F1 & F2 & F3 & F4 & F5 & F6).
  unfold encode_demand_values, decode_demand_values. cbv zeta.
  rewrite !(write_samples_app (write_samples _ _)), !(write_samples_app (write_group _ _)),
    !(write_group_app (write_group _ _)). appends.
  do 11 reads_step. eapply reads_bind; [apply reads_u32; by destruct (de_method v)|cbv beta].
  apply reads_reject; [by destruct (de_method v)|]. do 3 reads_step. apply reads_end.
  eapply reads_bind; [by apply reads_flags|cbv beta]. rewrite F2, F3, F4, F5, F6.
  destruct v; simpl. by destruct de_method.
Qed.
#[export] Hint Resolve reads_demand : reads.

(** ** Policies, resets and status *)
Record policy_typed (p : DatabaseStoragePolicy) : Prop := {
  py_dataset : match dataset p with other_dataset code => 10 <= code < 2 ^ 8 | _ => True end;
  py_backend : match backend p with other_backend code => 2 <= code < 2 ^ 8 | _ => True end;
  py_age : match maximum_age (retention p) with Some age => in_s64 age /\ age <> 0 | None => True end;
  py_bytes : match maximum_bytes (retention p) with Some bytes => in_u64 bytes /\ bytes <> 0 | None => True end }.

Lemma dataset_code_roundtrip p : policy_typed p -> dataset_of_code (dataset_code (dataset p)) = dataset p.
Proof.
  intros [H _ _ _]. destruct (dataset p) as [| | | | | | | | | |code]; try done.
  unfold dataset_of_code, dataset_code. apply nth_overflow. simpl. lia.
Qed.

Lemma backend_code_roundtrip p : policy_typed p -> backend_of_code (backend_code (backend p)) = backend p.
Proof.
  intros [_ H _ _]. destruct (backend p) as [| |code]; try done. unfold backend_of_code, backend_code.
  do 2 (rewrite (proj2 (Z.eqb_neq code _)) by lia). done.
Qed.

Lemma encode_policy_app w p : encode_policy w p = w ++ encode_policy [] p.
Proof. unfold encode_policy. cbv zeta. by appends. Qed.

Lemma reads_policy p : policy_typed p -> reads decode_policy p (encode_policy [] p).
Proof.
  intros Hp. pose proof (dataset_code_roundtrip p Hp) as Ed. pose proof (backend_code_roundtrip p Hp) as Eb.
  destruct Hp as [_ _ Ha Hb]. unfold encode_policy, decode_policy. cbv zeta. appends. do 3 reads_step.
  eapply reads_bind; [apply reads_u64; destruct (maximum_age _); [apply wrap_range; lia|lia]|cbv beta].
  apply reads_end. eapply reads_bind; [apply reads_u64; destruct (maximum_bytes _); simpl; [apply Hb|lia]|cbv beta].
  apply reads_ret_eq. rewrite Ed, Eb. destruct p as [d b [age bytes]]. simpl in *.
  assert (forall z, in_s64 z -> z <> 0 -> u64 z <> 0) as Hz.
  { unfold in_s64, INT64_MIN, INT64_MAX. intros z Hz Hn. unfold wrap. intros E%Z.mod_divide; [|lia].
    destruct E as [q ->]. lia. }
  f_equal. f_equal.
  - destruct age as [age|]; [|done]. destruct Ha as [Ha Hn].
    rewrite (proj2 (Z.eqb_neq _ 0)) by by apply Hz. unfold in_s64, INT64_MIN, INT64_MAX in Ha. simpl.
    by rewrite sign_wrap_id by lia.
  - destruct bytes as [bytes|]; [|done]. destruct Hb as [Hb Hn]. simpl. by rewrite (proj2 (Z.eqb_neq _ 0)).
Qed.
#[export] Hint Resolve reads_policy : reads.

Record reset_typed (r : ResetRequest) : Prop := {
  qt_epoch : in_u64 (rq_expected_epoch r);
  qt_requested : in_s64 (rq_requested_at_nanoseconds r);
  qt_strings : string_ok (rq_idempotency_key r) /\ string_ok (rq_actor r) /\ string_ok (rq_request_id r) }.

Lemma read_reset_bytes r : reset_typed r -> read_reset (encode_reset_request r) = Ok (r, []).
Proof.
  intros [H1 H2 (H3 & H4 & H5)]. unfold encode_reset_request. cbv zeta. appends.
  rewrite <- (app_nil_r (sized_string (rq_request_id r))). unfold read_reset.
  erewrite reader_bind_Ok by by apply reads_u64. erewrite reader_bind_Ok by by apply reads_i64.
  do 3 (erewrite reader_bind_Ok by by apply reads_string). by destruct r.
Qed.

Lemma write_reset_app w r : write_reset w r = w ++ write_reset [] r.
Proof. unfold write_reset. by appends. Qed.

Lemma reads_reset_result r : in_u64 (rr_epoch r) -> reads decode_reset_result r (write_reset [] r).
Proof.
  intros Hr. unfold write_reset, decode_reset_result. appends. do 2 reads_step. apply reads_end. rewrite <- app_assoc.
  apply reads_reserved, reads_ret_eq. by destruct r as [? []].
Qed.
#[export] Hint Resolve reads_reset_result : reads.

(** A value behind its presence header. *)
Lemma write_present_app {A} w (o : option A) enc : write_present w o enc = w ++ write_present [] o enc.
Proof. unfold write_present. cbv zeta. destruct o; by appends. Qed.

Lemma reads_present {A B} what (m : Reader B) (enc : A -> list Z) (f : A -> B) o :
  (forall a, o = Some a -> reads m (f a) (enc a)) -> reads (read_present what m) (f <$> o) (write_present [] o enc).
Proof.
  intros Hm. unfold write_present, read_present. cbv zeta. destruct o as [a|]; appends.
  - reads_step. apply reads_reserved. simpl. apply reads_end. eapply reads_bind; [by apply Hm|apply reads_ret].
  - reads_step. apply reads_end. rewrite <- app_assoc. apply reads_reserved. apply reads_ret.
Qed.

Record status_typed (s : StreamStatus) : Prop := {
  yt_cursors : in_u64 (st_oldest_cursor s) /\ in_u64 (st_newest_cursor s) /\ in_u64 (st_session_start_cursor s);
  yt_counts : in_u64 (st_record_count s) /\ in_u64 (st_storage_bytes s) /\
    in_u64 (st_dropped_unacknowledged_records s);
  yt_consumers : map_Forall (fun name cursor => string_ok name /\ in_u64 cursor) (st_consumers s);
  yt_size : Z.of_nat (size (st_consumers s)) < 2 ^ 32 }.

Lemma consumer_rows_permutation m : consumer_rows m ≡ₚ map_to_list m.
Proof. apply merge_sort_Permutation. Qed.

Lemma fold_consumers rows w :
  fold_left write_consumer rows w = w ++ concat (map (write_consumer []) rows).
Proof.
  revert w. induction rows as [|c rows IH]; intros w; cbn [fold_left map concat]; [by rewrite app_nil_r|].
  rewrite IH. unfold write_consumer. by appends.
Qed.

Lemma write_status_app w s : write_status w s = w ++ write_status [] s.
Proof. unfold write_status. cbv zeta. rewrite !fold_consumers. by appends. Qed.

Lemma reads_consumer c : string_ok c.1 -> in_u64 c.2 -> reads read_consumer c (write_consumer [] c).
Proof.
  intros H1 H2. unfold write_consumer, read_consumer. appends. reads_step. apply reads_end. reads_step.
  by apply reads_ret_eq; destruct c.
Qed.

Lemma reads_status s : status_typed s -> reads read_status s (write_status [] s).
Proof.
  intros [(C1 & C2 & C3) (N1 & N2 & N3) Hc Hn]. unfold write_status, read_status. cbv zeta.
  rewrite fold_consumers. appends. do 9 reads_step. apply reads_end. rewrite <- !app_assoc.
  pose proof (consumer_rows_permutation (st_consumers s)) as Hp.
  assert (length (consumer_rows (st_consumers s)) = size (st_consumers s)) as El.
  { rewrite Hp, length_map_to_list. done. }
  destruct (size_u32_small (length (consumer_rows (st_consumers s)))) as [E E']; [by rewrite El|].
  eapply reads_bind; [apply reads_u32; lia|]. rewrite E'. eapply reads_bind.
  { apply reads_many. apply Forall_forall. intros [name cursor] Hin. apply list_elem_of_In in Hin. rewrite Hp in Hin. apply elem_of_map_to_list in Hin.
    apply (Hc name cursor) in Hin as [H1 H2]. by apply reads_consumer. }
  apply reads_ret_eq. destruct s as [durability ? ? ? ? ? ? consumers]. simpl in *.
  rewrite (list_to_map_proper _ (map_to_list consumers)), list_to_map_to_list; [by destruct durability| |done].
  rewrite Hp. apply NoDup_fst_map_to_list.
Qed.
#[export] Hint Resolve reads_status : reads.
