(* ===== verification/StreamRpc.v ===== *)
(** * The client and the service together

    The client of [StreamIpc] over the service of [StreamService]: a request is framed, received
    under the connection's limits, handled, and the reply comes back the same way.  [local_op] is
    what each method does with no wire in between; the theorem says what of it reaches the client. *)
From stdpp Require Import base list gmap strings sorting.
From S2P Require Import Prelude Ipc IpcConnection MeterTiming RecordFormat MeterRecord MeterData EnergyDemand.
From S2P Require Import DatabasePolicy MeterSpool EnergyLedger LedgerTheorems StreamIpc StreamService StreamCodec.

(** ** The link *)

(** The service and the number of requests it has answered. *)
Record Link := mkLink { lk_service : Service; lk_requests : nat }.

Definition deliver (frame : Frame) : result Frame :=
  bytes ← encode_frame frame; received ← receive (max_payload connection_limits) bytes; Ok (fst received).

(** The reply among the frames posted: [RequestClient] leaves events to its event handler. *)
Definition is_reply (connection : nat) (id : Z) (post : Post) : bool :=
  Nat.eqb post.1 connection && negb (bool_decide (fr_kind post.2 = frame_event)) &&
  (fr_correlation_id post.2 =? id).

Definition connection_closed : exn := RuntimeError "IPC connection closed".

Section Link.
Context (env : nat -> Environment) (connection : nat).

(** One request with its correlation id over the connection. *)
Definition link_request (frame : Frame) (l : Link) : result Frame * Link :=
  let id := Z.of_nat (S (lk_requests l)) in
  let next s := mkLink s (S (lk_requests l)) in
  match deliver (mkFrame (fr_kind frame) (fr_message_type frame) (u64 id) (fr_payload frame)) with
  | Throw _ => (Throw connection_closed, next (lk_service l))
  | Ok received =>
      match handle (env (lk_requests l)) connection received (lk_service l) with
      | (Throw e, s, _) => (Throw e, next s)
      | (Ok _, s, posts) =>
          match List.find (is_reply connection (u64 id)) posts with
          | None => (Throw (RuntimeError "IPC request timed out"), next s)
          | Some (_, reply) =>
              (match deliver reply with Ok reply => Ok reply | Throw _ => Throw connection_closed end, next s)
          end
      end
  end.

#[export] Instance link_transport : StreamTransport Link := {| transport_request := link_request |}.
End Link.

(** ** Operations *)
Inductive StreamOp : Type -> Type :=
  | op_publish (record : MeterStreamRecord) : StreamOp Z
  | op_publish_records (records : list MeterStreamRecord) : StreamOp (list Z)
  | op_register (name : string) : StreamOp unit
  | op_unregister (name : string) : StreamOp unit
  | op_read (name : string) (limit : Z) : StreamOp (list MeterStreamRecord)
  | op_acknowledge (name : string) (cursor : Z) : StreamOp unit
  | op_status : StreamOp StreamStatus
  | op_policy : StreamOp DatabaseStoragePolicy
  | op_apply_policy (policy : DatabaseStoragePolicy) : StreamOp unit
  | op_energy : StreamOp (option EnergyValues)
  | op_demand : StreamOp (option DemandValues)
  | op_reset_energy (reset : ResetRequest) : StreamOp ResetResult
  | op_reset_demand_peaks (reset : ResetRequest) : StreamOp ResetResult.

Definition client_op {T} `{StreamTransport T} {A} (op : StreamOp A) : T -> result A * T :=
  match op in StreamOp A return T -> result A * T with
  | op_publish record => client_publish record
  | op_publish_records records => client_publish_records records
  | op_register name => client_register_consumer name
  | op_unregister name => client_unregister_consumer name
  | op_read name limit => client_read_after name limit
  | op_acknowledge name cursor => client_acknowledge name cursor
  | op_status => client_status
  | op_policy => client_policy
  | op_apply_policy policy => client_apply_policy policy
  | op_energy => client_energy
  | op_demand => client_demand
  | op_reset_energy reset => client_reset_energy reset
  | op_reset_demand_peaks reset => client_reset_demand_peaks reset
  end.

(** The operation on the spool and the ledger themselves. *)
Definition local_op (env : Environment) {A} (op : StreamOp A) : Action A :=
  match op in StreamOp A return Action A with
  | op_publish record => commit_record env record
  | op_publish_records records => commit_records env records
  | op_register name => register env name
  | op_unregister name => unregister env name
  | op_read name limit => read_stream name limit
  | op_acknowledge name cursor => acknowledge_stream env name cursor ;; advance_stream env
  | op_status => get_service (fun s => status (ev_family_size env) (sv_spool s))
  | op_policy => get_service (fun s => im_policy (sp_impl (sv_spool s)))
  | op_apply_policy policy => change_policy env policy ;; publish_event env storage_policy_applied 0
  | op_energy => get_service (fun s => el_latest_energy (sv_ledger s))
  | op_demand => get_service (fun s => el_latest_demand (sv_ledger s))
  | op_reset_energy reset => on_ledger (fun ledger => reset_energy (ev_ledger_io env) ledger reset)
  | op_reset_demand_peaks reset => on_ledger (fun ledger => reset_demand_peaks (ev_ledger_io env) ledger reset)
  end.

Definition op_command {A} (op : StreamOp A) : Command :=
  match op with
  | op_publish _ => cmd_publish_record | op_publish_records _ => cmd_publish_records
  | op_register _ => cmd_register_consumer | op_unregister _ => cmd_unregister_consumer
  | op_read _ _ => cmd_read_records | op_acknowledge _ _ => cmd_acknowledge_records
  | op_status => cmd_get_stream_status | op_policy => cmd_get_storage_policy
  | op_apply_policy _ => cmd_apply_storage_policy | op_energy => cmd_get_energy_snapshot
  | op_demand => cmd_get_demand_snapshot | op_reset_energy _ => cmd_reset_energy
  | op_reset_demand_peaks _ => cmd_reset_demand_peaks
  end.

(** The payload of the request. *)
Definition op_request {A} (op : StreamOp A) : list Z :=
  match op with
  | op_publish record => encode_record record
  | op_publish_records records =>
      write_u32 [] (size_u32 (length records)) ++ concat (map encode_record records)
  | op_register name | op_unregister name => write_string [] name
  | op_read name limit => write_u32 (write_string [] name) (u32 limit)
  | op_acknowledge name cursor => write_u64 (write_string [] name) cursor
  | op_apply_policy policy => encode_policy [] policy
  | op_reset_energy reset | op_reset_demand_peaks reset => encode_reset_request reset
  | _ => []
  end.

(** What follows the status of a successful reply. *)
Definition op_reply {A} (op : StreamOp A) : A -> list Z :=
  match op in StreamOp A return A -> list Z with
  | op_publish _ => fun cursor => le_bytes 8 cursor
  | op_publish_records _ => fun cursors =>
      le_bytes 4 (size_u32 (length cursors)) ++ concat (map (le_bytes 8) cursors)
  | op_read _ _ => fun records =>
      le_bytes 4 (size_u32 (length records)) ++ concat (map encode_record records)
  | op_status => write_status []
  | op_policy => encode_policy []
  | op_energy => fun v => write_present [] v encode_energy_values
  | op_demand => fun v => write_present [] v encode_demand_values
  | op_reset_energy _ | op_reset_demand_peaks _ => write_reset []
  | _ => fun _ => []
  end.

(** Arguments of their C++ types. *)
Definition op_typed {A} (op : StreamOp A) : Prop :=
  match op with
  | op_publish record => record_typed record
  | op_publish_records records => Forall record_typed records /\ (1 <= length records <= 256)%nat
  | op_register name | op_unregister name => string_ok name
  | op_read name limit => string_ok name /\ in_u32 limit
  | op_acknowledge name cursor => string_ok name /\ in_u64 cursor
  | op_apply_policy policy => policy_typed policy
  | op_reset_energy reset | op_reset_demand_peaks reset => reset_typed reset
  | _ => True
  end.

(** Results of their C++ types. *)
Definition value_typed {A} (op : StreamOp A) : A -> Prop :=
  match op in StreamOp A return A -> Prop with
  | op_publish _ => fun cursor => in_u64 cursor
  | op_publish_records records => fun cursors => Forall in_u64 cursors /\ length cursors = length records
  | op_read _ _ => fun records => Forall record_typed records /\ Z.of_nat (length records) < 2 ^ 32
  | op_status => status_typed
  | op_policy => policy_typed
  | op_energy => fun v => forall e, v = Some e -> energy_typed e
  | op_demand => fun v => forall d, v = Some d -> demand_typed d
  | op_reset_energy _ | op_reset_demand_peaks _ => fun r => in_u64 (rr_epoch r)
  | _ => fun _ => True
  end.

(** What is left of an exception once it has crossed the socket. *)
Definition wire_error (e : exn) : exn :=
  match e with
  | Unavailable what => Unavailable what
  | Conflict what => Conflict what
  | InvalidArgument what => InvalidArgument what
  | UndefinedBehaviour what => UndefinedBehaviour what
  | RuntimeError what | LengthError what | OutOfRange what | OverflowError what | LogicError what
  | DatalogError _ what => RuntimeError what
  end.

Definition wire_result {A} (r : result A) : result A :=
  match r with Ok a => Ok a | Throw e => Throw (wire_error e) end.

(** What is left of a value: the energy snapshot loses its discontinuity flag, every other
    value arrives as it is. *)
Definition client_view {A} (op : StreamOp A) : A -> A :=
  match op in StreamOp A return A -> A with
  | op_energy => fun v => sent_energy <$> v
  | _ => fun a => a
  end.

(** The service reads the two arguments of an acknowledgement in the order they were sent.  The
    code leaves that order to the compiler. *)
Definition reads_in_order {A} (op : StreamOp A) (env : Environment) : Prop :=
  op_command op = cmd_acknowledge_records -> ev_left_to_right env = true.

Definition fits (payload : list Z) : Prop := Z.of_nat (length payload) <= max_payload connection_limits.

(** The reply is a value of its type, or a message, that the frame limit admits. *)
Definition reply_ok {A} (op : StreamOp A) (r : result A) : Prop :=
  match r with
  | Ok a => value_typed op a /\ fits (ok_output ++ op_reply op a)
  | Throw e => fits (failure_payload (fst (failure_status e)) (snd (failure_status e)))
  end.

(** ** The handler *)
Lemma action_bind_Ok {A B} (m : Action A) (f : A -> Action B) s a s' posts :
  m s = (Ok a, s', posts) -> (m ≫= f) s = let '(r, s'', more) := f a s' in (r, s'', posts ++ more).
Proof. intros E. unfold mbind, action_bind. by rewrite E. Qed.

Lemma action_bind_lift {A B} (r : result A) (f : A -> Action B) s a :
  r = Ok a -> (lift r ≫= f) s = f a s.
Proof. intros ->. unfold lift, mbind, action_bind. by destruct (f a s) as [[? ?] ?]. Qed.

Lemma action_assoc {A B C} (m : Action A) (f : A -> Action B) (g : B -> Action C) s :
  ((m ≫= f) ≫= g) s = (m ≫= (fun a => f a ≫= g)) s.
Proof.
  unfold mbind, action_bind. destruct (m s) as [[[a|e] s1] p1]; [|done].
  destruct (f a s1) as [[[b|e] s2] p2]; [|done]. destruct (g b s2) as [[r s3] p3]. by rewrite app_assoc.
Qed.

Lemma action_bind_ext {A B} (m : Action A) (f g : A -> Action B) s :
  (forall a s, f a s = g a s) -> (m ≫= f) s = (m ≫= g) s.
Proof. intros E. unfold mbind, action_bind. destruct (m s) as [[[a|e] s1] p1]; [by rewrite E|done]. Qed.

Lemma reads_exact {A} (m : Reader A) a bytes : reads m a bytes -> m bytes = Ok (a, []).
Proof. intros Hm. specialize (Hm []). by rewrite app_nil_r in Hm. Qed.

Lemma reads_complete {A} (m : Reader A) a bytes :
  reads m a bytes -> (x ← m; require_finished ;; mret x) bytes = Ok (a, []).
Proof. intros Hm. by erewrite reader_bind_Ok by by apply reads_exact. Qed.

Lemma fold_cursors cursors w : fold_left write_u64 cursors w = w ++ concat (map (le_bytes 8) cursors).
Proof.
  revert w. induction cursors as [|c cursors IH]; intros w; cbn [fold_left map concat]; [by rewrite app_nil_r|].
  rewrite IH. unfold write_u64, append_little. by rewrite <- app_assoc.
Qed.

Lemma encode_records_bytes records :
  (1 <= length records <= 256)%nat -> encode_records records = Ok (op_request (op_publish_records records)).
Proof.
  intros Hl. unfold encode_records, maximum_publish_records.
  replace (Nat.eqb (length records) 0) with false by (symmetry; apply Nat.eqb_neq; lia).
  replace (256 <? Z.of_nat (length records)) with false by (symmetry; apply Z.ltb_ge; lia).
  simpl. by rewrite fold_write.
Qed.

(** The handler the [switch] selects. *)
Definition op_handler (env : Environment) {A} (op : StreamOp A) : list Z -> Action (list Z) :=
  match op with
  | op_publish _ => handle_publish_record env | op_publish_records _ => handle_publish_records env
  | op_register _ => handle_register env | op_unregister _ => handle_unregister env
  | op_read _ _ => handle_read | op_acknowledge _ _ => handle_acknowledge env
  | op_status => handle_status env | op_policy => handle_policy
  | op_apply_policy _ => handle_apply_policy env | op_energy => handle_energy
  | op_demand => handle_demand | op_reset_energy _ => handle_reset_energy env
  | op_reset_demand_peaks _ => handle_reset_demand_peaks env
  end.

Lemma dispatch_handler {A} env connection id (op : StreamOp A) payload :
  dispatch env connection (mkFrame frame_request (command_value (op_command op)) id payload) = op_handler env op payload.
Proof. by destruct op. Qed.

(** Each handler decodes the operation the client encoded, runs it and encodes its value. *)
Lemma dispatch_local {A} env connection id (op : StreamOp A) s :
  reads_in_order op env -> op_typed op ->
  dispatch env connection (mkFrame frame_request (command_value (op_command op)) id (op_request op)) s =
  (a ← local_op env op; mret (ok_output ++ op_reply op a)) s.
Proof.
  intros Hlr Ht. rewrite dispatch_handler.
  destruct op as [r|rs|name|name|name limit|name cursor| | |policy| | |reset|reset]; cbn [op_typed op_handler op_request op_reply local_op] in *.
  - unfold handle_publish_record, input. by rewrite (action_bind_lift _ _ _ _ (reads_complete _ _ _ (reads_record r Ht))).
  - destruct Ht as [Ht Hl]. unfold handle_publish_records, input.
    rewrite (action_bind_lift _ _ _ _ (reads_complete _ _ _ (reads_records rs _ Ht (encode_records_bytes rs Hl)))).
    apply action_bind_ext. intros cursors s'. unfold write_u32, append_little. by rewrite fold_cursors, <- app_assoc.
  - unfold handle_register, input. rewrite write_string_app.
    rewrite (action_bind_lift _ _ _ _ (reads_exact _ _ _ (reads_string name Ht))). by apply action_bind_ext.
  - unfold handle_unregister, input. rewrite write_string_app.
    rewrite (action_bind_lift _ _ _ _ (reads_exact _ _ _ (reads_string name Ht))). by apply action_bind_ext.
  - destruct Ht as [Hn Hl]. unfold handle_read, input, write_u32, append_little. rewrite write_string_app, app_nil_l.
    rewrite (action_bind_lift _ _ _ _ (reads_string name Hn _)).
    rewrite wrap_id by (unfold in_u32 in Hl; lia).
    rewrite (action_bind_lift _ _ _ _ (reads_exact _ _ _ (reads_u32 limit Hl))), action_bind_lift with (a := (tt, [])) by done.
    apply action_bind_ext. intros records s'. by rewrite fold_write, <- app_assoc.
  - destruct Ht as [Hn Hc]. unfold handle_acknowledge, input, write_u64, append_little, read_acknowledgement.
    rewrite write_string_app, app_nil_l, (Hlr eq_refl).
    erewrite (action_bind_lift (_ (_ ++ _)) _ _ (name, cursor, [])).
    2:{ erewrite reader_bind_Ok by by apply reads_string. erewrite reader_bind_Ok; [done|].
        by apply reads_exact, reads_u64. }
    rewrite action_assoc. apply action_bind_ext. intros [] s'. rewrite action_bind_lift with (a := (tt, [])) by done.
    by apply action_bind_ext.
  - unfold handle_status, input. rewrite action_bind_lift with (a := (tt, [])) by done.
    unfold mbind, action_bind, get_service. cbv beta iota. by rewrite write_status_app.
  - unfold handle_policy, input. rewrite action_bind_lift with (a := (tt, [])) by done.
    unfold mbind, action_bind, get_service. cbv beta iota. by rewrite encode_policy_app.
  - unfold handle_apply_policy, input. rewrite (action_bind_lift _ _ _ _ (reads_exact _ _ _ (reads_policy policy Ht))).
    rewrite action_assoc. apply action_bind_ext. intros [] s'. rewrite action_bind_lift with (a := (tt, [])) by done.
    by apply action_bind_ext.
  - unfold handle_energy, input. rewrite action_bind_lift with (a := (tt, [])) by done.
    unfold mbind, action_bind, get_service. cbv beta iota.
    by rewrite write_present_app.
  - unfold handle_demand, input. rewrite action_bind_lift with (a := (tt, [])) by done.
    unfold mbind, action_bind, get_service. cbv beta iota. by rewrite write_present_app.
  - unfold handle_reset_energy, input. rewrite (action_bind_lift _ _ _ _ (read_reset_bytes reset Ht)).
    apply action_bind_ext. intros r s'. by rewrite write_reset_app.
  - unfold handle_reset_demand_peaks, input. rewrite (action_bind_lift _ _ _ _ (read_reset_bytes reset Ht)).
    apply action_bind_ext. intros r s'. by rewrite write_reset_app.
Qed.

(** ** The wire *)
Lemma deliver_ok kind message_type id payload :
  0 <= message_type < 2 ^ 32 -> in_u64 id -> fits payload ->
  deliver (mkFrame kind message_type id payload) = Ok (mkFrame kind message_type id payload).
Proof.
  intros Hm Hi Hp. assert (Hok : frame_ok (max_payload connection_limits) (mkFrame kind message_type id payload)) by done.
  unfold deliver. destruct (encode_frame_Ok (max_payload connection_limits) _ Hok) as [bytes E]; [done|]. rewrite E.
  cbn [mbind result_bind]. rewrite <- (app_nil_r bytes). by rewrite (receive_frame _ _ _ [] Hok ltac:(done) E).
Qed.

(** The frames an operation posts to others are events. *)
Definition events_only (posts : list Post) : Prop := Forall (fun p => fr_kind p.2 = frame_event) posts.

Lemma find_reply connection id posts reply :
  events_only posts -> fr_kind reply <> frame_event -> fr_correlation_id reply = id ->
  List.find (is_reply connection id) (posts ++ [(connection, reply)]) = Some (connection, reply).
Proof.
  intros Hp Hk Hi. induction Hp as [|[c f] posts Hf _ IH]; cbn [app List.find]; unfold is_reply at 1; cbn [fst snd].
  - rewrite Nat.eqb_refl, Hi, Z.eqb_refl. by rewrite (bool_decide_false (fr_kind reply = frame_event)).
  - simpl in Hf. rewrite Hf, (bool_decide_true (frame_event = frame_event)) by done. by rewrite andb_false_r.
Qed.

Lemma events_bind {A B} (m : Action A) (f : A -> Action B) s :
  events_only (m s).2 -> (forall a s', m s = (Ok a, s', (m s).2) -> events_only (f a s').2) ->
  events_only ((m ≫= f) s).2.
Proof.
  intros Hm Hf. unfold mbind, action_bind. destruct (m s) as [[[a|e] s1] p1]; [|done].
  specialize (Hf a s1 eq_refl). destruct (f a s1) as [[r s2] p2]. by apply Forall_app.
Qed.

Lemma events_ret {A} (a : A) s : events_only (mret (M := Action) a s).2.
Proof. constructor. Qed.

Lemma events_lift {A} (r : result A) s : events_only (lift r s).2.
Proof. constructor. Qed.

Lemma events_spool {A} (f : Spool -> result (A * Spool)) s : events_only (on_spool f s).2.
Proof. unfold on_spool. destruct (f _) as [[]|]; constructor. Qed.

Lemma events_spool_always {A} (f : Spool -> result A * Spool) s : events_only (on_spool_always f s).2.
Proof. unfold on_spool_always. destruct (f _); constructor. Qed.

Lemma events_ledger {A} (f : EnergyLedger -> EnergyLedger * result A) s : events_only (on_ledger f s).2.
Proof. unfold on_ledger. destruct (f _); constructor. Qed.

Lemma events_report env s : events_only (report_dropped_records env s).2.
Proof. unfold report_dropped_records. repeat case_match; constructor. Qed.

Lemma events_publish env event cursor s : events_only (publish_event env event cursor s).2.
Proof. unfold publish_event, events_only. apply Forall_map. by apply Forall_true. Qed.

Create HintDb events discriminated.
#[export] Hint Resolve events_ret events_lift events_spool events_spool_always events_ledger events_report events_publish
  : events.

Lemma local_events {A} env (op : StreamOp A) s : events_only (local_op env op s).2.
Proof.
  destruct op; cbn [local_op]; unfold commit_record, commit_records, ledger_demand, ledger_energy, register, unregister, read_stream, acknowledge_stream,
    advance_stream, change_policy; repeat first [apply events_bind; [|intros ? ? _]|case_match]; auto with events;
    constructor.
Qed.

(** ** What the client reads *)
Definition op_reader {A} (op : StreamOp A) : Reader A :=
  match op in StreamOp A return Reader A with
  | op_publish _ => read_u64
  | op_publish_records records =>
      count ← read_u32;
      reader_reject (negb (count =? Z.of_nat (length records)))
        (RuntimeError "meter-stream publish batch cursor count mismatch") ;;
      read_many read_u64 (Z.to_nat count)
  | op_read _ _ => count ← read_u32; read_many decode_record (Z.to_nat count)
  | op_status => read_status
  | op_policy => decode_policy
  | op_energy => read_present "invalid ENERGY snapshot presence header" decode_energy_values
  | op_demand => read_present "invalid DEMAND snapshot presence header" decode_demand_values
  | op_reset_energy _ | op_reset_demand_peaks _ => decode_reset_result
  | _ => mret tt
  end.

Lemma client_call {T} `{StreamTransport T} {A} (op : StreamOp A) (t : T) :
  op_typed op -> client_op op t = stream_call (op_command op) (op_request op) (op_reader op) t.
Proof.
  intros Ht. destruct op; try done. cbn [client_op]. unfold client_publish_records.
  by rewrite encode_records_bytes by apply Ht.
Qed.

Lemma reads_reply {A} (op : StreamOp A) a :
  op_typed op -> value_typed op a -> reads (op_reader op) (client_view op a) (op_reply op a).
Proof.
  intros Ht Hv. destruct op as [r|rs|name|name|name limit|name cursor| | |policy| | |reset|reset];
    cbn [op_typed value_typed op_reader op_reply client_view] in *; try (by destruct a; apply reads_ret); auto with reads.
  - destruct Ht as [_ Hl], Hv as [Hc El]. destruct (size_u32_small (length a)) as [E E']; [lia|].
    eapply reads_bind; [apply reads_u32; lia|]. apply reads_reject; [apply negb_false_iff, Z.eqb_eq; lia|].
    rewrite E'. apply reads_many. eapply Forall_impl; [|exact Hc]. intros c. apply reads_u64.
  - destruct Hv as [Hr Hl]. apply reads_counted; [done|]. eapply Forall_impl; [|exact Hr]. intros r. apply reads_record.
  - apply reads_present. intros e ->. by apply reads_energy, Hv.
  - replace a with (id <$> a) at 1 by by destruct a. apply reads_present. intros d ->. by apply reads_demand, Hv.
Qed.

Lemma read_ok {A} (m : Reader A) a bytes :
  reads m a bytes -> (require_ok ;; x ← m; require_finished ;; mret x) (ok_output ++ bytes) = Ok (a, []).
Proof.
  intros Hm. unfold ok_output, write_u32, append_little. rewrite app_nil_l. unfold require_ok.
  erewrite reader_bind_Ok. 2:{ erewrite reader_bind_Ok by by apply reads_u32. done. }
  by apply reads_complete.
Qed.

Lemma read_failure {A} (m : Reader A) e :
  (forall what, e <> UndefinedBehaviour what) -> string_ok (snd (failure_status e)) ->
  (require_ok ;; m) (failure_payload (fst (failure_status e)) (snd (failure_status e))) = Throw (wire_error e).
Proof.
  intros Hu Hs. unfold failure_payload. rewrite write_string_app. unfold write_u32, append_little. rewrite app_nil_l.
  apply reader_bind_Throw. unfold require_ok.
  erewrite reader_bind_Ok by (apply reads_u32; by destruct e).
  destruct e as [what|what|what|what|what|what|what|what|code what|what]; [..|by destruct (Hu what)];
    cbn [failure_status fst snd status_value Z.eqb Pos.eqb] in *;
    by erewrite reader_bind_Ok by by apply reads_exact, reads_string.
Qed.

Lemma handle_local {A} env connection id (op : StreamOp A) s :
  reads_in_order op env -> op_typed op ->
  handle env connection (mkFrame frame_request (command_value (op_command op)) id (op_request op)) s =
  let '(r, s', posts) := local_op env op s in
  let reply payload kind := (connection, mkFrame kind (command_value (op_command op)) id payload) in
  match r with
  | Ok a => (Ok tt, s', posts ++ [reply (ok_output ++ op_reply op a) frame_response])
  | Throw (UndefinedBehaviour what) => (Throw (UndefinedBehaviour what), s', posts)
  | Throw e => (Ok tt, s', posts ++ [reply (failure_payload (fst (failure_status e)) (snd (failure_status e))) frame_error])
  end.
Proof.
  intros Hlr Ht. unfold handle. cbn [fr_kind].
  rewrite (action_bind_lift _ _ _ tt) by done. rewrite dispatch_local by done. unfold mbind, action_bind at 1.
  destruct (local_op env op s) as [[[a|e] s'] posts].
  - cbn [mret action_ret]. by rewrite app_nil_r.
  - unfold response. cbn [fr_message_type fr_correlation_id]. by destruct e.
Qed.

(** (C11) What of an operation reaches a client of the stream service.  The request is framed,
    decoded, executed once by the service and answered, and the client returns what the operation
    on the spool and the ledger themselves returns, with two losses: an energy snapshot arrives
    without its discontinuity flag, and an exception arrives as one of four classes (unavailable,
    conflict, invalid argument, runtime error for the rest) with its message.  The service is left
    in exactly the state the operation leaves.  Assumed: arguments and results are values of their
    C++ types and fit the frame limit, and the two arguments of an acknowledgement are evaluated
    left to right, which C++ does not promise ([acknowledge_needs_left_to_right]). *)
Theorem stream_rpc_transparent {A} env connection (op : StreamOp A) l r s' posts :
  reads_in_order op (env (lk_requests l)) -> op_typed op -> fits (op_request op) ->
  local_op (env (lk_requests l)) op (lk_service l) = (r, s', posts) -> reply_ok op r ->
  @client_op Link (link_transport env connection) A op l =
    (wire_result (a ← r; Ok (client_view op a)), mkLink s' (S (lk_requests l))).
Proof.
  intros Hlr Ht Hf Hl Hr. rewrite client_call by done. unfold stream_call.
  cbn [transport_request link_transport]. unfold link_request. cbn [fr_kind fr_message_type fr_payload].
  assert (Hid : in_u64 (u64 (Z.of_nat (S (lk_requests l))))) by (apply wrap_range; lia).
  assert (Hc : 0 <= command_value (op_command op) < 2 ^ 32) by (by destruct op).
  rewrite deliver_ok by done. rewrite handle_local by done. rewrite Hl. cbv zeta.
  pose proof (local_events (env (lk_requests l)) op (lk_service l)) as He. rewrite Hl in He. simpl in He.
  destruct r as [a|e].
  - destruct Hr as [Hv Hp]. rewrite find_reply by done. rewrite deliver_ok by done. cbn [fr_payload].
    by rewrite (read_ok _ (client_view op a)) by by apply reads_reply.
  - simpl in Hr.
    assert ((exists what, e = UndefinedBehaviour what) \/ forall what, e <> UndefinedBehaviour what) as [[what ->]|Hu].
    { destruct e; (by right) || (left; by eexists). }
    { done. }
    assert (Hs : string_ok (snd (failure_status e))).
    { unfold fits, failure_payload in Hr. rewrite write_string_app in Hr. unfold write_u32, append_little, sized_string in Hr.
      rewrite !length_app, !le_bytes_length, string_bytes_length in Hr. unfold string_ok. simpl in Hr. lia. }
    pose proof (read_failure (A := A) (x ← op_reader op; require_finished ;; mret x) e Hu Hs) as R.
    destruct e; try (by destruct (Hu what)); rewrite find_reply by done; rewrite deliver_ok by done;
      cbn [fr_payload]; by rewrite R.
Qed.

(** ** An example *)
Definition memory_policy : DatabaseStoragePolicy := mkPolicy raw_record_spool memory (mkRetention None None).

Definition fresh_spool : Spool :=
  match open_spool memory_policy (mkDisk MeterSpool.empty_database 0) 1000 true with
  | Ok spool => spool
  | Throw _ => mkSpool (mkImpl memory_policy MeterSpool.empty_database 0 0 0 0) (mkDisk MeterSpool.empty_database 0)
  end.

(** A service with a subscriber. *)
Definition fresh_service : Service := mkService fresh_spool ledger_0 [7%nat] 0 0.

Definition working (n : nat) : Environment :=
  mkEnvironment true true true true true 0 0 (Z.of_nat n) 0 (fun _ => true) (fun _ => true) true.

(** The spool fails, the ledger does not. *)
Definition spool_failing : Environment :=
  mkEnvironment true false true true true 0 0 0 0 (fun _ => true) (fun _ => true) true.

Definition energy_part_record (record : MeterRecord) (fragment : Z) : MeterStreamRecord :=
  mkStreamRecord 0 meter_energy_format 3 0 (MeterRecord.sequence record) fragment (configuration_generation record) 1000
    (mkProvenance (MeterRecord.first_sample_index record) (block_sample_count record) 0 0 None None)
    (flat_map (le_bytes 4) (words record)).

Definition energy_pair : list MeterStreamRecord :=
  [energy_part_record summary_example 0; energy_part_record quadrants_example 1].

Definition published : result (list Z) * Service * list Post :=
  local_op (working 0) (op_publish_records energy_pair) fresh_service.

Lemma energy_pair_typed : Forall record_typed energy_pair.
Proof. repeat constructor; vm_compute; (done || by split). Qed.

(** Conversion tests are to compare its arguments, not to run it. *)
Strategy opaque [local_op].

Lemma published_cursors : published.1.1 = Ok [1001; 1002].
Proof. vm_compute. reflexivity. Qed.

Lemma pair_eta {A B C} (t : A * B * C) a : t.1.1 = a -> t = (a, t.1.2, t.2).
Proof. by destruct t as [[? ?] ?]; intros <-. Qed.

Lemma stream_rpc_transparent_witness :
  @client_op Link (link_transport working 3) _ (op_publish_records energy_pair) (mkLink fresh_service 0) =
    (Ok [1001; 1002], mkLink published.1.2 1).
Proof.
  apply (stream_rpc_transparent working 3 (op_publish_records energy_pair) (mkLink fresh_service 0) (Ok [1001; 1002])
    published.1.2 published.2).
  - intros _. reflexivity.
  - split; [apply energy_pair_typed|simpl; lia].
  - apply Z.leb_le. vm_compute. reflexivity.
  - exact (pair_eta published _ published_cursors).
  - split; [|apply Z.leb_le; vm_compute; reflexivity]. split; [|reflexivity]. repeat constructor; vm_compute; done.
Defined.

(** ** What the wire loses *)

(** With its two arguments evaluated right to left, the same request is refused. *)
Definition right_to_left : Environment :=
  mkEnvironment true true true true true 0 0 0 0 (fun _ => true) (fun _ => true) false.

Lemma acknowledge_needs_left_to_right :
  read_acknowledgement (working 0) (op_request (op_acknowledge "mqtt" 5)) = Ok ("mqtt"%string, 5, []) /\
  read_acknowledgement right_to_left (op_request (op_acknowledge "mqtt" 5)) =
    Throw (InvalidArgument "truncated IPC payload").
Proof. split; vm_compute; reflexivity. Qed.

(** A discontinuity the ledger holds is not in the snapshot a client reads. *)
Lemma snapshot_drops_discontinuity v :
  energy_typed v -> en_discontinuity v = true ->
  exists w, decode_energy_values (encode_energy_values v) = Ok (w, []) /\ en_discontinuity w = false.
Proof. intros Hv _. exists (sent_energy v). split; [|done]. by apply reads_exact, reads_energy. Qed.

(** A full read fits its frame.  A reply to the largest read the spool serves, 4096 records of
    256 bytes, is within the payload limit of the connection and within its write queue, and a
    batch of 256 such records within that of a request. *)
Theorem stream_batches_fit name limit records batch :
  Forall (fun r => length (sr_payload r) <= 256)%nat records -> (length records <= 4096)%nat ->
  Forall (fun r => length (sr_payload r) <= 256)%nat batch -> (length batch <= 256)%nat ->
  fits (ok_output ++ op_reply (op_read name limit) records) /\
  Z.of_nat (envelope_size + length (ok_output ++ op_reply (op_read name limit) records)) <=
    max_queued_bytes connection_limits /\
  fits (op_request (op_publish_records batch)).
Proof.
  assert (Hsize : forall r, length (encode_record r) = (76 + length (sr_payload r))%nat).
  { intros r. unfold encode_record. cbv zeta. appends. rewrite !length_app, !le_bytes_length. simpl. lia. }
  assert (Hall : forall l, Forall (fun r => length (sr_payload r) <= 256)%nat l ->
    (length (concat (map encode_record l)) <= length l * 332)%nat).
  { induction 1 as [|r l Hr _ IH]; [done|]. cbn [map concat length]. rewrite length_app, Hsize. lia. }
  intros Hr Hn Hb Hm. apply Hall in Hr, Hb. unfold fits, envelope_size. cbn [op_reply op_request].
  unfold write_u32, append_little, ok_output. rewrite !length_app, !le_bytes_length. simpl. lia.
Qed.

Lemma stream_batches_fit_witness :
  fits (ok_output ++ op_reply (op_read "historian" 2) energy_pair) /\ fits (op_request (op_publish_records energy_pair)).
Proof.
  destruct (stream_batches_fit "historian" 2 energy_pair energy_pair) as (H1 & _ & H3).
  - repeat constructor.
  - simpl. lia.
  - repeat constructor.
  - simpl. lia.
  - split; [exact H1|exact H3].
Defined.
