(* ===== verification/StreamTheorems.v ===== *)
(** * Publication through the meter-stream service

    The durability barrier between the energy ledger and the spool, and what repeated attempts to
    publish one energy family add to the meter. *)
From stdpp Require Import base list gmap strings.
From S2P Require Import Prelude Ipc IpcConnection MeterTiming RecordFormat MeterRecord MeterData EnergyDemand.
From S2P Require Import DatabasePolicy MeterSpool EnergyLedger LedgerTheorems StreamIpc StreamService StreamCodec StreamRpc.

(** ** Records of the wire *)
Lemma words_of_wf n bytes : Forall is_byte bytes -> length (words_of n bytes) = n /\
  Forall (fun w => 0 <= w < 2 ^ 32) (words_of n bytes).
Proof.
  revert bytes. induction n as [|n IH]; intros bytes Hb; [by split; constructor|]. cbn [words_of length].
  destruct (IH (drop 4 bytes)) as [Hl Hf]; [by apply Forall_drop|]. split; [by rewrite Hl|]. constructor; [|done].
  pose proof (le_value_range (take 4 bytes) (Forall_take _ 4 _ Hb)) as Hr. rewrite length_take in Hr.
  assert (256 ^ Z.of_nat (4 `min` length bytes) <= 256 ^ 4) by (apply Z.pow_le_mono_r; lia). lia.
Qed.

Lemma wire_record_wf r record : Forall is_byte (sr_payload r) -> wire_record r = Ok record -> record_wf record.
Proof.
  intros Hb H. unfold wire_record in H. inv_ok H. destruct (words_of_wf meter_record_word_count _ Hb). by split.
Qed.

Lemma counter_group_window {U : Set} r base (q : nat -> bool) sat t w (g : PhaseABCTotal (Reading U)) :
  phase_total (fun index => counter_reading r (base + index * 2)%nat (q index) sat t w) = Ok g ->
  r_window (abct_a g) = w.
Proof. unfold phase_total, counter_reading. intros H. cbn zeta in H. inv_ok H. done. Qed.

(** A decoded family has the ranges the ledger relies on. *)
Lemma energy_decode_ranges s q t v :
  record_wf s -> record_wf q -> decode_energy_family s q t = Ok v -> energy_ranges v.
Proof.
  intros Hs Hq H. unfold decode_energy_family in H. cbn zeta in H. inv_ok H.
  match goal with
    H : source_window s = Ok _, G : phase_total (fun index => counter_reading s _ _ _ _ _) = Ok ?g |- context [mkEnergy ?g] =>
      pose proof (counter_group_window _ _ _ _ _ _ _ G) as Hw; unfold source_window, require_arg in H; inv_ok H
  end.
  repeat match goal with
    | H : decode_energy_identity _ = Ok _ |- _ => apply identity_Ok in H as [_ ->]
    | H : phase_total _ = Ok _ |- _ => apply counter_group_values in H as (_ & H & _)
  end.
  split; unfold energy_window; cbn [en_session_id en_last_sample_index en_accepted_samples en_skipped_samples
    en_accepted_blocks en_skipped_blocks en_active_import identity_of ei_session_id ei_last_sample_index
    ei_accepted_samples ei_skipped_samples ei_accepted_blocks ei_skipped_blocks]; rewrite ?Hw;
    try (by apply unsigned64_fits); try (by apply word_fits).
  unfold flatten_energy_counters. cbn [en_active_import en_active_export en_apparent en_reactive_i en_reactive_ii
    en_reactive_iii en_reactive_iv]. by rewrite !Forall_app.
Qed.

(** ** The barrier *)
Lemma action_bind_inv {A B} (m : Action A) (f : A -> Action B) s r s' posts :
  (m ≫= f) s = (r, s', posts) ->
  (exists e, m s = (Throw e, s', posts) /\ r = Throw e) \/
  (exists a s1 p1 p2, m s = (Ok a, s1, p1) /\ f a s1 = (r, s', p2) /\ posts = p1 ++ p2).
Proof.
  unfold mbind, action_bind. destruct (m s) as [[[a|e] s1] p1]; [|naive_solver].
  destruct (f a s1) as [[r1 s2] p2] eqn:E. intros [= <- <- <-]. right. eauto 10.
Qed.

(** The call exposed something: rows in the spool, an event, or an acknowledgement. *)
Definition released {A} (r : result A) (s s' : Service) (posts : list Post) : Prop :=
  sv_spool s' <> sv_spool s \/ posts <> [] \/ is_ok r = true.

Lemma not_released {A} e (s : Service) : ~ released (A := A) (Throw e) s s [].
Proof. by intros [?|[?|?]]. Qed.

Lemma source_sequence_Ok r n : source_sequence r = Ok n -> n = sr_source_sequence r /\ n <= UINT32_MAX.
Proof. unfold source_sequence. intros H. inv_ok H. split; [done|]. by apply Z.ltb_ge. Qed.

(** What the ledger did before the spool was touched. *)
Lemma ledger_energy_step env records energy s r s1 p1 :
  ledger_energy env records energy s = (r, s1, p1) ->
  p1 = [] /\ sv_spool s1 = sv_spool s /\
  match r with
  | Throw _ => forall values front, energy = Some values -> head records = Some front ->
      sv_ledger s1 = sv_ledger s \/
      exists l e, sr_source_sequence front <= UINT32_MAX /\ ingest_energy (ev_ledger_io env) (sv_ledger s) values (sr_source_sequence front)
               (sr_configuration_generation front) (sr_ingested_at front) = (l, Throw e) /\ sv_ledger s1 = l
  | Ok _ =>
      (energy = None \/ records = []) /\ s1 = s \/
      exists values front rest v, energy = Some values /\ records = front :: rest /\
        sr_source_sequence front <= UINT32_MAX /\
        ingest_energy (ev_ledger_io env) (sv_ledger s) values (sr_source_sequence front)
          (sr_configuration_generation front) (sr_ingested_at front) = (sv_ledger s1, Ok v)
  end.
Proof.
  unfold ledger_energy. destruct energy as [values|]; [|intros [= <- <- <-]; naive_solver].
  destruct records as [|front rest]; [intros [= <- <- <-]; naive_solver|].
  intros [(e & [= _ <- <-] & ->)|(n & s0 & q1 & q2 & [= Hn <- <-] & H & ->)]%action_bind_inv; [naive_solver|].
  apply source_sequence_Ok in Hn as [-> Hn].
  unfold on_ledger, mbind, action_bind in H. cbv beta in H.
  destruct (ingest_energy (ev_ledger_io env) (sv_ledger s) values (sr_source_sequence front)
    (sr_configuration_generation front) (sr_ingested_at front)) as [l r0] eqn:E. destruct r0 as [v|e]; simpl in H; injection H as <- <- <-; simpl; split_and!; try done.
  - right. by exists values, front, rest, v.
  - intros ? ? [= <-] [= <-]. right. by eexists _, _.
Qed.

Lemma report_ok env s : exists s1, report_dropped_records env s = (Ok tt, s1, []) /\ sv_spool s1 = sv_spool s /\
  sv_ledger s1 = sv_ledger s.
Proof. unfold report_dropped_records. repeat case_match; by eexists. Qed.

(** The spool's half: an exception leaves the service as it was, and the ledger is not touched. *)
Lemma spool_tail {A B} env (f : Spool -> result (A * Spool)) (k : A -> Action unit) (g : A -> B) s r s' posts :
  (forall a spool s0, f (sv_spool s) = Ok (a, spool) ->
     exists s1 p, k a s0 = (Ok tt, s1, p) /\ sv_ledger s1 = sv_ledger s0) ->
  (a ← on_spool f; report_dropped_records env ;; k a ;; mret (g a)) s = (r, s', posts) ->
  sv_ledger s' = sv_ledger s /\ (is_ok r = false -> s' = s /\ posts = []).
Proof.
  intros Hk. unfold mbind, action_bind, on_spool. destruct (f (sv_spool s)) as [[a spool]|e1] eqn:E; [|by intros [= <- <- <-]].
  destruct (report_ok env (set_spool spool s)) as (s1 & -> & _ & El). destruct (Hk a spool s1 eq_refl) as (s2 & p & -> & El2).
  intros [= <- <- _]. split; [|done]. by rewrite El2, El.
Qed.

Lemma publish_event_ok env event cursor s :
  exists s1 p, publish_event env event cursor s = (Ok tt, s1, p) /\ sv_ledger s1 = sv_ledger s.
Proof. by eexists _, _. Qed.

(** The cursors returned for a batch. *)
Lemma publish_loop_cursors records p p' :
  publish_loop records p = Ok p' -> Forall in_u64 (pb_cursors p) ->
  length (pb_cursors p') = (length (pb_cursors p) + length records)%nat /\ Forall in_u64 (pb_cursors p').
Proof.
  revert p. induction records as [|r records IH]; intros p H Hp.
  { apply Ok_inj in H as <-. split; [simpl; lia|done]. }
  apply bind_Ok in H as (p1 & H1 & H). assert (exists c, pb_cursors p1 = pb_cursors p ++ [u64 c]) as [c E].
  { unfold publish_record in H1. cbv zeta in H1. inv_ok H1. destruct (find_existing _ _) as [row|].
    - apply Ok_inj in H1 as <-. by eexists.
    - inv_ok H1. by eexists. }
  assert (Hp1 : Forall in_u64 (pb_cursors p1)).
  { rewrite E. apply Forall_app. split; [done|]. apply Forall_singleton, (wrap_range 64). lia. }
  destruct (IH p1 H Hp1) as [Hl Hf]. split; [|done]. rewrite Hl, E, length_app. simpl. lia.
Qed.

Lemma publish_records_cursors records io s cursors s' :
  publish_records records io s = Ok (cursors, s') ->
  length cursors = length records /\ Forall in_u64 cursors /\ (1 <= length records <= 256)%nat.
Proof.
  unfold publish_records. cbv zeta. intros H. apply bind_Ok in H as (? & Hb%reject_if_Ok & H).
  apply bind_Ok in H as (? & _ & H). apply bind_Ok in H as (p & Hp & H).
  destruct (enforce_cap _ _ _) as [[removed through] lost]. apply bind_Ok in H as (? & _ & H).
  apply Ok_inj in H. injection H as <- _.
  destruct (publish_loop_cursors _ _ _ Hp) as [Hl Hf]; [constructor|]. split_and!; try done.
  - apply orb_false_iff in Hb as [H0%Nat.eqb_neq _]. lia.
  - apply orb_false_iff in Hb as [_ H1%Nat.ltb_ge]. lia.
Qed.

Lemma publish_cursor record io s cursor s' : publish record io s = Ok (cursor, s') -> in_u64 cursor.
Proof.
  unfold publish. intros ([cursors s1] & H & H1)%bind_Ok. apply publish_records_cursors in H as (_ & Hf & _).
  destruct Hf; [done|]. by injection H1 as <- <-.
Qed.

(** Nothing of the ledger's: neither energy nor demand. *)
Definition plain (r : MeterStreamRecord) : Prop := is_energy r = false /\ is_demand r = false.

(** The ledger took this energy family, and [l] is the ledger that holds it. *)
Definition energy_taken (env : Environment) (records : list MeterStreamRecord) (l l' : EnergyLedger) : Prop :=
  exists values front rest v, decode_energy_batch records = Ok (Some values) /\ records = front :: rest /\
    sr_source_sequence front <= UINT32_MAX /\
    ingest_energy (ev_ledger_io env) l values (sr_source_sequence front) (sr_configuration_generation front)
      (sr_ingested_at front) = (l', Ok v).

Definition demand_taken (env : Environment) (record : MeterStreamRecord) (l l' : EnergyLedger) : Prop :=
  exists values v, decode_demand_record record = Ok (Some values) /\ sr_source_sequence record <= UINT32_MAX /\
    ingest_demand (ev_ledger_io env) l values (sr_source_sequence record) (sr_configuration_generation record)
      (sr_ingested_at record) = (l', Ok v).

Lemma energy_batch_none records : decode_energy_batch records = Ok None -> Forall (fun r => is_energy r = false) records.
Proof.
  unfold decode_energy_batch. cbv zeta. destruct (Nat.eqb_spec (length (List.filter is_energy records)) 0) as [E|_].
  - intros _. apply Forall_forall. intros r Hr. destruct (is_energy r) eqn:Er; [|done].
    assert (In r (List.filter is_energy records)) by by apply filter_In. by destruct (List.filter is_energy records).
  - repeat (case_match; try done). intros Hok. inv_ok Hok; by discriminate.
Qed.

Lemma commit_records_cases env records s r s' posts :
  commit_records env records s = (r, s', posts) ->
  (s' = s /\ posts = [] /\ is_ok r = false) \/
  (Forall (fun r => is_demand r = false) records /\ exists energy, decode_energy_batch records = Ok energy /\
     ((exists e, ledger_energy env records energy s = (Throw e, s', posts) /\ r = Throw e) \/
      (exists s1, ledger_energy env records energy s = (Ok tt, s1, []) /\ sv_ledger s' = sv_ledger s1 /\
         (is_ok r = false -> s' = s1 /\ posts = [])))).
Proof.
  unfold commit_records.
  intros [(e & [= _ <- <-] & ->)|([] & s0 & q1 & q2 & [= Hd%reject_if_Ok <- <-] & H & ->)]%action_bind_inv; [by left|].
  apply action_bind_inv in H as [(e & [= _ <- <-] & ->)|(energy & s0 & p1 & p2 & [= He <- <-] & H & ->)]; [by left|].
  right. split.
  { apply Forall_forall. intros x Hx. destruct (is_demand x) eqn:E; [|done].
    assert (existsb is_demand records = true) by (apply existsb_exists; eauto). congruence. }
  exists energy. split; [done|].
  apply action_bind_inv in H as [(e & H & ->)|([] & s1 & p3 & p4 & H1 & H & ->)]; [left; eauto|].
  destruct (ledger_energy_step _ _ _ _ _ _ _ H1) as (-> & _ & _). right. exists s1. split; [done|]. simpl.
  eapply spool_tail; [|exact H]. intros cursors spool s2 Hp. apply publish_records_cursors in Hp as (Hl & _ & Hn).
  destruct (list.last cursors) as [c|] eqn:El; [apply publish_event_ok|].
  apply last_None in El as ->. simpl in Hl. lia.
Qed.

(** (C13) The ledger is the publication barrier.  Whenever a publication exposes anything (a row in
    the spool, an event to a subscriber, an acknowledgement to the client), the energy family or
    demand record it carries has been taken by the ledger in the same call, and committed there;
    records that are neither leave the ledger alone. *)
Theorem publication_barrier env s :
  (forall records r s' posts,
     commit_records env records s = (r, s', posts) -> released r s s' posts ->
     energy_taken env records (sv_ledger s) (sv_ledger s') \/
     (Forall plain records /\ sv_ledger s' = sv_ledger s)) /\
  (forall record r s' posts,
     commit_record env record s = (r, s', posts) -> released r s s' posts ->
     demand_taken env record (sv_ledger s) (sv_ledger s') \/
     (plain record /\ sv_ledger s' = sv_ledger s)).
Proof.
  split.
  - intros records r s' posts H Hrel. destruct (commit_records_cases _ _ _ _ _ _ H) as [(-> & -> & Hr)|(Hd & energy & He & C)].
    { destruct Hrel as [?|[?|?]]; congruence. }
    destruct C as [(e & H1 & ->)|(s1 & H1 & El & _)].
    { destruct (ledger_energy_step _ _ _ _ _ _ _ H1) as (-> & Es & _). by destruct Hrel as [?|[?|?]]. }
    rewrite El. destruct (ledger_energy_step _ _ _ _ _ _ _ H1) as (_ & _ & [[Hn ->]|(values & front & rest & v & -> & -> & Hq & Hi)]).
    + right. split; [|done]. destruct Hn as [->| ->]; [|constructor]. apply energy_batch_none in He.
      rewrite Forall_forall in *. intros x Hx. by split; [apply He|apply Hd].
    + left. by exists values, front, rest, v.
  - intros record r s' posts H Hrel. unfold commit_record in H.
    apply action_bind_inv in H as [(e & [= _ <- <-] & ->)|(demand & s0 & p1 & p2 & [= He <- <-] & H & ->)].
    { by apply not_released in Hrel. }
    apply action_bind_inv in H as [(e & H & ->)|([] & s1 & p3 & p4 & H1 & H & ->)].
    { assert (sv_spool s' = sv_spool s /\ p2 = []) as [Es ->]; [|by destruct Hrel as [?|[?|?]]].
      unfold ledger_demand in H. destruct demand as [values|]; [|done].
      apply action_bind_inv in H as [(e1 & [= _ <- <-] & _)|(n & s0 & p1 & p3 & [= _ <- <-] & H & ->)]; [done|].
      unfold on_ledger, mbind, action_bind in H. destruct (ingest_demand _ _ _ _ _ _) as [l [v|e1]]; [done|].
      by injection H as _ <- <-. }
    apply spool_tail in H as [El _]; [|intros; apply publish_event_ok]. rewrite El.
    unfold ledger_demand in H1. destruct demand as [values|].
    + apply action_bind_inv in H1 as [(e1 & _ & [=])|(n & s0 & p1 & p2 & [= Hn <- <-] & H1 & _)].
      apply source_sequence_Ok in Hn as [-> Hn]. left.
      unfold on_ledger, mbind, action_bind in H1.
      destruct (ingest_demand (ev_ledger_io env) (sv_ledger s) values (sr_source_sequence record)
        (sr_configuration_generation record) (sr_ingested_at record)) as [l [v|e1]] eqn:Ei; [|done].
      injection H1 as <- _. by exists values, v.
    + injection H1 as <- <-. right. split; [|done]. unfold decode_demand_record in He.
      apply bind_Ok in He as (? & Hr%reject_if_Ok & He). split; [done|]. destruct (is_demand record); [|done].
      apply bind_Ok in He as (? & _ & He). apply bind_Ok in He as (u & _ & He). by destruct (mu_demand u).
Qed.

(** ** Repeated attempts *)

(** Attempts to publish the same records, each under its own conditions, with restarts of the
    service (its ledger reopened, its spool and subscribers whatever they are then) in between;
    the list says which attempts were acknowledged. *)
Inductive publication_run (records : list MeterStreamRecord) : Service -> list bool -> Service -> Prop :=
  | run_done s : publication_run records s [] s
  | run_attempt env s r s1 posts oks s' :
      commit_records env records s = (r, s1, posts) -> publication_run records s1 oks s' ->
      publication_run records s (is_ok r :: oks) s'
  | run_restart s l spool oks s' :
      open_ledger (el_database (sv_ledger s)) = Ok l ->
      publication_run records (mkService spool l [] 0 0) oks s' -> publication_run records s oks s'.

Lemma meter_ingest_twice m session seqn counters :
  meter_ingest (meter_ingest m session seqn counters) session seqn counters = meter_ingest m session seqn counters.
Proof.
  unfold meter_ingest. destruct (me_checkpoint m) as [[[s q] last]|] eqn:E.
  - destruct (Z.eqb_spec s session) as [->|]; [destruct (Z.eqb_spec q seqn) as [->|]|]; simpl;
      rewrite ?E, ?Z.eqb_refl; done.
  - simpl. by rewrite !Z.eqb_refl.
Qed.

Lemma batch_session_ok records values front rest :
  Forall record_typed records -> Forall (fun r => Forall is_byte (sr_payload r)) records ->
  decode_energy_batch records = Ok (Some values) -> records = front :: rest -> sr_source_sequence front <= UINT32_MAX ->
  session_ok values (sr_source_sequence front) (sr_configuration_generation front).
Proof.
  intros Ht Hb Hd -> Hq. unfold decode_energy_batch in Hd. cbv zeta in Hd. case_match; [done|].
  destruct rest as [|second [|]]; try done. inv_ok Hd. decompose_Forall_hyps.
  repeat match goal with H : wire_record _ = Ok _ |- _ => apply wire_record_wf in H; [|done] end.
  match goal with H : record_typed front |- _ => destruct H end. unfold in_u64, in_u32, UINT32_MAX in *.
  split; [eapply energy_decode_ranges; [| |eassumption]; done|]. lia.
Qed.

(** (C10) An energy family is counted once.  However often its publication is attempted (the ledger
    or the spool failing in any way, the reply lost, the service restarted in between), the
    lifetime counters are those of a meter that ingested the family at most once, and exactly
    once as soon as any attempt was acknowledged. *)
Theorem energy_counted_once records values front rest s m oks s' :
  ledger_trace (sv_ledger s) m ->
  Forall record_typed records -> Forall (fun r => Forall is_byte (sr_payload r)) records ->
  decode_energy_batch records = Ok (Some values) -> records = front :: rest ->
  publication_run records s oks s' ->
  let once := meter_ingest m (en_session_id values) (sr_source_sequence front) (flatten_energy_counters values) in
  exists m', ledger_trace (sv_ledger s') m' /\ (m' = m \/ m' = once) /\ (In true oks -> m' = once).
Proof.
  intros Hm Ht Hb Hd Hr Hrun. cbv zeta. set (once := meter_ingest _ _ _ _).
  assert (forall m1, m1 = m \/ m1 = once ->
    meter_ingest m1 (en_session_id values) (sr_source_sequence front) (flatten_energy_counters values) = once) as Honce.
  { intros m1 [->| ->]; [done|]. apply meter_ingest_twice. }
  enough (forall m1, ledger_trace (sv_ledger s) m1 -> m1 = m \/ m1 = once ->
    exists m', ledger_trace (sv_ledger s') m' /\ (m' = m \/ m' = once) /\ (In true oks \/ m1 = once -> m' = once)) as G.
  { destruct (G m Hm) as (m' & H1 & H2 & H3); [by left|]. exists m'. naive_solver. }
  clear Hm. induction Hrun as [s|env s r s1 posts oks s' Hc _ IH|s l spool oks s' Hl _ IH]; intros m1 Hm1 Hc1.
  - exists m1. split; [done|]. split; [done|]. by intros [[]|].
  - assert (exists m2, ledger_trace (sv_ledger s1) m2 /\ (m2 = m1 \/ m2 = once) /\ (is_ok r = true -> m2 = once))
      as (m2 & Hm2 & Hs2 & Ho2).
    { destruct (commit_records_cases _ _ _ _ _ _ Hc) as [(-> & _ & Hf)|(_ & energy & He & C)].
      { exists m1. split; [done|]. split; [by left|]. congruence. }
      assert (energy = Some values) as -> by congruence.
      destruct C as [(e & H1 & ->)|(s2 & H1 & -> & _)].
      - exists m1. split; [|split; [by left|done]].
        destruct (ledger_energy_step _ _ _ _ _ _ _ H1) as (_ & _ & D). specialize (D values front eq_refl).
        rewrite Hr in D. destruct (D eq_refl) as [->|(l & e1 & Hq & Hi & ->)]; [done|].
        eapply trace_energy_fail; [done| |done]. by eapply batch_session_ok.
      - destruct (ledger_energy_step _ _ _ _ _ _ _ H1) as (_ & _ & [[[?|?] _]|(v & f & rs & w & [= <-] & E & Hq & Hi)]);
          [done|by subst|]. rewrite Hr in E. injection E as <- <-. exists once.
        split; [|by split; [right|]]. rewrite <- (Honce m1 Hc1). eapply trace_energy; [done| |done].
        by eapply batch_session_ok. }
    destruct (IH m2 Hm2) as (m' & H1 & H2 & H3); [naive_solver|]. exists m'. split; [done|]. split; [done|].
    intros [[Hok|Hin]| ->]; apply H3; [right; by apply Ho2|by left|]. destruct Hs2; by right.
  - destruct (IH m1) as (m' & H1 & H2 & H3); [by eapply trace_restart|done|]. by exists m'.
Qed.

(** ** An example: the spool fails after the ledger committed, and the client tries again *)
Definition first_attempt : result (list Z) * Service * list Post :=
  commit_records spool_failing energy_pair fresh_service.
Definition second_attempt : result (list Z) * Service * list Post :=
  commit_records (working 1) energy_pair first_attempt.1.2.

Strategy opaque [commit_records].

Lemma attempts_outcome : is_ok first_attempt.1.1 = false /\ is_ok second_attempt.1.1 = true.
Proof. split; vm_compute; reflexivity. Qed.

Lemma triple_eta {A B C} (t : A * B * C) : t = (t.1.1, t.1.2, t.2).
Proof. by destruct t as [[? ?] ?]. Qed.

Definition pair_values : EnergyValues :=
  match decode_energy_batch energy_pair with Ok (Some values) => values | _ => no_energy end.

Lemma pair_decodes : decode_energy_batch energy_pair = Ok (Some pair_values).
Proof. vm_compute. reflexivity. Qed.

Lemma energy_counted_once_witness :
  exists m', ledger_trace (sv_ledger second_attempt.1.2) m' /\
    m' = meter_ingest new_meter (en_session_id pair_values) 5 (flatten_energy_counters pair_values).
Proof.
  assert (publication_run energy_pair fresh_service [false; true] second_attempt.1.2) as Hrun.
  { destruct attempts_outcome as [E1 E2]. rewrite <- E1, <- E2.
    apply (run_attempt _ spool_failing _ _ first_attempt.1.2 first_attempt.2); [exact (triple_eta first_attempt)|].
    apply (run_attempt _ (working 1) _ _ second_attempt.1.2 second_attempt.2); [exact (triple_eta second_attempt)|].
    apply run_done. }
  destruct (energy_counted_once energy_pair pair_values (energy_part_record summary_example 0)
    [energy_part_record quadrants_example 1] fresh_service new_meter [false; true] second_attempt.1.2) as (m' & H1 & _ & H3).
  - exact (trace_open ledger_0 eq_refl).
  - exact energy_pair_typed.
  - repeat constructor; vm_compute; discriminate.
  - exact pair_decodes.
  - reflexivity.
  - exact Hrun.
  - exists m'. split; [exact H1|]. rewrite H3 by (right; left; reflexivity). reflexivity.
Defined.

Lemma publication_barrier_witness :
  energy_taken (working 1) energy_pair (sv_ledger first_attempt.1.2) (sv_ledger second_attempt.1.2).
Proof.
  destruct (publication_barrier (working 1) first_attempt.1.2) as [H _].
  destruct (H energy_pair second_attempt.1.1 second_attempt.1.2 second_attempt.2) as [H1|[H1 _]].
  - exact (triple_eta second_attempt).
  - right. right. exact (proj2 attempts_outcome).
  - exact H1.
  - exfalso. apply Forall_inv in H1 as [H1 _]. discriminate H1.
Defined.
