(* ===== verification/RecordIngestor.v ===== *)
(** * Ingestion of meter records

    Models [MeterRecordIngestor] of
    [apps/MeterCore/Services/acquisition/pipeline/record_ingestor.{hpp,cpp}] and
    [record_interval_category.hpp]: records are drained from the DMA, checked against the
    active configuration, tracked for continuity per stream, decoded, stamped with UTC,
    published to the durable stream and only then made visible.

    The members of the class are grouped by the stream they serve.  The durable stream is the
    interface [MeterRecordPublisher]; what the clocks and the DMA driver return during one
    call is the argument [Readings].  The text of log messages is left out; the state that
    limits their rate is kept. *)
From stdpp Require Import base list.
From S2P Require Import Prelude MeterSpool.
From S2P Require Import MeterTiming RecordFormat MeterRecord MeterData DecodeEvents EnergyDemand DecoderRegistry HarmonicSpectrum.

(** ** Interval categories *)
Inductive RecordIntervalCategory :=
  | cat_unknown | cat_single_cycle | cat_urms_half | cat_basic | cat_seconds_10 | cat_cycles_150_180
  | cat_minutes_10 | cat_hours_2 | cat_minutes_10_live | cat_hours_2_live | cat_demand | cat_flicker
  | cat_mains_signal.

Definition category_index (c : RecordIntervalCategory) : nat :=
  match c with
  | cat_unknown => 0 | cat_single_cycle => 1 | cat_urms_half => 2 | cat_basic => 3 | cat_seconds_10 => 4
  | cat_cycles_150_180 => 5 | cat_minutes_10 => 6 | cat_hours_2 => 7 | cat_minutes_10_live => 8
  | cat_hours_2_live => 9 | cat_demand => 10 | cat_flicker => 11 | cat_mains_signal => 12
  end%nat.

Definition record_interval_category_count : nat := 13.

(** The format of a record is one of these. *)
Definition format_in (formats : list Z) (record : MeterRecord) : bool :=
  existsb (Z.eqb (record_format record)) formats.

(** [record_interval_identity]: the category with the code and label of its log entries. *)
Definition record_interval_identity (record : MeterRecord) : RecordIntervalCategory * string * string :=
  if format_in [meter_single_cycle_format] record then (cat_single_cycle, "single_cycle", "single-cycle")%string
  else if format_in [meter_pq_event_format] record then (cat_urms_half, "urms_half", "Urms(1/2)")%string
  else if format_in [meter_flicker_format] record then (cat_flicker, "flicker", "flicker interval")%string
  else if format_in [meter_mains_signal_format] record
  then (cat_mains_signal, "mains_signal", "mains-signalling observation")%string
  else if format_in [meter_periodic_format; meter_power_format; meter_phasor_format; meter_unbalance_format;
                     meter_energy_format; meter_harmonic_format] record
  then (cat_basic, "basic", "10/12-cycle")%string
  else if format_in [meter_frequency_10s_format] record
  then (cat_seconds_10, "seconds_10", "UTC 10-second frequency")%string
  else if format_in [meter_aggregate_format; meter_aggregate_power_format; meter_aggregate_phasor_format;
                     meter_aggregate_unbalance_format] record
  then (cat_cycles_150_180, "cycles_150_180", "150/180-cycle")%string
  else if format_in [meter_ten_minute_format; meter_ten_minute_power_format; meter_ten_minute_phasor_format;
                     meter_ten_minute_unbalance_format] record
  then (cat_minutes_10, "minutes_10", "10-minute")%string
  else if format_in [meter_demand_format] record then (cat_demand, "demand", "configured demand")%string
  else if format_in [meter_two_hour_format; meter_two_hour_power_format; meter_two_hour_phasor_format;
                     meter_two_hour_unbalance_format] record
  then (cat_hours_2, "hours_2", "2-hour")%string
  else if format_in [meter_ten_minute_open_format; meter_ten_minute_open_power_format;
                     meter_ten_minute_open_phasor_format; meter_ten_minute_open_unbalance_format] record
  then (cat_minutes_10_live, "minutes_10_live", "10-minute live partial")%string
  else if format_in [meter_two_hour_open_format; meter_two_hour_open_power_format;
                     meter_two_hour_open_phasor_format; meter_two_hour_open_unbalance_format] record
  then (cat_hours_2_live, "hours_2_live", "2-hour live partial")%string
  else if format_in [meter_harmonic_aggregate_format] record then
    let period := Z.land (word record 14) 0x3 in
    if period =? 1 then (cat_cycles_150_180, "cycles_150_180", "150/180-cycle")%string
    else if period =? 2 then (cat_minutes_10, "minutes_10", "10-minute")%string
    else if period =? 3 then (cat_hours_2, "hours_2", "2-hour")%string
    else (cat_unknown, "unknown", "unknown interval")%string
  else (cat_unknown, "unknown", "unknown interval")%string.

Definition interval_category (record : MeterRecord) : RecordIntervalCategory :=
  fst (fst (record_interval_identity record)).

(** ** State *)
Record IngestCounters := mkCounters {
  ic_meter_records : Z;
  ic_dma_bytes : Z;
  ic_dma_read_errors : Z;
  ic_invalid_records : Z;
  ic_lifetime_invalid_records : Z }.

(** A stream that is tracked by its sequence alone. *)
Record Tracker := mkTracker { tr_last : option Z; tr_gaps : Z }.

(** [latest_record_] is the readings cache and the continuity baseline. *)
Record BasicStream := mkBasic {
  bs_latest_record : option MeterRecord;
  bs_sequence_gaps : Z;
  bs_last_transport_overruns : Z }.

Record AggregateStream := mkAggregate {
  as_tracker : Tracker;
  as_latest_record : option MeterRecord;
  as_time_quality : TimeQuality;
  as_record_time : option Z }.

Record PowerQualityStream := mkPqStream {
  pq_event_records : Z;
  pq_events : Z;
  pq_latest : option PowerQualitySnapshot;
  pq_latest_event : option PowerQualitySnapshot }.

(** A family of R5C1 records: its sequence, the records accepted and the latest value [T]. *)
Record EventStream (T : Type) := mkEventStream { es_tracker : Tracker; es_records : Z; es_latest : T }.
Arguments mkEventStream {T}.
Arguments es_tracker {T}.
Arguments es_records {T}.
Arguments es_latest {T}.

Record PendingHarmonicFamily := mkPendingHarmonic {
  ph_sequence : Z;
  ph_records : list (option MeterStreamRecord);
  ph_count : Z }.

(** The members of the harmonic path that exist once per period. *)
Record HarmonicPeriod := mkHarmonicPeriod {
  hq_assembler : HarmonicFamilyAssembler;
  hq_pending : option PendingHarmonicFamily;
  hq_records : Z;
  hq_families : Z;
  hq_incomplete : Z;
  hq_latest : option HarmonicSpectrumSnapshot }.

Record HarmonicStream := mkHarmonicStream {
  hm_records : Z;
  hm_families : Z;
  hm_incomplete : Z;
  hm_periods : list HarmonicPeriod }.

Record PendingEnergyFamily := mkPendingEnergy {
  pe_identity : EnergyFamilyIdentity;
  pe_records : list (option MeterStreamRecord);
  pe_count : Z }.

Record EnergyStream := mkEnergyStream {
  en_assembler : EnergyFamilyAssembler;
  en_pending : option PendingEnergyFamily;
  en_records : Z;
  en_families : Z;
  en_incomplete : Z }.

Record RejectLogState := mkRejectLog { rl_last_log : option Z; rl_suppressed : Z }.

Record Ingestor := mkIngestor {
  in_meter_data : MeterDataState;
  in_counters : IngestCounters;
  in_basic : BasicStream;
  in_aggregate : AggregateStream;
  in_ten_minute : Tracker;
  in_two_hour : Tracker;
  in_frequency_10s : Tracker;
  in_single_cycle_records : Z;
  in_latest_single_cycle : option SingleCycleSnapshot;
  in_pq : PowerQualityStream;
  in_lifecycle : EventStream (option PowerQualityEventLifecycleSnapshot);
  in_flicker : EventStream (list (option FlickerSnapshot));
  in_mains : EventStream (option MainsSignalSnapshot);
  in_harmonic : HarmonicStream;
  in_energy : EnergyStream;
  in_reject_logs : list RejectLogState;
  in_last_record_time : option Z }.

(** Assignment to one group of members. *)
Definition set_meter_data v i := mkIngestor v (in_counters i) (in_basic i) (in_aggregate i) (in_ten_minute i)
  (in_two_hour i) (in_frequency_10s i) (in_single_cycle_records i) (in_latest_single_cycle i) (in_pq i) (in_lifecycle i)
  (in_flicker i) (in_mains i) (in_harmonic i) (in_energy i) (in_reject_logs i) (in_last_record_time i).
Definition set_counters v i := mkIngestor (in_meter_data i) v (in_basic i) (in_aggregate i) (in_ten_minute i)
  (in_two_hour i) (in_frequency_10s i) (in_single_cycle_records i) (in_latest_single_cycle i) (in_pq i) (in_lifecycle i)
  (in_flicker i) (in_mains i) (in_harmonic i) (in_energy i) (in_reject_logs i) (in_last_record_time i).
Definition set_basic v i := mkIngestor (in_meter_data i) (in_counters i) v (in_aggregate i) (in_ten_minute i)
  (in_two_hour i) (in_frequency_10s i) (in_single_cycle_records i) (in_latest_single_cycle i) (in_pq i) (in_lifecycle i)
  (in_flicker i) (in_mains i) (in_harmonic i) (in_energy i) (in_reject_logs i) (in_last_record_time i).
Definition set_aggregate v i := mkIngestor (in_meter_data i) (in_counters i) (in_basic i) v (in_ten_minute i)
  (in_two_hour i) (in_frequency_10s i) (in_single_cycle_records i) (in_latest_single_cycle i) (in_pq i) (in_lifecycle i)
  (in_flicker i) (in_mains i) (in_harmonic i) (in_energy i) (in_reject_logs i) (in_last_record_time i).
Definition set_ten_minute v i := mkIngestor (in_meter_data i) (in_counters i) (in_basic i) (in_aggregate i) v
  (in_two_hour i) (in_frequency_10s i) (in_single_cycle_records i) (in_latest_single_cycle i) (in_pq i) (in_lifecycle i)
  (in_flicker i) (in_mains i) (in_harmonic i) (in_energy i) (in_reject_logs i) (in_last_record_time i).
Definition set_two_hour v i := mkIngestor (in_meter_data i) (in_counters i) (in_basic i) (in_aggregate i) (in_ten_minute i)
  v (in_frequency_10s i) (in_single_cycle_records i) (in_latest_single_cycle i) (in_pq i) (in_lifecycle i)
  (in_flicker i) (in_mains i) (in_harmonic i) (in_energy i) (in_reject_logs i) (in_last_record_time i).
Definition set_frequency_10s v i := mkIngestor (in_meter_data i) (in_counters i) (in_basic i) (in_aggregate i) (in_ten_minute i)
  (in_two_hour i) v (in_single_cycle_records i) (in_latest_single_cycle i) (in_pq i) (in_lifecycle i)
  (in_flicker i) (in_mains i) (in_harmonic i) (in_energy i) (in_reject_logs i) (in_last_record_time i).
Definition set_single_cycle n v i := mkIngestor (in_meter_data i) (in_counters i) (in_basic i) (in_aggregate i) (in_ten_minute i)
  (in_two_hour i) (in_frequency_10s i) n v (in_pq i) (in_lifecycle i)
  (in_flicker i) (in_mains i) (in_harmonic i) (in_energy i) (in_reject_logs i) (in_last_record_time i).
Definition set_pq v i := mkIngestor (in_meter_data i) (in_counters i) (in_basic i) (in_aggregate i) (in_ten_minute i)
  (in_two_hour i) (in_frequency_10s i) (in_single_cycle_records i) (in_latest_single_cycle i) v (in_lifecycle i)
  (in_flicker i) (in_mains i) (in_harmonic i) (in_energy i) (in_reject_logs i) (in_last_record_time i).
Definition set_lifecycle v i := mkIngestor (in_meter_data i) (in_counters i) (in_basic i) (in_aggregate i) (in_ten_minute i)
  (in_two_hour i) (in_frequency_10s i) (in_single_cycle_records i) (in_latest_single_cycle i) (in_pq i) v
  (in_flicker i) (in_mains i) (in_harmonic i) (in_energy i) (in_reject_logs i) (in_last_record_time i).
Definition set_flicker v i := mkIngestor (in_meter_data i) (in_counters i) (in_basic i) (in_aggregate i) (in_ten_minute i)
  (in_two_hour i) (in_frequency_10s i) (in_single_cycle_records i) (in_latest_single_cycle i) (in_pq i) (in_lifecycle i)
  v (in_mains i) (in_harmonic i) (in_energy i) (in_reject_logs i) (in_last_record_time i).
Definition set_mains v i := mkIngestor (in_meter_data i) (in_counters i) (in_basic i) (in_aggregate i) (in_ten_minute i)
  (in_two_hour i) (in_frequency_10s i) (in_single_cycle_records i) (in_latest_single_cycle i) (in_pq i) (in_lifecycle i)
  (in_flicker i) v (in_harmonic i) (in_energy i) (in_reject_logs i) (in_last_record_time i).
Definition set_harmonic v i := mkIngestor (in_meter_data i) (in_counters i) (in_basic i) (in_aggregate i) (in_ten_minute i)
  (in_two_hour i) (in_frequency_10s i) (in_single_cycle_records i) (in_latest_single_cycle i) (in_pq i) (in_lifecycle i)
  (in_flicker i) (in_mains i) v (in_energy i) (in_reject_logs i) (in_last_record_time i).
Definition set_energy v i := mkIngestor (in_meter_data i) (in_counters i) (in_basic i) (in_aggregate i) (in_ten_minute i)
  (in_two_hour i) (in_frequency_10s i) (in_single_cycle_records i) (in_latest_single_cycle i) (in_pq i) (in_lifecycle i)
  (in_flicker i) (in_mains i) (in_harmonic i) v (in_reject_logs i) (in_last_record_time i).
Definition set_reject_logs v i := mkIngestor (in_meter_data i) (in_counters i) (in_basic i) (in_aggregate i) (in_ten_minute i)
  (in_two_hour i) (in_frequency_10s i) (in_single_cycle_records i) (in_latest_single_cycle i) (in_pq i) (in_lifecycle i)
  (in_flicker i) (in_mains i) (in_harmonic i) (in_energy i) v (in_last_record_time i).
Definition set_last_record_time v i := mkIngestor (in_meter_data i) (in_counters i) (in_basic i) (in_aggregate i) (in_ten_minute i)
  (in_two_hour i) (in_frequency_10s i) (in_single_cycle_records i) (in_latest_single_cycle i) (in_pq i) (in_lifecycle i)
  (in_flicker i) (in_mains i) (in_harmonic i) (in_energy i) (in_reject_logs i) v.

Definition no_tracker : Tracker := mkTracker None 0.
Definition no_event_stream {T} (nothing : T) : EventStream T := mkEventStream no_tracker 0 nothing.
Definition no_harmonic_period : HarmonicPeriod := mkHarmonicPeriod harmonic_assembler_reset None 0 0 0 None.
Definition harmonic_period_count : nat := 4.

Definition new_ingestor : Ingestor :=
  mkIngestor new_meter_data (mkCounters 0 0 0 0 0) (mkBasic None 0 0)
    (mkAggregate no_tracker None Unsynchronized None) no_tracker no_tracker no_tracker 0 None
    (mkPqStream 0 0 None None) (no_event_stream None) (no_event_stream (replicate 3 None)) (no_event_stream None)
    (mkHarmonicStream 0 0 0 (replicate harmonic_period_count no_harmonic_period))
    (mkEnergyStream assembler_reset None 0 0 0)
    (replicate record_interval_category_count (mkRejectLog None 0)) None.

(** ** Epochs *)
Definition clear_period (p : HarmonicPeriod) : HarmonicPeriod :=
  mkHarmonicPeriod harmonic_assembler_reset None (hq_records p) (hq_families p) (hq_incomplete p) None.

Definition clear_stream {T} (nothing : T) (s : EventStream T) : EventStream T :=
  mkEventStream (mkTracker None (tr_gaps (es_tracker s))) (es_records s) nothing.

(** [clear_latest]: a configuration swap forgets the baselines and caches. *)
Definition clear_latest (i : Ingestor) : Ingestor :=
  mkIngestor (in_meter_data i) (in_counters i)
    (mkBasic None (bs_sequence_gaps (in_basic i)) (bs_last_transport_overruns (in_basic i)))
    (mkAggregate (mkTracker None (tr_gaps (as_tracker (in_aggregate i)))) None Unsynchronized None)
    (mkTracker None (tr_gaps (in_ten_minute i))) (mkTracker None (tr_gaps (in_two_hour i)))
    (mkTracker None (tr_gaps (in_frequency_10s i))) (in_single_cycle_records i) (in_latest_single_cycle i) (in_pq i)
    (clear_stream None (in_lifecycle i))
    (clear_stream (map (fun _ => None) (es_latest (in_flicker i))) (in_flicker i)) (clear_stream None (in_mains i))
    (mkHarmonicStream (hm_records (in_harmonic i)) (hm_families (in_harmonic i)) (hm_incomplete (in_harmonic i))
       (map clear_period (hm_periods (in_harmonic i))))
    (mkEnergyStream assembler_reset None (en_records (in_energy i)) (en_families (in_energy i)) (en_incomplete (in_energy i)))
    (in_reject_logs i) None.

Definition no_gaps (t : Tracker) : Tracker := mkTracker (tr_last t) 0.
Definition no_stream_gaps {T} (s : EventStream T) : EventStream T :=
  mkEventStream (no_gaps (es_tracker s)) (es_records s) (es_latest s).

(** [begin_epoch] also restarts the gap counters. *)
Definition begin_epoch (i : Ingestor) : Ingestor :=
  let c := in_counters i in
  let i := clear_latest i in
  mkIngestor (in_meter_data i)
    (mkCounters (ic_meter_records c) (ic_dma_bytes c) (ic_dma_read_errors c) 0 (ic_lifetime_invalid_records c))
    (mkBasic None 0 (bs_last_transport_overruns (in_basic i)))
    (mkAggregate (no_gaps (as_tracker (in_aggregate i))) None Unsynchronized None)
    (no_gaps (in_ten_minute i)) (no_gaps (in_two_hour i)) (no_gaps (in_frequency_10s i))
    (in_single_cycle_records i) (in_latest_single_cycle i) (in_pq i)
    (no_stream_gaps (in_lifecycle i)) (no_stream_gaps (in_flicker i)) (no_stream_gaps (in_mains i))
    (mkHarmonicStream (hm_records (in_harmonic i)) (hm_families (in_harmonic i)) 0
       (map (fun p => mkHarmonicPeriod (hq_assembler p) (hq_pending p) (hq_records p) (hq_families p) 0 (hq_latest p))
          (hm_periods (in_harmonic i))))
    (mkEnergyStream assembler_reset None (en_records (in_energy i)) (en_families (in_energy i)) 0)
    (in_reject_logs i) None.

(** ** Counters and rejections *)

(** [++counter] on an unsigned 64-bit member. *)
Definition add64 (counter amount : Z) : Z := u64 (counter + amount).

Definition count_record (i : Ingestor) : Ingestor :=
  let c := in_counters i in
  set_counters (mkCounters (add64 (ic_meter_records c) 1) (ic_dma_bytes c) (ic_dma_read_errors c)
                  (ic_invalid_records c) (ic_lifetime_invalid_records c)) i.

Definition note_invalid_record (i : Ingestor) : Ingestor :=
  let c := in_counters i in
  set_counters (mkCounters (ic_meter_records c) (ic_dma_bytes c) (ic_dma_read_errors c)
                  (add64 (ic_invalid_records c) 1) (add64 (ic_lifetime_invalid_records c) 1)) i.

Definition note_read_error (i : Ingestor) : Ingestor :=
  let c := in_counters i in
  set_counters (mkCounters (ic_meter_records c) (ic_dma_bytes c) (add64 (ic_dma_read_errors c) 1)
                  (ic_invalid_records c) (ic_lifetime_invalid_records c)) i.

Definition add_bytes (bytes : Z) (i : Ingestor) : Ingestor :=
  let c := in_counters i in
  set_counters (mkCounters (ic_meter_records c) (add64 (ic_dma_bytes c) bytes) (ic_dma_read_errors c)
                  (ic_invalid_records c) (ic_lifetime_invalid_records c)) i.

Definition reject_log_period : Z := 2000000000.

(** [log_rejected_record] on the state of one category: the new state and, when an entry is
    written, the number of suppressed rejections it reports. *)
Definition log_rejected (now : Z) (s : RejectLogState) : RejectLogState * option Z :=
  match rl_last_log s with
  | Some last =>
      if now - last <? reject_log_period
      then (mkRejectLog (Some last) (add64 (rl_suppressed s) 1), None)
      else (mkRejectLog (Some now) 0, Some (rl_suppressed s))
  | None => (mkRejectLog (Some now) 0, Some (rl_suppressed s))
  end.

Definition log_rejected_record (now : Z) (record : MeterRecord) (i : Ingestor) : Ingestor :=
  set_reject_logs
    (alter (fun s => fst (log_rejected now s)) (category_index (interval_category record)) (in_reject_logs i)) i.

(** ** Continuity *)

(** The comparison of a sequence with its baseline in modulo-2{^32} arithmetic. *)
Inductive Continuity := Continuous | Gap (distance : Z) | Stale.

Definition continuity (last : option Z) (received : Z) : Continuity :=
  match last with
  | None => Continuous
  | Some last =>
      let expected := u32 (last + 1) in
      let forward_distance := u32 (received - expected) in
      if forward_distance =? 0 then Continuous
      else if forward_distance <? 2 ^ 31 then Gap forward_distance else Stale
  end.

(** What [Clock::now], [system_clock::now] and the DMA driver return during one call. *)
Record Readings := mkReadings {
  rd_log : Z;
  rd_decode : Z;
  rd_received : Z;
  rd_stamp : Z;
  rd_stamp_aggregate : Z;
  rd_apply : Z;
  rd_done : Z;
  rd_aggregate_done : Z;
  rd_overruns : Z }.

Definition reject (rd : Readings) (record : MeterRecord) (i : Ingestor) : Ingestor :=
  log_rejected_record (rd_log rd) record (note_invalid_record i).

(** The overlap of a block that was restarted at a UTC boundary. *)
Definition intentional_utc_overlap (record previous : MeterRecord) : bool :=
  let expected_first := u64 (first_sample_index previous + block_sample_count previous) in
  let first := first_sample_index record in
  let count := block_sample_count record in
  let previous_last := u64 (expected_first - 1) in
  let range_safe := negb (count =? 0) && (first <=? UINT64_MAX - u32 (count - 1)) in
  let last := if range_safe then u64 (first + count - 1) else 0 in
  tw_utc_resynchronized (timing record) && range_safe &&
  (first_sample_index previous <? first) && (first <=? previous_last) && (previous_last <? last).

Definition track_basic_continuity (rd : Readings) (record : MeterRecord) (i : Ingestor) : bool * Ingestor :=
  let b := in_basic i in
  match bs_latest_record b with
  | None => (true, i)
  | Some previous =>
      match continuity (Some (sequence previous)) (sequence record) with
      | Stale => (false, reject rd record i)
      | Gap distance =>
          (true, set_basic (mkBasic (Some previous) (add64 (bs_sequence_gaps b) distance) (rd_overruns rd)) i)
      | Continuous =>
          let expected_first := u64 (first_sample_index previous + block_sample_count previous) in
          if (first_sample_index record =? expected_first) || intentional_utc_overlap record previous then (true, i)
          else (true, set_basic (mkBasic (Some previous) (add64 (bs_sequence_gaps b) 1)
                                   (bs_last_transport_overruns b)) i)
      end
  end.

(** The body the other four trackers share, over their own members. *)
Definition track (rd : Readings) (record : MeterRecord) (received : Z) (get : Ingestor -> Tracker)
    (set : Tracker -> Ingestor -> Ingestor) (i : Ingestor) : bool * Ingestor :=
  match continuity (tr_last (get i)) received with
  | Continuous => (true, i)
  | Gap distance => (true, set (mkTracker (tr_last (get i)) (add64 (tr_gaps (get i)) distance)) i)
  | Stale => (false, reject rd record i)
  end.

Definition set_aggregate_tracker (t : Tracker) (i : Ingestor) : Ingestor :=
  let a := in_aggregate i in
  set_aggregate (mkAggregate t (as_latest_record a) (as_time_quality a) (as_record_time a)) i.

Definition track_aggregate_continuity rd record i :=
  track rd record (aggregate_sequence record) (fun i => as_tracker (in_aggregate i)) set_aggregate_tracker i.
Definition track_ten_minute_continuity rd record i :=
  track rd record (sequence record) in_ten_minute set_ten_minute i.
Definition track_two_hour_continuity rd record i :=
  track rd record (sequence record) in_two_hour set_two_hour i.
Definition track_frequency_10s_continuity rd record i :=
  track rd record (sequence record) in_frequency_10s set_frequency_10s i.

(** The sequence check of the R5C1 families: [None] leaves the record out. *)
Definition pass_sequence (t : Tracker) (received : Z) : option Tracker :=
  match tr_last t with
  | None => Some t
  | Some last =>
      let delta := sign 32 (u32 (received - u32 (last + 1))) in
      if delta <? 0 then None
      else Some (mkTracker (tr_last t) (if 0 <? delta then add64 (tr_gaps t) delta else tr_gaps t))
  end.

(** ** Records for the durable stream *)
Class MeterRecordPublisher (P : Type) := {
  pub_publish : MeterStreamRecord -> P -> result Z * P;
  pub_publish_records : list MeterStreamRecord -> P -> result (list Z) * P;
  (** The publisher is also an [EnergyAuthority]. *)
  pub_authority : bool;
  pub_energy : P -> result (option EnergyValues);
  pub_demand : P -> result (option DemandValues) }.

(** The exceptions of a publisher are failures of storage or transport, not [logic_error]. *)
Class PublisherErrors (P : Type) `{MeterRecordPublisher P} : Prop := {
  publish_errors r p what p' : pub_publish r p <> (Throw (LogicError what), p');
  publish_records_errors rs p what p' : pub_publish_records rs p <> (Throw (LogicError what), p');
  energy_errors p what : pub_energy p <> Throw (LogicError what);
  demand_errors p what : pub_demand p <> Throw (LogicError what) }.

Definition record_kind_value (kind : RecordKind) : Z :=
  match kind with
  | kind_fundamental => 1 | kind_power => 2 | kind_energy => 3 | kind_demand => 4 | kind_power_quality => 5
  | kind_phasor => 6 | kind_unbalance => 7 | kind_harmonic => 8 | kind_power_quality_event => 9
  | kind_flicker => 10 | kind_mains_signal => 11 | kind_frequency_10s => 12
  end.

Definition time_quality_value (q : TimeQuality) : Z :=
  match q with Unsynchronized => 0 | Synchronized => 1 | Holdover => 2 end.

Definition period_value (period : MeasurementPeriod) : Z := Z.of_nat (period_index period).

(** The bytes of the record in memory. *)
Definition record_bytes (record : MeterRecord) : list Z := flat_map (le_bytes 4) (words record).

Definition no_block_timing : BlockTiming :=
  mkBlockTiming 0 0 0 0 0 0 Hz60 false false false false Unsynchronized None None.

(** [BlockTiming timing{}] with the members the event records fill in. *)
Definition block_timing (sequence generation first count rate : Z) : BlockTiming :=
  mkBlockTiming sequence generation first count rate 0 Hz60 false false false false Unsynchronized None None.

Definition stamp_block (tb : MeasurementTimebase) (now : Z) (t : BlockTiming) : result BlockTiming :=
  estimate ← utc_for_sample tb (bt_first_sample_index t) (bt_configuration_generation t);
  Ok (mkBlockTiming (bt_sequence t) (bt_configuration_generation t) (bt_first_sample_index t) (bt_sample_count t)
        (bt_sample_rate_hz t) (bt_cycle_count t) (bt_nominal_frequency t) (bt_cycle_locked t)
        (bt_free_run_fallback t) (bt_first_block_after_apply t) (bt_utc_resynchronized t) (quality tb now)
        (match estimate with Some e => Some (ue_utc e) | None => bt_utc_start t end)
        (match estimate with Some e => Some (ue_uncertainty_ns e) | None => bt_utc_uncertainty_ns t end)).

Definition stamp_aggregate (tb : MeasurementTimebase) (now : Z) (t : AggregateTiming) : result AggregateTiming :=
  estimate ← utc_for_sample tb (at_first_sample_index t) (at_configuration_generation t);
  Ok (mkAggregateTiming (at_sequence t) (at_configuration_generation t) (at_first_sample_index t)
        (at_last_sample_index t) (at_sample_count t) (at_sample_rate_hz t) (at_first_basic_sequence t)
        (at_last_basic_sequence t) (at_basic_block_count t) (at_cycle_count t) (at_nominal_frequency t)
        (at_arithmetic_error t) (at_frequency_valid t) (at_utc_overlap t) (at_utc_resynchronized t)
        (at_time_aligned t) (at_contaminated t) (at_boundary_valid t) (at_target_sample_index t)
        (at_overshoot_samples t) (quality tb now)
        (match estimate with Some e => Some (ue_utc e) | None => at_utc_start t end)
        (match estimate with Some e => Some (ue_uncertainty_ns e) | None => at_utc_uncertainty_ns t end)).

Definition block_provenance (t : BlockTiming) : RecordTimingProvenance :=
  mkProvenance (bt_first_sample_index t) (bt_sample_count t) (bt_cycle_count t) (time_quality_value (bt_time_quality t))
    (bt_utc_start t) (bt_utc_uncertainty_ns t).

Definition aggregate_provenance (t : AggregateTiming) : RecordTimingProvenance :=
  mkProvenance (at_first_sample_index t) (at_sample_count t) (at_cycle_count t) (time_quality_value (at_time_quality t))
    (at_utc_start t) (at_utc_uncertainty_ns t).

Definition stream_record (record : MeterRecord) (kind : RecordKind) (period : MeasurementPeriod)
    (sequence fragment generation received_at : Z) (timing : RecordTimingProvenance) : MeterStreamRecord :=
  mkStreamRecord 0 (record_format record) (record_kind_value kind) (period_value period) sequence fragment generation
    received_at timing (record_bytes record).

(** A record that was moved from: its byte vector is empty. *)
Definition moved_from (r : MeterStreamRecord) : MeterStreamRecord :=
  mkStreamRecord (sr_cursor r) (sr_record_format r) (sr_record_kind r) (sr_measurement_period r) (sr_source_sequence r)
    (sr_source_fragment r) (sr_configuration_generation r) (sr_ingested_at r) (sr_timing r) [].

Section Accept.
Context {P : Type} `{MeterRecordPublisher P}.
Context (registry : MeterDecoderRegistry) (tb : MeasurementTimebase).
Context (pq_lifecycle_callback : option (PowerQualityEventLifecycleSnapshot -> result unit)).

(** The wire members of the active configuration that records echo. *)
Record ActiveConfiguration := mkActive { ac_generation : Z; ac_sample_rate_hz : Z }.

Definition matches_configuration (configuration : ActiveConfiguration) (record : MeterRecord) : bool :=
  header_valid record && (configuration_generation record =? ac_generation configuration) &&
  (sample_rate_hz record =? ac_sample_rate_hz configuration).

(** How a call ends, with the ingestor and the publisher it leaves. *)
Definition Outcome : Type := result unit * Ingestor * P.

(** The handler of a decoding failure; an undefined evaluation is no exception. *)
Definition caught (rd : Readings) (record : MeterRecord) (e : exn) (i : Ingestor) (p : P) : Outcome :=
  match e with
  | UndefinedBehaviour what => (Throw (UndefinedBehaviour what), i, p)
  | _ => (Ok tt, reject rd record i, p)
  end.

(** ** Records that are only counted *)
Definition accept_single_cycle (record : MeterRecord) (i : Ingestor) : Ingestor :=
  set_single_cycle (add64 (in_single_cycle_records i) 1) (Some (decode_single_cycle_record record)) i.

Definition accept_pq_event (rd : Readings) (record : MeterRecord) (i : Ingestor) (p : P) : Outcome :=
  match decode_pq_event_record (rd_decode rd) record with
  | Throw e => caught rd record e i p
  | Ok snapshot =>
      let s := in_pq i in
      let records := add64 (pq_event_records s) 1 in
      match pq_kind (pqs_values snapshot) with
      | pq_periodic => (Ok tt, set_pq (mkPqStream records (pq_events s) (Some snapshot) (pq_latest_event s)) i, p)
      | pq_event_start =>
          (Ok tt, set_pq (mkPqStream records (add64 (pq_events s) 1) (Some snapshot) (Some snapshot)) i, p)
      | pq_event_end => (Ok tt, set_pq (mkPqStream records (pq_events s) (Some snapshot) (Some snapshot)) i, p)
      end
  end.

(** ** Event families of R5C1 *)

(** What the three families share once the record is decoded: the sequence, the stamped
    envelope, publication, then [note] and the new latest value. *)
Definition publish_event {T} (rd : Readings) (record : MeterRecord) (kind : RecordKind) (period : MeasurementPeriod)
    (timing : BlockTiming) (get : Ingestor -> EventStream T) (set : EventStream T -> Ingestor -> Ingestor)
    (note : Ingestor -> Ingestor) (latest : T -> T) (i : Ingestor) (p : P) : Outcome :=
  match pass_sequence (es_tracker (get i)) (bt_sequence timing) with
  | None => (Ok tt, i, p)
  | Some tracker =>
      let i := set (mkEventStream tracker (es_records (get i)) (es_latest (get i))) i in
      match stamp_block tb (rd_stamp rd) timing with
      | Throw e => (Throw e, i, p)
      | Ok stamped =>
          match pub_publish (stream_record record kind period (bt_sequence timing) 0 (bt_configuration_generation timing)
                               (rd_received rd) (block_provenance stamped)) p with
          | (Throw e, p) => (Throw e, i, p)
          | (Ok _, p) =>
              let i := note i in
              let i := set (mkEventStream (mkTracker (Some (bt_sequence timing)) (tr_gaps tracker))
                              (add64 (es_records (get i)) 1) (latest (es_latest (get i)))) i in
              (Ok tt, set_last_record_time (Some (rd_done rd)) (count_record i), p)
          end
      end
  end.

(** The waveform callback; its failure is only logged. *)
Definition run_callback (rd : Readings) (record : MeterRecord) (event : PowerQualityEventLifecycleSnapshot)
    (i : Ingestor) : Ingestor :=
  match pq_lifecycle_callback with
  | None => i
  | Some callback =>
      match callback event with Ok _ => i | Throw _ => log_rejected_record (rd_log rd) record i end
  end.

Definition accept_lifecycle (rd : Readings) (record : MeterRecord) (i : Ingestor) (p : P) : Outcome :=
  match decode_pq_event_lifecycle_record record with
  | Throw e => caught rd record e i p
  | Ok event =>
      publish_event rd record kind_power_quality_event Basic
        (block_timing (ls_sequence event) (ls_configuration_generation event) (ls_first_sample event)
           (block_sample_count record) (ls_sample_rate_hz event))
        in_lifecycle set_lifecycle (run_callback rd record event) (fun _ => Some event) i p
  end.

Definition flicker_index (kind : FlickerRecordKind) : nat :=
  match kind with fk_live => 0 | fk_pst => 1 | fk_plt => 2 end%nat.

Definition accept_flicker (rd : Readings) (record : MeterRecord) (i : Ingestor) (p : P) : Outcome :=
  match decode_flicker_record record with
  | Throw e => caught rd record e i p
  | Ok flicker =>
      publish_event rd record kind_flicker
        (match fs_kind flicker with fk_live => Basic | fk_pst => Min10 | fk_plt => Hour2 end)
        (block_timing (fs_sequence flicker) (fs_configuration_generation flicker) (fs_first_sample flicker)
           (fs_sample_count flicker) (fs_sample_rate_hz flicker))
        in_flicker set_flicker (fun i => i) (fun latest => <[flicker_index (fs_kind flicker) := Some flicker]> latest) i p
  end.

Definition accept_mains (rd : Readings) (record : MeterRecord) (i : Ingestor) (p : P) : Outcome :=
  match decode_mains_signal_record record with
  | Throw e => caught rd record e i p
  | Ok mains =>
      publish_event rd record kind_mains_signal Basic
        (block_timing (mns_sequence mains) (mns_configuration_generation mains) (mns_first_sample mains)
           (mns_sample_count mains) (mns_sample_rate_hz mains))
        in_mains set_mains (fun i => i) (fun _ => Some mains) i p
  end.

(** ** Harmonic families *)
Definition harmonic_period_index (period : MeasurementPeriod) : result nat :=
  let index := period_index period in
  if (4 <=? index)%nat then Throw (InvalidArgument "unsupported harmonic measurement period") else Ok index.

Definition set_harmonic_period (index : nat) (q : HarmonicPeriod) (i : Ingestor) : Ingestor :=
  let h := in_harmonic i in
  set_harmonic (mkHarmonicStream (hm_records h) (hm_families h) (hm_incomplete h) (<[index := q]> (hm_periods h))) i.

(** Moving the buffered records out, up to the first that is missing. *)
Fixpoint move_out (records : list (option MeterStreamRecord))
  : list (option MeterStreamRecord) * option (list MeterStreamRecord) :=
  match records with
  | [] => ([], Some [])
  | None :: records => (None :: records, None)
  | Some r :: records =>
      let '(rest, family) := move_out records in (Some (moved_from r) :: rest, cons r <$> family)
  end.

Definition harmonic_timing (chunk : HarmonicRecordChunk) : BlockTiming :=
  let v := hc_provenance chunk in
  mkBlockTiming (hv_sequence v) (hv_configuration_generation v) (hv_first_sample v) (hv_sample_count v)
    (hv_sample_rate_hz v) (hv_cycle_count v) (if hv_nominal_frequency_hz v =? 50 then Hz50 else Hz60)
    (any_bit (hv_status v) 0x4) false false false Unsynchronized None None.

Definition empty_pending (sequence : Z) : PendingHarmonicFamily :=
  mkPendingHarmonic sequence (replicate (Z.to_nat harmonic_records_per_family) None) 0.

(** The publication of a completed family. *)
Definition publish_spectrum (index : nat) (q : HarmonicPeriod) (pending : PendingHarmonicFamily)
    (spectrum : HarmonicSpectrumSnapshot) (i : Ingestor) (p : P) : Outcome :=
  if negb (ph_count pending =? harmonic_records_per_family)
  then (Throw (LogicError "complete harmonic family has a partial publication buffer"), i, p)
  else
    let '(moved, family) := move_out (ph_records pending) in
    let with_pending pending := mkHarmonicPeriod (hq_assembler q) pending (hq_records q) (hq_families q)
                                  (hq_incomplete q) (hq_latest q) in
    let i := set_harmonic_period index
               (with_pending (Some (mkPendingHarmonic (ph_sequence pending) moved (ph_count pending)))) i in
    match family with
    | None => (Throw (LogicError "complete harmonic family is missing a publication chunk"), i, p)
    | Some family =>
        match pub_publish_records family p with
        | (Throw e, p) => (Throw e, i, p)
        | (Ok cursors, p) =>
            if negb (length cursors =? length family)%nat
            then (Throw (RuntimeError "harmonic family publish returned the wrong cursor count"), i, p)
            else
              let i := set_harmonic_period index
                         (mkHarmonicPeriod (hq_assembler q) None (hq_records q) (add64 (hq_families q) 1)
                            (hq_incomplete q) (Some spectrum)) i in
              let h := in_harmonic i in
              (Ok tt, count_record (set_harmonic (mkHarmonicStream (hm_records h) (add64 (hm_families h) 1)
                                                    (hm_incomplete h) (hm_periods h)) i), p)
        end
    end.

(** The chunk joins the publication buffer of its period. *)
Definition buffer_chunk (rd : Readings) (record : MeterRecord) (chunk : HarmonicRecordChunk) (index : nat)
    (q : HarmonicPeriod) (assembly : HarmonicAssemblyUpdate) (i : Ingestor) (p : P) : Outcome :=
  match stamp_block tb (rd_stamp rd) (harmonic_timing chunk) with
  | Throw e => (Throw e, i, p)
  | Ok stamped =>
      let fragment := u16 (record_index chunk) in
      let sr := stream_record record kind_harmonic (hv_period (hc_provenance chunk)) (hc_sequence chunk) fragment
                  (hv_configuration_generation (hc_provenance chunk)) (rd_received rd) (block_provenance stamped) in
      let pending :=
        match hq_pending q with
        | Some pending => if ph_sequence pending =? hc_sequence chunk then pending else empty_pending (hc_sequence chunk)
        | None => empty_pending (hc_sequence chunk)
        end in
      let with_pending pending := mkHarmonicPeriod (hq_assembler q) (Some pending) (hq_records q) (hq_families q)
                                    (hq_incomplete q) (hq_latest q) in
      match ph_records pending !! Z.to_nat fragment with
      | None => (Throw (UndefinedBehaviour "harmonic publication index"), set_harmonic_period index (with_pending pending) i, p)
      | Some (Some _) =>
          (Throw (LogicError "harmonic publication buffer received a duplicate chunk"),
           set_harmonic_period index (with_pending pending) i, p)
      | Some None =>
          let pending := mkPendingHarmonic (ph_sequence pending) (<[Z.to_nat fragment := Some sr]> (ph_records pending))
                           (ph_count pending + 1) in
          let q := mkHarmonicPeriod (hq_assembler q) (Some pending) (add64 (hq_records q) 1) (hq_families q)
                     (add64 (hq_incomplete q) (hu_incomplete_families assembly)) (hq_latest q) in
          let i := set_harmonic_period index q i in
          let h := in_harmonic i in
          let i := set_harmonic (mkHarmonicStream (add64 (hm_records h) 1) (hm_families h)
                                   (add64 (hm_incomplete h) (hu_incomplete_families assembly)) (hm_periods h)) i in
          match hu_completed assembly with
          | None => (Ok tt, count_record i, p)
          | Some spectrum => publish_spectrum index q pending spectrum i p
          end
      end
  end.

Definition accept_harmonic (rd : Readings) (record : MeterRecord) (i : Ingestor) (p : P) : Outcome :=
  match (chunk ← decode_harmonic_record record;
         index ← harmonic_period_index (hv_period (hc_provenance chunk)); Ok (chunk, index)) with
  | Throw e => caught rd record e i p
  | Ok (chunk, index) =>
      match hm_periods (in_harmonic i) !! index with
      | None => (Throw (UndefinedBehaviour "harmonic period index"), i, p)
      | Some q =>
          let '(assembler, update) := harmonic_accept (hq_assembler q) chunk in
          let q := mkHarmonicPeriod assembler (hq_pending q) (hq_records q) (hq_families q) (hq_incomplete q)
                     (hq_latest q) in
          let i := set_harmonic_period index q i in
          match update with
          | Throw e => caught rd record e i p
          | Ok assembly => buffer_chunk rd record chunk index q assembly i p
          end
      end
  end.

(** ** Energy families *)
Definition set_energy_pending (pending : option PendingEnergyFamily) (i : Ingestor) : Ingestor :=
  let e := in_energy i in
  set_energy (mkEnergyStream (en_assembler e) pending (en_records e) (en_families e) (en_incomplete e)) i.

(** The assignments that give a buffered part the time state of its family. *)
Definition stamp_pending (timing : BlockTiming) (r : MeterStreamRecord) : MeterStreamRecord :=
  let t := sr_timing r in
  mkStreamRecord (sr_cursor r) (sr_record_format r) (sr_record_kind r) (sr_measurement_period r) (sr_source_sequence r)
    (sr_source_fragment r) (sr_configuration_generation r) (sr_ingested_at r)
    (mkProvenance (MeterSpool.first_sample_index t) (sample_count t) (cycle_count t)
       (time_quality_value (bt_time_quality timing))
       (match bt_utc_start timing with Some utc => Some utc | None => utc_start_nanoseconds t end)
       (bt_utc_uncertainty_ns timing))
    (sr_payload r).

Definition energy_update (identity : EnergyFamilyIdentity) (values : EnergyValues) (timing : BlockTiming) : MeterUpdate :=
  mkUpdate Basic kind_energy (ei_sequence identity) (ei_configuration_generation identity) None None None None
    (Some values) None None None (Some timing) None.

(** Publication and visibility of a complete pair. *)
Definition publish_energy (rd : Readings) (record : MeterRecord) (identity : EnergyFamilyIdentity)
    (values : EnergyValues) (i : Ingestor) (p : P) : Outcome :=
  let partial := LogicError "complete ENERGY family has a partial publication buffer" in
  match en_pending (in_energy i) with
  | Some (mkPendingEnergy held [Some first; Some second] count) =>
      if negb (count =? 2) then (Throw partial, i, p)
      else
        match stamp_block tb (rd_stamp rd)
                (block_timing (ei_sequence identity) (ei_configuration_generation identity)
                   (ei_first_sample_index identity) (ei_sample_count identity) (ei_sample_rate_hz identity)) with
        | Throw e => (Throw e, i, p)
        | Ok timing =>
            let first := stamp_pending timing first in
            let second := stamp_pending timing second in
            let i := set_energy_pending
                       (Some (mkPendingEnergy held [Some (moved_from first); Some (moved_from second)] count)) i in
            match pub_publish_records [first; second] p with
            | (Throw (Conflict _), p) =>
                let i := note_invalid_record i in
                let e := in_energy i in
                let i := set_energy (mkEnergyStream (en_assembler e) None (en_records e) (en_families e)
                                       (add64 (en_incomplete e) 1)) i in
                (Ok tt, log_rejected_record (rd_log rd) record i, p)
            | (Throw e, p) => (Throw e, i, p)
            | (Ok cursors, p) =>
                if negb (length cursors =? 2)%nat
                then (Throw (RuntimeError "ENERGY family publish returned the wrong cursor count"), i, p)
                else
                  match (if pub_authority
                         then authoritative ← pub_energy p;
                              match authoritative with
                              | None => Throw (RuntimeError "meter-stream acknowledged ENERGY without a durable snapshot")
                              | Some values => Ok values
                              end
                         else Ok values) with
                  | Throw e => (Throw e, i, p)
                  | Ok values =>
                      let i := set_meter_data (meter_data_apply (rd_apply rd) (energy_update identity values timing)
                                                 (in_meter_data i)) i in
                      let e := in_energy i in
                      let i := set_energy (mkEnergyStream (en_assembler e) None (en_records e)
                                             (add64 (en_families e) 1) (en_incomplete e)) i in
                      (Ok tt, set_last_record_time (Some (rd_done rd)) (count_record i), p)
                  end
            end
        end
  | _ => (Throw partial, i, p)
  end.

(** The publication buffer after this part, or the duplicate that disagrees. *)
Definition buffer_part (rd : Readings) (record : MeterRecord) (identity : EnergyFamilyIdentity)
    (pending : PendingEnergyFamily) : result PendingEnergyFamily :=
  let part := Z.to_nat (energy_part record) in
  match pe_records pending !! part with
  | None => Throw (UndefinedBehaviour "ENERGY publication index")
  | Some (Some held) =>
      require (bool_decide (sr_payload held = record_bytes record))
        (InvalidArgument "ENERGY duplicate part has different payload") ;;
      Ok pending
  | Some None =>
      Ok (mkPendingEnergy (pe_identity pending)
            (<[part := Some (stream_record record kind_energy Basic (ei_sequence identity) (energy_part record)
                               (ei_configuration_generation identity) (rd_received rd)
                               (mkProvenance (ei_first_sample_index identity) (ei_sample_count identity) 0 0 None None))]>
               (pe_records pending)) (pe_count pending + 1))
  end.

Definition accept_energy (rd : Readings) (record : MeterRecord) (i : Ingestor) (p : P) : Outcome :=
  match decode_energy_identity record with
  | Throw e => caught rd record e i p
  | Ok identity =>
      let fresh := mkPendingEnergy identity [None; None] 0 in
      let pending :=
        match en_pending (in_energy i) with
        | Some pending => if bool_decide (pe_identity pending = identity) then pending else fresh
        | None => fresh
        end in
      match buffer_part rd record identity pending with
      | Throw e => caught rd record e (set_energy_pending (Some pending) i) p
      | Ok pending =>
          let '(assembler, update) := assembler_accept (en_assembler (in_energy i)) record (rd_decode rd) in
          let e := in_energy i in
          match update with
          | Throw error =>
              caught rd record error
                (set_energy (mkEnergyStream assembler (Some pending) (en_records e) (en_families e) (en_incomplete e)) i) p
          | Ok assembly =>
              let i := set_energy (mkEnergyStream assembler (Some pending) (add64 (en_records e) 1) (en_families e)
                                     (add64 (en_incomplete e) (au_incomplete_families assembly))) i in
              match au_completed assembly with
              | Some values => publish_energy rd record identity values i p
              | None => (Ok tt, set_last_record_time (Some (rd_done rd)) (count_record i), p)
              end
          end
      end
  end.

(** ** Interval records *)
Definition sibling_formats : list Z :=
  [meter_demand_format; meter_power_format; meter_phasor_format; meter_unbalance_format;
   meter_aggregate_power_format; meter_aggregate_phasor_format; meter_aggregate_unbalance_format;
   meter_ten_minute_power_format; meter_ten_minute_phasor_format; meter_ten_minute_unbalance_format;
   meter_two_hour_power_format; meter_two_hour_phasor_format; meter_two_hour_unbalance_format;
   meter_ten_minute_open_power_format; meter_ten_minute_open_phasor_format;
   meter_ten_minute_open_unbalance_format; meter_two_hour_open_power_format;
   meter_two_hour_open_phasor_format; meter_two_hour_open_unbalance_format].

Definition sibling (record : MeterRecord) : bool := format_in sibling_formats record.
Definition aggregate (record : MeterRecord) : bool := record_format record =? meter_aggregate_format.
Definition ten_minute (record : MeterRecord) : bool := record_format record =? meter_ten_minute_format.
Definition two_hour (record : MeterRecord) : bool := record_format record =? meter_two_hour_format.
Definition frequency_10s (record : MeterRecord) : bool := record_format record =? meter_frequency_10s_format.
Definition open_preview (record : MeterRecord) : bool :=
  (record_format record =? meter_ten_minute_open_format) || (record_format record =? meter_two_hour_open_format).

Definition track_continuity (rd : Readings) (record : MeterRecord) (i : Ingestor) : bool * Ingestor :=
  if negb (sibling record) && negb (open_preview record) then
    if frequency_10s record then track_frequency_10s_continuity rd record i
    else if aggregate record then track_aggregate_continuity rd record i
    else if ten_minute record then track_ten_minute_continuity rd record i
    else if two_hour record then track_two_hour_continuity rd record i
    else track_basic_continuity rd record i
  else (true, i).

(** The update with its timing stamped, except the ten-second frequency, which carries UTC. *)
Definition stamp_update (rd : Readings) (record : MeterRecord) (u : MeterUpdate) : result MeterUpdate :=
  timing ← match mu_timing u with
           | Some t => if frequency_10s record then Ok (Some t)
                       else stamped ← stamp_block tb (rd_stamp rd) t; Ok (Some stamped)
           | None => Ok None
           end;
  aggregate_timing ← match mu_aggregate_timing u with
                     | Some t => stamped ← stamp_aggregate tb (rd_stamp_aggregate rd) t; Ok (Some stamped)
                     | None => Ok None
                     end;
  Ok (mkUpdate (mu_period u) (mu_kind u) (mu_sequence u) (mu_configuration_generation u) (mu_fundamental u)
        (mu_power u) (mu_phasor u) (mu_unbalance u) (mu_energy u) (mu_demand u) (mu_power_quality u)
        (mu_frequency_10s u) timing aggregate_timing).

Definition update_record (rd : Readings) (record : MeterRecord) (u : MeterUpdate) : MeterStreamRecord :=
  stream_record record (mu_kind u) (mu_period u) (mu_sequence u) 0 (mu_configuration_generation u) (rd_received rd)
    (match mu_timing u, mu_aggregate_timing u with
     | Some t, _ => block_provenance t
     | None, Some t => aggregate_provenance t
     | None, None => mkProvenance 0 0 0 0 None None
     end).

Definition with_demand (u : MeterUpdate) (values : DemandValues) : MeterUpdate :=
  mkUpdate (mu_period u) (mu_kind u) (mu_sequence u) (mu_configuration_generation u) (mu_fundamental u)
    (mu_power u) (mu_phasor u) (mu_unbalance u) (mu_energy u) (Some values) (mu_power_quality u)
    (mu_frequency_10s u) (mu_timing u) (mu_aggregate_timing u).

(** Demand is replaced by the ledger's snapshot when the publisher has one. *)
Definition authoritative_update (u : MeterUpdate) (p : P) : result MeterUpdate :=
  match mu_demand u with
  | Some _ =>
      if pub_authority then
        authoritative ← pub_demand p;
        match authoritative with
        | None => Throw (RuntimeError "meter-stream acknowledged DEMAND without a durable snapshot")
        | Some values => Ok (with_demand u values)
        end
      else Ok u
  | None => Ok u
  end.

(** The baselines and caches of the record's own stream. *)
Definition advance_baseline (rd : Readings) (record : MeterRecord) (u : MeterUpdate) (i : Ingestor) : Ingestor :=
  if aggregate record then
    set_aggregate (mkAggregate (mkTracker (Some (aggregate_sequence record)) (tr_gaps (as_tracker (in_aggregate i))))
                     (Some record)
                     (match mu_aggregate_timing u with Some t => at_time_quality t | None => Unsynchronized end)
                     (Some (rd_aggregate_done rd))) i
  else if ten_minute record then set_ten_minute (mkTracker (Some (sequence record)) (tr_gaps (in_ten_minute i))) i
  else if two_hour record then set_two_hour (mkTracker (Some (sequence record)) (tr_gaps (in_two_hour i))) i
  else if frequency_10s record
  then set_frequency_10s (mkTracker (Some (sequence record)) (tr_gaps (in_frequency_10s i))) i
  else if negb (open_preview record) && (record_format record =? meter_periodic_format)
  then set_basic (mkBasic (Some record) (bs_sequence_gaps (in_basic i)) (bs_last_transport_overruns (in_basic i))) i
  else i.

Definition accept_interval (rd : Readings) (record : MeterRecord) (i : Ingestor) (p : P) : Outcome :=
  match track_continuity rd record i with
  | (false, i) => (Ok tt, i, p)
  | (true, i) =>
      match registry_decode registry record (rd_received rd) with
      | Throw (UndefinedBehaviour what) => (Throw (UndefinedBehaviour what), i, p)
      | Throw _ => (Ok tt, note_invalid_record i, p)
      | Ok update =>
          match stamp_update rd record update with
          | Throw e => (Throw e, i, p)
          | Ok update =>
              match pub_publish (update_record rd record update) p with
              | (Throw (Conflict what), p) =>
                  match mu_demand update with
                  | None => (Throw (Conflict what), i, p)
                  | Some _ => (Ok tt, reject rd record i, p)
                  end
              | (Throw e, p) => (Throw e, i, p)
              | (Ok _, p) =>
                  match authoritative_update update p with
                  | Throw e => (Throw e, i, p)
                  | Ok update =>
                      let i := set_meter_data (meter_data_apply (rd_apply rd) update (in_meter_data i)) i in
                      let i := advance_baseline rd record update i in
                      (Ok tt, count_record (set_last_record_time (Some (rd_done rd)) i), p)
                  end
              end
          end
      end
  end.

(** ** [accept] *)
Definition accept (configuration : ActiveConfiguration) (rd : Readings) (record : MeterRecord)
    (i : Ingestor) (p : P) : Outcome :=
  if negb (matches_configuration configuration record) then (Ok tt, reject rd record i, p)
  else if record_format record =? meter_single_cycle_format then (Ok tt, accept_single_cycle record i, p)
  else if record_format record =? meter_pq_event_format then accept_pq_event rd record i p
  else if record_format record =? meter_pq_event_lifecycle_format then accept_lifecycle rd record i p
  else if record_format record =? meter_flicker_format then accept_flicker rd record i p
  else if record_format record =? meter_mains_signal_format then accept_mains rd record i p
  else if (record_format record =? meter_harmonic_format) || (record_format record =? meter_harmonic_aggregate_format)
  then accept_harmonic rd record i p
  else if record_format record =? meter_energy_format then accept_energy rd record i p
  else accept_interval rd record i p.

(** ** [read_available] *)

(** What one read of the DMA source returns: the first [count] records. *)
Record MeterRecordBatch := mkBatch {
  ba_records : list MeterRecord;
  ba_bytes : Z;
  ba_partial_record : bool }.

Fixpoint accept_batch (configuration : ActiveConfiguration) (records : list (Readings * MeterRecord))
    (i : Ingestor) (p : P) : Outcome :=
  match records with
  | [] => (Ok tt, i, p)
  | (rd, record) :: records =>
      match accept configuration rd record i p with
      | (Ok _, i, p) => accept_batch configuration records i p
      | failed => failed
      end
  end.

Definition maximum_drain_batches_per_wake : nat := 8.

(** The drain loop over what the successive reads return, with the readings during the call of
    [accept] for each record; [drains] counts the turns left, and a read past the list finds
    nothing. *)
Fixpoint drain (drains : nat) (configuration : ActiveConfiguration)
    (reads : list (result (MeterRecordBatch * (nat -> Readings)))) (i : Ingestor) (p : P) : Outcome :=
  match drains, reads with
  | O, _ | _, [] => (Ok tt, i, p)
  | S _, Throw _ :: _ => (Ok tt, note_read_error i, p)
  | S drains, Ok (batch, readings) :: reads =>
      if ba_bytes batch =? 0 then (Ok tt, i, p)
      else
        let i := add_bytes (ba_bytes batch) i in
        if ba_partial_record batch then (Ok tt, note_invalid_record i, p)
        else
          match accept_batch configuration (imap (fun k record => (readings k, record)) (ba_records batch)) i p with
          | (Ok _, i, p) => drain drains configuration reads i p
          | failed => failed
          end
  end.

Definition read_available := drain maximum_drain_batches_per_wake.
End Accept.
