(* ===== verification/StreamPublisher.v ===== *)
(** * The publisher of the acquisition service

    The ingestor publishes through the meter-stream client: [MeterRecordStreamClient] over the link of
    [StreamRpc] implements [MeterRecordPublisher] and [EnergyAuthority], and its exceptions are
    those the ingestor expects. *)
From stdpp Require Import base list gmap strings.
From S2P Require Import Prelude Ipc IpcConnection MeterTiming RecordFormat MeterRecord MeterData DatabasePolicy MeterSpool.
From S2P Require Import DecodeEvents EnergyDemand DecoderRegistry HarmonicSpectrum EnergyLedger LedgerTheorems.
From S2P Require Import StreamIpc StreamService StreamCodec StreamRpc RecordIngestor.

(** ** Readers that throw no [logic_error] *)
Definition no_logic {A} (m : Reader A) : Prop := forall bytes what, m bytes <> Throw (LogicError what).

Lemma no_logic_bind {A B} (m : Reader A) (f : A -> Reader B) :
  no_logic m -> (forall a, no_logic (f a)) -> no_logic (m ≫= f).
Proof.
  intros Hm Hf bytes what. unfold mbind, reader_bind. destruct (m bytes) as [[a rest]|e] eqn:E; [apply Hf|].
  intros [= ->]. by apply (Hm bytes what).
Qed.

Lemma no_logic_ret {A} (a : A) : no_logic (mret a).
Proof. by intros bytes what. Qed.

Lemma no_logic_reject b e : (forall what, e <> LogicError what) -> no_logic (reader_reject b e).
Proof. intros He bytes what. unfold reader_reject. destruct b; [|done]. intros [= ->]. by destruct (He what). Qed.

Lemma no_logic_throw {A} e : (forall what, e <> LogicError what) -> no_logic (reader_throw (A := A) e).
Proof. intros He bytes what [= ->]. by destruct (He what). Qed.

Lemma no_logic_take n : no_logic (read_take n).
Proof. intros bytes what. unfold read_take. by case_match. Qed.

Lemma no_logic_u8 : no_logic read_u8.
Proof. intros bytes what. unfold read_u8, read_take. repeat case_match; naive_solver. Qed.

Lemma no_logic_unsigned n : no_logic (read_unsigned n).
Proof.
  intros bytes what. unfold read_unsigned, read_take, read_little. repeat case_match; try naive_solver.
  unfold reject_if in *. repeat case_match; naive_solver.
Qed.

Lemma no_logic_finished : no_logic require_finished.
Proof. intros bytes what. unfold require_finished. by case_match. Qed.

Lemma no_logic_many {A} (m : Reader A) n : no_logic m -> no_logic (read_many m n).
Proof.
  intros Hm. induction n as [|n IH]; [apply no_logic_ret|]. apply no_logic_bind; [done|]. intros a.
  apply no_logic_bind; [done|]. intros l. apply no_logic_ret.
Qed.

Create HintDb no_logic discriminated.
#[export] Hint Resolve no_logic_ret no_logic_take no_logic_u8 no_logic_unsigned no_logic_finished no_logic_many : no_logic.

(** Follows a reader down to its primitives. *)
Ltac no_logic :=
  repeat match goal with
  | |- no_logic (mbind _ _) => apply no_logic_bind; [|intros ?]
  | |- no_logic (reader_reject _ _) => apply no_logic_reject; by intros ?
  | |- no_logic (reader_throw _) => apply no_logic_throw; by intros ?
  | |- no_logic (if _ then _ else _) => case_match
  | |- no_logic _ => solve [auto with no_logic]
  end.

Lemma no_logic_string : no_logic read_string.
Proof. unfold read_string, read_bytes, read_u32. no_logic. Qed.

Lemma no_logic_require_ok : no_logic require_ok.
Proof.
  unfold require_ok, read_u32. apply no_logic_bind; [auto with no_logic|]. intros status. case_match; [auto with no_logic|].
  apply no_logic_bind; [apply no_logic_string|]. intros message. apply no_logic_throw. intros what. by repeat case_match.
Qed.

Lemma no_logic_reading {U : Set} : no_logic (read_reading (U := U)).
Proof. unfold read_reading, read_reserved, read_i64, read_u64, read_u32, read_u16. no_logic. Qed.

Lemma no_logic_group {U : Set} : no_logic (read_group (U := U)).
Proof. unfold read_group. repeat (apply no_logic_bind; [apply no_logic_reading|intros ?]). apply no_logic_ret. Qed.

Lemma no_logic_flags mask e : (forall what, e <> LogicError what) -> no_logic (read_flags mask e).
Proof. intros He. unfold read_flags, read_u32. no_logic; by apply no_logic_reject. Qed.
#[export] Hint Resolve no_logic_string no_logic_require_ok no_logic_reading no_logic_group : no_logic.

Lemma no_logic_energy : no_logic decode_energy_values.
Proof.
  unfold decode_energy_values, read_u64, read_u32. repeat (apply no_logic_bind; [solve [auto with no_logic]|intros ?]).
  apply no_logic_bind; [by apply no_logic_flags|]. intros. apply no_logic_ret.
Qed.

Lemma no_logic_demand : no_logic decode_demand_values.
Proof.
  unfold decode_demand_values, read_samples, read_u64, read_u32.
  repeat (apply no_logic_bind; [first [solve [auto with no_logic]|by apply no_logic_reject|by apply no_logic_flags|
    solve [no_logic]]|intros ?]). apply no_logic_ret.
Qed.

Lemma no_logic_present {A} what (m : Reader A) : no_logic m -> no_logic (read_present what m).
Proof.
  intros Hm. unfold read_present, read_reserved, read_u16. no_logic; auto. 
Qed.

(** ** The client as a publisher *)
Section Publisher.
Context (env : nat -> Environment) (connection : nat).
Let transport : StreamTransport Link := link_transport env connection.
#[local] Existing Instance transport.

(** [energy] and [demand] are [const]: they leave the service as it is. *)
Definition link_publisher : MeterRecordPublisher Link := {|
  pub_publish record l := client_publish record l;
  pub_publish_records records l := client_publish_records records l;
  pub_authority := true;
  pub_energy l := fst (client_energy l);
  pub_demand l := fst (client_demand l) |}.

Lemma handle_errors environment frame s e s' posts :
  handle environment connection frame s = (Throw e, s', posts) -> exists what, e = UndefinedBehaviour what.
Proof.
  unfold handle. match goal with |- context [match ?m with _ => _ end] => destruct m as [[[a|e1] s1] p1] end; [done|].
  destruct (failure_status e1). destruct e1; try done. intros [= <- <- <-]. by eexists.
Qed.

Lemma link_errors frame l what l' : link_request env connection frame l <> (Throw (LogicError what), l').
Proof.
  unfold link_request. cbv zeta. destruct (deliver _) as [received|]; [|done].
  destruct (handle _ _ _ _) as [[[[]|e] s] posts] eqn:E.
  - destruct (List.find _ _) as [[c reply]|]; [|done]. by destruct (deliver reply).
  - destruct (handle_errors _ _ _ _ _ _ E) as [w ->]. done.
Qed.

Lemma call_errors {A} command payload (m : Reader A) (l : Link) what :
  no_logic m -> (stream_call command payload m l).1 <> Throw (LogicError what).
Proof.
  intros Hm. unfold stream_call. cbn [transport_request transport link_transport].
  destruct (link_request env connection _ l) as [[f|e] l1] eqn:E; simpl.
  - assert (no_logic (require_ok ;; a ← m; require_finished ;; mret a)) as Hn by (no_logic; done).
    specialize (Hn (fr_payload f)). destruct ((require_ok ;; a ← m; require_finished ;; mret a) (fr_payload f)) as [[a rest]|e]; [done|]. intros [= ->]. by apply (Hn what).
  - intros [= ->]. by apply (link_errors _ _ _ _ E).
Qed.

#[local] Existing Instance link_publisher.

(** No exception of the client is a [logic_error]. *)
Lemma link_publisher_errors : PublisherErrors Link.
Proof.
  split; intros; simpl.
  - intros E. apply (f_equal fst) in E. revert E. apply call_errors. apply no_logic_unsigned.
  - unfold client_publish_records, encode_records, reject_if. destruct (_ || _); [done|]. cbn [mbind result_bind].
    intros E. apply (f_equal fst) in E. revert E. apply call_errors. unfold read_u64, read_u32. no_logic.
  - apply call_errors, no_logic_present, no_logic_energy.
  - apply call_errors, no_logic_present, no_logic_demand.
Qed.
End Publisher.

(** ** An example: an energy family through the ingestor, the client and the service *)
#[local] Existing Instance link_publisher.

Definition example_publisher : MeterRecordPublisher Link := link_publisher working 3.

Definition example_registry : MeterDecoderRegistry :=
  match with_builtin_decoders with Ok registry => registry | Throw _ => empty_registry end.

Definition example_readings : Readings := mkReadings 1 2 1000 4 5 6 7 8 0.

Definition example_accept (record : MeterRecord) : Ingestor -> Link -> result unit * Ingestor * Link :=
  @accept Link example_publisher example_registry (new_timebase 30) None (mkActive 1 128000) example_readings record.

Definition summary_accepted : result unit * Ingestor * Link :=
  example_accept summary_example new_ingestor (mkLink fresh_service 0).
Definition family_accepted : result unit * Ingestor * Link :=
  example_accept quadrants_example summary_accepted.1.2 summary_accepted.2.

(** The summary waits in its buffer; the second part publishes the pair, and the values that become
    visible are those of the ledger. *)
Lemma family_accepted_outcome :
  summary_accepted.1.1 = Ok tt /\ in_meter_data summary_accepted.1.2 = in_meter_data new_ingestor /\
  family_accepted.1.1 = Ok tt /\ en_families (in_energy family_accepted.1.2) = 1 /\
  length (db_records (database (sv_spool (lk_service family_accepted.2)))) = 2%nat /\
  lk_requests family_accepted.2 = 1%nat.
Proof. split_and!; vm_compute; reflexivity. Qed.
