(* ===== verification/IngestorTheorems.v ===== *)
(** * Correctness of the ingestion

    Theorems about [RecordIngestor]: what becomes visible was published first, the publication
    buffers agree with the family assemblers in every reachable state, and every record touches
    the continuity of its own stream only. *)
From stdpp Require Import base list.
From S2P Require Import Prelude MeterSpool StreamService StreamRpc StreamPublisher.
From S2P Require Import MeterTiming RecordFormat MeterRecord MeterData DecodeEvents EnergyDemand DecoderRegistry HarmonicSpectrum RecordIngestor.

(** ** What consumers see *)
Record Visible := mkVisible {
  vi_meter_data : MeterDataState;
  vi_basic : option MeterRecord;
  vi_aggregate : option MeterRecord;
  vi_aggregate_time_quality : TimeQuality;
  vi_single_cycle : option SingleCycleSnapshot;
  vi_power_quality : option PowerQualitySnapshot;
  vi_power_quality_event : option PowerQualitySnapshot;
  vi_lifecycle : option PowerQualityEventLifecycleSnapshot;
  vi_flicker : list (option FlickerSnapshot);
  vi_mains : option MainsSignalSnapshot;
  vi_spectra : list (option HarmonicSpectrumSnapshot) }.

Definition visible (i : Ingestor) : Visible :=
  mkVisible (in_meter_data i) (bs_latest_record (in_basic i)) (as_latest_record (in_aggregate i))
    (as_time_quality (in_aggregate i)) (in_latest_single_cycle i) (pq_latest (in_pq i)) (pq_latest_event (in_pq i))
    (es_latest (in_lifecycle i)) (es_latest (in_flicker i)) (es_latest (in_mains i))
    (map hq_latest (hm_periods (in_harmonic i))).

Section Durable.
Context {P : Type} `{MeterRecordPublisher P}.
Context (registry : MeterDecoderRegistry) (tb : MeasurementTimebase).
Context (callback : option (PowerQualityEventLifecycleSnapshot -> result unit)).

(** The publisher committed the bytes of the record during the call. *)
Definition committed (record : MeterRecord) (p p' : P) : Prop :=
  (exists sr cursor, pub_publish sr p = (Ok cursor, p') /\ sr_payload sr = record_bytes record) \/
  (exists family cursors, pub_publish_records family p = (Ok cursors, p') /\
     record_bytes record ∈ map sr_payload family).

Definition durable_outcome (record : MeterRecord) (i : Ingestor) (p : P) (o : Outcome) : Prop :=
  visible (snd (fst o)) = visible i \/ (fst (fst o) = Ok tt /\ committed record p (snd o)).

Lemma visible_reject rd record i : visible (reject rd record i) = visible i.
Proof. done. Qed.

Lemma durable_caught rd record e i j p :
  visible j = visible i -> durable_outcome record i p (caught rd record e j p).
Proof. intros Hv. left. by destruct e. Qed.

Lemma visible_track rd record i : visible (snd (track_continuity rd record i)) = visible i.
Proof.
  unfold track_continuity, track_frequency_10s_continuity, track_aggregate_continuity, track_ten_minute_continuity,
    track_two_hour_continuity, track_basic_continuity, track.
  repeat case_match; simplify_eq; try done; unfold visible; simpl in *; f_equal; simpl; congruence.
Qed.

Lemma durable_event {T} rd record kind period timing (get : Ingestor -> EventStream T) set note latest i p :
  (forall s j, es_latest s = es_latest (get j) -> visible (set s j) = visible j) ->
  durable_outcome record i p (publish_event tb rd record kind period timing get set note latest i p).
Proof.
  intros Hset. unfold publish_event, durable_outcome. destruct (pass_sequence _ _) as [tracker|]; [|by left].
  destruct (stamp_block _ _ _) as [stamped|]; [|left; by apply Hset].
  destruct (pub_publish _ p) as [[cursor|e] p'] eqn:E; [|left; by apply Hset].
  right. split; [done|]. left. eexists _, cursor. split; [exact E|done].
Qed.

Lemma map_insert_same {A B} (f : A -> B) (l : list A) k x y :
  l !! k = Some x -> f y = f x -> map f (<[k := y]> l) = map f l.
Proof.
  intros Hx Hf. change (f <$> <[k := y]> l = f <$> l). rewrite list_fmap_insert. apply list_insert_id.
  by rewrite list_lookup_fmap, Hx, Hf.
Qed.

Lemma visible_harmonic index q q' i :
  hm_periods (in_harmonic i) !! index = Some q -> hq_latest q' = hq_latest q ->
  visible (set_harmonic_period index q' i) = visible i.
Proof. intros Hq Hl. unfold visible, set_harmonic_period. simpl. f_equal. by eapply map_insert_same. Qed.

Lemma move_out_in records moved family k r :
  move_out records = (moved, Some family) -> records !! k = Some (Some r) -> r ∈ family.
Proof.
  revert moved family k. induction records as [|[r'|] records IH]; intros moved family k Hm Hk; simpl in Hm; try done.
  destruct (move_out records) as [rest [fam|]] eqn:E; [|done]. injection Hm as _ <-.
  destruct k as [|k]; simpl in Hk; [injection Hk as ->; by left|]. right. by eapply IH.
Qed.

Lemma durable_spectrum index q pending spectrum record i p k sr :
  hm_periods (in_harmonic i) !! index = Some q -> ph_records pending !! k = Some (Some sr) ->
  sr_payload sr = record_bytes record ->
  durable_outcome record i p (publish_spectrum index q pending spectrum i p).
Proof.
  intros Hq Hk Hsr. unfold publish_spectrum, durable_outcome. destruct (negb _); [by left|].
  destruct (move_out _) as [moved [family|]] eqn:Em; [|left; by eapply visible_harmonic].
  destruct (pub_publish_records family p) as [[cursors|e] p'] eqn:Ep; [|left; by eapply visible_harmonic].
  destruct (negb _); [left; by eapply visible_harmonic|]. right. split; [done|]. right.
  exists family, cursors. split; [done|]. apply list_elem_of_In. rewrite <- Hsr. apply in_map, list_elem_of_In.
  by eapply move_out_in.
Qed.

Lemma set_period_lookup index q q' i :
  hm_periods (in_harmonic i) !! index = Some q ->
  hm_periods (in_harmonic (set_harmonic_period index q' i)) !! index = Some q'.
Proof. intros Hq%lookup_lt_Some. by apply list_lookup_insert_eq. Qed.

Lemma durable_trans record i j p o : visible j = visible i -> durable_outcome record j p o -> durable_outcome record i p o.
Proof. unfold durable_outcome. by intros ->. Qed.

Lemma durable_buffer rd record chunk index q assembly i p :
  hm_periods (in_harmonic i) !! index = Some q ->
  durable_outcome record i p (buffer_chunk tb rd record chunk index q assembly i p).
Proof.
  intros Hq. unfold buffer_chunk. destruct (stamp_block _ _ _) as [stamped|]; [|by left].
  set (pending := match hq_pending q with Some _ => _ | None => _ end).
  destruct (ph_records pending !! _) as [[|]|] eqn:Hk; [left; by eapply visible_harmonic| |left; by eapply visible_harmonic].
  set (sr := stream_record _ _ _ _ _ _ _ _).
  set (pending' := mkPendingHarmonic _ _ _). set (q' := mkHarmonicPeriod _ _ _ _ _ _).
  set (i' := set_harmonic _ _).
  assert (Hv : visible i' = visible i) by (trans (visible (set_harmonic_period index q' i)); [done|by eapply visible_harmonic]).
  destruct (hu_completed assembly) as [spectrum|]; [|by left].
  apply (durable_trans _ _ i'); [done|]. apply (durable_spectrum _ _ _ _ _ _ _ (Z.to_nat (u16 (record_index chunk))) sr); [|simpl|done].
  - exact (set_period_lookup index q q' i Hq).
  - apply list_lookup_insert_eq. by eapply lookup_lt_Some.
Qed.

Lemma durable_harmonic rd record i p : durable_outcome record i p (accept_harmonic tb rd record i p).
Proof.
  unfold accept_harmonic. destruct (_ ≫= _) as [[chunk index]|e]; [|by apply durable_caught].
  destruct (hm_periods (in_harmonic i) !! index) as [q|] eqn:Hq; [|by left].
  destruct (harmonic_accept _ _) as [assembler [assembly|e]]; [|apply durable_caught; by eapply visible_harmonic].
  eapply durable_trans; [|eapply durable_buffer, set_period_lookup, Hq]. by eapply visible_harmonic.
Qed.

Lemma durable_publish_energy rd record identity values i p q part sr :
  en_pending (in_energy i) = Some q -> pe_records q !! part = Some (Some sr) -> sr_payload sr = record_bytes record ->
  durable_outcome record i p (publish_energy tb rd record identity values i p).
Proof.
  intros Hq Hpart Hsr. unfold publish_energy. rewrite Hq. destruct q as [held records count]. simpl in Hpart.
  destruct records as [|[first|] [|[second|] [|]]]; try by left.
  destruct (negb _); [by left|]. destruct (stamp_block _ _ _) as [timing|]; [|by left].
  destruct (pub_publish_records _ p) as [[cursors|e] p'] eqn:Ep; [|destruct e; by left].
  destruct (negb _); [by left|]. destruct (if pub_authority then _ else _) as [values'|]; [|by left].
  right. split; [done|]. right. eexists _, cursors. split; [exact Ep|]. rewrite <- Hsr.
  destruct part as [|[|part]]; simpl in Hpart; [..|by destruct part]; injection Hpart as ->; simpl; [left|right; left].
Qed.

Lemma buffer_part_holds rd record identity q q' :
  buffer_part rd record identity q = Ok q' ->
  exists sr, pe_records q' !! Z.to_nat (energy_part record) = Some (Some sr) /\ sr_payload sr = record_bytes record.
Proof.
  unfold buffer_part. destruct (pe_records q !! _) as [[held|]|] eqn:E; [| |done].
  - case_bool_decide as Hp; [|done]. intros <-%Ok_inj. by exists held.
  - intros <-%Ok_inj. eexists. simpl. rewrite list_lookup_insert_eq by (by eapply lookup_lt_Some). done.
Qed.

Lemma durable_energy rd record i p : durable_outcome record i p (accept_energy tb rd record i p).
Proof.
  unfold accept_energy. destruct (decode_energy_identity record) as [identity|]; [|by apply durable_caught].
  destruct (buffer_part _ _ _ _) as [q|e] eqn:Eb; [|by apply durable_caught].
  destruct (buffer_part_holds _ _ _ _ _ Eb) as (sr & Hsr & Hpay).
  destruct (assembler_accept _ _ _) as [assembler [assembly|e]]; [|by apply durable_caught].
  destruct (au_completed assembly) as [values|]; [|by left].
  eapply durable_trans; [|by eapply durable_publish_energy]. done.
Qed.

Lemma durable_interval rd record i p : durable_outcome record i p (accept_interval registry tb rd record i p).
Proof.
  unfold accept_interval. pose proof (visible_track rd record i) as Hv.
  destruct (track_continuity rd record i) as [[|] j]; simpl in Hv; [|by left].
  apply (durable_trans _ _ j); [done|]. clear Hv.
  destruct (registry_decode _ _ _) as [u|[]]; try by left.
  destruct (stamp_update _ _ _ _) as [u'|]; [|by left].
  destruct (pub_publish _ p) as [[cursor|e] p'] eqn:Ep; [|destruct e; first [by left|case_match; by left]].
  destruct (authoritative_update u' p') as [u''|]; [|by left].
  right. split; [done|]. left. eexists _, cursor. split; [exact Ep|done].
Qed.

(** The two diagnostic streams that are cached without being published. *)
Definition show_single_cycle (s : SingleCycleSnapshot) (v : Visible) : Visible :=
  mkVisible (vi_meter_data v) (vi_basic v) (vi_aggregate v) (vi_aggregate_time_quality v) (Some s)
    (vi_power_quality v) (vi_power_quality_event v) (vi_lifecycle v) (vi_flicker v) (vi_mains v) (vi_spectra v).

Definition show_power_quality (s : PowerQualitySnapshot) (v : Visible) : Visible :=
  mkVisible (vi_meter_data v) (vi_basic v) (vi_aggregate v) (vi_aggregate_time_quality v) (vi_single_cycle v)
    (Some s) (match pq_kind (pqs_values s) with pq_periodic => vi_power_quality_event v | _ => Some s end)
    (vi_lifecycle v) (vi_flicker v) (vi_mains v) (vi_spectra v).

(** What the two streams that never reach the publisher do. *)
Definition cached_only (rd : Readings) (record : MeterRecord) (i i' : Ingestor) : Prop :=
  (record_format record = meter_single_cycle_format /\
   visible i' = show_single_cycle (decode_single_cycle_record record) (visible i)) \/
  (record_format record = meter_pq_event_format /\
   exists s, decode_pq_event_record (rd_decode rd) record = Ok s /\ visible i' = show_power_quality s (visible i)).

(** (C12) Nothing becomes visible before it is durable, the single-cycle and PQEVT diagnostic
    streams excepted, which the program caches without publishing.  Whatever record is accepted,
    in whatever state, either every value consumers can read (the measurement store, the latest
    basic, aggregate, single-cycle and power-quality records, lifecycle, flicker and mains
    snapshots and spectra; counters and ages aside) is as before; or the call succeeded and the
    publisher committed the exact bytes of this record during it (for an energy or harmonic
    family, together with the rest of the family); or the record is of one of the two diagnostic
    formats, the publisher is untouched and only that stream's cache changed, to the decoded
    record.  In particular a publisher that fails changes nothing visible. *)
Theorem ingest_durable_first configuration rd record i p result i' p' :
  accept registry tb callback configuration rd record i p = (result, i', p') ->
  visible i' = visible i \/ (result = Ok tt /\ committed record p p') \/
  (result = Ok tt /\ p' = p /\ cached_only rd record i i').
Proof.
  intros E.
  enough (durable_outcome record i p (result, i', p') \/ (result = Ok tt /\ p' = p /\ cached_only rd record i i'))
    as [[?|?]|?] by auto.
  revert E. unfold accept.
  destruct (negb _); [intros [= <- <- <-]; by left; left|].
  destruct (Z.eqb_spec (record_format record) meter_single_cycle_format).
  { intros [= <- <- <-]. right. split_and!; [done|done|by left]. }
  destruct (Z.eqb_spec (record_format record) meter_pq_event_format).
  { unfold accept_pq_event. destruct (decode_pq_event_record _ _) as [s|] eqn:Ed;
      [|intros <-; left; by apply durable_caught].
    intros E. right. assert (visible i' = show_power_quality s (visible i) /\ result = Ok tt /\ p' = p) as (Hv & -> & ->)
      by (unfold show_power_quality; destruct (pq_kind (pqs_values s)); by injection E as <- <- <-).
    split_and!; [done|done|]. right. split; [done|by exists s]. }
  intros <-. left.
  destruct (_ =? _).
  { unfold accept_lifecycle. destruct (decode_pq_event_lifecycle_record _) as [s|]; [|by apply durable_caught].
    apply durable_event. intros s' j Hs. unfold visible. simpl. by rewrite Hs. }
  destruct (_ =? _).
  { unfold accept_flicker. destruct (decode_flicker_record _) as [s|]; [|by apply durable_caught].
    apply durable_event. intros s' j Hs. unfold visible. simpl. by rewrite Hs. }
  destruct (_ =? _).
  { unfold accept_mains. destruct (decode_mains_signal_record _) as [s|]; [|by apply durable_caught].
    apply durable_event. intros s' j Hs. unfold visible. simpl. by rewrite Hs. }
  destruct (_ || _); [apply durable_harmonic|]. destruct (_ =? _); [apply durable_energy|apply durable_interval].
Qed.
End Durable.

(** ** Publication buffers and assemblers *)

(** A buffered energy record stands for a part the assembler holds. *)
Definition slot_matches (part : option MeterRecord) (buffered : option MeterStreamRecord) : Prop :=
  match part, buffered with
  | Some r, Some s => sr_payload s = record_bytes r
  | None, None => True
  | _, _ => False
  end.

Definition energy_matches (a : EnergyFamilyAssembler) (q : PendingEnergyFamily) : Prop :=
  ea_identity a = Some (pe_identity q) /\
  exists s1 s2, pe_records q = [s1; s2] /\ slot_matches (ea_summary a) s1 /\ slot_matches (ea_quadrants a) s2 /\
    pe_count q = pending_parts a.

(** A buffer whose publication failed keeps two records that were moved from. *)
Definition energy_spent (q : PendingEnergyFamily) : Prop :=
  exists s1 s2, pe_records q = [Some s1; Some s2] /\ sr_payload s1 = [] /\ sr_payload s2 = [].

Definition energy_agrees (e : EnergyStream) : Prop :=
  match ea_identity (en_assembler e) with
  | Some _ => exists q, en_pending e = Some q /\ energy_matches (en_assembler e) q
  | None => forall q, en_pending e = Some q -> energy_spent q
  end.

Definition energy_ok (e : EnergyStream) : Prop :=
  assembler_inv (en_assembler e) /\ has_part (en_assembler e) /\ energy_agrees e.

Lemma record_bytes_inj r s : record_wf r -> record_wf s -> record_bytes r = record_bytes s -> words r = words s.
Proof.
  intros [Lr Wr] [Ls Ws]. unfold record_bytes. assert (Hl : length (words r) = length (words s)) by congruence.
  clear Lr Ls. revert Hl Wr Ws. generalize (words s). induction (words r) as [|x l IH]; intros [|y l'] Hl Wr Ws; try done.
  apply list.Forall_cons in Wr as [Hx Wr]. apply list.Forall_cons in Ws as [Hy Ws]. cbn [flat_map]. intros E.
  apply app_inj_1 in E as [E1 E2]; [|by rewrite !le_bytes_length].
  f_equal; [|apply IH; auto]. apply (le_bytes_inj 4); [lia..|done].
Qed.

Lemma record_bytes_nonempty r : record_wf r -> record_bytes r <> [].
Proof.
  intros [L _] E. apply (f_equal length) in E. unfold record_bytes in E.
  destruct (words r); [done|]. cbn [flat_map] in E. rewrite length_app, le_bytes_length in E. simpl in E. lia.
Qed.

(** The buffer a valid part is stored in: the one of its family. *)
Definition buffer_for (e : EnergyStream) (r : MeterRecord) : PendingEnergyFamily :=
  let fresh := mkPendingEnergy (identity_of r) [None; None] 0 in
  match en_pending e with
  | Some q => if bool_decide (pe_identity q = identity_of r) then q else fresh
  | None => fresh
  end.

Lemma fresh_matches r :
  energy_matches (mkAssembler (Some (identity_of r)) None None) (mkPendingEnergy (identity_of r) [None; None] 0).
Proof. split; [done|]. by exists None, None. Qed.

(** It either belongs to a publication that failed, or agrees with the family the assembler
    goes on with. *)
Lemma buffer_for_cases e r :
  energy_ok e ->
  (en_pending e = Some (buffer_for e r) /\ ea_identity (en_assembler e) = None /\ energy_spent (buffer_for e r)) \/
  (energy_matches (hold_family (en_assembler e) r) (buffer_for e r) /\
   (forall held, slot_of (hold_family (en_assembler e) r) r = Some held ->
      hold_family (en_assembler e) r = en_assembler e /\ en_pending e = Some (buffer_for e r))).
Proof.
  intros (I & _ & Ha). unfold energy_agrees in Ha. unfold hold_family, buffer_for.
  destruct (ea_identity (en_assembler e)) as [id|] eqn:Eid.
  - destruct Ha as (q & Eq & Hm). rewrite Eq. destruct Hm as [Hid Hm].
    assert (Epe : pe_identity q = id) by congruence. rewrite Epe. right. case_bool_decide as D; simpl.
    + rewrite Eid. split; [|done]. split; [done|exact Hm].
    + split; [apply fresh_matches|]. unfold slot_of. intros held. by destruct (is_summary r).
  - destruct (ai_empty _ I Eid) as [Es Eq]. simpl. rewrite Eid, Es, Eq.
    assert (Hfresh : energy_matches (mkAssembler (Some (identity_of r)) None None) (mkPendingEnergy (identity_of r) [None; None] 0) /\
      (forall held, slot_of (mkAssembler (Some (identity_of r)) None None) r = Some held ->
        mkAssembler (Some (identity_of r)) None None = en_assembler e /\ en_pending e = Some (mkPendingEnergy (identity_of r) [None; None] 0))).
    { split; [apply fresh_matches|]. unfold slot_of. intros held. by destruct (is_summary r). }
    destruct (en_pending e) as [q|] eqn:Ep; [|by right].
    case_bool_decide as D; [|by right]. left. split_and!; [done|done|by apply Ha].
Qed.

Lemma energy_part_index r :
  validate_energy_part r = Ok tt ->
  (is_summary r = true /\ Z.to_nat (energy_part r) = 0%nat) \/ (is_summary r = false /\ Z.to_nat (energy_part r) = 1%nat).
Proof.
  intros Hv%validate_energy_part_valid. unfold is_summary. destruct (pval_kind r Hv) as [-> | ->]; [by left|by right].
Qed.

Lemma pending_parts_store b r :
  slot_of b r = None -> pending_parts (store_part b r) = pending_parts b + 1.
Proof.
  unfold slot_of, store_part, pending_parts. destruct (is_summary r); intros ->; simpl; repeat case_bool_decide; simpl; try lia;
    exfalso; by destruct_or?; eauto.
Qed.

(** Storing the part in both places keeps them in agreement. *)
Lemma store_matches rd b r q :
  energy_matches b q -> validate_energy_part r = Ok tt -> slot_of b r = None ->
  exists q', buffer_part rd r (identity_of r) q = Ok q' /\ energy_matches (store_part b r) q'.
Proof.
  intros (Hid & s1 & s2 & Er & H1 & H2 & Hc) Hv Hs. pose proof (pending_parts_store b r Hs) as Hp.
  unfold buffer_part. rewrite Er. unfold slot_of in Hs. unfold store_part in *.
  destruct (energy_part_index r Hv) as [[Ek ->]|[Ek ->]]; rewrite Ek in *; simpl; rewrite Hs in *.
  - destruct s1; [done|]. eexists; split; [reflexivity|]. split; [done|]. simpl.
    eexists _, _. split_and!; [reflexivity|done|done|]. simpl. lia.
  - destruct s2; [done|]. eexists; split; [reflexivity|]. split; [done|]. simpl.
    eexists _, _. split_and!; [reflexivity|done|done|]. simpl. lia.
Qed.

(** A part that is already held: the buffer and the assembler both compare it. *)
Lemma duplicate_matches rd b r q held :
  energy_matches b q -> assembler_inv b -> record_wf r -> validate_energy_part r = Ok tt -> slot_of b r = Some held ->
  (buffer_part rd r (identity_of r) q = Ok q /\ words held = words r) \/
  (exists what, buffer_part rd r (identity_of r) q = Throw (InvalidArgument what)).
Proof.
  intros (Hid & s1 & s2 & Er & H1 & H2 & Hc) I Hwf Hv Hs.
  destruct (slot_part b r held I Hs) as (Hwh & _). unfold buffer_part. rewrite Er. unfold slot_of in Hs.
  destruct (energy_part_index r Hv) as [[Ek ->]|[Ek ->]]; rewrite Ek in *; simpl; rewrite Hs in *; simpl in *.
  - destruct s1; [|done]. case_bool_decide as D; [left|right; by eexists]. split; [done|].
    apply record_bytes_inj; [done..|congruence].
  - destruct s2; [|done]. case_bool_decide as D; [left|right; by eexists]. split; [done|].
    apply record_bytes_inj; [done..|congruence].
Qed.

Lemma spent_rejects rd r q :
  energy_spent q -> record_wf r -> validate_energy_part r = Ok tt ->
  exists what, buffer_part rd r (identity_of r) q = Throw (InvalidArgument what).
Proof.
  intros (s1 & s2 & Er & H1 & H2) Hwf Hv. unfold buffer_part. rewrite Er. pose proof (record_bytes_nonempty r Hwf).
  destruct (energy_part_index r Hv) as [[_ ->]|[_ ->]]; simpl; (case_bool_decide as D; [congruence|by eexists]).
Qed.

(** Both parts present. *)
Lemma matches_full b q s1 s2 :
  energy_matches b q -> ea_summary b = Some s1 -> ea_quadrants b = Some s2 ->
  exists r1 r2, q = mkPendingEnergy (pe_identity q) [Some r1; Some r2] 2.
Proof.
  intros (_ & b1 & b2 & Er & H1 & H2 & Hc) E1 E2. rewrite E1 in H1. rewrite E2 in H2.
  unfold pending_parts in Hc. rewrite E1, E2 in Hc. destruct b1 as [b1|], b2 as [b2|]; try done.
  exists b1, b2. destruct q; simpl in *. by subst.
Qed.

Definition energy_advanced (q : PendingEnergyFamily) (a : EnergyFamilyAssembler) (update : result EnergyAssemblyUpdate) : Prop :=
  match update with
  | Ok u =>
      match au_completed u with
      | Some _ => a = assembler_reset /\ exists r1 r2, q = mkPendingEnergy (pe_identity q) [Some r1; Some r2] 2
      | None => energy_matches a q
      end
  | Throw _ => energy_matches a q
  end.

Lemma energy_step rd e r t :
  energy_ok e -> record_wf r -> validate_energy_part r = Ok tt ->
  (en_pending e = Some (buffer_for e r) /\
   exists what, buffer_part rd r (identity_of r) (buffer_for e r) = Throw (InvalidArgument what)) \/
  (exists q' a update, buffer_part rd r (identity_of r) (buffer_for e r) = Ok q' /\
     assembler_accept (en_assembler e) r t = (a, update) /\ assembler_inv a /\ has_part a /\ energy_advanced q' a update).
Proof.
  intros Hok Hwf Hv. pose proof Hok as (I & Hp & _).
  destruct (buffer_for_cases e r Hok) as [(Ep & _ & Hspent)|[Hm Hsame]].
  { left. split; [done|]. by apply spent_rejects. }
  destruct (accept_inv (en_assembler e) r t I Hp Hwf) as [I' Hp'].
  destruct (hold_family_inv (en_assembler e) r I) as [Ib _].
  destruct (assembler_accept (en_assembler e) r t) as [a update] eqn:Ea. simpl in I', Hp'.
  rewrite accept_valid in Ea by done. cbv zeta in Ea.
  set (b := hold_family (en_assembler e) r) in *. destruct (slot_of b r) as [held|] eqn:Hslot.
  - destruct (duplicate_matches rd b r _ held Hm Ib Hwf Hv Hslot) as [[Hb Hw]|[what Hb]].
    2:{ left. split; [by apply (Hsame held)|by exists what]. }
    right. exists (buffer_for e r), a, update. split_and!; [done|done|done|done|].
    rewrite bool_decide_true in Ea by done.
    destruct (ea_summary b) as [s|] eqn:E1, (ea_quadrants b) as [u|] eqn:E2; try (injection Ea as <- <-; done).
    destruct (decode_energy_family s u t); injection Ea as <- <-; [|done]. split; [done|]. by eapply matches_full.
  - destruct (store_matches rd b r _ Hm Hv Hslot) as (q' & Hb & Hm').
    right. exists q', a, update. split_and!; [done|done|done|done|].
    destruct (ea_summary (store_part b r)) as [s|] eqn:E1, (ea_quadrants (store_part b r)) as [u|] eqn:E2;
      try (injection Ea as <- <-; done).
    destruct (decode_energy_family s u t); injection Ea as <- <-; [|done]. split; [done|]. by eapply matches_full.
Qed.

(** ** Reachable ingestors *)

Lemma signed64_error z e : signed64 z = Throw e -> exists what, e = UndefinedBehaviour what.
Proof. unfold signed64. case_match; [done|]. intros [= <-]. by eexists. Qed.

Lemma utc_error tb first generation e :
  utc_for_sample tb first generation = Throw e -> exists what, e = UndefinedBehaviour what.
Proof.
  unfold utc_for_sample. repeat case_match; try done.
  repeat (intros [?|(? & _ & Hrest)]%bind_Throw; [by eapply signed64_error|revert Hrest]). done.
Qed.

Lemma stamp_block_error tb now t e : stamp_block tb now t = Throw e -> exists what, e = UndefinedBehaviour what.
Proof. intros [He|(? & _ & He)]%bind_Throw; [by eapply utc_error|done]. Qed.

Lemma stamp_aggregate_error tb now t e : stamp_aggregate tb now t = Throw e -> exists what, e = UndefinedBehaviour what.
Proof. intros [He|(? & _ & He)]%bind_Throw; [by eapply utc_error|done]. Qed.

(** The buffer of a period agrees with its assembler; after a failed publication it may keep
    the family that was completed. *)
Definition harmonic_matches (p : PartialFamily) (b : PendingHarmonicFamily) : Prop :=
  ph_sequence b = hs_sequence (pf_snapshot p) /\ ph_count b = pf_received_count p /\
  length (ph_records b) = Z.to_nat harmonic_records_per_family /\
  forall k, (k < Z.to_nat harmonic_records_per_family)%nat ->
    bool_decide (is_Some (mjoin (ph_records b !! k))) = default false (pf_received p !! k).

Definition harmonic_agrees (a : HarmonicFamilyAssembler) (pending : option PendingHarmonicFamily) : Prop :=
  match ha_partial a with
  | Some p => exists b, pending = Some b /\ harmonic_matches p b
  | None => forall b, pending = Some b -> ha_last_completed_sequence a = Some (ph_sequence b)
  end.

Definition period_ok (q : HarmonicPeriod) : Prop :=
  (exists history, harmonic_history history (hq_assembler q)) /\ harmonic_agrees (hq_assembler q) (hq_pending q).

Definition families_ok (i : Ingestor) : Prop :=
  Forall period_ok (hm_periods (in_harmonic i)) /\ energy_ok (in_energy i).

Section Families.
Context {P : Type} `{PublisherErrors P}.
Context (registry : MeterDecoderRegistry) (tb : MeasurementTimebase).
Context (callback : option (PowerQualityEventLifecycleSnapshot -> result unit)).

(** No [logic_error], and the families agree unless the evaluation was undefined. *)
Definition sound_outcome (o : Outcome (P := P)) : Prop :=
  (forall what, fst (fst o) <> Throw (LogicError what)) /\
  ((forall what, fst (fst o) <> Throw (UndefinedBehaviour what)) -> families_ok (snd (fst o))).

Lemma sound_ok i p : families_ok i -> sound_outcome (Ok tt, i, p).
Proof. by split. Qed.

Lemma sound_undefined what i p : sound_outcome (Throw (UndefinedBehaviour what), i, p).
Proof. split; [done|]. intros Hu. by destruct (Hu what). Qed.

Lemma sound_throw e i p : (forall what, e <> LogicError what) -> families_ok i -> sound_outcome (Throw e, i, p).
Proof. intros He Hi. split; [intros what [= ->]; by destruct (He what)|done]. Qed.

Lemma sound_caught rd record e i p : families_ok i -> sound_outcome (caught rd record e i p).
Proof. intros Hi. destruct e; (by apply sound_ok) || by apply sound_undefined. Qed.

Lemma sound_stamp now t e i p : stamp_block tb now t = Throw e -> sound_outcome (Throw e, i, p).
Proof. intros [what ->]%stamp_block_error. apply sound_undefined. Qed.

(** *** Energy *)
Lemma sound_publish_energy rd record identity values i p :
  Forall period_ok (hm_periods (in_harmonic i)) ->
  (en_assembler (in_energy i) = assembler_reset) ->
  (exists q r1 r2, en_pending (in_energy i) = Some (mkPendingEnergy q [Some r1; Some r2] 2)) ->
  sound_outcome (publish_energy tb rd record identity values i p).
Proof.
  intros Hh Ha (q & r1 & r2 & Ep). unfold publish_energy. rewrite Ep. cbn [negb Z.eqb Pos.eqb].
  destruct (stamp_block _ _ _) as [timing|e] eqn:Es; [|by eapply sound_stamp].
  set (i1 := set_energy_pending _ i).
  assert (Hspent : families_ok i1).
  { split; [done|]. unfold energy_ok, energy_agrees. simpl. rewrite Ha.
    split_and!; [apply assembler_reset_inv|apply reset_has_part|]. simpl. intros b [= <-]. by eexists _, _. }
  assert (Hnone : forall e : EnergyStream, en_assembler e = assembler_reset -> en_pending e = None -> energy_ok e).
  { intros e E1 E2. unfold energy_ok, energy_agrees. rewrite E1, E2. split_and!; [apply assembler_reset_inv|apply reset_has_part|done]. }
  destruct (pub_publish_records _ p) as [[cursors|e] p'] eqn:Epub.
  2:{ destruct e; try (by apply sound_throw); try (by apply publish_records_errors in Epub).
      apply sound_ok. split; [done|]. by apply Hnone. }
  destruct (negb _); [by apply sound_throw|].
  destruct (if pub_authority then _ else _) as [values'|e] eqn:Eauth.
  - apply sound_ok. split; [done|]. by apply Hnone.
  - apply sound_throw; [|done]. intros what ->. destruct pub_authority; [|done].
    apply bind_Throw in Eauth as [He|(o & _ & He)]; [by eapply energy_errors|by destruct o].
Qed.

Lemma energy_ok_pending e e' :
  energy_ok e -> en_assembler e' = en_assembler e -> en_pending e' = en_pending e -> energy_ok e'.
Proof. unfold energy_ok, energy_agrees. by intros ? -> ->. Qed.

Lemma matches_ok a q e :
  assembler_inv a -> has_part a -> energy_matches a q -> en_assembler e = a -> en_pending e = Some q -> energy_ok e.
Proof.
  intros I Hp Hm E1 E2. unfold energy_ok, energy_agrees. rewrite E1, E2. split_and!; [done|done|].
  rewrite (proj1 Hm). by exists q.
Qed.

Lemma sound_energy rd record i p :
  families_ok i -> record_wf record -> sound_outcome (accept_energy tb rd record i p).
Proof.
  intros [Hh He] Hwf. unfold accept_energy.
  destruct (decode_energy_identity record) as [identity|e] eqn:Ei; [|by apply sound_caught].
  apply identity_Ok in Ei as [Hv ->]. fold (buffer_for (in_energy i) record).
  destruct (energy_step rd (in_energy i) record (rd_decode rd) He Hwf Hv)
    as [[Ep [what ->]]|(q & a & update & -> & -> & I & Hp & Hadv)].
  { apply sound_caught. split; [done|]. by apply (energy_ok_pending (in_energy i)). }
  destruct update as [u|e]; simpl in Hadv.
  2:{ apply sound_caught. split; [done|]. by eapply matches_ok. }
  destruct (au_completed u) as [values|].
  - destruct Hadv as (-> & r1 & r2 & Eq). apply sound_publish_energy; [done|done|].
    exists (pe_identity q), r1, r2. simpl. by rewrite <- Eq.
  - apply sound_ok. split; [done|]. by eapply matches_ok.
Qed.

(** *** Harmonics *)
Lemma forward_of_irrefl s : forward_of s s = false.
Proof. unfold forward_of. rewrite Z.sub_diag. done. Qed.

(** The buffer the chunk is stored in. *)
Definition harmonic_buffer (q : option PendingHarmonicFamily) (sequence : Z) : PendingHarmonicFamily :=
  match q with
  | Some b => if ph_sequence b =? sequence then b else empty_pending sequence
  | None => empty_pending sequence
  end.

Lemma fresh_harmonic_matches c : harmonic_matches (fresh_family c) (empty_pending (hc_sequence c)).
Proof.
  split_and!; [done|done|apply length_replicate|]. intros k Hk. unfold empty_pending, ph_records, fresh_family, pf_received.
  by rewrite !lookup_replicate_2.
Qed.

Lemma harmonic_buffer_matches a pending c incomplete p :
  harmonic_agrees a pending -> harmonic_family a c = Ok (incomplete, p) ->
  harmonic_matches p (harmonic_buffer pending (hc_sequence c)) /\ ph_sequence (harmonic_buffer pending (hc_sequence c)) = hc_sequence c.
Proof.
  intros Ha Hf. unfold harmonic_agrees in Ha. unfold harmonic_family in Hf. fold (fresh_family c) in Hf.
  pose proof (fresh_harmonic_matches c) as Hfresh. destruct (ha_partial a) as [p0|].
  - destruct Ha as (b & -> & Hm). pose proof (proj1 Hm) as Hseq. simpl.
    destruct (Z.eqb_spec (hc_sequence c) (hs_sequence (pf_snapshot p0))) as [E|E].
    + apply Ok_inj in Hf. injection Hf as _ <-. rewrite (proj2 (Z.eqb_eq _ _)) by lia. split; [done|lia].
    + apply bind_Ok in Hf as (_ & _ & Hf). apply Ok_inj in Hf. injection Hf as _ <-.
      by rewrite (proj2 (Z.eqb_neq _ _)) by lia.
  - destruct pending as [b|]; simpl.
    + specialize (Ha b eq_refl). rewrite Ha in Hf. apply bind_Ok in Hf as (_ & Hfwd%require_Ok & Hf).
      apply Ok_inj in Hf. injection Hf as _ <-. destruct (Z.eqb_spec (ph_sequence b) (hc_sequence c)) as [E|]; [|done].
      rewrite E, forward_of_irrefl in Hfwd. done.
    + destruct (ha_last_completed_sequence a); [apply bind_Ok in Hf as (_ & _ & Hf)|]; apply Ok_inj in Hf; by injection Hf as _ <-.
Qed.

(** A buffer with every record can be moved out. *)
Lemma move_out_full records :
  Forall is_Some records -> exists moved family, move_out records = (moved, Some family) /\ length moved = length records.
Proof.
  induction 1 as [|o records [r ->] _ (moved & family & E & Hl)]; simpl; [by eexists _, _|].
  rewrite E. eexists _, _. split; [reflexivity|]. simpl. by f_equal.
Qed.

(** Every period but one is known to be in order. *)
Definition families_but (index : nat) (i : Ingestor) : Prop :=
  (forall k q, k <> index -> hm_periods (in_harmonic i) !! k = Some q -> period_ok q) /\ energy_ok (in_energy i).

Lemma families_but_ok index i : families_ok i -> families_but index i.
Proof. intros [Hh He]. split; [|done]. intros k q _ Hk. by eapply (proj1 (Forall_lookup _ _) Hh). Qed.

Lemma families_but_set index q i : families_but index i -> families_but index (set_harmonic_period index q i).
Proof. intros [Hh He]. split; [|done]. intros k q' Hk. simpl. rewrite list_lookup_insert_ne by done. by apply Hh. Qed.

Lemma families_set index q i : families_but index i -> period_ok q -> families_ok (set_harmonic_period index q i).
Proof.
  intros [Hh He] Hq. split; [|done]. apply Forall_lookup. intros k q' Hk. simpl in Hk.
  apply list_lookup_insert_Some in Hk as [(<- & -> & _)|[Hne Hk]]; [done|]. by apply (Hh k).
Qed.

Lemma sound_spectrum index q pending spectrum i p :
  families_but index i -> (exists history, harmonic_history history (hq_assembler q)) ->
  hq_assembler q = mkHarmonicAssembler None (Some (ph_sequence pending)) ->
  ph_count pending = harmonic_records_per_family -> Forall is_Some (ph_records pending) ->
  sound_outcome (publish_spectrum index q pending spectrum i p).
Proof.
  intros Hi Hh Ha Hc Hall. unfold publish_spectrum. rewrite (proj2 (Z.eqb_eq _ _) Hc). cbn [negb].
  destruct (move_out_full _ Hall) as (moved & family & -> & _). set (i1 := set_harmonic_period index _ i).
  assert (Hi1 : families_ok i1).
  { apply families_set; [done|]. split; [done|]. unfold harmonic_agrees. simpl. rewrite Ha. by intros b [= <-]. }
  destruct (pub_publish_records family p) as [[cursors|e] p'] eqn:Ep.
  2:{ apply sound_throw; [|done]. intros what ->. by apply publish_records_errors in Ep. }
  destruct (negb _); [by apply sound_throw|]. apply sound_ok.
  apply (families_set index (mkHarmonicPeriod _ _ _ _ _ _) i1); [by apply families_but_ok|].
  split; [done|]. unfold harmonic_agrees. simpl. rewrite Ha. done.
Qed.

Lemma all_received family p k :
  family_of family p -> pf_received_count p = harmonic_records_per_family ->
  (k < Z.to_nat harmonic_records_per_family)%nat -> pf_received p !! k = Some true.
Proof.
  intros Hf Hc Hk. rewrite (fo_received _ _ Hf k Hk). f_equal. apply bool_decide_eq_true.
  rewrite (fo_count _ _ Hf) in Hc. unfold harmonic_records_per_family, harmonic_channel_count, harmonic_chunks_per_channel in Hk.
  destruct (full_family _ _ (Z.of_nat k / 6) (Z.of_nat k mod 6) Hf Hc) as (c & Hc' & E1 & E2).
  - unfold harmonic_channel_count. split; [apply Z.div_pos; lia|apply Z.div_lt_upper_bound; lia].
  - apply Z.mod_pos_bound. done.
  - apply list_elem_of_In, in_map_iff. exists c. split; [|by apply list_elem_of_In].
    unfold record_index, harmonic_chunks_per_channel. rewrite E1, E2. pose proof (Z.div_mod (Z.of_nat k) 6). lia.
Qed.

(** The buffer after the chunk was stored agrees with the family after it was received. *)
Lemma store_harmonic_matches p b channels c sr :
  harmonic_matches p b -> length (pf_received p) = Z.to_nat harmonic_records_per_family ->
  hs_sequence (pf_snapshot p) = hc_sequence c -> 0 <= record_index c < harmonic_records_per_family ->
  harmonic_matches
    (mkPartial (mkSpectrum (hc_provenance c) channels) (<[Z.to_nat (record_index c) := true]> (pf_received p)) (pf_received_count p + 1))
    (mkPendingHarmonic (ph_sequence b) (<[Z.to_nat (record_index c) := Some sr]> (ph_records b)) (ph_count b + 1)).
Proof.
  intros (Hs & Hc & Hl & Hm) Hlen Hseq Hr. split_and!; simpl.
  - rewrite Hs, Hseq. done.
  - lia.
  - by rewrite length_insert.
  - intros k Hk. destruct (decide (k = Z.to_nat (record_index c))) as [->|Hne].
    + by rewrite !list_lookup_insert_eq by lia.
    + rewrite !list_lookup_insert_ne by done. by apply Hm.
Qed.

Lemma sound_buffer rd record c index q assembly incomplete p0 family channels history i p :
  families_but index i -> harmonic_history (c :: history) (hq_assembler q) ->
  harmonic_matches p0 (harmonic_buffer (hq_pending q) (hc_sequence c)) ->
  ph_sequence (harmonic_buffer (hq_pending q) (hc_sequence c)) = hc_sequence c ->
  family_of family p0 -> chunk_ok c -> hc_provenance c = hs_provenance (pf_snapshot p0) ->
  (record_index c ∉ map record_index family) ->
  let p1 := mkPartial (mkSpectrum (hc_provenance c) channels)
              (<[Z.to_nat (record_index c) := true]> (pf_received p0)) (pf_received_count p0 + 1) in
  family_of (c :: family) p1 ->
  (hq_assembler q, Ok assembly) =
    (if pf_received_count p1 =? harmonic_records_per_family
     then (mkHarmonicAssembler None (Some (hc_sequence c)), Ok (mkHarmonicUpdate incomplete (Some (pf_snapshot p1))))
     else (mkHarmonicAssembler (Some p1) (ha_last_completed_sequence (hq_assembler q)), Ok (mkHarmonicUpdate incomplete None))) ->
  sound_outcome (buffer_chunk tb rd record c index q assembly i p).
Proof.
  intros Hi Hh Hm Hseq Hfam Hok Hprov Hnew p1 Hfam1 Hacc. unfold buffer_chunk.
  destruct (stamp_block _ _ _) as [stamped|] eqn:Es; [|by eapply sound_stamp].
  fold (harmonic_buffer (hq_pending q) (hc_sequence c)).
  set (b := harmonic_buffer (hq_pending q) (hc_sequence c)) in *.
  pose proof (record_index_range c Hok) as Hr.
  assert (Hu : u16 (record_index c) = record_index c).
  { apply (wrap_id 16). unfold harmonic_records_per_family, harmonic_channel_count, harmonic_chunks_per_channel in Hr. lia. }
  rewrite Hu. pose proof Hm as (Hs & Hc & Hl & Hbits).
  assert (Hnone : ph_records b !! Z.to_nat (record_index c) = Some None).
  { specialize (Hbits (Z.to_nat (record_index c)) ltac:(lia)). rewrite (fo_received _ _ Hfam) in Hbits by lia.
    rewrite Z2Nat.id in Hbits by lia. rewrite (bool_decide_false (record_index c ∈ _)) in Hbits by done. simpl in Hbits.
    destruct (lookup_lt_is_Some_2 (ph_records b) (Z.to_nat (record_index c))) as [[r|] E]; [lia| |done].
    rewrite E in Hbits. by apply bool_decide_eq_false in Hbits as []. }
  rewrite Hnone. set (sr := stream_record _ _ _ _ _ _ _ _). set (b1 := mkPendingHarmonic _ _ _).
  assert (Hm1 : harmonic_matches p1 b1).
  { apply store_harmonic_matches; [done|apply (fo_length _ _ Hfam)|unfold hs_sequence; by rewrite <- Hprov|lia]. }
  destruct (Z.eqb_spec (pf_received_count p1) harmonic_records_per_family) as [He|He];
    injection Hacc as Ha Hassembly; rewrite Hassembly; cbn [hu_completed].
  - apply sound_spectrum; [by apply families_but_set|by exists (c :: history)|simpl; by rewrite Hseq|..].
    + destruct Hm1 as (_ & Hcount & _). congruence.
    + apply Forall_lookup. intros k o Hk. destruct Hm1 as (_ & _ & Hl1 & Hb1). pose proof (lookup_lt_Some _ _ _ Hk) as Hlt.
      rewrite Hl1 in Hlt. specialize (Hb1 k Hlt). rewrite (all_received _ _ k Hfam1 He Hlt), Hk in Hb1. simpl in Hb1.
      by apply bool_decide_eq_true in Hb1.
  - apply sound_ok. apply (families_set index (mkHarmonicPeriod _ _ _ _ _ _) i); [done|]. split; [by exists (c :: history)|].
    unfold harmonic_agrees. simpl. rewrite Ha. simpl. by exists b1.
Qed.


Lemma sound_harmonic rd record i p :
  families_ok i -> record_wf record -> sound_outcome (accept_harmonic tb rd record i p).
Proof.
  intros Hi Hwf. unfold accept_harmonic. destruct (_ ≫= _) as [[c index]|e] eqn:Edec; [|by apply sound_caught].
  apply bind_Ok in Edec as (c' & Hdec & Edec). apply bind_Ok in Edec as (index' & _ & Edec). apply Ok_inj in Edec.
  injection Edec as -> ->.
  destruct (hm_periods (in_harmonic i) !! index) as [q|] eqn:Hq; [|apply sound_undefined].
  destruct (proj1 (Forall_lookup _ _) (proj1 Hi) _ _ Hq) as ([history Hh] & Ha).
  pose proof (decode_harmonic_ok _ _ Hwf Hdec) as Hok.
  destruct (harmonic_accept_cases history (hq_assembler q) c (history_held _ _ Hh) Hok)
    as [[what E]|(incomplete & p0 & family & channels & Hf & Hfam & _ & _ & Hprov & Hnew & Hfam1 & E)].
  - rewrite E. apply sound_caught. apply families_set; [by apply families_but_ok|]. split; [by exists history|done].
  - destruct (harmonic_accept (hq_assembler q) c) as [a [assembly|e]] eqn:Hacc; [|by destruct (_ =? _)].
    destruct (harmonic_buffer_matches _ _ _ _ _ Ha Hf) as [Hm Hseq].
    assert (Hlast : ha_last_completed_sequence a = ha_last_completed_sequence (hq_assembler q) \/ ha_partial a = None).
    { destruct (_ =? _); injection E as -> _; [by right|by left]. }
    eapply (sound_buffer _ _ _ _ _ _ incomplete p0 family channels history);
      [by apply families_but_set, families_but_ok|by eapply hh_accept|done|done|done|done|done|done|exact Hfam1|].
    simpl. cbv zeta in E. destruct (_ =? _); injection E as -> ->; done.
Qed.

(** *** The other records leave the families alone *)
Lemma families_same i j :
  families_ok i -> in_harmonic j = in_harmonic i -> in_energy j = in_energy i -> families_ok j.
Proof. unfold families_ok. by intros ? -> ->. Qed.

Lemma sound_event {T} rd record kind period timing (get : Ingestor -> EventStream T) set note latest i p :
  (forall s j, families_ok j -> families_ok (set s j)) -> (forall j, families_ok j -> families_ok (note j)) ->
  families_ok i -> sound_outcome (publish_event tb rd record kind period timing get set note latest i p).
Proof.
  intros Hset Hnote Hi. unfold publish_event. destruct (pass_sequence _ _) as [tracker|]; [|by apply sound_ok].
  destruct (stamp_block _ _ _) as [stamped|] eqn:Es; [|by eapply sound_stamp].
  destruct (pub_publish _ p) as [[cursor|e] p'] eqn:Ep.
  - apply sound_ok. apply (Hset _ (note _)), Hnote, Hset, Hi.
  - apply sound_throw; [|by apply Hset]. intros what ->. by apply publish_errors in Ep.
Qed.

Lemma track_families rd record i :
  in_harmonic (snd (track_continuity rd record i)) = in_harmonic i /\
  in_energy (snd (track_continuity rd record i)) = in_energy i.
Proof.
  unfold track_continuity, track_frequency_10s_continuity, track_aggregate_continuity, track_ten_minute_continuity,
    track_two_hour_continuity, track_basic_continuity, track.
  by repeat case_match; simplify_eq.
Qed.

Lemma stamp_update_error rd record u e : stamp_update tb rd record u = Throw e -> exists what, e = UndefinedBehaviour what.
Proof.
  unfold stamp_update. intros [He|(t & _ & He)]%bind_Throw.
  - repeat case_match; try done. apply bind_Throw in He as [He|(? & _ & He)]; [by eapply stamp_block_error|done].
  - apply bind_Throw in He as [He|(? & _ & He)]; [|done]. case_match; [|done].
    apply bind_Throw in He as [He|(? & _ & He)]; [by eapply stamp_aggregate_error|done].
Qed.

Lemma sound_interval rd record i p : families_ok i -> sound_outcome (accept_interval registry tb rd record i p).
Proof.
  intros Hi. unfold accept_interval. destruct (track_families rd record i) as [Ht1 Ht2].
  destruct (track_continuity rd record i) as [continuous j]. simpl in Ht1, Ht2.
  pose proof (families_same i j Hi Ht1 Ht2) as Hj. destruct continuous; [|by apply sound_ok].
  destruct (registry_decode _ _ _) as [u|e]; [|destruct e; (by apply sound_ok) || by apply sound_undefined].
  destruct (stamp_update _ _ _ _) as [u'|e] eqn:Es.
  2:{ apply stamp_update_error in Es as [what ->]. apply sound_undefined. }
  destruct (pub_publish _ p) as [[cursor|e] p'] eqn:Ep.
  2:{ destruct e; try (by apply sound_throw); try (by apply publish_errors in Ep).
      destruct (mu_demand u'); [by apply sound_ok|by apply sound_throw]. }
  destruct (authoritative_update u' p') as [u''|e] eqn:Ea.
  - apply sound_ok. apply (families_same j); [done|..]; unfold advance_baseline; by repeat case_match.
  - apply sound_throw; [|done]. intros what ->. unfold authoritative_update in Ea. repeat case_match; try done.
    apply bind_Throw in Ea as [He|(o & _ & He)]; [by eapply demand_errors|by destruct o].
Qed.

Lemma accept_sound configuration rd record i p :
  families_ok i -> record_wf record -> sound_outcome (accept registry tb callback configuration rd record i p).
Proof.
  intros Hi Hwf. unfold accept. destruct (negb _); [by apply sound_ok|]. destruct (_ =? _); [by apply sound_ok|].
  destruct (_ =? _).
  { unfold accept_pq_event. destruct (decode_pq_event_record _ _) as [s|]; [|by apply sound_caught].
    destruct (pq_kind _); by apply sound_ok. }
  destruct (_ =? _).
  { unfold accept_lifecycle. destruct (decode_pq_event_lifecycle_record _) as [s|]; [|by apply sound_caught].
    apply sound_event; [done| |done]. intros j Hj. unfold run_callback. by repeat case_match. }
  destruct (_ =? _).
  { unfold accept_flicker. destruct (decode_flicker_record _) as [s|]; [|by apply sound_caught]. by apply sound_event. }
  destruct (_ =? _).
  { unfold accept_mains. destruct (decode_mains_signal_record _) as [s|]; [|by apply sound_caught]. by apply sound_event. }
  destruct (_ || _); [by apply sound_harmonic|]. destruct (_ =? _); [by apply sound_energy|by apply sound_interval].
Qed.

(** The states of an ingestor: construction, the two resets, and accepted records whatever the
    publisher's state and answer, as long as every evaluation was defined. *)
Inductive ingest_reachable : Ingestor -> Prop :=
  | ir_new : ingest_reachable new_ingestor
  | ir_epoch i : ingest_reachable i -> ingest_reachable (begin_epoch i)
  | ir_clear i : ingest_reachable i -> ingest_reachable (clear_latest i)
  | ir_accept i configuration rd record p result i' p' :
      ingest_reachable i -> record_wf record ->
      accept registry tb callback configuration rd record i p = (result, i', p') ->
      (forall what, result <> Throw (UndefinedBehaviour what)) -> ingest_reachable i'.

Lemma cleared_ok : period_ok no_harmonic_period.
Proof. split; [exists []; constructor|]. by intros b. Qed.

Lemma energy_reset_ok n m k : energy_ok (mkEnergyStream assembler_reset None n m k).
Proof. split_and!; [apply assembler_reset_inv|apply reset_has_part|]. by intros q. Qed.

Lemma reachable_families i : ingest_reachable i -> families_ok i.
Proof.
  assert (Hclear : forall q, period_ok (clear_period q)) by (intros q; split; [exists []; constructor|by intros b]).
  induction 1 as [|i _ _|i _ _|i configuration rd record p result i' p' _ IH Hwf Hacc Hdef].
  - split; [|apply energy_reset_ok]. apply Forall_replicate, cleared_ok.
  - split; [|apply energy_reset_ok]. simpl. rewrite map_map. apply List.Forall_forall.
    intros q (q' & <- & _)%in_map_iff. split; [exists []; constructor|by intros b].
  - split; [|apply energy_reset_ok]. simpl. apply List.Forall_forall. intros q (q' & <- & _)%in_map_iff. apply Hclear.
  - destruct (accept_sound configuration rd record i p IH Hwf) as [_ Hok]. rewrite Hacc in Hok. by apply Hok.
Qed.

(** (C14) The family assemblers and the publication buffers never disagree.  In every reachable
    state, whatever record arrives and however the publisher fails, [accept] does not run into
    one of its [logic_error] checks (a duplicate chunk in the buffer, a complete family with a
    partial or incomplete buffer): the buffer holds exactly the records the assembler counts,
    also after rejected parts, repeated parts, skipped families and failed publications. *)
Theorem ingest_families_consistent configuration rd record i p result i' p' :
  ingest_reachable i -> record_wf record ->
  accept registry tb callback configuration rd record i p = (result, i', p') ->
  (forall what, result <> Throw (LogicError what)) /\
  ((forall what, result <> Throw (UndefinedBehaviour what)) -> families_ok i').
Proof.
  intros Hi Hwf Hacc. pose proof (accept_sound configuration rd record i p (reachable_families i Hi) Hwf) as Hs.
  by rewrite Hacc in Hs.
Qed.
End Families.

(** ** The example of [StreamPublisher] *)
Strategy opaque [accept].

Lemma outcome_eta {A B C} (t : A * B * C) a : t.1.1 = a -> t = (a, t.1.2, t.2).
Proof. by destruct t as [[? ?] ?]; intros <-. Qed.

(** The energy the family made visible. *)
Lemma family_visible : visible family_accepted.1.2 <> visible summary_accepted.1.2.
Proof.
  intros E. apply (f_equal (fun v => map (fun slot => bool_decide (is_Some slot)) (md_latest (vi_meter_data v)))) in E.
  revert E. vm_compute. discriminate.
Qed.

Lemma ingest_durable_first_witness :
  @committed Link example_publisher quadrants_example summary_accepted.2 family_accepted.2.
Proof.
  destruct family_accepted_outcome as (_ & _ & E & _).
  destruct (@ingest_durable_first Link example_publisher example_registry (new_timebase 30) None (mkActive 1 128000)
    example_readings quadrants_example summary_accepted.1.2 summary_accepted.2 (Ok tt) family_accepted.1.2
    family_accepted.2) as [H|[[_ H]|(_ & _ & [[F _]|[F _]])]].
  - exact (outcome_eta family_accepted _ E).
  - destruct (family_visible H).
  - exact H.
  - vm_compute in F. discriminate F.
  - vm_compute in F. discriminate F.
Defined.

Lemma examples_wf : record_wf summary_example /\ record_wf quadrants_example.
Proof. split; apply record_wfb_iff; vm_compute; reflexivity. Qed.

Lemma summary_reachable :
  @ingest_reachable Link example_publisher example_registry (new_timebase 30) None summary_accepted.1.2.
Proof.
  destruct family_accepted_outcome as (E & _).
  eapply (ir_accept _ _ _ _ (mkActive 1 128000) example_readings summary_example (mkLink fresh_service 0));
    [apply ir_new|exact (proj1 examples_wf)|exact (outcome_eta summary_accepted _ E)|done].
Qed.

Lemma ingest_families_consistent_witness : families_ok family_accepted.1.2.
Proof.
  destruct family_accepted_outcome as (_ & _ & E & _).
  destruct (@ingest_families_consistent Link example_publisher (link_publisher_errors working 3)
    example_registry (new_timebase 30) None (mkActive 1 128000) example_readings quadrants_example summary_accepted.1.2
    summary_accepted.2 (Ok tt) family_accepted.1.2 family_accepted.2) as [_ H].
  - exact summary_reachable.
  - exact (proj2 examples_wf).
  - exact (outcome_eta family_accepted _ E).
  - apply H. intros what. discriminate.
Defined.
