(* ===== verification/IngestorContinuity.v ===== *)
(** * Continuity of the ingested streams

    The record streams that share the DMA transport run on independent sequence counters.  This
    file shows that a record touches the continuity of its own stream only, and that the gap
    counters of [RecordIngestor] count exactly the sequence numbers that never arrived (and, for
    the basic stream, the blocks whose sample range does not continue). *)
From stdpp Require Import base list.
From S2P Require Import Prelude MeterSpool StreamService StreamRpc StreamPublisher.
From S2P Require Import MeterTiming RecordFormat MeterRecord MeterData DecodeBlocks DecodeEvents EnergyDemand DecoderRegistry HarmonicSpectrum.
From S2P Require Import RecordIngestor.

Inductive Stream :=
  | st_basic | st_aggregate | st_ten_minute | st_two_hour | st_frequency_10s | st_lifecycle | st_flicker | st_mains.

#[export] Instance Stream_eq_dec : EqDecision Stream.
Proof. solve_decision. Defined.

(** The baseline and gap counter of a stream. *)
Definition stream_tracker (s : Stream) (i : Ingestor) : Tracker :=
  match s with
  | st_basic => mkTracker (sequence <$> bs_latest_record (in_basic i)) (bs_sequence_gaps (in_basic i))
  | st_aggregate => as_tracker (in_aggregate i)
  | st_ten_minute => in_ten_minute i
  | st_two_hour => in_two_hour i
  | st_frequency_10s => in_frequency_10s i
  | st_lifecycle => es_tracker (in_lifecycle i)
  | st_flicker => es_tracker (in_flicker i)
  | st_mains => es_tracker (in_mains i)
  end.

(** The stream whose sequence a record advances; siblings, previews and families advance none. *)
Definition stream_of (record : MeterRecord) : option Stream :=
  let f := record_format record in
  if f =? meter_periodic_format then Some st_basic
  else if f =? meter_aggregate_format then Some st_aggregate
  else if f =? meter_ten_minute_format then Some st_ten_minute
  else if f =? meter_two_hour_format then Some st_two_hour
  else if f =? meter_frequency_10s_format then Some st_frequency_10s
  else if f =? meter_pq_event_lifecycle_format then Some st_lifecycle
  else if f =? meter_flicker_format then Some st_flicker
  else if f =? meter_mains_signal_format then Some st_mains
  else None.

Definition grow (gaps missing : Z) : Z := if missing =? 0 then gaps else add64 gaps missing.

(** A consecutive basic block that does not start where the last one ended. *)
Definition range_break (i : Ingestor) (record : MeterRecord) : bool :=
  match bs_latest_record (in_basic i) with
  | Some previous =>
      negb ((first_sample_index record =? u64 (first_sample_index previous + block_sample_count previous)) ||
            intentional_utc_overlap record previous)
  | None => false
  end.

(** The records a gap stands for; [None] for a stale one. *)
Definition missing (s : Stream) (i : Ingestor) (record : MeterRecord) : option Z :=
  match continuity (tr_last (stream_tracker s i)) (sequence record) with
  | Stale => None
  | Gap distance => Some distance
  | Continuous => Some (if bool_decide (s = st_basic) && range_break i record then 1 else 0)
  end.

(** *** What the counters should count *)

(** The sequence numbers skipped between [last] and the records of a stream, in the 32-bit
    numbering of the producer. *)
Fixpoint lost (last : Z) (records : list MeterRecord) : Z :=
  match records with
  | [] => 0
  | r :: records => (sequence r - last - 1) mod 2 ^ 32 + lost (sequence r) records
  end.

(** The block [r] starts where [previous] ended, or is a block restarted at a UTC boundary that
    covers the end of [previous] and goes beyond it. *)
Definition continues (previous r : MeterRecord) : bool :=
  let next := (first_sample_index previous + block_sample_count previous) mod 2 ^ 64 in
  let previous_last := (next - 1) mod 2 ^ 64 in
  let first := first_sample_index r in
  let last := first + block_sample_count r - 1 in
  (first =? next) ||
  tw_utc_resynchronized (timing r) && (1 <=? block_sample_count r) && (last <? 2 ^ 64) &&
  (first_sample_index previous <? first) && (first <=? previous_last) && (previous_last <? last).

(** The pairs of basic blocks with consecutive sequence numbers of which the second does not
    continue the first. *)
Fixpoint breaks (previous : MeterRecord) (records : list MeterRecord) : Z :=
  match records with
  | [] => 0
  | r :: records =>
      (if (sequence r =? (sequence previous + 1) mod 2 ^ 32) && negb (continues previous r) then 1 else 0) +
      breaks r records
  end.

Definition range_breaks (s : Stream) (i : Ingestor) (records : list MeterRecord) : Z :=
  match s, bs_latest_record (in_basic i) with
  | st_basic, Some previous => breaks previous records
  | _, _ => 0
  end.

Definition of_stream (s : Stream) (l : list MeterRecord) : list MeterRecord :=
  filter (fun r => stream_of r = Some s) l.

Lemma overlap_spec previous r :
  record_wf r ->
  (first_sample_index r =? u64 (first_sample_index previous + block_sample_count previous)) ||
  intentional_utc_overlap r previous = continues previous r.
Proof.
  intros Hr. unfold continues, intentional_utc_overlap. cbv zeta.
  set (next := u64 (first_sample_index previous + block_sample_count previous)).
  change ((first_sample_index previous + block_sample_count previous) mod 2 ^ 64) with next.
  change ((next - 1) mod 2 ^ 64) with (u64 (next - 1)).
  pose proof (word_fits r 6 Hr) as Hc. change (word r 6) with (block_sample_count r) in Hc.
  assert (Hf : 0 <= first_sample_index r) by apply (unsigned64_fits r 9 Hr).
  f_equal. set (c := block_sample_count r) in *. set (f := first_sample_index r) in *.
  destruct (tw_utc_resynchronized (timing r)); [cbn [andb]|done].
  destruct (Z.eqb_spec c 0) as [Hz|Hz].
  { rewrite Hz. done. }
  rewrite (wrap_id 32 (c - 1)) by lia. rewrite (proj2 (Z.leb_le 1 c)) by lia. cbn [negb andb].
  change UINT64_MAX with (2 ^ 64 - 1).
  destruct (Z.leb_spec f (2 ^ 64 - 1 - (c - 1))) as [Hl|Hl].
  - rewrite (proj2 (Z.ltb_lt (f + c - 1) (2 ^ 64))), (wrap_id 64 (f + c - 1)) by lia. done.
  - rewrite (proj2 (Z.ltb_ge (f + c - 1) (2 ^ 64))) by lia. done.
Qed.

Definition same_trackers (i j : Ingestor) : Prop := forall s, stream_tracker s j = stream_tracker s i.

Section Continuity.
Context {P : Type} `{MeterRecordPublisher P}.
Context (registry : MeterDecoderRegistry) (tb : MeasurementTimebase).
Context (callback : option (PowerQualityEventLifecycleSnapshot -> result unit)).

(** What one record may do to the trackers: nothing, or count what its own stream misses and,
    when the record is accepted, become that stream's baseline. *)
Definition tracked (record : MeterRecord) (i : Ingestor) (o : Outcome (P := P)) : Prop :=
  same_trackers i (snd (fst o)) \/
  exists s d, stream_of record = Some s /\ missing s i record = Some d /\
    (forall s', s' <> s -> stream_tracker s' (snd (fst o)) = stream_tracker s' i) /\
    tr_gaps (stream_tracker s (snd (fst o))) = grow (tr_gaps (stream_tracker s i)) d /\
    (tr_last (stream_tracker s (snd (fst o))) = tr_last (stream_tracker s i) \/
     (fst (fst o) = Ok tt /\ tr_last (stream_tracker s (snd (fst o))) = Some (sequence record))).

Lemma tracked_caught rd record e i j p : same_trackers i j -> tracked record i (caught rd record e j p).
Proof. intros Hs. left. intros s. rewrite <- Hs. by destruct e, s. Qed.

Lemma same_harmonic rd record i p : tracked record i (accept_harmonic tb rd record i p).
Proof.
  left. unfold accept_harmonic, buffer_chunk, publish_spectrum, caught.
  repeat (case_match; simplify_eq); intros s; by destruct s.
Qed.

Lemma same_energy rd record i p : tracked record i (accept_energy tb rd record i p).
Proof.
  left. unfold accept_energy, publish_energy, caught.
  repeat (case_match; simplify_eq); intros s; by destruct s.
Qed.

Lemma pass_sequence_spec t received :
  pass_sequence t received =
    match continuity (tr_last t) received with
    | Stale => None
    | Gap distance => Some (mkTracker (tr_last t) (add64 (tr_gaps t) distance))
    | Continuous => Some t
    end.
Proof.
  unfold pass_sequence, continuity. destruct t as [[last|] gaps]; [|done]. simpl.
  set (d := u32 (received - u32 (last + 1))). assert (Hd : 0 <= d < 2 ^ 32) by (apply wrap_range; lia).
  unfold sign. rewrite (wrap_id 32 d) by done. cbv zeta. change (32 - 1) with 31.
  destruct (Z.ltb_spec d (2 ^ 31)).
  - rewrite (proj2 (Z.ltb_ge d 0)) by lia. destruct (Z.eqb_spec d 0) as [->|]; [done|]. by rewrite (proj2 (Z.ltb_lt 0 d)) by lia.
  - rewrite (proj2 (Z.ltb_lt _ 0)) by lia. by rewrite (proj2 (Z.eqb_neq d 0)) by lia.
Qed.

(** The decoders keep the sequence of the record. *)
Ltac decoded_tail H := repeat (apply bind_Ok in H as (_ & _ & H)); by apply Ok_inj in H as <-.

Lemma lifecycle_sequence record s : decode_pq_event_lifecycle_record record = Ok s -> ls_sequence s = sequence record.
Proof. intros H'. unfold decode_pq_event_lifecycle_record in H'. cbv zeta in H'. decoded_tail H'. Qed.

Lemma flicker_sequence record s : decode_flicker_record record = Ok s -> fs_sequence s = sequence record.
Proof. intros H'. unfold decode_flicker_record in H'. cbv zeta in H'. decoded_tail H'. Qed.

Lemma mains_sequence record s : decode_mains_signal_record record = Ok s -> mns_sequence s = sequence record.
Proof. intros H'. unfold decode_mains_signal_record in H'. cbv zeta in H'. decoded_tail H'. Qed.

(** An event stream: the getter and setter of its members, seen through the trackers. *)
Definition event_members {T} (s : Stream) (get : Ingestor -> EventStream T) (set : EventStream T -> Ingestor -> Ingestor) : Prop :=
  s <> st_basic /\
  (forall i, stream_tracker s i = es_tracker (get i)) /\ (forall v i, get (set v i) = v) /\
  (forall v i s', s' <> s -> stream_tracker s' (set v i) = stream_tracker s' i).

Lemma missing_pass s i record t :
  s <> st_basic -> pass_sequence (stream_tracker s i) (sequence record) = Some t ->
  exists d, missing s i record = Some d /\ tr_gaps t = grow (tr_gaps (stream_tracker s i)) d /\
    tr_last t = tr_last (stream_tracker s i).
Proof.
  intros Hs. rewrite pass_sequence_spec. unfold missing, grow, continuity.
  destruct (tr_last (stream_tracker s i)) as [last|] eqn:El; [|intros [= <-]].
  - set (d := u32 (sequence record - u32 (last + 1))). destruct (Z.eqb_spec d 0) as [Hz|Hz].
    + intros [= <-]. exists 0. by rewrite bool_decide_false.
    + destruct (Z.ltb_spec d (2 ^ 31)); [|done]. intros [= <-]. exists d. simpl. by rewrite (proj2 (Z.eqb_neq d 0)).
  - exists 0. rewrite bool_decide_false by done. by rewrite El.
Qed.

Lemma tracked_event {T} s rd record kind period timing (get : Ingestor -> EventStream T) set note latest i p :
  stream_of record = Some s -> event_members s get set -> bt_sequence timing = sequence record ->
  (forall j, same_trackers j (note j)) ->
  tracked record i (publish_event tb rd record kind period timing get set note latest i p).
Proof.
  intros Hs (Hb & Hget & Hset & Hother) Hseq Hnote. unfold publish_event. rewrite Hseq.
  destruct (pass_sequence (es_tracker (get i)) (sequence record)) as [t|] eqn:Et; [|by left].
  rewrite <- Hget in Et. destruct (missing_pass s i record t Hb Et) as (d & Hd & Hg & Hl).
  set (i1 := set _ i).
  assert (H1 : stream_tracker s i1 = t) by (rewrite Hget; unfold i1; by rewrite Hset).
  assert (H2 : forall s', s' <> s -> stream_tracker s' i1 = stream_tracker s' i) by (intros; by apply Hother).
  destruct (stamp_block _ _ _); [|right; exists s, d; split_and!; simpl; rewrite ?H1; auto].
  destruct (pub_publish _ p) as [[cursor|e] p']; [|right; exists s, d; split_and!; simpl; rewrite ?H1; auto].
  right. exists s, d. cbn [fst snd]. set (i2 := set _ (note i1)).
  assert (H3 : forall s', stream_tracker s' (set_last_record_time (Some (rd_done rd)) (count_record i2)) = stream_tracker s' i2)
    by (intros []; done).
  assert (H4 : stream_tracker s i2 = mkTracker (Some (sequence record)) (tr_gaps t)) by (rewrite Hget; unfold i2; by rewrite Hset).
  rewrite H3, H4. split_and!; [done|done| |done|by right].
  intros s' Hs'. rewrite H3. unfold i2. rewrite Hother by done. rewrite Hnote. by apply H2.
Qed.

#[local] Arguments continuity : simpl never.

(** The formats that reach the interval path, by stream. *)
Definition interval_class (record : MeterRecord) : Prop :=
  match stream_of record with
  | None => negb (sibling record) && negb (open_preview record) = false /\ aggregate record = false /\
      ten_minute record = false /\ two_hour record = false /\ frequency_10s record = false /\
      (record_format record =? meter_periodic_format) = false
  | Some st_basic => sibling record = false /\ open_preview record = false /\ aggregate record = false /\
      ten_minute record = false /\ two_hour record = false /\ frequency_10s record = false /\
      (record_format record =? meter_periodic_format) = true
  | Some st_aggregate => sibling record = false /\ open_preview record = false /\ frequency_10s record = false /\
      aggregate record = true
  | Some st_ten_minute => sibling record = false /\ open_preview record = false /\ frequency_10s record = false /\
      aggregate record = false /\ ten_minute record = true
  | Some st_two_hour => sibling record = false /\ open_preview record = false /\ frequency_10s record = false /\
      aggregate record = false /\ ten_minute record = false /\ two_hour record = true
  | Some st_frequency_10s => sibling record = false /\ open_preview record = false /\ aggregate record = false /\
      ten_minute record = false /\ two_hour record = false /\ frequency_10s record = true
  | Some _ => False
  end.

Definition handled_formats : list Z :=
  [meter_single_cycle_format; meter_pq_event_format; meter_pq_event_lifecycle_format; meter_flicker_format;
   meter_mains_signal_format; meter_harmonic_format; meter_harmonic_aggregate_format; meter_energy_format].

Lemma interval_classes record :
  header_valid record = true -> format_in handled_formats record = false -> interval_class record.
Proof.
  intros Hh Hf. unfold header_valid in Hh. apply andb_true_iff in Hh as [Hh _]. apply andb_true_iff in Hh as [_ Hh].
  unfold interval_class, stream_of, sibling, open_preview, aggregate, ten_minute, two_hour, frequency_10s, format_in in *.
  apply existsb_exists in Hh as (f & Hin & Ef%Z.eqb_eq). rewrite Ef in *. revert Hf. clear Ef. unfold known_formats in Hin. cbn [In] in Hin.
  repeat (destruct Hin as [<-|Hin]; [vm_compute; by intros ?|]). done.
Qed.

Lemma missing_track s i record :
  s <> st_basic ->
  missing s i record = match continuity (tr_last (stream_tracker s i)) (sequence record) with
    | Stale => None | Gap d => Some d | Continuous => Some 0 end.
Proof. intros Hs. unfold missing. by rewrite bool_decide_false. Qed.

Lemma grow_gap last received gaps d : continuity last received = Gap d -> grow gaps d = add64 gaps d.
Proof.
  unfold continuity, grow. destruct last as [last|]; [|done]. cbv zeta.
  destruct (Z.eqb_spec (u32 (received - u32 (last + 1))) 0); [done|]. case_match; [|done]. intros [= <-].
  by rewrite (proj2 (Z.eqb_neq _ _)).
Qed.

(** What the tracking of a record leaves: the gap counted and the baseline as it was. *)
Definition track_post (s : Stream) (i : Ingestor) (record : MeterRecord) (o : bool * Ingestor) : Prop :=
  match missing s i record with
  | None => fst o = false /\ same_trackers i (snd o)
  | Some d =>
      fst o = true /\ (forall s', s' <> s -> stream_tracker s' (snd o) = stream_tracker s' i) /\
      tr_gaps (stream_tracker s (snd o)) = grow (tr_gaps (stream_tracker s i)) d /\
      tr_last (stream_tracker s (snd o)) = tr_last (stream_tracker s i)
  end.

Lemma track_spec s rd record get set i :
  s <> st_basic -> (forall j, stream_tracker s j = get j) ->
  (forall t j, get (set t j) = t) -> (forall t j s', s' <> s -> stream_tracker s' (set t j) = stream_tracker s' j) ->
  track_post s i record (track rd record (sequence record) get set i).
Proof.
  intros Hb Hget Hset Hother. unfold track_post, track. rewrite missing_track, Hget by done.
  destruct (continuity (tr_last (get i)) (sequence record)) as [|d|] eqn:E; [by rewrite Hget| |].
  - simpl. rewrite !Hget, Hset. simpl. rewrite (grow_gap _ _ _ _ E). split_and!; auto.
  - split; [done|]. by intros [].
Qed.

Lemma track_basic_spec rd record i : track_post st_basic i record (track_basic_continuity rd record i).
Proof.
  unfold track_post, track_basic_continuity, missing, range_break. rewrite bool_decide_true by done. simpl.
  destruct (bs_latest_record (in_basic i)) as [previous|] eqn:Ep; simpl; [|by rewrite Ep].
  destruct (continuity (Some (sequence previous)) (sequence record)) as [|d|] eqn:E.
  - destruct (_ || _); simpl; rewrite ?Ep; simpl; split_and!; try done; intros s' Hs'; by destruct s'.
  - simpl. rewrite (grow_gap _ _ _ _ E). split_and!; try done. intros s' Hs'. by destruct s'.
  - split; [done|]. by intros [].
Qed.

Lemma track_continuity_spec rd record i :
  interval_class record ->
  match stream_of record with
  | None => track_continuity rd record i = (true, i)
  | Some s => track_post s i record (track_continuity rd record i)
  end.
Proof.
  unfold interval_class, track_continuity. destruct (stream_of record) as [[]|]; try done.
  - intros (-> & -> & -> & -> & -> & -> & _). apply track_basic_spec.
  - intros (-> & -> & -> & ->). apply track_spec; try done. by intros ? ? [].
  - intros (-> & -> & -> & -> & ->). apply track_spec; try done. by intros ? ? [].
  - intros (-> & -> & -> & -> & -> & ->). apply track_spec; try done. by intros ? ? [].
  - intros (-> & -> & -> & -> & -> & ->). apply track_spec; try done. by intros ? ? [].
  - by intros (-> & _).
Qed.

Lemma advance_spec rd record u i :
  interval_class record ->
  match stream_of record with
  | None => same_trackers i (advance_baseline rd record u i)
  | Some s =>
      stream_tracker s (advance_baseline rd record u i) = mkTracker (Some (sequence record)) (tr_gaps (stream_tracker s i)) /\
      forall s', s' <> s -> stream_tracker s' (advance_baseline rd record u i) = stream_tracker s' i
  end.
Proof.
  unfold interval_class, advance_baseline. destruct (stream_of record) as [[]|]; try done.
  - intros (_ & -> & -> & -> & -> & -> & ->). split; [done|]. by intros [].
  - intros (_ & _ & _ & ->). split; [done|]. by intros [].
  - intros (_ & _ & _ & -> & ->). split; [done|]. by intros [].
  - intros (_ & _ & _ & -> & -> & ->). split; [done|]. by intros [].
  - intros (_ & _ & -> & -> & -> & ->). split; [done|]. by intros [].
  - intros (_ & -> & -> & -> & -> & ->). by rewrite andb_false_r.
Qed.

Lemma same_refl i : same_trackers i i.
Proof. by intros s. Qed.

(** A record that passed the tracking and then failed leaves the gap counted. *)
Lemma tracked_failed s i j record (o : Outcome (P := P)) d :
  stream_of record = Some s -> missing s i record = Some d ->
  (forall s', s' <> s -> stream_tracker s' j = stream_tracker s' i) ->
  tr_gaps (stream_tracker s j) = grow (tr_gaps (stream_tracker s i)) d ->
  tr_last (stream_tracker s j) = tr_last (stream_tracker s i) ->
  same_trackers j (snd (fst o)) -> tracked record i o.
Proof.
  intros Hs Hd Hother Hg Hl Hsame. right. exists s, d. rewrite !Hsame. split_and!; try done; [|by left].
  intros s' Hs'. rewrite Hsame. by apply Hother.
Qed.

(** The interval path after the tracking, seen through the trackers. *)
Lemma interval_tail rd record j p :
  interval_class record ->
  let o := match registry_decode registry record (rd_received rd) with
    | Throw (UndefinedBehaviour what) => (Throw (UndefinedBehaviour what), j, p)
    | Throw _ => (Ok tt, note_invalid_record j, p)
    | Ok update =>
        match stamp_update tb rd record update with
        | Throw e => (Throw e, j, p)
        | Ok update =>
            match pub_publish (update_record rd record update) p with
            | (Throw (Conflict what), p) =>
                match mu_demand update with
                | None => (Throw (Conflict what), j, p)
                | Some _ => (Ok tt, reject rd record j, p)
                end
            | (Throw e, p) => (Throw e, j, p)
            | (Ok _, p) =>
                match authoritative_update update p with
                | Throw e => (Throw e, j, p)
                | Ok update =>
                    let j := set_meter_data (meter_data_apply (rd_apply rd) update (in_meter_data j)) j in
                    let j := advance_baseline rd record update j in
                    (Ok tt, count_record (set_last_record_time (Some (rd_done rd)) j), p)
                end
            end
        end
    end : Outcome (P := P) in
  same_trackers j (snd (fst o)) \/
  exists u, fst (fst o) = Ok tt /\
    forall s, stream_tracker s (snd (fst o)) =
      stream_tracker s (advance_baseline rd record u (set_meter_data (meter_data_apply (rd_apply rd) u (in_meter_data j)) j)).
Proof.
  intros Hc. cbv zeta. destruct (registry_decode _ _ _) as [u|e]; [|left; destruct e; by intros []].
  destruct (stamp_update _ _ _ _) as [u'|e]; [|left; apply same_refl].
  destruct (pub_publish _ p) as [[cursor|e] p'].
  - destruct (authoritative_update u' p') as [u''|e]; [|left; apply same_refl].
    right. exists u''. split; [done|]. by intros [].
  - left. destruct e; try apply same_refl. destruct (mu_demand u'); [by intros []|apply same_refl].
Qed.

Lemma tracked_interval rd record i p :
  header_valid record = true -> format_in handled_formats record = false ->
  tracked record i (accept_interval registry tb rd record i p).
Proof.
  intros Hh Hf. pose proof (interval_classes record Hh Hf) as Hc. unfold accept_interval.
  pose proof (track_continuity_spec rd record i Hc) as Ht. destruct (stream_of record) as [s|] eqn:Es.
  - unfold track_post in Ht. destruct (track_continuity rd record i) as [[|] j]; simpl in Ht;
      destruct (missing s i record) as [d|] eqn:Ed; try (by destruct Ht).
    + destruct Ht as (_ & Hother & Hg & Hl).
      destruct (interval_tail rd record j p Hc) as [Hsame|(u & Hok & Hadv)]; [by apply (tracked_failed s i j record _ d)|].
      pose proof (advance_spec rd record u (set_meter_data (meter_data_apply (rd_apply rd) u (in_meter_data j)) j) Hc) as Ha.
      rewrite Es in Ha. destruct Ha as [Ha1 Ha2]. right. exists s, d. rewrite !Hadv, Ha1.
      assert (Hset : forall v s', stream_tracker s' (set_meter_data v j) = stream_tracker s' j) by (by intros ? []).
      rewrite Hset. split_and!; [done|done| |done|right; by split].
      intros s' Hs'. rewrite Hadv, Ha2, Hset by done. by apply Hother.
    + by left; apply Ht.
  - rewrite Ht. destruct (interval_tail rd record i p Hc) as [Hsame|(u & Hok & Hadv)]; [by left|].
    pose proof (advance_spec rd record u (set_meter_data (meter_data_apply (rd_apply rd) u (in_meter_data i)) i) Hc) as Ha.
    rewrite Es in Ha. left. intros s. rewrite Hadv, Ha. by destruct s.
Qed.

Lemma accept_tracked configuration rd record i p :
  tracked record i (accept registry tb callback configuration rd record i p).
Proof.
  unfold accept. destruct (matches_configuration configuration record) eqn:Em; cbn [negb]; [|left; by intros []].
  apply andb_true_iff in Em as [Em _]. apply andb_true_iff in Em as [Hh _].
  destruct (Z.eqb_spec (record_format record) meter_single_cycle_format) as [|F1]; [left; by intros []|].
  destruct (Z.eqb_spec (record_format record) meter_pq_event_format) as [|F2].
  { unfold accept_pq_event. destruct (decode_pq_event_record _ _) as [s|]; [|by apply tracked_caught].
    left. destruct (pq_kind _); by intros []. }
  destruct (Z.eqb_spec (record_format record) meter_pq_event_lifecycle_format) as [F|F3].
  { unfold accept_lifecycle. destruct (decode_pq_event_lifecycle_record _) as [s|] eqn:E; [|by apply tracked_caught].
    apply (tracked_event st_lifecycle); [unfold stream_of; by rewrite F|by repeat split; intros; destruct_or?; repeat (case_match; simplify_eq); try destruct s'|by apply lifecycle_sequence|].
    intros j. unfold run_callback. by repeat case_match; intros []. }
  destruct (Z.eqb_spec (record_format record) meter_flicker_format) as [F|F4].
  { unfold accept_flicker. destruct (decode_flicker_record _) as [s|] eqn:E; [|by apply tracked_caught].
    apply (tracked_event st_flicker); [unfold stream_of; by rewrite F|by repeat split; intros; try destruct s'|by apply flicker_sequence|intros j; apply same_refl]. }
  destruct (Z.eqb_spec (record_format record) meter_mains_signal_format) as [F|F5].
  { unfold accept_mains. destruct (decode_mains_signal_record _) as [s|] eqn:E; [|by apply tracked_caught].
    apply (tracked_event st_mains); [unfold stream_of; by rewrite F|by repeat split; intros; try destruct s'|by apply mains_sequence|intros j; apply same_refl]. }
  destruct (_ || _) eqn:F6; [apply same_harmonic|]. apply orb_false_iff in F6 as [F6 F7].
  destruct (Z.eqb_spec (record_format record) meter_energy_format) as [|F8]; [apply same_energy|].
  apply tracked_interval; [done|]. unfold format_in, handled_formats. simpl.
  rewrite F6, F7. by rewrite !(proj2 (Z.eqb_neq _ _)) by done.
Qed.

(** A sequence of calls in which every record of the stream was accepted: it was not stale and
    became the baseline.  Records of other streams may come between, with any outcome. *)
Inductive accepted_run (s : Stream) : Ingestor -> list MeterRecord -> Ingestor -> Prop :=
  | ar_nil i : accepted_run s i [] i
  | ar_cons i configuration rd record p result i1 p' l i2 :
      accept registry tb callback configuration rd record i p = (result, i1, p') ->
      (stream_of record = Some s ->
         continuity (tr_last (stream_tracker s i)) (sequence record) <> Stale /\
         tr_last (stream_tracker s i1) = Some (sequence record)) ->
      accepted_run s i1 l i2 -> accepted_run s i (record :: l) i2.

Lemma wrap_congr w x y : 0 <= w -> wrap w x = wrap w y <-> exists k, x = y + k * 2 ^ w.
Proof.
  intros Hw. unfold wrap. pose proof (Z.pow_pos_nonneg 2 w ltac:(lia) Hw) as Hp. split.
  - intros E. exists (x / 2 ^ w - y / 2 ^ w). pose proof (Z.div_mod x (2 ^ w)). pose proof (Z.div_mod y (2 ^ w)). nia.
  - intros [k ->]. by rewrite Z.mod_add by lia.
Qed.

Lemma repeated_stale last : 0 <= last < 2 ^ 32 -> continuity (Some last) last = Stale.
Proof.
  intros Hl. unfold continuity. cbv zeta.
  assert (E : u32 (last - u32 (last + 1)) = 2 ^ 32 - 1).
  { rewrite <- (wrap_id 32 (2 ^ 32 - 1)) by lia. apply wrap_congr; [lia|]. unfold u32, wrap.
    pose proof (Z.div_mod (last + 1) (2 ^ 32) ltac:(lia)). exists ((last + 1) / 2 ^ 32 - 1). lia. }
  by rewrite E.
Qed.

Lemma grow_wrap gaps d : 0 <= gaps < 2 ^ 64 -> grow gaps d = u64 (gaps + d) /\ 0 <= grow gaps d < 2 ^ 64.
Proof.
  intros Hg. unfold grow, add64. destruct (Z.eqb_spec d 0) as [->|].
  - split; [|done]. rewrite Z.add_0_r. symmetry. by apply wrap_id.
  - split; [done|]. by apply wrap_range.
Qed.

(** *** The basic stream's last record *)
Definition keeps_latest (record : MeterRecord) (i : Ingestor) (o : Outcome (P := P)) : Prop :=
  bs_latest_record (in_basic (snd (fst o))) = bs_latest_record (in_basic i) \/
  (bs_latest_record (in_basic (snd (fst o))) = Some record /\ stream_of record = Some st_basic).

Lemma latest_event {T} rd record kind period timing (get : Ingestor -> EventStream T) set note latest i p :
  (forall v j, in_basic (set v j) = in_basic j) -> (forall j, in_basic (note j) = in_basic j) ->
  keeps_latest record i (publish_event tb rd record kind period timing get set note latest i p).
Proof.
  intros Hset Hnote. left. unfold publish_event. destruct (pass_sequence _ _); [|done].
  destruct (stamp_block _ _ _); [|cbn; by rewrite Hset].
  destruct (pub_publish _ _) as [[|] ?]; cbn; by rewrite ?Hset, ?Hnote, ?Hset.
Qed.

Lemma latest_track rd record i :
  bs_latest_record (in_basic (snd (track_continuity rd record i))) = bs_latest_record (in_basic i).
Proof.
  unfold track_continuity, track_basic_continuity, track_aggregate_continuity, track_ten_minute_continuity,
    track_two_hour_continuity, track_frequency_10s_continuity, track.
  repeat case_match; simplify_eq; try done; simpl; congruence.
Qed.

Lemma latest_interval rd record i p :
  keeps_latest record i (accept_interval registry tb rd record i p).
Proof.
  unfold keeps_latest, accept_interval. pose proof (latest_track rd record i) as Ht.
  destruct (track_continuity rd record i) as [[|] j]; [|left; exact Ht]. cbn [snd] in Ht. rewrite <- Ht.
  destruct (registry_decode _ _ _) as [u|e]; [|left; by destruct e].
  destruct (stamp_update _ _ _ _) as [u'|e]; [|by left].
  destruct (pub_publish _ _) as [[cursor|e] p']; [|left; destruct e; try done; by destruct (mu_demand u')].
  destruct (authoritative_update _ _) as [u''|e]; [|by left].
  cbn [fst snd]. unfold advance_baseline.
  do 4 (case_match; [by left|]). destruct (negb _ && _) eqn:E; [|by left]. right. split; [done|].
  apply andb_true_iff in E as [_ E]. unfold stream_of. by rewrite E.
Qed.

Lemma accept_latest configuration rd record i p :
  keeps_latest record i (accept registry tb callback configuration rd record i p).
Proof.
  unfold accept. destruct (matches_configuration _ _); cbn [negb]; [|by left].
  destruct (_ =? meter_single_cycle_format); [by left|].
  destruct (_ =? meter_pq_event_format).
  { left. unfold accept_pq_event, caught. repeat case_match; simplify_eq; done. }
  destruct (_ =? meter_pq_event_lifecycle_format).
  { unfold accept_lifecycle, caught. destruct (decode_pq_event_lifecycle_record _); [|left; by repeat case_match].
    apply latest_event; [done|]. intros k. unfold run_callback. by repeat case_match. }
  destruct (_ =? meter_flicker_format).
  { unfold accept_flicker, caught. destruct (decode_flicker_record _); [|left; by repeat case_match]. by apply latest_event. }
  destruct (_ =? meter_mains_signal_format).
  { unfold accept_mains, caught. destruct (decode_mains_signal_record _); [|left; by repeat case_match]. by apply latest_event. }
  destruct (_ || _).
  { left. unfold accept_harmonic, buffer_chunk, publish_spectrum, caught. repeat (case_match; simplify_eq); done. }
  destruct (_ =? meter_energy_format).
  { left. unfold accept_energy, publish_energy, caught. repeat (case_match; simplify_eq); done. }
  apply latest_interval.
Qed.

(** A record that moves its stream on by [d] from [last]. *)
Lemma missing_exact s i record last :
  tr_last (stream_tracker s i) = Some last -> 0 <= last < 2 ^ 32 -> record_wf record ->
  continuity (Some last) (sequence record) <> Stale ->
  missing s i record = Some ((sequence record - last - 1) mod 2 ^ 32 +
    if bool_decide (s = st_basic) && (sequence record =? (last + 1) mod 2 ^ 32) && range_break i record
    then 1 else 0).
Proof.
  intros Hlast Hrange Hr Hns. unfold missing. rewrite Hlast.
  pose proof (word_fits record 3 Hr) as Hq. change (word record 3) with (sequence record) in Hq.
  assert (Hk : (sequence record - last - 1) mod 2 ^ 32 = u32 (sequence record - u32 (last + 1))).
  { unfold u32, wrap. rewrite Zminus_mod_idemp_r. f_equal. lia. }
  unfold continuity in *. cbv zeta in *. rewrite <- Hk in *. clear Hk.
  set (d := (sequence record - last - 1) mod 2 ^ 32) in *.
  assert (Hd : d = 0 <-> sequence record = (last + 1) mod 2 ^ 32).
  { unfold d. split; intros E.
    - rewrite <- (Z.mod_small (sequence record) (2 ^ 32)) by lia.
      apply Z.mod_divide in E as [k E]; [|lia]. replace (sequence record) with (last + 1 + k * 2 ^ 32) by lia.
      by rewrite Z.mod_add by lia.
    - rewrite E. replace ((last + 1) mod 2 ^ 32 - last - 1) with ((last + 1) mod 2 ^ 32 - (last + 1)) by lia.
      rewrite Zminus_mod_idemp_l, Z.sub_diag. done. }
  destruct (Z.eqb_spec d 0) as [Hz|Hz].
  - rewrite (proj2 (Z.eqb_eq (sequence record) _)) by (by apply Hd). rewrite andb_true_r. rewrite Hz. done.
  - rewrite (proj2 (Z.eqb_neq (sequence record) _)) by (by rewrite <- Hd).
    rewrite andb_false_r. cbn [andb]. rewrite Z.add_0_r. by destruct (d <? 2 ^ 31).
Qed.

Lemma last_cons_default (x d : Z) l : List.last (x :: l) d = List.last l x.
Proof.
  revert x d. induction l as [|y l IH]; intros x d; [done|]. change (List.last (y :: l) d = List.last (y :: l) x).
  by rewrite (IH y d), (IH y x).
Qed.

(** (C15) The gap counter of a stream grows by exactly the sequence numbers skipped between the
    records received (32-bit numbering, wrap-around included) and, for the basic stream, by one
    for each pair of consecutively numbered blocks of which the second neither starts where the
    first ended nor is an announced UTC restart; the counter is 64 bits wide.  This is for runs
    in which every record of the stream that arrived was accepted, interleaved in any way with
    records of the other streams, whatever becomes of those; the baseline ends at the last
    record of the stream.  (A record that is refused after its gap was counted has it counted
    again: [refused_gap_counted_twice].) *)
Theorem stream_gap_accounting s i l i' last :
  accepted_run s i l i' -> Forall record_wf l ->
  tr_last (stream_tracker s i) = Some last -> 0 <= last < 2 ^ 32 -> 0 <= tr_gaps (stream_tracker s i) < 2 ^ 64 ->
  let received := of_stream s l in
  tr_gaps (stream_tracker s i') =
    (tr_gaps (stream_tracker s i) + lost last received + range_breaks s i received) mod 2 ^ 64 /\
  tr_last (stream_tracker s i') = Some (List.last (map sequence received) last).
Proof.
  intros Hrun. revert last. induction Hrun as [i|i configuration rd record p result i1 p' l i2 Hacc Hcond Hrun IH];
    intros last Hwf Hlast Hrange Hgaps; unfold of_stream in *.
  { rewrite filter_nil. cbn [map List.last lost]. split; [|done]. unfold range_breaks.
    rewrite <- (Z.mod_small (tr_gaps (stream_tracker s i)) (2 ^ 64)) at 1 by lia. f_equal.
    destruct s; try lia. destruct (bs_latest_record (in_basic i)); cbn; lia. }
  apply list.Forall_cons in Hwf as [Hr Hwf]. pose proof (accept_tracked configuration rd record i p) as Ht.
  pose proof (accept_latest configuration rd record i p) as Hlb.
  rewrite Hacc in Ht, Hlb. unfold tracked in Ht. unfold keeps_latest in Hlb. cbn [fst snd] in Ht, Hlb.
  destruct (decide (stream_of record = Some s)) as [Hs|Hs].
  - destruct (Hcond Hs) as [Hns Hnew]. rewrite Hlast in Hns.
    assert (Hne : tr_last (stream_tracker s i1) <> tr_last (stream_tracker s i)).
    { rewrite Hnew, Hlast. intros [= E]. rewrite E in Hns. by rewrite repeated_stale in Hns. }
    destruct Ht as [Hsame|(s0 & d & Hs0 & Hd & _ & Hg & _)]; [by rewrite Hsame in Hne|].
    assert (s0 = s) as -> by congruence. destruct (grow_wrap _ d Hgaps) as [Hw Hb]. rewrite <- Hg in Hb.
    rewrite (missing_exact s i record last Hlast Hrange Hr Hns) in Hd. injection Hd as Hd.
    destruct (IH (sequence record) Hwf Hnew (word_fits record 3 Hr) Hb) as [E1 E2].
    rewrite filter_cons_True by done. cbn [lost map]. split.
    + rewrite E1, Hg, Hw. unfold u64, wrap. rewrite <- !Z.add_assoc, Zplus_mod_idemp_l. f_equal.
      enough (range_breaks s i (record :: filter (fun r => stream_of r = Some s) l) =
        (if bool_decide (s = st_basic) && (sequence record =? (last + 1) mod 2 ^ 32) && range_break i record
         then 1 else 0) + range_breaks s i1 (filter (fun r => stream_of r = Some s) l)) by lia.
      clear -Hlb Hne Hlast Hr. unfold range_breaks, range_break.
      destruct s; try done. cbn [bool_decide].
      destruct (bs_latest_record (in_basic i)) as [previous|] eqn:Ep;
        [|cbn [stream_tracker tr_last] in Hlast; by rewrite Ep in Hlast].
      cbn [stream_tracker tr_last] in Hlast, Hne. rewrite Ep in Hlast. injection Hlast as <-.
      destruct Hlb as [Hlb|[Hlb _]]; [exfalso; apply Hne; by rewrite Hlb, ?Ep|]. rewrite Hlb. cbn [breaks].
      by rewrite overlap_spec.
    + rewrite E2. f_equal. symmetry. apply last_cons_default.
  - rewrite filter_cons_False by done.
    assert (Hsame : stream_tracker s i1 = stream_tracker s i).
    { destruct Ht as [Hsame|(s0 & d & Hs0 & _ & Hother & _)]; [done|]. apply Hother. intros ->. by destruct Hs. }
    rewrite <- Hsame in *. destruct (IH last Hwf Hlast Hrange Hgaps) as [E1 E2]. split; [|exact E2].
    rewrite E1. unfold range_breaks. destruct s; try done.
    destruct Hlb as [->|[_ Hb]]; [done|by destruct Hs].
Qed.
End Continuity.

(** ** An example: three 150/180-cycle records are lost *)
Definition aggregate_record (sequence : Z) : MeterRecord :=
  build_record [(0, meter_record_magic); (1, meter_aggregate_format); (2, 256); (3, sequence);
    (4, 1); (5, 32000); (6, 96000); (7, 0x7f); (8, 0x2); (9, 1000);
    (13, 15 + 60 * 2 ^ 8 + 180 * 2 ^ 16); (14, 0xfffffffe); (15, 12); (36, 96999)].

Definition aggregate_accept (sequence : Z) : Ingestor -> Link -> result unit * Ingestor * Link :=
  @accept Link example_publisher example_registry (new_timebase 30) None (mkActive 1 32000) example_readings
    (aggregate_record sequence).

Definition before_gap : result unit * Ingestor * Link := aggregate_accept 8 new_ingestor (mkLink fresh_service 0).
Definition after_gap : result unit * Ingestor * Link := aggregate_accept 12 before_gap.1.2 before_gap.2.

Strategy opaque [accept].

Lemma run_eta {A B C} (t : A * B * C) : t = (t.1.1, t.1.2, t.2).
Proof. by destruct t as [[? ?] ?]. Qed.

Lemma gap_trackers :
  stream_tracker st_aggregate before_gap.1.2 = mkTracker (Some 8) 0 /\
  stream_tracker st_aggregate after_gap.1.2 = mkTracker (Some 12) 3.
Proof. split; vm_compute; reflexivity. Qed.

Lemma stream_gap_accounting_witness :
  lost 8 [aggregate_record 12] = 3 /\
  tr_gaps (stream_tracker st_aggregate after_gap.1.2) = 3 /\
  tr_last (stream_tracker st_aggregate after_gap.1.2) = Some 12.
Proof.
  destruct gap_trackers as [E1 E2].
  destruct (@stream_gap_accounting Link example_publisher example_registry (new_timebase 30) None st_aggregate
    before_gap.1.2 [aggregate_record 12] after_gap.1.2 8) as [H1 H2].
  - eapply (ar_cons _ _ _ _ _ (mkActive 1 32000) example_readings (aggregate_record 12) before_gap.2);
      [exact (run_eta after_gap)| |apply ar_nil].
    intros _. rewrite E1, E2. split; [vm_compute; discriminate|vm_compute; reflexivity].
  - apply list.Forall_cons. split; [apply record_wfb_iff; vm_compute; reflexivity|constructor].
  - rewrite E1. reflexivity.
  - lia.
  - rewrite E1. cbn. lia.
  - split; [vm_compute; reflexivity|]. rewrite H1, H2, E1. split; vm_compute; reflexivity.
Defined.

(** A record whose publication fails is counted as a gap without becoming the baseline, so the
    next record counts the same numbers again: 9 to 11 are missing and 12 was refused, but the
    counter says seven. *)
Definition refusing_second (n : nat) : Environment := if (n =? 1)%nat then spool_failing else working n.

Definition refusing_accept (sequence : Z) : Ingestor -> Link -> result unit * Ingestor * Link :=
  @accept Link (link_publisher refusing_second 3) example_registry (new_timebase 30) None (mkActive 1 32000)
    example_readings (aggregate_record sequence).

Lemma refused_gap_counted_twice :
  let first := refusing_accept 8 new_ingestor (mkLink fresh_service 0) in
  let refused := refusing_accept 12 first.1.2 first.2 in
  let next := refusing_accept 13 refused.1.2 refused.2 in
  is_ok refused.1.1 = false /\ next.1.1 = Ok tt /\
  stream_tracker st_aggregate next.1.2 = mkTracker (Some 13) 7.
Proof. vm_compute. split_and!; reflexivity. Qed.
