(* ===== verification/MeterSnapshot.v ===== *)
(** * Meter snapshots

    Models [src/common/mnc/MeterDataProvider/snapshot] (the product-neutral snapshot, the
    request and the provider interface) and the two providers of
    [src/common/msap1/meter/MeterDataProvider/snapshot]: the in-process one, which projects the
    latest decoded view of a period onto the selected attributes, and the one that asks the
    acquisition daemon.  [snapshot_reply] is the part of
    [CaptureCoordinator::meter_snapshot_response] that builds the snapshot: the projection with
    the durable ledger laid over it.  Times are nanoseconds. *)

From stdpp Require Import base list gmap.
From S2P Require Import Prelude MeterTiming MeterAttribute MeterData.
Local Open Scope Z_scope.

(** ** meter_snapshot.hpp *)
Module SnapshotTime.
Inductive TimeQuality := Unsynchronized | Synchronized | Holdover.
End SnapshotTime.

Record MeterSnapshotTiming := mkSnapshotTiming {
  mst_quality : SnapshotTime.TimeQuality;
  mst_utc_start : option Z;
  mst_utc_uncertainty : option Z;
  mst_first_sample_index : option Z;
  mst_sample_count : option Z;
  mst_sample_rate_hz : option Z;
  mst_cycle_count : option Z;
  mst_nominal_frequency_hz : option Z;
  mst_source_interval_count : option Z;
  mst_first_source_sequence : option Z;
  mst_last_source_sequence : option Z;
  mst_expected_end_sample_index : option Z;
  mst_overshoot_samples : option Z;
  mst_time_aligned : option bool;
  mst_contaminated : option bool;
  mst_boundary_valid : option bool }.

Record MeterAttributeValue := mkValue {
  mav_attribute : MeterAttributeKey;
  mav_unit : Unit.MeterUnit;
  mav_quality : ReadingQuality;
  mav_value : Z;
  mav_source_sequence : Z;
  mav_measured_at : Z;
  mav_sample_count : Z;
  mav_calculation_window : Z }.

Record EnergySnapshotMetadata := mkEnergyMetadata {
  esm_session_id : Z;
  esm_reset_epoch : Z;
  esm_last_sample_index : Z;
  esm_accepted_samples : Z;
  esm_skipped_samples : Z;
  esm_accepted_blocks : Z;
  esm_skipped_blocks : Z;
  esm_saturated : bool;
  esm_incomplete_input : bool;
  esm_discontinuity : bool }.

Record DemandSnapshotMetadata := mkDemandMetadata {
  dsm_session_id : Z;
  dsm_peak_reset_epoch : Z;
  dsm_last_sample_index : Z;
  dsm_interval_anchor_sample : Z;
  dsm_source_interval_count : Z;
  dsm_source_status : Z;
  dsm_window_seconds : Z;
  dsm_update_seconds : Z;
  dsm_profile_generation : Z;
  dsm_method : Z;
  dsm_import_peak_samples : list Z;
  dsm_export_peak_samples : list Z;
  dsm_time_aligned : bool;
  dsm_contaminated : bool;
  dsm_boundary_valid : bool;
  dsm_saturated : bool;
  dsm_incomplete_input : bool }.

(** [Frequency10sSnapshotMetadata] has the fields of [Frequency10sMetadata], and [project] copies
    each to its namesake. *)
Definition Frequency10sSnapshotMetadata : Type := Frequency10sMetadata.

Record MeterSnapshot := mkSnapshot {
  ms_period : MeasurementPeriod;
  ms_sequence : Z;
  ms_configuration_generation : Z;
  ms_updated_at : Z;
  ms_timing : option MeterSnapshotTiming;
  ms_energy : option EnergySnapshotMetadata;
  ms_demand : option DemandSnapshotMetadata;
  ms_frequency_10s : option Frequency10sSnapshotMetadata;
  ms_values : list MeterAttributeValue }.

Record MeterSnapshotRequest := mkSnapshotRequest {
  msr_period : MeasurementPeriod;
  msr_attributes : list MeterAttributeKey }.

Record MeterCapabilities := mkCapabilities {
  mc_period : MeasurementPeriod;
  mc_attributes : list MeterAttributeKey }.

(** ** meter_snapshot_provider.hpp: what a protocol adapter may ask *)
Class MeterSnapshotProvider (P : Type) := {
  provider_capabilities : P -> list MeterCapabilities;
  provider_latest : P -> MeterSnapshotRequest -> result (option MeterSnapshot) }.

(** ** in_process_meter_snapshot_provider.cpp *)
Definition energy_attribute_groups : list (list Id.MeterAttributeId) := [
  [Id.ActiveImportEnergyA; Id.ActiveImportEnergyB; Id.ActiveImportEnergyC; Id.ActiveImportEnergyTotal];
  [Id.ActiveExportEnergyA; Id.ActiveExportEnergyB; Id.ActiveExportEnergyC; Id.ActiveExportEnergyTotal];
  [Id.ApparentEnergyA; Id.ApparentEnergyB; Id.ApparentEnergyC; Id.ApparentEnergyTotal];
  [Id.ReactiveEnergyQuadrantIA; Id.ReactiveEnergyQuadrantIB; Id.ReactiveEnergyQuadrantIC;
   Id.ReactiveEnergyQuadrantITotal];
  [Id.ReactiveEnergyQuadrantIIA; Id.ReactiveEnergyQuadrantIIB; Id.ReactiveEnergyQuadrantIIC;
   Id.ReactiveEnergyQuadrantIITotal];
  [Id.ReactiveEnergyQuadrantIIIA; Id.ReactiveEnergyQuadrantIIIB; Id.ReactiveEnergyQuadrantIIIC;
   Id.ReactiveEnergyQuadrantIIITotal];
  [Id.ReactiveEnergyQuadrantIVA; Id.ReactiveEnergyQuadrantIVB; Id.ReactiveEnergyQuadrantIVC;
   Id.ReactiveEnergyQuadrantIVTotal]].

Definition demand_attribute_groups : list (list Id.MeterAttributeId) := [
  [Id.CurrentActiveDemandA; Id.CurrentActiveDemandB; Id.CurrentActiveDemandC; Id.CurrentActiveDemandTotal];
  [Id.ImportDemandPeakA; Id.ImportDemandPeakB; Id.ImportDemandPeakC; Id.ImportDemandPeakTotal];
  [Id.ExportDemandPeakA; Id.ExportDemandPeakB; Id.ExportDemandPeakC; Id.ExportDemandPeakTotal]].

Definition time_quality (value : TimeQuality) : SnapshotTime.TimeQuality :=
  match value with
  | Synchronized => SnapshotTime.Synchronized
  | Holdover => SnapshotTime.Holdover
  | Unsynchronized => SnapshotTime.Unsynchronized
  end.

(** The enumerators of [NominalFrequency] are the frequencies. *)
Definition nominal_frequency_value (n : NominalFrequency) : Z := match n with Hz50 => 50 | Hz60 => 60 end.

(** [snapshot_timing<BlockTiming>]: the aggregate fields stay absent. *)
Definition snapshot_block_timing (t : BlockTiming) : MeterSnapshotTiming :=
  mkSnapshotTiming (time_quality (bt_time_quality t)) (bt_utc_start t)
    (if bt_utc_start t is Some _ then bt_utc_uncertainty_ns t else None)
    (Some (bt_first_sample_index t)) (Some (bt_sample_count t)) (Some (bt_sample_rate_hz t))
    (Some (bt_cycle_count t)) (Some (nominal_frequency_value (bt_nominal_frequency t)))
    None None None None None None None None.

(** [snapshot_timing<AggregateTiming>] *)
Definition snapshot_aggregate_timing (t : AggregateTiming) : MeterSnapshotTiming :=
  mkSnapshotTiming (time_quality (at_time_quality t)) (at_utc_start t)
    (if at_utc_start t is Some _ then at_utc_uncertainty_ns t else None)
    (Some (at_first_sample_index t)) (Some (at_sample_count t)) (Some (at_sample_rate_hz t))
    (Some (at_cycle_count t)) (Some (nominal_frequency_value (at_nominal_frequency t)))
    (Some (at_basic_block_count t)) (Some (at_first_basic_sequence t)) (Some (at_last_basic_sequence t))
    (at_target_sample_index t) (at_overshoot_samples t)
    (Some (at_time_aligned t)) (Some (at_contaminated t)) (Some (at_boundary_valid t)).

Definition quality (value : MeasurementQuality) : ReadingQuality :=
  match value with
  | unavailable => quality_Unavailable
  | valid => quality_Valid
  | invalid => quality_Invalid
  | out_of_range => quality_OutOfRange
  | timed_out => quality_TimedOut
  | arithmetic_error => quality_ArithmeticError
  end.

Definition value {U} (attribute : MeterAttributeKey) (unit : Unit.MeterUnit) (reading : Reading U)
  : MeterAttributeValue :=
  mkValue attribute unit (quality (r_quality reading)) (r_value reading) (r_source_sequence reading)
    (r_measured_at reading) (sw_sample_count (r_window reading)) (sw_duration (r_window reading)).

Definition categorical_value {U} (attribute : MeterAttributeKey) (categorical : Z) (provenance : Reading U)
  : MeterAttributeValue :=
  let r := value attribute Unit.CategoricalCode provenance in
  mkValue (mav_attribute r) (mav_unit r) (mav_quality r) categorical (mav_source_sequence r)
    (mav_measured_at r) (mav_sample_count r) (mav_calculation_window r).

Definition load_nature_value (n : LoadNature) : Z :=
  match n with undefined => 0 | unity => 1 | lagging => 2 | leading => 3 end.

Definition unavailable_value (attribute : MeterAttributeKey) : result MeterAttributeValue :=
  descriptor ← describe attribute;
  Ok (mkValue attribute (de_unit descriptor) quality_Unavailable 0 0 0 0 0).

(** The four readings of a group, in the order of the identities. *)
Definition group_readings {U} (group : PhaseABCTotal (Reading U)) : list (Reading U) :=
  [abct_a group; abct_b group; abct_c group; abct_total group].

(** The reading of [group] whose identity is [id], as a value. *)
Definition group_value {U} (attribute : MeterAttributeKey) (ids : list Id.MeterAttributeId)
    (unit : Unit.MeterUnit) (group : PhaseABCTotal (Reading U)) : option MeterAttributeValue :=
  (fun '(_, reading) => value attribute unit reading) <$>
    List.find (fun '(id, _) => same_id (ak_id attribute) id) (combine ids (group_readings group)).

(** [append_group]: [Some] is the value it appends. *)
Definition append_group {U} := @group_value U.

Definition replace_group {U} (output : list MeterAttributeValue) (ids : list Id.MeterAttributeId)
    (unit : Unit.MeterUnit) (group : PhaseABCTotal (Reading U)) : list MeterAttributeValue :=
  map (fun v => default v (group_value (mav_attribute v) ids unit group)) output.

Definition snapshot_supported (period : MeasurementPeriod) : list MeterAttributeKey :=
  attributes_for period Snapshot.

(** [energy_attribute_groups[i]] *)
Definition energy_group (i : nat) : list Id.MeterAttributeId := nth i energy_attribute_groups [].
Definition demand_group (i : nat) : list Id.MeterAttributeId := nth i demand_attribute_groups [].

Definition energy_metadata (energy : EnergyValues) : EnergySnapshotMetadata :=
  mkEnergyMetadata (en_session_id energy) (en_reset_epoch energy) (en_last_sample_index energy)
    (en_accepted_samples energy) (en_skipped_samples energy) (en_accepted_blocks energy)
    (en_skipped_blocks energy) (en_saturated energy) (en_incomplete_input energy)
    (en_discontinuity energy).

Definition four {T} (v : PhaseABCTotal T) : list T := [abct_a v; abct_b v; abct_c v; abct_total v].

Definition demand_method_value (m : DemandMethod) : Z := match m with fixed_block => 0 | sliding => 1 end.

Definition demand_metadata (demand : DemandValues) : DemandSnapshotMetadata :=
  mkDemandMetadata (de_session_id demand) (de_peak_reset_epoch demand) (de_last_sample_index demand)
    (de_interval_anchor_sample demand) (de_source_interval_count demand) (de_source_status demand)
    (de_window_seconds demand) (de_update_seconds demand) (de_profile_generation demand)
    (demand_method_value (de_method demand)) (four (de_import_peak_sample demand))
    (four (de_export_peak_sample demand)) (de_time_aligned demand) (de_contaminated demand)
    (de_boundary_valid demand) (de_saturated demand) (de_incomplete_input demand).

Definition overlay_authoritative_energy (s : MeterSnapshot) (energy : EnergyValues) : MeterSnapshot :=
  let values := replace_group (ms_values s) (energy_group 0) Unit.MicroWattHours (en_active_import energy) in
  let values := replace_group values (energy_group 1) Unit.MicroWattHours (en_active_export energy) in
  let values := replace_group values (energy_group 2) Unit.MicroVoltAmpereHours (en_apparent energy) in
  let values := replace_group values (energy_group 3) Unit.MicroVarHours (en_reactive_i energy) in
  let values := replace_group values (energy_group 4) Unit.MicroVarHours (en_reactive_ii energy) in
  let values := replace_group values (energy_group 5) Unit.MicroVarHours (en_reactive_iii energy) in
  let values := replace_group values (energy_group 6) Unit.MicroVarHours (en_reactive_iv energy) in
  mkSnapshot (ms_period s) (ms_sequence s) (ms_configuration_generation s) (ms_updated_at s)
    (ms_timing s) (Some (energy_metadata energy)) (ms_demand s) (ms_frequency_10s s) values.

Definition overlay_authoritative_demand (s : MeterSnapshot) (demand : DemandValues) : MeterSnapshot :=
  let values := replace_group (ms_values s) (demand_group 0) Unit.MicroWatts (de_current_active demand) in
  let values := replace_group values (demand_group 1) Unit.MicroWatts (de_import_peak demand) in
  let values := replace_group values (demand_group 2) Unit.MicroWatts (de_export_peak demand) in
  mkSnapshot (ms_period s) (ms_sequence s) (ms_configuration_generation s) (ms_updated_at s)
    (ms_timing s) (ms_energy s) (Some (demand_metadata demand)) (ms_frequency_10s s) values.

Definition capabilities : list MeterCapabilities :=
  map (fun period => mkCapabilities period (snapshot_supported period))
    [Basic; Seconds10; Cycles150_180; Min10; Hour2; Min10Live; Hour2Live; Demand].

(** The [append_group] chain over the energy and demand groups: the first that takes the
    attribute. *)
Definition metered_value (v : MeterValues) (attribute : MeterAttributeKey) : option MeterAttributeValue :=
  let e := mv_energy v in
  let d := mv_demand v in
  let or (x y : option MeterAttributeValue) := match x with Some _ => x | None => y end in
  or (append_group attribute (energy_group 0) Unit.MicroWattHours (en_active_import e)) (
  or (append_group attribute (energy_group 1) Unit.MicroWattHours (en_active_export e)) (
  or (append_group attribute (energy_group 2) Unit.MicroVoltAmpereHours (en_apparent e)) (
  or (append_group attribute (energy_group 3) Unit.MicroVarHours (en_reactive_i e)) (
  or (append_group attribute (energy_group 4) Unit.MicroVarHours (en_reactive_ii e)) (
  or (append_group attribute (energy_group 5) Unit.MicroVarHours (en_reactive_iii e)) (
  or (append_group attribute (energy_group 6) Unit.MicroVarHours (en_reactive_iv e)) (
  or (append_group attribute (demand_group 0) Unit.MicroWatts (de_current_active d)) (
  or (append_group attribute (demand_group 1) Unit.MicroWatts (de_import_peak d))
     (append_group attribute (demand_group 2) Unit.MicroWatts (de_export_peak d)))))))))).

(** The switch over the remaining identities, in three parts; its default label appends nothing. *)
Definition rms_and_power_value (v : MeterValues) (attribute : MeterAttributeKey) : option MeterAttributeValue :=
  let read {U : Set} (unit : Unit.MeterUnit) (r : Reading U) := Some (value attribute unit r) in
  match ak_id attribute with
  | Id.Frequency => read Unit.MilliHertz (fv_frequency (mv_fundamental v))
  | Id.VanRms => read Unit.MicroVolts (abc_a (fv_voltage_ln (mv_fundamental v)))
  | Id.VbnRms => read Unit.MicroVolts (abc_b (fv_voltage_ln (mv_fundamental v)))
  | Id.VcnRms => read Unit.MicroVolts (abc_c (fv_voltage_ln (mv_fundamental v)))
  | Id.IaRms => read Unit.MicroAmperes (abcn_a (fv_current (mv_fundamental v)))
  | Id.IbRms => read Unit.MicroAmperes (abcn_b (fv_current (mv_fundamental v)))
  | Id.IcRms => read Unit.MicroAmperes (abcn_c (fv_current (mv_fundamental v)))
  | Id.InRms => read Unit.MicroAmperes (abcn_n (fv_current (mv_fundamental v)))
  | Id.VabRms => read Unit.MicroVolts (abc_a (fv_voltage_ll (mv_fundamental v)))
  | Id.VbcRms => read Unit.MicroVolts (abc_b (fv_voltage_ll (mv_fundamental v)))
  | Id.VcaRms => read Unit.MicroVolts (abc_c (fv_voltage_ll (mv_fundamental v)))
  | Id.ActivePowerA => read Unit.Picowatts (abc_a (pv_active_power (mv_power v)))
  | Id.ActivePowerB => read Unit.Picowatts (abc_b (pv_active_power (mv_power v)))
  | Id.ActivePowerC => read Unit.Picowatts (abc_c (pv_active_power (mv_power v)))
  | Id.ActivePowerTotal => read Unit.Picowatts (pv_total_active_power (mv_power v))
  | Id.ApparentPowerA => read Unit.PicoVoltAmperes (abc_a (pv_apparent_power (mv_power v)))
  | Id.ApparentPowerB => read Unit.PicoVoltAmperes (abc_b (pv_apparent_power (mv_power v)))
  | Id.ApparentPowerC => read Unit.PicoVoltAmperes (abc_c (pv_apparent_power (mv_power v)))
  | Id.ApparentPowerTotal => read Unit.PicoVoltAmperes (pv_total_apparent_power (mv_power v))
  | Id.PowerFactorA => read Unit.PowerFactorMillionths (abc_a (pv_power_factor (mv_power v)))
  | Id.PowerFactorB => read Unit.PowerFactorMillionths (abc_b (pv_power_factor (mv_power v)))
  | Id.PowerFactorC => read Unit.PowerFactorMillionths (abc_c (pv_power_factor (mv_power v)))
  | Id.PowerFactorTotal => read Unit.PowerFactorMillionths (pv_total_power_factor (mv_power v))
  | _ => None
  end.

Definition phasor_and_unbalance_value (v : MeterValues) (attribute : MeterAttributeKey) : option MeterAttributeValue :=
  let read {U : Set} (unit : Unit.MeterUnit) (r : Reading U) := Some (value attribute unit r) in
  match ak_id attribute with
  | Id.ReactivePowerA => read Unit.Picovars (abc_a (ph_reactive_power (mv_phasor v)))
  | Id.ReactivePowerB => read Unit.Picovars (abc_b (ph_reactive_power (mv_phasor v)))
  | Id.ReactivePowerC => read Unit.Picovars (abc_c (ph_reactive_power (mv_phasor v)))
  | Id.ReactivePowerTotal => read Unit.Picovars (ph_total_reactive_power (mv_phasor v))
  | Id.DisplacementPowerFactorA => read Unit.PowerFactorMillionths (abc_a (ph_displacement_power_factor (mv_phasor v)))
  | Id.DisplacementPowerFactorB => read Unit.PowerFactorMillionths (abc_b (ph_displacement_power_factor (mv_phasor v)))
  | Id.DisplacementPowerFactorC => read Unit.PowerFactorMillionths (abc_c (ph_displacement_power_factor (mv_phasor v)))
  | Id.DisplacementPowerFactorTotal => read Unit.PowerFactorMillionths (ph_total_displacement_power_factor (mv_phasor v))
  | Id.VoltagePhaseAngleA => read Unit.Millidegrees (abc_a (ph_voltage_angle (mv_phasor v)))
  | Id.VoltagePhaseAngleB => read Unit.Millidegrees (abc_b (ph_voltage_angle (mv_phasor v)))
  | Id.VoltagePhaseAngleC => read Unit.Millidegrees (abc_c (ph_voltage_angle (mv_phasor v)))
  | Id.CurrentPhaseAngleA => read Unit.Millidegrees (abcn_a (ph_current_angle (mv_phasor v)))
  | Id.CurrentPhaseAngleB => read Unit.Millidegrees (abcn_b (ph_current_angle (mv_phasor v)))
  | Id.CurrentPhaseAngleC => read Unit.Millidegrees (abcn_c (ph_current_angle (mv_phasor v)))
  | Id.VoltageUnbalance => read Unit.RatioMillionths (ub_voltage_unbalance (mv_unbalance v))
  | Id.CurrentUnbalance => read Unit.RatioMillionths (ub_current_unbalance (mv_unbalance v))
  | Id.VoltageZeroSequenceRatio => read Unit.RatioMillionths (ub_voltage_zero_ratio (mv_unbalance v))
  | Id.CurrentZeroSequenceRatio => read Unit.RatioMillionths (ub_current_zero_ratio (mv_unbalance v))
  | Id.ZeroSequenceVoltage => read Unit.MicroVolts (ub_voltage_zero_sequence (mv_unbalance v))
  | Id.PositiveSequenceVoltage => read Unit.MicroVolts (ub_voltage_positive_sequence (mv_unbalance v))
  | Id.NegativeSequenceVoltage => read Unit.MicroVolts (ub_voltage_negative_sequence (mv_unbalance v))
  | Id.ZeroSequenceCurrent => read Unit.MicroAmperes (ub_current_zero_sequence (mv_unbalance v))
  | Id.PositiveSequenceCurrent => read Unit.MicroAmperes (ub_current_positive_sequence (mv_unbalance v))
  | Id.NegativeSequenceCurrent => read Unit.MicroAmperes (ub_current_negative_sequence (mv_unbalance v))
  | _ => None
  end.

Definition fundamental_value (v : MeterValues) (attribute : MeterAttributeKey) : option MeterAttributeValue :=
  let read {U : Set} (unit : Unit.MeterUnit) (r : Reading U) := Some (value attribute unit r) in
  let category (n : LoadNature) (r : Reading PowerFactorMillionths) :=
    Some (categorical_value attribute (load_nature_value n) r) in
  match ak_id attribute with
  | Id.FundamentalVoltageA => read Unit.MicroVolts (abc_a (ph_fundamental_voltage (mv_phasor v)))
  | Id.FundamentalVoltageB => read Unit.MicroVolts (abc_b (ph_fundamental_voltage (mv_phasor v)))
  | Id.FundamentalVoltageC => read Unit.MicroVolts (abc_c (ph_fundamental_voltage (mv_phasor v)))
  | Id.FundamentalVoltageLlAB => read Unit.MicroVolts (abc_a (ph_fundamental_voltage_ll (mv_phasor v)))
  | Id.FundamentalVoltageLlBC => read Unit.MicroVolts (abc_b (ph_fundamental_voltage_ll (mv_phasor v)))
  | Id.FundamentalVoltageLlCA => read Unit.MicroVolts (abc_c (ph_fundamental_voltage_ll (mv_phasor v)))
  | Id.FundamentalCurrentA => read Unit.MicroAmperes (abcn_a (ph_fundamental_current (mv_phasor v)))
  | Id.FundamentalCurrentB => read Unit.MicroAmperes (abcn_b (ph_fundamental_current (mv_phasor v)))
  | Id.FundamentalCurrentC => read Unit.MicroAmperes (abcn_c (ph_fundamental_current (mv_phasor v)))
  | Id.FundamentalCurrentN => read Unit.MicroAmperes (abcn_n (ph_fundamental_current (mv_phasor v)))
  | Id.VoltageCrestA => read Unit.CrestTenThousandths (abc_a (pv_voltage_crest (mv_power v)))
  | Id.VoltageCrestB => read Unit.CrestTenThousandths (abc_b (pv_voltage_crest (mv_power v)))
  | Id.VoltageCrestC => read Unit.CrestTenThousandths (abc_c (pv_voltage_crest (mv_power v)))
  | Id.CurrentCrestA => read Unit.CrestTenThousandths (abcn_a (pv_current_crest (mv_power v)))
  | Id.CurrentCrestB => read Unit.CrestTenThousandths (abcn_b (pv_current_crest (mv_power v)))
  | Id.CurrentCrestC => read Unit.CrestTenThousandths (abcn_c (pv_current_crest (mv_power v)))
  | Id.CurrentCrestN => read Unit.CrestTenThousandths (abcn_n (pv_current_crest (mv_power v)))
  | Id.FundamentalActivePowerA => read Unit.Picowatts (abc_a (ph_fundamental_active_power (mv_phasor v)))
  | Id.FundamentalActivePowerB => read Unit.Picowatts (abc_b (ph_fundamental_active_power (mv_phasor v)))
  | Id.FundamentalActivePowerC => read Unit.Picowatts (abc_c (ph_fundamental_active_power (mv_phasor v)))
  | Id.FundamentalActivePowerTotal => read Unit.Picowatts (ph_total_fundamental_active_power (mv_phasor v))
  | Id.CurrentPhaseAngleN => read Unit.Millidegrees (abcn_n (ph_current_angle (mv_phasor v)))
  | Id.VoltageLlPhaseAngleAB => read Unit.Millidegrees (abc_a (ph_voltage_ll_angle (mv_phasor v)))
  | Id.VoltageLlPhaseAngleBC => read Unit.Millidegrees (abc_b (ph_voltage_ll_angle (mv_phasor v)))
  | Id.VoltageLlPhaseAngleCA => read Unit.Millidegrees (abc_c (ph_voltage_ll_angle (mv_phasor v)))
  | Id.DisplacementAngleA => read Unit.Millidegrees (abc_a (ph_displacement_angle (mv_phasor v)))
  | Id.DisplacementAngleB => read Unit.Millidegrees (abc_b (ph_displacement_angle (mv_phasor v)))
  | Id.DisplacementAngleC => read Unit.Millidegrees (abc_c (ph_displacement_angle (mv_phasor v)))
  | Id.VoltageZeroSequenceAngle => read Unit.Millidegrees (ub_voltage_zero_angle (mv_unbalance v))
  | Id.VoltagePositiveSequenceAngle => read Unit.Millidegrees (ub_voltage_positive_angle (mv_unbalance v))
  | Id.VoltageNegativeSequenceAngle => read Unit.Millidegrees (ub_voltage_negative_angle (mv_unbalance v))
  | Id.CurrentZeroSequenceAngle => read Unit.Millidegrees (ub_current_zero_angle (mv_unbalance v))
  | Id.CurrentPositiveSequenceAngle => read Unit.Millidegrees (ub_current_positive_angle (mv_unbalance v))
  | Id.CurrentNegativeSequenceAngle => read Unit.Millidegrees (ub_current_negative_angle (mv_unbalance v))
  | Id.LoadNatureA => category (abc_a (ph_load_nature (mv_phasor v))) (abc_a (ph_displacement_power_factor (mv_phasor v)))
  | Id.LoadNatureB => category (abc_b (ph_load_nature (mv_phasor v))) (abc_b (ph_displacement_power_factor (mv_phasor v)))
  | Id.LoadNatureC => category (abc_c (ph_load_nature (mv_phasor v))) (abc_c (ph_displacement_power_factor (mv_phasor v)))
  | Id.LoadNatureTotal => category (ph_total_load_nature (mv_phasor v)) (ph_total_displacement_power_factor (mv_phasor v))
  | _ => None
  end.

Definition measured_value (v : MeterValues) (attribute : MeterAttributeKey) : option MeterAttributeValue :=
  match rms_and_power_value v attribute with
  | Some x => Some x
  | None =>
      match phasor_and_unbalance_value v attribute with
      | Some x => Some x
      | None => fundamental_value v attribute
      end
  end.

(** One turn of the projection loop. *)
Definition project_attribute (v : MeterValues) (attribute : MeterAttributeKey)
  : result (option MeterAttributeValue) :=
  descriptor ← describe attribute;
  if ak_index attribute is Some _ then x ← unavailable_value attribute; Ok (Some x)
  else match metered_value v attribute with
       | Some x => Ok (Some x)
       | None => Ok (measured_value v attribute)
       end.

Fixpoint project_values (v : MeterValues) (selection : list MeterAttributeKey)
  : result (list MeterAttributeValue) :=
  match selection with
  | [] => Ok []
  | attribute :: rest =>
      x ← project_attribute v attribute;
      xs ← project_values v rest;
      Ok (match x with Some x => x :: xs | None => xs end)
  end.

Definition project_selection (view : MeterPeriodView) (request : MeterSnapshotRequest)
  : list MeterAttributeKey :=
  match set_of (msr_attributes request) with
  | [] => set_of (snapshot_supported (pview_period view))
  | selection => selection
  end.

Definition project (view : MeterPeriodView) (request : MeterSnapshotRequest) : result MeterSnapshot :=
  let v := pview_values view in
  let timing :=
    match pview_timing view, pview_aggregate_timing view with
    | Some t, _ => Some (snapshot_block_timing t)
    | None, Some t => Some (snapshot_aggregate_timing t)
    | None, None => None
    end in
  let energy :=
    if bool_decide (pview_period view = Basic) && negb (en_session_id (mv_energy v) =? 0)
    then Some (energy_metadata (mv_energy v)) else None in
  let demand :=
    if bool_decide (pview_period view = Demand) && negb (de_session_id (mv_demand v) =? 0)
    then Some (demand_metadata (mv_demand v)) else None in
  values ← project_values v (project_selection view request);
  Ok (mkSnapshot (pview_period view) (pview_latest_sequence view) (pview_configuration_generation view)
        (pview_updated_at view) timing energy demand (pview_frequency_10s view) values).

Definition in_process_latest (data : MeterDataState) (request : MeterSnapshotRequest)
  : result (option MeterSnapshot) :=
  match store_latest (md_latest data) (msr_period request) with
  | None => Ok None
  | Some view => s ← project view request; Ok (Some s)
  end.

(** [InProcessMeterSnapshotProvider::subscribe_latest]: the callback the subscription holds
    projects each view it is given, see [snapshot_callback]. *)
Definition subscribe_latest (request : MeterSnapshotRequest) (has_callback : bool) (data : MeterDataState)
  : result (Z * MeterDataState) :=
  reject_if (negb has_callback) (InvalidArgument "meter snapshot callback is empty") ;;
  meter_data_subscribe (msr_period request) true data.

Definition snapshot_callback (request : MeterSnapshotRequest) (view : MeterPeriodView) : result MeterSnapshot :=
  project view request.

#[export] Instance in_process_provider : MeterSnapshotProvider MeterDataState := {
  provider_capabilities _ := capabilities;
  provider_latest := in_process_latest }.

(** ** The projection *)

(** A value stands for [attribute] and carries the unit the catalog gives it. *)
Definition value_typed (attribute : MeterAttributeKey) (x : MeterAttributeValue) : Prop :=
  mav_attribute x = attribute /\ exists d, describe attribute = Ok d /\ mav_unit x = de_unit d.

Lemma named_value v id :
  is_unnamed id = false ->
  exists x d, match metered_value v (key id) with Some y => Some y | None => measured_value v (key id) end = Some x /\
    describe (key id) = Ok d /\ mav_attribute x = key id /\ mav_unit x = de_unit d.
Proof. intros H. by destruct id; try discriminate H; do 2 eexists; repeat split. Qed.

Lemma described_named k d : describe k = Ok d -> is_unnamed (ak_id k) = false.
Proof. by destruct k as [[] i]. Qed.

Lemma project_attribute_typed v k d :
  describe k = Ok d -> exists x, project_attribute v k = Ok (Some x) /\ value_typed k x.
Proof.
  intros H. unfold project_attribute. rewrite H. simpl. destruct k as [id [i|]]; simpl.
  - unfold unavailable_value. rewrite H. simpl. eexists. split; [done|]. split; [done|]. by exists d.
  - destruct (named_value v id) as (x & d' & Hx & Hd & Ha & Hu); [by apply described_named in H|].
    exists x. change (mkKey id None) with (key id) in *. split; [|by split; [|exists d']].
    by destruct (metered_value v (key id)); [injection Hx as ->|rewrite Hx].
Qed.

Lemma project_values_typed v ks :
  Forall (fun k => is_ok (describe k) = true) ks ->
  exists xs, project_values v ks = Ok xs /\ Forall2 value_typed ks xs.
Proof.
  induction 1 as [|k ks H _ (xs & E & IH)]; [by eexists|]. apply is_ok_iff in H as [d Hd].
  destruct (project_attribute_typed v k d Hd) as (x & Hx & Ht).
  exists (x :: xs). simpl. rewrite Hx. simpl. rewrite E. by split; [|constructor].
Qed.

Lemma project_values_described v ks xs :
  project_values v ks = Ok xs -> Forall (fun k => is_ok (describe k) = true) ks.
Proof.
  revert xs. induction ks as [|k ks IH]; intros xs; [by constructor|]. simpl. intros H.
  apply bind_Ok in H as (x & Hx & H). apply bind_Ok in H as (ys & Hy & _).
  constructor; [|by eapply IH]. unfold project_attribute in Hx. by apply bind_Ok in Hx as (d & -> & _).
Qed.

Lemma described_forallb ks :
  forallb (fun k => is_ok (describe k)) ks = true <-> Forall (fun k => is_ok (describe k) = true) ks.
Proof. by rewrite List.forallb_forall, List.Forall_forall. Qed.

Lemma describe_error k e : describe k = Throw e -> e = InvalidArgument "unknown meter attribute".
Proof. destruct k as [[] i]; try done. by injection 1. Qed.

Lemma project_values_error v ks e :
  project_values v ks = Throw e -> e = InvalidArgument "unknown meter attribute".
Proof.
  induction ks as [|k ks IH]; [done|]. simpl. destruct (describe k) as [d|e'] eqn:Hd.
  - destruct (project_attribute_typed v k d Hd) as (x & -> & _). simpl.
    intros H. apply bind_Throw in H as [H|(xs & _ & H)]; [by apply IH|done].
  - unfold project_attribute. rewrite Hd. injection 1 as ->. by apply describe_error in Hd.
Qed.

Lemma set_add_NoDup l k : NoDup l -> NoDup (set_add l k).
Proof.
  intros H. unfold set_add. destruct (set_contains l k) eqn:E; [done|].
  apply list.NoDup_app. split_and!; [done| |apply NoDup_singleton].
  intros x Hx ->%list_elem_of_singleton. unfold set_contains in E.
  assert (existsb (fun other => key_eqb other k) l = true); [|congruence].
  apply existsb_exists. exists k. split; [by apply list_elem_of_In|].
  unfold key_eqb, same_id. by rewrite Z.eqb_refl, bool_decide_true.
Qed.

Lemma set_of_NoDup l : NoDup (set_of l).
Proof.
  unfold set_of. assert (H : NoDup (@nil MeterAttributeKey)) by constructor. revert H. generalize (@nil MeterAttributeKey).
  induction l as [|k l IH]; [done|]. intros acc H. simpl. by apply IH, set_add_NoDup.
Qed.

Lemma project_selection_NoDup view request : NoDup (project_selection view request).
Proof.
  unfold project_selection. pose proof (set_of_NoDup (msr_attributes request)) as H.
  destruct (set_of (msr_attributes request)); [apply set_of_NoDup|done].
Qed.

(** (C37) A snapshot is complete and typed.  A request succeeds exactly when the catalog knows every
    attribute it selects; the snapshot then has one value per selected attribute, in the order of the
    selection and without repetition, each in the unit the catalog declares for the attribute.  An
    unknown identity is an [invalid_argument], never a silent hole. *)
Theorem snapshot_projection view request :
  NoDup (project_selection view request) /\
  (forall s, project view request = Ok s ->
     map mav_attribute (ms_values s) = project_selection view request /\
     Forall2 value_typed (project_selection view request) (ms_values s) /\
     ms_period s = pview_period view) /\
  (is_ok (project view request) = forallb (fun k => is_ok (describe k)) (project_selection view request)) /\
  (forall e, project view request = Throw e -> e = InvalidArgument "unknown meter attribute").
Proof.
  split; [apply project_selection_NoDup|]. unfold project. set (ks := project_selection view request). clearbody ks.
  split; [|split].
  - intros s H. apply bind_Ok in H as (xs & Hx & H). injection H as <-. simpl.
    destruct (project_values_typed (pview_values view) ks) as (ys & Hy & Ht); [by eapply project_values_described|].
    rewrite Hy in Hx. injection Hx as <-. split_and!; [|done..].
    clear Hy. induction Ht as [|? ? ? ? [E _] _ IH]; [done|]. simpl. by rewrite E, IH.
  - destruct (forallb _ ks) eqn:E.
    + apply described_forallb in E. by destruct (project_values_typed (pview_values view) ks E) as (ys & -> & _).
    + destruct (project_values _ ks) as [xs|] eqn:Hx; [|done].
      apply project_values_described, described_forallb in Hx. congruence.
  - intros e H. apply bind_Throw in H as [H|(x & _ & H)]; [|done]. by eapply project_values_error.
Qed.

(** A ten-second view asked for its frequency, twice, and for an indexed power. *)
Lemma snapshot_projection_witness :
  let view := merge_update 9 (mkUpdate Seconds10 kind_frequency_10s 5 2
                (Some (mkFundamental (mkReading 50012 valid 5 8 (mkWindow 320000 10))
                         (all_abc no_reading) (all_abcn no_reading) (all_abc no_reading)))
                None None None None None None None None None) (new_view Seconds10) in
  let request := mkSnapshotRequest Seconds10
                   [key Id.Frequency; mkKey Id.ActivePowerA (Some 3); key Id.Frequency] in
  exists s, project view request = Ok s /\
    map mav_attribute (ms_values s) = [key Id.Frequency; mkKey Id.ActivePowerA (Some 3)] /\
    map mav_value (ms_values s) = [50012; 0] /\
    map mav_unit (ms_values s) = [Unit.MilliHertz; Unit.Picowatts].
Proof.
  intros view request. destruct (snapshot_projection view request) as (_ & Hok & _).
  eexists. assert (E : project view request = Ok _) by (vm_compute; reflexivity).
  split; [exact E|]. destruct (Hok _ E) as (Hk & _). by split; [rewrite Hk|].
Defined.
