(* ===== verification/AcquisitionIpc.v ===== *)
(** * The acquisition command channel

    Models [src/common/msap1/acquisition/ipc]: the command identities of
    [acquisition_commands.hpp] (an FNV-1a hash of the command's name), and the typed client and
    the command registry of [acquisition_ipc.hpp].  Payloads are BEVE, written and read by a
    third-party library (glaze): the codec of a message type is an interface, and what the
    daemon relies on are its laws.  The coordinator behind the handlers is a state; an observer
    only logs. *)

From stdpp Require Import base list gmap strings.
From Stdlib Require Import String Ascii.
From S2P Require Import Prelude Ipc.
Local Open Scope Z_scope.

(** ** acquisition_commands.hpp *)
Definition acquisition_ipc_version : Z := 43.

Definition acquisition_command_hash (name : string) : Z :=
  fold_left (fun hash character => u32 (Z.lxor hash (Z.of_N (N_of_ascii character)) * 0x01000193))
    (list_ascii_of_string name) 0x811c9dc5.

Inductive AcquisitionStatus :=
  | status_ok | status_bad_request | status_not_running | status_dma_error | status_rpu_error
  | status_internal_error | status_configuration_error.

#[export] Instance AcquisitionStatus_eq_dec : EqDecision AcquisitionStatus.
Proof. solve_decision. Defined.

(** [AcquisitionCommandList] *)
Definition acquisition_commands : list string := [
  "info"; "meter-snapshot"; "health"; "health-refresh"; "capture-start"; "capture-stop";
  "frequency-configuration-get"; "sample-rate-set"; "adc-diagnostic-run"; "waveform-status";
  "waveform-list"; "waveform-lookup"; "waveform-batch-lookup"; "waveform-trigger";
  "waveform-delete"; "adc-source-get"; "adc-simulator-get"; "meter-single-cycle";
  "meter-power-quality"; "meter-flicker"; "meter-mains-signalling"; "meter-harmonics";
  "adc-simulator-event"; "configuration-apply"]%string.

(** [command_ids_are_unique], checked at compile time. *)
Definition command_ids_are_unique (names : list string) : bool :=
  bool_decide (NoDup (map acquisition_command_hash names)).

(** ** acquisition_ipc.hpp *)

(** [glz::write_beve] and [glz::read_beve] at one message type. *)
Class Beve (A : Type) := {
  write_beve : A -> option (list Z);
  read_beve : list Z -> option A }.

(** What is written is read back. *)
Class BeveRoundTrip (A : Type) `{Beve A} : Prop :=
  beve_roundtrip : forall a bytes, write_beve a = Some bytes -> read_beve bytes = Some a.

(** A response type: its status, and the value with the status alone and every other field at its
    default. *)
Class AcquisitionResponse (A : Type) := {
  response_status : A -> AcquisitionStatus;
  status_default : AcquisitionStatus -> A }.

(** A request type and its response type. *)
Class AcquisitionRequest (R A : Type) := {
  request_command : string;
  request_version : R -> Z }.

(** [StatusOnlyResponse] *)
Inductive StatusOnlyResponse := status_only (status : AcquisitionStatus).

(** A status-only payload decodes into any response type. *)
Class BeveStatusOnly (A : Type) `{Beve A, AcquisitionResponse A, Beve StatusOnlyResponse} : Prop :=
  beve_status_only : forall status bytes,
    write_beve (status_only status) = Some bytes -> read_beve bytes = Some (status_default (A := A) status).

Section Codec.
Context {R A : Type} `{Beve R, Beve A, AcquisitionResponse A, RA : !AcquisitionRequest R A}.

Definition acquisition_command_id : Z := acquisition_command_hash (request_command (AcquisitionRequest := RA)).

Definition encode_acquisition_request (request : R) : result Frame :=
  match write_beve request with
  | None => Throw (InvalidArgument "failed to encode acquisition request")
  | Some buffer => Ok (mkFrame frame_request acquisition_command_id 0 buffer)
  end.
End Codec.

Definition encode_response {A} `{Beve A} (status : AcquisitionStatus) (response : A)
    (message_type correlation_id : Z) : result Frame :=
  match write_beve response with
  | None => Throw (InvalidArgument "failed to encode acquisition response")
  | Some buffer =>
      Ok (mkFrame (if decide (status = status_ok) then frame_response else frame_error)
            message_type correlation_id buffer)
  end.

Definition encode_acquisition_response {A} `{Beve A, AcquisitionResponse A} (response : A)
    (message_type correlation_id : Z) : result Frame :=
  encode_response (response_status response) response message_type correlation_id.

Definition decode_acquisition_payload {A} `{Beve A} (frame : Frame) : result A :=
  match read_beve (fr_payload frame) with
  | Some message => Ok message
  | None => Throw (InvalidArgument "malformed acquisition IPC payload")
  end.

(** [AcquisitionClient::transport]: the persistent stream, with every failure reported as
    [AcquisitionUnavailable]. *)
Class AcquisitionTransport (T : Type) :=
  acquisition_transport : Frame -> T -> result Frame * T.

(** [AcquisitionClient::request] *)
Definition client_request {T R A} `{AcquisitionTransport T, Beve R, Beve A, RA : !AcquisitionRequest R A}
    (message : R) (t : T) : result A * T :=
  match encode_acquisition_request message with
  | Throw e => (Throw e, t)
  | Ok frame =>
      match acquisition_transport frame t with
      | (Throw e, t) => (Throw e, t)
      | (Ok reply, t) =>
          (if negb (fr_message_type reply =? acquisition_command_id (RA := RA))
           then Throw (Unavailable "invalid acquisition response identity")
           else match decode_acquisition_payload reply with
                | Ok response => Ok response
                | Throw e => Throw (Unavailable (exn_what e))
                end, t)
      end
  end.

(** [AcquisitionCommandRegistry] *)
Section Registry.
Context {S : Type} `{Beve StatusOnlyResponse}.

Definition Handler : Type := Frame -> S -> result Frame * S.
Definition AcquisitionCommandRegistry : Type := gmap Z Handler.

Definition reject (status : AcquisitionStatus) (frame : Frame) : result Frame :=
  encode_response status (status_only status) (fr_message_type frame) (fr_correlation_id frame).

(** The function [on] stores. *)
Definition command_handler {R A} `{Beve R, Beve A, AcquisitionResponse A, RA : !AcquisitionRequest R A}
    (failure_status : AcquisitionStatus) (handler : R -> S -> result A * S) : Handler := fun frame s =>
  match request ← decode_acquisition_payload frame;
        require (request_version request =? acquisition_ipc_version)
          (InvalidArgument "unsupported acquisition IPC version") ;;
        Ok request with
  | Throw _ => (reject status_bad_request frame, s)
  | Ok request =>
      let '(response, s) := handler request s in
      match r ← response; encode_acquisition_response r (fr_message_type frame) (fr_correlation_id frame) with
      | Ok reply => (Ok reply, s)
      | Throw _ => (reject failure_status frame, s)
      end
  end.

Definition on {R A} `{Beve R, Beve A, AcquisitionResponse A, RA : !AcquisitionRequest R A}
    (failure_status : AcquisitionStatus) (handler : R -> S -> result A * S)
    (handlers : AcquisitionCommandRegistry) : AcquisitionCommandRegistry :=
  <[acquisition_command_id (RA := RA) := command_handler failure_status handler]> handlers.

Definition dispatch (handlers : AcquisitionCommandRegistry) (frame : Frame) (s : S) : result Frame * S :=
  match handlers !! fr_message_type frame with
  | Some handler =>
      if decide (fr_kind frame = frame_request) then handler frame s
      else (reject status_bad_request frame, s)
  | None => (reject status_bad_request frame, s)
  end.
End Registry.
Arguments AcquisitionCommandRegistry S : clear implicits.
Arguments Handler S : clear implicits.

(** ** Laws *)

(** Every command has its own identity, so that registering all of them keeps all of them. *)
Lemma command_ids_unique : command_ids_are_unique acquisition_commands = true.
Proof. vm_compute. reflexivity. Qed.

(** The client connected to the registry: the transport gives the request a correlation number. *)
Record Wire (S : Type) := mkWire {
  wire_registry : AcquisitionCommandRegistry S; wire_correlation : Z; wire_state : S }.
Arguments mkWire {S} _ _ _.
Arguments wire_registry {S} _.
Arguments wire_correlation {S} _.
Arguments wire_state {S} _.

#[export] Instance wire_transport {S} `{Beve StatusOnlyResponse} : AcquisitionTransport (Wire S) :=
  fun frame w =>
  let sent := mkFrame (fr_kind frame) (fr_message_type frame) (wire_correlation w) (fr_payload frame) in
  let '(reply, s) := dispatch (wire_registry w) sent (wire_state w) in
  (reply, mkWire (wire_registry w) (u64 (wire_correlation w + 1)) s).

#[local] Arguments acquisition_command_id : simpl never.
#[local] Arguments Z.add : simpl never.

Section Transparent.
Context {S R A : Type}.
Context `{BR : Beve R, BA : Beve A, BS : Beve StatusOnlyResponse}.
Context `{AA : !AcquisitionResponse A, RA : !AcquisitionRequest R A}.
Context `{!BeveRoundTrip R, !BeveRoundTrip A, !BeveStatusOnly A}.

(** What the client sees of a handler's outcome. *)
Definition replied (failure_status : AcquisitionStatus) (r : result A) : A :=
  match r with Ok response => response | Throw _ => status_default failure_status end.

(** A request of the current version to a registered command runs its handler once, and the client
    gets its response, or the failure status when it threw. *)
Lemma client_request_replied (handlers : AcquisitionCommandRegistry S) failure handler
    (message : R) correlation s response s' bytes reply_bytes status_bytes :
  handlers !! acquisition_command_id (RA := RA) = Some (command_handler (RA := RA) failure handler) ->
  request_version (AcquisitionRequest := RA) message = acquisition_ipc_version ->
  write_beve message = Some bytes ->
  handler message s = (response, s') ->
  (forall r, response = Ok r -> write_beve r = Some reply_bytes) ->
  write_beve (status_only failure) = Some status_bytes ->
  client_request (RA := RA) message (mkWire handlers correlation s) =
    (Ok (replied failure response), mkWire handlers (u64 (correlation + 1)) s').
Proof.
  intros Hh Hv Hb Hr Hw Hs. unfold client_request, encode_acquisition_request. rewrite Hb.
  unfold acquisition_transport, wire_transport, dispatch. simpl.
  unfold AcquisitionCommandRegistry, Handler in *. rewrite Hh. unfold command_handler,
    decode_acquisition_payload. simpl. rewrite (beve_roundtrip _ _ Hb). simpl. rewrite Hv, Z.eqb_refl. simpl.
  rewrite Hr. destruct response as [r|e]; simpl.
  - unfold encode_acquisition_response, encode_response. rewrite (Hw r eq_refl). simpl.
    rewrite Z.eqb_refl. simpl. by rewrite (beve_roundtrip _ _ (Hw r eq_refl)).
  - unfold reject, encode_response. rewrite Hs. simpl. rewrite Z.eqb_refl. simpl.
    by rewrite (beve_status_only _ _ Hs).
Qed.
End Transparent.
