(* ===== verification/SnapshotService.v ===== *)
(** * Serving meter snapshots

    Models [CaptureCoordinator::meter_snapshot_response] of
    [src/apps/MeterCore/Services/acquisition/pipeline/capture_coordinator.cpp]: the projection of the
    latest view with the durable ledger laid over it, and the transport diagnostics of the newest
    Basic record; and [AcquisitionMeterSnapshotProvider] of
    [src/common/msap1/meter/MeterDataProvider/snapshot/acquisition_meter_snapshot_provider.cpp],
    through which the protocol services read it. *)

From stdpp Require Import base list.
From S2P Require Import Prelude MeterTiming MeterAttribute RecordFormat MeterRecord MeterData MeterSnapshot.
From S2P Require Import Ipc AcquisitionIpc.
Local Open Scope Z_scope.

(** ** acquisition_commands.hpp: the response *)
Record MeterChannelDiagnostics := mkChannelDiagnostics { cd_mean_micro_units : Z; cd_rms_count : Z }.

Record MeterFrequencyDiagnostics := mkFrequencyDiagnostics {
  fd_enabled : bool;
  fd_reference_valid : bool;
  fd_out_of_range : bool;
  fd_timed_out : bool;
  fd_arithmetic_error : bool;
  fd_period_q16_samples : Z;
  fd_measurement_sequence : Z;
  fd_mode : Z;
  fd_reference_channel : Z;
  fd_cycles_used : Z }.

Record MeterBlockTimingIpc := mkBlockTimingIpc {
  bti_block_sequence : Z;
  bti_first_sample_index : Z;
  bti_sample_count : Z;
  bti_cycle_count : Z;
  bti_nominal_frequency_hz : Z;
  bti_cycle_locked : bool;
  bti_free_run_fallback : bool;
  bti_time_quality : TimeQuality }.

Record MeterSnapshotDiagnostics := mkDiagnostics {
  sd_sample_rate_hz : Z;
  sd_block_sample_count : Z;
  sd_status : Z;
  sd_capture_frames : Z;
  sd_header_errors : Z;
  sd_fifo_overflows : Z;
  sd_emit_drops : Z;
  sd_result_drops : Z;
  sd_channels : list MeterChannelDiagnostics;
  sd_frequency : MeterFrequencyDiagnostics;
  sd_timing : option MeterBlockTimingIpc }.

Definition no_diagnostics : MeterSnapshotDiagnostics :=
  mkDiagnostics 0 0 0 0 0 0 0 0 (replicate 8 (mkChannelDiagnostics 0 0))
    (mkFrequencyDiagnostics false false false false false 0 0 0 0 0) None.

Definition no_snapshot : MeterSnapshot := mkSnapshot Basic 0 0 0 None None None None [].

Record MeterSnapshotResponse := mkResponse {
  resp_status : AcquisitionStatus;
  resp_running : bool;
  resp_has_snapshot : bool;
  resp_snapshot : MeterSnapshot;
  resp_diagnostics : MeterSnapshotDiagnostics }.

(** [struct MeterSnapshotRequest] of the command vocabulary. *)
Record SnapshotCommand := mkSnapshotCommand { sc_version : Z; sc_selection : MeterSnapshotRequest }.

#[export] Instance snapshot_response : AcquisitionResponse MeterSnapshotResponse := {
  response_status := resp_status;
  status_default status := mkResponse status false false no_snapshot no_diagnostics }.

#[export] Instance snapshot_request : AcquisitionRequest SnapshotCommand MeterSnapshotResponse := {
  request_command := "meter-snapshot";
  request_version := sc_version }.

(** ** capture_coordinator.cpp *)

(** The ledger overlay.  [energy] and [demand] are the outcomes of [meter_stream_.energy()] and
    [meter_stream_.demand()]; an exception keeps the projected values. *)
Definition overlay (period : MeasurementPeriod) (energy : result (option EnergyValues))
    (demand : result (option DemandValues)) (s : MeterSnapshot) : MeterSnapshot :=
  match period with
  | Basic => match energy with Ok (Some e) => overlay_authoritative_energy s e | _ => s end
  | Demand => match demand with Ok (Some d) => overlay_authoritative_demand s d | _ => s end
  | _ => s
  end.

(** The lambda that converts the quality back. *)
Definition record_time_quality (q : SnapshotTime.TimeQuality) : TimeQuality :=
  match q with
  | SnapshotTime.Synchronized => Synchronized
  | SnapshotTime.Holdover => Holdover
  | SnapshotTime.Unsynchronized => Unsynchronized
  end.

Definition channel_diagnostics (record : MeterRecord) (index : nat) : result MeterChannelDiagnostics :=
  c ← channel record index; Ok (mkChannelDiagnostics (mc_mean_micro_units c) (mc_rms_count c)).

Definition frequency_diagnostics (record : MeterRecord) : MeterFrequencyDiagnostics :=
  let f := frequency record in
  mkFrequencyDiagnostics (mf_enabled f) (mf_reference_valid f) (mf_out_of_range f) (mf_timed_out f)
    (mf_arithmetic_error f) (mf_period_q16_samples f) (mf_measurement_sequence f) (mf_mode f)
    (mf_reference_channel f) (mf_cycles_used f).

Definition block_diagnostics (record : MeterRecord) (timing : MeterSnapshotTiming) : MeterBlockTimingIpc :=
  let t := MeterRecord.timing record in
  mkBlockTimingIpc (sequence record) (first_sample_index record) (block_sample_count record)
    (tw_cycle_count t) (tw_nominal_frequency_hz t) (tw_cycle_locked t) (tw_free_run_fallback t)
    (record_time_quality (mst_quality timing)).

Definition record_diagnostics (record : MeterRecord) (s : MeterSnapshot) : result MeterSnapshotDiagnostics :=
  channels ← mapM_result (channel_diagnostics record) (seq 0 8);
  Ok (mkDiagnostics (sample_rate_hz record) (block_sample_count record) (status record)
        (capture_frames record) (header_errors record) (fifo_overflows record) (emit_drops record)
        (result_drops record) channels (frequency_diagnostics record)
        (block_diagnostics record <$> ms_timing s)).

Section Coordinator.
Context {P : Type} `{MeterSnapshotProvider P}.

Definition meter_snapshot_response (running : bool) (provider : P) (energy : result (option EnergyValues))
    (demand : result (option DemandValues)) (latest_record : option MeterRecord)
    (selection : MeterSnapshotRequest) : result MeterSnapshotResponse :=
  latest ← provider_latest provider selection;
  let snapshot := overlay (msr_period selection) energy demand <$> latest in
  let has_snapshot := if snapshot is Some _ then true else false in
  let s := default no_snapshot snapshot in
  match msr_period selection, latest_record with
  | Basic, Some record =>
      diagnostics ← record_diagnostics record s;
      Ok (mkResponse status_ok running has_snapshot s diagnostics)
  | _, _ => Ok (mkResponse status_ok running has_snapshot s no_diagnostics)
  end.
End Coordinator.

(** ** acquisition_meter_snapshot_provider.cpp *)
Definition acquisition_supported (period : MeasurementPeriod) : list MeterAttributeKey :=
  match period with
  | Seconds10 => [key Id.Frequency]
  | Demand => attributes_in Group.Demand
  | _ =>
      let result := map key [Id.VanRms; Id.VbnRms; Id.VcnRms; Id.IaRms; Id.IbRms; Id.IcRms; Id.InRms] in
      let result := if decide (period = Basic) then key Id.Frequency :: result else result in
      let result := result ++ map key [
        Id.VabRms; Id.VbcRms; Id.VcaRms; Id.ActivePowerA; Id.ActivePowerB; Id.ActivePowerC;
        Id.ActivePowerTotal; Id.ApparentPowerA; Id.ApparentPowerB; Id.ApparentPowerC;
        Id.ApparentPowerTotal; Id.PowerFactorA; Id.PowerFactorB; Id.PowerFactorC; Id.PowerFactorTotal;
        Id.ReactivePowerA; Id.ReactivePowerB; Id.ReactivePowerC; Id.ReactivePowerTotal;
        Id.DisplacementPowerFactorA; Id.DisplacementPowerFactorB; Id.DisplacementPowerFactorC;
        Id.DisplacementPowerFactorTotal; Id.VoltagePhaseAngleA; Id.VoltagePhaseAngleB;
        Id.VoltagePhaseAngleC; Id.CurrentPhaseAngleA; Id.CurrentPhaseAngleB; Id.CurrentPhaseAngleC;
        Id.VoltageUnbalance; Id.CurrentUnbalance; Id.VoltageZeroSequenceRatio;
        Id.CurrentZeroSequenceRatio; Id.ZeroSequenceVoltage; Id.PositiveSequenceVoltage;
        Id.NegativeSequenceVoltage; Id.ZeroSequenceCurrent; Id.PositiveSequenceCurrent;
        Id.NegativeSequenceCurrent] in
      if decide (period = Basic) then result ++ attributes_in Group.Energy else result
  end.

Definition acquisition_capabilities : list MeterCapabilities :=
  map (fun period => mkCapabilities period (acquisition_supported period))
    [Basic; Seconds10; Cycles150_180; Min10; Hour2; Min10Live; Hour2Live; Demand].

(** [latest], from the response the client returns. *)
Definition acquisition_reply (reply : result MeterSnapshotResponse) : result (option MeterSnapshot) :=
  response ← reply;
  reject_if (negb (bool_decide (resp_status response = status_ok)))
    (Unavailable "acquisition rejected meter snapshot request") ;;
  Ok (if negb (resp_running response) || negb (resp_has_snapshot response) then None
      else Some (resp_snapshot response)).

Definition acquisition_latest {T} `{AcquisitionTransport T, Beve SnapshotCommand, Beve MeterSnapshotResponse}
    (selection : MeterSnapshotRequest) (t : T) : result (option MeterSnapshot) * T :=
  let '(reply, t) := client_request (mkSnapshotCommand acquisition_ipc_version selection) t in
  (acquisition_reply reply, t).

(** ** The ledger is the authority *)
Definition view_with_energy (e : EnergyValues) (view : MeterPeriodView) : MeterPeriodView :=
  let v := pview_values view in
  mkView (pview_period view) (pview_latest_sequence view) (pview_configuration_generation view)
    (pview_updated_at view)
    (mkValues (mv_fundamental v) (mv_power v) (mv_phasor v) (mv_unbalance v) e (mv_demand v)
       (mv_power_quality v))
    (pview_timing view) (pview_aggregate_timing view) (pview_frequency_10s view).

Definition view_with_demand (d : DemandValues) (view : MeterPeriodView) : MeterPeriodView :=
  let v := pview_values view in
  mkView (pview_period view) (pview_latest_sequence view) (pview_configuration_generation view)
    (pview_updated_at view)
    (mkValues (mv_fundamental v) (mv_power v) (mv_phasor v) (mv_unbalance v) (mv_energy v) d
       (mv_power_quality v))
    (pview_timing view) (pview_aggregate_timing view) (pview_frequency_10s view).

(** The overlay of one value. *)
Definition energy_over (e : EnergyValues) (x : MeterAttributeValue) : MeterAttributeValue :=
  let over {U} ids unit (group : PhaseABCTotal (Reading U)) x :=
    default x (group_value (mav_attribute x) ids unit group) in
  over (energy_group 6) Unit.MicroVarHours (en_reactive_iv e)
    (over (energy_group 5) Unit.MicroVarHours (en_reactive_iii e)
    (over (energy_group 4) Unit.MicroVarHours (en_reactive_ii e)
    (over (energy_group 3) Unit.MicroVarHours (en_reactive_i e)
    (over (energy_group 2) Unit.MicroVoltAmpereHours (en_apparent e)
    (over (energy_group 1) Unit.MicroWattHours (en_active_export e)
    (over (energy_group 0) Unit.MicroWattHours (en_active_import e) x)))))).

Definition demand_over (d : DemandValues) (x : MeterAttributeValue) : MeterAttributeValue :=
  let over ids (group : PhaseABCTotal (Reading MicroWatts)) x :=
    default x (group_value (mav_attribute x) ids Unit.MicroWatts group) in
  over (demand_group 2) (de_export_peak d)
    (over (demand_group 1) (de_import_peak d) (over (demand_group 0) (de_current_active d) x)).

Lemma overlay_energy_values s e :
  ms_values (overlay_authoritative_energy s e) = map (energy_over e) (ms_values s).
Proof. unfold overlay_authoritative_energy, replace_group. simpl. by rewrite !map_map. Qed.

Lemma overlay_demand_values s d :
  ms_values (overlay_authoritative_demand s d) = map (demand_over d) (ms_values s).
Proof. unfold overlay_authoritative_demand, replace_group. simpl. by rewrite !map_map. Qed.

(** *** What is served under a key

    The attributes of the catalog's energy group, and of its demand group. *)
Definition energy_attribute (k : MeterAttributeKey) : bool :=
  existsb (fun k' => same_id (ak_id k) (ak_id k')) (attributes_in Group.Energy).
Definition demand_attribute (k : MeterAttributeKey) : bool :=
  existsb (fun k' => same_id (ak_id k) (ak_id k')) (attributes_in Group.Demand).

Definition under_key (k : MeterAttributeKey) (x : MeterAttributeValue) : MeterAttributeValue :=
  mkValue k (mav_unit x) (mav_quality x) (mav_value x) (mav_source_sequence x) (mav_measured_at x)
    (mav_sample_count x) (mav_calculation_window x).

(** A key the ledger keeps, with or without an index, is answered with the value the
    ledger view has for its attribute; any other key with the value of the view. *)
Definition served (kept : MeterAttributeKey -> bool) (ledger view : MeterPeriodView)
    (k : MeterAttributeKey) (x : MeterAttributeValue) : Prop :=
  if kept k
  then exists y, project_attribute (pview_values ledger) (key (ak_id k)) = Ok (Some y) /\
         x = under_key k y
  else project_attribute (pview_values view) k = Ok (Some x).

Lemma energy_kept e view k :
  is_unnamed (ak_id k) = false -> energy_attribute k = true ->
  exists y, project_attribute (pview_values (view_with_energy e view)) (key (ak_id k)) = Ok (Some y) /\
    forall x, mav_attribute x = k -> energy_over e x = under_key k y.
Proof.
  destruct k as [id i]. intros Hn Hk.
  destruct id; try discriminate Hn; try discriminate Hk;
    (eexists; split; [reflexivity|by intros [a ? ? ? ? ? ? ?] [= ->]]).
Qed.

Lemma energy_left e k x :
  is_unnamed (ak_id k) = false -> energy_attribute k = false -> mav_attribute x = k ->
  energy_over e x = x.
Proof.
  destruct k as [id i]. destruct x as [a ? ? ? ? ? ? ?]. intros Hn Hk [= ->].
  destruct id; first [discriminate Hn|discriminate Hk|reflexivity].
Qed.

Lemma energy_served e view k x :
  is_unnamed (ak_id k) = false -> mav_attribute x = k ->
  project_attribute (pview_values view) k = Ok (Some x) ->
  served energy_attribute (view_with_energy e view) view k (energy_over e x).
Proof.
  intros Hn Hk Hx. unfold served. destruct (energy_attribute k) eqn:E.
  - destruct (energy_kept e view k Hn E) as (y & Hy & Ho). exists y. split; [exact Hy|by apply Ho].
  - by rewrite (energy_left e k x Hn E Hk).
Qed.

Lemma demand_kept d view k :
  is_unnamed (ak_id k) = false -> demand_attribute k = true ->
  exists y, project_attribute (pview_values (view_with_demand d view)) (key (ak_id k)) = Ok (Some y) /\
    forall x, mav_attribute x = k -> demand_over d x = under_key k y.
Proof.
  destruct k as [id i]. intros Hn Hk.
  destruct id; try discriminate Hn; try discriminate Hk;
    (eexists; split; [reflexivity|by intros [a ? ? ? ? ? ? ?] [= ->]]).
Qed.

Lemma demand_left d k x :
  is_unnamed (ak_id k) = false -> demand_attribute k = false -> mav_attribute x = k ->
  demand_over d x = x.
Proof.
  destruct k as [id i]. destruct x as [a ? ? ? ? ? ? ?]. intros Hn Hk [= ->].
  destruct id; first [discriminate Hn|discriminate Hk|reflexivity].
Qed.

Lemma demand_served d view k x :
  is_unnamed (ak_id k) = false -> mav_attribute x = k ->
  project_attribute (pview_values view) k = Ok (Some x) ->
  served demand_attribute (view_with_demand d view) view k (demand_over d x).
Proof.
  intros Hn Hk Hx. unfold served. destruct (demand_attribute k) eqn:E.
  - destruct (demand_kept d view k Hn E) as (y & Hy & Ho). exists y. split; [exact Hy|by apply Ho].
  - by rewrite (demand_left d k x Hn E Hk).
Qed.

(** Every key of a projected selection has its value, in order. *)
Lemma project_values_each v ks xs :
  project_values v ks = Ok xs ->
  Forall2 (fun k x => is_unnamed (ak_id k) = false /\ mav_attribute x = k /\
    project_attribute v k = Ok (Some x)) ks xs.
Proof.
  revert xs. induction ks as [|k ks IH]; intros xs H; [injection H as <-; constructor|].
  pose proof (project_values_described _ _ _ H) as Hd. apply List.Forall_cons_iff in Hd as [Hk _].
  apply is_ok_iff in Hk as [d Hk]. destruct (project_attribute_typed v k d Hk) as (x & Hx & Ht).
  simpl in H. rewrite Hx in H. simpl in H. apply bind_Ok in H as (ys & Hy & H). injection H as <-.
  constructor; [split_and!; [by eapply described_named|apply Ht|done]|by apply IH].
Qed.

Lemma response_snapshot running data energy demand record selection view response :
  store_latest (md_latest data) (msr_period selection) = Some view ->
  meter_snapshot_response running data energy demand record selection = Ok response ->
  exists s, project view selection = Ok s /\ resp_status response = status_ok /\
    resp_running response = running /\ resp_has_snapshot response = true /\
    resp_snapshot response = overlay (msr_period selection) energy demand s.
Proof.
  intros Hv H. unfold meter_snapshot_response in H. simpl in H. unfold in_process_latest in H. rewrite Hv in H.
  destruct (project view selection) as [s|e]; [|done]. exists s. split; [done|]. simpl in H.
  destruct (msr_period selection), record; simpl in H; by injection H as <-.
Qed.

(** The snapshot [s] has the frame of [s0] (period, sequence, generation, time of update,
    timing, ten-second frequency). *)
Definition same_frame (s s0 : MeterSnapshot) : Prop :=
  ms_period s = ms_period s0 /\ ms_sequence s = ms_sequence s0 /\
  ms_configuration_generation s = ms_configuration_generation s0 /\
  ms_updated_at s = ms_updated_at s0 /\ ms_timing s = ms_timing s0 /\
  ms_frequency_10s s = ms_frequency_10s s0.

Lemma overlay_energy_served view selection s e :
  project view selection = Ok s ->
  Forall2 (served energy_attribute (view_with_energy e view) view)
    (project_selection view selection) (ms_values (overlay_authoritative_energy s e)).
Proof.
  intros Hs. unfold project in Hs. apply bind_Ok in Hs as (xs & Hx & Hs). injection Hs as <-.
  rewrite overlay_energy_values. apply Forall2_fmap_r.
  eapply Forall2_impl; [|exact (project_values_each _ _ _ Hx)].
  intros k x (Hn & Hk & Hp). by apply energy_served.
Qed.

Lemma overlay_demand_served view selection s d :
  project view selection = Ok s ->
  Forall2 (served demand_attribute (view_with_demand d view) view)
    (project_selection view selection) (ms_values (overlay_authoritative_demand s d)).
Proof.
  intros Hs. unfold project in Hs. apply bind_Ok in Hs as (xs & Hx & Hs). injection Hs as <-.
  rewrite overlay_demand_values. apply Forall2_fmap_r.
  eapply Forall2_impl; [|exact (project_values_each _ _ _ Hx)].
  intros k x (Hn & Hk & Hp). by apply demand_served.
Qed.

(** (C38) The ledger is the authority for what it keeps.  When the daemon serves a Basic
    snapshot and the ledger answers, the energy metadata and the value under every key of an
    energy attribute are those of that one ledger reading, whatever the latest view holds, so
    that a reset is visible at the next read; an indexed key of such an attribute, which the
    projection marks as unavailable, also gets the unindexed counter (against the code's
    comment, see [overlay_aliases_indexed]).  Every other key gets the value of the view, in
    the order of the selection, and the timing is the view's.  The same holds of the Demand
    period and its attributes.  When the ledger has no state or cannot be reached, the
    snapshot is the projection of the last published view. *)
Theorem ledger_authoritative running data energy demand record selection view response :
  store_latest (md_latest data) (msr_period selection) = Some view ->
  meter_snapshot_response running data energy demand record selection = Ok response ->
  let s := resp_snapshot response in
  resp_running response = running /\ resp_has_snapshot response = true /\
  exists s0, project view selection = Ok s0 /\ same_frame s s0 /\
  match msr_period selection, energy, demand with
  | Basic, Ok (Some e), _ =>
      ms_energy s = Some (energy_metadata e) /\ ms_demand s = ms_demand s0 /\
      Forall2 (served energy_attribute (view_with_energy e view) view)
        (project_selection view selection) (ms_values s)
  | Demand, _, Ok (Some d) =>
      ms_demand s = Some (demand_metadata d) /\ ms_energy s = ms_energy s0 /\
      Forall2 (served demand_attribute (view_with_demand d view) view)
        (project_selection view selection) (ms_values s)
  | _, _, _ => s = s0
  end.
Proof.
  intros Hv H. destruct (response_snapshot _ _ _ _ _ _ _ _ Hv H) as (s & Hs & _ & Hr & Hh & Hsnap).
  simpl. rewrite Hsnap, Hr, Hh. split; [done|]. split; [done|]. exists s. split; [done|].
  destruct (msr_period selection); try (by split; [|reflexivity]).
  - destruct energy as [[e|]|]; [|by split..]. split; [done|]. split; [done|]. split; [done|].
    by apply overlay_energy_served.
  - destruct energy as [[]|], demand as [[d|]|]; try (by split);
      (split; [done|]; split; [done|]; split; [done|]; by apply overlay_demand_served).
Qed.

(** A Basic view whose energy counter still reads 900 while the ledger was reset to 3, asked
    for the counter with and without an index. *)
Lemma ledger_authoritative_witness :
  let energy n := mkEnergy (all_abct (mkReading n valid 1 0 no_window)) (all_abct no_reading)
    (all_abct no_reading) (all_abct no_reading) (all_abct no_reading) (all_abct no_reading)
    (all_abct no_reading) 7 0 0 0 0 0 (if n =? 3 then 2 else 1) false false false in
  let data := meter_data_apply 9 (mkUpdate Basic kind_energy 5 2 None None None None (Some (energy 900))
                None None None None None) new_meter_data in
  let selection := mkSnapshotRequest Basic [key Id.Frequency; key Id.ActiveImportEnergyTotal;
                     mkKey Id.ActiveImportEnergyTotal (Some 3)] in
  exists response,
    meter_snapshot_response true data (Ok (Some (energy 3))) (Ok None) None selection = Ok response /\
    resp_has_snapshot response = true /\
    map mav_value (ms_values (resp_snapshot response)) = [0; 3; 3] /\
    (esm_reset_epoch <$> ms_energy (resp_snapshot response)) = Some 2.
Proof.
  intros energy data selection. eexists.
  assert (E : meter_snapshot_response true data (Ok (Some (energy 3))) (Ok None) None selection = Ok _)
    by (vm_compute; reflexivity).
  split; [exact E|].
  edestruct (ledger_authoritative true data (Ok (Some (energy 3))) (Ok None) None selection)
    as (_ & H & s0 & _ & _ & G & _); [vm_compute; reflexivity|exact E|].
  split; [exact H|]. split; [vm_compute; reflexivity|]. by rewrite G.
Defined.

(** An indexed energy key is projected as unavailable, so that it does not alias the reading; the
    overlay compares the identity alone and gives it the unindexed counter. *)
Lemma overlay_aliases_indexed e :
  let k := mkKey Id.ActiveImportEnergyA (Some 3) in
  exists x, unavailable_value k = Ok x /\ mav_quality x = quality_Unavailable /\
    energy_over e x = value k Unit.MicroWattHours (abct_a (en_active_import e)).
Proof. by eexists. Qed.

(** ** Through the socket *)

(** The part of the coordinator a snapshot reads. *)
Record Coordinator := mkCoordinator {
  co_running : bool;
  co_data : MeterDataState;
  co_energy : result (option EnergyValues);
  co_demand : result (option DemandValues);
  co_latest_record : option MeterRecord }.

Definition serve_snapshot (command : SnapshotCommand) (c : Coordinator)
  : result MeterSnapshotResponse * Coordinator :=
  (meter_snapshot_response (co_running c) (co_data c) (co_energy c) (co_demand c) (co_latest_record c)
     (sc_selection command), c).

(** What a service behind the socket gets is the answer the coordinator itself gives: its snapshot
    while capture runs, nothing while it does not, and [AcquisitionUnavailable] when it threw. *)
Lemma acquisition_latest_served
    `{Beve SnapshotCommand, Beve MeterSnapshotResponse, Beve StatusOnlyResponse,
      !BeveRoundTrip SnapshotCommand, !BeveRoundTrip MeterSnapshotResponse, !BeveStatusOnly MeterSnapshotResponse}
    handlers selection correlation c bytes reply_bytes status_bytes :
  let command := mkSnapshotCommand acquisition_ipc_version selection in
  let response := fst (serve_snapshot command c) in
  handlers !! acquisition_command_id (RA := snapshot_request) =
    Some (command_handler (RA := snapshot_request) status_dma_error serve_snapshot) ->
  write_beve command = Some bytes ->
  (forall r, response = Ok r -> write_beve r = Some reply_bytes) ->
  write_beve (status_only status_dma_error) = Some status_bytes ->
  acquisition_latest selection (mkWire handlers correlation c) =
    (match response with
     | Ok r => Ok (if co_running c && resp_has_snapshot r then Some (resp_snapshot r) else None)
     | Throw _ => Throw (Unavailable "acquisition rejected meter snapshot request")
     end, mkWire handlers (u64 (correlation + 1)) c).
Proof.
  intros command response Hh Hb Hr Hs. unfold acquisition_latest.
  rewrite (client_request_replied (RA := snapshot_request) handlers status_dma_error serve_snapshot
             command correlation c response c bytes reply_bytes status_bytes); try done.
  f_equal. destruct response as [r|e] eqn:E; [|done]. unfold acquisition_reply. simpl.
  assert (resp_status r = status_ok /\ resp_running r = co_running c) as [-> ->].
  { unfold response, serve_snapshot, meter_snapshot_response in E. simpl in E.
    destruct (in_process_latest (co_data c) selection) as [latest|]; [|done]. simpl in E.
    destruct (msr_period selection), (co_latest_record c); simpl in E; by injection E as <-. }
  rewrite bool_decide_true by done. simpl. by destruct (co_running c), (resp_has_snapshot r).
Qed.
