(* ===== verification/RegisterSchema.v ===== *)
(** * The register map schema

    Models [src/common/msap1/modbus/register_map/register_schema.hpp] (how blocks are laid out,
    what the compile-time check of a map requires, and the binary search the register bank runs on
    every access) and [msap1_register_schema.hpp] (the published map itself).  [find_definition]
    returns the position of the entry where the code returns a pointer to it. *)

From stdpp Require Import base list.
From Stdlib Require Import String.
From S2P Require Import Prelude MeterTiming MeterAttribute ModbusHandler.
Local Open Scope string_scope.
Local Open Scope Z_scope.

(** ** register_schema.hpp *)
Inductive DataType := dt_uint16 | dt_uint32 | dt_int32 | dt_float32 | dt_uint64 | dt_int64.

Module Special.
Inductive SpecialRegister :=
  | map_version | word_order_marker | attribute_count | quality_mask | period | source_sequence
  | configuration_generation | energy_session_id | energy_reset_epoch | energy_last_sample
  | energy_accepted_samples | energy_skipped_samples | energy_accepted_blocks
  | energy_skipped_blocks | energy_flags | energy_quality_mask | demand_session_id
  | demand_reset_epoch | demand_last_sample | demand_interval_anchor_sample
  | demand_source_interval_count | demand_source_status | demand_method | demand_window_seconds
  | demand_update_seconds | demand_profile_generation | demand_flags | demand_quality_mask
  | demand_import_peak_sample_a | demand_import_peak_sample_b | demand_import_peak_sample_c
  | demand_import_peak_sample_total | demand_export_peak_sample_a | demand_export_peak_sample_b
  | demand_export_peak_sample_c | demand_export_peak_sample_total.
End Special.

#[export] Instance DataType_eq_dec : EqDecision DataType.
Proof. solve_decision. Defined.
#[export] Instance SpecialRegister_eq_dec : EqDecision Special.SpecialRegister.
Proof. solve_decision. Defined.

(** [std::variant<MeasurementSource, SpecialSource>] *)
Inductive RegisterSource :=
  | MeasurementSource (period : MeasurementPeriod) (attribute : MeterAttributeKey)
  | SpecialSource (field : Special.SpecialRegister) (period : option MeasurementPeriod).

Record RegisterBlock := mkBlock { rb_function : FunctionCode; rb_base : Z; rb_size : Z; rb_name : string }.

Record RegisterDefinition := mkDefinition {
  rd_function : FunctionCode;
  rd_address : Z;
  rd_words : Z;
  rd_type : DataType;
  rd_source : RegisterSource;
  rd_compatibility_alias : bool }.

Record SpecialDefinition := mkSpecial {
  sp_field : Special.SpecialRegister; sp_type : DataType; sp_period : option MeasurementPeriod }.

Definition register_width (type : DataType) : Z :=
  match type with
  | dt_uint16 => 1
  | dt_uint32 | dt_int32 | dt_float32 => 2
  | dt_uint64 | dt_int64 => 4
  end.

Definition block_end (block : RegisterBlock) : Z := u32 (rb_base block + rb_size block).
Definition definition_end (definition : RegisterDefinition) : Z :=
  u32 (rd_address definition + rd_words definition).

Definition make_attribute_block (block : RegisterBlock) (period : MeasurementPeriod) (type : DataType)
    (attributes : list MeterAttributeKey) : list RegisterDefinition :=
  let words := register_width type in
  imap (fun index attribute =>
    mkDefinition (rb_function block) (u16 (rb_base block + Z.of_nat index * words)) words type
      (MeasurementSource period attribute) false) attributes.

(** [make_indexed_block<FirstIndex, LastIndex>] *)
Definition make_indexed_block (first_index last_index : Z) (block : RegisterBlock)
    (period : MeasurementPeriod) (attribute : Id.MeterAttributeId) (type : DataType) : list RegisterDefinition :=
  make_attribute_block block period type
    (map (fun index => mkKey attribute (Some (u16 (first_index + Z.of_nat index))))
       (seq 0 (Z.to_nat (last_index - first_index + 1)))).

Fixpoint special_fields (function : FunctionCode) (address : Z) (fields : list SpecialDefinition)
  : list RegisterDefinition :=
  match fields with
  | [] => []
  | field :: rest =>
      let words := register_width (sp_type field) in
      mkDefinition function (u16 address) words (sp_type field)
        (SpecialSource (sp_field field) (sp_period field)) false ::
      special_fields function (u32 (address + words)) rest
  end.

Definition make_special_block (block : RegisterBlock) (fields : list SpecialDefinition)
  : list RegisterDefinition := special_fields (rb_function block) (rb_base block) fields.

Definition overlaps (first_begin first_end second_begin second_end : Z) : bool :=
  (first_begin <? second_end) && (second_begin <? first_end).

(** [validate_blocks], from block [index] on. *)
Fixpoint validate_blocks (blocks : list RegisterBlock) : bool :=
  match blocks with
  | [] => true
  | block :: rest =>
      negb ((rb_size block =? 0) || (0x10000 <? block_end block)) &&
      forallb (fun candidate =>
        negb (bool_decide (rb_function candidate = rb_function block) &&
              overlaps (rb_base block) (block_end block) (rb_base candidate) (block_end candidate))) rest &&
      validate_blocks rest
  end.

Definition same_source (a b : MeasurementPeriod * MeterAttributeKey) : bool :=
  bool_decide (fst a = fst b) && key_eqb (snd a) (snd b).

(** [std::get_if<MeasurementSource>] *)
Definition measurement (definition : RegisterDefinition) : option (MeasurementPeriod * MeterAttributeKey) :=
  match rd_source definition with
  | MeasurementSource period attribute => Some (period, attribute)
  | SpecialSource _ _ => None
  end.

Definition source_is_duplicate (first second : RegisterDefinition) : bool :=
  match measurement first, measurement second with
  | Some a, Some b =>
      same_source a b && negb (rd_compatibility_alias first) && negb (rd_compatibility_alias second)
  | _, _ => false
  end.

Definition precedes (first second : RegisterDefinition) : bool :=
  let first_function := function_value (rd_function first) in
  let second_function := function_value (rd_function second) in
  (first_function <? second_function) ||
  ((first_function =? second_function) && (rd_address first <? rd_address second)).

(** The blocks that contain an entry. *)
Definition containing_blocks (blocks : list RegisterBlock) (entry : RegisterDefinition) : nat :=
  length (List.filter (fun block =>
    bool_decide (rb_function block = rd_function entry) && (rb_base block <=? rd_address entry) &&
    (definition_end entry <=? block_end block)) blocks).

Definition entry_valid (blocks : list RegisterBlock) (entry : RegisterDefinition) : bool :=
  negb ((rd_words entry =? 0) || negb (rd_words entry =? register_width (rd_type entry)) ||
        (0x10000 <? definition_end entry)) &&
  (containing_blocks blocks entry =? 1)%nat.

(** The checks of [validate_register_map] on the entries, [previous] being [entries[index - 1]]. *)
Fixpoint validate_entries (blocks : list RegisterBlock) (previous : option RegisterDefinition)
    (entries : list RegisterDefinition) : bool :=
  match entries with
  | [] => true
  | entry :: rest =>
      entry_valid blocks entry &&
      match previous with Some p => precedes p entry | None => true end &&
      forallb (fun candidate =>
        negb (bool_decide (rd_function candidate = rd_function entry) &&
              overlaps (rd_address entry) (definition_end entry)
                (rd_address candidate) (definition_end candidate)) &&
        negb (source_is_duplicate entry candidate)) rest &&
      validate_entries blocks (Some entry) rest
  end.

Definition validate_register_map (blocks : list RegisterBlock) (entries : list RegisterDefinition) : bool :=
  validate_blocks blocks && validate_entries blocks None entries.

(** The condition that moves [first] past the middle. *)
Definition not_after (candidate : RegisterDefinition) (function : FunctionCode) (address : Z) : bool :=
  (function_value (rd_function candidate) <? function_value function) ||
  ((function_value (rd_function candidate) =? function_value function) && (rd_address candidate <=? address)).

(** The loop of [find_definition]; the interval shrinks at every turn, so its length is enough fuel. *)
Fixpoint bisect (fuel : nat) (entries : list RegisterDefinition) (function : FunctionCode) (address : Z)
    (first last : nat) : nat :=
  match fuel with
  | O => first
  | S fuel =>
      if (first <? last)%nat then
        let middle := (first + (last - first) / 2)%nat in
        match entries !! middle with
        | Some candidate =>
            if not_after candidate function address then bisect fuel entries function address (S middle) last
            else bisect fuel entries function address first middle
        | None => first
        end
      else first
  end.

Definition find_definition (entries : list RegisterDefinition) (function : FunctionCode) (address : Z)
  : option nat :=
  match bisect (length entries) entries function address 0 (length entries) with
  | O => None
  | S index =>
      candidate ← entries !! index;
      if bool_decide (rd_function candidate = function) && (rd_address candidate <=? address) &&
         (address <? definition_end candidate)
      then Some index else None
  end.

(** ** msap1_register_schema.hpp *)
Definition register_map_version : Z := 3.

(** [namespace blocks] *)
Definition blocks_holding_metadata : RegisterBlock :=
  mkBlock read_holding_registers 0x0000 0x0100 "holding.metadata".
Definition blocks_basic_frequency : RegisterBlock :=
  mkBlock read_input_registers 0x0000 0x0002 "basic.frequency".
Definition blocks_basic_voltage_ln : RegisterBlock :=
  mkBlock read_input_registers 0x0002 0x0006 "basic.voltage_ln".
Definition blocks_basic_current : RegisterBlock :=
  mkBlock read_input_registers 0x0008 0x0008 "basic.current".
Definition blocks_basic_status : RegisterBlock :=
  mkBlock read_input_registers 0x0010 0x0010 "basic.status".
Definition blocks_basic_legacy_reserve : RegisterBlock :=
  mkBlock read_input_registers 0x0020 0x00e0 "basic.legacy_reserve".
Definition blocks_basic_extension : RegisterBlock :=
  mkBlock read_input_registers 0x0100 0x0f00 "basic.extension".
Definition blocks_cycles_150_180 : RegisterBlock :=
  mkBlock read_input_registers 0x1000 0x1000 "cycles_150_180".
Definition blocks_minute_10 : RegisterBlock :=
  mkBlock read_input_registers 0x2000 0x1000 "minute_10".
Definition blocks_hour_2 : RegisterBlock :=
  mkBlock read_input_registers 0x3000 0x1000 "hour_2".
Definition blocks_voltage_harmonics : RegisterBlock :=
  mkBlock read_input_registers 0x4000 0x1000 "voltage_harmonics".
Definition blocks_current_harmonics : RegisterBlock :=
  mkBlock read_input_registers 0x5000 0x1000 "current_harmonics".
Definition blocks_power_quality : RegisterBlock :=
  mkBlock read_input_registers 0x6000 0x1000 "power_quality".

Definition register_blocks : list RegisterBlock := [
  blocks_holding_metadata; blocks_basic_frequency; blocks_basic_voltage_ln; blocks_basic_current;
  blocks_basic_status; blocks_basic_legacy_reserve; blocks_basic_extension; blocks_cycles_150_180;
  blocks_minute_10; blocks_hour_2; blocks_voltage_harmonics; blocks_current_harmonics;
  blocks_power_quality].

Definition metadata : list RegisterDefinition := make_special_block blocks_holding_metadata [
  mkSpecial Special.map_version dt_uint16 None; mkSpecial Special.word_order_marker dt_uint16 None;
  mkSpecial Special.attribute_count dt_uint16 None].
Definition basic_frequency : list RegisterDefinition :=
  make_attribute_block blocks_basic_frequency Basic dt_float32
    (map key [Id.Frequency]).
Definition basic_voltage_ln : list RegisterDefinition :=
  make_attribute_block blocks_basic_voltage_ln Basic dt_float32
    (map key [Id.VanRms; Id.VbnRms; Id.VcnRms]).
Definition basic_current : list RegisterDefinition :=
  make_attribute_block blocks_basic_current Basic dt_float32
    (map key [Id.IaRms; Id.IbRms; Id.IcRms; Id.InRms]).
Definition basic_status : list RegisterDefinition := make_special_block blocks_basic_status [
  mkSpecial Special.quality_mask dt_uint16 (Some Basic);
  mkSpecial Special.period dt_uint16 (Some Basic);
  mkSpecial Special.source_sequence dt_uint32 (Some Basic);
  mkSpecial Special.configuration_generation dt_uint32 (Some Basic)].
Definition energy_active_import_layout : RegisterBlock :=
  mkBlock (rb_function blocks_basic_extension) 0x0100 0x0010 "basic.energy.active_import".
Definition energy_active_export_layout : RegisterBlock :=
  mkBlock (rb_function blocks_basic_extension) 0x0110 0x0010 "basic.energy.active_export".
Definition energy_apparent_layout : RegisterBlock :=
  mkBlock (rb_function blocks_basic_extension) 0x0120 0x0010 "basic.energy.apparent".
Definition energy_quadrant_i_layout : RegisterBlock :=
  mkBlock (rb_function blocks_basic_extension) 0x0130 0x0010 "basic.energy.quadrant_i".
Definition energy_quadrant_ii_layout : RegisterBlock :=
  mkBlock (rb_function blocks_basic_extension) 0x0140 0x0010 "basic.energy.quadrant_ii".
Definition energy_quadrant_iii_layout : RegisterBlock :=
  mkBlock (rb_function blocks_basic_extension) 0x0150 0x0010 "basic.energy.quadrant_iii".
Definition energy_quadrant_iv_layout : RegisterBlock :=
  mkBlock (rb_function blocks_basic_extension) 0x0160 0x0010 "basic.energy.quadrant_iv".
Definition energy_metadata_layout : RegisterBlock :=
  mkBlock (rb_function blocks_basic_extension) 0x0170 0x0020 "basic.energy.metadata".
Definition active_import_energy : list RegisterDefinition :=
  make_attribute_block energy_active_import_layout Basic dt_uint64
    (map key [Id.ActiveImportEnergyA; Id.ActiveImportEnergyB; Id.ActiveImportEnergyC;
    Id.ActiveImportEnergyTotal]).
Definition active_export_energy : list RegisterDefinition :=
  make_attribute_block energy_active_export_layout Basic dt_uint64
    (map key [Id.ActiveExportEnergyA; Id.ActiveExportEnergyB; Id.ActiveExportEnergyC;
    Id.ActiveExportEnergyTotal]).
Definition apparent_energy : list RegisterDefinition :=
  make_attribute_block energy_apparent_layout Basic dt_uint64
    (map key [Id.ApparentEnergyA; Id.ApparentEnergyB; Id.ApparentEnergyC; Id.ApparentEnergyTotal]).
Definition reactive_energy_quadrant_i : list RegisterDefinition :=
  make_attribute_block energy_quadrant_i_layout Basic dt_uint64
    (map key [Id.ReactiveEnergyQuadrantIA; Id.ReactiveEnergyQuadrantIB; Id.ReactiveEnergyQuadrantIC;
    Id.ReactiveEnergyQuadrantITotal]).
Definition reactive_energy_quadrant_ii : list RegisterDefinition :=
  make_attribute_block energy_quadrant_ii_layout Basic dt_uint64
    (map key [Id.ReactiveEnergyQuadrantIIA; Id.ReactiveEnergyQuadrantIIB; Id.ReactiveEnergyQuadrantIIC;
    Id.ReactiveEnergyQuadrantIITotal]).
Definition reactive_energy_quadrant_iii : list RegisterDefinition :=
  make_attribute_block energy_quadrant_iii_layout Basic dt_uint64
    (map key [Id.ReactiveEnergyQuadrantIIIA; Id.ReactiveEnergyQuadrantIIIB; Id.ReactiveEnergyQuadrantIIIC;
    Id.ReactiveEnergyQuadrantIIITotal]).
Definition reactive_energy_quadrant_iv : list RegisterDefinition :=
  make_attribute_block energy_quadrant_iv_layout Basic dt_uint64
    (map key [Id.ReactiveEnergyQuadrantIVA; Id.ReactiveEnergyQuadrantIVB; Id.ReactiveEnergyQuadrantIVC;
    Id.ReactiveEnergyQuadrantIVTotal]).
Definition energy_metadata : list RegisterDefinition := make_special_block energy_metadata_layout [
  mkSpecial Special.energy_session_id dt_uint64 (Some Basic);
  mkSpecial Special.energy_reset_epoch dt_uint64 (Some Basic);
  mkSpecial Special.energy_last_sample dt_uint64 (Some Basic);
  mkSpecial Special.energy_accepted_samples dt_uint64 (Some Basic);
  mkSpecial Special.energy_skipped_samples dt_uint64 (Some Basic);
  mkSpecial Special.energy_accepted_blocks dt_uint32 (Some Basic);
  mkSpecial Special.energy_skipped_blocks dt_uint32 (Some Basic);
  mkSpecial Special.energy_flags dt_uint32 (Some Basic);
  mkSpecial Special.energy_quality_mask dt_uint64 (Some Basic)].
Definition demand_current_layout : RegisterBlock :=
  mkBlock (rb_function blocks_minute_10) 0x2000 0x0010 "demand.current".
Definition demand_import_peak_layout : RegisterBlock :=
  mkBlock (rb_function blocks_minute_10) 0x2010 0x0010 "demand.import_peak".
Definition demand_export_peak_layout : RegisterBlock :=
  mkBlock (rb_function blocks_minute_10) 0x2020 0x0010 "demand.export_peak".
Definition demand_metadata_layout : RegisterBlock :=
  mkBlock (rb_function blocks_minute_10) 0x2030 0x001e "demand.metadata".
Definition demand_anchor_layout : RegisterBlock :=
  mkBlock (rb_function blocks_minute_10) 0x2050 0x0020 "demand.peak_anchors".
Definition current_demand : list RegisterDefinition :=
  make_attribute_block demand_current_layout Demand dt_int64
    (map key [Id.CurrentActiveDemandA; Id.CurrentActiveDemandB; Id.CurrentActiveDemandC;
    Id.CurrentActiveDemandTotal]).
Definition import_demand_peak : list RegisterDefinition :=
  make_attribute_block demand_import_peak_layout Demand dt_uint64
    (map key [Id.ImportDemandPeakA; Id.ImportDemandPeakB; Id.ImportDemandPeakC; Id.ImportDemandPeakTotal]).
Definition export_demand_peak : list RegisterDefinition :=
  make_attribute_block demand_export_peak_layout Demand dt_uint64
    (map key [Id.ExportDemandPeakA; Id.ExportDemandPeakB; Id.ExportDemandPeakC; Id.ExportDemandPeakTotal]).
Definition demand_metadata : list RegisterDefinition := make_special_block demand_metadata_layout [
  mkSpecial Special.demand_session_id dt_uint64 (Some Demand);
  mkSpecial Special.demand_reset_epoch dt_uint64 (Some Demand);
  mkSpecial Special.demand_last_sample dt_uint64 (Some Demand);
  mkSpecial Special.demand_interval_anchor_sample dt_uint64 (Some Demand);
  mkSpecial Special.demand_source_interval_count dt_uint32 (Some Demand);
  mkSpecial Special.demand_source_status dt_uint32 (Some Demand);
  mkSpecial Special.demand_method dt_uint16 (Some Demand);
  mkSpecial Special.demand_window_seconds dt_uint32 (Some Demand);
  mkSpecial Special.demand_update_seconds dt_uint32 (Some Demand);
  mkSpecial Special.demand_profile_generation dt_uint32 (Some Demand);
  mkSpecial Special.demand_flags dt_uint32 (Some Demand);
  mkSpecial Special.demand_quality_mask dt_uint16 (Some Demand)].
Definition demand_peak_anchors : list RegisterDefinition := make_special_block demand_anchor_layout [
  mkSpecial Special.demand_import_peak_sample_a dt_uint64 (Some Demand);
  mkSpecial Special.demand_import_peak_sample_b dt_uint64 (Some Demand);
  mkSpecial Special.demand_import_peak_sample_c dt_uint64 (Some Demand);
  mkSpecial Special.demand_import_peak_sample_total dt_uint64 (Some Demand);
  mkSpecial Special.demand_export_peak_sample_a dt_uint64 (Some Demand);
  mkSpecial Special.demand_export_peak_sample_b dt_uint64 (Some Demand);
  mkSpecial Special.demand_export_peak_sample_c dt_uint64 (Some Demand);
  mkSpecial Special.demand_export_peak_sample_total dt_uint64 (Some Demand)].
Definition frequency_10s_layout : RegisterBlock :=
  mkBlock (rb_function blocks_power_quality) 0x6000 0x0002 "frequency.seconds_10".
Definition frequency_10s : list RegisterDefinition :=
  make_attribute_block frequency_10s_layout Seconds10 dt_float32
    (map key [Id.Frequency]).

Definition register_map : list RegisterDefinition := List.concat [
  metadata; basic_frequency; basic_voltage_ln; basic_current; basic_status; active_import_energy;
  active_export_energy; apparent_energy; reactive_energy_quadrant_i; reactive_energy_quadrant_ii;
  reactive_energy_quadrant_iii; reactive_energy_quadrant_iv; energy_metadata; current_demand;
  import_demand_peak; export_demand_peak; demand_metadata; demand_peak_anchors; frequency_10s].

Definition basic_published_attributes : list MeterAttributeKey := map key [
  Id.Frequency; Id.VanRms; Id.VbnRms; Id.VcnRms; Id.IaRms; Id.IbRms; Id.IcRms; Id.InRms].

Definition energy_published_attributes : list RegisterDefinition := List.concat [
  active_import_energy; active_export_energy; apparent_energy; reactive_energy_quadrant_i;
  reactive_energy_quadrant_ii; reactive_energy_quadrant_iii; reactive_energy_quadrant_iv].

Definition demand_published_attributes : list RegisterDefinition := List.concat [
  current_demand; import_demand_peak; export_demand_peak].
Definition published_measurement_attributes : list MeterAttributeKey := basic_published_attributes ++ map key [
  Id.ActiveImportEnergyA; Id.ActiveImportEnergyB; Id.ActiveImportEnergyC;
  Id.ActiveImportEnergyTotal; Id.ActiveExportEnergyA; Id.ActiveExportEnergyB;
  Id.ActiveExportEnergyC; Id.ActiveExportEnergyTotal; Id.ApparentEnergyA; Id.ApparentEnergyB;
  Id.ApparentEnergyC; Id.ApparentEnergyTotal; Id.ReactiveEnergyQuadrantIA;
  Id.ReactiveEnergyQuadrantIB; Id.ReactiveEnergyQuadrantIC; Id.ReactiveEnergyQuadrantITotal;
  Id.ReactiveEnergyQuadrantIIA; Id.ReactiveEnergyQuadrantIIB; Id.ReactiveEnergyQuadrantIIC;
  Id.ReactiveEnergyQuadrantIITotal; Id.ReactiveEnergyQuadrantIIIA; Id.ReactiveEnergyQuadrantIIIB;
  Id.ReactiveEnergyQuadrantIIIC; Id.ReactiveEnergyQuadrantIIITotal; Id.ReactiveEnergyQuadrantIVA;
  Id.ReactiveEnergyQuadrantIVB; Id.ReactiveEnergyQuadrantIVC; Id.ReactiveEnergyQuadrantIVTotal;
  Id.CurrentActiveDemandA; Id.CurrentActiveDemandB; Id.CurrentActiveDemandC;
  Id.CurrentActiveDemandTotal; Id.ImportDemandPeakA; Id.ImportDemandPeakB; Id.ImportDemandPeakC;
  Id.ImportDemandPeakTotal; Id.ExportDemandPeakA; Id.ExportDemandPeakB; Id.ExportDemandPeakC;
  Id.ExportDemandPeakTotal; Id.Frequency].

(** The [static_assert] of the schema. *)
Lemma register_map_valid : validate_register_map register_blocks register_map = true.
Proof. vm_compute. reflexivity. Qed.

(** ** The binary search *)
Definition owns (function : FunctionCode) (address : Z) (entry : RegisterDefinition) : bool :=
  bool_decide (rd_function entry = function) && (rd_address entry <=? address) && (address <? definition_end entry).

Lemma function_value_inj f g : function_value f = function_value g -> f = g.
Proof. by destruct f, g. Qed.

Lemma precedes_trans a b c : precedes a b = true -> precedes b c = true -> precedes a c = true.
Proof. unfold precedes. rewrite !orb_true_iff, !andb_true_iff, !Z.ltb_lt, !Z.eqb_eq. lia. Qed.

Lemma not_after_down a b f address :
  precedes a b = true -> not_after b f address = true -> not_after a f address = true.
Proof. unfold precedes, not_after. rewrite !orb_true_iff, !andb_true_iff, !Z.ltb_lt, !Z.leb_le, !Z.eqb_eq. lia. Qed.

Lemma validate_entries_sorted blocks previous entries :
  validate_entries blocks previous entries = true ->
  (forall p, previous = Some p -> Forall (fun e => precedes p e = true) entries) /\
  (forall i j a b, entries !! i = Some a -> entries !! j = Some b -> (i < j)%nat ->
     precedes a b = true /\
     (rd_function a = rd_function b ->
      overlaps (rd_address a) (definition_end a) (rd_address b) (definition_end b) = false)).
Proof.
  revert previous. induction entries as [|entry rest IH]; intros previous H.
  { split; [constructor|]. intros i j a b Ha. by rewrite lookup_nil in Ha. }
  simpl in H. rewrite !andb_true_iff in H. destruct H as [[[_ Hp] Hf] Hr].
  destruct (IH _ Hr) as [Hs Hpair]. clear IH. assert (Hs' := Hs _ eq_refl). rewrite List.forallb_forall in Hf.
  split.
  - intros p ->. constructor; [done|]. eapply List.Forall_impl; [|exact Hs']. intros e. by apply precedes_trans.
  - intros [|i] [|j] a b Ha Hb Hij; try lia; simpl in *; [|by apply (Hpair i j a b); [..|lia]].
    injection Ha as <-. apply list_elem_of_lookup_2 in Hb as Hin.
    apply list_elem_of_In in Hin.
    split; [by apply (proj1 (List.Forall_forall _ _) Hs')|]. intros Heq. apply Hf in Hin. rewrite andb_true_iff, !negb_true_iff in Hin. destruct Hin as [Hin _].
    by rewrite bool_decide_true in Hin.
Qed.

(** The type of [RegisterDefinition::address]. *)
Definition addresses_typed (entries : list RegisterDefinition) : Prop :=
  Forall (fun e => 0 <= rd_address e < 65536) entries.

Lemma validate_entries_end blocks previous entries i e :
  validate_entries blocks previous entries = true -> addresses_typed entries -> entries !! i = Some e ->
  definition_end e = rd_address e + register_width (rd_type e) /\ rd_words e = register_width (rd_type e).
Proof.
  revert previous i. induction entries as [|entry rest IH]; intros previous i H Ht He; [by rewrite lookup_nil in He|].
  simpl in H. rewrite !andb_true_iff in H. destruct H as [[[Hv _] _] Hr]. inversion Ht as [|? ? Ha Ht']; subst.
  destruct i as [|i]; [|by eapply IH]. injection He as <-. unfold entry_valid in Hv.
  rewrite andb_true_iff, negb_true_iff, !orb_false_iff, negb_false_iff, Z.eqb_eq in Hv.
  destruct Hv as [[[_ Hw] _] _]. split; [|done]. unfold definition_end. rewrite Hw. apply wrap_id.
  destruct (rd_type entry); simpl; lia.
Qed.

Lemma register_width_pos t : 0 < register_width t.
Proof. by destruct t. Qed.

Section Search.
Context (entries : list RegisterDefinition) (function : FunctionCode) (address : Z).
Hypothesis sorted : forall i j a b,
  entries !! i = Some a -> entries !! j = Some b -> (i < j)%nat -> precedes a b = true.

(** Everything before [n] is at or before the address, everything from [n] on is after it. *)
Definition split_at (first last : nat) : Prop :=
  (forall i e, entries !! i = Some e -> (i < first)%nat -> not_after e function address = true) /\
  (forall i e, entries !! i = Some e -> (last <= i)%nat -> not_after e function address = false).

Lemma bisect_split fuel first last :
  (last - first <= fuel)%nat -> (first <= last <= length entries)%nat -> split_at first last ->
  let n := bisect fuel entries function address first last in (n <= length entries)%nat /\ split_at n n.
Proof.
  revert first last. induction fuel as [|fuel IH]; intros first last Hf Hb [Hl Hr]; cbn [bisect].
  { assert (first = last) as <- by lia. split; [lia|done]. }
  destruct (Nat.ltb_spec first last); [|assert (first = last) as <- by lia; split; [lia|done]].
  set (middle := (first + (last - first) / 2)%nat).
  assert (first <= middle < last)%nat.
  { unfold middle. assert ((last - first) / 2 < last - first)%nat by (apply Nat.div_lt; lia). lia. }
  destruct (lookup_lt_is_Some_2 entries middle) as [c Hc]; [lia|]. rewrite Hc.
  destruct (not_after c function address) eqn:Hn; apply IH; try lia; split; intros i e Hi Hlt.
  - destruct (decide (i = middle)) as [->|]; [congruence|]. eapply not_after_down; [|exact Hn].
    apply (sorted i middle); [done..|lia].
  - by apply (Hr i).
  - by apply (Hl i).
  - destruct (decide (i = middle)) as [->|]; [congruence|].
    destruct (not_after e function address) eqn:He; [|done]. rewrite <- Hn. symmetry.
    eapply not_after_down; [|exact He]. apply (sorted middle i); [done..|lia].
Qed.
End Search.

Lemma find_definition_spec blocks entries function address i :
  validate_register_map blocks entries = true -> addresses_typed entries ->
  find_definition entries function address = Some i <->
  exists entry, entries !! i = Some entry /\ owns function address entry = true.
Proof.
  intros H Ht. unfold validate_register_map in H. apply andb_true_iff in H as [_ H].
  destruct (validate_entries_sorted _ _ _ H) as [_ Hpair].
  destruct (bisect_split entries function address (fun i j a b Ha Hb Hij => proj1 (Hpair i j a b Ha Hb Hij))
              (length entries) 0 (length entries)) as [Hn [Hl Hr]]; [lia..| |].
  { split; [lia|]. intros j e Hj%lookup_lt_Some. lia. }
  unfold find_definition. set (n := bisect _ _ _ _ _ _) in *. clearbody n.
  assert (Hlast : forall j e, entries !! j = Some e -> owns function address e = true -> n = S j).
  { intros j e Hj Ho. unfold owns in Ho. rewrite !andb_true_iff, bool_decide_eq_true, Z.leb_le, Z.ltb_lt in Ho.
    destruct Ho as [[Hf Ha] He]. assert (j < n)%nat.
    { destruct (decide (j < n)%nat) as [|Hge]; [done|].
      specialize (Hr j e Hj ltac:(lia)). unfold not_after in Hr. rewrite Hf, Z.ltb_irrefl, Z.eqb_refl in Hr.
      simpl in Hr. lia. }
    destruct (decide (n = S j)) as [|Hne]; [done|exfalso].
    destruct (lookup_lt_is_Some_2 entries (pred n)) as [c Hc]; [lia|].
    destruct (Hpair j (pred n) e c Hj Hc ltac:(lia)) as [Hp Ho].
    specialize (Hl _ _ Hc ltac:(lia)). unfold not_after in Hl. unfold precedes in Hp.
    rewrite orb_true_iff, andb_true_iff, Z.ltb_lt, ?Z.leb_le, Z.eqb_eq in Hl.
    rewrite orb_true_iff, andb_true_iff, !Z.ltb_lt, Z.eqb_eq in Hp. rewrite Hf in *.
    assert (Heq : function_value function = function_value (rd_function c)) by lia.
    specialize (Ho (function_value_inj _ _ Heq)). unfold overlaps in Ho.
    destruct (validate_entries_end _ _ _ _ _ H Ht Hc) as [Hce _].
    pose proof (register_width_pos (rd_type c)). lia. }
  split.
  - destruct n as [|index]; [done|]. intros E. destruct (entries !! index) as [c|] eqn:Hc; [|done]. simpl in E.
    fold (owns function address c) in E. destruct (owns function address c) eqn:Ho; [|done].
    injection E as <-. by exists c.
  - intros (e & He & Ho). rewrite (Hlast i e He Ho), He. simpl. fold (owns function address e). by rewrite Ho.
Qed.

(** (C39) The search is exact.  In any map that passes the compile-time check, for every function and
    address, the binary search ends and returns the one entry whose registers contain the address,
    and nothing when there is none. *)
Theorem find_definition_exact blocks entries function address i :
  validate_register_map blocks entries = true -> addresses_typed entries ->
  find_definition entries function address = Some i <->
  exists entry, entries !! i = Some entry /\ owns function address entry = true.
Proof. apply find_definition_spec. Qed.

Lemma register_map_typed : addresses_typed register_map.
Proof.
  assert (E : forallb (fun e => (0 <=? rd_address e) && (rd_address e <? 65536)) register_map = true)
    by (vm_compute; reflexivity).
  apply List.Forall_forall. intros e He. apply (proj1 (List.forallb_forall _ _) E) in He. lia.
Qed.

(** The high word of the Basic frequency, the last register of the last peak anchor, and a gap. *)
Lemma find_definition_exact_witness :
  find_definition register_map read_input_registers 0 = Some 3%nat /\
  (exists e, register_map !! 3%nat = Some e /\ owns read_input_registers 0 e = true) /\
  find_definition register_map read_input_registers 0x206f <> None /\
  find_definition register_map read_input_registers 0x20 = None.
Proof.
  split; [vm_compute; reflexivity|]. split; [|by split].
  apply (find_definition_exact register_blocks register_map read_input_registers 0 3
           register_map_valid register_map_typed). vm_compute. reflexivity.
Defined.
