(* ===== verification/RegisterMap.v ===== *)
(** * The product register bank

    Models [src/common/msap1/modbus/modbus_register_map.cpp]: the encoding of a meter snapshot into
    registers, the selection of the one snapshot a read needs, and [Msap1RegisterBank], which
    instantiates the [RegisterBank] interface of the Modbus engine over any snapshot provider.
    Single-precision arithmetic is IEEE-754 binary32 with round to nearest, ties to even, executed
    on the binary specification of the standard library. *)

From stdpp Require Import base list.
From Stdlib Require Import SpecFloat.
From S2P Require Import Prelude MeterTiming MeterAttribute MeterData MeterSnapshot ModbusHandler RegisterSchema.
Local Open Scope Z_scope.

(** ** Single precision *)

(** [static_cast<float>] of an integer, and [/]. *)
Definition float_of_Z (z : Z) : spec_float := binary_normalize 24 128 z 0 false.
Definition float_div (x y : spec_float) : spec_float := SFdiv 24 128 x y.

(** [std::bit_cast<std::uint32_t>]; the quiet NaN has the pattern 0x7fc00000. *)
Definition float_bits (x : spec_float) : Z :=
  let sign (s : bool) := if s then 0x80000000 else 0 in
  match x with
  | S754_zero s => sign s
  | S754_infinity s => sign s + 0x7f800000
  | S754_nan => 0x7fc00000
  | S754_finite s m e =>
      if Z.pos m <? 2 ^ 23 then sign s + Z.pos m
      else sign s + Z.shiftl (e + 150) 23 + (Z.pos m - 2 ^ 23)
  end.

Definition encode_float (value : spec_float) : list Z := encode_u32 (float_bits value).

(** ** modbus_register_map.cpp *)
Definition definition (function : FunctionCode) (address : Z) : option nat :=
  find_definition register_map function address.

Definition reading (snapshot : MeterSnapshot) (attribute : MeterAttributeKey) : option MeterAttributeValue :=
  List.find (fun value => key_eqb (mav_attribute value) attribute) (ms_values snapshot).

(** [value && value->quality == ReadingQuality::Valid] *)
Definition available (value : option MeterAttributeValue) : option MeterAttributeValue :=
  value ≫= fun v => if bool_decide (mav_quality v = quality_Valid) then Some v else None.

Definition engineering_value (value : option MeterAttributeValue) : spec_float :=
  match available value with
  | None => S754_nan
  | Some v =>
      let x := float_of_Z (mav_value v) in
      match mav_unit v with
      | Unit.MilliHertz => float_div x (float_of_Z 1000)
      | Unit.MicroVolts | Unit.MicroAmperes => float_div x (float_of_Z 1000000)
      | Unit.Picowatts | Unit.PicoVoltAmperes => float_div x (float_of_Z 1000000000000)
      | Unit.PowerFactorMillionths => float_div x (float_of_Z 1000000)
      | Unit.Picovars => float_div x (float_of_Z 1000000000000)
      | Unit.Millidegrees => float_div x (float_of_Z 1000)
      | Unit.RatioMillionths => float_div x (float_of_Z 10000)
      | Unit.MicroWattHours | Unit.MicroVarHours | Unit.MicroVoltAmpereHours | Unit.MicroWatts => x
      | Unit.CrestTenThousandths => float_div x (float_of_Z 10000)
      | Unit.CategoricalCode => x
      end
  end.

Definition encode_measurement (entry : RegisterDefinition) (attribute : MeterAttributeKey)
    (snapshot : option MeterSnapshot) : list Z :=
  let value := s ← snapshot; reading s attribute in
  let number := match available value with Some v => mav_value v | None => 0 end in
  match rd_type entry with
  | dt_float32 => encode_float (engineering_value value)
  | dt_uint16 => encode_u16 (u16 number)
  | dt_uint32 => encode_u32 (u32 number)
  | dt_int32 => encode_i32 (sign 32 number)
  | dt_uint64 => encode_u64 (u64 number)
  | dt_int64 => encode_i64 number
  end.

(** [std::get<MeasurementSource>] *)
Definition get_measurement (definition : RegisterDefinition) : result MeterAttributeKey :=
  match rd_source definition with
  | MeasurementSource _ attribute => Ok attribute
  | SpecialSource _ _ => Throw (RuntimeError "bad variant access")
  end.

(** The mask of the attributes with a valid reading, bit [index] first. *)
Fixpoint mask_of (snapshot : MeterSnapshot) (index : Z) (attributes : list MeterAttributeKey) : Z :=
  match attributes with
  | [] => 0
  | attribute :: rest =>
      Z.lor (if available (reading snapshot attribute) is Some _ then Z.shiftl 1 index else 0)
        (mask_of snapshot (index + 1) rest)
  end.

(** The lambda [valid_mask]. *)
Definition valid_mask (snapshot : option MeterSnapshot) (definitions : list RegisterDefinition) : result Z :=
  match snapshot with
  | None => Ok 0
  | Some s => attributes ← mapM_result get_measurement definitions; Ok (u64 (mask_of s 0 attributes))
  end.

Definition period_code (period : MeasurementPeriod) : Z := Z.of_nat (period_index period).

Definition energy_flags (e : EnergySnapshotMetadata) : Z :=
  Z.lor (Z.lor (b2z (esm_saturated e)) (Z.shiftl (b2z (esm_incomplete_input e)) 1))
    (Z.shiftl (b2z (esm_discontinuity e)) 2).

Definition demand_flags (d : DemandSnapshotMetadata) : Z :=
  Z.lor (Z.lor (Z.lor (Z.lor (b2z (dsm_time_aligned d)) (Z.shiftl (b2z (dsm_contaminated d)) 1))
    (Z.shiftl (b2z (dsm_boundary_valid d)) 2)) (Z.shiftl (b2z (dsm_saturated d)) 3))
    (Z.shiftl (b2z (dsm_incomplete_input d)) 4).

(** [samples[index]] of a fixed array of four. *)
Definition peak_sample (samples : list Z) (index : nat) : Z := nth index samples 0.

Definition encode_special (field : Special.SpecialRegister) (period : option MeasurementPeriod)
    (snapshot : option MeterSnapshot) : result (list Z) :=
  let energy {A} (f : EnergySnapshotMetadata -> A) (zero : A) :=
    match s ← snapshot; ms_energy s with Some e => f e | None => zero end in
  let demand {A} (f : DemandSnapshotMetadata -> A) (zero : A) :=
    match s ← snapshot; ms_demand s with Some d => f d | None => zero end in
  match field with
  | Special.quality_mask =>
      Ok [match snapshot with Some s => u16 (mask_of s 0 basic_published_attributes) | None => 0 end]
  | Special.period =>
      Ok [match snapshot with Some s => period_code (ms_period s) | None => period_code (default Basic period) end]
  | Special.source_sequence =>
      Ok (encode_u32 (match snapshot with Some s => u32 (ms_sequence s) | None => 0 end))
  | Special.configuration_generation =>
      Ok (encode_u32 (match snapshot with Some s => ms_configuration_generation s | None => 0 end))
  | Special.map_version => Ok [register_map_version]
  | Special.word_order_marker => Ok [0x1234]
  | Special.attribute_count => Ok [u16 (Z.of_nat (length published_measurement_attributes))]
  | Special.energy_session_id => Ok (encode_u64 (energy esm_session_id 0))
  | Special.energy_reset_epoch => Ok (encode_u64 (energy esm_reset_epoch 0))
  | Special.energy_last_sample => Ok (encode_u64 (energy esm_last_sample_index 0))
  | Special.energy_accepted_samples => Ok (encode_u64 (energy esm_accepted_samples 0))
  | Special.energy_skipped_samples => Ok (encode_u64 (energy esm_skipped_samples 0))
  | Special.energy_accepted_blocks => Ok (encode_u32 (energy esm_accepted_blocks 0))
  | Special.energy_skipped_blocks => Ok (encode_u32 (energy esm_skipped_blocks 0))
  | Special.energy_flags => Ok (encode_u32 (energy energy_flags 0))
  | Special.energy_quality_mask =>
      mask ← valid_mask snapshot energy_published_attributes; Ok (encode_u64 mask)
  | Special.demand_session_id => Ok (encode_u64 (demand dsm_session_id 0))
  | Special.demand_reset_epoch => Ok (encode_u64 (demand dsm_peak_reset_epoch 0))
  | Special.demand_last_sample => Ok (encode_u64 (demand dsm_last_sample_index 0))
  | Special.demand_interval_anchor_sample => Ok (encode_u64 (demand dsm_interval_anchor_sample 0))
  | Special.demand_source_interval_count => Ok (encode_u32 (demand dsm_source_interval_count 0))
  | Special.demand_source_status => Ok (encode_u32 (demand dsm_source_status 0))
  | Special.demand_method => Ok [u16 (demand dsm_method 0)]
  | Special.demand_window_seconds => Ok (encode_u32 (demand dsm_window_seconds 0))
  | Special.demand_update_seconds => Ok (encode_u32 (demand dsm_update_seconds 0))
  | Special.demand_profile_generation => Ok (encode_u32 (demand dsm_profile_generation 0))
  | Special.demand_flags => Ok (encode_u32 (demand demand_flags 0))
  | Special.demand_quality_mask =>
      mask ← valid_mask snapshot demand_published_attributes; Ok [u16 mask]
  | Special.demand_import_peak_sample_a => Ok (encode_u64 (demand (fun d => peak_sample (dsm_import_peak_samples d) 0) 0))
  | Special.demand_import_peak_sample_b => Ok (encode_u64 (demand (fun d => peak_sample (dsm_import_peak_samples d) 1) 0))
  | Special.demand_import_peak_sample_c => Ok (encode_u64 (demand (fun d => peak_sample (dsm_import_peak_samples d) 2) 0))
  | Special.demand_import_peak_sample_total => Ok (encode_u64 (demand (fun d => peak_sample (dsm_import_peak_samples d) 3) 0))
  | Special.demand_export_peak_sample_a => Ok (encode_u64 (demand (fun d => peak_sample (dsm_export_peak_samples d) 0) 0))
  | Special.demand_export_peak_sample_b => Ok (encode_u64 (demand (fun d => peak_sample (dsm_export_peak_samples d) 1) 0))
  | Special.demand_export_peak_sample_c => Ok (encode_u64 (demand (fun d => peak_sample (dsm_export_peak_samples d) 2) 0))
  | Special.demand_export_peak_sample_total => Ok (encode_u64 (demand (fun d => peak_sample (dsm_export_peak_samples d) 3) 0))
  end.

Definition encode (entry : RegisterDefinition) (snapshot : option MeterSnapshot) : result (list Z) :=
  match rd_source entry with
  | MeasurementSource _ attribute => Ok (encode_measurement entry attribute snapshot)
  | SpecialSource field period => encode_special field period snapshot
  end.

(** *** The snapshot a read needs *)
Record SnapshotSelection := mkSelection {
  sel_period : option MeasurementPeriod;
  sel_attributes : list MeterAttributeKey;
  sel_incompatible_periods : bool }.

Definition include_period (selection : SnapshotSelection) (period : MeasurementPeriod) : SnapshotSelection :=
  match sel_period selection with
  | Some p =>
      if bool_decide (p = period) then mkSelection (Some period) (sel_attributes selection) (sel_incompatible_periods selection)
      else mkSelection (Some p) (sel_attributes selection) true
  | None => mkSelection (Some period) (sel_attributes selection) (sel_incompatible_periods selection)
  end.

Definition add_attributes (selection : SnapshotSelection) (attributes : list MeterAttributeKey) : SnapshotSelection :=
  mkSelection (sel_period selection) (fold_left set_add attributes (sel_attributes selection))
    (sel_incompatible_periods selection).

(** What visiting the source of one entry adds. *)
Definition select_source (selection : SnapshotSelection) (source : RegisterSource) : result SnapshotSelection :=
  match source with
  | MeasurementSource period attribute => Ok (add_attributes (include_period selection period) [attribute])
  | SpecialSource field (Some period) =>
      let selection := include_period selection period in
      match field with
      | Special.quality_mask => Ok (add_attributes selection basic_published_attributes)
      | Special.energy_quality_mask =>
          attributes ← mapM_result get_measurement energy_published_attributes;
          Ok (add_attributes selection attributes)
      | Special.demand_quality_mask =>
          attributes ← mapM_result get_measurement demand_published_attributes;
          Ok (add_attributes selection attributes)
      | _ => Ok selection
      end
  | SpecialSource _ None => Ok selection
  end.

(** [*entry]; the callers have checked that the entry exists. *)
Definition entry_at (index : option nat) : result RegisterDefinition :=
  match i ← index; register_map !! i with
  | Some entry => Ok entry
  | None => Throw (UndefinedBehaviour "null register definition")
  end.

Fixpoint snapshot_selection (function : FunctionCode) (current : Z) (count : nat) (previous : option nat)
    (selection : SnapshotSelection) : result SnapshotSelection :=
  match count with
  | O => Ok selection
  | S count =>
      let entry := definition function (u16 current) in
      if bool_decide (entry = previous)
      then snapshot_selection function (current + 1) count previous selection
      else
        e ← entry_at entry;
        selection ← select_source selection (rd_source e);
        snapshot_selection function (current + 1) count entry selection
  end.

(** The encoding loop of [read]; [cached] and [encoded] are its two locals. *)
Fixpoint encode_range (function : FunctionCode) (snapshot : option MeterSnapshot) (current : Z) (count : nat)
    (cached : option nat) (encoded : list Z) (values : list Z) : result RegisterReadResult :=
  match count with
  | O => Ok (mkRead none values)
  | S count =>
      let entry := definition function (u16 current) in
      e ← entry_at entry;
      encoded ← (if bool_decide (entry = cached) then Ok encoded else encode e snapshot);
      match encoded !! Z.to_nat (current - rd_address e) with
      | None => Ok (mkRead server_device_failure [])
      | Some word => encode_range function snapshot (current + 1) count entry encoded (values ++ [word])
      end
  end.

Section Bank.
Context {P : Type} `{MeterSnapshotProvider P}.

(** [Msap1RegisterBank], with the provider it refers to. *)
Record Msap1RegisterBank := mkBank { bank_provider : P }.

(** The addresses [address, ..., end - 1]. *)
Definition range_mapped (function : FunctionCode) (address count : Z) : bool :=
  forallb (fun i => if definition function (u16 (address + Z.of_nat i)) is Some _ then true else false)
    (seq 0 (Z.to_nat count)).

Definition read (bank : Msap1RegisterBank) (function : FunctionCode) (address count : Z)
  : result RegisterReadResult :=
  if negb (is_register_read function) then Ok (mkRead illegal_function [])
  else if count =? 0 then Ok (mkRead illegal_data_value [])
  else
    if 0x10000 <? u32 (address + count) then Ok (mkRead illegal_data_address [])
    else if negb (range_mapped function address count) then Ok (mkRead illegal_data_address [])
    else
      selection ← snapshot_selection function address (Z.to_nat count) None (mkSelection None [] false);
      if sel_incompatible_periods selection then Ok (mkRead illegal_data_address [])
      else
        match match sel_period selection with
              | None => Ok None
              | Some period =>
                  provider_latest (bank_provider bank) (mkSnapshotRequest period (sel_attributes selection))
              end with
        | Throw _ => Ok (mkRead server_device_failure [])
        | Ok snapshot => encode_range function snapshot address (Z.to_nat count) None [] []
        end.

Definition write_single (bank : Msap1RegisterBank) (address value : Z) : Msap1RegisterBank * result ExceptionCode :=
  (bank, Ok illegal_data_address).

Definition write_multiple (bank : Msap1RegisterBank) (address : Z) (values : list Z)
  : Msap1RegisterBank * result ExceptionCode := (bank, Ok illegal_data_address).

#[export] Instance msap1_register_bank : RegisterBank Msap1RegisterBank := {
  bank_read := read;
  bank_write_single := write_single;
  bank_write_multiple := write_multiple }.
End Bank.
Arguments Msap1RegisterBank P : clear implicits.
Arguments mkBank {P} _.
