(* ===== verification/RegisterMapTheorems.v ===== *)
(** * What a register read returns

    Over any snapshot provider: which reads are refused, that a read is answered from one snapshot
    taken for it, and what a client that decodes the registers recovers. *)

From stdpp Require Import base list sets.
From Stdlib Require Import SpecFloat.
From S2P Require Import Prelude MeterTiming MeterAttribute MeterData MeterSnapshot ModbusHandler RegisterSchema RegisterMap.
Local Open Scope Z_scope.

(** ** Entries *)
Lemma definition_spec f a i :
  definition f a = Some i <-> exists e, register_map !! i = Some e /\ owns f a e = true.
Proof. apply (find_definition_spec register_blocks); [exact register_map_valid|exact register_map_typed]. Qed.

Lemma entry_end i e :
  register_map !! i = Some e ->
  0 <= rd_address e /\ definition_end e = rd_address e + register_width (rd_type e) /\ definition_end e <= 65536.
Proof.
  intros He. destruct (validate_entries_end register_blocks None register_map i e) as [E _]; [|exact register_map_typed|done|].
  { pose proof register_map_valid as H. by apply andb_true_iff in H as [_ H]. }
  apply (Forall_lookup_1 _ _ _ _ register_map_typed) in He as Ht. split; [lia|]. split; [done|].
  assert (F : forallb (fun e => definition_end e <=? 65536) register_map = true) by (vm_compute; reflexivity).
  apply list_elem_of_lookup_2, list_elem_of_In, (proj1 (List.forallb_forall _ _) F) in He. lia.
Qed.

(** The number of registers of each special field. *)
Definition special_width (field : Special.SpecialRegister) : Z :=
  match field with
  | Special.quality_mask | Special.period | Special.map_version | Special.word_order_marker
  | Special.attribute_count | Special.demand_method | Special.demand_quality_mask => 1
  | Special.source_sequence | Special.configuration_generation | Special.energy_accepted_blocks
  | Special.energy_skipped_blocks | Special.energy_flags | Special.demand_source_interval_count
  | Special.demand_source_status | Special.demand_window_seconds | Special.demand_update_seconds
  | Special.demand_profile_generation | Special.demand_flags => 2
  | _ => 4
  end.

Definition is_u16 (w : Z) : Prop := 0 <= w < 65536.

Lemma u16_range z : is_u16 (u16 z).
Proof. apply (wrap_range 16). lia. Qed.

Lemma encode_u32_words z : length (encode_u32 z) = 2%nat /\ Forall is_u16 (encode_u32 z).
Proof. split; [done|]. repeat constructor; apply u16_range. Qed.

Lemma encode_u64_words z : length (encode_u64 z) = 4%nat /\ Forall is_u16 (encode_u64 z).
Proof. split; [done|]. repeat constructor; apply u16_range. Qed.

Lemma one_word z : length [u16 z] = 1%nat /\ Forall is_u16 [u16 z].
Proof. split; [done|]. repeat constructor; apply u16_range. Qed.

Lemma energy_measurements : is_ok (mapM_result get_measurement energy_published_attributes) = true.
Proof. vm_compute. reflexivity. Qed.

Lemma demand_measurements : is_ok (mapM_result get_measurement demand_published_attributes) = true.
Proof. vm_compute. reflexivity. Qed.

Lemma valid_mask_ok snapshot definitions :
  is_ok (mapM_result get_measurement definitions) = true -> exists m, valid_mask snapshot definitions = Ok m.
Proof.
  intros [ks H]%is_ok_iff. unfold valid_mask. rewrite H. destruct snapshot; simpl; by eexists.
Qed.

Lemma period_code_range p : is_u16 (period_code p).
Proof. unfold period_code, is_u16. destruct p; simpl; lia. Qed.

Lemma encode_special_width field period snapshot :
  exists ws, encode_special field period snapshot = Ok ws /\
    Z.of_nat (length ws) = special_width field /\ Forall is_u16 ws.
Proof.
  destruct (valid_mask_ok snapshot _ energy_measurements) as [me He].
  destruct (valid_mask_ok snapshot _ demand_measurements) as [md Hd].
  destruct field; cbn [encode_special special_width]; rewrite ?He, ?Hd;
    (eexists; split; [reflexivity|]; split; [reflexivity|]);
    first [apply encode_u32_words | apply encode_u64_words | apply one_word | idtac].
  all: constructor; [|constructor].
  all: first [unfold is_u16, register_map_version; lia |
    destruct snapshot; first [apply u16_range | apply period_code_range | unfold is_u16; lia]].
Qed.

Lemma encode_measurement_width e k snapshot :
  Z.of_nat (length (encode_measurement e k snapshot)) = register_width (rd_type e) /\
  Forall is_u16 (encode_measurement e k snapshot).
Proof.
  unfold encode_measurement. destruct (rd_type e); (split; [reflexivity|]);
    first [apply encode_u32_words | apply encode_u64_words | apply one_word].
Qed.

(** Every entry of the map encodes to as many words as it has registers. *)
Lemma encode_width i e snapshot :
  register_map !! i = Some e ->
  exists ws, encode e snapshot = Ok ws /\ Z.of_nat (length ws) = register_width (rd_type e) /\ Forall is_u16 ws.
Proof.
  intros He. unfold encode.
  assert (F : forallb (fun e => match rd_source e with
                                | SpecialSource field _ => special_width field =? register_width (rd_type e)
                                | MeasurementSource _ _ => true end) register_map = true) by (vm_compute; reflexivity).
  apply list_elem_of_lookup_2, list_elem_of_In, (proj1 (List.forallb_forall _ _) F) in He.
  destruct (rd_source e) as [p k|field p].
  - eexists. split; [reflexivity|]. apply encode_measurement_width.
  - destruct (encode_special_width field p snapshot) as (ws & E & L & T). exists ws. split; [done|]. split; [lia|done].
Qed.

(** ** The selection of a snapshot *)
Definition source_period (source : RegisterSource) : option MeasurementPeriod :=
  match source with MeasurementSource p _ => Some p | SpecialSource _ p => p end.

(** The readings the value of an entry is made of. *)
Definition needs (source : RegisterSource) : list MeterAttributeKey :=
  match source with
  | MeasurementSource _ attribute => [attribute]
  | SpecialSource Special.quality_mask (Some _) => basic_published_attributes
  | SpecialSource Special.energy_quality_mask (Some _) => snd <$> omap measurement energy_published_attributes
  | SpecialSource Special.demand_quality_mask (Some _) => snd <$> omap measurement demand_published_attributes
  | _ => []
  end.

Definition with_period (selection : SnapshotSelection) (period : option MeasurementPeriod) : SnapshotSelection :=
  match period with Some p => include_period selection p | None => selection end.

Lemma get_measurements definitions ks :
  mapM_result get_measurement definitions = Ok ks -> ks = snd <$> omap measurement definitions.
Proof.
  revert ks. induction definitions as [|d ds IH]; intros ks H; [by injection H as <-|].
  simpl in H. apply bind_Ok in H as (k & Hk & H). apply bind_Ok in H as (ks' & Hks & H). injection H as <-.
  rewrite (IH _ Hks). simpl. destruct (measurement d) as [[p k']|] eqn:E;
    unfold get_measurement in Hk; unfold measurement in E; destruct (rd_source d); try done.
  injection E as -> ->. by injection Hk as ->.
Qed.

Lemma select_source_eq selection source :
  select_source selection source =
    Ok (add_attributes (with_period selection (source_period source)) (needs source)).
Proof.
  destruct source as [p k|field [p|]]; [done| |by destruct selection, field].
  destruct (proj1 (is_ok_iff _) energy_measurements) as [es Hes].
  destruct (proj1 (is_ok_iff _) demand_measurements) as [ds Hds].
  destruct field; cbn [select_source source_period needs with_period]; rewrite ?Hes, ?Hds;
    rewrite <- ?(get_measurements _ _ Hes), <- ?(get_measurements _ _ Hds); try done;
    by destruct (include_period selection p).
Qed.

Lemma set_contains_self l k : set_contains (set_add l k) k = true.
Proof.
  unfold set_add. destruct (set_contains l k) eqn:E; [done|]. unfold set_contains. rewrite existsb_app.
  simpl. unfold key_eqb, same_id. rewrite Z.eqb_refl, bool_decide_true by done. by rewrite !orb_true_r.
Qed.

Lemma selection_contains_add l k k' : set_contains l k = true -> set_contains (set_add l k') k = true.
Proof.
  intros H. unfold set_add. destruct (set_contains l k'); [done|]. unfold set_contains in *. by rewrite existsb_app, H.
Qed.

Lemma set_contains_fold l ks k : set_contains l k = true \/ k ∈ ks -> set_contains (fold_left set_add ks l) k = true.
Proof.
  revert l. induction ks as [|k' ks IH]; intros l H; simpl; [by destruct H as [H|H%elem_of_nil]|].
  apply IH. destruct H as [H|[->|H]%elem_of_cons]; [left; by apply selection_contains_add|left; apply set_contains_self|by right].
Qed.

(** [selection] is what visiting the sources [visited] gives. *)
Record selected (selection : SnapshotSelection) (visited : list RegisterSource) : Prop := {
  sl_period : sel_incompatible_periods selection = false ->
    forall s p, s ∈ visited -> source_period s = Some p -> sel_period selection = Some p;
  sl_clash : sel_incompatible_periods selection = true ->
    exists s1 s2 p1 p2, s1 ∈ visited /\ s2 ∈ visited /\ source_period s1 = Some p1 /\
      source_period s2 = Some p2 /\ p1 <> p2;
  sl_from : forall p, sel_period selection = Some p -> exists s, s ∈ visited /\ source_period s = Some p;
  sl_needs : forall s k, s ∈ visited -> k ∈ needs s -> set_contains (sel_attributes selection) k = true }.

Lemma selected_nil : selected (mkSelection None [] false) [].
Proof. by split; try (intros; set_solver). Qed.

Lemma with_period_attributes selection p : sel_attributes (with_period selection p) = sel_attributes selection.
Proof. destruct p; [|done]. simpl. unfold include_period. by repeat case_match. Qed.

Lemma selected_step selection visited s :
  selected selection visited ->
  selected (add_attributes (with_period selection (source_period s)) (needs s)) (s :: visited).
Proof.
  intros [Hp Hc Hf Hn]. split; simpl.
  - intros Hi s' p Hs Hsp. destruct (source_period s) as [q|] eqn:Hq; simpl in *.
    + unfold include_period in *. destruct (sel_period selection) as [r|] eqn:Hr; simpl in *.
      * case_bool_decide; simpl in *; [subst|done]. apply elem_of_cons in Hs as [->|Hs]; [congruence|].
        specialize (Hp Hi _ _ Hs Hsp). congruence.
      * apply elem_of_cons in Hs as [->|Hs]; [congruence|]. by specialize (Hp Hi _ _ Hs Hsp).
    + apply elem_of_cons in Hs as [->|Hs]; [congruence|]. by apply (Hp Hi s').
  - intros Hi. destruct (source_period s) as [q|] eqn:Hq; simpl in *; [unfold include_period in *|].
    + destruct (sel_period selection) as [r|] eqn:Hr; simpl in *.
      * case_bool_decide as Hrq; simpl in *.
        -- destruct (Hc Hi) as (s1 & s2 & p1 & p2 & H1 & H2 & H). exists s1, s2, p1, p2. set_solver.
        -- destruct (Hf r eq_refl) as (s' & Hs' & Hp'). exists s', s, r, q. set_solver.
      * destruct (Hc Hi) as (s1 & s2 & p1 & p2 & H1 & H2 & H). exists s1, s2, p1, p2. set_solver.
    + destruct (Hc Hi) as (s1 & s2 & p1 & p2 & H1 & H2 & H). exists s1, s2, p1, p2. set_solver.
  - intros p Hsp. destruct (source_period s) as [q|] eqn:Hq; simpl in *.
    + unfold include_period in *. destruct (sel_period selection) as [r|] eqn:Hr; simpl in *.
      * case_bool_decide; simpl in *; [injection Hsp as <-; exists s; set_solver|].
        destruct (Hf p Hsp) as (s' & Hs' & ?). exists s'. set_solver.
      * injection Hsp as <-. exists s. set_solver.
    + destruct (Hf p Hsp) as (s' & Hs' & ?). exists s'. set_solver.
  - intros s' k Hs Hk. rewrite with_period_attributes. apply set_contains_fold.
    apply elem_of_cons in Hs as [->|Hs]; [by right|]. left. by apply (Hn s').
Qed.

(** ** A range of registers *)

(** The entry that owns an address. *)
Definition owner (f : FunctionCode) (a : Z) (e : RegisterDefinition) : Prop :=
  e ∈ register_map /\ owns f a e = true.

Definition mapped (f : FunctionCode) (a : Z) : Prop := exists e, owner f a e.

Lemma owner_definition f a e :
  owner f a e <-> exists i, definition f a = Some i /\ register_map !! i = Some e.
Proof.
  unfold owner. split.
  - intros [[i Hi]%list_elem_of_lookup Ho]. exists i. split; [|done]. apply definition_spec. by exists e.
  - intros (i & Hd & Hi). split; [by eapply list_elem_of_lookup_2|].
    apply definition_spec in Hd as (e' & Hi' & Ho). by simplify_eq.
Qed.

Lemma owner_range f a e : owner f a e -> 0 <= a < 65536 /\ rd_address e <= a < rd_address e + register_width (rd_type e).
Proof.
  intros [[i Hi]%list_elem_of_lookup Ho]. destruct (entry_end _ _ Hi) as (H0 & Hend & Hmax).
  unfold owns in Ho. rewrite !andb_true_iff, Z.leb_le, Z.ltb_lt in Ho. lia.
Qed.

Lemma mapped_lookup f a :
  mapped f a -> exists i e, definition f (u16 a) = Some i /\ register_map !! i = Some e /\ owner f a e /\ u16 a = a.
Proof.
  intros [e He]. assert (Ha : u16 a = a) by (apply (wrap_id 16); apply owner_range in He; lia). rewrite Ha.
  assert (Ho := He). apply owner_definition in He as (i & Hd & Hi). by exists i, e.
Qed.

Lemma selection_spec f current n previous selection visited :
  (forall a, current <= a < current + Z.of_nat n -> mapped f a) ->
  selected selection visited ->
  (forall i, previous = Some i -> exists e, register_map !! i = Some e /\ rd_source e ∈ visited) ->
  exists selection' visited',
    snapshot_selection f current n previous selection = Ok selection' /\ selected selection' visited' /\
    visited ⊆ visited' /\
    (forall a e, current <= a < current + Z.of_nat n -> owner f a e -> rd_source e ∈ visited') /\
    (forall s, s ∈ visited' -> s ∈ visited \/
       exists a e, current <= a < current + Z.of_nat n /\ owner f a e /\ s = rd_source e).
Proof.
  revert current previous selection visited.
  induction n as [|n IH]; intros current previous selection visited Hm Hsel Hprev.
  { exists selection, visited. split_and!; try done; [lia|by left]. }
  destruct (mapped_lookup f current) as (i & e & Hd & Hi & Ho & Hu); [apply Hm; lia|].
  cbn [snapshot_selection]. rewrite Hd.
  assert (Hone : forall e', owner f current e' -> e' = e).
  { intros e' (j & Hj & He')%owner_definition. rewrite Hu in Hd. congruence. }
  assert (Hrest : forall a, current + 1 <= a < current + 1 + Z.of_nat n -> mapped f a) by (intros; apply Hm; lia).
  assert (Hstep : forall sel vis prev', selected sel vis -> visited ⊆ vis -> rd_source e ∈ vis ->
    (forall s, s ∈ vis -> s ∈ visited \/ s = rd_source e) -> prev' = Some i ->
    exists selection' visited',
      snapshot_selection f (current + 1) n prev' sel = Ok selection' /\ selected selection' visited' /\
      visited ⊆ visited' /\
      (forall a e, current <= a < current + Z.of_nat (S n) -> owner f a e -> rd_source e ∈ visited') /\
      (forall s, s ∈ visited' -> s ∈ visited \/
         exists a e, current <= a < current + Z.of_nat (S n) /\ owner f a e /\ s = rd_source e)).
  { intros sel vis prev' Hs Hsub Hin Hback ->.
    destruct (IH (current + 1) (Some i) sel vis) as (sel' & vis' & E & Hs' & Hsub' & Hall & Hback'); [done..| |].
    { intros j Hj. injection Hj as <-. by exists e. }
    exists sel', vis'. split_and!; [done|done|set_solver| |].
    - intros a e' Ha Ho'. destruct (decide (a = current)) as [->|]; [rewrite (Hone e' Ho'); set_solver|].
      apply (Hall a); [lia|done].
    - intros s [Hs''|(a & e' & Ha & Ho' & ->)]%Hback'.
      + destruct (Hback s Hs'') as [?| ->]; [by left|]. right. exists current, e. split; [lia|done].
      + right. exists a, e'. split; [lia|done]. }
  case_bool_decide as Heq.
  - symmetry in Heq. destruct (Hprev i Heq) as (e' & He' & Hin). assert (e' = e) as -> by congruence.
    apply (Hstep selection visited previous); [done..|set_solver|done].
  - unfold entry_at. simpl. rewrite Hi. simpl. rewrite select_source_eq. simpl.
    apply (Hstep _ (rd_source e :: visited)); [by apply selected_step|set_solver..|done].
Qed.

(** The word a snapshot gives for an address. *)
Definition word_at (f : FunctionCode) (snapshot : option MeterSnapshot) (a : Z) (w : Z) : Prop :=
  exists e ws, owner f a e /\ encode e snapshot = Ok ws /\ ws !! Z.to_nat (a - rd_address e) = Some w.

Lemma encode_range_spec f snapshot current n cached encoded values :
  (forall a, current <= a < current + Z.of_nat n -> mapped f a) ->
  (forall i, cached = Some i -> exists e, register_map !! i = Some e /\ encode e snapshot = Ok encoded) ->
  exists ws, encode_range f snapshot current n cached encoded values = Ok (mkRead none (values ++ ws)) /\
    length ws = n /\ Forall is_u16 ws /\
    forall i w, ws !! i = Some w -> word_at f snapshot (current + Z.of_nat i) w.
Proof.
  revert current cached encoded values. induction n as [|n IH]; intros current cached encoded values Hm Hc.
  { exists []. split_and!; [by rewrite app_nil_r|done|done|intros i w H; by rewrite lookup_nil in H]. }
  destruct (mapped_lookup f current) as (i & e & Hd & Hi & Ho & Hu); [apply Hm; lia|].
  destruct (encode_width i e snapshot Hi) as (es & Hes & Hlen & Ht).
  destruct (owner_range _ _ _ Ho) as [_ Hr].
  destruct (lookup_lt_is_Some_2 es (Z.to_nat (current - rd_address e))) as [w Hw]; [lia|].
  destruct (IH (current + 1) (Some i) es (values ++ [w])) as (ws & E & Hl & Hty & Hws);
    [intros; apply Hm; lia|intros j Hj; injection Hj as <-; by exists e|].
  exists (w :: ws). split_and!.
  - cbn [encode_range]. rewrite Hd. unfold entry_at. simpl. rewrite Hi. simpl.
    assert (Henc : (if bool_decide (Some i = cached) then Ok encoded else encode e snapshot) = Ok es).
    { case_bool_decide as Heq; [|done]. symmetry in Heq. destruct (Hc i Heq) as (e' & He' & Henc). congruence. }
    rewrite Henc. simpl. rewrite Hw, E. by rewrite <- app_assoc.
  - simpl. by rewrite Hl.
  - constructor; [exact (Forall_lookup_1 _ _ _ _ Ht Hw)|done].
  - intros [|j] w' Hj; simpl in Hj.
    + injection Hj as <-. replace (current + Z.of_nat 0) with current by lia. by exists e, es.
    + replace (current + Z.of_nat (S j)) with (current + 1 + Z.of_nat j) by lia. by apply Hws.
Qed.

Lemma range_mapped_spec f address count :
  0 <= address -> address + count <= 65536 -> 0 <= count ->
  range_mapped f address count = true <-> forall a, address <= a < address + count -> mapped f a.
Proof.
  intros H0 H1 H2. unfold range_mapped. rewrite List.forallb_forall. split.
  - intros H a Ha. specialize (H (Z.to_nat (a - address))). rewrite Z2Nat.id in H by lia.
    replace (address + (a - address)) with a in H by lia.
    assert (Hu : u16 a = a) by (apply (wrap_id 16); lia). rewrite Hu in H.
    destruct (definition f a) as [i|] eqn:Hd.
    + apply definition_spec in Hd as (e & Hi & Ho). exists e. split; [by eapply list_elem_of_lookup_2|done].
    + assert (false = true); [apply H|done]. apply in_seq. lia.
  - intros H i Hi. apply in_seq in Hi. destruct (mapped_lookup f (address + Z.of_nat i)) as (j & e & -> & _); [|done].
    apply H. lia.
Qed.

Section Read.
Context {P : Type} `{MeterSnapshotProvider P}.

(** The entries a read touches. *)
Definition touched (f : FunctionCode) (address count : Z) (e : RegisterDefinition) : Prop :=
  exists a, address <= a < address + count /\ owner f a e.

Definition one_period (f : FunctionCode) (address count : Z) : Prop :=
  forall e1 e2 p1 p2, touched f address count e1 -> touched f address count e2 ->
    source_period (rd_source e1) = Some p1 -> source_period (rd_source e2) = Some p2 -> p1 = p2.

(** (C40) What a read returns.  A read of mapped registers whose values belong to one period is
    answered from one snapshot of that period, requested with every attribute the registers need:
    each register carries its word of the encoding of that snapshot, so that no multi-word value and
    no quality mask is torn.  A read that touches a gap, or mixes periods, is refused with an illegal
    address before the provider is asked; a provider that throws is a device failure.  The bank
    itself never throws. *)
Theorem register_read (bank : Msap1RegisterBank P) f address count :
  is_register_read f = true -> 0 <= address < 65536 -> 0 < count < 65536 ->
  ((~ (forall a, address <= a < address + count -> mapped f a) \/ ~ one_period f address count) ->
   read bank f address count = Ok (mkRead illegal_data_address [])) /\
  ((forall a, address <= a < address + count -> mapped f a) -> one_period f address count ->
   exists period attributes,
     (forall e p, touched f address count e -> source_period (rd_source e) = Some p -> period = Some p) /\
     (forall e k, touched f address count e -> k ∈ needs (rd_source e) -> set_contains attributes k = true) /\
     match match period with
           | None => Ok None
           | Some p => provider_latest (bank_provider bank) (mkSnapshotRequest p attributes) end with
     | Throw _ => read bank f address count = Ok (mkRead server_device_failure [])
     | Ok snapshot =>
         exists words, read bank f address count = Ok (mkRead none words) /\
           Z.of_nat (length words) = count /\ Forall is_u16 words /\
           forall i w, words !! i = Some w -> word_at f snapshot (address + Z.of_nat i) w
     end).
Proof.
  intros Hf Ha Hc. unfold read. rewrite Hf. simpl. destruct (Z.eqb_spec count 0); [lia|].
  assert (Hu : u32 (address + count) = address + count) by (apply (wrap_id 32); lia). rewrite Hu.
  destruct (Z.ltb_spec 0x10000 (address + count)) as [Hbig|Hfit].
  { split; [done|]. intros Hm _. exfalso. destruct (Hm 65536) as [e He]; [lia|]. apply owner_range in He. lia. }
  pose proof (range_mapped_spec f address count) as Hrm.
  destruct (range_mapped f address count); simpl.
  2: { split; [done|]. intros Hm _. assert (false = true); [|done]. by apply Hrm; try lia. }
  assert (Hm : forall a, address <= a < address + count -> mapped f a) by (apply Hrm; [lia..|done]). clear Hrm.
  destruct (selection_spec f address (Z.to_nat count) None (mkSelection None [] false) [])
    as (sel & visited & E & [Hp Hcl _ Hn] & _ & Hall & Hback); [|exact selected_nil|done|].
  { intros a Hr. apply Hm. lia. }
  rewrite E. simpl.
  assert (Hvis : forall e, touched f address count e -> rd_source e ∈ visited).
  { intros e (a & Hr & Ho). apply (Hall a); [lia|done]. }
  destruct (sel_incompatible_periods sel) eqn:Hinc.
  - split; [done|]. intros _ Hone. exfalso.
    destruct (Hcl eq_refl) as (s1 & s2 & p1 & p2 & H1 & H2 & Hs1 & Hs2 & Hne). apply Hne.
    apply Hback in H1 as [H1%elem_of_nil|(a1 & e1 & Ha1 & Ho1 & ->)]; [done|].
    apply Hback in H2 as [H2%elem_of_nil|(a2 & e2 & Ha2 & Ho2 & ->)]; [done|].
    apply (Hone e1 e2); [exists a1; split; [lia|done]|exists a2; split; [lia|done]|done..].
  - split.
    { intros [Hno|Hno]; [done|]. exfalso. apply Hno. intros e1 e2 p1 p2 T1 T2 Q1 Q2.
      pose proof (Hp eq_refl _ _ (Hvis _ T1) Q1). pose proof (Hp eq_refl _ _ (Hvis _ T2) Q2). congruence. }
    intros _ _. exists (sel_period sel), (sel_attributes sel). split_and!.
    + intros e p T Q. by apply (Hp eq_refl _ _ (Hvis _ T)).
    + intros e k T. apply Hn. by apply Hvis.
    + destruct (match sel_period sel with None => _ | Some _ => _ end) as [snapshot|]; [|done].
      destruct (encode_range_spec f snapshot address (Z.to_nat count) None [] []) as (ws & Er & Hl & Ht & Hw);
        [intros a Hr; apply Hm; lia|done|].
      exists ws. rewrite Er. split_and!; [done|lia|done|done].
Qed.
End Read.

Lemma entry_at_Ok index e : entry_at index = Ok e -> exists i, index = Some i /\ register_map !! i = Some e.
Proof.
  unfold entry_at. generalize register_map. intros entries. destruct index as [i|]; [|done]. cbn.
  destruct (entries !! i) eqn:E; [|done]. intros H. injection H as ->. by exists i.
Qed.

Lemma encode_range_step f snapshot current n cached encoded values :
  encode_range f snapshot current (S n) cached encoded values =
  (e ← entry_at (definition f (u16 current));
   es ← (if bool_decide (definition f (u16 current) = cached) then Ok encoded else encode e snapshot);
   match es !! Z.to_nat (current - rd_address e) with
   | None => Ok (mkRead server_device_failure [])
   | Some word => encode_range f snapshot (current + 1) n (definition f (u16 current)) es (values ++ [word])
   end).
Proof. reflexivity. Qed.

(** The bank returns 16-bit registers, as the engine's interface requires. *)
Lemma encode_range_typed f snapshot current n cached encoded values r :
  Forall is_u16 encoded -> Forall is_u16 values ->
  encode_range f snapshot current n cached encoded values = Ok r -> Forall is_u16 (read_values r).
Proof.
  revert current cached encoded values. induction n as [|n IH]; intros current cached encoded values He Hv H.
  { by apply Ok_inj in H as <-. }
  rewrite encode_range_step in H. revert H. generalize (definition f (u16 current)). intros entry H.
  apply bind_Ok in H as (e & (i & _ & Hi)%entry_at_Ok & H). apply bind_Ok in H as (es & Hes & H).
  assert (Ht : Forall is_u16 es).
  { revert Hes. destruct (bool_decide _); intros Hes; [by apply Ok_inj in Hes as <-|].
    destruct (encode_width i e snapshot Hi) as (ws & Hw & _ & Ht). rewrite Hw in Hes. by apply Ok_inj in Hes as <-. }
  revert H. destruct (es !! _) as [w|] eqn:Hw; intros H; [|by apply Ok_inj in H as <-; constructor].
  eapply IH; [exact Ht| |exact H]. apply Forall_app. split; [done|].
  constructor; [exact (Forall_lookup_1 _ _ _ _ Ht Hw)|constructor].
Qed.

Lemma read_typed {P} `{MeterSnapshotProvider P} (bank : Msap1RegisterBank P) f address count r :
  read bank f address count = Ok r -> Forall is_u16 (read_values r).
Proof.
  unfold read. destruct (negb (is_register_read f)); [intros Hr; injection Hr as <-; constructor|].
  destruct (count =? 0); [intros Hr; injection Hr as <-; constructor|].
  destruct (_ <? _); [intros Hr; injection Hr as <-; constructor|].
  destruct (negb (range_mapped f address count)); [intros Hr; injection Hr as <-; constructor|].
  intros Hr. apply bind_Ok in Hr as (sel & _ & Hr). revert Hr.
  destruct (sel_incompatible_periods sel); [intros Hr; injection Hr as <-; constructor|].
  destruct (match sel_period sel with None => _ | Some _ => _ end); [|intros Hr; injection Hr as <-; constructor].
  intros Hr. eapply encode_range_typed; [..|exact Hr]; constructor.
Qed.

#[export] Instance msap1_register_bank_typed {P} `{MeterSnapshotProvider P} : RegisterBankTyped (Msap1RegisterBank P).
Proof. intros bank f address count r Hr. exact (read_typed bank f address count r Hr). Qed.

(** ** Quality *)
Lemma iter_nonneg p r : 0 <= shr_m r -> 0 <= shr_m (SpecFloat.iter_pos shr_1 p r).
Proof.
  assert (H1 : forall r, 0 <= shr_m r -> 0 <= shr_m (shr_1 r)) by (intros [[|[]|] ? ?]; simpl; lia).
  revert r. induction p as [p IH|p IH|]; intros r Hr; simpl; auto.
Qed.

Lemma shr_fexp_nonneg m e l : 0 <= m -> 0 <= shr_m (fst (shr_fexp 24 128 m e l)).
Proof.
  intros Hm. unfold shr_fexp, shr. assert (0 <= shr_m (shr_record_of_loc m l)) by (destruct l as [|[]]; done).
  destruct (_ - e); simpl; [done|by apply iter_nonneg|done].
Qed.

Lemma round_not_nan s m e l : 0 <= m -> binary_round_aux 24 128 s m e l <> S754_nan.
Proof.
  intros Hm. unfold binary_round_aux. pose proof (shr_fexp_nonneg m e l Hm) as H1.
  destruct (shr_fexp 24 128 m e l) as [r1 e1]. simpl in H1.
  assert (H2 : 0 <= round_nearest_even (shr_m r1) (loc_of_shr_record r1)).
  { unfold round_nearest_even. destruct (loc_of_shr_record r1) as [|[]]; try lia. destruct (Z.even _); lia. }
  pose proof (shr_fexp_nonneg _ e1 loc_Exact H2) as H3.
  destruct (shr_fexp 24 128 (round_nearest_even (shr_m r1) (loc_of_shr_record r1)) e1 loc_Exact) as [r2 e2].
  simpl in H3. destruct (shr_m r2); [done|by destruct (_ <=? _)|lia].
Qed.

Lemma float_of_Z_not_nan z : float_of_Z z <> S754_nan.
Proof.
  unfold float_of_Z, binary_normalize, binary_round.
  destruct z; [done|..]; destruct (shl_align _ _ _); by apply round_not_nan.
Qed.

Lemma float_div_not_nan x s m e : x <> S754_nan -> float_div x (S754_finite s m e) <> S754_nan.
Proof.
  intros Hx. unfold float_div, SFdiv. destruct x as [| | |sx mx ex]; try done.
  unfold SFdiv_core_binary. set (m' := match _ with 0 => _ | Z.pos _ => _ | Z.neg _ => _ end).
  assert (0 <= m') by (unfold m'; case_match; [lia|apply Z.shiftl_nonneg; lia|lia]).
  pose proof (Z_div_mod m' (Z.pos m) ltac:(lia)) as Hd. destruct (Z.div_eucl m' (Z.pos m)) as [q r].
  apply round_not_nan. nia.
Qed.

Lemma engineering_value_nan value : engineering_value value = S754_nan <-> available value = None.
Proof.
  unfold engineering_value. destruct (available value) as [v|]; [|done]. split; [|done]. intros H. exfalso.
  revert H. pose proof (float_of_Z_not_nan (mav_value v)) as Hx.
  destruct (mav_unit v); try done; by apply float_div_not_nan.
Qed.

Lemma mask_of_bit s n ks i :
  0 <= n -> Z.testbit (mask_of s n ks) i =
  (n <=? i) && (if k ← ks !! Z.to_nat (i - n); available (reading s k) is Some _ then true else false).
Proof.
  revert n. induction ks as [|k ks IH]; intros n Hn; cbn [mask_of].
  { rewrite Z.testbit_0_l, lookup_nil. by rewrite andb_false_r. }
  rewrite Z.lor_spec, IH by lia.
  assert (Hb : Z.testbit (if available (reading s k) is Some _ then Z.shiftl 1 n else 0) i =
               (i =? n) && (if available (reading s k) is Some _ then true else false)).
  { destruct (available (reading s k)); [|by rewrite Z.testbit_0_l, andb_false_r].
    rewrite Z.shiftl_1_l, andb_true_r, Z.eqb_sym. by apply Z.pow2_bits_eqb. }
  rewrite Hb. destruct (Z.eqb_spec i n) as [->|Hne]; simpl.
  - replace (Z.to_nat (n - n)) with 0%nat by lia. replace (n + 1 <=? n) with false by lia.
    replace (n <=? n) with true by lia. simpl. by rewrite orb_false_r.
  - destruct (Z.leb_spec n i); [|by replace (n + 1 <=? i) with false by lia].
    replace (n + 1 <=? i) with true by lia. replace (Z.to_nat (i - n)) with (S (Z.to_nat (i - (n + 1)))) by lia. done.
Qed.

(** Whether a snapshot has a valid reading of an attribute. *)
Definition has_valid (s : MeterSnapshot) (k : MeterAttributeKey) : bool :=
  if available (reading s k) is Some _ then true else false.

Lemma mask_bit s w ks i k :
  0 <= Z.of_nat i < w -> ks !! i = Some k -> Z.testbit (wrap w (mask_of s 0 ks)) (Z.of_nat i) = has_valid s k.
Proof.
  intros Hi Hk. unfold wrap. rewrite Z.mod_pow2_bits_low by lia. rewrite mask_of_bit by lia.
  replace (Z.to_nat (Z.of_nat i - 0)) with i by lia. rewrite Hk. by replace (0 <=? Z.of_nat i) with true by lia.
Qed.

(** What a client does: high word first. *)
Definition decode_words (ws : list Z) : Z := fold_left (fun acc w => acc * 65536 + w) ws 0.

Lemma decode_encode_u32 z : decode_words (encode_u32 z) = u32 z.
Proof.
  unfold decode_words, encode_u32, wrap. simpl. change 0xffff with (Z.ones 16). rewrite Z.land_ones, Z.mod_mod by lia.
  rewrite Z.shiftr_div_pow2 by lia. change (2 ^ 32) with (2 ^ 16 * 2 ^ 16). rewrite Z.rem_mul_r by lia. lia.
Qed.

Lemma decode_encode_u64 z : decode_words (encode_u64 z) = u64 z.
Proof.
  unfold decode_words, encode_u64, wrap. simpl. change 0xffff with (Z.ones 16). rewrite !Z.land_ones, !Z.mod_mod by lia.
  rewrite !Z.shiftr_div_pow2 by lia.
  change (2 ^ 64) with (2 ^ 16 * (2 ^ 16 * (2 ^ 16 * 2 ^ 16))). rewrite !Z.rem_mul_r by lia.
  change (2 ^ 48) with (2 ^ 16 * 2 ^ 16 * 2 ^ 16). change (2 ^ 32) with (2 ^ 16 * 2 ^ 16).
  rewrite <- !Z.div_div by lia. lia.
Qed.

(** The number served: the reading when it is valid, zero otherwise. *)
Definition served_number (s : MeterSnapshot) (k : MeterAttributeKey) : Z :=
  match available (reading s k) with Some v => mav_value v | None => 0 end.

(** The type of [MeterAttributeValue::value]. *)
Definition values_typed (s : MeterSnapshot) : Prop :=
  Forall (fun v => INT64_MIN <= mav_value v <= INT64_MAX) (ms_values s).

Lemma served_number_typed s k : values_typed s -> INT64_MIN <= served_number s k <= INT64_MAX.
Proof.
  intros Ht. unfold served_number, available. destruct (reading s k) as [v|] eqn:E; simpl; [|unfold INT64_MIN, INT64_MAX; lia].
  destruct (bool_decide _); [|unfold INT64_MIN, INT64_MAX; lia].
  unfold reading in E. apply find_some in E as [Hin _]. by apply (proj1 (List.Forall_forall _ _) Ht).
Qed.

Lemma measurement_types e p k :
  e ∈ register_map -> rd_source e = MeasurementSource p k ->
  rd_type e = dt_float32 \/ rd_type e = dt_uint64 \/ rd_type e = dt_int64.
Proof.
  assert (F : forallb (fun e => match rd_source e, rd_type e with
      | MeasurementSource _ _, (dt_uint16 | dt_uint32 | dt_int32) => false | _, _ => true end) register_map = true)
    by (vm_compute; reflexivity).
  intros He Hs. apply list_elem_of_In, (proj1 (List.forallb_forall _ _) F) in He. rewrite Hs in He.
  destruct (rd_type e); by auto.
Qed.

Lemma definitions_mask s definitions mask i p k d :
  valid_mask (Some s) definitions = Ok mask -> definitions !! i = Some d -> measurement d = Some (p, k) ->
  (i < 64)%nat -> forallb (fun d => if measurement d is Some _ then true else false) definitions = true ->
  Z.testbit mask (Z.of_nat i) = has_valid s k.
Proof.
  intros Hm Hd Hk Hi Hall. unfold valid_mask in Hm. apply bind_Ok in Hm as (ks & Hks & Hm). injection Hm as <-.
  apply get_measurements in Hks as ->. apply mask_bit; [lia|]. rewrite list_lookup_fmap.
  assert (Homap : omap measurement definitions !! i = Some (p, k)); [|by rewrite Homap].
  clear Hi. revert i Hd. induction definitions as [|d' ds IH]; intros i Hd; [by rewrite lookup_nil in Hd|].
  simpl in Hall. destruct (measurement d') as [x|] eqn:Hx; [|done]. simpl. rewrite Hx.
  destruct i as [|i]; simpl in *; [|by apply IH]. injection Hd as ->. congruence.
Qed.

(** What a client decodes.  For every measurement of the map, the registers decode, high word
    first, to the valid reading itself (a 64-bit value exactly) or to zero; a floating-point register
    is the quiet NaN exactly when the snapshot has no valid reading.  Bit [i] of each quality mask
    tells whether the [i]-th published attribute of its group has a valid reading, so within one read
    the masks and the values agree. *)
Theorem register_values s e words :
  e ∈ register_map -> values_typed s -> encode e (Some s) = Ok words ->
  (forall p k, rd_source e = MeasurementSource p k ->
     (rd_type e = dt_float32 /\ words = encode_u32 (float_bits (engineering_value (reading s k))) /\
        (engineering_value (reading s k) = S754_nan <-> has_valid s k = false)) \/
     (rd_type e = dt_uint64 /\ decode_words words = u64 (served_number s k)) \/
     (rd_type e = dt_int64 /\ sign 64 (decode_words words) = served_number s k)) /\
  (forall p i k, rd_source e = SpecialSource Special.quality_mask p -> basic_published_attributes !! i = Some k ->
     Z.testbit (decode_words words) (Z.of_nat i) = has_valid s k) /\
  (forall p i d q k, rd_source e = SpecialSource Special.energy_quality_mask p ->
     energy_published_attributes !! i = Some d -> rd_source d = MeasurementSource q k ->
     Z.testbit (decode_words words) (Z.of_nat i) = has_valid s k) /\
  (forall p i d q k, rd_source e = SpecialSource Special.demand_quality_mask p ->
     demand_published_attributes !! i = Some d -> rd_source d = MeasurementSource q k ->
     Z.testbit (decode_words words) (Z.of_nat i) = has_valid s k).
Proof.
  intros He Ht Hw. unfold encode in Hw. split_and!.
  - intros p k Hs. rewrite Hs in Hw. apply Ok_inj in Hw as <-. unfold encode_measurement.
    change (Some s ≫= fun s => reading s k) with (reading s k). fold (served_number s k).
    pose proof (served_number_typed s k Ht).
    destruct (measurement_types e p k He Hs) as [-> |[-> | ->]]; [left|right; left|right; right]; (split; [done|]).
    + split; [done|]. rewrite engineering_value_nan. unfold has_valid. by destruct (available _).
    + rewrite decode_encode_u64. apply wrap_id. by apply (wrap_range 64).
    + unfold encode_i64. rewrite decode_encode_u64. rewrite (wrap_id 64 (u64 _)) by (by apply (wrap_range 64)).
      apply sign_wrap_id; unfold INT64_MIN, INT64_MAX in *; simpl; lia.
  - intros p i k Hs Hk. rewrite Hs in Hw. apply Ok_inj in Hw as <-. assert (Hi := lookup_lt_Some _ _ _ Hk).
    change (decode_words _) with (0 * 65536 + u16 (mask_of s 0 basic_published_attributes)).
    rewrite Z.add_0_l. apply mask_bit; [simpl in Hi; lia|done].
  - intros p i d q k Hs Hd Hk. rewrite Hs in Hw. cbn [encode_special] in Hw.
    apply bind_Ok in Hw as (mask & Hm & Hw). apply Ok_inj in Hw as <-. assert (Hi := lookup_lt_Some _ _ _ Hd).
    rewrite decode_encode_u64. unfold wrap. rewrite Z.mod_pow2_bits_low by (vm_compute in Hi; lia).
    eapply definitions_mask; [exact Hm|exact Hd|unfold measurement; by rewrite Hk|vm_compute in Hi; lia|by vm_compute].
  - intros p i d q k Hs Hd Hk. rewrite Hs in Hw. cbn [encode_special] in Hw.
    apply bind_Ok in Hw as (mask & Hm & Hw). apply Ok_inj in Hw as <-. assert (Hi := lookup_lt_Some _ _ _ Hd).
    change (decode_words _) with (0 * 65536 + u16 mask). rewrite Z.add_0_l. unfold wrap.
    rewrite Z.mod_pow2_bits_low by (vm_compute in Hi; lia).
    eapply definitions_mask; [exact Hm|exact Hd|unfold measurement; by rewrite Hk|vm_compute in Hi; lia|by vm_compute].
Qed.

(** ** Examples *)
Lemma touched_check f address count (check : RegisterDefinition -> bool) e :
  0 <= address ->
  forallb (fun i => match definition f (address + Z.of_nat i) with
                    | Some j => if register_map !! j is Some e then check e else true
                    | None => true end) (seq 0 (Z.to_nat count)) = true ->
  touched f address count e -> check e = true.
Proof.
  intros H0 H (a & Ha & (j & Hd & Hj)%owner_definition). rewrite List.forallb_forall in H.
  specialize (H (Z.to_nat (a - address)) ltac:(apply in_seq; lia)). rewrite Z2Nat.id in H by lia.
  replace (address + (a - address)) with a in H by lia. by rewrite Hd, Hj in H.
Qed.

(** A meter at 50.012 Hz whose voltages and currents are unavailable. *)
Definition example_data : MeterDataState :=
  meter_data_apply 9 (mkUpdate Basic kind_fundamental 70000 2
    (Some (mkFundamental (mkReading 50012 valid 70000 8 (mkWindow 6400 200000000))
             (all_abc no_reading) (all_abcn no_reading) (all_abc no_reading)))
    None None None None None None None None None) new_meter_data.

(** The Basic block: the frequency, seven NaNs, and the quality mask with bit 0 alone. *)
Definition example_words : list Z :=
  [0x4248; 0x0c4a; 0x7fc0; 0; 0x7fc0; 0; 0x7fc0; 0; 0x7fc0; 0; 0x7fc0; 0; 0x7fc0; 0; 0x7fc0; 0; 1].

Lemma register_read_witness :
  read (mkBank example_data) read_input_registers 0 17 = Ok (mkRead none example_words) /\
  (exists snapshot, word_at read_input_registers snapshot 16 1) /\
  read (mkBank example_data) read_input_registers 0x6000 3 = Ok (mkRead illegal_data_address []).
Proof.
  assert (E : read (mkBank example_data) read_input_registers 0 17 = Ok (mkRead none example_words))
    by (vm_compute; reflexivity).
  split; [exact E|]. split.
  - destruct (register_read (mkBank example_data) read_input_registers 0 17) as [_ H]; [reflexivity|lia|lia|].
    destruct H as (period & attributes & Hp & _ & H).
    + apply (range_mapped_spec read_input_registers 0 17); [lia..|]. vm_compute. reflexivity.
    + intros e1 e2 p1 p2 T1 T2 Q1 Q2.
      assert (G : forall e p, touched read_input_registers 0 17 e -> source_period (rd_source e) = Some p -> p = Basic).
      { intros e p T Q.
        assert (C : bool_decide (source_period (rd_source e) = Some Basic) = true)
          by (apply (touched_check read_input_registers 0 17
                      (fun e => bool_decide (source_period (rd_source e) = Some Basic)) e);
                [lia|vm_compute; reflexivity|exact T]).
        rewrite Q in C. apply bool_decide_eq_true in C. congruence. }
      rewrite (G e1 p1 T1 Q1). symmetry. exact (G e2 p2 T2 Q2).
    + revert H. destruct (match period with None => _ | Some _ => _ end) as [snapshot|]; intros H; [|congruence].
      destruct H as (ws & Hr & _ & _ & Hw). exists snapshot. rewrite E in Hr.
      assert (ws = example_words) as -> by congruence. exact (Hw 16%nat 1 eq_refl).
  - apply (register_read (mkBank example_data) read_input_registers 0x6000 3); [reflexivity|lia|lia|].
    left. intros H. apply (range_mapped_spec read_input_registers 0x6000 3) in H; [|lia..]. vm_compute in H. discriminate H.
Defined.

Definition example_snapshot : MeterSnapshot :=
  match in_process_latest example_data (mkSnapshotRequest Basic basic_published_attributes) with
  | Ok (Some s) => s
  | _ => mkSnapshot Basic 0 0 0 None None None None []
  end.

Lemma register_values_witness :
  exists e words, register_map !! 11%nat = Some e /\ encode e (Some example_snapshot) = Ok words /\
    Z.testbit (decode_words words) 0 = true /\ Z.testbit (decode_words words) 1 = false.
Proof.
  eexists. exists [1]. assert (He : register_map !! 11%nat = Some _) by (vm_compute; reflexivity).
  split; [exact He|]. split; [vm_compute; reflexivity|].
  destruct (register_values example_snapshot _ [1] (list_elem_of_lookup_2 _ _ _ He)) as (_ & H & _).
  - assert (C : forallb (fun v => (INT64_MIN <=? mav_value v) && (mav_value v <=? INT64_MAX))
                  (ms_values example_snapshot) = true) by (vm_compute; reflexivity).
    apply List.Forall_forall. intros v Hv. apply (proj1 (List.forallb_forall _ _) C) in Hv. lia.
  - vm_compute. reflexivity.
  - split; [exact (H _ 0%nat _ eq_refl eq_refl)|exact (H _ 1%nat _ eq_refl eq_refl)].
Defined.

(** The same read as the Modbus engine executes it: request and response of function 4. *)
Example basic_block_on_the_wire :
  handle (mkRequest 1 [4; 0; 0; 0; 2] false) 1 (mkBank example_data) =
  (mkBank example_data, Ok (Some (ModbusHandler.mkResponse 1 [4; 4; 0x42; 0x48; 0x0c; 0x4a]))).
Proof. vm_compute. reflexivity. Qed.
