(* ===== verification/Datalog.v ===== *)
(** * Dataset generation

    Models [src/common/mnc/datalogger/types.hpp] and [datalogger.cpp]: a job's selections
    over one completed UTC window, the aggregation of historical samples into cells, and
    the artifact identity.  The historical source is the interface
    [HistoricalMeterDataSource].  The circular mean of angles is [long double]
    trigonometry of the C library, a parameter of the aggregation. *)

From stdpp Require Import base list sorting pretty.
From S2P Require Import Prelude MeterTiming MeterAttribute.
From Stdlib Require Import Ascii String.
Local Open Scope string_scope.
Local Open Scope Z_scope.

(** [DatalogErrorCode] *)
Definition InvalidConfiguration : Z := 0.
Definition UnsupportedCapability : Z := 1.
Definition SourceUnavailable : Z := 2.
Definition SourceRetentionGap : Z := 3.
Definition SerializationFailure : Z := 4.
Definition StorageFailure : Z := 5.

Record UtcWindow := mkWindow { w_start : Z; w_end : Z }.

Definition window_valid (w : UtcWindow) : bool := w_start w <? w_end w.

Definition duration_nanoseconds (w : UtcWindow) : result Z := signed64 (w_end w - w_start w).

Inductive ContentFormat := Json | Csv.

#[export] Instance ContentFormat_eq_dec : EqDecision ContentFormat.
Proof. solve_decision. Defined.

Record AttributeSelection := mkSelection {
  sel_attribute : MeterAttributeKey;
  sel_calculation : Calculation.MeterAttributeCalculation }.

Record DatalogJobSnapshot := mkJob {
  job_id : string;
  job_revision : Z;
  job_product_id : string;
  job_device_id : string;
  job_source_period : MeasurementPeriod;
  job_generation_interval : Z;
  job_row_interval : Z;
  job_format : ContentFormat;
  job_selections : list AttributeSelection }.

Record HistoricalSample := mkSample {
  hs_measured_at : Z;
  hs_source_sequence : Z;
  hs_attribute : MeterAttributeKey;
  hs_value : Z;
  hs_quality : ReadingQuality;
  hs_reset_epoch : option Z }.

Record DatasetColumn := mkColumn {
  col_id : string;
  col_attribute_key : string;
  col_label : string;
  col_unit : string;
  col_calculation : Calculation.MeterAttributeCalculation;
  col_value_kind : Kind.MeterAttributeValueKind }.

Record DatasetCell := mkCell {
  cell_value : option string;
  cell_quality : ReadingQuality;
  cell_contributing : Z;
  cell_expected : Z;
  cell_complete : bool;
  cell_continuity : bool;
  cell_reset_epoch : option Z }.

Record DatasetRow := mkRow { row_window : UtcWindow; row_cells : list DatasetCell }.

Record GeneratedDataset := mkDataset {
  ds_schema : string;
  ds_artifact_id : string;
  ds_job_id : string;
  ds_job_revision : Z;
  ds_product_id : string;
  ds_device_id : string;
  ds_source_period : MeasurementPeriod;
  ds_format : ContentFormat;
  ds_generated_at : Z;
  ds_artifact_window : UtcWindow;
  ds_columns : list DatasetColumn;
  ds_rows : list DatasetRow }.

(** ** Names *)
Definition is_alnum (c : ascii) : bool :=
  let n := Z.of_nat (nat_of_ascii c) in
  ((48 <=? n) && (n <=? 57)) || ((65 <=? n) && (n <=? 90)) || ((97 <=? n) && (n <=? 122)).

Fixpoint all_of (p : ascii -> bool) (s : string) : bool :=
  match s with EmptyString => true | String c s => p c && all_of p s end.

Definition length_z (s : string) : Z := Z.of_nat (String.length s).

Definition identity_char (c : ascii) : bool := is_alnum c || Ascii.eqb c "-" || Ascii.eqb c "_".

Definition safe_id (value : string) : bool :=
  negb (String.eqb value "" || (128 <? length_z value)) && all_of identity_char value.

(** [std::to_string] *)
Definition to_string (z : Z) : string := pretty z.

Definition content_format_name (format : ContentFormat) : string :=
  match format with Json => "json" | Csv => "csv" end.

Definition calculation_name (c : Calculation.MeterAttributeCalculation) : string :=
  match c with
  | Calculation.Minimum => "minimum"
  | Calculation.Maximum => "maximum"
  | Calculation.Average => "average"
  | Calculation.Last => "last"
  | Calculation.CircularAverage => "circular_average"
  | Calculation.First => "first"
  | Calculation.Delta => "delta"
  end.

Definition quality_name (q : ReadingQuality) : string :=
  match q with
  | quality_Unavailable => "unavailable"
  | quality_Valid => "valid"
  | quality_Invalid => "invalid"
  | quality_OutOfRange => "out_of_range"
  | quality_TimedOut => "timed_out"
  | quality_ArithmeticError => "arithmetic_error"
  end.

Definition period_name (period : MeasurementPeriod) : string :=
  match List.find (fun d => bool_decide (pd_period d = period)) period_catalog with
  | Some d => pd_key d
  | None => "unknown"
  end.

Definition supports_calculation (d : MeterAttributeDescriptor) (c : Calculation.MeterAttributeCalculation)
  : bool := bool_decide (c ∈ de_calculations d).

(** ** Exact averages *)

(** The digit loop: at most [digits] more digits of [remainder / divisor]. *)
Fixpoint fraction_digits (digits : nat) (remainder divisor : Z) : list Z :=
  match digits with
  | O => []
  | S digits =>
      if remainder =? 0 then []
      else (remainder * 10) / divisor :: fraction_digits digits ((remainder * 10) mod divisor) divisor
  end.

(** [while (!fraction.empty() && fraction.back() == '0') fraction.pop_back();] *)
Fixpoint drop_trailing_zeros (digits : list Z) : list Z :=
  match digits with
  | [] => []
  | d :: digits =>
      match drop_trailing_zeros digits with
      | [] => if d =? 0 then [] else [d]
      | kept => d :: kept
      end
  end.

Definition digit_char (d : Z) : ascii := ascii_of_nat (Z.to_nat (48 + d)).

Fixpoint digit_string (digits : list Z) : string :=
  match digits with [] => "" | d :: digits => String (digit_char d) (digit_string digits) end.

Definition decimal_ratio (numerator denominator : Z) : result string :=
  reject_if (denominator =? 0) (DatalogError InvalidConfiguration "average denominator is zero") ;;
  let negative := numerator <? 0 in
  let magnitude := Z.abs numerator in
  let fraction := drop_trailing_zeros (fraction_digits 6 (magnitude mod denominator) denominator) in
  let unsigned := to_string (magnitude / denominator) +:+
    (match fraction with [] => "" | _ => "." +:+ digit_string fraction end) in
  Ok (if negative && negb (String.eqb unsigned "0") then "-" +:+ unsigned else unsigned).

(** ** Aggregation *)
Definition empty_quality (samples : list HistoricalSample) : ReadingQuality :=
  match List.find (fun s => negb (bool_decide (hs_quality s = quality_Unavailable))) samples with
  | Some s => hs_quality s
  | None => quality_Unavailable
  end.

(** The order of [std::tie(measured_at, source_sequence)]. *)
Definition sample_before (a b : HistoricalSample) : Prop :=
  hs_measured_at a < hs_measured_at b \/
  hs_measured_at a = hs_measured_at b /\ hs_source_sequence a <= hs_source_sequence b.

#[export] Instance sample_before_dec a b : Decision (sample_before a b).
Proof. unfold sample_before. apply _. Defined.

Definition valid_samples (samples : list HistoricalSample) : list HistoricalSample :=
  List.filter (fun s => bool_decide (hs_quality s = quality_Valid)) samples.

Definition sum_values (samples : list HistoricalSample) : Z :=
  fold_left (fun sum s => sum + hs_value s) samples 0.

Section Generator.
(** The text of the circular mean of these millidegrees, or [None] when the resultant
    vanishes. *)
Variable circular_average : list Z -> option string.

Definition aggregate (samples : list HistoricalSample) (calculation : Calculation.MeterAttributeCalculation)
    (expected : Z) : result DatasetCell :=
  let valid := merge_sort sample_before (valid_samples samples) in
  let count := Z.of_nat (List.length valid) in
  let complete := negb (expected =? 0) && (expected <=? count) in
  let cell value quality continuity epoch :=
    mkCell value quality count expected complete continuity epoch in
  match valid with
  | [] => Ok (cell None (empty_quality samples) true None)
  | front :: rest =>
      let back := List.last rest front in
      match calculation with
      | Calculation.Minimum =>
          Ok (cell (Some (to_string (fold_left Z.min (map hs_value rest) (hs_value front)))) quality_Valid
                true None)
      | Calculation.Maximum =>
          Ok (cell (Some (to_string (fold_left Z.max (map hs_value rest) (hs_value front)))) quality_Valid
                true None)
      | Calculation.Average =>
          text ← decimal_ratio (sum_values valid) count;
          Ok (cell (Some text) quality_Valid true None)
      | Calculation.CircularAverage =>
          match circular_average (map hs_value valid) with
          | None => Ok (cell None quality_ArithmeticError true None)
          | Some text => Ok (cell (Some text) quality_Valid true None)
          end
      | Calculation.First =>
          Ok (cell (Some (to_string (hs_value front))) quality_Valid true (hs_reset_epoch front))
      | Calculation.Last =>
          Ok (cell (Some (to_string (hs_value back))) quality_Valid true (hs_reset_epoch back))
      | Calculation.Delta =>
          if bool_decide (hs_reset_epoch front = None) || bool_decide (hs_reset_epoch back = None) ||
             negb (bool_decide (hs_reset_epoch front = hs_reset_epoch back))
          then Ok (cell None quality_Unavailable false None)
          else Ok (cell (Some (to_string (hs_value back - hs_value front))) quality_Valid true
                     (hs_reset_epoch back))
      end
  end.

(** ** The source *)
Record HistoricalMeterDataSource := mkSource {
  query : MeasurementPeriod -> list MeterAttributeKey -> UtcWindow -> result (list HistoricalSample);
  expected_sample_count : MeasurementPeriod -> MeterAttributeKey -> UtcWindow -> result Z }.

(** ** Generation *)
Definition artifact_id (job : DatalogJobSnapshot) (window : UtcWindow) : string :=
  job_id job +:+ "-r" +:+ to_string (job_revision job) +:+ "-" +:+ to_string (w_start window) +:+
  "-" +:+ to_string (w_end window) +:+ "-" +:+ content_format_name (job_format job).

(** One turn of the loop over the selections. *)
Record Selected := mkSelected {
  sl_attributes : list MeterAttributeKey;
  sl_identities : list (Z * Calculation.MeterAttributeCalculation);
  sl_columns : list DatasetColumn }.

Definition column_of (d : MeterAttributeDescriptor) (c : Calculation.MeterAttributeCalculation) : DatasetColumn :=
  mkColumn (de_key d +:+ "." +:+ calculation_name c) (de_key d) (de_label d) (unit_name (de_unit d)) c
    (de_value_kind d).

Definition select (period : MeasurementPeriod) (selected : Selected) (s : AttributeSelection)
  : result Selected :=
  descriptor ← describe (sel_attribute s);
  require (supports_attribute (sel_attribute s) period Historian &&
           supports_calculation descriptor (sel_calculation s))
    (DatalogError UnsupportedCapability "selected meter attribute/calculation is unsupported") ;;
  let identity := (id_value (ak_id (sel_attribute s)), sel_calculation s) in
  reject_if (bool_decide (identity ∈ sl_identities selected))
    (DatalogError InvalidConfiguration "duplicate datalog column selection") ;;
  Ok (mkSelected (set_add (sl_attributes selected) (sel_attribute s))
        (identity :: sl_identities selected)
        (sl_columns selected ++ [column_of descriptor (sel_calculation s)])).

Fixpoint select_all (period : MeasurementPeriod) (selected : Selected) (selections : list AttributeSelection)
  : result Selected :=
  match selections with
  | [] => Ok selected
  | s :: selections => selected ← select period selected s; select_all period selected selections
  end.

(** [for (start = window.start; start < window.end; start += row)] *)
Fixpoint row_windows (turns : nat) (start stop step : Z) : list UtcWindow :=
  match turns with
  | O => []
  | S turns =>
      if start <? stop then mkWindow start (start + step) :: row_windows turns (start + step) stop step
      else []
  end.

Definition bucket (samples : list HistoricalSample) (attribute : MeterAttributeKey) (window : UtcWindow)
  : list HistoricalSample :=
  List.filter (fun s => key_eqb (hs_attribute s) attribute && (w_start window <=? hs_measured_at s) &&
                        (hs_measured_at s <? w_end window)) samples.

(** An absent index orders before every [uint16_t]. *)
Definition index_order (index : option Z) : Z := match index with Some index => index | None => -1 end.

(** The order of [std::tie(measured_at, source_sequence, attribute.id, attribute.index)]. *)
Definition query_before (a b : HistoricalSample) : Prop :=
  hs_measured_at a < hs_measured_at b \/
  hs_measured_at a = hs_measured_at b /\
    (hs_source_sequence a < hs_source_sequence b \/
     hs_source_sequence a = hs_source_sequence b /\
       (id_value (ak_id (hs_attribute a)) < id_value (ak_id (hs_attribute b)) \/
        id_value (ak_id (hs_attribute a)) = id_value (ak_id (hs_attribute b)) /\
          index_order (ak_index (hs_attribute a)) <= index_order (ak_index (hs_attribute b)))).

#[export] Instance query_before_dec a b : Decision (query_before a b).
Proof. unfold query_before. apply _. Defined.

Definition generate_row (source : HistoricalMeterDataSource) (job : DatalogJobSnapshot)
    (samples : list HistoricalSample) (window : UtcWindow) : result DatasetRow :=
  cells ← mapM_result (fun s =>
    expected ← expected_sample_count source (job_source_period job) (sel_attribute s) window;
    aggregate (bucket samples (sel_attribute s) window) (sel_calculation s) expected) (job_selections job);
  Ok (mkRow window cells).

(** The [try] around the query: only a [DatalogError] keeps its identity. *)
Definition query_samples (source : HistoricalMeterDataSource) (period : MeasurementPeriod)
    (attributes : list MeterAttributeKey) (window : UtcWindow) : result (list HistoricalSample) :=
  match query source period attributes window with
  | Ok samples => Ok samples
  | Throw (DatalogError code what) => Throw (DatalogError code what)
  | Throw (UndefinedBehaviour what) => Throw (UndefinedBehaviour what)
  | Throw e => Throw (DatalogError SourceUnavailable ("historian query failed: " +:+ exn_what e))
  end.

(** [HistoricalDatasetGenerator::generate] *)
Definition generate (source : HistoricalMeterDataSource) (job : DatalogJobSnapshot) (window : UtcWindow)
    (generated_at : Z) : result GeneratedDataset :=
  reject_if (negb (safe_id (job_id job)) || (job_revision job =? 0) ||
             String.eqb (job_product_id job) "" || String.eqb (job_device_id job) "")
    (DatalogError InvalidConfiguration "datalog job identity is invalid") ;;
  let incompatible := DatalogError InvalidConfiguration "generation and row intervals are incompatible" in
  require (window_valid window) incompatible ;;
  duration ← duration_nanoseconds window;
  require ((duration =? job_generation_interval job) && (0 <? job_row_interval job) &&
           (Z.rem (job_generation_interval job) (job_row_interval job) =? 0)) incompatible ;;
  reject_if (match job_selections job with [] => true | _ => false end)
    (DatalogError InvalidConfiguration "datalog job has no selected attributes") ;;
  selected ← select_all (job_source_period job) (mkSelected [] [] []) (job_selections job);
  unsorted ← query_samples source (job_source_period job) (sl_attributes selected) window;
  let samples := merge_sort query_before unsorted in
  let turns := Z.to_nat (duration / job_row_interval job) in
  rows ← mapM_result (generate_row source job samples)
           (row_windows (S turns) (w_start window) (w_end window) (job_row_interval job));
  Ok (mkDataset "mnc.meter.datalog.v1" (artifact_id job window) (job_id job) (job_revision job)
        (job_product_id job) (job_device_id job) (job_source_period job) (job_format job) generated_at
        window (sl_columns selected) rows).
End Generator.
