(* ===== verification/DatalogTheorems.v ===== *)
(** * Correctness of dataset generation

    Averages are exact to six decimals, every cell is the aggregate of exactly the samples
    of its attribute and row window, the rows tile the artifact window, and artifact
    identities never collide. *)

From stdpp Require Import base list sorting pretty.
From S2P Require Import Prelude MeterTiming MeterAttribute Datalog.
From Stdlib Require Import Ascii String.
Local Open Scope string_scope.
Local Open Scope Z_scope.

(** ** Averages *)

(** The value of [n] decimal places, missing places being zero. *)
Fixpoint places (n : nat) (digits : list Z) : Z :=
  match n, digits with
  | S n, d :: digits => d * 10 ^ Z.of_nat n + places n digits
  | _, _ => 0
  end.

Lemma fraction_digits_places n r d :
  0 <= r < d -> places n (fraction_digits n r d) = r * 10 ^ Z.of_nat n / d.
Proof.
  revert r. induction n as [|n IH]; intros r Hr; simpl fraction_digits.
  - simpl. rewrite Z.mul_1_r. symmetry. by apply Z.div_small.
  - destruct (Z.eqb_spec r 0) as [->|Hn]; [by rewrite Z.mul_0_l, Z.div_0_l by lia|].
    cbn [places]. rewrite IH by (apply Z.mod_pos_bound; lia).
    rewrite <- Z.div_add_l by lia. f_equal.
    pose proof (Z.div_mod (r * 10) d ltac:(lia)) as E.
    rewrite Nat2Z.inj_succ, Z.pow_succ_r by lia. nia.
Qed.

Lemma fraction_digits_range n r d :
  0 <= r < d -> Forall (fun x => 0 <= x < 10) (fraction_digits n r d).
Proof.
  revert r. induction n as [|n IH]; intros r Hr; simpl; [constructor|].
  destruct (Z.eqb_spec r 0); constructor; [|apply IH, Z.mod_pos_bound; lia].
  split; [apply Z.div_pos; lia|apply Z.div_lt_upper_bound; lia].
Qed.

Lemma fraction_digits_length n r d : (List.length (fraction_digits n r d) <= n)%nat.
Proof. revert r. induction n as [|n IH]; intros r; simpl; [lia|]. destruct (r =? 0); simpl; [lia|]. specialize (IH ((r * 10) mod d)). lia. Qed.

Lemma drop_trailing_places n digits : places n (drop_trailing_zeros digits) = places n digits.
Proof.
  revert n. induction digits as [|d digits IH]; intros n; simpl; [done|].
  destruct (drop_trailing_zeros digits) as [|x kept] eqn:E.
  - destruct n; [by destruct (d =? 0)|]. pose proof (IH n) as H. destruct (Z.eqb_spec d 0) as [->|]; simpl; simpl in H.
    + destruct n; simpl in *; lia.
    + destruct n; simpl in *; lia.
  - destruct n; [done|]. cbn [places]. by rewrite <- IH.
Qed.

Lemma drop_trailing_sub digits : drop_trailing_zeros digits `prefix_of` digits.
Proof.
  induction digits as [|d digits IH]; simpl; [done|].
  destruct (drop_trailing_zeros digits) as [|x kept]; [|by apply prefix_cons].
  destruct (d =? 0); [apply prefix_nil|apply prefix_cons, prefix_nil].
Qed.

Lemma drop_trailing_last digits x : list.last (drop_trailing_zeros digits) = Some x -> x <> 0.
Proof.
  revert x. induction digits as [|d digits IH]; intros x; simpl; [done|].
  destruct (drop_trailing_zeros digits) as [|y kept] eqn:E.
  - destruct (Z.eqb_spec d 0); simpl; [done|]. by intros [= <-].
  - rewrite list.last_cons. destruct (list.last (y :: kept)) eqn:El; [|by apply last_None in El].
    intros [= <-]. by apply IH.
Qed.

(** A decimal text: sign, integer part and at most six places, the last of them not zero. *)
Definition decimal_text (negative : bool) (integer : Z) (digits : list Z) : string :=
  (if negative then "-" else "") +:+ to_string integer +:+
  (match digits with [] => "" | _ => "." +:+ digit_string digits end).

Lemma string_app_length s t : String.length (s +:+ t) = (String.length s + String.length t)%nat.
Proof. induction s as [|c s IH]; [done|]. simpl. by f_equal. Qed.

Lemma string_app_nil s : s +:+ "" = s.
Proof. induction s as [|c s IH]; [done|]. change (String c (s +:+ "") = String c s). by rewrite IH. Qed.

Lemma to_string_nonempty z : String.length (to_string z) <> 0%nat.
Proof.
  unfold to_string. destruct z; [done| |done]. unfold pretty, pretty_Z, pretty, pretty_positive, pretty, pretty_N.
  rewrite decide_False by done. rewrite pretty_N_go_step by done.
  assert (H : forall x s, (String.length s <= String.length (pretty_N_go x s))%nat).
  { intros x. induction (N.lt_wf_0 x) as [x _ IH]. intros s. destruct (decide (0 < x)%N) as [Hx|Hx].
    - rewrite pretty_N_go_step by done. etrans; [|apply IH, N.div_lt; lia]. simpl. lia.
    - assert (x = 0%N) as -> by lia. by rewrite pretty_N_go_0. }
  match goal with |- String.length (pretty_N_go ?a ?b) <> _ => specialize (H a b) end. simpl in H. lia.
Qed.

Lemma places_nonneg n digits : Forall (fun d => 0 <= d < 10) digits -> 0 <= places n digits.
Proof.
  intros H. revert n. induction H as [|d digits Hd _ IH]; intros [|n]; simpl; try lia.
  specialize (IH n). nia.
Qed.

(** Digits that are worth nothing are zeros, so a text without trailing zeros has none. *)
Lemma places_zero n digits :
  Forall (fun d => 0 <= d < 10) digits -> (List.length digits <= n)%nat -> list.last digits <> Some 0 ->
  places n digits = 0 -> digits = [].
Proof.
  intros H. revert n. induction H as [|d digits Hd Hds IH]; intros [|n] Hlen Hlast Hz; simpl in *; try done; try lia.
  pose proof (places_nonneg n digits Hds).
  assert (d = 0) as -> by nia. destruct digits as [|x digits]; [done|].
  rewrite list.last_cons in Hlast. destruct (list.last (x :: digits)) eqn:El; [|by apply last_None in El].
  discriminate (IH n ltac:(lia) ltac:(congruence) ltac:(lia)).
Qed.

(** The digits [decimal_ratio] prints. *)
Lemma ratio_digits r d (digits := drop_trailing_zeros (fraction_digits 6 r d)) :
  0 <= r < d ->
  places 6 digits = r * 10 ^ 6 / d /\ (List.length digits <= 6)%nat /\
  Forall (fun d => 0 <= d < 10) digits /\ list.last digits <> Some 0.
Proof.
  intros Hr. pose proof (drop_trailing_sub (fraction_digits 6 r d)) as Hp. fold digits in Hp. split_and!.
  - unfold digits. by rewrite drop_trailing_places, fraction_digits_places.
  - apply prefix_length in Hp. pose proof (fraction_digits_length 6 r d). lia.
  - destruct Hp as [k Hk]. pose proof (fraction_digits_range 6 r d Hr) as H. rewrite Hk in H.
    by apply Forall_app in H as [? _].
  - intros E%drop_trailing_last. done.
Qed.

Lemma unsigned_zero integer digits :
  (match digits with [] => True | _ => False end) /\ integer = 0 <->
  to_string integer +:+ (match digits with [] => "" | _ => "." +:+ digit_string digits end) = "0".
Proof.
  destruct digits as [|x digits].
  - rewrite string_app_nil.
    split; [by intros [_ ->]|]. intros H. split; [done|]. by apply (inj pretty).
  - split; [by intros []|]. intros H. apply (f_equal String.length) in H. rewrite string_app_length in H.
    pose proof (to_string_nonempty integer). simpl in H. lia.
Qed.

Lemma quot_millionths n d :
  0 < d -> Z.quot (n * 10 ^ 6) d = Z.sgn n * (Z.abs n * 10 ^ 6 / d).
Proof.
  intros Hd. destruct (Z.lt_trichotomy n 0) as [Hn|[->|Hn]].
  - rewrite Z.sgn_neg, Z.abs_neq by lia. replace (n * 10 ^ 6) with (- (- n * 10 ^ 6)) by lia.
    rewrite Z.quot_opp_l, Z.quot_div_nonneg by lia. lia.
  - by rewrite Z.quot_0_l by lia.
  - rewrite Z.sgn_pos, Z.abs_eq, Z.quot_div_nonneg by lia. lia.
Qed.

(** Averages are exact.  For a positive count the text of [decimal_ratio] is the sign,
    the integer part and at most six decimal digits of the quotient truncated towards zero
    in millionths, with no trailing zero digit; a quotient that truncates to zero is
    written 0, without a sign. *)
Theorem decimal_ratio_exact numerator denominator :
  0 < denominator ->
  exists integer digits,
    decimal_ratio numerator denominator =
      Ok (decimal_text (bool_decide (Z.quot (numerator * 10 ^ 6) denominator < 0)) integer digits) /\
    integer * 10 ^ 6 + places 6 digits = Z.abs (Z.quot (numerator * 10 ^ 6) denominator) /\
    (List.length digits <= 6)%nat /\ Forall (fun d => 0 <= d < 10) digits /\ list.last digits <> Some 0.
Proof.
  intros Hd. unfold decimal_ratio. rewrite (proj2 (Z.eqb_neq _ _)) by lia. cbn [reject_if mbind result_bind].
  set (m := Z.abs numerator). set (r := m mod denominator).
  destruct (ratio_digits r denominator) as (Hval & Hlen & Hrange & Hlast); [apply Z.mod_pos_bound; lia|].
  set (digits := drop_trailing_zeros _) in *. exists (m / denominator), digits.
  assert (Hsum : (m / denominator) * 10 ^ 6 + places 6 digits = m * 10 ^ 6 / denominator).
  { rewrite Hval, <- Z.div_add_l by lia. f_equal. pose proof (Z.div_mod m denominator ltac:(lia)) as E.
    fold r in E. lia. }
  assert (Hint : 0 <= m / denominator) by (apply Z.div_pos; lia).
  pose proof (places_nonneg 6 digits Hrange) as Hplaces.
  rewrite quot_millionths by done. fold m. rewrite <- Hsum.
  assert (Habs : m / denominator * 10 ^ 6 + places 6 digits =
    Z.abs (Z.sgn numerator * (m / denominator * 10 ^ 6 + places 6 digits))).
  { rewrite Z.abs_mul, (Z.abs_eq (_ + _)) by lia. destruct (decide (numerator = 0)) as [E|E].
    - rewrite Hsum. unfold m. by rewrite E.
    - assert (Z.abs (Z.sgn numerator) = 1) as -> by lia. lia. }
  split_and!; [|exact Habs|done..]. f_equal. unfold decimal_text.
  set (unsigned := to_string _ +:+ _).
  assert (Hz : unsigned = "0" <-> m / denominator = 0 /\ places 6 digits = 0).
  { unfold unsigned. rewrite <- unsigned_zero. split.
    - destruct digits; naive_solver.
    - intros [-> Hp]. by rewrite (places_zero 6 digits) by done. }
  destruct (Z.ltb_spec numerator 0) as [Hn|Hn]; cbn [andb].
  - destruct (String.eqb_spec unsigned "0") as [E|E]; cbn [negb].
    + apply Hz in E as [-> ->]. by rewrite bool_decide_eq_false_2 by lia.
    + rewrite bool_decide_eq_true_2; [done|]. rewrite Z.sgn_neg by done.
      destruct (decide (m / denominator = 0)), (decide (places 6 digits = 0)); try nia. destruct E. by apply Hz.
  - by rewrite bool_decide_eq_false_2 by (pose proof (Z.sgn_nonneg numerator); nia).
Qed.

Lemma decimal_ratio_exact_witness :
  decimal_ratio (-7) 3 = Ok "-2.333333" /\
  exists integer digits, decimal_ratio (-7) 3 = Ok (decimal_text true integer digits) /\
    integer * 10 ^ 6 + places 6 digits = 2333333.
Proof.
  split; [reflexivity|]. destruct (decimal_ratio_exact (-7) 3 ltac:(lia)) as (i & ds & H1 & H2 & _).
  exists i, ds. split; [exact H1|exact H2].
Defined.

(** ** Cells *)
#[export] Instance sample_before_total : Total sample_before.
Proof. intros a b. unfold sample_before. lia. Qed.
#[export] Instance sample_before_trans : Transitive sample_before.
Proof. intros a b c. unfold sample_before. lia. Qed.
#[export] Instance sample_before_refl : Reflexive sample_before.
Proof. intros a. unfold sample_before. lia. Qed.

Lemma fold_min_spec l v :
  fold_left Z.min l v ∈ v :: l /\ forall x, x ∈ v :: l -> fold_left Z.min l v <= x.
Proof.
  revert v. induction l as [|y l IH]; intros v; simpl.
  - split; [by left|]. intros x ->%list_elem_of_singleton. lia.
  - destruct (IH (Z.min v y)) as [Hin Hle]. split.
    + apply elem_of_cons in Hin as [E|Hin]; [|by do 2 right].
      rewrite E. destruct (Z.min_spec v y) as [[_ ->]|[_ ->]]; [left|right; left].
    + intros x [->|[->|Hx]%elem_of_cons]%elem_of_cons.
      * specialize (Hle (Z.min v y) ltac:(left)). lia.
      * specialize (Hle (Z.min v y) ltac:(left)). lia.
      * apply Hle. by right.
Qed.

Lemma fold_max_spec l v :
  fold_left Z.max l v ∈ v :: l /\ forall x, x ∈ v :: l -> x <= fold_left Z.max l v.
Proof.
  revert v. induction l as [|y l IH]; intros v; simpl.
  - split; [by left|]. intros x ->%list_elem_of_singleton. lia.
  - destruct (IH (Z.max v y)) as [Hin Hle]. split.
    + apply elem_of_cons in Hin as [E|Hin]; [|by do 2 right].
      rewrite E. destruct (Z.max_spec v y) as [[_ ->]|[_ ->]]; [right; left|left].
    + intros x [->|[->|Hx]%elem_of_cons]%elem_of_cons.
      * specialize (Hle (Z.max v y) ltac:(left)). lia.
      * specialize (Hle (Z.max v y) ltac:(left)). lia.
      * apply Hle. by right.
Qed.

Lemma sum_values_permutation l l' : l ≡ₚ l' -> sum_values l = sum_values l'.
Proof.
  unfold sum_values. generalize 0. intros a H. revert a.
  induction H as [|x l l' _ IH|x y l|l l' l'' _ IH1 _ IH2]; intros a; simpl; [done|apply IH| |by rewrite IH1].
  f_equal. lia.
Qed.

(** The earliest and the latest of some samples. *)
Definition earliest (s : HistoricalSample) (samples : list HistoricalSample) : Prop :=
  s ∈ samples /\ forall s', s' ∈ samples -> sample_before s s'.
Definition latest (s : HistoricalSample) (samples : list HistoricalSample) : Prop :=
  s ∈ samples /\ forall s', s' ∈ samples -> sample_before s' s.

(** What a cell says of the samples of its bucket, whatever their order. *)
Definition cell_values (circular_average : list Z -> option string) (valid : list HistoricalSample)
    (c : Calculation.MeterAttributeCalculation) (cell : DatasetCell) : Prop :=
  match c with
  | Calculation.Minimum => cell_quality cell = quality_Valid /\
      exists s, s ∈ valid /\ cell_value cell = Some (to_string (hs_value s)) /\
        forall s', s' ∈ valid -> hs_value s <= hs_value s'
  | Calculation.Maximum => cell_quality cell = quality_Valid /\
      exists s, s ∈ valid /\ cell_value cell = Some (to_string (hs_value s)) /\
        forall s', s' ∈ valid -> hs_value s' <= hs_value s
  | Calculation.Average => cell_quality cell = quality_Valid /\
      exists text, decimal_ratio (sum_values valid) (Z.of_nat (List.length valid)) = Ok text /\
        cell_value cell = Some text
  | Calculation.CircularAverage =>
      exists sorted, sorted ≡ₚ valid /\ cell_value cell = circular_average (map hs_value sorted) /\
        cell_quality cell = (match cell_value cell with Some _ => quality_Valid | None => quality_ArithmeticError end)
  | Calculation.First => cell_quality cell = quality_Valid /\
      exists s, earliest s valid /\ cell_value cell = Some (to_string (hs_value s)) /\
        cell_reset_epoch cell = hs_reset_epoch s
  | Calculation.Last => cell_quality cell = quality_Valid /\
      exists s, latest s valid /\ cell_value cell = Some (to_string (hs_value s)) /\
        cell_reset_epoch cell = hs_reset_epoch s
  | Calculation.Delta =>
      exists first last, earliest first valid /\ latest last valid /\
        ((exists epoch, hs_reset_epoch first = Some epoch /\ hs_reset_epoch last = Some epoch /\
            cell_value cell = Some (to_string (hs_value last - hs_value first)) /\
            cell_quality cell = quality_Valid /\ cell_continuity cell = true) \/
         ((forall epoch, hs_reset_epoch first = Some epoch -> hs_reset_epoch last <> Some epoch) /\
            cell_value cell = None /\ cell_quality cell = quality_Unavailable /\
            cell_continuity cell = false))
  end.

Record cell_spec (circular_average : list Z -> option string) (samples : list HistoricalSample)
    (c : Calculation.MeterAttributeCalculation) (expected : Z) (cell : DatasetCell) : Prop := {
  cs_contributing : cell_contributing cell = Z.of_nat (List.length (valid_samples samples));
  cs_expected : cell_expected cell = expected;
  cs_complete : cell_complete cell = true <-> expected <> 0 /\ expected <= cell_contributing cell;
  cs_empty : valid_samples samples = [] -> cell_value cell = None /\ cell_quality cell <> quality_Valid;
  cs_values : valid_samples samples <> [] -> cell_values circular_average (valid_samples samples) c cell }.

Lemma empty_quality_spec samples : valid_samples samples = [] -> empty_quality samples <> quality_Valid.
Proof.
  intros Hv. unfold empty_quality. destruct (List.find _ samples) as [s|] eqn:E; [|done].
  apply find_some in E as [Hin _]. intros Hq.
  assert (Hs : In s (valid_samples samples)); [|by rewrite Hv in Hs].
  apply filter_In. split; [done|]. by apply bool_decide_eq_true.
Qed.

Lemma sorted_front front rest :
  StronglySorted sample_before (front :: rest) -> earliest front (front :: rest).
Proof.
  intros [_ H]%StronglySorted_inv. split; [by left|]. intros s' [->|Hs]%elem_of_cons; [done|].
  rewrite List.Forall_forall in H. by apply H, list_elem_of_In.
Qed.

Lemma sorted_back front rest :
  StronglySorted sample_before (front :: rest) -> latest (List.last rest front) (front :: rest).
Proof.
  revert front. induction rest as [|x rest IH]; intros front Hs.
  - split; [by left|]. by intros s' ->%list_elem_of_singleton.
  - destruct (StronglySorted_inv Hs) as [Hs' Hf]. destruct (IH x Hs') as [Hin Hle].
    assert (E : List.last (x :: rest) front = List.last rest x).
    { destruct rest; [done|]. simpl. clear. revert h. induction rest; [done|]. intros. apply IHrest. }
    rewrite E. split; [by right|]. intros s' [->|Hs'']%elem_of_cons; [|by apply Hle].
    rewrite List.Forall_forall in Hf. by apply Hf, list_elem_of_In.
Qed.

Lemma extreme_permutation s l l' : l ≡ₚ l' -> (earliest s l -> earliest s l') /\ (latest s l -> latest s l').
Proof. intros Hp. unfold earliest, latest. split; intros [H1 H2]; split; setoid_rewrite <- Hp; done. Qed.

Local Opaque decimal_ratio.

Section Aggregate.
Variable circular_average : list Z -> option string.

Lemma valid_sorted samples (sorted := merge_sort sample_before (valid_samples samples)) :
  sorted ≡ₚ valid_samples samples /\ StronglySorted sample_before sorted.
Proof. split; [apply merge_sort_Permutation|apply (StronglySorted_merge_sort sample_before)]. Qed.

(** Aggregation always succeeds. *)
Lemma aggregate_total samples c expected : exists cell, aggregate circular_average samples c expected = Ok cell.
Proof.
  unfold aggregate. destruct (merge_sort _ _) as [|front rest]; [by eexists|].
  destruct c; try (by eexists); repeat case_match; by eexists.
Qed.

Lemma aggregate_values samples c expected cell :
  aggregate circular_average samples c expected = Ok cell -> valid_samples samples <> [] ->
  cell_values circular_average (valid_samples samples) c cell.
Proof.
  destruct (valid_sorted samples) as [Hp Hs]. unfold aggregate.
  set (sorted := merge_sort _ _) in *. intros H Hne.
  assert (Hin : forall s, s ∈ valid_samples samples <-> s ∈ sorted) by (intros; by rewrite Hp).
  destruct sorted as [|front rest] eqn:E; [by apply Permutation_nil_l in Hp|].
  pose proof (proj1 (extreme_permutation front _ _ Hp) (sorted_front _ _ Hs)) as Hfront.
  pose proof (proj2 (extreme_permutation _ _ _ Hp) (sorted_back _ _ Hs)) as Hback.
  assert (Hval : forall v, v ∈ hs_value front :: map hs_value rest <-> exists s, s ∈ valid_samples samples /\ v = hs_value s).
  { intros v. change (hs_value front :: map hs_value rest) with (map hs_value (front :: rest)).
    rewrite list_elem_of_In, in_map_iff. setoid_rewrite Hin. setoid_rewrite list_elem_of_In. naive_solver. }
  destruct c; simpl in H.
  - injection H as <-. split; [done|].
    destruct (fold_min_spec (map hs_value rest) (hs_value front)) as [(s & Hs1 & Ev)%Hval Hle].
    exists s. split_and!; [done|simpl; by rewrite Ev|]. intros s' Hs'. rewrite <- Ev. apply Hle, Hval. eauto.
  - injection H as <-. split; [done|].
    destruct (fold_max_spec (map hs_value rest) (hs_value front)) as [(s & Hs1 & Ev)%Hval Hle].
    exists s. split_and!; [done|simpl; by rewrite Ev|]. intros s' Hs'. rewrite <- Ev. apply Hle, Hval. eauto.
  - apply bind_Ok in H as (text & Ht & H). injection H as <-. split; [done|]. exists text. split; [|done].
    rewrite <- (sum_values_permutation _ _ Hp), <- (Permutation_length Hp). exact Ht.
  - injection H as <-. split; [done|]. by exists (List.last rest front).
  - exists (front :: rest). split; [done|].
    change (hs_value front :: map hs_value rest) with (map hs_value (front :: rest)) in H.
    by destruct (circular_average (map hs_value (front :: rest))); injection H as <-.
  - injection H as <-. split; [done|]. by exists front.
  - exists front, (List.last rest front). split_and!; [done..|].
    destruct (_ || _) eqn:Eg in H; injection H as <-; [right|left].
    + split_and!; try done. intros epoch E1 E2.
      apply orb_true_iff in Eg as [[Eg|Eg]%orb_true_iff|Eg%negb_true_iff%bool_decide_eq_false];
        [apply bool_decide_eq_true in Eg..|]; congruence.
    + apply orb_false_iff in Eg as [Eg He%negb_false_iff%bool_decide_eq_true].
      apply orb_false_iff in Eg as [E1%bool_decide_eq_false _].
      destruct (hs_reset_epoch front) as [epoch|]; [|done]. exists epoch. by rewrite <- He.
Qed.

Lemma aggregate_shape samples c expected cell (valid := valid_samples samples) :
  aggregate circular_average samples c expected = Ok cell ->
  cell_contributing cell = Z.of_nat (List.length valid) /\ cell_expected cell = expected /\
  cell_complete cell = negb (expected =? 0) && (expected <=? Z.of_nat (List.length valid)) /\
  (valid = [] -> cell_value cell = None /\ cell_quality cell = empty_quality samples).
Proof.
  destruct (valid_sorted samples) as [Hp _]. unfold aggregate, valid. rewrite <- (Permutation_length Hp).
  set (sorted := merge_sort _ _) in *. intros H.
  destruct sorted as [|front rest] eqn:E; [by injection H as <-|].
  assert (Hne : valid_samples samples <> []) by (intros E0; rewrite E0 in Hp; by apply Permutation_nil_r in Hp).
  destruct c; simpl in H; try (injection H as <-; done).
  - destruct (circular_average _); injection H as <-; done.
  - destruct (_ || _); injection H as <-; done.
Qed.

Lemma aggregate_spec samples c expected cell :
  aggregate circular_average samples c expected = Ok cell ->
  cell_spec circular_average samples c expected cell.
Proof.
  intros H. destruct (aggregate_shape _ _ _ _ H) as (H1 & H2 & H3 & H4). constructor; [done|done| | |].
  - rewrite H3, H1, andb_true_iff, negb_true_iff, Z.eqb_neq, Z.leb_le. done.
  - intros Hv. destruct (H4 Hv) as [-> ->]. split; [done|]. by apply empty_quality_spec.
  - by apply aggregate_values with expected.
Qed.
End Aggregate.

(** ** Datasets *)
Lemma row_windows_tile turns n start step :
  0 < step -> (n <= turns)%nat ->
  row_windows turns start (start + Z.of_nat n * step) step =
    map (fun i => mkWindow (start + Z.of_nat i * step) (start + (Z.of_nat i + 1) * step)) (seq 0 n).
Proof.
  intros Hs. revert turns start. induction n as [|n IH]; intros turns start Ht.
  - destruct turns; [done|]. simpl row_windows. by rewrite (proj2 (Z.ltb_ge _ _)) by lia.
  - destruct turns as [|turns]; [lia|]. simpl row_windows. rewrite (proj2 (Z.ltb_lt _ _)) by nia.
    replace (start + Z.of_nat (S n) * step) with (start + step + Z.of_nat n * step) by lia.
    rewrite IH by lia. cbn [seq map]. f_equal; [f_equal; lia|].
    rewrite <- seq_shift, map_map. apply map_ext. intros i. f_equal; lia.
Qed.

Lemma select_all_columns period selections selected selected' :
  select_all period selected selections = Ok selected' ->
  List.length (sl_columns selected') = (List.length (sl_columns selected) + List.length selections)%nat.
Proof.
  revert selected. induction selections as [|s l IH]; intros selected H; simpl in H.
  - injection H as <-. simpl. lia.
  - apply bind_Ok in H as (mid & Hm & H). rewrite (IH _ H). unfold select in Hm. inv_ok Hm. simpl.
    rewrite length_app. simpl. lia.
Qed.

Section Generate.
Variable circular_average : list Z -> option string.

Lemma bucket_permutation samples samples' attribute w :
  samples ≡ₚ samples' -> bucket samples attribute w ≡ₚ bucket samples' attribute w.
Proof.
  unfold bucket. generalize (fun s => key_eqb (hs_attribute s) attribute && (w_start w <=? hs_measured_at s) &&
                        (hs_measured_at s <? w_end w)). intros p. induction 1; simpl;
    repeat case_match; try done; try (by constructor); etrans; eauto.
Qed.

(** What [generate] went through and built. *)
Lemma generate_inv source job w at_ ds :
  generate circular_average source job w at_ = Ok ds ->
  exists selected samples,
    w_start w < w_end w /\ 0 < job_row_interval job /\
    w_end w - w_start w = (w_end w - w_start w) / job_row_interval job * job_row_interval job /\
    select_all (job_source_period job) (mkSelected [] [] []) (job_selections job) = Ok selected /\
    query source (job_source_period job) (sl_attributes selected) w = Ok samples /\
    mapM_result (generate_row circular_average source job (merge_sort query_before samples))
      (row_windows (S (Z.to_nat ((w_end w - w_start w) / job_row_interval job)))
         (w_start w) (w_end w) (job_row_interval job)) = Ok (ds_rows ds) /\
    ds = mkDataset "mnc.meter.datalog.v1" (artifact_id job w) (job_id job) (job_revision job)
        (job_product_id job) (job_device_id job) (job_source_period job) (job_format job) at_
        w (sl_columns selected) (ds_rows ds).
Proof.
  unfold generate. cbv zeta. intros H. apply bind_Ok in H as (_ & _ & H).
  apply bind_Ok in H as (_ & Hv%require_Ok%Z.ltb_lt & H). apply bind_Ok in H as (dur & Hd & H).
  apply signed64_Ok in Hd as [_ ->]. apply bind_Ok in H as (_ & Hg%require_Ok & H).
  apply bind_Ok in H as (_ & _ & H). apply bind_Ok in H as (selected & Hs & H).
  apply bind_Ok in H as (samples & Hq & H). apply bind_Ok in H as (rows & Hr & H). injection H as <-.
  apply andb_true_iff in Hg as [Hg Hrem%Z.eqb_eq]. apply andb_true_iff in Hg as [Hi%Z.eqb_eq Hrow%Z.ltb_lt].
  exists selected, samples. split_and!; try done.
  - rewrite Hi in *. pose proof (Z.quot_rem' (job_generation_interval job) (job_row_interval job)) as E.
    rewrite Hrem, Z.quot_div_nonneg in E by lia. lia.
  - unfold query_samples in Hq. by destruct (query _ _ _ _) as [|[]].
Qed.

Lemma valid_samples_permutation samples samples' :
  samples ≡ₚ samples' -> valid_samples samples ≡ₚ valid_samples samples'.
Proof. unfold valid_samples. induction 1; simpl; repeat case_match; try done; try (by constructor); etrans; eauto. Qed.

Lemma cell_spec_permutation samples samples' c expected cell :
  samples ≡ₚ samples' -> cell_spec circular_average samples c expected cell ->
  cell_spec circular_average samples' c expected cell.
Proof.
  intros Hp%valid_samples_permutation [H1 H2 H3 H4 H5].
  assert (Hin : forall s, s ∈ valid_samples samples <-> s ∈ valid_samples samples') by (intros; by rewrite Hp).
  assert (Hext : forall s, (earliest s (valid_samples samples) -> earliest s (valid_samples samples')) /\
    (latest s (valid_samples samples) -> latest s (valid_samples samples'))).
  { intros s. by apply extreme_permutation. }
  constructor; [by rewrite H1, (Permutation_length Hp)|done|done| |].
  - intros E. rewrite E in Hp. apply H4. by apply Permutation_nil_r.
  - intros Hne. assert (Hne' : valid_samples samples <> []) by (intros E; rewrite E in Hp; by apply Hne; symmetry; apply Permutation_nil_l).
    specialize (H5 Hne'). destruct c; simpl in *.
    + setoid_rewrite <- Hin. done.
    + setoid_rewrite <- Hin. done.
    + by rewrite <- (sum_values_permutation _ _ Hp), <- (Permutation_length Hp).
    + destruct H5 as (Hq & s & Hs & Hr). split; [done|]. exists s. split; [by apply Hext|done].
    + destruct H5 as (sorted & Hs & Hr). exists sorted. split; [by rewrite Hs|done].
    + destruct H5 as (Hq & s & Hs & Hr). split; [done|]. exists s. split; [by apply Hext|done].
    + destruct H5 as (a & b & Ha & Hb & Hr). exists a, b. split; [by apply Hext|]. split; [by apply Hext|done].
Qed.

(** A sample of the attribute taken in the half-open interval. *)
Definition measured_in (a : MeterAttributeKey) (w : UtcWindow) (s : HistoricalSample) : Prop :=
  id_value (ak_id (hs_attribute s)) = id_value (ak_id a) /\ ak_index (hs_attribute s) = ak_index a /\
  w_start w <= hs_measured_at s < w_end w.

#[export] Instance measured_in_dec a w s : Decision (measured_in a w s).
Proof. unfold measured_in. apply _. Defined.

Lemma bucket_filter samples a w : bucket samples a w = filter (measured_in a w) samples.
Proof.
  unfold bucket. induction samples as [|s samples IH]; [done|]. cbn [List.filter]. rewrite filter_cons, IH.
  unfold key_eqb, same_id, measured_in.
  destruct (Z.eqb_spec (id_value (ak_id (hs_attribute s))) (id_value (ak_id a)));
    destruct (bool_decide_reflect (ak_index (hs_attribute s) = ak_index a));
    destruct (Z.leb_spec (w_start w) (hs_measured_at s)); destruct (Z.ltb_spec (hs_measured_at s) (w_end w));
    cbn [andb]; case_decide; naive_solver lia.
Qed.

Lemma generate_row_spec source job samples sorted w row :
  sorted ≡ₚ samples -> generate_row circular_average source job sorted w = Ok row ->
  row_window row = w /\ List.length (row_cells row) = List.length (job_selections job) /\
  forall j s, job_selections job !! j = Some s ->
    exists cell expected, row_cells row !! j = Some cell /\
      expected_sample_count source (job_source_period job) (sel_attribute s) w = Ok expected /\
      cell_spec circular_average (filter (measured_in (sel_attribute s) w) samples) (sel_calculation s) expected cell.
Proof.
  intros Hp H. unfold generate_row in H. apply bind_Ok in H as (cells & Hc & H). injection H as <-.
  apply mapM_result_lookup in Hc as [Hlen Hc]. split_and!; [done|done|]. intros j s Hs.
  destruct (Hc j s Hs) as (cell & Hj & Hcell). apply bind_Ok in Hcell as (expected & He & Hcell).
  exists cell, expected. split_and!; [done|done|].
  rewrite <- bucket_filter. eapply cell_spec_permutation; [by apply bucket_permutation, Hp|]. by apply aggregate_spec.
Qed.

Lemma set_contains_add attributes a b :
  set_contains attributes b = true \/ a = b -> set_contains (set_add attributes a) b = true.
Proof.
  assert (Hrefl : key_eqb a a = true)
    by (unfold key_eqb, same_id; rewrite Z.eqb_refl; by apply bool_decide_eq_true).
  unfold set_add. destruct (set_contains attributes a) eqn:E.
  - by intros [?|<-].
  - unfold set_contains. rewrite existsb_app. simpl. intros [->|<-]; [done|]. by rewrite Hrefl, orb_true_r.
Qed.

Lemma select_all_attributes period selections selected selected' a :
  select_all period selected selections = Ok selected' ->
  set_contains (sl_attributes selected) a = true \/ a ∈ map sel_attribute selections ->
  set_contains (sl_attributes selected') a = true.
Proof.
  revert selected. induction selections as [|s l IH]; intros selected H Ha; simpl in H.
  - injection H as <-. destruct Ha as [?|Ha]; [done|]. by apply elem_of_nil in Ha.
  - apply bind_Ok in H as (mid & Hm & H). apply (IH _ H). unfold select in Hm. inv_ok Hm. simpl.
    destruct Ha as [Ha|[->|Ha]%elem_of_cons]; [left; apply set_contains_add; by left| |by right].
    left. apply set_contains_add. by right.
Qed.

(** (C33) A dataset reports exactly the samples of its window.  A successful [generate] has
    queried every selected attribute over the whole window; its rows are consecutive
    intervals of the row length that tile the window, so that every instant of the window
    lies in exactly one row; every row has one cell per column, and each cell is the
    aggregate of exactly the samples of its attribute measured from the start of its row,
    inclusive, to its end, exclusive: their number,
    the comparison with the expected coverage, and the minimum, maximum, exact average,
    earliest, latest or difference over one reset epoch of the valid ones. *)
Theorem generate_dataset source job w at_ ds :
  generate circular_average source job w at_ = Ok ds ->
  exists attributes samples,
    (forall s, s ∈ job_selections job -> set_contains attributes (sel_attribute s) = true) /\
    query source (job_source_period job) attributes w = Ok samples /\
    Z.of_nat (List.length (ds_rows ds)) * job_row_interval job = w_end w - w_start w /\
    (forall t, w_start w <= t < w_end w -> exists i, (i < List.length (ds_rows ds))%nat /\
       forall k row, ds_rows ds !! k = Some row ->
         (w_start (row_window row) <= t < w_end (row_window row) <-> k = i)) /\
    forall i row, ds_rows ds !! i = Some row ->
      row_window row = mkWindow (w_start w + Z.of_nat i * job_row_interval job)
                         (w_start w + (Z.of_nat i + 1) * job_row_interval job) /\
      List.length (row_cells row) = List.length (ds_columns ds) /\
      forall j s, job_selections job !! j = Some s ->
        exists cell expected, row_cells row !! j = Some cell /\
          expected_sample_count source (job_source_period job) (sel_attribute s) (row_window row) = Ok expected /\
          cell_spec circular_average (filter (measured_in (sel_attribute s) (row_window row)) samples)
            (sel_calculation s) expected cell.
Proof.
  intros (selected & samples & Hv & Hrow & Hdiv & Hsel & Hq & Hrows & Hds)%generate_inv.
  set (n := Z.to_nat ((w_end w - w_start w) / job_row_interval job)) in *.
  assert (Hn : w_end w = w_start w + Z.of_nat n * job_row_interval job).
  { unfold n. rewrite Z2Nat.id by (apply Z.div_pos; lia). lia. }
  rewrite Hn, row_windows_tile in Hrows by lia.
  apply mapM_result_lookup in Hrows as [Hlen Hrows]. rewrite length_map, length_seq in Hlen.
  assert (Hat : forall i row, ds_rows ds !! i = Some row ->
    (i < n)%nat /\ generate_row circular_average source job (merge_sort query_before samples)
      (mkWindow (w_start w + Z.of_nat i * job_row_interval job)
         (w_start w + (Z.of_nat i + 1) * job_row_interval job)) = Ok row).
  { intros i row Hi. pose proof (lookup_lt_Some _ _ _ Hi). split; [lia|].
    destruct (Hrows i (mkWindow (w_start w + Z.of_nat i * job_row_interval job)
      (w_start w + (Z.of_nat i + 1) * job_row_interval job))) as (row' & Hi' & Hr); [|congruence].
    rewrite list_lookup_fmap, lookup_seq_lt by lia. done. }
  exists (sl_attributes selected), samples. split_and!.
  - intros s Hs. apply (select_all_attributes _ _ _ _ _ Hsel). right.
    apply list_elem_of_In, in_map, list_elem_of_In, Hs.
  - done.
  - rewrite Hlen. lia.
  - intros t Ht. pose proof (Z.div_mod (t - w_start w) (job_row_interval job) ltac:(lia)).
    pose proof (Z.mod_pos_bound (t - w_start w) (job_row_interval job) Hrow).
    assert (0 <= (t - w_start w) / job_row_interval job) by (apply Z.div_pos; lia).
    exists (Z.to_nat ((t - w_start w) / job_row_interval job)). split; [nia|].
    intros k row Hk. destruct (Hat k row Hk) as [_ Hr].
    apply (generate_row_spec _ _ samples) in Hr as (-> & _); [|apply merge_sort_Permutation]. simpl. nia.
  - intros i row Hi. destruct (Hat i row Hi) as [_ Hr].
    apply (generate_row_spec _ _ samples) in Hr as (Hw & Hc & Hcells); [|apply merge_sort_Permutation].
    split; [done|]. rewrite Hw. split; [|done]. rewrite Hc, Hds. simpl.
    by rewrite (select_all_columns _ _ _ _ Hsel).
Qed.
End Generate.

(** ** Identities *)
Definition no_dash (s : string) : bool := all_of (fun c => negb (Ascii.eqb c "-")) s.

(** The parts before and after the last dash. *)
Fixpoint split_last_dash (s : string) : option (string * string) :=
  match s with
  | EmptyString => None
  | String c s =>
      match split_last_dash s with
      | Some (a, b) => Some (String c a, b)
      | None => if Ascii.eqb c "-" then Some ("", s) else None
      end
  end.

Lemma split_no_dash s : no_dash s = true -> split_last_dash s = None.
Proof.
  induction s as [|c s IH]; [done|]. simpl. intros [Hc Hs]%andb_true_iff. rewrite (IH Hs).
  by destruct (Ascii.eqb c "-").
Qed.

Lemma split_last_app a b : no_dash b = true -> split_last_dash (a +:+ "-" +:+ b) = Some (a, b).
Proof.
  intros Hb. induction a as [|c a IH].
  - change (split_last_dash (String "-" b) = Some ("", b)). simpl. by rewrite (split_no_dash b Hb).
  - change (split_last_dash (String c (a +:+ "-" +:+ b)) = Some (String c a, b)). cbn [split_last_dash].
    by rewrite IH.
Qed.

Lemma dash_app_inj a b a' b' :
  no_dash b = true -> no_dash b' = true -> a +:+ "-" +:+ b = a' +:+ "-" +:+ b' -> a = a' /\ b = b'.
Proof.
  intros Hb Hb' E. pose proof (split_last_app a b Hb) as H. rewrite E, split_last_app in H by done.
  by injection H.
Qed.

Lemma string_app_assoc a b c : (a +:+ b) +:+ c = a +:+ b +:+ c.
Proof.
  induction a as [|x a IH]; [done|].
  change (String x ((a +:+ b) +:+ c) = String x (a +:+ b +:+ c)). by rewrite IH.
Qed.

Lemma pretty_no_dash z : 0 <= z -> no_dash (to_string z) = true.
Proof.
  assert (H : forall x s, no_dash s = true -> no_dash (pretty_N_go x s) = true).
  { intros x. induction (N.lt_wf_0 x) as [x _ IH]. intros s Hs. destruct (decide (0 < x)%N) as [Hx|Hx].
    - rewrite pretty_N_go_step by done. apply IH; [apply N.div_lt; lia|]. unfold no_dash in *. cbn [all_of]. rewrite Hs.
      unfold pretty_N_char. by repeat case_match.
    - assert (x = 0%N) as -> by lia. by rewrite pretty_N_go_0. }
  intros Hz. unfold to_string. destruct z; [done| |lia].
  unfold pretty, pretty_Z, pretty, pretty_positive, pretty, pretty_N. rewrite decide_False by done. by apply H.
Qed.

Lemma format_no_dash format : no_dash (content_format_name format) = true.
Proof. by destruct format. Qed.

(** Artifact identities never collide.  Two artifacts with the same identity are of the
    same job, the same revision, the same window and the same format: the identity that
    names the payload file and that the outbox and the remote receivers deduplicate by
    determines what the artifact is about. *)
Theorem artifact_id_unique job job' w w' :
  0 <= job_revision job -> 0 <= w_start w -> 0 <= w_end w ->
  0 <= job_revision job' -> 0 <= w_start w' -> 0 <= w_end w' ->
  artifact_id job w = artifact_id job' w' ->
  job_id job = job_id job' /\ job_revision job = job_revision job' /\ w = w' /\
  job_format job = job_format job'.
Proof.
  intros H1 H2 H3 H4 H5 H6.
  assert (Hid : forall job w, artifact_id job w =
    (((job_id job +:+ "-" +:+ ("r" +:+ to_string (job_revision job))) +:+ "-" +:+ to_string (w_start w))
       +:+ "-" +:+ to_string (w_end w)) +:+ "-" +:+ content_format_name (job_format job)).
  { intros ? ?. unfold artifact_id. by rewrite !string_app_assoc. }
  rewrite !Hid. intros E.
  apply dash_app_inj in E as [E Ef]; [|apply format_no_dash..].
  apply dash_app_inj in E as [E Ee]; [|by apply pretty_no_dash..].
  apply dash_app_inj in E as [E Es]; [|by apply pretty_no_dash..].
  apply dash_app_inj in E as [Ej Er]; [|exact (pretty_no_dash _ H1)|exact (pretty_no_dash _ H4)].
  apply (inj pretty) in Ee, Es.
  assert (Hrev : job_revision job = job_revision job').
  { injection Er as Er. exact (pretty_Z_inj _ _ Er). }
  split_and!; [done|done| |by destruct (job_format job), (job_format job')]. destruct w, w'; simpl in *; congruence.
Qed.

(** ** Order of the samples *)
#[export] Instance query_before_total : Total query_before.
Proof. intros a b. unfold query_before. lia. Qed.
#[export] Instance query_before_trans : Transitive query_before.
Proof. intros a b c. unfold query_before. lia. Qed.

(** No two samples of a query tie in time, sequence and attribute. *)
Definition distinct_samples (samples : list HistoricalSample) : Prop :=
  forall s s', s ∈ samples -> s' ∈ samples -> query_before s s' -> query_before s' s -> s = s'.

Lemma sort_unique samples samples' :
  samples ≡ₚ samples' -> distinct_samples samples ->
  merge_sort query_before samples = merge_sort query_before samples'.
Proof.
  intros Hp Hd. apply (StronglySorted_unique_strong query_before).
  - intros s s' Hs Hs'. apply Hd; [by rewrite merge_sort_Permutation in Hs|].
    rewrite merge_sort_Permutation in Hs'. by rewrite Hp.
  - apply (StronglySorted_merge_sort query_before).
  - apply (StronglySorted_merge_sort query_before).
  - by rewrite !merge_sort_Permutation.
Qed.

(** A dataset does not depend on the order or the paging of the historian.  Two sources
    that return the same samples, in any order, and expect the same coverage lead to the
    same dataset, or to the same error. *)
Theorem generate_order_independent circular_average source source' job w at_ :
  (forall attributes, exists samples samples',
     query source (job_source_period job) attributes w = Ok samples /\
     query source' (job_source_period job) attributes w = Ok samples' /\
     samples ≡ₚ samples' /\ distinct_samples samples) ->
  expected_sample_count source = expected_sample_count source' ->
  generate circular_average source job w at_ = generate circular_average source' job w at_.
Proof.
  intros Hq He. unfold generate. cbv zeta.
  destruct (reject_if _ _) as [[]|]; [|done]. cbn [mbind result_bind].
  destruct (require _ _) as [[]|]; [|done]. destruct (duration_nanoseconds w) as [d|]; [|done].
  cbn [mbind result_bind]. destruct (require _ _) as [[]|]; [|done]. cbn [mbind result_bind].
  destruct (reject_if _ _) as [[]|]; [|done]. cbn [mbind result_bind].
  destruct (select_all _ _ _) as [selected|]; [|done]. cbn [mbind result_bind].
  destruct (Hq (sl_attributes selected)) as (samples & samples' & H1 & H2 & Hp & Hd).
  unfold query_samples. rewrite H1, H2. cbn [mbind result_bind].
  rewrite (sort_unique _ _ Hp Hd). unfold generate_row. by rewrite He.
Qed.

(** ** A concrete dataset *)
Definition example_job : DatalogJobSnapshot :=
  mkJob "job" 1 "msap1" "device" Min10 1200 600 Csv
    [mkSelection (key Id.VanRms) Calculation.Average; mkSelection (key Id.VanRms) Calculation.Maximum].
Definition example_samples : list HistoricalSample :=
  [mkSample 700 2 (key Id.VanRms) 7 quality_Valid None;
   mkSample 100 1 (key Id.VanRms) 4 quality_Valid None;
   mkSample 50 0 (key Id.VanRms) 9 quality_Invalid None;
   mkSample 200 3 (key Id.VanRms) 5 quality_Valid None].
Definition example_source (samples : list HistoricalSample) : HistoricalMeterDataSource :=
  mkSource (fun _ _ _ => Ok samples) (fun _ _ _ => Ok 2).
Definition no_angles (_ : list Z) : option string := None.

Lemma generate_dataset_witness :
  exists ds, generate no_angles (example_source example_samples) example_job (mkWindow 0 1200) 1300 = Ok ds /\
    map (fun row => map cell_value (row_cells row)) (ds_rows ds) =
      [[Some "4.5"; Some "5"]; [Some "7"; Some "7"]] /\
    Z.of_nat (List.length (ds_rows ds)) * 600 = 1200.
Proof.
  eexists. split; [reflexivity|].
  destruct (generate_dataset no_angles (example_source example_samples) example_job (mkWindow 0 1200) 1300 _ eq_refl)
    as (attributes & samples & _ & _ & Hlen & _).
  split; [reflexivity|exact Hlen].
Defined.

Lemma artifact_id_unique_witness :
  artifact_id example_job (mkWindow 0 1200) = "job-r1-0-1200-csv" /\
  forall job, 0 <= job_revision job -> artifact_id job (mkWindow 0 1200) = "job-r1-0-1200-csv" ->
    job_id job = "job".
Proof.
  split; [reflexivity|]. intros job Hr E.
  apply (artifact_id_unique job example_job (mkWindow 0 1200) (mkWindow 0 1200)); simpl; try lia. exact E.
Defined.

Lemma example_samples_distinct : distinct_samples example_samples.
Proof.
  intros s s' Hs Hs'. unfold example_samples in *. unfold query_before.
  rewrite !elem_of_cons, !elem_of_nil in Hs, Hs'.
  repeat match goal with H : _ \/ _ |- _ => destruct H as [->|H] end; try done; simpl; lia.
Qed.

Lemma generate_order_independent_witness :
  generate no_angles (example_source example_samples) example_job (mkWindow 0 1200) 1300 =
  generate no_angles (example_source (rev example_samples)) example_job (mkWindow 0 1200) 1300.
Proof.
  apply generate_order_independent; [|reflexivity]. intros attributes.
  exists example_samples, (rev example_samples). split_and!; [reflexivity|reflexivity| |exact example_samples_distinct].
  apply Permutation_rev.
Defined.
