(* ===== verification/ContentWriter.v ===== *)
(** * Content writers

    Models [src/common/mnc/datalogger/meter_data_content_writer.cpp]: the JSON and CSV
    texts of a dataset and the factory.  SHA-256 is OpenSSL's, a parameter.

    Text literals of the source that contain quotation marks are written with
    apostrophes and go through [lit]. *)

From stdpp Require Import base list pretty.
From S2P Require Import Prelude MeterTiming MeterAttribute Datalog DatalogTheorems.
From Stdlib Require Import Ascii String.
Local Open Scope string_scope.
Local Open Scope Z_scope.
Local Open Scope list_scope.

Record GeneratedContent := mkContent {
  gc_artifact_id : string;
  gc_filename : string;
  gc_mime_type : string;
  gc_extension : string;
  gc_body : string;
  gc_sha256 : string }.

Definition dquote : ascii := ascii_of_nat 34.
Definition cr : ascii := ascii_of_nat 13.
Definition lf : ascii := ascii_of_nat 10.
Definition newline : string := String lf "".

(** A literal with [dquote] for every apostrophe. *)
Fixpoint lit (s : string) : string :=
  match s with
  | EmptyString => EmptyString
  | String c s => String (if Ascii.eqb c "'" then dquote else c) (lit s)
  end.

Definition hex_char (n : Z) : ascii :=
  ascii_of_nat (Z.to_nat (if n <? 10 then 48 + n else 87 + n)).

(** One character of [json_string]. *)
Definition json_char (c : ascii) : string :=
  let n := Z.of_nat (nat_of_ascii c) in
  if n =? 34 then String "\" (String dquote "")
  else if n =? 92 then "\\"
  else if n =? 8 then "\b"
  else if n =? 12 then "\f"
  else if n =? 10 then "\n"
  else if n =? 13 then "\r"
  else if n =? 9 then "\t"
  else if n <? 32 then "\u00" +:+ String (hex_char (n / 16)) (String (hex_char (n mod 16)) "")
  else String c "".

Fixpoint json_escape (value : string) : string :=
  match value with EmptyString => EmptyString | String c value => json_char c +:+ json_escape value end.

Definition json_string (value : string) : string :=
  String dquote (json_escape value +:+ String dquote "").

Definition value_kind_name (kind : Kind.MeterAttributeValueKind) : string :=
  match kind with
  | Kind.Linear => "linear"
  | Kind.CircularAngle => "circular_angle"
  | Kind.CumulativeCounter => "cumulative_counter"
  | Kind.Peak => "peak"
  | Kind.Categorical => "categorical"
  end.

Definition bool_name (b : bool) : string := if b then "true" else "false".

(** The items of a list, with [separator] between two and [terminator] after the last. *)
Fixpoint separated (separator terminator : string) (items : list string) : string :=
  match items with
  | [] => ""
  | [item] => item +:+ terminator
  | item :: items => item +:+ separator +:+ separated separator terminator items
  end.

(** [csv_field]: the output and the flag [first]. *)
Definition needs_quote (value : string) : bool :=
  negb (all_of (fun c => negb (Ascii.eqb c "," || Ascii.eqb c dquote || Ascii.eqb c cr || Ascii.eqb c lf)) value).

Fixpoint double_quotes (value : string) : string :=
  match value with
  | EmptyString => EmptyString
  | String c value =>
      if Ascii.eqb c dquote then String dquote (String c (double_quotes value))
      else String c (double_quotes value)
  end.

Definition csv_field (state : string * bool) (value : string) : string * bool :=
  let '(output, first) := state in
  let output := if first then output else output +:+ "," in
  if needs_quote value
  then (output +:+ String dquote (double_quotes value +:+ String dquote ""), false)
  else (output +:+ value, false).

Definition csv_line_end (state : string * bool) : string := fst state +:+ String cr newline.

Section Writers.
Variable sha256 : string -> string.

Definition writer_content (ds : GeneratedDataset) (body mime_type extension : string) : GeneratedContent :=
  mkContent (ds_artifact_id ds) (ds_artifact_id ds +:+ "." +:+ extension) mime_type extension body
    (sha256 body).

(** ** JSON *)
Definition json_column (column : DatasetColumn) : string :=
  lit "    {'id': " +:+ json_string (col_id column) +:+
  lit ", 'attribute': " +:+ json_string (col_attribute_key column) +:+
  lit ", 'label': " +:+ json_string (col_label column) +:+
  lit ", 'unit': " +:+ json_string (col_unit column) +:+
  lit ", 'calculation': " +:+ json_string (calculation_name (col_calculation column)) +:+
  lit ", 'value_kind': " +:+ json_string (value_kind_name (col_value_kind column)) +:+ "}".

Definition json_cell (cell : DatasetCell) : string :=
  lit "{'value': " +:+
  (match cell_value cell with Some value => json_string value | None => "null" end) +:+
  lit ", 'quality': " +:+ json_string (quality_name (cell_quality cell)) +:+
  lit ", 'contributing_samples': '" +:+ to_string (cell_contributing cell) +:+
  lit "', 'expected_samples': '" +:+ to_string (cell_expected cell) +:+
  lit "', 'complete': " +:+ bool_name (cell_complete cell) +:+
  lit ", 'continuity': " +:+ bool_name (cell_continuity cell) +:+
  lit ", 'reset_epoch': " +:+
  (match cell_reset_epoch cell with Some epoch => lit "'" +:+ to_string epoch +:+ lit "'" | None => "null" end) +:+
  "}".

Definition json_row (row : DatasetRow) : string :=
  lit "    {'start_utc_ns': '" +:+ to_string (w_start (row_window row)) +:+
  lit "', 'end_utc_ns': '" +:+ to_string (w_end (row_window row)) +:+
  lit "', 'values': [" +:+ separated ", " "" (map json_cell (row_cells row)) +:+ "]}".

(** What precedes and what follows the time of generation. *)
Definition json_prefix (ds : GeneratedDataset) : string :=
  "{" +:+ newline +:+
  lit "  'schema': " +:+ json_string (ds_schema ds) +:+ "," +:+ newline +:+
  lit "  'artifact_id': " +:+ json_string (ds_artifact_id ds) +:+ "," +:+ newline +:+
  lit "  'job_id': " +:+ json_string (ds_job_id ds) +:+ "," +:+ newline +:+
  lit "  'job_revision': '" +:+ to_string (ds_job_revision ds) +:+ lit "'," +:+ newline +:+
  lit "  'product_id': " +:+ json_string (ds_product_id ds) +:+ "," +:+ newline +:+
  lit "  'device_id': " +:+ json_string (ds_device_id ds) +:+ "," +:+ newline +:+
  lit "  'format': 'json'," +:+ newline +:+
  lit "  'source_period': " +:+ json_string (period_name (ds_source_period ds)) +:+ "," +:+ newline +:+
  lit "  'generated_at_utc_ns': '".

Definition json_suffix (ds : GeneratedDataset) : string :=
  lit "'," +:+ newline +:+
  lit "  'artifact_window': {'start_utc_ns': '" +:+ to_string (w_start (ds_artifact_window ds)) +:+
  lit "', 'end_utc_ns': '" +:+ to_string (w_end (ds_artifact_window ds)) +:+ lit "'}," +:+ newline +:+
  lit "  'columns': [" +:+ newline +:+
  separated ("," +:+ newline) newline (map json_column (ds_columns ds)) +:+
  "  ]," +:+ newline +:+ lit "  'rows': [" +:+ newline +:+
  separated ("," +:+ newline) newline (map json_row (ds_rows ds)) +:+
  "  ]" +:+ newline +:+ "}" +:+ newline.

(** Every row has a cell for every column. *)
Definition rows_regular (ds : GeneratedDataset) : bool :=
  forallb (fun row => Nat.eqb (List.length (row_cells row)) (List.length (ds_columns ds))) (ds_rows ds).

(** [JsonMeterDataContentWriter::write] *)
Definition write_json (ds : GeneratedDataset) : result GeneratedContent :=
  require (bool_decide (ds_format ds = Json))
    (DatalogError SerializationFailure "JSON writer received a non-JSON dataset") ;;
  require (rows_regular ds) (DatalogError SerializationFailure "dataset row/column cardinality mismatch") ;;
  Ok (writer_content ds (json_prefix ds +:+ to_string (ds_generated_at ds) +:+ json_suffix ds)
        "application/json" "json").

(** ** CSV *)
Definition csv_header (ds : GeneratedDataset) : list string :=
  ["schema"; "artifact_id"; "job_id"; "job_revision"; "product_id"; "device_id"; "source_period";
   "generated_at_utc_ns"; "artifact_start_utc_ns"; "artifact_end_utc_ns"; "row_start_utc_ns";
   "row_end_utc_ns"] ++
  flat_map (fun column => map (fun suffix => col_id column +:+ "." +:+ suffix)
    ["value"; "quality"; "contributing_samples"; "expected_samples"; "complete"; "continuity"; "reset_epoch"])
    (ds_columns ds).

Definition csv_cell (cell : DatasetCell) : list string :=
  [match cell_value cell with Some value => value | None => "" end; quality_name (cell_quality cell);
   to_string (cell_contributing cell); to_string (cell_expected cell); bool_name (cell_complete cell);
   bool_name (cell_continuity cell);
   match cell_reset_epoch cell with Some epoch => to_string epoch | None => "" end].

Definition csv_row (ds : GeneratedDataset) (row : DatasetRow) : list string :=
  [ds_schema ds; ds_artifact_id ds; ds_job_id ds; to_string (ds_job_revision ds); ds_product_id ds;
   ds_device_id ds; period_name (ds_source_period ds); to_string (ds_generated_at ds);
   to_string (w_start (ds_artifact_window ds)); to_string (w_end (ds_artifact_window ds));
   to_string (w_start (row_window row)); to_string (w_end (row_window row))] ++
  flat_map csv_cell (row_cells row).

Definition csv_line (output : string) (fields : list string) : string :=
  csv_line_end (fold_left csv_field fields (output, true)).

(** The loop over the rows. *)
Fixpoint csv_rows (ds : GeneratedDataset) (rows : list DatasetRow) (output : string) : result string :=
  match rows with
  | [] => Ok output
  | row :: rows =>
      require (Nat.eqb (List.length (row_cells row)) (List.length (ds_columns ds)))
        (DatalogError SerializationFailure "dataset row/column cardinality mismatch") ;;
      csv_rows ds rows (csv_line output (csv_row ds row))
  end.

(** [CsvMeterDataContentWriter::write] *)
Definition write_csv (ds : GeneratedDataset) : result GeneratedContent :=
  require (bool_decide (ds_format ds = Csv))
    (DatalogError SerializationFailure "CSV writer received a non-CSV dataset") ;;
  body ← csv_rows ds (ds_rows ds) (csv_line "" (csv_header ds));
  Ok (writer_content ds body "text/csv; charset=utf-8" "csv").

(** [DefaultMeterDataContentWriterFactory::create] *)
Definition create_writer (format : ContentFormat) : GeneratedDataset -> result GeneratedContent :=
  match format with Json => write_json | Csv => write_csv end.
End Writers.

(** ** Reading CSV

    A reader of RFC 4180 text, character by character: outside quotes a field holds no
    quotation mark, carriage return or line feed, and after the closing mark comes a comma
    or a line end.  Malformed text ends the reading. *)
Inductive CsvMode := Plain | Quoted | Closed.

Fixpoint read_csv (s : string) (mode : CsvMode) (field : string) (record : list string) : list (list string) :=
  match s with
  | EmptyString => []
  | String c s' =>
      let more := field +:+ String c "" in
      let separator :=
        if Ascii.eqb c "," then read_csv s' Plain "" (record ++ [field])
        else if Ascii.eqb c cr then
          match s' with
          | String l s'' =>
              if Ascii.eqb l lf then (record ++ [field]) :: read_csv s'' Plain "" []
              else []
          | EmptyString => []
          end
        else
          match mode with
          | Plain => if Ascii.eqb c dquote || Ascii.eqb c lf then [] else read_csv s' Plain more record
          | _ => []
          end in
      match mode with
      | Plain =>
          if Ascii.eqb c dquote && String.eqb field "" then read_csv s' Quoted "" record else separator
      | Quoted => if Ascii.eqb c dquote then read_csv s' Closed field record else read_csv s' Quoted more record
      | Closed => if Ascii.eqb c dquote then read_csv s' Quoted more record else separator
      end
  end.

Definition parse_csv (s : string) : list (list string) := read_csv s Plain "" [].

(** The text of one field. *)
Definition csv_text (value : string) : string :=
  if needs_quote value then String dquote (double_quotes value +:+ String dquote "") else value.

Fixpoint joined (fields : list string) : string :=
  match fields with
  | [] => ""
  | [field] => csv_text field
  | field :: fields => csv_text field +:+ "," +:+ joined fields
  end.

Lemma csv_field_text output first value :
  csv_field (output, first) value = (output +:+ (if first then "" else ",") +:+ csv_text value, false).
Proof.
  unfold csv_field, csv_text. destruct first, (needs_quote value); f_equal; rewrite ?string_app_assoc; try done.
Qed.

Lemma csv_fields_text fields output first :
  fields <> [] ->
  fold_left csv_field fields (output, first) =
    (output +:+ (if first then "" else ",") +:+ joined fields, false).
Proof.
  revert output first. induction fields as [|field fields IH]; intros output first Hne; [done|].
  cbn [fold_left]. rewrite csv_field_text. destruct fields as [|field' fields]; [done|].
  rewrite IH by done. change (joined (field :: field' :: fields)) with
    (csv_text field +:+ "," +:+ joined (field' :: fields)). by rewrite !string_app_assoc.
Qed.

Lemma csv_line_text output fields :
  fields <> [] -> csv_line output fields = output +:+ joined fields +:+ String cr newline.
Proof.
  intros Hne. unfold csv_line, csv_line_end. rewrite csv_fields_text by done. simpl fst.
  by rewrite string_app_assoc.
Qed.

(** A field ends before a comma or a line end. *)
Definition field_end (t : string) : Prop :=
  (exists u, t = String "," u) \/ exists u, t = String cr (String lf u).

Lemma read_closed t field record :
  field_end t -> read_csv t Closed field record = read_csv t Plain field record.
Proof.
  intros [[u ->]|[u ->]]; cbn [read_csv]; [done|].
  by rewrite (eq_refl : Ascii.eqb cr dquote = false).
Qed.

Lemma read_plain value t field record :
  needs_quote value = false ->
  read_csv (value +:+ t) Plain field record = read_csv t Plain (field +:+ value) record.
Proof.
  revert field. induction value as [|c value IH]; intros field Hq; [by rewrite string_app_nil|].
  unfold needs_quote in Hq. apply negb_false_iff in Hq. cbn [all_of] in Hq.
  apply andb_true_iff in Hq as [Hc Hv]. apply negb_true_iff in Hc.
  apply orb_false_iff in Hc as [Hc E4]. apply orb_false_iff in Hc as [Hc E3].
  apply orb_false_iff in Hc as [E1 E2].
  change ((String c value) +:+ t) with (String c (value +:+ t)). cbn [read_csv].
  rewrite E1, E2, E3, E4. cbn [andb orb]. rewrite IH by (unfold needs_quote; by rewrite Hv).
  by rewrite string_app_assoc.
Qed.

Lemma read_quoted value t field record :
  read_csv (double_quotes value +:+ String dquote t) Quoted field record =
    read_csv t Closed (field +:+ value) record.
Proof.
  revert field. induction value as [|c value IH]; intros field; [by rewrite string_app_nil|].
  cbn [double_quotes]. destruct (Ascii.eqb_spec c dquote) as [->|Hc].
  - change (String dquote (String dquote (double_quotes value)) +:+ String dquote t) with
      (String dquote (String dquote (double_quotes value +:+ String dquote t))).
    cbn [read_csv]. rewrite Ascii.eqb_refl, IH. by rewrite string_app_assoc.
  - change (String c (double_quotes value) +:+ String dquote t) with
      (String c (double_quotes value +:+ String dquote t)).
    cbn [read_csv]. rewrite (proj2 (Ascii.eqb_neq _ _) Hc), IH. by rewrite string_app_assoc.
Qed.

Lemma read_field value t record :
  field_end t -> read_csv (csv_text value +:+ t) Plain "" record = read_csv t Plain value record.
Proof.
  intros Ht. unfold csv_text. destruct (needs_quote value) eqn:E; [|by rewrite read_plain].
  change (String dquote (double_quotes value +:+ String dquote "") +:+ t) with
    (String dquote ((double_quotes value +:+ String dquote "") +:+ t)).
  rewrite string_app_assoc. cbn [read_csv]. rewrite Ascii.eqb_refl, String.eqb_refl. cbn [andb].
  change (String dquote "" +:+ t) with (String dquote t).
  rewrite read_quoted. by rewrite read_closed.
Qed.

Lemma read_line fields t record :
  fields <> [] ->
  read_csv (joined fields +:+ String cr (String lf t)) Plain "" record = (record ++ fields) :: parse_csv t.
Proof.
  revert record. induction fields as [|field fields IH]; intros record Hne; [done|].
  destruct fields as [|field' fields].
  - cbn [joined]. rewrite read_field by (right; by eexists). reflexivity.
  - change (joined (field :: field' :: fields)) with (csv_text field +:+ "," +:+ joined (field' :: fields)).
    rewrite !string_app_assoc. rewrite read_field by (left; by eexists).
    change ("," +:+ joined (field' :: fields) +:+ String cr (String lf t)) with
      (String "," (joined (field' :: fields) +:+ String cr (String lf t))).
    cbn [read_csv]. rewrite (eq_refl : Ascii.eqb "," dquote = false). cbn [andb].
    rewrite (eq_refl : Ascii.eqb "," "," = true), IH by done. by rewrite <- app_assoc.
Qed.

(** The lines of a document. *)
Fixpoint csv_document (lines : list (list string)) : string :=
  match lines with
  | [] => ""
  | fields :: lines => joined fields +:+ String cr newline +:+ csv_document lines
  end.

Lemma parse_document lines :
  Forall (fun fields => fields <> []) lines -> parse_csv (csv_document lines) = lines.
Proof.
  induction 1 as [|fields lines Hf _ IH]; [done|]. cbn [csv_document].
  change (String cr newline +:+ csv_document lines) with (String cr (String lf (csv_document lines))).
  unfold parse_csv. rewrite read_line by done. by rewrite IH.
Qed.

Lemma csv_rows_text ds rows output :
  csv_rows ds rows output =
    if forallb (fun row => Nat.eqb (List.length (row_cells row)) (List.length (ds_columns ds))) rows
    then Ok (output +:+ csv_document (map (csv_row ds) rows))
    else Throw (DatalogError SerializationFailure "dataset row/column cardinality mismatch").
Proof.
  revert output. induction rows as [|row rows IH]; intros output; cbn [csv_rows forallb map csv_document].
  - by rewrite string_app_nil.
  - destruct (Nat.eqb _ _); [|done]. cbn [require mbind result_bind andb]. rewrite IH.
    destruct (forallb _ rows); [|done]. rewrite csv_line_text by done. by rewrite !string_app_assoc.
Qed.

Lemma write_csv_text sha256 ds :
  write_csv sha256 ds =
    (if bool_decide (ds_format ds = Csv) then
       if rows_regular ds then
         Ok (writer_content sha256 ds (csv_document (csv_header ds :: map (csv_row ds) (ds_rows ds)))
               "text/csv; charset=utf-8" "csv")
       else Throw (DatalogError SerializationFailure "dataset row/column cardinality mismatch")
     else Throw (DatalogError SerializationFailure "CSV writer received a non-CSV dataset")).
Proof.
  unfold write_csv, rows_regular. destruct (bool_decide _); [|done]. cbn [require mbind result_bind].
  assert (Hne : csv_header ds <> []) by discriminate. revert Hne.
  generalize (csv_header ds). intros header Hne.
  rewrite csv_rows_text, csv_line_text by done. destruct (forallb _ _); [|done].
  cbn [mbind result_bind csv_document]. by rewrite (string_app_assoc ""), (string_app_assoc (joined header)).
Qed.

Lemma write_csv_parse sha256 ds generated :
  write_csv sha256 ds = Ok generated ->
  parse_csv (gc_body generated) = csv_header ds :: map (csv_row ds) (ds_rows ds).
Proof.
  rewrite write_csv_text. destruct (bool_decide _); [|done].
  destruct (rows_regular ds); [|done]. intros <-%Ok_inj. unfold writer_content. cbn [gc_body].
  rewrite parse_document; [done|].
  constructor; [discriminate|]. apply List.Forall_map, List.Forall_forall. intros row _. discriminate.
Qed.

(** (C34) The CSV text can be read back.  A reader of RFC 4180 recovers from the written body
    the header and then, row by row, every field as it was -- also fields with commas,
    quotation marks and line breaks -- and nothing else; the writer succeeds exactly on a
    CSV dataset whose rows have a cell for every column. *)
Theorem csv_roundtrip sha256 ds :
  write_csv sha256 ds =
    (if bool_decide (ds_format ds = Csv) then
       if rows_regular ds then
         Ok (writer_content sha256 ds (csv_document (csv_header ds :: map (csv_row ds) (ds_rows ds)))
               "text/csv; charset=utf-8" "csv")
       else Throw (DatalogError SerializationFailure "dataset row/column cardinality mismatch")
     else Throw (DatalogError SerializationFailure "CSV writer received a non-CSV dataset")) /\
  forall generated, write_csv sha256 ds = Ok generated ->
    parse_csv (gc_body generated) = csv_header ds :: map (csv_row ds) (ds_rows ds).
Proof. split; [apply write_csv_text|apply write_csv_parse]. Qed.

(** ** Reading JSON strings *)
Definition hex_digit_value (c : ascii) : option Z :=
  let n := Z.of_nat (nat_of_ascii c) in
  if (48 <=? n) && (n <=? 57) then Some (n - 48)
  else if (97 <=? n) && (n <=? 102) then Some (n - 87)
  else None.

(** The character a backslash and this letter stand for. *)
Definition json_unescape (e : ascii) : option ascii :=
  if Ascii.eqb e dquote then Some dquote
  else if Ascii.eqb e "\" then Some "\"%char
  else if Ascii.eqb e "b" then Some (ascii_of_nat 8)
  else if Ascii.eqb e "f" then Some (ascii_of_nat 12)
  else if Ascii.eqb e "n" then Some lf
  else if Ascii.eqb e "r" then Some cr
  else if Ascii.eqb e "t" then Some (ascii_of_nat 9)
  else None.

Definition prepend (c : ascii) (r : option (string * string)) : option (string * string) :=
  match r with Some (s, rest) => Some (String c s, rest) | None => None end.

(** The value of a JSON string after its opening quotation mark, and what follows it. *)
Fixpoint read_json_string (s : string) : option (string * string) :=
  match s with
  | EmptyString => None
  | String c s1 =>
      if Ascii.eqb c dquote then Some ("", s1)
      else if Ascii.eqb c "\" then
        match s1 with
        | EmptyString => None
        | String e s2 =>
            if Ascii.eqb e "u" then
              match s2 with
              | String a (String b (String x (String y s3))) =>
                  match hex_digit_value a, hex_digit_value b, hex_digit_value x, hex_digit_value y with
                  | Some 0, Some 0, Some h, Some l => prepend (ascii_of_nat (Z.to_nat (16 * h + l))) (read_json_string s3)
                  | _, _, _, _ => None
                  end
              | _ => None
              end
            else match json_unescape e with
                 | Some e => prepend e (read_json_string s2)
                 | None => None
                 end
        end
      else prepend c (read_json_string s1)
  end.

Lemma read_json_char c t : read_json_string (json_char c +:+ t) = prepend c (read_json_string t).
Proof. destruct c as [[] [] [] [] [] [] [] []]; reflexivity. Qed.

Lemma json_string_roundtrip value t :
  exists s, json_string value +:+ t = String dquote s /\ read_json_string s = Some (value, t).
Proof.
  exists (json_escape value +:+ String dquote t). split.
  { unfold json_string. change (String dquote (json_escape value +:+ String dquote "") +:+ t) with
      (String dquote ((json_escape value +:+ String dquote "") +:+ t)). by rewrite string_app_assoc. }
  induction value as [|c value IH]; [done|]. cbn [json_escape]. by rewrite string_app_assoc, read_json_char, IH.
Qed.

(** ** What the body depends on *)
Lemma string_app_inj_r a b c : a +:+ c = b +:+ c -> a = b.
Proof.
  intros E. assert (Hlen : String.length a = String.length b).
  { apply (f_equal String.length) in E. rewrite !string_app_length in E. lia. }
  revert b E Hlen. induction a as [|x a IH]; intros [|y b] E Hlen; try done.
  change (String x (a +:+ c) = String y (b +:+ c)) in E. injection E as -> E. f_equal. apply IH; [done|].
  simpl in Hlen. lia.
Qed.

Lemma string_app_inj_l a b c : a +:+ b = a +:+ c -> b = c.
Proof.
  induction a as [|x a IH]; [done|]. intros E.
  change (String x (a +:+ b) = String x (a +:+ c)) in E. injection E as E. by apply IH.
Qed.

(** The same dataset generated at another time. *)
Definition generated_later (at_ : Z) (ds : GeneratedDataset) : GeneratedDataset :=
  mkDataset (ds_schema ds) (ds_artifact_id ds) (ds_job_id ds) (ds_job_revision ds) (ds_product_id ds)
    (ds_device_id ds) (ds_source_period ds) (ds_format ds) at_ (ds_artifact_window ds) (ds_columns ds)
    (ds_rows ds).

Lemma body_determines_time sha256 format ds at_ c c' :
  ds_rows ds <> [] ->
  create_writer sha256 format ds = Ok c ->
  create_writer sha256 format (generated_later at_ ds) = Ok c' ->
  gc_body c = gc_body c' -> at_ = ds_generated_at ds.
Proof.
  intros Hne Hc Hc' E. destruct format; cbn [create_writer] in Hc, Hc'.
  - unfold write_json in Hc, Hc'. do 2 apply bind_Ok in Hc as (_ & _ & Hc). do 2 apply bind_Ok in Hc' as (_ & _ & Hc').
    apply Ok_inj in Hc as <-. apply Ok_inj in Hc' as <-. unfold writer_content in E. cbn [gc_body] in E.
    change (json_prefix (generated_later at_ ds)) with (json_prefix ds) in E.
    change (json_suffix (generated_later at_ ds)) with (json_suffix ds) in E.
    change (ds_generated_at (generated_later at_ ds)) with at_ in E.
    apply string_app_inj_l, string_app_inj_r in E. symmetry. exact (pretty_Z_inj _ _ E).
  - apply write_csv_parse in Hc, Hc'. rewrite E, Hc' in Hc. apply (f_equal (fun lines => lines !! 1%nat)) in Hc.
    change (ds_rows (generated_later at_ ds)) with (ds_rows ds) in Hc.
    destruct (ds_rows ds) as [|row rows]; [done|]. cbn [map] in Hc.
    change (Some (csv_row (generated_later at_ ds) row) = Some (csv_row ds row)) in Hc.
    apply (f_equal (fun fields => fields ≫= (fun fields => fields !! 7%nat))) in Hc.
    change (Some (to_string at_) = Some (to_string (ds_generated_at ds))) in Hc.
    injection Hc as Hc. exact (pretty_Z_inj _ _ Hc).
Qed.

Lemma csv_roundtrip_witness :
  exists ds generated,
    generate no_angles (example_source example_samples) example_job (mkWindow 0 1200) 1300 = Ok ds /\
    write_csv (fun body => body) ds = Ok generated /\
    parse_csv (gc_body generated) = csv_header ds :: map (csv_row ds) (ds_rows ds).
Proof.
  eexists _, _. split; [reflexivity|]. split; [reflexivity|].
  apply (proj2 (csv_roundtrip (fun body => body) _)). reflexivity.
Defined.
