(* ===== verification/HistorianSource.v ===== *)
(** * The historian as a source of datasets

    Models [src/common/msap1/datalogger/msap1_datalogger.cpp], the product's adapter of the
    meter historian to the generator, and [MeterHistoryStore::query] of
    [src/common/msap1/meter/history/meter_history.cpp], the bounded query it pages through.
    The IPC between the two is the interface [HistorianClient]. *)

From stdpp Require Import base list sorting pretty.
From S2P Require Import Prelude MeterTiming MeterData DatabasePolicy MeterAttribute Datalog DatalogTheorems.
From Stdlib Require Import Ascii String.
Local Open Scope string_scope.
Local Open Scope Z_scope.
Local Open Scope list_scope.

Record HistoryCursor := mkCursor {
  hc_measured_at : Z;
  hc_block_source_sequence : Z;
  hc_record_kind : Z;
  hc_block_id : Z;
  hc_attribute : Id.MeterAttributeId }.

Record HistoryPoint := mkPoint {
  hp_measured_at : Z;
  hp_source_sequence : Z;
  hp_attribute : Id.MeterAttributeId;
  hp_value : Z;
  hp_quality : MeasurementQuality;
  hp_reset_epoch : option Z;
  hp_cursor : HistoryCursor }.

Record HistoryQuery := mkQuery {
  hq_period : MeasurementPeriod;
  hq_attributes : list Id.MeterAttributeId;
  hq_start : Z;
  hq_end : Z;
  hq_limit : Z;
  hq_after : option HistoryCursor }.

Record DatasetStatus := mkDatasetStatus { dst_dataset : DatabaseDataset; dst_oldest : option Z }.

Record HistorianStatus := mkHistorianStatus {
  his_healthy : bool;
  his_migration_in_progress : bool;
  his_datasets : list DatasetStatus }.

(** ** The bounded query *)

(** The row-value comparison of SQL on the five columns of a cursor. *)
Fixpoint lex_le (a b : list Z) : bool :=
  match a, b with
  | [], _ => true
  | _ :: _, [] => false
  | x :: a, y :: b => (x <? y) || ((x =? y) && lex_le a b)
  end.

Definition cursor_columns (c : HistoryCursor) : list Z :=
  [hc_measured_at c; hc_block_source_sequence c; hc_record_kind c; hc_block_id c; id_value (hc_attribute c)].

Definition cursor_le (a b : HistoryCursor) : bool := lex_le (cursor_columns a) (cursor_columns b).

Definition point_before (a b : HistoryPoint) : Prop := cursor_le (hp_cursor a) (hp_cursor b) = true.

#[export] Instance point_before_dec a b : Decision (point_before a b).
Proof. unfold point_before. apply _. Defined.

(** [dataset_for] of the store: open intervals have no database. *)
Definition dataset_for (period : MeasurementPeriod) : result DatabaseDataset :=
  match period with
  | Basic => Ok basic
  | Cycles150_180 => Ok cycles_150_180
  | Min10 => Ok minutes_10
  | Hour2 => Ok hours_2
  | Demand => Ok demand
  | Seconds10 => Ok seconds_10
  | Min10Live | Hour2Live => Throw (InvalidArgument "non-normative open intervals are not historian datasets")
  end.

(** The rows of the period in the window, of the selected attributes or of all of them. *)
Definition selected_point (attributes : list Id.MeterAttributeId) (start stop : Z) (p : HistoryPoint) : bool :=
  (start <=? hp_measured_at p) && (hp_measured_at p <? stop) &&
  (match attributes with [] => true | _ => existsb (fun id => same_id id (hp_attribute p)) attributes end).

Definition after_cursor (after : option HistoryCursor) (p : HistoryPoint) : bool :=
  match after with None => true | Some c => negb (cursor_le (hp_cursor p) c) end.

(** [MeterHistoryStore::query] over the joined rows of the period's database: in order, those
    past the continuation, at most [limit] of them. *)
Definition store_query (rows : list HistoryPoint) (q : HistoryQuery) : result (list HistoryPoint) :=
  dataset_for (hq_period q) ;;
  reject_if ((hq_limit q =? 0) || (50000 <? hq_limit q))
    (InvalidArgument "history query limit must be 1..50000") ;;
  reject_if (hq_end q <? hq_start q) (InvalidArgument "history query start is after its end") ;;
  require (forallb (fun id => supports_attribute (key id) (hq_period q) Historian) (hq_attributes q))
    (InvalidArgument "unsupported history attribute") ;;
  Ok (take (Z.to_nat (hq_limit q))
        (List.filter (after_cursor (hq_after q))
           (merge_sort point_before
              (List.filter (selected_point (hq_attributes q) (hq_start q) (hq_end q)) rows)))).

(** ** The adapter *)
Record HistorianClient := mkClient {
  client_status : result HistorianStatus;
  client_query : HistoryQuery -> result (list HistoryPoint) }.

Definition reading_quality (source : MeasurementQuality) : ReadingQuality :=
  match source with
  | unavailable => quality_Unavailable
  | valid => quality_Valid
  | invalid => quality_Invalid
  | out_of_range => quality_OutOfRange
  | timed_out => quality_TimedOut
  | arithmetic_error => quality_ArithmeticError
  end.

Definition open_interval : exn :=
  DatalogError UnsupportedCapability "open interval previews cannot generate datalogs".

Definition nominal_interval (period : MeasurementPeriod) : result Z :=
  match period with
  | Basic => Ok 200000000
  | Seconds10 => Ok 10000000000
  | Cycles150_180 => Ok 3000000000
  | Min10 => Ok 600000000000
  | Hour2 => Ok 7200000000000
  | Demand => Ok 600000000000
  | Min10Live | Hour2Live => Throw open_interval
  end.

Definition query_chunk (period : MeasurementPeriod) : Z :=
  match period with
  | Basic => 30000000000
  | Seconds10 => 300000000000
  | Cycles150_180 => 300000000000
  | Min10 | Demand => 3600000000000
  | Hour2 => 28800000000000
  | Min10Live | Hour2Live => 30000000000
  end.

Definition dataset_of (period : MeasurementPeriod) : result DatabaseDataset :=
  match period with
  | Basic => Ok basic
  | Seconds10 => Ok seconds_10
  | Cycles150_180 => Ok cycles_150_180
  | Min10 => Ok minutes_10
  | Hour2 => Ok hours_2
  | Demand => Ok demand
  | Min10Live | Hour2Live => Throw open_interval
  end.

Definition sample_of (p : HistoryPoint) : HistoricalSample :=
  mkSample (hp_measured_at p) (hp_source_sequence p) (mkKey (hp_attribute p) None) (hp_value p)
    (reading_quality (hp_quality p)) (hp_reset_epoch p).

(** The [try] block over the historian's status. *)
Definition check_status (client : HistorianClient) (period : MeasurementPeriod) (window : UtcWindow)
  : result unit :=
  match
    (status ← client_status client;
     reject_if (negb (his_healthy status) || his_migration_in_progress status)
       (DatalogError SourceUnavailable "historian is not ready for Data Sender generation") ;;
     wanted ← dataset_of period;
     match List.find (fun d => bool_decide (dst_dataset d = wanted)) (his_datasets status) with
     | None => Throw (DatalogError SourceUnavailable "historian does not report the selected dataset")
     | Some available =>
         reject_if (match dst_oldest available with Some oldest => w_start window <? oldest | None => false end)
           (DatalogError SourceRetentionGap "source window predates retained historian data")
     end)
  with
  | Ok _ => Ok tt
  | Throw (DatalogError code what) => Throw (DatalogError code what)
  | Throw (UndefinedBehaviour what) => Throw (UndefinedBehaviour what)
  | Throw e => Throw (DatalogError SourceUnavailable ("historian status failed: " +:+ exn_what e))
  end.

Definition page_limit : Z := 50000.

(** The inner [for (;;)]: one chunk, page by page. *)
Fixpoint page_loop (pages : nat) (client : HistorianClient) (q : HistoryQuery) : result (list HistoricalSample) :=
  match pages with
  | O => Throw (RuntimeError "page loop out of fuel")
  | S pages =>
      page ← client_query client q;
      let samples := map sample_of page in
      if Z.of_nat (List.length page) <? hq_limit q then Ok samples
      else match list.last page with
      | None => Throw (DatalogError SourceUnavailable "historian continuation made no progress")
      | Some final =>
          rest ← page_loop pages client
                   (mkQuery (hq_period q) (hq_attributes q) (hq_start q) (hq_end q) (hq_limit q)
                      (Some (hp_cursor final)));
          Ok (samples ++ rest)
      end
  end.

(** The outer loop over the chunks of the window. *)
Fixpoint chunk_loop (chunks pages : nat) (client : HistorianClient) (period : MeasurementPeriod)
    (attributes : list Id.MeterAttributeId) (start stop : Z) : result (list HistoricalSample) :=
  match chunks with
  | O => if start <? stop then Throw (RuntimeError "chunk loop out of fuel") else Ok []
  | S chunks =>
      if start <? stop then
        next ← signed64 (start + query_chunk period);
        samples ← page_loop pages client
                    (mkQuery period attributes start (Z.min stop next) page_limit None);
        rest ← chunk_loop chunks pages client period attributes next stop;
        Ok (samples ++ rest)
      else Ok []
  end.

Definition scalar_ids (attributes : list MeterAttributeKey) : result (list Id.MeterAttributeId) :=
  mapM_result (fun attribute =>
    reject_if (bool_decide (is_Some (ak_index attribute)))
      (InvalidArgument "indexed historian attribute is unsupported") ;;
    Ok (ak_id attribute)) attributes.

(** [Msap1HistorianDataSource::query]; [chunks] and [pages] bound its two loops. *)
Definition historian_query (chunks pages : nat) (client : HistorianClient) (period : MeasurementPeriod)
    (attributes : list MeterAttributeKey) (window : UtcWindow) : result (list HistoricalSample) :=
  require (window_valid window) (InvalidArgument "historian query window is invalid") ;;
  check_status client period window ;;
  ids ← scalar_ids attributes;
  chunk_loop chunks pages client period ids (w_start window) (w_end window).

(** [Msap1HistorianDataSource::expected_sample_count] *)
Definition historian_expected (period : MeasurementPeriod) (attribute : MeterAttributeKey) (window : UtcWindow)
  : result Z :=
  interval ← nominal_interval period;
  duration ← duration_nanoseconds window;
  Ok (if duration <=? 0 then 0 else Z.quot duration interval).

Definition historian_source (chunks pages : nat) (client : HistorianClient) : HistoricalMeterDataSource :=
  mkSource (historian_query chunks pages client) historian_expected.

(** [Msap1Datalogger::generate] *)
Definition msap1_generate (circular_average : list Z -> option string) (chunks pages : nat)
    (client : HistorianClient) (job : DatalogJobSnapshot) (window : UtcWindow) (generated_at : Z)
  : result GeneratedDataset :=
  minimum ← nominal_interval (job_source_period job);
  reject_if ((job_row_interval job <? minimum) || negb (Z.rem (job_row_interval job) minimum =? 0))
    (DatalogError InvalidConfiguration "row interval is incompatible with the source period") ;;
  generate circular_average (historian_source chunks pages client) job window generated_at.

(** ** Paging *)
Lemma lex_le_total a b : lex_le a b = true \/ lex_le b a = true.
Proof.
  revert b. induction a as [|x a IH]; intros [|y b]; simpl; [by left..|by right|].
  destruct (Z.ltb_spec x y), (Z.ltb_spec y x), (Z.eqb_spec x y), (Z.eqb_spec y x); simpl; try lia; auto.
Qed.

Lemma lex_le_trans a b c : lex_le a b = true -> lex_le b c = true -> lex_le a c = true.
Proof.
  revert b c. induction a as [|x a IH]; intros [|y b] [|z c]; simpl; try done.
  destruct (Z.ltb_spec x y), (Z.ltb_spec y z), (Z.eqb_spec x y), (Z.eqb_spec y z), (Z.ltb_spec x z), (Z.eqb_spec x z);
    simpl; try lia; try done. apply IH.
Qed.

Lemma lex_le_antisym a b : lex_le a b = true -> lex_le b a = true -> a = b.
Proof.
  revert b. induction a as [|x a IH]; intros [|y b]; simpl; try done.
  destruct (Z.ltb_spec x y), (Z.ltb_spec y x), (Z.eqb_spec x y), (Z.eqb_spec y x); simpl; try lia; try done.
  intros. f_equal; [done|]. by apply IH.
Qed.

#[export] Instance point_before_total : Total point_before.
Proof. intros a b. apply lex_le_total. Qed.
#[export] Instance point_before_trans : Transitive point_before.
Proof. intros a b c. apply lex_le_trans. Qed.

(** The database keys of the rows are unique. *)
Definition distinct_cursors (rows : list HistoryPoint) : Prop :=
  NoDup (map (fun p => cursor_columns (hp_cursor p)) rows).

(** What follows a point in cursor order are the points past its cursor. *)
Lemma after_suffix pre x post :
  StronglySorted point_before (pre ++ x :: post) -> distinct_cursors (pre ++ x :: post) ->
  List.filter (after_cursor (Some (hp_cursor x))) (pre ++ x :: post) = post.
Proof.
  intros Hs Hd. unfold distinct_cursors in Hd. rewrite map_app in Hd. cbn [map] in Hd.
  rewrite List.filter_app. cbn [List.filter].
  assert (Hx : after_cursor (Some (hp_cursor x)) x = false).
  { unfold after_cursor, cursor_le. apply negb_false_iff. destruct (lex_le_total (cursor_columns (hp_cursor x)) (cursor_columns (hp_cursor x))); done. }
  rewrite Hx.
  assert (Hpre : List.filter (after_cursor (Some (hp_cursor x))) pre = []).
  { assert (Hp : forall p, In p pre -> after_cursor (Some (hp_cursor x)) p = false).
    { intros p Hp%list_elem_of_In. apply negb_false_iff.
      eapply (StronglySorted_app_1_elem_of point_before pre (x :: post)); [done|done|by left]. }
    clear -Hp. induction pre as [|p pre IH]; [done|]. cbn [List.filter]. rewrite Hp by (by left). apply IH. intros; apply Hp. by right. }
  rewrite Hpre. simpl. apply StronglySorted_app_1_r in Hs. apply StronglySorted_inv in Hs as [_ Hf].
  apply list.NoDup_app in Hd as (_ & _ & Hd). apply list.NoDup_cons in Hd as [Hn _].
  assert (Hp : forall p, In p post -> after_cursor (Some (hp_cursor x)) p = true).
  { intros p Hp. apply negb_true_iff. destruct (cursor_le (hp_cursor p) (hp_cursor x)) eqn:E; [|done].
    destruct Hn. rewrite List.Forall_forall in Hf. specialize (Hf p Hp).
    apply list_elem_of_In, in_map_iff. exists p. split; [|done]. by apply lex_le_antisym. }
  clear -Hp. induction post as [|p post IH]; [done|]. cbn [List.filter]. rewrite Hp by (by left). f_equal.
  apply IH. intros; apply Hp. by right.
Qed.

Section Paging.
Context (client : HistorianClient) (rows : list HistoryPoint).
Hypothesis Hclient : client_query client = store_query rows.
Hypothesis Hdistinct : distinct_cursors rows.

(** The points a window of the source stands for, in cursor order. *)
Definition window_points (attributes : list Id.MeterAttributeId) (start stop : Z) : list HistoryPoint :=
  merge_sort point_before (List.filter (selected_point attributes start stop) rows).

Lemma filter_sublist_map {A B} (f : A -> B) (p : A -> bool) (l : list A) :
  NoDup (map f l) -> NoDup (map f (List.filter p l)).
Proof.
  induction l as [|x l IH]; simpl; [done|]. intros [Hx Hl]%list.NoDup_cons. destruct (p x); [|by apply IH].
  simpl. apply list.NoDup_cons. split; [|by apply IH]. intros Hin. apply Hx.
  apply list_elem_of_In, in_map_iff in Hin as (y & E & Hy%filter_In). apply list_elem_of_In, in_map_iff. naive_solver.
Qed.

Lemma window_points_sorted attributes start stop :
  StronglySorted point_before (window_points attributes start stop) /\
  distinct_cursors (window_points attributes start stop).
Proof.
  split; [apply (StronglySorted_merge_sort point_before)|]. unfold distinct_cursors, window_points.
  rewrite merge_sort_Permutation. by apply filter_sublist_map.
Qed.

(** The continuation after the points already read. *)
Definition continues (pre : list HistoryPoint) (after : option HistoryCursor) : Prop :=
  (pre = [] /\ after = None) \/ exists pre' x, pre = pre' ++ [x] /\ after = Some (hp_cursor x).

Definition query_ok (q : HistoryQuery) : Prop :=
  is_ok (dataset_for (hq_period q)) = true /\ 0 < hq_limit q <= 50000 /\ hq_start q <= hq_end q /\
  forallb (fun id => supports_attribute (key id) (hq_period q) Historian) (hq_attributes q) = true.

Lemma client_page q pre suffix :
  query_ok q -> continues pre (hq_after q) ->
  window_points (hq_attributes q) (hq_start q) (hq_end q) = pre ++ suffix ->
  client_query client q = Ok (take (Z.to_nat (hq_limit q)) suffix).
Proof.
  intros (Hds & Hl & Hse & Hat) Hcont Hw. rewrite Hclient. unfold store_query.
  destruct (dataset_for (hq_period q)); [|done]. cbn [mbind result_bind].
  rewrite (proj2 (Z.eqb_neq _ _)), (proj2 (Z.ltb_ge _ _)) by lia. cbn [orb reject_if mbind result_bind].
  rewrite (proj2 (Z.ltb_ge _ _)) by lia. cbn [reject_if mbind result_bind]. rewrite Hat.
  cbn [require mbind result_bind]. f_equal. f_equal. fold (window_points (hq_attributes q) (hq_start q) (hq_end q)).
  destruct (window_points_sorted (hq_attributes q) (hq_start q) (hq_end q)) as [Hs Hd]. rewrite Hw in *.
  destruct Hcont as [[-> ->]|(pre' & x & -> & ->)].
  - simpl. clear. induction suffix as [|p l IH]; [done|]. cbn [List.filter after_cursor]. by f_equal.
  - rewrite <- app_assoc in *. by apply after_suffix.
Qed.

Lemma page_loop_complete pages q pre suffix :
  (List.length suffix < pages)%nat -> query_ok q -> continues pre (hq_after q) ->
  window_points (hq_attributes q) (hq_start q) (hq_end q) = pre ++ suffix ->
  page_loop pages client q = Ok (map sample_of suffix).
Proof.
  revert q pre suffix. induction pages as [|pages IH]; intros q pre suffix Hlen Hq Hcont Hw; [lia|].
  cbn [page_loop]. rewrite (client_page q pre suffix Hq Hcont Hw). cbn [mbind result_bind].
  pose proof Hq as (_ & Hl & _). set (n := Z.to_nat (hq_limit q)).
  destruct (Z.ltb_spec (Z.of_nat (List.length (take n suffix))) (hq_limit q)) as [Hlt|Hge].
  - rewrite take_ge; [done|]. rewrite length_take in Hlt. lia.
  - rewrite length_take in Hge. destruct (list.last (take n suffix)) as [x|] eqn:Elast.
    2:{ apply last_None in Elast. apply (f_equal List.length) in Elast. rewrite length_take in Elast. simpl in Elast. lia. }
    apply last_Some in Elast as [page Epage].
    set (q' := mkQuery _ _ _ _ _ _).
    assert (Hnext : page_loop pages client q' = Ok (map sample_of (drop n suffix))).
    { apply (IH q' (pre ++ page ++ [x])); [rewrite length_drop; lia|exact Hq| |].
      - right. exists (pre ++ page), x. split; [by rewrite app_assoc|done].
      - unfold q'. cbn [hq_attributes hq_start hq_end]. rewrite Hw, <- Epage, <- app_assoc. by rewrite take_drop. }
    rewrite Hnext. cbn [mbind result_bind]. by rewrite <- map_app, take_drop.
Qed.

(** Splitting a window at a time splits its rows. *)
Lemma selected_split attributes start middle stop :
  start <= middle <= stop ->
  List.filter (selected_point attributes start stop) rows
  ≡ₚ List.filter (selected_point attributes start middle) rows
     ++ List.filter (selected_point attributes middle stop) rows.
Proof.
  intros Hm. clear Hclient Hdistinct. induction rows as [|p l IH]; [done|]. cbn [List.filter].
  assert (Hsel : forall a b, selected_point attributes a b p =
    ((a <=? hp_measured_at p) && (hp_measured_at p <? b) &&
     (match attributes with [] => true | _ => existsb (fun id => same_id id (hp_attribute p)) attributes end))%bool) by done.
  rewrite !Hsel. destruct (match attributes with [] => true | _ :: _ => existsb (fun id => same_id id (hp_attribute p)) attributes end);
    rewrite ?andb_false_r, ?andb_true_r; [|exact IH].
  destruct (Z.leb_spec start (hp_measured_at p)), (Z.ltb_spec (hp_measured_at p) stop),
    (Z.ltb_spec (hp_measured_at p) middle), (Z.leb_spec middle (hp_measured_at p)); try lia; cbn [andb];
    rewrite IH; [done|apply Permutation_middle|done..].
Qed.

Lemma chunk_loop_complete chunks pages period attributes start stop :
  is_ok (dataset_for period) = true ->
  forallb (fun id => supports_attribute (key id) period Historian) attributes = true ->
  (List.length rows < pages)%nat ->
  INT64_MIN <= start -> stop + query_chunk period <= INT64_MAX ->
  stop - start <= Z.of_nat chunks * query_chunk period ->
  exists samples,
    chunk_loop chunks pages client period attributes start stop = Ok samples /\
    samples ≡ₚ map sample_of (List.filter (selected_point attributes start stop) rows).
Proof.
  intros Hds Hat Hpages. assert (Hchunk : 0 < query_chunk period) by (destruct period; done).
  revert start. induction chunks as [|chunks IH]; intros start Hmin Hmax Hcover; cbn [chunk_loop];
    destruct (Z.ltb_spec start stop) as [Hlt|Hge]; [lia|..].
  1,3: exists []; split; [done|]; rewrite filter_none; [done|]; intros p _;
    unfold selected_point; destruct (Z.leb_spec start (hp_measured_at p)), (Z.ltb_spec (hp_measured_at p) stop); done || lia.
  rewrite signed64_in_range by lia. cbn [mbind result_bind]. set (next := start + query_chunk period).
  set (q := mkQuery _ _ _ _ _ _).
  rewrite (page_loop_complete pages q [] (window_points attributes start (Z.min stop next)));
    [|unfold window_points; rewrite merge_sort_Permutation; pose proof (filter_length_le (selected_point attributes start (Z.min stop next)) rows); lia
     |repeat split; unfold q, page_limit; simpl; try done; lia|by left|done].
  cbn [mbind result_bind].
  destruct (IH next) as (rest & -> & Hrest); [lia|lia|lia|]. cbn [mbind result_bind].
  eexists; split; [reflexivity|]. rewrite Hrest, <- map_app. apply Permutation_map.
  unfold window_points. rewrite merge_sort_Permutation.
  destruct (Z.le_ge_cases next stop) as [Hn|Hn].
  - rewrite (Z.min_r stop next) by lia. symmetry. apply selected_split. lia.
  - rewrite (Z.min_l stop next) by lia. rewrite (filter_none (selected_point attributes next stop)), app_nil_r; [done|].
    intros p _. unfold selected_point. destruct (Z.leb_spec next (hp_measured_at p)), (Z.ltb_spec (hp_measured_at p) stop); done || lia.
Qed.
End Paging.

(** ** The source keeps its contract *)
Definition scalar (id : Id.MeterAttributeId) : MeterAttributeKey := mkKey id None.

Lemma scalar_ids_of ids : scalar_ids (map scalar ids) = Ok ids.
Proof. unfold scalar_ids. induction ids as [|id ids IH]; [done|]. simpl in *. by rewrite IH. Qed.

Lemma check_status_dataset client period window :
  check_status client period window = Ok tt -> is_ok (dataset_for period) = true.
Proof.
  unfold check_status. destruct (client_status client); [|by destruct e]. cbn [mbind result_bind].
  unfold reject_if at 1. destruct (_ || _); [done|]. by destruct period.
Qed.

(** (C35) A ready historian that retains the window gives the generator exactly the points of the
    half-open window of the selected attributes, each once, however many chunks and pages that
    takes: chunks neither overlap nor leave a gap, and a page continues where the last one
    ended.  The fuel needed is one page more than the rows and one chunk per [query_chunk] begun. *)
Theorem historian_query_complete client rows period ids window chunks pages :
  client_query client = store_query rows -> distinct_cursors rows ->
  check_status client period window = Ok tt -> window_valid window = true ->
  forallb (fun id => supports_attribute (key id) period Historian) ids = true ->
  INT64_MIN <= w_start window -> w_end window + query_chunk period <= INT64_MAX ->
  (List.length rows < pages)%nat ->
  w_end window - w_start window <= Z.of_nat chunks * query_chunk period ->
  exists samples,
    historian_query chunks pages client period (map scalar ids) window = Ok samples /\
    samples ≡ₚ map sample_of (List.filter (selected_point ids (w_start window) (w_end window)) rows).
Proof.
  intros Hclient Hdistinct Hstatus Hvalid Hids Hmin Hmax Hpages Hchunks. unfold historian_query.
  rewrite Hvalid, Hstatus, scalar_ids_of. cbn [require mbind result_bind].
  eapply chunk_loop_complete; eauto using check_status_dataset.
Qed.

Definition example_point (at_ source value : Z) : HistoryPoint :=
  mkPoint at_ source Id.Frequency value valid None (mkCursor at_ source 1 source Id.Frequency).

Definition example_rows : list HistoryPoint :=
  [example_point 31000000000 2 50010; example_point 1000000000 1 50000; example_point 61000000000 3 49990].

Definition example_client : HistorianClient :=
  mkClient (Ok (mkHistorianStatus true false [mkDatasetStatus basic (Some 0)])) (store_query example_rows).

Lemma example_rows_distinct : distinct_cursors example_rows.
Proof.
  unfold distinct_cursors. apply (bool_decide_eq_true_1 (NoDup _)). vm_compute. reflexivity.
Qed.

Lemma historian_query_complete_witness : exists samples,
  historian_query 2 4 example_client Basic [scalar Id.Frequency] (mkWindow 0 60000000000) = Ok samples /\
  samples ≡ₚ [sample_of (example_point 31000000000 2 50010); sample_of (example_point 1000000000 1 50000)].
Proof.
  apply (historian_query_complete example_client example_rows Basic [Id.Frequency] (mkWindow 0 60000000000) 2 4);
    [reflexivity|exact example_rows_distinct|vm_compute; reflexivity|reflexivity|vm_compute; reflexivity
    |unfold INT64_MIN; simpl; lia|unfold INT64_MAX; simpl; lia|simpl; lia|simpl; lia].
Defined.
