(* ===== verification/Outbox.v ===== *)
(** * The Data Sender outbox

    Models [src/common/mnc/datalogger/outbox_repository.cpp]: the SQLite manifest of
    generated artifacts, their immutable payload files, the delivery state machine,
    administrative retry and deletion, and recovery after a crash.

    The [deliveries] rows of an artifact are kept with it: the foreign key makes the
    two tables one tree.  A directory is a map from file names to contents.  SHA-256 is
    OpenSSL's, a parameter; so is the text [job_snapshot] stores, which nothing reads
    back.  Whether a file operation or a transaction succeeds is an argument of the
    operation; what a failure leaves behind is part of its result. *)

From stdpp Require Import gmap sorting.
From S2P Require Import Prelude Datalog ContentWriter.
From Stdlib Require Import Ascii String.
Local Open Scope Z_scope.

Definition storage_failure (what : string) : exn := DatalogError StorageFailure what.

Inductive DeliveryState :=
  | Pending | RetryWait | Blocked | Succeeded | AdministrativelyDiscarded | InFlight.

#[export] Instance DeliveryState_eq_dec : EqDecision DeliveryState.
Proof. solve_decision. Defined.

Inductive DeliveryDisposition := disposition_succeeded | disposition_retryable | disposition_blocked.

Record DeliveryResult := mkResult {
  disposition : DeliveryDisposition;
  remote_result : string;
  sanitized_error : string }.

(** A row of [deliveries] without its keys. *)
Record Delivery := mkDelivery {
  dl_state : DeliveryState;
  dl_attempt_count : Z;
  dl_next_attempt : Z;
  dl_last_attempt : Z;
  dl_remote_result : string;
  dl_last_error : string }.

(** A row of [artifacts] with its deliveries. *)
Record Artifact := mkArtifact {
  ar_job_id : string;
  ar_job_revision : Z;
  ar_filename : string;
  ar_mime_type : string;
  ar_content_format : string;
  ar_checksum : string;
  ar_size : Z;
  ar_source_start : Z;
  ar_source_end : Z;
  ar_generated_at : Z;
  ar_created_at : Z;
  ar_local_only : bool;
  ar_payload_present : bool;
  ar_job_snapshot : string;
  ar_recovery_error : string;
  ar_delete_pending : bool;
  ar_deliveries : gmap string Delivery }.

Record QueuedDelivery := mkQueued {
  qd_artifact_id : string;
  qd_channel_id : string;
  qd_state : DeliveryState;
  qd_attempt_count : Z;
  qd_next_attempt : Z }.

Record JobWatermark := mkWatermark { wm_job_revision : Z; wm_completed_through : Z }.

Record Audit := mkAudit { au_artifact_id : string; au_action : string; au_occurred_at : Z; au_detail : string }.

Record OutboxStoragePolicy := mkStoragePolicy {
  op_maximum_bytes : Z;
  op_minimum_free_bytes : Z;
  op_completed_metadata_retention : Z }.

Record Outbox := mkOutbox {
  ob_policy : OutboxStoragePolicy;
  ob_outbox : gmap string string;       (** files of [root/outbox] *)
  ob_archive : gmap string string;      (** files of [root/archive] *)
  ob_artifacts : gmap string Artifact;
  ob_watermarks : gmap string JobWatermark;
  ob_audit : list Audit }.

(** ** Names *)
Definition safe_filename (value : string) : bool :=
  match value with
  | EmptyString => false
  | String c _ =>
      negb ((240 <? length_z value) || Ascii.eqb c "." || String.eqb value "." || String.eqb value "..")
      && all_of (fun c => identity_char c || Ascii.eqb c ".") value
  end.

Definition safe_identity (value : string) : bool :=
  negb (String.eqb value "" || (160 <? length_z value)) && all_of identity_char value.

(** [payload_path]: the directory by [local_only], the name checked. *)
Definition payload_path (filename : string) : result string :=
  require (safe_filename filename) (InvalidArgument "outbox filename is unsafe") ;; Ok filename.

Definition directory (local_only : bool) (ob : Outbox) : gmap string string :=
  if local_only then ob_archive ob else ob_outbox ob.

Definition set_directory (local_only : bool) (files : gmap string string) (ob : Outbox) : Outbox :=
  if local_only
  then mkOutbox (ob_policy ob) (ob_outbox ob) files (ob_artifacts ob) (ob_watermarks ob) (ob_audit ob)
  else mkOutbox (ob_policy ob) files (ob_archive ob) (ob_artifacts ob) (ob_watermarks ob) (ob_audit ob).

Definition set_artifacts (artifacts : gmap string Artifact) (ob : Outbox) : Outbox :=
  mkOutbox (ob_policy ob) (ob_outbox ob) (ob_archive ob) artifacts (ob_watermarks ob) (ob_audit ob).

(** [sanitize_result]: at most 1024 printable characters. *)
Fixpoint sanitize (room : nat) (value : string) : string :=
  match room, value with
  | O, _ | _, EmptyString => EmptyString
  | S room', String c value =>
      let n := Z.of_nat (nat_of_ascii c) in
      if (n =? 13) || (n =? 10) || (n =? 9) then String " " (sanitize room' value)
      else if (32 <=? n) && negb (n =? 127) then String c (sanitize room' value)
      else sanitize room value
  end.

Definition sanitize_result (value : string) : string := sanitize 1024 value.

(** A temporary file of [atomic_write]. *)
Definition is_temporary (filename : string) : bool :=
  match String.index 0 ".tmp." filename with Some _ => true | None => false end.

(** [filename.rfind('.')]: the parts before and after the last dot. *)
Fixpoint split_last_dot (s : string) : option (string * string) :=
  match s with
  | EmptyString => None
  | String c s =>
      match split_last_dot s with
      | Some (stem, extension) => Some (String c stem, extension)
      | None => if Ascii.eqb c "." then Some (EmptyString, s) else None
      end
  end.

Definition extension_of (filename : string) : string :=
  match split_last_dot filename with Some (_, extension) => extension | None => "" end.

(** ** Storage guard *)
Definition files_bytes (files : gmap string string) : Z :=
  map_fold (fun name body acc => if is_temporary name then acc else length_z body + acc) 0 files.

Definition payload_bytes (ob : Outbox) : Z := files_bytes (ob_outbox ob) + files_bytes (ob_archive ob).

(** [generation_allowed] and [blocking_reason]; [available] is the free space. *)
Definition storage_block (available : Z) (ob : Outbox) : option string :=
  if op_maximum_bytes (ob_policy ob) <=? payload_bytes ob
  then Some "combined outbox/archive quota reached"%string
  else if available <=? op_minimum_free_bytes (ob_policy ob)
  then Some "filesystem free-space reserve reached"%string
  else None.

Definition update_storage_policy (policy : OutboxStoragePolicy) (ob : Outbox) : result Outbox :=
  reject_if ((op_maximum_bytes policy =? 0) || (op_completed_metadata_retention policy <=? 0))
    (InvalidArgument "outbox storage quota must be nonzero") ;;
  Ok (mkOutbox policy (ob_outbox ob) (ob_archive ob) (ob_artifacts ob) (ob_watermarks ob) (ob_audit ob)).

(** ** Rows *)
Definition with_deliveries (deliveries : gmap string Delivery) (a : Artifact) : Artifact :=
  mkArtifact (ar_job_id a) (ar_job_revision a) (ar_filename a) (ar_mime_type a) (ar_content_format a)
    (ar_checksum a) (ar_size a) (ar_source_start a) (ar_source_end a) (ar_generated_at a)
    (ar_created_at a) (ar_local_only a) (ar_payload_present a) (ar_job_snapshot a)
    (ar_recovery_error a) (ar_delete_pending a) deliveries.

Definition with_payload (present : bool) (recovery_error : string) (a : Artifact) : Artifact :=
  mkArtifact (ar_job_id a) (ar_job_revision a) (ar_filename a) (ar_mime_type a) (ar_content_format a)
    (ar_checksum a) (ar_size a) (ar_source_start a) (ar_source_end a) (ar_generated_at a)
    (ar_created_at a) (ar_local_only a) present (ar_job_snapshot a)
    recovery_error (ar_delete_pending a) (ar_deliveries a).

Definition with_delete_pending (a : Artifact) : Artifact :=
  mkArtifact (ar_job_id a) (ar_job_revision a) (ar_filename a) (ar_mime_type a) (ar_content_format a)
    (ar_checksum a) (ar_size a) (ar_source_start a) (ar_source_end a) (ar_generated_at a)
    (ar_created_at a) (ar_local_only a) (ar_payload_present a) (ar_job_snapshot a)
    (ar_recovery_error a) true (ar_deliveries a).

(** [state NOT IN (Succeeded, AdministrativelyDiscarded)] *)
Definition unsent (d : Delivery) : bool :=
  negb (bool_decide (dl_state d = Succeeded)) &&
  negb (bool_decide (dl_state d = AdministrativelyDiscarded)).

(** [COUNT(d.channel_id)] and [SUM(CASE WHEN d.state=3 ...)] are equal and not zero. *)
Definition all_succeeded (a : Artifact) : bool :=
  negb (bool_decide (ar_deliveries a = ∅)) &&
  forallb (fun d => bool_decide (dl_state d.2 = Succeeded)) (map_to_list (ar_deliveries a)).

Definition visible (a : Artifact) : bool := negb (ar_delete_pending a).

(** [WHERE artifact_id=? AND delete_pending=0] *)
Definition lookup_artifact (id : string) (ob : Outbox) : option Artifact :=
  match ob_artifacts ob !! id with
  | Some a => if visible a then Some a else None
  | None => None
  end.

Section Repository.
Variable sha256 : string -> string.

(** ** Adding an artifact *)
Definition enqueue_guard (dataset : GeneratedDataset) (content : GeneratedContent) (channels : list string)
    (local_only : bool) : result unit :=
  reject_if (negb (safe_identity (ds_artifact_id dataset))
      || negb (String.eqb (gc_artifact_id content) (ds_artifact_id dataset))
      || negb (safe_filename (gc_filename content))
      || negb (String.eqb (gc_filename content) (ds_artifact_id dataset +:+ "." +:+ gc_extension content))
      || (negb (String.eqb (gc_extension content) "json") && negb (String.eqb (gc_extension content) "csv"))
      || negb (String.eqb (sha256 (gc_body content)) (gc_sha256 content))
      || negb (length_z (gc_sha256 content) =? 64))
    (storage_failure "generated artifact identity or checksum is invalid") ;;
  reject_if (negb (Bool.eqb local_only (match channels with [] => true | _ => false end)))
    (DatalogError InvalidConfiguration "artifact destination is invalid") ;;
  reject_if (negb (forallb safe_identity channels && bool_decide (NoDup channels)))
    (DatalogError InvalidConfiguration "artifact channel selection is invalid").

(** The manifest already describes this very artifact. *)
Definition same_manifest (dataset : GeneratedDataset) (content : GeneratedContent) (a : Artifact) : bool :=
  String.eqb (ar_filename a) (gc_filename content) && String.eqb (ar_checksum a) (gc_sha256 content) &&
  (ar_size a =? length_z (gc_body content)) && (ar_source_start a =? w_start (ds_artifact_window dataset)) &&
  (ar_source_end a =? w_end (ds_artifact_window dataset)) && (ar_job_revision a =? s64 (ds_job_revision dataset)).

Definition new_delivery : Delivery := mkDelivery Pending 0 0 0 "" "".

Definition new_artifact (dataset : GeneratedDataset) (content : GeneratedContent) (channels : list string)
    (local_only : bool) (snapshot : string) : Artifact :=
  mkArtifact (ds_job_id dataset) (ds_job_revision dataset) (gc_filename content)
    (gc_mime_type content) (gc_extension content) (gc_sha256 content) (length_z (gc_body content))
    (w_start (ds_artifact_window dataset)) (w_end (ds_artifact_window dataset)) (ds_generated_at dataset)
    (ds_generated_at dataset) local_only true snapshot "" false
    (list_to_map (map (fun channel => (channel, new_delivery)) channels)).

Definition filename_taken (filename : string) (artifacts : gmap string Artifact) : bool :=
  existsb (fun entry => String.eqb (ar_filename entry.2) filename) (map_to_list artifacts).

(** [write_ok]: the payload file could be written; [commit_ok]: the transaction committed.
    A file whose transaction fails stays; one renamed into place whose directory could not
    be synced stays as well, and leaves the same state. *)
Definition enqueue (dataset : GeneratedDataset) (content : GeneratedContent) (channels : list string)
    (local_only : bool) (snapshot : string) (available : Z) (write_ok commit_ok : bool) (ob : Outbox)
  : result unit * Outbox :=
  match enqueue_guard dataset content channels local_only with
  | Throw e => (Throw e, ob)
  | Ok _ =>
  match ob_artifacts ob !! ds_artifact_id dataset with
  | Some a =>
      if same_manifest dataset content a then (Ok tt, ob)
      else (Throw (storage_failure "artifact ID conflicts with a different manifest"), ob)
  | None =>
  match storage_block available ob with
  | Some reason => (Throw (storage_failure reason), ob)
  | None =>
  if (u64 (op_maximum_bytes (ob_policy ob) - payload_bytes ob) <? length_z (gc_body content))
     || (u64 (available - op_minimum_free_bytes (ob_policy ob)) <? length_z (gc_body content))
  then (Throw (storage_failure "artifact would exceed the Data Sender storage guard"), ob)
  else if bool_decide (is_Some (directory local_only ob !! gc_filename content))
  then (Throw (storage_failure "unmanifested artifact filename already exists"), ob)
  else if negb write_ok then (Throw (storage_failure "cannot write outbox payload"), ob)
  else
    let stored := set_directory local_only
                    (<[gc_filename content := gc_body content]> (directory local_only ob)) ob in
    if INT64_MAX <? ds_job_revision dataset
    then (Throw (OverflowError "SQLite integer exceeds signed 64-bit range"), stored)
    else if filename_taken (gc_filename content) (ob_artifacts ob) || negb commit_ok
    then (Throw (RuntimeError "execute SQLite statement"), stored)
    else (Ok tt, set_artifacts (<[ds_artifact_id dataset :=
                   new_artifact dataset content channels local_only snapshot]> (ob_artifacts ob)) stored)
  end end end.

(** ** Deliveries *)
Definition is_due (now : Z) (d : Delivery) : bool :=
  (bool_decide (dl_state d = Pending) || bool_decide (dl_state d = RetryWait) ||
   bool_decide (dl_state d = InFlight)) && (dl_next_attempt d <=? now).

Definition queued_le (a b : QueuedDelivery) : bool :=
  if qd_next_attempt a <? qd_next_attempt b then true
  else if qd_next_attempt b <? qd_next_attempt a then false
  else if String.eqb (qd_artifact_id a) (qd_artifact_id b)
  then String.leb (qd_channel_id a) (qd_channel_id b)
  else String.leb (qd_artifact_id a) (qd_artifact_id b).

Definition queued_before (a b : QueuedDelivery) : Prop := queued_le a b = true.

#[export] Instance queued_before_dec : forall a b, Decision (queued_before a b).
Proof. intros a b. unfold queued_before. apply _. Defined.

(** The join of the two tables under the [WHERE] of [due] and [claim_due]. *)
Definition due_rows (now : Z) (ob : Outbox) : list QueuedDelivery :=
  flat_map (fun entry =>
    let '(id, a) := entry in
    if ar_payload_present a && visible a then
      flat_map (fun row =>
        let '(channel, d) := row in
        if is_due now d
        then [mkQueued id channel (dl_state d) (dl_attempt_count d) (dl_next_attempt d)] else [])
        (map_to_list (ar_deliveries a))
    else []) (map_to_list (ob_artifacts ob)).

Definition maximum_artifact_list_page : Z := 500.

(** [ORDER BY d.next_attempt_ns,d.artifact_id,d.channel_id LIMIT ?] *)
Definition due (now limit : Z) (ob : Outbox) : result (list QueuedDelivery) :=
  reject_if ((limit =? 0) || (maximum_artifact_list_page <? limit))
    (InvalidArgument "outbox due limit is invalid") ;;
  Ok (take (Z.to_nat limit) (merge_sort queued_before (due_rows now ob))).

Definition update_delivery (id channel : string) (f : Delivery -> Delivery) (ob : Outbox) : Outbox :=
  set_artifacts (alter (fun a => with_deliveries (alter f channel (ar_deliveries a)) a) id
    (ob_artifacts ob)) ob.

Definition claim_delivery (lease_until : Z) (d : Delivery) : Delivery :=
  mkDelivery InFlight (dl_attempt_count d) lease_until (dl_last_attempt d) (dl_remote_result d)
    (dl_last_error d).

Definition claim_due (now lease_until limit : Z) (commit_ok : bool) (ob : Outbox)
  : result (list QueuedDelivery * Outbox) :=
  reject_if ((limit =? 0) || (maximum_artifact_list_page <? limit) || (lease_until <=? now))
    (InvalidArgument "outbox delivery lease is invalid") ;;
  let rows := take (Z.to_nat limit) (merge_sort queued_before (due_rows now ob)) in
  let claimed := map (fun q => mkQueued (qd_artifact_id q) (qd_channel_id q) InFlight
                                 (qd_attempt_count q) lease_until) rows in
  require commit_ok (RuntimeError "execute SQLite statement") ;;
  Ok (claimed, fold_left (fun ob q => update_delivery (qd_artifact_id q) (qd_channel_id q)
                            (claim_delivery lease_until) ob) claimed ob).

(** [content]: the payload, checked against its manifest. *)
Definition content (id : string) (ob : Outbox) : result GeneratedContent :=
  match lookup_artifact id ob with
  | None => Throw (OutOfRange "unknown artifact ID")
  | Some a =>
      reject_if (negb (ar_payload_present a)) (storage_failure "artifact payload is not retained") ;;
      filename ← payload_path (ar_filename a);
      match directory (ar_local_only a) ob !! filename with
      | None => Throw (storage_failure "artifact payload is unavailable")
      | Some body =>
          reject_if (negb (length_z body =? ar_size a))
            (storage_failure "artifact payload size does not match its manifest") ;;
          reject_if (negb (String.eqb (sha256 body) (ar_checksum a)))
            (storage_failure "artifact payload checksum does not match its manifest") ;;
          Ok (mkContent id (ar_filename a) (ar_mime_type a) (ar_content_format a) body (ar_checksum a))
      end
  end.

(** [read_chunk]: a slice of the payload. *)
Definition read_chunk (id : string) (offset maximum_bytes : Z) (ob : Outbox) : result (string * bool) :=
  reject_if ((maximum_bytes =? 0) || (1048576 <? maximum_bytes))
    (InvalidArgument "artifact chunk limit is invalid") ;;
  match lookup_artifact id ob with
  | None => Throw (OutOfRange "unknown artifact ID")
  | Some a =>
      reject_if (negb (ar_payload_present a)) (storage_failure "artifact payload is not retained") ;;
      reject_if (ar_size a <? offset) (InvalidArgument "artifact chunk offset is beyond end of file") ;;
      let amount := Z.min maximum_bytes (ar_size a - offset) in
      filename ← payload_path (ar_filename a);
      match directory (ar_local_only a) ob !! filename with
      | None => Throw (storage_failure "artifact payload is unavailable")
      | Some body =>
          let slice := substring (Z.to_nat offset) (Z.to_nat amount) body in
          require (length_z slice =? amount) (storage_failure "artifact payload changed while reading") ;;
          Ok (slice, offset + amount =? ar_size a)
      end
  end.

(** ** Results *)
Definition result_state (d : DeliveryDisposition) : DeliveryState :=
  match d with
  | disposition_succeeded => Succeeded
  | disposition_retryable => RetryWait
  | disposition_blocked => Blocked
  end.

Definition delivery_result (r : DeliveryResult) (attempted_at next_attempt : Z) (d : Delivery) : Delivery :=
  let state := result_state (disposition r) in
  mkDelivery state (dl_attempt_count d + 1) (if bool_decide (state = RetryWait) then next_attempt else 0)
    attempted_at (sanitize_result (remote_result r)) (sanitize_result (sanitized_error r)).

(** [finalize_completed_locked]: [remove_ok] and [update_ok] tell whether the file could be
    removed and the manifest updated, [sync_ok] whether the directory could be synced; an
    update or a sync that fails throws. *)
Definition finalize_completed (id : string) (remove_ok update_ok sync_ok : bool) (ob : Outbox)
  : result unit * Outbox :=
  match lookup_artifact id ob with
  | None => (Ok tt, ob)
  | Some a =>
      if ar_local_only a || negb (ar_payload_present a) || negb (all_succeeded a) then (Ok tt, ob)
      else match payload_path (ar_filename a) with
      | Throw e => (Throw e, ob)
      | Ok filename =>
          if negb remove_ok then (Ok tt, ob)
          else
            let ob := set_directory false (delete filename (ob_outbox ob)) ob in
            if negb update_ok then (Throw (RuntimeError "step SQLite statement"), ob)
            else (if sync_ok then Ok tt else Throw (RuntimeError "cannot sync outbox directory"),
                  set_artifacts (alter (fun a => with_payload false (ar_recovery_error a) a) id
                    (ob_artifacts ob)) ob)
      end
  end.

(** [MAX(d.last_attempt_ns)] *)
Definition last_attempt (a : Artifact) : Z :=
  map_fold (fun _ d acc => Z.max (dl_last_attempt d) acc) INT64_MIN (ar_deliveries a).

Definition prunable (cutoff : Z) (a : Artifact) : bool :=
  negb (ar_local_only a) && negb (ar_payload_present a) && visible a && all_succeeded a &&
  (0 <? last_attempt a) && (last_attempt a <=? cutoff).

(** [prune_completed_locked] *)
Definition prune_completed (now : Z) (commit_ok : bool) (ob : Outbox) : result unit * Outbox :=
  if now <=? op_completed_metadata_retention (ob_policy ob) then (Ok tt, ob)
  else
    let cutoff := now - op_completed_metadata_retention (ob_policy ob) in
    let kept := filter (fun entry => prunable cutoff entry.2 = false) (ob_artifacts ob) in
    if negb (existsb (fun entry => prunable cutoff entry.2) (map_to_list (ob_artifacts ob))) then (Ok tt, ob)
    else if negb commit_ok then (Throw (RuntimeError "execute SQLite statement"), ob)
    else (Ok tt, mkOutbox (ob_policy ob) (ob_outbox ob) (ob_archive ob) kept (ob_watermarks ob)
                   (List.filter (fun entry => negb (au_occurred_at entry <=? cutoff)) (ob_audit ob))).

(** [record_result] *)
Definition record_result (q : QueuedDelivery) (r : DeliveryResult) (attempted_at next_attempt : Z)
    (commit_ok remove_ok update_ok sync_ok prune_ok : bool) (ob : Outbox) : result unit * Outbox :=
  match ob_artifacts ob !! qd_artifact_id q ≫= (fun a => ar_deliveries a !! qd_channel_id q) with
  | None => (Throw (RuntimeError "delivery is unknown or already finalized"), ob)
  | Some d =>
      if negb (unsent d) then (Throw (RuntimeError "delivery is unknown or already finalized"), ob)
      else if negb commit_ok then (Throw (RuntimeError "execute SQLite statement"), ob)
      else
        let ob := update_delivery (qd_artifact_id q) (qd_channel_id q)
                    (delivery_result r attempted_at next_attempt) ob in
        match finalize_completed (qd_artifact_id q) remove_ok update_ok sync_ok ob with
        | (Throw e, ob) => (Throw e, ob)
        | (Ok _, ob) => prune_completed attempted_at prune_ok ob
        end
  end.

(** ** Administration *)
Definition retry_delivery (now : Z) (d : Delivery) : Delivery :=
  if bool_decide (dl_state d = Pending) || bool_decide (dl_state d = RetryWait) ||
     bool_decide (dl_state d = Blocked)
  then mkDelivery Pending (dl_attempt_count d) now (dl_last_attempt d) (dl_remote_result d) ""
  else d.

Definition map_deliveries (f : string -> Delivery -> Delivery) (a : Artifact) : Artifact :=
  with_deliveries (map_imap (fun channel d => Some (f channel d)) (ar_deliveries a)) a.

Definition retry (ids : list string) (now : Z) (commit_ok : bool) (ob : Outbox) : result Outbox :=
  reject_if (Nat.eqb (List.length ids) 0 || (500 <? List.length ids)%nat)
    (InvalidArgument "artifact retry selection is invalid") ;;
  require (forallb (fun id => bool_decide (is_Some (lookup_artifact id ob))) ids)
    (OutOfRange "unknown artifact ID") ;;
  require commit_ok (RuntimeError "execute SQLite statement") ;;
  Ok (set_artifacts (fold_left (fun artifacts id =>
        alter (map_deliveries (fun _ => retry_delivery now)) id artifacts) ids (ob_artifacts ob)) ob).

Definition unblock_delivery (channel : string) (now : Z) (name : string) (d : Delivery) : Delivery :=
  if String.eqb name channel && bool_decide (dl_state d = Blocked)
  then mkDelivery Pending (dl_attempt_count d) now (dl_last_attempt d) (dl_remote_result d) ""
  else d.

Definition retry_channel (channel : string) (now : Z) (commit_ok : bool) (ob : Outbox) : result Outbox :=
  require (safe_identity channel) (InvalidArgument "data channel retry identity is invalid") ;;
  require commit_ok (RuntimeError "step SQLite statement") ;;
  Ok (set_artifacts (map_deliveries (unblock_delivery channel now) <$> ob_artifacts ob) ob).

(** Channels an incomplete delivery names. *)
Definition referenced_channels (ob : Outbox) : list string :=
  flat_map (fun entry =>
    if visible entry.2
    then map fst (List.filter (fun row => unsent row.2) (map_to_list (ar_deliveries entry.2)))
    else []) (map_to_list (ob_artifacts ob)).

Definition validate_channels (available : list string) (ob : Outbox) : result unit :=
  require (forallb safe_identity available && bool_decide (NoDup available))
    (InvalidArgument "candidate data channel identities are invalid") ;;
  require (forallb (fun channel => bool_decide (channel ∈ available)) (referenced_channels ob))
    (RuntimeError "data channels cannot be deleted while queued deliveries reference them").

(** *** Deletion *)

(** [target.unsent != 0] *)
Definition target_unsent (a : Artifact) : bool :=
  existsb (fun row => unsent row.2) (map_to_list (ar_deliveries a)) ||
  (negb (ar_local_only a) && bool_decide (ar_deliveries a = ∅)).

Fixpoint erase_targets (ids : list string) (discard_unsent : bool) (ob : Outbox)
  : result (list (string * Artifact)) :=
  match ids with
  | [] => Ok []
  | id :: ids =>
      match lookup_artifact id ob with
      | None => Throw (OutOfRange "unknown artifact ID")
      | Some a =>
          reject_if (target_unsent a && negb discard_unsent)
            (RuntimeError "deleting unsent artifacts requires discard_unsent confirmation") ;;
          rest ← erase_targets ids discard_unsent ob;
          Ok ((id, a) :: rest)
      end
  end.

Definition discard_delivery (d : Delivery) : Delivery :=
  if unsent d
  then mkDelivery AdministrativelyDiscarded (dl_attempt_count d) 0 (dl_last_attempt d)
         (dl_remote_result d) "administrator discarded"
  else d.

(** The first transaction: discard, mark, audit. *)
Definition mark_target (now : Z) (ob : Outbox) (target : string * Artifact) : Outbox :=
  let '(id, a) := target in
  let discard := if target_unsent a then map_deliveries (fun _ => discard_delivery) else fun x => x in
  mkOutbox (ob_policy ob) (ob_outbox ob) (ob_archive ob)
    (alter (fun x => with_delete_pending (discard x)) id (ob_artifacts ob)) (ob_watermarks ob)
    (ob_audit ob ++ [mkAudit id (if target_unsent a then "discard_unsent" else "delete") now
                       (ar_filename a)]).

(** Removing the payload of one target; [None] when the file system refuses. *)
Definition remove_payload (a : Artifact) (remove_ok : bool) (ob : Outbox) : option Outbox :=
  if ar_payload_present a then
    if remove_ok
    then Some (set_directory (ar_local_only a)
                 (delete (ar_filename a) (directory (ar_local_only a) ob)) ob)
    else None
  else Some ob.

(** [removable] tells which files can be removed; the first that cannot ends the loop. *)
Fixpoint remove_payloads (targets : list (string * Artifact)) (removable : string -> bool) (ob : Outbox)
  : bool * Outbox :=
  match targets with
  | [] => (true, ob)
  | (_, a) :: targets =>
      match remove_payload a (removable (ar_filename a)) ob with
      | Some ob => remove_payloads targets removable ob
      | None => (false, ob)
      end
  end.

(** [DELETE FROM artifacts WHERE artifact_id=? AND delete_pending=1] *)
Definition delete_marked (artifacts : gmap string Artifact) (id : string) : gmap string Artifact :=
  match artifacts !! id with
  | Some a => if ar_delete_pending a then delete id artifacts else artifacts
  | None => artifacts
  end.

Definition erase (ids : list string) (discard_unsent : bool) (now : Z) (mark_ok : bool)
    (removable : string -> bool) (delete_ok : bool) (ob : Outbox) : result unit * Outbox :=
  if Nat.eqb (List.length ids) 0 || (500 <? List.length ids)%nat
  then (Throw (InvalidArgument "artifact deletion selection is invalid"), ob)
  else match erase_targets ids discard_unsent ob with
  | Throw e => (Throw e, ob)
  | Ok targets =>
      if negb mark_ok then (Throw (RuntimeError "execute SQLite statement"), ob)
      else
        let ob := fold_left (mark_target now) targets ob in
        match remove_payloads targets removable ob with
        | (false, ob) =>
            (Throw (storage_failure "cannot remove an administratively deleted payload"), ob)
        | (true, ob) =>
            if negb delete_ok then (Throw (RuntimeError "execute SQLite statement"), ob)
            else (Ok tt, set_artifacts (fold_left delete_marked ids (ob_artifacts ob)) ob)
        end
  end.

(** ** Watermarks *)
Definition watermark (job : string) (ob : Outbox) : option JobWatermark := ob_watermarks ob !! job.

Definition store_watermark (job : string) (w : JobWatermark) (commit_ok : bool) (ob : Outbox)
  : result Outbox :=
  require (safe_identity job && negb (wm_job_revision w =? 0))
    (InvalidArgument "job watermark identity is invalid") ;;
  reject_if (INT64_MAX <? wm_job_revision w)
    (OverflowError "SQLite integer exceeds signed 64-bit range") ;;
  require commit_ok (RuntimeError "step SQLite statement") ;;
  Ok (mkOutbox (ob_policy ob) (ob_outbox ob) (ob_archive ob) (ob_artifacts ob)
        (<[job := w]> (ob_watermarks ob)) (ob_audit ob)).

(** ** Start-up *)

(** [finish_pending_deletions_locked]; [removable] tells which files can be removed, and a
    file that cannot is left behind. *)
Definition finish_deletion (removable : string -> bool) (ob : Outbox) (entry : string * Artifact)
  : Outbox :=
  let '(_, a) := entry in
  if ar_delete_pending a && ar_payload_present a && removable (ar_filename a)
  then set_directory (ar_local_only a) (delete (ar_filename a) (directory (ar_local_only a) ob)) ob
  else ob.

Definition finish_pending_deletions (removable : string -> bool) (ob : Outbox) : Outbox :=
  let ob' := fold_left (finish_deletion removable) (map_to_list (ob_artifacts ob)) ob in
  set_artifacts (filter (fun entry => ar_delete_pending entry.2 = false) (ob_artifacts ob)) ob'.

Definition block_delivery (error : string) (d : Delivery) : Delivery :=
  if unsent d
  then mkDelivery Blocked (dl_attempt_count d) (dl_next_attempt d) (dl_last_attempt d)
         (dl_remote_result d) error
  else d.

(** The lambda [block_artifact]. *)
Definition block_artifact (error : string) (a : Artifact) : Artifact :=
  map_deliveries (fun _ => block_delivery error) (with_payload (ar_payload_present a) error a).

(** The first loop of [recover_locked]: a manifest against its payload file. *)
Definition recover_manifest (ob : Outbox) (entry : string * Artifact) : Outbox :=
  let '(id, a) := entry in
  let replace a' := set_artifacts (<[id := a']> (ob_artifacts ob)) ob in
  match directory (ar_local_only a) ob !! ar_filename a with
  | None =>
      if negb (ar_local_only a) && all_succeeded a then replace (with_payload false "" a)
      else if ar_payload_present a then
        replace (map_deliveries (fun _ => block_delivery "manifest payload is missing")
                   (with_payload false "manifest payload is missing" a))
      else ob
  | Some body =>
      if negb (length_z body =? ar_size a) then replace (block_artifact "payload size mismatch" a)
      else if negb (String.eqb (sha256 body) (ar_checksum a))
      then replace (block_artifact "payload checksum mismatch" a)
      else if negb (ar_local_only a) && all_succeeded a
      then snd (finalize_completed id true true true ob)
      else ob
  end.

Definition recovered_artifact (filename extension body : string) (local_only : bool) : Artifact :=
  mkArtifact "recovered" 1 filename
    (if String.eqb extension "json" then "application/json" else "text/csv; charset=utf-8")
    extension (sha256 body) (length_z body) 0 0 0 0 local_only true "{}"
    (if local_only then "recovered local-only file without manifest"
     else "recovered unsent file without delivery manifest") false ∅.

(** The second loop of [recover_locked]: a file without a manifest. *)
Definition recover_file (known : gset string) (local_only : bool) (ob : Outbox)
    (entry : string * string) : result Outbox :=
  let '(filename, body) := entry in
  if is_temporary filename then
    Ok (set_directory local_only (delete filename (directory local_only ob)) ob)
  else if negb (safe_filename filename) || bool_decide (filename ∈ known) then Ok ob
  else match split_last_dot filename with
  | None => Ok ob
  | Some (stem, extension) =>
      if negb (String.eqb extension "json") && negb (String.eqb extension "csv") then Ok ob
      else
        let checksum := sha256 body in
        let id := if safe_identity stem then stem else "recovered-" +:+ substring 0 24 checksum in
        let id := match ob_artifacts ob !! id with
                  | Some _ => id +:+ "-" +:+ substring 0 12 checksum
                  | None => id
                  end in
        reject_if (bool_decide (is_Some (ob_artifacts ob !! id)) ||
                   filename_taken filename (ob_artifacts ob))
          (RuntimeError "step SQLite statement: UNIQUE constraint failed") ;;
        Ok (set_artifacts (<[id := recovered_artifact filename extension body local_only]>
              (ob_artifacts ob)) ob)
  end.

Fixpoint recover_files (known : gset string) (local_only : bool) (files : list (string * string))
    (ob : Outbox) : result unit * Outbox :=
  match files with
  | [] => (Ok tt, ob)
  | entry :: files =>
      match recover_file known local_only ob entry with
      | Throw e => (Throw e, ob)
      | Ok ob => recover_files known local_only files ob
      end
  end.

Definition known_filenames (ob : Outbox) : gset string :=
  list_to_set (map (fun entry => ar_filename entry.2) (map_to_list (ob_artifacts ob))).

Definition recover (ob : Outbox) : result unit * Outbox :=
  let known := known_filenames ob in
  let ob := fold_left recover_manifest (map_to_list (ob_artifacts ob)) ob in
  match recover_files known false (map_to_list (ob_outbox ob)) ob with
  | (Throw e, ob) => (Throw e, ob)
  | (Ok _, ob) => recover_files known true (map_to_list (ob_archive ob)) ob
  end.

(** What a start-up does to the state on disk. *)
Definition initialize (removable : string -> bool) (ob : Outbox) : result unit * Outbox :=
  recover (finish_pending_deletions removable ob).

End Repository.

(** ** Summaries *)
Inductive ArtifactState :=
  | state_pending | state_partially_delivered | state_blocked | state_succeeded
  | state_local_only | state_missing_payload.

Definition count_state (s : DeliveryState) (a : Artifact) : nat :=
  List.length (List.filter (fun row => bool_decide (dl_state row.2 = s)) (map_to_list (ar_deliveries a))).

Definition damaged_payload (a : Artifact) : bool :=
  String.eqb (ar_recovery_error a) "payload size mismatch" ||
  String.eqb (ar_recovery_error a) "payload cannot be read" ||
  String.eqb (ar_recovery_error a) "payload checksum mismatch".

(** The state of [summary]. *)
Definition artifact_state (a : Artifact) : ArtifactState :=
  let deliveries := size (ar_deliveries a) in
  let succeeded := count_state Succeeded a in
  let blocked := count_state Blocked a in
  let error := negb (String.eqb (ar_recovery_error a) "") in
  if (negb (ar_payload_present a) && error) || damaged_payload a then state_missing_payload
  else if ar_local_only a then state_local_only
  else if negb (Nat.eqb deliveries 0) && Nat.eqb succeeded deliveries then state_succeeded
  else if negb (Nat.eqb blocked 0) || (Nat.eqb deliveries 0 && error) then state_blocked
  else if negb (Nat.eqb succeeded 0) then state_partially_delivered
  else state_pending.
