(* ===== verification/OutboxTheorems.v ===== *)
(** * Correctness of the Data Sender outbox

    No accepted artifact is lost before every channel has taken it, deliveries are
    claimed exclusively, and the storage guard holds. *)

From stdpp Require Import gmap sorting.
From S2P Require Import Prelude MeterTiming Datalog ContentWriter Outbox.
From Stdlib Require Import Ascii String.
Local Open Scope Z_scope.

(** ** Accessors *)
Lemma artifacts_set_directory local files ob :
  ob_artifacts (set_directory local files ob) = ob_artifacts ob.
Proof. by destruct local. Qed.

Lemma directory_set_directory local local' files ob :
  directory local (set_directory local' files ob) =
    if Bool.eqb local local' then files else directory local ob.
Proof. by destruct local, local'. Qed.

Lemma directory_set_artifacts local artifacts ob :
  directory local (set_artifacts artifacts ob) = directory local ob.
Proof. by destruct local. Qed.

Lemma set_directory_artifacts local files artifacts ob :
  set_directory local files (set_artifacts artifacts ob) =
  set_artifacts artifacts (set_directory local files ob).
Proof. by destruct local. Qed.

(** ** Names *)
Fixpoint dots (s : string) : nat :=
  match s with EmptyString => 0 | String c s => (if Ascii.eqb c "." then 1 else 0) + dots s end.

Lemma dots_app s t : dots (s +:+ t) = (dots s + dots t)%nat.
Proof. induction s as [|c s IH]; simpl; [done|]. rewrite IH. lia. Qed.

Lemma dots_substring n m s : (dots (substring n m s) <= dots s)%nat.
Proof.
  revert n m. induction s as [|c s IH]; intros n m; [by destruct n, m|].
  destruct n, m; simpl; try lia.
  - specialize (IH 0%nat m). lia.
  - specialize (IH n 0%nat). lia.
  - specialize (IH n (S m)). lia.
Qed.

Lemma temporary_dots s : is_temporary s = true -> (2 <= dots s)%nat.
Proof.
  unfold is_temporary. destruct (String.index 0 ".tmp." s) as [n|] eqn:E; [|done]. intros _.
  apply index_correct1 in E. pose proof (dots_substring n (String.length ".tmp.") s) as Hd.
  rewrite E in Hd. simpl in Hd. lia.
Qed.

Lemma identity_dots s : all_of identity_char s = true -> dots s = 0%nat.
Proof.
  induction s as [|c s IH]; simpl; [done|]. intros [Hc Hs]%andb_true_iff.
  destruct (Ascii.eqb_spec c "."); [|by apply IH]. subst c. vm_compute in Hc. done.
Qed.

(** ** Payload files *)

(** A manifest whose file name can be told from temporary files and whose format is one
    of the two the program generates. *)
Definition name_ok (a : Artifact) : Prop :=
  safe_filename (ar_filename a) = true /\ is_temporary (ar_filename a) = false /\
  ar_content_format a ∈ ["json"; "csv"].

Definition same_file (a' a : Artifact) : Prop :=
  ar_filename a' = ar_filename a /\ ar_content_format a' = ar_content_format a.

(** The UNIQUE constraint and the names of the manifest. *)
Record manifest_ok (artifacts : gmap string Artifact) : Prop := {
  mo_unique : forall id1 id2 a1 a2, artifacts !! id1 = Some a1 -> artifacts !! id2 = Some a2 ->
    ar_filename a1 = ar_filename a2 -> id1 = id2;
  mo_names : map_Forall (fun _ => name_ok) artifacts }.

Lemma manifest_ok_sub artifacts artifacts' :
  manifest_ok artifacts ->
  (forall id a', artifacts' !! id = Some a' ->
     exists a, artifacts !! id = Some a /\ same_file a' a) ->
  manifest_ok artifacts'.
Proof.
  intros [Hu Hn] Hsub. constructor.
  - intros id1 id2 a1 a2 (x1 & H1 & E1 & _)%Hsub (x2 & H2 & E2 & _)%Hsub E.
    apply (Hu id1 id2 x1 x2); [done|done|congruence].
  - intros id a' (a & Ha & E1 & E2)%Hsub. unfold name_ok. rewrite E1, E2. by apply (Hn id a).
Qed.

Lemma manifest_ok_insert id a artifacts :
  manifest_ok artifacts -> name_ok a -> artifacts !! id = None ->
  filename_taken (ar_filename a) artifacts = false -> manifest_ok (<[id := a]> artifacts).
Proof.
  intros [Hu Hn] Ha Hnone Hf.
  assert (Hfree : forall id' a', artifacts !! id' = Some a' -> ar_filename a' <> ar_filename a).
  { intros id' a' Ha' E. enough (filename_taken (ar_filename a) artifacts = true) by congruence.
    apply existsb_exists. exists (id', a'). split; [by apply list_elem_of_In, elem_of_map_to_list|].
    simpl. rewrite E. apply String.eqb_refl. }
  constructor; [|by apply map_Forall_insert_2].
  intros id1 id2 a1 a2 H1 H2 E.
  apply lookup_insert_Some in H1 as [[<- <-]|[Hn1 H1]], H2 as [[<- <-]|[Hn2 H2]]; try done.
  - by destruct (Hfree _ _ H2).
  - by destruct (Hfree _ _ H1).
  - by eapply Hu.
Qed.

(** ** What has been accepted *)

(** An accepted artifact: its payload, its destinations, and the channels it reached. *)
Record Entry := mkEntry {
  en_body : string;
  en_channels : list string;
  en_local : bool;
  en_sent : gset string }.

Definition delivered (e : Entry) : Prop :=
  en_local e = false /\ en_channels e <> [] /\ forall channel, channel ∈ en_channels e -> channel ∈ en_sent e.

(** The delivery a queued row names. *)
Definition delivery_at (id channel : string) (ob : Outbox) : option Delivery :=
  ob_artifacts ob !! id ≫= (fun a => ar_deliveries a !! channel).

Lemma delivery_at_update id channel id' channel' f ob :
  delivery_at id channel (update_delivery id' channel' f ob) =
    if decide (id = id' /\ channel = channel') then f <$> delivery_at id channel ob
    else delivery_at id channel ob.
Proof.
  unfold delivery_at, update_delivery. simpl. rewrite lookup_alter.
  destruct (decide (id' = id)) as [->|Hi]; [|by rewrite decide_False by naive_solver].
  destruct (ob_artifacts ob !! id) as [a|]; simpl; [|by destruct (decide _)].
  rewrite lookup_alter. destruct (decide (channel' = channel)) as [->|].
  - by rewrite decide_True.
  - by rewrite decide_False by naive_solver.
Qed.

Lemma elem_of_due_rows now ob q :
  q ∈ due_rows now ob <->
  exists a d, ob_artifacts ob !! qd_artifact_id q = Some a /\ ar_payload_present a = true /\
    ar_delete_pending a = false /\ ar_deliveries a !! qd_channel_id q = Some d /\ is_due now d = true /\
    q = mkQueued (qd_artifact_id q) (qd_channel_id q) (dl_state d) (dl_attempt_count d) (dl_next_attempt d).
Proof.
  unfold due_rows. rewrite list_elem_of_In, in_flat_map. split.
  - intros ([id a] & Ha%list_elem_of_In%elem_of_map_to_list & Hq).
    destruct (ar_payload_present a && visible a) eqn:E; [|done].
    apply andb_true_iff in E as [Hp Hv]. unfold visible in Hv. apply negb_true_iff in Hv.
    apply in_flat_map in Hq as ([channel d] & Hd%list_elem_of_In%elem_of_map_to_list & Hq).
    destruct (is_due now d) eqn:Ed; [|done]. destruct Hq as [<-|[]]. simpl. eauto 10.
  - intros (a & d & Ha & Hp & Hv & Hd & Hdue & ->). exists (qd_artifact_id q, a). simpl.
    split; [by apply list_elem_of_In, elem_of_map_to_list|].
    unfold visible. rewrite Hp, Hv. simpl. apply in_flat_map. exists (qd_channel_id q, d).
    split; [by apply list_elem_of_In, elem_of_map_to_list|]. rewrite Hdue. by left.
Qed.

Section History.
Variable sha256 : string -> string.

(** The manifest row of an accepted artifact. *)
Record row_ok (e : Entry) (a : Artifact) : Prop := {
  ro_visible : ar_delete_pending a = false;
  ro_local : ar_local_only a = en_local e;
  ro_size : ar_size a = length_z (en_body e);
  ro_checksum : ar_checksum a = sha256 (en_body e);
  ro_channels : forall channel, is_Some (ar_deliveries a !! channel) <-> channel ∈ en_channels e;
  ro_states : map_Forall (fun channel d => dl_state d <> AdministrativelyDiscarded /\
    (dl_state d = Succeeded <-> channel ∈ en_sent e)) (ar_deliveries a) }.

(** Either the artifact can still be delivered from its payload, or it has been
    delivered everywhere. *)
Definition entry_ok (ob : Outbox) (id : string) (e : Entry) : Prop :=
  delivered e \/
  exists a, ob_artifacts ob !! id = Some a /\ row_ok e a /\ ar_payload_present a = true /\
    directory (ar_local_only a) ob !! ar_filename a = Some (en_body e).

Lemma all_succeeded_spec a :
  all_succeeded a = true <->
  ar_deliveries a <> ∅ /\ map_Forall (fun _ d => dl_state d = Succeeded) (ar_deliveries a).
Proof.
  unfold all_succeeded. rewrite andb_true_iff, negb_true_iff, bool_decide_eq_false, forallb_forall.
  split; intros [H1 H2]; (split; [done|]).
  - intros channel d Hd. specialize (H2 (channel, d)). rewrite bool_decide_eq_true in H2.
    apply H2. by apply list_elem_of_In, elem_of_map_to_list.
  - intros [channel d] Hd%list_elem_of_In%elem_of_map_to_list. apply bool_decide_eq_true.
    by apply (H2 channel d).
Qed.

(** A row whose deliveries all succeeded belongs to a delivered artifact. *)
Lemma row_delivered e a :
  row_ok e a -> en_local e = false -> all_succeeded a = true -> delivered e.
Proof.
  intros [_ _ _ _ Hc Hs] Hl [Hne Hall]%all_succeeded_spec. split_and!; [done| |].
  - intros E. apply Hne. apply map_empty. intros channel.
    destruct (ar_deliveries a !! channel) eqn:Ed; [|done].
    assert (channel ∈ en_channels e) as Hin by (apply Hc; by eexists). rewrite E in Hin.
    by apply not_elem_of_nil in Hin.
  - intros channel [d Hd]%Hc. apply (Hs channel d Hd). by apply (Hall channel d).
Qed.

(** [content] serves the payload of an artifact that is still there. *)
Lemma entry_content ob id e :
  manifest_ok (ob_artifacts ob) -> entry_ok ob id e ->
  delivered e \/ exists c, content sha256 id ob = Ok c /\ gc_body c = en_body e.
Proof.
  intros [_ Hn] [Hd|(a & Ha & Hr & Hp & Hf)]; [by left|right].
  unfold content, lookup_artifact. rewrite Ha. unfold visible.
  rewrite (ro_visible _ _ Hr). simpl. rewrite Hp. simpl.
  unfold payload_path. destruct (Hn id a Ha) as [-> _]. simpl. rewrite Hf.
  rewrite (ro_size _ _ Hr), Z.eqb_refl. simpl. rewrite (ro_checksum _ _ Hr), String.eqb_refl. simpl.
  by eexists.
Qed.

Definition log_ok (log : gmap string Entry) (ob : Outbox) : Prop := map_Forall (entry_ok ob) log.

Record history_ok (log : gmap string Entry) (ob : Outbox) : Prop := {
  ho_manifest : manifest_ok (ob_artifacts ob);
  ho_log : log_ok log ob }.

(** *** Steps that only touch rows *)
Definition row_map (f : string -> Artifact -> Artifact) (ob ob' : Outbox) : Prop :=
  (forall local, directory local ob' = directory local ob) /\
  (forall id, ob_artifacts ob' !! id = f id <$> ob_artifacts ob !! id).

Lemma row_map_history f log ob ob' :
  row_map f ob ob' ->
  (forall id a, same_file (f id a) a /\ ar_local_only (f id a) = ar_local_only a /\
     ar_payload_present (f id a) = ar_payload_present a) ->
  (forall id e a, ob_artifacts ob !! id = Some a -> row_ok e a -> row_ok e (f id a)) ->
  history_ok log ob -> history_ok log ob'.
Proof.
  intros [Hd Ha] Hf Hr [Hm Hl]. constructor.
  - eapply manifest_ok_sub; [exact Hm|]. intros id a' H. rewrite Ha in H.
    apply fmap_Some in H as (a & E & ->). exists a. split; [done|]. apply Hf.
  - intros id e He. destruct (Hl id e He) as [?|(a & Ea & Hrow & Hp & Hfile)]; [by left|right].
    exists (f id a). rewrite Ha, Ea, Hd. destruct (Hf id a) as ([-> _] & -> & ->).
    split_and!; eauto.
Qed.

Definition keeps_success (f : string -> Delivery -> Delivery) : Prop :=
  forall channel d, dl_state d <> AdministrativelyDiscarded ->
    dl_state (f channel d) <> AdministrativelyDiscarded /\
    (dl_state (f channel d) = Succeeded <-> dl_state d = Succeeded).

Lemma map_deliveries_row f e a : keeps_success f -> row_ok e a -> row_ok e (map_deliveries f a).
Proof.
  intros Hk [H1 H2 H3 H4 H5 H6]. constructor; simpl; try done.
  - intros channel. rewrite map_lookup_imap, <- H5. destruct (ar_deliveries a !! channel); simpl;
      split; intros [? ?]; eauto; done.
  - intros channel d. rewrite map_lookup_imap. destruct (ar_deliveries a !! channel) as [d0|] eqn:E; [|done].
    intros [= <-]. destruct (H6 channel d0 E) as [Hn Hi]. destruct (Hk channel d0 Hn) as [Hn' Hi'].
    split; [done|]. by rewrite Hi'.
Qed.

Lemma retry_keeps now : keeps_success (fun _ => retry_delivery now).
Proof.
  intros channel d Hd. unfold retry_delivery.
  destruct (dl_state d) eqn:E; simpl; rewrite ?E; split; try done; split; done.
Qed.

Lemma unblock_keeps channel now : keeps_success (unblock_delivery channel now).
Proof.
  intros name d Hd. unfold unblock_delivery. destruct (String.eqb name channel); simpl; [|done].
  destruct (dl_state d) eqn:E; simpl; rewrite ?E; split; try done; split; done.
Qed.

Lemma alter_row f channel e a :
  (forall d, ar_deliveries a !! channel = Some d -> dl_state d <> AdministrativelyDiscarded ->
     dl_state (f d) <> AdministrativelyDiscarded /\ (dl_state (f d) = Succeeded <-> dl_state d = Succeeded)) ->
  row_ok e a -> row_ok e (with_deliveries (alter f channel (ar_deliveries a)) a).
Proof.
  intros Hf [H1 H2 H3 H4 H5 H6]. constructor; simpl; try done.
  - intros name. rewrite lookup_alter, <- H5. destruct (decide (channel = name)); [|done].
    destruct (ar_deliveries a !! name) eqn:E; subst; rewrite ?E; simpl; by rewrite ?fmap_is_Some, ?E.
  - intros name d. rewrite lookup_alter. destruct (decide (channel = name)) as [->|]; [|apply H6].
    intros (d0 & E & ->)%fmap_Some. destruct (H6 name d0 E) as [Hn Hi].
    destruct (Hf d0 E Hn) as [Hn' Hi']. split; [done|]. by rewrite Hi'.
Qed.

Lemma update_delivery_history id channel f log ob :
  (forall a d, ob_artifacts ob !! id = Some a -> ar_deliveries a !! channel = Some d ->
     dl_state d <> AdministrativelyDiscarded ->
     dl_state (f d) <> AdministrativelyDiscarded /\ (dl_state (f d) = Succeeded <-> dl_state d = Succeeded)) ->
  history_ok log ob -> history_ok log (update_delivery id channel f ob).
Proof.
  intros Hf. apply (row_map_history (fun i a => if decide (id = i)
    then with_deliveries (alter f channel (ar_deliveries a)) a else a)).
  - split; [intros; apply directory_set_artifacts|]. intros i. simpl. rewrite lookup_alter.
    destruct (decide (id = i)) as [->|]; [done|]. by destruct (ob_artifacts ob !! i).
  - intros i a. by destruct (decide (id = i)).
  - intros i e a Ha Hr. destruct (decide (id = i)) as [->|]; [|done]. apply alter_row; [|done].
    intros d Hd. by apply Hf with a.
Qed.

Lemma due_not_final now d : is_due now d = true -> dl_state d <> Succeeded.
Proof. unfold is_due. intros [H _]%andb_true_iff E. rewrite E in H. done. Qed.

Lemma claim_fold_history lease qs log ob :
  Forall (fun q => forall d, delivery_at (qd_artifact_id q) (qd_channel_id q) ob = Some d ->
    dl_state d <> Succeeded) qs ->
  history_ok log ob ->
  history_ok log (fold_left (fun ob q => update_delivery (qd_artifact_id q) (qd_channel_id q)
    (claim_delivery lease) ob) qs ob).
Proof.
  revert ob. induction qs as [|q qs IH]; intros ob Hq Hh; [done|].
  apply List.Forall_cons_iff in Hq as [Hq Hqs]. simpl. apply IH.
  - eapply Forall_impl; [|exact Hqs]. intros q' H' d. rewrite delivery_at_update.
    destruct (decide _); [|apply H']. by intros (d0 & _ & ->)%fmap_Some.
  - apply update_delivery_history; [|done]. intros a d Ha Hd Hnd. simpl. split; [done|].
    split; [done|]. intros E. destruct (Hq d); [|done]. unfold delivery_at. by rewrite Ha.
Qed.

Lemma due_rows_not_final now ob q d :
  q ∈ due_rows now ob -> delivery_at (qd_artifact_id q) (qd_channel_id q) ob = Some d ->
  dl_state d <> Succeeded.
Proof.
  intros (a & d' & Ha & _ & _ & Hd & Hdue & _)%elem_of_due_rows. unfold delivery_at. rewrite Ha. simpl.
  rewrite Hd. intros [= <-]. by eapply due_not_final.
Qed.

Lemma claim_history now lease limit commit_ok log ob claimed ob' :
  claim_due now lease limit commit_ok ob = Ok (claimed, ob') ->
  history_ok log ob -> history_ok log ob'.
Proof.
  unfold claim_due. intros H Hh. apply bind_Ok in H as (_ & _ & H).
  apply bind_Ok in H as (_ & _ & H). injection H as <- <-.
  apply claim_fold_history; [|done].
  apply List.Forall_forall. intros q (r & <- & Hr)%in_map_iff. simpl. intros d.
  apply due_rows_not_final with now. apply list_elem_of_In in Hr.
  apply elem_of_take in Hr as (i & Hi & _). apply list_elem_of_lookup_2 in Hi.
  by rewrite merge_sort_Permutation in Hi.
Qed.

(** *** Steps that remove a payload *)

(** Another artifact's file is not this one's. *)
Lemma entry_ok_delete_file ob id e id0 a0 local :
  manifest_ok (ob_artifacts ob) -> ob_artifacts ob !! id0 = Some a0 -> id <> id0 ->
  entry_ok ob id e ->
  entry_ok (set_directory local (delete (ar_filename a0) (directory local ob)) ob) id e.
Proof.
  intros Hm H0 Hne [Hd|(a & Ha & Hr & Hp & Hf)]; [by left|right]. exists a.
  rewrite artifacts_set_directory, directory_set_directory. split_and!; try done.
  destruct (Bool.eqb_spec (ar_local_only a) local) as [<-|]; [|done].
  rewrite lookup_delete_ne; [done|]. intros E. by apply Hne, (mo_unique _ Hm id id0 a a0).
Qed.

(** Replacing the row of one artifact leaves the others as they are. *)
Lemma entry_ok_other_row ob id e artifacts :
  artifacts !! id = ob_artifacts ob !! id -> entry_ok ob id e -> entry_ok (set_artifacts artifacts ob) id e.
Proof.
  intros E [Hd|(a & Ha & Hr & Hp & Hf)]; [by left|right]. exists a. simpl.
  rewrite E, directory_set_artifacts. done.
Qed.

Lemma lookup_artifact_Some id ob a :
  lookup_artifact id ob = Some a <-> ob_artifacts ob !! id = Some a /\ ar_delete_pending a = false.
Proof.
  unfold lookup_artifact, visible. destruct (ob_artifacts ob !! id) as [x|];
    [|split; [done|by intros []]].
  destruct (ar_delete_pending x) eqn:E; simpl; (split; [|intros [[= ->] ?]; congruence]).
  - discriminate.
  - by intros [= ->].
Qed.

(** A row of a live artifact that is not local and all of whose deliveries succeeded. *)
Lemma entry_delivered ob id e a :
  entry_ok ob id e -> ob_artifacts ob !! id = Some a -> ar_local_only a = false ->
  all_succeeded a = true -> delivered e.
Proof.
  intros [Hd|(a' & Ha' & Hr & _)] Ha Hl Hs; [done|]. assert (a' = a) as -> by congruence.
  apply row_delivered with a; [done| |done]. by rewrite <- (ro_local _ _ Hr).
Qed.

Lemma finalize_history id remove_ok update_ok sync_ok log ob :
  history_ok log ob -> history_ok log (snd (finalize_completed id remove_ok update_ok sync_ok ob)).
Proof.
  intros Hh. unfold finalize_completed. destruct (lookup_artifact id ob) as [a|] eqn:El; [|done].
  apply lookup_artifact_Some in El as [Ha _].
  destruct (ar_local_only a || negb (ar_payload_present a) || negb (all_succeeded a)) eqn:Eg; [done|].
  apply orb_false_iff in Eg as [Eg Es]. apply orb_false_iff in Eg as [El _].
  apply negb_false_iff in Es.
  destruct (payload_path (ar_filename a)) as [filename|] eqn:Ep; [|done].
  unfold payload_path in Ep. inv_ok Ep. destruct remove_ok; [|done]. simpl negb. cbv iota zeta.
  destruct Hh as [Hm Hl].
  set (ob1 := set_directory false (delete (ar_filename a) (ob_outbox ob)) ob).
  assert (H1 : history_ok log ob1).
  { constructor; [by unfold ob1; rewrite artifacts_set_directory|]. intros id' e He.
    destruct (decide (id' = id)) as [->|Hne].
    - left. by eapply entry_delivered; [apply (Hl id e He)|..].
    - apply (entry_ok_delete_file ob id' e id a false); auto. }
  destruct update_ok; [|done]. simpl. constructor.
  - eapply manifest_ok_sub; [apply Hm|]. intros id' a' Hx. simpl in Hx.
    rewrite lookup_alter in Hx. destruct (decide (id = id')) as [->|].
    + apply fmap_Some in Hx as (x & E & ->). by exists x.
    + by exists a'.
  - intros id' e He. destruct (decide (id' = id)) as [->|Hne].
    + left. by eapply entry_delivered; [apply (Hl id e He)|..].
    + apply entry_ok_other_row; [by rewrite lookup_alter_ne|]. by apply (ho_log _ _ H1).
Qed.

Lemma prune_history now commit_ok log ob :
  history_ok log ob -> history_ok log (snd (prune_completed now commit_ok ob)).
Proof.
  intros [Hm Hl]. unfold prune_completed. destruct (_ <=? _); [done|]. cbv zeta.
  destruct (negb (existsb _ _)); [done|]. destruct commit_ok; [|done]. simpl.
  set (cutoff := now - _). constructor; simpl.
  - eapply manifest_ok_sub; [exact Hm|]. intros id a [Ha _]%map_lookup_filter_Some. by exists a.
  - intros id e He. destruct (Hl id e He) as [Hd|(a & Ha & Hr & Hp & Hf)]; [by left|right].
    exists a. split_and!; try done. simpl. apply map_lookup_filter_Some. split; [done|]. simpl.
    unfold prunable. rewrite Hp. simpl. by rewrite andb_false_r.
Qed.

(** *** Recording a result *)
Definition add_sent (channel : string) (e : Entry) : Entry :=
  mkEntry (en_body e) (en_channels e) (en_local e) ({[channel]} ∪ en_sent e).

(** Whether the update of [record_result] took place. *)
Definition recorded (q : QueuedDelivery) (commit_ok : bool) (ob : Outbox) : bool :=
  match delivery_at (qd_artifact_id q) (qd_channel_id q) ob with
  | Some d => unsent d && commit_ok
  | None => false
  end.

Definition log_result (q : QueuedDelivery) (r : DeliveryResult) (commit_ok : bool) (ob : Outbox)
    (log : gmap string Entry) : gmap string Entry :=
  match disposition r with
  | disposition_succeeded =>
      if recorded q commit_ok ob then alter (add_sent (qd_channel_id q)) (qd_artifact_id q) log else log
  | _ => log
  end.

Lemma unsent_spec d :
  unsent d = true <-> dl_state d <> Succeeded /\ dl_state d <> AdministrativelyDiscarded.
Proof. unfold unsent. destruct (dl_state d); simpl; naive_solver. Qed.

Lemma success_row q r at_ next e a d :
  disposition r = disposition_succeeded -> ar_deliveries a !! qd_channel_id q = Some d ->
  row_ok e a ->
  row_ok (add_sent (qd_channel_id q) e)
    (with_deliveries (alter (delivery_result r at_ next) (qd_channel_id q) (ar_deliveries a)) a).
Proof.
  intros Hr Hd [H1 H2 H3 H4 H5 H6]. constructor; simpl; try done.
  - intros name. rewrite lookup_alter, <- H5. destruct (decide (qd_channel_id q = name)) as [<-|]; [|done].
    by rewrite fmap_is_Some.
  - intros name d'. rewrite lookup_alter.
    destruct (decide (qd_channel_id q = name)) as [<-|Hne].
    + intros (d0 & E & ->)%fmap_Some. unfold delivery_result. rewrite Hr. simpl.
      split; [done|]. split; [|done]. intros _. set_solver.
    + intros E. destruct (H6 name d' E) as [Hn Hi]. split; [done|]. rewrite Hi. set_solver.
Qed.

Lemma result_update_history q r at_ next d log ob :
  delivery_at (qd_artifact_id q) (qd_channel_id q) ob = Some d -> unsent d = true ->
  history_ok log ob ->
  history_ok (log_result q r true ob log)
    (update_delivery (qd_artifact_id q) (qd_channel_id q) (delivery_result r at_ next) ob).
Proof.
  intros Hd Hu Hh. pose proof Hu as [Hn1 Hn2]%unsent_spec.
  unfold log_result, recorded. rewrite Hd, Hu. simpl.
  assert (Hfix : disposition r <> disposition_succeeded ->
    history_ok log (update_delivery (qd_artifact_id q) (qd_channel_id q) (delivery_result r at_ next) ob)).
  { intros Hr. apply update_delivery_history; [|done]. intros a d' Ha Hd' _.
    unfold delivery_at in Hd. rewrite Ha in Hd. simpl in Hd. assert (d' = d) as -> by congruence.
    unfold delivery_result. simpl. by destruct (disposition r). }
  destruct (disposition r) eqn:Er; [|by apply Hfix..]. clear Hfix.
  unfold delivery_at in Hd. destruct (ob_artifacts ob !! qd_artifact_id q) as [a|] eqn:Ha; [|done].
  simpl in Hd. destruct Hh as [Hm Hl]. constructor.
  - eapply manifest_ok_sub; [exact Hm|]. simpl. intros id x. rewrite lookup_alter.
    destruct (decide (qd_artifact_id q = id)) as [<-|]; [|by exists x].
    intros (y & Hy & ->)%fmap_Some. by exists y.
  - intros id e. rewrite lookup_alter.
    destruct (decide (qd_artifact_id q = id)) as [<-|Hne].
    + intros (e0 & He0 & ->)%fmap_Some.
      destruct (Hl _ _ He0) as [(D1 & D2 & D3)|(a' & Ha' & Hr & Hp & Hf)].
      { left. split_and!; [done|done|]. intros c Hc. simpl. specialize (D3 c Hc). set_solver. }
      right. assert (a' = a) as -> by congruence.
      exists (with_deliveries (alter (delivery_result r at_ next) (qd_channel_id q) (ar_deliveries a)) a).
      split_and!; [simpl; by rewrite lookup_alter_eq, Ha|by eapply success_row|done|].
      unfold update_delivery. by rewrite directory_set_artifacts.
    + intros He. apply entry_ok_other_row; [|by apply Hl]. by rewrite lookup_alter_ne.
Qed.

Lemma record_history q r at_ next c rm up sy pr log ob :
  history_ok log ob ->
  history_ok (log_result q r c ob log) (snd (record_result q r at_ next c rm up sy pr ob)).
Proof.
  intros Hh. unfold record_result. fold (delivery_at (qd_artifact_id q) (qd_channel_id q) ob).
  destruct (delivery_at _ _ ob) as [d|] eqn:Ed.
  2: { unfold log_result, recorded. rewrite Ed. by destruct (disposition r). }
  destruct (unsent d) eqn:Eu; cbn [negb].
  2: { unfold log_result, recorded. rewrite Ed, Eu. by destruct (disposition r). }
  destruct c; cbn [negb].
  2: { unfold log_result, recorded. rewrite Ed, Eu. by destruct (disposition r). }
  pose proof (result_update_history q r at_ next d log ob Ed Eu Hh) as H1.
  pose proof (finalize_history (qd_artifact_id q) rm up sy _ _ H1) as H2. cbv zeta.
  destruct (finalize_completed _ _ _ _ _) as [[[]|e] ob2]; [|done]. simpl in H2. by apply prune_history.
Qed.

(** *** Administration *)
Lemma alter_history id f log artifacts ob :
  (forall a, same_file (f a) a /\ ar_local_only (f a) = ar_local_only a /\
     ar_payload_present (f a) = ar_payload_present a) ->
  (forall e a, log !! id = Some e -> row_ok e a -> row_ok e (f a)) ->
  history_ok log (set_artifacts artifacts ob) ->
  history_ok log (set_artifacts (alter f id artifacts) ob).
Proof.
  intros Hf Hr [Hm Hl]. constructor.
  - eapply manifest_ok_sub; [exact Hm|]. simpl. intros i x. rewrite lookup_alter.
    destruct (decide (id = i)) as [->|]; [|by exists x].
    intros (y & Hy & ->)%fmap_Some. exists y. split; [done|]. apply Hf.
  - intros i e He. destruct (decide (id = i)) as [->|Hne].
    + destruct (Hl i e He) as [Hd|(a & Ha & Hrow & Hp & Hfile)]; [by left|right].
      exists (f a). destruct (Hf a) as ([E1 _] & E2 & E3). simpl in *.
      rewrite lookup_alter_eq, Ha, E1, E2, E3. split_and!; try done. by apply Hr.
    + pose proof (Hl i e He) as H. apply entry_ok_other_row with (artifacts := alter f id artifacts) in H;
        [done|]. simpl. by rewrite lookup_alter_ne.
Qed.

Lemma retry_history ids now commit_ok log ob ob' :
  retry ids now commit_ok ob = Ok ob' -> history_ok log ob -> history_ok log ob'.
Proof.
  unfold retry. intros H Hh. do 3 apply bind_Ok in H as (? & _ & H). injection H as <-.
  assert (H0 : history_ok log (set_artifacts (ob_artifacts ob) ob)) by (by destruct ob).
  revert H0. generalize (ob_artifacts ob). induction ids as [|id ids IH]; intros m Hm; [done|].
  simpl. apply IH. apply alter_history; [done| |done].
  intros e a _. apply map_deliveries_row, retry_keeps.
Qed.

Lemma retry_channel_history channel now commit_ok log ob ob' :
  retry_channel channel now commit_ok ob = Ok ob' -> history_ok log ob -> history_ok log ob'.
Proof.
  unfold retry_channel. intros H. do 2 apply bind_Ok in H as (? & _ & H). injection H as <-.
  apply (row_map_history (fun _ => map_deliveries (unblock_delivery channel now))).
  - split; [intros; apply directory_set_artifacts|]. intros id. simpl. by rewrite lookup_fmap.
  - done.
  - intros id e a _. apply map_deliveries_row, unblock_keeps.
Qed.

(** *** Adding *)
Lemma enqueue_guard_names dataset content channels local :
  enqueue_guard sha256 dataset content channels local = Ok tt ->
  safe_filename (gc_filename content) = true /\ is_temporary (gc_filename content) = false /\
  gc_sha256 content = sha256 (gc_body content) /\
  local = (match channels with [] => true | _ => false end) /\ NoDup channels /\
  gc_extension content ∈ ["json"; "csv"].
Proof.
  unfold enqueue_guard. intros H. apply bind_Ok in H as (_ & H1%reject_if_Ok & H).
  apply bind_Ok in H as (_ & H2%reject_if_Ok & H3%reject_if_Ok).
  repeat match goal with H : _ || _ = false |- _ => apply orb_false_iff in H as [? ?] end.
  repeat match goal with H : negb _ = false |- _ => apply negb_false_iff in H end.
  apply andb_true_iff in H3 as [_ H3]. apply bool_decide_eq_true in H3.
  apply Bool.eqb_prop in H2.
  repeat match goal with H : String.eqb _ _ = true |- _ => apply String.eqb_eq in H end.
  assert (gc_extension content ∈ ["json"; "csv"]) as Hext.
  { match goal with H : negb _ && negb _ = false |- _ => apply andb_false_iff in H as [Hx|Hx] end;
      apply negb_false_iff, String.eqb_eq in Hx; rewrite Hx; [left|right; left]. }
  split_and!; try done.
  destruct (is_temporary (gc_filename content)) eqn:E; [|done]. apply temporary_dots in E.
  match goal with H : gc_filename content = _ |- _ => rewrite H in E end.
  rewrite !dots_app in E.
  match goal with H : safe_identity _ = true |- _ => apply andb_true_iff in H as [_ Hid] end.
  rewrite (identity_dots _ Hid) in E.
  assert (dots (gc_extension content) = 0%nat); [|simpl in E; lia].
  rewrite !elem_of_cons, elem_of_nil in Hext. by destruct Hext as [->|[->|[]]].
Qed.

Lemma entry_ok_add_file ob id e local filename body :
  directory local ob !! filename = None -> entry_ok ob id e ->
  entry_ok (set_directory local (<[filename := body]> (directory local ob)) ob) id e.
Proof.
  intros Hn [Hd|(a & Ha & Hr & Hp & Hf)]; [by left|right]. exists a.
  rewrite artifacts_set_directory, directory_set_directory. split_and!; try done.
  destruct (Bool.eqb_spec (ar_local_only a) local) as [<-|]; [|done].
  rewrite lookup_insert_ne; [done|]. intros ->. congruence.
Qed.

Lemma new_deliveries_lookup channels channel :
  (list_to_map (map (fun channel => (channel, new_delivery)) channels) : gmap string Delivery) !! channel =
    if decide (channel ∈ channels) then Some new_delivery else None.
Proof.
  induction channels as [|x l IH]; simpl; [done|].
  destruct (decide (x = channel)) as [->|Hne].
  - rewrite lookup_insert_eq, decide_True; [done|left].
  - rewrite lookup_insert_ne, IH by done. destruct (decide (channel ∈ l)).
    + rewrite decide_True; [done|by right].
    + rewrite decide_False; [done|]. by intros [->|]%elem_of_cons.
Qed.

Lemma new_row dataset content channels local snapshot :
  gc_sha256 content = sha256 (gc_body content) ->
  row_ok (mkEntry (gc_body content) channels local ∅) (new_artifact dataset content channels local snapshot).
Proof.
  intros Hs. constructor; cbn [new_artifact ar_deliveries ar_delete_pending ar_local_only ar_size
    ar_checksum en_body en_channels en_local en_sent]; try done.
  - intros channel. rewrite new_deliveries_lookup. destruct (decide _); (split; [|done]); done.
  - intros channel d. rewrite new_deliveries_lookup. destruct (decide _); [|done].
    intros [= <-]. split; [done|]. split; [done|set_solver].
Qed.

Lemma enqueue_history dataset content channels local snapshot available w c log ob outcome ob' :
  enqueue sha256 dataset content channels local snapshot available w c ob = (outcome, ob') ->
  history_ok log ob ->
  history_ok (if decide (outcome = Ok tt /\ ob_artifacts ob !! ds_artifact_id dataset = None)
    then <[ds_artifact_id dataset := mkEntry (gc_body content) channels local ∅]> log else log) ob'.
Proof.
  intros H Hh. unfold enqueue in H.
  assert (Hskip : forall (r : result unit) o, r <> Ok tt -> history_ok log o ->
    history_ok (if decide (r = Ok tt /\ ob_artifacts ob !! ds_artifact_id dataset = None)
      then <[ds_artifact_id dataset := mkEntry (gc_body content) channels local ∅]> log else log) o).
  { intros r o Hr Ho. rewrite decide_False; [done|]. by intros []. }
  destruct (enqueue_guard _ _ _ _ _) as [[]|e] eqn:Eg; [|injection H as <- <-; by apply Hskip].
  apply enqueue_guard_names in Eg as (Hsafe & Htmp & Hsum & _ & _ & Hext).
  destruct (ob_artifacts ob !! ds_artifact_id dataset) as [a|] eqn:Ea.
  { destruct (same_manifest _ _ a); injection H as <- <-; [|by apply Hskip].
    rewrite decide_False; [done|]. by intros []. }
  destruct (storage_block available ob); [injection H as <- <-; by apply Hskip|].
  destruct (_ || _); [injection H as <- <-; by apply Hskip|].
  destruct (bool_decide _) eqn:Ef; [injection H as <- <-; by apply Hskip|].
  apply bool_decide_eq_false in Ef. rewrite <- eq_None_not_Some in Ef.
  destruct w; cbn [negb] in H; [|injection H as <- <-; by apply Hskip]. cbv zeta in H.
  set (stored := set_directory local _ ob) in *. destruct Hh as [Hm Hl].
  assert (Hs : history_ok log stored).
  { constructor; [by unfold stored; rewrite artifacts_set_directory|].
    intros id e He. apply entry_ok_add_file; [done|]. by apply Hl. }
  destruct (INT64_MAX <? _); [injection H as <- <-; by apply Hskip|].
  destruct (filename_taken _ _) eqn:Et; [injection H as <- <-; by apply Hskip|].
  destruct c; cbn [orb negb] in H; injection H as <- <-; [|by apply Hskip].
  rewrite decide_True by done. constructor.
  - simpl. by apply manifest_ok_insert.
  - apply map_Forall_insert_2.
    + right. eexists. split_and!; [simpl; apply lookup_insert_eq|by apply new_row|done|].
      rewrite directory_set_artifacts. unfold stored. simpl. rewrite directory_set_directory.
      destruct (Bool.eqb_spec local local); [|done]. apply lookup_insert_eq.
    + intros id e He. destruct (decide (id = ds_artifact_id dataset)) as [->|Hne].
      * destruct (ho_log _ _ Hs _ _ He) as [Hd|(a & Ha & _)]; [by left|].
        unfold stored in Ha. rewrite artifacts_set_directory in Ha. congruence.
      * apply entry_ok_other_row; [|by apply (ho_log _ _ Hs)].
        unfold stored. by rewrite lookup_insert_ne, artifacts_set_directory.
Qed.

(** *** Deleting *)
Definition erased (ids : list string) (log : gmap string Entry) : gmap string Entry :=
  filter (fun entry => entry.1 ∉ ids) log.

Lemma erased_Some ids log id e :
  erased ids log !! id = Some e <-> log !! id = Some e /\ id ∉ ids.
Proof. unfold erased. by rewrite map_lookup_filter_Some. Qed.

Lemma erase_targets_rows ids discard ob targets :
  erase_targets ids discard ob = Ok targets ->
  map fst targets = ids /\ Forall (fun t => ob_artifacts ob !! t.1 = Some t.2) targets.
Proof.
  revert targets. induction ids as [|id ids IH]; intros targets H; simpl in H.
  - injection H as <-. by split.
  - destruct (lookup_artifact id ob) as [a|] eqn:El; [|done].
    apply lookup_artifact_Some in El as [Ha _].
    apply bind_Ok in H as (_ & _ & H). apply bind_Ok in H as (rest & Hr & H). injection H as <-.
    destruct (IH rest Hr) as [<- Hall]. split; [done|]. by constructor.
Qed.

(** Rows of targets keep their file name while the others are untouched. *)
Record touched (ids : list string) (ob ob' : Outbox) : Prop := {
  tc_rows : forall id, id ∉ ids -> ob_artifacts ob' !! id = ob_artifacts ob !! id;
  tc_names : forall id a', ob_artifacts ob' !! id = Some a' ->
    exists a, ob_artifacts ob !! id = Some a /\ same_file a' a;
  tc_dirs : forall local, directory local ob' = directory local ob }.

Lemma touched_history ids log ob ob' :
  touched ids ob ob' -> history_ok (erased ids log) ob -> history_ok (erased ids log) ob'.
Proof.
  intros [T1 T2 T3] [Hm Hl]. constructor; [by eapply manifest_ok_sub|].
  intros id e He. pose proof He as [_ Hid]%erased_Some.
  destruct (Hl id e He) as [Hd|(a & Ha & Hr & Hp & Hf)]; [by left|right].
  exists a. rewrite T1, T3 by done. done.
Qed.

Lemma mark_touched now ids t ob :
  t.1 ∈ ids -> touched ids ob (mark_target now ob t).
Proof.
  destruct t as [id a]. intros Hid. constructor; simpl.
  - intros i Hi. rewrite lookup_alter_ne; [done|]. by intros ->.
  - intros i x. rewrite lookup_alter. destruct (decide (id = i)) as [->|]; [|by exists x].
    intros (y & Hy & ->)%fmap_Some. exists y. split; [done|]. by destruct (target_unsent a).
  - by intros [].
Qed.

Lemma mark_fold_history now ids targets log ob :
  Forall (fun t => t.1 ∈ ids) targets -> history_ok (erased ids log) ob ->
  history_ok (erased ids log) (fold_left (mark_target now) targets ob) /\
  (forall id a, ob_artifacts ob !! id = Some a ->
     exists a', ob_artifacts (fold_left (mark_target now) targets ob) !! id = Some a' /\
       ar_filename a' = ar_filename a).
Proof.
  revert ob. induction targets as [|t targets IH]; intros ob Ht Hh; [split; [done|by eauto]|].
  apply List.Forall_cons_iff in Ht as [Hid Ht]. simpl.
  destruct (IH (mark_target now ob t) Ht) as [H1 H2].
  { eapply touched_history; [by apply mark_touched|done]. }
  split; [done|]. intros id a Ha.
  assert (exists a1, ob_artifacts (mark_target now ob t) !! id = Some a1 /\
    ar_filename a1 = ar_filename a) as (a1 & Ha1 & E1).
  { destruct t as [tid ta]. simpl. rewrite lookup_alter.
    destruct (decide (tid = id)) as [->|]; [|by eauto]. rewrite Ha. simpl. eexists. split; [done|].
    by destruct (target_unsent ta). }
  destruct (H2 id a1 Ha1) as (a2 & Ha2 & E2). exists a2. split; [done|congruence].
Qed.

Lemma remove_payloads_history ids removable targets log ob :
  Forall (fun t => t.1 ∈ ids /\ exists a', ob_artifacts ob !! t.1 = Some a' /\
    ar_filename a' = ar_filename t.2) targets ->
  history_ok (erased ids log) ob ->
  history_ok (erased ids log) (snd (remove_payloads targets removable ob)).
Proof.
  revert ob. induction targets as [|[id a] targets IH]; intros ob Ht Hh; [done|].
  apply List.Forall_cons_iff in Ht as [[Hid (a' & Ha' & Ef)] Ht]. simpl in *.
  unfold remove_payload. destruct (ar_payload_present a); [|by apply IH].
  destruct (removable _); [|done]. apply IH.
  - eapply Forall_impl; [|exact Ht]. simpl. intros t Hx. by rewrite artifacts_set_directory.
  - destruct Hh as [Hm Hl]. constructor; [by rewrite artifacts_set_directory|].
    intros i e He. pose proof He as [_ Hi]%erased_Some. rewrite <- Ef.
    apply entry_ok_delete_file with id; [done|done| |by apply Hl]. by intros ->.
Qed.

Lemma delete_marked_lookup ids artifacts id :
  id ∉ ids -> fold_left delete_marked ids artifacts !! id = artifacts !! id.
Proof.
  revert artifacts. induction ids as [|x ids IH]; intros artifacts Hid; [done|].
  apply not_elem_of_cons in Hid as [Hne Hid]. simpl. rewrite IH by done. unfold delete_marked.
  destruct (artifacts !! x) as [a|]; [|done]. destruct (ar_delete_pending a); [|done].
  by rewrite lookup_delete_ne.
Qed.

Lemma delete_marked_sub ids artifacts id a :
  fold_left delete_marked ids artifacts !! id = Some a -> artifacts !! id = Some a.
Proof.
  revert artifacts. induction ids as [|x ids IH]; intros artifacts H; [done|]. simpl in H.
  apply IH in H. unfold delete_marked in H. destruct (artifacts !! x) as [b|]; [|done].
  destruct (ar_delete_pending b); [|done]. by apply lookup_delete_Some in H as [_ ?].
Qed.

(** Whether the marking transaction of [erase] committed. *)
Definition erase_committed (ids : list string) (discard mark_ok : bool) (ob : Outbox) : bool :=
  negb (Nat.eqb (List.length ids) 0 || (500 <? List.length ids)%nat) &&
  is_ok (erase_targets ids discard ob) && mark_ok.

Lemma history_erased ids log ob : history_ok log ob -> history_ok (erased ids log) ob.
Proof. intros [Hm Hl]. constructor; [done|]. intros id e [He _]%erased_Some. by apply Hl. Qed.

Lemma erase_history ids discard now m removable d log ob :
  history_ok log ob ->
  history_ok (if erase_committed ids discard m ob then erased ids log else log)
    (snd (erase ids discard now m removable d ob)).
Proof.
  intros Hh. unfold erase, erase_committed. destruct (_ || _); [done|]. simpl.
  destruct (erase_targets ids discard ob) as [targets|] eqn:Et; [|done]. simpl.
  destruct m; [|done]. simpl.
  destruct (erase_targets_rows _ _ _ _ Et) as [Eids Hrows].
  assert (Hin : Forall (fun t => t.1 ∈ ids) targets).
  { apply List.Forall_forall. intros t Ht. rewrite <- Eids. by apply list_elem_of_In, in_map. }
  destruct (mark_fold_history now ids targets log ob Hin (history_erased ids _ _ Hh)) as [H1 H2].
  pose proof (remove_payloads_history ids removable targets log _ ltac:(
    apply List.Forall_forall; intros t Ht; rewrite List.Forall_forall in Hin, Hrows;
    split; [by apply Hin|apply H2, Hrows; done]) H1) as H3.
  destruct (remove_payloads _ _ _) as [[] ob2]; [|done]. simpl in H3.
  destruct d; [|done]. simpl. destruct H3 as [Hm Hl]. constructor; simpl.
  - eapply manifest_ok_sub; [exact Hm|]. intros id a Ha. exists a. split; [|done].
    by eapply delete_marked_sub.
  - intros id e He. pose proof He as [_ Hid]%erased_Some.
    apply entry_ok_other_row; [by apply delete_marked_lookup|by apply Hl].
Qed.

(** *** Restarting *)
Lemma finish_deletion_history removable id a log ob :
  ob_artifacts ob !! id = Some a -> history_ok log ob ->
  history_ok log (finish_deletion removable ob (id, a)) /\
  ob_artifacts (finish_deletion removable ob (id, a)) = ob_artifacts ob.
Proof.
  intros Ha Hh. unfold finish_deletion.
  destruct (ar_delete_pending a && ar_payload_present a && removable (ar_filename a)) eqn:E; [|done].
  rewrite artifacts_set_directory. split; [|done]. apply andb_true_iff in E as [E _].
  apply andb_true_iff in E as [E _]. destruct Hh as [Hm Hl].
  constructor; [by rewrite artifacts_set_directory|]. intros i e Hi.
  destruct (decide (i = id)) as [->|Hne].
  - left. destruct (Hl id e Hi) as [|(a' & Ha' & Hr & _)]; [done|].
    pose proof (ro_visible _ _ Hr). congruence.
  - apply entry_ok_delete_file with id; auto.
Qed.

Lemma finish_fold_history removable entries log ob :
  Forall (fun t => ob_artifacts ob !! t.1 = Some t.2) entries -> history_ok log ob ->
  history_ok log (fold_left (finish_deletion removable) entries ob) /\
  ob_artifacts (fold_left (finish_deletion removable) entries ob) = ob_artifacts ob.
Proof.
  revert ob. induction entries as [|[id a] entries IH]; intros ob He Hh; [done|].
  apply List.Forall_cons_iff in He as [Ha He]. cbn [fold_left].
  destruct (finish_deletion_history removable id a log ob Ha Hh) as [H1 E1].
  destruct (IH (finish_deletion removable ob (id, a))) as [H2 E2]; [|done|split; [done|by rewrite E2]].
  by rewrite E1.
Qed.

Lemma map_to_list_rows {A} (m : gmap string A) :
  Forall (fun t => m !! t.1 = Some t.2) (map_to_list m).
Proof.
  apply List.Forall_forall. intros [id a] Hin. by apply list_elem_of_In, elem_of_map_to_list in Hin.
Qed.

Lemma finish_history removable log ob :
  history_ok log ob -> history_ok log (finish_pending_deletions removable ob).
Proof.
  intros Hh. unfold finish_pending_deletions.
  destruct (finish_fold_history removable _ log ob (map_to_list_rows _) Hh) as [[Hm Hl] E].
  set (ob' := fold_left _ _ _) in *. rewrite E in Hm. constructor; simpl.
  - eapply manifest_ok_sub; [exact Hm|]. intros id a [Ha _]%map_lookup_filter_Some. by exists a.
  - intros id e He. destruct (Hl id e He) as [Hd|(a & Ha & Hr & Hp & Hf)]; [by left|right].
    exists a. rewrite directory_set_artifacts. split_and!; try done. simpl.
    rewrite E in Ha. apply map_lookup_filter_Some. split; [done|]. apply (ro_visible _ _ Hr).
Qed.

(** Replacing one row whose artifact is not live, or is delivered. *)
Lemma replace_row_history id a a' log ob :
  ob_artifacts ob !! id = Some a -> same_file a' a ->
  (forall e, log !! id = Some e -> delivered e) -> history_ok log ob ->
  history_ok log (set_artifacts (<[id := a']> (ob_artifacts ob)) ob).
Proof.
  intros Ha Ef Hd [Hm Hl]. constructor; simpl.
  - eapply manifest_ok_sub; [exact Hm|]. intros i x [[<- <-]|[_ Hx]]%lookup_insert_Some;
      [by exists a|by exists x].
  - intros i e He. destruct (decide (i = id)) as [->|Hne]; [left; by apply Hd|].
    apply entry_ok_other_row; [by rewrite lookup_insert_ne|by apply Hl].
Qed.

Lemma recover_manifest_history id a log ob :
  ob_artifacts ob !! id = Some a -> history_ok log ob ->
  history_ok log (recover_manifest sha256 ob (id, a)) /\
  (forall i, i <> id -> ob_artifacts (recover_manifest sha256 ob (id, a)) !! i = ob_artifacts ob !! i).
Proof.
  intros Ha Hh.
  assert (Hlive : forall e, log !! id = Some e -> delivered e \/
    (row_ok e a /\ ar_payload_present a = true /\
     directory (ar_local_only a) ob !! ar_filename a = Some (en_body e))).
  { intros e He. destruct (ho_log _ _ Hh id e He) as [|(a' & Ha' & Hr & Hp & Hf)]; [by left|right].
    assert (a' = a) as -> by congruence. done. }
  assert (Hrep : forall a', same_file a' a ->
    (forall e, log !! id = Some e -> delivered e) ->
    history_ok log (set_artifacts (<[id := a']> (ob_artifacts ob)) ob) /\
    (forall i, i <> id -> ob_artifacts (set_artifacts (<[id := a']> (ob_artifacts ob)) ob) !! i =
       ob_artifacts ob !! i)).
  { intros a' Ef Hd. split; [by eapply replace_row_history|]. intros i Hi. simpl.
    by rewrite lookup_insert_ne. }
  unfold recover_manifest. destruct (directory (ar_local_only a) ob !! ar_filename a) as [body|] eqn:Ef.
  - destruct (Z.eqb_spec (length_z body) (ar_size a)) as [Es|Es]; cbn [negb].
    2: { apply Hrep; [done|]. intros e He. destruct (Hlive e He) as [|(Hr & _ & E)]; [done|].
         destruct Es. rewrite (ro_size _ _ Hr). congruence. }
    destruct (String.eqb_spec (sha256 body) (ar_checksum a)) as [Ec|Ec]; cbn [negb].
    2: { apply Hrep; [done|]. intros e He. destruct (Hlive e He) as [|(Hr & _ & E)]; [done|].
         destruct Ec. rewrite (ro_checksum _ _ Hr). congruence. }
    destruct (negb (ar_local_only a) && all_succeeded a); [|done].
    split; [by apply finalize_history|]. intros i Hi. unfold finalize_completed.
    destruct (lookup_artifact id ob); [|done]. destruct (_ || _ || _); [done|].
    destruct (payload_path _); [|done]. simpl. by rewrite lookup_alter_ne.
  - assert (Hgone : forall e, log !! id = Some e -> delivered e)
      by (intros e He; destruct (Hlive e He) as [|(_ & _ & E)]; [done|congruence]).
    destruct (negb (ar_local_only a) && all_succeeded a); [by apply Hrep|].
    destruct (ar_payload_present a); [by apply Hrep|done].
Qed.

Lemma recover_manifests_history entries log ob :
  NoDup (map fst entries) -> Forall (fun t => ob_artifacts ob !! t.1 = Some t.2) entries ->
  history_ok log ob -> history_ok log (fold_left (recover_manifest sha256) entries ob).
Proof.
  revert ob. induction entries as [|[id a] entries IH]; intros ob Hd He Hh; [done|].
  apply List.Forall_cons_iff in He as [Ha He]. simpl in Hd, Ha. apply list.NoDup_cons in Hd as [Hid Hd].
  destruct (recover_manifest_history id a log ob Ha Hh) as [H1 H2]. simpl fold_left. apply IH; [done| |done].
  rewrite List.Forall_forall in *. intros t Ht. rewrite H2; [by apply He|].
  intros E. apply Hid. rewrite <- E. by apply list_elem_of_In, in_map.
Qed.

Lemma recover_file_history known local entry log ob ob' :
  recover_file sha256 known local ob entry = Ok ob' -> history_ok log ob -> history_ok log ob'.
Proof.
  destruct entry as [filename body]. intros H Hh. unfold recover_file in H.
  destruct (is_temporary filename) eqn:Et.
  { injection H as <-. destruct Hh as [Hm Hl].
    constructor; [by rewrite artifacts_set_directory|]. intros id e He.
    destruct (Hl id e He) as [Hd|(a & Ha & Hr & Hp & Hf)]; [by left|right]. exists a.
    rewrite artifacts_set_directory, directory_set_directory. split_and!; try done.
    destruct (Bool.eqb_spec (ar_local_only a) local) as [<-|]; [|done].
    rewrite lookup_delete_ne; [done|]. intros ->.
    destruct (mo_names _ Hm id a Ha) as (_ & Hn & _). congruence. }
  destruct (negb (safe_filename filename) || bool_decide (filename ∈ known)) eqn:Es; [by injection H as <-|].
  apply orb_false_iff in Es as [Es _]. apply negb_false_iff in Es.
  destruct (split_last_dot filename) as [[stem extension]|]; [|by injection H as <-].
  destruct (_ && _) eqn:Ee; [by injection H as <-|]. cbv zeta in H.
  assert (extension ∈ ["json"; "csv"]) as Hext.
  { apply andb_false_iff in Ee as [Hx|Hx]; apply negb_false_iff, String.eqb_eq in Hx; rewrite Hx;
      [left|right; left]. }
  set (id := match ob_artifacts ob !! _ with Some _ => _ | None => _ end) in *.
  apply bind_Ok in H as (_ & Hu%reject_if_Ok & H). injection H as <-.
  apply orb_false_iff in Hu as [Hn Hf]. apply bool_decide_eq_false in Hn.
  rewrite <- eq_None_not_Some in Hn. destruct Hh as [Hm Hl]. constructor; simpl.
  - by apply manifest_ok_insert.
  - intros i e He. destruct (decide (i = id)) as [->|Hne].
    + destruct (Hl id e He) as [|(a & Ha & _)]; [by left|congruence].
    + apply entry_ok_other_row; [by rewrite lookup_insert_ne|by apply Hl].
Qed.

Lemma recover_files_history known local files log ob :
  history_ok log ob -> history_ok log (snd (recover_files sha256 known local files ob)).
Proof.
  revert ob. induction files as [|entry files IH]; intros ob Hh; [done|]. simpl.
  destruct (recover_file sha256 known local ob entry) as [ob1|] eqn:E; [|done].
  apply IH. by eapply recover_file_history.
Qed.

Lemma initialize_history removable log ob :
  history_ok log ob -> history_ok log (snd (initialize sha256 removable ob)).
Proof.
  intros Hh. unfold initialize, recover. cbv zeta.
  pose proof (finish_history removable log ob Hh) as H1.
  set (ob1 := finish_pending_deletions removable ob) in *.
  assert (H2 : history_ok log (fold_left (recover_manifest sha256) (map_to_list (ob_artifacts ob1)) ob1)).
  { apply recover_manifests_history; [apply NoDup_fst_map_to_list|apply map_to_list_rows|done]. }
  set (ob2 := fold_left _ _ _) in *. set (known := known_filenames ob1).
  pose proof (recover_files_history known false (map_to_list (ob_outbox ob2)) log ob2 H2) as H3.
  destruct (recover_files sha256 known false _ ob2) as [[[]|e] ob3]; [|done]. simpl in H3.
  by apply recover_files_history.
Qed.

(** ** Histories *)

(** The life of a repository: the artifacts accepted and not deleted by an administrator,
    and the state on disk.  Every operation may fail wherever its file or database steps
    may; a restart runs recovery on what is on disk, and a crash may leave temporary files. *)
Inductive outbox_history : gmap string Entry -> Outbox -> Prop :=
  | hist_new policy : outbox_history ∅ (mkOutbox policy ∅ ∅ ∅ ∅ [])
  | hist_policy log ob policy ob' :
      outbox_history log ob -> update_storage_policy policy ob = Ok ob' -> outbox_history log ob'
  | hist_enqueue log ob dataset content channels local snapshot available w c outcome ob' :
      outbox_history log ob ->
      enqueue sha256 dataset content channels local snapshot available w c ob = (outcome, ob') ->
      outbox_history
        (if decide (outcome = Ok tt /\ ob_artifacts ob !! ds_artifact_id dataset = None)
         then <[ds_artifact_id dataset := mkEntry (gc_body content) channels local ∅]> log else log) ob'
  | hist_claim log ob now lease limit c claimed ob' :
      outbox_history log ob -> claim_due now lease limit c ob = Ok (claimed, ob') ->
      outbox_history log ob'
  | hist_result log ob q r at_ next c rm up sy pr :
      outbox_history log ob ->
      outbox_history (log_result q r c ob log) (snd (record_result q r at_ next c rm up sy pr ob))
  | hist_retry log ob ids now c ob' :
      outbox_history log ob -> retry ids now c ob = Ok ob' -> outbox_history log ob'
  | hist_retry_channel log ob channel now c ob' :
      outbox_history log ob -> retry_channel channel now c ob = Ok ob' -> outbox_history log ob'
  | hist_prune log ob now c :
      outbox_history log ob -> outbox_history log (snd (prune_completed now c ob))
  | hist_erase log ob ids discard now m removable d :
      outbox_history log ob ->
      outbox_history (if erase_committed ids discard m ob then erased ids log else log)
        (snd (erase ids discard now m removable d ob))
  | hist_watermark log ob job w c ob' :
      outbox_history log ob -> store_watermark job w c ob = Ok ob' -> outbox_history log ob'
  | hist_temporary log ob local name body :
      outbox_history log ob -> is_temporary name = true ->
      outbox_history log (set_directory local (<[name := body]> (directory local ob)) ob)
  | hist_restart log ob removable :
      outbox_history log ob -> outbox_history log (snd (initialize sha256 removable ob)).

Lemma same_rows_history log ob ob' :
  ob_artifacts ob' = ob_artifacts ob -> (forall local, directory local ob' = directory local ob) ->
  history_ok log ob -> history_ok log ob'.
Proof.
  intros Ha Hd [Hm Hl]. constructor; [by rewrite Ha|]. intros id e He.
  destruct (Hl id e He) as [|(a & Haa & Hr & Hp & Hf)]; [by left|right]. exists a. by rewrite Ha, Hd.
Qed.

Lemma temporary_history local name body log ob :
  is_temporary name = true -> history_ok log ob ->
  history_ok log (set_directory local (<[name := body]> (directory local ob)) ob).
Proof.
  intros Ht [Hm Hl]. constructor; [by rewrite artifacts_set_directory|]. intros id e He.
  destruct (Hl id e He) as [Hd|(a & Ha & Hr & Hp & Hf)]; [by left|right]. exists a.
  rewrite artifacts_set_directory, directory_set_directory. split_and!; try done.
  destruct (Bool.eqb_spec (ar_local_only a) local) as [<-|]; [|done].
  rewrite lookup_insert_ne; [done|]. intros ->. destruct (mo_names _ Hm id a Ha) as (_ & Hn & _). congruence.
Qed.

Lemma outbox_history_ok log ob : outbox_history log ob -> history_ok log ob.
Proof.
  induction 1.
  - constructor; [constructor|]; [|apply map_Forall_empty..].
    intros id1 id2 a1 a2 Hx. simpl in Hx. by rewrite lookup_empty in Hx.
  - unfold update_storage_policy in *. inv_ok H0. eapply same_rows_history; [..|exact IHoutbox_history]; done.
  - by eapply enqueue_history.
  - by eapply claim_history.
  - by apply record_history.
  - by eapply retry_history.
  - by eapply retry_channel_history.
  - by apply prune_history.
  - by apply erase_history.
  - unfold store_watermark in *. inv_ok H0. eapply same_rows_history; [..|exact IHoutbox_history]; done.
  - by apply temporary_history.
  - by apply initialize_history.
Qed.

(** Whatever is served is named as a JSON or CSV file. *)
Lemma content_format log ob id c :
  outbox_history log ob -> content sha256 id ob = Ok c -> gc_extension c ∈ ["json"; "csv"].
Proof.
  intros [[_ Hn] _]%outbox_history_ok H. unfold content, lookup_artifact in H.
  destruct (ob_artifacts ob !! id) as [a|] eqn:Ha; [|done]. destruct (visible a); [|done].
  apply bind_Ok in H as (_ & _ & H). apply bind_Ok in H as (filename & _ & H).
  destruct (_ !! filename) as [body|]; [|done]. do 2 apply bind_Ok in H as (_ & _ & H).
  apply Ok_inj in H as <-. by destruct (Hn id a Ha) as (_ & _ & Hf).
Qed.

(** (C5) No accepted artifact is lost.  Over every history of a repository -- failed writes
    and commits, crashes, restarts with recovery, pruning, retries -- an artifact that
    [enqueue] accepted and that no administrator deleted can still be read back with its
    exact payload, unless it was a remote artifact and every one of its channels has
    recorded a successful delivery.  A channel that has not taken the artifact still has
    its delivery in the manifest, not succeeded and not discarded. *)
Theorem outbox_no_loss log ob id e :
  outbox_history log ob -> log !! id = Some e ->
  (exists c, content sha256 id ob = Ok c /\ gc_body c = en_body e /\
     forall channel, channel ∈ en_channels e -> channel ∉ en_sent e ->
       exists d, delivery_at id channel ob = Some d /\ unsent d = true) \/
  (en_local e = false /\ forall channel, channel ∈ en_channels e -> channel ∈ en_sent e).
Proof.
  intros Hh%outbox_history_ok He. pose proof (ho_log _ _ Hh id e He) as Hok.
  destruct (entry_content ob id e (ho_manifest _ _ Hh) Hok) as [(D1 & _ & D3)|(c & Hc & Eb)]; [by right|].
  destruct Hok as [(D1 & _ & D3)|(a & Ha & Hr & _)]; [by right|left].
  exists c. split_and!; [done|done|]. intros channel Hin Hout.
  destruct (proj2 (ro_channels _ _ Hr channel) Hin) as [d Hd]. exists d. unfold delivery_at. rewrite Ha.
  split; [done|]. apply unsent_spec. destruct (ro_states _ _ Hr channel d Hd) as [Hn Hi].
  split; [|done]. intros E. by apply Hout, Hi.
Qed.

End History.

(** ** Claims *)
Lemma due_rows_keys now ob q q' :
  q ∈ due_rows now ob -> q' ∈ due_rows now ob ->
  qd_artifact_id q = qd_artifact_id q' -> qd_channel_id q = qd_channel_id q' -> q = q'.
Proof.
  intros (a & d & Ha & _ & _ & Hd & _ & Eq)%elem_of_due_rows
    (a' & d' & Ha' & _ & _ & Hd' & _ & Eq')%elem_of_due_rows E1 E2.
  rewrite Eq, Eq'. rewrite E1 in Ha. rewrite E2 in Hd. congruence.
Qed.

Lemma claim_fold_at lease qs ob id channel :
  delivery_at id channel (fold_left (fun ob q => update_delivery (qd_artifact_id q) (qd_channel_id q)
    (claim_delivery lease) ob) qs ob) =
  if decide ((id, channel) ∈ map (fun q => (qd_artifact_id q, qd_channel_id q)) qs)
  then claim_delivery lease <$> delivery_at id channel ob else delivery_at id channel ob.
Proof.
  revert ob. induction qs as [|q qs IH]; intros ob; [done|]. simpl. rewrite IH, delivery_at_update.
  destruct (decide (id = qd_artifact_id q /\ channel = qd_channel_id q)) as [[-> ->]|Hne].
  - match goal with |- _ = (if decide ?P then _ else _) =>
      destruct (decide P) as [_|Hn]; [|by destruct Hn; left] end.
    destruct (decide _); [|done]. by destruct (delivery_at _ _ ob).
  - destruct (decide (_ ∈ map _ qs)).
    + rewrite decide_True; [done|by right].
    + rewrite decide_False; [done|]. intros [[=]|]%elem_of_cons; [|done]. by apply Hne.
Qed.

(** The key of a delivery. *)
Definition queue_key (q : QueuedDelivery) : string * string := (qd_artifact_id q, qd_channel_id q).

Lemma flat_map_bind {A B} (f : A -> list B) (l : list A) : flat_map f l = l ≫= f.
Proof. induction l as [|x l IH]; [done|]. simpl. by rewrite IH. Qed.

Lemma NoDup_due_rows now ob : NoDup (map queue_key (due_rows now ob)).
Proof.
  apply NoDup_fmap_2_strong.
  { intros q q' Hq Hq' [= E1 E2]. by eapply due_rows_keys. }
  unfold due_rows. rewrite flat_map_bind. apply NoDup_bind.
  - intros [i a] [i' a'] q Ha%elem_of_map_to_list Ha'%elem_of_map_to_list Hq Hq'.
    assert (forall j b, q ∈ (if ar_payload_present b && visible b
        then flat_map (fun row : string * Delivery => let '(channel, d) := row in
               if is_due now d then [mkQueued j channel (dl_state d) (dl_attempt_count d) (dl_next_attempt d)] else [])
               (map_to_list (ar_deliveries b)) else []) -> j = qd_artifact_id q) as Hkey.
    { intros j b Hb. destruct (_ && _) in Hb; [|by apply elem_of_nil in Hb].
      apply list_elem_of_In, in_flat_map in Hb as ([c d] & _ & Hb).
      destruct (is_due now d); [|done]. by destruct Hb as [<-|[]]. }
    apply Hkey in Hq, Hq'. congruence.
  - intros [i a] _. destruct (_ && _); [|constructor]. rewrite flat_map_bind. apply NoDup_bind.
    + intros [c d] [c' d'] q Hd%elem_of_map_to_list Hd'%elem_of_map_to_list Hq Hq'.
      destruct (is_due now d); [|by apply elem_of_nil in Hq].
      destruct (is_due now d'); [|by apply elem_of_nil in Hq'].
      apply list_elem_of_singleton in Hq, Hq'. congruence.
    + intros [c d] _. destruct (is_due now d); [apply NoDup_singleton|constructor].
    + apply NoDup_map_to_list.
  - apply NoDup_map_to_list.
Qed.

#[export] Instance queued_before_total : Total queued_before.
Proof.
  intros a b. unfold queued_before, queued_le.
  destruct (Z.ltb_spec (qd_next_attempt a) (qd_next_attempt b)); [by left|].
  destruct (Z.ltb_spec (qd_next_attempt b) (qd_next_attempt a)); [by right|].
  rewrite (String.eqb_sym (qd_artifact_id b)).
  destruct (String.eqb _ _); apply String.leb_total.
Qed.

Lemma queued_before_time a b : queued_before a b -> qd_next_attempt a <= qd_next_attempt b.
Proof.
  unfold queued_before, queued_le. destruct (Z.ltb_spec (qd_next_attempt a) (qd_next_attempt b)); [lia|].
  by destruct (Z.ltb_spec (qd_next_attempt b) (qd_next_attempt a)); [|lia].
Qed.

(** The queue is ordered by the time of the next attempt. *)
Lemma queue_sorted l :
  StronglySorted (fun a b => qd_next_attempt a <= qd_next_attempt b) (merge_sort queued_before l).
Proof.
  apply Sorted_StronglySorted; [intros ???; lia|].
  pose proof (Sorted_merge_sort queued_before l) as Hs. induction Hs as [|q qs _ IH Hd]; constructor; [done|].
  destruct Hd; constructor. by apply queued_before_time.
Qed.

Lemma claim_split now lease limit ob claimed ob' :
  0 <= limit -> claim_due now lease limit true ob = Ok (claimed, ob') ->
  now < lease /\ exists rows rest,
    due_rows now ob ≡ₚ rows ++ rest /\
    Z.of_nat (List.length rows) = Z.min limit (Z.of_nat (List.length (due_rows now ob))) /\
    (forall q q', q ∈ rows -> q' ∈ rest -> qd_next_attempt q <= qd_next_attempt q') /\
    claimed = map (fun q => mkQueued (qd_artifact_id q) (qd_channel_id q) InFlight
                              (qd_attempt_count q) lease) rows /\
    ob' = fold_left (fun ob q => update_delivery (qd_artifact_id q) (qd_channel_id q)
            (claim_delivery lease) ob) claimed ob.
Proof.
  unfold claim_due. intros Hlim H. apply bind_Ok in H as (_ & Hg%reject_if_Ok & H).
  apply orb_false_iff in Hg as [_ Hl%Z.leb_gt]. injection H as <- <-. split; [done|].
  set (queue := merge_sort queued_before (due_rows now ob)).
  assert (Hq : queue ≡ₚ due_rows now ob) by apply merge_sort_Permutation.
  exists (take (Z.to_nat limit) queue), (drop (Z.to_nat limit) queue). split_and!; [..|done|done].
  - by rewrite take_drop.
  - rewrite length_take, <- Hq. lia.
  - intros q q' Hin Hin'. pose proof (queue_sorted (due_rows now ob)) as Hs. fold queue in Hs.
    rewrite <- (take_drop (Z.to_nat limit) queue) in Hs.
    apply StronglySorted_app_1_elem_of with (1 := Hs); done.
Qed.

Lemma NoDup_app_disjoint {A} (l k : list A) x : NoDup (l ++ k) -> x ∈ l -> x ∈ k -> False.
Proof. intros (_ & Hd & _)%list.NoDup_app Hl Hk. by eapply Hd. Qed.

(** The payload a delivery would send is on disk and its artifact is not being deleted. *)
Definition sendable (id : string) (ob : Outbox) : bool :=
  match ob_artifacts ob !! id with Some a => ar_payload_present a && visible a | None => false end.

Lemma due_rows_at now ob q :
  q ∈ due_rows now ob <->
  sendable (qd_artifact_id q) ob = true /\
  exists d, delivery_at (qd_artifact_id q) (qd_channel_id q) ob = Some d /\ is_due now d = true /\
    q = mkQueued (qd_artifact_id q) (qd_channel_id q) (dl_state d) (dl_attempt_count d) (dl_next_attempt d).
Proof.
  rewrite elem_of_due_rows. unfold sendable, delivery_at, visible. split.
  - intros (a & d & -> & -> & -> & Hd & ?). split; [done|]. simpl. eauto.
  - intros [Hs (d & Hd & ?)]. destruct (ob_artifacts ob !! qd_artifact_id q) as [a|]; [|done].
    apply andb_true_iff in Hs as [? ?%negb_true_iff]. exists a, d. naive_solver.
Qed.

Lemma sendable_claim lease qs ob id :
  sendable id (fold_left (fun ob q => update_delivery (qd_artifact_id q) (qd_channel_id q)
    (claim_delivery lease) ob) qs ob) = sendable id ob.
Proof.
  revert ob. induction qs as [|q qs IH]; intros ob; [done|]. simpl. rewrite IH.
  unfold sendable, update_delivery. simpl. rewrite lookup_alter.
  destruct (decide (qd_artifact_id q = id)) as [->|]; [|done]. by destruct (ob_artifacts ob !! id).
Qed.

Lemma elem_of_keys q qs : q ∈ qs -> queue_key q ∈ map queue_key qs.
Proof. intros Hq. apply list_elem_of_In, in_map, list_elem_of_In, Hq. Qed.

Section Claim.
Context (lease : Z) (claimed : list QueuedDelivery) (ob : Outbox).
Let ob' := fold_left (fun ob q => update_delivery (qd_artifact_id q) (qd_channel_id q)
  (claim_delivery lease) ob) claimed ob.

Lemma unclaimed_due later q :
  queue_key q ∉ map queue_key claimed -> q ∈ due_rows later ob' <-> q ∈ due_rows later ob.
Proof.
  intros Hq. rewrite !due_rows_at. unfold ob'. rewrite sendable_claim, claim_fold_at.
  by destruct (decide (_ ∈ _)).
Qed.

Lemma claimed_due later q :
  queue_key q ∈ map queue_key claimed -> q ∈ due_rows later ob' ->
  lease <= later /\ qd_state q = InFlight /\ qd_next_attempt q = lease.
Proof.
  intros Hq [_ (d & Hd & Hdue & ->)]%due_rows_at. simpl. unfold ob' in Hd.
  rewrite claim_fold_at, decide_True in Hd by done. apply fmap_Some in Hd as (d0 & _ & ->).
  apply andb_true_iff in Hdue as [_ Ht%Z.leb_le]. done.
Qed.

Lemma claimed_again now later due :
  queue_key due ∈ map queue_key claimed -> due ∈ due_rows now ob -> lease <= later ->
  mkQueued (qd_artifact_id due) (qd_channel_id due) InFlight (qd_attempt_count due) lease
    ∈ due_rows later ob'.
Proof.
  intros Hk [Hs (d & Hd & _ & Eq)]%due_rows_at Hl. apply due_rows_at. simpl. unfold ob'.
  rewrite sendable_claim, claim_fold_at, decide_True, Hd by done. split; [done|].
  exists (claim_delivery lease d). split_and!; [done| |by rewrite Eq].
  unfold is_due. simpl. by apply Z.leb_le.
Qed.
End Claim.

(** Deliveries are claimed exclusively and in order.  One [claim_due] takes as many due
    deliveries as the limit allows, each once, and none that is due later than one it
    leaves.  Until the lease ends no query finds a claimed delivery due; every other due
    delivery stays due; and when the lease ends with no result recorded, the claimed ones
    are due again, so a sender that died costs a delay and not a delivery. *)
Theorem outbox_claims_exclusive now lease limit ob claimed ob' :
  0 <= limit -> claim_due now lease limit true ob = Ok (claimed, ob') ->
  NoDup (map queue_key claimed) /\
  Z.of_nat (List.length claimed) = Z.min limit (Z.of_nat (List.length (due_rows now ob))) /\
  (forall q, q ∈ claimed -> exists row, row ∈ due_rows now ob /\ queue_key row = queue_key q /\
     qd_attempt_count row = qd_attempt_count q /\
     forall q', q' ∈ due_rows now ob -> queue_key q' ∉ map queue_key claimed ->
       qd_next_attempt row <= qd_next_attempt q') /\
  (forall q, q ∈ due_rows now ob -> queue_key q ∉ map queue_key claimed -> q ∈ due_rows now ob') /\
  (forall later q, later < lease -> q ∈ due_rows later ob' -> queue_key q ∉ map queue_key claimed) /\
  (forall later q, lease <= later -> q ∈ claimed -> q ∈ due_rows later ob').
Proof.
  intros Hlim (Hl & rows & rest & Hp & Hlen & Hord & -> & ->)%claim_split; [|done].
  set (claimed := map _ rows).
  assert (Hkeys : map queue_key claimed = map queue_key rows).
  { unfold claimed. by rewrite map_map. }
  assert (Hrow : forall q, q ∈ claimed -> exists row, row ∈ rows /\ row ∈ due_rows now ob /\
    q = mkQueued (qd_artifact_id row) (qd_channel_id row) InFlight (qd_attempt_count row) lease).
  { intros q (row & <- & Hr%list_elem_of_In)%list_elem_of_In%in_map_iff. exists row.
    split_and!; [done|rewrite Hp; set_solver|done]. }
  split_and!.
  - rewrite Hkeys. pose proof (NoDup_due_rows now ob) as Hn. rewrite Hp, map_app in Hn.
    by apply list.NoDup_app in Hn as [? _].
  - unfold claimed. by rewrite length_map.
  - intros q Hq. destruct (Hrow q Hq) as (row & Hr & Hd & ->). exists row. split_and!; [done..|].
    intros q' Hq' Hout. apply Hord; [done|]. rewrite Hp in Hq'.
    apply elem_of_app in Hq' as [Hq'|?]; [|done]. destruct Hout. rewrite Hkeys. by apply elem_of_keys.
  - intros q Hq Hout. by apply unclaimed_due.
  - intros later q Hlt Hq Hin. apply claimed_due in Hq; [lia|done].
  - intros later q Hle Hq. pose proof (elem_of_keys _ _ Hq) as Hk.
    destruct (Hrow q Hq) as (row & Hr & Hd & ->). by eapply claimed_again.
Qed.

(** ** The storage guard *)
Lemma files_bytes_insert name body files :
  files !! name = None -> is_temporary name = false ->
  files_bytes (<[name := body]> files) = length_z body + files_bytes files.
Proof.
  intros Hn Ht. unfold files_bytes. rewrite map_fold_insert_L; [by rewrite Ht| |done].
  intros. repeat case_match; lia.
Qed.

Lemma files_bytes_nonneg files : 0 <= files_bytes files.
Proof.
  unfold files_bytes. apply (map_fold_weak_ind (fun acc _ => 0 <= acc)); [lia|].
  intros name body m acc _ Hacc. destruct (is_temporary name); [done|]. unfold length_z. lia.
Qed.

Section Enqueue.
Context (sha256 : string -> string) (dataset : GeneratedDataset) (gc : GeneratedContent) (channels : list string)
  (local : bool) (snapshot : string) (available : Z).

(** What a first, successful [enqueue] went through and left. *)
Lemma enqueue_accepted w c ob ob' :
  enqueue sha256 dataset gc channels local snapshot available w c ob = (Ok tt, ob') ->
  ob_artifacts ob !! ds_artifact_id dataset = None ->
  enqueue_guard sha256 dataset gc channels local = Ok tt /\
  payload_bytes ob < op_maximum_bytes (ob_policy ob) /\
  op_minimum_free_bytes (ob_policy ob) < available /\
  length_z (gc_body gc) <= u64 (op_maximum_bytes (ob_policy ob) - payload_bytes ob) /\
  length_z (gc_body gc) <= u64 (available - op_minimum_free_bytes (ob_policy ob)) /\
  directory local ob !! gc_filename gc = None /\ ds_job_revision dataset <= INT64_MAX /\
  ob' = set_artifacts (<[ds_artifact_id dataset :=
          new_artifact dataset gc channels local snapshot]> (ob_artifacts ob))
        (set_directory local (<[gc_filename gc := gc_body gc]> (directory local ob)) ob).
Proof.
  unfold enqueue. destruct (enqueue_guard _ _ _ _ _) as [[]|]; [|done]. intros H Hn. rewrite Hn in H.
  unfold storage_block in H.
  destruct (Z.leb_spec (op_maximum_bytes (ob_policy ob)) (payload_bytes ob)); [done|].
  destruct (Z.leb_spec available (op_minimum_free_bytes (ob_policy ob))); [done|].
  destruct (_ || _) eqn:Eg; [done|]. apply orb_false_iff in Eg as [Eq%Z.ltb_ge Ef%Z.ltb_ge].
  destruct (bool_decide _) eqn:Ed; [done|]. apply bool_decide_eq_false in Ed.
  rewrite <- eq_None_not_Some in Ed. destruct w; [|done]. cbn [negb] in H.
  destruct (Z.ltb_spec INT64_MAX (ds_job_revision dataset)); [done|].
  destruct (filename_taken _ _ || negb c); [done|]. injection H as <-. done.
Qed.
End Enqueue.

(** [enqueue] keeps the storage guard and is idempotent.  An artifact it accepts is
    readable at once with its exact payload, adds exactly its size to the stored bytes,
    leaves them within the quota and leaves the free-space reserve untouched; and
    submitting the same artifact again succeeds and changes nothing, whatever the storage
    looks like then. *)
Theorem outbox_enqueue_guarded sha256 dataset gc channels local snapshot available w c ob ob' :
  0 <= op_maximum_bytes (ob_policy ob) < 2 ^ 64 -> 0 <= op_minimum_free_bytes (ob_policy ob) ->
  available < 2 ^ 64 -> 0 <= ds_job_revision dataset ->
  ob_artifacts ob !! ds_artifact_id dataset = None ->
  enqueue sha256 dataset gc channels local snapshot available w c ob = (Ok tt, ob') ->
  payload_bytes ob' = payload_bytes ob + length_z (gc_body gc) /\
  payload_bytes ob' <= op_maximum_bytes (ob_policy ob') /\
  op_minimum_free_bytes (ob_policy ob') <= available - length_z (gc_body gc) /\
  (exists stored, content sha256 (ds_artifact_id dataset) ob' = Ok stored /\ gc_body stored = gc_body gc) /\
  forall snapshot' available' w' c',
    enqueue sha256 dataset gc channels local snapshot' available' w' c' ob' = (Ok tt, ob').
Proof.
  intros Hmax Hmin Hav Hrev Hn H.
  apply enqueue_accepted in H as (Hg & Hq & Hf & Lq & Lf & Hd & Hr & ->); [|done].
  pose proof (enqueue_guard_names _ _ _ _ _ Hg) as (Hsafe & Htmp & Hsum & _ & _ & _).
  assert (0 <= payload_bytes ob).
  { unfold payload_bytes. pose proof (files_bytes_nonneg (ob_outbox ob)).
    pose proof (files_bytes_nonneg (ob_archive ob)). lia. }
  rewrite wrap_id in Lq, Lf by lia.
  set (ob' := set_artifacts _ _).
  assert (E : payload_bytes ob' = payload_bytes ob + length_z (gc_body gc)).
  { unfold ob', payload_bytes. destruct local; simpl in *; rewrite files_bytes_insert by done; lia. }
  assert (Hp : ob_policy ob' = ob_policy ob) by (by destruct local).
  rewrite E, Hp. split_and!; [done|lia|lia| |].
  - eexists. unfold content, lookup_artifact, ob'. simpl. rewrite lookup_insert_eq. simpl.
    rewrite directory_set_artifacts, directory_set_directory. unfold payload_path. rewrite Hsafe.
    simpl. rewrite Bool.eqb_reflx, lookup_insert_eq, Z.eqb_refl. simpl.
    rewrite Hsum, String.eqb_refl. simpl. split; reflexivity.
  - intros. unfold enqueue. rewrite Hg. unfold ob' at 1. simpl. rewrite lookup_insert_eq.
    unfold same_manifest. simpl. rewrite !String.eqb_refl, !Z.eqb_refl.
    unfold INT64_MAX in Hr. rewrite sign_nonneg by lia. by rewrite Z.eqb_refl.
Qed.

(** ** Concrete histories *)
Definition example_sha256 (_ : string) : string :=
  "0123456789abcdef0123456789abcdef0123456789abcdef0123456789abcdef".
Definition example_outbox : Outbox := mkOutbox (mkStoragePolicy 1000 10 5) ∅ ∅ ∅ ∅ [].
Definition example_dataset : GeneratedDataset :=
  mkDataset "mnc.meter.datalog.v1" "job-1" "job" 3 "msap1" "device" Basic Json 61 (mkWindow 0 60) [] [].
Definition example_content : GeneratedContent :=
  mkContent "job-1" "job-1.json" "application/json" "json" "{}" (example_sha256 "{}").
Definition example_enqueued : Outbox :=
  snd (enqueue example_sha256 example_dataset example_content ["mqtt"; "ftp"] false "" 500 true true
         example_outbox).

Lemma example_enqueued_history :
  outbox_history example_sha256
    {[ "job-1" := mkEntry "{}" ["mqtt"; "ftp"] false ∅ ]} example_enqueued.
Proof.
  assert (E : enqueue example_sha256 example_dataset example_content ["mqtt"; "ftp"] false "" 500
    true true example_outbox = (Ok tt, example_enqueued)) by (vm_compute; reflexivity).
  exact (hist_enqueue _ _ _ _ _ _ _ _ _ _ _ _ _ (hist_new _ (mkStoragePolicy 1000 10 5)) E).
Qed.

Lemma outbox_no_loss_witness :
  outbox_history example_sha256
    {[ "job-1" := mkEntry "{}" ["mqtt"; "ftp"] false ∅ ]} example_enqueued /\
  ((exists c, content example_sha256 "job-1" example_enqueued = Ok c /\ gc_body c = "{}" /\
     forall channel, channel ∈ ["mqtt"; "ftp"] -> channel ∉ (∅ : gset string) ->
       exists d, delivery_at "job-1" channel example_enqueued = Some d /\ unsent d = true) \/
   (false = false /\ forall channel, channel ∈ ["mqtt"; "ftp"] -> channel ∈ (∅ : gset string))).
Proof.
  split; [exact example_enqueued_history|].
  exact (outbox_no_loss _ _ _ "job-1" _ example_enqueued_history eq_refl).
Defined.

Lemma outbox_claims_exclusive_witness :
  exists claimed ob', claim_due 70 100 1 true example_enqueued = Ok (claimed, ob') /\
    NoDup (map queue_key claimed) /\ (List.length claimed = 1)%nat /\
    forall later q, later < 100 -> q ∈ due_rows later ob' -> queue_key q ∉ map queue_key claimed.
Proof.
  eexists _, _. split; [reflexivity|].
  destruct (outbox_claims_exclusive 70 100 1 example_enqueued _ _ ltac:(lia) eq_refl)
    as (H1 & H2 & _ & _ & H5 & _).
  split; [exact H1|]. split; [reflexivity|exact H5].
Defined.

Lemma outbox_enqueue_guarded_witness :
  payload_bytes example_enqueued = 2 /\
  enqueue example_sha256 example_dataset example_content ["mqtt"; "ftp"] false "" 0 false false
    example_enqueued = (Ok tt, example_enqueued).
Proof.
  destruct (outbox_enqueue_guarded example_sha256 example_dataset example_content ["mqtt"; "ftp"] false ""
    500 true true example_outbox example_enqueued) as (H1 & _ & _ & _ & H5);
    [simpl; lia | simpl; lia | lia | simpl; lia | reflexivity | reflexivity |].
  split; [exact H1 | apply H5].
Defined.
