(* ===== verification/DataChannel.v ===== *)
(** * Data channels

    Models [src/common/mnc/datalogger/data_channel.cpp] and [transfer.hpp]: validation of a
    channel configuration, the transfer plan of a delivery, and the classification of a
    transfer's outcome.  The transfer itself is the interface [TransferClient]. *)

From stdpp Require Import base list pretty.
From S2P Require Import Prelude Datalog DatalogTheorems ContentWriter Outbox OutboxTheorems.
From Stdlib Require Import Ascii String.
Local Open Scope string_scope.
Local Open Scope Z_scope.
Local Open Scope list_scope.

Inductive OutboundProtocol := Http | Https | Ftp | Sftp.
Inductive RuntimeAuthentication := auth_None | Basic_ | Bearer | MutualTls | Password | PrivateKey.
Inductive TransferFailure :=
  | failure_None | Transient | Authentication | Verification | Configuration | RemoteRejected.

#[export] Instance OutboundProtocol_eq_dec : EqDecision OutboundProtocol.
Proof. solve_decision. Defined.
#[export] Instance RuntimeAuthentication_eq_dec : EqDecision RuntimeAuthentication.
Proof. solve_decision. Defined.
#[export] Instance TransferFailure_eq_dec : EqDecision TransferFailure.
Proof. solve_decision. Defined.

(** The credentials and files of a channel; a path is its text. *)
Record ChannelSecurity := mkSecurity {
  cs_authentication : RuntimeAuthentication;
  cs_username : string;
  cs_password : string;
  cs_bearer_token : string;
  cs_private_key_passphrase : string;
  cs_connect_timeout_seconds : Z;
  cs_transfer_timeout_seconds : Z;
  cs_use_system_ca : bool;
  cs_ca_file : option string;
  cs_client_certificate_file : option string;
  cs_client_key_file : option string;
  cs_sftp_private_key_file : option string;
  cs_known_hosts_file : option string }.

Record RuntimeDataChannelConfiguration := mkConfiguration {
  dc_id : string;
  dc_protocol : OutboundProtocol;
  dc_host : string;
  dc_port : Z;
  dc_http_path : string;
  dc_remote_directory : string;
  dc_security : ChannelSecurity }.

Record DeliveryRequest := mkRequest {
  dr_channel_id : string;
  dr_content : GeneratedContent;
  dr_zero_data_probe : bool }.

Record TransferPlan := mkPlan {
  tp_protocol : OutboundProtocol;
  tp_url : string;
  tp_filename : string;
  tp_artifact_id : string;
  tp_checksum_sha256 : string;
  tp_mime_type : string;
  tp_body : string;
  tp_headers : list string;
  tp_remote_temporary_path : option string;
  tp_remote_final_path : option string;
  tp_security : ChannelSecurity;
  tp_zero_data_probe : bool }.

Record TransferOutcome := mkOutcome {
  to_transport_succeeded : bool;
  to_response_code : Z;
  to_failure : TransferFailure;
  to_sanitized_message : string }.

Definition protocol_name (protocol : OutboundProtocol) : string :=
  match protocol with Http => "http" | Https => "https" | Ftp => "ftp" | Sftp => "sftp" end.

Definition default_port (protocol : OutboundProtocol) : Z :=
  match protocol with Http => 80 | Https => 443 | Ftp => 21 | Sftp => 22 end.

Definition is_http (protocol : OutboundProtocol) : bool :=
  match protocol with Http | Https => true | Ftp | Sftp => false end.







Fixpoint ends_with_slash (s : string) : bool :=
  match s with
  | EmptyString => false
  | String c EmptyString => Ascii.eqb c "/"
  | String _ s => ends_with_slash s
  end.

Definition join_path (directory filename : string) : string :=
  directory +:+ (if ends_with_slash directory then "" else "/") +:+ filename.

Definition endpoint (configuration : RuntimeDataChannelConfiguration) (path : string) : string :=
  let port := if dc_port configuration =? 0 then default_port (dc_protocol configuration)
              else dc_port configuration in
  protocol_name (dc_protocol configuration) +:+ "://" +:+ dc_host configuration +:+ ":" +:+
  to_string port +:+ path.


Definition classify_transfer_result (protocol : OutboundProtocol) (outcome : TransferOutcome) : DeliveryResult :=
  let code := to_response_code outcome in
  if negb (to_transport_succeeded outcome) then
    mkResult (if bool_decide (to_failure outcome = Transient) then disposition_retryable else disposition_blocked)
      "" (to_sanitized_message outcome)
  else if negb (is_http protocol) then mkResult disposition_succeeded (to_string code) ""
  else if (200 <=? code) && (code <? 300) then mkResult disposition_succeeded (to_string code) ""
  else if (code =? 408) || (code =? 429) || (500 <=? code)
  then mkResult disposition_retryable (to_string code) "remote HTTP service asked for a retry"
  else mkResult disposition_blocked (to_string code) "remote HTTP service rejected the artifact".

Definition empty_body_sha256 : string := "e3b0c44298fc1c149afbf4c8996fb92427ae41e4649b934ca495991b7852b855".

(** The plan of [ConfiguredDataChannel::deliver], or [None] when the request is refused. *)
Definition transfer_plan (configuration : RuntimeDataChannelConfiguration) (request : DeliveryRequest)
  : option TransferPlan :=
  let generated := dr_content request in
  let probe := dr_zero_data_probe request in
  let id := gc_artifact_id generated in
  let filename := gc_filename generated in
  if negb (String.eqb (dr_channel_id request) (dc_id configuration)) || negb (safe_identity id) ||
     negb (String.eqb filename (id +:+ "." +:+ gc_extension generated))
  then None
  else
    let checksum := if probe then empty_body_sha256 else gc_sha256 generated in
    let plan url headers temporary final :=
      mkPlan (dc_protocol configuration) url filename id checksum (gc_mime_type generated)
        (if probe then "" else gc_body generated) headers temporary final (dc_security configuration) probe in
    if is_http (dc_protocol configuration) then
      Some (plan (endpoint configuration (dc_http_path configuration))
              ["Content-Type: " +:+ gc_mime_type generated; "X-MNC-Filename: " +:+ filename;
               "X-MNC-Artifact-ID: " +:+ id; "X-MNC-SHA256: " +:+ checksum; "Idempotency-Key: " +:+ id;
               "X-MNC-Zero-Data-Probe: " +:+ bool_name probe] None None)
    else
      let temporary := join_path (dc_remote_directory configuration) ("." +:+ filename +:+ ".part") in
      let final := join_path (dc_remote_directory configuration) filename in
      Some (plan (endpoint configuration temporary) [] (Some temporary) (Some final)).

(** [ConfiguredDataChannel::deliver] *)
Definition deliver (configuration : RuntimeDataChannelConfiguration)
    (perform : TransferPlan -> result TransferOutcome) (request : DeliveryRequest) : result DeliveryResult :=
  match transfer_plan configuration request with
  | None => Ok (mkResult disposition_blocked "" "delivery request identity is invalid")
  | Some plan =>
      outcome ← perform plan;
      Ok (classify_transfer_result (dc_protocol configuration) outcome)
  end.




















Definition example_security : ChannelSecurity :=
  mkSecurity Password "meter" "secret" "" "" 10 120 true None None None None (Some "/etc/known_hosts").
Definition example_channel : RuntimeDataChannelConfiguration :=
  mkConfiguration "sftp" Sftp "archive.example" 0 "/" "/data/meter" example_security.


(** Content that did not come from the outbox: a name built with a slash in its extension
    leaves the remote directory, and the transfer is reported as done. *)
Definition foreign_request : DeliveryRequest :=
  mkRequest "sftp" (mkContent "a" "a./../../x" "text/plain" "/../../x" "b" "c") false.

Example foreign_extension_escapes :
  (tp_remote_final_path <$> transfer_plan example_channel foreign_request) =
    Some (Some "/data/meter/a./../../x") /\
  deliver example_channel (fun _ => Ok (mkOutcome true 226 failure_None "")) foreign_request =
    Ok (mkResult disposition_succeeded "226" "").
Proof. vm_compute. split; reflexivity. Qed.
