(* ===== verification/Scheduler.v ===== *)
(** * The Data Sender engine

    Models [src/common/mnc/datalogger/scheduler.cpp]: the UTC scheduler that turns completed
    windows into artifacts and the delivery loop with its retry delays.  The engine is
    written against interfaces -- [Datalogger], [MeterDataContentWriterFactory],
    [OutboxRepository], [Clock], [DeliveryExecutor] -- and so is the model: the repository is
    the class below, and the outbox of [Outbox] is an instance of it that satisfies its
    laws. *)

From stdpp Require Import gmap sorting.
From S2P Require Import Prelude MeterTiming Datalog ContentWriter Outbox OutboxTheorems.
From Stdlib Require Import Ascii String.
Local Open Scope Z_scope.

Definition generation_settle_delay : Z := 30000000000.
Definition delivery_lease : Z := 3660000000000.
Definition second : Z := 1000000000.

Definition next_boundary (now interval : Z) : result Z :=
  reject_if ((now <? 0) || (interval <=? 0) || (INT64_MAX - interval <? now))
    (InvalidArgument "UTC scheduling interval is invalid") ;;
  Ok (Z.quot (now + interval - 1) interval * interval).

(** ** Retry delays *)
Definition fnv_step (result byte : Z) : Z := u64 (Z.lxor result byte * 1099511628211).

Definition fnv1a (value : string) (attempt : Z) : Z :=
  let hash := fold_left (fun result c => fnv_step result (Z.of_nat (nat_of_ascii c)))
                (list_ascii_of_string value) 1469598103934665603 in
  fold_left (fun result shift => fnv_step result (Z.land (Z.shiftr attempt shift) 255)) [0; 8; 16; 24] hash.

Definition retry_delay (attempt_number : Z) (stable_identity : string) : Z :=
  let attempt := if attempt_number =? 0 then 1 else attempt_number in
  let shift := Z.min (attempt - 1) 10 in
  let base_seconds := Z.min (Z.shiftl 5 shift) 3600 in
  let remaining := 3600 - base_seconds in
  let jitter_range := Z.min (base_seconds / 5) remaining in
  let jitter := if jitter_range =? 0 then 0 else fnv1a stable_identity attempt mod (jitter_range + 1) in
  (base_seconds + jitter) * second.

(** ** The repository interface *)
Class OutboxRepository (R : Type) := {
  repo_watermark : string -> R -> option JobWatermark;
  repo_store_watermark : string -> JobWatermark -> R -> result unit * R;
  repo_enqueue : GeneratedDataset -> GeneratedContent -> list string -> bool -> R -> result unit * R;
  repo_claim_due : Z -> Z -> Z -> R -> result (list QueuedDelivery) * R;
  repo_content : string -> R -> result GeneratedContent;
  repo_record_result : QueuedDelivery -> DeliveryResult -> Z -> Z -> R -> result unit * R;
  (** the artifact is in the manifest *)
  repo_holds : string -> R -> Prop }.

(** What the engine relies on. *)
Class OutboxLaws (R : Type) `{OutboxRepository R} := {
  store_ok job w r r' : repo_store_watermark job w r = (Ok tt, r') ->
    repo_watermark job r' = Some w /\ forall other, other <> job -> repo_watermark other r' = repo_watermark other r;
  store_throw job w r e r' : repo_store_watermark job w r = (Throw e, r') ->
    forall other, repo_watermark other r' = repo_watermark other r;
  store_holds job w r id : repo_holds id r -> repo_holds id (snd (repo_store_watermark job w r));
  enqueue_watermark ds c channels local r job :
    repo_watermark job (snd (repo_enqueue ds c channels local r)) = repo_watermark job r;
  enqueue_holds ds c channels local r id :
    repo_holds id r -> repo_holds id (snd (repo_enqueue ds c channels local r));
  enqueue_ok ds c channels local r r' :
    repo_enqueue ds c channels local r = (Ok tt, r') -> repo_holds (ds_artifact_id ds) r';
  enqueue_gap ds c channels local r what r' :
    repo_enqueue ds c channels local r <> (Throw (DatalogError SourceRetentionGap what), r');
  store_gap job w r what r' :
    repo_store_watermark job w r <> (Throw (DatalogError SourceRetentionGap what), r') }.

(** ** Jobs *)
Record ScheduledJob := mkScheduled {
  sj_snapshot : DatalogJobSnapshot;
  sj_enabled : bool;
  sj_local_only : bool;
  sj_channel_ids : list string }.

Record ScheduledJobStatus := mkStatus {
  st_job_id : string;
  st_revision : Z;
  st_enabled : bool;
  st_next_window : option UtcWindow;
  st_last_generated_window : option UtcWindow;
  st_last_generated_at : Z;
  st_last_error : string }.

Record GenerationRunResult := mkRunResult {
  gr_generated : Z;
  gr_skipped_expired : Z;
  gr_storage_blocked : bool;
  gr_source_deferred : bool }.

Definition sj_id (job : ScheduledJob) : string := job_id (sj_snapshot job).
Definition sj_interval (job : ScheduledJob) : Z := job_generation_interval (sj_snapshot job).

(** [UtcWindow{start, start + interval}] *)
Definition window_from (start interval : Z) : result UtcWindow :=
  stop ← signed64 (start + interval); Ok (mkWindow start stop).

Section Engine.
Context {R : Type} `{OutboxRepository R}.
Variable datalogger : DatalogJobSnapshot -> UtcWindow -> Z -> result GeneratedDataset.
Variable writers : ContentFormat -> GeneratedDataset -> result GeneratedContent.

(** *** [apply_jobs] *)
Definition find_status (id : string) (statuses : list ScheduledJobStatus) : option ScheduledJobStatus :=
  List.find (fun status => String.eqb (st_job_id status) id) statuses.

Definition initial_status (job : ScheduledJob) (statuses : list ScheduledJobStatus) : ScheduledJobStatus :=
  let fresh := mkStatus (sj_id job) (job_revision (sj_snapshot job)) (sj_enabled job) None None 0 "" in
  let status :=
    match find_status (sj_id job) statuses with
    | Some previous => if st_revision previous =? job_revision (sj_snapshot job) then previous else fresh
    | None => fresh
    end in
  mkStatus (st_job_id status) (st_revision status) (sj_enabled job) (st_next_window status)
    (st_last_generated_window status) (st_last_generated_at status) (st_last_error status).

(** The watermark of an enabled job, created at the next boundary for a new revision. *)
Definition job_watermark (job : ScheduledJob) (now : Z) (r : R) : result (JobWatermark * bool) * R :=
  let revision := job_revision (sj_snapshot job) in
  let create :=
    match next_boundary now (sj_interval job) with
    | Throw e => (Throw e, r)
    | Ok boundary =>
        let w := mkWatermark revision boundary in
        match repo_store_watermark (sj_id job) w r with
        | (Ok _, r) => (Ok (w, true), r)
        | (Throw e, r) => (Throw e, r)
        end
    end in
  match repo_watermark (sj_id job) r with
  | Some w => if wm_job_revision w =? revision then (Ok (w, false), r) else create
  | None => create
  end.

Definition apply_job (statuses : list ScheduledJobStatus) (now : Z) (job : ScheduledJob) (r : R)
  : result ScheduledJobStatus * R :=
  if String.eqb (sj_id job) "" || (job_revision (sj_snapshot job) =? 0) || (sj_interval job <=? 0)
  then (Throw (InvalidArgument "scheduled job is invalid"), r)
  else
    let status := initial_status job statuses in
    if sj_enabled job then
      match job_watermark job now r with
      | (Throw e, r) => (Throw e, r)
      | (Ok (w, created), r) =>
          match window_from (wm_completed_through w) (sj_interval job) with
          | Throw e => (Throw e, r)
          | Ok window =>
              (Ok (mkStatus (st_job_id status) (st_revision status) (st_enabled status) (Some window)
                     (if created then None else st_last_generated_window status)
                     (if created then 0 else st_last_generated_at status)
                     (if created then "" else st_last_error status)), r)
          end
      end
    else (Ok (mkStatus (st_job_id status) (st_revision status) (st_enabled status) None
                (st_last_generated_window status) (st_last_generated_at status) (st_last_error status)), r).

Fixpoint apply_loop (statuses : list ScheduledJobStatus) (now : Z) (jobs : list ScheduledJob) (r : R)
  : result (list ScheduledJobStatus) * R :=
  match jobs with
  | [] => (Ok [], r)
  | job :: jobs =>
      match apply_job statuses now job r with
      | (Throw e, r) => (Throw e, r)
      | (Ok status, r) =>
          match apply_loop statuses now jobs r with
          | (Throw e, r) => (Throw e, r)
          | (Ok rest, r) => (Ok (status :: rest), r)
          end
      end
  end.

Definition job_before (a b : ScheduledJob) : Prop := String.leb (sj_id a) (sj_id b) = true.
#[local] Instance job_before_dec a b : Decision (job_before a b).
Proof. unfold job_before. apply _. Defined.

Record Engine := mkEngine { en_jobs : list ScheduledJob; en_statuses : list ScheduledJobStatus }.

(** Jobs that cannot be applied leave the engine as it was. *)
Definition apply_jobs (jobs : list ScheduledJob) (now : Z) (engine : Engine) (r : R)
  : result unit * Engine * R :=
  let sorted := merge_sort job_before jobs in
  match apply_loop (en_statuses engine) now sorted r with
  | (Throw e, r) => (Throw e, engine, r)
  | (Ok statuses, r) => (Ok tt, mkEngine sorted statuses, r)
  end.

(** *** [generate_due] *)

(** The [try] block: one window generated, queued and recorded. *)
Definition generate_window (job : ScheduledJob) (window : UtcWindow) (now : Z) (r : R) : result unit * R :=
  match datalogger (sj_snapshot job) window now with
  | Throw e => (Throw e, r)
  | Ok ds =>
      match writers (job_format (sj_snapshot job)) ds with
      | Throw e => (Throw e, r)
      | Ok generated =>
          match repo_enqueue ds generated (sj_channel_ids job) (sj_local_only job) r with
          | (Throw e, r) => (Throw e, r)
          | (Ok _, r) =>
              repo_store_watermark (sj_id job)
                (mkWatermark (job_revision (sj_snapshot job)) (w_end window)) r
          end
      end
  end.

(** Update of the first status of that job. *)
Fixpoint update_status (id : string) (f : ScheduledJobStatus -> ScheduledJobStatus)
    (statuses : list ScheduledJobStatus) : list ScheduledJobStatus :=
  match statuses with
  | [] => []
  | status :: statuses =>
      if String.eqb (st_job_id status) id then f status :: statuses
      else status :: update_status id f statuses
  end.

(** The window after this one; the sum stays far below the range of [int64_t] for any window
    that has ended by now. *)
Definition following (job : ScheduledJob) (window : UtcWindow) : UtcWindow :=
  mkWindow (w_end window) (w_end window + sj_interval job).

Definition status_generated (job : ScheduledJob) (window : UtcWindow) (now : Z) (s : ScheduledJobStatus) :=
  mkStatus (st_job_id s) (st_revision s) (st_enabled s) (Some (following job window)) (Some window) now "".
Definition status_skipped (job : ScheduledJob) (window : UtcWindow) (what : string) (s : ScheduledJobStatus) :=
  mkStatus (st_job_id s) (st_revision s) (st_enabled s) (Some (following job window))
    (st_last_generated_window s) (st_last_generated_at s) what.
Definition status_error (what : string) (s : ScheduledJobStatus) :=
  mkStatus (st_job_id s) (st_revision s) (st_enabled s) (st_next_window s)
    (st_last_generated_window s) (st_last_generated_at s) what.

Record Run := mkRun {
  run_statuses : list ScheduledJobStatus;
  run_result : GenerationRunResult;
  run_repo : R }.

(** How the loop over the windows of a job ends: with the next job, with [return], or with
    an exception that leaves [generate_due]. *)
Inductive Flow := NextJob | Return | Raise (e : exn).

Definition count_generated (g : GenerationRunResult) : GenerationRunResult :=
  mkRunResult (gr_generated g + 1) (gr_skipped_expired g) (gr_storage_blocked g) (gr_source_deferred g).
Definition count_skipped (g : GenerationRunResult) : GenerationRunResult :=
  mkRunResult (gr_generated g) (gr_skipped_expired g + 1) (gr_storage_blocked g) (gr_source_deferred g).
Definition mark_blocked (g : GenerationRunResult) : GenerationRunResult :=
  mkRunResult (gr_generated g) (gr_skipped_expired g) true (gr_source_deferred g).
Definition mark_deferred (g : GenerationRunResult) : GenerationRunResult :=
  mkRunResult (gr_generated g) (gr_skipped_expired g) (gr_storage_blocked g) true.

(** The next window of the job, when it is complete and has settled. *)
Definition due_window (job : ScheduledJob) (now : Z) (r : R) : result (option UtcWindow) :=
  match repo_watermark (sj_id job) r with
  | None => Ok None
  | Some w =>
      if negb (wm_job_revision w =? job_revision (sj_snapshot job)) then Ok None
      else
        window ← window_from (wm_completed_through w) (sj_interval job);
        settled ← signed64 (w_end window + generation_settle_delay);
        Ok (if now <? settled then None else Some window)
  end.

(** The [while] loop; [remaining] is [maximum_windows - processed_windows]. *)
Fixpoint window_loop (remaining : nat) (job : ScheduledJob) (now : Z) (run : Run) : Flow * nat * Run :=
  match remaining with
  | O => (NextJob, O, run)
  | S others =>
      match due_window job now (run_repo run) with
      | Throw e => (Raise e, remaining, run)
      | Ok None => (NextJob, remaining, run)
      | Ok (Some window) =>
          match generate_window job window now (run_repo run) with
          | (Ok _, r) =>
              window_loop others job now
                (mkRun (update_status (sj_id job) (status_generated job window now) (run_statuses run))
                   (count_generated (run_result run)) r)
          | (Throw (DatalogError code what), r) =>
              if code =? SourceRetentionGap then
                match repo_store_watermark (sj_id job)
                        (mkWatermark (job_revision (sj_snapshot job)) (w_end window)) r with
                | (Throw e, r) => (Raise e, remaining, mkRun (run_statuses run) (run_result run) r)
                | (Ok _, r) =>
                    window_loop others job now
                      (mkRun (update_status (sj_id job) (status_skipped job window what) (run_statuses run))
                         (count_skipped (run_result run)) r)
                end
              else
                (Return, remaining,
                 mkRun (update_status (sj_id job) (status_error what) (run_statuses run))
                   (if code =? StorageFailure then mark_blocked (run_result run)
                    else mark_deferred (run_result run)) r)
          | (Throw (UndefinedBehaviour what), r) =>
              (Raise (UndefinedBehaviour what), remaining, mkRun (run_statuses run) (run_result run) r)
          | (Throw _, r) =>
              (Return, remaining,
               mkRun (update_status (sj_id job) (status_error "generation dependency is unavailable")
                        (run_statuses run)) (mark_deferred (run_result run)) r)
          end
      end
  end.

Fixpoint job_loop (remaining : nat) (jobs : list ScheduledJob) (now : Z) (run : Run) : Flow * Run :=
  match jobs with
  | [] => (Return, run)
  | job :: jobs =>
      if sj_enabled job then
        match window_loop remaining job now run with
        | (NextJob, remaining, run) => job_loop remaining jobs now run
        | (flow, _, run) => (flow, run)
        end
      else job_loop remaining jobs now run
  end.

Definition generate_due (maximum_windows now : Z) (engine : Engine) (r : R)
  : result GenerationRunResult * Engine * R :=
  if (maximum_windows =? 0) || (100 <? maximum_windows)
  then (Throw (InvalidArgument "generation batch limit is invalid"), engine, r)
  else
    let '(flow, run) := job_loop (Z.to_nat maximum_windows) (en_jobs engine) now
                          (mkRun (en_statuses engine) (mkRunResult 0 0 false false) r) in
    (match flow with Raise e => Throw e | _ => Ok (run_result run) end,
     mkEngine (en_jobs engine) (run_statuses run), run_repo run).

(** *** [deliver_due] *)
Variable deliver : string -> GeneratedContent -> result DeliveryResult.

Definition attempt (q : QueuedDelivery) (r : R) : result DeliveryResult :=
  match (generated ← repo_content (qd_artifact_id q) r; deliver (qd_channel_id q) generated) with
  | Ok outcome => Ok outcome
  | Throw (DatalogError _ what) => Ok (mkResult disposition_blocked "" what)
  | Throw (UndefinedBehaviour what) => Throw (UndefinedBehaviour what)
  | Throw _ => Ok (mkResult disposition_retryable "" "delivery dependency is unavailable")
  end.

Definition next_attempt (q : QueuedDelivery) (outcome : DeliveryResult) (now : Z) : result Z :=
  match disposition outcome with
  | disposition_retryable =>
      signed64 (now + retry_delay (u32 (qd_attempt_count q + 1))
                        (qd_artifact_id q +:+ ":" +:+ qd_channel_id q))
  | _ => Ok 0
  end.

Fixpoint deliver_loop (now : Z) (deliveries : list QueuedDelivery) (r : R) : result unit * R :=
  match deliveries with
  | [] => (Ok tt, r)
  | q :: deliveries =>
      match attempt q r with
      | Throw e => (Throw e, r)
      | Ok outcome =>
          match next_attempt q outcome now with
          | Throw e => (Throw e, r)
          | Ok next =>
              match repo_record_result q outcome now next r with
              | (Throw e, r) => (Throw e, r)
              | (Ok _, r) => deliver_loop now deliveries r
              end
          end
      end
  end.

Definition deliver_due (maximum_deliveries now : Z) (r : R) : result Z * R :=
  if (maximum_deliveries =? 0) || (100 <? maximum_deliveries)
  then (Throw (InvalidArgument "delivery batch is invalid"), r)
  else match signed64 (now + delivery_lease) with
  | Throw e => (Throw e, r)
  | Ok lease =>
      match repo_claim_due now lease maximum_deliveries r with
      | (Throw e, r) => (Throw e, r)
      | (Ok deliveries, r) =>
          match deliver_loop now deliveries r with
          | (Throw e, r) => (Throw e, r)
          | (Ok _, r) => (Ok (Z.of_nat (List.length deliveries)), r)
          end
      end
  end.
End Engine.
