(* ===== verification/MncwfTypes.v ===== *)
(** * MNCWF waveform container: constants, enumerations and records

    Models the declarations of src/common/msap1/waveform/mncwf_v4.hpp.  Enumerations
    carry their wire value and the cast back from it; arrays of bytes and strings
    are lists of bytes. *)

From S2P Require Import Prelude.

(** ** Constants *)

Definition mncwf_magic : list Z := [77; 78; 67; 87; 70; 49; 0; 0].
Definition mncwf_v4_version : Z := 4.
Definition mncwf_v5_version : Z := 5.
Definition mncwf_v4_header_bytes : Z := 64.
Definition mncwf_v4_directory_entry_bytes : Z := 56.
Definition mncwf_v4_section_header_bytes : Z := 48.
Definition mncwf_v4_capture_metadata_bytes : Z := 256.
Definition mncwf_v4_timebase_segment_bytes : Z := 128.
Definition mncwf_v4_channel_definition_bytes : Z := 208.
Definition mncwf_v4_event_descriptor_bytes : Z := 256.
Definition mncwf_v4_quality_interval_bytes : Z := 64.
Definition mncwf_v4_lineage_entry_bytes : Z := 64.
Definition mncwf_v5_chunk_entry_bytes : Z := 56.
Definition mncwf_v5_max_chunk_logical_bytes : Z := 1024 * 1024.
Definition mncwf_v5_max_chunks : Z := 4096.
Definition mncwf_v5_chunk_frame_checksum : Z := Z.shiftl 1 0.
Definition mncwf_v4_mandatory_section_count : Z := 7.
Definition mncwf_v4_max_sections : Z := 64.
Definition mncwf_v4_max_channels : Z := 64.
Definition mncwf_v4_max_events : Z := 4096.
Definition mncwf_v4_max_lineage_entries : Z := 4096.
Definition mncwf_v4_max_string_bytes : Z := 64 * 1024.
Definition mncwf_v4_max_file_bytes : Z := 512 * 1024 * 1024.
Definition mncwf_v4_max_metadata_section_bytes : Z := 16 * 1024 * 1024.
Definition mncwf_v4_section_required : Z := Z.shiftl 1 0.
Definition mncwf_v4_known_section_flags : Z := mncwf_v4_section_required.
Definition mncwf_time_utc_offset_known : Z := Z.shiftl 1 0.
Definition mncwf_time_positive_leap_pending : Z := Z.shiftl 1 1.
Definition mncwf_time_negative_leap_pending : Z := Z.shiftl 1 2.
Definition mncwf_time_rate_change_before : Z := Z.shiftl 1 3.
Definition mncwf_time_sequence_gap_before : Z := Z.shiftl 1 4.
Definition mncwf_time_known_flags : Z := Z.lor (Z.lor (Z.lor (Z.lor mncwf_time_utc_offset_known
  mncwf_time_positive_leap_pending) mncwf_time_negative_leap_pending) mncwf_time_rate_change_before)
  mncwf_time_sequence_gap_before.
Definition mncwf_channel_enabled : Z := Z.shiftl 1 0.
Definition mncwf_channel_transform_valid : Z := Z.shiftl 1 1.
Definition mncwf_channel_ratio_valid : Z := Z.shiftl 1 2.
Definition mncwf_channel_nominal_valid : Z := Z.shiftl 1 3.
Definition mncwf_channel_range_valid : Z := Z.shiftl 1 4.
Definition mncwf_channel_resolution_valid : Z := Z.shiftl 1 5.
Definition mncwf_channel_clipping_valid : Z := Z.shiftl 1 6.
Definition mncwf_channel_calibration_valid : Z := Z.shiftl 1 7.
Definition mncwf_channel_known_flags : Z := Z.lor (Z.lor (Z.lor (Z.lor (Z.lor (Z.lor (Z.lor
  mncwf_channel_enabled mncwf_channel_transform_valid) mncwf_channel_ratio_valid)
  mncwf_channel_nominal_valid) mncwf_channel_range_valid) mncwf_channel_resolution_valid)
  mncwf_channel_clipping_valid) mncwf_channel_calibration_valid.
Definition mncwf_event_phase_a : Z := Z.shiftl 1 0.
Definition mncwf_event_phase_b : Z := Z.shiftl 1 1.
Definition mncwf_event_phase_c : Z := Z.shiftl 1 2.
Definition mncwf_event_phase_neutral : Z := Z.shiftl 1 3.
Definition mncwf_event_phase_system : Z := Z.shiftl 1 4.
Definition mncwf_event_known_phase_mask : Z := Z.lor (Z.lor (Z.lor (Z.lor mncwf_event_phase_a
  mncwf_event_phase_b) mncwf_event_phase_c) mncwf_event_phase_neutral) mncwf_event_phase_system.
Definition mncwf_event_start_valid : Z := Z.shiftl 1 0.
Definition mncwf_event_current_valid : Z := Z.shiftl 1 1.
Definition mncwf_event_end_valid : Z := Z.shiftl 1 2.
Definition mncwf_event_trigger_valid : Z := Z.shiftl 1 3.
Definition mncwf_event_tai_valid : Z := Z.shiftl 1 4.
Definition mncwf_event_utc_valid : Z := Z.shiftl 1 5.
Definition mncwf_event_settings_snapshot_valid : Z := Z.shiftl 1 6.
Definition mncwf_event_contaminated : Z := Z.shiftl 1 7.
Definition mncwf_event_discontinuous : Z := Z.shiftl 1 8.
Definition mncwf_event_known_flags : Z := Z.lor (Z.lor (Z.lor (Z.lor (Z.lor (Z.lor (Z.lor (Z.lor
  mncwf_event_start_valid mncwf_event_current_valid) mncwf_event_end_valid)
  mncwf_event_trigger_valid) mncwf_event_tai_valid) mncwf_event_utc_valid)
  mncwf_event_settings_snapshot_valid) mncwf_event_contaminated) mncwf_event_discontinuous.
Definition mncwf_quality_gap : Z := Z.shiftl 1 0.
Definition mncwf_quality_saturated : Z := Z.shiftl 1 1.
Definition mncwf_quality_clipped : Z := Z.shiftl 1 2.
Definition mncwf_quality_transport_loss : Z := Z.shiftl 1 3.
Definition mncwf_quality_timing_uncertain : Z := Z.shiftl 1 4.
Definition mncwf_quality_calibration_invalid : Z := Z.shiftl 1 5.
Definition mncwf_quality_rate_change : Z := Z.shiftl 1 6.
Definition mncwf_quality_known_flags : Z := Z.lor (Z.lor (Z.lor (Z.lor (Z.lor (Z.lor
  mncwf_quality_gap mncwf_quality_saturated) mncwf_quality_clipped) mncwf_quality_transport_loss)
  mncwf_quality_timing_uncertain) mncwf_quality_calibration_invalid) mncwf_quality_rate_change.

(** ** Enumerations *)

Inductive MncwfV4SectionType :=
  | section_capture_metadata
  | section_timebase_segments
  | section_channel_definitions
  | section_event_descriptors
  | section_quality_intervals
  | section_lineage
  | section_sample_data.
Definition section_value (value : MncwfV4SectionType) : Z :=
  match value with
  | section_capture_metadata => 1
  | section_timebase_segments => 2
  | section_channel_definitions => 3
  | section_event_descriptors => 4
  | section_quality_intervals => 5
  | section_lineage => 6
  | section_sample_data => 7
  end.
(** [static_cast<MncwfV4SectionType>], used on validated values only. *)
Definition section_cast (value : Z) : MncwfV4SectionType :=
  if value =? 2 then section_timebase_segments
  else if value =? 3 then section_channel_definitions
  else if value =? 4 then section_event_descriptors
  else if value =? 5 then section_quality_intervals
  else if value =? 6 then section_lineage
  else if value =? 7 then section_sample_data
  else section_capture_metadata.
#[export] Instance MncwfV4SectionType_eq_dec : EqDecision MncwfV4SectionType.
Proof. solve_decision. Defined.

Inductive MncwfTopology :=
  | topology_unknown
  | topology_wye
  | topology_delta.
Definition topology_value (value : MncwfTopology) : Z :=
  match value with
  | topology_unknown => 0
  | topology_wye => 1
  | topology_delta => 2
  end.
(** [static_cast<MncwfTopology>], used on validated values only. *)
Definition topology_cast (value : Z) : MncwfTopology :=
  if value =? 1 then topology_wye
  else if value =? 2 then topology_delta
  else topology_unknown.
#[export] Instance MncwfTopology_eq_dec : EqDecision MncwfTopology.
Proof. solve_decision. Defined.

Inductive MncwfCalibrationStatus :=
  | calibration_unknown
  | calibration_valid
  | calibration_expired
  | calibration_invalid.
Definition calibration_value (value : MncwfCalibrationStatus) : Z :=
  match value with
  | calibration_unknown => 0
  | calibration_valid => 1
  | calibration_expired => 2
  | calibration_invalid => 3
  end.
(** [static_cast<MncwfCalibrationStatus>], used on validated values only. *)
Definition calibration_cast (value : Z) : MncwfCalibrationStatus :=
  if value =? 1 then calibration_valid
  else if value =? 2 then calibration_expired
  else if value =? 3 then calibration_invalid
  else calibration_unknown.
#[export] Instance MncwfCalibrationStatus_eq_dec : EqDecision MncwfCalibrationStatus.
Proof. solve_decision. Defined.

Inductive MncwfDecimationMethod :=
  | decimation_none
  | decimation_boxcar_mean_toward_zero.
Definition decimation_value (value : MncwfDecimationMethod) : Z :=
  match value with
  | decimation_none => 0
  | decimation_boxcar_mean_toward_zero => 1
  end.
(** [static_cast<MncwfDecimationMethod>], used on validated values only. *)
Definition decimation_cast (value : Z) : MncwfDecimationMethod :=
  if value =? 1 then decimation_boxcar_mean_toward_zero
  else decimation_none.
#[export] Instance MncwfDecimationMethod_eq_dec : EqDecision MncwfDecimationMethod.
Proof. solve_decision. Defined.

Inductive MncwfClockSource :=
  | clock_unknown
  | clock_system
  | clock_ptp
  | clock_gnss
  | clock_manual.
Definition clock_value (value : MncwfClockSource) : Z :=
  match value with
  | clock_unknown => 0
  | clock_system => 1
  | clock_ptp => 2
  | clock_gnss => 3
  | clock_manual => 4
  end.
(** [static_cast<MncwfClockSource>], used on validated values only. *)
Definition clock_cast (value : Z) : MncwfClockSource :=
  if value =? 1 then clock_system
  else if value =? 2 then clock_ptp
  else if value =? 3 then clock_gnss
  else if value =? 4 then clock_manual
  else clock_unknown.
#[export] Instance MncwfClockSource_eq_dec : EqDecision MncwfClockSource.
Proof. solve_decision. Defined.

Inductive MncwfTimeQuality :=
  | quality_unknown
  | quality_unlocked
  | quality_holdover
  | quality_locked.
Definition quality_value (value : MncwfTimeQuality) : Z :=
  match value with
  | quality_unknown => 0
  | quality_unlocked => 1
  | quality_holdover => 2
  | quality_locked => 3
  end.
(** [static_cast<MncwfTimeQuality>], used on validated values only. *)
Definition quality_cast (value : Z) : MncwfTimeQuality :=
  if value =? 1 then quality_unlocked
  else if value =? 2 then quality_holdover
  else if value =? 3 then quality_locked
  else quality_unknown.
#[export] Instance MncwfTimeQuality_eq_dec : EqDecision MncwfTimeQuality.
Proof. solve_decision. Defined.

Inductive MncwfPhase :=
  | phase_none
  | phase_a
  | phase_b
  | phase_c
  | phase_neutral
  | phase_ab
  | phase_bc
  | phase_ca.
Definition phase_value (value : MncwfPhase) : Z :=
  match value with
  | phase_none => 0
  | phase_a => 1
  | phase_b => 2
  | phase_c => 3
  | phase_neutral => 4
  | phase_ab => 5
  | phase_bc => 6
  | phase_ca => 7
  end.
(** [static_cast<MncwfPhase>], used on validated values only. *)
Definition phase_cast (value : Z) : MncwfPhase :=
  if value =? 1 then phase_a
  else if value =? 2 then phase_b
  else if value =? 3 then phase_c
  else if value =? 4 then phase_neutral
  else if value =? 5 then phase_ab
  else if value =? 6 then phase_bc
  else if value =? 7 then phase_ca
  else phase_none.
#[export] Instance MncwfPhase_eq_dec : EqDecision MncwfPhase.
Proof. solve_decision. Defined.

Inductive MncwfQuantity :=
  | quantity_unknown
  | quantity_current
  | quantity_voltage
  | quantity_status
  | quantity_frequency
  | quantity_ratio.
Definition quantity_value (value : MncwfQuantity) : Z :=
  match value with
  | quantity_unknown => 0
  | quantity_current => 1
  | quantity_voltage => 2
  | quantity_status => 3
  | quantity_frequency => 4
  | quantity_ratio => 5
  end.
(** [static_cast<MncwfQuantity>], used on validated values only. *)
Definition quantity_cast (value : Z) : MncwfQuantity :=
  if value =? 1 then quantity_current
  else if value =? 2 then quantity_voltage
  else if value =? 3 then quantity_status
  else if value =? 4 then quantity_frequency
  else if value =? 5 then quantity_ratio
  else quantity_unknown.
#[export] Instance MncwfQuantity_eq_dec : EqDecision MncwfQuantity.
Proof. solve_decision. Defined.

Inductive MncwfSiUnit :=
  | unit_dimensionless
  | unit_ampere
  | unit_volt
  | unit_hertz.
Definition unit_value (value : MncwfSiUnit) : Z :=
  match value with
  | unit_dimensionless => 0
  | unit_ampere => 1
  | unit_volt => 2
  | unit_hertz => 3
  end.
(** [static_cast<MncwfSiUnit>], used on validated values only. *)
Definition unit_cast (value : Z) : MncwfSiUnit :=
  if value =? 1 then unit_ampere
  else if value =? 2 then unit_volt
  else if value =? 3 then unit_hertz
  else unit_dimensionless.
#[export] Instance MncwfSiUnit_eq_dec : EqDecision MncwfSiUnit.
Proof. solve_decision. Defined.

Inductive MncwfSampleEncoding :=
  | encoding_signed_integer_little_endian.
Definition encoding_value (value : MncwfSampleEncoding) : Z :=
  match value with
  | encoding_signed_integer_little_endian => 1
  end.
(** [static_cast<MncwfSampleEncoding>], used on validated values only. *)
Definition encoding_cast (value : Z) : MncwfSampleEncoding := encoding_signed_integer_little_endian.
#[export] Instance MncwfSampleEncoding_eq_dec : EqDecision MncwfSampleEncoding.
Proof. solve_decision. Defined.

Inductive MncwfEventTaxonomy :=
  | taxonomy_unknown
  | taxonomy_iec_61000_4_30
  | taxonomy_product_alarm.
Definition taxonomy_value (value : MncwfEventTaxonomy) : Z :=
  match value with
  | taxonomy_unknown => 0
  | taxonomy_iec_61000_4_30 => 1
  | taxonomy_product_alarm => 2
  end.
(** [static_cast<MncwfEventTaxonomy>], used on validated values only. *)
Definition taxonomy_cast (value : Z) : MncwfEventTaxonomy :=
  if value =? 1 then taxonomy_iec_61000_4_30
  else if value =? 2 then taxonomy_product_alarm
  else taxonomy_unknown.
#[export] Instance MncwfEventTaxonomy_eq_dec : EqDecision MncwfEventTaxonomy.
Proof. solve_decision. Defined.

Inductive MncwfEventLifecycle :=
  | lifecycle_start
  | lifecycle_update
  | lifecycle_end
  | lifecycle_abort
  | lifecycle_complete.
Definition lifecycle_value (value : MncwfEventLifecycle) : Z :=
  match value with
  | lifecycle_start => 1
  | lifecycle_update => 2
  | lifecycle_end => 3
  | lifecycle_abort => 4
  | lifecycle_complete => 5
  end.
(** [static_cast<MncwfEventLifecycle>], used on validated values only. *)
Definition lifecycle_cast (value : Z) : MncwfEventLifecycle :=
  if value =? 2 then lifecycle_update
  else if value =? 3 then lifecycle_end
  else if value =? 4 then lifecycle_abort
  else if value =? 5 then lifecycle_complete
  else lifecycle_start.
#[export] Instance MncwfEventLifecycle_eq_dec : EqDecision MncwfEventLifecycle.
Proof. solve_decision. Defined.

Inductive MncwfLineageRelation :=
  | relation_parent
  | relation_previous_continuation
  | relation_next_continuation
  | relation_event
  | relation_virtual_slice.
Definition relation_value (value : MncwfLineageRelation) : Z :=
  match value with
  | relation_parent => 1
  | relation_previous_continuation => 2
  | relation_next_continuation => 3
  | relation_event => 4
  | relation_virtual_slice => 5
  end.
(** [static_cast<MncwfLineageRelation>], used on validated values only. *)
Definition relation_cast (value : Z) : MncwfLineageRelation :=
  if value =? 2 then relation_previous_continuation
  else if value =? 3 then relation_next_continuation
  else if value =? 4 then relation_event
  else if value =? 5 then relation_virtual_slice
  else relation_parent.
#[export] Instance MncwfLineageRelation_eq_dec : EqDecision MncwfLineageRelation.
Proof. solve_decision. Defined.

Inductive MncwfValidationMode :=
  | mode_complete
  | mode_metadata_only.

#[export] Instance MncwfValidationMode_eq_dec : EqDecision MncwfValidationMode.
Proof. solve_decision. Defined.

Inductive MncwfChunkCodec :=
  | codec_raw
  | codec_zstd.
Definition codec_value (value : MncwfChunkCodec) : Z :=
  match value with
  | codec_raw => 0
  | codec_zstd => 1
  end.
(** [static_cast<MncwfChunkCodec>], used on validated values only. *)
Definition codec_cast (value : Z) : MncwfChunkCodec :=
  if value =? 1 then codec_zstd
  else codec_raw.
#[export] Instance MncwfChunkCodec_eq_dec : EqDecision MncwfChunkCodec.
Proof. solve_decision. Defined.

(** ** Records *)

Record MncwfV4Header := mkHeader {
  hdr_version : Z;
  hdr_section_count : Z;
  hdr_directory_offset : Z;
  hdr_directory_bytes : Z;
  hdr_file_bytes : Z;
  hdr_flags : Z
}.

Record MncwfV5ChunkInfo := mkV5ChunkInfo {
  chunk_first_frame : Z;
  chunk_frame_count : Z;
  chunk_stored_offset : Z;
  chunk_stored_bytes : Z;
  chunk_logical_bytes : Z;
  chunk_codec : MncwfChunkCodec;
  chunk_flags : Z;
  chunk_logical_crc32c : Z
}.

Record MncwfV4SectionInfo := mkSectionInfo {
  sec_type : Z;
  sec_version : Z;
  sec_flags : Z;
  sec_offset : Z;
  sec_stored_bytes : Z;
  sec_logical_bytes : Z;
  sec_item_count : Z;
  sec_item_bytes : Z;
  sec_crc32c : Z;
  sec_data : list Z
}.

Record MncwfV4CaptureMetadata := mkCaptureMetadata {
  cap_capture_uuid : list Z;
  cap_device_uuid : list Z;
  cap_configuration_sha256 : list Z;
  cap_sensor_profile_sha256 : list Z;
  cap_created_tai_nanoseconds : Z;
  cap_created_utc_nanoseconds : Z;
  cap_nominal_voltage_numerator : Z;
  cap_nominal_voltage_denominator : Z;
  cap_nominal_frequency_numerator : Z;
  cap_nominal_frequency_denominator : Z;
  cap_topology : MncwfTopology;
  cap_calibration_status : MncwfCalibrationStatus;
  cap_flags : Z;
  cap_station_name : list Z;
  cap_site_name : list Z;
  cap_circuit_name : list Z;
  cap_product_name : list Z;
  cap_device_model : list Z;
  cap_firmware_version : list Z;
  cap_software_build_id : list Z;
  cap_sensor_profile_id : list Z;
  cap_configuration_id : list Z;
  cap_calibration_id : list Z;
  cap_device_serial : list Z;
  cap_comments : list Z
}.

Record MncwfV4TimebaseSegment := mkTimebaseSegment {
  seg_first_frame : Z;
  seg_frame_count : Z;
  seg_first_sequence : Z;
  seg_sequence_step : Z;
  seg_acquisition_rate_numerator : Z;
  seg_acquisition_rate_denominator : Z;
  seg_persisted_rate_numerator : Z;
  seg_persisted_rate_denominator : Z;
  seg_correlation_sequence : Z;
  seg_correlation_pl_tick : Z;
  seg_correlation_tai_nanoseconds : Z;
  seg_correlation_utc_nanoseconds : Z;
  seg_uncertainty_nanoseconds : Z;
  seg_decimation_divisor : Z;
  seg_decimation_method : MncwfDecimationMethod;
  seg_clock_source : MncwfClockSource;
  seg_time_quality : MncwfTimeQuality;
  seg_flags : Z;
  seg_utc_offset_seconds : Z;
  seg_source_frame_count : Z
}.

Record MncwfV4ChannelDefinition := mkChannelDefinition {
  ch_stable_id : list Z;
  ch_source_channel : Z;
  ch_flags : Z;
  ch_phase : MncwfPhase;
  ch_quantity : MncwfQuantity;
  ch_si_unit : MncwfSiUnit;
  ch_sample_encoding : MncwfSampleEncoding;
  ch_storage_bits : Z;
  ch_valid_bits : Z;
  ch_display_exponent10 : Z;
  ch_gain_numerator : Z;
  ch_gain_denominator : Z;
  ch_offset_numerator : Z;
  ch_offset_denominator : Z;
  ch_primary_secondary_ratio_numerator : Z;
  ch_primary_secondary_ratio_denominator : Z;
  ch_nominal_numerator : Z;
  ch_nominal_denominator : Z;
  ch_range_minimum_numerator : Z;
  ch_range_minimum_denominator : Z;
  ch_range_maximum_numerator : Z;
  ch_range_maximum_denominator : Z;
  ch_resolution_numerator : Z;
  ch_resolution_denominator : Z;
  ch_clipping_low : Z;
  ch_clipping_high : Z;
  ch_name : list Z;
  ch_unit_symbol : list Z;
  ch_description : list Z
}.

Record MncwfV4EventDescriptor := mkEventDescriptor {
  ev_event_uuid : list Z;
  ev_taxonomy : MncwfEventTaxonomy;
  ev_event_type : Z;
  ev_lifecycle : MncwfEventLifecycle;
  ev_time_quality : MncwfTimeQuality;
  ev_flags : Z;
  ev_phase_mask : Z;
  ev_quantity : MncwfQuantity;
  ev_si_unit : MncwfSiUnit;
  ev_trigger_source : Z;
  ev_configuration_generation : Z;
  ev_severity : Z;
  ev_start_sequence : Z;
  ev_current_sequence : Z;
  ev_end_sequence : Z;
  ev_trigger_sequence : Z;
  ev_start_tai_nanoseconds : Z;
  ev_current_tai_nanoseconds : Z;
  ev_end_tai_nanoseconds : Z;
  ev_trigger_tai_nanoseconds : Z;
  ev_start_utc_nanoseconds : Z;
  ev_current_utc_nanoseconds : Z;
  ev_end_utc_nanoseconds : Z;
  ev_trigger_utc_nanoseconds : Z;
  ev_uncertainty_nanoseconds : Z;
  ev_reference_micro_units : Z;
  ev_threshold_micro_units : Z;
  ev_hysteresis_micro_units : Z;
  ev_extrema_micro_units : list Z;
  ev_duration_samples : Z;
  ev_update_count : Z;
  ev_status : Z;
  ev_taxonomy_name : list Z;
  ev_label : list Z;
  ev_settings_snapshot_json : list Z
}.

Record MncwfV4QualityInterval := mkQualityInterval {
  qi_first_frame : Z;
  qi_frame_count : Z;
  qi_first_sequence : Z;
  qi_last_sequence : Z;
  qi_channel_mask : Z;
  qi_flags : Z;
  qi_severity : Z;
  qi_source : Z;
  qi_detail_code : Z
}.

Record MncwfV4LineageEntry := mkLineageEntry {
  lin_relation : MncwfLineageRelation;
  lin_flags : Z;
  lin_related_capture_uuid : list Z;
  lin_related_event_uuid : list Z;
  lin_first_sequence : Z;
  lin_last_sequence : Z;
  lin_part_index : Z;
  lin_part_count : Z
}.

Record MncwfV4Document := mkDocument {
  doc_capture_metadata : MncwfV4CaptureMetadata;
  doc_timebase_segments : list MncwfV4TimebaseSegment;
  doc_channels : list MncwfV4ChannelDefinition;
  doc_events : list MncwfV4EventDescriptor;
  doc_quality_intervals : list MncwfV4QualityInterval;
  doc_lineage : list MncwfV4LineageEntry;
  doc_sample_frame_count : Z;
  doc_sample_frame_bytes : Z;
  doc_sample_data : list Z
}.
