(* ===== verification/MncwfFormat.v ===== *)
(** * MNCWF waveform container: format, byte access, checksums and identities

    Models the shared half of src/common/msap1/waveform/mncwf_v4.{hpp,cpp}: the
    constants, enumerations and records of the container, the checked 64-bit
    arithmetic, bounded little-endian reads and writes, CRC-32C, the UTF-8 check,
    and the textual form of UUIDs.  A byte span is the list of its bytes; offsets
    and sizes are 64-bit unsigned integers; [std::string] is the list of its
    bytes.  Reading outside a span is [UndefinedBehaviour]. *)

From S2P Require Import Prelude DecodeEvents.

(** ** Rejection and checked arithmetic *)

Definition reject_error (reason : string) : exn := InvalidArgument ("MNCWF: " +:+ reason).
Definition reject {A} (reason : string) : result A := Throw (reject_error reason).
Definition guard_reject (condition : bool) (reason : string) : result unit :=
  reject_if condition (reject_error reason).

Definition zlen {A} (l : list A) : Z := Z.of_nat (length l).

Definition checked_add (left right : Z) (label : string) : result Z :=
  guard_reject (UINT64_MAX - left <? right) (label +:+ " overflows") ;;
  Ok (left + right).

Definition checked_multiply (left right : Z) (label : string) : result Z :=
  guard_reject (negb (left =? 0) && (UINT64_MAX / left <? right)) (label +:+ " overflows") ;;
  Ok (left * right).

(** [~mask] on a 64-bit unsigned operand. *)
Definition not64 (mask : Z) : Z := Z.lxor mask UINT64_MAX.

Definition align_eight (value : Z) : result Z :=
  sum ← checked_add value 7 "alignment";
  Ok (Z.land sum (not64 7)).

(** [size_t] is 64 bits wide on the target. *)
Definition narrow_size (value : Z) (label : string) : result Z :=
  guard_reject (UINT64_MAX <? value) (label +:+ " exceeds the host address space") ;;
  Ok value.

(** ** Spans *)

Definition slice (bytes : list Z) (offset length : Z) : list Z :=
  take (Z.to_nat length) (drop (Z.to_nat offset) bytes).

(** [span::subspan(offset, length)], undefined outside the span. *)
Definition subspan (bytes : list Z) (offset length : Z) : result (list Z) :=
  if (0 <=? offset) && (0 <=? length) && (offset + length <=? zlen bytes)
  then Ok (slice bytes offset length)
  else Throw (UndefinedBehaviour "subspan out of range").

Definition range (bytes : list Z) (offset length : Z) (label : string) : result (list Z) :=
  last ← checked_add offset length label;
  guard_reject (zlen bytes <? last) (label +:+ " is truncated") ;;
  first ← narrow_size offset label;
  count ← narrow_size length label;
  subspan bytes first count.

(** [value |= byte << (index * 8)] over the bytes of a field. *)
Definition or_bytes (bytes : list Z) : Z :=
  foldr (fun b high => Z.lor (Z.shiftl high 8) b) 0 bytes.

Definition read_field (width : Z) (truncated : string) (bytes : list Z) (offset : Z) : result (list Z) :=
  guard_reject ((zlen bytes <? offset) || (zlen bytes - offset <? width)) truncated ;;
  subspan bytes offset width.

Definition read_u16 (bytes : list Z) (offset : Z) : result Z :=
  or_bytes <$> read_field 2 "truncated 16-bit field" bytes offset.
Definition read_u32 (bytes : list Z) (offset : Z) : result Z :=
  or_bytes <$> read_field 4 "truncated 32-bit field" bytes offset.
Definition read_u64 (bytes : list Z) (offset : Z) : result Z :=
  or_bytes <$> read_field 8 "truncated 64-bit field" bytes offset.
Definition read_s16 (bytes : list Z) (offset : Z) : result Z := sign 16 <$> read_u16 bytes offset.
Definition read_s32 (bytes : list Z) (offset : Z) : result Z := sign 32 <$> read_u32 bytes offset.
Definition read_s64 (bytes : list Z) (offset : Z) : result Z := sign 64 <$> read_u64 bytes offset.
Definition read_array (size : Z) (bytes : list Z) (offset : Z) : result (list Z) :=
  read_field size "truncated byte-array field" bytes offset.

Definition all_zero (value : list Z) : bool := forallb (fun byte => byte =? 0) value.

(** Overwriting [length value] bytes from [offset] on. *)
Definition splice (bytes : list Z) (offset : Z) (value : list Z) : list Z :=
  take (Z.to_nat offset) bytes ++ value ++ drop (Z.to_nat offset + length value) bytes.

Definition ensure_write (bytes : list Z) (offset width : Z) : result unit :=
  guard_reject ((zlen bytes <? offset) || (zlen bytes - offset <? width))
    "encoder field exceeds its record".

(** [std::copy] into a vector, undefined outside it. *)
Definition copy_into (bytes : list Z) (offset : Z) (value : list Z) : result (list Z) :=
  if (0 <=? offset) && (offset + zlen value <=? zlen bytes)
  then Ok (splice bytes offset value)
  else Throw (UndefinedBehaviour "copy out of range").

Definition put_unsigned (width : nat) (bytes : list Z) (offset value : Z) : result (list Z) :=
  ensure_write bytes offset (Z.of_nat width) ;;
  copy_into bytes offset (le_bytes width value).

Definition put_u16 : list Z -> Z -> Z -> result (list Z) := put_unsigned 2.
Definition put_u32 : list Z -> Z -> Z -> result (list Z) := put_unsigned 4.
Definition put_u64 : list Z -> Z -> Z -> result (list Z) := put_unsigned 8.
Definition put_s16 (bytes : list Z) (offset value : Z) : result (list Z) := put_u16 bytes offset (wrap 16 value).
Definition put_s32 (bytes : list Z) (offset value : Z) : result (list Z) := put_u32 bytes offset (wrap 32 value).
Definition put_s64 (bytes : list Z) (offset value : Z) : result (list Z) := put_u64 bytes offset (wrap 64 value).
Definition put_array (size : Z) (bytes : list Z) (offset : Z) (value : list Z) : result (list Z) :=
  ensure_write bytes offset size ;;
  copy_into bytes offset value.

(** ** CRC-32C *)

Definition crc32c_bit (crc : Z) : Z :=
  Z.lxor (Z.shiftr crc 1) (if any_bit crc 1 then 0x82F63B78 else 0).

Definition crc32c_byte (crc value : Z) : Z :=
  Nat.iter 8 crc32c_bit (Z.lxor crc value).

Definition crc32c_update (crc : Z) (bytes : list Z) : Z := foldl crc32c_byte crc bytes.

Definition mncwf_crc32c (bytes : list Z) : Z :=
  Z.lxor (crc32c_update 0xffffffff bytes) 0xffffffff.

(** ** UTF-8 *)

(** Lead byte: number of continuation bytes, payload bits, least code point. *)
Definition utf8_lead (first : Z) : option (nat * Z * Z) :=
  if Z.land first 0xe0 =? 0xc0 then Some (1%nat, Z.land first 0x1f, 0x80)
  else if Z.land first 0xf0 =? 0xe0 then Some (2%nat, Z.land first 0x0f, 0x800)
  else if Z.land first 0xf8 =? 0xf0 then Some (3%nat, Z.land first 0x07, 0x10000)
  else None.

(** The loop over the continuation bytes: the code point, or a bad byte. *)
Fixpoint utf8_tail (continuation : nat) (codepoint : Z) (value : list Z) : option (Z * list Z) :=
  match continuation, value with
  | O, _ => Some (codepoint, value)
  | S n, next :: value =>
      if negb (Z.land next 0xc0 =? 0x80) then None
      else utf8_tail n (Z.lor (u32 (Z.shiftl codepoint 6)) (Z.land next 0x3f)) value
  | S _, [] => None
  end.

(** One turn of the loop at a nonempty remainder: what is left, or invalid. *)
Definition utf8_turn (first : Z) (value : list Z) : option (list Z) :=
  if first =? 0 then None
  else if first <? 0x80 then Some value
  else
    match utf8_lead first with
    | None => None
    | Some (continuation, codepoint, minimum) =>
        if (length value <? continuation)%nat then None
        else
          match utf8_tail continuation codepoint value with
          | None => None
          | Some (codepoint, rest) =>
              if (codepoint <? minimum) || (0x10ffff <? codepoint)
                 || ((0xd800 <=? codepoint) && (codepoint <=? 0xdfff))
              then None else Some rest
          end
    end.

(** [turns] bounds the loop; each turn consumes a byte at least. *)
Fixpoint utf8_loop (turns : nat) (value : list Z) : option bool :=
  match value with
  | [] => Some true
  | first :: value =>
      match turns with
      | O => None
      | S turns =>
          match utf8_turn first value with
          | None => Some false
          | Some rest => utf8_loop turns rest
          end
      end
  end.

Definition valid_utf8 (value : list Z) : bool := default false (utf8_loop (length value) value).

(** ** UUID text *)

Definition uuid_digits : list Z := [48; 49; 50; 51; 52; 53; 54; 55; 56; 57; 97; 98; 99; 100; 101; 102].

Definition uuid_string_turn (text : list Z) (entry : nat * Z) : list Z :=
  let '(index, value) := entry in
  (if (index =? 4)%nat || (index =? 6)%nat || (index =? 8)%nat || (index =? 10)%nat
   then text ++ [45] else text) ++
  [nth (Z.to_nat (Z.shiftr value 4)) uuid_digits 0; nth (Z.to_nat (Z.land value 0x0f)) uuid_digits 0].

Definition mncwf_uuid_string (uuid : list Z) : list Z :=
  foldl uuid_string_turn [] (zip (seq 0 (length uuid)) uuid).

Definition nibble (value : Z) : option Z :=
  if (48 <=? value) && (value <=? 57) then Some (value - 48)
  else if (97 <=? value) && (value <=? 102) then Some (value - 97 + 10)
  else None.

(** The loop over the sixteen result bytes; [source] is the text index. *)
Fixpoint uuid_parse_loop (count : nat) (source : nat) (text : list Z) : option (list Z) :=
  match count with
  | O => Some []
  | S count =>
      let source := if (source =? 8)%nat || (source =? 13)%nat || (source =? 18)%nat || (source =? 23)%nat
                    then S source else source in
      match nibble (nth source text 0), nibble (nth (S source) text 0) with
      | Some high, Some low =>
          (fun rest => Z.lor (Z.shiftl high 4) low :: rest) <$> uuid_parse_loop count (S (S source)) text
      | _, _ => None
      end
  end.

Definition mncwf_uuid_from_string (text : list Z) : option (list Z) :=
  if negb (length text =? 36)%nat || negb (nth 8 text 0 =? 45) || negb (nth 13 text 0 =? 45)
     || negb (nth 18 text 0 =? 45) || negb (nth 23 text 0 =? 45)
  then None else uuid_parse_loop 16 0 text.

Definition mncwf_uuid_is_zero (uuid : list Z) : bool := all_zero uuid.

Definition mncwf_stable_event_uuid (SHA256 : list Z -> option (list Z)) (session counter : Z) : result (list Z) :=
  stable_power_quality_event_uuid SHA256 (mkEventId session counter).

(** [SHA256] of OpenSSL: the digest, or nothing for a null pointer. *)
Definition mncwf_sha256 (SHA256 : list Z -> option (list Z)) (bytes : list Z) : result (list Z) :=
  match SHA256 bytes with
  | Some digest => Ok digest
  | None => Throw (RuntimeError "MNCWF v4: SHA-256 failed")
  end.

(** One [getrandom] call: bytes delivered, interrupted, or a failure. *)
Inductive GetRandom :=
  | RandomBytes (bytes : list Z)
  | RandomInterrupted
  | RandomFailed (error : string).

(** The fill loop over the outcomes of successive calls; [None] while the kernel
    has not answered enough of them. *)
Fixpoint random_fill (completed : list Z) (calls : list GetRandom) : option (result (list Z)) :=
  if (16 <=? length completed)%nat then Some (Ok completed)
  else
    match calls with
    | [] => None
    | RandomInterrupted :: calls => random_fill completed calls
    | RandomFailed error :: _ => Some (Throw (RuntimeError ("MNCWF v4: kernel UUID RNG: " +:+ error)))
    | RandomBytes [] :: _ => Some (Throw (RuntimeError "MNCWF v4: kernel UUID RNG returned EOF"))
    | RandomBytes bytes :: calls => random_fill (completed ++ take (16 - length completed) bytes) calls
    end.

Definition stamp_uuid (version : Z) (uuid : list Z) : list Z :=
  let uuid := <[6%nat := Z.lor (Z.land (nth 6 uuid 0) 0x0f) version]> uuid in
  <[8%nat := Z.lor (Z.land (nth 8 uuid 0) 0x3f) 0x80]> uuid.

Definition mncwf_random_uuid (calls : list GetRandom) : option (result (list Z)) :=
  (fun filled => uuid ← filled; Ok (stamp_uuid 0x40 uuid)) <$> random_fill [] calls.
