(* ===== verification/MncwfRecords.v ===== *)
(** * MNCWF waveform container: section envelopes and typed records

    Models the section-level half of the reader of
    src/common/msap1/waveform/mncwf_v4.cpp: the envelope of a mandatory section
    ([parse_section_envelope]), bounded string references, and the record loops of
    the [MncwfV4Reader] constructor with every check they make. *)

From S2P Require Import Prelude MncwfTypes MncwfFormat.

(** ** Strings *)

Definition read_string (record : list Z) (ref_offset : Z) (blob : list Z) (label : string) : result (list Z) :=
  offset ← read_u32 record ref_offset;
  bytes ← read_u32 record (ref_offset + 4);
  guard_reject (mncwf_v4_max_string_bytes <? bytes) (label +:+ " exceeds the string bound") ;;
  guard_reject ((bytes =? 0) && negb (offset =? 0)) (label +:+ " has a noncanonical empty reference") ;;
  text ← range blob offset bytes label;
  match text with
  | [] => Ok []
  | _ => guard_reject (negb (valid_utf8 text)) (label +:+ " is not canonical UTF-8") ;; Ok text
  end.

(** ** Enumeration bounds *)

Definition known_section (type : Z) : bool :=
  (section_value section_capture_metadata <=? type) && (type <=? section_value section_sample_data).
Definition section_index (type : Z) : nat := Z.to_nat (type - 1).

Definition valid_topology (value : Z) : bool := value <=? topology_value topology_delta.
Definition valid_calibration (value : Z) : bool := value <=? calibration_value calibration_invalid.
Definition valid_time_quality (value : Z) : bool := value <=? quality_value quality_locked.
Definition valid_clock_source (value : Z) : bool := value <=? clock_value clock_manual.
Definition valid_phase (value : Z) : bool := value <=? phase_value phase_ca.
Definition valid_quantity (value : Z) : bool := value <=? quantity_value quantity_ratio.
Definition valid_unit (value : Z) : bool := value <=? unit_value unit_hertz.
Definition valid_event_taxonomy (value : Z) : bool := value <=? taxonomy_value taxonomy_product_alarm.
Definition valid_event_lifecycle (value : Z) : bool :=
  (lifecycle_value lifecycle_start <=? value) && (value <=? lifecycle_value lifecycle_complete).
Definition valid_lineage_relation (value : Z) : bool :=
  (relation_value relation_parent <=? value) && (value <=? relation_value relation_virtual_slice).

(** ** Section envelope *)

Record ParsedSection := mkParsedSection { records : list Z; blob : list Z }.

Definition parse_section_envelope (section : MncwfV4SectionInfo) (expected_item_bytes minimum_count
    maximum_count : Z) (allow_blob : bool) : result ParsedSection :=
  guard_reject (negb (sec_version section =? 1)) "unsupported mandatory-section version" ;;
  guard_reject (negb (sec_flags section =? mncwf_v4_section_required))
    "mandatory section is not marked required" ;;
  guard_reject (negb (sec_item_bytes section =? expected_item_bytes)
                || (sec_item_count section <? minimum_count) || (maximum_count <? sec_item_count section))
    "mandatory-section geometry is invalid" ;;
  guard_reject (zlen (sec_data section) <? mncwf_v4_section_header_bytes)
    "mandatory section header is truncated" ;;
  type ← read_u32 (sec_data section) 0;
  version ← read_u16 (sec_data section) 4;
  header ← read_u16 (sec_data section) 6;
  flags ← read_u32 (sec_data section) 8;
  item_bytes ← read_u32 (sec_data section) 12;
  item_count ← read_u64 (sec_data section) 16;
  reserved ← read_u64 (sec_data section) 40;
  guard_reject (negb (type =? sec_type section) || negb (version =? sec_version section)
                || negb (header =? mncwf_v4_section_header_bytes) || negb (flags =? 0)
                || negb (item_bytes =? sec_item_bytes section) || negb (item_count =? sec_item_count section)
                || negb (reserved =? 0))
    "mandatory section envelope disagrees with its directory entry" ;;
  records_bytes ← checked_multiply (sec_item_count section) (sec_item_bytes section) "section records";
  records_end ← checked_add mncwf_v4_section_header_bytes records_bytes "section records";
  blob_offset ← read_u64 (sec_data section) 24;
  blob_bytes ← read_u64 (sec_data section) 32;
  (if blob_bytes =? 0
   then guard_reject (negb (blob_offset =? 0) || negb (records_end =? sec_stored_bytes section))
          "section without a blob has trailing data"
   else
     guard_reject (negb allow_blob) "section blob geometry is invalid" ;;
     aligned ← align_eight records_end;
     guard_reject (negb (blob_offset =? aligned)) "section blob geometry is invalid" ;;
     blob_end ← checked_add blob_offset blob_bytes "section blob";
     guard_reject (negb (blob_end =? sec_stored_bytes section)) "section blob geometry is invalid" ;;
     padding ← range (sec_data section) records_end (blob_offset - records_end) "section blob padding";
     guard_reject (negb (all_zero padding)) "section blob padding is nonzero") ;;
  records ← range (sec_data section) mncwf_v4_section_header_bytes records_bytes "section records";
  blob ← (if blob_bytes =? 0 then Ok [] else range (sec_data section) blob_offset blob_bytes "section blob");
  Ok (mkParsedSection records blob).

(** Record [index] of a section, [records.subspan(index * size, size)]. *)
Definition record_at (records : list Z) (index : nat) (size : Z) (label : string) : result (list Z) :=
  offset ← narrow_size (Z.of_nat index * size) label;
  subspan records offset size.

(** ** Capture metadata *)

Definition parse_capture_metadata (section : ParsedSection) : result MncwfV4CaptureMetadata :=
  let capture := records section in
  capture_uuid ← read_array 16 capture 0;
  device_uuid ← read_array 16 capture 16;
  configuration_sha256 ← read_array 32 capture 32;
  sensor_profile_sha256 ← read_array 32 capture 64;
  created_tai_nanoseconds ← read_u64 capture 96;
  created_utc_nanoseconds ← read_u64 capture 104;
  nominal_voltage_numerator ← read_s64 capture 112;
  nominal_voltage_denominator ← read_u64 capture 120;
  nominal_frequency_numerator ← read_u64 capture 128;
  nominal_frequency_denominator ← read_u64 capture 136;
  topology ← read_u32 capture 144;
  calibration ← read_u32 capture 148;
  flags ← read_u32 capture 152;
  reserved ← read_u32 capture 156;
  guard_reject (all_zero capture_uuid || all_zero device_uuid || all_zero configuration_sha256
                || all_zero sensor_profile_sha256 || (nominal_voltage_denominator =? 0)
                || (nominal_frequency_denominator =? 0) || negb (valid_topology topology)
                || negb (valid_calibration calibration) || negb (flags =? 0) || negb (reserved =? 0))
    "capture metadata is invalid" ;;
  let capture_string index := read_string capture (160 + index * 8) (blob section) "capture metadata string" in
  station_name ← capture_string 0;
  site_name ← capture_string 1;
  circuit_name ← capture_string 2;
  product_name ← capture_string 3;
  device_model ← capture_string 4;
  firmware_version ← capture_string 5;
  software_build_id ← capture_string 6;
  sensor_profile_id ← capture_string 7;
  configuration_id ← capture_string 8;
  calibration_id ← capture_string 9;
  device_serial ← capture_string 10;
  comments ← capture_string 11;
  guard_reject (bool_decide (product_name = []) || bool_decide (firmware_version = [])
                || bool_decide (software_build_id = []) || bool_decide (sensor_profile_id = [])
                || bool_decide (configuration_id = []))
    "required capture identity is empty" ;;
  Ok (mkCaptureMetadata capture_uuid device_uuid configuration_sha256 sensor_profile_sha256
        created_tai_nanoseconds created_utc_nanoseconds nominal_voltage_numerator
        nominal_voltage_denominator nominal_frequency_numerator nominal_frequency_denominator
        (topology_cast topology) (calibration_cast calibration) flags station_name site_name
        circuit_name product_name device_model firmware_version software_build_id
        sensor_profile_id configuration_id calibration_id device_serial comments).

(** ** Timebase segments *)

Definition reduced (numerator denominator : Z) : result (Z * Z) :=
  guard_reject ((numerator =? 0) || (denominator =? 0)) "sample-rate rational is zero" ;;
  let divisor := Z.gcd numerator denominator in
  Ok (numerator / divisor, denominator / divisor).

Definition rate_matches_decimation (segment : MncwfV4TimebaseSegment) : result bool :=
  let cancellation := Z.gcd (seg_acquisition_rate_numerator segment) (seg_decimation_divisor segment) in
  let numerator := seg_acquisition_rate_numerator segment / cancellation in
  let decimation := seg_decimation_divisor segment / cancellation in
  denominator ← checked_multiply (seg_acquisition_rate_denominator segment) decimation
                  "decimated sample-rate denominator";
  decimated ← reduced numerator denominator;
  persisted ← reduced (seg_persisted_rate_numerator segment) (seg_persisted_rate_denominator segment);
  Ok (bool_decide (decimated = persisted)).

(** The segment of a record and the raw method, clock source and quality. *)
Definition read_timebase_record (record : list Z) : result (MncwfV4TimebaseSegment * (Z * Z * Z)) :=
  first_frame ← read_u64 record 0;
  frame_count ← read_u64 record 8;
  first_sequence ← read_u64 record 16;
  sequence_step ← read_u64 record 24;
  acquisition_rate_numerator ← read_u64 record 32;
  acquisition_rate_denominator ← read_u64 record 40;
  persisted_rate_numerator ← read_u64 record 48;
  persisted_rate_denominator ← read_u64 record 56;
  correlation_sequence ← read_u64 record 64;
  correlation_pl_tick ← read_u64 record 72;
  correlation_tai_nanoseconds ← read_u64 record 80;
  correlation_utc_nanoseconds ← read_u64 record 88;
  uncertainty_nanoseconds ← read_u64 record 96;
  decimation_divisor ← read_u32 record 104;
  method ← read_u16 record 108;
  clock ← read_u16 record 110;
  quality ← read_u16 record 112;
  flags ← read_u16 record 114;
  utc_offset_seconds ← read_s32 record 116;
  source_frame_count ← read_u64 record 120;
  Ok (mkTimebaseSegment first_frame frame_count first_sequence sequence_step
        acquisition_rate_numerator acquisition_rate_denominator persisted_rate_numerator
        persisted_rate_denominator correlation_sequence correlation_pl_tick
        correlation_tai_nanoseconds correlation_utc_nanoseconds uncertainty_nanoseconds
        decimation_divisor (decimation_cast method) (clock_cast clock) (quality_cast quality)
        flags utc_offset_seconds source_frame_count,
      (method, clock, quality)).

Definition timebase_invalid (segment : MncwfV4TimebaseSegment) (raw : Z * Z * Z)
    (expected_first_frame : Z) : bool :=
  let '(method, clock, quality) := raw in
  negb (seg_first_frame segment =? expected_first_frame) || (seg_frame_count segment =? 0)
  || (seg_sequence_step segment =? 0) || (seg_decimation_divisor segment =? 0)
  || (65536 <? seg_decimation_divisor segment)
  || any_bit (seg_flags segment) (Z.lnot mncwf_time_known_flags)
  || negb (valid_clock_source clock) || negb (valid_time_quality quality)
  || (decimation_value decimation_boxcar_mean_toward_zero <? method)
  || (negb (any_bit (seg_flags segment) mncwf_time_utc_offset_known)
      && (negb (seg_utc_offset_seconds segment =? 0)
          || negb (seg_correlation_utc_nanoseconds segment =? 0)
          || any_bit (seg_flags segment)
               (Z.lor mncwf_time_positive_leap_pending mncwf_time_negative_leap_pending)))
  || (seg_correlation_tai_nanoseconds segment =? 0)
  || (any_bit (seg_flags segment) mncwf_time_positive_leap_pending
      && any_bit (seg_flags segment) mncwf_time_negative_leap_pending).

Definition check_decimation (segment : MncwfV4TimebaseSegment) : result unit :=
  match seg_decimation_method segment with
  | decimation_none =>
      guard_reject (negb (seg_decimation_divisor segment =? 1) || negb (seg_sequence_step segment =? 1)
                    || negb (seg_source_frame_count segment =? seg_frame_count segment))
        "non-decimated timebase geometry is inconsistent"
  | decimation_boxcar_mean_toward_zero =>
      guard_reject (negb (seg_sequence_step segment =? seg_decimation_divisor segment))
        "boxcar sequence step does not equal its divisor" ;;
      complete ← checked_multiply (seg_frame_count segment - 1) (seg_decimation_divisor segment)
                   "boxcar source-frame minimum";
      minimum_source ← checked_add complete 1 "boxcar source-frame minimum";
      maximum_source ← checked_multiply (seg_frame_count segment) (seg_decimation_divisor segment)
                         "boxcar source-frame maximum";
      guard_reject ((seg_source_frame_count segment <? minimum_source)
                    || (maximum_source <? seg_source_frame_count segment))
        "boxcar source-frame count is inconsistent"
  end.

Definition check_rate_change (previous segment : MncwfV4TimebaseSegment) : result unit :=
  previous_acquisition ← reduced (seg_acquisition_rate_numerator previous) (seg_acquisition_rate_denominator previous);
  acquisition ← reduced (seg_acquisition_rate_numerator segment) (seg_acquisition_rate_denominator segment);
  previous_persisted ← reduced (seg_persisted_rate_numerator previous) (seg_persisted_rate_denominator previous);
  persisted ← reduced (seg_persisted_rate_numerator segment) (seg_persisted_rate_denominator segment);
  let rate_changed :=
    negb (bool_decide (previous_acquisition = acquisition)) || negb (bool_decide (previous_persisted = persisted))
    || negb (seg_decimation_divisor previous =? seg_decimation_divisor segment)
    || negb (bool_decide (seg_decimation_method previous = seg_decimation_method segment)) in
  let declared := any_bit (seg_flags segment) mncwf_time_rate_change_before in
  guard_reject (negb (eqb rate_changed declared)) "timebase rate-change flag is inconsistent".

Record TimebaseState := mkTimebaseState {
  ts_segments : list MncwfV4TimebaseSegment;
  ts_expected_first_frame : Z;
  ts_expected_next_sequence : option Z
}.

Definition timebase_turn (section : ParsedSection) (state : TimebaseState) (index : nat) : result TimebaseState :=
  record ← record_at (records section) index mncwf_v4_timebase_segment_bytes "timebase record";
  '(segment, raw) ← read_timebase_record record;
  guard_reject (timebase_invalid segment raw (ts_expected_first_frame state)) "timebase segment is invalid" ;;
  check_decimation segment ;;
  matches ← rate_matches_decimation segment;
  guard_reject (negb matches) "persisted rate does not match acquisition rate/divisor" ;;
  guard_reject ((index =? 0)%nat
                && any_bit (seg_flags segment)
                     (Z.lor mncwf_time_rate_change_before mncwf_time_sequence_gap_before))
    "first timebase segment declares a preceding discontinuity" ;;
  match ts_expected_next_sequence state with
  | Some expected =>
      let gap := any_bit (seg_flags segment) mncwf_time_sequence_gap_before in
      guard_reject ((negb gap && negb (seg_first_sequence segment =? expected))
                    || (gap && (seg_first_sequence segment <=? expected)))
        "timebase sequence continuity is inconsistent"
  | None => Ok tt
  end ;;
  match list.last (ts_segments state) with
  | Some previous => check_rate_change previous segment
  | None => Ok tt
  end ;;
  next_sequence ← checked_add (seg_first_sequence segment) (seg_source_frame_count segment)
                    "timebase source sequence";
  next_frame ← checked_add (seg_first_frame segment) (seg_frame_count segment) "timebase frame coverage";
  Ok (mkTimebaseState (ts_segments state ++ [segment]) next_frame (Some next_sequence)).

(** A loop over record indices that threads its state. *)
Fixpoint record_loop {S} (turn : S -> nat -> result S) (state : S) (indices : list nat) : result S :=
  match indices with
  | [] => Ok state
  | index :: indices => state ← turn state index; record_loop turn state indices
  end.

Definition parse_timebase (section : ParsedSection) (item_count : Z) : result TimebaseState :=
  record_loop (timebase_turn section) (mkTimebaseState [] 0 None) (seq 0 (Z.to_nat item_count)).

(** ** Channel definitions *)

Definition read_channel_record (record blob : list Z) : result (MncwfV4ChannelDefinition * (Z * Z * Z * Z * Z)) :=
  stable_id ← read_array 16 record 0;
  source_channel ← read_u32 record 16;
  flags ← read_u32 record 20;
  phase ← read_u16 record 24;
  quantity ← read_u16 record 26;
  unit ← read_u16 record 28;
  encoding ← read_u16 record 30;
  storage_bits ← read_u16 record 32;
  valid_bits ← read_u16 record 34;
  display_exponent10 ← read_s16 record 36;
  gain_numerator ← read_s64 record 40;
  gain_denominator ← read_u64 record 48;
  offset_numerator ← read_s64 record 56;
  offset_denominator ← read_u64 record 64;
  primary_secondary_ratio_numerator ← read_u64 record 72;
  primary_secondary_ratio_denominator ← read_u64 record 80;
  nominal_numerator ← read_s64 record 88;
  nominal_denominator ← read_u64 record 96;
  range_minimum_numerator ← read_s64 record 104;
  range_minimum_denominator ← read_u64 record 112;
  range_maximum_numerator ← read_s64 record 120;
  range_maximum_denominator ← read_u64 record 128;
  resolution_numerator ← read_u64 record 136;
  resolution_denominator ← read_u64 record 144;
  clipping_low ← read_s64 record 152;
  clipping_high ← read_s64 record 160;
  name ← read_string record 168 blob "channel name";
  unit_symbol ← read_string record 176 blob "channel unit";
  description ← read_string record 184 blob "channel description";
  reserved ← read_u16 record 38;
  Ok (mkChannelDefinition stable_id source_channel flags (phase_cast phase) (quantity_cast quantity)
        (unit_cast unit) (encoding_cast encoding) storage_bits valid_bits display_exponent10
        gain_numerator gain_denominator offset_numerator offset_denominator
        primary_secondary_ratio_numerator primary_secondary_ratio_denominator nominal_numerator
        nominal_denominator range_minimum_numerator range_minimum_denominator
        range_maximum_numerator range_maximum_denominator resolution_numerator
        resolution_denominator clipping_low clipping_high name unit_symbol description,
      (phase, quantity, unit, encoding, reserved)).

Definition channel_invalid (channel : MncwfV4ChannelDefinition) (raw : Z * Z * Z * Z * Z)
    (tail : list Z) (channel_ids : list (list Z)) (source_channels : list Z) : bool :=
  let '(phase, quantity, unit, encoding, reserved) := raw in
  all_zero (ch_stable_id channel) || bool_decide (ch_stable_id channel ∈ channel_ids)
  || bool_decide (ch_source_channel channel ∈ source_channels)
  || any_bit (ch_flags channel) (not32 mncwf_channel_known_flags)
  || negb (any_bit (ch_flags channel) mncwf_channel_enabled)
  || negb (valid_phase phase) || negb (valid_quantity quantity) || negb (valid_unit unit)
  || negb (encoding =? encoding_value encoding_signed_integer_little_endian)
  || (ch_storage_bits channel =? 0) || (64 <? ch_storage_bits channel)
  || negb (ch_storage_bits channel mod 8 =? 0) || (ch_valid_bits channel =? 0)
  || (ch_storage_bits channel <? ch_valid_bits channel) || negb (reserved =? 0)
  || negb (all_zero tail) || bool_decide (ch_name channel = [])
  || bool_decide (ch_unit_symbol channel = []).

Definition check_channel_scaling (channel : MncwfV4ChannelDefinition) : result unit :=
  let has := any_bit (ch_flags channel) in
  guard_reject (has mncwf_channel_transform_valid
                && ((ch_gain_numerator channel =? 0) || (ch_gain_denominator channel =? 0)
                    || (ch_offset_denominator channel =? 0)))
    "channel affine transform is invalid" ;;
  guard_reject (has mncwf_channel_ratio_valid
                && ((ch_primary_secondary_ratio_numerator channel =? 0)
                    || (ch_primary_secondary_ratio_denominator channel =? 0)))
    "channel ratio is invalid" ;;
  guard_reject (has mncwf_channel_nominal_valid && (ch_nominal_denominator channel =? 0))
    "channel nominal has a zero denominator" ;;
  guard_reject (has mncwf_channel_range_valid
                && ((ch_range_minimum_denominator channel =? 0) || (ch_range_maximum_denominator channel =? 0)))
    "channel range has a zero denominator" ;;
  guard_reject (has mncwf_channel_resolution_valid
                && ((ch_resolution_numerator channel =? 0) || (ch_resolution_denominator channel =? 0)))
    "channel resolution is invalid" ;;
  guard_reject (has mncwf_channel_clipping_valid && (ch_clipping_high channel <? ch_clipping_low channel))
    "channel clipping bounds are reversed".

(** The two sets hold the identities of the channels read so far. *)
Record ChannelState := mkChannelState {
  cs_channels : list MncwfV4ChannelDefinition;
  cs_expected_frame_bytes : Z
}.

Definition channel_turn (section : ParsedSection) (state : ChannelState) (index : nat) : result ChannelState :=
  record ← record_at (records section) index mncwf_v4_channel_definition_bytes "channel record";
  '(channel, raw) ← read_channel_record record (blob section);
  tail ← subspan record 192 16;
  guard_reject (channel_invalid channel raw tail (map ch_stable_id (cs_channels state))
                  (map ch_source_channel (cs_channels state)))
    "channel definition is invalid" ;;
  check_channel_scaling channel ;;
  frame_bytes ← checked_add (cs_expected_frame_bytes state) (ch_storage_bits channel / 8) "sample frame bytes";
  Ok (mkChannelState (cs_channels state ++ [channel]) frame_bytes).

Definition parse_channels (section : ParsedSection) (item_count : Z) : result ChannelState :=
  record_loop (channel_turn section) (mkChannelState [] 0) (seq 0 (Z.to_nat item_count)).

(** ** Event descriptors *)

Definition read_event_record (record blob : list Z)
    : result (MncwfV4EventDescriptor * (Z * Z * Z * Z * Z) * (Z * Z * Z)) :=
  event_uuid ← read_array 16 record 0;
  taxonomy ← read_u16 record 16;
  event_type ← read_u16 record 18;
  lifecycle ← read_u16 record 20;
  time_quality ← read_u16 record 22;
  flags ← read_u32 record 24;
  phase_mask ← read_u32 record 28;
  quantity ← read_u16 record 32;
  unit ← read_u16 record 34;
  trigger_source ← read_u16 record 36;
  configuration_generation ← read_u32 record 40;
  severity ← read_u32 record 44;
  start_sequence ← read_u64 record 48;
  current_sequence ← read_u64 record 56;
  end_sequence ← read_u64 record 64;
  trigger_sequence ← read_u64 record 72;
  start_tai_nanoseconds ← read_u64 record 80;
  current_tai_nanoseconds ← read_u64 record 88;
  end_tai_nanoseconds ← read_u64 record 96;
  trigger_tai_nanoseconds ← read_u64 record 104;
  start_utc_nanoseconds ← read_u64 record 112;
  current_utc_nanoseconds ← read_u64 record 120;
  end_utc_nanoseconds ← read_u64 record 128;
  trigger_utc_nanoseconds ← read_u64 record 136;
  uncertainty_nanoseconds ← read_u64 record 144;
  reference_micro_units ← read_s64 record 152;
  threshold_micro_units ← read_s64 record 160;
  hysteresis_micro_units ← read_s64 record 168;
  extremum_a ← read_s64 record (176 + 0 * 8);
  extremum_b ← read_s64 record (176 + 1 * 8);
  extremum_c ← read_s64 record (176 + 2 * 8);
  duration_samples ← read_u64 record 200;
  update_count ← read_u64 record 208;
  status ← read_u32 record 216;
  taxonomy_name ← read_string record 224 blob "event taxonomy name";
  label ← read_string record 232 blob "event label";
  settings_snapshot_json ← read_string record 240 blob "event settings snapshot";
  reserved_a ← read_u16 record 38;
  reserved_b ← read_u32 record 220;
  reserved_c ← read_u64 record 248;
  Ok (mkEventDescriptor event_uuid (taxonomy_cast taxonomy) event_type (lifecycle_cast lifecycle)
        (quality_cast time_quality) flags phase_mask (quantity_cast quantity) (unit_cast unit)
        trigger_source configuration_generation severity start_sequence current_sequence
        end_sequence trigger_sequence start_tai_nanoseconds current_tai_nanoseconds
        end_tai_nanoseconds trigger_tai_nanoseconds start_utc_nanoseconds
        current_utc_nanoseconds end_utc_nanoseconds trigger_utc_nanoseconds
        uncertainty_nanoseconds reference_micro_units threshold_micro_units
        hysteresis_micro_units [extremum_a; extremum_b; extremum_c] duration_samples
        update_count status taxonomy_name label settings_snapshot_json,
      (taxonomy, lifecycle, time_quality, quantity, unit), (reserved_a, reserved_b, reserved_c)).

Definition event_invalid (event : MncwfV4EventDescriptor) (raw : Z * Z * Z * Z * Z)
    (reserved : Z * Z * Z) (event_ids : list (list Z)) : bool :=
  let '(taxonomy, lifecycle, time_quality, quantity, unit) := raw in
  let '(reserved_a, reserved_b, reserved_c) := reserved in
  all_zero (ev_event_uuid event) || bool_decide (ev_event_uuid event ∈ event_ids)
  || negb (valid_event_taxonomy taxonomy) || (ev_event_type event =? 0)
  || negb (valid_event_lifecycle lifecycle) || negb (valid_time_quality time_quality)
  || any_bit (ev_flags event) (not32 mncwf_event_known_flags)
  || negb (any_bit (ev_flags event) mncwf_event_start_valid)
  || (ev_phase_mask event =? 0) || any_bit (ev_phase_mask event) (not32 mncwf_event_known_phase_mask)
  || negb (valid_quantity quantity) || negb (valid_unit unit) || negb (reserved_a =? 0)
  || negb (reserved_b =? 0) || negb (reserved_c =? 0)
  || bool_decide (ev_taxonomy_name event = []) || bool_decide (ev_label event = []).

Definition lifecycle_closed (lifecycle : MncwfEventLifecycle) : bool :=
  bool_decide (lifecycle = lifecycle_end) || bool_decide (lifecycle = lifecycle_abort)
  || bool_decide (lifecycle = lifecycle_complete).

Definition check_event_anchors (event : MncwfV4EventDescriptor) : result unit :=
  let has := any_bit (ev_flags event) in
  guard_reject (has mncwf_event_current_valid && (ev_current_sequence event <? ev_start_sequence event))
    "event current anchor precedes its start" ;;
  guard_reject (has mncwf_event_end_valid
                && ((ev_end_sequence event <? ev_start_sequence event)
                    || (has mncwf_event_current_valid && (ev_end_sequence event <? ev_current_sequence event))))
    "event end anchor is out of order" ;;
  guard_reject ((bool_decide (ev_lifecycle event = lifecycle_update) && negb (has mncwf_event_current_valid))
                || (lifecycle_closed (ev_lifecycle event) && negb (has mncwf_event_end_valid)))
    "event lifecycle is missing its required anchor" ;;
  guard_reject (negb (eqb (has mncwf_event_settings_snapshot_valid)
                        (negb (bool_decide (ev_settings_snapshot_json event = [])))))
    "event settings-snapshot flag disagrees with its payload".

Definition event_turn (section : ParsedSection) (events : list MncwfV4EventDescriptor) (index : nat)
    : result (list MncwfV4EventDescriptor) :=
  record ← record_at (records section) index mncwf_v4_event_descriptor_bytes "event record";
  '(event, raw, reserved) ← read_event_record record (blob section);
  guard_reject (event_invalid event raw reserved (map ev_event_uuid events)) "event descriptor is invalid" ;;
  check_event_anchors event ;;
  Ok (events ++ [event]).

Definition parse_events (section : ParsedSection) (item_count : Z) : result (list MncwfV4EventDescriptor) :=
  record_loop (event_turn section) [] (seq 0 (Z.to_nat item_count)).

(** ** Quality intervals and lineage *)

Definition read_quality_record (record : list Z) : result (MncwfV4QualityInterval * (Z * Z)) :=
  first_frame ← read_u64 record 0;
  frame_count ← read_u64 record 8;
  first_sequence ← read_u64 record 16;
  last_sequence ← read_u64 record 24;
  channel_mask ← read_u64 record 32;
  flags ← read_u32 record 40;
  severity ← read_u16 record 44;
  source ← read_u16 record 46;
  detail_code ← read_u32 record 48;
  reserved_a ← read_u32 record 52;
  reserved_b ← read_u64 record 56;
  Ok (mkQualityInterval first_frame frame_count first_sequence last_sequence channel_mask flags
        severity source detail_code, (reserved_a, reserved_b)).

Definition quality_turn (section : ParsedSection) (intervals : list MncwfV4QualityInterval) (index : nat)
    : result (list MncwfV4QualityInterval) :=
  record ← record_at (records section) index mncwf_v4_quality_interval_bytes "quality record";
  '(quality, (reserved_a, reserved_b)) ← read_quality_record record;
  guard_reject ((qi_flags quality =? 0) || any_bit (qi_flags quality) (not32 mncwf_quality_known_flags)
                || (qi_last_sequence quality <? qi_first_sequence quality)
                || negb (reserved_a =? 0) || negb (reserved_b =? 0))
    "quality interval is invalid" ;;
  Ok (intervals ++ [quality]).

Definition parse_quality (section : ParsedSection) (item_count : Z) : result (list MncwfV4QualityInterval) :=
  record_loop (quality_turn section) [] (seq 0 (Z.to_nat item_count)).

Definition read_lineage_record (record : list Z) : result (MncwfV4LineageEntry * (Z * Z)) :=
  relation ← read_u16 record 0;
  flags ← read_u16 record 2;
  related_capture_uuid ← read_array 16 record 8;
  related_event_uuid ← read_array 16 record 24;
  first_sequence ← read_u64 record 40;
  last_sequence ← read_u64 record 48;
  part_index ← read_u32 record 56;
  part_count ← read_u32 record 60;
  reserved ← read_u32 record 4;
  Ok (mkLineageEntry (relation_cast relation) flags related_capture_uuid related_event_uuid
        first_sequence last_sequence part_index part_count, (relation, reserved)).

Definition lineage_turn (section : ParsedSection) (entries : list MncwfV4LineageEntry) (index : nat)
    : result (list MncwfV4LineageEntry) :=
  record ← record_at (records section) index mncwf_v4_lineage_entry_bytes "lineage record";
  '(lineage, (relation, reserved)) ← read_lineage_record record;
  guard_reject (negb (valid_lineage_relation relation) || negb (lin_flags lineage =? 0)
                || negb (reserved =? 0) || all_zero (lin_related_capture_uuid lineage)
                || (lin_last_sequence lineage <? lin_first_sequence lineage)
                || (lin_part_count lineage =? 0) || (lin_part_count lineage <=? lin_part_index lineage))
    "lineage entry is invalid" ;;
  Ok (entries ++ [lineage]).

Definition parse_lineage (section : ParsedSection) (item_count : Z) : result (list MncwfV4LineageEntry) :=
  record_loop (lineage_turn section) [] (seq 0 (Z.to_nat item_count)).
