(* ===== verification/MncwfReader.v ===== *)
(** * MNCWF waveform container: the reader

    Models the [MncwfV4Reader] constructor of src/common/msap1/waveform/mncwf_v4.cpp:
    header, directory, placement of the sections, section checksums, the typed
    sections, the sample data of version 4 and the compressed sample chunks of
    version 5, and the checks across sections; then [sample_frame] and the export
    readiness report.  Zstandard is a parameter, the class [ZstdLibrary]. *)

From stdpp Require Import sorting pretty.
From S2P Require Import Prelude MncwfTypes MncwfFormat MncwfRecords.

(** What the program uses of libzstd: whether a context can be allocated and
    configured, one-shot compression and decompression (an error name or the bytes
    produced), the extent of the first frame of a buffer and its declared size. *)
Class ZstdLibrary := {
  zstd_contexts : bool;
  zstd_set_parameter : string -> option string;
  ZSTD_compress2 : list Z -> string + list Z;
  ZSTD_decompressDCtx : list Z -> Z -> string + list Z;
  ZSTD_findFrameCompressedSize : list Z -> string + Z;
  ZSTD_getFrameContentSize : list Z -> Z
}.

Definition ZSTD_MAGICNUMBER : Z := 0xFD2FB528.

Definition require_zstd {A} (outcome : string + A) (operation : string) : result A :=
  match outcome with
  | inl name => reject (operation +:+ ": " +:+ name)
  | inr a => Ok a
  end.

Definition set_zstd_parameter `{ZstdLibrary} (parameter operation : string) : result unit :=
  match zstd_set_parameter parameter with
  | Some name => reject (operation +:+ ": " +:+ name)
  | None => Ok tt
  end.

(** ** Reader state *)

Record MncwfV4Reader := mkReader {
  mode_ : MncwfValidationMode;
  header_ : MncwfV4Header;
  sections_ : list MncwfV4SectionInfo;
  capture_metadata_ : MncwfV4CaptureMetadata;
  timebase_segments_ : list MncwfV4TimebaseSegment;
  channels_ : list MncwfV4ChannelDefinition;
  events_ : list MncwfV4EventDescriptor;
  quality_intervals_ : list MncwfV4QualityInterval;
  lineage_ : list MncwfV4LineageEntry;
  sample_chunks_ : list MncwfV5ChunkInfo;
  sample_data_ : list Z;
  sample_frame_count_ : Z;
  sample_frame_bytes_ : Z
}.

(** ** Header *)

(** The header of a file and its two stored checksums. *)
Definition read_header (bytes : list Z) : result (MncwfV4Header * Z * Z) :=
  guard_reject (zlen bytes <? mncwf_v4_header_bytes) "header is truncated" ;;
  guard_reject (mncwf_v4_max_file_bytes <? zlen bytes) "file exceeds the configured size bound" ;;
  guard_reject (negb (bool_decide (take 8 bytes = mncwf_magic))) "magic is invalid" ;;
  version ← read_u32 bytes 8;
  guard_reject (negb (version =? mncwf_v4_version) && negb (version =? mncwf_v5_version))
    "version is not supported" ;;
  header_bytes ← read_u32 bytes 12;
  entry_bytes ← read_u32 bytes 16;
  guard_reject (negb (header_bytes =? mncwf_v4_header_bytes)
                || negb (entry_bytes =? mncwf_v4_directory_entry_bytes))
    "header geometry is unsupported" ;;
  section_count ← read_u32 bytes 20;
  directory_offset ← read_u64 bytes 24;
  directory_bytes ← read_u64 bytes 32;
  file_bytes ← read_u64 bytes 40;
  flags ← read_u32 bytes 48;
  directory_crc ← read_u32 bytes 52;
  header_crc ← read_u32 bytes 56;
  reserved ← read_u32 bytes 60;
  guard_reject (negb (reserved =? 0) || negb (flags =? 0)) "header reserved fields are nonzero" ;;
  guard_reject ((section_count <? mncwf_v4_mandatory_section_count) || (mncwf_v4_max_sections <? section_count))
    "section count is outside its bound" ;;
  expected_directory ← checked_multiply section_count mncwf_v4_directory_entry_bytes "directory";
  guard_reject (negb (directory_offset =? mncwf_v4_header_bytes)
                || negb (directory_bytes =? expected_directory) || negb (file_bytes =? zlen bytes))
    "directory or file geometry is invalid" ;;
  Ok (mkHeader version section_count directory_offset directory_bytes file_bytes flags,
      directory_crc, header_crc).

(** The header with its checksum field cleared. *)
Definition header_copy (bytes : list Z) : list Z :=
  splice (take (Z.to_nat mncwf_v4_header_bytes) bytes) 56 [0; 0; 0; 0].

(** ** Directory *)

Record DirectoryState := mkDirectoryState {
  ds_sections : list MncwfV4SectionInfo;
  ds_present : list bool
}.

Definition valid_logical_size (version : Z) (section : MncwfV4SectionInfo) : result bool :=
  if (version =? mncwf_v4_version) || negb (sec_type section =? section_value section_sample_data)
  then Ok (sec_logical_bytes section =? sec_stored_bytes section)
  else
    logical ← checked_multiply (sec_item_count section) (sec_item_bytes section) "sample logical bytes";
    Ok (sec_logical_bytes section =? logical).

(** Entry [index] of the directory, its data still unset, and its reserved field. *)
Definition read_directory_entry (directory : list Z) (index : nat) : result (MncwfV4SectionInfo * Z) :=
  let offset := Z.of_nat index * mncwf_v4_directory_entry_bytes in
  type ← read_u32 directory offset;
  version ← read_u16 directory (offset + 4);
  flags ← read_u16 directory (offset + 6);
  section_offset ← read_u64 directory (offset + 8);
  stored_bytes ← read_u64 directory (offset + 16);
  logical_bytes ← read_u64 directory (offset + 24);
  item_count ← read_u64 directory (offset + 32);
  item_bytes ← read_u32 directory (offset + 40);
  crc32c ← read_u32 directory (offset + 44);
  reserved ← read_u64 directory (offset + 48);
  Ok (mkSectionInfo type version flags section_offset stored_bytes logical_bytes item_count
        item_bytes crc32c [], reserved).

Definition with_data (section : MncwfV4SectionInfo) (data : list Z) : MncwfV4SectionInfo :=
  mkSectionInfo (sec_type section) (sec_version section) (sec_flags section) (sec_offset section)
    (sec_stored_bytes section) (sec_logical_bytes section) (sec_item_count section)
    (sec_item_bytes section) (sec_crc32c section) data.

Definition directory_turn (bytes directory : list Z) (version : Z) (state : DirectoryState) (index : nat)
    : result DirectoryState :=
  '(section, reserved) ← read_directory_entry directory index;
  guard_reject (negb (reserved =? 0)) "directory reserved field is nonzero" ;;
  let sample_section := sec_type section =? section_value section_sample_data in
  let valid_sample_version :=
    if version =? mncwf_v4_version then sec_version section =? 1 else sec_version section =? 2 in
  logical_size ← valid_logical_size version section;
  guard_reject ((sec_type section =? 0) || (sec_version section =? 0)
                || any_bit (sec_flags section) (Z.lnot mncwf_v4_known_section_flags)
                || (sec_stored_bytes section =? 0)
                || (mncwf_v4_max_file_bytes <? sec_item_count section) || negb logical_size
                || (sample_section && negb valid_sample_version)
                || any_bit (sec_offset section) 7)
    "directory entry is invalid" ;;
  guard_reject (negb (known_section (sec_type section))
                && any_bit (sec_flags section) mncwf_v4_section_required)
    "unknown required section" ;;
  present ←
    (if known_section (sec_type section) then
       let slot := section_index (sec_type section) in
       guard_reject (nth slot (ds_present state) false) "duplicate mandatory section" ;;
       guard_reject (negb (sec_flags section =? mncwf_v4_section_required)) "known section is not mandatory" ;;
       guard_reject (negb sample_section
                     && (mncwf_v4_max_metadata_section_bytes <? sec_stored_bytes section))
         "metadata section exceeds its size bound" ;;
       Ok (<[slot := true]> (ds_present state))
     else Ok (ds_present state));
  data ← range bytes (sec_offset section) (sec_stored_bytes section) "section";
  Ok (mkDirectoryState (ds_sections state ++ [with_data section data]) present).

Definition read_directory (bytes directory : list Z) (header : MncwfV4Header)
    : result (list MncwfV4SectionInfo) :=
  state ← record_loop (directory_turn bytes directory (hdr_version header))
            (mkDirectoryState [] (replicate 7 false)) (seq 0 (Z.to_nat (hdr_section_count header)));
  guard_reject (negb (forallb id (ds_present state))) "mandatory section is missing" ;;
  Ok (ds_sections state).

(** ** Placement of the sections *)

Definition section_extent (section : MncwfV4SectionInfo) : result (Z * Z) :=
  last ← checked_add (sec_offset section) (sec_stored_bytes section) "section extent";
  Ok (sec_offset section, last).

(** The order of [std::pair]. *)
Definition extent_le (p q : Z * Z) : Prop := p.1 < q.1 \/ (p.1 = q.1 /\ p.2 <= q.2).

#[export] Instance extent_le_dec p q : Decision (extent_le p q).
Proof. unfold extent_le. apply _. Defined.

Fixpoint place_extents (bytes : list Z) (cursor : Z) (extents : list (Z * Z)) : result Z :=
  match extents with
  | [] => Ok cursor
  | (first, last) :: extents =>
      guard_reject (negb (first =? cursor))
        (if first <? cursor then "sections overlap" else "unreferenced bytes appear between sections") ;;
      cursor ← align_eight last;
      guard_reject (zlen bytes <? cursor) "final section alignment exceeds the file" ;;
      (if negb (last =? cursor) then
         padding ← range bytes last (cursor - last) "section alignment padding";
         guard_reject (negb (all_zero padding)) "section alignment padding is nonzero"
       else Ok tt) ;;
      place_extents bytes cursor extents
  end.

Definition check_placement (bytes : list Z) (header : MncwfV4Header) (sections : list MncwfV4SectionInfo)
    : result unit :=
  extents ← mapM_result section_extent sections;
  directory_end ← checked_add (hdr_directory_offset header) (hdr_directory_bytes header) "directory extent";
  start ← align_eight directory_end;
  cursor ← place_extents bytes start (merge_sort extent_le extents);
  guard_reject (negb (cursor =? zlen bytes)) "unreferenced bytes follow the final section".

Definition check_section_crc (mode : MncwfValidationMode) (section : MncwfV4SectionInfo) : result unit :=
  guard_reject (negb (bool_decide (mode = mode_metadata_only)
                      && (sec_type section =? section_value section_sample_data))
                && negb (mncwf_crc32c (sec_data section) =? sec_crc32c section))
    "section CRC32C mismatch".

Definition find_section (sections : list MncwfV4SectionInfo) (type : MncwfV4SectionType)
    : result MncwfV4SectionInfo :=
  match List.find (fun section => sec_type section =? section_value type) sections with
  | Some section => Ok section
  | None => reject "mandatory section lookup failed"
  end.

(** ** Sample data *)

Definition validate_v5_zstd_frame `{ZstdLibrary} (frame : list Z) (expected_logical_bytes : Z) : result unit :=
  guard_reject (zlen frame <? 6) "v5 Zstd frame magic is invalid" ;;
  magic ← read_u32 frame 0;
  guard_reject (negb (magic =? ZSTD_MAGICNUMBER)) "v5 Zstd frame magic is invalid" ;;
  let descriptor := nth 4 frame 0 in
  let content_size_flag := Z.shiftr descriptor 6 in
  let single_segment := any_bit descriptor 0x20 in
  guard_reject (any_bit descriptor 0x18 || negb (any_bit descriptor 0x04) || any_bit descriptor 0x03)
    "v5 Zstd frame options are unsupported" ;;
  '(cursor, window_bytes) ←
    (if negb single_segment then
       guard_reject (zlen frame <=? 5) "v5 Zstd window descriptor is truncated" ;;
       let descriptor_byte := nth 5 frame 0 in
       let window_base := Z.shiftl 1 (10 + Z.shiftr descriptor_byte 3) in
       Ok (6, u64 (window_base + Z.shiftr window_base 3 * Z.land descriptor_byte 0x07))
     else Ok (5, 0));
  let content_size_bytes :=
    if content_size_flag =? 0 then (if single_segment then 1 else 0) else Z.shiftl 1 content_size_flag in
  guard_reject ((content_size_bytes =? 0) || (zlen frame <? cursor) || (zlen frame - cursor <? content_size_bytes))
    "v5 Zstd frame content size is missing or truncated" ;;
  field ← subspan frame cursor content_size_bytes;
  let content_size := or_bytes field in
  let content_size := if content_size_bytes =? 2 then u64 (content_size + 256) else content_size in
  guard_reject (negb (content_size =? expected_logical_bytes)) "v5 Zstd frame content size is invalid" ;;
  let window_bytes := if single_segment then content_size else window_bytes in
  guard_reject (mncwf_v5_max_chunk_logical_bytes <? window_bytes) "v5 Zstd frame window exceeds the 1 MiB limit" ;;
  frame_bytes ← require_zstd (ZSTD_findFrameCompressedSize frame) "validate v5 Zstd frame extent";
  guard_reject (negb (frame_bytes =? zlen frame)) "v5 Zstd chunk must contain exactly one frame".

Definition codec_geometry_invalid (codec flags stored_bytes logical_bytes : Z) : bool :=
  if codec =? codec_value codec_raw
  then negb (flags =? 0) || negb (stored_bytes =? logical_bytes)
  else negb (flags =? mncwf_v5_chunk_frame_checksum) || (logical_bytes <=? stored_bytes).

Record ChunkState := mkChunkState {
  ks_chunks : list MncwfV5ChunkInfo;
  ks_expected_first_frame : Z;
  ks_expected_stored_offset : Z
}.

Definition chunk_turn `{ZstdLibrary} (section : list Z) (item_bytes : Z) (state : ChunkState) (index : nat)
    : result ChunkState :=
  relative ← checked_multiply (Z.of_nat index) mncwf_v5_chunk_entry_bytes "v5 chunk entry";
  position ← checked_add mncwf_v4_section_header_bytes relative "v5 chunk entry";
  entry ← narrow_size position "v5 chunk entry";
  first_frame ← read_u64 section (entry + 0);
  frame_count ← read_u64 section (entry + 8);
  stored_offset ← read_u64 section (entry + 16);
  stored_bytes ← read_u64 section (entry + 24);
  logical_bytes ← read_u64 section (entry + 32);
  codec ← read_u16 section (entry + 40);
  flags ← read_u16 section (entry + 42);
  logical_crc32c ← read_u32 section (entry + 44);
  reserved ← read_u64 section (entry + 48);
  expected_logical ← checked_multiply frame_count item_bytes "v5 chunk logical bytes";
  guard_reject (negb (first_frame =? ks_expected_first_frame state) || (frame_count =? 0)
                || negb (logical_bytes =? expected_logical)
                || (mncwf_v5_max_chunk_logical_bytes <? logical_bytes)
                || negb (stored_offset =? ks_expected_stored_offset state) || (stored_bytes =? 0)
                || negb (reserved =? 0) || (codec_value codec_zstd <? codec)
                || codec_geometry_invalid codec flags stored_bytes logical_bytes)
    "v5 sample chunk is invalid" ;;
  stored ← range section stored_offset stored_bytes "v5 sample chunk";
  let chunk := mkV5ChunkInfo first_frame frame_count stored_offset stored_bytes logical_bytes
                 (codec_cast codec) flags logical_crc32c in
  (if bool_decide (chunk_codec chunk = codec_zstd) then validate_v5_zstd_frame stored logical_bytes else Ok tt) ;;
  next_frame ← checked_add (ks_expected_first_frame state) frame_count "v5 frame coverage";
  stored_end ← checked_add stored_offset stored_bytes "v5 stored chunk";
  next_offset ← align_eight stored_end;
  guard_reject (zlen section <? next_offset) "v5 chunk alignment exceeds the sample section" ;;
  (if negb (next_offset =? stored_end) then
     padding ← range section stored_end (next_offset - stored_end) "v5 chunk alignment padding";
     guard_reject (negb (all_zero padding)) "v5 chunk alignment padding is nonzero"
   else Ok tt) ;;
  Ok (mkChunkState (ks_chunks state ++ [chunk]) next_frame next_offset).

(** The envelope and chunk table of a version 5 sample section. *)
Definition parse_v5_chunks `{ZstdLibrary} (sample_info : MncwfV4SectionInfo) : result (list MncwfV5ChunkInfo) :=
  guard_reject (mncwf_v4_max_file_bytes <? sec_logical_bytes sample_info)
    "v5 logical sample data exceeds the configured size bound" ;;
  let section := sec_data sample_info in
  guard_reject (zlen section <? mncwf_v4_section_header_bytes) "v5 sample-section envelope is invalid" ;;
  type ← read_u32 section 0;
  version ← read_u16 section 4;
  header ← read_u16 section 6;
  flags ← read_u32 section 8;
  item_bytes ← read_u32 section 12;
  item_count ← read_u64 section 16;
  table_offset ← read_u64 section 24;
  reserved ← read_u64 section 40;
  guard_reject (negb (type =? sec_type sample_info) || negb (version =? 2)
                || negb (header =? mncwf_v4_section_header_bytes) || negb (flags =? 0)
                || negb (item_bytes =? sec_item_bytes sample_info)
                || negb (item_count =? sec_item_count sample_info)
                || negb (table_offset =? mncwf_v4_section_header_bytes) || negb (reserved =? 0))
    "v5 sample-section envelope is invalid" ;;
  table_bytes ← read_u64 section 32;
  guard_reject ((table_bytes =? 0) || negb (table_bytes mod mncwf_v5_chunk_entry_bytes =? 0))
    "v5 chunk table geometry is invalid" ;;
  let chunk_count := table_bytes / mncwf_v5_chunk_entry_bytes in
  guard_reject (mncwf_v5_max_chunks <? chunk_count) "v5 chunk count exceeds the allocation bound" ;;
  table_end ← checked_add mncwf_v4_section_header_bytes table_bytes "v5 chunk table";
  _ ← range section mncwf_v4_section_header_bytes table_bytes "v5 chunk table";
  first_offset ← align_eight table_end;
  state ← record_loop (chunk_turn section (sec_item_bytes sample_info)) (mkChunkState [] 0 first_offset)
            (seq 0 (Z.to_nat chunk_count));
  guard_reject (negb (ks_expected_first_frame state =? sec_item_count sample_info)
                || negb (ks_expected_stored_offset state =? zlen section))
    "v5 chunk coverage is incomplete" ;;
  Ok (ks_chunks state).

(** The logical bytes of one chunk, as written into the output buffer. *)
Definition expand_chunk `{ZstdLibrary} (stored : list Z) (chunk : MncwfV5ChunkInfo) : result (list Z) :=
  logical ←
    match chunk_codec chunk with
    | codec_raw => Ok stored
    | codec_zstd =>
        guard_reject (negb (ZSTD_getFrameContentSize stored =? chunk_logical_bytes chunk))
          "v5 Zstd frame content size is invalid" ;;
        produced ← require_zstd (ZSTD_decompressDCtx stored (chunk_logical_bytes chunk)) "decompress v5 sample chunk";
        guard_reject (negb (zlen produced =? chunk_logical_bytes chunk))
          "v5 Zstd frame decompressed size is invalid" ;;
        Ok produced
    end;
  guard_reject (negb (mncwf_crc32c logical =? chunk_logical_crc32c chunk))
    "v5 sample chunk logical CRC32C mismatch" ;;
  Ok logical.

Fixpoint expand_chunks `{ZstdLibrary} (section : list Z) (item_bytes : Z) (output : list Z)
    (chunks : list MncwfV5ChunkInfo) : result (list Z) :=
  match chunks with
  | [] => Ok output
  | chunk :: chunks =>
      stored ← range section (chunk_stored_offset chunk) (chunk_stored_bytes chunk) "v5 sample chunk";
      output_offset ← checked_multiply (chunk_first_frame chunk) item_bytes "v5 decompressed offset";
      offset ← narrow_size output_offset "v5 decompressed offset";
      logical_bytes ← narrow_size (chunk_logical_bytes chunk) "v5 chunk logical bytes";
      _ ← subspan output offset logical_bytes;
      logical ← expand_chunk stored chunk;
      output ← copy_into output offset logical;
      expand_chunks section item_bytes output chunks
  end.

Definition materialize_v5 `{ZstdLibrary} (sample_info : MncwfV4SectionInfo) (chunks : list MncwfV5ChunkInfo)
    : result (list Z) :=
  size ← narrow_size (sec_logical_bytes sample_info) "v5 logical sample data";
  guard_reject (negb zstd_contexts) "cannot allocate the Zstd decompression context" ;;
  set_zstd_parameter "ZSTD_d_windowLogMax" "bound Zstd decompression window" ;;
  expand_chunks (sec_data sample_info) (sec_item_bytes sample_info) (replicate (Z.to_nat size) 0) chunks.

(** Chunks and sample bytes of the sample section. *)
Definition parse_samples `{ZstdLibrary} (mode : MncwfValidationMode) (version : Z)
    (sample_info : MncwfV4SectionInfo) : result (list MncwfV5ChunkInfo * list Z) :=
  if version =? mncwf_v4_version then
    section ← parse_section_envelope sample_info (sec_item_bytes sample_info) 1
                (mncwf_v4_max_file_bytes / sec_item_bytes sample_info) false;
    Ok ([], if bool_decide (mode = mode_complete) then records section else [])
  else
    chunks ← parse_v5_chunks sample_info;
    data ← (if bool_decide (mode = mode_complete) then materialize_v5 sample_info chunks else Ok []);
    Ok (chunks, data).

(** ** Checks across sections *)

Definition sequence_is_stored (segments : list MncwfV4TimebaseSegment) (sequence : Z) : bool :=
  existsb (fun segment =>
    let last := u64 (seg_first_sequence segment + seg_source_frame_count segment - 1) in
    (seg_first_sequence segment <=? sequence) && (sequence <=? last)) segments.

Definition check_event_stored (segments : list MncwfV4TimebaseSegment) (event : MncwfV4EventDescriptor)
    : result unit :=
  let has := any_bit (ev_flags event) in
  guard_reject (negb (sequence_is_stored segments (ev_start_sequence event))
    || (has mncwf_event_current_valid && negb (sequence_is_stored segments (ev_current_sequence event)))
    || (has mncwf_event_end_valid && negb (sequence_is_stored segments (ev_end_sequence event)))
    || (has mncwf_event_trigger_valid && negb (sequence_is_stored segments (ev_trigger_sequence event))))
    "event anchor lies outside the capture".

Definition check_quality_placed (sample_frame_count : Z) (channels : list MncwfV4ChannelDefinition)
    (quality : MncwfV4QualityInterval) : result unit :=
  guard_reject ((sample_frame_count <? qi_first_frame quality)
                || (sample_frame_count - qi_first_frame quality <? qi_frame_count quality))
    "quality interval lies outside the sample data" ;;
  guard_reject ((zlen channels <? 64) && negb (Z.shiftr (qi_channel_mask quality) (zlen channels) =? 0))
    "quality interval references an unknown channel".

(** ** The constructor *)

(** The typed sections of a file whose directory and checksums hold. *)
Definition read_sections `{ZstdLibrary} (mode : MncwfValidationMode) (header : MncwfV4Header)
    (sections : list MncwfV4SectionInfo) : result MncwfV4Reader :=
  capture_info ← find_section sections section_capture_metadata;
  capture_section ← parse_section_envelope capture_info mncwf_v4_capture_metadata_bytes 1 1 true;
  capture ← parse_capture_metadata capture_section;
  time_info ← find_section sections section_timebase_segments;
  time_section ← parse_section_envelope time_info mncwf_v4_timebase_segment_bytes 1 65536 false;
  timebase ← parse_timebase time_section (sec_item_count time_info);
  channel_info ← find_section sections section_channel_definitions;
  channel_section ← parse_section_envelope channel_info mncwf_v4_channel_definition_bytes 1
                      mncwf_v4_max_channels true;
  channels ← parse_channels channel_section (sec_item_count channel_info);
  event_info ← find_section sections section_event_descriptors;
  event_section ← parse_section_envelope event_info mncwf_v4_event_descriptor_bytes 0 mncwf_v4_max_events true;
  events ← parse_events event_section (sec_item_count event_info);
  quality_info ← find_section sections section_quality_intervals;
  quality_section ← parse_section_envelope quality_info mncwf_v4_quality_interval_bytes 0
    (mncwf_v4_max_metadata_section_bytes / mncwf_v4_quality_interval_bytes) false;
  quality ← parse_quality quality_section (sec_item_count quality_info);
  lineage_info ← find_section sections section_lineage;
  lineage_section ← parse_section_envelope lineage_info mncwf_v4_lineage_entry_bytes 0
                      mncwf_v4_max_lineage_entries false;
  lineage ← parse_lineage lineage_section (sec_item_count lineage_info);
  sample_info ← find_section sections section_sample_data;
  guard_reject ((sec_item_bytes sample_info =? 0)
                || negb (sec_item_bytes sample_info =? cs_expected_frame_bytes channels))
    "sample frame size disagrees with channel definitions" ;;
  '(chunks, data) ← parse_samples mode (hdr_version header) sample_info;
  guard_reject (negb (ts_expected_first_frame timebase =? sec_item_count sample_info))
    "timebase segments do not cover every sample frame" ;;
  forM_result events (check_event_stored (ts_segments timebase)) ;;
  forM_result quality (check_quality_placed (sec_item_count sample_info) (cs_channels channels)) ;;
  Ok (mkReader mode header sections capture (ts_segments timebase) (cs_channels channels) events
        quality lineage chunks data (sec_item_count sample_info) (sec_item_bytes sample_info)).

Definition make_reader `{ZstdLibrary} (bytes : list Z) (mode : MncwfValidationMode) : result MncwfV4Reader :=
  '(header, directory_crc, header_crc) ← read_header bytes;
  guard_reject (negb (mncwf_crc32c (header_copy bytes) =? header_crc)) "header CRC32C mismatch" ;;
  directory ← range bytes (hdr_directory_offset header) (hdr_directory_bytes header) "directory";
  guard_reject (negb (mncwf_crc32c directory =? directory_crc)) "directory CRC32C mismatch" ;;
  sections ← read_directory bytes directory header;
  check_placement bytes header sections ;;
  forM_result sections (check_section_crc mode) ;;
  read_sections mode header sections.

(** ** Frames and export readiness *)

Definition sample_frame (reader : MncwfV4Reader) (index : Z) : result (list Z) :=
  if negb (bool_decide (mode_ reader = mode_complete))
  then Throw (LogicError "MNCWF sample data was not materialized by the metadata-only reader")
  else if sample_frame_count_ reader <=? index then Throw (OutOfRange "MNCWF sample frame index")
  else
    offset ← checked_multiply index (sample_frame_bytes_ reader) "sample frame offset";
    offset ← narrow_size offset "sample frame offset";
    subspan (sample_data_ reader) offset (sample_frame_bytes_ reader).

(** A missing field: [both] converters, or only one of them. *)
Inductive Missing := MissingBoth (field : string) | MissingComtrade (field : string) | MissingPqdif (field : string).

Definition missing_if (condition : bool) (m : Missing) : list Missing := if condition then [m] else [].

Definition capture_missing (capture : MncwfV4CaptureMetadata) : list Missing :=
  missing_if (bool_decide (cap_device_model capture = [])) (MissingBoth "capture.device_model") ++
  missing_if (cap_nominal_frequency_numerator capture =? 0) (MissingBoth "capture.nominal_frequency") ++
  missing_if (cap_nominal_voltage_numerator capture <=? 0) (MissingBoth "capture.nominal_voltage") ++
  missing_if (bool_decide (cap_topology capture = topology_unknown)) (MissingPqdif "capture.topology").

Definition segment_missing (index : nat) (segment : MncwfV4TimebaseSegment) : list Missing :=
  let prefix := "timebase[" +:+ pretty index +:+ "]." in
  missing_if (negb (any_bit (seg_flags segment) mncwf_time_utc_offset_known)) (MissingBoth (prefix +:+ "utc_context")) ++
  missing_if (seg_correlation_tai_nanoseconds segment =? 0) (MissingBoth (prefix +:+ "tai_correlation")) ++
  missing_if (bool_decide (seg_time_quality segment = quality_unknown)) (MissingBoth (prefix +:+ "time_quality")) ++
  missing_if (bool_decide (seg_clock_source segment = clock_unknown)) (MissingPqdif (prefix +:+ "clock_source")).

Definition unit_matches (channel : MncwfV4ChannelDefinition) : bool :=
  match ch_quantity channel, ch_si_unit channel with
  | quantity_current, unit_ampere | quantity_voltage, unit_volt | quantity_frequency, unit_hertz
  | quantity_status, unit_dimensionless | quantity_ratio, unit_dimensionless => true
  | _, _ => false
  end.

Definition channel_missing (index : nat) (channel : MncwfV4ChannelDefinition) : list Missing :=
  let prefix := "channel[" +:+ pretty index +:+ "]." in
  let lacks mask := negb (any_bit (ch_flags channel) mask) in
  missing_if (bool_decide (ch_phase channel = phase_none)) (MissingBoth (prefix +:+ "phase")) ++
  missing_if (bool_decide (ch_quantity channel = quantity_unknown)) (MissingBoth (prefix +:+ "quantity")) ++
  missing_if (negb (unit_matches channel)) (MissingBoth (prefix +:+ "quantity_unit_mapping")) ++
  missing_if (lacks mncwf_channel_transform_valid) (MissingBoth (prefix +:+ "affine_transform")) ++
  missing_if (lacks mncwf_channel_ratio_valid) (MissingBoth (prefix +:+ "primary_secondary_ratio")) ++
  missing_if (lacks mncwf_channel_nominal_valid) (MissingPqdif (prefix +:+ "nominal")) ++
  missing_if (lacks mncwf_channel_range_valid) (MissingBoth (prefix +:+ "range")) ++
  missing_if (lacks mncwf_channel_resolution_valid) (MissingPqdif (prefix +:+ "resolution")) ++
  missing_if (lacks mncwf_channel_clipping_valid) (MissingBoth (prefix +:+ "clipping")).

Definition event_missing (index : nat) (event : MncwfV4EventDescriptor) : list Missing :=
  let prefix := "event[" +:+ pretty index +:+ "]." in
  let lacks mask := negb (any_bit (ev_flags event) mask) in
  missing_if (bool_decide (ev_taxonomy event = taxonomy_unknown)) (MissingBoth (prefix +:+ "taxonomy")) ++
  missing_if (lacks mncwf_event_trigger_valid) (MissingComtrade (prefix +:+ "trigger_sequence")) ++
  missing_if (lacks mncwf_event_utc_valid) (MissingBoth (prefix +:+ "utc_anchors")) ++
  missing_if (lacks mncwf_event_tai_valid) (MissingBoth (prefix +:+ "tai_anchors")) ++
  missing_if (lacks mncwf_event_settings_snapshot_valid) (MissingBoth (prefix +:+ "settings_snapshot")).

Record MncwfV4ConversionReadiness := mkConversionReadiness {
  comtrade_missing : list string;
  pqdif_missing : list string
}.

Definition note_missing (readiness : MncwfV4ConversionReadiness) (m : Missing) : MncwfV4ConversionReadiness :=
  match m with
  | MissingBoth field =>
      mkConversionReadiness (comtrade_missing readiness ++ [field]) (pqdif_missing readiness ++ [field])
  | MissingComtrade field => mkConversionReadiness (comtrade_missing readiness ++ [field]) (pqdif_missing readiness)
  | MissingPqdif field => mkConversionReadiness (comtrade_missing readiness) (pqdif_missing readiness ++ [field])
  end.

Definition assess_mncwf_v4_conversion_readiness (reader : MncwfV4Reader) : MncwfV4ConversionReadiness :=
  foldl note_missing (mkConversionReadiness [] [])
    (capture_missing (capture_metadata_ reader) ++
     concat (imap segment_missing (timebase_segments_ reader)) ++
     concat (imap channel_missing (channels_ reader)) ++
     (if bool_decide (length (events_ reader) = 0%nat) then [MissingBoth "event_descriptor"]
      else concat (imap event_missing (events_ reader)))).

Definition comtrade_ready (readiness : MncwfV4ConversionReadiness) : bool :=
  bool_decide (comtrade_missing readiness = []).
Definition pqdif_ready (readiness : MncwfV4ConversionReadiness) : bool :=
  bool_decide (pqdif_missing readiness = []).
