(* ===== verification/MncwfEncode.v ===== *)
(** * MNCWF waveform container: the encoders

    Models the encoding half of src/common/msap1/waveform/mncwf_v4.cpp: string
    blobs, the envelope and records of the six metadata sections, the version 4
    file with its self-check, and the version 5 file with compressed chunks.  A
    record is written into a zero-filled buffer field by field; [Put] names one
    such write, so a list of [Put]s reads like the encoder's statements. *)

From S2P Require Import Prelude MncwfTypes MncwfFormat MncwfRecords MncwfReader.

(** ** Field writes *)

(** One statement [put_*(records, base + offset, value)]; [PutCopy] is a bare
    [std::copy] of an array of [size] bytes and [EnsureWrite] a bare check. *)
Inductive Put :=
  | PutU16 (offset value : Z)
  | PutS16 (offset value : Z)
  | PutU32 (offset value : Z)
  | PutS32 (offset value : Z)
  | PutU64 (offset value : Z)
  | PutS64 (offset value : Z)
  | PutArray (size offset : Z) (value : list Z)
  | PutCopy (size offset : Z) (value : list Z)
  | EnsureWrite (offset width : Z).

Definition run_put (base : Z) (bytes : list Z) (p : Put) : result (list Z) :=
  match p with
  | PutU16 offset value => put_u16 bytes (base + offset) value
  | PutS16 offset value => put_s16 bytes (base + offset) value
  | PutU32 offset value => put_u32 bytes (base + offset) value
  | PutS32 offset value => put_s32 bytes (base + offset) value
  | PutU64 offset value => put_u64 bytes (base + offset) value
  | PutS64 offset value => put_s64 bytes (base + offset) value
  | PutArray size offset value => put_array size bytes (base + offset) value
  | PutCopy size offset value => copy_into bytes (base + offset) value
  | EnsureWrite offset width => ensure_write bytes (base + offset) width ;; Ok bytes
  end.

Fixpoint run_puts (base : Z) (bytes : list Z) (puts : list Put) : result (list Z) :=
  match puts with
  | [] => Ok bytes
  | p :: puts => bytes ← run_put base bytes p; run_puts base bytes puts
  end.

(** ** Strings *)

(** The blob with the string appended, and its reference. *)
Definition append_string (blob value : list Z) : result (list Z * (Z * Z)) :=
  match value with
  | [] => Ok (blob, (0, 0))
  | _ =>
      guard_reject ((mncwf_v4_max_string_bytes <? zlen value) || (UINT32_MAX - zlen value <? zlen blob))
        "encoder string blob exceeds its bound" ;;
      Ok (blob ++ value, (zlen blob, zlen value))
  end.

Definition put_string_ref (record : list Z) (offset : Z) (reference : Z * Z) : result (list Z) :=
  record ← put_u32 record offset reference.1;
  put_u32 record (offset + 4) reference.2.

(** [put_string_ref(records, base + offset, append_string(blob, value))], for the
    strings of a record in turn. *)
Fixpoint put_strings (base : Z) (records blob : list Z) (strings : list (Z * list Z)) : result (list Z * list Z) :=
  match strings with
  | [] => Ok (records, blob)
  | (offset, value) :: strings =>
      '(blob, reference) ← append_string blob value;
      records ← put_string_ref records (base + offset) reference;
      put_strings base records blob strings
  end.

(** ** Section envelope *)

Record EncodedSection := mkEncodedSection {
  es_type : MncwfV4SectionType;
  es_item_count : Z;
  es_item_bytes : Z;
  es_payload : list Z
}.

Definition envelope_puts (type : MncwfV4SectionType) (item_count item_bytes blob_offset blob_size : Z) : list Put :=
  [PutU32 0 (section_value type);
   PutU16 4 1;
   PutU16 6 mncwf_v4_section_header_bytes;
   PutU32 8 0;
   PutU32 12 item_bytes;
   PutU64 16 item_count;
   PutU64 24 blob_offset;
   PutU64 32 blob_size;
   PutU64 40 0].

Definition enveloped_section (type : MncwfV4SectionType) (item_count item_bytes : Z)
    (records blob : list Z) : result EncodedSection :=
  expected_records ← checked_multiply item_count item_bytes "encoded section records";
  guard_reject (negb (zlen records =? expected_records)) "encoder section record geometry is inconsistent" ;;
  records_end ← checked_add mncwf_v4_section_header_bytes (zlen records) "encoded section records";
  blob_offset ← (if bool_decide (blob = []) then Ok 0 else align_eight records_end);
  total ← (if bool_decide (blob = []) then Ok records_end
           else checked_add blob_offset (zlen blob) "encoded section blob");
  guard_reject (mncwf_v4_max_file_bytes <? total) "encoded section exceeds the file bound" ;;
  size ← narrow_size total "encoded section";
  payload ← run_puts 0 (replicate (Z.to_nat size) 0)
              (envelope_puts type item_count item_bytes blob_offset (zlen blob));
  payload ← copy_into payload mncwf_v4_section_header_bytes records;
  payload ← (if bool_decide (blob = []) then Ok payload else copy_into payload blob_offset blob);
  Ok (mkEncodedSection type item_count item_bytes payload).

(** ** Metadata records *)

Definition capture_puts (capture : MncwfV4CaptureMetadata) : list Put :=
  [PutArray 16 0 (cap_capture_uuid capture);
   PutArray 16 16 (cap_device_uuid capture);
   PutArray 32 32 (cap_configuration_sha256 capture);
   PutArray 32 64 (cap_sensor_profile_sha256 capture);
   PutU64 96 (cap_created_tai_nanoseconds capture);
   PutU64 104 (cap_created_utc_nanoseconds capture);
   PutS64 112 (cap_nominal_voltage_numerator capture);
   PutU64 120 (cap_nominal_voltage_denominator capture);
   PutU64 128 (cap_nominal_frequency_numerator capture);
   PutU64 136 (cap_nominal_frequency_denominator capture);
   PutU32 144 (topology_value (cap_topology capture));
   PutU32 148 (calibration_value (cap_calibration_status capture));
   PutU32 152 (cap_flags capture)].

(** The twelve strings at [160 + index * 8]. *)
Definition capture_strings (capture : MncwfV4CaptureMetadata) : list (Z * list Z) :=
  imap (fun index value => (160 + Z.of_nat index * 8, value))
    [cap_station_name capture; cap_site_name capture; cap_circuit_name capture;
     cap_product_name capture; cap_device_model capture; cap_firmware_version capture;
     cap_software_build_id capture; cap_sensor_profile_id capture;
     cap_configuration_id capture; cap_calibration_id capture;
     cap_device_serial capture; cap_comments capture].

Definition encode_capture (capture : MncwfV4CaptureMetadata) : result EncodedSection :=
  record ← run_puts 0 (replicate (Z.to_nat mncwf_v4_capture_metadata_bytes) 0) (capture_puts capture);
  '(record, blob) ← put_strings 0 record [] (capture_strings capture);
  enveloped_section section_capture_metadata 1 mncwf_v4_capture_metadata_bytes record blob.

Definition segment_puts (segment : MncwfV4TimebaseSegment) : list Put :=
  [PutU64 0 (seg_first_frame segment);
   PutU64 8 (seg_frame_count segment);
   PutU64 16 (seg_first_sequence segment);
   PutU64 24 (seg_sequence_step segment);
   PutU64 32 (seg_acquisition_rate_numerator segment);
   PutU64 40 (seg_acquisition_rate_denominator segment);
   PutU64 48 (seg_persisted_rate_numerator segment);
   PutU64 56 (seg_persisted_rate_denominator segment);
   PutU64 64 (seg_correlation_sequence segment);
   PutU64 72 (seg_correlation_pl_tick segment);
   PutU64 80 (seg_correlation_tai_nanoseconds segment);
   PutU64 88 (seg_correlation_utc_nanoseconds segment);
   PutU64 96 (seg_uncertainty_nanoseconds segment);
   PutU32 104 (seg_decimation_divisor segment);
   PutU16 108 (decimation_value (seg_decimation_method segment));
   PutU16 110 (clock_value (seg_clock_source segment));
   PutU16 112 (quality_value (seg_time_quality segment));
   PutU16 114 (seg_flags segment);
   PutS32 116 (seg_utc_offset_seconds segment);
   PutU64 120 (seg_source_frame_count segment)].

Definition channel_puts (channel : MncwfV4ChannelDefinition) : list Put :=
  [EnsureWrite 0 mncwf_v4_channel_definition_bytes;
   PutCopy 16 0 (ch_stable_id channel);
   PutU32 16 (ch_source_channel channel);
   PutU32 20 (ch_flags channel);
   PutU16 24 (phase_value (ch_phase channel));
   PutU16 26 (quantity_value (ch_quantity channel));
   PutU16 28 (unit_value (ch_si_unit channel));
   PutU16 30 (encoding_value (ch_sample_encoding channel));
   PutU16 32 (ch_storage_bits channel);
   PutU16 34 (ch_valid_bits channel);
   PutS16 36 (ch_display_exponent10 channel);
   PutS64 40 (ch_gain_numerator channel);
   PutU64 48 (ch_gain_denominator channel);
   PutS64 56 (ch_offset_numerator channel);
   PutU64 64 (ch_offset_denominator channel);
   PutU64 72 (ch_primary_secondary_ratio_numerator channel);
   PutU64 80 (ch_primary_secondary_ratio_denominator channel);
   PutS64 88 (ch_nominal_numerator channel);
   PutU64 96 (ch_nominal_denominator channel);
   PutS64 104 (ch_range_minimum_numerator channel);
   PutU64 112 (ch_range_minimum_denominator channel);
   PutS64 120 (ch_range_maximum_numerator channel);
   PutU64 128 (ch_range_maximum_denominator channel);
   PutU64 136 (ch_resolution_numerator channel);
   PutU64 144 (ch_resolution_denominator channel);
   PutS64 152 (ch_clipping_low channel);
   PutS64 160 (ch_clipping_high channel)].

Definition channel_strings (channel : MncwfV4ChannelDefinition) : list (Z * list Z) :=
  [(168, ch_name channel); (176, ch_unit_symbol channel); (184, ch_description channel)].

Definition event_puts (event : MncwfV4EventDescriptor) : list Put :=
  [EnsureWrite 0 mncwf_v4_event_descriptor_bytes;
   PutCopy 16 0 (ev_event_uuid event);
   PutU16 16 (taxonomy_value (ev_taxonomy event));
   PutU16 18 (ev_event_type event);
   PutU16 20 (lifecycle_value (ev_lifecycle event));
   PutU16 22 (quality_value (ev_time_quality event));
   PutU32 24 (ev_flags event);
   PutU32 28 (ev_phase_mask event);
   PutU16 32 (quantity_value (ev_quantity event));
   PutU16 34 (unit_value (ev_si_unit event));
   PutU16 36 (ev_trigger_source event);
   PutU32 40 (ev_configuration_generation event);
   PutU32 44 (ev_severity event);
   PutU64 48 (ev_start_sequence event);
   PutU64 56 (ev_current_sequence event);
   PutU64 64 (ev_end_sequence event);
   PutU64 72 (ev_trigger_sequence event);
   PutU64 80 (ev_start_tai_nanoseconds event);
   PutU64 88 (ev_current_tai_nanoseconds event);
   PutU64 96 (ev_end_tai_nanoseconds event);
   PutU64 104 (ev_trigger_tai_nanoseconds event);
   PutU64 112 (ev_start_utc_nanoseconds event);
   PutU64 120 (ev_current_utc_nanoseconds event);
   PutU64 128 (ev_end_utc_nanoseconds event);
   PutU64 136 (ev_trigger_utc_nanoseconds event);
   PutU64 144 (ev_uncertainty_nanoseconds event);
   PutS64 152 (ev_reference_micro_units event);
   PutS64 160 (ev_threshold_micro_units event);
   PutS64 168 (ev_hysteresis_micro_units event);
   PutS64 (176 + 0 * 8) (nth 0 (ev_extrema_micro_units event) 0);
   PutS64 (176 + 1 * 8) (nth 1 (ev_extrema_micro_units event) 0);
   PutS64 (176 + 2 * 8) (nth 2 (ev_extrema_micro_units event) 0);
   PutU64 200 (ev_duration_samples event);
   PutU64 208 (ev_update_count event);
   PutU32 216 (ev_status event)].

Definition event_strings (event : MncwfV4EventDescriptor) : list (Z * list Z) :=
  [(224, ev_taxonomy_name event); (232, ev_label event); (240, ev_settings_snapshot_json event)].

Definition quality_puts (quality : MncwfV4QualityInterval) : list Put :=
  [PutU64 0 (qi_first_frame quality);
   PutU64 8 (qi_frame_count quality);
   PutU64 16 (qi_first_sequence quality);
   PutU64 24 (qi_last_sequence quality);
   PutU64 32 (qi_channel_mask quality);
   PutU32 40 (qi_flags quality);
   PutU16 44 (qi_severity quality);
   PutU16 46 (qi_source quality);
   PutU32 48 (qi_detail_code quality)].

Definition lineage_puts (entry : MncwfV4LineageEntry) : list Put :=
  [PutU16 0 (relation_value (lin_relation entry));
   PutU16 2 (lin_flags entry);
   PutArray 16 8 (lin_related_capture_uuid entry);
   PutCopy 16 24 (lin_related_event_uuid entry);
   PutU64 40 (lin_first_sequence entry);
   PutU64 48 (lin_last_sequence entry);
   PutU32 56 (lin_part_index entry);
   PutU32 60 (lin_part_count entry)].

(** ** Tables of records *)

(** The loop [for (index = 0; index < items.size(); ++index)] over records of
    [size] bytes whose strings go to a shared blob. *)
Fixpoint put_records {A} (size : Z) (puts : A -> list Put) (strings : A -> list (Z * list Z))
    (index : nat) (records blob : list Z) (items : list A) : result (list Z * list Z) :=
  match items with
  | [] => Ok (records, blob)
  | item :: items =>
      let base := Z.of_nat index * size in
      records ← run_puts base records (puts item);
      '(records, blob) ← put_strings base records blob (strings item);
      put_records size puts strings (S index) records blob items
  end.

Definition encode_records {A} (type : MncwfV4SectionType) (size : Z) (puts : A -> list Put)
    (strings : A -> list (Z * list Z)) (items : list A) : result EncodedSection :=
  '(records, blob) ← put_records size puts strings 0 (replicate (Z.to_nat (zlen items * size)) 0) [] items;
  enveloped_section type (zlen items) size records blob.

Definition encode_timebase : list MncwfV4TimebaseSegment -> result EncodedSection :=
  encode_records section_timebase_segments mncwf_v4_timebase_segment_bytes segment_puts (fun _ => []).
Definition encode_channels : list MncwfV4ChannelDefinition -> result EncodedSection :=
  encode_records section_channel_definitions mncwf_v4_channel_definition_bytes channel_puts channel_strings.
Definition encode_events : list MncwfV4EventDescriptor -> result EncodedSection :=
  encode_records section_event_descriptors mncwf_v4_event_descriptor_bytes event_puts event_strings.
Definition encode_quality : list MncwfV4QualityInterval -> result EncodedSection :=
  encode_records section_quality_intervals mncwf_v4_quality_interval_bytes quality_puts (fun _ => []).
Definition encode_lineage : list MncwfV4LineageEntry -> result EncodedSection :=
  encode_records section_lineage mncwf_v4_lineage_entry_bytes lineage_puts (fun _ => []).

(** ** The file *)

(** A section as the directory describes it. *)
Record FileSection := mkFileSection {
  fs_type : Z;
  fs_version : Z;
  fs_item_count : Z;
  fs_item_bytes : Z;
  fs_logical_bytes : Z;
  fs_payload : list Z
}.

Definition plain_section (section : EncodedSection) : FileSection :=
  mkFileSection (section_value (es_type section)) 1 (es_item_count section) (es_item_bytes section)
    (zlen (es_payload section)) (es_payload section).

(** Offsets of the payloads, each aligned to eight bytes, and the end. *)
Fixpoint section_offsets (label : string) (next_offset : Z) (sizes : list Z) : result (list Z * Z) :=
  match sizes with
  | [] => Ok ([], next_offset)
  | size :: sizes =>
      payload_end ← checked_add next_offset size label;
      following ← align_eight payload_end;
      '(offsets, last) ← section_offsets label following sizes;
      Ok (next_offset :: offsets, last)
  end.

Definition header_puts (version section_count directory_bytes file_bytes : Z) : list Put :=
  [PutCopy 8 0 mncwf_magic;
   PutU32 8 version;
   PutU32 12 mncwf_v4_header_bytes;
   PutU32 16 mncwf_v4_directory_entry_bytes;
   PutU32 20 section_count;
   PutU64 24 mncwf_v4_header_bytes;
   PutU64 32 directory_bytes;
   PutU64 40 file_bytes].

Definition entry_puts (section : FileSection) (offset : Z) : list Put :=
  [PutU32 0 (fs_type section);
   PutU16 4 (fs_version section);
   PutU16 6 mncwf_v4_section_required;
   PutU64 8 offset;
   PutU64 16 (zlen (fs_payload section));
   PutU64 24 (fs_logical_bytes section);
   PutU64 32 (fs_item_count section);
   PutU32 40 (fs_item_bytes section);
   PutU32 44 (mncwf_crc32c (fs_payload section))].

(** The loop that writes directory entry [index] and copies the payload. *)
Fixpoint put_sections (index : nat) (file : list Z) (sections : list (FileSection * Z)) : result (list Z) :=
  match sections with
  | [] => Ok file
  | (section, offset) :: sections =>
      let directory := mncwf_v4_header_bytes + Z.of_nat index * mncwf_v4_directory_entry_bytes in
      file ← run_puts directory file (entry_puts section offset);
      file ← copy_into file offset (fs_payload section);
      put_sections (S index) file sections
  end.

(** Directory checksum, then the header checksum over a cleared field. *)
Definition put_checksums (file : list Z) (directory_bytes : Z) : result (list Z) :=
  directory ← subspan file mncwf_v4_header_bytes directory_bytes;
  file ← put_u32 file 52 (mncwf_crc32c directory);
  file ← put_u32 file 56 0;
  header ← subspan file 0 mncwf_v4_header_bytes;
  put_u32 file 56 (mncwf_crc32c header).

(** Lays the sections out and writes the file. *)
Definition write_file (version : Z) (label too_large : string) (sections : list FileSection) : result (list Z) :=
  directory_bytes ← checked_multiply (zlen sections) mncwf_v4_directory_entry_bytes "encoded directory";
  directory_end ← checked_add mncwf_v4_header_bytes directory_bytes "encoded directory";
  start ← align_eight directory_end;
  '(offsets, file_bytes) ← section_offsets label start (map (fun s => zlen (fs_payload s)) sections);
  guard_reject (mncwf_v4_max_file_bytes <? file_bytes) too_large ;;
  size ← narrow_size file_bytes label;
  file ← run_puts 0 (replicate (Z.to_nat size) 0) (header_puts version (zlen sections) directory_bytes file_bytes);
  file ← put_sections 0 file (zip sections offsets);
  put_checksums file directory_bytes.

Definition encode_metadata (document : MncwfV4Document) : result (list EncodedSection) :=
  capture ← encode_capture (doc_capture_metadata document);
  timebase ← encode_timebase (doc_timebase_segments document);
  channels ← encode_channels (doc_channels document);
  events ← encode_events (doc_events document);
  quality ← encode_quality (doc_quality_intervals document);
  lineage ← encode_lineage (doc_lineage document);
  Ok [capture; timebase; channels; events; quality; lineage].

Definition check_sample_geometry (document : MncwfV4Document) : result Z :=
  sample_bytes ← checked_multiply (doc_sample_frame_count document) (doc_sample_frame_bytes document)
                   "encoded sample data";
  guard_reject (negb (zlen (doc_sample_data document) =? sample_bytes)) "encoder sample geometry is inconsistent" ;;
  Ok sample_bytes.

(** The version 4 file before the self-check. *)
Definition build_mncwf_v4 (document : MncwfV4Document) : result (list Z) :=
  check_sample_geometry document ;;
  metadata ← encode_metadata document;
  samples ← enveloped_section section_sample_data (doc_sample_frame_count document)
              (doc_sample_frame_bytes document) (doc_sample_data document) [];
  write_file mncwf_v4_version "encoded file" "encoded file exceeds the 512 MiB bound"
    (map plain_section (metadata ++ [samples])).

Definition encode_mncwf_v4 `{ZstdLibrary} (document : MncwfV4Document) : result (list Z) :=
  file ← build_mncwf_v4 document;
  _ ← make_reader file mode_complete;
  Ok file.

(** ** Version 5 samples *)

Record EncodedV5Chunk := mkEncodedV5Chunk {
  ec_first_frame : Z;
  ec_frame_count : Z;
  ec_logical_bytes : Z;
  ec_codec : MncwfChunkCodec;
  ec_flags : Z;
  ec_logical_crc32c : Z;
  ec_payload : list Z
}.

Definition configure_v5_compressor `{ZstdLibrary} : result unit :=
  guard_reject (negb zstd_contexts) "cannot allocate the Zstd compression context" ;;
  set_zstd_parameter "ZSTD_c_compressionLevel" "configure Zstd level" ;;
  set_zstd_parameter "ZSTD_c_checksumFlag" "enable Zstd frame checksum" ;;
  set_zstd_parameter "ZSTD_c_contentSizeFlag" "enable Zstd content size" ;;
  set_zstd_parameter "ZSTD_c_windowLog" "bound Zstd compression window".

Definition compress_v5_chunk `{ZstdLibrary} (logical : list Z) (first_frame frame_count : Z) : result EncodedV5Chunk :=
  compressed ← require_zstd (ZSTD_compress2 logical) "compress v5 sample chunk";
  Ok (if zlen compressed <? zlen logical
      then mkEncodedV5Chunk first_frame frame_count (zlen logical) codec_zstd mncwf_v5_chunk_frame_checksum
             (mncwf_crc32c logical) compressed
      else mkEncodedV5Chunk first_frame frame_count (zlen logical) codec_raw 0 (mncwf_crc32c logical) logical).

Definition encoded_chunk_invalid (frame_bytes expected_first_frame expected_logical : Z) (chunk : EncodedV5Chunk) : bool :=
  negb (ec_first_frame chunk =? expected_first_frame) || (ec_frame_count chunk =? 0)
  || negb (ec_logical_bytes chunk =? expected_logical)
  || (mncwf_v5_max_chunk_logical_bytes <? ec_logical_bytes chunk)
  || bool_decide (ec_payload chunk = [])
  || (if bool_decide (ec_codec chunk = codec_raw)
      then negb (ec_flags chunk =? 0) || negb (zlen (ec_payload chunk) =? ec_logical_bytes chunk)
      else negb (ec_flags chunk =? mncwf_v5_chunk_frame_checksum)
           || (ec_logical_bytes chunk <=? zlen (ec_payload chunk))).

Fixpoint check_encoded_chunks (frame_bytes expected_first_frame : Z) (chunks : list EncodedV5Chunk) : result Z :=
  match chunks with
  | [] => Ok expected_first_frame
  | chunk :: chunks =>
      expected_logical ← checked_multiply (ec_frame_count chunk) frame_bytes "v5 chunk logical bytes";
      guard_reject (encoded_chunk_invalid frame_bytes expected_first_frame expected_logical chunk)
        "encoded v5 chunk geometry is invalid" ;;
      next ← checked_add expected_first_frame (ec_frame_count chunk) "v5 chunk frame coverage";
      check_encoded_chunks frame_bytes next chunks
  end.

Definition chunk_puts (chunk : EncodedV5Chunk) (offset : Z) : list Put :=
  [PutU64 0 (ec_first_frame chunk);
   PutU64 8 (ec_frame_count chunk);
   PutU64 16 offset;
   PutU64 24 (zlen (ec_payload chunk));
   PutU64 32 (ec_logical_bytes chunk);
   PutU16 40 (codec_value (ec_codec chunk));
   PutU16 42 (ec_flags chunk);
   PutU32 44 (ec_logical_crc32c chunk);
   PutU64 48 0].

Fixpoint put_chunks (index : nat) (section : list Z) (chunks : list (EncodedV5Chunk * Z)) : result (list Z) :=
  match chunks with
  | [] => Ok section
  | (chunk, offset) :: chunks =>
      let entry := mncwf_v4_section_header_bytes + Z.of_nat index * mncwf_v5_chunk_entry_bytes in
      section ← run_puts entry section (chunk_puts chunk offset);
      section ← copy_into section offset (ec_payload chunk);
      put_chunks (S index) section chunks
  end.

Definition v5_envelope_puts (frame_count frame_bytes table_bytes : Z) : list Put :=
  [PutU32 0 (section_value section_sample_data);
   PutU16 4 2;
   PutU16 6 mncwf_v4_section_header_bytes;
   PutU32 8 0;
   PutU32 12 frame_bytes;
   PutU64 16 frame_count;
   PutU64 24 mncwf_v4_section_header_bytes;
   PutU64 32 table_bytes;
   PutU64 40 0].

Definition assemble_v5_sample_section (frame_count frame_bytes : Z) (chunks : list EncodedV5Chunk) : result (list Z) :=
  guard_reject ((zlen chunks =? 0) || (mncwf_v5_max_chunks <? zlen chunks)) "v5 chunk count is outside its bound" ;;
  covered ← check_encoded_chunks frame_bytes 0 chunks;
  guard_reject (negb (covered =? frame_count)) "encoded v5 chunk coverage is incomplete" ;;
  table_bytes ← checked_multiply (zlen chunks) mncwf_v5_chunk_entry_bytes "v5 chunk table";
  table_end ← checked_add mncwf_v4_section_header_bytes table_bytes "v5 chunk table";
  start ← align_eight table_end;
  '(offsets, section_bytes) ← section_offsets "v5 sample section" start (map (fun c => zlen (ec_payload c)) chunks);
  guard_reject (mncwf_v4_max_file_bytes <? section_bytes) "v5 sample section exceeds the file bound" ;;
  size ← narrow_size section_bytes "v5 sample section";
  section ← run_puts 0 (replicate (Z.to_nat size) 0) (v5_envelope_puts frame_count frame_bytes table_bytes);
  put_chunks 0 section (zip chunks offsets).

(** The loop over chunks of [frames_per_chunk] frames; [turns] bounds it, and the
    frame count is enough because a chunk has one frame at least. *)
Fixpoint compress_chunks `{ZstdLibrary} (turns : nat) (document : MncwfV4Document) (frames_per_chunk first : Z)
    : result (list EncodedV5Chunk) :=
  if doc_sample_frame_count document <=? first then Ok []
  else
    match turns with
    | O => Throw (LogicError "chunk loop bound")
    | S turns =>
        let count := Z.min frames_per_chunk (doc_sample_frame_count document - first) in
        logical_bytes ← checked_multiply count (doc_sample_frame_bytes document) "v5 chunk logical bytes";
        logical_offset ← checked_multiply first (doc_sample_frame_bytes document) "v5 chunk logical offset";
        offset ← narrow_size logical_offset "v5 chunk logical offset";
        size ← narrow_size logical_bytes "v5 chunk logical bytes";
        logical ← subspan (doc_sample_data document) offset size;
        chunk ← compress_v5_chunk logical first count;
        chunks ← compress_chunks turns document frames_per_chunk (first + frames_per_chunk);
        Ok (chunk :: chunks)
    end.

Definition encode_v5_sample_section `{ZstdLibrary} (document : MncwfV4Document) : result (list Z) :=
  guard_reject ((doc_sample_frame_bytes document =? 0)
                || (mncwf_v5_max_chunk_logical_bytes <? doc_sample_frame_bytes document))
    "v5 sample frame size is outside the chunk bound" ;;
  let frames_per_chunk := Z.max 1 (mncwf_v5_max_chunk_logical_bytes / doc_sample_frame_bytes document) in
  let chunk_count := u64 (doc_sample_frame_count document + frames_per_chunk - 1) / frames_per_chunk in
  configure_v5_compressor ;;
  _ ← narrow_size chunk_count "v5 chunk count";
  chunks ← compress_chunks (Z.to_nat (doc_sample_frame_count document)) document frames_per_chunk 0;
  assemble_v5_sample_section (doc_sample_frame_count document) (doc_sample_frame_bytes document) chunks.

(** The metadata sections are those of version 4. *)
Definition encode_mncwf_v5 `{ZstdLibrary} (document : MncwfV4Document) : result (list Z) :=
  sample_bytes ← check_sample_geometry document;
  metadata ← encode_metadata document;
  samples ← encode_v5_sample_section document;
  write_file mncwf_v5_version "encoded v5 file" "encoded v5 file exceeds the 512 MiB bound"
    (map plain_section metadata ++
     [mkFileSection (section_value section_sample_data) 2 (doc_sample_frame_count document)
        (doc_sample_frame_bytes document) sample_bytes samples]).
