(* ===== verification/MncwfSlice.v ===== *)
(** * MNCWF waveform container: event selections and virtual files

    Models the event export of src/common/msap1/waveform/mncwf_v4.cpp: the interval
    of frames an event selects, the metadata clipped to it
    ([make_mncwf_v4_event_selection]), the virtual file around the parent's samples
    ([make_mncwf_v4_event_slice]) and its positioned [read].  A loop over a vector is
    [fold_result]; its [continue] returns the state unchanged. *)

From S2P Require Import Prelude MncwfTypes MncwfFormat MncwfRecords MncwfReader MncwfEncode.

Fixpoint fold_result {S A} (turn : S -> A -> result S) (state : S) (items : list A) : result S :=
  match items with
  | [] => Ok state
  | item :: items => state ← turn state item; fold_result turn state items
  end.

(** ** Sequences, frames and times *)

Definition event_last_sequence (event : MncwfV4EventDescriptor) : Z :=
  if any_bit (ev_flags event) mncwf_event_end_valid then ev_end_sequence event
  else if any_bit (ev_flags event) mncwf_event_current_valid then ev_current_sequence event
  else ev_start_sequence event.

(** "MNCWF-v4 virtual event slice" *)
Definition slice_domain : list Z :=
  [77; 78; 67; 87; 70; 45; 118; 52; 32; 118; 105; 114; 116; 117; 97; 108; 32; 101; 118; 101; 110; 116; 32;
   115; 108; 105; 99; 101].

Definition virtual_capture_uuid (SHA256 : list Z -> option (list Z)) (parent event : list Z)
    (first_frame frame_count : Z) : result (list Z) :=
  let seed := slice_domain ++ parent ++ event in
  let offset := zlen seed in
  seed ← put_u64 (seed ++ replicate 16 0) offset first_frame;
  seed ← put_u64 seed (offset + 8) frame_count;
  digest ← mncwf_sha256 SHA256 seed;
  Ok (stamp_uuid 0x50 (take 16 digest)).

(** Unsigned division. *)
Definition divide (numerator denominator : Z) : result Z :=
  if denominator =? 0 then Throw (UndefinedBehaviour "division by zero") else Ok (numerator / denominator).

Definition holds_frame (frame : Z) (segment : MncwfV4TimebaseSegment) : bool :=
  (seg_first_frame segment <=? frame) && (frame - seg_first_frame segment <? seg_frame_count segment).

Definition holds_sequence (sequence : Z) (segment : MncwfV4TimebaseSegment) : bool :=
  (seg_first_sequence segment <=? sequence)
  && (sequence - seg_first_sequence segment <? seg_source_frame_count segment).

(** First and last source sequence of a stored frame. *)
Definition frame_source_bounds (segments : list MncwfV4TimebaseSegment) (frame : Z) : result (Z * Z) :=
  match List.find (holds_frame frame) segments with
  | None => reject "virtual slice frame has no timebase segment"
  | Some found =>
      let local := frame - seg_first_frame found in
      distance ← checked_multiply local (seg_decimation_divisor found) "virtual frame sequence";
      first ← checked_add (seg_first_sequence found) distance "virtual frame sequence";
      segment_end ← checked_add (seg_first_sequence found) (seg_source_frame_count found) "virtual segment source range";
      following ← checked_add first (seg_decimation_divisor found) "virtual frame source range";
      Ok (first, u64 (Z.min segment_end following - 1))
  end.

Definition segment_for_sequence (segments : list MncwfV4TimebaseSegment) (sequence : Z)
    : result MncwfV4TimebaseSegment :=
  match List.find (holds_sequence sequence) segments with
  | None => reject "virtual event anchor has no timebase segment"
  | Some found => Ok found
  end.

Definition timestamp_for_sequence (segments : list MncwfV4TimebaseSegment) (sequence : Z) (utc : bool) : result Z :=
  segment ← segment_for_sequence segments sequence;
  let anchor := if utc then seg_correlation_utc_nanoseconds segment else seg_correlation_tai_nanoseconds segment in
  guard_reject (anchor =? 0)
    (if utc then "virtual event lacks a UTC timebase" else "virtual event lacks a TAI timebase") ;;
  let delta := if seg_correlation_sequence segment <=? sequence
               then sequence - seg_correlation_sequence segment
               else seg_correlation_sequence segment - sequence in
  scaled ← checked_multiply delta (seg_acquisition_rate_denominator segment) "virtual event timestamp delta";
  product ← checked_multiply scaled 1000000000 "virtual event timestamp delta";
  nanoseconds ← divide product (seg_acquisition_rate_numerator segment);
  if seg_correlation_sequence segment <=? sequence then checked_add anchor nanoseconds "virtual event timestamp"
  else
    guard_reject (anchor <? nanoseconds) "virtual event timestamp underflows" ;;
    Ok (anchor - nanoseconds).

(** ** Events *)

(** [event] with its lifecycle, flags, anchors and duration assigned. *)
Definition with_anchors (event : MncwfV4EventDescriptor) (lifecycle : MncwfEventLifecycle)
    (flags start current last trigger duration : Z) : MncwfV4EventDescriptor :=
  mkEventDescriptor (ev_event_uuid event) (ev_taxonomy event) (ev_event_type event) lifecycle (ev_time_quality event)
    flags (ev_phase_mask event) (ev_quantity event) (ev_si_unit event) (ev_trigger_source event)
    (ev_configuration_generation event) (ev_severity event) start current last trigger
    (ev_start_tai_nanoseconds event) (ev_current_tai_nanoseconds event) (ev_end_tai_nanoseconds event)
    (ev_trigger_tai_nanoseconds event) (ev_start_utc_nanoseconds event) (ev_current_utc_nanoseconds event)
    (ev_end_utc_nanoseconds event) (ev_trigger_utc_nanoseconds event) (ev_uncertainty_nanoseconds event)
    (ev_reference_micro_units event) (ev_threshold_micro_units event) (ev_hysteresis_micro_units event)
    (ev_extrema_micro_units event) duration (ev_update_count event) (ev_status event) (ev_taxonomy_name event)
    (ev_label event) (ev_settings_snapshot_json event).

(** [event] with the (TAI, UTC) times of its four anchors assigned. *)
Definition with_times (event : MncwfV4EventDescriptor) (start current last trigger : Z * Z) : MncwfV4EventDescriptor :=
  mkEventDescriptor (ev_event_uuid event) (ev_taxonomy event) (ev_event_type event) (ev_lifecycle event)
    (ev_time_quality event) (ev_flags event) (ev_phase_mask event) (ev_quantity event) (ev_si_unit event)
    (ev_trigger_source event) (ev_configuration_generation event) (ev_severity event) (ev_start_sequence event)
    (ev_current_sequence event) (ev_end_sequence event) (ev_trigger_sequence event)
    start.1 current.1 last.1 trigger.1 start.2 current.2 last.2 trigger.2 (ev_uncertainty_nanoseconds event)
    (ev_reference_micro_units event) (ev_threshold_micro_units event) (ev_hysteresis_micro_units event)
    (ev_extrema_micro_units event) (ev_duration_samples event) (ev_update_count event) (ev_status event)
    (ev_taxonomy_name event) (ev_label event) (ev_settings_snapshot_json event).

(** The lambda [stamp] of [restamp_event]. *)
Definition stamp (flags : Z) (segments : list MncwfV4TimebaseSegment) (sequence original_sequence : Z) (times : Z * Z)
    : result (Z * Z) :=
  tai ← (if negb (any_bit flags mncwf_event_tai_valid) then Ok 0
         else if negb (sequence =? original_sequence) then timestamp_for_sequence segments sequence false
         else Ok times.1);
  utc ← (if negb (any_bit flags mncwf_event_utc_valid) then Ok 0
         else if negb (sequence =? original_sequence) then timestamp_for_sequence segments sequence true
         else Ok times.2);
  Ok (tai, utc).

Definition restamp_event (event original : MncwfV4EventDescriptor) (segments : list MncwfV4TimebaseSegment)
    : result MncwfV4EventDescriptor :=
  let has := any_bit (ev_flags event) in
  let stamped := stamp (ev_flags event) segments in
  start ← stamped (ev_start_sequence event) (ev_start_sequence original)
            (ev_start_tai_nanoseconds event, ev_start_utc_nanoseconds event);
  current ← (if has mncwf_event_current_valid
             then stamped (ev_current_sequence event) (ev_current_sequence original)
                    (ev_current_tai_nanoseconds event, ev_current_utc_nanoseconds event)
             else Ok (0, 0));
  last ← (if has mncwf_event_end_valid
          then stamped (ev_end_sequence event) (ev_end_sequence original)
                 (ev_end_tai_nanoseconds event, ev_end_utc_nanoseconds event)
          else Ok (0, 0));
  trigger ← (if has mncwf_event_trigger_valid
             then stamped (ev_trigger_sequence event) (ev_trigger_sequence original)
                    (ev_trigger_tai_nanoseconds event, ev_trigger_utc_nanoseconds event)
             else Ok (0, 0));
  Ok (with_times event start current last trigger).

(** [std::clamp]: undefined on reversed bounds. *)
Definition clamp (low high value : Z) : result Z :=
  if high <? low then Throw (UndefinedBehaviour "clamp bounds are reversed")
  else Ok (if value <? low then low else if high <? value then high else value).

(** The anchors, flags and lifecycle of [source] clipped to the slice. *)
Definition clip_event (slice_first slice_last : Z) (source : MncwfV4EventDescriptor) : result MncwfV4EventDescriptor :=
  let has_current := any_bit (ev_flags source) mncwf_event_current_valid in
  let has_end := any_bit (ev_flags source) mncwf_event_end_valid in
  let clipped_start := ev_start_sequence source <? slice_first in
  let clipped_current := has_current && (slice_last <? ev_current_sequence source) in
  let clipped_end := has_end && (slice_last <? ev_end_sequence source) in
  start ← clamp slice_first slice_last (ev_start_sequence source);
  current ← (if has_current
             then clamped ← clamp slice_first slice_last (ev_current_sequence source); Ok (Z.max start clamped)
             else Ok (ev_current_sequence source));
  '(flags, last) ←
    (if clipped_end then Ok (Z.land (ev_flags source) (Z.lnot mncwf_event_end_valid), 0)
     else if has_end
     then clamped ← clamp slice_first slice_last (ev_end_sequence source); Ok (ev_flags source, Z.max current clamped)
     else Ok (ev_flags source, ev_end_sequence source));
  let trigger := ev_trigger_sequence source in
  let '(flags, trigger) :=
    if any_bit flags mncwf_event_trigger_valid && ((trigger <? slice_first) || (slice_last <? trigger))
    then (Z.land flags (Z.lnot mncwf_event_trigger_valid), 0) else (flags, trigger) in
  let clipped := clipped_start || clipped_current || clipped_end in
  let flags := if clipped then Z.lor flags mncwf_event_discontinuous else flags in
  let ended := any_bit flags mncwf_event_end_valid in
  let lifecycle := if clipped && negb ended then lifecycle_update else ev_lifecycle source in
  let lifecycle := if lifecycle_closed lifecycle && negb ended then lifecycle_update else lifecycle in
  let event := with_anchors source lifecycle flags start current last trigger (ev_duration_samples source) in
  Ok (with_anchors event lifecycle flags start current last trigger (u64 (event_last_sequence event - start))).

Definition slice_event (slice_first slice_last : Z) (timebase : list MncwfV4TimebaseSegment)
    (events : list MncwfV4EventDescriptor) (source : MncwfV4EventDescriptor) : result (list MncwfV4EventDescriptor) :=
  if (event_last_sequence source <? slice_first) || (slice_last <? ev_start_sequence source) then Ok events
  else
    event ← clip_event slice_first slice_last source;
    event ← restamp_event event source timebase;
    Ok (events ++ [event]).

(** ** Frames *)

(** The frames found so far: the first one, and the end of the last. *)
Definition select_frames (requested_first requested_last : Z) (state : option Z * Z)
    (segment : MncwfV4TimebaseSegment) : result (option Z * Z) :=
  segment_last ← checked_add (seg_first_sequence segment) (u64 (seg_source_frame_count segment - 1))
                   "virtual segment sequence range";
  if (requested_last <? seg_first_sequence segment) || (segment_last <? requested_first) then Ok state
  else
    local_first ← (if requested_first <=? seg_first_sequence segment then Ok 0
                   else divide (requested_first - seg_first_sequence segment) (seg_decimation_divisor segment));
    local_last ← (if segment_last <=? requested_last then Ok (u64 (seg_frame_count segment - 1))
                  else divide (requested_last - seg_first_sequence segment) (seg_decimation_divisor segment));
    absolute_first ← checked_add (seg_first_frame segment) local_first "virtual first frame";
    absolute_last ← checked_add (seg_first_frame segment) (u64 (local_last + 1)) "virtual last frame";
    Ok (Some (match state.1 with Some first => Z.min first absolute_first | None => absolute_first end),
        Z.max state.2 absolute_last).

(** [source] with its frames, sequences and flags assigned. *)
Definition with_extent (source : MncwfV4TimebaseSegment)
    (first_frame frame_count first_sequence source_frame_count flags : Z) : MncwfV4TimebaseSegment :=
  mkTimebaseSegment first_frame frame_count first_sequence (seg_sequence_step source)
    (seg_acquisition_rate_numerator source) (seg_acquisition_rate_denominator source)
    (seg_persisted_rate_numerator source) (seg_persisted_rate_denominator source) (seg_correlation_sequence source)
    (seg_correlation_pl_tick source) (seg_correlation_tai_nanoseconds source)
    (seg_correlation_utc_nanoseconds source) (seg_uncertainty_nanoseconds source) (seg_decimation_divisor source)
    (seg_decimation_method source) (seg_clock_source source) (seg_time_quality source) flags
    (seg_utc_offset_seconds source) source_frame_count.

Definition slice_segment (first_frame last_frame_exclusive : Z) (timebase : list MncwfV4TimebaseSegment)
    (source : MncwfV4TimebaseSegment) : result (list MncwfV4TimebaseSegment) :=
  source_end ← checked_add (seg_first_frame source) (seg_frame_count source) "virtual source frame range";
  let first := Z.max (seg_first_frame source) first_frame in
  let last := Z.min source_end last_frame_exclusive in
  if last <=? first then Ok timebase
  else
    let local_first := first - seg_first_frame source in
    let local_end := last - seg_first_frame source in
    skipped ← checked_multiply local_first (seg_decimation_divisor source) "virtual segment first sequence";
    first_sequence ← checked_add (seg_first_sequence source) skipped "virtual segment first sequence";
    original_end ← checked_add (seg_first_sequence source) (seg_source_frame_count source) "virtual source sequence range";
    covered ← checked_multiply local_end (seg_decimation_divisor source) "virtual segment source count";
    covered_end ← checked_add (seg_first_sequence source) covered "virtual segment source count";
    let flags := match timebase with
                 | [] => Z.land (seg_flags source)
                           (Z.lnot (Z.lor mncwf_time_rate_change_before mncwf_time_sequence_gap_before))
                 | _ => seg_flags source
                 end in
    Ok (timebase ++ [with_extent source (first - first_frame) (last - first) first_sequence
                       (u64 (Z.min original_end covered_end - first_sequence)) flags]).

Definition slice_quality (segments : list MncwfV4TimebaseSegment) (first_frame last_frame_exclusive : Z)
    (quality : list MncwfV4QualityInterval) (source : MncwfV4QualityInterval) : result (list MncwfV4QualityInterval) :=
  source_end ← checked_add (qi_first_frame source) (qi_frame_count source) "virtual quality frame range";
  let first := Z.max (qi_first_frame source) first_frame in
  let last := Z.min source_end last_frame_exclusive in
  if last <=? first then Ok quality
  else
    first_bounds ← frame_source_bounds segments first;
    last_bounds ← frame_source_bounds segments (last - 1);
    let interval := mkQualityInterval (first - first_frame) (last - first)
      (Z.max (qi_first_sequence source) first_bounds.1) (Z.min (qi_last_sequence source) last_bounds.2)
      (qi_channel_mask source) (qi_flags source) (qi_severity source) (qi_source source) (qi_detail_code source) in
    Ok (if qi_first_sequence interval <=? qi_last_sequence interval then quality ++ [interval] else quality).

(** ** Selection *)

Record MncwfV4SelectionDescriptor := mkSelection {
  sel_capture_metadata : MncwfV4CaptureMetadata;
  sel_timebase_segments : list MncwfV4TimebaseSegment;
  sel_events : list MncwfV4EventDescriptor;
  sel_quality_intervals : list MncwfV4QualityInterval;
  sel_lineage : list MncwfV4LineageEntry;
  sel_selected_event_uuid : list Z;
  sel_source_first_frame : Z;
  sel_frame_count : Z;
  sel_first_sequence : Z;
  sel_last_sequence : Z
}.

(** "virtual_event_slice" *)
Definition slice_comment : list Z :=
  [118; 105; 114; 116; 117; 97; 108; 95; 101; 118; 101; 110; 116; 95; 115; 108; 105; 99; 101].

Definition slice_capture (capture : MncwfV4CaptureMetadata) (capture_uuid : list Z) : MncwfV4CaptureMetadata :=
  let comments := match cap_comments capture with [] => [] | comments => comments ++ [59] end in
  mkCaptureMetadata capture_uuid (cap_device_uuid capture) (cap_configuration_sha256 capture)
    (cap_sensor_profile_sha256 capture) (cap_created_tai_nanoseconds capture) (cap_created_utc_nanoseconds capture)
    (cap_nominal_voltage_numerator capture) (cap_nominal_voltage_denominator capture)
    (cap_nominal_frequency_numerator capture) (cap_nominal_frequency_denominator capture) (cap_topology capture)
    (cap_calibration_status capture) (cap_flags capture) (cap_station_name capture) (cap_site_name capture)
    (cap_circuit_name capture) (cap_product_name capture) (cap_device_model capture) (cap_firmware_version capture)
    (cap_software_build_id capture) (cap_sensor_profile_id capture) (cap_configuration_id capture)
    (cap_calibration_id capture) (cap_device_serial capture) (comments ++ slice_comment).

Definition zero_uuid : list Z := replicate 16 0.

Definition inherited_lineage (slice_first slice_last : Z) (source : MncwfV4LineageEntry) : list MncwfV4LineageEntry :=
  if bool_decide (lin_relation source = relation_event) || (lin_last_sequence source <? slice_first)
     || (slice_last <? lin_first_sequence source)
  then []
  else [mkLineageEntry (lin_relation source) (lin_flags source) (lin_related_capture_uuid source)
          (lin_related_event_uuid source) (Z.max (lin_first_sequence source) slice_first)
          (Z.min (lin_last_sequence source) slice_last) (lin_part_index source) (lin_part_count source)].

Definition slice_lineage (slice_first slice_last : Z) (parent_uuid capture_uuid event_uuid : list Z)
    (events : list MncwfV4EventDescriptor) (lineage : list MncwfV4LineageEntry) : list MncwfV4LineageEntry :=
  flat_map (inherited_lineage slice_first slice_last) lineage ++
  [mkLineageEntry relation_parent 0 parent_uuid zero_uuid slice_first slice_last 0 1;
   mkLineageEntry relation_virtual_slice 0 parent_uuid event_uuid slice_first slice_last 0 1] ++
  map (fun event => mkLineageEntry relation_event 0 capture_uuid (ev_event_uuid event) (ev_start_sequence event)
                      (event_last_sequence event) 0 1) events.

Definition has_uuid (uuid : list Z) (event : MncwfV4EventDescriptor) : bool := bool_decide (ev_event_uuid event = uuid).

Definition make_mncwf_v4_event_selection (SHA256 : list Z -> option (list Z)) (reader : MncwfV4Reader)
    (event_uuid : list Z) : result MncwfV4SelectionDescriptor :=
  guard_reject (all_zero event_uuid) "virtual slice event UUID is zero" ;;
  match List.find (has_uuid event_uuid) (events_ reader) with
  | None => reject "virtual slice event UUID is not in the capture"
  | Some selected =>
      frames ← fold_result (select_frames (ev_start_sequence selected) (event_last_sequence selected)) (None, 0)
                 (timebase_segments_ reader);
      match frames with
      | (None, _) => reject "virtual slice event has no sample frames"
      | (Some first_frame, last_frame_exclusive) =>
          guard_reject (last_frame_exclusive <=? first_frame) "virtual slice event has no sample frames" ;;
          let frame_count := last_frame_exclusive - first_frame in
          timebase ← fold_result (slice_segment first_frame last_frame_exclusive) [] (timebase_segments_ reader);
          match head timebase, list.last timebase with
          | Some front, Some back =>
              let slice_first := seg_first_sequence front in
              slice_last ← checked_add (seg_first_sequence back) (u64 (seg_source_frame_count back - 1))
                             "virtual source sequence range";
              events ← fold_result (slice_event slice_first slice_last timebase) [] (events_ reader);
              guard_reject (negb (existsb (has_uuid event_uuid) events)) "virtual slice lost its selected event" ;;
              quality ← fold_result (slice_quality (timebase_segments_ reader) first_frame last_frame_exclusive) []
                          (quality_intervals_ reader);
              let parent_uuid := cap_capture_uuid (capture_metadata_ reader) in
              capture_uuid ← virtual_capture_uuid SHA256 parent_uuid event_uuid first_frame frame_count;
              let lineage := slice_lineage slice_first slice_last parent_uuid capture_uuid event_uuid events
                               (lineage_ reader) in
              guard_reject (mncwf_v4_max_lineage_entries <? zlen lineage) "virtual slice lineage exceeds its bound" ;;
              Ok (mkSelection (slice_capture (capture_metadata_ reader) capture_uuid) timebase events quality lineage
                    event_uuid first_frame frame_count slice_first slice_last)
          | _, _ => reject "virtual slice has no timebase segments"
          end
      end
  end.

(** ** Version 5 samples of a slice *)

Definition sample_section_info (reader : MncwfV4Reader) : result MncwfV4SectionInfo :=
  match List.find (fun section => sec_type section =? section_value section_sample_data) (sections_ reader) with
  | Some section => Ok section
  | None => reject "sample section lookup failed"
  end.

Definition decompress_v5_source_chunk `{ZstdLibrary} (sample_section : MncwfV4SectionInfo) (chunk : MncwfV5ChunkInfo)
    : result (list Z) :=
  stored ← range (sec_data sample_section) (chunk_stored_offset chunk) (chunk_stored_bytes chunk) "v5 event source chunk";
  size ← narrow_size (chunk_logical_bytes chunk) "v5 event source chunk";
  logical ←
    match chunk_codec chunk with
    | codec_raw => copy_into (replicate (Z.to_nat size) 0) 0 stored
    | codec_zstd =>
        guard_reject (negb (ZSTD_getFrameContentSize stored =? chunk_logical_bytes chunk))
          "v5 event source frame content size is invalid" ;;
        produced ← require_zstd (ZSTD_decompressDCtx stored (chunk_logical_bytes chunk))
                     "decompress v5 event boundary chunk";
        guard_reject (negb (zlen produced =? size)) "v5 event boundary chunk size is invalid" ;;
        Ok produced
    end;
  guard_reject (negb (mncwf_crc32c logical =? chunk_logical_crc32c chunk))
    "v5 event source chunk logical CRC32C mismatch" ;;
  Ok logical.

(** A source chunk the slice contains whole: its stored bytes are reused. *)
Definition copy_v5_chunk `{ZstdLibrary} (sample_section : MncwfV4SectionInfo) (source : MncwfV5ChunkInfo)
    (relative_first selected_frames : Z) : result EncodedV5Chunk :=
  stored ← range (sec_data sample_section) (chunk_stored_offset source) (chunk_stored_bytes source)
             "v5 event source chunk";
  guard_reject (bool_decide (chunk_codec source = codec_raw)
                && negb (mncwf_crc32c stored =? chunk_logical_crc32c source))
    "v5 event raw source chunk CRC32C mismatch" ;;
  guard_reject (bool_decide (chunk_codec source = codec_zstd)
                && negb (ZSTD_getFrameContentSize stored =? chunk_logical_bytes source))
    "v5 event source frame content size is invalid" ;;
  Ok (mkEncodedV5Chunk relative_first selected_frames (chunk_logical_bytes source) (chunk_codec source)
        (chunk_flags source) (chunk_logical_crc32c source) stored).

(** A boundary chunk: the selected frames are cut out and compressed again. *)
Definition cut_v5_chunk `{ZstdLibrary} (sample_section : MncwfV4SectionInfo) (frame_bytes : Z)
    (source : MncwfV5ChunkInfo) (first relative_first selected_frames : Z) : result EncodedV5Chunk :=
  logical ← decompress_v5_source_chunk sample_section source;
  let local_frame := first - chunk_first_frame source in
  local_offset ← checked_multiply local_frame frame_bytes "v5 event boundary offset";
  selected_bytes ← checked_multiply selected_frames frame_bytes "v5 event boundary bytes";
  offset ← narrow_size local_offset "v5 event boundary offset";
  size ← narrow_size selected_bytes "v5 event boundary bytes";
  selected ← subspan logical offset size;
  compress_v5_chunk selected relative_first selected_frames.

Definition slice_chunk `{ZstdLibrary} (sample_section : MncwfV4SectionInfo) (frame_bytes first_frame end_frame : Z)
    (output : list EncodedV5Chunk) (source : MncwfV5ChunkInfo) : result (list EncodedV5Chunk) :=
  source_end ← checked_add (chunk_first_frame source) (chunk_frame_count source) "v5 source chunk frame range";
  let first := Z.max first_frame (chunk_first_frame source) in
  let last := Z.min end_frame source_end in
  if last <=? first then Ok output
  else
    let relative_first := first - first_frame in
    let selected_frames := last - first in
    chunk ← (if (first =? chunk_first_frame source) && (last =? source_end)
             then copy_v5_chunk sample_section source relative_first selected_frames
             else cut_v5_chunk sample_section frame_bytes source first relative_first selected_frames);
    Ok (output ++ [chunk]).

Definition make_v5_slice_sample_section `{ZstdLibrary} (reader : MncwfV4Reader) (first_frame frame_count : Z)
    : result (list Z) :=
  sample_section ← sample_section_info reader;
  guard_reject (negb (mncwf_crc32c (sec_data sample_section) =? sec_crc32c sample_section))
    "v5 event source sample CRC32C mismatch" ;;
  end_frame ← checked_add first_frame frame_count "v5 event frame range";
  configure_v5_compressor ;;
  guard_reject (negb zstd_contexts) "cannot allocate the Zstd decompression context" ;;
  set_zstd_parameter "ZSTD_d_windowLogMax" "bound event Zstd decompression window" ;;
  output ← fold_result (slice_chunk sample_section (sample_frame_bytes_ reader) first_frame end_frame) []
             (sample_chunks_ reader);
  assemble_v5_sample_section frame_count (sample_frame_bytes_ reader) output.

(** ** Virtual file *)

(** [write_directory_entry]; [logical_bytes] is zero when it is the stored size. *)
Definition directory_entry_puts (type : MncwfV4SectionType)
    (offset stored_bytes item_count item_bytes crc version logical_bytes : Z) : list Put :=
  [PutU32 0 (section_value type);
   PutU16 4 version;
   PutU16 6 mncwf_v4_section_required;
   PutU64 8 offset;
   PutU64 16 stored_bytes;
   PutU64 24 (if logical_bytes =? 0 then stored_bytes else logical_bytes);
   PutU64 32 item_count;
   PutU32 40 item_bytes;
   PutU32 44 crc].

Definition write_directory_entry (file : list Z) (index : nat) (puts : list Put) : result (list Z) :=
  run_puts (mncwf_v4_header_bytes + Z.of_nat index * mncwf_v4_directory_entry_bytes) file puts.

(** The loop over the metadata sections. *)
Fixpoint put_metadata (index : nat) (file : list Z) (sections : list (EncodedSection * Z)) : result (list Z) :=
  match sections with
  | [] => Ok file
  | (section, offset) :: sections =>
      file ← write_directory_entry file index
               (directory_entry_puts (es_type section) offset (zlen (es_payload section)) (es_item_count section)
                  (es_item_bytes section) (mncwf_crc32c (es_payload section)) 1 0);
      file ← copy_into file offset (es_payload section);
      put_metadata (S index) file sections
  end.

Definition make_v5_virtual_file (metadata : list EncodedSection) (sample_section : list Z) (frame_count frame_bytes : Z)
    : result (list Z) :=
  directory_bytes ← checked_multiply mncwf_v4_mandatory_section_count mncwf_v4_directory_entry_bytes
                      "v5 virtual directory";
  directory_end ← checked_add mncwf_v4_header_bytes directory_bytes "v5 virtual directory";
  start ← align_eight directory_end;
  '(offsets, sample_offset) ← section_offsets "v5 virtual metadata" start (map (fun s => zlen (es_payload s)) metadata);
  sample_end ← checked_add sample_offset (zlen sample_section) "v5 virtual sample section";
  file_bytes ← align_eight sample_end;
  guard_reject (mncwf_v4_max_file_bytes <? file_bytes) "v5 virtual file exceeds the 512 MiB bound" ;;
  size ← narrow_size file_bytes "v5 virtual file";
  file ← run_puts 0 (replicate (Z.to_nat size) 0)
           (header_puts mncwf_v5_version mncwf_v4_mandatory_section_count directory_bytes file_bytes);
  file ← put_metadata 0 file (zip metadata offsets);
  logical_bytes ← checked_multiply frame_count frame_bytes "v5 virtual logical sample bytes";
  file ← write_directory_entry file (length metadata)
           (directory_entry_puts section_sample_data sample_offset (zlen sample_section) frame_count frame_bytes
              (mncwf_crc32c sample_section) 2 logical_bytes);
  file ← copy_into file sample_offset sample_section;
  put_checksums file directory_bytes.

Record MncwfV4VirtualFile := mkVirtualFile {
  vf_prefix : list Z;
  vf_sample_data : list Z;
  vf_file_bytes : Z;
  vf_trailing_padding_bytes : Z;
  vf_capture_uuid : list Z;
  vf_first_sequence : Z;
  vf_last_sequence : Z
}.

(** The envelope of the sample section, ahead of the parent's bytes. *)
Definition sample_header_puts (frame_count frame_bytes : Z) : list Put :=
  [PutU32 0 (section_value section_sample_data);
   PutU16 4 1;
   PutU16 6 mncwf_v4_section_header_bytes;
   PutU32 12 frame_bytes;
   PutU64 16 frame_count].

(** Everything but the samples of a version 4 virtual file: its bytes, and the size
    of the file around [sample_data]. *)
Definition make_v4_prefix (metadata : list EncodedSection) (sample_data : list Z) (frame_count frame_bytes : Z)
    : result (list Z * Z) :=
  directory_bytes ← checked_multiply mncwf_v4_mandatory_section_count mncwf_v4_directory_entry_bytes "virtual directory";
  directory_end ← checked_add mncwf_v4_header_bytes directory_bytes "virtual directory";
  start ← align_eight directory_end;
  '(offsets, sample_offset) ← section_offsets "virtual metadata" start (map (fun s => zlen (es_payload s)) metadata);
  stored_bytes ← checked_add mncwf_v4_section_header_bytes (zlen sample_data) "virtual sample section";
  file_end ← checked_add sample_offset stored_bytes "virtual file";
  file_bytes ← align_eight file_end;
  guard_reject (mncwf_v4_max_file_bytes <? file_bytes) "virtual file exceeds the 512 MiB bound" ;;
  prefix_bytes ← checked_add sample_offset mncwf_v4_section_header_bytes "virtual prefix";
  size ← narrow_size prefix_bytes "virtual prefix";
  prefix ← run_puts 0 (replicate (Z.to_nat size) 0)
             (header_puts mncwf_v4_version mncwf_v4_mandatory_section_count directory_bytes file_bytes);
  prefix ← put_metadata 0 prefix (zip metadata offsets);
  sample_header ← run_puts 0 (replicate (Z.to_nat mncwf_v4_section_header_bytes) 0)
                    (sample_header_puts frame_count frame_bytes);
  prefix ← copy_into prefix sample_offset sample_header;
  let sample_crc := crc32c_update UINT32_MAX sample_header in
  let sample_crc := Z.lxor (crc32c_update sample_crc sample_data) UINT32_MAX in
  prefix ← write_directory_entry prefix (length metadata)
             (directory_entry_puts section_sample_data sample_offset stored_bytes frame_count frame_bytes sample_crc 1 0);
  prefix ← put_checksums prefix directory_bytes;
  Ok (prefix, file_bytes).

Definition make_mncwf_v4_event_slice `{ZstdLibrary} (SHA256 : list Z -> option (list Z)) (reader : MncwfV4Reader)
    (event_uuid : list Z) : result MncwfV4VirtualFile :=
  selection ← make_mncwf_v4_event_selection SHA256 reader event_uuid;
  let first_frame := sel_source_first_frame selection in
  let frame_count := sel_frame_count selection in
  capture ← encode_capture (sel_capture_metadata selection);
  timebase ← encode_timebase (sel_timebase_segments selection);
  channels ← encode_channels (channels_ reader);
  events ← encode_events (sel_events selection);
  quality ← encode_quality (sel_quality_intervals selection);
  lineage ← encode_lineage (sel_lineage selection);
  let metadata := [capture; timebase; channels; events; quality; lineage] in
  let described prefix samples file_bytes padding :=
    mkVirtualFile prefix samples file_bytes padding (cap_capture_uuid (sel_capture_metadata selection))
      (sel_first_sequence selection) (sel_last_sequence selection) in
  if hdr_version (header_ reader) =? mncwf_v5_version then
    samples ← make_v5_slice_sample_section reader first_frame frame_count;
    file ← make_v5_virtual_file metadata samples frame_count (sample_frame_bytes_ reader);
    Ok (described file [] (zlen file) 0)
  else
    guard_reject (negb (bool_decide (mode_ reader = mode_complete))) "v4 virtual slice requires materialized samples" ;;
    sample_offset ← checked_multiply first_frame (sample_frame_bytes_ reader) "virtual sample offset";
    sample_bytes ← checked_multiply frame_count (sample_frame_bytes_ reader) "virtual sample bytes";
    offset ← narrow_size sample_offset "virtual sample offset";
    size ← narrow_size sample_bytes "virtual sample bytes";
    sample_data ← subspan (sample_data_ reader) offset size;
    '(prefix, file_bytes) ← make_v4_prefix metadata sample_data frame_count (sample_frame_bytes_ reader);
    Ok (described prefix sample_data file_bytes (wrap 8 (file_bytes - zlen prefix - zlen sample_data))).

(** ** Positioned reads *)

(** The lambda [copy_region]; [copied] is what the destination holds so far. *)
Definition copy_region (offset requested region_offset : Z) (source copied : list Z) : list Z :=
  let position := offset + zlen copied in
  if (zlen copied =? requested) || (position <? region_offset) || (region_offset + zlen source <=? position) then copied
  else
    let source_offset := position - region_offset in
    copied ++ slice source source_offset (Z.min (requested - zlen copied) (zlen source - source_offset)).

(** The bytes a [read] into a destination of [capacity] bytes delivers. *)
Definition virtual_read (file : MncwfV4VirtualFile) (offset capacity : Z) : list Z :=
  if (vf_file_bytes file <=? offset) || (capacity =? 0) then []
  else
    let requested := Z.min capacity (vf_file_bytes file - offset) in
    let copied := copy_region offset requested 0 (vf_prefix file) [] in
    let copied := copy_region offset requested (zlen (vf_prefix file)) (vf_sample_data file) copied in
    let padding_offset := zlen (vf_prefix file) + zlen (vf_sample_data file) in
    if (zlen copied <? requested) && (padding_offset <=? offset + zlen copied) then
      copied ++ replicate (Z.to_nat (Z.min (requested - zlen copied)
        (u64 (vf_trailing_padding_bytes file - (offset + zlen copied - padding_offset))))) 0
    else copied.
