(* ===== verification/MncwfWire.v ===== *)
(** * MNCWF waveform container: laws of byte access

    Reads see what writes put there: the laws of [slice] and [splice], of the
    bounded reads and writes, and of lists of field writes laid out in increasing
    order ([tiled]). *)

From S2P Require Import Prelude MncwfTypes MncwfFormat MncwfRecords MncwfReader MncwfEncode.

(** ** Lengths, slices and splices *)

Lemma zlen_nonneg {A} (l : list A) : 0 <= zlen l.
Proof. unfold zlen. lia. Qed.

Lemma zlen_app {A} (l k : list A) : zlen (l ++ k) = zlen l + zlen k.
Proof. unfold zlen. rewrite length_app. lia. Qed.

Lemma zlen_replicate {A} n (a : A) : 0 <= n -> zlen (replicate (Z.to_nat n) a) = n.
Proof. intros. unfold zlen. rewrite length_replicate. lia. Qed.

Lemma slice_lookup bytes offset length i :
  slice bytes offset length !! i =
    if decide (i < Z.to_nat length)%nat then bytes !! (Z.to_nat offset + i)%nat else None.
Proof. unfold slice. by rewrite lookup_take, lookup_drop. Qed.

Lemma zlen_slice bytes offset length :
  0 <= offset -> 0 <= length -> offset + length <= zlen bytes -> zlen (slice bytes offset length) = length.
Proof. unfold zlen, slice. rewrite length_take, length_drop. lia. Qed.

Lemma slice_bytes bytes offset length : Forall is_byte bytes -> Forall is_byte (slice bytes offset length).
Proof. intros. unfold slice. by apply Forall_take, Forall_drop. Qed.

Lemma zlen_splice bytes offset value :
  0 <= offset -> offset + zlen value <= zlen bytes -> zlen (splice bytes offset value) = zlen bytes.
Proof. unfold zlen, splice. rewrite !length_app, length_take, length_drop. lia. Qed.

Lemma splice_lookup bytes offset value i :
  0 <= offset -> offset + zlen value <= zlen bytes ->
  splice bytes offset value !! i =
    if decide (Z.to_nat offset <= i < Z.to_nat offset + length value)%nat
    then value !! (i - Z.to_nat offset)%nat else bytes !! i.
Proof.
  unfold zlen, splice. intros Ho Hl.
  destruct (decide (i < Z.to_nat offset)%nat) as [Hi|Hi].
  - rewrite decide_False by lia. rewrite lookup_app_l by (rewrite length_take; lia).
    by rewrite lookup_take_lt by lia.
  - rewrite lookup_app_r by (rewrite length_take; lia). rewrite length_take, Nat.min_l by lia.
    case_decide as Hd.
    + rewrite lookup_app_l by lia. done.
    + rewrite lookup_app_r by lia. rewrite lookup_drop. f_equal. lia.
Qed.

(** [bytes] holds [value] at [offset]. *)
Definition holds_at (bytes : list Z) (offset : Z) (value : list Z) : Prop :=
  0 <= offset /\ offset + zlen value <= zlen bytes /\ slice bytes offset (zlen value) = value.

Lemma holds_at_splice bytes offset value :
  0 <= offset -> offset + zlen value <= zlen bytes -> holds_at (splice bytes offset value) offset value.
Proof.
  intros Ho Hl. split_and!; [done|by rewrite zlen_splice|].
  apply list_eq. intros i. rewrite slice_lookup, splice_lookup by done.
  unfold zlen. rewrite Nat2Z.id. case_decide as Hi.
  - rewrite decide_True by lia. f_equal. lia.
  - symmetry. apply lookup_ge_None. lia.
Qed.

Lemma holds_at_splice_other bytes offset value o v :
  0 <= offset -> offset + zlen value <= zlen bytes ->
  o + zlen v <= offset \/ offset + zlen value <= o ->
  holds_at bytes o v -> holds_at (splice bytes offset value) o v.
Proof.
  intros Ho Hl Hd (H1 & H2 & H3). split_and!; [done|by rewrite zlen_splice|].
  rewrite <- H3 at 2. apply list_eq. intros i. rewrite !slice_lookup.
  case_decide as Hi; [|done]. rewrite splice_lookup by done.
  unfold zlen in *. rewrite decide_False by lia. done.
Qed.

Lemma holds_at_replicate n o k :
  0 <= o -> 0 <= k -> o + k <= n -> holds_at (replicate (Z.to_nat n) 0) o (replicate (Z.to_nat k) 0).
Proof.
  intros. unfold holds_at. rewrite !zlen_replicate by lia. split_and!; [done|done|].
  unfold slice. rewrite drop_replicate, take_replicate. f_equal. lia.
Qed.

(** Slices of a held value are held. *)
Lemma holds_at_slice bytes o v k n :
  holds_at bytes o v -> 0 <= k -> 0 <= n -> k + n <= zlen v -> holds_at bytes (o + k) (slice v k n).
Proof.
  intros (H1 & H2 & H3) Hk Hn Hl. unfold holds_at. rewrite zlen_slice by lia.
  split_and!; [lia|lia|]. apply list_eq. intros i. rewrite !slice_lookup.
  case_decide as Hi; [|done]. rewrite <- H3, slice_lookup. unfold zlen in *.
  rewrite decide_True by lia. f_equal. lia.
Qed.

Lemma slice_slice bytes o n k m :
  0 <= o -> 0 <= k -> 0 <= m -> k + m <= n -> slice (slice bytes o n) k m = slice bytes (o + k) m.
Proof.
  intros. apply list_eq. intros i. rewrite !slice_lookup. case_decide; [|done].
  rewrite decide_True by lia. f_equal. lia.
Qed.

Lemma holds_at_slice_whole bytes o n : 
  0 <= o -> 0 <= n -> o + n <= zlen bytes -> holds_at bytes o (slice bytes o n).
Proof. intros. unfold holds_at. rewrite zlen_slice by lia. done. Qed.

(** What a slice of [bytes] holds, [bytes] holds at the shifted offset. *)
Lemma holds_at_shift bytes o n k v :
  0 <= o -> 0 <= n -> o + n <= zlen bytes -> holds_at (slice bytes o n) k v -> holds_at bytes (o + k) v.
Proof.
  intros Ho Hn Hl (H1 & H2 & H3). pose proof (zlen_nonneg v).
  rewrite zlen_slice in H2 by lia. rewrite slice_slice in H3 by lia.
  unfold holds_at. split_and!; [lia|lia|done].
Qed.

Lemma slice_holds bytes o n k v :
  0 <= o -> 0 <= k -> k + zlen v <= n -> o + n <= zlen bytes ->
  holds_at bytes (o + k) v -> holds_at (slice bytes o n) k v.
Proof.
  intros Ho Hk Hn Hl (H1 & H2 & H3). pose proof (zlen_nonneg v).
  unfold holds_at. rewrite zlen_slice by lia. rewrite slice_slice by lia. done.
Qed.

(** ** Checked operations *)

Lemma guard_reject_Ok b s u : guard_reject b s = Ok u <-> b = false.
Proof. apply reject_if_Ok. Qed.

Lemma checked_add_Ok l r label z : checked_add l r label = Ok z <-> r <= UINT64_MAX - l /\ z = l + r.
Proof.
  unfold checked_add. rewrite bind_Ok. split.
  - intros (u & H & [= <-]). apply guard_reject_Ok in H. lia.
  - intros [H ->]. exists tt. split; [|done]. apply guard_reject_Ok. lia.
Qed.

Lemma checked_multiply_Ok l r label z :
  0 <= l -> 0 <= r -> checked_multiply l r label = Ok z <-> l * r <= UINT64_MAX /\ z = l * r.
Proof.
  intros Hl Hr. unfold checked_multiply. rewrite bind_Ok. unfold UINT64_MAX.
  set (M := 18446744073709551615). assert (0 <= M) by (subst M; lia).
  destruct (Z.eq_dec l 0) as [->|Hz].
  - split; [intros (u & Hg & [= <-]); lia|]. intros [_ ->]. by exists tt.
  - pose proof (Z.mul_div_le M l ltac:(lia)). pose proof (Z.mul_succ_div_gt M l ltac:(lia)).
    split.
    + intros (u & Hg & [= <-]). apply guard_reject_Ok in Hg.
      destruct (Z.eqb_spec l 0); [lia|]. simpl in Hg. bools. split; [nia|done].
    + intros [Hle ->]. exists tt. split; [|done]. apply guard_reject_Ok.
      apply andb_false_iff. right. apply Z.ltb_ge. nia.
Qed.

Lemma narrow_size_Ok v label z : narrow_size v label = Ok z <-> v <= UINT64_MAX /\ z = v.
Proof.
  unfold narrow_size. rewrite bind_Ok. split.
  - intros (u & H & [= <-]). apply guard_reject_Ok in H. lia.
  - intros [H ->]. exists tt. split; [|done]. apply guard_reject_Ok. lia.
Qed.

Lemma land_not64_7 v : 0 <= v <= UINT64_MAX -> Z.land v (not64 7) = 8 * (v / 8).
Proof.
  intros Hv. assert (Z.land v (not64 7) = Z.ldiff v 7) as ->.
  { apply Z.bits_inj'. intros n Hn. unfold not64.
    rewrite Z.land_spec, Z.ldiff_spec, Z.lxor_spec. change UINT64_MAX with (Z.ones 64).
    destruct (Z.ltb_spec n 64).
    - rewrite Z.ones_spec_low by lia. by destruct (Z.testbit v n), (Z.testbit 7 n).
    - rewrite (Z.bits_above_log2 v n); [done|lia|].
      destruct (Z.eq_dec v 0) as [->|]; [simpl; lia|].
      apply Z.log2_lt_pow2; [lia|]. apply Z.lt_le_trans with (2 ^ 64); [unfold UINT64_MAX in *; lia|].
      apply Z.pow_le_mono_r; lia. }
  change 7 with (Z.ones 3). rewrite Z.ldiff_ones_r, Z.shiftr_div_pow2, Z.shiftl_mul_pow2 by lia.
  change (2 ^ 3) with 8. lia.
Qed.

(** The least multiple of eight from [value] on. *)
Definition align8 (value : Z) : Z := 8 * ((value + 7) / 8).

Lemma align8_bounds v : v <= align8 v < v + 8.
Proof. unfold align8. pose proof (Z.div_mod (v + 7) 8). pose proof (Z.mod_pos_bound (v + 7) 8). lia. Qed.

Lemma align8_mod v : align8 v mod 8 = 0.
Proof. unfold align8. rewrite Z.mul_comm. apply Z.mod_mul. lia. Qed.

Lemma align_eight_Ok v z : 0 <= v -> align_eight v = Ok z <-> v <= UINT64_MAX - 7 /\ z = align8 v.
Proof.
  intros Hv. unfold align_eight. rewrite bind_Ok. split.
  - intros (s & H & [= <-]). apply checked_add_Ok in H as [H ->].
    split; [lia|]. apply land_not64_7. lia.
  - intros [H ->]. exists (v + 7). rewrite checked_add_Ok. split; [lia|].
    f_equal. apply land_not64_7. lia.
Qed.

Lemma subspan_Ok bytes o n l :
  subspan bytes o n = Ok l <-> 0 <= o /\ 0 <= n /\ o + n <= zlen bytes /\ l = slice bytes o n.
Proof.
  unfold subspan. destruct (_ && _) eqn:E; bools; split.
  - intros [= <-]. done.
  - by intros (_ & _ & _ & ->).
  - done.
  - intros (? & ? & ? & ->). apply andb_false_iff in E as [E|E]; [apply andb_false_iff in E as [E|E]|]; bools; lia.
Qed.

Lemma range_Ok bytes o n label l :
  zlen bytes <= UINT64_MAX ->
  range bytes o n label = Ok l <-> 0 <= o /\ 0 <= n /\ o + n <= zlen bytes /\ l = slice bytes o n.
Proof.
  intros Hb. unfold range. split.
  - intros H. apply bind_Ok in H as (z & H1 & H). apply bind_Ok in H as (u & H2 & H).
    apply bind_Ok in H as (a & H3 & H). apply bind_Ok in H as (b & H4 & H).
    apply narrow_size_Ok in H3 as [_ ->], H4 as [_ ->]. by apply subspan_Ok in H.
  - intros (H1 & H2 & H3 & ->). apply bind_Ok. exists (o + n). rewrite checked_add_Ok. split; [lia|].
    apply bind_Ok. exists tt. rewrite guard_reject_Ok. split; [lia|].
    apply bind_Ok. exists o. rewrite narrow_size_Ok. split; [lia|].
    apply bind_Ok. exists n. rewrite narrow_size_Ok. split; [lia|].
    by apply subspan_Ok.
Qed.

(** ** Reads *)

Lemma or_bytes_value bytes : Forall is_byte bytes -> or_bytes bytes = le_value bytes.
Proof.
  induction 1 as [|b l Hb Hl IH]; [done|]. unfold or_bytes in *. simpl. rewrite IH.
  rewrite lor_high_low; [|by apply le_value_range|done]. fold (le_value l). lia.
Qed.

Lemma read_field_Ok w t bytes o l :
  0 <= o -> 0 <= w -> read_field w t bytes o = Ok l <-> o + w <= zlen bytes /\ l = slice bytes o w.
Proof.
  intros Ho Hw. unfold read_field. rewrite bind_Ok. setoid_rewrite guard_reject_Ok.
  setoid_rewrite subspan_Ok. split.
  - intros (u & H & _ & _ & H2 & ->). done.
  - intros [H ->]. exists tt. split; [|done]. apply orb_false_iff. lia.
Qed.

Lemma read_field_holds w t bytes o v :
  holds_at bytes o v -> w = zlen v -> read_field w t bytes o = Ok v.
Proof.
  intros (H1 & H2 & H3) ->. apply read_field_Ok; [done|apply zlen_nonneg|]. done.
Qed.

Lemma zlen_le_bytes n v : zlen (le_bytes n v) = Z.of_nat n.
Proof. unfold zlen. by rewrite le_bytes_length. Qed.

Lemma or_le_bytes n v : or_bytes (le_bytes n v) = v mod 256 ^ Z.of_nat n.
Proof. by rewrite or_bytes_value, le_value_bytes by apply le_bytes_are_bytes. Qed.

Lemma fmap_Ok {A B} (f : A -> B) a : f <$> Ok a = Ok (f a).
Proof. done. Qed.

Section read_holds.
  Context (bytes : list Z) (o v : Z).

Lemma read_u16_holds : fits 16 v = true -> holds_at bytes o (le_bytes 2 v) -> read_u16 bytes o = Ok v.
Proof.
    intros Hv H. unfold read_u16. erewrite read_field_holds; [|done|done].
    rewrite fmap_Ok, or_le_bytes. f_equal. apply Z.mod_small. by apply fits_iff in Hv.
  Qed.

Lemma read_u32_holds : fits 32 v = true -> holds_at bytes o (le_bytes 4 v) -> read_u32 bytes o = Ok v.
Proof.
    intros Hv H. unfold read_u32. erewrite read_field_holds; [|done|done].
    rewrite fmap_Ok, or_le_bytes. f_equal. apply Z.mod_small. by apply fits_iff in Hv.
  Qed.

Lemma read_u64_holds : fits 64 v = true -> holds_at bytes o (le_bytes 8 v) -> read_u64 bytes o = Ok v.
Proof.
    intros Hv H. unfold read_u64. erewrite read_field_holds; [|done|done].
    rewrite fmap_Ok, or_le_bytes. f_equal. apply Z.mod_small. by apply fits_iff in Hv.
  Qed.
End read_holds.

Lemma fits_signed_iff w v : fits_signed w v = true <-> - 2 ^ (w - 1) <= v < 2 ^ (w - 1).
Proof. unfold fits_signed. lia. Qed.

Lemma read_s16_holds bytes o v :
  fits_signed 16 v = true -> holds_at bytes o (le_bytes 2 (wrap 16 v)) -> read_s16 bytes o = Ok v.
Proof.
  intros Hv H. unfold read_s16. erewrite read_u16_holds; [|by apply fits_wrap|done]. rewrite fmap_Ok. f_equal.
  apply sign_wrap_id; [lia|]. by apply fits_signed_iff.
Qed.

Lemma read_s32_holds bytes o v :
  fits_signed 32 v = true -> holds_at bytes o (le_bytes 4 (wrap 32 v)) -> read_s32 bytes o = Ok v.
Proof.
  intros Hv H. unfold read_s32. erewrite read_u32_holds; [|by apply fits_wrap|done]. rewrite fmap_Ok. f_equal.
  apply sign_wrap_id; [lia|]. by apply fits_signed_iff.
Qed.

Lemma read_s64_holds bytes o v :
  fits_signed 64 v = true -> holds_at bytes o (le_bytes 8 (wrap 64 v)) -> read_s64 bytes o = Ok v.
Proof.
  intros Hv H. unfold read_s64. erewrite read_u64_holds; [|by apply fits_wrap|done]. rewrite fmap_Ok. f_equal.
  apply sign_wrap_id; [lia|]. by apply fits_signed_iff.
Qed.

(** ** Field writes *)

Definition put_offset (p : Put) : Z :=
  match p with
  | PutU16 o _ | PutS16 o _ | PutU32 o _ | PutS32 o _ | PutU64 o _ | PutS64 o _ => o
  | PutArray _ o _ | PutCopy _ o _ | EnsureWrite o _ => o
  end.

(** The bytes a write claims; a bare check claims none. *)
Definition put_width (p : Put) : Z :=
  match p with
  | PutU16 _ _ | PutS16 _ _ => 2
  | PutU32 _ _ | PutS32 _ _ => 4
  | PutU64 _ _ | PutS64 _ _ => 8
  | PutArray size _ _ | PutCopy size _ _ => size
  | EnsureWrite _ _ => 0
  end.

Definition put_bytes (p : Put) : list Z :=
  match p with
  | PutU16 _ v => le_bytes 2 v
  | PutS16 _ v => le_bytes 2 (wrap 16 v)
  | PutU32 _ v => le_bytes 4 v
  | PutS32 _ v => le_bytes 4 (wrap 32 v)
  | PutU64 _ v => le_bytes 8 v
  | PutS64 _ v => le_bytes 8 (wrap 64 v)
  | PutArray _ _ v | PutCopy _ _ v => v
  | EnsureWrite _ _ => []
  end.

(** The written value is a value of its C++ type. *)
Definition put_typed (p : Put) : bool :=
  match p with
  | PutU16 _ v => fits 16 v
  | PutS16 _ v => fits_signed 16 v
  | PutU32 _ v => fits 32 v
  | PutS32 _ v => fits_signed 32 v
  | PutU64 _ v => fits 64 v
  | PutS64 _ v => fits_signed 64 v
  | PutArray size _ v | PutCopy size _ v => (zlen v =? size) && forallb (fits 8) v
  | EnsureWrite _ _ => true
  end.

(** An array write has the size it declares. *)
Definition put_sized (p : Put) : bool :=
  match p with
  | PutArray size _ v | PutCopy size _ v => zlen v =? size
  | _ => true
  end.

(** Writes in increasing order inside [lo, hi). *)
Fixpoint tiled (lo hi : Z) (puts : list Put) : bool :=
  match puts with
  | [] => lo <=? hi
  | EnsureWrite o w :: puts => (0 <=? o) && (0 <=? w) && (o + w <=? hi) && tiled lo hi puts
  | p :: puts => (lo <=? put_offset p) && (0 <=? put_width p) && tiled (put_offset p + put_width p) hi puts
  end.

(** What reading the field of a write back gives. *)
Definition put_reads (bytes : list Z) (base : Z) (p : Put) : Prop :=
  match p with
  | PutU16 o v => read_u16 bytes (base + o) = Ok v
  | PutS16 o v => read_s16 bytes (base + o) = Ok v
  | PutU32 o v => read_u32 bytes (base + o) = Ok v
  | PutS32 o v => read_s32 bytes (base + o) = Ok v
  | PutU64 o v => read_u64 bytes (base + o) = Ok v
  | PutS64 o v => read_s64 bytes (base + o) = Ok v
  | PutArray size o v | PutCopy size o v => read_array size bytes (base + o) = Ok v
  | EnsureWrite _ _ => True
  end.

Lemma put_typed_sized p : put_typed p = true -> put_sized p = true.
Proof. destruct p; simpl; try done; intros; bools; by apply Z.eqb_eq. Qed.

Lemma puts_typed_sized puts : forallb put_typed puts = true -> forallb put_sized puts = true.
Proof.
  rewrite !forallb_forall. intros H p Hin. apply put_typed_sized. by apply H.
Qed.

Lemma put_sized_width p : put_sized p = true -> zlen (put_bytes p) = put_width p.
Proof. destruct p; simpl; rewrite ?zlen_le_bytes; try done; intros; bools; done. Qed.

Lemma put_bytes_width p : put_typed p = true -> zlen (put_bytes p) = put_width p.
Proof. intros. by apply put_sized_width, put_typed_sized. Qed.

Lemma holds_put_reads bytes base p :
  put_typed p = true -> holds_at bytes (base + put_offset p) (put_bytes p) -> put_reads bytes base p.
Proof.
  destruct p; simpl; intros Ht H.
  - by apply read_u16_holds.
  - by apply read_s16_holds.
  - by apply read_u32_holds.
  - by apply read_s32_holds.
  - by apply read_u64_holds.
  - by apply read_s64_holds.
  - apply read_field_holds; [done|]. bools. done.
  - apply read_field_holds; [done|]. bools. done.
  - done.
Qed.

Lemma ensure_write_ok bytes o w : o + w <= zlen bytes -> 0 <= w -> ensure_write bytes o w = Ok tt.
Proof. intros. unfold ensure_write. apply guard_reject_Ok. apply orb_false_iff. lia. Qed.

Lemma copy_into_ok bytes o v :
  0 <= o -> o + zlen v <= zlen bytes -> copy_into bytes o v = Ok (splice bytes o v).
Proof.
  intros. unfold copy_into. destruct (_ && _) eqn:E; [done|].
  apply andb_false_iff in E as [E|E]; bools; lia.
Qed.

Lemma copy_into_Ok bytes o v out :
  copy_into bytes o v = Ok out -> 0 <= o /\ o + zlen v <= zlen bytes /\ out = splice bytes o v.
Proof. unfold copy_into. destruct (_ && _) eqn:E; [|done]. intros [= <-]. bools. done. Qed.

Lemma put_unsigned_ok n bytes o v :
  0 <= o -> o + Z.of_nat n <= zlen bytes -> put_unsigned n bytes o v = Ok (splice bytes o (le_bytes n v)).
Proof.
  intros. unfold put_unsigned. rewrite ensure_write_ok by lia. simpl.
  apply copy_into_ok; [done|]. rewrite zlen_le_bytes. done.
Qed.

Definition is_ensure (p : Put) : bool := match p with EnsureWrite _ _ => true | _ => false end.

Lemma run_put_ok base bytes p :
  put_sized p = true -> is_ensure p = false -> 0 <= base + put_offset p ->
  base + put_offset p + put_width p <= zlen bytes ->
  run_put base bytes p = Ok (splice bytes (base + put_offset p) (put_bytes p)).
Proof.
  intros Ht He H0 H1. pose proof (put_sized_width p Ht) as Hw.
  destruct p; simpl in *; try discriminate;
    unfold put_s16, put_s32, put_s64, put_u16, put_u32, put_u64, put_array;
    try (apply put_unsigned_ok; simpl; lia); bools.
  - pose proof (zlen_nonneg value). rewrite ensure_write_ok by lia. simpl. apply copy_into_ok; lia.
  - apply copy_into_ok; lia.
Qed.

Lemma tiled_le lo hi puts : tiled lo hi puts = true -> lo <= hi.
Proof.
  revert lo. induction puts as [|p puts IH]; intros lo; [simpl; lia|].
  destruct p; simpl; intros H; bools; try (specialize (IH _ ltac:(eassumption)); lia).
Qed.

(** Writes laid out in order succeed, keep what lies outside their span, and each
    of them can be read back. *)
Lemma run_puts_sized base lo hi puts : forall bytes,
  tiled lo hi puts = true -> forallb put_sized puts = true -> 0 <= lo -> 0 <= base ->
  base + hi <= zlen bytes ->
  exists out, run_puts base bytes puts = Ok out /\ zlen out = zlen bytes /\
    Forall (fun p => holds_at out (base + put_offset p) (put_bytes p) \/ is_ensure p = true) puts /\
    (forall o v, holds_at bytes o v -> o + zlen v <= base + lo \/ base + hi <= o -> holds_at out o v).
Proof.
  revert lo. induction puts as [|p puts IH]; intros lo bytes Ht Hty Hlo Hb Hl; [by exists bytes|].
  cbn [forallb] in Hty. apply andb_true_iff in Hty as [Hp Hps]. cbn [run_puts].
  destruct (is_ensure p) eqn:Ee.
  - destruct p as [| | | | | | | |o w]; try discriminate. cbn [tiled] in Ht. bools.
    cbn [run_put]. rewrite ensure_write_ok by lia. simpl.
    destruct (IH lo bytes) as (out & E & Hz & Hf & Hk); [done|done|done|done|done|].
    exists out. split_and!; [done|done| |done]. constructor; [by right|done].
  - assert (lo <= put_offset p /\ 0 <= put_width p /\ tiled (put_offset p + put_width p) hi puts = true) as (H1 & H2 & H3)
      by (destruct p; cbn [tiled] in Ht; try discriminate; bools; done).
    pose proof (tiled_le _ _ _ H3). pose proof (put_sized_width p Hp) as Hw.
    rewrite run_put_ok by (done || lia). cbn [mbind result_bind].
    set (b1 := splice bytes (base + put_offset p) (put_bytes p)).
    assert (zlen b1 = zlen bytes) as E1 by (apply zlen_splice; lia).
    destruct (IH (put_offset p + put_width p) b1) as (out & E & Hz & Hf & Hk); [done|done|lia|done|lia|].
    exists out. split_and!; [done|lia| |].
    + constructor; [|done]. left. apply Hk; [apply holds_at_splice; lia|lia].
    + intros o v Ho Hd. apply Hk; [|lia]. apply holds_at_splice_other; [lia|lia|lia|done].
Qed.

Lemma run_puts_tiled base lo hi puts bytes :
  tiled lo hi puts = true -> forallb put_typed puts = true -> 0 <= lo -> 0 <= base ->
  base + hi <= zlen bytes ->
  exists out, run_puts base bytes puts = Ok out /\ zlen out = zlen bytes /\
    Forall (fun p => holds_at out (base + put_offset p) (put_bytes p) \/ is_ensure p = true) puts /\
    (forall o v, holds_at bytes o v -> o + zlen v <= base + lo \/ base + hi <= o -> holds_at out o v).
Proof. intros. apply run_puts_sized; try done. by apply puts_typed_sized. Qed.

Lemma run_puts_app base bytes p q :
  run_puts base bytes (p ++ q) = (out ← run_puts base bytes p; run_puts base out q).
Proof.
  revert bytes. induction p as [|x p IH]; intros bytes; [done|]. simpl.
  destruct (run_put base bytes x); [apply IH|done].
Qed.
