(* ===== verification/MncwfRoundTrip.v ===== *)
(** * MNCWF waveform container: sections read back

    What an encoder of src/common/msap1/waveform/mncwf_v4.cpp writes into a section
    is what the reader's record loops return: string references, the section
    envelope, and the six record types. *)

From S2P Require Import Prelude MncwfTypes MncwfFormat MncwfRecords MncwfReader MncwfEncode MncwfWire.

(** ** Strings *)

(** The reference at [offset] of [records] names [value] in [blob]. *)
Definition string_at (records : list Z) (offset : Z) (blob value : list Z) : Prop :=
  exists ref, fits 32 ref = true /\ fits 32 (zlen value) = true /\
    holds_at records offset (le_bytes 4 ref) /\ holds_at records (offset + 4) (le_bytes 4 (zlen value)) /\
    holds_at blob ref value.

Lemma holds_at_prefix blob more o v : holds_at blob o v -> holds_at (blob ++ more) o v.
Proof.
  intros (H1 & H2 & H3). unfold holds_at. rewrite zlen_app. pose proof (zlen_nonneg more).
  split_and!; [done|lia|]. rewrite <- H3 at 2. apply list_eq. intros i. rewrite !slice_lookup.
  case_decide; [|done]. apply lookup_app_l. unfold zlen in *. lia.
Qed.

Lemma read_string_at records offset blob value label got :
  zlen blob <= UINT64_MAX -> string_at records offset blob value ->
  read_string records offset blob label = Ok got -> got = value.
Proof.
  intros Hb (ref & Hr & Hv & H1 & H2 & H3) H. unfold read_string in H.
  rewrite (read_u32_holds records offset ref) in H by done. cbn [mbind result_bind] in H.
  rewrite (read_u32_holds records (offset + 4) (zlen value)) in H by done. cbn [mbind result_bind] in H.
  apply bind_Ok in H as (? & _ & H). apply bind_Ok in H as (? & _ & H).
  apply bind_Ok in H as (text & Ht & H). apply range_Ok in Ht as (_ & _ & _ & ->); [|done].
  destruct H3 as (_ & _ & E). rewrite E in H. destruct value; [by injection H as <-|].
  apply bind_Ok in H as (? & _ & H). by injection H as <-.
Qed.

Lemma append_string_spec blob value blob' reference :
  append_string blob value = Ok (blob', reference) ->
  fits 32 reference.1 = true /\ fits 32 reference.2 = true /\ reference.2 = zlen value /\
  (exists more, blob' = blob ++ more) /\ holds_at blob' reference.1 value.
Proof.
  unfold append_string. destruct value as [|b value].
  - intros [= <- <-]. cbn. split_and!; try done; [exists []; by rewrite app_nil_r|].
    unfold holds_at. pose proof (zlen_nonneg blob). change (zlen (@nil Z)) with 0. split_and!; [lia|lia|done].
  - set (v := b :: value). intros H. apply bind_Ok in H as (u & Hg & H). injection H as <- <-.
    apply guard_reject_Ok in Hg. bools. unfold UINT32_MAX, mncwf_v4_max_string_bytes in *.
    pose proof (zlen_nonneg blob). pose proof (zlen_nonneg v). cbn [fst snd]. split_and!.
    + apply fits_iff. lia.
    + apply fits_iff. lia.
    + done.
    + by exists v.
    + unfold holds_at. rewrite zlen_app. split_and!; [lia|lia|].
      unfold slice, zlen. rewrite !Nat2Z.id. rewrite drop_app_length, take_ge by lia. done.
Qed.

(** String references in increasing order inside [lo, hi). *)
Fixpoint strings_tiled (lo hi : Z) (strings : list (Z * list Z)) : bool :=
  match strings with
  | [] => lo <=? hi
  | (o, _) :: strings => (lo <=? o) && strings_tiled (o + 8) hi strings
  end.

Lemma strings_tiled_le lo hi strings : strings_tiled lo hi strings = true -> lo <= hi.
Proof.
  revert lo. induction strings as [|[o v] strings IH]; intros lo; simpl; intros H; bools; [lia|].
  specialize (IH _ ltac:(eassumption)). lia.
Qed.

Lemma string_at_more records offset blob more value :
  string_at records offset blob value -> string_at records offset (blob ++ more) value.
Proof. intros (r & ? & ? & ? & ? & ?). exists r. split_and!; try done. by apply holds_at_prefix. Qed.

Lemma put_string_ref_puts base records offset reference :
  put_string_ref records (base + offset) reference =
  run_puts base records [PutU32 offset reference.1; PutU32 (offset + 4) reference.2].
Proof.
  unfold put_string_ref. cbn [run_puts run_put]. destruct (put_u32 _ _ _) as [r|e]; [|done].
  cbn [mbind result_bind]. rewrite Z.add_assoc. by destruct (put_u32 r _ _).
Qed.

Lemma put_strings_spec base hi strings : forall lo records blob records' blob',
  put_strings base records blob strings = Ok (records', blob') ->
  strings_tiled lo hi strings = true -> 0 <= lo -> 0 <= base -> base + hi <= zlen records ->
  zlen records' = zlen records /\ (exists more, blob' = blob ++ more) /\
  Forall (fun s => string_at records' (base + s.1) blob' s.2) strings /\
  (forall o v, holds_at records o v -> o + zlen v <= base + lo \/ base + hi <= o -> holds_at records' o v).
Proof.
  induction strings as [|[o v] strings IH]; intros lo records blob records' blob' H Ht Hlo Hb Hl.
  - injection H as <- <-. split_and!; [done|exists []; by rewrite app_nil_r|constructor|done].
  - cbn [put_strings] in H. apply bind_Ok in H as ([blob1 reference] & Ha & H).
    apply bind_Ok in H as (records1 & Hr & H). simpl in Ht. bools.
    apply append_string_spec in Ha as (F1 & F2 & E2 & [m1 ->] & Hs).
    pose proof (strings_tiled_le _ _ _ ltac:(eassumption)).
    rewrite put_string_ref_puts in Hr.
    destruct (run_puts_tiled base lo hi [PutU32 o reference.1; PutU32 (o + 4) reference.2] records)
      as (out & E & Hz & Hf & Hk); [cbn; lia|cbn; by rewrite F1, F2|done|done|done|].
    rewrite E in Hr. injection Hr as ->.
    destruct (IH (o + 8) records1 (blob ++ m1) records' blob') as (Hz' & [m2 ->] & Hf' & Hk');
      [done|done|lia|done|lia|].
    split_and!; [lia|exists (m1 ++ m2); by rewrite app_assoc| |].
    + constructor; [|done]. cbn [fst snd].
      apply Forall_cons_iff in Hf as [[Ha|?] Hf]; [|done]. apply Forall_cons_iff in Hf as [[Hc|?] _]; [|done].
      cbn in Ha, Hc. apply string_at_more. exists reference.1. rewrite <- E2. split_and!; try done.
      * apply Hk'; [done|]. rewrite zlen_le_bytes. lia.
      * replace (base + o + 4) with (base + (o + 4)) by lia. apply Hk'; [done|]. rewrite zlen_le_bytes. lia.
    + intros x w Hx Hd. apply Hk'; [|lia]. 
      destruct (run_puts_tiled base o (o + 8) [PutU32 o reference.1; PutU32 (o + 4) reference.2] records)
        as (out & E' & _ & _ & Hk2); [cbn; lia|cbn; by rewrite F1, F2|lia|done|lia|].
      rewrite E in E'. injection E' as <-. apply Hk2; [done|lia].
Qed.

(** ** Tables of records *)

(** [records] holds the fields and strings of [item] from [base] on. *)
Definition record_image {A} (puts : A -> list Put) (strings : A -> list (Z * list Z))
    (records : list Z) (base : Z) (blob : list Z) (item : A) : Prop :=
  Forall (fun p => holds_at records (base + put_offset p) (put_bytes p) \/ is_ensure p = true) (puts item) /\
  Forall (fun s => string_at records (base + s.1) blob s.2) (strings item).

(** Fields that end by [mid], strings from there to [size]. *)
Definition record_layout {A} (size mid : Z) (puts : A -> list Put) (strings : A -> list (Z * list Z)) : Prop :=
  0 <= mid /\
  forall item, tiled 0 size (puts item) = true /\
    forallb (fun p => put_offset p + put_width p <=? mid) (puts item) = true /\
    strings_tiled mid size (strings item) = true.

Section tables.
  Context {A : Type} (size mid : Z) (puts : A -> list Put) (strings : A -> list (Z * list Z)).
  Context (Hlayout : record_layout size mid puts strings).

Lemma put_record_spec base records blob records1 records' blob' item :
    run_puts base records (puts item) = Ok records1 ->
    put_strings base records1 blob (strings item) = Ok (records', blob') ->
    forallb put_typed (puts item) = true -> 0 <= base -> base + size <= zlen records ->
    zlen records' = zlen records /\ (exists more, blob' = blob ++ more) /\
    record_image puts strings records' base blob' item /\
    (forall o v, holds_at records o v -> o + zlen v <= base \/ base + size <= o -> holds_at records' o v).
Proof.
    intros H1 H2 Ht Hb Hl. destruct Hlayout as [Hmid Hlay]. destruct (Hlay item) as (Hp & He & Hs).
    pose proof (strings_tiled_le _ _ _ Hs).
    destruct (run_puts_tiled base 0 size (puts item) records) as (out & E & Hz & Hf & Hk); [done|done|lia|done|done|].
    rewrite E in H1. injection H1 as ->.
    destruct (put_strings_spec base size (strings item) mid records1 blob records' blob')
      as (Hz' & Hm & Hst & Hk'); [done|done|lia|done|lia|].
    split_and!; [lia|done| |].
    - split; [|done]. apply List.Forall_forall. intros p Hin. rewrite List.Forall_forall in Hf.
      destruct (Hf p Hin) as [Hh|?]; [left|by right]. apply Hk'; [done|]. left.
      rewrite forallb_forall in He. specialize (He p Hin).
      rewrite forallb_forall in Ht. specialize (Ht p Hin).
      rewrite (put_bytes_width p Ht). bools. lia.
    - intros o v Ho Hd. pose proof (zlen_nonneg v).
      assert (holds_at records1 o v) by (apply Hk; [done|lia]). apply Hk'; [done|lia].
  Qed.

Lemma record_image_more records base blob more item :
    record_image puts strings records base blob item -> record_image puts strings records base (blob ++ more) item.
Proof.
    intros [H1 H2]. split; [done|]. eapply List.Forall_impl; [|done]. intros s. apply string_at_more.
  Qed.

Lemma record_image_kept records records' base blob item :
    (forall o v, holds_at records o v -> o + zlen v <= base + size -> holds_at records' o v) ->
    forallb put_typed (puts item) = true ->
    record_image puts strings records base blob item -> record_image puts strings records' base blob item.
Proof.
    intros Hk Ht [H1 H2]. destruct Hlayout as [Hmid Hlay]. destruct (Hlay item) as (Hp & He & Hs).
    pose proof (strings_tiled_le _ _ _ Hs). split.
    - apply List.Forall_forall. intros p Hin. rewrite List.Forall_forall in H1.
      destruct (H1 p Hin) as [Hh|?]; [left|by right]. apply Hk; [done|].
      rewrite forallb_forall in He. specialize (He p Hin).
      rewrite forallb_forall in Ht. specialize (Ht p Hin).
      rewrite (put_bytes_width p Ht). bools. lia.
    - assert (forall lo l, strings_tiled lo size l = true -> forall s, In s l -> s.1 + 8 <= size) as Hin.
      { intros lo l. revert lo. induction l as [|[o v] l IH]; intros lo Hl s Hi; [done|].
        simpl in Hl. bools. destruct Hi as [<-|Hi]; [|by eapply IH].
        apply strings_tiled_le in H3. simpl. lia. }
      apply List.Forall_forall. intros s Hi. rewrite List.Forall_forall in H2.
      destruct (H2 s Hi) as (r & ? & ? & ? & ? & ?). specialize (Hin _ _ Hs s Hi).
      exists r. split_and!; try done; apply Hk; try done; rewrite zlen_le_bytes; lia.
  Qed.

Lemma put_records_spec items : forall index records blob records' blob',
    put_records size puts strings index records blob items = Ok (records', blob') ->
    Forall (fun item => forallb put_typed (puts item) = true) items -> 0 <= size ->
    (Z.of_nat index + zlen items) * size <= zlen records ->
    zlen records' = zlen records /\ (exists more, blob' = blob ++ more) /\
    (forall k item, items !! k = Some item ->
       record_image puts strings records' (Z.of_nat (index + k) * size) blob' item) /\
    (forall o v, holds_at records o v -> o + zlen v <= Z.of_nat index * size -> holds_at records' o v).
Proof.
    induction items as [|item items IH]; intros index records blob records' blob' H Ht Hs Hl.
    - injection H as <- <-. split_and!; [done|exists []; by rewrite app_nil_r|done|done].
    - cbn [put_records] in H. apply bind_Ok in H as (records1 & H1 & H).
      apply bind_Ok in H as ([records2 blob2] & H2 & H).
      apply Forall_cons_iff in Ht as [Ht Hts].
      assert (zlen (item :: items) = 1 + zlen items) as El by (unfold zlen; simpl; lia).
      pose proof (zlen_nonneg items). rewrite El in Hl.
      destruct (put_record_spec (Z.of_nat index * size) records blob records1 records2 blob2 item)
        as (Hz & [m ->] & Hi & Hk); [done|done|done|nia|nia|].
      destruct (IH (S index) records2 (blob ++ m) records' blob') as (Hz' & [m' ->] & Hi' & Hk'); [done|done|done|nia|].
      split_and!; [lia|exists (m ++ m'); by rewrite app_assoc| |].
      + intros [|k] x Hx.
        * injection Hx as <-. rewrite Nat.add_0_r. apply record_image_more.
          eapply record_image_kept; [|done|done]. intros o v Ho Hd. apply Hk'; [done|]. nia.
        * replace (index + S k)%nat with (S index + k)%nat by lia. by apply Hi'.
      + intros o v Ho Hd. apply Hk'; [|nia]. apply Hk; [done|lia].
  Qed.

  (** The bytes of record [k], on their own. *)
Lemma record_image_slice records base blob item :
    0 <= base -> base + size <= zlen records -> forallb put_typed (puts item) = true ->
    record_image puts strings records base blob item ->
    Forall (put_reads (slice records base size) 0) (puts item) /\
    Forall (fun s => string_at (slice records base size) s.1 blob s.2) (strings item).
Proof.
    intros Hb Hl Ht Hi. 
    assert (record_image puts strings (slice records base size) 0 blob item) as [H1 H2].
    { destruct Hi as [H1 H2]. destruct Hlayout as [Hmid Hlay]. destruct (Hlay item) as (Hp & He & Hs).
      pose proof (strings_tiled_le _ _ _ Hs).
      assert (forall lo l, tiled lo size l = true -> 0 <= lo -> forall p, In p l -> 0 <= put_offset p) as Hoff.
      { intros lo l. revert lo. induction l as [|p l IH]; intros lo Hl' Hlo q Hq; [done|].
        destruct Hq as [<-|Hq]; destruct p; cbn [tiled put_offset put_width] in *; bools;
          try lia; (eapply IH; [eassumption|lia|done]). }
      assert (forall lo l, strings_tiled lo size l = true -> 0 <= lo -> forall s, In s l -> 0 <= s.1 /\ s.1 + 8 <= size) as Hso.
      { intros lo l. revert lo. induction l as [|[o v] l IH]; intros lo Hl' Hlo q Hq; [done|].
        simpl in Hl'. bools. destruct Hq as [<-|Hq]; [|eapply IH; [eassumption|lia|done]].
        simpl. pose proof (strings_tiled_le _ _ _ ltac:(eassumption)). lia. }
      split; apply List.Forall_forall.
      - intros p Hin. rewrite List.Forall_forall in H1. destruct (H1 p Hin) as [Hh|?]; [left|by right].
        rewrite forallb_forall in He, Ht. specialize (He p Hin).
        specialize (Ht p Hin). bools. specialize (Hoff _ _ Hp ltac:(lia) p Hin).
        pose proof (put_bytes_width p Ht). apply slice_holds; [done|lia|lia|done|]. by rewrite Z.add_0_l.
      - intros s Hin. rewrite List.Forall_forall in H2. destruct (H2 s Hin) as (r & ? & ? & Ha & Hc & ?).
        specialize (Hso _ _ Hs Hmid s Hin).
        exists r. split_and!; try done; rewrite ?Z.add_0_l; apply slice_holds; rewrite ?zlen_le_bytes; try lia.
        + done.
        + by rewrite Z.add_assoc. }
    split.
    - apply List.Forall_forall. intros p Hin. rewrite List.Forall_forall in H1. rewrite forallb_forall in Ht.
      specialize (Ht p Hin).
      destruct (H1 p Hin) as [Hh|Hp]; [by apply holds_put_reads|]. by destruct p.
    - eapply List.Forall_impl; [|done]. intros s. cbn beta. rewrite Z.add_0_l. done.
  Qed.

Lemma record_at_image records blob items k item record label :
    (forall j x, items !! j = Some x -> record_image puts strings records (Z.of_nat j * size) blob x) ->
    Forall (fun item => forallb put_typed (puts item) = true) items -> 0 <= size ->
    items !! k = Some item -> record_at records k size label = Ok record ->
    Forall (put_reads record 0) (puts item) /\ Forall (fun s => string_at record s.1 blob s.2) (strings item).
Proof.
    intros Hi Ht Hs Hk Hr. unfold record_at in Hr. apply bind_Ok in Hr as (o & Ho & Hr).
    apply narrow_size_Ok in Ho as [_ ->]. apply subspan_Ok in Hr as (H1 & H2 & H3 & ->).
    apply record_image_slice; [done|done| |by apply Hi].
    rewrite List.Forall_forall in Ht. apply Ht. apply list_elem_of_In. by eapply list_elem_of_lookup_2.
  Qed.
End tables.

(** ** Section envelope *)

Lemma copy_into_holds bytes o v out :
  copy_into bytes o v = Ok out ->
  zlen out = zlen bytes /\ holds_at out o v /\
  (forall x w, holds_at bytes x w -> x + zlen w <= o \/ o + zlen v <= x -> holds_at out x w).
Proof.
  intros (H1 & H2 & ->)%copy_into_Ok. split_and!; [by apply zlen_splice|by apply holds_at_splice|].
  intros x w Hx Hd. by apply holds_at_splice_other.
Qed.

(** A field of the payload's header. *)
Definition header_holds (payload : list Z) (puts : list Put) : Prop :=
  Forall (put_reads payload 0) puts.

(** Where the blob of a section starts: nowhere when there is none. *)
Definition blob_position (records blob : list Z) : Z :=
  if bool_decide (blob = []) then 0 else align8 (mncwf_v4_section_header_bytes + zlen records).

Lemma puts_read_back bytes puts :
  forallb put_typed puts = true ->
  Forall (fun p => holds_at bytes (0 + put_offset p) (put_bytes p) \/ is_ensure p = true) puts ->
  Forall (put_reads bytes 0) puts.
Proof.
  intros Ht H. apply List.Forall_forall. intros p Hin. rewrite List.Forall_forall in H.
  rewrite forallb_forall in Ht. destruct (H p Hin) as [Hh|He]; [by apply holds_put_reads; auto|].
  by destruct p.
Qed.

Lemma enveloped_section_spec type count item_bytes records blob es :
  enveloped_section type count item_bytes records blob = Ok es ->
  fits 64 count = true -> fits 32 item_bytes = true ->
  es_type es = type /\ es_item_count es = count /\ es_item_bytes es = item_bytes /\
  zlen records = count * item_bytes /\
  zlen (es_payload es) <= mncwf_v4_max_file_bytes /\ mncwf_v4_section_header_bytes <= zlen (es_payload es) /\
  header_holds (es_payload es) (envelope_puts type count item_bytes (blob_position records blob) (zlen blob)) /\
  holds_at (es_payload es) mncwf_v4_section_header_bytes records /\
  (blob <> [] -> holds_at (es_payload es) (blob_position records blob) blob).
Proof.
  intros H Hc Hi. unfold enveloped_section in H.
  apply fits_iff in Hc as Hc', Hi as Hi'.
  pose proof (zlen_nonneg records) as Hr0. pose proof (zlen_nonneg blob) as Hb0.
  apply bind_Ok in H as (er & G1 & H). apply checked_multiply_Ok in G1 as [_ ->]; [|lia|lia].
  apply bind_Ok in H as (u1 & G2 & H). apply guard_reject_Ok in G2. apply negb_false_iff, Z.eqb_eq in G2.
  apply bind_Ok in H as (re & G3 & H). apply checked_add_Ok in G3 as [_ ->].
  apply bind_Ok in H as (bo & G4 & H). apply bind_Ok in H as (total & G5 & H).
  apply bind_Ok in H as (u2 & G6 & H). apply guard_reject_Ok, Z.ltb_ge in G6.
  apply bind_Ok in H as (size & G7 & H). apply narrow_size_Ok in G7 as [_ ->].
  apply bind_Ok in H as (p1 & G8 & H). apply bind_Ok in H as (p2 & G9 & H).
  apply bind_Ok in H as (p3 & G10 & H). injection H as <-. cbn [es_payload es_type es_item_count es_item_bytes].
  unfold mncwf_v4_section_header_bytes, mncwf_v4_max_file_bytes in *.
  assert (bo = blob_position records blob /\ 48 + zlen records <= total /\ 0 <= bo <= total /\ zlen blob <= total /\
          (blob <> [] -> 48 + zlen records <= bo /\ total = bo + zlen blob)) as (-> & Ht & Hbo & Hbl & Hb).
  { unfold blob_position, mncwf_v4_section_header_bytes. case_bool_decide as E.
    - injection G4 as <-. injection G5 as <-. subst blob.
      change (zlen (@nil Z)) with 0. split_and!; try lia; done.
    - apply align_eight_Ok in G4 as [_ ->]; [|lia]. apply checked_add_Ok in G5 as [_ ->].
      pose proof (align8_bounds (48 + zlen records)). split_and!; try lia; done. }
  set (puts := envelope_puts _ _ _ _ _) in *.
  assert (forallb put_typed puts = true) as Hty.
  { subst puts. cbn [envelope_puts forallb put_typed]. rewrite Hc, Hi.
    rewrite !andb_true_iff. split_and!; try done; try (apply fits_iff; lia). by destruct type. }
  destruct (run_puts_tiled 0 0 48 puts (replicate (Z.to_nat total) 0)) as (out & E & Hz & Hf & Hk);
    [done|done|lia|lia|rewrite zlen_replicate by lia; lia|].
  rewrite E in G8. injection G8 as ->. rewrite zlen_replicate in Hz by lia.
  apply copy_into_holds in G9 as (Hz2 & Hh2 & Hk2).
  assert (zlen p3 = total /\ holds_at p3 48 records /\
    (blob <> [] -> holds_at p3 (blob_position records blob) blob) /\
    (forall x w, holds_at p2 x w -> x + zlen w <= 48 -> holds_at p3 x w)) as (Hz3 & Hh3 & Hbl3 & Hk3).
  { case_bool_decide as Eb.
    - injection G10 as <-. split_and!; try done; lia.
    - apply copy_into_holds in G10 as (Hz3 & Hh3 & Hk3). destruct (Hb Eb) as [Hb1 Hb2].
      split_and!; [lia|apply Hk3; [done|lia]|done|]. intros x w Hx Hd. apply Hk3; [done|lia]. }
  split_and!; try done; [lia|lia|].
  apply puts_read_back; [done|]. apply List.Forall_forall. intros p Hin.
  rewrite List.Forall_forall in Hf. destruct (Hf p Hin) as [Hh|He]; [left|by right].
  assert (put_offset p + zlen (put_bytes p) <= 48) as Hle.
  { rewrite put_bytes_width by (rewrite forallb_forall in Hty; by apply Hty).
    subst puts. cbn in Hin. by repeat destruct Hin as [<-|Hin]. }
  apply Hk3; [|lia]. apply Hk2; [done|lia].
Qed.

(** The envelope of an encoded section reads back as its records and blob. *)
Lemma parse_section_encoded info es type count item_bytes records0 blob0 expected minimum maximum allow parsed :
  enveloped_section type count item_bytes records0 blob0 = Ok es ->
  fits 64 count = true -> fits 32 item_bytes = true ->
  sec_data info = es_payload es -> sec_item_count info = count -> sec_item_bytes info = item_bytes ->
  parse_section_envelope info expected minimum maximum allow = Ok parsed ->
  parsed = mkParsedSection records0 blob0.
Proof.
  intros He Hc Hi Hd Ec Ei H.
  destruct (enveloped_section_spec _ _ _ _ _ _ He Hc Hi) as (_ & _ & _ & Hz & Hmax & _ & Hh & Hr & Hb).
  unfold header_holds, envelope_puts in Hh. rewrite !Forall_cons_iff in Hh.
  destruct Hh as (_ & _ & _ & _ & _ & _ & Hbo & Hbs & _).
  cbn [put_reads] in Hbo, Hbs. rewrite Z.add_0_l in Hbo, Hbs.
  apply fits_iff in Hc, Hi.
  unfold parse_section_envelope in H. rewrite Hd, Ec, Ei in H.
  do 4 (apply bind_Ok in H as (? & _ & H)).
  do 8 (apply bind_Ok in H as (? & _ & H)).
  apply bind_Ok in H as (rb & Hrb & H). apply checked_multiply_Ok in Hrb as [_ ->]; [|lia|lia].
  apply bind_Ok in H as (re & _ & H).
  rewrite Hbo in H. cbn [mbind result_bind] in H. rewrite Hbs in H. cbn [mbind result_bind] in H.
  apply bind_Ok in H as (? & _ & H). apply bind_Ok in H as (rs & Hrs & H). apply bind_Ok in H as (bs & Hbl & H).
  injection H as <-. unfold mncwf_v4_max_file_bytes in Hmax.
  apply range_Ok in Hrs as (_ & _ & _ & ->); [|unfold UINT64_MAX; lia].
  rewrite <- Hz. destruct Hr as (_ & _ & ->). f_equal.
  destruct blob0 as [|b blob0].
  - cbn in Hbl. by injection Hbl as <-.
  - destruct (Z.eqb_spec (zlen (b :: blob0)) 0) as [E|_]; [unfold zlen in E; simpl in E; lia|].
    apply range_Ok in Hbl as (_ & _ & _ & ->); [|unfold UINT64_MAX; lia].
    by destruct (Hb ltac:(done)) as (_ & _ & ->).
Qed.
