(* ===== verification/MncwfSections.v ===== *)
(** * MNCWF waveform container: the typed sections read back

    For each of the six metadata sections of src/common/msap1/waveform/mncwf_v4.cpp:
    the records the encoder wrote are the records the reader's loop returns. *)

From S2P Require Import Prelude MncwfTypes MncwfFormat MncwfRecords MncwfReader MncwfEncode MncwfWire MncwfRoundTrip.

(** ** Record loops *)

(** A loop whose turns each append one item. *)
Lemma record_loop_collects {S A} (turn : S -> nat -> result S) (items : S -> list A) (P : nat -> A -> Prop)
    count : forall first state state',
  (forall st i st', (first <= i < first + count)%nat -> turn st i = Ok st' -> exists a, items st' = items st ++ [a] /\ P i a) ->
  record_loop turn state (seq first count) = Ok state' ->
  exists xs, items state' = items state ++ xs /\ length xs = count /\
    forall k a, xs !! k = Some a -> P (first + k)%nat a.
Proof.
  induction count as [|count IH]; intros first state state' Ht H.
  - injection H as <-. exists []. rewrite app_nil_r. split_and!; done.
  - cbn [seq record_loop] in H. apply bind_Ok in H as (st & H1 & H).
    destruct (Ht state first st ltac:(lia) H1) as (a & Ea & Pa).
    destruct (IH (Datatypes.S first) st state') as (xs & Ex & El & Px); [|done|].
    { intros st1 i st2 Hi. apply Ht. lia. }
    exists (a :: xs). rewrite Ex, Ea, <- app_assoc. split_and!; [done|simpl; lia|].
    intros [|k] b Hb; [injection Hb as <-; by rewrite Nat.add_0_r|].
    rewrite <- Nat.add_succ_comm. by apply Px.
Qed.

(** A loop that appends the items of a table, in order, returns the table. *)
Lemma record_loop_table {S A} (turn : S -> nat -> result S) (items : S -> list A) (table : list A) count state state' :
  items state = [] -> count = zlen table ->
  (forall st i st' a, table !! i = Some a -> turn st i = Ok st' -> items st' = items st ++ [a]) ->
  record_loop turn state (seq 0 (Z.to_nat count)) = Ok state' -> items state' = table.
Proof.
  intros E0 -> Ht H. unfold zlen in H. rewrite Nat2Z.id in H.
  destruct (record_loop_collects turn items (fun i a => table !! i = Some a) (length table) 0 state state')
    as (xs & Ex & El & Px); [|done|].
  - intros st i st' Hi H1. destruct (lookup_lt_is_Some_2 table i ltac:(lia)) as [a Ha].
    exists a. split; [by eapply Ht|done].
  - rewrite Ex, E0. apply list_eq_same_length with (length table); [done|done|].
    intros i x y Hi Hx Hy. apply Px in Hx. simpl in Hx. congruence.
Qed.

(** ** Encoded tables *)

Section encoded_table.
  Context {A : Type} (type : MncwfV4SectionType) (size mid : Z) (puts : A -> list Put)
    (strings : A -> list (Z * list Z)).
  Context (Hlayout : record_layout size mid puts strings) (Hsize : 0 < size < 2 ^ 32).

Lemma encode_records_parsed items es info expected minimum maximum allow parsed :
    encode_records type size puts strings items = Ok es ->
    Forall (fun item => forallb put_typed (puts item) = true) items ->
    sec_data info = es_payload es -> sec_item_count info = es_item_count es ->
    sec_item_bytes info = es_item_bytes es ->
    parse_section_envelope info expected minimum maximum allow = Ok parsed ->
    sec_item_count info = zlen items /\ zlen (blob parsed) <= UINT64_MAX /\
    forall k item record label, items !! k = Some item -> record_at (records parsed) k size label = Ok record ->
      Forall (put_reads record 0) (puts item) /\
      Forall (fun s => string_at record s.1 (blob parsed) s.2) (strings item).
Proof.
    intros H Ht Hd Hc Hi Hp. unfold encode_records in H.
    apply bind_Ok in H as ([records0 blob0] & H1 & H2).
    pose proof (zlen_nonneg items) as Hn.
    assert (zlen items * size <= UINT64_MAX) as Hm.
    { unfold enveloped_section in H2. apply bind_Ok in H2 as (z & H2 & _).
      apply checked_multiply_Ok in H2 as [? _]; lia. }
    assert (fits 64 (zlen items) = true) as Hf1 by (apply fits_iff; unfold UINT64_MAX in *; nia).
    assert (fits 32 size = true) as Hf2 by (apply fits_iff; lia).
    destruct (enveloped_section_spec _ _ _ _ _ _ H2 Hf1 Hf2) as (_ & Ec & Ei & _ & Hmax & _ & _ & _ & Hb).
    pose proof (parse_section_encoded info es type (zlen items) size records0 blob0 _ _ _ _ _
                  H2 Hf1 Hf2 Hd ltac:(congruence) ltac:(congruence) Hp) as ->.
    cbn [records blob].
    destruct (put_records_spec size mid puts strings Hlayout items 0 _ _ _ _ H1 Ht) as (Hz & _ & Himg & _);
      [lia|rewrite zlen_replicate by nia; lia|].
    split_and!; [congruence| |].
    - destruct blob0 as [|b blob0]; [done|]. destruct (Hb ltac:(done)) as (? & ? & _).
      unfold mncwf_v4_max_file_bytes, UINT64_MAX in *. lia.
    - intros k item record label Hk Hr. apply (record_at_image size mid puts strings Hlayout records0 blob0 items k item record label); [|done|lia|done|done].
      intros j x Hx. by apply Himg.
  Qed.
End encoded_table.

(** ** Casts invert the wire values *)

Lemma topology_cast_value t : topology_cast (topology_value t) = t. Proof. by destruct t. Qed.
Lemma calibration_cast_value t : calibration_cast (calibration_value t) = t. Proof. by destruct t. Qed.
Lemma decimation_cast_value t : decimation_cast (decimation_value t) = t. Proof. by destruct t. Qed.
Lemma clock_cast_value t : clock_cast (clock_value t) = t. Proof. by destruct t. Qed.
Lemma quality_cast_value t : quality_cast (quality_value t) = t. Proof. by destruct t. Qed.
Lemma phase_cast_value t : phase_cast (phase_value t) = t. Proof. by destruct t. Qed.
Lemma quantity_cast_value t : quantity_cast (quantity_value t) = t. Proof. by destruct t. Qed.
Lemma unit_cast_value t : unit_cast (unit_value t) = t. Proof. by destruct t. Qed.
Lemma encoding_cast_value t : encoding_cast (encoding_value t) = t. Proof. by destruct t. Qed.
Lemma taxonomy_cast_value t : taxonomy_cast (taxonomy_value t) = t. Proof. by destruct t. Qed.
Lemma lifecycle_cast_value t : lifecycle_cast (lifecycle_value t) = t. Proof. by destruct t. Qed.
Lemma relation_cast_value t : relation_cast (relation_value t) = t. Proof. by destruct t. Qed.

Create Rewrite HintDb mncwf_casts.
#[export] Hint Rewrite topology_cast_value calibration_cast_value decimation_cast_value clock_cast_value
  quality_cast_value phase_cast_value quantity_cast_value unit_cast_value encoding_cast_value
  taxonomy_cast_value lifecycle_cast_value relation_cast_value : mncwf_casts.

(** [known_reads Hf] names the reads a field list promises; [step_reads H] replays
    them in a reader's run [H], and splits off the reads it does not know. *)
Ltac known_reads Hf :=
  repeat rewrite Forall_cons_iff in Hf; cbn [put_reads] in Hf; rewrite ?Z.add_0_l in Hf; destruct_and? Hf.

Ltac step_reads H :=
  repeat match type of H with
  | (?m ≫= _) = Ok _ =>
      match goal with
      | E : m = Ok _ |- _ => rewrite E in H; cbn [mbind result_bind] in H
      | _ => let a := fresh "a" in let E := fresh "E" in apply bind_Ok in H as (a & E & H)
      end
  end.

(** ** The six record types *)

Lemma segment_layout : record_layout mncwf_v4_timebase_segment_bytes 128 segment_puts (fun _ => []).
Proof. split; [lia|]. intros item. by split_and!. Qed.

Lemma read_timebase_back record segment got raw :
  Forall (put_reads record 0) (segment_puts segment) ->
  read_timebase_record record = Ok (got, raw) -> got = segment.
Proof.
  intros Hf H. unfold segment_puts in Hf. known_reads Hf. unfold read_timebase_record in H. step_reads H.
  injection H as <- _. destruct segment. cbn. by autorewrite with mncwf_casts.
Qed.

Lemma quality_layout : record_layout mncwf_v4_quality_interval_bytes 64 quality_puts (fun _ => []).
Proof. split; [lia|]. intros item. by split_and!. Qed.

Lemma read_quality_back record quality got raw :
  Forall (put_reads record 0) (quality_puts quality) ->
  read_quality_record record = Ok (got, raw) -> got = quality.
Proof.
  intros Hf H. unfold quality_puts in Hf. known_reads Hf. unfold read_quality_record in H. step_reads H.
  injection H as <- _. by destruct quality.
Qed.

Lemma lineage_layout : record_layout mncwf_v4_lineage_entry_bytes 64 lineage_puts (fun _ => []).
Proof. split; [lia|]. intros item. by split_and!. Qed.

Lemma read_lineage_back record entry got raw :
  Forall (put_reads record 0) (lineage_puts entry) ->
  read_lineage_record record = Ok (got, raw) -> got = entry.
Proof.
  intros Hf H. unfold lineage_puts in Hf. known_reads Hf. unfold read_lineage_record in H. step_reads H.
  injection H as <- _. destruct entry. cbn. by autorewrite with mncwf_casts.
Qed.

(** [known_strings Hs Hb] replaces each string read by the string it names. *)
Ltac known_strings Hs Hb :=
  repeat rewrite Forall_cons_iff in Hs; cbn [fst snd] in Hs; destruct_and? Hs;
  repeat match goal with
  | E : read_string ?r ?o ?b _ = Ok ?got, A : string_at ?r ?o ?b ?v |- _ =>
      apply (read_string_at r o b v _ got Hb A) in E; subst got; clear A
  end.

Lemma channel_layout : record_layout mncwf_v4_channel_definition_bytes 168 channel_puts channel_strings.
Proof. split; [lia|]. intros item. by split_and!. Qed.

Lemma read_channel_back record blob channel got raw :
  zlen blob <= UINT64_MAX -> Forall (put_reads record 0) (channel_puts channel) ->
  Forall (fun s => string_at record s.1 blob s.2) (channel_strings channel) ->
  read_channel_record record blob = Ok (got, raw) -> got = channel.
Proof.
  intros Hb Hf Hs H. unfold channel_puts in Hf. known_reads Hf. unfold read_channel_record in H. step_reads H.
  unfold channel_strings in Hs. known_strings Hs Hb.
  injection H as <- _. destruct channel. cbn. by autorewrite with mncwf_casts.
Qed.

Lemma event_layout : record_layout mncwf_v4_event_descriptor_bytes 224 event_puts event_strings.
Proof. split; [lia|]. intros item. by split_and!. Qed.

Lemma read_event_back record blob event got raw reserved :
  zlen blob <= UINT64_MAX -> length (ev_extrema_micro_units event) = 3%nat ->
  Forall (put_reads record 0) (event_puts event) ->
  Forall (fun s => string_at record s.1 blob s.2) (event_strings event) ->
  read_event_record record blob = Ok (got, raw, reserved) -> got = event.
Proof.
  intros Hb Hx Hf Hs H. unfold event_puts in Hf. known_reads Hf. unfold read_event_record in H. step_reads H.
  unfold event_strings in Hs. known_strings Hs Hb.
  injection H as <- _ _. destruct event. cbn in *. autorewrite with mncwf_casts. 
  destruct ev_extrema_micro_units as [|x [|y [|z [|]]]]; done.
Qed.

(** ** Section loops *)

(** A directory entry that describes an encoded section. *)
Definition describes (info : MncwfV4SectionInfo) (es : EncodedSection) : Prop :=
  sec_data info = es_payload es /\ sec_item_count info = es_item_count es /\ sec_item_bytes info = es_item_bytes es.

Definition typed_by {A} (puts : A -> list Put) (item : A) : Prop := forallb put_typed (puts item) = true.

Lemma parse_timebase_back segments es info expected minimum maximum allow parsed state :
  encode_timebase segments = Ok es -> Forall (typed_by segment_puts) segments -> describes info es ->
  parse_section_envelope info expected minimum maximum allow = Ok parsed ->
  parse_timebase parsed (sec_item_count info) = Ok state -> ts_segments state = segments.
Proof.
  intros He Ht (Hd & Hc & Hi) Hp H.
  destruct (encode_records_parsed _ _ _ _ _ segment_layout ltac:(done) _ _ _ _ _ _ _ _ He Ht Hd Hc Hi Hp) as (Ec & _ & Hr).
  eapply (record_loop_table _ ts_segments segments); [| |clear H|exact H]; [done|done|].
  intros st i st' a Ha H. unfold timebase_turn in H. apply bind_Ok in H as (record & Hrec & H).
  apply bind_Ok in H as ([segment raw] & Hs & H). step_reads H. injection H as <-. cbn.
  destruct (Hr _ _ _ _ Ha Hrec) as [Hf _]. by rewrite (read_timebase_back _ _ _ _ Hf Hs).
Qed.

Lemma parse_channels_back channels es info expected minimum maximum allow parsed state :
  encode_channels channels = Ok es -> Forall (typed_by channel_puts) channels -> describes info es ->
  parse_section_envelope info expected minimum maximum allow = Ok parsed ->
  parse_channels parsed (sec_item_count info) = Ok state -> cs_channels state = channels.
Proof.
  intros He Ht (Hd & Hc & Hi) Hp H.
  destruct (encode_records_parsed _ _ _ _ _ channel_layout ltac:(done) _ _ _ _ _ _ _ _ He Ht Hd Hc Hi Hp) as (Ec & Hb & Hr).
  eapply (record_loop_table _ cs_channels channels); [| |clear H|exact H]; [done|done|].
  intros st i st' a Ha H. unfold channel_turn in H. apply bind_Ok in H as (record & Hrec & H).
  apply bind_Ok in H as ([channel raw] & Hs & H). step_reads H. injection H as <-. cbn.
  destruct (Hr _ _ _ _ Ha Hrec) as [Hf Hst]. by rewrite (read_channel_back _ _ _ _ _ Hb Hf Hst Hs).
Qed.

Definition event_typed (event : MncwfV4EventDescriptor) : Prop :=
  typed_by event_puts event /\ length (ev_extrema_micro_units event) = 3%nat.

Lemma parse_events_back events es info expected minimum maximum allow parsed got :
  encode_events events = Ok es -> Forall event_typed events -> describes info es ->
  parse_section_envelope info expected minimum maximum allow = Ok parsed ->
  parse_events parsed (sec_item_count info) = Ok got -> got = events.
Proof.
  intros He Ht (Hd & Hc & Hi) Hp H.
  assert (Forall (typed_by event_puts) events) as Ht' by (eapply List.Forall_impl; [|exact Ht]; by intros ? []).
  destruct (encode_records_parsed _ _ _ _ _ event_layout ltac:(done) _ _ _ _ _ _ _ _ He Ht' Hd Hc Hi Hp) as (Ec & Hb & Hr).
  eapply (record_loop_table _ (fun s => s) events); [| |clear H|exact H]; [done|done|].
  intros st i st' a Ha H. unfold event_turn in H. apply bind_Ok in H as (record & Hrec & H).
  apply bind_Ok in H as ([[event raw] reserved] & Hs & H). step_reads H. injection H as <-. cbn.
  destruct (Hr _ _ _ _ Ha Hrec) as [Hf Hst].
  assert (length (ev_extrema_micro_units a) = 3%nat) as Hx.
  { rewrite List.Forall_forall in Ht. apply Ht, list_elem_of_In. by eapply list_elem_of_lookup_2. }
  by rewrite (read_event_back _ _ _ _ _ _ Hb Hx Hf Hst Hs).
Qed.

Lemma parse_quality_back intervals es info expected minimum maximum allow parsed got :
  encode_quality intervals = Ok es -> Forall (typed_by quality_puts) intervals -> describes info es ->
  parse_section_envelope info expected minimum maximum allow = Ok parsed ->
  parse_quality parsed (sec_item_count info) = Ok got -> got = intervals.
Proof.
  intros He Ht (Hd & Hc & Hi) Hp H.
  destruct (encode_records_parsed _ _ _ _ _ quality_layout ltac:(done) _ _ _ _ _ _ _ _ He Ht Hd Hc Hi Hp) as (Ec & _ & Hr).
  eapply (record_loop_table _ (fun s => s) intervals); [| |clear H|exact H]; [done|done|].
  intros st i st' a Ha H. unfold quality_turn in H. apply bind_Ok in H as (record & Hrec & H).
  apply bind_Ok in H as ([quality [ra rb]] & Hs & H). step_reads H. injection H as <-. cbn.
  destruct (Hr _ _ _ _ Ha Hrec) as [Hf _]. by rewrite (read_quality_back _ _ _ _ Hf Hs).
Qed.

Lemma parse_lineage_back entries es info expected minimum maximum allow parsed got :
  encode_lineage entries = Ok es -> Forall (typed_by lineage_puts) entries -> describes info es ->
  parse_section_envelope info expected minimum maximum allow = Ok parsed ->
  parse_lineage parsed (sec_item_count info) = Ok got -> got = entries.
Proof.
  intros He Ht (Hd & Hc & Hi) Hp H.
  destruct (encode_records_parsed _ _ _ _ _ lineage_layout ltac:(done) _ _ _ _ _ _ _ _ He Ht Hd Hc Hi Hp) as (Ec & _ & Hr).
  eapply (record_loop_table _ (fun s => s) entries); [| |clear H|exact H]; [done|done|].
  intros st i st' a Ha H. unfold lineage_turn in H. apply bind_Ok in H as (record & Hrec & H).
  apply bind_Ok in H as ([entry [ra rb]] & Hs & H). step_reads H. injection H as <-. cbn.
  destruct (Hr _ _ _ _ Ha Hrec) as [Hf _]. by rewrite (read_lineage_back _ _ _ _ Hf Hs).
Qed.

Lemma capture_layout : record_layout mncwf_v4_capture_metadata_bytes 160 capture_puts capture_strings.
Proof. split; [lia|]. intros item. by split_and!. Qed.

Lemma slice_all bytes n : n = zlen bytes -> slice bytes 0 n = bytes.
Proof. intros ->. unfold slice, zlen. rewrite Nat2Z.id. simpl. by rewrite take_ge. Qed.

Lemma parse_capture_back capture es info expected minimum maximum allow parsed got :
  encode_capture capture = Ok es -> typed_by capture_puts capture -> describes info es ->
  parse_section_envelope info expected minimum maximum allow = Ok parsed ->
  parse_capture_metadata parsed = Ok got -> got = capture.
Proof.
  intros He Ht (Hd & Hc & Hi) Hp H. unfold encode_capture in He.
  apply bind_Ok in He as (record & H1 & He). apply bind_Ok in He as ([record2 blob2] & H2 & He).
  destruct (enveloped_section_spec _ _ _ _ _ _ He) as (_ & Ec & Ei & Hz2 & Hmax & _ & _ & _ & Hb); [done|done|].
  pose proof (parse_section_encoded info es _ _ _ _ _ _ _ _ _ _ He eq_refl eq_refl Hd
                ltac:(congruence) ltac:(congruence) Hp) as ->.
  destruct (put_record_spec _ _ _ _ capture_layout 0 _ [] record record2 blob2 capture H1 H2) as (Hz & _ & Himg & _);
    [done|done|by rewrite zlen_replicate|].
  assert (zlen blob2 <= UINT64_MAX) as Hbl.
  { destruct blob2 as [|b blob2]; [done|]. destruct (Hb ltac:(done)) as (? & ? & _).
    unfold mncwf_v4_max_file_bytes, UINT64_MAX in *. lia. }
  destruct (record_image_slice _ _ _ _ capture_layout record2 0 blob2 capture) as [Hf Hs]; [done|lia|done|done|].
  rewrite slice_all in Hf, Hs by (rewrite Hz; by rewrite zlen_replicate).
  unfold capture_puts in Hf. known_reads Hf. unfold parse_capture_metadata in H. cbn [records blob] in H.
  step_reads H. cbn in Hs. unfold Z.of_nat in Hs. cbn -[string_at] in Hs. 
  repeat match goal with E : read_string _ (160 + _ * 8) _ _ = Ok _ |- _ => cbn -[read_string] in E end.
  known_strings Hs Hbl. injection H as <-. destruct capture. cbn. by autorewrite with mncwf_casts.
Qed.
