(* ===== verification/MncwfFile.v ===== *)
(** * MNCWF waveform container: files read back

    A file written by the encoders of src/common/msap1/waveform/mncwf_v4.cpp is laid
    out as its directory says, and the reader recovers the document it was encoded
    from. *)

From S2P Require Import Prelude MncwfTypes MncwfFormat MncwfRecords MncwfReader MncwfEncode MncwfWire MncwfRoundTrip MncwfSections.

(** ** Layout of the payloads *)

(** Payloads at increasing offsets from [lo] to [hi], apart from each other. *)
Fixpoint placed {A} (payload : A -> list Z) (lo hi : Z) (items : list (A * Z)) : Prop :=
  match items with
  | [] => lo <= hi
  | (item, offset) :: items => lo <= offset /\ placed payload (offset + zlen (payload item)) hi items
  end.

Lemma placed_le {A} (payload : A -> list Z) items : forall lo hi, placed payload lo hi items -> lo <= hi.
Proof.
  induction items as [|[item o] items IH]; intros lo hi; simpl; [done|]. intros [H1 H2].
  apply IH in H2. pose proof (zlen_nonneg (payload item)). lia.
Qed.

Lemma placed_lower {A} (payload : A -> list Z) items : forall lo hi k item o,
  placed payload lo hi items -> items !! k = Some (item, o) -> lo <= o /\ o + zlen (payload item) <= hi.
Proof.
  induction items as [|[x y] items IH]; intros lo hi k item o Hp Hk; [done|].
  simpl in Hp. destruct Hp as [H1 H2]. pose proof (placed_le _ _ _ _ H2). pose proof (zlen_nonneg (payload x)).
  destruct k as [|k]; simpl in Hk; [injection Hk as <- <-; lia|].
  destruct (IH _ _ _ _ _ H2 Hk). lia.
Qed.

Lemma placed_weaken {A} (payload : A -> list Z) lo lo' hi items :
  lo' <= lo -> placed payload lo hi items -> placed payload lo' hi items.
Proof. destruct items as [|[item o] items]; simpl; [lia|]. intros ? [? ?]. split; [lia|done]. Qed.

Lemma section_offsets_placed {A} (payload : A -> list Z) label items : forall start offsets stop,
  section_offsets label start (map (fun i => zlen (payload i)) items) = Ok (offsets, stop) ->
  0 <= start -> length offsets = length items /\ placed payload start stop (zip items offsets).
Proof.
  induction items as [|item items IH]; intros start offsets stop H H0.
  - injection H as <- <-. simpl. split; [done|lia].
  - cbn [map section_offsets] in H. apply bind_Ok in H as (pe & H1 & H). apply bind_Ok in H as (f & H2 & H).
    apply bind_Ok in H as ([os l] & H3 & H). injection H as <- <-.
    apply checked_add_Ok in H1 as [_ ->]. pose proof (zlen_nonneg (payload item)).
    apply align_eight_Ok in H2 as [_ ->]; [|lia]. pose proof (align8_bounds (start + zlen (payload item))).
    destruct (IH _ _ _ H3) as [El Hp]; [lia|]. simpl. split; [lia|]. split; [lia|].
    eapply placed_weaken; [|done]. lia.
Qed.

(** ** Entries and payloads *)

Lemma tiled_put_end lo hi puts p :
  tiled lo hi puts = true -> forallb put_sized puts = true -> In p puts ->
  put_offset p + zlen (put_bytes p) <= hi.
Proof.
  revert lo. induction puts as [|q puts IH]; intros lo Ht Hs Hin; [done|].
  cbn [forallb] in Hs. apply andb_true_iff in Hs as [Hq Hs]. destruct (is_ensure q) eqn:Eq.
  - destruct q; try discriminate. cbn [tiled] in Ht. bools. destruct Hin as [<-|Hin]; [|by eapply IH].
    cbn [put_offset put_bytes]. change (zlen (@nil Z)) with 0. lia.
  - assert (tiled (put_offset q + put_width q) hi puts = true) as Hl'
      by (destruct q; try discriminate; cbn [tiled] in Ht; bools; done).
    destruct Hin as [<-|Hin]; [|by eapply IH]. rewrite put_sized_width by done. by apply tiled_le in Hl'.
Qed.

Lemma tiled_put_start lo hi puts p :
  tiled lo hi puts = true -> 0 <= lo -> In p puts -> 0 <= put_offset p.
Proof.
  revert lo. induction puts as [|q puts IH]; intros lo Ht Hlo Hin; [done|].
  destruct Hin as [<-|Hin]; destruct q; cbn [tiled put_offset put_width] in *; bools;
    try lia; (eapply IH; [eassumption|lia|done]).
Qed.

(** One table entry per payload: [entry_base + entry_size * k] holds the fields of
    payload [k], and its bytes lie at its offset. *)
Section entries.
  Context {A : Type} (payload : A -> list Z) (entry : A -> Z -> list Put) (entry_base entry_size : Z).
  Context (Hentry : forall item o, tiled 0 entry_size (entry item o) = true /\
                                   forallb put_sized (entry item o) = true).
  Context (Hbase : 0 <= entry_base) (Hsize : 0 <= entry_size).

  (** The shape of [put_sections] and [put_chunks]. *)
Fixpoint put_entries (index : nat) (file : list Z) (items : list (A * Z)) : result (list Z) :=
    match items with
    | [] => Ok file
    | (item, offset) :: items =>
        file ← run_puts (entry_base + Z.of_nat index * entry_size) file (entry item offset);
        file ← copy_into file offset (payload item);
        put_entries (S index) file items
    end.

Definition entry_image (file : list Z) (index : nat) (item : A) (offset : Z) : Prop :=
    Forall (fun p => holds_at file (entry_base + Z.of_nat index * entry_size + put_offset p) (put_bytes p)
                     \/ is_ensure p = true) (entry item offset) /\
    holds_at file offset (payload item).

Lemma entry_image_kept (file file' : list Z) index item offset :
    (forall o v, holds_at file o v -> entry_base + Z.of_nat index * entry_size <= o ->
       o + zlen v <= entry_base + Z.of_nat (S index) * entry_size -> holds_at file' o v) ->
    holds_at file' offset (payload item) ->
    entry_image file index item offset -> entry_image file' index item offset.
Proof.
    intros Hk Hp [H1 _]. split; [|done]. destruct (Hentry item offset) as [Ht Hs].
    apply List.Forall_forall. intros p Hin. rewrite List.Forall_forall in H1.
    destruct (H1 p Hin) as [Hh|?]; [left|by right].
    pose proof (tiled_put_end _ _ _ _ Ht Hs Hin). pose proof (tiled_put_start _ _ _ _ Ht ltac:(lia) Hin).
    apply Hk; [done|lia|lia].
  Qed.

Lemma put_entries_spec items : forall index file file' lo hi,
    put_entries index file items = Ok file' -> placed payload lo hi items -> hi <= zlen file ->
    entry_base + (Z.of_nat index + zlen items) * entry_size <= lo ->
    zlen file' = zlen file /\
    (forall k item o, items !! k = Some (item, o) -> entry_image file' (index + k) item o) /\
    (forall o v, holds_at file o v ->
       o + zlen v <= entry_base + Z.of_nat index * entry_size \/
       (entry_base + (Z.of_nat index + zlen items) * entry_size <= o /\ o + zlen v <= lo) ->
       holds_at file' o v).
Proof.
    induction items as [|[item offset] items IH]; intros index file file' lo hi H Hp Hh Hl.
    - injection H as <-. split_and!; done.
    - cbn [put_entries] in H. apply bind_Ok in H as (f1 & H1 & H). apply bind_Ok in H as (f2 & H2 & H).
      simpl in Hp. destruct Hp as [Hlo Hp]. pose proof (placed_le _ _ _ _ Hp).
      pose proof (zlen_nonneg (payload item)). pose proof (zlen_nonneg items).
      assert (zlen ((item, offset) :: items) = 1 + zlen items) as El by (unfold zlen; simpl; lia).
      rewrite El in Hl.
      destruct (Hentry item offset) as [Ht Hs].
      destruct (run_puts_sized (entry_base + Z.of_nat index * entry_size) 0 entry_size (entry item offset) file)
        as (out & E & Hz & Hf & Hk); [done|done|lia|nia|nia|].
      rewrite E in H1. injection H1 as ->.
      apply copy_into_holds in H2 as (Hz2 & Hh2 & Hk2).
      destruct (IH (S index) f2 file' (offset + zlen (payload item)) hi) as (Hz3 & Hi3 & Hk3);
        [done|done|lia|lia|].
      split_and!; [lia| |].
      + intros [|k] x o Hx.
        * injection Hx as <- <-. rewrite Nat.add_0_r.
          apply (entry_image_kept f2).
          -- intros o v Ho _ Hle. apply Hk3; [done|]. left. nia.
          -- apply Hk3; [done|]. right. nia.
          -- split; [|done]. apply List.Forall_forall. intros p Hin. rewrite List.Forall_forall in Hf.
             destruct (Hf p Hin) as [Ha|?]; [left|by right]. apply Hk2; [done|]. left.
             pose proof (tiled_put_end _ _ _ _ Ht Hs Hin). nia.
        * replace (index + S k)%nat with (S index + k)%nat by lia. by apply Hi3.
      + rewrite El. intros o v Ho Hd. pose proof (zlen_nonneg v).
        apply Hk3; [|nia]. apply Hk2; [|nia]. apply Hk; [done|nia].
  Qed.
End entries.

(** ** The written file *)

Lemma put_unsigned_Ok n bytes o v out :
  put_unsigned n bytes o v = Ok out -> 0 <= o /\ o + Z.of_nat n <= zlen bytes /\ out = splice bytes o (le_bytes n v).
Proof.
  unfold put_unsigned. intros H. apply bind_Ok in H as (u & _ & H). apply copy_into_Ok in H.
  rewrite zlen_le_bytes in H. done.
Qed.

Lemma put_u32_kept bytes o v out :
  put_u32 bytes o v = Ok out ->
  zlen out = zlen bytes /\
  (forall x w, holds_at bytes x w -> x + zlen w <= o \/ o + 4 <= x -> holds_at out x w).
Proof.
  intros (H1 & H2 & ->)%put_unsigned_Ok. split; [apply zlen_splice; rewrite ?zlen_le_bytes; lia|].
  intros x w Hx Hd. apply holds_at_splice_other; rewrite ?zlen_le_bytes; simpl; try done; lia.
Qed.

Lemma put_checksums_kept file directory_bytes out :
  put_checksums file directory_bytes = Ok out ->
  zlen out = zlen file /\
  (forall x w, holds_at file x w -> x + zlen w <= 52 \/ 60 <= x -> holds_at out x w).
Proof.
  unfold put_checksums. intros H. apply bind_Ok in H as (d & _ & H). apply bind_Ok in H as (f1 & H1 & H).
  apply bind_Ok in H as (f2 & H2 & H). apply bind_Ok in H as (h & _ & H).
  apply put_u32_kept in H1 as [E1 K1], H2 as [E2 K2], H as [E3 K3].
  split; [lia|]. intros x w Hx Hd. apply K3; [apply K2; [apply K1; [done|]|]|]; lia.
Qed.

Lemma put_sections_entries index file sections :
  put_sections index file sections = put_entries fs_payload entry_puts 64 56 index file sections.
Proof.
  revert index file. induction sections as [|[s o] sections IH]; intros index file; [done|].
  cbn [put_sections put_entries]. unfold mncwf_v4_header_bytes, mncwf_v4_directory_entry_bytes.
  destruct (run_puts _ _ _) as [f|]; [|done]. cbn [mbind result_bind].
  destruct (copy_into _ _ _); [apply IH|done].
Qed.

Lemma entry_puts_layout s o : tiled 0 56 (entry_puts s o) = true /\ forallb put_sized (entry_puts s o) = true.
Proof. done. Qed.

(** [file] is laid out as [sections] at [offsets]. *)
Definition file_image (version : Z) (sections : list FileSection) (file : list Z) : Prop :=
  exists offsets, length offsets = length sections /\
    zlen file <= mncwf_v4_max_file_bytes /\
    64 + 56 * zlen sections <= zlen file /\
    header_holds file (header_puts version (zlen sections) (zlen sections * 56) (zlen file)) /\
    placed fs_payload (align8 (64 + zlen sections * 56)) (zlen file) (zip sections offsets) /\
    forall k s o, sections !! k = Some s -> offsets !! k = Some o ->
      entry_image fs_payload entry_puts 64 56 file k s o.

Lemma write_file_image version label too_large sections file :
  write_file version label too_large sections = Ok file -> fits 32 version = true -> zlen sections <= 64 ->
  file_image version sections file.
Proof.
  intros H Hv Hn. unfold write_file in H. pose proof (zlen_nonneg sections) as Hn0.
  apply bind_Ok in H as (db & H1 & H). unfold mncwf_v4_directory_entry_bytes in H1.
  apply checked_multiply_Ok in H1 as [_ ->]; [|lia|lia].
  apply bind_Ok in H as (de & H2 & H). apply checked_add_Ok in H2 as [_ ->]. unfold mncwf_v4_header_bytes in H.
  apply bind_Ok in H as (start & H3 & H). apply align_eight_Ok in H3 as [_ ->]; [|lia].
  apply bind_Ok in H as ([offsets fb] & H4 & H). apply bind_Ok in H as (u & H5 & H).
  apply guard_reject_Ok, Z.ltb_ge in H5.
  apply bind_Ok in H as (size & H6 & H). apply narrow_size_Ok in H6 as [_ ->].
  apply bind_Ok in H as (f1 & H7 & H). apply bind_Ok in H as (f2 & H8 & H).
  pose proof (align8_bounds (64 + zlen sections * 56)) as Ha.
  apply (section_offsets_placed fs_payload) in H4 as [El Hp]; [|lia]. pose proof (placed_le _ _ _ _ Hp) as Hfb.
  set (puts := header_puts _ _ _ _) in H7.
  assert (forallb put_typed puts = true) as Hty.
  { subst puts. cbn [header_puts forallb put_typed]. rewrite Hv. unfold mncwf_v4_max_file_bytes in H5.
    rewrite !andb_true_iff. split_and!; try done; apply fits_iff; lia. }
  destruct (run_puts_tiled 0 0 48 puts (replicate (Z.to_nat fb) 0)) as (out & E & Hz & Hf & _);
    [done|done|lia|lia|rewrite zlen_replicate by lia; lia|].
  rewrite E in H7. injection H7 as ->. rewrite zlen_replicate in Hz by lia.
  rewrite put_sections_entries in H8.
  assert (zlen (zip sections offsets) = zlen sections) as Ez by (unfold zlen; rewrite length_zip_with; lia).
  destruct (put_entries_spec fs_payload entry_puts 64 56 entry_puts_layout ltac:(lia) ltac:(lia)
              _ _ _ _ _ _ H8 Hp ltac:(lia) ltac:(lia)) as (Hz2 & Hi2 & Hk2).
  apply put_checksums_kept in H as [Hz3 Hk3]. exists offsets.
  assert (zlen file = fb) as Efb by lia. rewrite Efb.
  split_and!; [done|done|lia| |done|].
  - apply puts_read_back; [done|]. apply List.Forall_forall. intros p Hin. rewrite List.Forall_forall in Hf.
    destruct (Hf p Hin) as [Hh|?]; [left|by right].
    pose proof (tiled_put_end 0 48 puts p eq_refl (puts_typed_sized _ Hty) Hin).
    apply Hk3; [apply Hk2; [done|left; lia]|lia].
  - intros k s o Hs Ho. apply (entry_image_kept fs_payload entry_puts 64 56 entry_puts_layout f2); [| |].
    + intros x w Hx Hge _. apply Hk3; [done|lia].
    + assert (zip sections offsets !! k = Some (s, o)) as Hzk by (apply lookup_zip_with_Some; by exists s, o).
      destruct (Hi2 _ _ _ Hzk) as [_ Hpay]. apply Hk3; [done|]. right.
      pose proof (placed_lower _ _ _ _ _ _ _ Hp Hzk). lia.
    + apply (Hi2 k s o). by apply lookup_zip_with_Some; exists s, o.
Qed.

(** ** The directory read back *)

Definition section_typed (s : FileSection) : Prop :=
  fits 32 (fs_type s) = true /\ fits 64 (fs_item_count s) = true /\ fits 32 (fs_item_bytes s) = true /\
  fits 64 (fs_logical_bytes s) = true.

(** What a directory entry says of the section it was written for. *)
Definition entry_matches (s : FileSection) (info : MncwfV4SectionInfo) : Prop :=
  sec_type info = fs_type s /\ sec_item_count info = fs_item_count s /\ sec_item_bytes info = fs_item_bytes s /\
  sec_logical_bytes info = fs_logical_bytes s /\ sec_data info = fs_payload s.

Lemma entry_reads_back file count k s o :
  entry_image fs_payload entry_puts 64 56 file k s o -> (Z.of_nat k < count) -> 64 + count * 56 <= zlen file ->
  Forall (fun p => put_typed p = true -> put_reads (slice file 64 (count * 56)) (Z.of_nat k * 56) p) (entry_puts s o).
Proof.
  intros [Hf _] Hk Hl. apply List.Forall_forall. intros p Hin Ht. rewrite List.Forall_forall in Hf.
  destruct (Hf p Hin) as [Hh|He]; [|by destruct p].
  apply holds_put_reads; [done|]. destruct (entry_puts_layout s o) as [Hti Hsi].
  pose proof (tiled_put_end _ _ _ _ Hti Hsi Hin). pose proof (tiled_put_start _ _ _ _ Hti ltac:(lia) Hin).
  apply slice_holds; [lia|lia|lia|lia|]. by rewrite Z.add_assoc.
Qed.

Lemma directory_turn_back file count version k s o st st' :
  zlen file <= UINT64_MAX -> section_typed s -> entry_image fs_payload entry_puts 64 56 file k s o ->
  Z.of_nat k < count -> 64 + count * 56 <= zlen file ->
  directory_turn file (slice file 64 (count * 56)) version st k = Ok st' ->
  exists info, ds_sections st' = ds_sections st ++ [info] /\ entry_matches s info.
Proof.
  intros Hmax (T1 & T2 & T3 & T4) Hi Hk Hl H.
  pose proof (entry_reads_back _ _ _ _ _ Hi Hk Hl) as Hr. destruct Hi as [_ (Ho & Hend & Hpay)].
  pose proof (zlen_nonneg (fs_payload s)) as Hn.
  assert (fits 64 o = true) as To by (apply fits_iff; unfold UINT64_MAX in *; lia).
  assert (fits 64 (zlen (fs_payload s)) = true) as Tl by (apply fits_iff; unfold UINT64_MAX in *; lia).
  unfold entry_puts in Hr. repeat rewrite Forall_cons_iff in Hr. cbn [put_typed put_reads] in Hr.
  rewrite Z.add_0_r in Hr. destruct Hr as (R1 & _ & _ & R2 & R3 & R4 & R5 & R6 & _).
  specialize (R1 T1). specialize (R2 To). specialize (R3 Tl). specialize (R4 T4). specialize (R5 T2). specialize (R6 T3).
  unfold directory_turn in H. apply bind_Ok in H as ([section reserved] & Hs & H).
  unfold read_directory_entry, mncwf_v4_directory_entry_bytes in Hs. step_reads Hs. injection Hs as <- _.
  do 4 (apply bind_Ok in H as (? & _ & H)). apply bind_Ok in H as (present & _ & H).
  apply bind_Ok in H as (data & Hd & H). injection H as <-. cbn [sec_offset sec_stored_bytes] in Hd.
  apply range_Ok in Hd as (_ & _ & _ & ->); [|done].
  eexists. split; [reflexivity|]. unfold entry_matches. by rewrite Hpay.
Qed.

Lemma make_reader_image `{ZstdLibrary} version sections file mode r :
  file_image version sections file -> zlen sections <= 64 -> Forall section_typed sections ->
  make_reader file mode = Ok r ->
  exists header infos, read_sections mode header infos = Ok r /\ hdr_version header = version /\
    length infos = length sections /\
    forall k s info, sections !! k = Some s -> infos !! k = Some info -> entry_matches s info.
Proof.
  intros (offsets & El & Hmax & Hlen & Hh & _ & Hi) Hn Hty Hm.
  unfold header_holds, header_puts in Hh. known_reads Hh.
  unfold make_reader in Hm. apply bind_Ok in Hm as ([[header dcrc] hcrc] & Hhd & Hm).
  unfold read_header in Hhd. step_reads Hhd. injection Hhd as <- _ _.
  apply bind_Ok in Hm as (? & _ & Hm). apply bind_Ok in Hm as (directory & Hd & Hm).
  cbn [hdr_directory_offset hdr_directory_bytes] in Hd. unfold mncwf_v4_max_file_bytes in Hmax.
  apply range_Ok in Hd as (_ & _ & _ & ->); [|unfold UINT64_MAX; lia].
  apply bind_Ok in Hm as (? & _ & Hm). apply bind_Ok in Hm as (infos & Hdir & Hm).
  apply bind_Ok in Hm as (? & _ & Hm). apply bind_Ok in Hm as (? & _ & Hm).
  eexists _, infos. split; [exact Hm|]. split; [done|].
  unfold read_directory in Hdir. apply bind_Ok in Hdir as (st & Hloop & Hdir). step_reads Hdir. injection Hdir as <-.
  cbn [hdr_section_count hdr_version] in Hloop. unfold mncwf_v4_header_bytes in Hloop.
  replace (Z.to_nat (zlen sections)) with (length sections) in Hloop by (unfold zlen; lia).
  destruct (record_loop_collects (directory_turn file (slice file 64 (zlen sections * 56)) version) ds_sections
              (fun i info => forall s, sections !! i = Some s -> entry_matches s info)
              (length sections) 0 (mkDirectoryState [] (replicate 7 false)) st) as (xs & Ex & Ec & Px); [|done|].
  - intros st1 i st2 Hib Ht.
    destruct (lookup_lt_is_Some_2 sections i ltac:(lia)) as [s Hs].
    destruct (lookup_lt_is_Some_2 offsets i ltac:(lia)) as [o Ho].
    rewrite List.Forall_forall in Hty.
    destruct (directory_turn_back file (zlen sections) version i s o st1 st2) as (info & Einfo & Hmatch); try done.
    + unfold UINT64_MAX. lia.
    + apply Hty, list_elem_of_In. by eapply list_elem_of_lookup_2.
    + by eapply Hi.
    + unfold zlen. lia.
    + lia.
    + exists info. split; [done|]. intros s' Hs'. congruence.
  - rewrite Ex. split; [by rewrite app_nil_l|]. intros k s info Hs Hk. by eapply (Px k).
Qed.

(** ** Documents *)

(** Every field of the document is a value of its C++ type. *)
Definition document_typed (document : MncwfV4Document) : Prop :=
  typed_by capture_puts (doc_capture_metadata document) /\
  Forall (typed_by segment_puts) (doc_timebase_segments document) /\
  Forall (typed_by channel_puts) (doc_channels document) /\
  Forall event_typed (doc_events document) /\
  Forall (typed_by quality_puts) (doc_quality_intervals document) /\
  Forall (typed_by lineage_puts) (doc_lineage document) /\
  fits 64 (doc_sample_frame_count document) = true /\
  fits 32 (doc_sample_frame_bytes document) = true.

(** The document a reader exposes through its accessors. *)
Definition reader_document (reader : MncwfV4Reader) : MncwfV4Document :=
  mkDocument (capture_metadata_ reader) (timebase_segments_ reader) (channels_ reader) (events_ reader)
    (quality_intervals_ reader) (lineage_ reader) (sample_frame_count_ reader) (sample_frame_bytes_ reader)
    (sample_data_ reader).

(** The six metadata sections. *)
Definition metadata_of (document : MncwfV4Document) (metadata : list EncodedSection) : Prop :=
  exists c t h e q l, metadata = [c; t; h; e; q; l] /\
    encode_capture (doc_capture_metadata document) = Ok c /\
    encode_timebase (doc_timebase_segments document) = Ok t /\
    encode_channels (doc_channels document) = Ok h /\
    encode_events (doc_events document) = Ok e /\
    encode_quality (doc_quality_intervals document) = Ok q /\
    encode_lineage (doc_lineage document) = Ok l.

Lemma encode_metadata_of document metadata :
  encode_metadata document = Ok metadata -> metadata_of document metadata.
Proof.
  unfold encode_metadata. intros H. step_reads H. injection H as <-.
  eexists _, _, _, _, _, _. split_and!; done.
Qed.

(** An encoded section: what the directory says of it is well typed. *)
Definition encoded_as (type : MncwfV4SectionType) (count item_bytes : Z) (es : EncodedSection) : Prop :=
  es_type es = type /\ es_item_count es = count /\ es_item_bytes es = item_bytes /\ section_typed (plain_section es).

Lemma enveloped_section_as type count item_bytes records blob es :
  enveloped_section type count item_bytes records blob = Ok es ->
  fits 64 count = true -> fits 32 item_bytes = true -> encoded_as type count item_bytes es.
Proof.
  intros H Hc Hi. destruct (enveloped_section_spec _ _ _ _ _ _ H Hc Hi) as (E1 & E2 & E3 & _ & Hmax & Hmin & _).
  unfold encoded_as, section_typed, plain_section.
  cbn [fs_type fs_item_count fs_item_bytes fs_logical_bytes]. rewrite E1, E2, E3.
  split_and!; try done; [by destruct type|]. apply fits_iff.
  unfold mncwf_v4_max_file_bytes, mncwf_v4_section_header_bytes in *. lia.
Qed.

Lemma encode_capture_as capture es :
  encode_capture capture = Ok es -> encoded_as section_capture_metadata 1 mncwf_v4_capture_metadata_bytes es.
Proof.
  unfold encode_capture. intros H. apply bind_Ok in H as (r & _ & H). apply bind_Ok in H as ([rs bs] & _ & H).
  by apply enveloped_section_as in H.
Qed.

Lemma encode_records_as {A} type size puts (strings : A -> _) items es :
  0 < size < 2 ^ 32 -> encode_records type size puts strings items = Ok es ->
  encoded_as type (zlen items) size es.
Proof.
  intros Hs. unfold encode_records. intros H. apply bind_Ok in H as ([rs bs] & _ & H).
  apply enveloped_section_as in H as Has; [done| |by apply fits_iff; lia].
  unfold enveloped_section in H. apply bind_Ok in H as (z & H & _). pose proof (zlen_nonneg items).
  apply checked_multiply_Ok in H as [? _]; [|lia|lia]. apply fits_iff. unfold UINT64_MAX in *. nia.
Qed.

Lemma encode_metadata_as document metadata :
  metadata_of document metadata ->
  Forall section_typed (map plain_section metadata) /\ map (fun es => section_value (es_type es)) metadata = [1; 2; 3; 4; 5; 6].
Proof.
  intros (c & t & h & e & q & l & -> & Hc & Ht & Hh & He & Hq & Hl).
  apply encode_capture_as in Hc as (E1 & _ & _ & T1).
  apply encode_records_as in Ht as (E2 & _ & _ & T2); [|done]. apply encode_records_as in Hh as (E3 & _ & _ & T3); [|done].
  apply encode_records_as in He as (E4 & _ & _ & T4); [|done]. apply encode_records_as in Hq as (E5 & _ & _ & T5); [|done].
  apply encode_records_as in Hl as (E6 & _ & _ & T6); [|done].
  split; [by repeat (apply List.Forall_cons; [done|])|]. cbn [map]. by rewrite E1, E2, E3, E4, E5, E6.
Qed.

(** ** Typed sections read back *)

Lemma entry_matches_describes es info : entry_matches (plain_section es) info -> describes info es.
Proof. by intros (_ & ? & ? & _ & ?). Qed.

(** Seven directory entries of the types 1 to 7, in order, are found by type. *)
Lemma find_section_nth infos k type info :
  map sec_type infos = [1; 2; 3; 4; 5; 6; 7] -> section_value type = Z.of_nat (S k) ->
  find_section infos type = Ok info -> infos !! k = Some info.
Proof.
  intros Hm Ht H. unfold find_section in H. rewrite Ht in H.
  do 7 (destruct infos as [|?s infos]; [discriminate Hm|]). destruct infos; [|discriminate Hm].
  cbn [map] in Hm. injection Hm as E1 E2 E3 E4 E5 E6 E7. cbn [List.find] in H.
  rewrite E1, E2, E3, E4, E5, E6, E7 in H.
  destruct type; simpl in Ht;
    (assert (k = 0 \/ k = 1 \/ k = 2 \/ k = 3 \/ k = 4 \/ k = 5 \/ k = 6)%nat as Hk by lia);
    destruct_or? Hk; subst k; try (simpl in Ht; lia); cbn in H; by injection H as <-.
Qed.

Lemma read_sections_back `{ZstdLibrary} mode header document metadata infos sample r :
  document_typed document -> metadata_of document metadata ->
  length infos = 7%nat -> fs_type sample = 7 ->
  (forall k s info, (map plain_section metadata ++ [sample]) !! k = Some s -> infos !! k = Some info ->
     entry_matches s info) ->
  read_sections mode header infos = Ok r ->
  capture_metadata_ r = doc_capture_metadata document /\
  timebase_segments_ r = doc_timebase_segments document /\
  channels_ r = doc_channels document /\ events_ r = doc_events document /\
  quality_intervals_ r = doc_quality_intervals document /\ lineage_ r = doc_lineage document /\
  mode_ r = mode /\ header_ r = header /\
  exists info, entry_matches sample info /\
    parse_samples mode (hdr_version header) info = Ok (sample_chunks_ r, sample_data_ r) /\
    sample_frame_count_ r = sec_item_count info /\ sample_frame_bytes_ r = sec_item_bytes info.
Proof.
  intros (T1 & T2 & T3 & T4 & T5 & T6 & _) Hmd Hlen Hst Hmatch Hr.
  pose proof (encode_metadata_as _ _ Hmd) as [_ Hty].
  destruct Hmd as (c & t & h & e & q & l & -> & Hc & Ht & Hh & He & Hq & Hl).
  assert (map sec_type infos = [1; 2; 3; 4; 5; 6; 7]) as Hm.
  { do 7 (destruct infos as [|?s infos]; [discriminate Hlen|]). destruct infos; [|discriminate Hlen].
    cbn [map] in Hty |- *. injection Hty as E1 E2 E3 E4 E5 E6.
    destruct (Hmatch 0%nat _ _ eq_refl eq_refl) as [-> _], (Hmatch 1%nat _ _ eq_refl eq_refl) as [-> _],
      (Hmatch 2%nat _ _ eq_refl eq_refl) as [-> _], (Hmatch 3%nat _ _ eq_refl eq_refl) as [-> _],
      (Hmatch 4%nat _ _ eq_refl eq_refl) as [-> _], (Hmatch 5%nat _ _ eq_refl eq_refl) as [-> _],
      (Hmatch 6%nat _ _ eq_refl eq_refl) as [-> _].
    cbn [plain_section fs_type]. by rewrite E1, E2, E3, E4, E5, E6, Hst. }
  unfold read_sections in Hr.
  apply bind_Ok in Hr as (i1 & F1 & Hr). apply bind_Ok in Hr as (p1 & P1 & Hr). apply bind_Ok in Hr as (r1 & R1 & Hr).
  apply bind_Ok in Hr as (i2 & F2 & Hr). apply bind_Ok in Hr as (p2 & P2 & Hr). apply bind_Ok in Hr as (r2 & R2 & Hr).
  apply bind_Ok in Hr as (i3 & F3 & Hr). apply bind_Ok in Hr as (p3 & P3 & Hr). apply bind_Ok in Hr as (r3 & R3 & Hr).
  apply bind_Ok in Hr as (i4 & F4 & Hr). apply bind_Ok in Hr as (p4 & P4 & Hr). apply bind_Ok in Hr as (r4 & R4 & Hr).
  apply bind_Ok in Hr as (i5 & F5 & Hr). apply bind_Ok in Hr as (p5 & P5 & Hr). apply bind_Ok in Hr as (r5 & R5 & Hr).
  apply bind_Ok in Hr as (i6 & F6 & Hr). apply bind_Ok in Hr as (p6 & P6 & Hr). apply bind_Ok in Hr as (r6 & R6 & Hr).
  apply bind_Ok in Hr as (i7 & F7 & Hr). apply bind_Ok in Hr as (u1 & _ & Hr).
  apply bind_Ok in Hr as ([chunks data] & R7 & Hr). do 3 (apply bind_Ok in Hr as (? & _ & Hr)). injection Hr as <-.
  apply (find_section_nth infos 0) in F1; [|done|done]. apply (find_section_nth infos 1) in F2; [|done|done].
  apply (find_section_nth infos 2) in F3; [|done|done]. apply (find_section_nth infos 3) in F4; [|done|done].
  apply (find_section_nth infos 4) in F5; [|done|done]. apply (find_section_nth infos 5) in F6; [|done|done].
  apply (find_section_nth infos 6) in F7; [|done|done].
  cbn [capture_metadata_ timebase_segments_ channels_ events_ quality_intervals_ lineage_ sample_chunks_ sample_data_
       sample_frame_count_ sample_frame_bytes_ mode_ header_].
  split_and!; try done.
  - eapply parse_capture_back; [done|done|eapply entry_matches_describes, (Hmatch 0%nat); done|done|done].
  - eapply parse_timebase_back; [done|done|eapply entry_matches_describes, (Hmatch 1%nat); done|done|done].
  - eapply parse_channels_back; [done|done|eapply entry_matches_describes, (Hmatch 2%nat); done|done|done].
  - eapply parse_events_back; [done|done|eapply entry_matches_describes, (Hmatch 3%nat); done|done|done].
  - eapply parse_quality_back; [done|done|eapply entry_matches_describes, (Hmatch 4%nat); done|done|done].
  - eapply parse_lineage_back; [done|done|eapply entry_matches_describes, (Hmatch 5%nat); done|done|done].
  - exists i7. split_and!; try done. by eapply (Hmatch 6%nat).
Qed.

(** ** Version 4 *)

Lemma build_v4_reads_back `{ZstdLibrary} document file r :
  document_typed document -> build_mncwf_v4 document = Ok file -> make_reader file mode_complete = Ok r ->
  reader_document r = document /\ hdr_version (header_ r) = mncwf_v4_version.
Proof.
  intros Hty Hb Hr. unfold build_mncwf_v4 in Hb. apply bind_Ok in Hb as (sb & _ & Hb).
  apply bind_Ok in Hb as (metadata & Hmd & Hb). apply bind_Ok in Hb as (samples & Hs & Hb).
  apply encode_metadata_of in Hmd.
  pose proof Hty as (_ & _ & _ & _ & _ & _ & Tc & Tb).
  pose proof (enveloped_section_as _ _ _ _ _ _ Hs Tc Tb) as (E1 & E2 & E3 & T7).
  pose proof (encode_metadata_as _ _ Hmd) as [Tm _]. rewrite map_app in Hb. cbn [map] in Hb.
  assert (length (map plain_section metadata ++ [plain_section samples]) = 7%nat) as Hlen.
  { destruct Hmd as (? & ? & ? & ? & ? & ? & -> & _). done. }
  apply write_file_image in Hb; [|done|unfold zlen; rewrite Hlen; lia].
  destruct (make_reader_image _ _ _ mode_complete r Hb)
    as (header & infos & Hrs & Hv & Hli & Hmatch); [unfold zlen; rewrite Hlen; lia| |done|].
  { apply Forall_app. split; [done|]. by constructor. }
  destruct (read_sections_back mode_complete header document metadata infos (plain_section samples) r)
    as (D1 & D2 & D3 & D4 & D5 & D6 & _ & Hh & info & Hi & Hp & D7 & D8); try done; [congruence|cbn; by rewrite E1|].
  split; [|congruence].
  unfold parse_samples in Hp. rewrite Hv in Hp. cbn in Hp. apply bind_Ok in Hp as (parsed & Hpe & Hp).
  injection Hp as _ Hdata.
  destruct Hi as (_ & M2 & M3 & _ & M5). cbn [plain_section fs_item_count fs_item_bytes fs_payload] in M2, M3, M5.
  pose proof (parse_section_encoded info samples _ _ _ _ _ _ _ _ _ _ Hs Tc Tb M5
                ltac:(congruence) ltac:(congruence) Hpe) as ->.
  unfold reader_document. rewrite D1, D2, D3, D4, D5, D6, D7, D8, <- Hdata, M2, M3, E2, E3. by destruct document.
Qed.
