(* ===== verification/MncwfChunks.v ===== *)
(** * MNCWF waveform container: compressed samples read back

    The version 5 sample section of src/common/msap1/waveform/mncwf_v4.cpp: the chunk
    table and payloads the encoder assembles are those the reader walks, and expanding
    them restores the sample bytes. *)

From S2P Require Import Prelude MncwfTypes MncwfFormat MncwfRecords MncwfReader MncwfEncode MncwfWire MncwfRoundTrip MncwfSections MncwfFile.

(** ** The chunk table *)

Lemma put_chunks_entries index section chunks :
  put_chunks index section chunks = put_entries ec_payload chunk_puts 48 56 index section chunks.
Proof.
  revert index section. induction chunks as [|[c o] chunks IH]; intros index section; [done|].
  cbn [put_chunks put_entries]. unfold mncwf_v4_section_header_bytes, mncwf_v5_chunk_entry_bytes.
  destruct (run_puts _ _ _) as [f|]; [|done]. cbn [mbind result_bind].
  destruct (copy_into _ _ _); [apply IH|done].
Qed.

Lemma chunk_puts_layout c o : tiled 0 56 (chunk_puts c o) = true /\ forallb put_sized (chunk_puts c o) = true.
Proof. done. Qed.

(** The section holds the table and payload of each chunk. *)
Definition chunk_image (section : list Z) (chunks : list EncodedV5Chunk) : Prop :=
  zlen section <= mncwf_v4_max_file_bytes /\
  read_u64 section 32 = Ok (zlen chunks * 56) /\
  forall k c, chunks !! k = Some c -> exists o, entry_image ec_payload chunk_puts 48 56 section k c o.

Lemma assemble_v5_image frame_count frame_bytes chunks section :
  assemble_v5_sample_section frame_count frame_bytes chunks = Ok section ->
  fits 64 frame_count = true -> fits 32 frame_bytes = true ->
  chunk_image section chunks /\ check_encoded_chunks frame_bytes 0 chunks = Ok frame_count.
Proof.
  intros H Hc Hb. unfold assemble_v5_sample_section in H. pose proof (zlen_nonneg chunks) as Hn.
  apply bind_Ok in H as (u1 & G1 & H). apply guard_reject_Ok in G1. bools. unfold mncwf_v5_max_chunks in *.
  apply bind_Ok in H as (covered & G2 & H). apply bind_Ok in H as (u2 & G3 & H).
  apply guard_reject_Ok, negb_false_iff, Z.eqb_eq in G3. subst covered.
  apply bind_Ok in H as (tb & G4 & H). unfold mncwf_v5_chunk_entry_bytes in G4.
  apply checked_multiply_Ok in G4 as [_ ->]; [|lia|lia].
  apply bind_Ok in H as (te & G5 & H). apply checked_add_Ok in G5 as [_ ->]. unfold mncwf_v4_section_header_bytes in H.
  apply bind_Ok in H as (start & G6 & H). apply align_eight_Ok in G6 as [_ ->]; [|lia].
  apply bind_Ok in H as ([offsets total] & G7 & H). apply bind_Ok in H as (u3 & G8 & H).
  apply guard_reject_Ok, Z.ltb_ge in G8.
  apply bind_Ok in H as (size & G9 & H). apply narrow_size_Ok in G9 as [_ ->].
  apply bind_Ok in H as (f1 & G10 & H).
  pose proof (align8_bounds (48 + zlen chunks * 56)) as Ha.
  apply (section_offsets_placed ec_payload) in G7 as [El Hp]; [|lia]. pose proof (placed_le _ _ _ _ Hp) as Hfb.
  set (puts := v5_envelope_puts _ _ _) in G10.
  assert (forallb put_typed puts = true) as Hty.
  { subst puts. cbn [v5_envelope_puts forallb put_typed]. rewrite Hc, Hb.
    rewrite !andb_true_iff. split_and!; try done; apply fits_iff; lia. }
  destruct (run_puts_tiled 0 0 48 puts (replicate (Z.to_nat total) 0)) as (out & E & Hz & Hf & _);
    [done|done|lia|lia|rewrite zlen_replicate by lia; lia|].
  rewrite E in G10. injection G10 as ->. rewrite zlen_replicate in Hz by lia.
  rewrite put_chunks_entries in H.
  assert (zlen (zip chunks offsets) = zlen chunks) as Ez by (unfold zlen; rewrite length_zip_with; lia).
  destruct (put_entries_spec ec_payload chunk_puts 48 56 chunk_puts_layout ltac:(lia) ltac:(lia)
              _ _ _ _ _ _ H Hp ltac:(lia) ltac:(lia)) as (Hz2 & Hi2 & Hk2).
  split; [|done]. split_and!; [lia| |].
  - apply (read_u64_holds _ _ (zlen chunks * 56)); [apply fits_iff; lia|].
    subst puts. unfold v5_envelope_puts in Hf. repeat rewrite Forall_cons_iff in Hf.
    destruct Hf as (_ & _ & _ & _ & _ & _ & _ & [Hh|?] & _); [|done]. cbn [put_offset put_bytes] in Hh.
    rewrite Z.add_0_l in Hh. apply Hk2; [done|]. left. rewrite zlen_le_bytes. lia.
  - intros k c Hk. destruct (lookup_lt_is_Some_2 offsets k) as [o Ho].
    { rewrite El. by eapply lookup_lt_Some. }
    exists o. apply (Hi2 k). by apply lookup_zip_with_Some; exists c, o.
Qed.

(** What the reader keeps of an encoded chunk. *)
Definition chunk_matches (section : list Z) (c : EncodedV5Chunk) (info : MncwfV5ChunkInfo) : Prop :=
  chunk_first_frame info = ec_first_frame c /\ chunk_logical_bytes info = ec_logical_bytes c /\
  chunk_codec info = ec_codec c /\
  slice section (chunk_stored_offset info) (chunk_stored_bytes info) = ec_payload c.

Definition chunk_typed (c : EncodedV5Chunk) : Prop :=
  fits 64 (ec_first_frame c) = true /\ fits 64 (ec_logical_bytes c) = true.

Lemma codec_cast_value t : codec_cast (codec_value t) = t.
Proof. by destruct t. Qed.

Lemma chunk_turn_back `{ZstdLibrary} section item_bytes k c o st st' :
  zlen section <= mncwf_v4_max_file_bytes -> chunk_typed c ->
  entry_image ec_payload chunk_puts 48 56 section k c o ->
  chunk_turn section item_bytes st k = Ok st' ->
  exists info, ks_chunks st' = ks_chunks st ++ [info] /\ chunk_matches section c info.
Proof.
  intros Hmax [T1 T2] Hi Ht. destruct Hi as [Hf (Ho & Hend & Hpay)]. unfold mncwf_v4_max_file_bytes in Hmax.
  pose proof (zlen_nonneg (ec_payload c)) as Hn.
  assert (fits 64 o = true) as To by (apply fits_iff; lia).
  assert (fits 64 (zlen (ec_payload c)) = true) as Tl by (apply fits_iff; lia).
  assert (fits 16 (codec_value (ec_codec c)) = true) as Tc by (by destruct (ec_codec c)).
  assert (Forall (fun p => put_typed p = true -> put_reads section (48 + Z.of_nat k * 56) p) (chunk_puts c o)) as Hr.
  { apply List.Forall_forall. intros p Hin Hp. rewrite List.Forall_forall in Hf.
    destruct (Hf p Hin) as [Hh|He]; [by apply holds_put_reads|by destruct p]. }
  unfold chunk_puts in Hr. repeat rewrite Forall_cons_iff in Hr. cbn [put_typed put_reads] in Hr.
  destruct Hr as (R1 & _ & R2 & R3 & R4 & R5 & _).
  specialize (R1 T1). specialize (R2 To). specialize (R3 Tl). specialize (R4 T2). specialize (R5 Tc).
  unfold chunk_turn in Ht. apply bind_Ok in Ht as (rel & G1 & Ht).
  unfold mncwf_v5_chunk_entry_bytes in G1. apply checked_multiply_Ok in G1 as [_ ->]; [|lia|lia].
  apply bind_Ok in Ht as (pos & G2 & Ht). apply checked_add_Ok in G2 as [_ ->].
  apply bind_Ok in Ht as (ent & G3 & Ht). apply narrow_size_Ok in G3 as [_ ->].
  unfold mncwf_v4_section_header_bytes in Ht. step_reads Ht. injection Ht as <-.
  eexists. split; [reflexivity|]. unfold chunk_matches. cbn. by rewrite codec_cast_value, Hpay.
Qed.

Lemma parse_v5_chunks_back `{ZstdLibrary} info chunks got :
  chunk_image (sec_data info) chunks -> Forall chunk_typed chunks ->
  parse_v5_chunks info = Ok got -> Forall2 (chunk_matches (sec_data info)) chunks got.
Proof.
  intros (Hmax & Htab & Him) Hty Hp. unfold parse_v5_chunks in Hp.
  do 11 (apply bind_Ok in Hp as (? & _ & Hp)). rewrite Htab in Hp. cbn [mbind result_bind] in Hp.
  do 3 (apply bind_Ok in Hp as (? & _ & Hp)). apply bind_Ok in Hp as (? & _ & Hp). apply bind_Ok in Hp as (start & _ & Hp).
  apply bind_Ok in Hp as (st & Hloop & Hp). apply bind_Ok in Hp as (? & _ & Hp). injection Hp as <-.
  unfold mncwf_v5_chunk_entry_bytes in Hloop. rewrite Z.div_mul in Hloop by lia.
  replace (Z.to_nat (zlen chunks)) with (length chunks) in Hloop by (unfold zlen; lia).
  destruct (record_loop_collects (chunk_turn (sec_data info) (sec_item_bytes info)) ks_chunks
              (fun i x => forall c, chunks !! i = Some c -> chunk_matches (sec_data info) c x)
              (length chunks) 0 (mkChunkState [] 0 start) st) as (xs & Ex & Ec & Px); [|done|].
  - intros st1 i st2 Hib Ht. destruct (lookup_lt_is_Some_2 chunks i ltac:(lia)) as [c Hc].
    destruct (Him _ _ Hc) as [o Ho]. rewrite List.Forall_forall in Hty.
    destruct (chunk_turn_back (sec_data info) (sec_item_bytes info) i c o st1 st2) as (y & Eiy & Hy); try done.
    + apply Hty, list_elem_of_In. by eapply list_elem_of_lookup_2.
    + exists y. split; [done|]. intros c' Hc'. congruence.
  - rewrite Ex. apply Forall2_same_length_lookup_2; [done|]. intros i c y Hc Hy. by eapply (Px i).
Qed.

(** ** Compression and expansion *)

(** Decompressing what was compressed restores it. *)
Definition zstd_lossless (Z0 : ZstdLibrary) : Prop :=
  forall logical compressed, ZSTD_compress2 logical = inr compressed ->
    ZSTD_decompressDCtx compressed (zlen logical) = inr logical.

(** A chunk of the frames [first, first + count) of [data]. *)
Definition chunk_of `{ZstdLibrary} (data : list Z) (frame_bytes first count : Z) (c : EncodedV5Chunk) : Prop :=
  let logical := slice data (first * frame_bytes) (count * frame_bytes) in
  0 <= first /\ 0 < count /\ (first + count) * frame_bytes <= zlen data /\
  compress_v5_chunk logical first count = Ok c.

(** Consecutive chunks from frame [first] to frame [last]. *)
Fixpoint chunks_of `{ZstdLibrary} (data : list Z) (frame_bytes first last : Z) (chunks : list EncodedV5Chunk) : Prop :=
  match chunks with
  | [] => first = last
  | c :: chunks =>
      exists count, chunk_of data frame_bytes first count c /\ chunks_of data frame_bytes (first + count) last chunks
  end.

Lemma compress_chunks_of `{ZstdLibrary} turns document frames : forall first chunks,
  compress_chunks turns document frames first = Ok chunks ->
  0 < frames -> 0 <= first -> first <= doc_sample_frame_count document -> 0 < doc_sample_frame_bytes document ->
  zlen (doc_sample_data document) = doc_sample_frame_count document * doc_sample_frame_bytes document ->
  chunks_of (doc_sample_data document) (doc_sample_frame_bytes document) first (doc_sample_frame_count document) chunks.
Proof.
  induction turns as [|turns IH]; intros first chunks Hc Hf H0 Hle Hb Hz; cbn [compress_chunks] in Hc;
    (destruct (Z.leb_spec (doc_sample_frame_count document) first) as [Hl|Hl]; [injection Hc as <-; simpl; lia|]);
    [discriminate|].
  set (count := Z.min frames (doc_sample_frame_count document - first)) in Hc.
  assert (0 < count /\ first + count <= doc_sample_frame_count document) as [Hcp Hcl] by (subst count; lia).
  apply bind_Ok in Hc as (lb & G1 & Hc). apply checked_multiply_Ok in G1 as [_ ->]; [|lia|lia].
  apply bind_Ok in Hc as (lo & G2 & Hc). apply checked_multiply_Ok in G2 as [_ ->]; [|lia|lia].
  apply bind_Ok in Hc as (o & G3 & Hc). apply narrow_size_Ok in G3 as [_ ->].
  apply bind_Ok in Hc as (n & G4 & Hc). apply narrow_size_Ok in G4 as [_ ->].
  apply bind_Ok in Hc as (logical & G5 & Hc). apply subspan_Ok in G5 as (_ & _ & _ & ->).
  apply bind_Ok in Hc as (c & G6 & Hc). apply bind_Ok in Hc as (rest & G7 & Hc). injection Hc as <-.
  cbn [chunks_of]. exists count. split.
  - unfold chunk_of. split_and!; [lia|lia|nia|done].
  - destruct (Z.le_gt_cases (first + frames) (doc_sample_frame_count document)) as [Hc|Hc].
    + replace (first + count) with (first + frames) by (subst count; lia). apply IH; try done; lia.
    + replace (first + count) with (doc_sample_frame_count document) by (subst count; lia).
      destruct turns; cbn [compress_chunks] in G7;
        (destruct (Z.leb_spec (doc_sample_frame_count document) (first + frames)); [|lia]); by injection G7 as <-.
Qed.

Lemma chunk_of_fields `{ZstdLibrary} data frame_bytes first count c :
  0 < frame_bytes -> chunk_of data frame_bytes first count c ->
  ec_first_frame c = first /\ ec_frame_count c = count /\ ec_logical_bytes c = count * frame_bytes.
Proof.
  intros Hb (H0 & H1 & H2 & Hc). unfold compress_v5_chunk in Hc. apply bind_Ok in Hc as (z & _ & Hc).
  rewrite zlen_slice in Hc by nia. injection Hc as <-. by destruct (_ <? _).
Qed.

Lemma expand_chunk_of (Z0 : ZstdLibrary) data frame_bytes first count c section info logical :
  zstd_lossless Z0 -> 0 < frame_bytes -> chunk_of data frame_bytes first count c -> chunk_matches section c info ->
  expand_chunk (slice section (chunk_stored_offset info) (chunk_stored_bytes info)) info = Ok logical ->
  logical = slice data (first * frame_bytes) (count * frame_bytes).
Proof.
  intros Hz Hb (H0 & H1 & H2 & Hc) (M1 & M2 & M3 & M4) He. rewrite M4 in He. unfold expand_chunk in He.
  rewrite M3 in He. unfold compress_v5_chunk in Hc. apply bind_Ok in Hc as (z & Hz2 & Hc).
  injection Hc as <-. destruct (zlen z <? _) eqn:El; cbn [ec_codec ec_payload ec_logical_bytes] in *.
  - apply bind_Ok in He as (l & G1 & He). apply bind_Ok in He as (? & _ & He). injection He as <-.
    apply bind_Ok in G1 as (? & _ & G1). apply bind_Ok in G1 as (produced & G2 & G1).
    apply bind_Ok in G1 as (? & _ & G1). injection G1 as <-.
    unfold require_zstd in Hz2. destruct (ZSTD_compress2 _) as [|z'] eqn:Ec; [done|]. injection Hz2 as ->.
    apply Hz in Ec. rewrite M2, Ec in G2. by injection G2 as <-.
  - cbn [mbind result_bind] in He. apply bind_Ok in He as (? & _ & He). by injection He as <-.
Qed.

Lemma take_slice bytes a b : 0 <= a -> 0 <= b -> take (Z.to_nat (a + b)) bytes = take (Z.to_nat a) bytes ++ slice bytes a b.
Proof.
  intros. unfold slice. rewrite Z2Nat.inj_add by lia.
  rewrite <- (take_drop (Z.to_nat a) bytes) at 1.
  destruct (Nat.le_gt_cases (Z.to_nat a) (length bytes)) as [Hl|Hl].
  - rewrite take_app_add'; [done|]. rewrite length_take. lia.
  - rewrite (drop_ge bytes) by lia. rewrite app_nil_r, (take_ge bytes) by lia. rewrite take_ge by lia.
    by rewrite take_nil, app_nil_r.
Qed.

Lemma take_splice bytes o v :
  0 <= o -> o + zlen v <= zlen bytes -> take (Z.to_nat (o + zlen v)) (splice bytes o v) = take (Z.to_nat o) bytes ++ v.
Proof.
  intros Ho Hl. unfold splice. rewrite app_assoc. apply take_app_length'.
  unfold zlen in *. rewrite length_app, length_take. lia.
Qed.

(** [c] carries the frames [first, first + count) of [data]: whoever expands it gets
    them. *)
Definition chunk_carries `{ZstdLibrary} (data : list Z) (frame_bytes first count : Z) (c : EncodedV5Chunk) : Prop :=
  0 <= first /\ 0 < count /\ (first + count) * frame_bytes <= zlen data /\
  ec_first_frame c = first /\ ec_logical_bytes c = count * frame_bytes /\
  forall section info logical, chunk_matches section c info ->
    expand_chunk (slice section (chunk_stored_offset info) (chunk_stored_bytes info)) info = Ok logical ->
    logical = slice data (first * frame_bytes) (count * frame_bytes).

(** Consecutive chunks that carry the frames from [first] to [last]. *)
Fixpoint chunks_carry `{ZstdLibrary} (data : list Z) (frame_bytes first last : Z) (chunks : list EncodedV5Chunk) : Prop :=
  match chunks with
  | [] => first = last
  | c :: chunks =>
      exists count, chunk_carries data frame_bytes first count c /\ chunks_carry data frame_bytes (first + count) last chunks
  end.

Lemma chunk_of_carries (Z0 : ZstdLibrary) data frame_bytes first count c :
  zstd_lossless Z0 -> 0 < frame_bytes -> chunk_of data frame_bytes first count c ->
  chunk_carries data frame_bytes first count c.
Proof.
  intros Hz Hb Hc. pose proof (chunk_of_fields _ _ _ _ _ Hb Hc) as (F1 & _ & F3).
  pose proof Hc as (H0 & H1 & H2 & _). split_and!; try done. intros section info logical Hm He.
  by eapply expand_chunk_of.
Qed.

Lemma chunks_of_carry (Z0 : ZstdLibrary) data frame_bytes last chunks : forall first,
  zstd_lossless Z0 -> 0 < frame_bytes -> chunks_of data frame_bytes first last chunks ->
  chunks_carry data frame_bytes first last chunks.
Proof.
  induction chunks as [|c chunks IH]; intros first Hz Hb Hc; [done|]. destruct Hc as (count & Hco & Hc).
  exists count. split; [by apply chunk_of_carries|by apply IH].
Qed.

Lemma chunks_carry_typed `{ZstdLibrary} data frame_bytes last chunks : forall first,
  chunks_carry data frame_bytes first last chunks -> 0 < frame_bytes -> zlen data <= UINT64_MAX ->
  Forall chunk_typed chunks.
Proof.
  induction chunks as [|c chunks IH]; intros first Hc Hb Hd; [constructor|].
  destruct Hc as (count & (C0 & C1 & C2 & F1 & F3 & _) & Hc). constructor; [|by eapply IH].
  unfold chunk_typed. rewrite F1, F3. unfold UINT64_MAX in *. split; apply fits_iff; nia.
Qed.

(** Expanding consecutive chunks completes a buffer that agrees with [data] up to
    the first of them. *)
Lemma expand_chunks_carry `{ZstdLibrary} data section frame_bytes last : forall chunks infos first output out,
  0 < frame_bytes -> zlen section <= UINT64_MAX -> zlen output = zlen data ->
  zlen data = last * frame_bytes -> 0 <= first ->
  chunks_carry data frame_bytes first last chunks -> Forall2 (chunk_matches section) chunks infos ->
  take (Z.to_nat (first * frame_bytes)) output = take (Z.to_nat (first * frame_bytes)) data ->
  expand_chunks section frame_bytes output infos = Ok out -> out = data.
Proof.
  induction chunks as [|c chunks IH]; intros infos first output out Hb Hs El Ed H0 Hc Hm Ht He;
    apply Forall2_cons_inv_l in Hm || (apply Forall2_nil_inv_l in Hm).
  - subst infos. injection He as <-. simpl in Hc. subst first.
    unfold zlen in *. rewrite !take_ge in Ht by lia. done.
  - destruct Hm as (info & infos' & Hmi & Hm & ->). destruct Hc as (count & (C0 & C1 & C2 & F1 & F3 & Hco) & Hc).
    cbn [expand_chunks] in He. apply bind_Ok in He as (stored & G1 & He). apply range_Ok in G1 as (_ & _ & _ & ->); [|done].
    pose proof Hmi as (M1 & M2 & M3 & M4). rewrite M1, F1 in He.
    apply bind_Ok in He as (oo & G2 & He). apply checked_multiply_Ok in G2 as [_ ->]; [|lia|lia].
    apply bind_Ok in He as (o2 & G3 & He). apply narrow_size_Ok in G3 as [_ ->].
    apply bind_Ok in He as (lb & _ & He). apply bind_Ok in He as (? & _ & He).
    apply bind_Ok in He as (logical & G4 & He). apply bind_Ok in He as (output1 & G5 & He).
    rewrite (Hco _ _ _ Hmi G4) in G5. apply copy_into_Ok in G5 as (K1 & K2 & ->).
    assert (zlen (slice data (first * frame_bytes) (count * frame_bytes)) = count * frame_bytes) as Esl
      by (apply zlen_slice; nia).
    eapply (IH infos' (first + count)); [done|done| |done|lia|done|done| |exact He].
    + rewrite zlen_splice; [done|lia|done].
    + replace ((first + count) * frame_bytes) with (first * frame_bytes + count * frame_bytes) by lia.
      rewrite (take_slice data) by nia. pose proof (take_splice _ _ _ K1 K2) as Etk.
      rewrite Esl in Etk. by rewrite Etk, Ht.
Qed.

(** ** Version 5 files *)

(** A version 5 file whose chunks carry the document's samples reads back as the
    document. *)
Lemma v5_file_reads_back `{ZstdLibrary} document metadata samples chunks file label too_large reader :
  let count := doc_sample_frame_count document in
  let frame_bytes := doc_sample_frame_bytes document in
  document_typed document -> metadata_of document metadata -> 0 < frame_bytes ->
  zlen (doc_sample_data document) = count * frame_bytes -> count * frame_bytes <= UINT64_MAX ->
  assemble_v5_sample_section count frame_bytes chunks = Ok samples ->
  chunks_carry (doc_sample_data document) frame_bytes 0 count chunks ->
  write_file mncwf_v5_version label too_large
    (map plain_section metadata ++
     [mkFileSection (section_value section_sample_data) 2 count frame_bytes (count * frame_bytes) samples]) = Ok file ->
  make_reader file mode_complete = Ok reader ->
  reader_document reader = document /\ hdr_version (header_ reader) = mncwf_v5_version.
Proof.
  intros count frame_bytes Hty Hmd Hfb Hz Hle Hs Hch He Hr. pose proof Hty as (_ & _ & _ & _ & _ & _ & Tc & Tb).
  apply fits_iff in Tc as Tc', Tb as Tb'. pose proof (encode_metadata_as _ _ Hmd) as [Tm _].
  set (sample := mkFileSection _ _ _ _ _ _) in He.
  assert (length (map plain_section metadata ++ [sample]) = 7%nat) as Hlen.
  { destruct Hmd as (? & ? & ? & ? & ? & ? & -> & _). done. }
  apply write_file_image in He; [|done|unfold zlen; rewrite Hlen; lia].
  destruct (make_reader_image _ _ _ mode_complete reader He)
    as (header & infos & Hrs & Hv & Hli & Hmatch); [unfold zlen; rewrite Hlen; lia| |done|].
  { apply Forall_app. split; [done|]. constructor; [|constructor]. unfold section_typed, sample.
    cbn [fs_type fs_item_count fs_item_bytes fs_logical_bytes]. split_and!; try done.
    apply fits_iff. unfold UINT64_MAX in *. nia. }
  destruct (read_sections_back mode_complete header document metadata infos sample reader)
    as (D1 & D2 & D3 & D4 & D5 & D6 & _ & Hh & info & Hi & Hp & D7 & D8); try done; [congruence|].
  split; [|congruence]. destruct Hi as (_ & M2 & M3 & M4 & M5).
  unfold sample in M2, M3, M4, M5. cbn [fs_item_count fs_item_bytes fs_payload fs_logical_bytes] in M2, M3, M4, M5.
  enough (sample_data_ reader = doc_sample_data document) as Ed
    by (unfold reader_document; rewrite D1, D2, D3, D4, D5, D6, D7, D8, Ed, M2, M3; by destruct document).
  apply assemble_v5_image in Hs as [Him _]; [|done|done].
  assert (zlen (doc_sample_data document) <= UINT64_MAX) as Hdl by lia.
  pose proof (chunks_carry_typed _ _ _ _ _ Hch Hfb Hdl) as Hct.
  unfold parse_samples in Hp. rewrite Hv in Hp. cbn [Z.eqb] in Hp.
  apply bind_Ok in Hp as (got & Hpc & Hp). apply bind_Ok in Hp as (data & Hmat & Hp). injection Hp as _ <-.
  rewrite <- M5 in Him. pose proof (parse_v5_chunks_back _ _ _ Him Hct Hpc) as Hall.
  cbn in Hmat. unfold materialize_v5 in Hmat. apply bind_Ok in Hmat as (size & G6 & Hmat).
  apply narrow_size_Ok in G6 as [_ ->]. do 2 (apply bind_Ok in Hmat as (? & _ & Hmat)).
  rewrite M3, M4 in Hmat. destruct Him as (Hmax & _).
  eapply (expand_chunks_carry (doc_sample_data document) (sec_data info) frame_bytes count chunks got 0 _ data);
    [| | | | | | | |exact Hmat]; [lia| | |done|lia|done|done|done].
  - unfold mncwf_v4_max_file_bytes, UINT64_MAX in *. lia.
  - rewrite zlen_replicate by nia. lia.
Qed.
