(* ===== verification/MncwfTheorems.v ===== *)
(** * MNCWF waveform container: round trips

    Encoding and reading of src/common/msap1/waveform/mncwf_v4.cpp are inverse: both
    file versions give back the document they were encoded from. *)

From S2P Require Import Prelude MncwfTypes MncwfFormat MncwfRecords MncwfReader MncwfEncode MncwfWire MncwfRoundTrip MncwfSections MncwfFile MncwfChunks.

(** A codec for the witnesses: a run of one byte, eight to 255 times, becomes a frame
    of seven bytes; anything else is kept. *)
Definition run_frame (count value : Z) : list Z := [0x28; 0xb5; 0x2f; 0xfd; 0x24; count; value].

Definition run_zstd : ZstdLibrary := {|
  zstd_contexts := true;
  zstd_set_parameter _ := None;
  ZSTD_compress2 logical :=
    match logical with
    | value :: _ =>
        if bool_decide (logical = replicate (length logical) value) && (8 <=? zlen logical) && (zlen logical <=? 255)
        then inr (run_frame (zlen logical) value) else inr logical
    | [] => inr []
    end;
  ZSTD_decompressDCtx stored capacity :=
    if zlen stored =? capacity then inr stored
    else inr (replicate (Z.to_nat (nth 5 stored 0)) (nth 6 stored 0));
  ZSTD_findFrameCompressedSize frame := inr (zlen frame);
  ZSTD_getFrameContentSize frame := nth 5 frame 0
|}.

Lemma run_zstd_lossless : zstd_lossless run_zstd.
Proof.
  intros logical compressed H. cbn in *. destruct logical as [|value rest]; [by injection H as <-|].
  destruct (_ && _) eqn:E; injection H as <-.
  - bools. destruct (Z.eqb_spec (zlen (run_frame (zlen (value :: rest)) value)) (zlen (value :: rest))) as [Ez|_].
    + change (zlen (run_frame _ _)) with 7 in Ez. lia.
    + cbn [nth run_frame]. apply bool_decide_eq_true in H. rewrite H at 2. unfold zlen. by rewrite Nat2Z.id.
  - by rewrite Z.eqb_refl.
Qed.

(** A capture of two frames on one channel, with one event. *)
Definition demo_uuid (tag : Z) : list Z := [tag; 2; 3; 4; 5; 6; 0x47; 8; 0x89; 10; 11; 12; 13; 14; 15; 16].
Definition demo_text (c : Z) : list Z := [c; 101; 102].
Definition demo_capture : MncwfV4CaptureMetadata :=
  mkCaptureMetadata (demo_uuid 1) (demo_uuid 2) (replicate 32 7) (replicate 32 9) 1000 0 230000 1000 50 1
    topology_wye calibration_valid 0 (demo_text 97) [] [] (demo_text 98) (demo_text 99) (demo_text 100)
    (demo_text 101) (demo_text 102) (demo_text 103) [] [] [0xc3; 0xa9].
Definition demo_segment : MncwfV4TimebaseSegment :=
  mkTimebaseSegment 0 2 500 1 8000 1 8000 1 500 12345 999 0 10 1 decimation_none clock_ptp quality_locked 0 0 2.
Definition demo_channel : MncwfV4ChannelDefinition :=
  mkChannelDefinition (demo_uuid 3) 4 mncwf_channel_enabled phase_a quantity_voltage unit_volt
    encoding_signed_integer_little_endian 32 24 (-3) (-5) 1 0 1 1 1 0 1 (-10) 1 10 1 1 1 (-100) 100
    (demo_text 85) (demo_text 86) [].
Definition demo_event : MncwfV4EventDescriptor :=
  mkEventDescriptor (demo_uuid 4) taxonomy_iec_61000_4_30 2 lifecycle_start quality_locked
    mncwf_event_start_valid mncwf_event_phase_a quantity_voltage unit_volt 1 3 1 500 0 0 0 999 0 0 0 0 0 0 0 5
    230000000 207000000 (-4600000) [1; -2; 3] 0 1 0 (demo_text 115) (demo_text 116) [].
Definition demo_quality : MncwfV4QualityInterval := mkQualityInterval 0 1 500 500 1 mncwf_quality_clipped 1 2 3.
Definition demo_lineage : MncwfV4LineageEntry := mkLineageEntry relation_parent 0 (demo_uuid 5) (demo_uuid 6) 500 501 0 1.
Definition demo_document (samples : list Z) : MncwfV4Document :=
  mkDocument demo_capture [demo_segment] [demo_channel] [demo_event] [demo_quality] [demo_lineage] 2 4 samples.

Lemma demo_document_typed samples : document_typed (demo_document samples).
Proof. unfold document_typed, event_typed, typed_by. split_and!; repeat constructor. Qed.


(** A file [encode_mncwf_v4] returns is accepted by [MncwfV4Reader], and the
    reader's accessors give exactly the encoded document: every field of every
    record, every string, and the sample bytes.  So two documents with the same
    file are the same. *)
Theorem mncwf_v4_round_trip `{ZstdLibrary} document file :
  document_typed document -> encode_mncwf_v4 document = Ok file ->
  (exists reader, make_reader file mode_complete = Ok reader /\ hdr_version (header_ reader) = mncwf_v4_version /\
     reader_document reader = document) /\
  (forall other, document_typed other -> encode_mncwf_v4 other = Ok file -> other = document).
Proof.
  intros Hty He. unfold encode_mncwf_v4 in He. apply bind_Ok in He as (f & Hb & He).
  apply bind_Ok in He as (reader & Hr & He). injection He as ->.
  destruct (build_v4_reads_back _ _ _ Hty Hb Hr) as [Hd Hv]. split; [by exists reader|].
  intros other Ho He. unfold encode_mncwf_v4 in He. apply bind_Ok in He as (f & Hb' & He).
  apply bind_Ok in He as (reader' & Hr' & He). injection He as ->.
  destruct (build_v4_reads_back _ _ _ Ho Hb' Hr') as [Hd' _]. congruence.
Qed.

Lemma mncwf_v4_round_trip_witness :
  let document := demo_document [1; 2; 3; 4; 5; 6; 7; 255] in
  exists file, @encode_mncwf_v4 run_zstd document = Ok file /\ zlen file = 1816 /\
    exists reader, @make_reader run_zstd file mode_complete = Ok reader /\ reader_document reader = document.
Proof.
  intros document.
  assert (zlen <$> @encode_mncwf_v4 run_zstd document = Ok 1816) as El by (vm_compute; reflexivity).
  destruct (@encode_mncwf_v4 run_zstd document) as [file|] eqn:E; [|discriminate El].
  destruct (@mncwf_v4_round_trip run_zstd document file (demo_document_typed _) E) as [(reader & Hr & _ & Hd) _].
  exists file. split; [reflexivity|]. split; [exact (Ok_inj _ _ El)|].
  exact (ex_intro _ reader (conj Hr Hd)).
Defined.

(** A version 5 file that is read back shows the encoded document. *)
Lemma encode_v5_reads_back (Z0 : ZstdLibrary) document file reader :
  zstd_lossless Z0 -> document_typed document -> encode_mncwf_v5 document = Ok file ->
  make_reader file mode_complete = Ok reader ->
  reader_document reader = document /\ hdr_version (header_ reader) = mncwf_v5_version.
Proof.
  intros Hlaw Hty He Hr. pose proof Hty as (_ & _ & _ & _ & _ & _ & Tc & Tb).
  apply fits_iff in Tc as Tc', Tb as Tb'.
  unfold encode_mncwf_v5 in He. apply bind_Ok in He as (sb & G1 & He).
  unfold check_sample_geometry in G1. apply bind_Ok in G1 as (z & G2 & G1).
  apply checked_multiply_Ok in G2 as [Hle ->]; [|lia|lia]. apply bind_Ok in G1 as (u & G3 & G1).
  apply guard_reject_Ok, negb_false_iff, Z.eqb_eq in G3. injection G1 as <-.
  apply bind_Ok in He as (metadata & Hmd & He). apply bind_Ok in He as (samples & Hs & He).
  apply encode_metadata_of in Hmd. unfold encode_v5_sample_section in Hs. apply bind_Ok in Hs as (u1 & G4 & Hs).
  apply guard_reject_Ok, orb_false_iff in G4 as [G4 G5]. bools.
  apply bind_Ok in Hs as (u2 & _ & Hs). apply bind_Ok in Hs as (u3 & _ & Hs).
  apply bind_Ok in Hs as (chunks & Hch & Hs).
  assert (0 < doc_sample_frame_bytes document) as Hfb by lia.
  apply compress_chunks_of in Hch; [|lia|lia|lia|done|done].
  eapply (v5_file_reads_back document metadata samples chunks file); try done.
  by apply chunks_of_carry.
Qed.

(** (C18) Version 5 files: whatever lossless library compressed the samples, a file of
    [encode_mncwf_v5] that [MncwfV4Reader] accepts - the check every capture passes
    before it is published - yields exactly the encoded document, its sample bytes
    restored chunk by chunk. *)
Theorem mncwf_v5_round_trip (Z0 : ZstdLibrary) document file reader :
  zstd_lossless Z0 -> document_typed document -> encode_mncwf_v5 document = Ok file ->
  make_reader file mode_complete = Ok reader ->
  reader_document reader = document /\ hdr_version (header_ reader) = mncwf_v5_version.
Proof. apply encode_v5_reads_back. Qed.

Lemma mncwf_v5_round_trip_witness :
  let document := demo_document (replicate 8 90) in
  exists file reader, @encode_mncwf_v5 run_zstd document = Ok file /\
    @make_reader run_zstd file mode_complete = Ok reader /\
    map chunk_codec (sample_chunks_ reader) = [codec_zstd] /\ reader_document reader = document.
Proof.
  intros document.
  assert ((fun r => map chunk_codec (sample_chunks_ r)) <$>
            (file ← @encode_mncwf_v5 run_zstd document; @make_reader run_zstd file mode_complete) = Ok [codec_zstd])
    as El by (vm_compute; reflexivity).
  destruct (@encode_mncwf_v5 run_zstd document) as [file|] eqn:E; [|discriminate El]. cbn [mbind result_bind] in El.
  destruct (@make_reader run_zstd file mode_complete) as [reader|] eqn:Er; [|discriminate El].
  exists file, reader. split; [reflexivity|]. split; [exact Er|]. split; [exact (Ok_inj _ _ El)|].
  exact (proj1 (mncwf_v5_round_trip run_zstd document file reader run_zstd_lossless (demo_document_typed _) E Er)).
Defined.
