(* ===== verification/MncwfIntegrity.v ===== *)
(** * MNCWF waveform container: integrity and rejection

    Every byte of a file that the reader of src/common/msap1/waveform/mncwf_v4.cpp
    accepts is covered by a checksum or must be zero, so that a file with one byte
    changed is rejected; and on any byte sequence whatever the reader either succeeds
    or throws [std::invalid_argument]. *)

From stdpp Require Import sorting.
From S2P Require Import Prelude MncwfTypes MncwfFormat MncwfRecords MncwfReader MncwfEncode MncwfWire MncwfRoundTrip MncwfSections MncwfTheorems.

(** ** CRC-32C *)

Definition is_word32 (z : Z) : Prop := 0 <= z < 2 ^ 32.

Lemma word32_lxor a b : is_word32 a -> is_word32 b -> is_word32 (Z.lxor a b).
Proof.
  unfold is_word32. intros Ha Hb. assert (0 <= Z.lxor a b) as H0 by (apply Z.lxor_nonneg; lia). split; [done|].
  destruct (Z.eq_dec (Z.lxor a b) 0) as [->|]; [lia|]. apply Z.log2_lt_pow2; [lia|].
  pose proof (Z.log2_lxor a b ltac:(lia) ltac:(lia)) as Hl.
  assert (forall z, 0 <= z < 2 ^ 32 -> Z.log2 z < 32) as Hlog.
  { intros z Hz. destruct (Z.eq_dec z 0) as [->|]; [simpl; lia|]. apply Z.log2_lt_pow2; lia. }
  pose proof (Hlog a Ha). pose proof (Hlog b Hb). lia.
Qed.

Lemma crc32c_bit_word c : is_word32 c -> is_word32 (crc32c_bit c).
Proof.
  intros Hc. unfold crc32c_bit. apply word32_lxor.
  - unfold is_word32 in *. rewrite Z.shiftr_div_pow2 by lia. change (2 ^ 1) with 2.
    split; [apply Z.div_pos; lia|]. apply Z.div_lt_upper_bound; lia.
  - unfold is_word32. destruct (any_bit c 1); lia.
Qed.

(** The polynomial's top bit is set, so the step can be undone. *)
Lemma crc32c_bit_inj c d : is_word32 c -> is_word32 d -> crc32c_bit c = crc32c_bit d -> c = d.
Proof.
  intros Hc Hd H. unfold crc32c_bit in H.
  assert (forall z, any_bit z 1 = Z.testbit z 0) as Hany by (intros z; by rewrite <- bit_testbit).
  rewrite !Hany in H.
  assert (forall z, is_word32 z -> Z.testbit (Z.shiftr z 1) 31 = false) as Htop.
  { intros z Hz. rewrite Z.shiftr_spec by lia. change (31 + 1) with 32.
    destruct (Z.eq_dec z 0) as [->|]; [apply Z.testbit_0_l|].
    apply Z.bits_above_log2; unfold is_word32 in Hz; [lia|]. apply Z.log2_lt_pow2; lia. }
  assert (Z.testbit c 0 = Z.testbit d 0) as Eb.
  { apply (f_equal (fun z => Z.testbit z 31)) in H. rewrite !Z.lxor_spec, !Htop in H by done.
    destruct (Z.testbit c 0), (Z.testbit d 0); (done || (vm_compute in H; discriminate)). }
  rewrite Eb in H. apply (f_equal (fun z => Z.lxor z (if Z.testbit d 0 then 0x82F63B78 else 0))) in H.
  rewrite !Z.lxor_assoc, !Z.lxor_nilpotent, !Z.lxor_0_r in H.
  apply Z.bits_inj'. intros n Hn. destruct (Z.eq_dec n 0) as [->|]; [done|].
  apply (f_equal (fun z => Z.testbit z (n - 1))) in H. rewrite !Z.shiftr_spec in H by lia.
  by replace (n - 1 + 1) with n in H by lia.
Qed.

Lemma crc32c_bits_inj n c d :
  is_word32 c -> is_word32 d -> Nat.iter n crc32c_bit c = Nat.iter n crc32c_bit d -> c = d.
Proof.
  intros Hc Hd. assert (forall k z, is_word32 z -> is_word32 (Nat.iter k crc32c_bit z)) as Hw.
  { induction k; intros z Hz; [done|]. simpl. by apply crc32c_bit_word, IHk. }
  induction n as [|n IH]; [done|]. simpl. intros H. apply IH, crc32c_bit_inj; auto.
Qed.

Lemma crc32c_byte_steps c b : crc32c_byte c b = Nat.iter 8 crc32c_bit (Z.lxor c b).
Proof. reflexivity. Qed.

Lemma crc32c_update_cons c b bytes : crc32c_update c (b :: bytes) = crc32c_update (crc32c_byte c b) bytes.
Proof. reflexivity. Qed.
#[local] Opaque crc32c_bit crc32c_byte.

Lemma lxor_inj_l a b c : Z.lxor a c = Z.lxor b c -> a = b.
Proof.
  intros H. apply (f_equal (fun z => Z.lxor z c)) in H.
  by rewrite !Z.lxor_assoc, Z.lxor_nilpotent, !Z.lxor_0_r in H.
Qed.

Lemma byte_word b : is_byte b -> is_word32 b.
Proof. unfold is_byte, is_word32. lia. Qed.

Lemma crc32c_byte_word c b : is_word32 c -> is_byte b -> is_word32 (crc32c_byte c b).
Proof.
  intros Hc Hb. rewrite crc32c_byte_steps. pose proof (word32_lxor c b Hc (byte_word b Hb)) as H.
  revert H. generalize (Z.lxor c b). generalize 8%nat. induction n; intros z Hz; [done|].
  simpl. apply crc32c_bit_word. by apply IHn.
Qed.

Lemma crc32c_byte_inj c d b : is_word32 c -> is_word32 d -> is_byte b -> crc32c_byte c b = crc32c_byte d b -> c = d.
Proof.
  intros Hc Hd Hb H. apply byte_word in Hb. rewrite !crc32c_byte_steps in H. apply (lxor_inj_l _ _ b).
  apply crc32c_bits_inj in H; [done|by apply word32_lxor..].
Qed.

Lemma crc32c_byte_value_inj c x y : is_word32 c -> is_byte x -> is_byte y -> crc32c_byte c x = crc32c_byte c y -> x = y.
Proof.
  intros Hc Hx%byte_word Hy%byte_word H. rewrite !crc32c_byte_steps in H.
  apply (lxor_inj_l _ _ c). rewrite !(Z.lxor_comm _ c).
  apply crc32c_bits_inj in H; [done|by apply word32_lxor..].
Qed.

Lemma crc32c_update_inj bytes : forall c d,
  is_word32 c -> is_word32 d -> Forall is_byte bytes -> crc32c_update c bytes = crc32c_update d bytes -> c = d.
Proof.
  induction bytes as [|b bytes IH]; intros c d Hc Hd Hb H; [done|]. apply Forall_cons_iff in Hb as [Hb Hbs].
  rewrite !crc32c_update_cons in H. apply IH in H; [|by apply crc32c_byte_word..|done]. by eapply crc32c_byte_inj.
Qed.

Lemma crc32c_update_word bytes : forall c, is_word32 c -> Forall is_byte bytes -> is_word32 (crc32c_update c bytes).
Proof.
  induction bytes as [|b bytes IH]; intros c Hc Hb; [done|]. apply Forall_cons_iff in Hb as [Hb Hbs].
  rewrite crc32c_update_cons. apply IH; [by apply crc32c_byte_word|done].
Qed.

Lemma crc32c_update_app c a b : crc32c_update c (a ++ b) = crc32c_update (crc32c_update c a) b.
Proof. unfold crc32c_update. by rewrite foldl_app. Qed.

Lemma crc32c_update_changed c bytes i x y :
  is_word32 c -> Forall is_byte bytes -> bytes !! i = Some x -> is_byte y -> x <> y ->
  crc32c_update c (<[i := y]> bytes) <> crc32c_update c bytes.
Proof.
  intros Hc Hb Hi Hy Hne H. pose proof (lookup_lt_Some _ _ _ Hi) as Hlt.
  rewrite <- (take_drop_middle bytes i x Hi) in Hb. apply Forall_app in Hb as [H1 H2].
  apply Forall_cons_iff in H2 as [Hx H2].
  rewrite insert_take_drop in H by done. rewrite <- (take_drop_middle bytes i x Hi) in H at 3.
  rewrite !crc32c_update_app in H. pose proof (crc32c_update_word _ _ Hc H1) as Hw.
  revert H Hw. generalize (crc32c_update c (take i bytes)). intros d H Hw.
  rewrite !crc32c_update_cons in H.
  apply crc32c_update_inj in H; [|by apply crc32c_byte_word..|done].
  apply crc32c_byte_value_inj in H; [by apply Hne|done..].
Qed.

(** One changed byte changes the checksum. *)
Lemma mncwf_crc32c_changed bytes i x y :
  Forall is_byte bytes -> bytes !! i = Some x -> is_byte y -> x <> y ->
  mncwf_crc32c (<[i := y]> bytes) <> mncwf_crc32c bytes.
Proof.
  intros Hb Hi Hy Hne H. apply lxor_inj_l in H. revert H.
  by apply (crc32c_update_changed _ _ _ x).
Qed.

(** ** Slices of a changed file *)

Lemma slice_insert bytes i y o n :
  0 <= o -> slice (<[i := y]> bytes) o n =
    if decide (Z.to_nat o <= i < Z.to_nat o + Z.to_nat n)%nat
    then <[(i - Z.to_nat o)%nat := y]> (slice bytes o n) else slice bytes o n.
Proof.
  intros Ho. apply list_eq. intros j. rewrite slice_lookup. case_decide as Hj.
  - case_decide as Hi.
    + destruct (decide (j = i - Z.to_nat o)%nat) as [->|Hne].
      * replace (Z.to_nat o + (i - Z.to_nat o))%nat with i by lia.
        destruct (decide (i < length bytes)%nat) as [Hl|Hl].
        -- rewrite !list_lookup_insert_eq; [done| |done]. unfold slice. rewrite length_take, length_drop. lia.
        -- rewrite !list_insert_ge; [|unfold slice; rewrite length_take, length_drop; lia|lia].
           rewrite slice_lookup, decide_True by lia. f_equal. lia.
      * rewrite !list_lookup_insert_ne by lia. by rewrite slice_lookup, decide_True by lia.
    + rewrite list_lookup_insert_ne by lia. by rewrite slice_lookup, decide_True by lia.
  - case_decide.
    + rewrite list_lookup_insert_ne by lia. by rewrite slice_lookup, decide_False by lia.
    + by rewrite slice_lookup, decide_False by lia.
Qed.

Lemma zlen_insert (bytes : list Z) i y : zlen (<[i := y]> bytes) = zlen bytes.
Proof. unfold zlen. by rewrite length_insert. Qed.

Lemma crc_slice_changed bytes i x y o n :
  Forall is_byte bytes -> bytes !! i = Some x -> is_byte y -> x <> y -> 0 <= o ->
  (Z.to_nat o <= i < Z.to_nat o + Z.to_nat n)%nat ->
  mncwf_crc32c (slice (<[i := y]> bytes) o n) <> mncwf_crc32c (slice bytes o n).
Proof.
  intros Hb Hi Hy Hne Ho Hr. rewrite slice_insert, decide_True by done.
  apply mncwf_crc32c_changed with x; [by apply slice_bytes| |done|done].
  rewrite slice_lookup, decide_True by lia. rewrite <- Hi. f_equal. lia.
Qed.

Lemma slice_unchanged bytes i y o n :
  0 <= o -> (i < Z.to_nat o \/ Z.to_nat o + Z.to_nat n <= i)%nat -> slice (<[i := y]> bytes) o n = slice bytes o n.
Proof. intros Ho Hr. rewrite slice_insert, decide_False by lia. done. Qed.

(** ** What an accepted file passed *)

Lemma read_header_Ok bytes header dcrc hcrc :
  read_header bytes = Ok (header, dcrc, hcrc) ->
  64 <= zlen bytes <= mncwf_v4_max_file_bytes /\ read_u32 bytes 56 = Ok hcrc /\
  hdr_directory_offset header = 64 /\ 7 <= hdr_section_count header <= 64 /\
  hdr_directory_bytes header = hdr_section_count header * 56.
Proof.
  intros H. unfold read_header in H. step_reads H. injection H as <- <- <-.
  repeat match goal with G : guard_reject _ _ = Ok _ |- _ => apply guard_reject_Ok in G end. bools.
  unfold mncwf_v4_header_bytes, mncwf_v4_mandatory_section_count, mncwf_v4_max_sections,
    mncwf_v4_directory_entry_bytes in *.
  cbn [hdr_directory_offset hdr_section_count hdr_directory_bytes].
  match goal with G : checked_multiply _ _ _ = Ok _ |- _ => apply checked_multiply_Ok in G as [_ ->]; [|lia|lia] end.
  split_and!; try lia; done.
Qed.

Lemma make_reader_Ok `{ZstdLibrary} bytes mode r :
  make_reader bytes mode = Ok r ->
  exists header dcrc hcrc sections,
    read_header bytes = Ok (header, dcrc, hcrc) /\ mncwf_crc32c (header_copy bytes) = hcrc /\
    mncwf_crc32c (slice bytes 64 (hdr_section_count header * 56)) = dcrc /\
    64 + hdr_section_count header * 56 <= zlen bytes /\
    read_directory bytes (slice bytes 64 (hdr_section_count header * 56)) header = Ok sections /\
    check_placement bytes header sections = Ok tt /\
    forM_result sections (check_section_crc mode) = Ok tt /\ read_sections mode header sections = Ok r.
Proof.
  intros Hm. unfold make_reader in Hm. apply bind_Ok in Hm as ([[header dcrc] hcrc] & Hh & Hm).
  pose proof (read_header_Ok _ _ _ _ Hh) as ([Hl Hmax] & _ & Eo & Hc & Eb). rewrite Eo, Eb in Hm.
  apply bind_Ok in Hm as (u & G1 & Hm). apply guard_reject_Ok, negb_false_iff, Z.eqb_eq in G1.
  apply bind_Ok in Hm as (directory & G2 & Hm). unfold mncwf_v4_max_file_bytes in Hmax.
  apply range_Ok in G2 as (_ & _ & Hd & ->); [|unfold UINT64_MAX; lia].
  apply bind_Ok in Hm as (u2 & G3 & Hm). apply guard_reject_Ok, negb_false_iff, Z.eqb_eq in G3.
  apply bind_Ok in Hm as (sections & G4 & Hm). apply bind_Ok in Hm as ([] & G5 & Hm).
  apply bind_Ok in Hm as ([] & G6 & Hm). exists header, dcrc, hcrc, sections. split_and!; done.
Qed.

(** ** Reads below a change *)

Lemma read_field_unchanged w t bytes i y o :
  0 <= o -> 0 <= w -> o + w <= Z.of_nat i -> read_field w t (<[i := y]> bytes) o = read_field w t bytes o.
Proof.
  intros Ho Hw Hi. unfold read_field, subspan. rewrite zlen_insert. by rewrite slice_unchanged by lia.
Qed.

Lemma read_u32_unchanged bytes i y o :
  0 <= o -> o + 4 <= Z.of_nat i -> read_u32 (<[i := y]> bytes) o = read_u32 bytes o.
Proof. intros. unfold read_u32. by rewrite read_field_unchanged by lia. Qed.

Lemma read_u64_unchanged bytes i y o :
  0 <= o -> o + 8 <= Z.of_nat i -> read_u64 (<[i := y]> bytes) o = read_u64 bytes o.
Proof. intros. unfold read_u64. by rewrite read_field_unchanged by lia. Qed.

Lemma read_header_unchanged bytes i y :
  64 <= Z.of_nat i -> read_header (<[i := y]> bytes) = read_header bytes.
Proof.
  intros Hi. unfold read_header.
  rewrite !zlen_insert, take_insert_ge by lia.
  rewrite (read_u32_unchanged bytes i y 8), (read_u32_unchanged bytes i y 12), (read_u32_unchanged bytes i y 16),
    (read_u32_unchanged bytes i y 20), (read_u64_unchanged bytes i y 24), (read_u64_unchanged bytes i y 32),
    (read_u64_unchanged bytes i y 40), (read_u32_unchanged bytes i y 48), (read_u32_unchanged bytes i y 52),
    (read_u32_unchanged bytes i y 56), (read_u32_unchanged bytes i y 60) by lia.
  reflexivity.
Qed.

(** ** The header *)

Lemma header_copy_lookup bytes j :
  64 <= zlen bytes ->
  header_copy bytes !! j =
    if decide (56 <= j < 60)%nat then Some 0 else if decide (j < 64)%nat then bytes !! j else None.
Proof.
  intros Hl. unfold header_copy. change (Z.to_nat mncwf_v4_header_bytes) with 64%nat. rewrite splice_lookup.
  - change (Z.to_nat 56 + length [0; 0; 0; 0])%nat with 60%nat. change (Z.to_nat 56) with 56%nat.
    destruct (decide (56 <= j < 60)%nat) as [Hj|Hj].
    + rewrite decide_True by (simpl; lia). assert (j = 56 \/ j = 57 \/ j = 58 \/ j = 59)%nat as Hc by lia. by destruct_or? Hc; subst j.
    + rewrite decide_False by (simpl; lia). by rewrite lookup_take.
  - lia.
  - unfold zlen in *. rewrite length_take. change (length [0; 0; 0; 0]) with 4%nat. lia.
Qed.

Lemma header_changed bytes i x y :
  Forall is_byte bytes -> 64 <= zlen bytes -> bytes !! i = Some x -> is_byte y -> x <> y ->
  (i < 56 \/ 60 <= i < 64)%nat ->
  mncwf_crc32c (header_copy (<[i := y]> bytes)) <> mncwf_crc32c (header_copy bytes).
Proof.
  intros Hb Hl Hi Hy Hne Hr.
  assert (header_copy (<[i := y]> bytes) = <[i := y]> (header_copy bytes)) as ->.
  { assert (i < length (header_copy bytes))%nat as Hlen.
    { apply lookup_lt_is_Some. rewrite header_copy_lookup by done.
      rewrite decide_False, decide_True by lia. by exists x. }
    apply list_eq. intros j. rewrite header_copy_lookup by (by rewrite zlen_insert).
    destruct (decide (j = i)) as [->|Hne2].
    - rewrite decide_False, decide_True by lia.
      rewrite !list_lookup_insert_eq; [done|done|]. by eapply lookup_lt_Some.
    - rewrite !list_lookup_insert_ne by done. by rewrite header_copy_lookup. }
  apply (mncwf_crc32c_changed _ _ x); [| |done|done].
  - apply Forall_lookup. intros j z Hj. rewrite header_copy_lookup in Hj by done.
    case_decide; [injection Hj as <-; unfold is_byte; lia|]. case_decide; [|done].
    by eapply Forall_lookup_1 in Hb.
  - rewrite header_copy_lookup by done. by rewrite decide_False, decide_True by lia.
Qed.

Lemma stored_crc_changed bytes i x y h :
  Forall is_byte bytes -> bytes !! i = Some x -> is_byte y -> x <> y -> (56 <= i < 60)%nat ->
  read_u32 bytes 56 = Ok h -> read_u32 (<[i := y]> bytes) 56 <> Ok h.
Proof.
  intros Hb Hi Hy Hne Hr H1 H2. unfold read_u32 in *.
  destruct (read_field 4 _ bytes 56) as [a|] eqn:E1; [|done].
  destruct (read_field 4 _ (<[i := y]> bytes) 56) as [b|] eqn:E2; [|done].
  apply read_field_Ok in E1 as [L1 ->]; [|lia|lia]. apply read_field_Ok in E2 as [L2 ->]; [|lia|lia].
  rewrite fmap_Ok in H1, H2. rewrite <- H2 in H1. apply Ok_inj in H1.
  assert (Forall is_byte (slice (<[i := y]> bytes) 56 4)) as Hb2 by (by apply slice_bytes, Forall_insert).
  assert (Forall is_byte (slice bytes 56 4)) as Hb1 by (by apply slice_bytes).
  rewrite !or_bytes_value in H1 by done. apply (f_equal (le_bytes 4)) in H1.
  assert (forall l : list Z, zlen l = 4 -> length l = 4%nat) as H4 by (unfold zlen; lia).
  pose proof (le_bytes_value _ Hb1) as V1. rewrite (H4 (slice bytes 56 4)) in V1 by (apply zlen_slice; lia).
  pose proof (le_bytes_value _ Hb2) as V2. rewrite (H4 (slice (<[i := y]> bytes) 56 4)) in V2 by (apply zlen_slice; lia).
  rewrite V1, V2 in H1. apply (f_equal (fun l => l !! (i - 56)%nat)) in H1.
  rewrite !slice_lookup in H1. change (Z.to_nat 56) with 56%nat in H1. change (Z.to_nat 4) with 4%nat in H1.
  rewrite !decide_True in H1 by lia. replace (56 + (i - 56))%nat with i in H1 by lia.
  rewrite list_lookup_insert_eq in H1 by (by eapply lookup_lt_Some). congruence.
Qed.

(** ** Directory and placement *)

(** Section [k] is entry [k] of the directory with the bytes it names. *)
Definition section_from (bytes directory : list Z) (k : nat) (section : MncwfV4SectionInfo) : Prop :=
  exists info reserved, read_directory_entry directory k = Ok (info, reserved) /\
    0 <= sec_offset info /\ 0 <= sec_stored_bytes info /\ sec_offset info + sec_stored_bytes info <= zlen bytes /\
    section = with_data info (slice bytes (sec_offset info) (sec_stored_bytes info)).

Lemma read_directory_from bytes directory header sections :
  zlen bytes <= UINT64_MAX -> read_directory bytes directory header = Ok sections ->
  length sections = Z.to_nat (hdr_section_count header) /\
  forall k s, sections !! k = Some s -> section_from bytes directory k s.
Proof.
  intros Hmax H. unfold read_directory in H. apply bind_Ok in H as (st & Hloop & H).
  apply bind_Ok in H as (u & _ & H). injection H as <-.
  destruct (record_loop_collects (directory_turn bytes directory (hdr_version header)) ds_sections
              (section_from bytes directory) (Z.to_nat (hdr_section_count header)) 0
              (mkDirectoryState [] (replicate 7 false)) st) as (xs & Ex & El & Px); [|done|].
  - intros st1 i st2 _ Ht. unfold directory_turn in Ht. apply bind_Ok in Ht as ([info reserved] & He & Ht).
    do 4 (apply bind_Ok in Ht as (? & _ & Ht)). apply bind_Ok in Ht as (present & _ & Ht).
    apply bind_Ok in Ht as (data & Hd & Ht). injection Ht as <-.
    apply range_Ok in Hd as (H1 & H2 & H3 & ->); [|done].
    eexists. split; [reflexivity|]. exists info, reserved. done.
  - rewrite Ex. split; [done|]. intros k s Hk. by apply (Px k).
Qed.

(** Placed extents cover everything from the start to the cursor, up to zero padding. *)
Lemma place_extents_cover bytes extents : forall start cursor,
  zlen bytes <= UINT64_MAX -> 0 <= start -> place_extents bytes start extents = Ok cursor ->
  Forall (fun e => 0 <= e.1 <= e.2) extents ->
  start <= cursor /\
  forall i, start <= Z.of_nat i < cursor ->
    (exists e, e ∈ extents /\ e.1 <= Z.of_nat i < e.2) \/ bytes !! i = Some 0.
Proof.
  induction extents as [|[b e] extents IH]; intros start cursor Hmax H0 H Hf.
  - injection H as <-. split; [lia|]. intros i Hi. lia.
  - cbn [place_extents] in H. apply Forall_cons_iff in Hf as [Hbe Hf]. cbn [fst snd] in Hbe.
    apply bind_Ok in H as (u1 & G1 & H). apply guard_reject_Ok, negb_false_iff, Z.eqb_eq in G1. subst b.
    apply bind_Ok in H as (c & G2 & H). apply align_eight_Ok in G2 as [_ ->]; [|lia].
    pose proof (align8_bounds e) as Ha.
    apply bind_Ok in H as (u2 & _ & H). apply bind_Ok in H as (u3 & G4 & H).
    destruct (IH (align8 e) cursor Hmax ltac:(lia) H Hf) as [Hle Hcov]. split; [lia|]. intros i Hi.
    destruct (Z.lt_ge_cases (Z.of_nat i) e) as [Hlt|Hge].
    { left. exists (start, e). split; [apply list_elem_of_here|]. cbn. lia. }
    destruct (Z.lt_ge_cases (Z.of_nat i) (align8 e)) as [Hlt|Hge2].
    + right. destruct (Z.eqb_spec e (align8 e)) as [|Hne]; [lia|]. cbn [negb] in G4.
      apply bind_Ok in G4 as (padding & G5 & G4). apply range_Ok in G5 as (P1 & P2 & P3 & ->); [|done].
      apply guard_reject_Ok, negb_false_iff in G4. unfold all_zero in G4. rewrite forallb_forall in G4.
      assert (i < length bytes)%nat as Hil by (unfold zlen in P3; lia).
      destruct (lookup_lt_is_Some_2 bytes i Hil) as [z Hz]. rewrite Hz. f_equal.
      specialize (G4 z). cbn beta in G4. rewrite Z.eqb_eq in G4. apply G4.
      apply list_elem_of_In, list_elem_of_lookup. exists (i - Z.to_nat e)%nat.
      rewrite slice_lookup, decide_True by lia. rewrite <- Hz. f_equal. lia.
    + destruct (Hcov i ltac:(lia)) as [(x & Hx & Hr)|Hz]; [left; exists x; split; [by right|done]|by right].
Qed.

Lemma mapM_extent sections extents :
  mapM_result section_extent sections = Ok extents ->
  extents = map (fun s => (sec_offset s, sec_offset s + sec_stored_bytes s)) sections.
Proof.
  revert extents. induction sections as [|s sections IH]; intros extents H; [by injection H as <-|].
  cbn [mapM_result] in H. apply bind_Ok in H as (e & G1 & H). apply bind_Ok in H as (es & G2 & H).
  injection H as <-. apply IH in G2 as ->. unfold section_extent in G1. apply bind_Ok in G1 as (l & G3 & G1).
  apply checked_add_Ok in G3 as [_ ->]. by injection G1 as <-.
Qed.

(** Past the directory, each byte lies in a section or is zero padding. *)
Lemma check_placement_cover bytes directory header sections i :
  zlen bytes <= UINT64_MAX -> check_placement bytes header sections = Ok tt ->
  (forall k s, sections !! k = Some s -> section_from bytes directory k s) ->
  hdr_directory_offset header = 64 -> hdr_directory_bytes header = hdr_section_count header * 56 ->
  0 <= hdr_section_count header ->
  64 + hdr_section_count header * 56 <= Z.of_nat i < zlen bytes ->
  (exists k s, sections !! k = Some s /\ sec_offset s <= Z.of_nat i < sec_offset s + sec_stored_bytes s) \/
  bytes !! i = Some 0.
Proof.
  intros Hmax H Hfrom E1 E2 Hc Hi. unfold check_placement in H. rewrite E1, E2 in H.
  apply bind_Ok in H as (extents & G1 & H). apply mapM_extent in G1.
  apply bind_Ok in H as (de & G2 & H). apply checked_add_Ok in G2 as [_ ->].
  apply bind_Ok in H as (start & G3 & H). apply align_eight_Ok in G3 as [_ ->]; [|lia].
  assert (align8 (64 + hdr_section_count header * 56) = 64 + hdr_section_count header * 56) as Ea.
  { unfold align8. replace (64 + hdr_section_count header * 56 + 7) with (7 + (8 + hdr_section_count header * 7) * 8) by lia.
    rewrite Z.div_add by lia. change (7 / 8) with 0. lia. }
  rewrite Ea in H. apply bind_Ok in H as (cursor & G4 & H). apply guard_reject_Ok, negb_false_iff, Z.eqb_eq in H.
  pose proof (merge_sort_Permutation extent_le extents) as Hperm.
  assert (Forall (fun e => 0 <= e.1 <= e.2) (merge_sort extent_le extents)) as Hf.
  { rewrite Hperm, G1. apply List.Forall_forall. intros e Hin. apply in_map_iff in Hin as (s & <- & Hin).
    apply list_elem_of_In, list_elem_of_lookup in Hin as (k & Hk).
    destruct (Hfrom _ _ Hk) as (info & r & _ & H1 & H2 & _ & ->). cbn. lia. }
  destruct (place_extents_cover bytes (merge_sort extent_le extents) (64 + hdr_section_count header * 56) cursor
              Hmax ltac:(lia) G4 Hf) as [_ Hcov].
  destruct (Hcov i ltac:(lia)) as [(e & He & Hr)|Hz]; [left|by right].
  rewrite Hperm, G1 in He. apply list_elem_of_In, in_map_iff in He as (s & <- & Hin).
  apply list_elem_of_In, list_elem_of_lookup in Hin as (k & Hk). by exists k, s.
Qed.

Lemma forM_result_lookup {A} (f : A -> result unit) l k x :
  forM_result l f = Ok tt -> l !! k = Some x -> f x = Ok tt.
Proof.
  revert k. induction l as [|y l IH]; intros k H Hk; [done|]. cbn [forM_result] in H.
  apply bind_Ok in H as ([] & G & H). destruct k as [|k]; [by injection Hk as ->|by eapply IH].
Qed.

(** The same entry names the same extent and checksum in any file. *)
Lemma section_from_same bytes bytes' directory k s s' :
  section_from bytes directory k s -> section_from bytes' directory k s' ->
  0 <= sec_offset s /\ sec_offset s' = sec_offset s /\ sec_stored_bytes s' = sec_stored_bytes s /\
  sec_crc32c s' = sec_crc32c s /\
  sec_data s = slice bytes (sec_offset s) (sec_stored_bytes s) /\
  sec_data s' = slice bytes' (sec_offset s) (sec_stored_bytes s).
Proof.
  intros (info & rs & D1 & O1 & O2 & O3 & ->) (info' & rs' & D2 & _ & _ & _ & ->).
  rewrite D1 in D2. apply Ok_inj in D2. injection D2 as <- <-. done.
Qed.

Lemma check_section_crc_Ok section :
  check_section_crc mode_complete section = Ok tt -> mncwf_crc32c (sec_data section) = sec_crc32c section.
Proof.
  intros Q%guard_reject_Ok. rewrite bool_decide_false in Q by done. cbn [andb negb] in Q. by bools.
Qed.

(** A section that covers a changed byte cannot have its checksum in both files. *)
Lemma section_changed bytes i old new directory k s s' :
  Forall is_byte bytes -> bytes !! i = Some old -> is_byte new -> old <> new ->
  section_from bytes directory k s -> section_from (<[i := new]> bytes) directory k s' ->
  check_section_crc mode_complete s = Ok tt -> check_section_crc mode_complete s' = Ok tt ->
  ~ (sec_offset s <= Z.of_nat i < sec_offset s + sec_stored_bytes s).
Proof.
  intros Hb Hi Hy Hne F1 F2 Q1%check_section_crc_Ok Q2%check_section_crc_Ok Hin.
  destruct (section_from_same _ _ _ _ _ _ F1 F2) as (O1 & _ & _ & Ec & D1 & D2).
  apply (crc_slice_changed bytes i old new (sec_offset s) (sec_stored_bytes s)); [done|done|done|done|done|lia|congruence].
Qed.

(** (C19) One changed byte is always caught: if the reader accepts a file completely,
    it rejects every file that differs from it in exactly one byte, wherever the byte
    lies - header, directory, section or padding. *)
Theorem mncwf_corruption_rejected `{ZstdLibrary} bytes reader i old new :
  Forall is_byte bytes -> make_reader bytes mode_complete = Ok reader ->
  bytes !! i = Some old -> is_byte new -> old <> new ->
  is_ok (make_reader (<[i := new]> bytes) mode_complete) = false.
Proof.
  intros Hb Hr Hi Hy Hne. destruct (make_reader (<[i := new]> bytes) mode_complete) as [reader'|] eqn:Hr'; [|done].
  exfalso. apply make_reader_Ok in Hr as (header & dcrc & hcrc & sections & R1 & R2 & R3 & R4 & R5 & R6 & R7 & _).
  apply make_reader_Ok in Hr' as (header' & dcrc' & hcrc' & sections' & S1 & S2 & S3 & S4 & S5 & S6 & S7 & _).
  pose proof (read_header_Ok _ _ _ _ R1) as ([L1 L2] & C1 & E1 & E2 & E3).
  pose proof (read_header_Ok _ _ _ _ S1) as (_ & C2 & _).
  assert (zlen bytes <= UINT64_MAX) as Hmax by (unfold mncwf_v4_max_file_bytes, UINT64_MAX in *; lia).
  pose proof (lookup_lt_Some _ _ _ Hi) as Hlt.
  destruct (decide (i < 64)%nat) as [Hh|Hh].
  - destruct (decide (56 <= i < 60)%nat) as [Hs|Hs].
    + apply (stored_crc_changed bytes i old new hcrc); try done. rewrite C2. f_equal. rewrite <- R2, <- S2.
      f_equal. apply list_eq. intros j. rewrite !header_copy_lookup by (rewrite ?zlen_insert; done).
      destruct (decide (j = i)) as [->|]; [by rewrite !decide_True by lia|by rewrite list_lookup_insert_ne].
    + apply (header_changed bytes i old new); try done; [lia|]. rewrite R2, S2.
      assert (read_u32 (<[i := new]> bytes) 56 = read_u32 bytes 56) as E; [|congruence].
      unfold read_u32, read_field, subspan. rewrite zlen_insert.
      rewrite slice_insert, decide_False by lia. done.
  - rewrite read_header_unchanged, R1 in S1 by lia. apply Ok_inj in S1. injection S1 as <- <- <-.
    destruct (decide (i < 64 + Z.to_nat (hdr_section_count header * 56))%nat) as [Hd|Hd].
    + apply (crc_slice_changed bytes i old new 64 (hdr_section_count header * 56)); [done|done|done|done|lia|lia|congruence].
    + rewrite slice_unchanged in S5 by lia.
      apply read_directory_from in R5 as [N1 F1]; [|done]. apply read_directory_from in S5 as [N2 F2]; [|by rewrite zlen_insert].
      assert (forall k s, sections !! k = Some s -> ~ (sec_offset s <= Z.of_nat i < sec_offset s + sec_stored_bytes s)) as Hnone.
      { intros k s Hk. destruct (lookup_lt_is_Some_2 sections' k) as [s' Hk'].
        { rewrite N2, <- N1. by eapply lookup_lt_Some. }
        apply (section_changed bytes i old new _ k s s' Hb Hi Hy Hne (F1 _ _ Hk) (F2 _ _ Hk')
                 (forM_result_lookup _ _ _ _ R7 Hk) (forM_result_lookup _ _ _ _ S7 Hk')). }
      assert (64 + hdr_section_count header * 56 <= Z.of_nat i < zlen bytes) as Hrange by (unfold zlen; lia).
      destruct (check_placement_cover bytes _ header sections i Hmax R6 F1 E1 E3 ltac:(lia) Hrange) as [(k & s & Hk & Hin)|Hz].
      { by eapply Hnone. }
      destruct (check_placement_cover (<[i := new]> bytes) _ header sections' i
                  ltac:(by rewrite zlen_insert) S6 F2 E1 E3 ltac:(lia) ltac:(by rewrite zlen_insert)) as [(k & s' & Hk' & Hin)|Hz'].
      { destruct (lookup_lt_is_Some_2 sections k) as [s Hk].
        { rewrite N1, <- N2. by eapply lookup_lt_Some. }
        destruct (section_from_same _ _ _ _ _ _ (F1 _ _ Hk) (F2 _ _ Hk')) as (_ & Eo & En & _).
        apply (Hnone k s Hk). by rewrite Eo, En in Hin. }
      rewrite list_lookup_insert_eq in Hz' by done. congruence.
Qed.

Lemma encode_v4_accepted `{ZstdLibrary} document file :
  encode_mncwf_v4 document = Ok file -> exists reader, make_reader file mode_complete = Ok reader.
Proof.
  intros He. unfold encode_mncwf_v4 in He. apply bind_Ok in He as (f & _ & He).
  apply bind_Ok in He as (reader & Hr & He). injection He as ->. by exists reader.
Qed.

Lemma mncwf_corruption_rejected_witness :
  exists file, @encode_mncwf_v4 run_zstd (demo_document [1; 2; 3; 4; 5; 6; 7; 255]) = Ok file /\
    file !! 1808%nat = Some 1 /\ is_ok (@make_reader run_zstd (<[1808%nat := 65]> file) mode_complete) = false.
Proof.
  assert (match @encode_mncwf_v4 run_zstd (demo_document [1; 2; 3; 4; 5; 6; 7; 255]) with
          | Ok file => forallb (fits 8) file && bool_decide (file !! 1808%nat = Some 1)
          | Throw _ => false
          end = true) as Hf by (vm_compute; reflexivity).
  destruct (@encode_mncwf_v4 run_zstd _) as [file|] eqn:E; [|discriminate Hf].
  destruct (@encode_v4_accepted run_zstd _ file E) as [reader Hr].
  apply andb_true_iff in Hf as [Hb Hi]. apply bool_decide_eq_true in Hi.
  exists file. split; [reflexivity|]. split; [exact Hi|].
  apply (@mncwf_corruption_rejected run_zstd file reader 1808 1 65); [|exact Hr|exact Hi|split; lia|lia].
  apply List.Forall_forall. intros b Hin. rewrite forallb_forall in Hb. exact (proj1 (fits_iff 8 b) (Hb b Hin)).
Defined.
