(* ===== verification/MncwfTotal.v ===== *)
(** * MNCWF waveform container: the reader is defined on every input

    On any byte sequence the constructor of [MncwfV4Reader]
    (src/common/msap1/waveform/mncwf_v4.cpp) either succeeds or throws
    [std::invalid_argument] with an "MNCWF: " text: no read leaves a span, no copy
    leaves a buffer, no record index is out of range, whatever the file claims.  A
    reader that was built satisfies [reader_ok]: the timebase covers the frames, the
    events are ordered and anchored in the capture, the chunks tile the samples. *)

From stdpp Require Import sorting.
From S2P Require Import Prelude MncwfTypes MncwfFormat MncwfRecords MncwfReader MncwfEncode MncwfSlice MncwfWire MncwfRoundTrip MncwfSections MncwfFile MncwfChunks MncwfTheorems.

(** ** Runs that only reject *)

(** [m] succeeds with a value in [Q], or rejects. *)
Definition safe {A} (m : result A) (Q : A -> Prop) : Prop :=
  match m with Ok a => Q a | Throw e => exists reason, e = reject_error reason end.

Lemma safe_bind {A B} (m : result A) (f : A -> result B) P Q :
  safe m P -> (forall a, P a -> safe (f a) Q) -> safe (m ≫= f) Q.
Proof. destruct m; simpl; auto. Qed.

Lemma safe_weaken {A} (m : result A) (P Q : A -> Prop) : safe m P -> (forall a, P a -> Q a) -> safe m Q.
Proof. destruct m; simpl; auto. Qed.

Lemma safe_reject {A} reason (Q : A -> Prop) : safe (reject reason) Q.
Proof. simpl. by exists reason. Qed.

Lemma safe_guard b reason : safe (guard_reject b reason) (fun _ => b = false).
Proof. destruct b; simpl; [by exists reason|done]. Qed.

Lemma safe_fmap {A B} (f : A -> B) (m : result A) (Q : B -> Prop) : safe m (fun a => Q (f a)) -> safe (f <$> m) Q.
Proof. by destruct m. Qed.

Lemma safe_checked_add l r label : safe (checked_add l r label) (fun z => z = l + r).
Proof.
  unfold checked_add. eapply safe_bind; [apply safe_guard|]. by intros.
Qed.

Lemma safe_checked_add_bound l r label : safe (checked_add l r label) (fun z => z = l + r /\ l + r <= UINT64_MAX).
Proof.
  unfold checked_add. eapply safe_bind; [apply safe_guard|]. intros ? Hg. cbn beta in Hg. bools. simpl. lia.
Qed.

Lemma safe_checked_multiply l r label : safe (checked_multiply l r label) (fun z => z = l * r).
Proof. unfold checked_multiply. eapply safe_bind; [apply safe_guard|]. by intros. Qed.

Lemma safe_align v : 0 <= v -> safe (align_eight v) (fun z => z = align8 v).
Proof.
  intros Hv. destruct (align_eight v) as [z|e] eqn:E; simpl.
  - apply align_eight_Ok in E as [_ ->]; done.
  - unfold align_eight in E. apply bind_Throw in E as [E|(a & _ & E)]; [|done].
    pose proof (safe_checked_add v 7 "alignment") as Hs. by rewrite E in Hs.
Qed.

Lemma safe_narrow v label : safe (narrow_size v label) (fun z => z = v).
Proof. unfold narrow_size. eapply safe_bind; [apply safe_guard|]. by intros. Qed.

Lemma safe_subspan bytes o n :
  0 <= o -> 0 <= n -> o + n <= zlen bytes -> safe (subspan bytes o n) (fun l => l = slice bytes o n).
Proof. intros. by rewrite (proj2 (subspan_Ok bytes o n (slice bytes o n))). Qed.

Lemma safe_range bytes o n label :
  0 <= o -> 0 <= n -> safe (range bytes o n label) (fun l => o + n <= zlen bytes /\ l = slice bytes o n).
Proof.
  intros Ho Hn. unfold range. eapply safe_bind; [apply safe_checked_add|]. intros z ->.
  eapply safe_bind; [apply safe_guard|]. intros u Hu. apply Z.ltb_ge in Hu.
  eapply safe_bind; [apply safe_narrow|]. intros a ->. eapply safe_bind; [apply safe_narrow|]. intros b ->.
  eapply safe_weaken; [by apply safe_subspan|]. done.
Qed.

Lemma safe_read_field w t bytes o :
  0 <= o -> 0 <= w -> safe (read_field w t bytes o) (fun l => o + w <= zlen bytes /\ l = slice bytes o w).
Proof.
  intros Ho Hw. unfold read_field. eapply safe_bind; [apply safe_guard|]. intros u Hu.
  apply orb_false_iff in Hu as [H1 H2]. bools. eapply safe_weaken; [apply safe_subspan; lia|].
  intros l ->. split; [lia|done].
Qed.

Lemma or_bytes_nonneg l : Forall is_byte l -> 0 <= or_bytes l.
Proof. intros Hl. rewrite or_bytes_value by done. by apply le_value_range. Qed.

Section reads.
  Context (bytes : list Z) (o : Z) (Hb : Forall is_byte bytes) (Ho : 0 <= o).

Lemma safe_read_u16 : safe (read_u16 bytes o) (fun v => 0 <= v).
Proof.
    apply safe_fmap. eapply safe_weaken; [by apply safe_read_field|].
    intros l [_ ->]. by apply or_bytes_nonneg, slice_bytes.
  Qed.
Lemma safe_read_u32 : safe (read_u32 bytes o) (fun v => 0 <= v).
Proof.
    apply safe_fmap. eapply safe_weaken; [by apply safe_read_field|].
    intros l [_ ->]. by apply or_bytes_nonneg, slice_bytes.
  Qed.
Lemma safe_read_u64 : safe (read_u64 bytes o) (fun v => 0 <= v).
Proof.
    apply safe_fmap. eapply safe_weaken; [by apply safe_read_field|].
    intros l [_ ->]. by apply or_bytes_nonneg, slice_bytes.
  Qed.
Lemma safe_read_s16 : safe (read_s16 bytes o) (fun _ => True).
Proof. apply safe_fmap. eapply safe_weaken; [apply safe_read_u16|done]. Qed.
Lemma safe_read_s32 : safe (read_s32 bytes o) (fun _ => True).
Proof. apply safe_fmap. eapply safe_weaken; [apply safe_read_u32|done]. Qed.
Lemma safe_read_s64 : safe (read_s64 bytes o) (fun _ => True).
Proof. apply safe_fmap. eapply safe_weaken; [apply safe_read_u64|done]. Qed.
Lemma safe_read_array size : 0 <= size -> safe (read_array size bytes o) (fun _ => True).
Proof. intros Hs. eapply safe_weaken; [by apply safe_read_field|done]. Qed.
End reads.

(** [safe_run] runs a chain of checked steps; [safe_prim] knows the primitive ones. *)
Ltac safe_prim :=
  first
  [ apply safe_guard
  | apply safe_read_u16; [done|lia] | apply safe_read_u32; [done|lia] | apply safe_read_u64; [done|lia]
  | apply safe_read_s16; [done|lia] | apply safe_read_s32; [done|lia] | apply safe_read_s64; [done|lia]
  | apply safe_read_array; [lia..]
  | apply safe_checked_add | apply safe_checked_multiply | apply safe_narrow
  | apply safe_align; lia ].

Ltac safe_run :=
  repeat (eapply safe_bind; [safe_prim|let a := fresh "v" in let H := fresh "V" in intros a H; cbn beta in H]).

Lemma safe_read_string record offset blob label :
  Forall is_byte record -> Forall is_byte blob -> 0 <= offset -> safe (read_string record offset blob label) (fun _ => True).
Proof.
  intros Hr Hb Ho. unfold read_string. safe_run.
  eapply safe_bind; [by apply safe_range|]. intros text _. destruct text; [done|]. safe_run. done.
Qed.

Lemma safe_record_loop {S} (turn : S -> nat -> result S) (I : nat -> S -> Prop) n : forall first state,
  I first state ->
  (forall i st, (first <= i < first + n)%nat -> I i st -> safe (turn st i) (I (Datatypes.S i))) ->
  safe (record_loop turn state (seq first n)) (I (first + n)%nat).
Proof.
  induction n as [|n IH]; intros first state H0 Ht; simpl; [by rewrite Nat.add_0_r|].
  eapply safe_bind; [apply Ht; [lia|done]|]. intros st Hst. rewrite <- Nat.add_succ_comm.
  apply IH; [done|]. intros i st' Hi. apply Ht. lia.
Qed.

(** ** Sections *)

(** A section the directory loop may hand on. *)
Definition section_ok (section : MncwfV4SectionInfo) : Prop :=
  Forall is_byte (sec_data section) /\ 0 <= sec_item_count section /\ 0 <= sec_item_bytes section.

Lemma safe_envelope section expected minimum maximum allow :
  section_ok section ->
  safe (parse_section_envelope section expected minimum maximum allow)
    (fun p => Forall is_byte (records p) /\ Forall is_byte (blob p) /\ sec_item_bytes section = expected /\
              zlen (records p) = sec_item_count section * sec_item_bytes section).
Proof.
  intros (Hb & Hc & Hi). unfold parse_section_envelope. unfold mncwf_v4_section_header_bytes.
  do 2 (eapply safe_bind; [safe_prim|intros ? _]).
  eapply safe_bind; [safe_prim|]. intros ? Hg. apply orb_false_iff in Hg as [Hg _].
  apply orb_false_iff in Hg as [Hg _]. apply negb_false_iff, Z.eqb_eq in Hg.
  do 9 (eapply safe_bind; [safe_prim|intros ? _]).
  eapply safe_bind; [safe_prim|]. intros rb ->. eapply safe_bind; [safe_prim|]. intros re ->.
  eapply safe_bind; [safe_prim|]. intros bo Hbo. eapply safe_bind; [safe_prim|]. intros bs Hbs.
  cbn beta in Hbo, Hbs.
  assert (0 <= sec_item_count section * sec_item_bytes section) as Hm by nia.
  eapply safe_bind with (P := fun _ => bs <> 0 -> 48 + sec_item_count section * sec_item_bytes section <= bo).
  { destruct (Z.eqb_spec bs 0) as [|Hne]; [eapply safe_weaken; [apply safe_guard|done]|].
    eapply safe_bind; [safe_prim|]. intros ? _. eapply safe_bind; [apply safe_align; lia|]. intros al ->.
    eapply safe_bind; [safe_prim|]. intros ? Ha. apply negb_false_iff, Z.eqb_eq in Ha. subst bo.
    pose proof (align8_bounds (48 + sec_item_count section * sec_item_bytes section)).
    do 2 (eapply safe_bind; [safe_prim|intros ? _]).
    eapply safe_bind; [apply safe_range; lia|]. intros ? _. eapply safe_weaken; [safe_prim|]. intros. lia. }
  intros ? Hbo2. eapply safe_bind; [apply safe_range; lia|]. intros rs [Hl ->].
  eapply safe_bind with (P := Forall is_byte).
  { destruct (bs =? 0); [constructor|]. eapply safe_weaken; [apply safe_range; lia|].
    intros l [_ ->]. by apply slice_bytes. }
  intros bl Hbl. cbn [safe records blob]. split_and!; [by apply slice_bytes|done|done|apply zlen_slice; lia].
Qed.

(** Record [index] of a table of [count] records. *)
Lemma safe_record_at records index size count label :
  Forall is_byte records -> 0 <= size -> zlen records = count * size -> (Z.of_nat index < count) ->
  safe (record_at records index size label) (fun r => Forall is_byte r /\ zlen r = size).
Proof.
  intros Hb Hs Hz Hi. unfold record_at. eapply safe_bind; [safe_prim|]. intros o ->.
  eapply safe_weaken; [apply safe_subspan; nia|]. intros l ->. split; [by apply slice_bytes|].
  apply zlen_slice; nia.
Qed.

Lemma safe_capture section :
  Forall is_byte (records section) -> Forall is_byte (blob section) ->
  safe (parse_capture_metadata section) (fun _ => True).
Proof.
  intros Hr Hb. unfold parse_capture_metadata. cbv zeta. safe_run.
  do 12 (eapply safe_bind; [apply safe_read_string; [done|done|lia]|intros ? _]). safe_run. done.
Qed.

Lemma safe_reduced n d : safe (reduced n d) (fun _ => True).
Proof. unfold reduced. safe_run. done. Qed.

(** ** Timebase *)

(** A segment of the reader: at least one frame, each frame but the last carrying
    [divisor] source samples. *)
Definition segment_valid (s : MncwfV4TimebaseSegment) : Prop :=
  0 < seg_frame_count s /\ 0 < seg_decimation_divisor s <= 65536 /\ 0 <= seg_first_sequence s /\
  (seg_frame_count s - 1) * seg_decimation_divisor s < seg_source_frame_count s <=
    seg_frame_count s * seg_decimation_divisor s /\
  seg_first_sequence s + seg_source_frame_count s <= UINT64_MAX.

(** Segments that store the frames from [frame] to [last] in order, their sequences
    increasing from [sequence] to [next]. *)
Fixpoint timebase_spans (frame sequence : Z) (segments : list MncwfV4TimebaseSegment) (last next : Z) : Prop :=
  match segments with
  | [] => frame = last /\ sequence = next
  | s :: segments =>
      segment_valid s /\ seg_first_frame s = frame /\ sequence <= seg_first_sequence s /\
      frame + seg_frame_count s <= UINT64_MAX /\
      timebase_spans (frame + seg_frame_count s) (seg_first_sequence s + seg_source_frame_count s) segments last next
  end.

Lemma timebase_spans_app segments : forall more frame sequence middle between last next,
  timebase_spans frame sequence segments middle between -> timebase_spans middle between more last next ->
  timebase_spans frame sequence (segments ++ more) last next.
Proof.
  induction segments as [|s segments IH]; intros more frame sequence middle between last next H H'; cbn [timebase_spans app] in *.
  - by destruct H as [-> ->].
  - destruct H as (? & ? & ? & ? & H). split_and!; try done. by eapply IH.
Qed.

Definition timebase_state_ok (st : TimebaseState) : Prop :=
  0 <= ts_expected_first_frame st /\
  timebase_spans 0 0 (ts_segments st) (ts_expected_first_frame st) (default 0 (ts_expected_next_sequence st)).

Lemma safe_check_decimation s :
  0 < seg_frame_count s -> 0 < seg_decimation_divisor s ->
  safe (check_decimation s) (fun _ => (seg_frame_count s - 1) * seg_decimation_divisor s < seg_source_frame_count s <=
                                      seg_frame_count s * seg_decimation_divisor s).
Proof.
  intros Hc Hd. unfold check_decimation. destruct (seg_decimation_method s).
  - eapply safe_weaken; [safe_prim|]. intros ? Hg. cbn beta in Hg. bools. nia.
  - eapply safe_bind; [safe_prim|]. intros ? _. eapply safe_bind; [safe_prim|]. intros ? ->.
    eapply safe_bind; [safe_prim|]. intros ? ->. eapply safe_bind; [safe_prim|]. intros ? ->.
    eapply safe_weaken; [safe_prim|]. intros ? Hg. cbn beta in Hg. bools. lia.
Qed.

Lemma safe_timebase_turn section count st i :
  Forall is_byte (records section) -> zlen (records section) = count * mncwf_v4_timebase_segment_bytes ->
  Z.of_nat i < count -> timebase_state_ok st -> safe (timebase_turn section st i) timebase_state_ok.
Proof.
  intros Hr Hz Hi [Hst0 Hst]. unfold timebase_turn.
  eapply safe_bind; [apply (safe_record_at _ _ _ count); done|]. intros record [Hb _].
  eapply safe_bind with (P := fun p => let s := p.1 in 0 <= seg_frame_count s /\ 0 <= seg_decimation_divisor s /\ 0 <= seg_first_sequence s).
  { unfold read_timebase_record. safe_run. simpl. lia. }
  intros [segment raw] (N1 & N2 & N3). cbn [fst] in *. eapply safe_bind; [safe_prim|]. intros ? Hg. cbn beta in Hg.
  unfold timebase_invalid in Hg. destruct raw as [[method clock] quality].
  repeat match goal with G : _ || _ = false |- _ => apply orb_false_iff in G as [G ?] end. bools.
  eapply safe_bind; [apply safe_check_decimation; lia|]. intros ? Hdec. cbn beta in Hdec.
  eapply safe_bind with (P := fun _ => True).
  { unfold rate_matches_decimation. safe_run. do 2 (eapply safe_bind; [apply safe_reduced|intros ? _]). done. }
  intros ? _. do 2 (eapply safe_bind; [safe_prim|intros ? _]).
  eapply safe_bind with (P := fun _ => default 0 (ts_expected_next_sequence st) <= seg_first_sequence segment).
  { destruct (ts_expected_next_sequence st); [|done]. eapply safe_weaken; [safe_prim|]. intros ? Hq. cbn beta in Hq.
    destruct (any_bit _ mncwf_time_sequence_gap_before); bools; simpl; lia. }
  intros ? Hq. cbn beta in Hq. eapply safe_bind with (P := fun _ => True).
  { destruct (list.last _); [|done]. unfold check_rate_change.
    do 4 (eapply safe_bind; [apply safe_reduced|intros ? _]). eapply safe_weaken; [safe_prim|done]. }
  intros ? _. eapply safe_bind; [apply safe_checked_add_bound|]. intros ? [-> Hn].
  eapply safe_bind; [apply safe_checked_add_bound|]. intros ? [-> Hf]. cbn [safe].
  split; [cbn; nia|]. eapply timebase_spans_app; [exact Hst|]. cbn [timebase_spans].
  unfold segment_valid. split_and!; try done; cbn; nia.
Qed.

Lemma safe_timebase section count :
  Forall is_byte (records section) -> zlen (records section) = count * mncwf_v4_timebase_segment_bytes ->
  safe (parse_timebase section count) timebase_state_ok.
Proof.
  intros Hr Hz. unfold parse_timebase. apply (safe_record_loop _ (fun _ => timebase_state_ok)).
  - split; [done|]. by split.
  - intros i st Hi Hst. apply (safe_timebase_turn _ count); try done. lia.
Qed.

(** ** Tables *)

Lemma safe_channels section count :
  Forall is_byte (records section) -> Forall is_byte (blob section) ->
  zlen (records section) = count * mncwf_v4_channel_definition_bytes ->
  safe (parse_channels section count) (fun _ => True).
Proof.
  intros Hr Hbl Hz. unfold parse_channels.
  eapply safe_weaken; [apply (safe_record_loop _ (fun _ _ => True)); [done|]|done].
  intros i st Hi _. unfold channel_turn.
  eapply safe_bind; [apply (safe_record_at _ _ _ count); [done|done|done|lia]|]. intros record [Hb Hl].
  eapply safe_bind with (P := fun _ => True).
  { unfold read_channel_record. safe_run. do 3 (eapply safe_bind; [apply safe_read_string; [done|done|lia]|intros ? _]).
    safe_run. done. }
  intros [channel raw] _. eapply safe_bind; [apply safe_subspan; rewrite ?Hl; done|]. intros ? _.
  eapply safe_bind; [safe_prim|]. intros ? _.
  eapply safe_bind with (P := fun _ => True).
  { unfold check_channel_scaling. cbv zeta. safe_run. eapply safe_weaken; [safe_prim|done]. }
  intros ? _. safe_run. done.
Qed.

(** An event ends no earlier than it starts. *)
Definition event_ordered (e : MncwfV4EventDescriptor) : Prop := ev_start_sequence e <= event_last_sequence e.

Lemma safe_event_anchors event : safe (check_event_anchors event) (fun _ => event_ordered event).
Proof.
  unfold check_event_anchors. cbv zeta. eapply safe_bind; [safe_prim|]. intros ? Hc. cbn beta in Hc.
  eapply safe_bind; [safe_prim|]. intros ? He. cbn beta in He. safe_run. eapply safe_weaken; [safe_prim|]. intros ? _.
  unfold event_ordered, event_last_sequence.
  destruct (any_bit (ev_flags event) mncwf_event_end_valid).
  - cbn [andb] in He. apply orb_false_iff in He as [He _]. by apply Z.ltb_ge.
  - destruct (any_bit (ev_flags event) mncwf_event_current_valid); [|done]. cbn [andb] in Hc. by apply Z.ltb_ge.
Qed.

Lemma safe_events section count :
  Forall is_byte (records section) -> Forall is_byte (blob section) ->
  zlen (records section) = count * mncwf_v4_event_descriptor_bytes ->
  safe (parse_events section count) (Forall event_ordered).
Proof.
  intros Hr Hbl Hz. unfold parse_events. apply (safe_record_loop _ (fun _ => Forall event_ordered)); [constructor|].
  intros i st Hi Hst. unfold event_turn.
  eapply safe_bind; [apply (safe_record_at _ _ _ count); [done|done|done|lia]|]. intros record [Hb Hl].
  eapply safe_bind with (P := fun _ => True).
  { unfold read_event_record. safe_run. do 3 (eapply safe_bind; [apply safe_read_string; [done|done|lia]|intros ? _]).
    safe_run. done. }
  intros [[event raw] reserved] _. eapply safe_bind; [safe_prim|]. intros ? _.
  eapply safe_bind; [apply safe_event_anchors|]. intros ? Ho. cbn [safe]. apply Forall_app. split; [done|]. by constructor.
Qed.

Lemma safe_quality section count :
  Forall is_byte (records section) -> zlen (records section) = count * mncwf_v4_quality_interval_bytes ->
  safe (parse_quality section count) (fun _ => True).
Proof.
  intros Hr Hz. unfold parse_quality.
  eapply safe_weaken; [apply (safe_record_loop _ (fun _ _ => True)); [done|]|done].
  intros i st Hi _. unfold quality_turn.
  eapply safe_bind; [apply (safe_record_at _ _ _ count); [done|done|done|lia]|]. intros record [Hb _].
  eapply safe_bind with (P := fun _ => True).
  { unfold read_quality_record. safe_run. done. }
  intros [quality [ra rb]] _. safe_run. done.
Qed.

Lemma safe_lineage section count :
  Forall is_byte (records section) -> zlen (records section) = count * mncwf_v4_lineage_entry_bytes ->
  safe (parse_lineage section count) (fun _ => True).
Proof.
  intros Hr Hz. unfold parse_lineage.
  eapply safe_weaken; [apply (safe_record_loop _ (fun _ _ => True)); [done|]|done].
  intros i st Hi _. unfold lineage_turn.
  eapply safe_bind; [apply (safe_record_at _ _ _ count); [done|done|done|lia]|]. intros record [Hb _].
  eapply safe_bind with (P := fun _ => True).
  { unfold read_lineage_record. safe_run. done. }
  intros [lineage [ra rb]] _. safe_run. done.
Qed.

(** ** Samples *)

Lemma safe_require_zstd {A} (m : string + A) operation : safe (require_zstd m operation) (fun _ => True).
Proof. destruct m; simpl; [by eexists|done]. Qed.

Lemma safe_set_parameter `{ZstdLibrary} p operation : safe (set_zstd_parameter p operation) (fun _ => True).
Proof. unfold set_zstd_parameter. destruct (zstd_set_parameter p); [apply safe_reject|done]. Qed.

Lemma safe_zstd_frame `{ZstdLibrary} frame expected :
  Forall is_byte frame -> safe (validate_v5_zstd_frame frame expected) (fun _ => True).
Proof.
  intros Hb. unfold validate_v5_zstd_frame. do 3 (eapply safe_bind; [safe_prim|intros ? _]). cbv zeta.
  eapply safe_bind; [safe_prim|]. intros ? _.
  eapply safe_bind with (P := fun p => 0 <= p.1).
  { destruct (negb _); [|simpl; lia]. eapply safe_bind; [safe_prim|]. intros ? _. simpl. lia. }
  intros [cursor window] Hc. cbn [fst] in Hc. set (size := if _ =? 0 then _ else _).
  assert (0 <= size) as Hs.
  { subst size. destruct (_ =? 0); [by destruct (any_bit _ _)|]. by apply Z.shiftl_nonneg. }
  eapply safe_bind; [safe_prim|]. intros ? Hg. apply orb_false_iff in Hg as [Hg Hg2]. bools.
  eapply safe_bind; [apply safe_subspan; lia|]. intros field _.
  do 2 (eapply safe_bind; [safe_prim|intros ? _]).
  eapply safe_bind; [apply safe_require_zstd|]. intros ? _. eapply safe_weaken; [safe_prim|done].
Qed.

(** What the chunk table promises to the expansion: extents inside the section and
    inside the [total] frames of the output. *)
Definition chunk_ok (section : list Z) (item_bytes total : Z) (c : MncwfV5ChunkInfo) : Prop :=
  0 <= chunk_stored_offset c /\ 0 <= chunk_stored_bytes c /\
  chunk_stored_offset c + chunk_stored_bytes c <= zlen section /\
  0 <= chunk_first_frame c /\ 0 <= chunk_frame_count c /\ chunk_first_frame c + chunk_frame_count c <= total /\
  chunk_logical_bytes c = chunk_frame_count c * item_bytes /\
  (chunk_codec c = codec_raw -> chunk_stored_bytes c = chunk_logical_bytes c).

(** Chunks that store the frames from [frame] to [last] in order. *)
Fixpoint chunks_span (item_bytes frame last : Z) (chunks : list MncwfV5ChunkInfo) : Prop :=
  match chunks with
  | [] => frame = last
  | c :: chunks =>
      chunk_first_frame c = frame /\ 0 < chunk_frame_count c /\
      chunk_logical_bytes c = chunk_frame_count c * item_bytes /\
      chunks_span item_bytes (frame + chunk_frame_count c) last chunks
  end.

Lemma chunks_span_app item_bytes chunks : forall more frame middle last,
  chunks_span item_bytes frame middle chunks -> chunks_span item_bytes middle last more ->
  chunks_span item_bytes frame last (chunks ++ more).
Proof.
  induction chunks as [|c chunks IH]; intros more frame middle last H H'; cbn [chunks_span app] in *; [by subst|].
  destruct H as (? & ? & ? & H). split_and!; try done. by eapply IH.
Qed.

Lemma chunks_span_le item_bytes chunks : forall frame last, chunks_span item_bytes frame last chunks -> frame <= last.
Proof.
  induction chunks as [|c chunks IH]; intros frame last H; cbn [chunks_span] in H; [lia|].
  destruct H as (_ & ? & _ & H). apply IH in H. lia.
Qed.

Definition chunk_state_ok (section : list Z) (item_bytes : Z) (st : ChunkState) : Prop :=
  0 <= ks_expected_first_frame st /\ 0 <= ks_expected_stored_offset st /\
  chunks_span item_bytes 0 (ks_expected_first_frame st) (ks_chunks st) /\
  Forall (chunk_ok section item_bytes (ks_expected_first_frame st)) (ks_chunks st).

Lemma codec_cast_raw codec flags stored logical :
  codec_geometry_invalid codec flags stored logical = false -> (codec_value codec_zstd <? codec) = false -> 0 <= codec ->
  codec_cast codec = codec_raw -> stored = logical.
Proof.
  unfold codec_geometry_invalid. intros Hg Hc H0 Hr.
  destruct (Z.eqb_spec codec (codec_value codec_raw)) as [->|Hne]; [by bools|].
  exfalso. apply Hne. simpl in *. bools. assert (codec = 1) as -> by lia. discriminate Hr.
Qed.

Lemma safe_chunk_turn `{ZstdLibrary} section item_bytes st k :
  Forall is_byte section -> 0 <= item_bytes -> chunk_state_ok section item_bytes st ->
  safe (chunk_turn section item_bytes st k) (chunk_state_ok section item_bytes).
Proof.
  intros Hb Hi (S1 & S2 & S4 & S3). unfold chunk_turn.
  eapply safe_bind; [safe_prim|]. intros ? ->. eapply safe_bind; [safe_prim|]. intros ? ->.
  eapply safe_bind; [safe_prim|]. intros ? ->.
  unfold mncwf_v4_section_header_bytes, mncwf_v5_chunk_entry_bytes.
  eapply safe_bind; [safe_prim|]. intros first Hf. eapply safe_bind; [safe_prim|]. intros count Hc.
  eapply safe_bind; [safe_prim|]. intros offset Ho. eapply safe_bind; [safe_prim|]. intros stored Hs.
  eapply safe_bind; [safe_prim|]. intros logical Hl. eapply safe_bind; [safe_prim|]. intros codec Hcd.
  eapply safe_bind; [safe_prim|]. intros flags _. eapply safe_bind; [safe_prim|]. intros crc _.
  eapply safe_bind; [safe_prim|]. intros reserved _. eapply safe_bind; [safe_prim|]. intros el ->.
  eapply safe_bind; [safe_prim|]. intros ? Hg. cbn beta in *.
  repeat match goal with G : _ || _ = false |- _ => apply orb_false_iff in G as [G ?] end. bools.
  eapply safe_bind; [by apply safe_range|]. intros ? [Hend ->]. cbv zeta.
  eapply safe_bind with (P := fun _ => True).
  { case_bool_decide; [|done]. by apply safe_zstd_frame, slice_bytes. }
  intros ? _. eapply safe_bind; [safe_prim|]. intros nf ->. eapply safe_bind; [safe_prim|]. intros se ->.
  eapply safe_bind; [safe_prim|]. intros no ->. eapply safe_bind; [safe_prim|]. intros ? _.
  pose proof (align8_bounds (offset + stored)).
  eapply safe_bind with (P := fun _ => True).
  { destruct (negb _); [|done]. eapply safe_bind; [apply safe_range; lia|]. intros ? _. eapply safe_weaken; [safe_prim|done]. }
  intros ? _. cbn [safe]. unfold chunk_state_ok. cbn [ks_expected_first_frame ks_expected_stored_offset ks_chunks].
  split_and!; [lia|lia|eapply chunks_span_app; [exact S4|]; cbn; split_and!; [done|lia|done|done]|].
  apply Forall_app. split.
  - eapply List.Forall_impl; [|exact S3]. intros c (? & ? & ? & ? & ? & ? & ? & ?). unfold chunk_ok. split_and!; try done; lia.
  - constructor; [|constructor]. unfold chunk_ok.
    cbn [chunk_stored_offset chunk_stored_bytes chunk_first_frame chunk_frame_count chunk_logical_bytes chunk_codec].
    split_and!; [lia|lia|lia|lia|lia|lia|done|]. intros Hr. eapply codec_cast_raw; [eassumption|by apply Z.ltb_ge|done|done].
Qed.

Lemma safe_v5_chunks `{ZstdLibrary} info :
  section_ok info ->
  safe (parse_v5_chunks info) (fun chunks =>
    chunks_span (sec_item_bytes info) 0 (sec_item_count info) chunks /\
    Forall (chunk_ok (sec_data info) (sec_item_bytes info) (sec_item_count info)) chunks).
Proof.
  intros (Hb & Hc & Hi). unfold parse_v5_chunks. cbv zeta. unfold mncwf_v4_section_header_bytes.
  do 11 (eapply safe_bind; [safe_prim|intros ? _]).
  eapply safe_bind; [safe_prim|]. intros tb Htb. cbn beta in Htb.
  do 2 (eapply safe_bind; [safe_prim|intros ? _]). eapply safe_bind; [safe_prim|]. intros te ->.
  eapply safe_bind; [apply safe_range; lia|]. intros ? _. eapply safe_bind; [safe_prim|]. intros fo ->.
  pose proof (align8_bounds (48 + tb)).
  eapply safe_bind; [apply (safe_record_loop _ (fun _ => chunk_state_ok (sec_data info) (sec_item_bytes info)))|].
  - unfold chunk_state_ok. cbn. split_and!; [lia|lia|done|constructor].
  - intros i st _ Hst. by apply safe_chunk_turn.
  - intros st (S1 & S2 & S4 & S3). eapply safe_bind; [safe_prim|]. intros ? Hg.
    apply orb_false_iff in Hg as [Hg _]. apply negb_false_iff, Z.eqb_eq in Hg. cbn [safe]. by rewrite <- Hg.
Qed.

Lemma safe_expand_chunk `{ZstdLibrary} section item_bytes total c :
  chunk_ok section item_bytes total c ->
  safe (expand_chunk (slice section (chunk_stored_offset c) (chunk_stored_bytes c)) c)
    (fun l => zlen l = chunk_logical_bytes c).
Proof.
  intros (H1 & H2 & H3 & _ & _ & _ & _ & Hraw). unfold expand_chunk.
  eapply safe_bind with (P := fun l => zlen l = chunk_logical_bytes c).
  - destruct (chunk_codec c); [cbn [safe]; rewrite zlen_slice by lia; by apply Hraw|].
    eapply safe_bind; [safe_prim|]. intros ? _. eapply safe_bind; [apply safe_require_zstd|]. intros produced _.
    eapply safe_bind; [safe_prim|]. intros ? Hg. by apply negb_false_iff, Z.eqb_eq in Hg.
  - intros l Hl. eapply safe_bind; [safe_prim|]. intros ? _. done.
Qed.

(** The frames of [c] in [data] are what its stored bytes expand to. *)
Definition chunk_expanded `{ZstdLibrary} (section : list Z) (item_bytes : Z) (data : list Z) (c : MncwfV5ChunkInfo) : Prop :=
  expand_chunk (slice section (chunk_stored_offset c) (chunk_stored_bytes c)) c =
    Ok (slice data (chunk_first_frame c * item_bytes) (chunk_frame_count c * item_bytes)).

Lemma slice_prefix a b o n m : take (Z.to_nat m) a = take (Z.to_nat m) b -> 0 <= o -> 0 <= n -> o + n <= m -> slice a o n = slice b o n.
Proof.
  intros E Ho Hn Hl. unfold slice.
  rewrite !take_drop_commute.
  assert (forall l : list Z, take (Z.to_nat o + Z.to_nat n) l = take (Z.to_nat o + Z.to_nat n) (take (Z.to_nat m) l)) as Ht.
  { intros l. rewrite take_take. f_equal. lia. }
  by rewrite (Ht a), (Ht b), E.
Qed.

Lemma safe_expand_chunks `{ZstdLibrary} section item_bytes total chunks : forall first output,
  0 < item_bytes -> 0 <= first -> zlen output = total * item_bytes -> chunks_span item_bytes first total chunks ->
  Forall (chunk_ok section item_bytes total) chunks ->
  safe (expand_chunks section item_bytes output chunks) (fun out => zlen out = zlen output /\
    take (Z.to_nat (first * item_bytes)) out = take (Z.to_nat (first * item_bytes)) output /\
    Forall (chunk_expanded section item_bytes out) chunks).
Proof.
  induction chunks as [|c chunks IH]; intros first output Hi H0 Hz Hs Hf; [split_and!; [done|done|constructor]|].
  apply Forall_cons_iff in Hf as [Hc Hf]. pose proof Hc as (H1 & H2 & H3 & H4 & H5 & H6 & H7 & _).
  cbn [chunks_span] in Hs. destruct Hs as (E1 & E2 & E3 & Hs). subst first.
  assert (0 <= chunk_first_frame c * item_bytes) as P1 by nia. assert (0 <= chunk_logical_bytes c) as P2 by nia.
  assert (chunk_first_frame c * item_bytes + chunk_logical_bytes c <= zlen output) as P3 by (rewrite Hz, H7; nia).
  cbn [expand_chunks]. eapply safe_bind; [by apply safe_range|]. intros ? [_ ->].
  eapply safe_bind; [safe_prim|]. intros ? ->. eapply safe_bind; [safe_prim|]. intros ? ->.
  eapply safe_bind; [safe_prim|]. intros ? ->.
  eapply safe_bind; [by apply safe_subspan|]. intros ? _.
  pose proof (safe_expand_chunk section item_bytes total c Hc) as Hex.
  destruct (expand_chunk _ c) as [l|] eqn:El; [|exact Hex]. cbn [safe] in Hex. cbn [mbind result_bind].
  rewrite copy_into_ok by lia. cbn [mbind result_bind].
  eapply safe_weaken; [eapply (IH (chunk_first_frame c + chunk_frame_count c)); [done|lia| |exact Hs|done]|].
  { rewrite zlen_splice by lia. done. }
  intros out (Z1 & Z2 & Z3). rewrite zlen_splice in Z1 by lia.
  replace ((chunk_first_frame c + chunk_frame_count c) * item_bytes)
    with (chunk_first_frame c * item_bytes + zlen l) in Z2 by lia.
  rewrite take_splice in Z2 by lia. split_and!; [done| |constructor; [|done]].
  - transitivity (take (Z.to_nat (chunk_first_frame c * item_bytes))
      (take (Z.to_nat (chunk_first_frame c * item_bytes + zlen l)) out)).
    + rewrite take_take. f_equal. pose proof (zlen_nonneg l). lia.
    + rewrite Z2. apply take_app_length'. rewrite length_take. unfold zlen in *. lia.
  - unfold chunk_expanded. rewrite El. f_equal.
    rewrite (slice_prefix out (take (Z.to_nat (chunk_first_frame c * item_bytes)) output ++ l) _ _
               (chunk_first_frame c * item_bytes + zlen l)); [|rewrite Z2; symmetry; apply take_ge|lia|lia|lia].
    + unfold slice. rewrite drop_app_length'; [|rewrite length_take; unfold zlen in *; lia].
      rewrite take_ge; [done|]. unfold zlen in *. lia.
    + rewrite length_app, length_take. unfold zlen in *. lia.
Qed.

(** What the sample section of an accepted file holds. *)
Definition samples_ok `{ZstdLibrary} (mode : MncwfValidationMode) (version : Z) (info : MncwfV4SectionInfo)
    (chunks : list MncwfV5ChunkInfo) (data : list Z) : Prop :=
  mode = mode_complete ->
  zlen data = sec_item_count info * sec_item_bytes info /\
  (version <> mncwf_v4_version ->
     chunks_span (sec_item_bytes info) 0 (sec_item_count info) chunks /\
     Forall (chunk_expanded (sec_data info) (sec_item_bytes info) data) chunks).

Lemma safe_samples `{ZstdLibrary} mode version info :
  section_ok info -> 0 < sec_item_bytes info ->
  (version <> mncwf_v4_version -> sec_logical_bytes info = sec_item_count info * sec_item_bytes info) ->
  safe (parse_samples mode version info) (fun p => samples_ok mode version info p.1 p.2).
Proof.
  intros Hok Hpos Hlog. unfold parse_samples. destruct (Z.eqb_spec version mncwf_v4_version) as [Hv|Hne].
  - eapply safe_bind; [by apply safe_envelope|]. intros p (_ & _ & _ & Hl). intros ->.
    cbn. split; [done|]. by intros.
  - eapply safe_bind; [by apply safe_v5_chunks|]. intros chunks [Hsp Hch].
    eapply safe_bind with (P := fun data => samples_ok mode version info chunks data); [|by intros].
    case_bool_decide as Hm; [|by intros ->]. subst mode.
    unfold materialize_v5. eapply safe_bind; [safe_prim|]. intros ? ->.
    eapply safe_bind; [safe_prim|]. intros ? _. eapply safe_bind; [apply safe_set_parameter|]. intros ? _.
    destruct Hok as (_ & Hc & Hi).
    assert (zlen (replicate (Z.to_nat (sec_logical_bytes info)) 0) = sec_item_count info * sec_item_bytes info) as Ez.
    { rewrite zlen_replicate; [by apply Hlog|]. rewrite Hlog by done. nia. }
    eapply safe_weaken; [apply (safe_expand_chunks _ _ (sec_item_count info) _ 0); done|].
    intros out (Z1 & _ & Z3) _. split; [lia|]. by intros.
Qed.

(** ** The directory and the whole file *)

Lemma safe_read_header bytes :
  Forall is_byte bytes ->
  safe (read_header bytes) (fun p => 0 <= hdr_directory_offset p.1.1 /\ 0 <= hdr_directory_bytes p.1.1).
Proof. intros Hb. unfold read_header. safe_run. simpl. lia. Qed.

(** Every listed section is inside the file, and the sample section of a version 5
    file declares the size its frames have. *)
Definition directory_ok (version : Z) (section : MncwfV4SectionInfo) : Prop :=
  section_ok section /\ 0 <= sec_offset section /\ 0 <= sec_stored_bytes section /\
  (version <> mncwf_v4_version -> sec_type section = section_value section_sample_data ->
   sec_logical_bytes section = sec_item_count section * sec_item_bytes section).

Lemma safe_logical_size version section :
  safe (valid_logical_size version section)
    (fun b => b = true -> version <> mncwf_v4_version -> sec_type section = section_value section_sample_data ->
              sec_logical_bytes section = sec_item_count section * sec_item_bytes section).
Proof.
  unfold valid_logical_size. destruct (Z.eqb_spec version mncwf_v4_version) as [|Hv]; [by intros ? ?|].
  destruct (Z.eqb_spec (sec_type section) (section_value section_sample_data)) as [|Ht]; simpl.
  - eapply safe_bind; [safe_prim|]. intros ? ->. intros Hb _ _. by apply Z.eqb_eq in Hb.
  - by intros.
Qed.

Lemma safe_directory_turn bytes directory version st i :
  Forall is_byte bytes -> Forall is_byte directory -> Forall (directory_ok version) (ds_sections st) ->
  safe (directory_turn bytes directory version st i) (fun st => Forall (directory_ok version) (ds_sections st)).
Proof.
  intros Hb Hd Hst. unfold directory_turn.
  eapply safe_bind with (P := fun p => let s := p.1 in
    0 <= sec_item_count s /\ 0 <= sec_item_bytes s /\ 0 <= sec_offset s /\ 0 <= sec_stored_bytes s).
  { unfold read_directory_entry, mncwf_v4_directory_entry_bytes. cbv zeta. safe_run. simpl. lia. }
  intros [section reserved] (S1 & S2 & S3 & S4). cbn [fst] in *. eapply safe_bind; [safe_prim|]. intros ? _. cbv zeta.
  eapply safe_bind; [apply safe_logical_size|]. intros b Hl.
  eapply safe_bind; [safe_prim|]. intros ? Hg. cbn beta in Hg, Hl.
  repeat match goal with G : _ || _ = false |- _ => apply orb_false_iff in G as [G ?] end.
  assert (b = true) as ->. { match goal with G : negb b = false |- _ => by apply negb_false_iff in G end. }
  eapply safe_bind; [safe_prim|]. intros ? _.
  eapply safe_bind with (P := fun _ => True).
  { destruct (known_section _); [|done]. safe_run. done. }
  intros present _. eapply safe_bind; [by apply safe_range|]. intros data [_ ->].
  cbn [safe ds_sections]. apply Forall_app. split; [done|]. constructor; [|constructor].
  split_and!; [|done|done|intros; by apply Hl]. split_and!; [by apply slice_bytes|done|done].
Qed.

Lemma safe_read_directory bytes directory header :
  Forall is_byte bytes -> Forall is_byte directory ->
  safe (read_directory bytes directory header) (Forall (directory_ok (hdr_version header))).
Proof.
  intros Hb Hd. unfold read_directory.
  eapply safe_bind; [apply (safe_record_loop _ (fun _ st => Forall (directory_ok (hdr_version header)) (ds_sections st)))|].
  - constructor.
  - intros i st _ Hst. by apply safe_directory_turn.
  - intros st Hst. safe_run. done.
Qed.

Lemma safe_forM {A} (f : A -> result unit) l : (forall a, safe (f a) (fun _ => True)) -> safe (forM_result l f) (fun _ => True).
Proof. intros Hf. induction l as [|a l IH]; simpl; [done|]. eapply safe_bind; [apply Hf|]. by intros. Qed.

Lemma safe_extents sections :
  Forall (fun s => 0 <= sec_offset s /\ 0 <= sec_stored_bytes s) sections ->
  safe (mapM_result section_extent sections) (Forall (fun e : Z * Z => 0 <= e.2)).
Proof.
  induction 1 as [|s sections Hs _ IH]; simpl; [constructor|].
  eapply safe_bind with (P := fun e => 0 <= e.2).
  { unfold section_extent. eapply safe_bind; [safe_prim|]. intros ? ->. simpl. lia. }
  intros e He. eapply safe_bind; [exact IH|]. intros es Hes. by constructor.
Qed.

Lemma safe_place_extents bytes extents : forall cursor,
  Forall (fun e : Z * Z => 0 <= e.2) extents -> safe (place_extents bytes cursor extents) (fun _ => True).
Proof.
  induction extents as [|[first last] extents IH]; intros cursor Hf; simpl; [done|].
  apply Forall_cons_iff in Hf as [Hl Hf]. cbn [snd] in Hl. eapply safe_bind; [safe_prim|]. intros ? _.
  eapply safe_bind; [safe_prim|]. intros c ->. pose proof (align8_bounds last).
  eapply safe_bind; [safe_prim|]. intros ? _. eapply safe_bind with (P := fun _ => True); [|by auto].
  destruct (negb _); [|done]. eapply safe_bind; [apply safe_range; lia|]. intros ? _. eapply safe_weaken; [safe_prim|done].
Qed.

Lemma safe_placement bytes header sections :
  0 <= hdr_directory_offset header -> 0 <= hdr_directory_bytes header ->
  Forall (fun s => 0 <= sec_offset s /\ 0 <= sec_stored_bytes s) sections ->
  safe (check_placement bytes header sections) (fun _ => True).
Proof.
  intros H1 H2 Hs. unfold check_placement. eapply safe_bind; [by apply safe_extents|]. intros es Hes.
  eapply safe_bind; [safe_prim|]. intros ? ->. eapply safe_bind; [safe_prim|]. intros ? _.
  eapply safe_bind; [apply safe_place_extents; by rewrite merge_sort_Permutation|]. intros ? _.
  eapply safe_weaken; [safe_prim|done].
Qed.

Lemma safe_find version sections type :
  Forall (directory_ok version) sections ->
  safe (find_section sections type) (fun s => directory_ok version s /\ sec_type s = section_value type).
Proof.
  intros Hs. unfold find_section. destruct (List.find _ sections) as [s|] eqn:E; [|apply safe_reject].
  apply List.find_some in E as [Hin Ht]. apply Z.eqb_eq in Ht. split; [|done].
  by apply (proj1 (List.Forall_forall _ _) Hs).
Qed.

(** What a reader that was constructed promises to its clients. *)
Definition reader_ok `{ZstdLibrary} (mode : MncwfValidationMode) (r : MncwfV4Reader) : Prop :=
  mode_ r = mode /\ 0 < sample_frame_bytes_ r /\
  (exists next, timebase_spans 0 0 (timebase_segments_ r) (sample_frame_count_ r) next) /\
  Forall event_ordered (events_ r) /\
  exists info, find_section (sections_ r) section_sample_data = Ok info /\
    sec_item_count info = sample_frame_count_ r /\ sec_item_bytes info = sample_frame_bytes_ r /\
    samples_ok mode (hdr_version (header_ r)) info (sample_chunks_ r) (sample_data_ r).

Lemma safe_read_sections `{ZstdLibrary} mode header sections :
  Forall (directory_ok (hdr_version header)) sections -> safe (read_sections mode header sections) (reader_ok mode).
Proof.
  intros Hs. unfold read_sections.
  eapply safe_bind; [by eapply safe_find|]. intros ci [[Hci _] _].
  eapply safe_bind; [by apply safe_envelope|]. intros cs (C1 & C2 & _).
  eapply safe_bind; [by apply safe_capture|]. intros ? _.
  eapply safe_bind; [by eapply safe_find|]. intros ti [[Hti _] _].
  eapply safe_bind; [by apply safe_envelope|]. intros ts (T1 & _ & TI & T2). rewrite TI in T2.
  eapply safe_bind; [by apply safe_timebase|]. intros tb [_ Htb].
  eapply safe_bind; [by eapply safe_find|]. intros hi [[Hhi _] _].
  eapply safe_bind; [by apply safe_envelope|]. intros hs (H1 & H2 & HI & H3). rewrite HI in H3.
  eapply safe_bind; [by apply safe_channels|]. intros ? _.
  eapply safe_bind; [by eapply safe_find|]. intros ei [[Hei _] _].
  eapply safe_bind; [by apply safe_envelope|]. intros es (E1 & E2 & EI & E3). rewrite EI in E3.
  eapply safe_bind; [by apply safe_events|]. intros evs Hev.
  eapply safe_bind; [by eapply safe_find|]. intros qi [[Hqi _] _].
  eapply safe_bind; [by apply safe_envelope|]. intros qs (Q1 & _ & QI & Q3). rewrite QI in Q3.
  eapply safe_bind; [by apply safe_quality|]. intros ? _.
  eapply safe_bind; [by eapply safe_find|]. intros li [[Hli _] _].
  eapply safe_bind; [by apply safe_envelope|]. intros ls (L1 & _ & LI & L3). rewrite LI in L3.
  eapply safe_bind; [by apply safe_lineage|]. intros ? _.
  pose proof (safe_find _ _ section_sample_data Hs) as Hfind.
  destruct (find_section sections section_sample_data) as [si|] eqn:Esi; [|exact Hfind].
  destruct Hfind as [(Hsi & _ & _ & Hlog) Hty]. cbn [mbind result_bind].
  eapply safe_bind; [safe_prim|]. intros ? Hib. apply orb_false_iff in Hib as [Hib _]. apply Z.eqb_neq in Hib.
  assert (0 < sec_item_bytes si) as Hpos by (destruct Hsi as (_ & _ & ?); lia).
  eapply safe_bind; [apply safe_samples; [done|done|by intros; apply Hlog]|].
  intros [chunks data] Hsm. eapply safe_bind; [safe_prim|]. intros ? Hcov. apply negb_false_iff, Z.eqb_eq in Hcov.
  eapply safe_bind; [apply safe_forM; intros; eapply safe_weaken; [apply safe_guard|done]|]. intros ? _.
  eapply safe_bind; [apply safe_forM; intros; unfold check_quality_placed; safe_run; eapply safe_weaken; [apply safe_guard|done]|].
  intros ? _. cbn [safe]. split; [done|]. split; [done|]. split; [rewrite <- Hcov; by eexists|]. split; [done|].
  by exists si.
Qed.

Lemma safe_make_reader `{ZstdLibrary} bytes mode :
  Forall is_byte bytes -> safe (make_reader bytes mode) (reader_ok mode).
Proof.
  intros Hb. unfold make_reader. eapply safe_bind; [by apply safe_read_header|].
  intros [[header dc] hc] [H1 H2]. cbn [fst] in *. eapply safe_bind; [safe_prim|]. intros ? _.
  eapply safe_bind; [by apply safe_range|]. intros directory [_ ->]. eapply safe_bind; [safe_prim|]. intros ? _.
  eapply safe_bind; [apply safe_read_directory; [done|by apply slice_bytes]|]. intros sections Hs.
  eapply safe_bind; [apply safe_placement; [done|done|]|].
  { eapply List.Forall_impl; [|exact Hs]. by intros s (_ & ? & ? & _). }
  intros ? _. eapply safe_bind; [apply safe_forM; intros; eapply safe_weaken; [apply safe_guard|done]|].
  intros ? _. by apply safe_read_sections.
Qed.

Lemma make_reader_ok `{ZstdLibrary} bytes mode r :
  Forall is_byte bytes -> make_reader bytes mode = Ok r -> reader_ok mode r.
Proof. intros Hb Hr. pose proof (safe_make_reader bytes mode Hb) as Hs. by rewrite Hr in Hs. Qed.

(** (C20) The reader is total on hostile input.  Whatever bytes it is given, whatever
    the zstd library answers and in either validation mode, constructing a
    [MncwfV4Reader] ends in one of two ways: a [std::invalid_argument] raised by
    [reject], or a reader whose timebase covers its frames in order, whose events end
    no earlier than they start and whose samples fill their frames.  No field read,
    span, record index or buffer copy goes out of range on the way. *)
Theorem mncwf_reader_total `{ZstdLibrary} bytes mode :
  Forall is_byte bytes ->
  (exists reader, make_reader bytes mode = Ok reader /\ reader_ok mode reader) \/
  exists reason, make_reader bytes mode = Throw (reject_error reason).
Proof.
  intros Hb. pose proof (safe_make_reader bytes mode Hb) as Hs.
  destruct (make_reader bytes mode) as [r|e]; [left; by exists r|right]. destruct Hs as [reason ->]. by exists reason.
Qed.

Lemma mncwf_reader_total_witness :
  exists file reader, @encode_mncwf_v5 run_zstd (demo_document (replicate 8 90)) = Ok file /\
    @make_reader run_zstd file mode_complete = Ok reader /\ @reader_ok run_zstd mode_complete reader.
Proof.
  assert (((fun f => forallb (fun b => (0 <=? b) && (b <? 256)) f) <$> @encode_mncwf_v5 run_zstd (demo_document (replicate 8 90)) = Ok true) /\
          is_ok (file ← @encode_mncwf_v5 run_zstd (demo_document (replicate 8 90)); @make_reader run_zstd file mode_complete) = true)
    as [Eb Er] by (split; vm_compute; reflexivity).
  destruct (@encode_mncwf_v5 run_zstd (demo_document (replicate 8 90))) as [file|]; [|discriminate Eb].
  cbn [mbind result_bind] in Er. apply Ok_inj in Eb.
  destruct (@mncwf_reader_total run_zstd file mode_complete) as [(reader & Hr & Hok)|[reason Hr]].
  - apply List.Forall_forall. intros b Hin. rewrite forallb_forall in Eb. specialize (Eb b Hin). unfold is_byte.
    apply andb_true_iff in Eb as [H1 H2]. apply Z.leb_le in H1. apply Z.ltb_lt in H2. lia.
  - exists file, reader. split; [reflexivity|]. split; [exact Hr|exact Hok].
  - rewrite Hr in Er. discriminate Er.
Defined.
