(* ===== verification/MncwfSliceFile.v ===== *)
(** * MNCWF waveform container: the virtual file is the encoder's file

    The virtual file of src/common/msap1/waveform/mncwf_v4.cpp keeps the parent's
    samples where they are and owns only a prefix and a padding size.  Here its
    bytes are shown to be the file the encoders write for the sliced document, and
    [virtual_read] to deliver them at any offset and in pieces of any size. *)

From S2P Require Import Prelude MncwfTypes MncwfFormat MncwfRecords MncwfReader MncwfEncode MncwfSlice MncwfWire MncwfRoundTrip MncwfSections MncwfFile MncwfIntegrity.

(** ** Writes into the front of a buffer *)

Lemma splice_app_l a b o v : 0 <= o -> o + zlen v <= zlen a -> splice (a ++ b) o v = splice a o v ++ b.
Proof.
  intros Ho Hl. unfold splice, zlen in *. rewrite take_app_le by lia. rewrite drop_app_le by lia. by rewrite <- !app_assoc.
Qed.

Lemma splice_app_r a b v : splice (a ++ b) (zlen a) v = a ++ splice b 0 v.
Proof.
  unfold splice, zlen. rewrite Nat2Z.id. rewrite take_app_length. rewrite drop_app_add. done.
Qed.

Lemma copy_into_app a b o v a' : copy_into a o v = Ok a' -> copy_into (a ++ b) o v = Ok (a' ++ b).
Proof.
  intros (H0 & H1 & ->)%copy_into_Ok. rewrite copy_into_ok, splice_app_l; try done.
  rewrite zlen_app. pose proof (zlen_nonneg b). lia.
Qed.

Lemma ensure_write_app a b o w u : ensure_write a o w = Ok u -> ensure_write (a ++ b) o w = Ok u.
Proof.
  unfold ensure_write. intros H. apply guard_reject_Ok in H. apply guard_reject_Ok. rewrite zlen_app.
  pose proof (zlen_nonneg b). apply orb_false_iff in H as [H1 H2]. apply orb_false_iff. bools. lia.
Qed.

Lemma put_unsigned_app n a b o v a' : put_unsigned n a o v = Ok a' -> put_unsigned n (a ++ b) o v = Ok (a' ++ b).
Proof.
  unfold put_unsigned. intros (u & G & H)%bind_Ok. rewrite (ensure_write_app _ _ _ _ _ G). by apply copy_into_app.
Qed.

Lemma run_put_extend base a b p a' : run_put base a p = Ok a' -> run_put base (a ++ b) p = Ok (a' ++ b).
Proof.
  destruct p; cbn [run_put]; try apply put_unsigned_app; try apply copy_into_app.
  - unfold put_array. intros (u & G & H)%bind_Ok. rewrite (ensure_write_app _ _ _ _ _ G). by apply copy_into_app.
  - intros (u & G & H)%bind_Ok. injection H as <-. by rewrite (ensure_write_app _ _ _ _ _ G).
Qed.

Lemma run_puts_extend base puts : forall a b a',
  run_puts base a puts = Ok a' -> run_puts base (a ++ b) puts = Ok (a' ++ b).
Proof.
  induction puts as [|p puts IH]; intros a b a' H; cbn [run_puts] in *; [by injection H as <-|].
  apply bind_Ok in H as (a1 & G & H). rewrite (run_put_extend _ _ _ _ _ G). by apply IH.
Qed.

Lemma put_checksums_extend a b d a' : put_checksums a d = Ok a' -> put_checksums (a ++ b) d = Ok (a' ++ b).
Proof.
  unfold put_checksums, put_u32. intros (dir & G1 & H)%bind_Ok. apply subspan_Ok in G1 as (K1 & K2 & K3 & ->).
  assert (forall o n, 0 <= o -> 0 <= n -> o + n <= zlen a -> slice (a ++ b) o n = slice a o n) as Hsl.
  { intros o n ? ? ?. unfold slice, zlen in *. rewrite drop_app_le by lia. apply take_app_le. rewrite length_drop. lia. }
  rewrite (proj2 (subspan_Ok (a ++ b) _ _ (slice a mncwf_v4_header_bytes d))).
  2: { rewrite zlen_app. pose proof (zlen_nonneg b). rewrite Hsl by done. split_and!; [done|done|lia|done]. }
  cbn [mbind result_bind]. apply bind_Ok in H as (f1 & G2 & H). pose proof (put_u32_kept _ _ _ _ G2) as [Z1 _].
  rewrite (put_unsigned_app _ _ b _ _ _ G2). cbn [mbind result_bind].
  apply bind_Ok in H as (f2 & G3 & H). pose proof (put_u32_kept _ _ _ _ G3) as [Z2 _].
  rewrite (put_unsigned_app _ _ b _ _ _ G3). cbn [mbind result_bind].
  apply bind_Ok in H as (hd & G4 & H). apply subspan_Ok in G4 as (L1 & L2 & L3 & ->).
  rewrite (proj2 (subspan_Ok (f2 ++ b) _ _ (slice f2 0 mncwf_v4_header_bytes))).
  2: { rewrite zlen_app. pose proof (zlen_nonneg b). split_and!; [done|done|lia|].
       unfold slice, zlen in *. rewrite drop_app_le by lia. rewrite take_app_le; [done|]. rewrite length_drop. lia. }
  cbn [mbind result_bind]. by apply put_unsigned_app.
Qed.

(** ** Sections of the virtual file *)

Lemma put_metadata_sections metadata : forall index file offsets,
  put_metadata index file (zip metadata offsets) = put_sections index file (zip (map plain_section metadata) offsets).
Proof.
  induction metadata as [|m metadata IH]; intros index file [|o offsets]; try done.
  cbn [zip zip_with map put_metadata put_sections]. unfold write_directory_entry.
  replace (directory_entry_puts (es_type m) o (zlen (es_payload m)) (es_item_count m) (es_item_bytes m)
             (mncwf_crc32c (es_payload m)) 1 0) with (entry_puts (plain_section m) o) by done.
  destruct (run_puts _ _ _) as [f|]; [|done]. cbn [mbind result_bind].
  change (fs_payload (plain_section m)) with (es_payload m). destruct (copy_into _ _ _); [apply IH|done].
Qed.

Lemma put_sections_snoc sections s o : forall index file,
  put_sections index file (sections ++ [(s, o)]) =
  (file ← put_sections index file sections;
   file ← run_puts (64 + Z.of_nat (index + length sections) * 56) file (entry_puts s o);
   copy_into file o (fs_payload s)).
Proof.
  induction sections as [|[t p] sections IH]; intros index file.
  - cbn [app put_sections length]. rewrite Nat.add_0_r. cbn [mbind result_bind].
    unfold mncwf_v4_header_bytes, mncwf_v4_directory_entry_bytes.
    destruct (run_puts _ _ _) as [f|]; [|done]. cbn [mbind result_bind]. by destruct (copy_into _ _ _).
  - cbn [app put_sections length]. destruct (run_puts _ _ _) as [f|]; [|done]. cbn [mbind result_bind].
    destruct (copy_into f p _) as [f2|]; [|done]. cbn [mbind result_bind]. rewrite IH. by rewrite Nat.add_succ_comm.
Qed.

Lemma put_sections_extend sections : forall index a b a',
  put_sections index a sections = Ok a' -> put_sections index (a ++ b) sections = Ok (a' ++ b).
Proof.
  induction sections as [|[s o] sections IH]; intros index a b a' H; cbn [put_sections] in *; [by injection H as <-|].
  apply bind_Ok in H as (f1 & G1 & H). rewrite (run_puts_extend _ _ _ b _ G1). cbn [mbind result_bind].
  apply bind_Ok in H as (f2 & G2 & H). rewrite (copy_into_app _ b _ _ _ G2). by apply IH.
Qed.

(** The offsets do not depend on the label of an overflow. *)
Lemma section_offsets_snoc label label' n sizes : forall start offsets last payload_end stop,
  section_offsets label start sizes = Ok (offsets, last) ->
  checked_add last n label' = Ok payload_end -> align_eight payload_end = Ok stop ->
  section_offsets label' start (sizes ++ [n]) = Ok (offsets ++ [last], stop).
Proof.
  induction sizes as [|size sizes IH]; intros start offsets last payload_end stop H Ha Hs; cbn [section_offsets app] in *.
  - injection H as <- <-. rewrite Ha. cbn [mbind result_bind]. by rewrite Hs.
  - apply bind_Ok in H as (pe & G1 & H). apply checked_add_Ok in G1 as G1'.
    rewrite (proj2 (checked_add_Ok _ _ label' pe) G1'). cbn [mbind result_bind].
    apply bind_Ok in H as (fo & G2 & H). rewrite G2. cbn [mbind result_bind].
    apply bind_Ok in H as ([os l] & G3 & H). injection H as <- <-. by rewrite (IH _ _ _ _ _ G3 Ha Hs).
Qed.

Lemma checked_add_label l r label label' z : checked_add l r label = Ok z -> checked_add l r label' = Ok z.
Proof. rewrite !checked_add_Ok. done. Qed.

Lemma section_offsets_length label sizes : forall start offsets last,
  section_offsets label start sizes = Ok (offsets, last) -> length offsets = length sizes.
Proof.
  induction sizes as [|size sizes IH]; intros start offsets last H; cbn [section_offsets] in H.
  - by injection H as <- <-.
  - apply bind_Ok in H as (pe & _ & H). apply bind_Ok in H as (fo & _ & H). apply bind_Ok in H as ([os l] & G & H).
    injection H as <- <-. simpl. f_equal. by eapply IH.
Qed.

Lemma zip_snoc {A B} (l : list A) (k : list B) a b :
  length l = length k -> zip (l ++ [a]) (k ++ [b]) = zip l k ++ [(a, b)].
Proof. intros. by rewrite zip_with_app. Qed.

(** A version 5 virtual file is the file of its seven sections. *)
Lemma v5_virtual_file_written metadata samples frame_count frame_bytes file label too_large :
  length metadata = 6%nat -> 0 < frame_count -> 0 < frame_bytes ->
  make_v5_virtual_file metadata samples frame_count frame_bytes = Ok file ->
  write_file mncwf_v5_version label too_large
    (map plain_section metadata ++
     [mkFileSection (section_value section_sample_data) 2 frame_count frame_bytes (frame_count * frame_bytes) samples])
  = Ok file.
Proof.
  intros Hm Hc Hb H. unfold make_v5_virtual_file in H. unfold write_file.
  set (s := mkFileSection _ _ _ _ _ _).
  assert (zlen (map plain_section metadata ++ [s]) = 7) as El by (unfold zlen; rewrite length_app, length_map, Hm; done).
  rewrite El. change mncwf_v4_mandatory_section_count with 7 in H.
  apply bind_Ok in H as (db & G1 & H). apply checked_multiply_Ok in G1 as G1'; [|done|done].
  rewrite (proj2 (checked_multiply_Ok 7 mncwf_v4_directory_entry_bytes _ db ltac:(done) ltac:(done)) G1'). cbn [mbind result_bind].
  apply bind_Ok in H as (de & G2 & H). rewrite (checked_add_label _ _ _ _ _ G2). cbn [mbind result_bind].
  apply bind_Ok in H as (start & G3 & H). rewrite G3. cbn [mbind result_bind].
  apply bind_Ok in H as ([offsets so] & G4 & H). apply bind_Ok in H as (se & G5 & H). apply bind_Ok in H as (fb & G6 & H).
  rewrite map_app, map_map. cbn [map]. change (fs_payload s) with samples.
  erewrite (section_offsets_snoc "v5 virtual metadata" label); [|exact G4|by eapply checked_add_label|exact G6].
  cbn [mbind result_bind]. apply bind_Ok in H as (u & G7 & H).
  rewrite (proj2 (guard_reject_Ok _ too_large u) (proj1 (guard_reject_Ok _ _ _) G7)). cbn [mbind result_bind].
  apply bind_Ok in H as (size & G8 & H). rewrite (proj2 (narrow_size_Ok _ label size) (proj1 (narrow_size_Ok _ _ _) G8)).
  cbn [mbind result_bind]. apply bind_Ok in H as (f1 & G9 & H). rewrite G9. cbn [mbind result_bind].
  assert (length (map plain_section metadata) = length offsets) as Elen.
  { rewrite (section_offsets_length _ _ _ _ _ G4). by rewrite !length_map. }
  rewrite zip_snoc by done. rewrite put_sections_snoc.
  apply bind_Ok in H as (f2 & G10 & H). rewrite put_metadata_sections in G10. rewrite G10. cbn [mbind result_bind].
  apply bind_Ok in H as (lb & G11 & H). apply checked_multiply_Ok in G11 as [_ ->]; [|lia|lia].
  apply bind_Ok in H as (f3 & G12 & H). unfold write_directory_entry in G12.
  assert (length (zip (map plain_section metadata) offsets) = length metadata) as Ez.
  { rewrite length_zip_with, <- Elen, length_map. lia. }
  rewrite Ez. cbn [Nat.add].
  replace (directory_entry_puts section_sample_data so (zlen samples) frame_count frame_bytes (mncwf_crc32c samples) 2
             (frame_count * frame_bytes)) with (entry_puts s so) in G12.
  2: { unfold directory_entry_puts. destruct (Z.eqb_spec (frame_count * frame_bytes) 0); [nia|done]. }
  unfold mncwf_v4_header_bytes, mncwf_v4_directory_entry_bytes in G12. rewrite G12. cbn [mbind result_bind].
  exact H.
Qed.

(** The fields the sample header leaves out are zero in a zero-filled buffer. *)
Lemma sample_header_envelope frame_count frame_bytes :
  run_puts 0 (replicate (Z.to_nat mncwf_v4_section_header_bytes) 0)
    (envelope_puts section_sample_data frame_count frame_bytes 0 0) =
  run_puts 0 (replicate (Z.to_nat mncwf_v4_section_header_bytes) 0) (sample_header_puts frame_count frame_bytes).
Proof. reflexivity. Qed.

Lemma run_puts_length base puts : forall bytes out, run_puts base bytes puts = Ok out -> zlen out = zlen bytes.
Proof.
  assert (forall n bytes o v out, put_unsigned n bytes o v = Ok out -> zlen out = zlen bytes) as Hu.
  { intros n bytes o v out (H1 & H2 & ->)%put_unsigned_Ok. apply zlen_splice; rewrite ?zlen_le_bytes; lia. }
  assert (forall bytes o v out, copy_into bytes o v = Ok out -> zlen out = zlen bytes) as Hc.
  { intros bytes o v out (H1 & H2 & ->)%copy_into_Ok. by apply zlen_splice. }
  induction puts as [|p puts IH]; intros bytes out H; cbn [run_puts] in H; [by injection H as <-|].
  apply bind_Ok in H as (b1 & G & H). rewrite (IH _ _ H).
  destruct p; cbn [run_put] in G; try (by eapply Hu); try (by eapply Hc).
  - unfold put_array in G. apply bind_Ok in G as (u & _ & G). by eapply Hc.
  - apply bind_Ok in G as (u & _ & G). by injection G as <-.
Qed.

Lemma replicate_add n m : 0 <= n -> 0 <= m ->
  replicate (Z.to_nat (n + m)) 0 = replicate (Z.to_nat n) 0 ++ replicate (Z.to_nat m) 0.
Proof. intros. rewrite Z2Nat.inj_add by done. apply replicate_add. Qed.

Lemma splice_front (v : list Z) m : zlen v <= m ->
  splice (replicate (Z.to_nat m) 0) 0 v = v ++ replicate (Z.to_nat (m - zlen v)) 0.
Proof.
  intros Hl. unfold splice. change (Z.to_nat 0) with 0%nat. rewrite take_0, drop_replicate. cbn [app].
  do 2 f_equal. unfold zlen. lia.
Qed.

(** The sample section of the encoder: the header, then the samples. *)
Lemma sample_section_encoded frame_count frame_bytes data header :
  0 <= frame_count -> 0 <= frame_bytes -> zlen data = frame_count * frame_bytes ->
  48 + zlen data <= mncwf_v4_max_file_bytes ->
  run_puts 0 (replicate (Z.to_nat mncwf_v4_section_header_bytes) 0) (sample_header_puts frame_count frame_bytes) = Ok header ->
  enveloped_section section_sample_data frame_count frame_bytes data [] =
    Ok (mkEncodedSection section_sample_data frame_count frame_bytes (header ++ data)).
Proof.
  intros Hc Hb Hd Hmax Hh. pose proof (zlen_nonneg data) as Hn. unfold mncwf_v4_max_file_bytes in Hmax.
  unfold enveloped_section.
  rewrite (proj2 (checked_multiply_Ok frame_count frame_bytes _ (zlen data) Hc Hb)) by (rewrite <- Hd; unfold UINT64_MAX; lia).
  cbn [mbind result_bind]. rewrite (proj2 (guard_reject_Ok _ _ tt)) by (by rewrite Z.eqb_refl). cbn [mbind result_bind].
  rewrite (proj2 (checked_add_Ok 48 (zlen data) _ (48 + zlen data))) by (unfold UINT64_MAX; lia). cbn [mbind result_bind].
  rewrite bool_decide_eq_true_2 by done. cbn [mbind result_bind].
  rewrite (proj2 (guard_reject_Ok _ _ tt)) by (apply Z.ltb_ge; unfold mncwf_v4_max_file_bytes; lia). cbn [mbind result_bind].
  rewrite (proj2 (narrow_size_Ok _ _ (48 + zlen data))) by (unfold UINT64_MAX; lia). cbn [mbind result_bind].
  rewrite replicate_add by lia. change (zlen []) with 0. change 48 with mncwf_v4_section_header_bytes.
  rewrite <- sample_header_envelope in Hh. rewrite (run_puts_extend _ _ _ _ _ Hh). cbn [mbind result_bind].
  pose proof (run_puts_length _ _ _ _ Hh) as El. rewrite zlen_replicate in El by done.
  rewrite copy_into_ok; [|done|rewrite zlen_app, El, zlen_replicate by done; lia]. cbn [mbind result_bind].
  rewrite <- El, splice_app_r, splice_front by lia. by rewrite Z.sub_diag, app_nil_r.
Qed.

Lemma crc32c_app a b :
  mncwf_crc32c (a ++ b) = Z.lxor (crc32c_update (crc32c_update UINT32_MAX a) b) UINT32_MAX.
Proof. unfold mncwf_crc32c. by rewrite crc32c_update_app. Qed.

Lemma put_sections_length sections : forall index file out,
  put_sections index file sections = Ok out -> zlen out = zlen file.
Proof.
  induction sections as [|[s o] sections IH]; intros index file out H; cbn [put_sections] in H; [by injection H as <-|].
  apply bind_Ok in H as (f1 & G1 & H). apply bind_Ok in H as (f2 & G2 & H). rewrite (IH _ _ _ H).
  apply copy_into_Ok in G2 as (? & ? & ->). rewrite zlen_splice by done. by eapply run_puts_length.
Qed.

(** The steps of [write_file] for seven sections. *)
Lemma write_file_intro version label too_large sections offsets file_bytes f1 f2 file :
  zlen sections = 7 -> section_offsets label 456 (map (fun s => zlen (fs_payload s)) sections) = Ok (offsets, file_bytes) ->
  file_bytes <= mncwf_v4_max_file_bytes ->
  run_puts 0 (replicate (Z.to_nat file_bytes) 0) (header_puts version 7 392 file_bytes) = Ok f1 ->
  put_sections 0 f1 (zip sections offsets) = Ok f2 -> put_checksums f2 392 = Ok file ->
  write_file version label too_large sections = Ok file.
Proof.
  intros En Ho Hm H1 H2 H3. unfold write_file. rewrite En.
  change (checked_multiply 7 mncwf_v4_directory_entry_bytes "encoded directory") with (Ok (A := Z) 392). cbn [mbind result_bind].
  change (checked_add mncwf_v4_header_bytes 392 "encoded directory") with (Ok (A := Z) 456). cbn [mbind result_bind].
  change (align_eight 456) with (Ok (A := Z) 456). cbn [mbind result_bind].
  rewrite Ho. cbn [mbind result_bind].
  rewrite (proj2 (guard_reject_Ok _ _ tt)) by (by apply Z.ltb_ge). cbn [mbind result_bind].
  unfold mncwf_v4_max_file_bytes in Hm.
  rewrite (proj2 (narrow_size_Ok file_bytes label file_bytes)) by (unfold UINT64_MAX; lia). cbn [mbind result_bind].
  rewrite H1. cbn [mbind result_bind]. rewrite H2. cbn [mbind result_bind]. exact H3.
Qed.

(** Header first and entry second, or entry first and the whole payload second. *)
Lemma place_last base so P header data m puts f3 f4 :
  zlen P = so + zlen header -> 0 <= base -> base + 56 <= so -> zlen data <= m ->
  tiled 0 56 puts = true -> forallb put_sized puts = true ->
  copy_into P so header = Ok f3 -> run_puts base f3 puts = Ok f4 ->
  (f ← run_puts base (P ++ replicate (Z.to_nat m) 0) puts; copy_into f so (header ++ data)) =
    Ok (f4 ++ data ++ replicate (Z.to_nat (m - zlen data)) 0).
Proof.
  intros Hz Hb Hs Hm Ht Hp Hc Hr. pose proof (zlen_nonneg header) as Hh. pose proof (zlen_nonneg data) as Hd.
  set (p := take (Z.to_nat so) P). set (q := drop (Z.to_nat so) P).
  assert (P = p ++ q) as EP by (symmetry; apply take_drop).
  assert (zlen p = so /\ zlen q = zlen header) as [Ep Eq].
  { subst p q. unfold zlen in *. rewrite length_take, length_drop. lia. }
  clearbody p q. subst P. apply copy_into_Ok in Hc as (_ & _ & ->).
  destruct (run_puts_sized base 0 56 puts p Ht Hp) as (p' & Er & Ez & _ & _); [lia|lia|lia|].
  assert (splice (p ++ q) so header = p ++ header) as Es.
  { rewrite <- Ep, splice_app_r. f_equal. unfold splice. change (Z.to_nat 0) with 0%nat. rewrite take_0. cbn [app Nat.add].
    rewrite drop_ge by (unfold zlen in *; lia). apply app_nil_r. }
  rewrite Es, (run_puts_extend _ _ _ _ _ Er) in Hr. injection Hr as <-.
  rewrite <- !app_assoc, (run_puts_extend _ _ _ _ _ Er). cbn [mbind result_bind].
  rewrite copy_into_ok; [|lia|rewrite !zlen_app, zlen_replicate by lia; lia]. f_equal.
  replace so with (zlen p') by lia. rewrite splice_app_r. f_equal.
  unfold splice. change (Z.to_nat 0) with 0%nat. rewrite take_0. cbn [app Nat.add]. rewrite <- app_assoc. do 2 f_equal.
  rewrite length_app, drop_app_add', drop_replicate by (unfold zlen in *; lia). f_equal. unfold zlen. lia.
Qed.

(** Prefix, samples and padding of a version 4 virtual file are the encoder's file. *)
Lemma v4_prefix_written metadata data frame_count frame_bytes prefix file_bytes label too_large :
  length metadata = 6%nat -> 0 <= frame_count -> 0 <= frame_bytes -> zlen data = frame_count * frame_bytes ->
  make_v4_prefix metadata data frame_count frame_bytes = Ok (prefix, file_bytes) ->
  exists samples, enveloped_section section_sample_data frame_count frame_bytes data [] = Ok samples /\
    0 <= file_bytes - zlen prefix - zlen data < 8 /\
    write_file mncwf_v4_version label too_large (map plain_section (metadata ++ [samples])) =
      Ok (prefix ++ data ++ replicate (Z.to_nat (file_bytes - zlen prefix - zlen data)) 0).
Proof.
  intros Hm Hc Hb Hd H. unfold make_v4_prefix in H. change mncwf_v4_mandatory_section_count with 7 in H.
  pose proof (zlen_nonneg data) as Hn.
  apply bind_Ok in H as (db & G1 & H). apply checked_multiply_Ok in G1 as [G1 ->]; [|done|done].
  apply bind_Ok in H as (de & G2 & H). apply checked_add_Ok in G2 as [G2 ->].
  apply bind_Ok in H as (start & G3 & H). apply align_eight_Ok in G3 as G3'; [|done]. destruct G3' as [_ Est].
  apply bind_Ok in H as ([offsets so] & G4 & H).
  assert (456 <= so) as Hso.
  { apply (section_offsets_placed es_payload) in G4 as [_ Hp]; [|rewrite Est; done].
    apply placed_le in Hp. rewrite Est in Hp. exact Hp. }
  apply bind_Ok in H as (sb & G5 & H). apply checked_add_Ok in G5 as [_ ->].
  apply bind_Ok in H as (fe & G6 & H). apply bind_Ok in H as (fb & G7 & H).
  pose proof (proj1 (checked_add_Ok _ _ _ _) G6) as [_ Efe].
  unfold mncwf_v4_section_header_bytes in *.
  pose proof (proj1 (align_eight_Ok fe fb ltac:(lia)) G7) as [_ Efb].
  apply bind_Ok in H as (u & G8 & H). apply guard_reject_Ok, Z.ltb_ge in G8.
  apply bind_Ok in H as (pb & G9 & H). apply checked_add_Ok in G9 as [_ ->].
  apply bind_Ok in H as (size & G10 & H). apply narrow_size_Ok in G10 as [_ ->].
  apply bind_Ok in H as (f1 & G11 & H). apply bind_Ok in H as (f2 & G12 & H).
  apply bind_Ok in H as (header & G13 & H). apply bind_Ok in H as (f3 & G14 & H).
  apply bind_Ok in H as (f4 & G15 & H). apply bind_Ok in H as (f5 & G16 & H). injection H as <- <-.
  rewrite put_metadata_sections in G12. pose proof (align8_bounds fe) as Hal.
  exists (mkEncodedSection section_sample_data frame_count frame_bytes (header ++ data)).
  split; [apply sample_section_encoded; try done; lia|].
  pose proof (run_puts_length _ _ _ _ G13) as Eh. rewrite zlen_replicate in Eh by done.
  pose proof (run_puts_length _ _ _ _ G11) as E1. rewrite zlen_replicate in E1 by lia.
  assert (zlen f2 = so + 48) as E2.
  { rewrite <- E1. eapply put_sections_length. exact G12. }
  assert (zlen f5 = so + 48) as E5.
  { rewrite (proj1 (put_checksums_kept _ _ _ G16)), (run_puts_length _ _ _ _ G15).
    apply copy_into_Ok in G14 as (? & ? & ->). rewrite zlen_splice by lia. done. }
  rewrite E5. split; [lia|].
  assert (length (map plain_section metadata) = length offsets) as Elen.
  { rewrite (section_offsets_length _ _ _ _ _ G4). by rewrite !length_map. }
  rewrite map_app. cbn [map]. set (s := plain_section (mkEncodedSection _ _ _ _)).
  assert (zlen (fs_payload s) = 48 + zlen data) as Ep by (subst s; cbn [fs_payload plain_section es_payload]; rewrite zlen_app; lia).
  eapply write_file_intro with (offsets := offsets ++ [so]) (file_bytes := fb).
  - unfold zlen. rewrite length_app, length_map, Hm. done.
  - rewrite map_app, map_map. cbn [map]. rewrite Ep.
    eapply section_offsets_snoc; [rewrite Est in G4; exact G4|by eapply checked_add_label|exact G7].
  - done.
  - replace fb with (so + 48 + (fb - (so + 48))) at 1 by lia. rewrite replicate_add by lia.
    apply run_puts_extend. exact G11.
  - rewrite zip_snoc by done. rewrite put_sections_snoc, (put_sections_extend _ _ _ _ _ G12). cbn [mbind result_bind].
    assert (length (zip (map plain_section metadata) offsets) = 6%nat) as Ez.
    { rewrite length_zip_with, <- Elen, length_map, Hm. lia. }
    rewrite Ez. eapply place_last; [| | | | | |exact G14|]; try done; try lia.
    rewrite <- G15. unfold write_directory_entry. rewrite Hm. f_equal.
    unfold directory_entry_puts, entry_puts. subst s. cbn [plain_section fs_type fs_version fs_item_count fs_item_bytes
      fs_logical_bytes fs_payload es_type es_item_count es_item_bytes es_payload].
    rewrite crc32c_app, zlen_app, Eh. done.
  - apply put_checksums_extend. exact G16.
Qed.

Lemma v4_prefix_bound metadata data frame_count frame_bytes prefix file_bytes :
  make_v4_prefix metadata data frame_count frame_bytes = Ok (prefix, file_bytes) -> file_bytes <= mncwf_v4_max_file_bytes.
Proof.
  unfold make_v4_prefix. intros H. do 3 apply bind_Ok in H as (? & _ & H). apply bind_Ok in H as ([? ?] & _ & H).
  do 3 apply bind_Ok in H as (? & _ & H). apply bind_Ok in H as (? & G & H). apply guard_reject_Ok, Z.ltb_ge in G.
  do 8 apply bind_Ok in H as (? & _ & H). by injection H as _ <-.
Qed.

Lemma v5_virtual_file_bound metadata samples frame_count frame_bytes file :
  make_v5_virtual_file metadata samples frame_count frame_bytes = Ok file -> zlen file <= mncwf_v4_max_file_bytes.
Proof.
  unfold make_v5_virtual_file. intros H. do 3 apply bind_Ok in H as (? & _ & H).
  apply bind_Ok in H as ([offsets so] & _ & H). apply bind_Ok in H as (se & _ & H). apply bind_Ok in H as (fb & _ & H).
  apply bind_Ok in H as (? & G & H). apply guard_reject_Ok, Z.ltb_ge in G.
  apply bind_Ok in H as (size & G1 & H). apply narrow_size_Ok in G1 as [_ ->].
  apply bind_Ok in H as (f1 & G2 & H). apply run_puts_length in G2.
  apply bind_Ok in H as (f2 & G3 & H). rewrite put_metadata_sections in G3. apply put_sections_length in G3.
  apply bind_Ok in H as (? & _ & H). apply bind_Ok in H as (f3 & G4 & H). apply run_puts_length in G4.
  apply bind_Ok in H as (f4 & G5 & H). apply copy_into_Ok in G5 as (K1 & K2 & ->).
  apply put_checksums_kept in H as [El _]. rewrite El, zlen_splice, G4, G3, G2 by done.
  unfold zlen. rewrite length_replicate. unfold mncwf_v4_max_file_bytes in *. lia.
Qed.

Lemma v5_virtual_file_size metadata samples frame_count frame_bytes file :
  0 < frame_count -> 0 < frame_bytes -> make_v5_virtual_file metadata samples frame_count frame_bytes = Ok file ->
  frame_count * frame_bytes <= UINT64_MAX.
Proof.
  intros Hc Hb. unfold make_v5_virtual_file. intros H. do 3 apply bind_Ok in H as (? & _ & H).
  apply bind_Ok in H as ([? ?] & _ & H). do 6 apply bind_Ok in H as (? & _ & H).
  apply bind_Ok in H as (lb & G & H). by apply checked_multiply_Ok in G as [G _]; [|lia|lia].
Qed.

(** ** Positioned reads *)

(** The bytes of the virtual file. *)
Definition virtual_content (file : MncwfV4VirtualFile) : list Z :=
  vf_prefix file ++ vf_sample_data file ++ replicate (Z.to_nat (vf_trailing_padding_bytes file)) 0.

Lemma slice_add bytes o n m : 0 <= o -> 0 <= n -> 0 <= m -> slice bytes o (n + m) = slice bytes o n ++ slice bytes (o + n) m.
Proof.
  intros. unfold slice. rewrite Z2Nat.inj_add by done. rewrite (Z2Nat.inj_add o n) by done.
  rewrite <- drop_drop. generalize (drop (Z.to_nat o) bytes) as l. intros l.
  rewrite <- (take_drop (Z.to_nat n) l) at 1.
  destruct (Nat.le_gt_cases (Z.to_nat n) (length l)) as [Hl|Hl].
  - rewrite take_app_add'; [done|]. rewrite length_take. lia.
  - rewrite (drop_ge l), app_nil_r, (take_ge l) by lia. rewrite take_ge by lia. by rewrite take_nil, app_nil_r.
Qed.

Lemma slice_middle a s b k n :
  0 <= k -> 0 <= n -> k + n <= zlen s -> slice (a ++ s ++ b) (zlen a + k) n = slice s k n.
Proof.
  intros Hk Hn Hl. unfold slice, zlen in *. replace (Z.to_nat (Z.of_nat (length a) + k)) with (length a + Z.to_nat k)%nat by lia.
  rewrite drop_app_add. rewrite drop_app_le by lia. apply take_app_le. rewrite length_drop. lia.
Qed.

(** One region advances the copy to its end, or to the end of the request. *)
Lemma copy_region_spec offset requested a s b :
  let content := a ++ s ++ b in
  0 <= offset -> 0 < requested -> offset + requested <= zlen content ->
  copy_region offset requested (zlen a) s (slice content offset (Z.min requested (Z.max 0 (zlen a - offset)))) =
    slice content offset (Z.min requested (Z.max 0 (zlen a + zlen s - offset))).
Proof.
  intros content Ho Hr Hc. pose proof (zlen_nonneg s) as Hs. pose proof (zlen_nonneg a) as Ha.
  unfold copy_region. set (c := Z.min requested (Z.max 0 (zlen a - offset))).
  assert (0 <= c <= requested) as Hcr by lia.
  rewrite zlen_slice by lia.
  destruct (Z.eqb_spec c requested) as [Ec|Ec]; cbn [orb].
  { f_equal. lia. }
  destruct (Z.ltb_spec (offset + c) (zlen a)) as [Hp|Hp]; [lia|]. cbn [orb].
  destruct (Z.leb_spec (zlen a + zlen s) (offset + c)) as [Hq|Hq].
  { f_equal. lia. }
  set (k := offset + c - zlen a). set (m := Z.min (requested - c) (zlen s - k)).
  replace (Z.min requested (Z.max 0 (zlen a + zlen s - offset))) with (c + m) by lia.
  rewrite slice_add by lia. f_equal. replace (offset + c) with (zlen a + k) by lia.
  subst content. rewrite slice_middle by lia. done.
Qed.

(** A read delivers the bytes at its offset, as many as fit. *)
Lemma virtual_read_content file offset capacity :
  0 <= offset -> 0 <= capacity -> 0 <= vf_trailing_padding_bytes file < 256 ->
  vf_file_bytes file = zlen (virtual_content file) -> vf_file_bytes file <= UINT64_MAX ->
  virtual_read file offset capacity = take (Z.to_nat capacity) (drop (Z.to_nat offset) (virtual_content file)).
Proof.
  intros Ho Hc Hp Hf Hmax. unfold virtual_read.
  destruct (Z.leb_spec (vf_file_bytes file) offset) as [Hl|Hl]; cbn [orb].
  { rewrite drop_ge by (unfold zlen in *; lia). by rewrite take_nil. }
  destruct (Z.eqb_spec capacity 0) as [->|Hne]; [done|].
  set (requested := Z.min capacity (vf_file_bytes file - offset)).
  transitivity (slice (virtual_content file) offset requested).
  2: { unfold slice. subst requested. destruct (Z.min_spec capacity (vf_file_bytes file - offset)) as [[_ ->]|[Hle ->]]; [done|].
       rewrite !take_ge; [done| |]; rewrite length_drop; unfold zlen in *; lia. }
  set (pre := vf_prefix file). set (sam := vf_sample_data file). set (pad := replicate (Z.to_nat (vf_trailing_padding_bytes file)) 0).
  pose proof (zlen_nonneg pre) as Np. pose proof (zlen_nonneg sam) as Ns.
  assert (zlen pad = vf_trailing_padding_bytes file) as Npad by (apply zlen_replicate; lia).
  change (virtual_content file) with (pre ++ sam ++ pad) in *.
  assert (zlen (pre ++ sam ++ pad) = zlen pre + zlen sam + vf_trailing_padding_bytes file) as Ez
    by (rewrite !zlen_app; lia).
  assert (copy_region offset requested 0 pre [] =
          slice (pre ++ sam ++ pad) offset (Z.min requested (Z.max 0 (zlen pre - offset)))) as E1.
  { pose proof (copy_region_spec offset requested [] pre (sam ++ pad)) as Hs. cbn [app] in Hs.
    change (zlen (@nil Z)) with 0 in Hs. rewrite !Z.add_0_l in Hs. rewrite <- Hs by lia. f_equal.
    rewrite Z.max_l by lia. rewrite Z.min_r by lia. done. }
  rewrite E1. rewrite (copy_region_spec offset requested pre sam pad) by lia.
  set (c := Z.min requested (Z.max 0 (zlen pre + zlen sam - offset))). rewrite zlen_slice by lia.
  destruct (Z.ltb_spec c requested) as [Hlt|Hge]; cbn [andb]; [|f_equal; lia].
  destruct (Z.leb_spec (zlen pre + zlen sam) (offset + c)) as [_|Hbad]; [|lia].
  replace requested with (c + (requested - c)) at 2 by lia. rewrite slice_add by lia. f_equal.
  set (k := offset + c - (zlen pre + zlen sam)).
  pose proof (slice_middle (pre ++ sam) pad [] k (requested - c)) as Hm. rewrite zlen_app, app_nil_r, <- app_assoc in Hm.
  replace (offset + c) with (zlen pre + zlen sam + k) by lia. rewrite Hm by lia.
  unfold slice. subst pad. rewrite drop_replicate, take_replicate. f_equal.
  rewrite wrap_id; [lia|]. unfold UINT64_MAX in *. change (2 ^ 64) with 18446744073709551616. lia.
Qed.
