(* ===== verification/MncwfSliceTyped.v ===== *)
(** * MNCWF waveform container: a selection stays inside the C++ types

    Every field [make_mncwf_v4_event_selection]
    (src/common/msap1/waveform/mncwf_v4.cpp) assigns is a value of the field's type,
    so the encoder writes it and the reader returns it unchanged. *)

From S2P Require Import Prelude MncwfTypes MncwfFormat MncwfRecords MncwfReader MncwfEncode MncwfSlice MncwfWire MncwfRoundTrip MncwfSections MncwfFile.

(** [SHA256] of OpenSSL gives 32 bytes. *)
Definition digest_typed (SHA256 : list Z -> option (list Z)) : Prop :=
  forall message digest, SHA256 message = Some digest -> length digest = 32%nat /\ forallb (fits 8) digest = true.

(** The document of a selection: the parent's frames under the clipped metadata. *)
Definition slice_document (reader : MncwfV4Reader) (selection : MncwfV4SelectionDescriptor) : MncwfV4Document :=
  mkDocument (sel_capture_metadata selection) (sel_timebase_segments selection) (channels_ reader) (sel_events selection)
    (sel_quality_intervals selection) (sel_lineage selection) (sel_frame_count selection) (sample_frame_bytes_ reader)
    (slice (sample_data_ reader) (sel_source_first_frame selection * sample_frame_bytes_ reader)
       (sel_frame_count selection * sample_frame_bytes_ reader)).

(** [typed_goal] reduces a record's typing to the fields that were assigned. *)
Ltac typed_in H :=
  unfold typed_by, segment_puts, event_puts, quality_puts, lineage_puts, capture_puts in H; cbn [forallb put_typed] in H;
  rewrite !andb_true_iff in H;
  repeat match type of H with _ /\ _ => let H1 := fresh "T" in destruct H as [H1 H];
    try match type of H1 with _ /\ _ => destruct H1 end end.
Ltac typed_goal :=
  unfold typed_by, segment_puts, event_puts, quality_puts, lineage_puts, capture_puts; cbn [forallb put_typed];
  rewrite !andb_true_iff; split_and!; try done.

Lemma fits64_wrap z : fits 64 (u64 z) = true.
Proof. apply fits_iff, wrap_range. lia. Qed.

Lemma fits64_of z : 0 <= z <= UINT64_MAX -> fits 64 z = true.
Proof. intros. apply fits_iff. unfold UINT64_MAX in *. lia. Qed.

Lemma fits64_range z : fits 64 z = true -> 0 <= z <= UINT64_MAX.
Proof. intros H. apply fits_iff in H. unfold UINT64_MAX. lia. Qed.

Lemma fits_land n z mask : 0 <= n -> fits n z = true -> fits n (Z.land z mask) = true.
Proof.
  intros Hn H. apply fits_iff in H. apply fits_iff. split; [apply Z.land_nonneg; lia|].
  rewrite Z.land_comm. destruct (Z.eq_dec z 0) as [->|Hz]; [rewrite Z.land_0_r; lia|].
  pose proof (land_le_mask mask z ltac:(lia)). lia.
Qed.

Lemma fits_lor n a b : 0 <= n -> fits n a = true -> fits n b = true -> fits n (Z.lor a b) = true.
Proof.
  intros Hn Ha Hb. apply fits_iff in Ha, Hb. apply fits_iff. split; [apply Z.lor_nonneg; lia|].
  destruct (Z.eq_dec (Z.lor a b) 0) as [->|Hz]; [lia|].
  assert (0 < Z.lor a b) by (pose proof (proj2 (Z.lor_nonneg a b) ltac:(lia)); lia).
  apply Z.log2_lt_pow2; [done|]. rewrite Z.log2_lor by lia.
  apply Z.max_lub_lt.
  - destruct (Z.eq_dec a 0) as [->|]; [|apply Z.log2_lt_pow2; lia].
    destruct (Z.eq_dec n 0) as [->|]; [|simpl; lia]. simpl in *. assert (b = 0) by lia. subst. done.
  - destruct (Z.eq_dec b 0) as [->|]; [|apply Z.log2_lt_pow2; lia].
    destruct (Z.eq_dec n 0) as [->|]; [|simpl; lia]. simpl in *. assert (a = 0) by lia. subst. done.
Qed.

Lemma checked_add_fits l r label z : 0 <= l -> 0 <= r -> checked_add l r label = Ok z -> fits 64 z = true /\ z = l + r.
Proof. intros Hl Hr [H ->]%checked_add_Ok. split; [apply fits64_of; lia|done]. Qed.

(** A loop that keeps a property of its state. *)
Lemma fold_result_inv {S A} (turn : S -> A -> result S) (I : S -> Prop) (P : A -> Prop) items : forall state out,
  (forall st a st', I st -> P a -> turn st a = Ok st' -> I st') ->
  I state -> Forall P items -> fold_result turn state items = Ok out -> I out.
Proof.
  induction items as [|a items IH]; intros state out Ht Hi Hp H; cbn [fold_result] in H; [by injection H as <-|].
  apply bind_Ok in H as (st & G & H). apply Forall_cons_iff in Hp as [Ha Hp]. eapply IH; [done| |done|done]. by eapply Ht.
Qed.

(** ** Segments and quality intervals *)

Lemma slice_segment_typed first_frame last_frame timebase source out :
  0 <= first_frame -> Forall (typed_by segment_puts) timebase -> typed_by segment_puts source ->
  slice_segment first_frame last_frame timebase source = Ok out -> Forall (typed_by segment_puts) out.
Proof.
  intros Hf Ht Hs H. unfold slice_segment in H. pose proof Hs as Hs'. typed_in Hs'.
  repeat match goal with T : fits 64 _ = true |- _ => apply fits64_range in T end.
  match goal with T : fits 32 (seg_decimation_divisor source) = true |- _ => apply fits_iff in T as Td end.
  apply bind_Ok in H as (se & G1 & H). apply checked_add_Ok in G1 as [G1 ->].
  destruct (Z.leb_spec (Z.min (seg_first_frame source + seg_frame_count source) last_frame)
              (Z.max (seg_first_frame source) first_frame)) as [_|Hlt]; [by injection H as <-|].
  apply bind_Ok in H as (sk & G2 & H). apply checked_multiply_Ok in G2 as [G2 ->]; [|lia|lia].
  apply bind_Ok in H as (fs & G3 & H). apply checked_add_fits in G3 as [G3 _]; [|lia|nia].
  apply bind_Ok in H as (oe & _ & H). apply bind_Ok in H as (co & _ & H). apply bind_Ok in H as (ce & _ & H).
  injection H as <-. apply Forall_app. split; [done|]. constructor; [|constructor].
  typed_in Hs. typed_goal; cbn [with_extent seg_first_frame seg_frame_count seg_first_sequence seg_source_frame_count seg_flags].
  - apply fits64_of. lia.
  - apply fits64_of. lia.
  - destruct timebase; [|done]. by apply fits_land.
  - apply fits64_wrap.
Qed.

Lemma frame_source_bounds_range segments frame bounds :
  Forall (typed_by segment_puts) segments -> frame_source_bounds segments frame = Ok bounds ->
  0 <= bounds.1 <= UINT64_MAX /\ 0 <= bounds.2 <= UINT64_MAX.
Proof.
  intros Hs H. unfold frame_source_bounds in H. destruct (List.find _ segments) as [s|] eqn:E; [|done].
  apply List.find_some in E as [Hin Hh]. unfold holds_frame in Hh. bools.
  rewrite List.Forall_forall in Hs. pose proof (Hs _ Hin) as Ht. typed_in Ht.
  match goal with T : fits 32 (seg_decimation_divisor s) = true |- _ => apply fits_iff in T end.
  match goal with T : fits 64 (seg_first_sequence s) = true |- _ => apply fits64_range in T end.
  apply bind_Ok in H as (d & G1 & H). apply checked_multiply_Ok in G1 as [G1 ->]; [|lia|lia].
  apply bind_Ok in H as (f & G2 & H). apply checked_add_Ok in G2 as [G2 ->].
  apply bind_Ok in H as (e & _ & H). apply bind_Ok in H as (g & _ & H). injection H as <-. cbn [fst snd].
  split; [nia|]. apply fits64_range, fits64_wrap.
Qed.

Lemma slice_quality_typed segments first_frame last_frame quality source out :
  0 <= first_frame -> Forall (typed_by segment_puts) segments -> Forall (typed_by quality_puts) quality ->
  typed_by quality_puts source ->
  slice_quality segments first_frame last_frame quality source = Ok out -> Forall (typed_by quality_puts) out.
Proof.
  intros Hf Hseg Hq Hs H. unfold slice_quality in H. pose proof Hs as Hs'. typed_in Hs'.
  repeat match goal with T : fits 64 _ = true |- _ => apply fits64_range in T end.
  apply bind_Ok in H as (se & G1 & H). apply checked_add_Ok in G1 as [G1 ->].
  destruct (Z.leb_spec (Z.min (qi_first_frame source + qi_frame_count source) last_frame)
              (Z.max (qi_first_frame source) first_frame)) as [_|Hlt]; [by injection H as <-|].
  apply bind_Ok in H as (fb & G2 & H). apply frame_source_bounds_range in G2 as [B1 _]; [|done].
  apply bind_Ok in H as (lb & G3 & H). apply frame_source_bounds_range in G3 as [_ B2]; [|done].
  injection H as <-. cbn [qi_first_sequence qi_last_sequence]. destruct (_ <=? _); [|done].
  apply Forall_app. split; [done|]. constructor; [|constructor]. typed_in Hs. typed_goal; apply fits64_of; cbn; lia.
Qed.

(** ** Events *)

Lemma with_times_typed event start current last trigger :
  event_typed event ->
  (forall t, In t [start; current; last; trigger] -> fits 64 t.1 = true /\ fits 64 t.2 = true) ->
  event_typed (with_times event start current last trigger).
Proof.
  intros [Ht He] Hf. split; [|done]. typed_in Ht.
  destruct (Hf start ltac:(simpl; tauto)), (Hf current ltac:(simpl; tauto)), (Hf last ltac:(simpl; tauto)),
    (Hf trigger ltac:(simpl; tauto)). typed_goal.
Qed.

Lemma with_anchors_typed event lifecycle flags start current last trigger duration :
  event_typed event -> fits 32 flags = true ->
  fits 64 start = true -> fits 64 current = true -> fits 64 last = true -> fits 64 trigger = true ->
  fits 64 duration = true -> event_typed (with_anchors event lifecycle flags start current last trigger duration).
Proof.
  intros [Ht He] ? ? ? ? ? ?. split; [|done]. typed_in Ht. typed_goal. by destruct lifecycle.
Qed.

Lemma timestamp_fits segments sequence utc time :
  Forall (typed_by segment_puts) segments -> fits 64 sequence = true ->
  timestamp_for_sequence segments sequence utc = Ok time -> fits 64 time = true.
Proof.
  intros Hs Hq H. unfold timestamp_for_sequence, segment_for_sequence in H.
  destruct (List.find _ segments) as [s|] eqn:E; [|done]. cbn [mbind result_bind] in H.
  apply List.find_some in E as [Hin _]. rewrite List.Forall_forall in Hs. pose proof (Hs _ Hin) as Ht. typed_in Ht.
  repeat match goal with T : fits 64 _ = true |- _ => apply fits64_range in T end.
  set (anchor := if utc then _ else _) in H. assert (0 <= anchor <= UINT64_MAX) as Ha by (subst anchor; by destruct utc).
  apply bind_Ok in H as (? & _ & H). apply bind_Ok in H as (sc & G1 & H).
  set (delta := if _ <=? _ then _ else _) in G1.
  assert (0 <= delta) as Hd by (subst delta; destruct (Z.leb_spec (seg_correlation_sequence s) sequence); lia).
  apply checked_multiply_Ok in G1 as [_ ->]; [|lia|lia].
  apply bind_Ok in H as (pr & G2 & H). apply checked_multiply_Ok in G2 as [_ ->]; [|nia|lia].
  apply bind_Ok in H as (ns & G3 & H). unfold divide in G3. destruct (Z.eqb_spec (seg_acquisition_rate_numerator s) 0); [done|].
  injection G3 as <-. set (ns := _ / _) in H. assert (0 <= ns) as Hns by (apply Z.div_pos; nia).
  destruct (seg_correlation_sequence s <=? sequence); [eapply checked_add_fits; [| |exact H]; lia|].
  apply bind_Ok in H as (? & G4 & H). apply guard_reject_Ok, Z.ltb_ge in G4. injection H as <-. apply fits64_of. lia.
Qed.

Lemma stamp_fits flags segments sequence original times out :
  Forall (typed_by segment_puts) segments -> fits 64 sequence = true -> fits 64 times.1 = true -> fits 64 times.2 = true ->
  stamp flags segments sequence original times = Ok out -> fits 64 out.1 = true /\ fits 64 out.2 = true.
Proof.
  intros Hs Hq H1 H2 H. unfold stamp in H. apply bind_Ok in H as (tai & G1 & H). apply bind_Ok in H as (utc & G2 & H).
  injection H as <-. cbn [fst snd]. split.
  - clear G2. destruct (negb _); [by injection G1 as <-|]. destruct (negb _); [exact (timestamp_fits _ _ _ _ Hs Hq G1)|by injection G1 as <-].
  - clear G1. destruct (negb _); [by injection G2 as <-|]. destruct (negb _); [exact (timestamp_fits _ _ _ _ Hs Hq G2)|by injection G2 as <-].
Qed.

Lemma restamp_typed event original segments out :
  Forall (typed_by segment_puts) segments -> event_typed event ->
  restamp_event event original segments = Ok out -> event_typed out.
Proof.
  intros Hs He H. unfold restamp_event in H. pose proof He as [Ht _]. typed_in Ht.
  apply bind_Ok in H as (a & G1 & H). apply bind_Ok in H as (b & G2 & H). apply bind_Ok in H as (c & G3 & H).
  apply bind_Ok in H as (d & G4 & H). injection H as <-. apply with_times_typed; [done|].
  assert (forall bit sequence orig times out, fits 64 sequence = true -> fits 64 times.1 = true -> fits 64 times.2 = true ->
    (if any_bit (ev_flags event) bit then stamp (ev_flags event) segments sequence orig times else Ok (0, 0)) = Ok out ->
    fits 64 out.1 = true /\ fits 64 out.2 = true) as Hg.
  { intros bit sequence orig times o Q1 Q2 Q3 G. destruct (any_bit (ev_flags event) bit); [exact (stamp_fits _ _ _ _ _ _ Hs Q1 Q2 Q3 G)|by injection G as <-]. }
  intros t Hin. cbn [In] in Hin. destruct Hin as [<-|[<-|[<-|[<-|[]]]]].
  - eapply stamp_fits; [exact Hs| | | |exact G1]; done.
  - eapply Hg; [| | |exact G2]; done.
  - eapply Hg; [| | |exact G3]; done.
  - eapply Hg; [| | |exact G4]; done.
Qed.

Lemma clamp_Ok low high value out :
  clamp low high value = Ok out -> low <= out <= high /\ (low <= value <= high -> out = value).
Proof.
  unfold clamp. destruct (Z.ltb_spec high low); [done|]. intros [= <-].
  destruct (Z.ltb_spec value low); [lia|]. destruct (Z.ltb_spec high value); lia.
Qed.

Lemma clip_event_typed slice_first slice_last source event :
  fits 64 slice_first = true -> fits 64 slice_last = true -> event_typed source ->
  clip_event slice_first slice_last source = Ok event -> event_typed event.
Proof.
  intros Hf Hl Hs H. apply fits64_range in Hf, Hl. pose proof Hs as [Ht _]. typed_in Ht.
  match goal with T : fits 32 (ev_flags source) = true |- _ => rename T into Tf end.
  repeat match goal with T : fits 64 _ = true |- _ => apply fits64_range in T end.
  unfold clip_event in H. apply bind_Ok in H as (start & G1 & H). apply clamp_Ok in G1 as [G1 _].
  apply bind_Ok in H as (current & G2 & H). apply bind_Ok in H as ([flags last] & G3 & H).
  assert (0 <= current <= UINT64_MAX) as Hc.
  { destruct (any_bit (ev_flags source) mncwf_event_current_valid); [|by injection G2 as <-]. apply bind_Ok in G2 as (c & G2 & G2'). apply clamp_Ok in G2 as [G2 _].
    injection G2' as <-. lia. }
  assert (fits 32 flags = true /\ 0 <= last <= UINT64_MAX) as [Hfl Hla].
  { destruct (_ && (slice_last <? ev_end_sequence source)); [injection G3 as <- <-; split; [by apply fits_land|done]|].
    destruct (any_bit (ev_flags source) mncwf_event_end_valid); [|by injection G3 as <- <-]. apply bind_Ok in G3 as (c & G3 & G3').
    apply clamp_Ok in G3 as [G3 _]. injection G3' as <- <-. split; [done|lia]. }
  match type of H with (match ?x with (_, _) => _ end) = _ => destruct x as [flags2 trigger] eqn:E end.
  assert (fits 32 flags2 = true /\ 0 <= trigger <= UINT64_MAX) as [Hf2 Htr].
  { destruct (_ && (_ || _)); injection E as <- <-; split; try done. by apply fits_land. }
  injection H as <-. set (fl := if _ || _ then Z.lor flags2 mncwf_event_discontinuous else flags2).
  assert (fits 32 fl = true) as Hfl3 by (subst fl; match goal with |- fits _ (if ?b then _ else _) = _ => destruct b end; [by apply fits_lor|done]).
  apply with_anchors_typed; try done; try (apply fits64_of; lia); [|apply fits64_wrap].
  apply with_anchors_typed; try done; try (apply fits64_of; lia).
Qed.

Lemma slice_event_typed slice_first slice_last timebase events source out :
  fits 64 slice_first = true -> fits 64 slice_last = true -> Forall (typed_by segment_puts) timebase ->
  Forall event_typed events -> event_typed source ->
  slice_event slice_first slice_last timebase events source = Ok out -> Forall event_typed out.
Proof.
  intros Hf Hl Ht He Hs H. unfold slice_event in H. destruct (_ || _); [by injection H as <-|].
  apply bind_Ok in H as (e & G1 & H). apply bind_Ok in H as (e' & G2 & H). injection H as <-.
  apply Forall_app. split; [done|]. constructor; [|constructor]. eapply restamp_typed; [done| |done].
  exact (clip_event_typed _ _ _ _ Hf Hl Hs G1).
Qed.

(** ** Capture and lineage *)

Lemma stamp_uuid_typed version uuid :
  fits 8 version = true -> length uuid = 16%nat -> forallb (fits 8) uuid = true ->
  length (stamp_uuid version uuid) = 16%nat /\ forallb (fits 8) (stamp_uuid version uuid) = true.
Proof.
  intros Hv Hl Hb. unfold stamp_uuid. rewrite !length_insert. split; [done|].
  apply forallb_forall. intros x Hx%list_elem_of_In. rewrite forallb_forall in Hb.
  assert (forall k, fits 8 (nth k uuid 0) = true) as Hk.
  { intros k. destruct (nth_in_or_default k uuid 0) as [Hin| ->]; [by apply Hb|done]. }
  apply list_elem_of_lookup in Hx as [i Hi].
  rewrite list_lookup_insert_Some in Hi. destruct Hi as [(<- & <- & _)|[_ Hi]].
  { apply fits_lor; [done| |done]. apply fits_land; [done|].
    assert (forall a l k, fits 8 a = true -> (forall j, fits 8 (nth j l 0) = true) -> fits 8 (nth 8 (<[k:=a]> l) 0) = true) as Hn.
    { intros a l k Ha Hl'. rewrite nth_lookup. destruct (<[k:=a]> l !! 8%nat) as [y|] eqn:E; [|done].
      apply list_lookup_insert_Some in E as [(_ & <- & _)|[_ E]]; [done|]. specialize (Hl' 8%nat).
      rewrite nth_lookup, E in Hl'. done. }
    apply Hn; [|done]. apply fits_lor; [done| |done]. by apply fits_land. }
  apply list_lookup_insert_Some in Hi as [(_ & <- & _)|[_ Hi]].
  - apply fits_lor; [done| |done]. by apply fits_land.
  - apply Hb, list_elem_of_In. by eapply list_elem_of_lookup_2.
Qed.

Lemma virtual_uuid_typed SHA256 parent event first_frame frame_count uuid :
  digest_typed SHA256 -> virtual_capture_uuid SHA256 parent event first_frame frame_count = Ok uuid ->
  length uuid = 16%nat /\ forallb (fits 8) uuid = true.
Proof.
  intros Hs H. unfold virtual_capture_uuid in H. apply bind_Ok in H as (a & _ & H). apply bind_Ok in H as (b & _ & H).
  apply bind_Ok in H as (digest & G & H). injection H as <-. unfold mncwf_sha256 in G.
  destruct (SHA256 b) as [d|] eqn:E; [|done]. injection G as ->. apply Hs in E as [El Eb].
  apply stamp_uuid_typed; [done|by rewrite length_take, El|].
  rewrite forallb_forall in *. intros x Hx. apply Eb. rewrite <- (take_drop 16 digest). apply in_or_app. by left.
Qed.

Lemma slice_capture_typed capture uuid :
  typed_by capture_puts capture -> length uuid = 16%nat -> forallb (fits 8) uuid = true ->
  typed_by capture_puts (slice_capture capture uuid).
Proof.
  intros Ht Hl Hb. typed_in Ht. typed_goal. cbn. unfold zlen. by rewrite Hl.
Qed.

Lemma slice_lineage_typed slice_first slice_last parent capture event events lineage :
  fits 64 slice_first = true -> fits 64 slice_last = true ->
  length parent = 16%nat -> forallb (fits 8) parent = true -> length capture = 16%nat -> forallb (fits 8) capture = true ->
  length event = 16%nat -> forallb (fits 8) event = true ->
  Forall event_typed events -> Forall (typed_by lineage_puts) lineage ->
  Forall (typed_by lineage_puts) (slice_lineage slice_first slice_last parent capture event events lineage).
Proof.
  intros Hf Hl Lp Bp Lc Bc Le Be He Hli. unfold slice_lineage. apply Forall_app. split.
  - apply Forall_flat_map. eapply List.Forall_impl; [|exact Hli]. intros s Hs. unfold inherited_lineage.
    destruct (_ || _); [constructor|]. constructor; [|constructor]. typed_in Hs.
    repeat match goal with T : fits 64 _ = true |- _ => apply fits64_range in T end. typed_goal; apply fits64_of; cbn; lia.
  - apply Forall_app. split.
    + constructor; [|constructor; [|constructor]]; typed_goal; unfold zlen; cbn; by rewrite ?Lp, ?Le.
    + apply Forall_map. eapply List.Forall_impl; [|exact He]. intros e [Hs _]. typed_in Hs.
      unfold event_last_sequence. typed_goal; try (by case_match; [|case_match]); unfold zlen; cbn; by rewrite Lc.
Qed.

(** ** Selection *)

(** The steps of a successful selection. *)
Lemma selection_steps SHA256 reader uuid sel :
  make_mncwf_v4_event_selection SHA256 reader uuid = Ok sel ->
  exists selected last front back,
    List.find (has_uuid uuid) (events_ reader) = Some selected /\
    fold_result (select_frames (ev_start_sequence selected) (event_last_sequence selected)) (None, 0)
      (timebase_segments_ reader) = Ok (Some (sel_source_first_frame sel), last) /\
    sel_source_first_frame sel < last /\ sel_frame_count sel = last - sel_source_first_frame sel /\
    fold_result (slice_segment (sel_source_first_frame sel) last) [] (timebase_segments_ reader) =
      Ok (sel_timebase_segments sel) /\
    head (sel_timebase_segments sel) = Some front /\ list.last (sel_timebase_segments sel) = Some back /\
    sel_first_sequence sel = seg_first_sequence front /\
    checked_add (seg_first_sequence back) (u64 (seg_source_frame_count back - 1)) "virtual source sequence range" =
      Ok (sel_last_sequence sel) /\
    fold_result (slice_event (sel_first_sequence sel) (sel_last_sequence sel) (sel_timebase_segments sel)) []
      (events_ reader) = Ok (sel_events sel) /\
    existsb (has_uuid uuid) (sel_events sel) = true /\
    fold_result (slice_quality (timebase_segments_ reader) (sel_source_first_frame sel) last) [] (quality_intervals_ reader) =
      Ok (sel_quality_intervals sel) /\
    exists capture_uuid,
      virtual_capture_uuid SHA256 (cap_capture_uuid (capture_metadata_ reader)) uuid (sel_source_first_frame sel)
        (sel_frame_count sel) = Ok capture_uuid /\
      sel_capture_metadata sel = slice_capture (capture_metadata_ reader) capture_uuid /\
      sel_lineage sel = slice_lineage (sel_first_sequence sel) (sel_last_sequence sel)
        (cap_capture_uuid (capture_metadata_ reader)) capture_uuid uuid (sel_events sel) (lineage_ reader).
Proof.
  unfold make_mncwf_v4_event_selection. intros H. apply bind_Ok in H as (u1 & _ & H).
  destruct (List.find _ _) as [selected|] eqn:E1; [|done]. apply bind_Ok in H as ([[first|] last] & E2 & H); [|done].
  apply bind_Ok in H as (u2 & G1 & H). apply guard_reject_Ok, Z.leb_gt in G1.
  apply bind_Ok in H as (timebase & E3 & H).
  destruct (head timebase) as [front|] eqn:E4; [|done]. destruct (list.last timebase) as [back|] eqn:E5; [|done].
  apply bind_Ok in H as (slast & E6 & H). apply bind_Ok in H as (events & E7 & H).
  apply bind_Ok in H as (u3 & G2 & H). apply guard_reject_Ok, negb_false_iff in G2.
  apply bind_Ok in H as (quality & E8 & H). apply bind_Ok in H as (cuuid & E9 & H).
  apply bind_Ok in H as (u4 & _ & H). injection H as <-. cbn.
  exists selected, last, front, back. split_and!; try done. by exists cuuid.
Qed.

Lemma select_frames_range first last state segment out :
  typed_by segment_puts segment -> (forall f, state.1 = Some f -> 0 <= f) -> 0 <= state.2 <= UINT64_MAX ->
  select_frames first last state segment = Ok out -> (forall f, out.1 = Some f -> 0 <= f) /\ 0 <= out.2 <= UINT64_MAX.
Proof.
  intros Ht H1 H2 H. unfold select_frames in H. typed_in Ht.
  match goal with T : fits 64 (seg_first_frame segment) = true |- _ => apply fits64_range in T end.
  match goal with T : fits 32 (seg_decimation_divisor segment) = true |- _ => apply fits_iff in T end.
  apply bind_Ok in H as (sl & _ & H). destruct (_ || _); [by injection H as <-|].
  apply bind_Ok in H as (lf & G1 & H). apply bind_Ok in H as (ll & G2 & H).
  assert (0 <= lf) as Hlf.
  { destruct (Z.leb_spec first (seg_first_sequence segment)); [injection G1 as <-; lia|].
    unfold divide in G1. destruct (Z.eqb_spec (seg_decimation_divisor segment) 0); [done|]. injection G1 as <-.
    apply Z.div_pos; lia. }
  apply bind_Ok in H as (af & G3 & H). apply checked_add_fits in G3 as [_ ->]; [|lia|lia].
  apply bind_Ok in H as (al & G4 & H). apply checked_add_fits in G4 as [G4 _]; [|lia|apply wrap_range; lia].
  apply fits64_range in G4. injection H as <-. cbn [fst snd]. split; [|lia].
  intros f Hf. destruct (state.1) as [g|] eqn:Eg; injection Hf as <-; [specialize (H1 g eq_refl); lia|lia].
Qed.

(** The document of a selection is typed when the reader's is. *)
Lemma selection_typed SHA256 reader uuid sel :
  digest_typed SHA256 -> document_typed (reader_document reader) ->
  make_mncwf_v4_event_selection SHA256 reader uuid = Ok sel ->
  document_typed (slice_document reader sel) /\ 0 <= sel_source_first_frame sel /\ 0 < sel_frame_count sel /\
  sel_source_first_frame sel + sel_frame_count sel <= UINT64_MAX.
Proof.
  intros Hsha (T1 & T2 & T3 & T4 & T5 & T6 & T7 & T8) H.
  cbn [reader_document doc_capture_metadata doc_timebase_segments doc_channels doc_events doc_quality_intervals doc_lineage
       doc_sample_frame_count doc_sample_frame_bytes] in *.
  apply selection_steps in H as (selected & last & front & back & S1 & S2 & S3 & S4 & S5 & S6 & S7 & S8 & S9 & S10 & S11 & S12
    & cuuid & S13 & S14 & S15).
  assert ((forall f, Some (sel_source_first_frame sel) = Some f -> 0 <= f) /\ 0 <= last <= UINT64_MAX) as [I1 I2].
  { eapply (fold_result_inv _ (fun st => (forall f, st.1 = Some f -> 0 <= f) /\ 0 <= st.2 <= UINT64_MAX)
              (typed_by segment_puts) _ _ (Some (sel_source_first_frame sel), last)); [| |exact T2|exact S2].
    - intros st a st' [J1 J2] Ha. by apply select_frames_range.
    - split; [by intros|]. unfold UINT64_MAX. simpl. lia. }
  specialize (I1 _ eq_refl).
  assert (Forall (typed_by segment_puts) (sel_timebase_segments sel)) as Tt.
  { eapply (fold_result_inv _ _ (typed_by segment_puts)); [|constructor|exact T2|exact S5].
    intros st a st' Hst Ha. by apply slice_segment_typed. }
  assert (fits 64 (sel_first_sequence sel) = true) as Tf.
  { rewrite S8. destruct (sel_timebase_segments sel) as [|s l]; [done|]. injection S6 as ->.
    apply Forall_cons_iff in Tt as [Hs _]. by typed_in Hs. }
  assert (fits 64 (sel_last_sequence sel) = true) as Tl.
  { apply last_Some in S7 as [l' El]. rewrite El in Tt. apply Forall_app in Tt as [_ Tt].
    apply Forall_cons_iff in Tt as [Hs _]. typed_in Hs.
    match goal with T : fits 64 (seg_first_sequence back) = true |- _ => apply fits64_range in T end.
    eapply checked_add_fits; [| |exact S9]; [lia|apply wrap_range; lia]. }
  assert (Forall event_typed (sel_events sel)) as Te.
  { eapply (fold_result_inv _ _ event_typed); [|constructor|exact T4|exact S10].
    intros st a st' Hst Ha. by apply slice_event_typed. }
  assert (Forall (typed_by quality_puts) (sel_quality_intervals sel)) as Tq.
  { eapply (fold_result_inv _ _ (typed_by quality_puts)); [|constructor|exact T5|exact S12].
    intros st a st' Hst Ha. by apply slice_quality_typed. }
  apply virtual_uuid_typed in S13 as [Lc Bc]; [|done].
  apply List.find_some in S1 as [Hin Hu]. unfold has_uuid in Hu. apply bool_decide_eq_true in Hu. subst uuid. rewrite List.Forall_forall in T4.
  pose proof (T4 _ Hin) as [Hev _]. typed_in Hev. pose proof T1 as Hcap. typed_in Hcap. bools. unfold zlen in *.
  split; [|lia]. unfold document_typed, slice_document.
  cbn [doc_capture_metadata doc_timebase_segments doc_channels doc_events doc_quality_intervals doc_lineage
       doc_sample_frame_count doc_sample_frame_bytes]. rewrite S14, S15.
  split_and!; try done.
  - apply slice_capture_typed; [done|lia|done].
  - apply slice_lineage_typed; done || lia.
  - apply fits64_of. lia.
Qed.
