(* ===== verification/MncwfSelection.v ===== *)
(** * MNCWF waveform container: the frames of an event

    The interval [make_mncwf_v4_event_selection]
    (src/common/msap1/waveform/mncwf_v4.cpp) selects is the smallest one with every
    frame that holds a sample of the event, and the sliced timebase gives each frame
    the source samples it had in the parent. *)

From S2P Require Import Prelude MncwfTypes MncwfFormat MncwfRecords MncwfReader MncwfEncode MncwfSlice MncwfWire MncwfRoundTrip MncwfSections MncwfFile MncwfChunks MncwfTheorems MncwfTotal MncwfSliceTyped.

(** ** Source samples of a frame *)

(** First and last source sequence of frame [frame] of a segment. *)
Definition frame_low (s : MncwfV4TimebaseSegment) (frame : Z) : Z :=
  seg_first_sequence s + (frame - seg_first_frame s) * seg_decimation_divisor s.
Definition frame_high (s : MncwfV4TimebaseSegment) (frame : Z) : Z :=
  Z.min (seg_first_sequence s + seg_source_frame_count s)
    (seg_first_sequence s + (frame - seg_first_frame s + 1) * seg_decimation_divisor s) - 1.

(** Frame [frame] holds a source sample between [first] and [last]. *)
Definition frame_meets (segments : list MncwfV4TimebaseSegment) (first last frame : Z) : Prop :=
  exists s, In s segments /\ holds_frame frame s = true /\ frame_low s frame <= last /\ first <= frame_high s frame.

Lemma holds_frame_iff frame s :
  holds_frame frame s = true <-> seg_first_frame s <= frame < seg_first_frame s + seg_frame_count s.
Proof. unfold holds_frame. rewrite andb_true_iff, Z.leb_le, Z.ltb_lt. lia. Qed.

Lemma holds_frame_false frame s :
  holds_frame frame s = false <-> frame < seg_first_frame s \/ seg_first_frame s + seg_frame_count s <= frame.
Proof. unfold holds_frame. rewrite andb_false_iff, Z.leb_gt, Z.ltb_ge. lia. Qed.

Lemma timebase_spans_le segments : forall frame sequence last next,
  timebase_spans frame sequence segments last next -> frame <= last.
Proof.
  induction segments as [|s segments IH]; intros frame sequence last next H; cbn [timebase_spans] in H; [lia|].
  destruct H as ((? & _) & _ & _ & _ & H). apply IH in H. lia.
Qed.

Lemma timebase_spans_in segments s : forall frame sequence last next,
  timebase_spans frame sequence segments last next -> In s segments ->
  segment_valid s /\ frame <= seg_first_frame s /\ seg_first_frame s + seg_frame_count s <= last.
Proof.
  induction segments as [|t segments IH]; intros frame sequence last next H Hin; cbn [timebase_spans] in H; [done|].
  destruct H as (Hv & Ef & _ & _ & H). pose proof (timebase_spans_le _ _ _ _ _ H) as Hle.
  destruct Hin as [->|Hin]; [split_and!; [done|lia|lia]|].
  destruct (IH _ _ _ _ H Hin) as (? & ? & ?). pose proof Hv as (? & _). split_and!; [done|lia|lia].
Qed.

(** The frame of a source sample. *)
Lemma quotient_frame x d samples frames :
  0 < d -> 0 <= x < samples -> samples <= frames * d -> 0 <= x / d < frames /\ x / d * d <= x < (x / d + 1) * d.
Proof.
  intros Hd Hx Hs. pose proof (Z.div_mod x d ltac:(lia)) as Edm. pose proof (Z.mod_pos_bound x d Hd) as Hm.
  split; [|lia]. split; [apply Z.div_pos; lia|]. apply Z.div_lt_upper_bound; [done|]. lia.
Qed.

(** ** The selected interval *)

Section selected.
  Context (a b : Z) (Hab : a <= b).

(** What one segment adds: the frames of it that meet the event. *)
Lemma select_frames_segment s state out :
  segment_valid s -> 0 <= seg_first_frame s -> seg_first_frame s + seg_frame_count s <= UINT64_MAX ->
  select_frames a b state s = Ok out ->
  (out = state /\ forall f, holds_frame f s = true -> frame_low s f <= b -> a <= frame_high s f -> False) \/
  exists low high, holds_frame low s = true /\ holds_frame high s = true /\
    frame_low s low <= b /\ a <= frame_high s low /\ frame_low s high <= b /\ a <= frame_high s high /\
    (forall f, holds_frame f s = true -> frame_low s f <= b -> a <= frame_high s f -> low <= f <= high) /\
    out = (Some (match state.1 with Some first => Z.min first low | None => low end), Z.max state.2 (high + 1)).
Proof.
  intros (Hc & Hd & Hq & Hs & Hm) H0 Hmax H.
  assert (0 < seg_source_frame_count s) as Hsp by nia. unfold select_frames in H. unfold UINT64_MAX in *.
  rewrite (wrap_id 64 (seg_source_frame_count s - 1)) in H by (change (2 ^ 64) with 18446744073709551616; lia).
  apply bind_Ok in H as (sl & G1 & H). apply checked_add_Ok in G1 as [_ ->].
  unfold frame_low, frame_high.
  destruct (Z.ltb_spec b (seg_first_sequence s)) as [Hb|Hb]; cbn [orb] in H.
  { injection H as <-. left. split; [done|]. intros f Hf. apply holds_frame_iff in Hf. nia. }
  destruct (Z.ltb_spec (seg_first_sequence s + (seg_source_frame_count s - 1)) a) as [Ha|Ha].
  { injection H as <-. left. split; [done|]. intros f Hf. lia. }
  right. set (d := seg_decimation_divisor s) in *.
  apply bind_Ok in H as (lf & G2 & H). apply bind_Ok in H as (ll & G3 & H).
  unfold divide in G2, G3. fold d in G2, G3. destruct (Z.eqb_spec d 0) as [?|_]; [lia|].
  assert (0 <= lf < seg_frame_count s /\ seg_first_sequence s + lf * d <= b /\ a < seg_first_sequence s + (lf + 1) * d /\
          (lf = 0 \/ seg_first_sequence s + lf * d <= a)) as (L1 & L2 & L3 & L4).
  { destruct (Z.leb_spec a (seg_first_sequence s)); injection G2 as <-; [split_and!; lia|].
    destruct (quotient_frame (a - seg_first_sequence s) d (seg_source_frame_count s) (seg_frame_count s)) as [Q1 Q2]; [lia..|].
    split_and!; try lia. }
  clear G2. assert (0 <= ll < seg_frame_count s /\ seg_first_sequence s + ll * d <= b /\ a < seg_first_sequence s + (ll + 1) * d /\
          (ll = seg_frame_count s - 1 \/ b < seg_first_sequence s + (ll + 1) * d)) as (R1 & R2 & R3 & R4).
  { destruct (Z.leb_spec (seg_first_sequence s + (seg_source_frame_count s - 1)) b); injection G3 as <-.
    - rewrite wrap_id by (change (2 ^ 64) with 18446744073709551616; lia). split_and!; nia.
    - destruct (quotient_frame (b - seg_first_sequence s) d (seg_source_frame_count s) (seg_frame_count s)) as [Q1 Q2]; [lia..|].
      split_and!; lia. }
  apply bind_Ok in H as (af & G4 & H). apply checked_add_Ok in G4 as [_ ->].
  rewrite (wrap_id 64 (ll + 1)) in H by (change (2 ^ 64) with 18446744073709551616; lia).
  apply bind_Ok in H as (al & G5 & H). apply checked_add_Ok in G5 as [_ ->]. injection H as <-.
  exists (seg_first_frame s + lf), (seg_first_frame s + ll). rewrite !holds_frame_iff.
  replace (seg_first_frame s + lf - seg_first_frame s) with lf by lia.
  replace (seg_first_frame s + ll - seg_first_frame s) with ll by lia.
  split_and!; try lia.
  - intros f Hf Hlo Hhi. apply holds_frame_iff in Hf. split.
    + destruct (Z.le_gt_cases (seg_first_frame s + lf) f) as [|Hgt]; [done|].
      pose proof (Z.mul_le_mono_nonneg_r (f - seg_first_frame s + 1) lf d ltac:(lia) ltac:(lia)). lia.
    + destruct (Z.le_gt_cases f (seg_first_frame s + ll)) as [|Hgt]; [done|].
      pose proof (Z.mul_le_mono_nonneg_r (ll + 1) (f - seg_first_frame s) d ltac:(lia) ltac:(lia)). lia.
  - do 2 f_equal. lia.
Qed.

(** [f] is inside the interval found so far. *)
Definition inside (state : option Z * Z) (f : Z) : Prop := exists first, state.1 = Some first /\ first <= f < state.2.

Lemma frame_meets_cons s segments f : frame_meets segments a b f -> frame_meets (s :: segments) a b f.
Proof. intros (t & Hin & Ht). exists t. split; [by right|done]. Qed.

(** The loop finds every frame that meets the event, and its bounds are such frames. *)
Lemma select_frames_fold segments : forall frame sequence last next state out,
  timebase_spans frame sequence segments last next -> 0 <= frame ->
  fold_result (select_frames a b) state segments = Ok out ->
  (forall f, inside state f \/ frame_meets segments a b f -> inside out f) /\
  (forall first, out.1 = Some first -> state.1 = Some first \/ frame_meets segments a b first) /\
  (out.2 = state.2 \/ frame_meets segments a b (out.2 - 1)).
Proof.
  induction segments as [|s segments IH]; intros frame sequence last next state out Hs H0 H; cbn [fold_result] in H.
  { injection H as <-. split_and!; [|tauto|by left]. intros f [Hf|(t & [] & _)]. done. }
  apply bind_Ok in H as (st & G & H). cbn [timebase_spans] in Hs. destruct Hs as (Hv & Ef & _ & Hm & Hs).
  pose proof Hv as (Hc & _). destruct (IH _ _ _ _ _ _ Hs ltac:(lia) H) as (I1 & I2 & I3).
  assert (forall f, frame_meets (s :: segments) a b f ->
    (holds_frame f s = true /\ frame_low s f <= b /\ a <= frame_high s f) \/ frame_meets segments a b f) as Hcases.
  { intros f (t & [->|Hin] & Ht); [by left|right]. by exists t. }
  destruct (select_frames_segment s state st Hv ltac:(lia) ltac:(lia) G)
    as [[-> Hno]|(low & high & K1 & K2 & K3 & K4 & K5 & K6 & K7 & ->)].
  - split_and!.
    + intros f [Hf|Hf]; apply I1; [by left|]. destruct (Hcases f Hf) as [(? & ? & ?)|Hf']; [|by right].
      exfalso. by eapply Hno.
    + intros first Hf. destruct (I2 _ Hf); [by left|right; by apply frame_meets_cons].
    + destruct I3; [by left|right; by apply frame_meets_cons].
  - cbn [fst snd] in *. split_and!.
    + intros f Hf. apply I1. assert (inside state f \/ low <= f <= high \/ frame_meets segments a b f) as Hf'.
      { destruct Hf as [Hf|Hf]; [by left|]. destruct (Hcases f Hf) as [(? & ? & ?)|?]; [|tauto]. right. left. by apply K7. }
      destruct Hf' as [(g & Eg & Hg)|[Hf'|Hf']]; [left|left|by right].
      * rewrite Eg. eexists. split; [reflexivity|]. cbn. lia.
      * eexists. split; [reflexivity|]. cbn. destruct (state.1); lia.
    + intros first Hf. destruct (I2 _ Hf) as [Hf'|Hf']; [|right; by apply frame_meets_cons].
      injection Hf' as <-. destruct (state.1) as [g|]; [|right; exists s; split; [by left|done]].
      destruct (Z.min_spec g low) as [[_ ->]|[_ ->]]; [by left|right]. exists s. split; [by left|done].
    + destruct I3 as [I3|I3]; [|right; by apply frame_meets_cons]. rewrite I3.
      destruct (Z.max_spec state.2 (high + 1)) as [[_ ->]|[_ ->]]; [right|by left].
      rewrite Z.add_simpl_r. exists s. split; [by left|done].
Qed.
End selected.

(** ** The sliced timebase *)

(** What a selected frame's segment becomes. *)
Definition segment_cut (first last : Z) (s t : MncwfV4TimebaseSegment) : Prop :=
  let start := Z.max (seg_first_frame s) first in
  let stop := Z.min (seg_first_frame s + seg_frame_count s) last in
  let sequence := seg_first_sequence s + (start - seg_first_frame s) * seg_decimation_divisor s in
  seg_first_frame t = start - first /\ seg_frame_count t = stop - start /\ seg_first_sequence t = sequence /\
  seg_decimation_divisor t = seg_decimation_divisor s /\
  seg_source_frame_count t =
    Z.min (seg_first_sequence s + seg_source_frame_count s)
      (seg_first_sequence s + (stop - seg_first_frame s) * seg_decimation_divisor s) - sequence.

Lemma slice_segment_cases first last timebase s out :
  segment_valid s -> slice_segment first last timebase s = Ok out ->
  (out = timebase /\ Z.min (seg_first_frame s + seg_frame_count s) last <= Z.max (seg_first_frame s) first) \/
  exists t, out = timebase ++ [t] /\ segment_cut first last s t.
Proof.
  intros (Hc & Hd & Hq & Hs & Hm) H. unfold slice_segment in H.
  apply bind_Ok in H as (se & G1 & H). apply checked_add_Ok in G1 as [_ ->].
  destruct (Z.leb_spec (Z.min (seg_first_frame s + seg_frame_count s) last) (Z.max (seg_first_frame s) first)) as [Hle|Hlt].
  { left. by injection H as <-. }
  right. set (start := Z.max _ first) in *. set (stop := Z.min _ last) in *.
  apply bind_Ok in H as (sk & G2 & H). apply checked_multiply_Ok in G2 as [_ ->]; [|lia|lia].
  apply bind_Ok in H as (fs & G3 & H). apply checked_add_Ok in G3 as [_ ->].
  apply bind_Ok in H as (oe & G4 & H). apply checked_add_Ok in G4 as [G4 ->].
  apply bind_Ok in H as (co & G5 & H). apply checked_multiply_Ok in G5 as [_ ->]; [|lia|lia].
  apply bind_Ok in H as (ce & G6 & H). apply checked_add_Ok in G6 as [_ ->]. injection H as <-.
  eexists. split; [reflexivity|]. unfold segment_cut. fold start stop. cbn.
  split_and!; try done. apply wrap_id. change (2 ^ 64) with 18446744073709551616. unfold UINT64_MAX in *.
  set (d := seg_decimation_divisor s) in *.
  pose proof (Z.mul_le_mono_nonneg_r (start - seg_first_frame s) (seg_frame_count s - 1) d ltac:(lia) ltac:(lia)).
  pose proof (Z.mul_le_mono_nonneg_r (start - seg_first_frame s) (stop - seg_first_frame s) d ltac:(lia) ltac:(lia)).
  pose proof (Z.mul_nonneg_nonneg (start - seg_first_frame s) d ltac:(lia) ltac:(lia)). lia.
Qed.

Lemma slice_fold_prefix first last segments : forall timebase out frame sequence stop next,
  timebase_spans frame sequence segments stop next ->
  fold_result (slice_segment first last) timebase segments = Ok out -> exists more, out = timebase ++ more.
Proof.
  induction segments as [|s segments IH]; intros timebase out frame sequence stop next Hs H; cbn [fold_result] in H.
  { injection H as <-. exists []. by rewrite app_nil_r. }
  apply bind_Ok in H as (tb & G & H). destruct Hs as (Hv & _ & _ & _ & Hs).
  apply (IH _ _ _ _ _ _ Hs) in H as [more ->].
  apply slice_segment_cases in G as [[-> _]|(t & -> & _)]; [by exists more| |done].
  exists (t :: more). by rewrite <- app_assoc.
Qed.

Lemma find_app_none {A} (p : A -> bool) l k : (forall x, In x l -> p x = false) -> List.find p (l ++ k) = List.find p k.
Proof.
  induction l as [|x l IH]; intros Hn; [done|]. cbn. rewrite (Hn x (or_introl eq_refl)). apply IH. intros y Hy. apply Hn. by right.
Qed.

(** A selected frame lies in the cut of its segment. *)
Lemma slice_fold_find first last segments f : forall timebase out frame sequence stop next,
  timebase_spans frame sequence segments stop next -> frame <= f < stop -> first <= f < last ->
  (forall t, In t timebase -> holds_frame (f - first) t = false) ->
  fold_result (slice_segment first last) timebase segments = Ok out ->
  exists s t, List.find (holds_frame f) segments = Some s /\ List.find (holds_frame (f - first)) out = Some t /\
    segment_valid s /\ segment_cut first last s t.
Proof.
  induction segments as [|s segments IH]; intros timebase out frame sequence stop next Hs Hf Hfl Hno H.
  { destruct Hs as [-> _]. lia. }
  cbn [fold_result] in H. apply bind_Ok in H as (tb & G & H). pose proof Hs as (Hv & Ef & _ & _ & Hs').
  cbn [List.find]. destruct (holds_frame f s) eqn:Eh.
  - apply holds_frame_iff in Eh. pose proof (slice_fold_prefix _ _ _ _ _ _ _ _ _ Hs' H) as [more ->].
    apply slice_segment_cases in G as [[_ Hle]|(t & -> & Ht)]; [lia| |done].
    exists s, t. split_and!; try done. rewrite <- app_assoc, find_app_none by done. cbn.
    destruct Ht as (T1 & T2 & _). replace (holds_frame (f - first) t) with true; [done|].
    symmetry. apply holds_frame_iff. lia.
  - apply holds_frame_false in Eh. assert (frame + seg_frame_count s <= f) as Hge by lia.
    eapply (IH tb); [exact Hs'|lia|done| |done].
    apply slice_segment_cases in G as [[-> _]|(t & -> & Ht)]; [done| |done].
    intros x [Hx|[<-|[]]]%in_app_or; [by apply Hno|]. apply holds_frame_false. destruct Ht as (T1 & T2 & _). lia.
Qed.

(** The sliced timebase labels every frame as the parent does. *)
Lemma slice_bounds first last segments out frame next f :
  timebase_spans 0 0 segments frame next -> 0 <= first -> first <= f < last -> f < frame ->
  fold_result (slice_segment first last) [] segments = Ok out ->
  frame_source_bounds out (f - first) = frame_source_bounds segments f.
Proof.
  intros Hs H0 Hf Hfr H.
  destruct (slice_fold_find first last segments f [] out 0 0 frame next) as (s & t & Es & Et & Hv & T1 & T2 & T3 & T4 & T5);
    try done; [lia|].
  unfold frame_source_bounds. rewrite Es, Et. apply List.find_some in Es as [_ Es], Et as [_ Et].
  apply holds_frame_iff in Es, Et. destruct Hv as (Hc & Hd & Hq & Hsf & Hm). rewrite T4.
  set (d := seg_decimation_divisor s) in *. set (start := Z.max (seg_first_frame s) first) in *.
  set (stop := Z.min _ last) in *.
  assert (0 <= (f - seg_first_frame s) * d <= (seg_frame_count s - 1) * d) as P1.
  { split; [apply Z.mul_nonneg_nonneg; lia|apply Z.mul_le_mono_nonneg_r; lia]. }
  assert (0 <= (start - seg_first_frame s) * d /\ 0 <= (f - start) * d) as [P2 P3] by (split; apply Z.mul_nonneg_nonneg; lia).
  assert ((f - start + 1) * d <= (stop - start) * d) as P4 by (apply Z.mul_le_mono_nonneg_r; lia).
  rewrite (proj2 (checked_multiply_Ok (f - first - seg_first_frame t) d _ ((f - start) * d) ltac:(lia) ltac:(lia)))
    by (rewrite T1; split; [replace (f - first - (start - first)) with (f - start) by lia; lia|f_equal; lia]).
  rewrite (proj2 (checked_multiply_Ok (f - seg_first_frame s) d _ ((f - seg_first_frame s) * d) ltac:(lia) ltac:(lia)))
    by (split; [lia|done]).
  cbn [mbind result_bind].
  rewrite (proj2 (checked_add_Ok (seg_first_sequence t) ((f - start) * d) _ (seg_first_sequence s + (f - seg_first_frame s) * d)))
    by (rewrite T3; lia).
  rewrite (proj2 (checked_add_Ok (seg_first_sequence s) ((f - seg_first_frame s) * d) _ (seg_first_sequence s + (f - seg_first_frame s) * d)))
    by lia.
  cbn [mbind result_bind].
  rewrite (proj2 (checked_add_Ok (seg_first_sequence t) (seg_source_frame_count t) _ (seg_first_sequence t + seg_source_frame_count t)))
    by (rewrite T3, T5; lia).
  rewrite (proj2 (checked_add_Ok (seg_first_sequence s) (seg_source_frame_count s) _ (seg_first_sequence s + seg_source_frame_count s)))
    by lia.
  cbn [mbind result_bind]. destruct (checked_add _ d _) as [g|] eqn:Eg; [|done]. cbn [mbind result_bind].
  apply checked_add_Ok in Eg as [_ ->]. do 3 f_equal. rewrite T3, T5. lia.
Qed.

(** The selected interval lies in the capture and its bounds meet the event. *)
Lemma selection_bounds `{ZstdLibrary} SHA256 bytes mode reader uuid sel :
  Forall is_byte bytes -> make_reader bytes mode = Ok reader -> make_mncwf_v4_event_selection SHA256 reader uuid = Ok sel ->
  let first := sel_source_first_frame sel in
  let last := first + sel_frame_count sel in
  0 <= first < last /\ last <= sample_frame_count_ reader /\
  exists event, In event (events_ reader) /\ ev_event_uuid event = uuid /\
    let meets := frame_meets (timebase_segments_ reader) (ev_start_sequence event) (event_last_sequence event) in
    meets first /\ meets (last - 1) /\ forall frame, meets frame -> first <= frame < last.
Proof.
  intros Hb Hr Hs first last. apply make_reader_ok in Hr as (_ & _ & (next & Hsp) & Hev & _); [|done].
  apply selection_steps in Hs as (event & stop & front & back & S1 & S2 & S3 & S4 & S5 & _).
  apply List.find_some in S1 as [Hin Hu]. unfold has_uuid in Hu. apply bool_decide_eq_true in Hu.
  rewrite List.Forall_forall in Hev. pose proof (Hev _ Hin) as Hord. unfold event_ordered in Hord.
  destruct (select_frames_fold _ _ Hord _ _ _ _ _ _ _ Hsp ltac:(done) S2) as (I1 & I2 & I3). cbn [fst snd] in *.
  destruct (I2 _ eq_refl) as [?|Hfirst]; [done|].
  assert (forall f, frame_meets (timebase_segments_ reader) (ev_start_sequence event) (event_last_sequence event) f ->
    0 <= f < sample_frame_count_ reader) as Hrange.
  { intros f (s & Hs & Hh & _). apply holds_frame_iff in Hh.
    destruct (timebase_spans_in _ _ _ _ _ _ Hsp Hs) as (_ & ? & ?). lia. }
  pose proof (Hrange _ Hfirst) as Hf0. destruct I3 as [->|Hlast]; [lia|]. pose proof (Hrange _ Hlast) as Hl0.
  assert (last = stop) as El by (subst first last; lia). rewrite El. subst first. split_and!; try lia.
  exists event. split_and!; try done. intros frame Hm. destruct (I1 frame (or_intror Hm)) as (g & [= <-] & Hg). done.
Qed.

Lemma selection_in_capture `{ZstdLibrary} SHA256 bytes mode reader uuid sel :
  Forall is_byte bytes -> make_reader bytes mode = Ok reader -> make_mncwf_v4_event_selection SHA256 reader uuid = Ok sel ->
  0 <= sel_source_first_frame sel /\ sel_source_first_frame sel + sel_frame_count sel <= sample_frame_count_ reader.
Proof. intros Hb Hr Hs. destruct (selection_bounds _ _ _ _ _ _ Hb Hr Hs) as ([? _] & ? & _). done. Qed.

(** (C23) The selection of an event.  In any file the reader accepts, the frames
    selected for an event are the smallest interval of stored frames with every frame
    that holds one of the event's source samples, decimated segments and sequence
    gaps included; and the sliced timebase assigns each selected frame exactly the
    source samples the parent assigns it. *)
Theorem event_selection_frames `{ZstdLibrary} SHA256 bytes mode reader uuid sel :
  Forall is_byte bytes -> make_reader bytes mode = Ok reader ->
  make_mncwf_v4_event_selection SHA256 reader uuid = Ok sel ->
  let first := sel_source_first_frame sel in
  let last := first + sel_frame_count sel in
  0 <= first < last /\ last <= sample_frame_count_ reader /\
  (exists event, In event (events_ reader) /\ ev_event_uuid event = uuid /\
     let meets := frame_meets (timebase_segments_ reader) (ev_start_sequence event) (event_last_sequence event) in
     meets first /\ meets (last - 1) /\ forall frame, meets frame -> first <= frame < last) /\
  forall index, 0 <= index < sel_frame_count sel ->
    frame_source_bounds (sel_timebase_segments sel) index =
    frame_source_bounds (timebase_segments_ reader) (first + index).
Proof.
  intros Hb Hr Hs first last. destruct (selection_bounds _ _ _ _ _ _ Hb Hr Hs) as (B1 & B2 & B3).
  split; [done|]. split; [done|]. split; [done|].
  apply make_reader_ok in Hr as (_ & _ & (next & Hsp) & _); [|done].
  apply selection_steps in Hs as (event & stop & front & back & _ & _ & S3 & S4 & S5 & _).
  intros index Hi. rewrite <- (slice_bounds (sel_source_first_frame sel) stop (timebase_segments_ reader)
    (sel_timebase_segments sel) (sample_frame_count_ reader) next) by (done || lia).
  f_equal. lia.
Qed.

(** A capture of four decimated frames whose event fills the middle two. *)
Definition slice_segment_demo : MncwfV4TimebaseSegment :=
  mkTimebaseSegment 0 4 500 2 8000 1 4000 1 500 12345 999 0 10 2 decimation_boxcar_mean_toward_zero clock_ptp
    quality_locked 0 0 8.
Definition slice_event_demo : MncwfV4EventDescriptor :=
  with_anchors demo_event lifecycle_end (Z.lor mncwf_event_start_valid mncwf_event_end_valid) 503 0 504 0 0.
Definition slice_parent_demo : MncwfV4Document :=
  mkDocument demo_capture [slice_segment_demo] [demo_channel] [slice_event_demo] [demo_quality] [] 4 4
    [1; 2; 3; 4; 5; 5; 5; 5; 5; 5; 5; 5; 13; 14; 15; 16].
Definition digest_demo (message : list Z) : option (list Z) := Some (replicate 32 (wrap 8 (foldl Z.add 0 message))).

Lemma bytes_of_check file : forallb (fun b => (0 <=? b) && (b <? 256)) file = true -> Forall is_byte file.
Proof.
  intros Hb. apply List.Forall_forall. intros b Hin. rewrite forallb_forall in Hb. specialize (Hb b Hin). unfold is_byte. bools. lia.
Qed.

Lemma event_selection_frames_witness :
  exists file reader sel, @build_mncwf_v4 slice_parent_demo = Ok file /\
    @make_reader run_zstd file mode_complete = Ok reader /\
    make_mncwf_v4_event_selection digest_demo reader (demo_uuid 4) = Ok sel /\
    (sel_source_first_frame sel, sel_frame_count sel) = (1, 2) /\
    frame_source_bounds (sel_timebase_segments sel) 1 = frame_source_bounds (timebase_segments_ reader) 2.
Proof.
  assert (((fun f => forallb (fun b => (0 <=? b) && (b <? 256)) f) <$> build_mncwf_v4 slice_parent_demo = Ok true) /\
          (fun s => (sel_source_first_frame s, sel_frame_count s)) <$>
            (file ← build_mncwf_v4 slice_parent_demo; reader ← @make_reader run_zstd file mode_complete;
             make_mncwf_v4_event_selection digest_demo reader (demo_uuid 4)) = Ok (1, 2))
    as [Eb Es] by (split; vm_compute; reflexivity).
  destruct (build_mncwf_v4 slice_parent_demo) as [file|]; [|discriminate Eb]. cbn [mbind result_bind] in Es.
  destruct (@make_reader run_zstd file mode_complete) as [reader|] eqn:Er; [|discriminate Es]. cbn [mbind result_bind] in Es.
  destruct (make_mncwf_v4_event_selection digest_demo reader (demo_uuid 4)) as [sel|] eqn:E; [|discriminate Es].
  apply Ok_inj in Eb, Es. exists file, reader, sel.
  destruct (@event_selection_frames run_zstd digest_demo file mode_complete reader (demo_uuid 4) sel (bytes_of_check _ Eb) Er E)
    as (_ & _ & _ & Hi). injection Es as E1 E2.
  split; [reflexivity|]. split; [exact Er|]. split; [exact E|]. split; [by rewrite E1, E2|].
  rewrite Hi by (rewrite E2; lia). rewrite E1. reflexivity.
Defined.
