(* ===== verification/MncwfSliceTheorems.v ===== *)
(** * MNCWF waveform container: event slices read back

    A virtual event file (src/common/msap1/waveform/mncwf_v4.cpp) that the reader
    accepts shows the parent's frames under the clipped metadata; a version 5 slice
    reuses the parent's compressed chunks and recompresses only the boundary ones. *)

From S2P Require Import Prelude MncwfTypes MncwfFormat MncwfRecords MncwfReader MncwfEncode MncwfSlice MncwfWire MncwfRoundTrip MncwfSections MncwfFile MncwfChunks MncwfTheorems MncwfIntegrity MncwfTotal MncwfSliceFile MncwfSliceTyped MncwfSelection.

(** ** Chunks of a slice *)

Lemma range_slice bytes o n label l : range bytes o n label = Ok l -> l = slice bytes o n.
Proof.
  unfold range. intros H. apply bind_Ok in H as (? & _ & H). apply bind_Ok in H as (? & _ & H).
  apply bind_Ok in H as (? & G1 & H). apply narrow_size_Ok in G1 as [_ ->].
  apply bind_Ok in H as (? & G2 & H). apply narrow_size_Ok in G2 as [_ ->]. by apply subspan_Ok in H as (_ & _ & _ & ->).
Qed.

(** What stored bytes expand to depends on the codec and the size alone. *)
Lemma expand_chunk_same `{ZstdLibrary} stored p q l m :
  chunk_codec p = chunk_codec q -> chunk_logical_bytes p = chunk_logical_bytes q ->
  expand_chunk stored p = Ok l -> expand_chunk stored q = Ok m -> l = m.
Proof.
  intros Ec El Hl Hm. unfold expand_chunk in *. rewrite Ec, El in Hl.
  apply bind_Ok in Hl as (l' & G1 & Hl). apply bind_Ok in Hl as (? & _ & Hl). injection Hl as <-.
  apply bind_Ok in Hm as (m' & G2 & Hm). apply bind_Ok in Hm as (? & _ & Hm). injection Hm as <-. congruence.
Qed.

Lemma decompress_same `{ZstdLibrary} info c l m :
  zlen m = chunk_logical_bytes c -> decompress_v5_source_chunk info c = Ok l ->
  expand_chunk (slice (sec_data info) (chunk_stored_offset c) (chunk_stored_bytes c)) c = Ok m -> l = m.
Proof.
  intros Ez Hl Hm. unfold decompress_v5_source_chunk, expand_chunk in *.
  apply bind_Ok in Hl as (stored & G1 & Hl). apply range_slice in G1 as ->.
  apply bind_Ok in Hl as (size & G2 & Hl). apply narrow_size_Ok in G2 as [_ ->].
  apply bind_Ok in Hl as (l' & G3 & Hl). apply bind_Ok in Hl as (? & _ & Hl). injection Hl as <-.
  apply bind_Ok in Hm as (m' & G4 & Hm). apply bind_Ok in Hm as (? & _ & Hm). injection Hm as <-.
  destruct (chunk_codec c).
  - injection G4 as <-. apply copy_into_Ok in G3 as (_ & _ & ->). rewrite <- Ez, splice_front by lia.
    by rewrite Z.sub_diag, app_nil_r.
  - apply bind_Ok in G3 as (? & _ & G3). apply bind_Ok in G3 as (p & G5 & G3). apply bind_Ok in G3 as (? & _ & G3).
    injection G3 as <-. apply bind_Ok in G4 as (? & _ & G4). apply bind_Ok in G4 as (p' & G6 & G4).
    apply bind_Ok in G4 as (? & _ & G4). injection G4 as <-. unfold require_zstd in *.
    destruct (ZSTD_decompressDCtx _ _); [done|]. congruence.
Qed.

Lemma chunks_carry_snoc `{ZstdLibrary} data frame_bytes chunks c count : forall first middle,
  chunks_carry data frame_bytes first middle chunks -> chunk_carries data frame_bytes middle count c ->
  chunks_carry data frame_bytes first (middle + count) (chunks ++ [c]).
Proof.
  induction chunks as [|d chunks IH]; intros first middle Hcs Hc; cbn [chunks_carry app] in *.
  - subst. by exists count.
  - destruct Hcs as (n & Hn & Hcs). exists n. split; [done|by apply IH].
Qed.

(** Frames of the slice are frames of the parent. *)
Lemma slice_frames data frame_bytes first last k n :
  0 < frame_bytes -> 0 <= first -> 0 <= k -> 0 <= n -> k + n <= last - first -> last * frame_bytes <= zlen data ->
  slice (slice data (first * frame_bytes) ((last - first) * frame_bytes)) (k * frame_bytes) (n * frame_bytes) =
  slice data ((first + k) * frame_bytes) (n * frame_bytes).
Proof. intros. rewrite slice_slice by nia. f_equal. lia. Qed.

Section slice_chunks.
  Context (Z0 : ZstdLibrary) (info : MncwfV4SectionInfo) (data : list Z) (frame_bytes first last total : Z).
  Context (Hlossless : zstd_lossless Z0) (Hb : 0 < frame_bytes) (Hf : 0 <= first < last) (Hl : last <= total)
    (Hz : zlen data = total * frame_bytes).

(** The samples of the slice. *)
Local Abbreviation samples := (slice data (first * frame_bytes) ((last - first) * frame_bytes)).

Lemma samples_length : zlen samples = (last - first) * frame_bytes.
Proof. apply zlen_slice; nia. Qed.

Lemma copied_chunk_carries source k n c :
  chunk_expanded (sec_data info) frame_bytes data source -> chunk_first_frame source = first + k -> 0 <= k -> 0 < n ->
  k + n <= last - first -> chunk_frame_count source = n -> chunk_logical_bytes source = n * frame_bytes ->
  copy_v5_chunk info source k n = Ok c -> chunk_carries samples frame_bytes k n c.
Proof.
  intros He Ef Hk Hn Hkn Ec El H. unfold copy_v5_chunk in H. apply bind_Ok in H as (stored & G1 & H).
  apply range_slice in G1 as ->. do 2 apply bind_Ok in H as (? & _ & H). injection H as <-.
  unfold chunk_carries. rewrite samples_length. cbn [ec_first_frame ec_logical_bytes]. split_and!; try done; try nia.
  intros section child logical (_ & M2 & M3 & M4) Hx. cbn [ec_logical_bytes ec_codec ec_payload] in M2, M3, M4.
  rewrite M4 in Hx. rewrite (slice_frames data) by (lia || nia).
  unfold chunk_expanded in He. rewrite Ef, Ec in He. by eapply expand_chunk_same.
Qed.

Lemma cut_chunk_carries source start k n c :
  start = first + k -> chunk_expanded (sec_data info) frame_bytes data source -> 0 <= k -> 0 < n -> k + n <= last - first ->
  chunk_first_frame source <= first + k -> first + k + n <= chunk_first_frame source + chunk_frame_count source ->
  chunk_first_frame source + chunk_frame_count source <= total -> 0 <= chunk_first_frame source ->
  chunk_logical_bytes source = chunk_frame_count source * frame_bytes ->
  cut_v5_chunk info frame_bytes source start k n = Ok c -> chunk_carries samples frame_bytes k n c.
Proof.
  intros -> He Hk Hn Hkn Hlo Hhi Ht Hs El H. unfold cut_v5_chunk in H. apply bind_Ok in H as (logical & G1 & H).
  unfold chunk_expanded in He. apply (decompress_same _ _ logical) in He; [|rewrite zlen_slice by nia; lia|done]. subst logical.
  apply bind_Ok in H as (lo & G2 & H). apply checked_multiply_Ok in G2 as [_ ->]; [|lia|lia].
  apply bind_Ok in H as (sb & G3 & H). apply checked_multiply_Ok in G3 as [_ ->]; [|lia|lia].
  apply bind_Ok in H as (o & G4 & H). apply narrow_size_Ok in G4 as [_ ->].
  apply bind_Ok in H as (z & G5 & H). apply narrow_size_Ok in G5 as [_ ->].
  apply bind_Ok in H as (selected & G6 & H). apply subspan_Ok in G6 as (_ & _ & _ & ->).
  apply chunk_of_carries; [done|done|]. unfold chunk_of. rewrite samples_length. split_and!; try lia; try nia.
  rewrite <- H. f_equal. rewrite (slice_frames data) by (lia || nia).
  rewrite slice_slice by nia. f_equal. lia.
Qed.

(** The loop over the parent's chunks builds chunks that carry the slice. *)
Lemma slice_chunks_carry chunks : forall frame output out,
  0 <= frame -> chunks_span frame_bytes frame total chunks ->
  Forall (chunk_expanded (sec_data info) frame_bytes data) chunks ->
  chunks_carry samples frame_bytes 0 (Z.min (last - first) (Z.max 0 (frame - first))) output ->
  fold_result (slice_chunk info frame_bytes first last) output chunks = Ok out ->
  chunks_carry samples frame_bytes 0 (last - first) out.
Proof.
  induction chunks as [|c chunks IH]; intros frame output out H0 Hs He Hc H; cbn [fold_result] in H.
  { injection H as <-. cbn in Hs. replace (last - first) with (Z.min (last - first) (Z.max 0 (frame - first))) at 2 by lia. done. }
  apply bind_Ok in H as (mid & G & H). cbn [chunks_span] in Hs. destruct Hs as (E1 & E2 & E3 & Hs).
  pose proof (chunks_span_le _ _ _ _ Hs) as Hle. apply Forall_cons_iff in He as [Hec He].
  eapply (IH (frame + chunk_frame_count c)); [lia|done|done| |exact H].
  unfold slice_chunk in G. apply bind_Ok in G as (se & G1 & G). apply checked_add_Ok in G1 as [_ ->]. rewrite E1 in G.
  destruct (Z.leb_spec (Z.min last (frame + chunk_frame_count c)) (Z.max first frame)) as [Hout|Hin].
  { injection G as <-.
    replace (Z.min (last - first) (Z.max 0 (frame + chunk_frame_count c - first)))
      with (Z.min (last - first) (Z.max 0 (frame - first))) by lia. done. }
  set (lo := Z.max first frame) in *. set (hi := Z.min last (frame + chunk_frame_count c)) in *.
  apply bind_Ok in G as (chunk & G2 & G). injection G as <-.
  replace (Z.min (last - first) (Z.max 0 (frame + chunk_frame_count c - first))) with (lo - first + (hi - lo)) by lia.
  replace (Z.min (last - first) (Z.max 0 (frame - first))) with (lo - first) in Hc by lia.
  apply chunks_carry_snoc; [done|].
  destruct (Z.eqb_spec lo frame) as [Elo|]; [destruct (Z.eqb_spec hi (frame + chunk_frame_count c)) as [Ehi|]|].
  - replace (hi - lo) with (chunk_frame_count c) in * by lia.
    eapply copied_chunk_carries; [exact Hec| | | | | | |exact G2]; lia.
  - eapply cut_chunk_carries; [|exact Hec| | | | | | | | |exact G2]; lia.
  - eapply cut_chunk_carries; [|exact Hec| | | | | | | | |exact G2]; lia.
Qed.
End slice_chunks.

(** ** The virtual file *)

(** The version 4 branch: the bytes are the encoder's for the sliced document. *)
Lemma v4_slice_encoded reader sel metadata data offset size prefix file_bytes :
  document_typed (slice_document reader sel) -> 0 <= sel_source_first_frame sel -> 0 < sample_frame_bytes_ reader ->
  metadata_of (slice_document reader sel) metadata ->
  checked_multiply (sel_source_first_frame sel) (sample_frame_bytes_ reader) "virtual sample offset" = Ok offset ->
  checked_multiply (sel_frame_count sel) (sample_frame_bytes_ reader) "virtual sample bytes" = Ok size ->
  subspan (sample_data_ reader) offset size = Ok data ->
  make_v4_prefix metadata data (sel_frame_count sel) (sample_frame_bytes_ reader) = Ok (prefix, file_bytes) ->
  0 <= file_bytes - zlen prefix - zlen data < 8 /\
  build_mncwf_v4 (slice_document reader sel) =
    Ok (prefix ++ data ++ replicate (Z.to_nat (file_bytes - zlen prefix - zlen data)) 0).
Proof.
  intros (_ & _ & _ & _ & _ & _ & Tc & _) H0 Hb Hmd G1 G2 G3 G4.
  cbn [slice_document doc_sample_frame_count] in Tc. apply fits64_range in Tc.
  apply checked_multiply_Ok in G1 as [_ ->]; [|lia|lia]. apply checked_multiply_Ok in G2 as [Hsz ->]; [|lia|lia].
  apply subspan_Ok in G3 as (K1 & K2 & K3 & ->).
  assert (zlen (slice (sample_data_ reader) (sel_source_first_frame sel * sample_frame_bytes_ reader)
                  (sel_frame_count sel * sample_frame_bytes_ reader)) = sel_frame_count sel * sample_frame_bytes_ reader) as Ez
    by (by apply zlen_slice).
  assert (length metadata = 6%nat) as Hm by (destruct Hmd as (? & ? & ? & ? & ? & ? & -> & _); done).
  destruct (v4_prefix_written metadata _ (sel_frame_count sel) (sample_frame_bytes_ reader) prefix file_bytes "encoded file" "encoded file exceeds the 512 MiB bound" Hm ltac:(lia) ltac:(lia) Ez G4)
    as (samples & E1 & E2 & E3).
  split; [done|]. unfold build_mncwf_v4, check_sample_geometry, slice_document.
  cbn [doc_sample_frame_count doc_sample_frame_bytes doc_sample_data].
  rewrite (proj2 (checked_multiply_Ok (sel_frame_count sel) (sample_frame_bytes_ reader) _ _ ltac:(lia) ltac:(lia)) (conj Hsz eq_refl)). cbn [mbind result_bind].
  rewrite (proj2 (guard_reject_Ok _ _ tt)) by (by rewrite Ez, Z.eqb_refl). cbn [mbind result_bind].
  destruct Hmd as (c & t & h & e & q & l & -> & Hc & Ht & Hh & He & Hq & Hl).
  unfold encode_metadata. cbn [slice_document doc_capture_metadata doc_timebase_segments doc_channels doc_events
    doc_quality_intervals doc_lineage] in *.
  rewrite Hc. cbn [mbind result_bind]. rewrite Ht. cbn [mbind result_bind]. rewrite Hh. cbn [mbind result_bind].
  rewrite He. cbn [mbind result_bind]. rewrite Hq. cbn [mbind result_bind]. rewrite Hl. cbn [mbind result_bind].
  rewrite E1. cbn [mbind result_bind]. exact E3.
Qed.

(** The steps of a successful slice. *)
Lemma slice_steps `{ZstdLibrary} SHA256 reader uuid file :
  make_mncwf_v4_event_slice SHA256 reader uuid = Ok file ->
  exists sel metadata, make_mncwf_v4_event_selection SHA256 reader uuid = Ok sel /\
    metadata_of (slice_document reader sel) metadata /\
    vf_capture_uuid file = cap_capture_uuid (sel_capture_metadata sel) /\
    vf_first_sequence file = sel_first_sequence sel /\ vf_last_sequence file = sel_last_sequence sel /\
    if hdr_version (header_ reader) =? mncwf_v5_version then
      exists samples, make_v5_slice_sample_section reader (sel_source_first_frame sel) (sel_frame_count sel) = Ok samples /\
        make_v5_virtual_file metadata samples (sel_frame_count sel) (sample_frame_bytes_ reader) = Ok (vf_prefix file) /\
        vf_sample_data file = [] /\ vf_file_bytes file = zlen (vf_prefix file) /\ vf_trailing_padding_bytes file = 0
    else
      exists offset size,
        checked_multiply (sel_source_first_frame sel) (sample_frame_bytes_ reader) "virtual sample offset" = Ok offset /\
        checked_multiply (sel_frame_count sel) (sample_frame_bytes_ reader) "virtual sample bytes" = Ok size /\
        subspan (sample_data_ reader) offset size = Ok (vf_sample_data file) /\
        make_v4_prefix metadata (vf_sample_data file) (sel_frame_count sel) (sample_frame_bytes_ reader) =
          Ok (vf_prefix file, vf_file_bytes file) /\
        vf_trailing_padding_bytes file =
          wrap 8 (vf_file_bytes file - zlen (vf_prefix file) - zlen (vf_sample_data file)).
Proof.
  unfold make_mncwf_v4_event_slice. intros Hs. apply bind_Ok in Hs as (sel & E0 & Hs).
  apply bind_Ok in Hs as (c & Ec & Hs). apply bind_Ok in Hs as (t & Et & Hs). apply bind_Ok in Hs as (h & Eh & Hs).
  apply bind_Ok in Hs as (e & Ee & Hs). apply bind_Ok in Hs as (q & Eq & Hs). apply bind_Ok in Hs as (l & El & Hs).
  exists sel, [c; t; h; e; q; l].
  assert (metadata_of (slice_document reader sel) [c; t; h; e; q; l]) as Hmd by (by exists c, t, h, e, q, l).
  destruct (hdr_version (header_ reader) =? mncwf_v5_version).
  - apply bind_Ok in Hs as (samples & G1 & Hs). apply bind_Ok in Hs as (f & G2 & Hs). injection Hs as <-.
    split_and!; try done. by exists samples.
  - apply bind_Ok in Hs as (? & _ & Hs). apply bind_Ok in Hs as (so & G1 & Hs). apply bind_Ok in Hs as (sb & G2 & Hs).
    apply bind_Ok in Hs as (o & G3 & Hs). apply narrow_size_Ok in G3 as [_ ->].
    apply bind_Ok in Hs as (n & G4 & Hs). apply narrow_size_Ok in G4 as [_ ->].
    apply bind_Ok in Hs as (data & G5 & Hs). apply bind_Ok in Hs as ([prefix fb] & G6 & Hs). injection Hs as <-.
    split_and!; try done. by exists so, sb.
Qed.

(** (C22) The virtual file is the encoder's file.  For a version 4 capture the virtual
    event file holds no copy of the samples; yet its bytes are exactly the file the
    encoder writes for the sliced document, and reading it at any offset into a
    buffer of any size delivers the bytes of that file there.  The read law holds for
    version 5 slices too. *)
Theorem virtual_file_is_encoding `{ZstdLibrary} SHA256 reader uuid file :
  digest_typed SHA256 -> document_typed (reader_document reader) -> 0 < sample_frame_bytes_ reader ->
  make_mncwf_v4_event_slice SHA256 reader uuid = Ok file ->
  vf_file_bytes file = zlen (virtual_content file) /\
  (forall offset capacity, 0 <= offset -> 0 <= capacity ->
     virtual_read file offset capacity = take (Z.to_nat capacity) (drop (Z.to_nat offset) (virtual_content file))) /\
  (hdr_version (header_ reader) <> mncwf_v5_version ->
     exists sel, make_mncwf_v4_event_selection SHA256 reader uuid = Ok sel /\
       build_mncwf_v4 (slice_document reader sel) = Ok (virtual_content file)).
Proof.
  intros Hsha Hty Hfb Hs. apply slice_steps in Hs as (sel & metadata & E0 & Hmd & _ & _ & _ & Hs).
  destruct (selection_typed _ _ _ _ Hsha Hty E0) as (Tsl & H0 & Hc & _).
  assert (zlen (virtual_content file) = vf_file_bytes file /\ vf_file_bytes file <= mncwf_v4_max_file_bytes /\
          0 <= vf_trailing_padding_bytes file < 8 /\
          (hdr_version (header_ reader) <> mncwf_v5_version ->
           build_mncwf_v4 (slice_document reader sel) = Ok (virtual_content file))) as (Ez & Hmax & Hpad & Henc).
  { destruct (Z.eqb_spec (hdr_version (header_ reader)) mncwf_v5_version) as [Hv|Hv].
    - destruct Hs as (samples & _ & G2 & Ed & Ef & Ep). unfold virtual_content. rewrite Ed, Ep, Ef. cbn [app replicate Z.to_nat].
      rewrite app_nil_r. split_and!; try done; try lia. apply v5_virtual_file_bound in G2. done.
    - destruct Hs as (offset & size & G1 & G2 & G3 & G4 & Ep).
      destruct (v4_slice_encoded _ _ _ _ _ _ _ _ Tsl H0 Hfb Hmd G1 G2 G3 G4) as [Hp Hb].
      rewrite wrap_id in Ep by (change (2 ^ 8) with 256; lia). apply v4_prefix_bound in G4.
      unfold virtual_content. rewrite Ep. split_and!; try done; try lia.
      rewrite !zlen_app, zlen_replicate by lia. lia. }
  split_and!; [done| |intros Hv; exists sel; split; [done|by apply Henc]].
  intros offset capacity Ho Hcap. unfold mncwf_v4_max_file_bytes in Hmax.
  apply virtual_read_content; [done|done|lia|done|unfold UINT64_MAX; lia].
Qed.

(** The version 5 branch: the file of chunks that carry the slice. *)
Lemma v5_slice_reads_back (Z0 : ZstdLibrary) reader sel metadata samples file child :
  zstd_lossless Z0 -> reader_ok mode_complete reader -> hdr_version (header_ reader) = mncwf_v5_version ->
  document_typed (slice_document reader sel) -> 0 <= sel_source_first_frame sel -> 0 < sel_frame_count sel ->
  sel_source_first_frame sel + sel_frame_count sel <= sample_frame_count_ reader ->
  metadata_of (slice_document reader sel) metadata ->
  make_v5_slice_sample_section reader (sel_source_first_frame sel) (sel_frame_count sel) = Ok samples ->
  make_v5_virtual_file metadata samples (sel_frame_count sel) (sample_frame_bytes_ reader) = Ok file ->
  make_reader file mode_complete = Ok child ->
  reader_document child = slice_document reader sel /\ hdr_version (header_ child) = mncwf_v5_version.
Proof.
  intros Hz (_ & Hb & _ & _ & info & Hfind & Ei & Eb & Hok) Hv Hty H0 Hc Hle Hmd Hs Hf Hr.
  destruct (Hok eq_refl) as [Ed Hch]. rewrite Ei, Eb in *. destruct (Hch ltac:(by rewrite Hv)) as [Hsp Hex].
  unfold make_v5_slice_sample_section, sample_section_info in Hs. unfold find_section in Hfind.
  destruct (List.find _ _) as [s|]; [|done]. injection Hfind as ->. cbn [mbind result_bind] in Hs.
  apply bind_Ok in Hs as (? & _ & Hs). apply bind_Ok in Hs as (ef & G1 & Hs). apply checked_add_Ok in G1 as [_ ->].
  do 3 apply bind_Ok in Hs as (? & _ & Hs). apply bind_Ok in Hs as (chunks & G2 & Hs).
  eapply (slice_chunks_carry Z0 info (sample_data_ reader) _ _ _ (sample_frame_count_ reader)) with (frame := 0) (output := [])
    in G2 as Hcarry; [|done|done|lia|lia|done|lia|done|done|].
  2: { cbn [chunks_carry]. lia. }
  assert (length metadata = 6%nat) as Hm by (destruct Hmd as (? & ? & ? & ? & ? & ? & -> & _); done).
  pose proof Hty as (_ & _ & _ & _ & _ & _ & Tc & Tb). cbn [slice_document doc_sample_frame_count doc_sample_frame_bytes] in Tc, Tb.
  pose proof (v5_virtual_file_size _ _ _ _ _ Hc Hb Hf) as Hmul.
  apply (v5_virtual_file_written _ _ _ _ _ "" "" Hm Hc Hb) in Hf.
  replace (sel_source_first_frame sel + sel_frame_count sel - sel_source_first_frame sel) with (sel_frame_count sel) in Hcarry by lia.
  eapply (v5_file_reads_back (slice_document reader sel) metadata samples chunks file); try done.
  cbn [slice_document doc_sample_data doc_sample_frame_count doc_sample_frame_bytes]. apply zlen_slice; nia.
Qed.

(** (C21) Exported events read back.  Slice an event out of any capture the reader
    accepts, version 4 or 5: if the reader accepts the virtual file, what it shows is
    the sliced document - the parent's sample bytes for exactly the selected frames,
    under the clipped capture, timebase, events, quality and lineage - although a
    version 5 slice copies the parent's compressed chunks and recompresses only those
    at its boundary. *)
Theorem event_slice_round_trip (Z0 : ZstdLibrary) SHA256 bytes reader uuid file child :
  zstd_lossless Z0 -> digest_typed SHA256 -> Forall is_byte bytes -> make_reader bytes mode_complete = Ok reader ->
  document_typed (reader_document reader) -> make_mncwf_v4_event_slice SHA256 reader uuid = Ok file ->
  make_reader (virtual_content file) mode_complete = Ok child ->
  exists sel, make_mncwf_v4_event_selection SHA256 reader uuid = Ok sel /\
    reader_document child = slice_document reader sel /\
    cap_capture_uuid (capture_metadata_ child) = vf_capture_uuid file /\
    hdr_version (header_ child) =
      if hdr_version (header_ reader) =? mncwf_v5_version then mncwf_v5_version else mncwf_v4_version.
Proof.
  intros Hz Hsha Hb Hr Hty Hs Hc. pose proof (make_reader_ok _ _ _ Hb Hr) as Hok. pose proof Hok as (_ & Hfb & _).
  apply slice_steps in Hs as (sel & metadata & E0 & Hmd & Eu & _ & _ & Hs).
  destruct (selection_typed _ _ _ _ Hsha Hty E0) as (Tsl & H0 & Hcnt & _).
  destruct (selection_in_capture _ _ _ _ _ _ Hb Hr E0) as [_ Hle].
  exists sel. split; [done|].
  enough (reader_document child = slice_document reader sel /\
    hdr_version (header_ child) =
      if hdr_version (header_ reader) =? mncwf_v5_version then mncwf_v5_version else mncwf_v4_version) as [Ed Ev].
  { split_and!; try done. rewrite Eu. change (capture_metadata_ child) with (doc_capture_metadata (reader_document child)).
    by rewrite Ed. }
  destruct (Z.eqb_spec (hdr_version (header_ reader)) mncwf_v5_version) as [Hv|Hv].
  - destruct Hs as (samples & G1 & G2 & Edat & _ & Ep). unfold virtual_content in Hc. rewrite Edat, Ep, app_nil_r in Hc.
    by eapply (v5_slice_reads_back Z0 reader sel metadata samples).
  - destruct Hs as (offset & size & G1 & G2 & G3 & G4 & Ep).
    destruct (v4_slice_encoded _ _ _ _ _ _ _ _ Tsl H0 Hfb Hmd G1 G2 G3 G4) as [Hp Hbuild].
    rewrite wrap_id in Ep by (change (2 ^ 8) with 256; lia).
    unfold virtual_content in Hc. rewrite Ep in Hc. by eapply build_v4_reads_back.
Qed.

(** ** Slicing a concrete capture *)

Lemma digest_demo_typed : digest_typed digest_demo.
Proof.
  intros message digest H. unfold digest_demo in H. injection H as <-. split; [reflexivity|].
  pose proof (wrap_range 8 (foldl Z.add 0 message) ltac:(lia)) as Hr. cbn [forallb].
  by rewrite (proj2 (fits_iff 8 _)) by exact Hr.
Qed.

Lemma slice_parent_typed : document_typed slice_parent_demo.
Proof. unfold document_typed, event_typed, typed_by. split_and!; repeat constructor. Qed.

(** The parent read back from its version 4 file, and its event sliced out: the
    virtual file refers to the event's two frames in the parent. *)
Lemma virtual_file_is_encoding_witness :
  exists bytes reader file, build_mncwf_v4 slice_parent_demo = Ok bytes /\
    @make_reader run_zstd bytes mode_complete = Ok reader /\
    @make_mncwf_v4_event_slice run_zstd digest_demo reader (demo_uuid 4) = Ok file /\
    vf_sample_data file = [5; 5; 5; 5; 5; 5; 5; 5] /\
    virtual_read file (zlen (vf_prefix file) + 6) 4 = take 4 (drop (Z.to_nat (zlen (vf_prefix file) + 6)) (virtual_content file)) /\
    exists sel, build_mncwf_v4 (slice_document reader sel) = Ok (virtual_content file).
Proof.
  assert ((fun p => (p.1, hdr_version (header_ p.2.1), vf_sample_data p.2.2)) <$>
            (bytes ← build_mncwf_v4 slice_parent_demo; reader ← @make_reader run_zstd bytes mode_complete;
             file ← @make_mncwf_v4_event_slice run_zstd digest_demo reader (demo_uuid 4);
             Ok (sample_frame_bytes_ reader, (reader, file))) = Ok (4, mncwf_v4_version, [5; 5; 5; 5; 5; 5; 5; 5]))
    as Es by (vm_compute; reflexivity).
  destruct (build_mncwf_v4 slice_parent_demo) as [bytes|] eqn:Eb; [|discriminate Es]. cbn [mbind result_bind] in Es.
  destruct (@make_reader run_zstd bytes mode_complete) as [reader|] eqn:Er; [|discriminate Es]. cbn [mbind result_bind] in Es.
  destruct (@make_mncwf_v4_event_slice run_zstd digest_demo reader (demo_uuid 4)) as [file|] eqn:E; [|discriminate Es].
  cbn in Es. apply Ok_inj in Es. injection Es as Efb Ev Ed.
  destruct (@build_v4_reads_back run_zstd _ _ _ slice_parent_typed Eb Er) as [Hd _].
  assert (document_typed (reader_document reader)) as Hty by (rewrite Hd; exact slice_parent_typed).
  destruct (@virtual_file_is_encoding run_zstd digest_demo reader (demo_uuid 4) file digest_demo_typed Hty
              ltac:(rewrite Efb; lia) E) as (_ & Hread & Henc).
  exists bytes, reader, file. split; [reflexivity|]. split; [exact Er|]. split; [exact E|]. split; [exact Ed|].
  split; [apply Hread; unfold zlen; lia|].
  destruct (Henc ltac:(rewrite Ev; discriminate)) as (sel & _ & Hsel). exists sel. exact Hsel.
Defined.

(** The same from a version 5 file: the child holds the event's two frames. *)
Lemma event_slice_round_trip_witness :
  exists bytes reader file child, @encode_mncwf_v5 run_zstd slice_parent_demo = Ok bytes /\
    @make_reader run_zstd bytes mode_complete = Ok reader /\
    @make_mncwf_v4_event_slice run_zstd digest_demo reader (demo_uuid 4) = Ok file /\
    @make_reader run_zstd (virtual_content file) mode_complete = Ok child /\
    sample_data_ child = [5; 5; 5; 5; 5; 5; 5; 5] /\
    exists sel, reader_document child = slice_document reader sel.
Proof.
  assert (((fun f => forallb (fun b => (0 <=? b) && (b <? 256)) f) <$> @encode_mncwf_v5 run_zstd slice_parent_demo = Ok true) /\
          sample_data_ <$>
            (bytes ← @encode_mncwf_v5 run_zstd slice_parent_demo; reader ← @make_reader run_zstd bytes mode_complete;
             file ← @make_mncwf_v4_event_slice run_zstd digest_demo reader (demo_uuid 4);
             @make_reader run_zstd (virtual_content file) mode_complete) = Ok [5; 5; 5; 5; 5; 5; 5; 5])
    as [Eb Es] by (split; vm_compute; reflexivity).
  destruct (@encode_mncwf_v5 run_zstd slice_parent_demo) as [bytes|] eqn:Ee; [|discriminate Eb]. cbn [mbind result_bind] in Es.
  destruct (@make_reader run_zstd bytes mode_complete) as [reader|] eqn:Er; [|discriminate Es]. cbn [mbind result_bind] in Es.
  destruct (@make_mncwf_v4_event_slice run_zstd digest_demo reader (demo_uuid 4)) as [file|] eqn:E; [|discriminate Es].
  cbn [mbind result_bind] in Es.
  destruct (@make_reader run_zstd (virtual_content file) mode_complete) as [child|] eqn:Ec; [|discriminate Es].
  apply Ok_inj in Eb, Es.
  assert (document_typed (reader_document reader)) as Hty
    by (rewrite (proj1 (encode_v5_reads_back _ _ _ _ run_zstd_lossless slice_parent_typed Ee Er)); exact slice_parent_typed).
  destruct (event_slice_round_trip run_zstd digest_demo bytes reader (demo_uuid 4) file child run_zstd_lossless digest_demo_typed
              (bytes_of_check _ Eb) Er Hty E Ec) as (sel & _ & Hd & _).
  exists bytes, reader, file, child. split; [reflexivity|]. split; [exact Er|]. split; [exact E|]. split; [exact Ec|].
  split; [exact Es|]. exists sel. exact Hd.
Defined.
