(* ===== verification/CaptureTypes.v ===== *)
(** * Waveform capture: sessions, identities and pages

    Models the types of src/common/msap1/waveform/waveform_capture.hpp and the free
    functions of waveform_capture.cpp: decimation and trigger bits, session numbers in
    file names, clock translation, the event of a manual trigger, and the descending
    pages of session summaries.  File names and other texts are lists of bytes, as in
    the MNCWF container; a name of the summary is the 96-byte array of the code. *)

From stdpp Require Import sorting pretty.
From S2P Require Import Prelude MncwfTypes MncwfFormat MncwfRecords MncwfReader MncwfEncode MncwfSlice.

(** ** Constants *)

Definition waveform_block_magic : Z := 0x314d4657.
Definition waveform_block_version : Z := 0x00010000.
Definition waveform_channels : Z := 8.
Definition waveform_frame_bytes : Z := 32.
Definition waveform_frames_per_block : Z := 1024.
Definition waveform_block_header_bytes : Z := 64.
Definition waveform_block_bytes : Z := waveform_block_header_bytes + waveform_frames_per_block * waveform_frame_bytes.
Definition waveform_max_ipc_sessions : Z := 16.
Definition waveform_max_page_sessions : Z := 100.
Definition waveform_session_name_size : Z := 96.
Definition waveform_persisted_channels : Z := 7.
Definition waveform_default_archive_limit_bytes : Z := 8 * 1024 * 1024 * 1024.

(** The bytes of a character string. *)
Definition text (value : string) : list Z :=
  map (fun c => Z.of_nat (Ascii.nat_of_ascii c)) (String.list_ascii_of_string value).

(** ** Types *)

(** One [std::array<std::int32_t, waveform_channels>]. *)
Definition Frame : Type := list Z.

Inductive WaveformTriggerSource := source_manual_cli | source_manual_web | source_pq_event.
Definition source_value (source : WaveformTriggerSource) : Z :=
  match source with source_manual_cli => 1 | source_manual_web => 2 | source_pq_event => 3 end.

Inductive WaveformSessionState := state_capturing | state_complete | state_incomplete.
#[export] Instance session_state_eq_dec : EqDecision WaveformSessionState.
Proof. solve_decision. Defined.

Inductive WaveformCompression :=
  | compression_none | compression_zstd_chunks | compression_mixed_raw_zstd_chunks | compression_raw_chunks.

(** [origin_unknown]: a value of the underlying integer that is no enumerator. *)
Inductive WaveformOriginFilter := origin_all | origin_manual | origin_power_quality | origin_unknown.

Record WaveformSessionQuery := mkSessionQuery {
  query_before_session_id : Z;
  query_limit : Z;
  query_origin : WaveformOriginFilter
}.

Record WaveformEventIdentity := mkEventIdentity { id_session : Z; id_counter : Z }.
#[export] Instance event_identity_eq_dec : EqDecision WaveformEventIdentity.
Proof. solve_decision. Defined.

Inductive WaveformEventLifecycle := event_start | event_update | event_end | event_abort.
#[export] Instance event_lifecycle_eq_dec : EqDecision WaveformEventLifecycle.
Proof. solve_decision. Defined.

Record WaveformCorrelation := mkCorrelation {
  corr_tai_nanoseconds : Z;
  corr_pl_tick : Z;
  corr_frame_sequence : Z;
  corr_uncertainty_nanoseconds : Z
}.
Definition no_correlation : WaveformCorrelation := mkCorrelation 0 0 0 0.

Record WaveformCaptureContext := mkCaptureContext {
  ctx_capture_metadata : MncwfV4CaptureMetadata;
  ctx_channels : list MncwfV4ChannelDefinition;
  ctx_clock_source : MncwfClockSource;
  ctx_time_quality : MncwfTimeQuality;
  ctx_time_flags : Z;
  ctx_utc_offset_seconds : Z
}.

Record WaveformSessionSummary := mkSummary {
  sum_id : Z;
  sum_trigger_sequence : Z;
  sum_first_sequence : Z;
  sum_last_sequence : Z;
  sum_trigger_tai_nanoseconds : Z;
  sum_trigger_realtime_nanoseconds : Z;
  sum_sample_rate_hz : Z;
  sum_event_count : Z;
  sum_trigger_source_mask : Z;
  sum_continuation_of_session_id : Z;
  sum_master_session_id : Z;
  sum_state : WaveformSessionState;
  sum_decimation : Z;
  sum_format_version : Z;
  sum_compression : WaveformCompression;
  sum_stored_bytes : Z;
  sum_logical_sample_bytes : Z;
  sum_association_created : bool;
  sum_filename : list Z;
  sum_capture_uuid : list Z
}.

Record WaveformSessionPage := mkSessionPage {
  page_origin : WaveformOriginFilter;
  page_limit : Z;
  page_total_sessions : Z;
  page_completed_sessions : Z;
  page_incomplete_sessions : Z;
  page_active_sessions : Z;
  page_next_before_session_id : Z;
  page_sessions : list WaveformSessionSummary
}.

(** ** Helpers *)

Definition valid_decimation (decimation : Z) : bool :=
  (decimation =? 1) || (decimation =? 2) || (decimation =? 4) || (decimation =? 8) || (decimation =? 16)
  || (decimation =? 32).

Definition trigger_source_bit (source : WaveformTriggerSource) : Z := Z.shiftl 1 (source_value source).

(** The overload on a persisted [trigger_source]. *)
Definition trigger_source_bit_of (source : Z) : Z :=
  if (source <? source_value source_manual_cli) || (source_value source_pq_event <? source) then 0
  else Z.shiftl 1 source.

Definition is_digit (c : Z) : bool := (48 <=? c) && (c <=? 57).

(** [std::from_chars] of the whole range into a 64-bit unsigned integer. *)
Definition from_chars_u64 (digits : list Z) : option Z :=
  if bool_decide (digits = []) || negb (forallb is_digit digits) then None
  else
    let value := foldl (fun value c => value * 10 + (c - 48)) 0 digits in
    if UINT64_MAX <? value then None else Some value.

(** The bytes before the first '-', if there is one. *)
Fixpoint before_dash (bytes : list Z) : option (list Z) :=
  match bytes with
  | [] => None
  | c :: bytes => if c =? 45 then Some [] else (fun head => c :: head) <$> before_dash bytes
  end.

Definition session_id_from_filename (filename : list Z) : option Z :=
  let prefix := text "waveform-" in
  if negb (bool_decide (take (length prefix) filename = prefix)) then None
  else
    digits ← before_dash (drop (length prefix) filename);
    id ← from_chars_u64 digits;
    if (id =? 0) || (id =? UINT64_MAX) then None else Some id.

Definition translate_clock (value source_anchor destination_anchor : Z) : result Z :=
  if source_anchor <=? value then
    let delta := value - source_anchor in
    reject_if (UINT64_MAX - destination_anchor <? delta) (OverflowError "waveform clock translation overflow") ;;
    Ok (destination_anchor + delta)
  else
    let delta := source_anchor - value in
    reject_if (destination_anchor <? delta) (OverflowError "waveform clock translation underflow") ;;
    Ok (destination_anchor - delta).

(** [copy_n] of at most 95 characters into the name array. *)
Definition copy_name (filename target : list Z) : list Z :=
  let copied := take (Z.to_nat (waveform_session_name_size - 1)) filename in
  copied ++ drop (length copied) target.
Definition no_name : list Z := replicate (Z.to_nat waveform_session_name_size) 0.

(** The C string at the start of the array. *)
Fixpoint c_string (bytes : list Z) : list Z :=
  match bytes with
  | [] => []
  | c :: bytes => if c =? 0 then [] else c :: c_string bytes
  end.

(** [gmtime_r]: the date of a count of seconds, by the proleptic Gregorian calendar. *)
Definition civil_date (days : Z) : Z * Z * Z :=
  let z := days + 719468 in
  let era := z / 146097 in
  let doe := z mod 146097 in
  let yoe := (doe - doe / 1460 + doe / 36524 - doe / 146096) / 365 in
  let doy := doe - (365 * yoe + yoe / 4 - yoe / 100) in
  let mp := (5 * doy + 2) / 153 in
  let day := doy - (153 * mp + 2) / 5 + 1 in
  let month := if mp <? 10 then mp + 3 else mp - 9 in
  (yoe + era * 400 + (if month <=? 2 then 1 else 0), month, day).

(** [value] in decimal, padded with zeros to [width]. *)
Definition padded (width : nat) (value : Z) : list Z :=
  let digits := text (pretty value) in replicate (width - length digits) 48 ++ digits.

Definition filename_timestamp (realtime_nanoseconds : Z) : list Z :=
  let seconds := realtime_nanoseconds / 1000000000 in
  let '(year, month, day) := civil_date (seconds / 86400) in
  let second := seconds mod 86400 in
  padded 4 year ++ text "-" ++ padded 2 month ++ text "-" ++ padded 2 day ++ text "_"
  ++ padded 2 (second / 3600) ++ text "-" ++ padded 2 (second / 60 mod 60) ++ text "-" ++ padded 2 (second mod 60)
  ++ text "-" ++ padded 3 (realtime_nanoseconds / 1000000 mod 1000).

Definition manual_event_type (source : WaveformTriggerSource) : Z :=
  match source with source_manual_cli => 0x100 | source_manual_web => 0x101 | source_pq_event => 0x102 end.
Definition manual_event_label (source : WaveformTriggerSource) : list Z :=
  text match source with
       | source_manual_cli => "manual CLI capture"
       | source_manual_web => "manual Web capture"
       | source_pq_event => "power-quality capture"
       end.

(** The JSON object [{"trigger":"<name>"}]; 34 is the quotation mark. *)
Definition manual_event_snapshot (source : WaveformTriggerSource) : list Z :=
  text "{" ++ [34] ++ text "trigger" ++ [34] ++ text ":" ++ [34]
  ++ text match source with
          | source_manual_cli => "manual_cli"
          | source_manual_web => "manual_web"
          | source_pq_event => "power_quality"
          end
  ++ [34] ++ text "}".

Definition manual_event_flags : Z :=
  Z.lor (Z.lor (Z.lor (Z.lor (Z.lor (Z.lor mncwf_event_start_valid mncwf_event_current_valid) mncwf_event_end_valid)
    mncwf_event_trigger_valid) mncwf_event_tai_valid) mncwf_event_utc_valid) mncwf_event_settings_snapshot_valid.

(** [event_uuid] is the outcome of [mncwf_random_uuid]. *)
Definition manual_event_descriptor (event_uuid : result (list Z)) (sequence tai_nanoseconds utc_nanoseconds : Z)
    (source : WaveformTriggerSource) (context : WaveformCaptureContext) : result MncwfV4EventDescriptor :=
  uuid ← event_uuid;
  Ok (mkEventDescriptor uuid taxonomy_product_alarm (manual_event_type source) lifecycle_complete
        (ctx_time_quality context) manual_event_flags mncwf_event_phase_system quantity_status unit_dimensionless
        (source_value source) 0 0 sequence sequence sequence sequence
        tai_nanoseconds tai_nanoseconds tai_nanoseconds tai_nanoseconds
        utc_nanoseconds utc_nanoseconds utc_nanoseconds utc_nanoseconds
        0 0 0 0 [0; 0; 0] 0 1 0 (text "MSAP1 capture trigger") (manual_event_label source)
        (manual_event_snapshot source)).

(** ** Pages *)

Definition matches_origin (origin : WaveformOriginFilter) (session : WaveformSessionSummary) : bool :=
  match origin with
  | origin_all => true
  | origin_manual =>
      any_bit (sum_trigger_source_mask session)
        (Z.lor (trigger_source_bit source_manual_cli) (trigger_source_bit source_manual_web))
  | origin_power_quality => any_bit (sum_trigger_source_mask session) (trigger_source_bit source_pq_event)
  | origin_unknown => false
  end.

(** The descending order of identities. *)
Definition newest_first (left right : WaveformSessionSummary) : Prop := sum_id right <= sum_id left.
#[export] Instance newest_first_dec : RelDecision newest_first.
Proof. intros left right. unfold newest_first. apply _. Defined.
#[export] Instance newest_first_total : Total newest_first.
Proof. intros left right. unfold newest_first. lia. Qed.
#[export] Instance newest_first_trans : Transitive newest_first.
Proof. intros a b c. unfold newest_first. lia. Qed.

Definition count_state (state : WaveformSessionState) (sessions : list WaveformSessionSummary) : Z :=
  zlen (List.filter (fun session => bool_decide (sum_state session = state)) sessions).

Definition waveform_session_page (sessions : list WaveformSessionSummary) (query : WaveformSessionQuery)
    : result WaveformSessionPage :=
  reject_if ((query_limit query =? 0) || (waveform_max_page_sessions <? query_limit query))
    (InvalidArgument "waveform page limit must be 1..100") ;;
  reject_if (match query_origin query with origin_unknown => true | _ => false end)
    (InvalidArgument "unknown waveform origin filter") ;;
  let matching := List.filter (matches_origin (query_origin query)) sessions in
  let candidates :=
    merge_sort newest_first
      (List.filter (fun session => (query_before_session_id query =? 0)
                                   || (sum_id session <? query_before_session_id query)) matching) in
  let count := Nat.min (Z.to_nat (query_limit query)) (length candidates) in
  let page := take count candidates in
  Ok (mkSessionPage (query_origin query) (query_limit query) (zlen matching) (count_state state_complete matching)
        (count_state state_incomplete matching) (count_state state_capturing matching)
        (match page !! (count - 1)%nat with
         | Some oldest => if (count <? length candidates)%nat then sum_id oldest else 0
         | None => 0
         end)
        page).
