(* ===== verification/CaptureWriter.v ===== *)
(** * Waveform capture: the background writer

    Models [WaveformCapture::AsyncWriter] of
    src/common/msap1/waveform/waveform_capture.cpp: decimation, the document of a job,
    the archive limit, and the job that writes, validates and publishes one file.  The
    file system is an environment: the directory listing with the bytes each file maps
    to, and the outcomes of the calls that change it.  The texts of exceptions leave out
    the path they name. *)

From stdpp Require Import sorting pretty.
From S2P Require Import Prelude MncwfTypes MncwfFormat MncwfRecords MncwfReader MncwfEncode MncwfSlice CaptureTypes.

(** ** Jobs, results and the file system *)

Record Job := mkJob {
  job_summary : WaveformSessionSummary;
  job_context : WaveformCaptureContext;
  job_events : list MncwfV4EventDescriptor;
  job_lineage : list MncwfV4LineageEntry;
  job_correlation : WaveformCorrelation;
  job_correlation_utc_nanoseconds : Z;
  job_source_frame_count : Z;
  job_archive_limit_bytes : Z;
  job_retention_only : bool;
  job_frames : list Frame
}.

Record WriteResult := mkWriteResult {
  res_session_id : Z;
  res_success : bool;
  res_filename : list Z;
  res_error : string;
  res_format_version : Z;
  res_compression : WaveformCompression;
  res_stored_bytes : Z;
  res_logical_sample_bytes : Z;
  res_archive_stored_bytes : Z;
  res_expired_session_ids : list Z
}.

(** A directory entry: what [file_size] answers, what [MappedFile] gives or throws, what
    an [ifstream] yields, and its modification time in nanoseconds. *)
Record DirectoryEntry := mkDirectoryEntry {
  entry_name : list Z;
  entry_regular : bool;
  entry_size : option Z;
  entry_mapped : result (list Z);
  entry_streamed : list Z;
  entry_modified : option Z
}.

Record WriterEnvironment := mkWriterEnvironment {
  env_directory : list DirectoryEntry;
  (** [std::filesystem::remove] returned true without an error. *)
  env_remove : list Z -> bool;
  env_create : bool;
  env_write : bool;
  (** What the temporary file maps to after the bytes were written. *)
  env_readback : list Z -> result (list Z);
  env_rename : result unit
}.

(** ** Samples *)

(** [frame[channel]]; a frame has [waveform_channels] values. *)
Definition frame_value (frame : Frame) (channel : nat) : Z := nth channel frame 0.

(** Mean of the frames of one group, rounded toward zero. *)
Definition mean_frame (group : list Frame) : Frame :=
  map (fun channel => s32 (Z.quot (foldl Z.add 0 (map (fun frame => frame_value frame channel) group)) (zlen group)))
    (seq 0 (Z.to_nat waveform_channels)).

(** The loop over the groups; [turns] is the number of frames. *)
Fixpoint decimate_loop (turns : nat) (divisor : nat) (frames : list Frame) : list Frame :=
  match turns, frames with
  | S turns, _ :: _ => mean_frame (take divisor frames) :: decimate_loop turns divisor (drop divisor frames)
  | _, _ => []
  end.

Definition decimate (decimation : Z) (frames : list Frame) : list Frame :=
  decimate_loop (length frames) (Z.to_nat (Z.max 1 decimation)) frames.

Definition pack_value (frame : Frame) (channel : MncwfV4ChannelDefinition) : result (list Z) :=
  reject_if ((waveform_channels <=? ch_source_channel channel) || negb (ch_storage_bits channel =? 32))
    (RuntimeError "MNCWF channel geometry is unsupported") ;;
  Ok (le_bytes 4 (u32 (frame_value frame (Z.to_nat (ch_source_channel channel))))).

Definition pack_frame (channels : list MncwfV4ChannelDefinition) (frame : Frame) : result (list Z) :=
  (fun values => concat values) <$> mapM_result (pack_value frame) channels.

Definition pack_frames (channels : list MncwfV4ChannelDefinition) (frames : list Frame) : result (list Z) :=
  (fun packed => concat packed) <$> mapM_result (pack_frame channels) frames.

(** ** The document of a job *)

Definition job_segment (job : Job) (persisted_frames : list Frame) : MncwfV4TimebaseSegment :=
  let summary := job_summary job in
  let correlation := job_correlation job in
  mkTimebaseSegment 0 (zlen persisted_frames) (sum_first_sequence summary) (sum_decimation summary)
    (sum_sample_rate_hz summary) 1 (sum_sample_rate_hz summary) (sum_decimation summary)
    (corr_frame_sequence correlation) (corr_pl_tick correlation) (corr_tai_nanoseconds correlation)
    (job_correlation_utc_nanoseconds job) (corr_uncertainty_nanoseconds correlation) (sum_decimation summary)
    (if sum_decimation summary =? 1 then decimation_none else decimation_boxcar_mean_toward_zero)
    (ctx_clock_source (job_context job)) (ctx_time_quality (job_context job)) (ctx_time_flags (job_context job))
    (ctx_utc_offset_seconds (job_context job)) (job_source_frame_count job).

Definition job_quality (job : Job) (persisted_frames : list Frame) : list MncwfV4QualityInterval :=
  match ctx_time_quality (job_context job) with
  | quality_locked => []
  | _ => [mkQualityInterval 0 (zlen persisted_frames) (sum_first_sequence (job_summary job))
            (sum_last_sequence (job_summary job)) 0 mncwf_quality_timing_uncertain 1 1 0]
  end.

Definition job_document (job : Job) : result MncwfV4Document :=
  let persisted_frames := decimate (sum_decimation (job_summary job)) (job_frames job) in
  let channels := ctx_channels (job_context job) in
  samples ← pack_frames channels persisted_frames;
  Ok (mkDocument (ctx_capture_metadata (job_context job)) [job_segment job persisted_frames] channels
        (job_events job) (job_quality job persisted_frames) (job_lineage job) (zlen persisted_frames)
        (u32 (zlen channels * 4)) samples).

Definition chunk_compression (chunks : list MncwfV5ChunkInfo) : WaveformCompression :=
  let zstd_chunks := zlen (List.filter (fun chunk => bool_decide (chunk_codec chunk = codec_zstd)) chunks) in
  if zstd_chunks =? 0 then compression_raw_chunks
  else if zstd_chunks =? zlen chunks then compression_zstd_chunks
  else compression_mixed_raw_zstd_chunks.

(** ** The archive limit *)

Record ArchiveCandidate := mkArchiveCandidate {
  cand_entry : DirectoryEntry;
  cand_bytes : Z;
  cand_created_utc_nanoseconds : Z;
  cand_session_id : Z
}.

(** [path.extension()] *)
Fixpoint last_extension (stem : nat) (name : list Z) : list Z :=
  match name with
  | [] => []
  | c :: rest =>
      match last_extension (S stem) rest with
      | [] => if (c =? 46) && (0 <? stem)%nat then name else []
      | extension => extension
      end
  end.
Definition extension (name : list Z) : list Z := last_extension 0 name.

Definition is_capture_file (name : list Z) : bool := bool_decide (extension name = text ".mncwf").

Section Retention.
Context `{ZstdLibrary}.

(** [MncwfV4Reader] on the mapped file, its exceptions included. *)
Definition read_entry (entry : DirectoryEntry) (mode : MncwfValidationMode) : result MncwfV4Reader :=
  bytes ← entry_mapped entry; make_reader bytes mode.

(** One entry of the listing: the bytes counted, the candidates found. *)
Definition measure_entry (temporary : list Z) (state : Z * list ArchiveCandidate) (entry : DirectoryEntry)
    : result (Z * list ArchiveCandidate) :=
  let '(physical_bytes, candidates) := state in
  if negb (entry_regular entry) || bool_decide (entry_name entry = temporary) then Ok state
  else
    match entry_size entry with
    | None => Throw (RuntimeError "measure waveform archive for retention")
    | Some bytes =>
        reject_if (UINT64_MAX - physical_bytes <? bytes) (RuntimeError "measure waveform archive for retention") ;;
        let physical_bytes := physical_bytes + bytes in
        if negb (is_capture_file (entry_name entry)) then Ok (physical_bytes, candidates)
        else
          match session_id_from_filename (entry_name entry), read_entry entry mode_metadata_only with
          | Some session_id, Ok metadata =>
              Ok (physical_bytes,
                  candidates ++ [mkArchiveCandidate entry bytes
                                   (cap_created_utc_nanoseconds (capture_metadata_ metadata)) session_id])
          | _, _ => Ok (physical_bytes, candidates)
          end
    end.

(** Oldest first, by creation time and then by session. *)
Definition archive_before (left right : ArchiveCandidate) : Prop :=
  cand_created_utc_nanoseconds left < cand_created_utc_nanoseconds right \/
  cand_created_utc_nanoseconds left = cand_created_utc_nanoseconds right /\
  cand_session_id left <= cand_session_id right.
#[global] Instance archive_before_dec : RelDecision archive_before.
Proof. intros left right. unfold archive_before. apply _. Defined.

(** Validate candidates until enough bytes are reclaimable: those validated, their
    bytes, and the candidates not looked at. *)
Fixpoint validate_candidates (required_reclaim : Z) (validated : list ArchiveCandidate) (reclaimable : Z)
    (candidates : list ArchiveCandidate) : list ArchiveCandidate * Z * list ArchiveCandidate :=
  match candidates with
  | [] => (validated, reclaimable, [])
  | candidate :: rest =>
      if reclaimable <? required_reclaim then
        match read_entry (cand_entry candidate) mode_complete with
        | Ok _ => validate_candidates required_reclaim (validated ++ [candidate]) (reclaimable + cand_bytes candidate) rest
        | Throw _ => validate_candidates required_reclaim validated reclaimable rest
        end
      else (validated, reclaimable, candidates)
  end.

(** Remove candidates while the archive is over the limit; the second loop of the
    code validates each of them first. *)
Fixpoint remove_candidates (env : WriterEnvironment) (limit : Z) (validate : bool) (physical_bytes : Z)
    (expired candidates : list ArchiveCandidate) : Z * list ArchiveCandidate :=
  match candidates with
  | [] => (physical_bytes, expired)
  | candidate :: rest =>
      if physical_bytes <=? limit then (physical_bytes, expired)
      else if validate && negb (is_ok (read_entry (cand_entry candidate) mode_complete))
      then remove_candidates env limit validate physical_bytes expired rest
      else if negb (env_remove env (entry_name (cand_entry candidate)))
      then remove_candidates env limit validate physical_bytes expired rest
      else remove_candidates env limit validate (physical_bytes - cand_bytes candidate) (expired ++ [candidate]) rest
  end.

(** The candidates removed, and the bytes stored or an exception. *)
Definition enforce_retention (env : WriterEnvironment) (limit : Z) (temporary : list Z) (new_bytes : Z)
    : list ArchiveCandidate * result Z :=
  match fold_result (measure_entry temporary) (new_bytes, []) (env_directory env) with
  | Throw e => ([], Throw e)
  | Ok (physical_bytes, candidates) =>
      if physical_bytes <=? limit then ([], Ok physical_bytes)
      else
        let '(validated, reclaimable, rest) :=
          validate_candidates (physical_bytes - limit) [] 0 (merge_sort archive_before candidates) in
        if reclaimable <? physical_bytes - limit
        then ([], Throw (RuntimeError "waveform archive limit cannot be reclaimed safely"))
        else
          let '(physical_bytes, expired) := remove_candidates env limit false physical_bytes [] validated in
          let '(physical_bytes, expired) := remove_candidates env limit true physical_bytes expired rest in
          if limit <? physical_bytes
          then (expired, Throw (RuntimeError "waveform archive limit cannot be reclaimed safely"))
          else (expired, Ok physical_bytes)
  end.

(** ** One job *)

Definition job_filename (job : Job) : list Z :=
  text "waveform-" ++ text (pretty (sum_id (job_summary job))) ++ text "-"
  ++ filename_timestamp (sum_trigger_realtime_nanoseconds (job_summary job)) ++ text ".mncwf".

(** What the temporary file holds once it was written and read back, with the sizes of
    the encoding and of its samples and the codec mix. *)
Record Written := mkWritten {
  written_bytes : list Z;
  written_stored_bytes : Z;
  written_logical_bytes : Z;
  written_compression : WaveformCompression
}.

Definition write_and_validate (env : WriterEnvironment) (job : Job) : result Written :=
  reject_if (negb (env_create env)) (RuntimeError "create waveform file") ;;
  document ← job_document job;
  encoded ← encode_mncwf_v5 document;
  reject_if (negb (env_write env)) (RuntimeError "write waveform file") ;;
  bytes ← env_readback env encoded;
  persisted ← make_reader bytes mode_complete;
  reject_if (negb (hdr_version (header_ persisted) =? mncwf_v5_version)
             || negb (bool_decide (sample_data_ persisted = doc_sample_data document)))
    (RuntimeError "post-write MNCWF v5 validation mismatch") ;;
  Ok (mkWritten bytes (zlen encoded) (zlen (doc_sample_data document)) (chunk_compression (sample_chunks_ persisted))).

(** The result of a job, and the file it published. *)
Definition write (env : WriterEnvironment) (job : Job) : WriteResult * option (list Z * list Z) :=
  let id := sum_id (job_summary job) in
  if job_retention_only job then
    let '(expired, outcome) := enforce_retention env (job_archive_limit_bytes job) [] 0 in
    match outcome with
    | Ok stored => (mkWriteResult id true [] "" 0 compression_none 0 0 stored (map cand_session_id expired), None)
    | Throw e => (mkWriteResult id false [] (exn_what e) 0 compression_none 0 0 0 (map cand_session_id expired), None)
    end
  else
    let filename := job_filename job in
    match write_and_validate env job with
    | Throw e => (mkWriteResult id false filename (exn_what e) 0 compression_none 0 0 0 [], None)
    | Ok (mkWritten bytes stored_bytes logical compression) =>
        let '(expired, outcome) :=
          enforce_retention env (job_archive_limit_bytes job) (filename ++ text ".tmp") stored_bytes in
        let ids := map cand_session_id expired in
        match outcome with
        | Throw e =>
            (mkWriteResult id false filename (exn_what e) mncwf_v5_version compression stored_bytes logical 0 ids, None)
        | Ok stored =>
            match env_rename env with
            | Throw e =>
                (mkWriteResult id false filename (exn_what e) mncwf_v5_version compression stored_bytes logical
                   stored ids, None)
            | Ok _ =>
                (mkWriteResult id true filename "" mncwf_v5_version compression stored_bytes logical stored ids,
                 Some (filename, bytes))
            end
        end
    end.
End Retention.
