(* ===== verification/CaptureStream.v ===== *)
(** * Waveform capture: history ring, sessions and materialization

    Models the acquisition side of [WaveformCapture]
    (src/common/msap1/waveform/waveform_capture.cpp): the state of the object, stream
    epochs, the DMA blocks that enter the history ring, the sessions that are finished
    by copying their window out of the ring, and the results the writer hands back.
    An operation that may throw keeps the state it reached ([Task]).  Log records are
    left out.  A job counts as queued until its result is queued: the capture never
    looks at the writer's jobs. *)

From stdpp Require Import gmap sorting pretty.
From S2P Require Import Prelude MncwfTypes MncwfFormat MncwfRecords MncwfReader MncwfEncode MncwfSlice CaptureTypes CaptureWriter.

(** ** State *)

Record Event := mkEvent {
  event_identity : WaveformEventIdentity;
  event_stable_identity : bool;
  event_descriptor : MncwfV4EventDescriptor
}.

Record Session := mkSession {
  ses_summary : WaveformSessionSummary;
  ses_context : WaveformCaptureContext;
  ses_events : list Event;
  ses_active_events : list WaveformEventIdentity;
  ses_previous_capture_uuid : list Z;
  ses_next_capture_uuid : list Z;
  ses_materialization_queued : bool;
  ses_capacity_sealed : bool
}.

Record EventCaptureState := mkEventCaptureState {
  ecs_onset_session_id : Z;
  ecs_recovery_session_id : Z;
  ecs_terminal : bool
}.

(** What an epoch resets, with the ring: frame [s] is at position [s % size]. *)
Record Stream := mkStream {
  st_history : list Frame;
  st_have_history : bool;
  st_oldest_sequence : Z;
  st_latest_sequence : Z;
  st_sequence_gaps : Z;
  st_sample_rate_hz : Z;
  st_gaps : list (Z * Z);
  st_configuration_generation : option Z;
  st_correlation : WaveformCorrelation;
  st_correlation_utc_nanoseconds : Z
}.

Record Counters := mkCounters {
  cnt_blocks : Z;
  cnt_frames : Z;
  cnt_bytes : Z;
  cnt_invalid_blocks : Z;
  cnt_pl_dropped_frames : Z;
  cnt_transport_overrun_blocks : Z;
  cnt_transport_last_overrun_blocks : Z;
  cnt_transport_ring_blocks : Z;
  cnt_materialization_failures : Z;
  cnt_expired_sessions : Z;
  cnt_retention_failures : Z;
  cnt_archive_stored_bytes : Z
}.

Inductive WaveformArchiveDiscoveryState :=
  | discovery_not_started | discovery_scanning | discovery_complete | discovery_cancelled | discovery_failed.
#[export] Instance discovery_state_eq_dec : EqDecision WaveformArchiveDiscoveryState.
Proof. solve_decision. Defined.

Record Discovery := mkDiscovery {
  disc_state : WaveformArchiveDiscoveryState;
  disc_scanned_files : Z;
  disc_total_files : Z;
  disc_rejected_files : Z;
  disc_error : string;
  disc_result_ready : bool;
  disc_result_collected : bool;
  disc_error_reported : bool;
  disc_startup_retention_queued : bool;
  disc_discovered_sessions : list Session;
  (** Of the scanning thread: the files left and the sessions restored so far. *)
  disc_pending : list DirectoryEntry;
  disc_restored : list Session
}.

Record Capture := mkCapture {
  wc_stream : Stream;
  wc_counters : Counters;
  wc_sessions : list Session;
  wc_session_index : gmap Z nat;
  wc_capture_index : gmap (list Z) nat;
  wc_event_capture_index : gmap (list Z) EventCaptureState;
  wc_next_session_id : Z;
  wc_context : WaveformCaptureContext;
  wc_archive_limit_bytes : Z;
  wc_open : bool;
  wc_discovery : Discovery;
  wc_jobs : list Job;
  wc_results : list WriteResult
}.

(** ** Assignments *)

Definition set_stream (stream : Stream) (c : Capture) : Capture :=
  mkCapture stream (wc_counters c) (wc_sessions c) (wc_session_index c) (wc_capture_index c)
    (wc_event_capture_index c) (wc_next_session_id c) (wc_context c) (wc_archive_limit_bytes c) (wc_open c)
    (wc_discovery c) (wc_jobs c) (wc_results c).
Definition set_counters (counters : Counters) (c : Capture) : Capture :=
  mkCapture (wc_stream c) counters (wc_sessions c) (wc_session_index c) (wc_capture_index c)
    (wc_event_capture_index c) (wc_next_session_id c) (wc_context c) (wc_archive_limit_bytes c) (wc_open c)
    (wc_discovery c) (wc_jobs c) (wc_results c).
Definition set_sessions (sessions : list Session) (c : Capture) : Capture :=
  mkCapture (wc_stream c) (wc_counters c) sessions (wc_session_index c) (wc_capture_index c)
    (wc_event_capture_index c) (wc_next_session_id c) (wc_context c) (wc_archive_limit_bytes c) (wc_open c)
    (wc_discovery c) (wc_jobs c) (wc_results c).
Definition set_indexes (session_index : gmap Z nat) (capture_index : gmap (list Z) nat) (c : Capture) : Capture :=
  mkCapture (wc_stream c) (wc_counters c) (wc_sessions c) session_index capture_index
    (wc_event_capture_index c) (wc_next_session_id c) (wc_context c) (wc_archive_limit_bytes c) (wc_open c)
    (wc_discovery c) (wc_jobs c) (wc_results c).
Definition set_event_capture_index (index : gmap (list Z) EventCaptureState) (c : Capture) : Capture :=
  mkCapture (wc_stream c) (wc_counters c) (wc_sessions c) (wc_session_index c) (wc_capture_index c)
    index (wc_next_session_id c) (wc_context c) (wc_archive_limit_bytes c) (wc_open c)
    (wc_discovery c) (wc_jobs c) (wc_results c).
Definition set_next_session_id (id : Z) (c : Capture) : Capture :=
  mkCapture (wc_stream c) (wc_counters c) (wc_sessions c) (wc_session_index c) (wc_capture_index c)
    (wc_event_capture_index c) id (wc_context c) (wc_archive_limit_bytes c) (wc_open c)
    (wc_discovery c) (wc_jobs c) (wc_results c).
Definition set_open (fd : bool) (c : Capture) : Capture :=
  mkCapture (wc_stream c) (wc_counters c) (wc_sessions c) (wc_session_index c) (wc_capture_index c)
    (wc_event_capture_index c) (wc_next_session_id c) (wc_context c) (wc_archive_limit_bytes c) fd
    (wc_discovery c) (wc_jobs c) (wc_results c).
Definition set_discovery (discovery : Discovery) (c : Capture) : Capture :=
  mkCapture (wc_stream c) (wc_counters c) (wc_sessions c) (wc_session_index c) (wc_capture_index c)
    (wc_event_capture_index c) (wc_next_session_id c) (wc_context c) (wc_archive_limit_bytes c) (wc_open c)
    discovery (wc_jobs c) (wc_results c).
Definition set_writer (jobs : list Job) (results : list WriteResult) (c : Capture) : Capture :=
  mkCapture (wc_stream c) (wc_counters c) (wc_sessions c) (wc_session_index c) (wc_capture_index c)
    (wc_event_capture_index c) (wc_next_session_id c) (wc_context c) (wc_archive_limit_bytes c) (wc_open c)
    (wc_discovery c) jobs results.

Definition with_correlation (correlation : WaveformCorrelation) (utc : Z) (s : Stream) : Stream :=
  mkStream (st_history s) (st_have_history s) (st_oldest_sequence s) (st_latest_sequence s) (st_sequence_gaps s)
    (st_sample_rate_hz s) (st_gaps s) (st_configuration_generation s) correlation utc.

Definition with_invalid_block (k : Counters) : Counters :=
  mkCounters (cnt_blocks k) (cnt_frames k) (cnt_bytes k) (u64 (cnt_invalid_blocks k + 1)) (cnt_pl_dropped_frames k)
    (cnt_transport_overrun_blocks k) (cnt_transport_last_overrun_blocks k) (cnt_transport_ring_blocks k)
    (cnt_materialization_failures k) (cnt_expired_sessions k) (cnt_retention_failures k) (cnt_archive_stored_bytes k).
Definition with_bytes (bytes : Z) (k : Counters) : Counters :=
  mkCounters (cnt_blocks k) (cnt_frames k) bytes (cnt_invalid_blocks k) (cnt_pl_dropped_frames k)
    (cnt_transport_overrun_blocks k) (cnt_transport_last_overrun_blocks k) (cnt_transport_ring_blocks k)
    (cnt_materialization_failures k) (cnt_expired_sessions k) (cnt_retention_failures k) (cnt_archive_stored_bytes k).
Definition with_block (dropped_frames : Z) (k : Counters) : Counters :=
  mkCounters (u64 (cnt_blocks k + 1)) (u64 (cnt_frames k + waveform_frames_per_block)) (cnt_bytes k)
    (cnt_invalid_blocks k) dropped_frames (cnt_transport_overrun_blocks k) (cnt_transport_last_overrun_blocks k)
    (cnt_transport_ring_blocks k) (cnt_materialization_failures k) (cnt_expired_sessions k)
    (cnt_retention_failures k) (cnt_archive_stored_bytes k).
Definition with_transport (overrun last_overrun ring : Z) (k : Counters) : Counters :=
  mkCounters (cnt_blocks k) (cnt_frames k) (cnt_bytes k) (cnt_invalid_blocks k) (cnt_pl_dropped_frames k)
    overrun last_overrun ring (cnt_materialization_failures k) (cnt_expired_sessions k)
    (cnt_retention_failures k) (cnt_archive_stored_bytes k).
Definition with_failures (materialization expired retention : Z) (k : Counters) : Counters :=
  mkCounters (cnt_blocks k) (cnt_frames k) (cnt_bytes k) (cnt_invalid_blocks k) (cnt_pl_dropped_frames k)
    (cnt_transport_overrun_blocks k) (cnt_transport_last_overrun_blocks k) (cnt_transport_ring_blocks k)
    (u64 (cnt_materialization_failures k + materialization)) (u64 (cnt_expired_sessions k + expired))
    (u64 (cnt_retention_failures k + retention)) (cnt_archive_stored_bytes k).
Definition with_stored (stored : Z) (k : Counters) : Counters :=
  mkCounters (cnt_blocks k) (cnt_frames k) (cnt_bytes k) (cnt_invalid_blocks k) (cnt_pl_dropped_frames k)
    (cnt_transport_overrun_blocks k) (cnt_transport_last_overrun_blocks k) (cnt_transport_ring_blocks k)
    (cnt_materialization_failures k) (cnt_expired_sessions k) (cnt_retention_failures k) stored.

Definition with_summary (summary : WaveformSessionSummary) (s : Session) : Session :=
  mkSession summary (ses_context s) (ses_events s) (ses_active_events s) (ses_previous_capture_uuid s)
    (ses_next_capture_uuid s) (ses_materialization_queued s) (ses_capacity_sealed s).
Definition with_events (events : list Event) (s : Session) : Session :=
  mkSession (ses_summary s) (ses_context s) events (ses_active_events s) (ses_previous_capture_uuid s)
    (ses_next_capture_uuid s) (ses_materialization_queued s) (ses_capacity_sealed s).
Definition with_queued (queued : bool) (s : Session) : Session :=
  mkSession (ses_summary s) (ses_context s) (ses_events s) (ses_active_events s) (ses_previous_capture_uuid s)
    (ses_next_capture_uuid s) queued (ses_capacity_sealed s).

Definition with_state (state : WaveformSessionState) (m : WaveformSessionSummary) : WaveformSessionSummary :=
  mkSummary (sum_id m) (sum_trigger_sequence m) (sum_first_sequence m) (sum_last_sequence m)
    (sum_trigger_tai_nanoseconds m) (sum_trigger_realtime_nanoseconds m) (sum_sample_rate_hz m) (sum_event_count m)
    (sum_trigger_source_mask m) (sum_continuation_of_session_id m) (sum_master_session_id m) state (sum_decimation m)
    (sum_format_version m) (sum_compression m) (sum_stored_bytes m) (sum_logical_sample_bytes m)
    (sum_association_created m) (sum_filename m) (sum_capture_uuid m).

Definition mark_incomplete (s : Session) : Session := with_summary (with_state state_incomplete (ses_summary s)) s.

Definition is_capturing (s : Session) : bool := bool_decide (sum_state (ses_summary s) = state_capturing).

(** ** Operations that may throw *)

Definition Task (A : Type) : Type := Capture -> Capture * result A.
#[export] Instance task_ret : MRet Task := fun A a c => (c, Ok a).
#[export] Instance task_bind : MBind Task := fun A B f m c =>
  match m c with (c, Ok a) => f a c | (c, Throw e) => (c, Throw e) end.

Definition task_of {A} (r : result A) : Task A := fun c => (c, r).
Definition task_read {A} (f : Capture -> A) : Task A := fun c => (c, Ok (f c)).
Definition task_change (f : Capture -> Capture) : Task unit := fun c => (f c, Ok tt).

(** ** Indexes *)

Definition index_session (index : gmap Z nat * gmap (list Z) nat) (item : nat * Session)
    : gmap Z nat * gmap (list Z) nat :=
  let summary := ses_summary item.2 in
  (<[sum_id summary := item.1]> index.1,
   if mncwf_uuid_is_zero (sum_capture_uuid summary) then index.2
   else <[mncwf_uuid_string (sum_capture_uuid summary) := item.1]> index.2).

Definition positions {A} (items : list A) : list (nat * A) := zip (seq 0 (length items)) items.

Definition rebuild_indexes (c : Capture) : Capture :=
  let '(session_index, capture_index) := foldl index_session (∅, ∅) (positions (wc_sessions c)) in
  set_indexes session_index capture_index c.

Definition no_event_state : EventCaptureState := mkEventCaptureState 0 0 false.

(** One stored event of session [id]. *)
Definition associate_event (id : Z) (index : gmap (list Z) EventCaptureState) (event : Event)
    : gmap (list Z) EventCaptureState :=
  let descriptor := event_descriptor event in
  if negb (ev_trigger_source descriptor =? source_value source_pq_event)
     || mncwf_uuid_is_zero (ev_event_uuid descriptor) then index
  else
    let key := mncwf_uuid_string (ev_event_uuid descriptor) in
    let state := default no_event_state (index !! key) in
    let '(onset, recovery) :=
      if ecs_onset_session_id state =? 0 then (id, ecs_recovery_session_id state)
      else if negb (ecs_onset_session_id state =? id) && (ecs_recovery_session_id state =? 0)
      then (ecs_onset_session_id state, id)
      else (ecs_onset_session_id state, ecs_recovery_session_id state) in
    <[key := mkEventCaptureState onset recovery (ecs_terminal state || lifecycle_closed (ev_lifecycle descriptor))]> index.

Definition associate_session (index : gmap (list Z) EventCaptureState) (session : Session)
    : gmap (list Z) EventCaptureState :=
  foldl (associate_event (sum_id (ses_summary session))) index (ses_events session).

Definition rebuild_event_capture_index (c : Capture) : Capture :=
  set_event_capture_index (foldl associate_session ∅ (wc_sessions c)) c.

(** ** Stream epochs *)

Definition fresh_stream (history : list Frame) : Stream :=
  mkStream history false 0 0 0 0 [] None no_correlation 0.

(** Sessions that were still capturing cannot be completed any more. *)
Definition abandon (session : Session) : Session :=
  if is_capturing session && negb (ses_materialization_queued session) then mark_incomplete session else session.

Definition begin_stream_epoch (c : Capture) : Capture :=
  set_stream (fresh_stream (st_history (wc_stream c))) (set_sessions (map abandon (wc_sessions c)) c).

(** What the device and the clocks answer during one operation. *)
Record Readings := mkReadings {
  (** The correlation source's answer; nothing when it is absent or throws. *)
  rd_correlation : option WaveformCorrelation;
  (** [overrun_blocks] and [ring_blocks] of the status ioctl. *)
  rd_transport : option (Z * Z);
  rd_tai_now : result Z;
  rd_realtime_now : result Z;
  (** Outcomes of [mncwf_random_uuid]: of a new session, of a manual event. *)
  rd_session_uuid : result (list Z);
  rd_event_uuid : result (list Z)
}.

Definition correlate (rd : Readings) (c : Capture) : option WaveformCorrelation :=
  if wc_open c then rd_correlation rd else None.

(** [if (const auto current = correlate()) correlation_ = *current;] *)
Definition refresh_correlation (rd : Readings) (c : Capture) : Capture :=
  match correlate rd c with
  | Some current => set_stream (with_correlation current (st_correlation_utc_nanoseconds (wc_stream c)) (wc_stream c)) c
  | None => c
  end.

Definition update_transport_status (rd : Readings) (c : Capture) : Capture :=
  if negb (wc_open c) then c
  else
    match rd_transport rd with
    | None => c
    | Some (overrun_blocks, ring_blocks) =>
        let k := wc_counters c in
        let last := cnt_transport_last_overrun_blocks k in
        let total := if last <=? overrun_blocks
                     then u64 (cnt_transport_overrun_blocks k + (overrun_blocks - last))
                     else cnt_transport_overrun_blocks k in
        set_counters (with_transport total overrun_blocks ring_blocks k) c
    end.

(** ** Blocks *)

Record WaveformBlockHeader := mkBlockHeader {
  bh_magic : Z;
  bh_version : Z;
  bh_block_bytes : Z;
  bh_frame_count : Z;
  bh_frame_bytes : Z;
  bh_first_sequence_low : Z;
  bh_first_sequence_high : Z;
  bh_measured_sample_rate_hz : Z;
  bh_configuration_generation : Z;
  bh_dropped_frames : Z
}.

Record WaveformBlock := mkBlock { blk_header : WaveformBlockHeader; blk_frames : list Frame }.

Definition first_sequence (header : WaveformBlockHeader) : Z :=
  Z.lor (Z.shiftl (bh_first_sequence_high header) 32) (bh_first_sequence_low header).

Definition block_valid (header : WaveformBlockHeader) : bool :=
  (bh_magic header =? waveform_block_magic) && (bh_version header =? waveform_block_version)
  && (bh_block_bytes header =? waveform_block_bytes) && (bh_frame_count header =? waveform_frames_per_block)
  && (bh_frame_bytes header =? waveform_frame_bytes).

(** The ring position of a sequence. *)
Definition ring_slot (size sequence : Z) : nat := Z.to_nat (sequence mod size).

(** The loop that stores the frames of a block from [sequence] on. *)
Fixpoint store_frames (history : list Frame) (sequence : Z) (frames : list Frame) : list Frame :=
  match frames with
  | [] => history
  | frame :: frames =>
      store_frames (<[ring_slot (zlen history) (u64 sequence) := frame]> history) (sequence + 1) frames
  end.

Definition store_block (header : WaveformBlockHeader) (frames : list Frame) (s : Stream) : Stream :=
  let first := first_sequence header in
  let expected := u64 (st_latest_sequence s + 1) in
  let lost := st_have_history s && (expected <? first) in
  let size := zlen (st_history s) in
  let latest := u64 (first + waveform_frames_per_block - 1) in
  let oldest := if negb (st_have_history s) then first
                else if size <? u64 (latest - st_oldest_sequence s + 1) then u64 (latest - size + 1)
                else st_oldest_sequence s in
  let gaps := if lost then st_gaps s ++ [(expected, first - 1)] else st_gaps s in
  mkStream (store_frames (st_history s) first frames) true oldest latest
    (if lost then u64 (st_sequence_gaps s + (first - expected)) else st_sequence_gaps s)
    (bh_measured_sample_rate_hz header)
    (List.filter (fun gap => negb (gap.2 <? oldest)) gaps)
    (st_configuration_generation s) (st_correlation s) (st_correlation_utc_nanoseconds s).

(** [configuration_generation_ = generation], after an epoch boundary on a change. *)
Definition adopt_generation (rd : Readings) (generation : Z) (c : Capture) : Capture :=
  let changed := match st_configuration_generation (wc_stream c) with
                 | Some current => negb (current =? generation)
                 | None => false
                 end in
  let c := if changed then refresh_correlation rd (begin_stream_epoch c) else c in
  let s := wc_stream c in
  set_stream (mkStream (st_history s) (st_have_history s) (st_oldest_sequence s) (st_latest_sequence s)
    (st_sequence_gaps s) (st_sample_rate_hz s) (st_gaps s) (Some generation) (st_correlation s)
    (st_correlation_utc_nanoseconds s)) c.

Definition accept_block (rd : Readings) (block : WaveformBlock) (c : Capture) : Capture :=
  let header := blk_header block in
  if negb (block_valid header) then set_counters (with_invalid_block (wc_counters c)) c
  else
    let c := adopt_generation rd (bh_configuration_generation header) c in
    let s := wc_stream c in
    if st_have_history s && (first_sequence header <? u64 (st_latest_sequence s + 1))
    then set_counters (with_invalid_block (wc_counters c)) c
    else
      set_counters (with_block (bh_dropped_frames header) (wc_counters c))
        (set_stream (store_block header (blk_frames block) s) c).

(** ** Materialization *)

Definition intersects_gap (s : Stream) (first last : Z) : bool :=
  existsb (fun gap => (gap.1 <=? last) && (first <=? gap.2)) (st_gaps s).

Definition max_capture_frames (s : Stream) : Z :=
  let margin := u64 (st_sample_rate_hz s * 2) in
  if zlen (st_history s) <=? margin then 0 else zlen (st_history s) - margin.

(** The copy loop: each turn takes a run of the ring; [turns] is the window. *)
Fixpoint ring_snapshot (turns : nat) (history : list Frame) (sequence remaining : Z) : option (list Frame) :=
  if remaining =? 0 then Some []
  else
    match turns with
    | O => None
    | S turns =>
        let offset := sequence mod zlen history in
        let count := Z.min remaining (zlen history - offset) in
        (fun rest => take (Z.to_nat count) (drop (Z.to_nat offset) history) ++ rest)
          <$> ring_snapshot turns history (u64 (sequence + count)) (remaining - count)
    end.

(** The lambda [timestamp_at]. *)
Definition timestamp_at (anchor_sequence rate sequence anchor_time : Z) : result Z :=
  reject_if (rate =? 0) (RuntimeError "waveform sample rate is zero") ;;
  if anchor_sequence <=? sequence then
    let nanoseconds := u64 ((sequence - anchor_sequence) * 1000000000) / rate in
    reject_if (UINT64_MAX - anchor_time <? nanoseconds) (OverflowError "waveform event time overflow") ;;
    Ok (anchor_time + nanoseconds)
  else
    let nanoseconds := u64 ((anchor_sequence - sequence) * 1000000000) / rate in
    reject_if (anchor_time <? nanoseconds) (OverflowError "waveform event time underflow") ;;
    Ok (anchor_time - nanoseconds).

(** The anchors of a stored event, clipped to the window. *)
Definition clip_to_window (capture_first capture_last : Z) (event : MncwfV4EventDescriptor) : result MncwfV4EventDescriptor :=
  let clipped_start := (ev_start_sequence event <? capture_first) || (capture_last <? ev_start_sequence event) in
  start ← clamp capture_first capture_last (ev_start_sequence event);
  '(current, flags) ←
    (if any_bit (ev_flags event) mncwf_event_current_valid
     then current ← clamp capture_first capture_last (ev_current_sequence event); Ok (current, ev_flags event)
     else Ok (start, Z.lor (ev_flags event) mncwf_event_current_valid));
  let ended_later := any_bit flags mncwf_event_end_valid && (capture_last <? ev_end_sequence event) in
  let flags := if ended_later then Z.land flags (Z.lnot mncwf_event_end_valid) else flags in
  let lifecycle := if ended_later then lifecycle_update else ev_lifecycle event in
  let ended := any_bit flags mncwf_event_end_valid in
  last ← (if ended_later then Ok 0
          else if ended then clamp capture_first capture_last (ev_end_sequence event)
          else Ok (ev_end_sequence event));
  let trigger_lost := any_bit flags mncwf_event_trigger_valid
                      && ((ev_trigger_sequence event <? capture_first) || (capture_last <? ev_trigger_sequence event)) in
  let flags := if trigger_lost then Z.land flags (Z.lnot mncwf_event_trigger_valid) else flags in
  let trigger := if trigger_lost then 0 else ev_trigger_sequence event in
  let flags := if clipped_start then Z.lor flags mncwf_event_discontinuous else flags in
  let lifecycle := if clipped_start
                   then match lifecycle with lifecycle_start => lifecycle_update | other => other end
                   else lifecycle in
  let lifecycle := if lifecycle_closed lifecycle && negb ended then lifecycle_update else lifecycle in
  Ok (with_anchors event lifecycle flags start current last trigger (ev_duration_samples event)).

(** [event] with its flags, uncertainty and duration assigned. *)
Definition with_extent_of (event : MncwfV4EventDescriptor) (flags uncertainty duration : Z) : MncwfV4EventDescriptor :=
  mkEventDescriptor (ev_event_uuid event) (ev_taxonomy event) (ev_event_type event) (ev_lifecycle event)
    (ev_time_quality event) flags (ev_phase_mask event) (ev_quantity event) (ev_si_unit event)
    (ev_trigger_source event) (ev_configuration_generation event) (ev_severity event) (ev_start_sequence event)
    (ev_current_sequence event) (ev_end_sequence event) (ev_trigger_sequence event)
    (ev_start_tai_nanoseconds event) (ev_current_tai_nanoseconds event) (ev_end_tai_nanoseconds event)
    (ev_trigger_tai_nanoseconds event) (ev_start_utc_nanoseconds event) (ev_current_utc_nanoseconds event)
    (ev_end_utc_nanoseconds event) (ev_trigger_utc_nanoseconds event) uncertainty
    (ev_reference_micro_units event) (ev_threshold_micro_units event) (ev_hysteresis_micro_units event)
    (ev_extrema_micro_units event) duration (ev_update_count event) (ev_status event) (ev_taxonomy_name event)
    (ev_label event) (ev_settings_snapshot_json event).

(** The event as the job carries it: clipped, and stamped from the correlation. *)
Definition job_event (first last : Z) (correlation : WaveformCorrelation) (utc rate : Z)
    (stored : MncwfV4EventDescriptor) : result MncwfV4EventDescriptor :=
  event ← clip_to_window first last stored;
  let at_time := timestamp_at (corr_frame_sequence correlation) rate in
  let tai := corr_tai_nanoseconds correlation in
  start_tai ← at_time (ev_start_sequence event) tai;
  current_tai ← at_time (ev_current_sequence event) tai;
  start_utc ← at_time (ev_start_sequence event) utc;
  current_utc ← at_time (ev_current_sequence event) utc;
  let ended := any_bit (ev_flags event) mncwf_event_end_valid in
  end_tai ← (if ended then at_time (ev_end_sequence event) tai else Ok 0);
  end_utc ← (if ended then at_time (ev_end_sequence event) utc else Ok 0);
  let triggered := any_bit (ev_flags event) mncwf_event_trigger_valid in
  trigger_tai ← (if triggered then at_time (ev_trigger_sequence event) tai else Ok 0);
  trigger_utc ← (if triggered then at_time (ev_trigger_sequence event) utc else Ok 0);
  let event := with_times event (start_tai, start_utc) (current_tai, current_utc) (end_tai, end_utc)
                 (trigger_tai, trigger_utc) in
  Ok (with_extent_of event (Z.lor (ev_flags event) (Z.lor mncwf_event_tai_valid mncwf_event_utc_valid))
        (corr_uncertainty_nanoseconds correlation)
        (u64 ((if ended then ev_end_sequence event else ev_current_sequence event) - ev_start_sequence event))).

Definition capture_lineage (summary : WaveformSessionSummary) (relation : MncwfLineageRelation) (related : list Z)
    : list MncwfV4LineageEntry :=
  if mncwf_uuid_is_zero related then []
  else [mkLineageEntry relation 0 related zero_uuid (sum_first_sequence summary) (sum_last_sequence summary) 0 1].

Definition event_lineage (summary : WaveformSessionSummary) (event : MncwfV4EventDescriptor) : MncwfV4LineageEntry :=
  mkLineageEntry relation_event 0 (sum_capture_uuid summary) (ev_event_uuid event) (ev_start_sequence event)
    (if any_bit (ev_flags event) mncwf_event_end_valid then ev_end_sequence event else ev_current_sequence event) 0 1.

(** The correlation of a job: the capture's, or one made of the trigger. *)
Definition job_correlation_of (s : Stream) (summary : WaveformSessionSummary) : WaveformCorrelation :=
  if corr_tai_nanoseconds (st_correlation s) =? 0
  then mkCorrelation (sum_trigger_tai_nanoseconds summary) (sum_trigger_sequence summary)
         (sum_trigger_sequence summary) 1000000
  else st_correlation s.

(** [enqueue_materialization] up to the queue. *)
Definition materialization_job (limit : Z) (s : Stream) (session : Session) : result Job :=
  let summary := ses_summary session in
  let correlation := job_correlation_of s summary in
  utc ← (if st_correlation_utc_nanoseconds s =? 0
         then translate_clock (corr_tai_nanoseconds correlation) (sum_trigger_tai_nanoseconds summary)
                (sum_trigger_realtime_nanoseconds summary)
         else Ok (st_correlation_utc_nanoseconds s));
  let first := sum_first_sequence summary in
  let last := sum_last_sequence summary in
  let window := u64 (last - first + 1) in
  reject_if (zlen (st_history s) <? window) (RuntimeError "waveform session exceeds history") ;;
  let frames := default [] (ring_snapshot (Z.to_nat window) (st_history s) first window) in
  events ← mapM_result (fun stored => job_event first last correlation utc (sum_sample_rate_hz summary)
                                        (event_descriptor stored)) (ses_events session);
  Ok (mkJob summary (ses_context session) events
        (capture_lineage summary relation_previous_continuation (ses_previous_capture_uuid session)
         ++ capture_lineage summary relation_next_continuation (ses_next_capture_uuid session)
         ++ map (event_lineage summary) events)
        correlation utc window limit false frames).

(** One turn of [finish_sessions]: the session, the job queued, the failures counted. *)
Definition finish_session (limit : Z) (s : Stream) (session : Session) : Session * list Job * Z :=
  let summary := ses_summary session in
  if negb (is_capturing session) || ses_materialization_queued session
     || negb (bool_decide (ses_active_events session = [])) || (st_latest_sequence s <? sum_last_sequence summary)
  then (session, [], 0)
  else if (sum_first_sequence summary <? st_oldest_sequence s)
          || intersects_gap s (sum_first_sequence summary) (sum_last_sequence summary)
  then (mark_incomplete session, [], 0)
  else
    match materialization_job limit s session with
    | Ok job => (with_queued true session, [job], 0)
    | Throw _ => (mark_incomplete session, [], 1)
    end.

Fixpoint finish_loop (limit : Z) (s : Stream) (sessions : list Session) : list Session * list Job * Z :=
  match sessions with
  | [] => ([], [], 0)
  | session :: sessions =>
      let '(session, jobs, failures) := finish_session limit s session in
      let '(sessions, more, further) := finish_loop limit s sessions in
      (session :: sessions, jobs ++ more, failures + further)
  end.

Definition finish_sessions (c : Capture) : Capture :=
  let '(sessions, jobs, failures) := finish_loop (wc_archive_limit_bytes c) (wc_stream c) (wc_sessions c) in
  set_counters (with_failures failures 0 0 (wc_counters c))
    (set_writer (wc_jobs c ++ jobs) (wc_results c) (set_sessions sessions c)).

(** ** Results *)

(** [error.find("archive limit") != npos] *)
Definition mentions_archive_limit (error : string) : bool :=
  match String.index 0 "archive limit" error with Some _ => true | None => false end.

Definition completed_summary (outcome : WriteResult) (m : WaveformSessionSummary) : WaveformSessionSummary :=
  mkSummary (sum_id m) (sum_trigger_sequence m) (sum_first_sequence m) (sum_last_sequence m)
    (sum_trigger_tai_nanoseconds m) (sum_trigger_realtime_nanoseconds m) (sum_sample_rate_hz m) (sum_event_count m)
    (sum_trigger_source_mask m) (sum_continuation_of_session_id m) (sum_master_session_id m) state_complete
    (sum_decimation m) (res_format_version outcome) (res_compression outcome) (res_stored_bytes outcome)
    (res_logical_sample_bytes outcome) (sum_association_created m) (copy_name (res_filename outcome) (sum_filename m))
    (sum_capture_uuid m).

(** The sessions the writer removed from the archive. *)
Definition expire (outcome : WriteResult) (c : Capture) : Capture :=
  if bool_decide (res_expired_session_ids outcome = []) then c
  else
    rebuild_event_capture_index
      (rebuild_indexes
         (set_sessions (List.filter (fun session => negb (bool_decide (sum_id (ses_summary session)
                                                                       ∈ res_expired_session_ids outcome)))
                          (wc_sessions c))
            (set_counters (with_failures 0 (zlen (res_expired_session_ids outcome)) 0 (wc_counters c)) c))).

Definition collect_result (c : Capture) (outcome : WriteResult) : Capture :=
  let c := expire outcome c in
  let c := if res_success outcome
           then set_counters (with_stored (res_archive_stored_bytes outcome) (wc_counters c)) c else c in
  if res_session_id outcome =? 0 then
    if res_success outcome then c else set_counters (with_failures 0 0 1 (wc_counters c)) c
  else
    match wc_session_index c !! res_session_id outcome with
    | None => c
    | Some index =>
        let update f := set_sessions (alter f index (wc_sessions c)) c in
        if res_success outcome
        then update (fun session => with_queued false (with_summary (completed_summary outcome (ses_summary session)) session))
        else set_counters (with_failures 1 0 (if mentions_archive_limit (res_error outcome) then 1 else 0) (wc_counters c))
               (update (fun session => with_queued false (mark_incomplete session)))
    end.

Definition collect_materialization_results (c : Capture) : Capture :=
  let results := wc_results c in foldl collect_result (set_writer (wc_jobs c) [] c) results.

(** ** Reading the device *)

(** The outcome of one [read]: nothing more, a failure, a torn transfer of some bytes,
    or one or two blocks. *)
Inductive ReadOutcome :=
  | read_would_block
  | read_failed (error : string)
  | read_end
  | read_torn (size : Z)
  | read_blocks (blocks : list WaveformBlock).

(** The counters of a transfer. *)
Definition count_torn (size : Z) (c : Capture) : Capture :=
  set_counters (with_invalid_block (with_bytes (u64 (cnt_bytes (wc_counters c) + size)) (wc_counters c))) c.
Definition count_blocks (blocks : list WaveformBlock) (c : Capture) : Capture :=
  set_counters (with_bytes (u64 (cnt_bytes (wc_counters c) + zlen blocks * waveform_block_bytes)) (wc_counters c)) c.

Fixpoint read_loop (rd : Readings) (reads : list ReadOutcome) : Task unit :=
  match reads with
  | [] | read_would_block :: _ | read_end :: _ => mret tt
  | read_failed error :: _ => task_of (Throw (RuntimeError ("read " +:+ error)))
  | read_torn size :: reads => task_change (count_torn size) ;; read_loop rd reads
  | read_blocks blocks :: reads =>
      task_change (fun c => foldl (fun c block => accept_block rd block c) (count_blocks blocks c) blocks) ;;
      read_loop rd reads
  end.

Definition read_available (rd : Readings) (reads : list ReadOutcome) : Task unit :=
  task_change (fun c => update_transport_status rd (collect_materialization_results c)) ;;
  read_loop rd reads ;;
  task_change (fun c => collect_materialization_results (finish_sessions (update_transport_status rd c))).

(** ** The writer thread *)

(** The writer takes the oldest job and queues its result. *)
Definition writer_turn `{ZstdLibrary} (env : WriterEnvironment) (c : Capture) : Capture :=
  match wc_jobs c with
  | [] => c
  | job :: jobs => set_writer jobs (wc_results c ++ [(write env job).1]) c
  end.
