(* ===== verification/CaptureDiscovery.v ===== *)
(** * Waveform capture: discovery of persisted sessions

    Models the archive scan of [WaveformCapture]
    (src/common/msap1/waveform/waveform_capture.cpp): the session numbers reserved when
    the daemon starts, the validation of each file by the scanning thread - MNCWF
    versions 4 and 5 through the reader, versions 1 to 3 through the fixed header - and
    the merge of the restored sessions with those captured meanwhile.  The scanning
    thread is a sequence of turns between which the other operations may run. *)

From stdpp Require Import gmap sorting pretty.
From S2P Require Import Prelude MncwfTypes MncwfFormat MncwfRecords MncwfReader MncwfEncode MncwfSlice CaptureTypes CaptureWriter CaptureStream.

(** ** The fixed header of versions 1 to 3 *)

Definition legacy_header_bytes : Z := 256.
Definition channel_metadata_bytes : Z := 32.

(** The default-initialised [WaveformFileHeaderV2]: version 3, 256 header bytes, seven
    channels of 28 and 32 bytes, the channel table at 256, decimation 1. *)
Definition legacy_header_default : list Z :=
  replicate 8 0 ++ le_bytes 4 3 ++ le_bytes 4 256 ++ replicate 80 0
  ++ le_bytes 4 waveform_persisted_channels ++ le_bytes 4 (waveform_persisted_channels * 4)
  ++ le_bytes 4 channel_metadata_bytes ++ le_bytes 4 0 ++ le_bytes 8 256 ++ replicate 32 0
  ++ le_bytes 4 1 ++ replicate 100 0.

(** What [input.read] leaves in the header. *)
Definition legacy_image (content : list Z) : list Z :=
  let read := take (Z.to_nat legacy_header_bytes) content in read ++ drop (length read) legacy_header_default.

Record WaveformFileHeaderV2 := mkFileHeader {
  fh_magic : list Z;
  fh_version : Z;
  fh_header_bytes : Z;
  fh_session_id : Z;
  fh_first_sequence : Z;
  fh_last_sequence : Z;
  fh_trigger_sequence : Z;
  fh_trigger_tai_nanoseconds : Z;
  fh_sample_rate_hz : Z;
  fh_event_count : Z;
  fh_channel_count : Z;
  fh_frame_bytes : Z;
  fh_channel_descriptor_bytes : Z;
  fh_channel_table_offset : Z;
  fh_event_table_offset : Z;
  fh_frame_data_offset : Z;
  fh_frame_count : Z;
  fh_trigger_realtime_nanoseconds : Z;
  fh_decimation : Z
}.

Definition legacy_header (content : list Z) : WaveformFileHeaderV2 :=
  let image := legacy_image content in
  let at4 offset := le_value (slice image offset 4) in
  let at8 offset := le_value (slice image offset 8) in
  mkFileHeader (slice image 0 8) (at4 8) (at4 12) (at8 16) (at8 24) (at8 32) (at8 40) (at8 48) (at4 56) (at4 60)
    (at4 96) (at4 100) (at4 104) (at8 112) (at8 120) (at8 128) (at8 136) (at8 144) (at4 152).

(** [header.magic], a plausible version and a usable session number. *)
Definition legacy_identified (content : list Z) (header : WaveformFileHeaderV2) : bool :=
  (64 <=? Z.min legacy_header_bytes (zlen content)) && bool_decide (fh_magic header = mncwf_magic)
  && (0 <? fh_session_id header) && (fh_session_id header <? UINT64_MAX).

(** ** Reserved session numbers *)

(** Names in the order of their bytes. *)
Fixpoint name_le (name other : list Z) : bool :=
  match name, other with
  | [], _ => true
  | _ :: _, [] => false
  | a :: name, b :: other => (a <? b) || ((a =? b) && name_le name other)
  end.
Definition entry_before (left right : DirectoryEntry) : Prop := name_le (entry_name left) (entry_name right) = true.
#[export] Instance entry_before_dec : RelDecision entry_before.
Proof. intros left right. unfold entry_before. apply _. Defined.

(** The session number a file may turn out to hold. *)
Definition reserved_id (entry : DirectoryEntry) : option Z :=
  match session_id_from_filename (entry_name entry) with
  | Some id => Some id
  | None =>
      let header := legacy_header (entry_streamed entry) in
      if legacy_identified (entry_streamed entry) header && (1 <=? fh_version header) && (fh_version header <=? 3)
      then Some (fh_session_id header) else None
  end.

(** One entry: the bytes stored, the files to scan, the next free session number. *)
Definition list_entry (state : Z * list DirectoryEntry * Z) (entry : DirectoryEntry) : Z * list DirectoryEntry * Z :=
  let '(stored, files, next) := state in
  if negb (entry_regular entry) then state
  else
    let stored := match entry_size entry with
                  | Some size => if size <=? UINT64_MAX - stored then stored + size else stored
                  | None => stored
                  end in
    if negb (is_capture_file (entry_name entry)) then (stored, files, next)
    else (stored, files ++ [entry], match reserved_id entry with Some id => Z.max next (u64 (id + 1)) | None => next end).

Definition begin_persisted_session_discovery (directory : list DirectoryEntry) (c : Capture) : Capture :=
  let d := wc_discovery c in
  if negb (bool_decide (disc_state d = discovery_not_started)) then c
  else
    let '(stored, files, next) := foldl list_entry (0, [], wc_next_session_id c) directory in
    let none := bool_decide (files = []) in
    let d := mkDiscovery (if none then discovery_complete else discovery_scanning) (disc_scanned_files d) (zlen files)
               (disc_rejected_files d) (disc_error d) none (disc_result_collected d) (disc_error_reported d)
               (disc_startup_retention_queued d) (disc_discovered_sessions d) (merge_sort entry_before files) [] in
    set_discovery d (set_next_session_id next (set_counters (with_stored stored (wc_counters c)) c)).

(** ** One file *)

Definition empty_summary : WaveformSessionSummary :=
  mkSummary 0 0 0 0 0 0 0 0 0 0 0 state_capturing 1 0 compression_none 0 0 false no_name zero_uuid.
Definition empty_metadata : MncwfV4CaptureMetadata :=
  mkCaptureMetadata zero_uuid zero_uuid (replicate 32 0) (replicate 32 0) 0 0 0 1 0 1 topology_unknown calibration_unknown 0
    [] [] [] [] [] [] [] [] [] [] [] [].
Definition empty_context : WaveformCaptureContext :=
  mkCaptureContext empty_metadata [] clock_system quality_unknown 0 0.

(** What every segment of a restored capture shares with the first. *)
Definition same_rate (first segment : MncwfV4TimebaseSegment) : bool :=
  (seg_acquisition_rate_numerator segment =? seg_acquisition_rate_numerator first)
  && (seg_acquisition_rate_denominator segment =? seg_acquisition_rate_denominator first)
  && (seg_decimation_divisor segment =? seg_decimation_divisor first).

(** The capture's rate, when it is an integer that 32 bits hold. *)
Definition restored_rate (segments : list MncwfV4TimebaseSegment) (first last : MncwfV4TimebaseSegment) : option Z :=
  let numerator := seg_acquisition_rate_numerator first in
  let denominator := seg_acquisition_rate_denominator first in
  if (denominator =? 0) || negb (numerator mod denominator =? 0) || (seg_source_frame_count last =? 0) then None
  else
    let rate := numerator / denominator in
    if (rate =? 0) || (UINT32_MAX <? rate) || (UINT64_MAX - seg_first_sequence last <? seg_source_frame_count last - 1)
       || negb (forallb (same_rate first) segments)
    then None else Some rate.

(** The trigger of a capture: sequence, TAI and UTC time. *)
Definition restored_trigger (reader : MncwfV4Reader) (first : MncwfV4TimebaseSegment) : Z * Z * Z :=
  let tai := cap_created_tai_nanoseconds (capture_metadata_ reader) in
  let utc := cap_created_utc_nanoseconds (capture_metadata_ reader) in
  match List.find (fun event => any_bit (ev_flags event) mncwf_event_trigger_valid) (events_ reader) with
  | None => (seg_first_sequence first, tai, utc)
  | Some event =>
      (ev_trigger_sequence event,
       if any_bit (ev_flags event) mncwf_event_tai_valid then ev_trigger_tai_nanoseconds event else tai,
       if any_bit (ev_flags event) mncwf_event_utc_valid then ev_trigger_utc_nanoseconds event else utc)
  end.

(** The neighbours of a continuation: the last entry of each relation counts. *)
Definition restored_lineage (state : list Z * list Z) (entry : MncwfV4LineageEntry) : list Z * list Z :=
  match lin_relation entry with
  | relation_previous_continuation => (lin_related_capture_uuid entry, state.2)
  | relation_next_continuation => (state.1, lin_related_capture_uuid entry)
  | _ => state
  end.

Definition restored_session (id file_bytes : Z) (filename : list Z) (reader : MncwfV4Reader)
    (first last : MncwfV4TimebaseSegment) (rate : Z) : Session :=
  let '(trigger, tai, utc) := restored_trigger reader first in
  let '(previous, following) := foldl restored_lineage (zero_uuid, zero_uuid) (lineage_ reader) in
  let v5 := hdr_version (header_ reader) =? mncwf_v5_version in
  mkSession
    (mkSummary id trigger (seg_first_sequence first) (seg_first_sequence last + seg_source_frame_count last - 1)
       tai utc rate (u32 (zlen (events_ reader)))
       (foldl (fun mask event => Z.lor mask (trigger_source_bit_of (ev_trigger_source event))) 0 (events_ reader))
       0 id state_complete (seg_decimation_divisor first) (hdr_version (header_ reader))
       (if v5 then chunk_compression (sample_chunks_ reader) else compression_none) file_bytes
       (u64 (sample_frame_count_ reader * sample_frame_bytes_ reader)) false (copy_name filename no_name)
       (cap_capture_uuid (capture_metadata_ reader)))
    empty_context
    (map (fun descriptor => mkEvent (mkEventIdentity 0 0)
                              (ev_trigger_source descriptor =? source_value source_pq_event) descriptor) (events_ reader))
    [] previous following false false.

(** Versions 4 and 5. *)
Definition read_container `{ZstdLibrary} (entry : DirectoryEntry) : result (option Session) :=
  match session_id_from_filename (entry_name entry), entry_size entry with
  | Some id, Some file_bytes =>
      if (file_bytes <? mncwf_v4_header_bytes) || (mncwf_v4_max_file_bytes <? file_bytes) then Ok None
      else
        reader ← read_entry entry mode_metadata_only;
        match timebase_segments_ reader, reverse (timebase_segments_ reader) with
        | first :: _, last :: _ =>
            Ok ((fun rate => restored_session id file_bytes (entry_name entry) reader first last rate)
                  <$> restored_rate (timebase_segments_ reader) first last)
        | _, _ => Throw (UndefinedBehaviour "front of an empty timebase")
        end
  | _, _ => Ok None
  end.

(** The size a version 2 or 3 header announces, when its geometry is consistent. *)
Definition legacy_layout (content : list Z) (h : WaveformFileHeaderV2) (decimation : Z) : option Z :=
  let span := fh_last_sequence h - fh_first_sequence h in
  if (2 <=? fh_version h) && (legacy_header_bytes <=? zlen content) && (fh_header_bytes h =? legacy_header_bytes)
     && (0 <? fh_channel_count h) && (fh_channel_count h <=? waveform_channels)
     && (fh_channel_descriptor_bytes h =? channel_metadata_bytes) && (fh_frame_bytes h =? fh_channel_count h * 4)
     && (fh_channel_table_offset h =? legacy_header_bytes)
     && (fh_event_table_offset h =? fh_channel_table_offset h + fh_channel_count h * fh_channel_descriptor_bytes h)
     && (fh_frame_data_offset h =? u64 (fh_event_table_offset h + fh_event_count h * 24))
     && (fh_first_sequence h <=? fh_last_sequence h) && (span mod decimation =? 0)
     && (fh_frame_count h =? u64 (span / decimation + 1))
  then Some (u64 (fh_frame_data_offset h + u64 (fh_frame_count h * fh_frame_bytes h))) else None.

(** Versions 1 to 3. *)
Definition read_legacy (entry : DirectoryEntry) (version : Z) : option Session :=
  let content := entry_streamed entry in
  let h := legacy_header content in
  if negb (legacy_identified content h && (fh_version h =? version)) then None
  else
    let decimation := if 3 <=? fh_version h then fh_decimation h else 1 in
    if negb (valid_decimation decimation) then None
    else
      layout ← match legacy_layout content h decimation with
               | Some bytes => Some (bytes, fh_trigger_realtime_nanoseconds h)
               | None =>
                   if (fh_version h =? 1) && (fh_header_bytes h =? 128) && (fh_first_sequence h <=? fh_last_sequence h)
                   then Some (u64 (u64 (128 + fh_event_count h * 24)
                                   + u64 (u64 (fh_last_sequence h - fh_first_sequence h + 1) * waveform_frame_bytes)),
                              default 0 (entry_modified entry))
                   else None
               end;
      let '(expected, realtime) := layout in
      if negb (bool_decide (entry_size entry = Some expected)) then None
      else
        Some (mkSession
          (mkSummary (fh_session_id h) (fh_trigger_sequence h) (fh_first_sequence h) (fh_last_sequence h)
             (fh_trigger_tai_nanoseconds h) realtime (fh_sample_rate_hz h) (fh_event_count h) 0 0 (fh_session_id h)
             state_complete decimation version compression_none expected
             (if fh_frame_data_offset h <=? expected then expected - fh_frame_data_offset h else 0) false
             (copy_name (entry_name entry) no_name) zero_uuid)
          empty_context [] [] zero_uuid zero_uuid false false).

Definition read_session `{ZstdLibrary} (entry : DirectoryEntry) : result (option Session) :=
  let prefix := take 16 (entry_streamed entry) in
  if negb (zlen prefix =? 16) || negb (bool_decide (take 8 prefix = mncwf_magic)) then Ok None
  else
    let version := le_value (slice prefix 8 4) in
    if (version =? mncwf_v4_version) || (version =? mncwf_v5_version) then read_container entry
    else if negb ((version =? 1) || (version =? 2) || (version =? 3)) then Ok None
    else Ok (read_legacy entry version).

(** ** The scanning thread *)

Definition with_scan (pending : list DirectoryEntry) (restored : list Session) (rejected : Z) (d : Discovery) : Discovery :=
  mkDiscovery (disc_state d) (u64 (disc_scanned_files d + 1)) (disc_total_files d) (u64 (disc_rejected_files d + rejected))
    (disc_error d) (disc_result_ready d) (disc_result_collected d) (disc_error_reported d)
    (disc_startup_retention_queued d) (disc_discovered_sessions d) pending restored.

(** The next file, or the result when none is left. *)
Definition discovery_turn `{ZstdLibrary} (c : Capture) : Capture :=
  let d := wc_discovery c in
  if negb (bool_decide (disc_state d = discovery_scanning)) || disc_result_ready d then c
  else
    match disc_pending d with
    | entry :: pending =>
        set_discovery (match read_session entry with
                       | Ok (Some session) => with_scan pending (disc_restored d ++ [session]) 0 d
                       | _ => with_scan pending (disc_restored d) 1 d
                       end) c
    | [] =>
        set_discovery (mkDiscovery (disc_state d) (disc_scanned_files d) (disc_total_files d) (disc_rejected_files d)
          (disc_error d) true (disc_result_collected d) (disc_error_reported d) (disc_startup_retention_queued d)
          (disc_restored d) [] []) c
    end.

(** A stop request or a failure ends the scan. *)
Definition discovery_end (failure : option string) (c : Capture) : Capture :=
  let d := wc_discovery c in
  if negb (bool_decide (disc_state d = discovery_scanning)) || disc_result_ready d then c
  else
    set_discovery (mkDiscovery (match failure with Some _ => discovery_failed | None => discovery_cancelled end)
      (disc_scanned_files d) (disc_total_files d) (disc_rejected_files d) (default (disc_error d) failure)
      (disc_result_ready d) (disc_result_collected d) (disc_error_reported d) (disc_startup_retention_queued d)
      (disc_discovered_sessions d) [] []) c.

(** ** Lineage *)

Definition with_chain (continuation_of master : Z) (m : WaveformSessionSummary) : WaveformSessionSummary :=
  mkSummary (sum_id m) (sum_trigger_sequence m) (sum_first_sequence m) (sum_last_sequence m)
    (sum_trigger_tai_nanoseconds m) (sum_trigger_realtime_nanoseconds m) (sum_sample_rate_hz m) (sum_event_count m)
    (sum_trigger_source_mask m) continuation_of master (sum_state m) (sum_decimation m)
    (sum_format_version m) (sum_compression m) (sum_stored_bytes m) (sum_logical_sample_bytes m)
    (sum_association_created m) (sum_filename m) (sum_capture_uuid m).

Definition chain_session (continuation_of master : Z) (s : Session) : Session :=
  with_summary (with_chain continuation_of master (ses_summary s)) s.

(** The session this one continues, by the identities both files hold. *)
Definition predecessor_of (index : gmap (list Z) nat) (sessions : list Session) (s : Session) : Z :=
  if mncwf_uuid_is_zero (ses_previous_capture_uuid s) then 0
  else
    match index !! mncwf_uuid_string (ses_previous_capture_uuid s) ≫= (fun position => sessions !! position) with
    | None => 0
    | Some predecessor =>
        let p := ses_summary predecessor in
        let m := ses_summary s in
        if (sum_id m <=? sum_id p) || (sum_last_sequence p =? UINT64_MAX)
           || negb (sum_last_sequence p + 1 =? sum_first_sequence m)
           || negb (bool_decide (ses_next_capture_uuid predecessor = sum_capture_uuid m))
        then 0 else sum_id p
    end.

(** The second loop: the master of a continuation is its predecessor's, which comes
    earlier and is settled. *)
Definition settle_master (index : gmap Z nat) (sessions : list Session) (position : nat) : list Session :=
  match sessions !! position with
  | None => sessions
  | Some s =>
      match index !! sum_continuation_of_session_id (ses_summary s) with
      | Some predecessor =>
          if (predecessor <? position)%nat then
            match sessions !! predecessor with
            | Some p =>
                <[position := chain_session (sum_continuation_of_session_id (ses_summary s))
                                (sum_master_session_id (ses_summary p)) s]> sessions
            | None => sessions
            end
          else sessions
      | None => sessions
      end
  end.

Definition rebuild_session_lineage (c : Capture) : Capture :=
  let c := rebuild_indexes c in
  let linked := map (fun s => chain_session (predecessor_of (wc_capture_index c) (wc_sessions c) s)
                                (sum_id (ses_summary s)) s) (wc_sessions c) in
  let settled := foldl (settle_master (wc_session_index c)) linked (seq 0 (length linked)) in
  rebuild_event_capture_index (set_sessions settled c).

(** ** Merging the result *)

Definition oldest_first (left right : Session) : Prop := sum_id (ses_summary left) <= sum_id (ses_summary right).
#[export] Instance oldest_first_dec : RelDecision oldest_first.
Proof. intros left right. unfold oldest_first. apply _. Defined.
#[export] Instance oldest_first_total : Total oldest_first.
Proof. intros left right. unfold oldest_first. lia. Qed.

(** A restored session, unless its number is taken. *)
Definition merge_session (state : list Session * Z) (session : Session) : list Session * Z :=
  if existsb (fun candidate => sum_id (ses_summary candidate) =? sum_id (ses_summary session)) state.1
  then (state.1, u64 (state.2 + 1)) else (state.1 ++ [session], state.2).

Definition retention_job (limit : Z) : Job :=
  mkJob empty_summary empty_context [] [] no_correlation 0 0 limit true [].
Definition enqueue_retention (c : Capture) : Capture :=
  set_writer (wc_jobs c ++ [retention_job (wc_archive_limit_bytes c)]) (wc_results c) c.

Definition collect_discovery_results (c : Capture) : Capture :=
  let d := wc_discovery c in
  let reported := disc_error_reported d || negb (bool_decide (disc_error d = ""%string)) in
  if negb (disc_result_ready d && negb (disc_result_collected d)) then
    set_discovery (mkDiscovery (disc_state d) (disc_scanned_files d) (disc_total_files d) (disc_rejected_files d)
      (disc_error d) (disc_result_ready d) (disc_result_collected d) reported (disc_startup_retention_queued d)
      (disc_discovered_sessions d) (disc_pending d) (disc_restored d)) c
  else
    let '(sessions, rejections) := foldl merge_session (wc_sessions c, 0) (disc_discovered_sessions d) in
    let c := rebuild_session_lineage (set_sessions (merge_sort oldest_first sessions) c) in
    let c := if disc_startup_retention_queued d then c else enqueue_retention c in
    set_discovery (mkDiscovery discovery_complete (disc_scanned_files d) (disc_total_files d)
      (u64 (disc_rejected_files d + rejections)) (disc_error d) true true reported true [] (disc_pending d)
      (disc_restored d)) c.
