(* ===== verification/CaptureSessions.v ===== *)
(** * Waveform capture: triggers, power-quality events and administration

    Models the requests of [WaveformCapture]
    (src/common/msap1/waveform/waveform_capture.cpp): manual triggers, the life cycle of
    power-quality events, settings, start and stop, erasure and the queries.  The texts of
    exceptions leave out the path they name. *)

From stdpp Require Import gmap sorting pretty.
From S2P Require Import Prelude MncwfTypes MncwfFormat MncwfRecords MncwfReader MncwfEncode MncwfSlice CaptureTypes CaptureWriter CaptureStream CaptureDiscovery.

(** ** Settings *)

Definition set_context_value (context : WaveformCaptureContext) (c : Capture) : Capture :=
  mkCapture (wc_stream c) (wc_counters c) (wc_sessions c) (wc_session_index c) (wc_capture_index c)
    (wc_event_capture_index c) (wc_next_session_id c) context (wc_archive_limit_bytes c) (wc_open c)
    (wc_discovery c) (wc_jobs c) (wc_results c).
Definition set_limit (limit : Z) (c : Capture) : Capture :=
  mkCapture (wc_stream c) (wc_counters c) (wc_sessions c) (wc_session_index c) (wc_capture_index c)
    (wc_event_capture_index c) (wc_next_session_id c) (wc_context c) limit (wc_open c)
    (wc_discovery c) (wc_jobs c) (wc_results c).

Definition set_context (context : WaveformCaptureContext) : Task unit :=
  task_of (reject_if (bool_decide (ctx_channels context = [])
                      || (waveform_persisted_channels <? zlen (ctx_channels context)))
    (InvalidArgument "MNCWF v4 capture context has an invalid channel count")) ;;
  task_change (set_context_value context).

Definition set_archive_limit_gib (limit_gib : Z) : Task unit :=
  task_of (reject_if ((limit_gib <? 1) || (16 <? limit_gib))
    (InvalidArgument "waveform archive limit must be 1..16 GiB")) ;;
  let requested := limit_gib * 1024 * 1024 * 1024 in
  task_change (fun c =>
    if requested =? wc_archive_limit_bytes c then c
    else
      let c := set_limit requested c in
      if wc_open c && bool_decide (disc_state (wc_discovery c) = discovery_complete)
      then enqueue_retention c else c).

Definition set_time_context (source : MncwfClockSource) (quality : MncwfTimeQuality) (leap_flags : Z) (c : Capture) : Capture :=
  let context := wc_context c in
  set_context_value
    (mkCaptureContext (ctx_capture_metadata context) (ctx_channels context) source quality
       (u16 (Z.lor (Z.land (ctx_time_flags context) mncwf_time_utc_offset_known)
               (Z.land leap_flags (Z.lor mncwf_time_positive_leap_pending mncwf_time_negative_leap_pending))))
       (ctx_utc_offset_seconds context)) c.

(** ** Construction, start and stop *)

Definition empty_stream (capacity : Z) (frame : Frame) : Stream := fresh_stream (replicate (Z.to_nat capacity) frame).

Definition new_counters : Counters := mkCounters 0 0 0 0 0 0 0 0 0 0 0 0.
Definition new_discovery : Discovery := mkDiscovery discovery_not_started 0 0 0 "" false false false false [] [] [].

Definition new_capture (capacity limit : Z) (context : WaveformCaptureContext) : result Capture :=
  reject_if (capacity =? 0) (InvalidArgument "waveform history capacity must be non-zero") ;;
  reject_if (limit =? 0) (InvalidArgument "waveform archive limit must be non-zero") ;;
  let c := mkCapture (empty_stream capacity (replicate (Z.to_nat waveform_channels) 0)) new_counters [] ∅ ∅ ∅ 1 context
             limit false new_discovery [] [] in
  match set_context context c with (c, Ok _) => Ok c | (_, Throw e) => Throw e end.

(** [opened]: the outcome of [open]; [listing]: the directory once it was created. *)
Definition start (rd : Readings) (opened : result unit) (listing : result (list DirectoryEntry)) : Task unit :=
  open ← task_read wc_open;
  if (open : bool) then mret tt
  else
    task_change begin_stream_epoch ;;
    task_of opened ;;
    task_change (set_open true) ;;
    directory ← task_of listing;
    task_change (begin_persisted_session_discovery directory) ;;
    task_change (fun c =>
      let k := wc_counters c in
      let c := set_counters (with_transport (cnt_transport_overrun_blocks k) 0 (cnt_transport_ring_blocks k)
                 (wc_counters c)) c in
      update_transport_status rd (refresh_correlation rd c)).

Definition stop (c : Capture) : Capture :=
  let c := collect_materialization_results (set_open false c) in
  set_sessions (map abandon (wc_sessions c)) c.

(** ** New and extended sessions *)

Definition frames_for (rate milliseconds : Z) : Z := u64 (rate * milliseconds + 999) / 1000.

Definition logical_bytes (first last decimation channels : Z) : Z :=
  u64 (u64 (u64 (last - first + 1) + decimation - 1) / decimation * channels * 4).

Definition session_context (uuid : list Z) (tai utc : Z) (context : WaveformCaptureContext) : WaveformCaptureContext :=
  let m := ctx_capture_metadata context in
  mkCaptureContext
    (mkCaptureMetadata uuid (cap_device_uuid m) (cap_configuration_sha256 m) (cap_sensor_profile_sha256 m) tai utc
       (cap_nominal_voltage_numerator m) (cap_nominal_voltage_denominator m) (cap_nominal_frequency_numerator m)
       (cap_nominal_frequency_denominator m) (cap_topology m) (cap_calibration_status m) (cap_flags m)
       (cap_station_name m) (cap_site_name m) (cap_circuit_name m) (cap_product_name m) (cap_device_model m)
       (cap_firmware_version m) (cap_software_build_id m) (cap_sensor_profile_id m) (cap_configuration_id m)
       (cap_calibration_id m) (cap_device_serial m) (cap_comments m))
    (ctx_channels context) (ctx_clock_source context) (ctx_time_quality context) (ctx_time_flags context)
    (ctx_utc_offset_seconds context).

(** The fields both kinds of new session assign; [next_session_id_++] comes before the
    random identity that may throw. *)
Definition open_session (rd : Readings) (trigger_sequence first last tai utc decimation mask : Z) (logical : Z)
    (events : list Event) : Task nat :=
  id ← task_read wc_next_session_id;
  task_change (set_next_session_id (u64 (id + 1))) ;;
  uuid ← task_of (rd_session_uuid rd);
  task_change (fun c =>
    let session :=
      mkSession (mkSummary id trigger_sequence first last tai utc (st_sample_rate_hz (wc_stream c)) (zlen events) mask 0 id
                   state_capturing decimation mncwf_v5_version compression_none 0 logical false no_name uuid)
        (session_context uuid tai utc (wc_context c)) events [] zero_uuid zero_uuid false false in
    rebuild_indexes (set_sessions (wc_sessions c ++ [session]) c)) ;;
  task_read (fun c => length (wc_sessions c) - 1)%nat.

(** Refresh the correlation and read both clocks. *)
Definition read_clocks (rd : Readings) : Task (Z * Z) :=
  task_change (refresh_correlation rd) ;;
  tai ← task_of (rd_tai_now rd);
  utc ← task_of (rd_realtime_now rd);
  s ← task_read wc_stream;
  (if corr_tai_nanoseconds (st_correlation s) =? 0 then mret tt
   else
     correlated ← task_of (translate_clock (corr_tai_nanoseconds (st_correlation s)) tai utc);
     task_change (fun c => set_stream (with_correlation (st_correlation s) correlated (wc_stream c)) c)) ;;
  mret (tai, utc).

(** A summary with its window and the size that follows from it. *)
Definition with_window (first last logical : Z) (m : WaveformSessionSummary) : WaveformSessionSummary :=
  mkSummary (sum_id m) (sum_trigger_sequence m) first last
    (sum_trigger_tai_nanoseconds m) (sum_trigger_realtime_nanoseconds m) (sum_sample_rate_hz m) (sum_event_count m)
    (sum_trigger_source_mask m) (sum_continuation_of_session_id m) (sum_master_session_id m) (sum_state m)
    (sum_decimation m) (sum_format_version m) (sum_compression m) (sum_stored_bytes m) logical
    (sum_association_created m) (sum_filename m) (sum_capture_uuid m).
Definition with_event_count (count mask : Z) (m : WaveformSessionSummary) : WaveformSessionSummary :=
  mkSummary (sum_id m) (sum_trigger_sequence m) (sum_first_sequence m) (sum_last_sequence m)
    (sum_trigger_tai_nanoseconds m) (sum_trigger_realtime_nanoseconds m) (sum_sample_rate_hz m) count
    mask (sum_continuation_of_session_id m) (sum_master_session_id m) (sum_state m)
    (sum_decimation m) (sum_format_version m) (sum_compression m) (sum_stored_bytes m) (sum_logical_sample_bytes m)
    (sum_association_created m) (sum_filename m) (sum_capture_uuid m).
Definition with_association (created : bool) (m : WaveformSessionSummary) : WaveformSessionSummary :=
  mkSummary (sum_id m) (sum_trigger_sequence m) (sum_first_sequence m) (sum_last_sequence m)
    (sum_trigger_tai_nanoseconds m) (sum_trigger_realtime_nanoseconds m) (sum_sample_rate_hz m) (sum_event_count m)
    (sum_trigger_source_mask m) (sum_continuation_of_session_id m) (sum_master_session_id m) (sum_state m)
    (sum_decimation m) (sum_format_version m) (sum_compression m) (sum_stored_bytes m) (sum_logical_sample_bytes m)
    created (sum_filename m) (sum_capture_uuid m).

Definition alter_session (index : nat) (f : Session -> Session) : Task unit :=
  task_change (fun c => set_sessions (alter f index (wc_sessions c)) c).

(** [sessions_[index]] *)
Definition session_at (index : nat) : Task Session :=
  fun c => (c, match wc_sessions c !! index with
               | Some session => Ok session
               | None => Throw (UndefinedBehaviour "session index out of range")
               end).

(** ** Manual triggers *)

Definition trigger_active (session : Session) : Prop :=
  (is_capturing session && negb (ses_materialization_queued session) && negb (ses_capacity_sealed session))%bool = true.
#[export] Instance trigger_active_dec session : Decision (trigger_active session).
Proof. unfold trigger_active. apply _. Defined.

Definition window_message (pretrigger_ms posttrigger_ms rate budget : Z) : string :=
  "waveform window of " +:+ pretty (u32 (pretrigger_ms + posttrigger_ms)) +:+
  " ms does not fit the history buffer at " +:+ pretty rate +:+ " frame/s; pre+post may total " +:+
  pretty (u64 (budget * 1000) / rate) +:+ " ms".

(** The checks of a trigger: the requested window and the anchor. *)
Definition trigger_window (s : Stream) (pretrigger_ms posttrigger_ms decimation : Z) : result (Z * Z) :=
  reject_if (negb (st_have_history s) || (st_sample_rate_hz s =? 0)) (RuntimeError "waveform history is not ready") ;;
  reject_if ((120000 <? pretrigger_ms) || (120000 <? posttrigger_ms))
    (InvalidArgument "waveform duration exceeds 120 seconds") ;;
  reject_if (negb (valid_decimation decimation))
    (InvalidArgument "waveform decimation must be 1, 2, 4, 8, 16, or 32") ;;
  let rate := st_sample_rate_hz s in
  let before := frames_for rate pretrigger_ms in
  let after := frames_for rate posttrigger_ms in
  reject_if (max_capture_frames s <? before + after + 1)
    (InvalidArgument (window_message pretrigger_ms posttrigger_ms rate (max_capture_frames s))) ;;
  let anchor := st_latest_sequence s in
  Ok (if before <? anchor then anchor - before else 0, u64 (anchor + after)).

(** A trigger that overlaps the active session extends it. *)
Definition extend_session (first last : Z) (session : Session) : Session :=
  let m := ses_summary session in
  with_summary (with_window (Z.min (sum_first_sequence m) first) (Z.max (sum_last_sequence m) last)
                  (sum_logical_sample_bytes m) m) session.

(** Append the event of the trigger and account for it. *)
Definition add_trigger (source : WaveformTriggerSource) (descriptor : MncwfV4EventDescriptor) (session : Session) : Session :=
  let events := ses_events session ++ [mkEvent (mkEventIdentity 0 0) false descriptor] in
  let m := with_event_count (u32 (zlen events)) (Z.lor (sum_trigger_source_mask (ses_summary session)) (trigger_source_bit source))
             (ses_summary session) in
  with_events events
    (with_summary (with_window (sum_first_sequence m) (sum_last_sequence m)
                     (logical_bytes (sum_first_sequence m) (sum_last_sequence m) (sum_decimation m)
                        (zlen (ctx_channels (ses_context session)))) m) session).

Definition trigger (rd : Readings) (pretrigger_ms posttrigger_ms decimation : Z) (source : WaveformTriggerSource)
    : Task WaveformSessionSummary :=
  task_change collect_materialization_results ;;
  s ← task_read wc_stream;
  '(requested_first, requested_last) ← task_of (trigger_window s pretrigger_ms posttrigger_ms decimation);
  let anchor := st_latest_sequence s in
  '(tai, utc) ← read_clocks rd;
  active ← task_read (fun c => list_find trigger_active (wc_sessions c));
  index ← (let fresh := open_session rd anchor requested_first requested_last tai utc decimation 0 0 [] in
           match active with
           | None => fresh
           | Some (index, session) =>
               if u64 (sum_last_sequence (ses_summary session) + 1) <? requested_first then fresh
               else alter_session index (extend_session requested_first requested_last) ;; mret index
           end);
  session ← session_at index;
  descriptor ← task_of (manual_event_descriptor (rd_event_uuid rd) anchor tai utc source (ses_context session));
  alter_session index (add_trigger source descriptor) ;;
  session ← session_at index;
  mret (ses_summary session).

(** ** Power-quality events *)

Record EventReport := mkEventReport {
  rep_event_id : WaveformEventIdentity;
  rep_lifecycle : WaveformEventLifecycle;
  rep_trigger_sequence : Z;
  rep_current_sequence : Z;
  rep_pretrigger_ms : Z;
  rep_posttrigger_ms : Z;
  rep_decimation : Z;
  rep_descriptor : MncwfV4EventDescriptor
}.

(** The checks of a report: the frames before and after the trigger. *)
Definition check_report (s : Stream) (report : EventReport) : result (Z * Z) :=
  reject_if ((id_session (rep_event_id report) =? 0) || (id_counter (rep_event_id report) =? 0))
    (InvalidArgument "power-quality event ID is zero") ;;
  reject_if (negb (st_have_history s) || (st_sample_rate_hz s =? 0)) (RuntimeError "waveform history is not ready") ;;
  reject_if (rep_current_sequence report <? rep_trigger_sequence report)
    (InvalidArgument "event trigger is after its current sample") ;;
  reject_if ((120000 <? rep_pretrigger_ms report) || (120000 <? rep_posttrigger_ms report))
    (InvalidArgument "waveform duration exceeds 120 seconds") ;;
  reject_if (negb (valid_decimation (rep_decimation report)))
    (InvalidArgument "waveform decimation must be 1, 2, 4, 8, 16, or 32") ;;
  reject_if (mncwf_uuid_is_zero (ev_event_uuid (rep_descriptor report)))
    (InvalidArgument "power-quality event UUID is zero") ;;
  let before := frames_for (st_sample_rate_hz s) (rep_pretrigger_ms report) in
  let after := frames_for (st_sample_rate_hz s) (rep_posttrigger_ms report) in
  reject_if (max_capture_frames s <? before + after + 1)
    (InvalidArgument "one event waveform policy exceeds the history budget") ;;
  Ok (before, after).

(** The window around an anchor that the history can still serve. *)
Definition bounded_window (s : Stream) (before after anchor : Z) : result (Z * Z) :=
  reject_if (UINT64_MAX - after <? anchor) (InvalidArgument "event post-trigger range overflows") ;;
  let first := if before <? anchor then anchor - before else 0 in
  let last := anchor + after in
  reject_if (last <? st_oldest_sequence s) (RuntimeError "event waveform window is no longer retained") ;;
  let first := Z.max first (st_oldest_sequence s) in
  let budget := max_capture_frames s in
  Ok (if budget <? last - first + 1 then last - budget + 1 else first, last).

Definition report_anchor (report : EventReport) : Z :=
  match rep_lifecycle report with event_start => rep_trigger_sequence report | _ => rep_current_sequence report end.

Definition report_terminal (report : EventReport) : bool :=
  match rep_lifecycle report with event_end | event_abort => true | _ => false end.

Definition report_event (report : EventReport) : Event := mkEvent (rep_event_id report) true (rep_descriptor report).

(** The lambda [update_marker]. *)
Definition update_marker (report : EventReport) (session : Session) : Session :=
  if negb (is_capturing session) || ses_materialization_queued session then session
  else
    let same (event : Event) : Prop :=
      ev_event_uuid (event_descriptor event) = ev_event_uuid (rep_descriptor report) in
    let events :=
      match list_find same (ses_events session) with
      | None => ses_events session ++ [report_event report]
      | Some (marker, _) =>
          alter (fun event => mkEvent (event_identity event) (event_stable_identity event) (rep_descriptor report)) marker
            (ses_events session)
      end in
    let m := ses_summary session in
    with_events events (with_summary (with_event_count (u32 (zlen events)) (sum_trigger_source_mask m) m) session).

(** The lambda [new_session]. *)
Definition new_session (rd : Readings) (report : EventReport) (tai utc first last : Z) : Task nat :=
  c ← task_read (fun c => c);
  open_session rd (report_anchor report) first last tai utc (rep_decimation report) (trigger_source_bit source_pq_event)
    (logical_bytes first last (rep_decimation report) (zlen (ctx_channels (wc_context c)))) [report_event report].

(** The lambda [response]. *)
Definition respond (index : nat) (created : bool) : Task WaveformSessionSummary :=
  session ← session_at index; mret (with_association created (ses_summary session)).

Definition put_association (key : list Z) (state : EventCaptureState) : Task unit :=
  task_change (fun c => set_event_capture_index (<[key := state]> (wc_event_capture_index c)) c).

(** An event without a session: its first one. *)
Definition first_session (rd : Readings) (report : EventReport) (key : list Z) (before after tai utc : Z)
    : Task WaveformSessionSummary :=
  s ← task_read wc_stream;
  '(first, last) ← task_of (bounded_window s before after (report_anchor report));
  index ← new_session rd report tai utc first last;
  created ← session_at index;
  let id := sum_id (ses_summary created) in
  put_association key
    (match rep_lifecycle report with
     | event_start => mkEventCaptureState id 0 (report_terminal report)
     | _ => mkEventCaptureState 0 id (report_terminal report)
     end) ;;
  respond index true.

(** The recovery window joins the onset session when they touch and fit the budget. *)
Definition merges (budget recovery_first recovery_last : Z) (onset : Session) : bool :=
  let m := ses_summary onset in
  is_capturing onset && negb (ses_materialization_queued onset)
  && (recovery_first <=? u64 (sum_last_sequence m + 1)) && (sum_first_sequence m <=? u64 (recovery_last + 1))
  && (u64 (Z.max (sum_last_sequence m) recovery_last - Z.min (sum_first_sequence m) recovery_first + 1) <=? budget).

Definition merge_recovery (decimation recovery_first recovery_last : Z) (onset : Session) : Session :=
  let m := ses_summary onset in
  let first := Z.min (sum_first_sequence m) recovery_first in
  let last := Z.max (sum_last_sequence m) recovery_last in
  with_summary (with_window first last (logical_bytes first last decimation (zlen (ctx_channels (ses_context onset)))) m) onset.

(** The end of an event whose onset was captured. *)
Definition close_event (rd : Readings) (report : EventReport) (key : list Z) (state : EventCaptureState)
    (before after tai utc : Z) (onset : nat) : Task WaveformSessionSummary :=
  s ← task_read wc_stream;
  '(recovery_first, recovery_last) ← task_of (bounded_window s before after (rep_current_sequence report));
  session ← session_at onset;
  if merges (max_capture_frames s) recovery_first recovery_last session then
    alter_session onset (fun session => update_marker report (merge_recovery (rep_decimation report) recovery_first recovery_last session)) ;;
    put_association key (mkEventCaptureState (ecs_onset_session_id state) (ecs_recovery_session_id state) true) ;;
    respond onset false
  else
    index ← new_session rd report tai utc recovery_first recovery_last;
    created ← session_at index;
    put_association key (mkEventCaptureState (ecs_onset_session_id state) (sum_id (ses_summary created)) true) ;;
    respond index true.

Definition track_power_quality_event (rd : Readings) (report : EventReport) : Task WaveformSessionSummary :=
  task_change collect_materialization_results ;;
  s ← task_read wc_stream;
  '(before, after) ← task_of (check_report s report);
  '(tai, utc) ← read_clocks rd;
  let key := mncwf_uuid_string (ev_event_uuid (rep_descriptor report)) in
  c ← task_read (fun c => c);
  match wc_event_capture_index c !! key with
  | None => first_session rd report key before after tai utc
  | Some state =>
      let onset := wc_session_index c !! ecs_onset_session_id state in
      let recovery := wc_session_index c !! ecs_recovery_session_id state in
      match recovery, onset with
      | None, None =>
          task_change (fun c => set_event_capture_index (delete key (wc_event_capture_index c)) c) ;;
          first_session rd report key before after tai utc
      | Some latest, _ => alter_session latest (update_marker report) ;; respond latest false
      | None, Some latest =>
          if negb (report_terminal report) || ecs_terminal state
          then alter_session latest (update_marker report) ;; respond latest false
          else close_event rd report key state before after tai utc latest
      end
  end.

(** ** Erasure and queries *)

(** [file_size] and [remove] of the session's file: the size, and whether a file was
    removed or the text of the error. *)
Record EraseOutcome := mkEraseOutcome { era_size : option Z; era_removed : string + bool }.

Definition erase_file (outcome : EraseOutcome) (filename : list Z) : Task unit :=
  if bool_decide (filename = []) then mret tt
  else
    task_of (reject_if (existsb (fun byte => byte =? 47) filename) (RuntimeError "waveform filename is invalid")) ;;
    match era_removed outcome with
    | inl message => task_of (Throw (RuntimeError ("delete waveform file: " +:+ message)))
    | inr removed =>
        task_change (fun c =>
          match era_size outcome with
          | Some stored =>
              if (removed : bool)
              then let total := cnt_archive_stored_bytes (wc_counters c) in
                   set_counters (with_stored (if stored <? total then total - stored else 0) (wc_counters c)) c
              else c
          | None => c
          end)
    end.

Definition has_id (id : Z) (session : Session) : Prop := sum_id (ses_summary session) = id.
#[export] Instance has_id_dec id session : Decision (has_id id session).
Proof. unfold has_id. apply _. Defined.

Definition erase (outcome : EraseOutcome) (session_id : Z) : Task unit :=
  task_change (fun c => collect_materialization_results (collect_discovery_results c)) ;;
  found ← task_read (fun c => list_find (has_id session_id) (wc_sessions c));
  match found with
  | None => task_of (Throw (InvalidArgument "waveform session does not exist"))
  | Some (index, session) =>
      task_of (reject_if (is_capturing session || ses_materialization_queued session)
        (RuntimeError "waveform session is still active")) ;;
      erase_file outcome (c_string (sum_filename (ses_summary session))) ;;
      task_change (fun c => rebuild_event_capture_index
        (rebuild_indexes (set_sessions (delete index (wc_sessions c)) c)))
  end.

Definition collect_all (c : Capture) : Capture := collect_materialization_results (collect_discovery_results c).

Definition session_page (query : WaveformSessionQuery) : Task WaveformSessionPage :=
  task_change collect_all ;;
  sessions ← task_read wc_sessions;
  task_of (waveform_session_page (map ses_summary sessions) query).

(** [sessions]: the newest page. *)
Definition list_sessions : Task (list WaveformSessionSummary) :=
  page ← session_page (mkSessionQuery 0 waveform_max_ipc_sessions origin_all); mret (page_sessions page).

(** [sessions_[index]] through an index entry. *)
Definition summary_at (index : option nat) : Task (option WaveformSessionSummary) :=
  match index with
  | None => mret None
  | Some index => session ← session_at index; mret (Some (ses_summary session))
  end.

Definition find_session (session_id : Z) : Task (option WaveformSessionSummary) :=
  task_change collect_all ;;
  index ← task_read (fun c => wc_session_index c !! session_id);
  summary_at index.

(** The overload on a capture identity. *)
Definition find_capture (capture_uuid : list Z) : Task (option WaveformSessionSummary) :=
  task_change collect_all ;;
  if mncwf_uuid_is_zero capture_uuid then mret None
  else
    index ← task_read (fun c => wc_capture_index c !! mncwf_uuid_string capture_uuid);
    summary_at index.

Record WaveformStatus := mkStatus {
  stat_running : Z;
  stat_active_session : Z;
  stat_sample_rate_hz : Z;
  stat_counters : Counters;
  stat_sequence_gaps : Z;
  stat_max_capture_frames : Z;
  stat_history_oldest_sequence : Z;
  stat_history_latest_sequence : Z;
  stat_history_capacity_frames : Z;
  stat_completed_sessions : Z;
  stat_incomplete_sessions : Z;
  stat_archive_limit_bytes : Z;
  stat_archive_discovery : WaveformArchiveDiscoveryState * Z * Z * Z;
  stat_correlation : WaveformCorrelation
}.

Definition status (rd : Readings) : Task WaveformStatus :=
  task_change (fun c => update_transport_status rd (collect_all c)) ;;
  task_read (fun c =>
    let s := wc_stream c in
    let summaries := map ses_summary (wc_sessions c) in
    let d := wc_discovery c in
    mkStatus (b2z (wc_open c))
      (b2z (existsb (fun session => is_capturing session && negb (ses_materialization_queued session)) (wc_sessions c)))
      (st_sample_rate_hz s) (wc_counters c) (st_sequence_gaps s) (max_capture_frames s)
      (if st_have_history s then st_oldest_sequence s else 0) (if st_have_history s then st_latest_sequence s else 0)
      (zlen (st_history s)) (count_state state_complete summaries) (count_state state_incomplete summaries)
      (wc_archive_limit_bytes c) (disc_state d, disc_scanned_files d, disc_total_files d, disc_rejected_files d)
      (st_correlation s)).
