(* ===== verification/CaptureRun.v ===== *)
(** * Waveform capture: operations in sequence and their invariant

    What the bounded ring of frames serves while blocks enter it, then the operations of
    [WaveformCapture] with the turns of its two background threads, as
    steps of one state.  Beside the state runs the stream as the device delivered it: the
    frames of the blocks accepted since the last epoch boundary.  In every state an
    execution reaches, the ring serves that stream, the window of an open session is
    proper, and the indexes name the last session of each number and capture identity.
    Session numbers are distinct and below the next one, and what the archive scan holds
    respects the reserved numbers, under an assumption on the operations so far
    ([Numbering]): a renamed file of an earlier format breaks them. *)

From stdpp Require Import gmap sorting.
From S2P Require Import Prelude MncwfTypes MncwfFormat MncwfRecords MncwfReader MncwfEncode MncwfSlice CaptureTypes CaptureWriter CaptureStream CaptureDiscovery CaptureSessions.

(** ** The frames of an epoch *)

(** [received] with [frames] from [sequence] on. *)
Fixpoint receive (received : gmap Z Frame) (sequence : Z) (frames : list Frame) : gmap Z Frame :=
  match frames with
  | [] => received
  | frame :: frames => receive (<[sequence := frame]> received) (sequence + 1) frames
  end.

Lemma receive_lookup frames : forall received base sequence,
  receive received base frames !! sequence =
    if bool_decide (base <= sequence < base + zlen frames)
    then frames !! Z.to_nat (sequence - base) else received !! sequence.
Proof.
  induction frames as [|frame frames IH]; intros received base sequence; cbn [receive].
  - rewrite bool_decide_eq_false_2; [done|]. change (zlen (@nil Frame)) with 0. lia.
  - rewrite IH. unfold zlen in *. cbn [length]. destruct (Z.eq_dec sequence base) as [->|Hne].
    + rewrite bool_decide_eq_false_2 by lia. rewrite bool_decide_eq_true_2 by lia.
      by rewrite lookup_insert_eq, Z.sub_diag.
    + rewrite lookup_insert_ne by done.
      destruct (decide (base <= sequence < base + Z.of_nat (S (length frames)))) as [Hin|Hout].
      * rewrite !bool_decide_eq_true_2 by lia.
        replace (Z.to_nat (sequence - base)) with (S (Z.to_nat (sequence - (base + 1)))) by lia. done.
      * by rewrite !bool_decide_eq_false_2 by lia.
Qed.

(** ** Slots *)

Lemma ring_slot_lt size sequence : 0 < size -> (ring_slot size sequence < Z.to_nat size)%nat.
Proof. intros. unfold ring_slot. pose proof (Z.mod_pos_bound sequence size). lia. Qed.

(** Two sequences less than one turn of the ring apart have different slots. *)
Lemma ring_slot_ne size a b : 0 < size -> a < b < a + size -> ring_slot size a <> ring_slot size b.
Proof.
  intros Hs Hab E. unfold ring_slot in E. apply Z2Nat.inj in E; [|apply Z.mod_pos_bound; lia|apply Z.mod_pos_bound; lia].
  assert ((b - a) mod size = 0) as Hm by (rewrite Zminus_mod, E, Z.sub_diag; done).
  rewrite Z.mod_small in Hm; lia.
Qed.

Lemma store_frames_length frames : forall history base, length (store_frames history base frames) = length history.
Proof.
  induction frames as [|frame frames IH]; intros history base; [done|]. cbn [store_frames]. by rewrite IH, length_insert.
Qed.

(** The slot of a sequence after a block: the block's frame, or what was there when no
    frame of the block falls on it. *)
Lemma store_frames_lookup frames : forall history base sequence,
  0 < zlen history -> 0 <= base -> base + zlen frames <= 2 ^ 64 -> zlen frames <= zlen history ->
  base + zlen frames - zlen history <= sequence < base + zlen frames ->
  store_frames history base frames !! ring_slot (zlen history) sequence =
    if base <=? sequence then frames !! Z.to_nat (sequence - base) else history !! ring_slot (zlen history) sequence.
Proof.
  induction frames as [|frame frames IH]; intros history base sequence Hp Hb H64 Hle Hs; cbn [store_frames].
  - change (zlen (@nil Frame)) with 0 in Hs. destruct (Z.leb_spec base sequence); [lia|done].
  - rewrite wrap_id by (unfold zlen in *; cbn [length] in *; lia).
    set (updated := <[_ := frame]> history).
    assert (zlen updated = zlen history) as El by (unfold zlen, updated; by rewrite length_insert).
    unfold zlen in Hle, H64, Hs; cbn [length] in Hle, H64, Hs; fold (zlen history) in Hle, Hs.
    specialize (IH updated (base + 1) sequence). rewrite El in IH. rewrite IH by (unfold zlen in *; lia). clear IH.
    destruct (Z.eq_dec sequence base) as [->|Hne].
    + destruct (Z.leb_spec (base + 1) base); [lia|]. rewrite Z.leb_refl, Z.sub_diag. unfold updated.
      apply list_lookup_insert_eq. pose proof (ring_slot_lt (zlen history) base Hp). unfold zlen in *. lia.
    + destruct (Z.leb_spec base sequence) as [Hin|Hout].
      * destruct (Z.leb_spec (base + 1) sequence); [|lia].
        by replace (Z.to_nat (sequence - base)) with (S (Z.to_nat (sequence - (base + 1)))) by lia.
      * destruct (Z.leb_spec (base + 1) sequence); [lia|]. unfold updated. apply list_lookup_insert_ne.
        intros E. symmetry in E. revert E. apply ring_slot_ne; lia.
Qed.

(** ** The invariant *)

Definition in_gap (gaps : list (Z * Z)) (sequence : Z) : Prop :=
  exists gap, gap ∈ gaps /\ gap.1 <= sequence <= gap.2.

(** The ring serves every sequence from the oldest to the latest that no gap covers. *)
Definition ring_ok (received : gmap Z Frame) (s : Stream) : Prop :=
  waveform_frames_per_block <= zlen (st_history s) /\
  if st_have_history s then
    0 <= st_oldest_sequence s <= st_latest_sequence s /\
    st_latest_sequence s + zlen (st_history s) < 2 ^ 64 /\
    st_latest_sequence s - st_oldest_sequence s + 1 <= zlen (st_history s) /\
    (forall sequence, st_oldest_sequence s <= sequence <= st_latest_sequence s ->
       in_gap (st_gaps s) sequence \/
       exists frame, received !! sequence = Some frame /\
         st_history s !! ring_slot (zlen (st_history s)) sequence = Some frame)
  else received = ∅.

(** A block as the device driver delivers it; its sequences stay one ring below the end
    of the 64-bit range. *)
Definition block_ok (capacity : Z) (block : WaveformBlock) : Prop :=
  zlen (blk_frames block) = waveform_frames_per_block /\ 0 <= first_sequence (blk_header block) /\
  first_sequence (blk_header block) + waveform_frames_per_block + capacity <= 2 ^ 64.

Lemma ring_fresh history : waveform_frames_per_block <= zlen history -> ring_ok ∅ (fresh_stream history).
Proof. intros. done. Qed.

Lemma in_gap_kept gaps oldest sequence :
  oldest <= sequence -> in_gap gaps sequence ->
  in_gap (List.filter (fun gap => negb (gap.2 <? oldest)) gaps) sequence.
Proof.
  intros Ho (gap & Hin & Hg). exists gap. split; [|done]. apply list_elem_of_In, filter_In.
  split; [by apply list_elem_of_In|]. destruct (Z.ltb_spec gap.2 oldest); [lia|done].
Qed.

Lemma store_block_ok received s header frames :
  ring_ok received s -> block_ok (zlen (st_history s)) (mkBlock header frames) ->
  (st_have_history s = true -> st_latest_sequence s < first_sequence header) ->
  ring_ok (receive received (first_sequence header) frames) (store_block header frames s).
Proof.
  intros (Hcap & Hr) (Hf & H0 & Hmax) Hnew. cbn [blk_header blk_frames] in *. unfold ring_ok, store_block.
  set (first := first_sequence header) in *. set (N := zlen (st_history s)) in *.
  assert (zlen (store_frames (st_history s) first frames) = N) as El by (unfold zlen; rewrite store_frames_length; done).
  cbn [st_history st_have_history st_oldest_sequence st_latest_sequence st_gaps]. rewrite El.
  unfold waveform_frames_per_block in *. split; [done|].
  rewrite (wrap_id 64 (first + 1024 - 1)) by lia. set (latest := first + 1024 - 1) in *.
  assert (forall sequence, first <= sequence <= latest -> exists frame,
    receive received first frames !! sequence = Some frame /\
    store_frames (st_history s) first frames !! ring_slot N sequence = Some frame) as Hblock.
  { intros sequence Hin. destruct (lookup_lt_is_Some_2 frames (Z.to_nat (sequence - first))) as [frame Hframe].
    { unfold zlen in Hf. lia. }
    exists frame. rewrite receive_lookup, bool_decide_eq_true_2 by lia. split; [done|].
    unfold N. rewrite store_frames_lookup by lia. destruct (Z.leb_spec first sequence); [done|lia]. }
  destruct (st_have_history s); cbn [negb andb].
  2: { split_and!; try lia. intros sequence Hin. right. apply Hblock. lia. }
  destruct Hr as (Ho & H64 & Hspan & Hall). specialize (Hnew eq_refl).
  rewrite (wrap_id 64 (st_latest_sequence s + 1)) by lia.
  rewrite (wrap_id 64 (latest - st_oldest_sequence s + 1)) by lia.
  set (oldest := if N <? _ then _ else _).
  assert (oldest = Z.max (st_oldest_sequence s) (latest - N + 1)) as Eo.
  { unfold oldest. destruct (Z.ltb_spec N (latest - st_oldest_sequence s + 1)); [rewrite wrap_id by lia|]; lia. }
  rewrite Eo. split_and!; try lia. intros sequence Hin.
  destruct (Z.le_gt_cases first sequence) as [Hge|Hlt]; [right; apply Hblock; lia|].
  destruct (Z.le_gt_cases sequence (st_latest_sequence s)) as [Hold|Hmid].
  - destruct (Hall sequence ltac:(lia)) as [Hgap|(frame & E1 & E2)].
    + left. apply in_gap_kept; [lia|]. destruct Hgap as (gap & Hg & Hb). exists gap. split; [|done].
      destruct (_ <? first); [|done]. apply elem_of_app. by left.
    + right. exists frame. rewrite receive_lookup, bool_decide_eq_false_2 by lia. split; [done|].
      unfold N in *. rewrite store_frames_lookup by lia. destruct (Z.leb_spec first sequence); [lia|done].
  - left. apply in_gap_kept; [lia|]. destruct (Z.ltb_spec (st_latest_sequence s + 1) first); [|lia].
    exists (st_latest_sequence s + 1, first - 1). split; [apply elem_of_app; right; apply list_elem_of_singleton; done|cbn; lia].
Qed.

(** ** Windows *)

(** The copy loop returns the slots of the window in order. *)
Lemma ring_snapshot_lookup turns : forall history sequence remaining,
  0 < zlen history -> 0 <= sequence -> 0 <= remaining -> sequence + remaining <= 2 ^ 64 -> remaining <= Z.of_nat turns ->
  exists frames, ring_snapshot turns history sequence remaining = Some frames /\ zlen frames = remaining /\
    forall k, 0 <= k < remaining -> frames !! Z.to_nat k = history !! ring_slot (zlen history) (sequence + k).
Proof.
  induction turns as [|turns IH]; intros history sequence remaining Hp H0 Hr H64 Ht; cbn [ring_snapshot].
  { replace remaining with 0 by lia. exists []. split_and!; [done|done|lia]. }
  destruct (Z.eqb_spec remaining 0) as [->|Hne]; [exists []; split_and!; [done|done|lia]|].
  pose proof (Z.mod_pos_bound sequence (zlen history) Hp) as Hoff. set (offset := sequence mod zlen history) in *.
  set (count := Z.min remaining (zlen history - offset)). assert (0 < count <= remaining) as Hc by lia.
  assert (exists rest, ring_snapshot turns history (u64 (sequence + count)) (remaining - count) = Some rest /\
    zlen rest = remaining - count /\
    forall k, 0 <= k < remaining - count -> rest !! Z.to_nat k = history !! ring_slot (zlen history) (sequence + count + k))
    as (rest & -> & Elr & Hrest).
  { destruct (Z.eq_dec (remaining - count) 0) as [E|E].
    - rewrite E. exists []. split_and!; [by destruct turns|done|lia].
    - rewrite wrap_id by lia. apply IH; lia. }
  set (run := take _ _). assert (zlen run = count) as Elrun.
  { unfold run, zlen in *. rewrite length_take, length_drop. lia. }
  exists (run ++ rest). split; [done|]. split; [unfold zlen in *; rewrite length_app; lia|]. intros k Hk.
  destruct (Z.le_gt_cases count k) as [Hge|Hlt].
  - rewrite lookup_app_r by (unfold zlen in Elrun; lia).
    replace (Z.to_nat k - length run)%nat with (Z.to_nat (k - count)) by (unfold zlen in Elrun; lia).
    rewrite Hrest by lia. do 2 f_equal. lia.
  - rewrite lookup_app_l by (unfold zlen in Elrun; lia). unfold run. rewrite lookup_take_lt by lia. rewrite lookup_drop.
    f_equal. unfold ring_slot. rewrite Z.add_mod by lia. fold offset. rewrite (Z.mod_small k) by lia.
    rewrite Z.mod_small by lia. lia.
Qed.

(** The frames of a job are those received for its window. *)
Definition job_faithful (received : gmap Z Frame) (job : Job) : Prop :=
  let first := sum_first_sequence (job_summary job) in
  let last := sum_last_sequence (job_summary job) in
  zlen (job_frames job) = last - first + 1 /\ job_source_frame_count job = last - first + 1 /\
  forall sequence, first <= sequence <= last ->
    exists frame, received !! sequence = Some frame /\ job_frames job !! Z.to_nat (sequence - first) = Some frame.

Lemma no_gap_outside s first last sequence :
  intersects_gap s first last = false -> first <= sequence <= last -> ~ in_gap (st_gaps s) sequence.
Proof.
  intros Hi Hs (gap & Hin & Hg). unfold intersects_gap in Hi.
  assert (existsb (fun gap => (gap.1 <=? last) && (first <=? gap.2)) (st_gaps s) = true) as E; [|congruence].
  apply existsb_exists. exists gap. split; [by apply list_elem_of_In|]. apply andb_true_iff. split; apply Z.leb_le; lia.
Qed.

Lemma materialization_job_faithful received limit s session job :
  ring_ok received s -> st_have_history s = true ->
  let m := ses_summary session in
  st_oldest_sequence s <= sum_first_sequence m -> sum_first_sequence m <= sum_last_sequence m ->
  sum_last_sequence m <= st_latest_sequence s -> intersects_gap s (sum_first_sequence m) (sum_last_sequence m) = false ->
  materialization_job limit s session = Ok job -> job_summary job = m /\ job_faithful received job.
Proof.
  intros (Hcap & Hr) Hh m Hlo Hle Hhi Hgap Hj. rewrite Hh in Hr. destruct Hr as (Ho & H64 & Hspan & Hall).
  unfold waveform_frames_per_block in Hcap. unfold materialization_job in Hj. fold m in Hj.
  apply bind_Ok in Hj as (utc & _ & Hj). apply bind_Ok in Hj as ([] & _ & Hj). apply bind_Ok in Hj as (events & _ & Hj).
  apply Ok_inj in Hj. subst job. split; [done|]. unfold job_faithful. cbn [job_summary job_frames job_source_frame_count].
  rewrite wrap_id by lia. set (window := sum_last_sequence m - sum_first_sequence m + 1).
  destruct (ring_snapshot_lookup (Z.to_nat window) (st_history s) (sum_first_sequence m) window)
    as (frames & -> & El & Hk); [lia..|]. cbn [default]. split_and!; [done|done|]. intros sequence Hs.
  destruct (Hall sequence ltac:(lia)) as [Hg|(frame & E1 & E2)].
  - exfalso. by eapply no_gap_outside.
  - exists frame. split; [done|]. rewrite Hk by lia. by replace (sum_first_sequence m + (sequence - sum_first_sequence m)) with sequence by lia.
Qed.

(** ** Steps *)

Inductive Operation :=
  | op_read (rd : Readings) (reads : list ReadOutcome)
  | op_trigger (rd : Readings) (pretrigger_ms posttrigger_ms decimation : Z) (source : WaveformTriggerSource)
  | op_track (rd : Readings) (report : EventReport)
  | op_erase (outcome : EraseOutcome) (session_id : Z)
  | op_page (query : WaveformSessionQuery)
  | op_find (session_id : Z)
  | op_find_capture (capture_uuid : list Z)
  | op_status (rd : Readings)
  | op_set_context (context : WaveformCaptureContext)
  | op_set_limit (limit_gib : Z)
  | op_set_time (source : MncwfClockSource) (quality : MncwfTimeQuality) (leap_flags : Z)
  | op_start (rd : Readings) (opened : result unit) (listing : result (list DirectoryEntry))
  | op_stop
  | op_writer (env : WriterEnvironment)
  | op_discovery
  | op_discovery_end (failure : option string).

Definition run `{ZstdLibrary} (op : Operation) (c : Capture) : Capture :=
  match op with
  | op_read rd reads => (read_available rd reads c).1
  | op_trigger rd before after decimation source => (trigger rd before after decimation source c).1
  | op_track rd report => (track_power_quality_event rd report c).1
  | op_erase outcome id => (erase outcome id c).1
  | op_page query => (session_page query c).1
  | op_find id => (find_session id c).1
  | op_find_capture uuid => (find_capture uuid c).1
  | op_status rd => (status rd c).1
  | op_set_context context => (set_context context c).1
  | op_set_limit limit => (set_archive_limit_gib limit c).1
  | op_set_time source quality flags => set_time_context source quality flags c
  | op_start rd opened listing => (start rd opened listing c).1
  | op_stop => stop c
  | op_writer env => writer_turn env c
  | op_discovery => discovery_turn c
  | op_discovery_end failure => discovery_end failure c
  end.

(** ** The stream beside the state *)

(** The frames of the epoch after a block: a new configuration starts over, a block the
    capture refuses adds nothing. *)
Definition observe_block (rd : Readings) (state : Capture * gmap Z Frame) (block : WaveformBlock) : Capture * gmap Z Frame :=
  let '(c, received) := state in
  let header := blk_header block in
  (accept_block rd block c,
   if negb (block_valid header) then received
   else
     let known := match st_configuration_generation (wc_stream c) with
                  | Some generation => if generation =? bh_configuration_generation header then received else ∅
                  | None => received
                  end in
     let s := wc_stream (adopt_generation rd (bh_configuration_generation header) c) in
     if st_have_history s && (first_sequence header <? u64 (st_latest_sequence s + 1)) then known
     else receive known (first_sequence header) (blk_frames block)).

Fixpoint observe_reads (rd : Readings) (state : Capture * gmap Z Frame) (reads : list ReadOutcome) : gmap Z Frame :=
  match reads with
  | [] | read_would_block :: _ | read_end :: _ | read_failed _ :: _ => state.2
  | read_torn size :: reads => observe_reads rd (count_torn size state.1, state.2) reads
  | read_blocks blocks :: reads =>
      observe_reads rd (foldl (observe_block rd) (count_blocks blocks state.1, state.2) blocks) reads
  end.

Definition observe `{ZstdLibrary} (op : Operation) (c : Capture) (received : gmap Z Frame) : gmap Z Frame :=
  match op with
  | op_read rd reads => observe_reads rd (update_transport_status rd (collect_materialization_results c), received) reads
  | op_start _ _ _ => if wc_open c then received else ∅
  | _ => received
  end.

(** ** What the environment guarantees *)

Definition read_ok (capacity : Z) (outcome : ReadOutcome) : Prop :=
  match outcome with read_blocks blocks => Forall (block_ok capacity) blocks | _ => True end.

(** The operating system fills whole blocks, and a report carries 64-bit sequences. *)
Definition op_ok (op : Operation) (c : Capture) : Prop :=
  match op with
  | op_read _ reads => Forall (read_ok (zlen (st_history (wc_stream c)))) reads
  | op_track _ report => 0 <= rep_trigger_sequence report < 2 ^ 64 /\ 0 <= rep_current_sequence report < 2 ^ 64
  | _ => True
  end.

(** States an execution can be in, with the frames of the current epoch and the
    operations so far, the latest first, each with the state it ran in. *)
Inductive reachable `{ZstdLibrary} : list (Operation * Capture) -> Capture -> gmap Z Frame -> Prop :=
  | reachable_new capacity limit context c :
      waveform_frames_per_block <= capacity -> new_capture capacity limit context = Ok c -> reachable [] c ∅
  | reachable_step history op c received :
      reachable history c received -> op_ok op c -> reachable ((op, c) :: history) (run op c) (observe op c received).

(** ** What session numbers depend on *)

(** If the name of a version 1 to 3 file carries a session number, it is that of the header. *)
Definition entry_named (entry : DirectoryEntry) : bool :=
  let header := legacy_header (entry_streamed entry) in
  match session_id_from_filename (entry_name entry) with
  | Some id =>
      negb (legacy_identified (entry_streamed entry) header && (1 <=? fh_version header) && (fh_version header <=? 3))
      || (fh_session_id header =? id)
  | None => true
  end.

(** The operation meets no renamed file and does not use up the session numbers. *)
Definition keeps_numbers (step : Operation * Capture) : bool :=
  match step with
  | (op_trigger _ _ _ _ _, c) | (op_track _ _, c) => wc_next_session_id c <? UINT64_MAX
  | (op_start _ _ (Ok directory), _) => forallb entry_named directory
  | _ => true
  end.

(** What is assumed of the operations so far. *)
Class Numbering := numbers_kept : Prop.

(** ** Preservation by operations that may throw *)

(** From [P], [m] ends in [Q] whether it returns or throws. *)
Definition ends {A} (P : Capture -> Prop) (m : Task A) (Q : Capture -> Prop) : Prop := forall c, P c -> Q (m c).1.

Section Ends.
Context (P Q R : Capture -> Prop).

Lemma ends_bind {A B} (m : Task A) (k : A -> Task B) :
  ends P m R -> (forall c, R c -> Q c) -> (forall a, ends R (k a) Q) -> ends P (m ≫= k) Q.
Proof.
  intros Hm Hrq Hk c Hc. unfold mbind, task_bind. specialize (Hm c Hc). destruct (m c) as [c' [a|e]]; [by apply Hk|by apply Hrq].
Qed.

Lemma ends_of {A B} (r : result A) (k : A -> Task B) :
  (forall c, P c -> Q c) -> (forall a, r = Ok a -> ends P (k a) Q) -> ends P (task_of r ≫= k) Q.
Proof. intros Hpq Hk c Hc. unfold mbind, task_bind, task_of. destruct r as [a|e]; [by apply Hk|by apply Hpq]. Qed.

Lemma ends_read {A B} (g : Capture -> A) (k : A -> Task B) :
  (forall c, P c -> ends (fun c' => P c' /\ c' = c) (k (g c)) Q) -> ends P (task_read g ≫= k) Q.
Proof. intros Hk c Hc. unfold mbind, task_bind, task_read. by apply (Hk c). Qed.

Lemma ends_change (f : Capture -> Capture) : (forall c, P c -> Q (f c)) -> ends P (task_change f) Q.
Proof. intros Hf c Hc. by apply Hf. Qed.

Lemma ends_at {B} index (k : Session -> Task B) :
  (forall c, P c -> Q c) -> (forall session, ends P (k session) Q) -> ends P (session_at index ≫= k) Q.
Proof.
  intros Hpq Hk c Hc. unfold mbind, task_bind, session_at. destruct (wc_sessions c !! index); [by apply Hk|by apply Hpq].
Qed.
End Ends.

Lemma ends_ret {A} (P Q : Capture -> Prop) (a : A) : (forall c, P c -> Q c) -> ends P (mret a) Q.
Proof. intros H c. apply H. Qed.

Lemma ends_skip {A} (P Q : Capture -> Prop) (r : result A) : (forall c, P c -> Q c) -> ends P (task_of r) Q.
Proof. intros H c. apply H. Qed.

Lemma ends_weaken {A} (P P' Q Q' : Capture -> Prop) (m : Task A) :
  (forall c, P c -> P' c) -> ends P' m Q' -> (forall c, Q' c -> Q c) -> ends P m Q.
Proof. intros Hp Hm Hq c Hc. by apply Hq, Hm, Hp. Qed.

(** ** Statement *)

Definition session_id (s : Session) : Z := sum_id (ses_summary s).
Definition session_uuid (s : Session) : list Z := sum_capture_uuid (ses_summary s).

(** A session still waiting for its window. *)
Definition live (s : Session) : bool := is_capturing s && negb (ses_materialization_queued s).

Definition window_ok (s : Session) : Prop :=
  0 <= sum_first_sequence (ses_summary s) <= sum_last_sequence (ses_summary s) /\ sum_last_sequence (ses_summary s) < 2 ^ 64.

Definition session_ok (have : bool) (s : Session) : Prop := live s = true -> have = true /\ window_ok s.

Definition stream_ok (received : gmap Z Frame) (c : Capture) : Prop :=
  ring_ok received (wc_stream c) /\ Forall (session_ok (st_have_history (wc_stream c))) (wc_sessions c).

Definition numbered (next : Z) (s : Session) : Prop := 0 < session_id s < next.

(** [i] is the last position of [key]. *)
Definition last_at {K} (keys : list (option K)) (key : K) (i : nat) : Prop :=
  keys !! i = Some (Some key) /\ forall j, (i < j)%nat -> keys !! j <> Some (Some key).

(** The key of a session among the numbers, and among the capture identities. *)
Definition number_key (s : Session) : option Z := Some (session_id s).
Definition identity_key (s : Session) : option (list Z) :=
  if mncwf_uuid_is_zero (session_uuid s) then None else Some (mncwf_uuid_string (session_uuid s)).

Definition index_ok (c : Capture) : Prop :=
  (forall id i, wc_session_index c !! id = Some i <-> last_at (map number_key (wc_sessions c)) id i) /\
  (forall key i, wc_capture_index c !! key = Some i <-> last_at (map identity_key (wc_sessions c)) key i).

(** A file whose session number is reserved. *)
Definition pending_ok (next : Z) (entry : DirectoryEntry) : Prop :=
  entry_named entry = true /\ forall id, reserved_id entry = Some id -> id < next.

Definition discovery_ok `{Numbering} (next : Z) (d : Discovery) : Prop :=
  Forall (fun s => (numbers_kept -> numbered next s) /\ live s = false) (disc_discovered_sessions d) /\
  Forall (fun s => (numbers_kept -> numbered next s) /\ live s = false) (disc_restored d) /\
  (numbers_kept -> Forall (pending_ok next) (disc_pending d)).

(** Lookups are exact whatever happened; the numbers are distinct as far as assumed. *)
Definition registry_ok `{Numbering} (c : Capture) : Prop :=
  (numbers_kept -> NoDup (map session_id (wc_sessions c))) /\
  (numbers_kept -> Forall (numbered (wc_next_session_id c)) (wc_sessions c)) /\
  (numbers_kept -> 0 < wc_next_session_id c <= UINT64_MAX) /\ index_ok c /\
  discovery_ok (wc_next_session_id c) (wc_discovery c).

(** The jobs are those of [base] and requests to enforce the archive limit. *)
Definition jobs_from (base : list Job) (c : Capture) : Prop :=
  Forall (fun job => job ∈ base \/ job_retention_only job = true) (wc_jobs c).

Definition capture_inv `{Numbering} (received : gmap Z Frame) (base : list Job) (c : Capture) : Prop :=
  stream_ok received c /\ registry_ok c /\ jobs_from base c.

(** ** Sessions that keep their identity *)

(** Changes of a session that keep its number and identity and leave it in order. *)
Definition gentle (f : Session -> Session) : Prop :=
  forall s, session_id (f s) = session_id s /\ session_uuid (f s) = session_uuid s /\
    forall have, session_ok have s -> session_ok have (f s).

Lemma map_alter_same {A B} (g : A -> B) (f : A -> A) i (l : list A) :
  (forall x, g (f x) = g x) -> map g (alter f i l) = map g l.
Proof.
  intros Hf. revert i. induction l as [|x l IH]; intros [|i]; cbn; [done|done|by rewrite Hf|].
  f_equal. apply IH.
Qed.

Lemma Forall_alter_same {A} (P : A -> Prop) (f : A -> A) i (l : list A) :
  (forall x, P x -> P (f x)) -> Forall P l -> Forall P (alter f i l).
Proof.
  intros Hf. revert i. induction l as [|x l IH]; intros [|i] Hl; cbn; [done|done| |];
    apply Forall_cons_iff in Hl as [Hx Hl]; constructor; auto.
Qed.

(** Keys depend on the identities alone. *)
Lemma same_keys l l' :
  map session_id l' = map session_id l -> map session_uuid l' = map session_uuid l ->
  map number_key l' = map number_key l /\ map identity_key l' = map identity_key l.
Proof.
  intros Ei Eu. split.
  - change number_key with (fun s => Some (session_id s)).
    rewrite <- (map_map session_id Some l'), <- (map_map session_id Some l). by rewrite Ei.
  - set (key uuid := if mncwf_uuid_is_zero uuid then None else Some (mncwf_uuid_string uuid)).
    change identity_key with (fun s => key (session_uuid s)).
    rewrite <- (map_map session_uuid key l'), <- (map_map session_uuid key l). by rewrite Eu.
Qed.

Lemma numbered_ids next l l' :
  map session_id l' = map session_id l -> Forall (numbered next) l -> Forall (numbered next) l'.
Proof.
  intros E Hl. apply (Forall_map session_id (fun id => 0 < id < next)). rewrite E.
  by apply (Forall_map session_id (fun id => 0 < id < next)).
Qed.

Section Invariant.
Context {numbering : Numbering}.

(** Sessions that keep their identities keep the registry. *)
Lemma same_registry l c s :
  map session_id l = map session_id (wc_sessions c) -> map session_uuid l = map session_uuid (wc_sessions c) ->
  registry_ok c -> registry_ok (set_stream s (set_sessions l c)).
Proof.
  intros Ei Eu (Hnd & Hnum & Hnext & (Hi & Hci) & Hd). destruct (same_keys _ _ Ei Eu) as [E1 E2].
  split_and!; cbn; try done; [by rewrite Ei| |by split; cbn; rewrite ?E1, ?E2].
  intros Hk. eapply numbered_ids; [exact Ei|by apply Hnum].
Qed.

(** What [capture_inv] looks at. *)
Lemma capture_inv_same received base c c' :
  wc_stream c' = wc_stream c -> wc_sessions c' = wc_sessions c -> wc_session_index c' = wc_session_index c ->
  wc_capture_index c' = wc_capture_index c -> wc_next_session_id c' = wc_next_session_id c ->
  wc_discovery c' = wc_discovery c -> wc_jobs c' = wc_jobs c -> capture_inv received base c -> capture_inv received base c'.
Proof.
  intros E1 E2 E3 E4 E5 E6 E7 (Hs & Hr & Hj). unfold capture_inv, stream_ok, registry_ok, index_ok, jobs_from in *.
  rewrite E1, E2, E3, E4, E5, E6, E7. done.
Qed.

Lemma alter_inv received base f i c :
  gentle f -> capture_inv received base c -> capture_inv received base (set_sessions (alter f i (wc_sessions c)) c).
Proof.
  intros Hf ((Hring & Hses) & Hr & Hj). split; [split; [done|]|split; [|done]].
  - cbn. apply Forall_alter_same; [|done]. intros. by apply Hf.
  - apply (same_registry _ c (wc_stream c)); [..|done]; apply map_alter_same; intros; apply Hf.
Qed.

Lemma assoc_inv received base index c :
  capture_inv received base c -> capture_inv received base (set_event_capture_index index c).
Proof. by apply capture_inv_same. Qed.

Lemma counters_inv received base k c : capture_inv received base c -> capture_inv received base (set_counters k c).
Proof. by apply capture_inv_same. Qed.

Lemma correlation_inv received base correlation utc c :
  capture_inv received base c ->
  capture_inv received base (set_stream (with_correlation correlation utc (wc_stream c)) c).
Proof. intros H. exact H. Qed.

Lemma refresh_correlation_inv received base rd c :
  capture_inv received base c -> capture_inv received base (refresh_correlation rd c).
Proof. intros H. unfold refresh_correlation. destruct (correlate rd c); [by apply correlation_inv|done]. Qed.

Lemma transport_inv received base rd c :
  capture_inv received base c -> capture_inv received base (update_transport_status rd c).
Proof.
  intros H. unfold update_transport_status. destruct (wc_open c); [|done]. cbn [negb].
  destruct (rd_transport rd) as [[o k]|]; [by apply counters_inv|done].
Qed.

(** ** Indexes *)

Lemma last_at_snoc {K} (keys : list (option K)) key x i :
  last_at (keys ++ [x]) key i <-> (x = Some key /\ i = length keys) \/ (x <> Some key /\ last_at keys key i).
Proof.
  split.
  - intros [Hi Hlast]. destruct (decide (i = length keys)) as [->|Hne].
    + left. rewrite list_lookup_middle in Hi by done. by injection Hi as ->.
    + assert (i < length keys)%nat as Hlt
        by (apply lookup_lt_Some in Hi; rewrite length_app in Hi; cbn in Hi; lia).
      right. split; [|split].
      * intros ->. apply (Hlast (length keys) Hlt). by rewrite list_lookup_middle.
      * by rewrite lookup_app_l in Hi.
      * intros j Hj Hk. apply (Hlast j Hj). apply lookup_lt_Some in Hk as Hl. by rewrite lookup_app_l.
  - intros [[-> ->]|[Hx [Hi Hlast]]].
    + split; [by rewrite list_lookup_middle|]. intros j Hj. rewrite lookup_ge_None_2; [done|]. rewrite length_app. cbn. lia.
    + split; [rewrite lookup_app_l; [done|by eapply lookup_lt_Some]|]. intros j Hj Hk.
      apply lookup_app_Some in Hk as [Hk|[Hl Hk]]; [by apply (Hlast j)|].
      apply list_lookup_singleton_Some in Hk as [_ ->]. done.
Qed.

Lemma insert_last `{Countable K} (index : gmap K nat) keys key :
  (forall k i, index !! k = Some i <-> last_at keys k i) ->
  forall k i, <[key := length keys]> index !! k = Some i <-> last_at (keys ++ [Some key]) k i.
Proof.
  intros Hi k i. rewrite last_at_snoc. destruct (decide (k = key)) as [->|Hne].
  - rewrite lookup_insert_eq. split; [intros E; injection E as <-; by left|intros [[_ ->]|[? _]]; done].
  - rewrite lookup_insert_ne, Hi by done. split; [intros Hl; right; split; [congruence|done]|].
    intros [[E _]|[_ Hl]]; [congruence|done].
Qed.

(** Inserting the positions of a list in order leaves the last position of each key. *)
Lemma index_sessions l :
  let built := foldl index_session (∅, ∅) (positions l) in
  (forall id i, built.1 !! id = Some i <-> last_at (map number_key l) id i) /\
  (forall key i, built.2 !! key = Some i <-> last_at (map identity_key l) key i).
Proof.
  unfold positions. induction l as [|s l IH] using rev_ind.
  - split; intros key i; cbn; rewrite lookup_empty; (split; [done|intros [Hi _]; by rewrite lookup_nil in Hi]).
  - rewrite length_app, Nat.add_1_r, seq_S, zip_with_app by apply length_seq. cbn [zip_with]. rewrite foldl_snoc, !map_app.
    destruct (foldl index_session _ _) as [index captures]. destruct IH as [IH1 IH2]. split.
    + pose proof (insert_last _ _ (session_id s) IH1) as IH. rewrite length_map in IH. exact IH.
    + cbn [index_session fst snd map].
      change (identity_key s) with (if mncwf_uuid_is_zero (sum_capture_uuid (ses_summary s)) then None
        else Some (mncwf_uuid_string (session_uuid s))).
      destruct (mncwf_uuid_is_zero (sum_capture_uuid (ses_summary s))).
      * intros key i. rewrite last_at_snoc. etransitivity; [exact (IH2 key i)|]. split; [by right|intros [[? _]|[_ ?]]; done].
      * pose proof (insert_last _ _ (mncwf_uuid_string (session_uuid s)) IH2) as IH. rewrite length_map in IH. exact IH.
Qed.

Lemma rebuild_indexes_ok c : index_ok (rebuild_indexes c).
Proof.
  unfold rebuild_indexes. pose proof (index_sessions (wc_sessions c)) as H1.
  by destruct (foldl index_session _ _) as [index captures].
Qed.

(** The rest of the state is untouched. *)
Lemma rebuild_indexes_fields c :
  wc_stream (rebuild_indexes c) = wc_stream c /\ wc_sessions (rebuild_indexes c) = wc_sessions c /\
  wc_next_session_id (rebuild_indexes c) = wc_next_session_id c /\ wc_discovery (rebuild_indexes c) = wc_discovery c /\
  wc_jobs (rebuild_indexes c) = wc_jobs c.
Proof. unfold rebuild_indexes. by destruct (foldl index_session _ _). Qed.

Lemma rebuild_inv received base c :
  stream_ok received c -> (numbers_kept -> NoDup (map session_id (wc_sessions c))) ->
  (numbers_kept -> Forall (numbered (wc_next_session_id c)) (wc_sessions c)) ->
  (numbers_kept -> 0 < wc_next_session_id c <= UINT64_MAX) -> discovery_ok (wc_next_session_id c) (wc_discovery c) -> jobs_from base c ->
  capture_inv received base (rebuild_indexes c).
Proof.
  intros Hs Hnd Hnum Hnext Hd Hj. destruct (rebuild_indexes_fields c) as (E1 & E2 & E3 & E4 & E5).
  unfold capture_inv, stream_ok, registry_ok, jobs_from in *. rewrite E1, E2, E3, E4, E5.
  split; [done|]. split; [|done]. do 3 (split; [done|]). split; [by apply rebuild_indexes_ok|done].
Qed.

(** ** Results of the writer *)

Lemma not_live_ok have s : live s = false -> session_ok have s.
Proof. intros E H. congruence. Qed.

Lemma Forall_kept {A} (P : A -> Prop) p (l : list A) : Forall P l -> Forall P (List.filter p l).
Proof. induction 1; cbn; [constructor|]. destruct (p _); [by constructor|done]. Qed.

Lemma filter_inv received base p c :
  capture_inv received base c ->
  capture_inv received base (rebuild_indexes (set_sessions (List.filter p (wc_sessions c)) c)).
Proof.
  intros ((Hring & Hses) & (Hnd & Hnum & Hnext & _ & Hd) & Hj).
  assert (sublist (List.filter p (wc_sessions c)) (wc_sessions c)) as Hsub.
  { clear. induction (wc_sessions c) as [|s l IH]; [constructor|]. cbn. destruct (p s); by constructor. }
  apply rebuild_inv; try done.
  - split; [done|]. cbn. by apply Forall_kept.
  - intros Hk. cbn. apply (sublist_NoDup _ (map session_id (wc_sessions c))); [by apply Hnd|]. by apply (fmap_sublist session_id).
  - intros Hk. cbn. by apply Forall_kept, Hnum.
Qed.

Lemma expire_inv received base outcome c :
  capture_inv received base c -> capture_inv received base (expire outcome c).
Proof.
  intros H. unfold expire. destruct (bool_decide _); [done|]. unfold rebuild_event_capture_index. apply assoc_inv.
  apply (filter_inv _ _ _ (set_counters _ c)). by apply counters_inv.
Qed.

Lemma collect_result_inv received base outcome c :
  capture_inv received base c -> capture_inv received base (collect_result c outcome).
Proof.
  intros H. unfold collect_result. apply (expire_inv _ _ outcome) in H. set (c1 := expire outcome c) in *.
  set (c2 := if res_success outcome then _ else c1).
  assert (capture_inv received base c2) as H2 by (unfold c2; destruct (res_success outcome); [by apply counters_inv|done]).
  clearbody c2. destruct (res_session_id outcome =? 0); [destruct (res_success outcome); [done|by apply counters_inv]|].
  destruct (wc_session_index c2 !! res_session_id outcome) as [i|]; [|done].
  destruct (res_success outcome); [|apply (counters_inv _ _ _ (set_sessions _ c2))]; apply alter_inv; try done;
    intros s; split_and!; try done; intros; by apply not_live_ok.
Qed.

Lemma collect_inv received base c :
  capture_inv received base c -> capture_inv received base (collect_materialization_results c).
Proof.
  intros H. unfold collect_materialization_results. set (results := wc_results c). clearbody results.
  assert (capture_inv received base (set_writer (wc_jobs c) [] c)) as H1 by (by apply (capture_inv_same _ _ c)).
  revert H1. generalize (set_writer (wc_jobs c) [] c). induction results as [|r results IH]; intros c1 H1; [done|].
  cbn. apply IH. by apply collect_result_inv.
Qed.
End Invariant.
