(* ===== verification/CaptureSteps.v ===== *)
(** * Waveform capture: every operation keeps the invariant

    The invariant of CaptureRun.v through each operation of [WaveformCapture] and each
    turn of its threads; the jobs an operation queues hold the frames received.  What the
    scan of the archive restores keeps session numbers distinct if every number a file
    holds was reserved when the scan began, which the assumption [numbers_kept] says.
    So every reachable state satisfies the invariant. *)

From stdpp Require Import gmap sorting.
From S2P Require Import Prelude MncwfTypes MncwfFormat MncwfRecords MncwfReader MncwfEncode MncwfSlice CaptureTypes CaptureWriter CaptureStream CaptureDiscovery CaptureSessions CaptureRun.

Section Steps.
Context {numbering : Numbering}.

(** ** Blocks and epochs *)

(** A change of every session that keeps their identities. *)
Lemma map_sessions_inv received received' base f s c :
  (forall x, session_id (f x) = session_id x) -> (forall x, session_uuid (f x) = session_uuid x) ->
  ring_ok received' s -> Forall (session_ok (st_have_history s)) (map f (wc_sessions c)) ->
  capture_inv received base c -> capture_inv received' base (set_stream s (set_sessions (map f (wc_sessions c)) c)).
Proof.
  intros Hid Hu Hr Hs (_ & Hreg & Hj). split; [done|]. split; [|done].
  apply same_registry; [..|done]; rewrite map_map; by apply map_ext.
Qed.

Lemma abandon_not_live s : live (abandon s) = false.
Proof. unfold abandon, live. destruct (is_capturing s && negb (ses_materialization_queued s)) eqn:E; [done|exact E]. Qed.

Lemma abandon_id s : session_id (abandon s) = session_id s.
Proof. unfold abandon. by destruct (_ && _). Qed.

Lemma abandon_uuid s : session_uuid (abandon s) = session_uuid s.
Proof. unfold abandon. by destruct (_ && _). Qed.

Lemma abandoned_ok have l : Forall (session_ok have) (map abandon l).
Proof. apply Forall_map, Forall_true. intros s. apply not_live_ok, abandon_not_live. Qed.

Lemma epoch_inv received base c :
  capture_inv received base c -> capture_inv ∅ base (begin_stream_epoch c).
Proof.
  intros H. apply (map_sessions_inv received); [apply abandon_id|apply abandon_uuid| |apply abandoned_ok|done].
  apply ring_fresh. by destruct H as [[[Hcap _] _] _].
Qed.

(** The frames of the epoch after the generation of a block was adopted. *)
Definition known_frames (received : gmap Z Frame) (c : Capture) (generation : Z) : gmap Z Frame :=
  match st_configuration_generation (wc_stream c) with
  | Some current => if current =? generation then received else ∅
  | None => received
  end.

Lemma adopt_inv received base rd generation c :
  capture_inv received base c -> capture_inv (known_frames received c generation) base (adopt_generation rd generation c).
Proof.
  intros H. unfold adopt_generation, known_frames.
  assert (capture_inv (known_frames received c generation) base
    (if match st_configuration_generation (wc_stream c) with
        | Some current => negb (current =? generation) | None => false end
     then refresh_correlation rd (begin_stream_epoch c) else c)) as H1.
  { unfold known_frames. destruct (st_configuration_generation (wc_stream c)) as [current|]; [|done].
    destruct (current =? generation); [done|]. by apply refresh_correlation_inv, (epoch_inv received). }
  exact H1.
Qed.

Lemma refresh_history rd c : st_history (wc_stream (refresh_correlation rd c)) = st_history (wc_stream c).
Proof. unfold refresh_correlation. by destruct (correlate rd c). Qed.

Lemma adopt_history rd generation c :
  st_history (wc_stream (adopt_generation rd generation c)) = st_history (wc_stream c).
Proof.
  unfold adopt_generation. cbn. destruct (match st_configuration_generation (wc_stream c) with Some _ => _ | None => _ end);
    [by rewrite refresh_history|done].
Qed.

Lemma accept_history rd block c :
  zlen (st_history (wc_stream (accept_block rd block c))) = zlen (st_history (wc_stream c)).
Proof.
  unfold accept_block. destruct (negb (block_valid (blk_header block))); [done|].
  rewrite <- (adopt_history rd (bh_configuration_generation (blk_header block)) c).
  set (c1 := adopt_generation rd _ c). clearbody c1. destruct (st_have_history _ && _); [done|].
  unfold zlen. cbn. by rewrite store_frames_length.
Qed.

Lemma accept_block_inv received base rd block c :
  capture_inv received base c -> block_ok (zlen (st_history (wc_stream c))) block ->
  capture_inv (observe_block rd (c, received) block).2 base (accept_block rd block c).
Proof.
  intros H Hb. unfold observe_block, accept_block. cbn [snd].
  destruct (block_valid (blk_header block)); [|by apply counters_inv]. cbn [negb].
  apply (adopt_inv _ _ rd (bh_configuration_generation (blk_header block))) in H as H1.
  unfold known_frames in H1. set (known := match _ with Some _ => _ | None => received end) in *. cbn zeta.
  set (c1 := adopt_generation rd _ c) in *.
  assert (zlen (st_history (wc_stream c1)) = zlen (st_history (wc_stream c))) as En by (unfold c1; by rewrite adopt_history).
  rewrite <- En in Hb. clearbody c1 known. clear H En.
  destruct (st_have_history (wc_stream c1) && _) eqn:Estale; [by apply counters_inv|].
  apply (counters_inv _ _ _ (set_stream _ c1)).
  destruct H1 as ((Hring & Hses) & Hreg & Hj). split; [|done]. split.
  - cbn. destruct block as [header frames]. apply store_block_ok; [done|done|]. intros Hh. rewrite Hh in Estale.
    cbn [andb blk_header] in *. apply Z.ltb_ge in Estale. destruct Hring as [Hcap Hr]. rewrite Hh in Hr.
    unfold waveform_frames_per_block in Hcap. rewrite wrap_id in Estale by lia. lia.
  - cbn. eapply Forall_impl; [|exact Hses]. intros s Hs Hl. split; [done|]. by apply Hs.
Qed.

Lemma accept_blocks_inv base rd blocks : forall received c N,
  capture_inv received base c -> zlen (st_history (wc_stream c)) = N -> Forall (block_ok N) blocks ->
  let state := foldl (observe_block rd) (c, received) blocks in
  capture_inv state.2 base state.1 /\ state.1 = foldl (fun c block => accept_block rd block c) c blocks /\
  zlen (st_history (wc_stream state.1)) = N.
Proof.
  induction blocks as [|block blocks IH]; intros received c N H En Hb; [done|]. apply Forall_cons_iff in Hb as [Hb Hbs].
  cbn [foldl]. rewrite <- En in Hb. apply (IH (observe_block rd (c, received) block).2 (accept_block rd block c) N).
  - by apply accept_block_inv.
  - by rewrite accept_history.
  - done.
Qed.

Lemma read_loop_inv base rd reads : forall received c N,
  capture_inv received base c -> zlen (st_history (wc_stream c)) = N -> Forall (read_ok N) reads ->
  capture_inv (observe_reads rd (c, received) reads) base (read_loop rd reads c).1.
Proof.
  induction reads as [|outcome reads IH]; intros received c N H En Hr; [done|]. apply Forall_cons_iff in Hr as [Hr Hrs].
  destruct outcome; cbn [read_loop observe_reads]; try done.
  - apply (IH received (count_torn size c) N); [|done|done]. unfold count_torn. by apply counters_inv.
  - assert (capture_inv received base (count_blocks blocks c)) as H1 by (unfold count_blocks; by apply counters_inv).
    destruct (accept_blocks_inv base rd blocks received (count_blocks blocks c) N H1 En Hr) as (H2 & E2 & En2).
    unfold mbind, task_bind, task_change. rewrite <- E2. cbn [fst snd] in *.
    destruct (foldl (observe_block rd) _ blocks) as [c2 received2]. by apply (IH received2 c2 N).
Qed.

(** ** Finished sessions *)

Lemma finish_session_ok received limit s session :
  ring_ok received s -> session_ok (st_have_history s) session ->
  let '(session', jobs, _) := finish_session limit s session in
  session_id session' = session_id session /\ session_uuid session' = session_uuid session /\
  session_ok (st_have_history s) session' /\ Forall (job_faithful received) jobs.
Proof.
  intros Hring Hs. unfold finish_session. destruct (negb (is_capturing session) || _ || _ || _) eqn:Ew; [done|].
  apply orb_false_iff in Ew as [Ew Elate]. apply orb_false_iff in Ew as [Ew _]. apply orb_false_iff in Ew as [Ec Eq].
  destruct Hs as [Hh [Hw Hmax]]; [unfold live; by rewrite (proj1 (negb_false_iff _) Ec), Eq|].
  destruct (_ || _) eqn:Elost; [split_and!; try done; by apply not_live_ok|].
  apply orb_false_iff in Elost as [Eold Egap]. apply Z.ltb_ge in Elate, Eold.
  destruct (materialization_job limit s session) as [job|e] eqn:Ej; [split_and!; try done|split_and!; try done; by apply not_live_ok].
  constructor; [|done]. eapply materialization_job_faithful; eauto. lia.
Qed.

Lemma finish_loop_ok received limit s : forall sessions,
  ring_ok received s -> Forall (session_ok (st_have_history s)) sessions ->
  let '(sessions', jobs, _) := finish_loop limit s sessions in
  map session_id sessions' = map session_id sessions /\ map session_uuid sessions' = map session_uuid sessions /\
  Forall (session_ok (st_have_history s)) sessions' /\ Forall (job_faithful received) jobs.
Proof.
  induction sessions as [|session sessions IH]; intros Hring Hs; [done|]. apply Forall_cons_iff in Hs as [Hs Hss].
  cbn [finish_loop]. pose proof (finish_session_ok received limit s session Hring Hs) as H1.
  destruct (finish_session limit s session) as [[session' jobs] n]. destruct H1 as (E1 & E2 & Hok & Hj).
  specialize (IH Hring Hss). destruct (finish_loop limit s sessions) as [[sessions' more] k].
  destruct IH as (E3 & E4 & Hoks & Hm). cbn. rewrite E1, E2, E3, E4. split_and!; try done; [by constructor|].
  by apply Forall_app.
Qed.

Lemma finish_sessions_inv received base c :
  capture_inv received base c ->
  exists fresh, Forall (job_faithful received) fresh /\ capture_inv received (base ++ fresh) (finish_sessions c).
Proof.
  intros ((Hring & Hs) & Hreg & Hj). unfold finish_sessions.
  pose proof (finish_loop_ok received (wc_archive_limit_bytes c) (wc_stream c) (wc_sessions c) Hring Hs) as H1.
  destruct (finish_loop _ _ _) as [[sessions jobs] n]. destruct H1 as (Ei & Eu & Hok & Hjobs).
  exists jobs. split; [done|]. apply (counters_inv _ _ _ (set_writer _ _ _)).
  split; [done|]. split.
  - exact (same_registry sessions c (wc_stream c) Ei Eu Hreg).
  - unfold jobs_from in *. cbn. apply Forall_app. split.
    + eapply Forall_impl; [|exact Hj]. intros job [Hin|Hin]; [left; apply elem_of_app; by left|by right].
    + apply List.Forall_forall. intros job Hin. left. apply elem_of_app. right. by apply list_elem_of_In.
Qed.

(** ** New sessions *)

Lemma discovery_later next next' d : (numbers_kept -> next <= next') -> discovery_ok next d -> discovery_ok next' d.
Proof.
  intros Hle (H1 & H2 & H3). split_and!;
    [eapply Forall_impl; [|exact H1]|eapply Forall_impl; [|exact H2]|intros Hk; eapply Forall_impl; [|exact (H3 Hk)]].
  - intros s [Hn Hl]. split; [|done]. intros Hk. specialize (Hn Hk). specialize (Hle Hk). unfold numbered in *. lia.
  - intros s [Hn Hl]. split; [|done]. intros Hk. specialize (Hn Hk). specialize (Hle Hk). unfold numbered in *. lia.
  - intros e [Hn Hl]. split; [done|]. intros id Hid. specialize (Hl id Hid). specialize (Hle Hk). lia.
Qed.

Lemma next_inv received base next c :
  (numbers_kept -> wc_next_session_id c <= next <= UINT64_MAX) -> capture_inv received base c ->
  capture_inv received base (set_next_session_id next c).
Proof.
  intros Hle (Hs & (Hnd & Hnum & Hnext & Hi & Hd) & Hj). split; [done|]. split; [|done].
  split; [done|]. split; [|split; [|split; [done|]]].
  - cbn. intros Hk. specialize (Hle Hk). eapply Forall_impl; [|exact (Hnum Hk)]. intros s Hn. unfold numbered in *. lia.
  - cbn. intros Hk. specialize (Hle Hk). specialize (Hnext Hk). lia.
  - cbn. eapply discovery_later; [|exact Hd]. intros Hk. specialize (Hle Hk). lia.
Qed.

Lemma push_inv received base session c :
  capture_inv received base c -> (numbers_kept -> session_id session ∉ map session_id (wc_sessions c)) ->
  (numbers_kept -> numbered (wc_next_session_id c) session) -> session_ok (st_have_history (wc_stream c)) session ->
  capture_inv received base (rebuild_indexes (set_sessions (wc_sessions c ++ [session]) c)).
Proof.
  intros ((Hring & Hs) & (Hnd & Hnum & Hnext & Hi & Hd) & Hj) Hnew Hn Hok. apply rebuild_inv; try done.
  - split; [done|]. cbn. apply Forall_app. split; [done|by constructor].
  - intros Hk. cbn. rewrite map_app. apply list.NoDup_app. split_and!; [by apply Hnd| |apply NoDup_singleton].
    intros id Hid Hin. cbn in Hin. apply list_elem_of_singleton in Hin as ->. by apply Hnew.
  - intros Hk. cbn. apply Forall_app. split; [by apply Hnum|]. constructor; [by apply Hn|done].
Qed.

(** The states from which a session may be opened, and those an operation ends in. *)
Definition may_open (received : gmap Z Frame) (base : list Job) (c : Capture) : Prop :=
  capture_inv received base c /\ (numbers_kept -> wc_next_session_id c < UINT64_MAX) /\ st_have_history (wc_stream c) = true.

Lemma open_session_ends received base rd trigger first last tai utc decimation mask logical events :
  0 <= first <= last -> last < 2 ^ 64 ->
  ends (may_open received base)
    (open_session rd trigger first last tai utc decimation mask logical events) (capture_inv received base).
Proof.
  intros Hw Hmax. unfold open_session. apply ends_read. intros c0 (H0 & Hn & Hh).
  set (id := wc_next_session_id c0). set (P := fun c => capture_inv received base c /\
    (numbers_kept -> wc_next_session_id c = id + 1 /\ Forall (numbered id) (wc_sessions c)) /\
    st_have_history (wc_stream c) = true).
  assert (numbers_kept -> 0 < id < UINT64_MAX) as Hid.
  { intros Hk. specialize (Hn Hk). destruct H0 as (_ & (_ & _ & Hx & _) & _). specialize (Hx Hk). unfold id. lia. }
  apply (ends_bind _ _ P); [|by intros c (? & _)|].
  { apply ends_change. intros c [_ ->]. fold id.
    assert (numbers_kept -> u64 (id + 1) = id + 1) as Ew
      by (intros Hk; specialize (Hid Hk); unfold UINT64_MAX in *; apply wrap_id; lia).
    split_and!; [apply next_inv; [|done]| |done].
    - intros Hk. rewrite (Ew Hk). specialize (Hid Hk). fold id. lia.
    - intros Hk. cbn. rewrite (Ew Hk). split; [done|]. destruct H0 as (_ & (_ & Hx & _) & _). exact (Hx Hk). }
  intros []. apply ends_of; [by intros c (? & _)|]. intros uuid _.
  apply (ends_bind _ _ (capture_inv received base)); [|done|intros []; by intros c].
  apply ends_change. intros c (H & Hnum & Hhc). apply push_inv; [done| | |].
  - intros Hk Hin. destruct (Hnum Hk) as [_ Hall]. apply list_elem_of_fmap in Hin as (s & Es & Hs).
    rewrite list.Forall_forall in Hall. specialize (Hall s Hs). unfold numbered in Hall.
    assert (id = session_id s) by exact Es. lia.
  - intros Hk. destruct (Hnum Hk) as [En _]. specialize (Hid Hk). unfold numbered. rewrite En. cbn. fold id. lia.
  - intros _. split; [done|]. split; cbn; lia.
Qed.

(** ** What collecting results leaves alone *)

Lemma collect_result_fields c outcome :
  wc_stream (collect_result c outcome) = wc_stream c /\
  wc_next_session_id (collect_result c outcome) = wc_next_session_id c /\ wc_open (collect_result c outcome) = wc_open c.
Proof.
  assert (forall c, wc_stream (rebuild_indexes c) = wc_stream c /\
    wc_next_session_id (rebuild_indexes c) = wc_next_session_id c /\ wc_open (rebuild_indexes c) = wc_open c) as Hr
    by (intros c0; unfold rebuild_indexes; by destruct (foldl index_session _ _)).
  assert (wc_stream (expire outcome c) = wc_stream c /\ wc_next_session_id (expire outcome c) = wc_next_session_id c /\
    wc_open (expire outcome c) = wc_open c) as (E1 & E2 & E3).
  { unfold expire. destruct (bool_decide _); [done|]. unfold rebuild_event_capture_index.
    set (c1 := set_sessions _ _). exact (Hr c1). }
  rewrite <- E1, <- E2, <- E3. unfold collect_result. set (c1 := expire outcome c). clearbody c1.
  destruct (res_success outcome), (res_session_id outcome =? 0); try done.
  all: by destruct (wc_session_index _ !! _).
Qed.

Lemma collect_fields c :
  wc_stream (collect_materialization_results c) = wc_stream c /\
  wc_next_session_id (collect_materialization_results c) = wc_next_session_id c /\
  wc_open (collect_materialization_results c) = wc_open c.
Proof.
  assert (forall results c1, wc_stream (foldl collect_result c1 results) = wc_stream c1 /\
    wc_next_session_id (foldl collect_result c1 results) = wc_next_session_id c1 /\
    wc_open (foldl collect_result c1 results) = wc_open c1) as Hf.
  { induction results as [|r results IH]; intros c1; [done|]. cbn [foldl].
    destruct (collect_result_fields c1 r) as (E1 & E2 & E3). rewrite <- E1, <- E2, <- E3. apply IH. }
  exact (Hf (wc_results c) (set_writer (wc_jobs c) [] c)).
Qed.

(** ** Windows *)

Lemma frames_for_nonneg rate ms : 0 <= frames_for rate ms.
Proof. unfold frames_for. apply Z.div_pos; [apply wrap_range; lia|lia]. Qed.

Lemma max_capture_frames_le s : 0 <= max_capture_frames s <= zlen (st_history s).
Proof.
  unfold max_capture_frames. pose proof (wrap_range 64 (st_sample_rate_hz s * 2) ltac:(lia)).
  destruct (Z.leb_spec (zlen (st_history s)) (u64 (st_sample_rate_hz s * 2))); unfold zlen in *; lia.
Qed.

Lemma trigger_window_ok received s before after decimation first last :
  ring_ok received s -> trigger_window s before after decimation = Ok (first, last) ->
  st_have_history s = true /\ 0 < max_capture_frames s /\ 0 <= first <= last /\ last < 2 ^ 64.
Proof.
  intros [Hcap Hr] H. unfold trigger_window in H. apply bind_Ok in H as ([] & G1 & H).
  apply reject_if_Ok, orb_false_iff in G1 as [G1 _]. apply negb_false_iff in G1. rewrite G1 in Hr.
  do 2 apply bind_Ok in H as ([] & _ & H). apply bind_Ok in H as ([] & G2 & H). apply reject_if_Ok, Z.ltb_ge in G2.
  apply Ok_inj in H. injection H as <- <-. pose proof (max_capture_frames_le s) as Hm.
  pose proof (frames_for_nonneg (st_sample_rate_hz s) before). pose proof (frames_for_nonneg (st_sample_rate_hz s) after).
  rewrite wrap_id by lia. destruct (Z.ltb_spec (frames_for (st_sample_rate_hz s) before) (st_latest_sequence s)); split_and!; (done || lia).
Qed.

Lemma check_report_ok s report before after :
  check_report s report = Ok (before, after) ->
  st_have_history s = true /\ 0 < max_capture_frames s /\ 0 <= before /\ 0 <= after.
Proof.
  intros H. unfold check_report in H. apply bind_Ok in H as ([] & _ & H). apply bind_Ok in H as ([] & G1 & H).
  apply reject_if_Ok, orb_false_iff in G1 as [G1 _]. apply negb_false_iff in G1.
  do 4 apply bind_Ok in H as ([] & _ & H). apply bind_Ok in H as ([] & G2 & H). apply reject_if_Ok, Z.ltb_ge in G2.
  apply Ok_inj in H. injection H as <- <-.
  pose proof (frames_for_nonneg (st_sample_rate_hz s) (rep_pretrigger_ms report)).
  pose proof (frames_for_nonneg (st_sample_rate_hz s) (rep_posttrigger_ms report)). split_and!; (done || lia).
Qed.

Lemma bounded_window_ok received s before after anchor first last :
  ring_ok received s -> st_have_history s = true -> 0 < max_capture_frames s -> 0 <= before -> 0 <= after -> 0 <= anchor ->
  bounded_window s before after anchor = Ok (first, last) -> 0 <= first <= last /\ last < 2 ^ 64.
Proof.
  intros [Hcap Hr] Hh Hm Hb Ha Hanchor H. rewrite Hh in Hr. unfold bounded_window in H.
  apply bind_Ok in H as ([] & G1 & H). apply reject_if_Ok, Z.ltb_ge in G1.
  apply bind_Ok in H as ([] & G2 & H). apply reject_if_Ok, Z.ltb_ge in G2. apply Ok_inj in H. injection H as <- <-.
  unfold UINT64_MAX in G1. destruct Hr as ([Ho _] & _). set (lo := if before <? anchor then _ else _).
  assert (0 <= lo <= anchor) by (unfold lo; destruct (Z.ltb_spec before anchor); lia). clearbody lo.
  destruct (Z.ltb_spec (max_capture_frames s) (anchor + after - Z.max lo (st_oldest_sequence s) + 1)); lia.
Qed.

(** ** Gentle changes *)

Lemma extend_gentle first last : 0 <= first <= last -> last < 2 ^ 64 -> gentle (extend_session first last).
Proof.
  intros Hw Hm s. split_and!; [done|done|]. intros have Hs Hl. destruct (Hs Hl) as [Hh [Hw2 Hm2]].
  split; [done|]. split; cbn; lia.
Qed.

Lemma add_trigger_gentle source descriptor : gentle (add_trigger source descriptor).
Proof. intros s. split_and!; [done|done|]. intros have Hs. exact Hs. Qed.

Lemma update_marker_gentle report : gentle (update_marker report).
Proof.
  intros s. unfold update_marker. destruct (negb (is_capturing s) || ses_materialization_queued s); [done|].
  split_and!; [done|done|]. intros have Hs. exact Hs.
Qed.

Lemma merge_gentle decimation first last :
  0 <= first <= last -> last < 2 ^ 64 -> gentle (merge_recovery decimation first last).
Proof.
  intros Hw Hm s. split_and!; [done|done|]. intros have Hs Hl. destruct (Hs Hl) as [Hh [Hw2 Hm2]].
  split; [done|]. split; cbn; lia.
Qed.

Lemma gentle_compose f g : gentle f -> gentle g -> gentle (fun s => f (g s)).
Proof.
  intros Hf Hg s. destruct (Hf (g s)) as (F1 & F2 & F3), (Hg s) as (G1 & G2 & G3).
  split_and!; [congruence|congruence|]. intros have Hs. by apply F3, G3.
Qed.

Section Requests.
Context (received : gmap Z Frame) (base : list Job).

Local Abbreviation inv := (capture_inv received base).

(** A state with a number for a session left, and one in which a session may be opened. *)
Definition openable (c : Capture) : Prop := inv c /\ (numbers_kept -> wc_next_session_id c < UINT64_MAX).
Definition ready (c : Capture) : Prop := may_open received base c /\ 0 < max_capture_frames (wc_stream c).

Lemma ready_inv c : ready c -> inv c.
Proof. by intros [[H _] _]. Qed.
Local Hint Resolve ready_inv : core.

Lemma alter_ends P i f : (forall c, P c -> inv c) -> gentle f -> ends P (alter_session i f) inv.
Proof. intros Hp Hf. apply ends_change. intros c Hc. apply alter_inv; auto. Qed.

Lemma associate_ends key state : ends inv (put_association key state) inv.
Proof. apply ends_change. intros c Hc. by apply assoc_inv. Qed.

Lemma respond_ends index created : ends inv (respond index created) inv.
Proof. unfold respond. apply ends_at; [done|]. intros session. by apply ends_ret. Qed.

Lemma read_clocks_ends rd : ends ready (read_clocks rd) ready.
Proof.
  unfold read_clocks. apply (ends_bind _ _ ready); [|done|].
  { apply ends_change. intros c ((H & Hn & Hh) & Hm). unfold ready, may_open, refresh_correlation.
    destruct (correlate rd c); [|done]. split; [split; [by apply correlation_inv|done]|done]. }
  intros []. apply ends_of; [done|]. intros tai _. apply ends_of; [done|]. intros utc _.
  apply ends_read. intros c0 _. apply (ends_bind _ _ ready); [|done|intros []; by intros c].
  destruct (_ =? 0); [apply ends_ret; by intros c [Hc _]|]. apply ends_of; [by intros c [Hc _]|]. intros correlated _.
  apply ends_change. intros c [((H & Hn & Hh) & Hm) _]. split; [split; [by apply correlation_inv|done]|done].
Qed.

Lemma new_session_ends rd report tai utc first last :
  0 <= first <= last -> last < 2 ^ 64 -> ends ready (new_session rd report tai utc first last) inv.
Proof.
  intros Hw Hm. unfold new_session. apply ends_read. intros c0 _.
  eapply ends_weaken; [|by apply open_session_ends|done]. intros c [[Hc _] _]. exact Hc.
Qed.

Lemma trigger_ends rd before after decimation source :
  ends openable (trigger rd before after decimation source) inv.
Proof.
  unfold trigger. apply (ends_bind _ _ openable); [|by intros c [? _]|].
  { apply ends_change. intros c [H Hn]. split; [by apply collect_inv|]. by rewrite (proj1 (proj2 (collect_fields c))). }
  intros []. apply ends_read. intros c0 [H0 Hn0]. apply ends_of; [by intros c [[? _] _]|]. intros [first last] Hw.
  apply (trigger_window_ok received) in Hw as (Hh & Hm & Hw & Hmax); [|apply H0].
  apply (ends_bind _ _ ready); [|auto|].
  { eapply ends_weaken; [|apply read_clocks_ends|auto]. intros c [[Hc Hn] ->]. done. }
  intros [tai utc]. apply ends_read. intros c1 _. apply (ends_bind _ _ inv); [|done|].
  { assert (ends (fun c => ready c /\ c = c1) (open_session rd (st_latest_sequence (wc_stream c0)) first last tai utc decimation 0 0 []) inv) as Hopen.
    { eapply ends_weaken; [|by apply open_session_ends|done]. intros c [[Hc _] _]. exact Hc. }
    destruct (list_find trigger_active (wc_sessions c1)) as [[i session]|]; [|exact Hopen].
    destruct (_ <? first); [exact Hopen|]. apply (ends_bind _ _ inv); [|done|intros []; by apply ends_ret].
    apply alter_ends; [by intros c [? _]; auto|by apply extend_gentle]. }
  intros index. apply ends_at; [done|]. intros session. apply ends_of; [done|]. intros descriptor _.
  apply (ends_bind _ _ inv); [apply alter_ends; [done|apply add_trigger_gentle]|done|]. intros [].
  apply ends_at; [done|]. intros session'. by apply ends_ret.
Qed.

Section Report.
Context (rd : Readings) (report : EventReport).
Context (Hanchors : 0 <= rep_trigger_sequence report < 2 ^ 64 /\ 0 <= rep_current_sequence report < 2 ^ 64).

Lemma report_anchor_nonneg : 0 <= report_anchor report.
Proof. unfold report_anchor. destruct (rep_lifecycle report); lia. Qed.

Lemma ready_window c before after anchor first last :
  ready c -> 0 <= before -> 0 <= after -> 0 <= anchor -> bounded_window (wc_stream c) before after anchor = Ok (first, last) ->
  0 <= first <= last /\ last < 2 ^ 64.
Proof.
  intros (((Hs & _) & Hn & Hh) & Hm) Hb Ha Hanchor. by apply (bounded_window_ok received); [apply Hs|..].
Qed.

Lemma first_session_ends key before after tai utc :
  0 <= before -> 0 <= after -> ends ready (first_session rd report key before after tai utc) inv.
Proof.
  intros Hb Ha. unfold first_session. apply ends_read. intros c0 H0. apply ends_of; [by intros c [? _]; auto|].
  intros [first last] Hw. apply (ready_window c0) in Hw as [Hw Hmax]; [|done|done|done|apply report_anchor_nonneg].
  apply (ends_bind _ _ inv); [|done|].
  { eapply ends_weaken; [|by apply new_session_ends|done]. by intros c [? _]. }
  intros index. apply ends_at; [done|]. intros created. apply (ends_bind _ _ inv); [apply associate_ends|done|].
  intros []. apply respond_ends.
Qed.

Lemma close_event_ends key state before after tai utc onset :
  0 <= before -> 0 <= after -> ends ready (close_event rd report key state before after tai utc onset) inv.
Proof.
  intros Hb Ha. unfold close_event. apply ends_read. intros c0 H0. apply ends_of; [by intros c [? _]; auto|].
  intros [first last] Hw. apply (ready_window c0) in Hw as [Hw Hmax]; [|done|done|done|lia].
  apply ends_at; [by intros c [? _]; auto|]. intros session. destruct (merges _ _ _ _).
  - apply (ends_bind _ _ inv); [|done|].
    { apply alter_ends; [by intros c [? _]; auto|]. apply gentle_compose; [apply update_marker_gentle|by apply merge_gentle]. }
    intros []. apply (ends_bind _ _ inv); [apply associate_ends|done|]. intros []. apply respond_ends.
  - apply (ends_bind _ _ inv); [|done|].
    { eapply ends_weaken; [|by apply new_session_ends|done]. by intros c [? _]. }
    intros index. apply ends_at; [done|]. intros created. apply (ends_bind _ _ inv); [apply associate_ends|done|].
    intros []. apply respond_ends.
Qed.

Lemma track_ends :
  ends openable (track_power_quality_event rd report) inv.
Proof.
  unfold track_power_quality_event.
  apply (ends_bind _ _ openable); [|by intros c [? _]|].
  { apply ends_change. intros c [H Hn]. split; [by apply collect_inv|]. by rewrite (proj1 (proj2 (collect_fields c))). }
  intros []. apply ends_read. intros c0 [H0 Hn0]. apply ends_of; [by intros c [[? _] _]|]. intros [before after] Hc.
  apply check_report_ok in Hc as (Hh & Hm & Hb & Ha). apply (ends_bind _ _ ready); [|auto|].
  { eapply ends_weaken; [|apply read_clocks_ends|auto]. intros c [[Hc Hn] ->]. done. }
  intros [tai utc]. apply ends_read. intros c1 H1.
  assert (forall latest, ends (fun c => ready c /\ c = c1)
    (alter_session latest (update_marker report) ≫= (fun _ => respond latest false)) inv) as Hmark.
  { intros latest. apply (ends_bind _ _ inv); [|done|intros []; apply respond_ends].
    apply alter_ends; [by intros c [? _]; auto|apply update_marker_gentle]. }
  destruct (wc_event_capture_index c1 !! _) as [state|].
  2: { eapply ends_weaken; [|by apply first_session_ends|done]. by intros c [? _]. }
  destruct (wc_session_index c1 !! ecs_recovery_session_id state) as [latest|]; [apply Hmark|].
  destruct (wc_session_index c1 !! ecs_onset_session_id state) as [latest|].
  - destruct (_ || _); [apply Hmark|]. eapply ends_weaken; [|by apply close_event_ends|done]. by intros c [? _].
  - apply (ends_bind _ _ ready); [|auto|intros []; by apply first_session_ends].
    apply ends_change. intros c [((H & Hn & Hhc) & Hmc) _]. split; [split; [by apply assoc_inv|done]|done].
Qed.
End Report.
End Requests.

(** ** Session numbers of files *)

Lemma decimal_nonneg digits : forall value, forallb is_digit digits = true -> 0 <= value ->
  0 <= foldl (fun value c => value * 10 + (c - 48)) value digits.
Proof.
  induction digits as [|c digits IH]; intros value Hd Hv; [done|]. cbn in *. apply andb_true_iff in Hd as [Hc Hd].
  apply andb_true_iff in Hc as [Hc _]. apply Z.leb_le in Hc. apply IH; [done|lia].
Qed.

Lemma filename_id_range name id : session_id_from_filename name = Some id -> 0 < id < UINT64_MAX.
Proof.
  unfold session_id_from_filename. destruct (negb _); [done|]. intros H. apply bind_Some in H as (digits & _ & H).
  apply bind_Some in H as (value & G & H). unfold from_chars_u64 in G. destruct (_ || negb (forallb is_digit digits)) eqn:Ed; [done|].
  apply orb_false_iff in Ed as [_ Ed]. apply negb_false_iff in Ed. pose proof (decimal_nonneg digits 0 Ed ltac:(lia)) as Hn.
  destruct (Z.ltb_spec UINT64_MAX (foldl (fun value c => value * 10 + (c - 48)) 0 digits)); [done|]. injection G as <-.
  destruct ((_ =? 0) || _) eqn:Ez in H; [done|]. injection H as <-. apply orb_false_iff in Ez as [Ez Em].
  apply Z.eqb_neq in Ez, Em. lia.
Qed.

Lemma reserved_range entry id : reserved_id entry = Some id -> 0 < id < UINT64_MAX.
Proof.
  unfold reserved_id. destruct (session_id_from_filename _) as [n|] eqn:E.
  - intros H. injection H as <-. by eapply filename_id_range.
  - destruct (_ && _ && _) eqn:El; [|done]. intros H. injection H as <-.
    apply andb_true_iff in El as [El _]. apply andb_true_iff in El as [El _]. unfold legacy_identified in El.
    apply andb_true_iff in El as [El H2]. apply andb_true_iff in El as [_ H1]. apply Z.ltb_lt in H1, H2. done.
Qed.

Lemma restored_not_live id size name reader first last rate : live (restored_session id size name reader first last rate) = false.
Proof. unfold restored_session. destruct (restored_trigger reader first) as [[? ?] ?]. by destruct (foldl _ _ _). Qed.

Lemma restored_number id size name reader first last rate : session_id (restored_session id size name reader first last rate) = id.
Proof. unfold restored_session. destruct (restored_trigger reader first) as [[? ?] ?]. by destruct (foldl _ _ _). Qed.

Lemma read_legacy_id entry version session :
  1 <= version <= 3 -> read_legacy entry version = Some session ->
  let header := legacy_header (entry_streamed entry) in
  legacy_identified (entry_streamed entry) header = true /\ 1 <= fh_version header <= 3 /\
  session_id session = fh_session_id header /\ live session = false.
Proof.
  intros Hv H header. unfold read_legacy in H. fold header in H.
  destruct (negb _) eqn:E1 in H; [done|]. apply negb_false_iff, andb_true_iff in E1 as [E1 E2]. apply Z.eqb_eq in E2.
  destruct (negb _) in H; [done|]. apply bind_Some in H as ([expected realtime] & _ & H).
  destruct (negb _) in H; [done|]. injection H as <-. split_and!; (done || lia).
Qed.

(** A restored session has the number reserved for its file. *)
Lemma read_session_reserved `{ZstdLibrary} entry session :
  read_session entry = Ok (Some session) ->
  (entry_named entry = true -> reserved_id entry = Some (session_id session)) /\ live session = false.
Proof.
  intros Hr. unfold read_session in Hr. destruct (_ || _) in Hr; [done|]. set (version := le_value _) in Hr.
  destruct ((version =? mncwf_v4_version) || (version =? mncwf_v5_version)).
  - unfold read_container in Hr. unfold reserved_id, entry_named. destruct (session_id_from_filename _) as [id|]; [|done].
    destruct (entry_size entry) as [size|]; [|done]. destruct (_ || _) in Hr; [done|].
    apply bind_Ok in Hr as (reader & _ & Hr). destruct (timebase_segments_ reader) as [|first segments] eqn:Es; [done|].
    destruct (reverse _) as [|last rest]; [done|]. apply Ok_inj in Hr.
    destruct (restored_rate _ first last) as [rate|]; [|done]. injection Hr as <-.
    by rewrite restored_number, restored_not_live.
  - destruct (negb ((version =? 1) || (version =? 2) || (version =? 3))) eqn:Ev; [done|]. apply Ok_inj in Hr.
    apply negb_false_iff in Ev.
    assert (1 <= version <= 3) as Hv.
    { apply orb_true_iff in Ev as [Ev|Ev]; [apply orb_true_iff in Ev as [Ev|Ev]|]; apply Z.eqb_eq in Ev; lia. }
    apply read_legacy_id in Hr as (Hi & Hvv & E & Hl); [|done]. split; [|done]. unfold reserved_id, entry_named.
    rewrite Hi, (proj2 (Z.leb_le 1 _)), (proj2 (Z.leb_le _ 3)) by lia. cbn [andb negb orb]. rewrite E.
    destruct (session_id_from_filename _) as [id|]; [|done]. intros Hn. apply Z.eqb_eq in Hn. by rewrite Hn.
Qed.

(** ** The scan *)

Lemma list_entries_ok directory : forall stored files next,
  forallb entry_named directory = true -> 0 < next <= UINT64_MAX -> Forall (pending_ok next) files ->
  let '(_, files', next') := foldl list_entry (stored, files, next) directory in
  next <= next' <= UINT64_MAX /\ Forall (pending_ok next') files'.
Proof.
  induction directory as [|entry directory IH]; intros stored files next Hn Hnext Hf; [done || (split; [lia|done])|].
  apply andb_true_iff in Hn as [Hn Hns]. cbn [foldl]. unfold list_entry at 2.
  destruct (negb (entry_regular entry)); [by apply IH|]. set (stored' := match entry_size entry with Some _ => _ | None => _ end).
  destruct (negb (is_capture_file (entry_name entry))); [by apply IH|].
  set (next1 := match reserved_id entry with Some _ => _ | None => next end).
  assert (next <= next1 <= UINT64_MAX /\ forall id, reserved_id entry = Some id -> id < next1) as [Hle Hid].
  { unfold next1. destruct (reserved_id entry) as [id|] eqn:E; [|split; [lia|done]].
    apply reserved_range in E. unfold UINT64_MAX in *. rewrite wrap_id by lia. split; [lia|]. intros id' Hid'. injection Hid' as <-. lia. }
  specialize (IH stored' (files ++ [entry]) next1 Hns ltac:(lia)).
  destruct (foldl list_entry _ _) as [[stored2 files2] next2]. destruct IH as [H1 H2].
  - apply Forall_app. split; [|by constructor].
    eapply Forall_impl; [|exact Hf]. intros e [He Hr]. split; [done|]. intros id E. specialize (Hr id E). lia.
  - split; [lia|done].
Qed.

Lemma discovery_inv received base d c :
  discovery_ok (wc_next_session_id c) d -> capture_inv received base c -> capture_inv received base (set_discovery d c).
Proof.
  intros Hd (Hs & (Hnd & Hnum & Hnext & Hi & _) & Hj). split; [done|]. split; [|done].
  split; [done|]. split; [done|]. split; [done|]. by split.
Qed.

Lemma begin_discovery_inv received base directory c :
  (numbers_kept -> forallb entry_named directory = true) -> capture_inv received base c ->
  capture_inv received base (begin_persisted_session_discovery directory c).
Proof.
  intros Hn H. unfold begin_persisted_session_discovery. destruct (negb _); [done|].
  pose proof H as (_ & (_ & _ & Hnext & _ & (Hd1 & _ & _)) & _).
  assert (numbers_kept -> let '(_, files, next) := foldl list_entry (0, [], wc_next_session_id c) directory in
    wc_next_session_id c <= next <= UINT64_MAX /\ Forall (pending_ok next) files) as Hl
    by (intros Hk; apply list_entries_ok; [by apply Hn|by apply Hnext|constructor]).
  destruct (foldl list_entry _ _) as [[stored files] next].
  apply (discovery_inv _ _ _ (set_next_session_id next _)); [|apply next_inv; [intros Hk; by apply Hl|by apply counters_inv]].
  split; cbn; [|split; [constructor|]].
  - eapply Forall_impl; [|exact Hd1]. intros s [Hs Hlive]. split; [|done]. intros Hk. specialize (Hs Hk).
    destruct (Hl Hk) as [Hle _]. unfold numbered in *. lia.
  - intros Hk. apply (Permutation_Forall (x := files)); [symmetry; apply merge_sort_Permutation|]. by apply Hl.
Qed.

Lemma discovery_turn_inv `{ZstdLibrary} received base c :
  capture_inv received base c -> capture_inv received base (discovery_turn c).
Proof.
  intros H1. unfold discovery_turn. destruct (_ || _); [done|]. pose proof H1 as (_ & (_ & _ & _ & _ & (Hd1 & Hd2 & Hd3)) & _).
  destruct (disc_pending (wc_discovery c)) as [|entry pending] eqn:Ep; apply discovery_inv; try done.
  assert (numbers_kept -> pending_ok (wc_next_session_id c) entry /\ Forall (pending_ok (wc_next_session_id c)) pending) as Hp
    by (intros Hk; apply Forall_cons_iff; by apply Hd3).
  destruct (read_session entry) as [[session|]|] eqn:E; split_and!; try done; cbn; try (intros Hk; by apply Hp).
  apply Forall_app. split; [done|]. constructor; [|done]. apply read_session_reserved in E as [E Hl]. split; [|done].
  intros Hk. destruct (Hp Hk) as [[Hn Hr] _]. specialize (E Hn). unfold numbered. apply reserved_range in E as Hpos. apply Hr in E. lia.
Qed.

Lemma discovery_end_inv received base failure c :
  capture_inv received base c -> capture_inv received base (discovery_end failure c).
Proof.
  intros H. unfold discovery_end. destruct (_ || _); [done|]. pose proof H as (_ & (_ & _ & _ & _ & (Hd1 & _ & _)) & _).
  apply discovery_inv; [split; [exact Hd1|split; [constructor|intros _; constructor]]|done].
Qed.

(** ** Merging *)

Lemma merge_sessions_ok next have found : forall sessions rejections,
  (numbers_kept -> NoDup (map session_id sessions)) -> (numbers_kept -> Forall (numbered next) sessions) ->
  Forall (session_ok have) sessions -> Forall (fun s => (numbers_kept -> numbered next s) /\ live s = false) found ->
  let merged := (foldl merge_session (sessions, rejections) found).1 in
  (numbers_kept -> NoDup (map session_id merged)) /\ (numbers_kept -> Forall (numbered next) merged) /\
  Forall (session_ok have) merged.
Proof.
  induction found as [|s found IH]; intros sessions rejections Hnd Hnum Hok Hf; [done|].
  apply Forall_cons_iff in Hf as [[Hn Hl] Hf]. cbn [foldl]. destruct (merge_session (sessions, rejections) s) as [l n] eqn:Em.
  unfold merge_session in Em. cbn [fst snd] in Em. destruct (existsb _ sessions) eqn:E in Em; injection Em as <- <-; [by apply IH|].
  apply IH; try done.
  - intros Hk. rewrite map_app. apply list.NoDup_app. split_and!; [by apply Hnd| |apply NoDup_singleton].
    intros id Hid Hin. apply list_elem_of_singleton in Hin as ->. apply list_elem_of_fmap in Hid as (x & Ex & Hx).
    assert (existsb (fun candidate => sum_id (ses_summary candidate) =? sum_id (ses_summary s)) sessions = true); [|congruence].
    apply existsb_exists. exists x. split; [by apply list_elem_of_In|]. apply Z.eqb_eq. done.
  - intros Hk. apply Forall_app. split; [by apply Hnum|]. constructor; [by apply Hn|done].
  - apply Forall_app. split; [done|]. constructor; [by apply not_live_ok|done].
Qed.

(** New contents of sessions whose identities stay. *)
Lemma same_identities_inv received base l c :
  map session_id l = map session_id (wc_sessions c) -> map session_uuid l = map session_uuid (wc_sessions c) ->
  Forall (session_ok (st_have_history (wc_stream c))) l -> capture_inv received base c ->
  capture_inv received base (set_sessions l c).
Proof.
  intros Ei Eu Hok ((Hring & _) & Hreg & Hj). split; [done|]. split; [|done].
  exact (same_registry l c (wc_stream c) Ei Eu Hreg).
Qed.

Lemma settle_masters have index positions : forall l,
  Forall (session_ok have) l ->
  let settled := foldl (settle_master index) l positions in
  map session_id settled = map session_id l /\ map session_uuid settled = map session_uuid l /\ Forall (session_ok have) settled.
Proof.
  induction positions as [|p positions IH]; intros l Hok; [done|]. cbn [foldl].
  assert (map session_id (settle_master index l p) = map session_id l /\
    map session_uuid (settle_master index l p) = map session_uuid l /\ Forall (session_ok have) (settle_master index l p)) as (E1 & E2 & Hs).
  { unfold settle_master. destruct (l !! p) as [s|] eqn:El; [|done]. destruct (index !! _) as [q|]; [|done].
    destruct (q <? p)%nat; [|done]. destruct (l !! q) as [t|]; [|done].
    assert (forall B (g : Session -> B), g (chain_session (sum_continuation_of_session_id (ses_summary s)) (sum_master_session_id (ses_summary t)) s) = g s ->
      map g (<[p := chain_session (sum_continuation_of_session_id (ses_summary s)) (sum_master_session_id (ses_summary t)) s]> l) = map g l) as Hmap.
    { intros B g Eg. change (map g) with (fmap (M := list) g). rewrite list_fmap_insert, Eg. apply list_insert_id.
      by rewrite list_lookup_fmap, El. }
    split_and!; [by apply Hmap|by apply Hmap|]. apply Forall_insert; [done|].
    intros Hl. destruct (proj1 (list.Forall_lookup _ _) Hok p s El Hl) as [? ?]. done. }
  destruct (IH (settle_master index l p) Hs) as (F1 & F2 & F3). split_and!; [congruence|congruence|done].
Qed.

Lemma lineage_inv received base c :
  stream_ok received c -> (numbers_kept -> NoDup (map session_id (wc_sessions c))) ->
  (numbers_kept -> Forall (numbered (wc_next_session_id c)) (wc_sessions c)) ->
  (numbers_kept -> 0 < wc_next_session_id c <= UINT64_MAX) -> discovery_ok (wc_next_session_id c) (wc_discovery c) -> jobs_from base c ->
  capture_inv received base (rebuild_session_lineage c).
Proof.
  intros Hs Hnd Hnum Hnext Hd Hj. pose proof (rebuild_inv received base c Hs Hnd Hnum Hnext Hd Hj) as H.
  unfold rebuild_session_lineage. set (c1 := rebuild_indexes c) in *. apply assoc_inv.
  set (linked := map _ (wc_sessions c1)).
  assert (Forall (session_ok (st_have_history (wc_stream c1))) linked) as Hok.
  { unfold linked. apply Forall_map. eapply Forall_impl; [|exact (proj2 (proj1 H))]. intros s Hx Hl. destruct (Hx Hl). done. }
  destruct (settle_masters (st_have_history (wc_stream c1)) (wc_session_index c1) (seq 0 (length linked)) linked Hok)
    as (E1 & E2 & E3). apply same_identities_inv; [| |done|done].
  - rewrite E1. unfold linked. rewrite map_map. by apply map_ext.
  - rewrite E2. unfold linked. rewrite map_map. by apply map_ext.
Qed.

Lemma retention_inv received base c : capture_inv received base c -> capture_inv received base (enqueue_retention c).
Proof.
  intros (Hs & Hr & Hj). split; [done|]. split; [done|]. unfold jobs_from in *. cbn. apply Forall_app.
  split; [done|]. constructor; [by right|done].
Qed.

Lemma collect_discovery_inv received base c :
  capture_inv received base c -> capture_inv received base (collect_discovery_results c).
Proof.
  intros H. pose proof H as ((Hring & Hok) & (Hnd & Hnum & Hnext & _ & (Hd1 & Hd2 & Hd3)) & Hj).
  unfold collect_discovery_results. destruct (negb _); [apply discovery_inv; [done|done]|].
  pose proof (merge_sessions_ok (wc_next_session_id c) (st_have_history (wc_stream c)) (disc_discovered_sessions (wc_discovery c))
    (wc_sessions c) 0 Hnd Hnum Hok Hd1) as Hm. destruct (foldl merge_session _ _) as [merged rejections]. cbn [fst] in Hm.
  destruct Hm as (M1 & M2 & M3). pose proof (merge_sort_Permutation oldest_first merged) as Hp. symmetry in Hp.
  set (c1 := set_sessions (merge_sort oldest_first merged) c).
  assert (capture_inv received base (rebuild_session_lineage c1)) as H1.
  { apply lineage_inv; try done; cbn.
    - split; [done|]. cbn. by eapply Permutation_Forall.
    - intros Hk. rewrite <- (Permutation_map session_id Hp). by apply M1.
    - intros Hk. eapply Permutation_Forall; [exact Hp|by apply M2]. }
  assert (wc_next_session_id (rebuild_session_lineage c1) = wc_next_session_id c) as En.
  { unfold rebuild_session_lineage. cbn. by destruct (rebuild_indexes_fields c1) as (_ & _ & -> & _). }
  cbn zeta. set (c2 := rebuild_session_lineage c1) in *. clearbody c2. apply discovery_inv.
  - destruct (disc_startup_retention_queued _); cbn; rewrite En; (split; [constructor|split; [exact Hd2|exact Hd3]]).
  - destruct (disc_startup_retention_queued _); [done|by apply retention_inv].
Qed.
End Steps.
