(* ===== verification/CaptureTheorems.v ===== *)
(** * Waveform capture: captured windows and session lookups

    What [WaveformCapture] (src/common/msap1/waveform/waveform_capture.cpp) promises in
    every reachable state: a queued capture holds exactly the frames the device
    delivered for its window, and lookups by number and by capture identity find exactly
    the sessions there are.  The file opens
    with the blocks, readings and states on which the theorems are applied, and with
    executions that show behaviours worth knowing. *)

From stdpp Require Import gmap sorting.
From S2P Require Import Prelude MncwfTypes MncwfFormat MncwfRecords MncwfReader MncwfEncode MncwfSlice MncwfTheorems CaptureTypes CaptureWriter CaptureStream CaptureDiscovery CaptureSessions CaptureRun CaptureSteps.

(** ** A capture of 2048 frames at 100 frames per second *)

Definition demo_readings : Readings :=
  mkReadings None None (Ok 5000000000000) (Ok 1700000000000000000) (Ok (demo_uuid 7)) (Ok (demo_uuid 8)).

(** The block from [first] on; all channels of a frame hold its sequence. *)
Definition demo_block (first : Z) : WaveformBlock :=
  mkBlock (mkBlockHeader waveform_block_magic waveform_block_version waveform_block_bytes waveform_frames_per_block
             waveform_frame_bytes first 0 100 1 0)
    (map (fun k => replicate 8 (first + Z.of_nat k)) (seq 0 1024)).

Definition demo_context : WaveformCaptureContext :=
  mkCaptureContext demo_capture [demo_channel] clock_system quality_locked mncwf_time_utc_offset_known 0.

Definition demo_new : Capture :=
  mkCapture (empty_stream 2048 (replicate 8 0)) new_counters [] ∅ ∅ ∅ 1 demo_context waveform_default_archive_limit_bytes
    false new_discovery [] [].

Lemma demo_new_ok : new_capture 2048 waveform_default_archive_limit_bytes demo_context = Ok demo_new.
Proof. reflexivity. Qed.

(** One block, a manual trigger for the last second, and the read that finishes it. *)
Definition demo_read : Operation := op_read demo_readings [read_blocks [demo_block 0]].
Definition demo_trigger : Operation := op_trigger demo_readings 1000 0 1 source_manual_cli.
Definition demo_finish : Operation := op_read demo_readings [].

Definition demo_triggered : Capture := @run run_zstd demo_trigger (@run run_zstd demo_read demo_new).
Definition demo_received : gmap Z Frame := @observe run_zstd demo_read demo_new ∅.

Lemma demo_block_ok capacity first :
  0 <= first -> first + 1024 + capacity <= 2 ^ 64 -> first_sequence (blk_header (demo_block first)) = first ->
  block_ok capacity (demo_block first).
Proof. intros H0 Hm E. unfold block_ok. rewrite E. split_and!; [done|done|exact Hm]. Qed.

Definition demo_history : list (Operation * Capture) :=
  [(demo_trigger, @run run_zstd demo_read demo_new); (demo_read, demo_new)].

Lemma demo_reachable : @reachable run_zstd demo_history demo_triggered demo_received.
Proof.
  assert (@reachable run_zstd [(demo_read, demo_new)] (@run run_zstd demo_read demo_new) (@observe run_zstd demo_read demo_new ∅)) as H1.
  { apply (@reachable_step run_zstd).
    - eapply reachable_new; [|exact demo_new_ok]. done.
    - cbn. constructor; [|constructor]. constructor; [|constructor]. apply demo_block_ok; [lia|vm_compute; discriminate|reflexivity]. }
  exact (@reachable_step run_zstd _ demo_trigger _ _ H1 I).
Qed.

(** The writer's surroundings: an empty directory and a disk that keeps what it is given. *)
Definition demo_environment : WriterEnvironment :=
  mkWriterEnvironment [] (fun _ => true) true true (fun bytes => Ok bytes) (Ok tt).

(** ** Behaviours worth knowing *)

(** Overlapping manual triggers extend the active session without the check a single
    trigger passes: a session grown past the ring is given up, and with it every
    trigger it had merged. *)
Definition demo_overlap : Capture :=
  foldl (fun c op => @run run_zstd op c) demo_new
    [demo_read; op_trigger demo_readings 0 12000 1 source_manual_cli;
     op_read demo_readings [read_blocks [demo_block 1024]]; op_trigger demo_readings 0 12000 1 source_manual_web;
     op_read demo_readings [read_blocks [demo_block 2048; demo_block 3072]]].

Example overlapping_triggers_lose_both :
  map (fun s => (sum_state (ses_summary s), sum_event_count (ses_summary s))) (wc_sessions demo_overlap) = [(state_incomplete, 2)]
  /\ wc_jobs demo_overlap = [].
Proof. split; vm_compute; reflexivity. Qed.

(** A version 1 file of one frame whose name says session 5 and whose header says 9. *)
Definition demo_legacy : DirectoryEntry :=
  let content := mncwf_magic ++ le_bytes 4 1 ++ le_bytes 4 128 ++ le_bytes 8 9 ++ replicate 104 0 ++ 100 :: replicate 31 0 in
  mkDirectoryEntry (text "waveform-5-x.mncwf") true (Some 160) (Ok content) content None.

(** What the scan makes of it. *)
Definition demo_restored : option Session :=
  match @read_session run_zstd demo_legacy with Ok found => found | Throw _ => None end.

(** The scan restores the file, and four captures follow. *)
Definition demo_renamed : Capture :=
  foldl (fun c op => @run run_zstd op c) demo_new
    [op_start demo_readings (Ok tt) (Ok [demo_legacy]); op_discovery; op_discovery; op_find 9; demo_read;
     demo_trigger; demo_finish; demo_trigger; demo_finish; demo_trigger; demo_finish; demo_trigger].

(** The number reserved is not the one the scan restores: the fourth capture gets the
    number of the restored session, and a lookup finds the capture only. *)
Example renamed_legacy_collides :
  entry_named demo_legacy = false /\ reserved_id demo_legacy = Some 5 /\
  option_map (fun s => sum_id (ses_summary s)) demo_restored = Some 9 /\
  map session_id (wc_sessions demo_renamed) = [9; 6; 7; 8; 9] /\
  match (find_session 9 demo_renamed).2 with Ok answer => option_map sum_state answer | Throw _ => None end = Some state_capturing /\
  option_map (fun s => sum_state (ses_summary s)) demo_restored = Some state_complete.
Proof. split_and!; vm_compute; reflexivity. Qed.

(** The sample size of a version 1 file is taken from bytes that are samples there. *)
Example legacy_sample_bytes_misread :
  option_map (fun s => (sum_stored_bytes (ses_summary s), sum_logical_sample_bytes (ses_summary s))) demo_restored =
    Some (160, 60).
Proof. vm_compute. reflexivity. Qed.

(** ** The remaining operations *)

Section Operations.
Context {numbering : Numbering} (received : gmap Z Frame) (base : list Job).

Local Abbreviation inv := (capture_inv received base).

Lemma collect_all_inv c : inv c -> inv (collect_all c).
Proof. intros H. by apply collect_inv, collect_discovery_inv. Qed.

Lemma delete_inv i c : inv c -> inv (rebuild_indexes (set_sessions (delete i (wc_sessions c)) c)).
Proof.
  intros ((Hring & Hses) & (Hnd & Hnum & Hnext & _ & Hd) & Hj).
  assert (forall P, Forall P (wc_sessions c) -> Forall P (delete i (wc_sessions c))) as Hdel.
  { intros P HP. rewrite delete_take_drop. apply Forall_app. split; [by apply Forall_take|by apply Forall_drop]. }
  apply rebuild_inv; try done; cbn; [split; [done|]; by apply Hdel| |intros Hk; by apply Hdel, Hnum].
  intros Hk. apply (sublist_NoDup _ (map session_id (wc_sessions c))); [by apply Hnd|]. apply (fmap_sublist session_id), sublist_delete.
Qed.

Lemma erase_ends outcome id : ends inv (erase outcome id) inv.
Proof.
  unfold erase. apply (ends_bind _ _ inv); [apply ends_change; intros c; apply collect_all_inv|done|]. intros [].
  apply ends_read. intros c0 _. destruct (list_find _ _) as [[i session]|]; [|apply ends_skip; by intros c [? _]].
  apply ends_of; [by intros c [? _]|]. intros [] _. apply (ends_bind _ _ inv); [|done|].
  - unfold erase_file. destruct (bool_decide _); [apply ends_ret; by intros c [? _]|].
    apply ends_of; [by intros c [? _]|]. intros [] _. destruct (era_removed outcome) as [message|removed];
      [apply ends_skip; by intros c [? _]|]. apply ends_change. intros c [Hc _].
    by destruct (era_size outcome), removed.
  - intros []. apply ends_change. intros c Hc. apply assoc_inv. by apply delete_inv.
Qed.

Lemma summary_at_ends index : ends inv (summary_at index) inv.
Proof.
  destruct index as [i|]; [|by apply ends_ret]. cbn. apply ends_at; [done|]. intros session. by apply ends_ret.
Qed.

Lemma queries_end query id uuid rd :
  ends inv (session_page query) inv /\ ends inv (find_session id) inv /\ ends inv (find_capture uuid) inv /\
  ends inv (status rd) inv.
Proof.
  split_and!.
  - unfold session_page. apply (ends_bind _ _ inv); [apply ends_change; apply collect_all_inv|done|]. intros [].
    apply ends_read. intros c _. apply ends_skip. by intros c' [? _].
  - unfold find_session. apply (ends_bind _ _ inv); [apply ends_change; apply collect_all_inv|done|]. intros [].
    apply ends_read. intros c _. eapply ends_weaken; [|apply summary_at_ends|done]. by intros c' [? _].
  - unfold find_capture. apply (ends_bind _ _ inv); [apply ends_change; apply collect_all_inv|done|]. intros [].
    destruct (mncwf_uuid_is_zero uuid); [by apply ends_ret|].
    apply ends_read. intros c _. eapply ends_weaken; [|apply summary_at_ends|done]. by intros c' [? _].
  - unfold status. apply (ends_bind _ _ inv); [|done|intros []; by intros c].
    apply ends_change. intros c Hc. by apply transport_inv, collect_all_inv.
Qed.

Lemma settings_end context limit :
  ends inv (set_context context) inv /\ ends inv (set_archive_limit_gib limit) inv.
Proof.
  split.
  - unfold set_context. apply ends_of; [done|]. intros [] _. apply ends_change. intros c. by apply capture_inv_same.
  - unfold set_archive_limit_gib. apply ends_of; [done|]. intros [] _. apply ends_change. intros c Hc.
    destruct (_ =? _); [done|].
    assert (inv (set_limit (limit * 1024 * 1024 * 1024) c)) as Hl by (by apply (capture_inv_same _ _ c)).
    destruct (_ && _); [by apply retention_inv|done].
Qed.

Lemma stop_inv c : inv c -> inv (stop c).
Proof.
  intros H. unfold stop. assert (inv (collect_materialization_results (set_open false c))) as H1
    by (apply collect_inv; by apply (capture_inv_same _ _ c)).
  set (c1 := collect_materialization_results _) in *. clearbody c1.
  apply (same_identities_inv received base); [| |apply abandoned_ok|done]; rewrite map_map; apply map_ext;
    [apply abandon_id|apply abandon_uuid].
Qed.

Lemma start_ends rd opened listing c :
  inv c -> wc_open c = false -> 
  (forall directory, listing = Ok directory -> numbers_kept -> forallb entry_named directory = true) ->
  capture_inv ∅ base (start rd opened listing c).1.
Proof.
  intros H Ho Hl. revert c H Ho. set (inv0 := capture_inv ∅ base).
  enough (ends (fun c => inv c /\ wc_open c = false) (start rd opened listing) inv0) as Hends by (intros c H Ho; by apply Hends).
  unfold start. apply ends_read. intros c0 [_ Ho]. rewrite Ho.
  apply (ends_bind _ _ inv0); [apply ends_change; intros c [[Hc _] _]; by apply (epoch_inv received)|done|]. intros [].
  apply ends_of; [done|]. intros [] _.
  apply (ends_bind _ _ inv0); [apply ends_change; intros c; by apply capture_inv_same|done|]. intros [].
  apply ends_of; [done|]. intros directory Ed. apply (ends_bind _ _ inv0); [|done|].
  - apply ends_change. intros c. apply begin_discovery_inv. by apply Hl.
  - intros []. apply ends_change. intros c Hc. by apply transport_inv, refresh_correlation_inv, counters_inv.
Qed.

Lemma writer_inv `{ZstdLibrary} env c : inv c -> inv (writer_turn env c).
Proof.
  intros (Hs & Hr & Hj). unfold writer_turn. destruct (wc_jobs c) as [|job jobs] eqn:E; [done|].
  split; [done|]. split; [done|]. unfold jobs_from in *. rewrite E in Hj. cbn. by apply Forall_cons_iff in Hj as [_ Hj].
Qed.
End Operations.

(** ** Reachable states *)

Lemma read_inv {numbering : Numbering} received base rd reads c :
  capture_inv received base c -> Forall (read_ok (zlen (st_history (wc_stream c)))) reads ->
  let received' := observe_reads rd (update_transport_status rd (collect_materialization_results c), received) reads in
  exists fresh, Forall (job_faithful received') fresh /\ capture_inv received' (base ++ fresh) (read_available rd reads c).1.
Proof.
  intros H Hr received'. unfold read_available, mbind, task_bind, task_change.
  set (c1 := update_transport_status rd (collect_materialization_results c)) in *.
  assert (capture_inv received base c1) as H1 by (by apply transport_inv, collect_inv).
  assert (wc_stream c1 = wc_stream c) as E1.
  { unfold c1. rewrite <- (proj1 (collect_fields c)). unfold update_transport_status.
    destruct (negb _); [done|]. by destruct (rd_transport rd) as [[? ?]|]. }
  apply (read_loop_inv base rd reads received c1 (zlen (st_history (wc_stream c)))) in H1; [|by rewrite E1|done]. fold received' in H1.
  destruct (read_loop rd reads c1) as [c2 [u|e]]; cbn [fst] in *.
  - apply (transport_inv _ _ rd) in H1. apply finish_sessions_inv in H1 as (fresh & Hf & Hi). exists fresh. split; [done|].
    by apply collect_inv.
  - exists []. split; [constructor|]. by rewrite app_nil_r.
Qed.

Lemma run_inv `{ZstdLibrary} {numbering : Numbering} received base op c :
  capture_inv received base c -> op_ok op c -> (numbers_kept -> keeps_numbers (op, c) = true) ->
  exists fresh, Forall (job_faithful (observe op c received)) fresh /\
    capture_inv (observe op c received) (base ++ fresh) (run op c).
Proof.
  intros Hc Ho Hk. destruct op; cbn [op_ok observe run keeps_numbers] in *; [by apply read_inv|exists []; split; [constructor|rewrite app_nil_r]..].
  - apply trigger_ends. split; [done|]. intros Hn. by apply Z.ltb_lt, Hk.
  - apply track_ends; [done|]. split; [done|]. intros Hn. by apply Z.ltb_lt, Hk.
  - by apply erase_ends.
  - by apply (queries_end received base query 0 [] (mkReadings None None (Ok 0) (Ok 0) (Ok []) (Ok []))).
  - by apply (queries_end received base (mkSessionQuery 0 0 origin_all) session_id [] (mkReadings None None (Ok 0) (Ok 0) (Ok []) (Ok []))).
  - by apply (queries_end received base (mkSessionQuery 0 0 origin_all) 0 capture_uuid (mkReadings None None (Ok 0) (Ok 0) (Ok []) (Ok []))).
  - by apply (queries_end received base (mkSessionQuery 0 0 origin_all) 0 [] rd).
  - exact (proj1 (settings_end received base context 0) c Hc).
  - exact (proj2 (settings_end received base empty_context limit_gib) c Hc).
  - by apply (capture_inv_same _ _ c).
  - destruct (wc_open c) eqn:Eo.
    + unfold start, mbind, task_bind, task_read. by rewrite Eo.
    + apply (start_ends received); [done|done|]. intros directory ->. done.
  - by apply stop_inv.
  - by apply writer_inv.
  - by apply discovery_turn_inv.
  - by apply discovery_end_inv.
Qed.

Lemma new_inv {numbering : Numbering} capacity limit context c :
  waveform_frames_per_block <= capacity -> new_capture capacity limit context = Ok c -> capture_inv ∅ [] c.
Proof.
  intros Hcap Hn. unfold new_capture in Hn. apply bind_Ok in Hn as ([] & _ & Hn). apply bind_Ok in Hn as ([] & _ & Hn).
  destruct (set_context context _) as [c' [u|e]] eqn:E; [|done]. apply Ok_inj in Hn as <-.
  unfold set_context, mbind, task_bind, task_of in E. destruct (reject_if _ _); [|done]. injection E as <-.
  split; [split|split].
  - apply ring_fresh. unfold zlen. rewrite length_replicate. lia.
  - constructor.
  - split; [constructor|]. split; [constructor|]. split; [done|]. split; [exact (index_sessions [])|].
    split; [constructor|]. split; constructor.
  - constructor.
Qed.

Lemma jobs_from_self {numbering : Numbering} received base c :
  capture_inv received base c -> capture_inv received (wc_jobs c) c.
Proof.
  intros (Hs & Hr & _). split; [done|]. split; [done|]. apply List.Forall_forall. intros job Hin. left. by apply list_elem_of_In.
Qed.

(** The invariant under a stronger assumption. *)
Lemma capture_inv_assume (weak strong : Prop) received base c :
  (strong -> weak) -> @capture_inv weak received base c -> @capture_inv strong received base c.
Proof.
  intros Himp (Hs & (Hnd & Hnum & Hnext & Hi & (Hd1 & Hd2 & Hd3)) & Hj). unfold numbers_kept in *.
  assert (forall l, Forall (fun s => (weak -> numbered (wc_next_session_id c) s) /\ live s = false) l ->
    Forall (fun s => (strong -> numbered (wc_next_session_id c) s) /\ live s = false) l) as Hw.
  { intros l Hl. eapply Forall_impl; [|exact Hl]. intros s [H1 H2]. auto. }
  split; [done|]. split; [|done]. unfold registry_ok, discovery_ok, numbers_kept. split_and!; auto.
Qed.

(** What holds after a history, the numbers as far as its operations keep them. *)
Lemma reachable_capture_inv `{ZstdLibrary} history c received :
  reachable history c received -> @capture_inv (forallb keeps_numbers history = true) received (wc_jobs c) c.
Proof.
  induction 1 as [capacity limit context c Hcap Hn|history op c received _ IH Ho].
  - by eapply jobs_from_self, new_inv.
  - apply (capture_inv_assume _ (forallb keeps_numbers ((op, c) :: history) = true)) in IH;
      [|cbn; by intros [_ ?]%andb_true_iff].
    destruct (run_inv _ _ _ _ IH Ho) as (fresh & _ & Hi); [cbn; by intros [? _]%andb_true_iff|]. by eapply jobs_from_self.
Qed.

Lemma queued_job `{ZstdLibrary} history c received op job :
  reachable history c received -> op_ok op c -> job ∈ wc_jobs (run op c) ->
  job ∈ wc_jobs c \/ job_retention_only job = true \/ job_faithful (observe op c received) job.
Proof.
  intros Hr Ho Hj. apply reachable_capture_inv in Hr. apply (capture_inv_assume _ False) in Hr; [|done].
  destruct (run_inv _ _ _ _ Hr Ho) as (fresh & Hf & (_ & _ & Hjobs)); [done|].
  unfold jobs_from in Hjobs. rewrite list.Forall_forall in Hjobs. destruct (Hjobs job Hj) as [Hin|Hret]; [|by auto].
  apply elem_of_app in Hin as [Hin|Hin]; [by auto|]. right. right. rewrite list.Forall_forall in Hf. exact (Hf job Hin).
Qed.

(** The session at the last position of a key is the last of those with the key. *)
Lemma last_at_filter {K} (key : Session -> option K) (P : WaveformSessionSummary -> Prop) `{!forall m, Decision (P m)} k l :
  (forall s, P (ses_summary s) <-> key s = Some k) ->
  (forall i, last_at (map key l) k i ->
     exists s, l !! i = Some s /\ list.last (filter P (map ses_summary l)) = Some (ses_summary s)) /\
  ((forall i, ~ last_at (map key l) k i) -> list.last (filter P (map ses_summary l)) = None).
Proof.
  intros HP. induction l as [|s l IH] using rev_ind.
  - split; [|done]. intros i [Hi _]. by destruct i.
  - rewrite !map_app, list.filter_app. cbn [map]. rewrite list.filter_cons, list.filter_nil. destruct (decide (P (ses_summary s))) as [Hs|Hs].
    + pose proof (proj1 (HP s) Hs) as Ek. rewrite last_snoc. split.
      * intros i [[_ ->]|[? _]]%last_at_snoc; [|done]. exists s. split; [|done]. rewrite length_map. by apply list_lookup_middle.
      * intros Hn. destruct (Hn (length (map key l))). apply last_at_snoc. by left.
    + rewrite app_nil_r. assert (key s <> Some k) as Ek by (by intros E; apply Hs, HP). split.
      * intros i [[? _]|[_ Hi]]%last_at_snoc; [done|]. apply IH in Hi as (t & Et & Hl). exists t. split; [|done].
        by apply lookup_app_l_Some.
      * intros Hn. apply IH. intros i Hi. apply (Hn i). apply last_at_snoc. by right.
Qed.

(** (C16) Captured windows are exact.  Whatever blocks the device delivered, lost or
    repeated, whatever was triggered, reported, erased or restored before: a job that an
    operation queues for the writer - other than a request to enforce the archive
    limit - holds, for every sequence of its window, the frame the device delivered
    under that sequence in the current epoch, in order and without a hole. *)
Theorem captured_window_exact `{ZstdLibrary} history c received op job :
  reachable history c received -> op_ok op c -> job ∈ wc_jobs (run op c) ->
  job ∈ wc_jobs c \/ job_retention_only job = true \/
  let first := sum_first_sequence (job_summary job) in
  let last := sum_last_sequence (job_summary job) in
  zlen (job_frames job) = last - first + 1 /\ job_source_frame_count job = last - first + 1 /\
  forall sequence, first <= sequence <= last ->
    exists frame, observe op c received !! sequence = Some frame /\
      job_frames job !! Z.to_nat (sequence - first) = Some frame.
Proof.
  apply queued_job.
Qed.

Lemma captured_window_exact_witness :
  exists job, wc_jobs (@run run_zstd demo_finish demo_triggered) = [job] /\
    job_frames job !! 0%nat = Some (replicate 8 923) /\
    @observe run_zstd demo_finish demo_triggered demo_received !! 923 = Some (replicate 8 923).
Proof.
  assert ((fun jobs => map (fun j => (sum_first_sequence (job_summary j), sum_last_sequence (job_summary j),
            job_retention_only j, take 1 (job_frames j))) jobs) (wc_jobs (@run run_zstd demo_finish demo_triggered)) =
          [(923, 1023, false, [replicate 8 923])] /\ wc_jobs demo_triggered = []) as [Ej E0] by (split; vm_compute; reflexivity).
  destruct (wc_jobs (@run run_zstd demo_finish demo_triggered)) as [|job [|other jobs]] eqn:E; [discriminate Ej| |discriminate Ej].
  exists job. split; [reflexivity|]. cbn in Ej. injection Ej as Ef El Eret Efr.
  assert (job ∈ wc_jobs (@run run_zstd demo_finish demo_triggered)) as Hin by (rewrite E; apply list_elem_of_here).
  destruct (@captured_window_exact run_zstd demo_history demo_triggered demo_received demo_finish job demo_reachable (Forall_nil _) Hin)
    as [Hold|[Hret|(_ & _ & Hall)]].
  - rewrite E0 in Hold. destruct (not_elem_of_nil job Hold).
  - rewrite Hret in Eret. discriminate Eret.
  - assert (sum_first_sequence (job_summary job) <= 923 <= sum_last_sequence (job_summary job)) as Hw
      by (rewrite Ef, El; split; vm_compute; discriminate).
    destruct (Hall 923 Hw) as (frame & E1 & E2). rewrite Ef in E2. cbn in E2.
    destruct (job_frames job) as [|f frames]; [discriminate E2|]. cbn in Efr, E2. injection Efr as ->.
    injection E2 as <-. split; [reflexivity|exact E1].
Defined.

(** A summary of a session with the capture identity [uuid]. *)
Definition captured_as (uuid : list Z) (m : WaveformSessionSummary) : Prop :=
  mncwf_uuid_is_zero (sum_capture_uuid m) = false /\ mncwf_uuid_string (sum_capture_uuid m) = mncwf_uuid_string uuid.

#[export] Instance captured_as_dec uuid m : Decision (captured_as uuid m).
Proof. unfold captured_as. apply _. Defined.

(** What a lookup through an exact index returns. *)
Lemma summary_at_last {K} (key : Session -> option K) (P : WaveformSessionSummary -> Prop) `{!forall m, Decision (P m)} k index c :
  (forall s, P (ses_summary s) <-> key s = Some k) -> (forall i, index = Some i <-> last_at (map key (wc_sessions c)) k i) ->
  summary_at index c = (c, Ok (list.last (filter P (map ses_summary (wc_sessions c))))).
Proof.
  intros HP Hi. destruct (last_at_filter key P k (wc_sessions c) HP) as [H1 H2]. destruct index as [i|].
  - destruct (H1 i (proj1 (Hi i) eq_refl)) as (s & Es & ->). cbn. unfold mbind, task_bind, session_at. by rewrite Es.
  - rewrite H2; [done|]. intros i Hl. by apply Hi in Hl.
Qed.

(** (C24) Lookups are exact.  After any history of operations and turns of the background
    threads, whatever files the archive held: [find_session] returns the summary of the
    last session in the list with the number asked for, or nothing when no session has
    it, and the lookup by capture identity returns the last session with that identity,
    or nothing when there is none; neither index ever leads outside the list.  If, in
    addition, no file of an earlier format that was found at a start carries another
    session number in its name than in its header, and the 64-bit numbers were not used
    up ([keeps_numbers]), then the sessions have distinct positive numbers below the next
    one to be given out, so the session found is the only one with its number. *)
Theorem session_lookup_exact `{ZstdLibrary} history c received id uuid :
  reachable history c received ->
  let found := find_session id c in
  let captured := find_capture uuid c in
  let sessions := map ses_summary (wc_sessions found.1) in
  found.2 = Ok (list.last (filter (fun m => sum_id m = id) sessions)) /\
  captured.2 = Ok (if mncwf_uuid_is_zero uuid then None
                   else list.last (filter (captured_as uuid) (map ses_summary (wc_sessions captured.1)))) /\
  (forallb keeps_numbers history = true ->
   NoDup (map sum_id sessions) /\ Forall (fun m => 0 < sum_id m < wc_next_session_id found.1) sessions).
Proof.
  intros Hr. apply reachable_capture_inv in Hr. unfold find_session, find_capture, mbind, task_bind, task_change, task_read.
  apply collect_all_inv in Hr. set (c1 := collect_all c) in *. clearbody c1.
  destruct Hr as (_ & (Hnd & Hnum & _ & (Hi & Hci) & _) & _). cbn zeta.
  rewrite (summary_at_last number_key (fun m => sum_id m = id) id (wc_session_index c1 !! id) c1);
    [|intros s; unfold number_key, session_id; split; [by intros ->|by intros [= E]]|by apply Hi].
  cbn [fst snd]. split; [done|]. split.
  - destruct (mncwf_uuid_is_zero uuid); [done|]. cbn [fst snd].
    rewrite (summary_at_last identity_key (captured_as uuid) (mncwf_uuid_string uuid)
      (wc_capture_index c1 !! mncwf_uuid_string uuid) c1); [done| |by apply Hci].
    intros s. unfold captured_as, identity_key, session_uuid. destruct (mncwf_uuid_is_zero _);
      (split; [by intros [? E]; rewrite ?E|]); [done|by intros [= E]].
  - intros Hk. rewrite map_map. split; [by apply Hnd|]. apply Forall_map. by apply Hnum.
Qed.

Lemma session_lookup_exact_witness :
  exists m, (find_session 1 demo_triggered).2 = Ok (Some m) /\ sum_id m = 1 /\
    NoDup (map sum_id (map ses_summary (wc_sessions (find_session 1 demo_triggered).1))).
Proof.
  destruct (@session_lookup_exact run_zstd demo_history demo_triggered demo_received 1 (demo_uuid 7) demo_reachable)
    as (Ea & _ & Hm).
  assert (match (find_session 1 demo_triggered).2 with Ok found => option_map sum_id found | Throw _ => None end = Some 1) as E
    by (vm_compute; reflexivity).
  rewrite Ea in *. destruct (list.last _) as [m|]; [|discriminate E]. exists m. split; [reflexivity|]. injection E as E. split; [exact E|].
  apply Hm. vm_compute. reflexivity.
Defined.
