(* ===== verification/CaptureFile.v ===== *)
(** * Waveform capture: published files and the archive limit

    What the background writer of src/common/msap1/waveform/waveform_capture.cpp leaves
    in the archive: a published file holds, sample by sample, the boxcar mean of the
    frames the device delivered, and files are only removed oldest first, when they are
    valid captures, until the archive fits its limit. *)

From stdpp Require Import gmap sorting.
From S2P Require Import Prelude MncwfTypes MncwfFormat MncwfRecords MncwfReader MncwfEncode MncwfSlice MncwfTheorems CaptureTypes CaptureWriter MncwfFile CaptureStream CaptureDiscovery CaptureSessions CaptureRun CaptureSteps CaptureTheorems.

(** ** Specification *)

Definition bytes_of (candidates : list ArchiveCandidate) : Z := foldr (fun c total => cand_bytes c + total) 0 candidates.

(** The bytes of the regular files other than the temporary one. *)
Fixpoint archive_bytes (temporary : list Z) (directory : list DirectoryEntry) : Z :=
  match directory with
  | [] => 0
  | entry :: directory =>
      (if negb (entry_regular entry) || bool_decide (entry_name entry = temporary) then 0
       else default 0 (entry_size entry)) + archive_bytes temporary directory
  end.

Lemma destruct_last {A} (l : list A) : l = [] \/ exists init x, l = init ++ [x].
Proof. destruct l as [|x l] using rev_ind; [by left|right; by exists l, x]. Qed.

Section Retention.
Context `{ZstdLibrary}.

(** A capture of the archive that the full reader accepts. *)
Definition removable (temporary : list Z) (directory : list DirectoryEntry) (c : ArchiveCandidate) : Prop :=
  let entry := cand_entry c in
  entry ∈ directory /\ entry_regular entry = true /\ entry_name entry <> temporary /\
  is_capture_file (entry_name entry) = true /\ entry_size entry = Some (cand_bytes c) /\
  session_id_from_filename (entry_name entry) = Some (cand_session_id c) /\
  (exists reader, read_entry entry mode_metadata_only = Ok reader /\
     cand_created_utc_nanoseconds c = cap_created_utc_nanoseconds (capture_metadata_ reader)).

Definition valid_capture (c : ArchiveCandidate) : Prop := is_ok (read_entry (cand_entry c) mode_complete) = true.

(** ** Loops *)

Lemma bytes_of_cons c l : bytes_of (c :: l) = cand_bytes c + bytes_of l.
Proof. done. Qed.

Lemma bytes_of_app l k : bytes_of (l ++ k) = bytes_of l + bytes_of k.
Proof. unfold bytes_of. induction l as [|c l IH]; [done|]. cbn [app foldr]. rewrite IH. lia. Qed.

Lemma removable_more temporary entry directory c : removable temporary directory c -> removable temporary (entry :: directory) c.
Proof. intros [Hin Hr]. split; [by apply list_elem_of_further|done]. Qed.

Lemma measure_ok temporary directory : forall physical candidates physical' candidates',
  fold_result (measure_entry temporary) (physical, candidates) directory = Ok (physical', candidates') ->
  physical' = physical + archive_bytes temporary directory /\
  exists found, candidates' = candidates ++ found /\ Forall (removable temporary directory) found.
Proof.
  induction directory as [|entry directory IH]; intros physical candidates physical' candidates' Hf; cbn [fold_result] in Hf.
  { apply Ok_inj in Hf. injection Hf as <- <-. cbn. split; [lia|]. exists []. by rewrite app_nil_r. }
  apply bind_Ok in Hf as ([p1 c1] & Hm & Hf). apply IH in Hf as (-> & found & -> & Hall). cbn [archive_bytes].
  assert (exists found1, c1 = candidates ++ found1 /\ Forall (removable temporary (entry :: directory)) found1 /\
    p1 = physical + if negb (entry_regular entry) || bool_decide (entry_name entry = temporary) then 0
                    else default 0 (entry_size entry)) as (found1 & -> & Hall1 & ->).
  { unfold measure_entry in Hm. destruct (negb (entry_regular entry) || _) eqn:Eskip.
    - apply Ok_inj in Hm. injection Hm as <- <-. exists []. rewrite app_nil_r. split_and!; [done|constructor|lia].
    - apply orb_false_iff in Eskip as [Ereg Etmp]. apply negb_false_iff in Ereg. apply bool_decide_eq_false in Etmp.
      destruct (entry_size entry) as [size|] eqn:Esize; [|done]. apply bind_Ok in Hm as ([] & _ & Hm). cbn [default].
      destruct (negb (is_capture_file (entry_name entry))) eqn:Ecap.
      { apply Ok_inj in Hm. injection Hm as <- <-. exists []. rewrite app_nil_r. split_and!; [done|constructor|done]. }
      apply negb_false_iff in Ecap. destruct (session_id_from_filename (entry_name entry)) as [id|] eqn:Eid.
      2: { apply Ok_inj in Hm. injection Hm as <- <-. exists []. rewrite app_nil_r. split_and!; [done|constructor|done]. }
      destruct (read_entry entry mode_metadata_only) as [metadata|] eqn:Er; apply Ok_inj in Hm; injection Hm as <- <-.
      2: { exists []. rewrite app_nil_r. split_and!; [done|constructor|done]. }
      eexists [_]. split_and!; [done| |done]. constructor; [|done]. split_and!; cbn; try done; [apply list_elem_of_here|by exists metadata]. }
  split; [lia|]. exists (found1 ++ found). split; [by rewrite app_assoc|]. apply Forall_app. split; [done|].
  eapply Forall_impl; [|exact Hall]. intros c. apply removable_more.
Qed.

Lemma validate_ok required candidates : forall validated reclaimable,
  let '(validated', reclaimable', rest) := validate_candidates required validated reclaimable candidates in
  exists found, validated' = validated ++ found /\ found ++ rest `sublist_of` candidates /\ Forall valid_capture found /\
    reclaimable' = reclaimable + bytes_of found.
Proof.
  induction candidates as [|c candidates IH]; intros validated reclaimable; cbn [validate_candidates].
  { exists []. rewrite app_nil_r. cbn. split_and!; [done|done|constructor|lia]. }
  destruct (reclaimable <? required).
  2: { exists []. rewrite app_nil_r. cbn. split_and!; [done|done|constructor|lia]. }
  destruct (read_entry (cand_entry c) mode_complete) as [reader|] eqn:Er.
  - specialize (IH (validated ++ [c]) (reclaimable + cand_bytes c)).
    destruct (validate_candidates _ _ _ _) as [[v r] rest]. destruct IH as (found & -> & Hs & Hv & ->).
    exists (c :: found). split_and!; [by rewrite <- app_assoc|by apply (sublist_skip c)| |rewrite bytes_of_cons; lia]. constructor; [|done].
    unfold valid_capture. by rewrite Er.
  - specialize (IH validated reclaimable). destruct (validate_candidates _ _ _ _) as [[v r] rest].
    destruct IH as (found & -> & Hs & Hv & ->). exists found. split_and!; [done|by apply sublist_cons|done|done].
Qed.

(** Each removal happens while the archive is over the limit. *)
Definition needed (limit physical : Z) (removed : list ArchiveCandidate) : Prop :=
  forall before last, removed = before ++ [last] -> limit < physical - bytes_of before.

Lemma remove_ok env limit validate candidates : forall physical expired,
  let '(physical', expired') := remove_candidates env limit validate physical expired candidates in
  exists removed, expired' = expired ++ removed /\ removed `sublist_of` candidates /\ physical' = physical - bytes_of removed /\
    Forall (fun c => env_remove env (entry_name (cand_entry c)) = true /\ (validate = true -> valid_capture c)) removed /\
    needed limit physical removed.
Proof.
  assert (forall physical, needed limit physical []) as Hnil by (intros physical before last E; by destruct before).
  induction candidates as [|c candidates IH]; intros physical expired; cbn [remove_candidates].
  { exists []. rewrite app_nil_r. cbn. split_and!; [done|done|lia|constructor|apply Hnil]. }
  destruct (Z.leb_spec physical limit) as [Hle|Hgt].
  { exists []. rewrite app_nil_r. cbn. split_and!; [done|apply sublist_nil_l|lia|constructor|apply Hnil]. }
  assert (let '(physical', expired') := remove_candidates env limit validate physical expired candidates in
    exists removed, expired' = expired ++ removed /\ removed `sublist_of` c :: candidates /\ physical' = physical - bytes_of removed /\
    Forall (fun c => env_remove env (entry_name (cand_entry c)) = true /\ (validate = true -> valid_capture c)) removed /\
    needed limit physical removed) as Hskip.
  { specialize (IH physical expired). destruct (remove_candidates _ _ _ _ _ _) as [p e].
    destruct IH as (removed & -> & Hs & -> & Hv & Hn). exists removed. split_and!; [done|by apply sublist_cons|done|done|done]. }
  destruct (validate && negb _) eqn:Ev; [exact Hskip|].
  destruct (negb (env_remove env (entry_name (cand_entry c)))) eqn:Er; [exact Hskip|]. clear Hskip.
  specialize (IH (physical - cand_bytes c) (expired ++ [c])). destruct (remove_candidates _ _ _ _ _ _) as [p e].
  destruct IH as (removed & -> & Hs & -> & Hv & Hn). exists (c :: removed).
  split_and!; [by rewrite <- app_assoc|by apply sublist_skip|rewrite bytes_of_cons; lia| |].
  - constructor; [|done]. split; [by apply negb_false_iff|]. intros ->. apply negb_false_iff. exact Ev.
  - intros before last E. destruct before as [|b before]; [cbn; lia|]. injection E as <- E. specialize (Hn before last E). rewrite bytes_of_cons. lia.
Qed.

#[local] Instance archive_before_total : Total archive_before.
Proof. intros a b. unfold archive_before. lia. Qed.
#[local] Instance archive_before_trans : Transitive archive_before.
Proof. intros a b c. unfold archive_before. lia. Qed.

Lemma sublist_sorted l k : k `sublist_of` l -> StronglySorted archive_before l -> StronglySorted archive_before k.
Proof.
  induction 1 as [|x k l Hs IH|x k l Hs IH]; intros Hl; [constructor| |]; apply StronglySorted_inv in Hl as [Hl Hx]; [|by apply IH].
  constructor; [by apply IH|]. apply list.Forall_forall. intros y Hy. rewrite list.Forall_forall in Hx. apply Hx.
  by eapply elem_of_sublist.
Qed.

(** (C25) The archive limit.  Whatever the directory holds and whichever removals fail,
    the files [enforce_retention] removes are captures of the archive - named as such,
    not the file being written - that the full reader accepted, in the order of their
    creation, and each was removed while the archive was still over its limit.  When it
    succeeds, the bytes it reports are those of the new file and of every regular file
    less the removed ones, and they are within the limit. *)
Theorem archive_limit_enforced env limit temporary new_bytes removed outcome :
  enforce_retention env limit temporary new_bytes = (removed, outcome) ->
  let total := new_bytes + archive_bytes temporary (env_directory env) in
  StronglySorted archive_before removed /\ needed limit total removed /\
  Forall (fun c => removable temporary (env_directory env) c /\ valid_capture c /\
                   env_remove env (entry_name (cand_entry c)) = true) removed /\
  match outcome with
  | Ok stored => stored = total - bytes_of removed /\ stored <= limit
  | Throw e => exists what, e = RuntimeError what
  end.
Proof.
  intros Hr total. unfold enforce_retention in Hr.
  assert (needed limit total []) as Hnil by (intros before last E; by destruct before).
  destruct (fold_result _ _ _) as [[physical candidates]|e] eqn:Em.
  2: { injection Hr as <- <-. split_and!; [constructor|done|constructor|]. clear -Em. revert Em. generalize (new_bytes, @nil ArchiveCandidate).
    induction (env_directory env) as [|entry directory IH]; intros state Hm; [done|]. cbn [fold_result] in Hm.
    destruct (measure_entry temporary state entry) as [next|e'] eqn:E; [by eapply IH|]. cbn in Hm. injection Hm as ->.
    unfold measure_entry in E. destruct state as [p cs]. destruct (_ || _) in E; [done|].
    destruct (entry_size entry); [|injection E as <-; by eexists].
    unfold reject_if in E. destruct (_ <? _) in E; cbn in E; [injection E as <-; by eexists|].
    destruct (negb _) in E; [done|]. destruct (session_id_from_filename _); [|done]. by destruct (read_entry _ _). }
  apply measure_ok in Em as (-> & found & -> & Hall). cbn [app] in Hr. fold total in Hr.
  destruct (Z.leb_spec total limit) as [Hle|Hgt].
  { injection Hr as <- <-. cbn. split_and!; [constructor|done|constructor|lia|done]. }
  pose proof (merge_sort_Permutation archive_before found) as Hperm.
  assert (StronglySorted archive_before (merge_sort archive_before found)) as Hsorted by apply (StronglySorted_merge_sort archive_before).
  set (sorted := merge_sort archive_before found) in *. clearbody sorted.
  pose proof (validate_ok (total - limit) sorted [] 0) as Hv.
  destruct (validate_candidates _ _ _ _) as [[validated reclaimable] rest]. destruct Hv as (valid & -> & Hs & Hvalid & ->).
  cbn [app] in Hr. destruct (_ <? _) in Hr; [injection Hr as <- <-; split_and!; [constructor|done|constructor|by eexists]|].
  pose proof (remove_ok env limit false valid total []) as H1. destruct (remove_candidates _ _ _ _ _ _) as [p1 e1].
  destruct H1 as (r1 & -> & S1 & -> & F1 & N1). cbn [app] in Hr.
  pose proof (remove_ok env limit true rest (total - bytes_of r1) r1) as H2. destruct (remove_candidates _ _ _ _ _ _) as [p2 e2].
  destruct H2 as (r2 & -> & S2 & -> & F2 & N2).
  assert (removed = r1 ++ r2) as -> by (destruct (_ <? _) in Hr; by injection Hr as <- <-).
  assert (r1 ++ r2 `sublist_of` sorted) as Hsub by (etransitivity; [apply sublist_app; [exact S1|exact S2]|done]).
  split_and!.
  - by eapply sublist_sorted.
  - intros before last E. destruct (destruct_last r2) as [->|(init & l & ->)].
    + rewrite app_nil_r in E. by eapply N1.
    + rewrite app_assoc in E. apply app_inj_tail in E as [<- <-]. rewrite bytes_of_app. specialize (N2 init l eq_refl). lia.
  - apply list.Forall_forall. intros c Hc. split.
    + rewrite list.Forall_forall in Hall. apply Hall. rewrite <- Hperm. by eapply elem_of_sublist.
    + apply elem_of_app in Hc as [Hc|Hc].
      * rewrite list.Forall_forall in F1, Hvalid. split; [apply Hvalid; by eapply elem_of_sublist|by apply F1].
      * rewrite list.Forall_forall in F2. destruct (F2 c Hc) as [? Hcv]. split; [by apply Hcv|done].
  - rewrite bytes_of_app. destruct (Z.ltb_spec limit (total - bytes_of r1 - bytes_of r2)); injection Hr as <-; [by eexists|lia].
Qed.
End Retention.

(** An archive of one capture, session 3, and a disk that removes what it is asked to. *)
Definition demo_archive (content : list Z) : WriterEnvironment :=
  mkWriterEnvironment [mkDirectoryEntry (text "waveform-3-x.mncwf") true (Some (zlen content)) (Ok content) content None]
    (fun _ => true) true true (fun bytes => Ok bytes) (Ok tt).

Lemma archive_limit_enforced_witness :
  exists content removed, build_mncwf_v4 (demo_document [1; 2; 3; 4; 5; 6; 7; 255]) = Ok content /\
    @enforce_retention run_zstd (demo_archive content) 1000 [] 500 = (removed, Ok 500) /\
    map cand_session_id removed = [3] /\ bytes_of removed = archive_bytes [] (env_directory (demo_archive content)).
Proof.
  assert (((fun content => (map cand_session_id (@enforce_retention run_zstd (demo_archive content) 1000 [] 500).1,
            (@enforce_retention run_zstd (demo_archive content) 1000 [] 500).2)) <$>
          build_mncwf_v4 (demo_document [1; 2; 3; 4; 5; 6; 7; 255])) = Ok ([3], Ok 500)) as Es by (vm_compute; reflexivity).
  destruct (build_mncwf_v4 _) as [content|]; [|discriminate Es]. cbn in Es. apply Ok_inj in Es.
  destruct (@enforce_retention run_zstd (demo_archive content) 1000 [] 500) as [removed outcome] eqn:E. cbn in Es.
  injection Es as Eids ->.
  destruct (@archive_limit_enforced run_zstd (demo_archive content) 1000 [] 500 removed (Ok 500) E) as (_ & _ & _ & Hbytes & _).
  exists content, removed. split; [reflexivity|]. split; [exact E|]. split; [exact Eids|].
  generalize dependent (bytes_of removed). intros gone Hbytes. lia.
Defined.

(** ** Packed samples *)

Lemma packed_Forall {A B} (f : A -> result B) (P : B -> Prop) l : forall ys,
  mapM_result f l = Ok ys -> (forall x y, f x = Ok y -> P y) -> Forall P ys /\ length ys = length l.
Proof.
  induction l as [|a l IH]; intros ys H HP; cbn in H; [apply Ok_inj in H as <-; done|].
  apply bind_Ok in H as (y & Hy & H). apply bind_Ok in H as (rest & Hr & H). apply Ok_inj in H as <-.
  destruct (IH rest Hr HP) as [H1 H2]. split; [constructor; [by eapply HP|done]|cbn; by rewrite H2].
Qed.

(** Cell [i] of a concatenation of cells of one width. *)
Lemma concat_cell (w : nat) (cells : list (list Z)) : forall i cell,
  Forall (fun c => length c = w) cells -> cells !! i = Some cell -> take w (drop (i * w) (concat cells)) = cell.
Proof.
  induction cells as [|c cells IH]; intros i cell Hw Hi; [done|]. apply Forall_cons_iff in Hw as [Hc Hw]. cbn [concat].
  destruct i as [|i]; cbn in Hi.
  - injection Hi as <-. cbn. rewrite drop_0. by apply take_app_length'.
  - rewrite drop_app_ge by lia. replace (S i * w - length c)%nat with (i * w)%nat by lia. by apply IH.
Qed.

Lemma concat_length (w : nat) (cells : list (list Z)) :
  Forall (fun c => length c = w) cells -> length (concat cells) = (length cells * w)%nat.
Proof. induction 1 as [|c cells Hc _ IH]; [done|]. cbn. rewrite length_app. lia. Qed.

Lemma pack_frame_width channels frame packed :
  pack_frame channels frame = Ok packed -> length packed = (length channels * 4)%nat.
Proof.
  unfold pack_frame. destruct (mapM_result _ _) as [values|] eqn:E; [|done]. intros H. apply Ok_inj in H as <-.
  destruct (packed_Forall _ (fun v : list Z => length v = 4%nat) _ _ E) as [Hw Hl].
  - intros channel v Hv. unfold pack_value in Hv. apply bind_Ok in Hv as ([] & _ & Hv). apply Ok_inj in Hv as <-. apply le_bytes_length.
  - by rewrite (concat_length 4), Hl.
Qed.

(** The bytes of one channel of one stored frame. *)
Lemma pack_frames_sample channels frames samples i j frame channel :
  pack_frames channels frames = Ok samples -> frames !! i = Some frame -> channels !! j = Some channel ->
  slice samples (Z.of_nat ((i * length channels + j) * 4)) 4 =
    le_bytes 4 (u32 (frame_value frame (Z.to_nat (ch_source_channel channel)))).
Proof.
  intros H Hi Hj. unfold pack_frames in H. destruct (mapM_result _ _) as [packed|] eqn:E; [|done]. apply Ok_inj in H as <-.
  destruct (packed_Forall _ (fun p : list Z => length p = (length channels * 4)%nat) _ _ E) as [Hw _].
  { intros f p. apply pack_frame_width. }
  destruct (proj2 (mapM_result_lookup _ _ _ E) _ _ Hi) as (cell & Hcell & Ef). apply (concat_cell _ _ i cell Hw) in Hcell as Ecell.
  unfold pack_frame in Ef. destruct (mapM_result (pack_value frame) channels) as [values|] eqn:Ev; [|done]. apply Ok_inj in Ef as <-.
  destruct (packed_Forall _ (fun v : list Z => length v = 4%nat) _ _ Ev) as [Hw4 _].
  { intros c v Hv. unfold pack_value in Hv. apply bind_Ok in Hv as ([] & _ & Hv). apply Ok_inj in Hv as <-. apply le_bytes_length. }
  destruct (proj2 (mapM_result_lookup _ _ _ Ev) _ _ Hj) as (value & Hvalue & Epv). apply (concat_cell _ _ j value Hw4) in Hvalue as Evalue.
  unfold pack_value in Epv. apply bind_Ok in Epv as ([] & _ & Epv). apply Ok_inj in Epv as <-. rewrite <- Evalue at 1. rewrite <- Ecell.
  unfold slice. rewrite Nat2Z.id. change (Z.to_nat 4) with 4%nat. apply lookup_lt_Some in Hj.
  rewrite skipn_firstn_comm, take_take, drop_drop. f_equal; [lia|]. f_equal. lia.
Qed.

(** ** Decimation *)

Lemma decimate_lookup divisor turns : forall frames i,
  (0 < divisor)%nat -> (length frames <= turns)%nat -> (i * divisor < length frames)%nat ->
  decimate_loop turns divisor frames !! i = Some (mean_frame (take divisor (drop (i * divisor) frames))).
Proof.
  induction turns as [|turns IH]; intros frames i Hd Hl Hi; [lia|]. destruct frames as [|f frames]; [cbn in Hi; lia|].
  cbn [decimate_loop]. destruct i as [|i]; [done|].
  rewrite lookup_cons_ne_0 by done. cbn [pred].
  rewrite IH; [|done|rewrite length_drop; cbn in *; lia|rewrite length_drop; lia]. by rewrite drop_drop, Nat.mul_succ_l, Nat.add_comm.
Qed.

Lemma decimate_length divisor turns : forall frames,
  (0 < divisor)%nat -> (length frames <= turns)%nat ->
  forall i, (i < length (decimate_loop turns divisor frames))%nat <-> (i * divisor < length frames)%nat.
Proof.
  induction turns as [|turns IH]; intros frames Hd Hl i; [destruct frames; [cbn; lia|cbn in Hl; lia]|].
  destruct frames as [|f frames]; [cbn; lia|]. cbn [decimate_loop length]. destruct i as [|i]; [cbn; lia|].
  rewrite <- Nat.succ_lt_mono, IH by (try done; rewrite length_drop; cbn in *; lia). rewrite length_drop. cbn [length] in *. lia.
Qed.

(** The frames received from [first] on. *)
Definition stretch (received : gmap Z Frame) (first : Z) (count : nat) : list Frame :=
  omap (fun k => received !! (first + Z.of_nat k)) (seq 0 count).

Lemma faithful_group received job i divisor :
  job_faithful received job -> (0 < divisor)%nat -> (i * divisor < length (job_frames job))%nat ->
  let first := sum_first_sequence (job_summary job) in
  let count := Nat.min divisor (length (job_frames job) - i * divisor) in
  take divisor (drop (i * divisor) (job_frames job)) = stretch received (first + Z.of_nat (i * divisor)) count /\
  length (stretch received (first + Z.of_nat (i * divisor)) count) = count.
Proof.
  intros (El & _ & Hf) Hd Hi first count. unfold zlen in El. set (frames := job_frames job) in *.
  assert (forall k, (k < count)%nat -> exists frame, received !! (first + Z.of_nat (i * divisor) + Z.of_nat k) = Some frame /\
    frames !! (i * divisor + k)%nat = Some frame) as Hk.
  { intros k Hk. unfold count in Hk. destruct (Hf (first + Z.of_nat (i * divisor) + Z.of_nat k)) as (frame & E1 & E2); [unfold first in *; lia|].
    exists frame. split; [done|]. rewrite <- E2. f_equal. unfold first. lia. }
  assert (forall n base, (n + base <= count)%nat ->
    omap (fun k => received !! (first + Z.of_nat (i * divisor) + Z.of_nat k)) (seq base n) =
      take n (drop (i * divisor + base) frames)) as Hom.
  { induction n as [|n IH]; intros base Hb; [done|]. cbn [seq omap list_omap].
    destruct (Hk base) as (frame & E1 & E2); [lia|]. change (list_omap _ _) with (omap (M := list) (fun k => received !! (first + Z.of_nat (i * divisor) + Z.of_nat k)) (seq (S base) n)).
    rewrite E1, IH by lia. rewrite (drop_S _ frame (i * divisor + base)) by done. cbn. f_equal. f_equal. f_equal. lia. }
  unfold stretch. rewrite (Hom count 0%nat) by lia. rewrite Nat.add_0_r.
  split.
  - unfold count. destruct (Nat.le_ge_cases divisor (length frames - i * divisor)).
    + by rewrite Nat.min_l.
    + rewrite Nat.min_r by done. rewrite !take_ge; [done|rewrite length_drop; lia|rewrite length_drop; lia].
  - rewrite length_take, length_drop. lia.
Qed.

(** Sum of one channel over frames. *)
Definition channel_total (frames : list Frame) (channel : nat) : Z :=
  foldr Z.add 0 (map (fun frame => frame_value frame channel) frames).

Lemma foldl_total l : forall a, foldl Z.add a l = a + foldr Z.add 0 l.
Proof. induction l as [|x l IH]; intros a; cbn; [lia|]. rewrite IH. lia. Qed.

Lemma mean_value group channel :
  (channel < 8)%nat -> u32 (frame_value (mean_frame group) channel) = u32 (Z.quot (channel_total group channel) (zlen group)).
Proof.
  intros Hc. unfold frame_value, mean_frame. change (Z.to_nat waveform_channels) with 8%nat.
  set (g := fun c => s32 _). rewrite (nth_indep _ 0 (g 0%nat)) by (by rewrite length_map, length_seq).
  rewrite map_nth, seq_nth by done. unfold g. rewrite (wrap_sign 32) by done. unfold channel_total. by rewrite foldl_total, Z.add_0_l.
Qed.

(** ** Published files *)

Lemma write_published `{ZstdLibrary} env job outcome name bytes :
  job_retention_only job = false -> write env job = (outcome, Some (name, bytes)) ->
  exists document encoded reader, job_document job = Ok document /\ encode_mncwf_v5 document = Ok encoded /\
    env_readback env encoded = Ok bytes /\ make_reader bytes mode_complete = Ok reader /\
    hdr_version (header_ reader) = mncwf_v5_version /\ sample_data_ reader = doc_sample_data document /\
    name = job_filename job /\ res_success outcome = true /\ res_filename outcome = name /\
    res_session_id outcome = sum_id (job_summary job) /\ res_archive_stored_bytes outcome <= job_archive_limit_bytes job.
Proof.
  intros Hret Hw. unfold write in Hw. rewrite Hret in Hw. destruct (write_and_validate env job) as [written|] eqn:Ew; [|done].
  unfold write_and_validate in Ew. apply bind_Ok in Ew as ([] & _ & Ew). apply bind_Ok in Ew as (document & Ed & Ew).
  apply bind_Ok in Ew as (encoded & Ee & Ew). apply bind_Ok in Ew as ([] & _ & Ew). apply bind_Ok in Ew as (back & Eb & Ew).
  apply bind_Ok in Ew as (reader & Er & Ew). apply bind_Ok in Ew as ([] & G & Ew). apply Ok_inj in Ew as <-.
  apply reject_if_Ok, orb_false_iff in G as [G1 G2]. apply negb_false_iff, Z.eqb_eq in G1.
  apply negb_false_iff, bool_decide_eq_true in G2.
  destruct (enforce_retention env _ _ _) as [removed [stored|e]] eqn:Eret; [|done].
  destruct (env_rename env); [|done]. injection Hw as <- <- <-.
  exists document, encoded, reader. split_and!; try done. cbn.
  unfold enforce_retention in Eret. destruct (fold_result _ _ _) as [[physical candidates]|]; [|done].
  destruct (Z.leb_spec physical (job_archive_limit_bytes job)); [injection Eret as _ <-; done|].
  destruct (validate_candidates _ _ _ _) as [[validated reclaimable] rest]. destruct (_ <? _) in Eret; [done|].
  destruct (remove_candidates _ _ _ _ _ _) as [p1 e1]. destruct (remove_candidates _ _ _ _ _ _) as [p2 e2].
  destruct (Z.ltb_spec (job_archive_limit_bytes job) p2); [done|]. injection Eret as _ <-. done.
Qed.

(** (C17) Published files are exact.  When the writer publishes the file of a job that an
    operation queued, the reader accepts the file as version 5, and every sample of every
    channel in it is the mean, rounded toward zero, of that channel over the frames the
    device delivered for the sequences of its group: for decimation 1, the delivered
    counts themselves.  The archive is within its limit then. *)
Theorem published_capture_exact `{ZstdLibrary} history c received op job env outcome name bytes :
  reachable history c received -> op_ok op c -> job ∈ wc_jobs (run op c) -> (job ∉ wc_jobs c) -> job_retention_only job = false ->
  write env job = (outcome, Some (name, bytes)) ->
  let first := sum_first_sequence (job_summary job) in
  let window := Z.to_nat (sum_last_sequence (job_summary job) - first + 1) in
  let divisor := Z.to_nat (Z.max 1 (sum_decimation (job_summary job))) in
  let channels := ctx_channels (job_context job) in
  name = job_filename job /\ res_archive_stored_bytes outcome <= job_archive_limit_bytes job /\
  exists reader, make_reader bytes mode_complete = Ok reader /\ hdr_version (header_ reader) = mncwf_v5_version /\
    forall i j channel, (i * divisor < window)%nat -> channels !! j = Some channel ->
      let group := stretch (observe op c received) (first + Z.of_nat (i * divisor)) (Nat.min divisor (window - i * divisor)) in
      length group = Nat.min divisor (window - i * divisor) /\
      slice (sample_data_ reader) (Z.of_nat ((i * length channels + j) * 4)) 4 =
        le_bytes 4 (u32 (Z.quot (channel_total group (Z.to_nat (ch_source_channel channel))) (zlen group))).
Proof.
  intros Hr Ho Hj Hnew Hret Hw first window divisor channels.
  destruct (queued_job _ _ _ _ _ Hr Ho Hj) as [?|[?|Hf]]; [done|congruence|].
  destruct (write_published _ _ _ _ _ Hret Hw) as (document & encoded & reader & Ed & _ & _ & Er & Ev & Es & En & _ & _ & _ & Hlim).
  split; [done|]. split; [done|]. exists reader. split; [done|]. split; [done|]. intros i j channel Hi Hc group.
  assert (length (job_frames job) = window) as El by (destruct Hf as [El _]; unfold zlen, window, first in *; lia).
  assert (0 < divisor)%nat as Hd by (unfold divisor; lia).
  destruct (faithful_group _ _ i divisor Hf Hd ltac:(lia)) as [Eg Elg]. rewrite El in Eg, Elg. fold first group in Eg, Elg.
  split; [done|]. unfold job_document in Ed. apply bind_Ok in Ed as (samples & Ep & Ed). apply Ok_inj in Ed. subst document.
  rewrite Es. cbn [doc_sample_data].
  assert (decimate (sum_decimation (job_summary job)) (job_frames job) !! i = Some (mean_frame group)) as Ei.
  { unfold decimate. fold divisor. rewrite decimate_lookup by lia. by rewrite Eg. }
  etransitivity; [exact (pack_frames_sample _ _ _ _ _ _ _ Ep Ei Hc)|]. f_equal. apply mean_value.
  unfold pack_frames in Ep. destruct (mapM_result (pack_frame _) _) as [packed|] eqn:Em; [|done].
  destruct (proj2 (mapM_result_lookup _ _ _ Em) _ _ Ei) as (cell & _ & Ecell). unfold pack_frame in Ecell.
  destruct (mapM_result (pack_value _) _) as [values|] eqn:Evs; [|done].
  destruct (proj2 (mapM_result_lookup _ _ _ Evs) _ _ Hc) as (value & _ & Evalue). unfold pack_value in Evalue.
  apply bind_Ok in Evalue as ([] & G & _). apply reject_if_Ok, orb_false_iff in G as [G _]. apply Z.leb_gt in G.
  unfold waveform_channels in G. lia.
Qed.

Lemma published_capture_exact_witness :
  exists job outcome name bytes reader, wc_jobs (@run run_zstd demo_finish demo_triggered) = [job] /\
    @write run_zstd demo_environment job = (outcome, Some (name, bytes)) /\
    @make_reader run_zstd bytes mode_complete = Ok reader /\
    slice (sample_data_ reader) 0 4 = le_bytes 4 923.
Proof.
  assert (map (fun j => ((sum_first_sequence (job_summary j), sum_last_sequence (job_summary j), job_retention_only j),
            (sum_decimation (job_summary j), ctx_channels (job_context j)),
            is_ok (match (@write run_zstd demo_environment j).2 with Some _ => Ok tt | None => reject "" end)))
            (wc_jobs (@run run_zstd demo_finish demo_triggered)) = [((923, 1023, false), (1, [demo_channel]), true)] /\
          wc_jobs demo_triggered = [] /\
          stretch (@observe run_zstd demo_finish demo_triggered demo_received) 923 1 = [replicate 8 923])
    as (Ej & E0 & Es) by (split_and!; vm_compute; reflexivity).
  destruct (wc_jobs (@run run_zstd demo_finish demo_triggered)) as [|job [|other jobs]] eqn:E; [discriminate Ej| |discriminate Ej].
  assert (job ∈ wc_jobs (@run run_zstd demo_finish demo_triggered)) as Hin by (rewrite E; apply list_elem_of_here).
  assert (job ∉ wc_jobs demo_triggered) as Hnew by (rewrite E0; apply not_elem_of_nil).
  destruct (@write run_zstd demo_environment job) as [outcome [[name bytes]|]] eqn:Ew; cbn [map snd] in Ej;
    [|rewrite Ew in Ej; discriminate Ej].
  injection Ej as Ef El Eret Ed Ec _.
  destruct (@published_capture_exact run_zstd demo_history demo_triggered demo_received demo_finish job demo_environment outcome name bytes
              demo_reachable (Forall_nil _) Hin Hnew Eret Ew) as (_ & _ & reader & Er & _ & Hs).
  rewrite Ef, El, Ed, Ec in Hs. destruct (Hs 0%nat 0%nat demo_channel ltac:(cbn; lia) eq_refl) as [_ Hslice].
  exists job, outcome, name, bytes, reader. split; [reflexivity|]. split; [exact Ew|]. split; [exact Er|].
  etransitivity; [exact Hslice|]. change (stretch _ _ _) with (stretch (@observe run_zstd demo_finish demo_triggered demo_received) 923 1).
  rewrite Es. reflexivity.
Defined.
