(* ===== verification/CapturePages.v ===== *)
(** * Waveform capture: descending pages

    [waveform_session_page] (src/common/msap1/waveform/waveform_capture.cpp) serves the
    sessions in pages, newest first, with an exclusive cursor.  A client that follows
    the cursor sees every matching session exactly once and stops. *)

From stdpp Require Import sorting.
From S2P Require Import Prelude MncwfTypes MncwfFormat MncwfRecords MncwfReader MncwfEncode MncwfSlice CaptureTypes.

(** ** A client that follows the cursor *)

Fixpoint visit (turns : nat) (sessions : list WaveformSessionSummary) (limit : Z) (origin : WaveformOriginFilter)
    (before : Z) : option (list WaveformSessionSummary) :=
  match waveform_session_page sessions (mkSessionQuery before limit origin) with
  | Throw _ => None
  | Ok page =>
      if page_next_before_session_id page =? 0 then Some (page_sessions page)
      else
        match turns with
        | O => None
        | S turns => (fun rest => page_sessions page ++ rest)
                       <$> visit turns sessions limit origin (page_next_before_session_id page)
        end
  end.

(** ** Order *)

Lemma same_id sessions a b :
  NoDup (map sum_id sessions) -> a ∈ sessions -> b ∈ sessions -> sum_id a = sum_id b -> a = b.
Proof.
  intros Hnd Ha Hb E. apply list_elem_of_lookup in Ha as (i & Hi), Hb as (j & Hj).
  assert (i = j) as <-; [|congruence]. eapply (NoDup_lookup (map sum_id sessions)); [done| |].
  - apply list_lookup_fmap_Some. by exists a.
  - apply list_lookup_fmap_Some. exists b. split; [congruence|done].
Qed.

Lemma filter_sorted (p : WaveformSessionSummary -> bool) l :
  StronglySorted newest_first l -> StronglySorted newest_first (List.filter p l).
Proof.
  induction 1 as [|a l _ IH Ha]; [constructor|]. cbn. destruct (p a); [|done]. constructor; [done|].
  apply List.Forall_forall. intros b Hb. apply filter_In in Hb as [Hb _]. rewrite List.Forall_forall in Ha. by apply Ha.
Qed.

Lemma filter_permuted (p : WaveformSessionSummary -> bool) l k :
  Permutation l k -> Permutation (List.filter p l) (List.filter p k).
Proof.
  induction 1 as [|a l k _ IH|a b l|l k m _ IH1 _ IH2]; cbn; [done| | |by etransitivity].
  - destruct (p a); [by constructor|done].
  - destruct (p a), (p b); try done. constructor.
Qed.

(** Sorting commutes with selecting. *)
Lemma sort_filter (p : WaveformSessionSummary -> bool) l :
  NoDup (map sum_id l) -> merge_sort newest_first (List.filter p l) = List.filter p (merge_sort newest_first l).
Proof.
  intros Hnd. apply (StronglySorted_unique_strong newest_first).
  - intros a b Ha Hb Hab Hba. apply (same_id l); [done| | |unfold newest_first in *; lia].
    + rewrite merge_sort_Permutation in Ha. apply list_elem_of_In, filter_In in Ha as [Ha _]. by apply list_elem_of_In.
    + apply list_elem_of_In, filter_In in Hb as [Hb _]. apply list_elem_of_In in Hb. by rewrite merge_sort_Permutation in Hb.
  - apply (StronglySorted_merge_sort newest_first).
  - apply filter_sorted, (StronglySorted_merge_sort newest_first).
  - rewrite merge_sort_Permutation. apply filter_permuted. symmetry. apply merge_sort_Permutation.
Qed.

Lemma matching_nodup origin sessions :
  NoDup (map sum_id sessions) -> NoDup (map sum_id (List.filter (matches_origin origin) sessions)).
Proof.
  intros Hnd. apply (sublist_NoDup _ (map sum_id sessions)); [done|]. apply (fmap_sublist sum_id).
  clear. induction sessions as [|s l IH]; [constructor|]. cbn. destruct (matches_origin origin s); by constructor.
Qed.

Lemma filter_every {A} (p : A -> bool) l : (forall x, x ∈ l -> p x = true) -> List.filter p l = l.
Proof.
  induction l as [|x l IH]; intros H; [done|]. cbn. rewrite H by apply list_elem_of_here. f_equal. apply IH.
  intros y Hy. apply H. by apply list_elem_of_further.
Qed.

(** Past a cursor that is the last identity of the sessions seen, the rest is left. *)
Lemma after_cursor (seen rest : list WaveformSessionSummary) oldest :
  StronglySorted newest_first (seen ++ oldest :: rest) -> NoDup (map sum_id (seen ++ oldest :: rest)) ->
  List.filter (fun s => sum_id s <? sum_id oldest) (seen ++ oldest :: rest) = rest.
Proof.
  intros Hs Hnd.
  assert (forall s, s ∈ rest -> sum_id s < sum_id oldest) as Hrest.
  { rewrite map_app in Hnd. cbn in Hnd. apply list.NoDup_app in Hnd as (_ & _ & Hnd). pose proof (NoDup_cons_1_1 _ _ Hnd) as Hn.
    apply StronglySorted_app_1_r in Hs. apply StronglySorted_inv in Hs as [_ Ho]. rewrite list.Forall_forall in Ho.
    intros s Hin. specialize (Ho s Hin). unfold newest_first in Ho.
    assert (sum_id s <> sum_id oldest); [|lia]. intros E. apply Hn. rewrite <- E. apply list_elem_of_fmap. by exists s. }
  assert (forall s, s ∈ seen -> sum_id oldest <= sum_id s) as Hseen.
  { intros s Hin. eapply (StronglySorted_app_1_elem_of newest_first) in Hs; [exact Hs|done|by left]. }
  rewrite List.filter_app. cbn [List.filter]. rewrite Z.ltb_irrefl, filter_none, filter_every; [done| |].
  - intros s Hin. apply Z.ltb_lt. by apply Hrest.
  - intros s Hin. apply Z.ltb_ge. by apply Hseen.
Qed.

(** ** Pages *)

(** One request: the page is the head of what lies past the cursor. *)
Lemma page_past_cursor sessions limit origin before rest :
  1 <= limit <= waveform_max_page_sessions -> origin <> origin_unknown ->
  merge_sort newest_first (List.filter (fun s => (before =? 0) || (sum_id s <? before))
    (List.filter (matches_origin origin) sessions)) = rest ->
  exists page, waveform_session_page sessions (mkSessionQuery before limit origin) = Ok page /\
    page_sessions page = take (Z.to_nat limit) rest /\
    page_next_before_session_id page =
      if (Z.to_nat limit <? length rest)%nat
      then match rest !! (Z.to_nat limit - 1)%nat with Some oldest => sum_id oldest | None => 0 end else 0.
Proof.
  intros Hl Ho Hr. unfold waveform_session_page. cbn [query_limit query_origin query_before_session_id]. rewrite Hr.
  unfold waveform_max_page_sessions in *. replace ((limit =? 0) || (100 <? limit)) with false.
  2: { symmetry. apply orb_false_iff. split; [apply Z.eqb_neq; lia|apply Z.ltb_ge; lia]. }
  cbn [reject_if mbind result_bind]. replace (match origin with origin_unknown => true | _ => false end) with false by (by destruct origin).
  cbn [reject_if mbind result_bind]. eexists. split; [reflexivity|]. cbn [page_sessions page_next_before_session_id]. split.
  - destruct (Nat.le_ge_cases (Z.to_nat limit) (length rest)); [by rewrite Nat.min_l|]. rewrite Nat.min_r by done. rewrite !take_ge; [done|lia|lia].
  - destruct (Nat.ltb_spec (Z.to_nat limit) (length rest)) as [Hlt|Hge].
    + rewrite Nat.min_l by lia. rewrite lookup_take_lt by lia. rewrite (proj2 (Nat.ltb_lt _ _)) by lia. done.
    + rewrite Nat.min_r by lia. rewrite Nat.ltb_irrefl. by destruct (take _ rest !! _).
Qed.

(** Where the cursor stands after the sessions [seen]. *)
Definition cursor_after (seen : list WaveformSessionSummary) (before : Z) : Prop :=
  seen = [] /\ before = 0 \/ exists init oldest, seen = init ++ [oldest] /\ before = sum_id oldest.

Lemma past_cursor sessions origin seen rest before :
  let sorted := merge_sort newest_first (List.filter (matches_origin origin) sessions) in
  NoDup (map sum_id sessions) -> (forall s, s ∈ sorted -> 0 < sum_id s) -> sorted = seen ++ rest -> cursor_after seen before ->
  merge_sort newest_first (List.filter (fun s => (before =? 0) || (sum_id s <? before))
    (List.filter (matches_origin origin) sessions)) = rest.
Proof.
  intros sorted Hnd Hps Es Hb. apply (matching_nodup origin) in Hnd. rewrite sort_filter by done. fold sorted.
  assert (StronglySorted newest_first sorted) as Hs by apply (StronglySorted_merge_sort newest_first).
  assert (NoDup (map sum_id sorted)) as Hn.
  { unfold sorted. rewrite (Permutation_map sum_id (merge_sort_Permutation newest_first _)). exact Hnd. }
  clearbody sorted. subst sorted. destruct Hb as [[-> ->]|(init & oldest & -> & ->)]; [by apply filter_every|].
  rewrite <- app_assoc in *. cbn [app] in *.
  assert (0 < sum_id oldest) by (apply Hps, elem_of_app; right; apply list_elem_of_here).
  rewrite (proj2 (Z.eqb_neq (sum_id oldest) 0)) by lia. by apply after_cursor.
Qed.

Lemma visit_from turns : forall sessions limit origin seen rest before,
  1 <= limit <= waveform_max_page_sessions -> origin <> origin_unknown -> NoDup (map sum_id sessions) ->
  Forall (fun s => 0 < sum_id s) sessions ->
  merge_sort newest_first (List.filter (matches_origin origin) sessions) = seen ++ rest -> cursor_after seen before ->
  (length rest <= turns)%nat -> visit turns sessions limit origin before = Some rest.
Proof.
  induction turns as [|turns IH]; intros sessions limit origin seen rest before Hl Ho Hnd Hpos Es Hb Ht;
    (assert (forall s, s ∈ merge_sort newest_first (List.filter (matches_origin origin) sessions) -> 0 < sum_id s) as Hps
      by (intros s Hin; rewrite merge_sort_Permutation in Hin; apply list_elem_of_In, filter_In in Hin as [Hin _];
          rewrite List.Forall_forall in Hpos; by apply Hpos));
    pose proof (past_cursor sessions origin seen rest before Hnd Hps Es Hb) as Hr;
    destruct (page_past_cursor sessions limit origin before rest Hl Ho Hr) as (page & Ep & Epage & Enext).
  - destruct rest; [|cbn in Ht; lia]. cbn [visit]. rewrite Ep, Enext, Epage. cbn [length]. by destruct (Z.to_nat limit).
  - cbn [visit]. rewrite Ep, Enext, Epage. destruct (Nat.ltb_spec (Z.to_nat limit) (length rest)) as [Hlt|Hge].
    2: { rewrite Z.eqb_refl. by rewrite take_ge. }
    destruct (lookup_lt_is_Some_2 rest (Z.to_nat limit - 1)) as [oldest Eo]; [lia|]. rewrite Eo.
    assert (0 < sum_id oldest) as Hold by (apply Hps; rewrite Es; apply elem_of_app; right; by eapply list_elem_of_lookup_2).
    rewrite (proj2 (Z.eqb_neq _ _)) by lia.
    erewrite (IH sessions limit origin (seen ++ take (Z.to_nat limit) rest) (drop (Z.to_nat limit) rest)); try done.
    + cbn. by rewrite take_drop.
    + by rewrite <- app_assoc, take_drop.
    + right. exists (seen ++ take (Z.to_nat limit - 1) rest), oldest. split; [|done].
      rewrite <- app_assoc. f_equal. replace (Z.to_nat limit) with (S (Z.to_nat limit - 1)) at 1 by lia. by apply take_S_r.
    + rewrite length_drop. lia.
Qed.

(** (C26) Pages end and cover.  For sessions with distinct positive numbers, a client that
    asks for the newest page and then follows [next_before_session_id] stops after at
    most as many further requests as there are sessions, and the pages it received are,
    one after another, every session of the origin it asked for, newest first, each
    exactly once; a limit outside 1 to 100 or an unknown origin is refused. *)
Theorem session_pages_complete sessions limit origin :
  NoDup (map sum_id sessions) -> Forall (fun s => 0 < sum_id s) sessions ->
  (1 <= limit <= waveform_max_page_sessions -> origin <> origin_unknown ->
   exists visited, visit (length sessions) sessions limit origin 0 = Some visited /\
     Permutation visited (List.filter (matches_origin origin) sessions) /\ StronglySorted newest_first visited) /\
  (0 <= limit -> ~ (1 <= limit <= waveform_max_page_sessions) \/ origin = origin_unknown ->
   exists what, waveform_session_page sessions (mkSessionQuery 0 limit origin) = Throw (InvalidArgument what)).
Proof.
  intros Hnd Hpos. split.
  - intros Hl Ho. set (sorted := merge_sort newest_first (List.filter (matches_origin origin) sessions)).
    exists sorted. split_and!; [|apply merge_sort_Permutation|apply (StronglySorted_merge_sort newest_first)].
    apply (visit_from (length sessions) sessions limit origin []); try done; [by left|].
    unfold sorted. rewrite merge_sort_Permutation. apply List.filter_length_le.
  - intros H0 [Hl| ->]; unfold waveform_session_page, waveform_max_page_sessions in *; cbn [query_limit query_origin].
    + replace ((limit =? 0) || (100 <? limit)) with true; [by eexists|]. symmetry. apply orb_true_iff.
      destruct (Z.eqb_spec limit 0); [by left|right]. apply Z.ltb_lt. lia.
    + destruct (_ || _); by eexists.
Qed.

(** Three sessions in pages of two. *)
Definition demo_session (id mask : Z) : WaveformSessionSummary :=
  mkSummary id 0 0 0 0 0 0 0 mask 0 id state_complete 1 5 compression_none 0 0 false no_name zero_uuid.

Lemma session_pages_complete_witness :
  let sessions := [demo_session 4 2; demo_session 9 8; demo_session 7 4] in
  exists visited, visit 3 sessions 2 origin_all 0 = Some visited /\ Permutation visited sessions /\
    map sum_id visited = [9; 7; 4].
Proof.
  intros sessions.
  assert (NoDup (map sum_id sessions)) as Hnd by (apply (bool_decide_unpack _); vm_compute; exact I).
  assert (Forall (fun s => 0 < sum_id s) sessions) as Hpos by (repeat constructor).
  destruct (session_pages_complete sessions 2 origin_all Hnd Hpos) as [Hv _].
  destruct Hv as (visited & Ev & Hp & _); [unfold waveform_max_page_sessions; lia|discriminate|].
  exists visited. split; [exact Ev|]. split; [exact Hp|].
  assert (map sum_id <$> visit 3 sessions 2 origin_all 0 = Some [9; 7; 4]) as E by (vm_compute; reflexivity).
  change (visit (length sessions) sessions 2 origin_all 0) with (visit 3 sessions 2 origin_all 0) in Ev. rewrite Ev in E.
  injection E as E. exact E.
Defined.
